(* ===== verification/_CoqProject ===== *)
-Q . S2P
Prelude.v
HttpRetry.v
Json.v
JsonText.v
Net.v
Models.v
Options.v
Validate.v
Migrate.v
Credentials.v
Config.v
Instances.v
Database.v
Answers.v
Queue.v
Quota.v
Provider.v
Registry.v
ReviewDb.v
Behavior.v
PiHole.v
Policy.v
Dispatch.v
Classify.v
Worker.v
Decisions.v
Trigger.v
ListAudit.v
Updater.v
Evidence.v
Profiles.v
Graph.v
Sources.v
Research.v
SourceTest.v
Conflicts.v
Scanner.v
Connection.v
Api.v
Service.v
