(* ===== verification/Prelude.v ===== *)
(** * Verification of Wormhole Observatory

    Wormhole Observatory ([src/pihole_manager/]) watches the DNS queries of a
    Pi-hole, lets language models classify the domains it sees, and turns the
    classifications, under a policy, into allow and deny entries or into reviews
    for a person.  This development models the core of that program in Rocq and
    proves what makes it correct.

    ** The program and its model

    Definitions bear the names of the functions they translate.

    - Domains come from the scanner ([Scanner] in [workers.py], [Scanner.v]), which
      reads Pi-hole's query log; from the audit of block lists ([list_audit.py],
      [list_rule_parser.py], [list_audit_config.py], [list_audit_worker.py]:
      [ListAudit.v]); and over HTTP ([external_trigger.py], [webapp.py],
      [network_access.py]: [Trigger.v]).  They go into the queue table of
      [database_core.py]: [Database.v] has the tables and [_ensure_domain],
      [Queue.v] every queue operation and the query observations.
    - Two worker threads ([Classifier] in [workers.py]) claim domains, skip the
      locked ones, build dossiers and hand them to the dispatcher.  [Worker.v]
      has a round of that thread, [classifier_cycle], and the whole thread,
      [classifier_run].
    - A dossier holds the evidence on a domain.  [research.py] asks the enabled
      sources ([Research.v]; [SourceTest.v] tests one of them) over what they
      share, [research_common.py] ([Sources.v]); the findings are scored, aged, cited and licensed
      ([evidence_quality.py], [evidence_freshness.py], [evidence_citations.py],
      [evidence_licensing.py]: [Evidence.v]); [service_graph.py] relates them
      ([Graph.v]).
    - The dispatcher ([analysis_dispatcher.py]) picks the providers of a pool,
      cuts batches that fit their context windows, and runs the pool modes
      distribute, fallback, compare and verify.  [Dispatch.v] has all of it,
      with the provider health and the analysis runs of [database_analysis.py].
    - A batch is asked over HTTP: [Classify.v] has the prompts and the output
      modes of [llm.py], [Answers.v] its parsing and checking of answers,
      [Provider.v] the requests with retries and rate slots
      ([provider_api.py]).  Every request reserves quota first ([quota.py],
      [Quota.v]); the wait after a refusal comes from the response headers
      ([http_retry.py], [HttpRetry.v]); the limits come from a signed registry
      ([provider_registry.py], [Registry.v]).
    - A classification passes two guards ([behavior_change.py] and
      [compatibility_profiles.py], [Behavior.v]; the file of profiles is read in
      [Profiles.v]) and the policy of [workers.py] ([Policy.v]:
      [resolve_automatic_decision], [_handle_classification]).
    - It is saved as a review and a row of the history ([database_review.py]),
      beside locks and review tasks ([database_features.py]): [ReviewDb.v].
    - Changes reach Pi-hole through [pihole_service.py], [pihole_rules.py] and
      [application/managed_rules.py], and are journalled and can be rolled back
      ([pihole_audit.py]): [PiHole.v].
    - The client of the Pi-hole API ([src/pihole6api/]): the connection with its
      session and health ([connection.py], [health.py], [errors.py]:
      [Connection.v]) and the calls of the API ([Api.v]).  [Service.v] has the
      shared client of [pihole_service.py], the test of a connection and what
      the answers are turned into.  [PiHole.v] and [Scanner.v] see them through
      the interface [PiHole.PiHoleServer] and as fetched pages.
    - A person decides a review ([application/review_decisions.py] over its ports,
      [review_preferences.py]): [Decisions.v].  [Conflicts.v] has the report of
      contradicting rules, groups and locks ([rule_conflicts.py]).
    - The configuration ([config.py]): its classes and defaults ([Options.v]),
      coercion and checks ([Validate.v]), the migration of older files
      ([Migrate.v]), loading and saving ([Config.v]) over the key store of the
      system ([credentials.py], [Credentials.v]), and the registry of Pi-hole
      installations ([pihole_instances.py], [Instances.v]).
    - The updater ([updater.py]): [Updater.v].
    - [Models.v] has the enumerations and records they exchange ([models.py] and
      the option records of [config.py] and [provider_registry.py]).  [Json.v],
      [JsonText.v] and [Net.v] are the pieces of the Python library they use:
      [json.loads] and [json.dumps], [int], [float], [ipaddress], [urllib.parse].

    ** How the code is translated

    A table with a primary key is a [gmap], one with an increasing id a list.
    A block [with _connection()] is a transaction [tx] (state and error, rolled
    back when it raises), a function that runs several blocks is a program
    [prog] whose committed blocks stay; both are defined in this file.  A
    call of [time.time()] is an argument or the clock of the environment.
    Integers are [Z] (Python's are unbounded); a float is an exact rational, an
    infinity or not a number ([Json.py_float]; a text beyond the range of floats
    is infinite, [float_limit]), so rounding is left out.  [int] of a text is not
    bounded to 4300 digits.  Strings are byte strings in UTF-8 (a lone surrogate
    keeps the bytes it would have); [strip], [lower] and [casefold] act on
    ASCII.  Addresses behave as in Python 3.11.  Paths are POSIX paths without
    symbolic links.  JSON columns and files hold either their text or, where
    [JsonText] shows that nothing else matters, the value.

    Code outside the program is a parameter: a type class with the operations
    the code calls, and where a theorem needs it a class of laws, with
    instances that satisfy them.  The classes are [Conflicts.RegexEngine],
    [Credentials.Keyring], [PiHole.PiHoleServer] (laws: what was written is read
    back), [Dispatch.ProviderCalls] (law: an accepted answer classifies each
    requested domain once; [Classify] proves it of the HTTP calls),
    [Provider.Network], [Registry.Crypto] and [Registry.RegistryEnv],
    [ListAudit.ListSource], [Connection.HttpSession] (the requests to Pi-hole under
    the retry policy, clocks and files), [Research.Sources] (the handlers of the single
    sources, and the threads that run them), [Sources.SourceNet], and
    [Trigger.Sockets].  Further parameters are arguments: SHA-256, the [repr] of
    floats and containers, the IDNA codec for names that are not ASCII, the
    directory of a ZIP file, what [str.format] does with conversions.  A thread
    pool runs its jobs in the order of submission, and the outcomes come in any
    order (the parameters [completion]).  Requests to one provider or one
    source, and lookups, run one at a time, so the locks around their rate
    states are left out; so are the wake-up of waiting threads and the response
    headers of [Trigger].  The facade [database.py] adds stored citations to a
    classification before it is saved; [Evidence] models that step, [Policy] and
    [Worker] save without it, as when no finding is stored.

    ** What the theorems show

    - Work is neither lost nor done twice: [Queue] (the queue invariant, exclusive
      claims, accounting, bounded retries, deferral, readiness, exact counts of
      observations), [Scanner] (over failures and restarts no row of the query log
      is recorded twice; a query for the root name is the exception), [Worker] (a
      round releases every claim, a domain leaves the queue only locked or
      classified, a run leaves nothing in processing), [ListAudit] (a cycle
      settles every list and every domain in it).
    - Providers: [Dispatch] (executing on a provider partitions the domains,
      distribute and fallback account for every domain, verify trusts nothing
      unverified, a dispatch closes its run, a healthy pool classifies
      everything), [Classify] (the dispatcher over HTTP keeps these promises; no
      reservation stays open), [Answers] (answers are well typed; the validator
      is the JSON schema), [Provider] (a request ends), [Quota] (every limit is
      respected, the realtime reserve is left alone, waiting until the announced
      time is enough, reservations close once), [Registry] (only signed
      registries are used; versions do not go back).
    - Evidence: [Research] (retries are bounded, only wanted sources are asked,
      one failing source spoils nothing, the prompt keeps what matters most),
      [Sources] (keys are hidden, downloads are cached faithfully, requests keep
      their distance), [SourceTest] (a test always ends with a result and changes
      nothing), [Evidence]
      (contradictions are exact, what is served is alive, saving replaces,
      descriptions are cited once), [Graph] (graphs are well formed and say
      exactly what the program knows), [Profiles] (what is read is well formed
      and everything well formed is read).
    - Safety of changes: [Policy] (an automatic action is decided exactly when
      every condition holds, Pi-hole changes only when every guard agrees, what
      was handled is recorded), [Behavior] (guards are idempotent and ask for a
      review where they must) and [PiHole] (protected domains are refused,
      rollback restores the previous state or changes nothing; an addition over a
      resource that was there has none).
    - The Pi-hole client: [Connection] (what is sent is what was asked, under a
      session or after a login, and again, after a new login, only after a 401;
      the health is what the exchanges amount to; a normal
      address is its own normal form; a closed connection is silent), [Api] (a
      name is one segment of a path, no two resources share an address) and
      [Service] (the shared client follows the settings; a successful test means
      that the version was answered).
    - Decisions of a person: [Decisions] (an accepted allow or deny is in force
      afterwards and its opposite is not, every accepted decision settles the
      domain, a rejected one changes nothing); [Trigger] (the same over HTTP, and
      an untrusted request has no effect).
    - The conflict report, when no regex rule stops it, is sound and complete:
      [Conflicts].
    - The database: [ReviewDb] (the invariant over every operation in any order,
      locked domains are never handed out, append-only history, what saving,
      resolving and tagging do).
    - The configuration: [Config] (saving and loading gives back the options;
      what a file can make loading raise), [Migrate] (migration is idempotent),
      [Credentials] (no secret is lost), [Instances] (the registry survives a
      restart with its passwords outside the file; what is loaded can be used).
    - Updates: [Updater] (the POSIX script installs all or nothing, and keeps
      the old application complete whatever fails, unless a stale backup cannot
      be removed; the
      PowerShell script does not keep that; a prepared update stays in its
      directories and is for this machine and of the selected version).

    ** Conditions on names

    [_normalize_domain] strips blanks before it strips dots, so normalising is not
    idempotent: 'b.example. .' becomes 'b.example. ', which the next function that
    normalises takes for 'b.example' ([Dispatch.a_normalised_name_may_change_again]).
    The theorems on the dispatcher, the worker, the answers, the decisions and the
    endpoint are about names that are their own normal form ([Dispatch.frozen],
    [Worker.stable_queue], [Queue.stable_name]), and those on the scanner about
    [Scanner.clean_name]s.  The normal form of a name is its own normal form
    whenever it holds no blank ([Database.normalize_domain_fixed]), in particular
    for every name without blanks ([Database.normalize_no_space]); for other names
    a domain may be left out, stay claimed or stay queued.

    [Queue.enqueue_refines_pointwise] states the enqueue loop as a pointwise
    update; [Classify.dispatch_over_http_is_sound] composes the dispatcher with the
    HTTP calls that implement its interface, and [Trigger.decisions_over_http] the
    endpoint with the decision service; [Conflicts.contradiction] and
    [Graph.evidence_edge] are abstract specifications of the two reports;
    [queue_reachable] and [db_reachable] are the reachability relations the
    invariants are proved over.

    ** Fuel

    Loops that are not structural take fuel, and a theorem shows that it is
    enough.  [Json.json_fuel] (twice the length and two) lets the reader end on
    every text.  [chunks_fuel] in [Queue] and [duration_matches] in [HttpRetry]
    run for the length of their list or text; [cut_batches] in [Dispatch] takes at
    least one domain per round and runs for the number of domains
    ([cut_batches_spec]); [execute_batches] asks for a batch of [n] domains at
    most [2 n - 1] times and runs for [2 n + 1] rounds ([execute_batches_fuel]);
    [Migrate.free_candidate] finds a free identifier after as many rounds as
    there are used ones and one.  The waits for a rate slot ([Provider], [Sources])
    take two rounds when a sleep lasts as long as asked
    ([Sources.sources_are_paced]), and the wait for quota one round per tick until
    its deadline ([Provider.fuel_enough], [Provider.request_terminates]).

    ** Not modelled

    The user interface ([gui/]), start-up, logging, notifications and the release
    tooling are input and output.  The handlers of the single evidence sources
    ([research_lookups.py], [research_reputation.py], [research_catalogs.py],
    [research_urlhaus.py], [local_discovery.py]) translate the answers of outside
    services: they are parameters.  The schema of the database is taken
    as it is after its migrations ([database_migrations.py]).  Tables of presets
    ([provider_presets.py]), the catalogue of public lists, the browser queries of
    the domain list, the benchmarks of providers and the golden dataset are reports
    or data for the user interface.  The installer scripts are modelled by what
    they do to the files, with removals, moves and copies that the system may
    refuse, and by how they quote paths; processes and the rest of their text are
    left out. *)

(** The rest of this file is the prelude: monads, a small program logic, and the
    Python functions on text, collections and numbers the components share. *)
From stdpp Require Import base gmap strings list sorting.
From Stdlib Require Import Ascii QArith Qround Lqa ZArith Permutation Sorted.

Open Scope Z_scope.

Create HintDb wormhole.
Create HintDb wormhole_norm.

(** * Results, transactions and programs

    A Python function that may raise returns a [result]; a database
    transaction ([with _connection() as connection]) is a [tx]: when its body
    raises, the changes it made are rolled back.  A [prog] runs transactions
    one after the other: what was committed before a later failure stays. *)

Inductive result (E A : Type) : Type :=
  | Ok (a : A)
  | Err (e : E).
Arguments Ok {E A} a.
Arguments Err {E A} e.

Definition tx (S E A : Type) : Type := S → result E (A * S).
Definition prog (S E A : Type) : Type := S → result E A * S.

#[export] Instance result_ret E : MRet (result E) := λ A a, Ok a.
#[export] Instance result_bind E : MBind (result E) :=
  λ A B f m, match m with Ok a => f a | Err e => Err e end.

#[export] Instance tx_ret S E : MRet (tx S E) := λ A a s, Ok (a, s).
#[export] Instance tx_bind S E : MBind (tx S E) :=
  λ A B f m s, match m s with Ok (a, s') => f a s' | Err e => Err e end.

#[export] Instance prog_ret S E : MRet (prog S E) := λ A a s, (Ok a, s).
#[export] Instance prog_bind S E : MBind (prog S E) :=
  λ A B f m s, match m s with (Ok a, s') => f a s' | (Err e, s') => (Err e, s') end.

Definition tx_raise {S E A} (e : E) : tx S E A := λ s, Err e.
Definition tx_read {S E A} (f : S → A) : tx S E A := λ s, Ok (f s, s).
Definition tx_write {S E} (f : S → S) : tx S E unit := λ s, Ok (tt, f s).
Definition tx_lift {S E A} (r : result E A) : tx S E A :=
  λ s, match r with Ok a => Ok (a, s) | Err e => Err e end.

Definition commit {S E A} (m : tx S E A) : prog S E A :=
  λ s, match m s with Ok (a, s') => (Ok a, s') | Err e => (Err e, s) end.
Definition prog_raise {S E A} (e : E) : prog S E A := λ s, (Err e, s).
Definition prog_read {S E A} (f : S → A) : prog S E A := λ s, (Ok (f s), s).

Lemma commit_err {S E A} (m : tx S E A) s e :
  m s = Err e → commit m s = (Err e, s).
Proof. unfold commit. by intros ->. Qed.

Lemma commit_ok {S E A} (m : tx S E A) s a s' :
  m s = Ok (a, s') → commit m s = (Ok a, s').
Proof. unfold commit. by intros ->. Qed.

(** A loop whose body is a transaction step threading an accumulator. *)
Fixpoint tx_fold {S E A B} (f : B → A → tx S E B) (b : B) (l : list A) : tx S E B :=
  match l with
  | [] => mret b
  | x :: l => b' ← f b x; tx_fold f b' l
  end.

Fixpoint prog_fold {S E A B} (f : B → A → prog S E B) (b : B) (l : list A) : prog S E B :=
  match l with
  | [] => mret b
  | x :: l => b' ← f b x; prog_fold f b' l
  end.

(** An invariant of the accumulator and of the state survives the loop when
    every iteration keeps it. *)
Lemma tx_fold_ind {S E A B} (I : B → S → Prop) (f : B → A → tx S E B) l b s b' s' :
  (∀ x b s b' s', x ∈ l → I b s → f b x s = Ok (b', s') → I b' s') →
  I b s → tx_fold f b l s = Ok (b', s') → I b' s'.
Proof.
  revert b s. induction l as [|x l IH]; intros b s Hstep HI; simpl.
  - by intros [= -> ->].
  - unfold mbind, tx_bind. destruct (f b x s) as [[b1 s1]|e] eqn:Hf; [|done].
    apply IH.
    + intros y ? ? ? ? Hy. apply Hstep. by right.
    + eapply Hstep; [by left|done|done].
Qed.

(** * Python text

    A [str] is a [string] of ASCII characters.  The operations below are the
    ones the code uses, on that range. *)

Definition is_space (c : Ascii.ascii) : bool :=
  let n := Ascii.N_of_ascii c in
  ((9 <=? n) && (n <=? 13) || (28 <=? n) && (n <=? 32))%N.

Definition is_dot (c : Ascii.ascii) : bool := Ascii.eqb c "."%char.

Definition lower_char (c : Ascii.ascii) : Ascii.ascii :=
  let n := Ascii.N_of_ascii c in
  if ((65 <=? n) && (n <=? 90))%N then Ascii.ascii_of_N (n + 32) else c.

Fixpoint str_map (f : Ascii.ascii → Ascii.ascii) (s : string) : string :=
  match s with
  | EmptyString => EmptyString
  | String c s => String (f c) (str_map f s)
  end.

Fixpoint str_forallb (p : Ascii.ascii → bool) (s : string) : bool :=
  match s with
  | EmptyString => true
  | String c s => p c && str_forallb p s
  end.

(** [s.lstrip(chars)] and [s.rstrip(chars)], with the set as a predicate. *)
Fixpoint lstrip (p : Ascii.ascii → bool) (s : string) : string :=
  match s with
  | EmptyString => EmptyString
  | String c s' => if p c then lstrip p s' else s
  end.

Fixpoint rstrip (p : Ascii.ascii → bool) (s : string) : string :=
  match s with
  | EmptyString => EmptyString
  | String c s' =>
      match rstrip p s' with
      | EmptyString => if p c then EmptyString else String c EmptyString
      | r => String c r
      end
  end.

Definition str_strip (s : string) : string := rstrip is_space (lstrip is_space s).
Definition str_lower (s : string) : string := str_map lower_char s.
(** On ASCII text [str.casefold] is [str.lower]. *)
Definition str_casefold (s : string) : string := str_lower s.

Definition str_nonempty (s : string) : bool :=
  match s with EmptyString => false | _ => true end.

Definition str_startswith (s prefix : string) : bool := String.prefix prefix s.

(** [needle in text] *)
Fixpoint str_contains (needle text : string) : bool :=
  str_startswith text needle ||
  match text with
  | EmptyString => false
  | String _ rest => str_contains needle rest
  end.

Fixpoint str_rev_app (s acc : string) : string :=
  match s with
  | EmptyString => acc
  | String c s => str_rev_app s (String c acc)
  end.
Definition str_rev (s : string) : string := str_rev_app s EmptyString.

Definition str_endswith (s suffix : string) : bool :=
  String.prefix (str_rev suffix) (str_rev s).

(** [s.replace(a, b)] for single characters. *)
Definition str_replace (a b : Ascii.ascii) (s : string) : string :=
  str_map (λ c, if Ascii.eqb c a then b else c) s.

(** [s.split(c)] for a single-character separator. *)
Fixpoint str_split (sep : Ascii.ascii) (s : string) : list string :=
  match s with
  | EmptyString => [EmptyString]
  | String c s =>
      if Ascii.eqb c sep then EmptyString :: str_split sep s
      else match str_split sep s with
           | [] => [String c EmptyString]
           | w :: ws => String c w :: ws
           end
  end.

(** [s.split()] *)
Fixpoint str_words_from (acc : string) (s : string) : list string :=
  match s with
  | EmptyString => if str_nonempty acc then [acc] else []
  | String c s' =>
      if is_space c
      then if str_nonempty acc then acc :: str_words_from EmptyString s' else str_words_from EmptyString s'
      else str_words_from (acc +:+ String c EmptyString)%string s'
  end.
Definition str_words (s : string) : list string := str_words_from EmptyString s.

(** [sep.join(parts)] *)
Fixpoint str_join (sep : string) (parts : list string) : string :=
  match parts with
  | [] => EmptyString
  | [w] => w
  | w :: ws => (w +:+ sep +:+ str_join sep ws)%string
  end.

(** [s[:n]] *)
Fixpoint str_take (n : nat) (s : string) : string :=
  match n, s with
  | O, _ => EmptyString
  | S n, EmptyString => EmptyString
  | S n, String c s => String c (str_take n s)
  end.

Lemma app_assoc_str (a b c : string) : ((a +:+ b) +:+ c)%string = (a +:+ b +:+ c)%string.
Proof. induction a as [|x a IH]; [done|]. exact (f_equal (String x) IH). Qed.
Lemma app_nil_str (a : string) : (a +:+ "")%string = a.
Proof. induction a as [|x a IH]; [done|]. exact (f_equal (String x) IH). Qed.

(** [x or y] on strings *)
Definition str_or (x y : string) : string := if str_nonempty x then x else y.

Lemma str_or_nonempty a b : b ≠ ""%string → str_or a b ≠ ""%string.
Proof. unfold str_or. by destruct a. Qed.

Definition str_leb (a b : string) : bool := String.leb a b.
Definition str_ltb (a b : string) : bool := String.ltb a b.

Lemma lstrip_idemp p s : lstrip p (lstrip p s) = lstrip p s.
Proof.
  induction s as [|c s IH]; simpl; [done|].
  destruct (p c) eqn:Hc; [done|]. simpl. by rewrite Hc.
Qed.

Lemma rstrip_idemp p s : rstrip p (rstrip p s) = rstrip p s.
Proof.
  induction s as [|c s IH]; simpl; [done|].
  destruct (rstrip p s) as [|d t] eqn:Hs.
  - destruct (p c) eqn:Hc; simpl; [done|]. by rewrite Hc.
  - remember (String d t) as u eqn:Hu. simpl. rewrite IH. by rewrite Hu.
Qed.

(** The characters that survive a [strip] are characters of the text. *)
Lemma str_strip_idemp s : str_strip (str_strip s) = str_strip s.
Proof.
  unfold str_strip. enough (lstrip is_space (rstrip is_space (lstrip is_space s)) = rstrip is_space (lstrip is_space s)) as E
    by (by rewrite E, rstrip_idemp).
  induction s as [|c s IH]; [done|]. cbn [lstrip]. destruct (is_space c) eqn:E; [done|].
  cbn [rstrip]. destruct (rstrip is_space s); rewrite ?E; cbn [lstrip]; by rewrite E.
Qed.

Lemma lstrip_forallb p q s : str_forallb q s = true → str_forallb q (lstrip p s) = true.
Proof.
  induction s as [|c s IH]; simpl; [done|]. intros [Hc Hs]%andb_true_iff.
  destruct (p c); [by apply IH|]. simpl. by rewrite Hc.
Qed.

Lemma rstrip_forallb p q s : str_forallb q s = true → str_forallb q (rstrip p s) = true.
Proof.
  induction s as [|c s IH]; simpl; [done|]. intros [Hc Hs]%andb_true_iff.
  specialize (IH Hs). destruct (rstrip p s) as [|d t].
  - destruct (p c); simpl; [done|]. by rewrite Hc.
  - remember (String d t) as u. simpl. by rewrite Hc.
Qed.

(** Stripping does nothing on a text that has no such character. *)
Lemma lstrip_none p s : str_forallb (λ c, negb (p c)) s = true → lstrip p s = s.
Proof. destruct s as [|c s]; simpl; [done|]. by destruct (p c). Qed.

Lemma rstrip_none p s : str_forallb (λ c, negb (p c)) s = true → rstrip p s = s.
Proof.
  induction s as [|c s IH]; simpl; [done|].
  destruct (p c) eqn:Hc; simpl; [done|]. intros Hs. rewrite IH by done.
  by destruct s.
Qed.

(** Stripping characters that all have [q] hides nothing from [q]. *)
Lemma rstrip_forallb_inv p q s :
  (∀ c, p c = true → q c = true) → str_forallb q (rstrip p s) = true → str_forallb q s = true.
Proof.
  intros Hpq. induction s as [|c s IH]; simpl; [done|]. destruct (rstrip p s) as [|d t].
  - rewrite IH by done. destruct (p c) eqn:Hc; simpl; [by rewrite Hpq|]. done.
  - remember (String d t) as u. simpl. intros [Hc Hu]%andb_true_iff. by rewrite Hc, IH.
Qed.

Lemma str_map_forallb p f s :
  (∀ c, p c = true → p (f c) = true) →
  str_forallb p s = true → str_forallb p (str_map f s) = true.
Proof.
  intros Hf. induction s as [|c s IH]; simpl; [done|].
  intros [Hc Hs]%andb_true_iff. by rewrite Hf, IH.
Qed.

Lemma lower_char_idemp c : lower_char (lower_char c) = lower_char c.
Proof. destruct c as [[] [] [] [] [] [] [] []]; vm_compute; reflexivity. Qed.

Lemma lower_char_space c : is_space (lower_char c) = is_space c.
Proof. destruct c as [[] [] [] [] [] [] [] []]; vm_compute; reflexivity. Qed.

Lemma lower_char_dot c : is_dot (lower_char c) = is_dot c.
Proof. destruct c as [[] [] [] [] [] [] [] []]; vm_compute; reflexivity. Qed.

Lemma str_lower_idemp s : str_lower (str_lower s) = str_lower s.
Proof.
  unfold str_lower. induction s as [|c s IH]; simpl; [done|].
  by rewrite lower_char_idemp, IH.
Qed.

Lemma rstrip_lower_fixed p s :
  (∀ c, p (lower_char c) = p c) → str_lower s = s → str_lower (rstrip p s) = rstrip p s.
Proof.
  intros Hp. unfold str_lower. induction s as [|c s IH]; simpl; [done|].
  intros [= Hc Hs]. specialize (IH Hs). destruct (rstrip p s) as [|d t].
  - destruct (p c); simpl; congruence.
  - remember (String d t) as u. simpl. congruence.
Qed.

(** * Collections *)

Section Fromkeys.
Context {A : Type} `{EqDecision A}.

(** The loop [if x not in seen: seen.add(x); out.append(x)], which is also
    what [list(dict.fromkeys(l))] computes. *)
Fixpoint fromkeys_from (seen : list A) (l : list A) : list A :=
  match l with
  | [] => []
  | x :: l =>
      if decide (x ∈ seen) then fromkeys_from seen l
      else x :: fromkeys_from (x :: seen) l
  end.
Definition fromkeys (l : list A) : list A := fromkeys_from [] l.

Lemma elem_of_fromkeys_from seen l x :
  x ∈ fromkeys_from seen l ↔ x ∈ l ∧ x ∉ seen.
Proof.
  revert seen. induction l as [|y l IH]; intros seen; simpl; [set_solver|].
  case_decide; rewrite ?elem_of_cons, IH; [set_solver|].
  destruct (decide (x = y)); set_solver.
Qed.

Lemma elem_of_fromkeys l x : x ∈ fromkeys l ↔ x ∈ l.
Proof. unfold fromkeys. rewrite elem_of_fromkeys_from. set_solver. Qed.

Lemma fromkeys_from_NoDup seen l : NoDup (fromkeys_from seen l).
Proof.
  revert seen. induction l as [|y l IH]; intros seen; simpl; [constructor|].
  case_decide; [done|]. constructor; [|done].
  rewrite elem_of_fromkeys_from. set_solver.
Qed.

Lemma fromkeys_NoDup l : NoDup (fromkeys l).
Proof. apply fromkeys_from_NoDup. Qed.

Lemma fromkeys_from_id seen l :
  NoDup l → (∀ x, x ∈ l → x ∉ seen) → fromkeys_from seen l = l.
Proof.
  revert seen. induction l as [|y l IH]; intros seen Hnd Hs; simpl; [done|].
  apply NoDup_cons in Hnd as [Hy Hnd]. rewrite decide_False by set_solver.
  f_equal. apply IH; [done|]. intros x Hx. specialize (Hs x). set_solver.
Qed.

Lemma fromkeys_id l : NoDup l → fromkeys l = l.
Proof. intros. apply fromkeys_from_id; [done|set_solver]. Qed.
End Fromkeys.

Section StableSort.
Context {A : Type} (leb : A → A → bool).

(** [sorted(l, key=...)] and [ORDER BY]: a stable sort, [leb x y] being
    [key x <= key y]. *)
Fixpoint sort_insert (x : A) (l : list A) : list A :=
  match l with
  | [] => [x]
  | y :: l' => if leb x y then x :: l else y :: sort_insert x l'
  end.

Fixpoint sort_by (l : list A) : list A :=
  match l with
  | [] => []
  | x :: l => sort_insert x (sort_by l)
  end.

Lemma sort_insert_Permutation x l : sort_insert x l ≡ₚ x :: l.
Proof.
  induction l as [|y l IH]; simpl; [done|]. destruct (leb x y); [done|].
  rewrite IH. apply Permutation_swap.
Qed.

Lemma sort_by_Permutation l : sort_by l ≡ₚ l.
Proof.
  induction l as [|x l IH]; simpl; [done|]. by rewrite sort_insert_Permutation, IH.
Qed.

Lemma elem_of_sort_by x l : x ∈ sort_by l ↔ x ∈ l.
Proof. by rewrite sort_by_Permutation. Qed.

Hypothesis leb_total : ∀ x y, leb x y = true ∨ leb y x = true.
Hypothesis leb_trans : ∀ x y z, leb x y = true → leb y z = true → leb x z = true.

Lemma sort_insert_sorted x l :
  StronglySorted (λ a b, leb a b = true) l →
  StronglySorted (λ a b, leb a b = true) (sort_insert x l).
Proof using leb_total leb_trans.
  induction 1 as [|y l Hl IH Hy]; simpl; [by repeat constructor|].
  destruct (leb x y) eqn:Hxy.
  - constructor; [by constructor|]. constructor; [done|].
    eapply Forall_impl; [exact Hy|]. simpl. intros z. by apply leb_trans.
  - constructor; [done|]. rewrite sort_insert_Permutation. constructor; [|done].
    destruct (leb_total x y); congruence.
Qed.

Lemma sort_by_sorted l : StronglySorted (λ a b, leb a b = true) (sort_by l).
Proof using leb_total leb_trans.
  induction l; simpl; [constructor|]. by apply sort_insert_sorted.
Qed.
End StableSort.

(** What [LIMIT n] keeps comes, in the order of the query, before what it
    leaves out. *)
Lemma StronglySorted_take_drop {A} (R : A → A → Prop) (l : list A) n x y :
  StronglySorted R l → x ∈ take n l → y ∈ drop n l → R x y.
Proof.
  intros Hl. revert n. induction Hl as [|z l Hl IH Hz]; intros [|n]; simpl; try set_solver.
  intros [->|Hx]%elem_of_cons Hy; [|by eapply IH].
  rewrite Forall_forall in Hz. apply Hz. eapply subseteq_drop; eauto.
Qed.

Lemma StronglySorted_take {A} (R : A → A → Prop) (l : list A) n :
  StronglySorted R l → StronglySorted R (take n l).
Proof.
  intros Hl. revert n. induction Hl as [|z l Hl IH Hz]; intros [|n]; simpl; try constructor.
  - apply IH.
  - by apply Forall_take.
Qed.

Lemma StronglySorted_filter {A} (R : A → A → Prop) (P : A → Prop) `{∀ x, Decision (P x)} (l : list A) :
  StronglySorted R l → StronglySorted R (filter P l).
Proof.
  induction 1 as [|x l Hl IH Hx]; [constructor|]. rewrite filter_cons. destruct (decide (P x)); [|done].
  constructor; [done|]. apply Forall_forall. intros y [_ Hy]%list_elem_of_filter. by eapply Forall_forall in Hx.
Qed.

(** The number of elements for which a test holds. *)
Definition count_if {A} (p : A → bool) (l : list A) : Z :=
  Z.of_nat (length (filter (λ x, p x = true) l)).

Lemma count_if_split {A} (p : A → bool) (l : list A) :
  count_if p l + count_if (λ x, negb (p x)) l = Z.of_nat (length l).
Proof.
  unfold count_if. induction l as [|x l IH]; [done|].
  rewrite !filter_cons. destruct (p x); simpl; lia.
Qed.

Definition sumZ {A} (f : A → Z) (l : list A) : Z := foldr (λ x acc, f x + acc) 0 l.

(** * Numbers

    A Python [int] is a [Z].  A [float] is an exact rational [Q]: rounding is
    not modelled.  [max(a, b)] and [min(a, b)] return [a] on ties. *)

Definition qltb (a b : Q) : bool := negb (Qle_bool b a).
Definition qmax (a b : Q) : Q := if qltb a b then b else a.
Definition qmin (a b : Q) : Q := if qltb b a then b else a.
Definition zq (z : Z) : Q := inject_Z z.

Lemma qleb_true a b : Qle_bool a b = true ↔ (a <= b)%Q.
Proof. apply Qle_bool_iff. Qed.

Lemma qleb_false a b : Qle_bool a b = false ↔ (b < a)%Q.
Proof.
  split.
  - intros H. apply Qnot_le_lt. intros Hle%qleb_true. congruence.
  - intros H. destruct (Qle_bool a b) eqn:E; [|done]. apply qleb_true in E.
    exfalso. revert H. by apply Qle_not_lt.
Qed.

Lemma qltb_true a b : qltb a b = true ↔ (a < b)%Q.
Proof. unfold qltb. by rewrite negb_true_iff, qleb_false. Qed.

Lemma qltb_false a b : qltb a b = false ↔ (b <= a)%Q.
Proof. unfold qltb. by rewrite negb_false_iff, qleb_true. Qed.

Lemma qmax_spec a b : (a < b ∧ qmax a b = b)%Q ∨ (b <= a ∧ qmax a b = a)%Q.
Proof.
  unfold qmax. destruct (qltb a b) eqn:E; [left|right]; split; try done;
  first [by apply qltb_true | by apply qltb_false].
Qed.

Lemma qmin_spec a b : (b < a ∧ qmin a b = b)%Q ∨ (a <= b ∧ qmin a b = a)%Q.
Proof.
  unfold qmin. destruct (qltb b a) eqn:E; [left|right]; split; try done;
  first [by apply qltb_true | by apply qltb_false].
Qed.

Lemma qmax_le_iff a b c : (qmax a b <= c)%Q ↔ (a <= c)%Q ∧ (b <= c)%Q.
Proof. destruct (qmax_spec a b) as [[? ->]|[? ->]]; split; [intros|intros []|intros|intros []]; try split; lra. Qed.

(** Turn every boolean comparison into the proposition it decides, case on
    the maxima and minima, and leave linear arithmetic. *)
Ltac bool_cmp :=
  repeat match goal with
  | H : Qle_bool _ _ = true |- _ => apply qleb_true in H
  | H : Qle_bool _ _ = false |- _ => apply qleb_false in H
  | H : qltb _ _ = true |- _ => apply qltb_true in H
  | H : qltb _ _ = false |- _ => apply qltb_false in H
  | H : (_ && _)%bool = true |- _ => apply andb_true_iff in H as [? ?]
  | H : (_ || _)%bool = false |- _ => apply orb_false_iff in H as [? ?]
  | H : negb _ = true |- _ => apply negb_true_iff in H
  | H : negb _ = false |- _ => apply negb_false_iff in H
  | H : Z.leb _ _ = true |- _ => apply Z.leb_le in H
  | H : Z.leb _ _ = false |- _ => apply Z.leb_gt in H
  | H : Z.ltb _ _ = true |- _ => apply Z.ltb_lt in H
  | H : Z.ltb _ _ = false |- _ => apply Z.ltb_ge in H
  | H : Z.eqb _ _ = true |- _ => apply Z.eqb_eq in H
  | H : Z.eqb _ _ = false |- _ => apply Z.eqb_neq in H
  | H : String.eqb _ _ = true |- _ => apply String.eqb_eq in H
  | H : String.eqb _ _ = false |- _ => apply String.eqb_neq in H
  | H : bool_decide _ = true |- _ => apply bool_decide_eq_true in H
  | H : bool_decide _ = false |- _ => apply bool_decide_eq_false in H
  end.

Ltac q_cases :=
  repeat match goal with
  | |- context [qmax ?a ?b] => destruct (qmax_spec a b) as [[? ->]|[? ->]]
  | |- context [qmin ?a ?b] => destruct (qmin_spec a b) as [[? ->]|[? ->]]
  | H : context [qmax ?a ?b] |- _ =>
      let E := fresh "E" in destruct (qmax_spec a b) as [[? E]|[? E]]; rewrite E in H; clear E
  | H : context [qmin ?a ?b] |- _ =>
      let E := fresh "E" in destruct (qmin_spec a b) as [[? E]|[? E]]; rewrite E in H; clear E
  end.

Ltac q_solve := bool_cmp; q_cases; lra.

(** Case on the scrutinee of the first match of a hypothesis or of the goal. *)
Ltac case_match_in H :=
  match type of H with
  | context [match ?x with _ => _ end] => destruct x eqn:?
  end.

Definition sumQ {A} (f : A → Q) (l : list A) : Q := foldr (λ x acc, f x + acc)%Q 0%Q l.

Lemma sumQ_app {A} (f : A → Q) l1 l2 : (sumQ f (l1 ++ l2) == sumQ f l1 + sumQ f l2)%Q.
Proof. induction l1 as [|x l1 IH]; simpl; [lra|]. rewrite IH. lra. Qed.

Lemma sumQ_nonneg {A} (f : A → Q) l : (∀ x, x ∈ l → 0 <= f x)%Q → (0 <= sumQ f l)%Q.
Proof.
  induction l as [|x l IH]; intros H; simpl; [lra|].
  assert (0 <= f x)%Q by (apply H; by left).
  assert (0 <= sumQ f l)%Q by (apply IH; intros; apply H; by right). lra.
Qed.

Lemma sumQ_filter_le {A} (f : A → Q) (p q : A → bool) l :
  (∀ x, x ∈ l → 0 <= f x)%Q →
  (∀ x, x ∈ l → p x = true → q x = true) →
  (sumQ f (filter (λ x, p x = true) l) <= sumQ f (filter (λ x, q x = true) l))%Q.
Proof.
  induction l as [|x l IH]; intros Hf Hpq; [simpl; lra|].
  assert (0 <= f x)%Q by (apply Hf; by left).
  specialize (IH (λ y Hy, Hf y (list_elem_of_further _ _ _ Hy))
                 (λ y Hy, Hpq y (list_elem_of_further _ _ _ Hy))).
  specialize (Hpq x (list_elem_of_here _ _)). rewrite !filter_cons.
  destruct (p x), (q x); simpl; try (rewrite Hpq in *; done); simpl in *; try lra.
Qed.

Lemma zq_le a b : (zq a <= zq b)%Q ↔ a ≤ b.
Proof. unfold zq. by rewrite <- Zle_Qle. Qed.

Lemma zq_lt a b : (zq a < zq b)%Q ↔ a < b.
Proof. unfold zq. by rewrite <- Zlt_Qlt. Qed.

Lemma str_leb_total a b : str_leb a b = true ∨ str_leb b a = true.
Proof. apply String.leb_total. Qed.

Lemma str_leb_trans a b c : str_leb a b = true → str_leb b c = true → str_leb a c = true.
Proof.
  unfold str_leb, String.leb. revert b c. induction a as [|x a IH]; intros [|y b] [|z c]; simpl;
    try done. unfold Ascii.compare.
  destruct (N.compare_spec (Ascii.N_of_ascii x) (Ascii.N_of_ascii y)),
    (N.compare_spec (Ascii.N_of_ascii y) (Ascii.N_of_ascii z)),
    (N.compare_spec (Ascii.N_of_ascii x) (Ascii.N_of_ascii z)); try done; try lia; apply IH.
Qed.

Lemma str_ltb_leb a b : str_ltb a b = negb (str_leb b a).
Proof.
  unfold str_ltb, str_leb, String.ltb, String.leb. rewrite (String.compare_antisym a b).
  by destruct (String.compare b a).
Qed.

Lemma str_leb_antisym a b : str_leb a b = true → str_leb b a = true → a = b.
Proof.
  unfold str_leb, String.leb. rewrite (String.compare_antisym a b). intros H1 H2.
  symmetry. apply String.compare_eq_iff. by destruct (String.compare b a).
Qed.

(** ** Lexicographic orders

    A sort by a tuple compares its first component, then the rest. *)
Definition lex {A} (first rest : A → A → bool) (a b : A) : bool := first a b && (negb (first b a) || rest a b).

Lemma lex_total {A} (first rest : A → A → bool) :
  (∀ a b, first a b = true ∨ first b a = true) → (∀ a b, rest a b = true ∨ rest b a = true) →
  ∀ a b, lex first rest a b = true ∨ lex first rest b a = true.
Proof. intros Hf Hr a b. unfold lex. specialize (Hf a b). specialize (Hr a b). destruct (first a b), (first b a), (rest a b), (rest b a); naive_solver. Qed.

Lemma lex_trans {A} (first rest : A → A → bool) :
  (∀ a b c, first a b = true → first b c = true → first a c = true) → (∀ a b c, rest a b = true → rest b c = true → rest a c = true) →
  ∀ a b c, lex first rest a b = true → lex first rest b c = true → lex first rest a c = true.
Proof.
  intros Hf Hr a b c. unfold lex. rewrite !andb_true_iff, !orb_true_iff, !negb_true_iff. intros [Hab H1] [Hbc H2]. split; [by eapply Hf|].
  destruct (first c a) eqn:E; [|by left]. right. destruct H1 as [H1|H1]; [|destruct H2 as [H2|H2]; [|by eapply Hr]].
  - assert (first b a = true) by (by eapply Hf). congruence.
  - assert (first c b = true) by (by eapply Hf). congruence.
Qed.

Lemma lex_Z x y r : (x <? y) || (x =? y) && r = (x <=? y) && (negb (y <=? x) || r).
Proof. destruct r, (Z.ltb_spec x y), (Z.eqb_spec x y), (Z.leb_spec x y), (Z.leb_spec y x); done || lia. Qed.

Lemma lex_str x y r : str_ltb x y || String.eqb x y && r = str_leb x y && (negb (str_leb y x) || r).
Proof.
  rewrite str_ltb_leb. destruct (String.eqb_spec x y) as [->|Hne]; [by destruct (str_leb y y) eqn:E, (str_leb_total y y), r; try congruence|].
  destruct (str_leb y x) eqn:E1, (str_leb x y) eqn:E2; try done; [by destruct Hne; apply str_leb_antisym|].
  destruct (str_leb_total x y); congruence.
Qed.

Lemma lex_Q x y r : qltb x y || Qeq_bool x y && r = Qle_bool x y && (negb (Qle_bool y x) || r).
Proof.
  destruct (Qeq_bool x y) eqn:E.
  - apply Qeq_bool_iff in E. assert (qltb x y = false) as -> by (apply not_true_iff_false; rewrite qltb_true; lra).
    assert (Qle_bool x y = true) as -> by (apply Qle_bool_iff; lra). assert (Qle_bool y x = true) as -> by (apply Qle_bool_iff; lra). done.
  - apply Qeq_bool_neq in E. destruct (Qlt_le_dec x y).
    + assert (qltb x y = true) as -> by (by apply qltb_true). assert (Qle_bool x y = true) as -> by (apply Qle_bool_iff; lra).
      assert (Qle_bool y x = false) as -> by (apply not_true_iff_false; rewrite Qle_bool_iff; lra). done.
    + assert (qltb x y = false) as -> by (apply not_true_iff_false; rewrite qltb_true; lra).
      assert (Qle_bool x y = false) as ->; [|done]. apply not_true_iff_false. rewrite Qle_bool_iff. intros ?. apply E. lra.
Qed.

(** [int(x)] of a float truncates toward zero. *)
Definition py_int (q : Q) : Z := Z.quot (Qnum q) (Zpos (Qden q)).

(** [round(q)]: half to even. *)
Definition py_round (q : Q) : Z :=
  let f := Qfloor q in
  let rest := (q - zq f)%Q in
  if qltb rest (1 # 2) then f
  else if qltb (1 # 2) rest then f + 1
  else if Z.even f then f else f + 1.

(** [UPDATE ... SET ... WHERE ...] on a keyed table. *)
Definition update_where {V} (p : string → V → bool) (f : V → V) (t : gmap string V) : gmap string V :=
  map_imap (λ k r, Some (if p k r then f r else r)) t.

Lemma lookup_update_where {V} p f (t : gmap string V) k :
  update_where p f t !! k = (λ r, if p k r then f r else r) <$> t !! k.
Proof. unfold update_where. rewrite map_lookup_imap. by destruct (t !! k). Qed.

(** [DELETE ... WHERE key IN (...)] *)
Lemma lookup_foldr_delete {V} (ks : list string) (t : gmap string V) k :
  foldr delete t ks !! k = if decide (k ∈ ks) then None else t !! k.
Proof.
  induction ks as [|x ks IH]; [rewrite decide_False by set_solver; done|cbn [foldr]].
  destruct (decide (x = k)) as [->|Hne].
  - rewrite lookup_delete_eq. rewrite decide_True by set_solver. done.
  - rewrite lookup_delete_ne, IH by done. repeat case_decide; set_solver.
Qed.

#[export] Hint Resolve fromkeys_NoDup sort_by_Permutation sumQ_nonneg : wormhole.

Lemma filter_all {A} (P : A → Prop) `{∀ x, Decision (P x)} (l : list A) : (∀ x, x ∈ l → P x) → filter P l = l.
Proof.
  induction l as [|x l IH]; intros Hl; [done|]. rewrite filter_cons, decide_True by (apply Hl; left). f_equal.
  apply IH. intros y Hy. apply Hl. by right.
Qed.

(** A filter and its complement share out the list. *)
Lemma filter_partition_length {A} (l : list A) (P : A → Prop) `{∀ x, Decision (P x)} :
  (length (filter P l) + length (filter (λ x, ¬ P x) l))%nat = length l.
Proof.
  induction l as [|x l IH]; [done|]. rewrite !filter_cons.
  destruct (decide (P x)); [rewrite decide_False by tauto|rewrite decide_True by done]; simpl; lia.
Qed.

Lemma list_filter_iff_in {A} (P Q : A → Prop) `{∀ x, Decision (P x), ∀ x, Decision (Q x)}
    (l : list A) :
  (∀ x, x ∈ l → P x ↔ Q x) → filter P l = filter Q l.
Proof.
  induction l as [|x l IH]; intros HPQ; [done|]. rewrite !filter_cons.
  rewrite IH by (intros; apply HPQ; by right).
  specialize (HPQ x (list_elem_of_here _ _)).
  destruct (decide (P x)), (decide (Q x)); tauto.
Qed.

(** * A small program logic for transactions

    [hoare P m Q]: from a state with [P], if [m] succeeds with [a] then [Q a]
    holds of the state it leaves.  A failed transaction changes nothing, so a
    triple is all an invariant needs. *)
Definition hoare {S E A} (P : S → Prop) (m : tx S E A) (Q : A → S → Prop) : Prop :=
  ∀ s, P s → ∀ a s', m s = Ok (a, s') → Q a s'.

Section Hoare.
Context {S E : Type}.
Implicit Types P : S → Prop.

Lemma hoare_ret {A} P (a : A) (Q : A → S → Prop) :
  (∀ s, P s → Q a s) → hoare P (mret a : tx S E A) Q.
Proof. intros H s HQ a' s'. intros [= <- <-]. auto. Qed.

Lemma hoare_bind {A B} P (m : tx S E A) (f : A → tx S E B) (R : A → S → Prop) Q :
  hoare P m R → (∀ a, hoare (R a) (f a) Q) → hoare P (m ≫= f) Q.
Proof.
  intros Hm Hf s HP b s'. unfold mbind, tx_bind.
  destruct (m s) as [[a s1]|e] eqn:Em; [|done]. apply Hf. by eapply Hm.
Qed.

Lemma hoare_read {A} P (f : S → A) :
  hoare P (tx_read f : tx S E A) (λ a s, P s ∧ a = f s).
Proof. intros s HP a s'. by intros [= <- <-]. Qed.

Lemma hoare_write P (f : S → S) (Q : S → Prop) :
  (∀ s, P s → Q (f s)) → hoare P (tx_write f : tx S E unit) (λ _, Q).
Proof. intros H s HP a s'. intros [= <- <-]. by apply H. Qed.

Lemma hoare_raise {A} P (e : E) (Q : A → S → Prop) : hoare P (tx_raise e) Q.
Proof. by intros s HP a s'. Qed.

Lemma hoare_consequence {A} P P' (m : tx S E A) (Q Q' : A → S → Prop) :
  hoare P' m Q' → (∀ s, P s → P' s) → (∀ a s, Q' a s → Q a s) → hoare P m Q.
Proof. intros H HP HQ s Hs a s' E'. apply HQ. eapply H; eauto. Qed.

(** An invariant of a transaction is an invariant of the committed call. *)
Lemma hoare_commit {A} P (m : tx S E A) (I : S → Prop) s :
  (∀ s, I s → P s) → hoare P m (λ _, I) → I s → I (commit m s).2.
Proof.
  intros HIP Hm HI. unfold commit. destruct (m s) as [[a s']|e] eqn:Em; simpl; [|done].
  eapply Hm; eauto.
Qed.
End Hoare.

(** [tx_keeps f m]: whatever [m] writes, the part [f] of the state is left as
    it was. *)
Definition tx_keeps {S E A B} (f : S → B) (m : tx S E A) : Prop :=
  ∀ s a s', m s = Ok (a, s') → f s' = f s.

Section Keeps.
Context {S E B : Type} (f : S → B).

Lemma keeps_ret {A} (a : A) : tx_keeps f (mret a : tx S E A).
Proof. intros s b s'. by intros [= _ <-]. Qed.
Lemma keeps_read {A} (g : S → A) : tx_keeps f (tx_read g : tx S E A).
Proof. intros s b s'. by intros [= _ <-]. Qed.
Lemma keeps_raise {A} (e : E) : tx_keeps f (tx_raise e : tx S E A).
Proof. by intros s b s'. Qed.
Lemma keeps_write (g : S → S) : (∀ s, f (g s) = f s) → tx_keeps f (tx_write g : tx S E unit).
Proof. intros H s b s'. intros [= _ <-]. apply H. Qed.
Lemma keeps_bind {A A'} (m : tx S E A) (k : A → tx S E A') :
  tx_keeps f m → (∀ a, tx_keeps f (k a)) → tx_keeps f (m ≫= k).
Proof.
  intros Hm Hk s b s'. unfold mbind, tx_bind. destruct (m s) as [[a s1]|e] eqn:E1; [|done].
  intros H. rewrite (Hk _ _ _ _ H). by eapply Hm.
Qed.
Lemma keeps_fold {A A'} (k : A' → A → tx S E A') b l :
  (∀ b x, tx_keeps f (k b x)) → tx_keeps f (tx_fold k b l).
Proof.
  intros Hk. revert b. induction l as [|x l IH]; intros b; simpl; [apply keeps_ret|].
  apply keeps_bind; auto.
Qed.
Lemma keeps_commit {A} (m : tx S E A) s : tx_keeps f m → f (commit m s).2 = f s.
Proof. intros H. unfold commit. destruct (m s) as [[a s']|e] eqn:Em; simpl; [by eapply H|done]. Qed.
End Keeps.

#[export] Hint Resolve keeps_ret keeps_read keeps_raise keeps_write keeps_bind keeps_fold : wormhole.

(** The same for a program, whatever its outcome. *)
Definition prog_keeps {S E A B} (f : S → B) (m : prog S E A) : Prop := ∀ s, f (m s).2 = f s.

Section ProgKeeps.
Context {S E B : Type} (f : S → B).

Lemma pkeeps_ret {A} (a : A) : prog_keeps f (mret a : prog S E A).
Proof. by intros s. Qed.
Lemma pkeeps_read {A} (g : S → A) : prog_keeps f (prog_read g : prog S E A).
Proof. by intros s. Qed.
Lemma pkeeps_raise {A} (e : E) : prog_keeps f (prog_raise e : prog S E A).
Proof. by intros s. Qed.
Lemma pkeeps_bind {A A'} (m : prog S E A) (k : A → prog S E A') :
  prog_keeps f m → (∀ a, prog_keeps f (k a)) → prog_keeps f (m ≫= k).
Proof.
  intros Hm Hk s. unfold mbind, prog_bind. specialize (Hm s).
  destruct (m s) as [[a|e] s1]; simpl in *; [rewrite Hk|]; done.
Qed.
Lemma pkeeps_fold {A A'} (k : A' → A → prog S E A') b l :
  (∀ b x, prog_keeps f (k b x)) → prog_keeps f (prog_fold k b l).
Proof.
  intros Hk. revert b. induction l as [|x l IH]; intros b; simpl; [apply pkeeps_ret|].
  apply pkeeps_bind; auto.
Qed.
End ProgKeeps.

#[export] Hint Resolve pkeeps_ret pkeeps_read pkeeps_raise pkeeps_bind pkeeps_fold : wormhole.

(** [prog_returns Q m]: when [m] returns a value, [Q] holds of it, whatever the
    state was. *)
Definition prog_returns {S E A} (Q : A → Prop) (m : prog S E A) : Prop :=
  ∀ s, match (m s).1 with Ok a => Q a | Err _ => True end.

Section Returns.
Context {S E : Type}.

Lemma returns_ret {A} (Q : A → Prop) a : Q a → prog_returns Q (mret a : prog S E A).
Proof. by intros HQ s. Qed.
Lemma returns_raise {A} (Q : A → Prop) (e : E) : prog_returns Q (prog_raise e : prog S E A).
Proof. by intros s. Qed.
Lemma returns_any {A} (m : prog S E A) : prog_returns (λ _, True) m.
Proof. intros s. by destruct (m s).1. Qed.
Lemma returns_bind {A B} (R : A → Prop) (Q : B → Prop) (m : prog S E A) (k : A → prog S E B) :
  prog_returns R m → (∀ a, R a → prog_returns Q (k a)) → prog_returns Q (m ≫= k).
Proof.
  intros Hm Hk s. unfold mbind, prog_bind. specialize (Hm s).
  destruct (m s) as [[a|e] s']; simpl in *; [by apply Hk|done].
Qed.
Lemma returns_impl {A} (R Q : A → Prop) (m : prog S E A) :
  prog_returns R m → (∀ a, R a → Q a) → prog_returns Q m.
Proof. intros Hm HRQ s. specialize (Hm s). destruct (m s).1; auto. Qed.
End Returns.

(** [prog_succeeds Q m]: whatever the state, [m] returns a value with [Q]. *)
Definition prog_succeeds {S E A} (Q : A → Prop) (m : prog S E A) : Prop :=
  ∀ s, ∃ a s', m s = (Ok a, s') ∧ Q a.

Section Succeeds.
Context {S E : Type}.

Lemma succeeds_ret {A} (Q : A → Prop) a : Q a → prog_succeeds Q (mret a : prog S E A).
Proof. intros HQ s. by exists a, s. Qed.
Lemma succeeds_read {A} (f : S → A) : prog_succeeds (λ _, True) (prog_read f : prog S E A).
Proof. intros s. by exists (f s), s. Qed.
Lemma succeeds_bind {A B} (R : A → Prop) (Q : B → Prop) (m : prog S E A) (k : A → prog S E B) :
  prog_succeeds R m → (∀ a, R a → prog_succeeds Q (k a)) → prog_succeeds Q (m ≫= k).
Proof.
  intros Hm Hk s. unfold mbind, prog_bind. destruct (Hm s) as (a & s' & -> & HR). by apply Hk.
Qed.
End Succeeds.

(** Invariants of a loop, over the iterations that returned. *)
Lemma prog_fold_ind {S E A B} (I : B → S → Prop) (f : B → A → prog S E B) l :
  (∀ x b s b' s', x ∈ l → I b s → f b x s = (Ok b', s') → I b' s') →
  ∀ b s b' s', I b s → prog_fold f b l s = (Ok b', s') → I b' s'.
Proof.
  induction l as [|x l IH]; intros Hf b s b' s' HI; simpl; [by intros [= <- <-]|].
  unfold mbind, prog_bind. destruct (f b x s) as [[b1|e] s1] eqn:E1; [|done].
  apply IH; [|by eapply Hf; [left|..]]. intros y c t c' t' Hy. apply Hf. by right.
Qed.

(** * Parts of texts *)

Lemma startswith_iff prefix text : str_startswith text prefix = true ↔ ∃ b, text = prefix +:+ b.
Proof.
  unfold str_startswith. revert text. induction prefix as [|c prefix IH]; intros text; [split; [by exists text|by destruct text]|].
  destruct text as [|d text]; cbn [String.prefix]; [split; [done|by intros [b [=]]]|].
  destruct (ascii_dec c d) as [->|Hne].
  - rewrite IH. split; intros [b E]; exists b; [by rewrite E|by injection E].
  - split; [done|]. intros [b E]. by injection E.
Qed.

Lemma str_contains_iff needle text : str_contains needle text = true ↔ ∃ a b, text = a +:+ needle +:+ b.
Proof.
  induction text as [|c text IH]; cbn [str_contains]; rewrite orb_true_iff, startswith_iff.
  - split; [intros [[b Hb]|[=]]; by exists ""%string, b|]. intros (a & b & E). left. destruct a; [by exists b|done].
  - rewrite IH. split.
    + intros [[b Hb]|(a & b & ->)]; [by exists ""%string, b|by exists (String c a), b].
    + intros ([|d a] & b & E); [left; by exists b|]. right. injection E as -> ->. eauto.
Qed.

Lemma lstrip_keeps p a c b : p c = false → ∃ a', lstrip p (a +:+ String c b) = a' +:+ String c b.
Proof.
  intros Hc. induction a as [|d a IH]; [exists ""%string; change (lstrip p (String c b) = String c b); cbn [lstrip]; by rewrite Hc|].
  change (String d a +:+ String c b) with (String d (a +:+ String c b)). cbn [lstrip]. destruct (p d); [done|]. by exists (String d a).
Qed.

Lemma rstrip_keeps p a c b : p c = false → rstrip p (a +:+ String c b) = a +:+ String c (rstrip p b).
Proof.
  intros Hc. induction a as [|d a IH].
  - change (rstrip p (String c b) = String c (rstrip p b)). cbn [rstrip]. rewrite Hc. by destruct (rstrip p b).
  - change (String d a +:+ String c b) with (String d (a +:+ String c b)). cbn [rstrip]. rewrite IH. by destruct a.
Qed.

Lemma str_forallb_app p a b : str_forallb p (a +:+ b) = str_forallb p a && str_forallb p b.
Proof.
  induction a as [|c a IH]; [done|]. change (String c a +:+ b) with (String c (a +:+ b)). cbn [str_forallb]. by rewrite IH, andb_assoc.
Qed.

Lemma length_app_str (a b : string) : String.length (a +:+ b)%string = (String.length a + String.length b)%nat.
Proof. induction a as [|c a IH]; [done|]. exact (f_equal S IH). Qed.

Lemma lstrip_part p s : ∃ a, s = a +:+ lstrip p s.
Proof.
  induction s as [|c s [a IH]]; [by exists ""%string|]. cbn [lstrip]. destruct (p c); [|by exists ""%string].
  exists (String c a). change (String c a +:+ lstrip p s) with (String c (a +:+ lstrip p s)). by rewrite <-IH.
Qed.
Lemma rstrip_part p s : ∃ b, s = rstrip p s +:+ b.
Proof.
  induction s as [|c s [b IH]]; [by exists ""%string|]. cbn [rstrip]. destruct (rstrip p s) as [|d r] eqn:E.
  - destruct (p c); [by eexists|]. by exists s.
  - exists b. change (String c (String d r) +:+ b) with (String c (String d r +:+ b)). by rewrite <-IH.
Qed.
