(* ===== verification/HttpRetry.v ===== *)
(** [pihole_manager/http_retry.py]: the delay that [Retry-After] and the common
    rate-limit reset headers ask for.

    [float(text)] and [email.utils.parsedate_to_datetime(text).timestamp()] are
    arguments of the definitions ([py_float], [date_timestamp]); [None] stands
    for the exceptions the code catches. *)
From stdpp Require Import base gmap strings list.
From Stdlib Require Import Ascii QArith Lqa.
From S2P Require Import Prelude.
Open Scope Z_scope.

Definition _RESET_HEADERS : list string :=
  ["x-ratelimit-reset-after"; "x-ratelimit-reset-requests"; "x-ratelimit-reset-tokens";
   "x-ratelimit-reset"; "ratelimit-reset"]%string.

Definition is_digit (c : Ascii.ascii) : bool :=
  let n := Ascii.N_of_ascii c in ((48 <=? n) && (n <=? 57))%N.

(** The longest prefix of digits, and the rest. *)
Fixpoint span_digits (s : string) : string * string :=
  match s with
  | String c s' => if is_digit c then let '(a, b) := span_digits s' in (String c a, b) else (EmptyString, s)
  | EmptyString => (EmptyString, EmptyString)
  end.

Fixpoint span_space (s : string) : string * string :=
  match s with
  | String c s' => if is_space c then let '(a, b) := span_space s' in (String c a, b) else (EmptyString, s)
  | EmptyString => (EmptyString, EmptyString)
  end.

(** The group [(ms|s|m|h)], without regard to case. *)
Definition match_unit (s : string) : option (string * string) :=
  match s with
  | String c s' =>
      let l := lower_char c in
      if Ascii.eqb l "m"%char then
        match s' with
        | String c2 s2 => if Ascii.eqb (lower_char c2) "s"%char then Some ("ms"%string, s2)
                          else Some ("m"%string, s')
        | EmptyString => Some ("m"%string, s')
        end
      else if Ascii.eqb l "s"%char then Some ("s"%string, s')
      else if Ascii.eqb l "h"%char then Some ("h"%string, s')
      else None
  | EmptyString => None
  end.

(** One match of [_DURATION_PART] at the start of a text: the number, the unit,
    and what follows.  A fraction not followed by a unit cannot be given back:
    the character after the digits would be the dot. *)
Definition match_duration (s : string) : option (string * string * string) :=
  let '(whole, rest) := span_digits s in
  if negb (str_nonempty whole) then None
  else
    let '(number, rest) :=
      match rest with
      | String c rest' =>
          if Ascii.eqb c "."%char then
            let '(fraction, rest2) := span_digits rest' in
            if str_nonempty fraction then ((whole +:+ String "."%char fraction)%string, rest2)
            else (whole, rest)
          else (whole, rest)
      | EmptyString => (whole, rest)
      end in
    let '(_, rest) := span_space rest in
    match match_unit rest with
    | Some (unit, rest) => Some (number, unit, rest)
    | None => None
    end.

(** [finditer]: the matches, and whether they cover the text up to spaces.  The
    text between the matches has to be made of spaces for [matched] to equal
    [value.replace(" ", "")]. *)
Fixpoint duration_matches (fuel : nat) (s : string) : option (list (string * string)) :=
  match fuel with
  | O => if str_nonempty s then None else Some []
  | S fuel =>
      match s with
      | EmptyString => Some []
      | String c s' =>
          match match_duration s with
          | Some (number, unit, rest) =>
              match duration_matches fuel rest with
              | Some ms => Some ((number, unit) :: ms)
              | None => None
              end
          | None => if Ascii.eqb c " "%char then duration_matches fuel s' else None
          end
      end
  end.

Definition multiplier (unit : string) : Q :=
  if String.eqb unit "ms" then 1 # 1000
  else if String.eqb unit "s" then 1
  else if String.eqb unit "m" then 60
  else 3600.

Section Headers.
Context (py_float : string → option Q) (date_timestamp : string → option Q).

Definition _duration_seconds (value : string) : option Q :=
  match duration_matches (String.length value) value with
  | None | Some [] => None
  | Some ms => Some (sumQ (λ m, (default 0 (py_float m.1) * multiplier m.2)%Q) ms)
  end.

Definition _reset_delay (value : string) (now : Q) : option Q :=
  if negb (str_nonempty value) then None
  else
    let compact := str_lower (str_strip value) in
    match _duration_seconds compact with
    | Some duration => Some duration
    | None =>
        match py_float compact with
        | None => None
        | Some number =>
            let number := if qltb 10000000000 number then (number / 1000)%Q else number in
            Some (if qltb (now + 1) number then (number - now)%Q else number)
        end
    end.

Definition _retry_after_delay (value : string) (now : Q) : option Q :=
  if negb (str_nonempty value) then None
  else match py_float value with
       | Some q => Some q
       | None => match date_timestamp value with
                 | Some t => Some (t - now)%Q
                 | None => None
                 end
       end.

(** The lower-cased, stripped copy of the headers; a later duplicate wins. *)
Definition normalized_headers (headers : list (string * string)) : gmap string string :=
  foldl (λ m kv, <[str_lower kv.1 := str_strip kv.2]> m) ∅ headers.

(** [max(delays)] of a non-empty list. *)
Definition max_delay (first : Q) (rest : list Q) : Q := foldl qmax first rest.

Definition retry_delay_from_headers (headers : list (string * string)) (maximum now : Q)
    : option Q :=
  match headers with
  | [] => None
  | _ =>
      let normalized := normalized_headers headers in
      let get name := default ""%string (normalized !! name) in
      let delays :=
        omap id (_retry_after_delay (get "retry-after"%string) now ::
                 ((λ name, _reset_delay (get name) now) <$> _RESET_HEADERS)) in
      match delays with
      | [] => None
      | d :: ds => Some (qmin (qmax 0 maximum) (qmax 0 (max_delay d ds)))
      end
  end.

(** The delay taken from the headers of a response is never negative and
    never above the given maximum, whatever the headers hold. *)
Theorem retry_delay_bounds headers maximum now delay :
  retry_delay_from_headers headers maximum now = Some delay →
  (0 <= delay /\ (0 <= maximum -> delay <= maximum))%Q.
Proof.
  unfold retry_delay_from_headers. destruct headers as [|h hs]; [done|].
  destruct (omap id _) as [|d ds]; [done|]. intros [= <-]. split; intros; q_solve.
Qed.
End Headers.

Lemma retry_delay_bounds_witness :
  let num s := if String.eqb s "120" then Some 120%Q else None in
  ∃ delay, retry_delay_from_headers num (λ _, None) [("Retry-After", "120")]%string 60 1000 = Some delay ∧
    (0 <= delay /\ (0 <= 60 -> delay <= 60))%Q.
Proof.
  intros num. eexists. split; [vm_compute; reflexivity|].
  apply (retry_delay_bounds num (λ _, None) [("Retry-After", "120")]%string 60 1000).
  vm_compute. reflexivity.
Defined.
