(* ===== verification/Json.v ===== *)
(** JSON values as Python holds them after [json.loads], a reader with the
    grammar of Python's decoder, and the conversions ([str], [int], [float],
    truth) the code applies to values of unknown type. *)
From stdpp Require Import base gmap strings list pretty.
From Stdlib Require Import Ascii QArith Qround Lqa Sorted.
From S2P Require Import Prelude HttpRetry.
Open Scope Z_scope.

(** * Values *)

Inductive py_float := Fin (q : Q) | Inf (negative : bool) | NaN.

Unset Elimination Schemes.
Inductive json :=
  | JNull
  | JBool (b : bool)
  | JInt (z : Z)
  | JFloat (f : py_float)
  | JString (s : string)
  | JArray (l : list json)
  | JObject (fields : list (string * json)).
Set Elimination Schemes.

(** The induction principle with hypotheses for the elements. *)
Section JsonInd.
Context (P : json → Prop).
Context (Hnull : P JNull) (Hbool : ∀ b, P (JBool b)) (Hint : ∀ z, P (JInt z)) (Hfloat : ∀ f, P (JFloat f))
  (Hstring : ∀ s, P (JString s)) (Harray : ∀ l, Forall P l → P (JArray l))
  (Hobject : ∀ fields, Forall (λ p, P p.2) fields → P (JObject fields)).

Fixpoint json_induction (v : json) : P v :=
  match v with
  | JNull => Hnull
  | JBool b => Hbool b
  | JInt z => Hint z
  | JFloat f => Hfloat f
  | JString s => Hstring s
  | JArray l => Harray l ((fix go l := match l return Forall P l with
                                       | [] => Forall_nil_2 _
                                       | v :: l => Forall_cons_2 _ _ _ (json_induction v) (go l)
                                       end) l)
  | JObject fields => Hobject fields
      ((fix go l := match l return Forall (λ p, P p.2) l with
                    | [] => Forall_nil_2 _
                    | p :: l => Forall_cons_2 _ _ _ (json_induction p.2) (go l)
                    end) fields)
  end.
End JsonInd.

(** A dict, in insertion order: [d.get(key)] and [d[key] = v]. *)
Fixpoint dict_get {A} (key : string) (d : list (string * A)) : option A :=
  match d with
  | [] => None
  | (k, v) :: d => if String.eqb k key then Some v else dict_get key d
  end.

Fixpoint dict_set {A} (key : string) (v : A) (d : list (string * A)) : list (string * A) :=
  match d with
  | [] => [(key, v)]
  | (k, w) :: d => if String.eqb k key then (k, v) :: d else (k, w) :: dict_set key v d
  end.

Definition dict_pop {A} (key : string) (d : list (string * A)) : list (string * A) :=
  filter (λ p, p.1 ≠ key) d.

(** [d.setdefault(key, v)] *)
Definition dict_setdefault {A} (key : string) (v : A) (d : list (string * A)) : list (string * A) :=
  match dict_get key d with Some _ => d | None => dict_set key v d end.

(** [dict(pairs)] *)
Definition dict_of {A} (pairs : list (string * A)) : list (string * A) :=
  foldl (λ d p, dict_set p.1 p.2 d) [] pairs.

(** * Conversions *)

(** [bool(v)] *)
Definition py_truthy (v : json) : bool :=
  match v with
  | JNull => false
  | JBool b => b
  | JInt z => negb (z =? 0)
  | JFloat (Fin q) => negb (Qeq_bool q 0)
  | JFloat _ => true
  | JString s => str_nonempty s
  | JArray l => match l with [] => false | _ => true end
  | JObject l => match l with [] => false | _ => true end
  end.

(** [repr] of a float, a list or a dict, which [str] falls back to, is a
    parameter. *)
Class PyRepr := { py_repr_of : json → string }.

Definition py_str `{PyRepr} (v : json) : string :=
  match v with
  | JNull => "None"
  | JBool b => if b then "True" else "False"
  | JInt z => pretty z
  | JString s => s
  | _ => py_repr_of v
  end.

(** [str(v or default)] *)
Definition py_str_or `{PyRepr} (v : option json) (default : string) : string :=
  match v with
  | Some v => if py_truthy v then py_str v else default
  | None => default
  end.

(** ** Numbers in text *)

Definition digit_value (c : Ascii.ascii) : Z := Z.of_N (Ascii.N_of_ascii c) - 48.

Fixpoint digits_value (acc : Z) (s : string) : Z :=
  match s with
  | EmptyString => acc
  | String c s => digits_value (10 * acc + digit_value c) s
  end.

Definition is_underscore (c : Ascii.ascii) : bool := Ascii.eqb c "_"%char.

(** Underscores stand between digits; [previous] says whether the last
    character was a digit. *)
Fixpoint underscores_ok (previous : bool) (s : string) : bool :=
  match s with
  | EmptyString => true
  | String c s =>
      if is_underscore c
      then previous && match s with String d _ => is_digit d | EmptyString => false end && underscores_ok false s
      else underscores_ok (is_digit c) s
  end.

Fixpoint without_underscores (s : string) : string :=
  match s with
  | EmptyString => EmptyString
  | String c s => if is_underscore c then without_underscores s else String c (without_underscores s)
  end.

(** An optional sign: whether it is a minus, and the rest. *)
Definition take_sign (s : string) : bool * string :=
  match s with
  | String c rest => if Ascii.eqb c "-"%char then (true, rest) else if Ascii.eqb c "+"%char then (false, rest)
                     else (false, s)
  | EmptyString => (false, s)
  end.

(** [int(text)]; [None] is [ValueError]. *)
Definition py_int_text (text : string) : option Z :=
  let s := str_strip text in
  if negb (underscores_ok false s) then None
  else
    let '(negative, s) := take_sign (without_underscores s) in
    if str_nonempty s && str_forallb is_digit s
    then Some (if negative : bool then - digits_value 0 s else digits_value 0 s) else None.

Definition pow10 (e : Z) : Q := if 0 <=? e then zq (10 ^ e) else (1 / zq (10 ^ (- e)))%Q.

(** An optional point: the digits after it. *)
Definition take_fraction (s : string) : string * string :=
  match s with
  | String c rest => if is_dot c then span_digits rest else (EmptyString, s)
  | EmptyString => (EmptyString, s)
  end.

(** An optional exponent, and the rest. *)
Definition take_exponent (s : string) : Z * string :=
  match s with
  | String c rest =>
      if Ascii.eqb (lower_char c) "e"%char then
        let '(negative, rest) := take_sign rest in
        let '(digits, rest) := span_digits rest in
        if str_nonempty digits
        then (if negative : bool then - digits_value 0 digits else digits_value 0 digits, rest) else (0, s)
      else (0, s)
  | EmptyString => (0, s)
  end.

Definition decimal (negative : bool) (whole fraction : string) (exponent : Z) : Q :=
  let q := (zq (digits_value 0 (whole +:+ fraction)) * pow10 (exponent - Z.of_nat (String.length fraction)))%Q in
  Qred (if negative then (- q)%Q else q).

(** From this size on an integer has no float ([float] raises [OverflowError]) and
    a decimal number is infinite. *)
Definition float_limit : Z := 2 ^ 1024 - 2 ^ 970.

Definition float_of_decimal (q : Q) : py_float :=
  if Qle_bool (zq float_limit) q then Inf false
  else if Qle_bool q (- zq float_limit) then Inf true
  else Fin q.

(** [float(text)] *)
Definition py_float_text (text : string) : option py_float :=
  let s := str_strip text in
  if negb (underscores_ok false s) then None
  else
    let '(negative, s) := take_sign (without_underscores s) in
    let word := str_lower s in
    if String.eqb word "inf" || String.eqb word "infinity" then Some (Inf negative)
    else if String.eqb word "nan" then Some NaN
    else
      let '(whole, s) := span_digits s in
      let '(fraction, s) := take_fraction s in
      if negb (str_nonempty (whole +:+ fraction)) then None
      else let '(exponent, s) := take_exponent s in
           if str_nonempty s then None
                else Some (float_of_decimal (decimal negative whole fraction exponent)).

(** What [int(v)] and [float(v)] raise. *)
Inductive conversion_exn := ConversionTypeError | ConversionValueError | ConversionOverflowError.

Definition py_int_of (v : json) : result conversion_exn Z :=
  match v with
  | JBool b => Ok (if b then 1 else 0)
  | JInt z => Ok z
  | JFloat (Fin q) => Ok (py_int q)
  | JFloat (Inf _) => Err ConversionOverflowError
  | JFloat NaN => Err ConversionValueError
  | JString s => match py_int_text s with Some z => Ok z | None => Err ConversionValueError end
  | JNull | JArray _ | JObject _ => Err ConversionTypeError
  end.

Definition py_float_of (v : json) : result conversion_exn py_float :=
  match v with
  | JBool b => Ok (Fin (if b then 1 else 0))
  | JInt z => if Z.abs z <? float_limit then Ok (Fin (zq z)) else Err ConversionOverflowError
  | JFloat f => Ok f
  | JString s => match py_float_text s with Some f => Ok f | None => Err ConversionValueError end
  | JNull | JArray _ | JObject _ => Err ConversionTypeError
  end.

(** [a < b] and [a <= b] on floats *)
Definition float_ltb (a b : py_float) : bool :=
  match a, b with
  | Fin a, Fin b => qltb a b
  | Inf true, Fin _ | Fin _, Inf false | Inf true, Inf false => true
  | _, _ => false
  end.

Definition float_leb (a b : py_float) : bool :=
  match a, b with
  | Fin a, Fin b => Qle_bool a b
  | NaN, _ | _, NaN => false
  | Inf true, _ | _, Inf false => true
  | _, _ => false
  end.

(** [max(a, b)] and [min(a, b)]: the second one when it is larger, or smaller. *)
Definition float_max (a b : py_float) : py_float := if float_ltb a b then b else a.
Definition float_min (a b : py_float) : py_float := if float_ltb b a then b else a.

(** [min(high, max(low, f))] *)
Definition clamp (low high : Q) (f : py_float) : Q :=
  match f with
  | Fin q => qmin high (qmax low q)
  | Inf false => high
  | Inf true | NaN => low
  end.

(** * [json.loads]

    The grammar of Python's decoder: strings are strict, [NaN] and [Infinity]
    are numbers, and nothing may follow the value.  A text is UTF-8; an escape
    [\u] stands for the bytes of its code point, a pair of surrogates for one
    code point.  [None] is [JSONDecodeError].  A float is its decimal value, not
    rounded to 53 bits; the limit of 4300 digits for an integer is left out. *)

Definition quote : Ascii.ascii := "034"%char.
Definition backslash : Ascii.ascii := "092"%char.

Definition json_space (c : Ascii.ascii) : bool :=
  bool_decide (Ascii.N_of_ascii c ∈ [32; 9; 10; 13]%N).
Definition skip_ws (s : string) : string := lstrip json_space s.

Definition hex_digit (c : Ascii.ascii) : option Z :=
  let n := Z.of_N (Ascii.N_of_ascii c) in
  if (48 <=? n) && (n <=? 57) then Some (n - 48)
  else if (65 <=? n) && (n <=? 70) then Some (n - 55)
  else if (97 <=? n) && (n <=? 102) then Some (n - 87)
  else None.

Definition hex4 (a b c d : Ascii.ascii) : option Z :=
  match hex_digit a, hex_digit b, hex_digit c, hex_digit d with
  | Some a, Some b, Some c, Some d => Some (4096 * a + 256 * b + 16 * c + d)
  | _, _, _, _ => None
  end.

Definition byte_of (z : Z) : Ascii.ascii := Ascii.ascii_of_N (Z.to_N z).

(** The bytes of a code point. *)
Definition utf8 (z : Z) : string :=
  if z <? 128 then String (byte_of z) EmptyString
  else if z <? 2048 then String (byte_of (192 + z / 64)) (String (byte_of (128 + z mod 64)) EmptyString)
  else if z <? 65536
  then String (byte_of (224 + z / 4096)) (String (byte_of (128 + z / 64 mod 64))
         (String (byte_of (128 + z mod 64)) EmptyString))
  else String (byte_of (240 + z / 262144)) (String (byte_of (128 + z / 4096 mod 64))
         (String (byte_of (128 + z / 64 mod 64)) (String (byte_of (128 + z mod 64)) EmptyString))).

Definition high_surrogate (z : Z) : bool := (55296 <=? z) && (z <=? 56319).
Definition low_surrogate (z : Z) : bool := (56320 <=? z) && (z <=? 57343).

(** The one-letter escapes. *)
Definition simple_escape (c : Ascii.ascii) : option Ascii.ascii :=
  if Ascii.eqb c quote || Ascii.eqb c backslash || Ascii.eqb c "/"%char then Some c
  else if Ascii.eqb c "b"%char then Some "008"%char
  else if Ascii.eqb c "f"%char then Some "012"%char
  else if Ascii.eqb c "n"%char then Some "010"%char
  else if Ascii.eqb c "r"%char then Some "013"%char
  else if Ascii.eqb c "t"%char then Some "009"%char
  else None.

Definition prepend (t : string) (r : option (string * string)) : option (string * string) :=
  match r with Some (u, rest) => Some ((t +:+ u)%string, rest) | None => None end.

(** The text after an opening quote, up to the closing one. *)
Fixpoint read_string (s : string) : option (string * string) :=
  match s with
  | EmptyString => None
  | String c s1 =>
      if Ascii.eqb c quote then Some (EmptyString, s1)
      else if (Ascii.N_of_ascii c <? 32)%N then None
      else if negb (Ascii.eqb c backslash) then prepend (String c EmptyString) (read_string s1)
      else
        match s1 with
        | EmptyString => None
        | String e s2 =>
            if negb (Ascii.eqb e "u"%char) then
              match simple_escape e with
              | Some c => prepend (String c EmptyString) (read_string s2)
              | None => None
              end
            else
              match s2 with
              | String h1 (String h2 (String h3 (String h4 s3))) =>
                  match hex4 h1 h2 h3 h4 with
                  | None => None
                  | Some u =>
                      match s3 with
                      | String b (String v (String k1 (String k2 (String k3 (String k4 s4))))) =>
                          if high_surrogate u && Ascii.eqb b backslash && Ascii.eqb v "u"%char then
                            match hex4 k1 k2 k3 k4 with
                            | None => None
                            | Some l =>
                                if low_surrogate l
                                then prepend (utf8 (65536 + 1024 * (u - 55296) + (l - 56320))) (read_string s4)
                                else prepend (utf8 u) (read_string s3)
                            end
                          else prepend (utf8 u) (read_string s3)
                      | _ => prepend (utf8 u) (read_string s3)
                      end
                  end
              | _ => None
              end
        end
  end.

(** A literal at the start of a text: what follows it. *)
Fixpoint str_drop_prefix (prefix s : string) : option string :=
  match prefix, s with
  | EmptyString, _ => Some s
  | String a prefix, String b s => if Ascii.eqb a b then str_drop_prefix prefix s else None
  | String _ _, EmptyString => None
  end.

(** [0|[1-9]\d*] *)
Definition read_whole (s : string) : option (string * string) :=
  match s with
  | String c rest =>
      if Ascii.eqb c "0"%char then Some (String c EmptyString, rest)
      else if is_digit c then Some (span_digits s) else None
  | EmptyString => None
  end.

(** [(\.\d+)?], and a number: an integer unless it has a fraction or an
    exponent. *)
Definition read_fraction (s : string) : string * string :=
  let '(digits, rest) := take_fraction s in
  if str_nonempty digits then (digits, rest) else (EmptyString, s).

Definition read_number (s : string) : option (json * string) :=
  let '(negative, s1) := match s with
                         | String c rest => if Ascii.eqb c "-"%char then (true, rest) else (false, s)
                         | EmptyString => (false, s)
                         end in
  match read_whole s1 with
  | None => None
  | Some (whole, s2) =>
      let '(fraction, s3) := read_fraction s2 in
      let '(exponent, s4) := take_exponent s3 in
      if str_nonempty fraction || negb (String.eqb s4 s3)
      then Some (JFloat (float_of_decimal (decimal negative whole fraction exponent)), s4)
      else Some (JInt (if negative : bool then - digits_value 0 whole else digits_value 0 whole), s4)
  end.

Definition read_atom (s : string) : option (json * string) :=
  match str_drop_prefix "null" s with Some r => Some (JNull, r) | None =>
  match str_drop_prefix "true" s with Some r => Some (JBool true, r) | None =>
  match str_drop_prefix "false" s with Some r => Some (JBool false, r) | None =>
  match read_number s with Some r => Some r | None =>
  match str_drop_prefix "NaN" s with Some r => Some (JFloat NaN, r) | None =>
  match str_drop_prefix "Infinity" s with Some r => Some (JFloat (Inf false), r) | None =>
  match str_drop_prefix "-Infinity" s with Some r => Some (JFloat (Inf true), r) | None => None
  end end end end end end end.

(** A value; the elements of a list after its bracket; the members of a dict
    after its brace. *)
Fixpoint read_value (fuel : nat) (s : string) : option (json * string) :=
  match fuel with
  | O => None
  | S fuel =>
      match s with
      | EmptyString => None
      | String c s1 =>
          if Ascii.eqb c quote then
            match read_string s1 with Some (t, rest) => Some (JString t, rest) | None => None end
          else if Ascii.eqb c "{"%char then
            let s2 := skip_ws s1 in
            match str_drop_prefix "}" s2 with
            | Some rest => Some (JObject [], rest)
            | None => match read_members fuel s2 with
                      | Some (members, rest) => Some (JObject (dict_of members), rest)
                      | None => None
                      end
            end
          else if Ascii.eqb c "["%char then
            let s2 := skip_ws s1 in
            match str_drop_prefix "]" s2 with
            | Some rest => Some (JArray [], rest)
            | None => match read_elements fuel s2 with
                      | Some (elements, rest) => Some (JArray elements, rest)
                      | None => None
                      end
            end
          else read_atom s
      end
  end
with read_elements (fuel : nat) (s : string) : option (list json * string) :=
  match fuel with
  | O => None
  | S fuel =>
      match read_value fuel s with
      | None => None
      | Some (v, s1) =>
          match skip_ws s1 with
          | EmptyString => None
          | String c s2 =>
              if Ascii.eqb c "]"%char then Some ([v], s2)
              else if Ascii.eqb c ","%char then
                match read_elements fuel (skip_ws s2) with
                | Some (l, rest) => Some (v :: l, rest)
                | None => None
                end
              else None
          end
      end
  end
with read_members (fuel : nat) (s : string) : option (list (string * json) * string) :=
  match fuel with
  | O => None
  | S fuel =>
      match s with
      | EmptyString => None
      | String c s1 =>
          if negb (Ascii.eqb c quote) then None
          else
            match read_string s1 with
            | None => None
            | Some (key, s2) =>
                match str_drop_prefix ":" (skip_ws s2) with
                | None => None
                | Some s3 =>
                    match read_value fuel (skip_ws s3) with
                    | None => None
                    | Some (v, s4) =>
                        match skip_ws s4 with
                        | EmptyString => None
                        | String c s5 =>
                            if Ascii.eqb c "}"%char then Some ([(key, v)], s5)
                            else if Ascii.eqb c ","%char then
                              match read_members fuel (skip_ws s5) with
                              | Some (l, rest) => Some ((key, v) :: l, rest)
                              | None => None
                              end
                            else None
                        end
                    end
                end
            end
      end
  end.

(** Every nested call is on a shorter text, or hands the same text from a list
    to its first value. *)
Definition json_fuel (s : string) : nat := (2 * String.length s + 2)%nat.

Definition json_loads (text : string) : option json :=
  let s := skip_ws text in
  match read_value (json_fuel s) s with
  | Some (v, rest) => if str_nonempty (skip_ws rest) then None else Some v
  | None => None
  end.

(** ** The fuel is enough *)

Local Abbreviation len := String.length.

Lemma str_length_app a b : len (a +:+ b) = (len a + len b)%nat.
Proof. induction a as [|c a IH]; [done|]. exact (f_equal S IH). Qed.

Lemma skip_ws_length s : (len (skip_ws s) ≤ len s)%nat.
Proof. unfold skip_ws. induction s as [|c s IH]; simpl; [done|]. destruct (json_space c); simpl; lia. Qed.

Lemma drop_prefix_length prefix s r : str_drop_prefix prefix s = Some r → len s = (len prefix + len r)%nat.
Proof.
  revert s. induction prefix as [|a prefix IH]; intros [|b s]; simpl; [by intros [= <-]..|done|].
  destruct (Ascii.eqb a b); [|done]. intros H%IH. lia.
Qed.

Lemma prepend_some t r u rest : prepend t r = Some (u, rest) → ∃ u', r = Some (u', rest).
Proof. unfold prepend. destruct r as [[u' rest']|]; [|done]. intros [= _ ->]. eauto. Qed.

(** A text that was read ends before the text it was read from. *)
Lemma read_string_length s : ∀ t rest, read_string s = Some (t, rest) → (len rest < len s)%nat.
Proof.
  enough (∀ n s t rest, (len s ≤ n)%nat → read_string s = Some (t, rest) → (len rest < len s)%nat) as H
    by (intros t rest; by apply (H (len s))).
  intros n. clear s. induction n as [|n IH]; intros s t rest Hn; [by destruct s; simpl in Hn; [|lia]|].
  assert (∀ s' u, (S (len s') ≤ S n)%nat → prepend u (read_string s') = Some (t, rest) → (len rest < len s')%nat)
    as Hrec.
  { intros s' u Hs' (u' & Hr)%prepend_some. apply (IH s' u'); [lia|done]. }
  destruct s as [|c s1]; [done|]. simpl in Hn |- *.
  destruct (Ascii.eqb c quote); [intros [= _ <-]; lia|].
  destruct (_ <? 32)%N; [done|]. destruct (negb (Ascii.eqb c backslash)); [intros H%Hrec; lia|].
  destruct s1 as [|e s2]; [done|]. simpl in Hn.
  destruct (negb (Ascii.eqb e _)).
  { destruct (simple_escape e); [intros H%Hrec; simpl in *; lia|done]. }
  destruct s2 as [|h1 [|h2 [|h3 [|h4 s3]]]]; try done. simpl in Hn.
  destruct (hex4 h1 h2 h3 h4) as [u|]; [|done].
  assert (prepend (utf8 u) (read_string s3) = Some (t, rest) → (len rest < len s3)%nat) as Hs3
    by (intros H; apply (Hrec s3 (utf8 u)); [lia|done]).
  destruct s3 as [|b [|v [|k1 [|k2 [|k3 [|k4 s4]]]]]];
    try (intros H; specialize (Hs3 H); simpl in *; lia).
  destruct (_ && _); [|intros H; specialize (Hs3 H); simpl in *; lia].
  destruct (hex4 k1 k2 k3 k4) as [l|]; [|done].
  destruct (low_surrogate l); [|intros H; specialize (Hs3 H); simpl in *; lia].
  intros H%Hrec; simpl in *; lia.
Qed.

Lemma span_digits_length s a b : span_digits s = (a, b) → len s = (len a + len b)%nat.
Proof.
  revert a b. induction s as [|c s IH]; simpl; intros a b; [by intros [= <- <-]|].
  destruct (is_digit c); [|by intros [= <- <-]].
  destruct (span_digits s) as [a' b'] eqn:E. intros [= <- <-]. simpl. by rewrite (IH a' b').
Qed.

Lemma take_sign_length s b r : take_sign s = (b, r) → (len r ≤ len s)%nat.
Proof.
  destruct s as [|c s]; simpl; [by intros [= _ <-]|].
  destruct (Ascii.eqb c _); [intros [= _ <-]; simpl; lia|].
  destruct (Ascii.eqb c _); intros [= _ <-]; simpl; lia.
Qed.

Lemma take_exponent_length s e r : take_exponent s = (e, r) → (len r ≤ len s)%nat.
Proof.
  destruct s as [|c s]; simpl; [by intros [= _ <-]|].
  destruct (Ascii.eqb _ _); [|by intros [= _ <-]].
  destruct (take_sign s) as [n r1] eqn:E1. destruct (span_digits r1) as [d r2] eqn:E2.
  apply take_sign_length in E1. apply span_digits_length in E2.
  destruct (str_nonempty d); intros [= _ <-]; simpl; lia.
Qed.

Lemma read_fraction_length s d r : read_fraction s = (d, r) → (len r ≤ len s)%nat.
Proof.
  unfold read_fraction, take_fraction. destruct s as [|c s]; simpl; [by intros [= _ <-]|].
  destruct (is_dot c); [|simpl; by intros [= _ <-]].
  destruct (span_digits s) as [d' r'] eqn:E. apply span_digits_length in E.
  destruct (str_nonempty d'); intros [= _ <-]; simpl; lia.
Qed.

Lemma read_whole_length s d r : read_whole s = Some (d, r) → (len r < len s)%nat.
Proof.
  unfold read_whole. destruct s as [|c s]; [done|]. destruct (Ascii.eqb c _); [intros [= _ <-]; simpl; lia|].
  destruct (is_digit c) eqn:Hc; [|done]. cbn [span_digits]. rewrite Hc.
  destruct (span_digits s) as [a b] eqn:E. apply span_digits_length in E. intros [= _ <-]. simpl. lia.
Qed.

Lemma read_number_length s v r : read_number s = Some (v, r) → (len r < len s)%nat.
Proof.
  unfold read_number. set (p := match s with String c rest => _ | EmptyString => _ end).
  assert (len p.2 ≤ len s)%nat as Hp.
  { unfold p. destruct s as [|c s]; [done|]. destruct (Ascii.eqb c _); simpl; lia. }
  destruct p as [negative s1]. simpl in Hp. destruct (read_whole s1) as [[w s2]|] eqn:E2; [|done].
  destruct (read_fraction s2) as [f s3] eqn:E3. destruct (take_exponent s3) as [e s4] eqn:E4.
  apply read_whole_length in E2. apply read_fraction_length in E3. apply take_exponent_length in E4.
  destruct (_ || _); intros [= _ <-]; lia.
Qed.

Lemma read_atom_length s v r : read_atom s = Some (v, r) → (len r < len s)%nat.
Proof.
  unfold read_atom.
  assert (∀ p (w : json) k, (0 < len p)%nat → (k = Some (v, r) → (len r < len s)%nat) →
    match str_drop_prefix p s with Some x => Some (w, x) | None => k end = Some (v, r) →
    (len r < len s)%nat) as Hlit.
  { intros p w k Hp Hk. destruct (str_drop_prefix p s) as [x|] eqn:E; [|done].
    apply drop_prefix_length in E. intros [= _ <-]. lia. }
  do 3 (apply Hlit; [simpl; lia|]). destruct (read_number s) as [[w x]|] eqn:E.
  { intros [= -> ->]. by apply read_number_length in E. }
  do 3 (apply Hlit; [simpl; lia|]). done.
Qed.

(** What a reader leaves is shorter; with [2 n + 1] steps for [n] characters (one
    more for the elements of a list) more fuel changes nothing. *)
Lemma readers_shorten fuel :
  (∀ s v r, read_value fuel s = Some (v, r) → (len r < len s)%nat) ∧
  (∀ s l r, read_elements fuel s = Some (l, r) → (len r < len s)%nat) ∧
  (∀ s l r, read_members fuel s = Some (l, r) → (len r < len s)%nat).
Proof.
  induction fuel as [|fuel (IHv & IHe & IHm)]; [by split_and!|]. cbn [read_value read_elements read_members].
  split_and!.
  - intros [|c s] v r; [done|]. pose proof (skip_ws_length s).
    destruct (Ascii.eqb c quote).
    { destruct (read_string s) as [[t rest]|] eqn:E; [|done]. intros [= _ <-].
      apply read_string_length in E. simpl. lia. }
    destruct (Ascii.eqb c _).
    { destruct (str_drop_prefix _ _) as [rest|] eqn:E.
      - intros [= _ <-]. apply drop_prefix_length in E. simpl in *. lia.
      - destruct (read_members _ _) as [[m rest]|] eqn:Em; [|done]. intros [= _ <-].
        apply IHm in Em. simpl. lia. }
    destruct (Ascii.eqb c _).
    { destruct (str_drop_prefix _ _) as [rest|] eqn:E.
      - intros [= _ <-]. apply drop_prefix_length in E. simpl in *. lia.
      - destruct (read_elements _ _) as [[m rest]|] eqn:Em; [|done]. intros [= _ <-].
        apply IHe in Em. simpl. lia. }
    apply read_atom_length.
  - intros s l r. destruct (read_value fuel s) as [[v s1]|] eqn:Ev; [|done]. apply IHv in Ev.
    pose proof (skip_ws_length s1). destruct (skip_ws s1) as [|c s2]; [done|]. simpl in *.
    destruct (Ascii.eqb c _); [intros [= _ <-]; lia|]. destruct (Ascii.eqb c _); [|done].
    pose proof (skip_ws_length s2). destruct (read_elements _ _) as [[l' rest]|] eqn:Ee; [|done].
    apply IHe in Ee. intros [= _ <-]. lia.
  - intros [|c s] l r; [done|]. destruct (negb _); [done|].
    destruct (read_string s) as [[key s2]|] eqn:Es; [|done]. apply read_string_length in Es.
    pose proof (skip_ws_length s2). destruct (str_drop_prefix _ _) as [s3|] eqn:E3; [|done].
    apply drop_prefix_length in E3. simpl in E3. pose proof (skip_ws_length s3).
    destruct (read_value _ _) as [[v s4]|] eqn:Ev; [|done]. apply IHv in Ev.
    pose proof (skip_ws_length s4). destruct (skip_ws s4) as [|c' s5]; [done|]. simpl in *.
    destruct (Ascii.eqb c' _); [intros [= _ <-]; lia|]. destruct (Ascii.eqb c' _); [|done].
    pose proof (skip_ws_length s5). destruct (read_members _ _) as [[l' rest]|] eqn:Em; [|done].
    apply IHm in Em. intros [= _ <-]. lia.
Qed.

Lemma readers_fuel fuel :
  (∀ s k, (2 * len s + 1 ≤ fuel)%nat → read_value (fuel + k) s = read_value fuel s) ∧
  (∀ s k, (2 * len s + 2 ≤ fuel)%nat → read_elements (fuel + k) s = read_elements fuel s) ∧
  (∀ s k, (2 * len s + 1 ≤ fuel)%nat → read_members (fuel + k) s = read_members fuel s).
Proof.
  induction fuel as [|fuel (IHv & IHe & IHm)]; [split_and!; intros; lia|].
  cbn [Nat.add read_value read_elements read_members]. split_and!.
  - intros [|c s] k Hf; [done|]. simpl in Hf. pose proof (skip_ws_length s).
    destruct (Ascii.eqb c quote); [done|]. rewrite IHm, IHe by lia. done.
  - intros s k Hf. rewrite IHv by lia. destruct (read_value fuel s) as [[v s1]|] eqn:Ev; [|done].
    apply readers_shorten in Ev. pose proof (skip_ws_length s1). destruct (skip_ws s1) as [|c s2]; [done|].
    simpl in *. pose proof (skip_ws_length s2). by rewrite IHe by lia.
  - intros [|c s] k Hf; [done|]. simpl in Hf. destruct (negb _); [done|].
    destruct (read_string s) as [[key s2]|] eqn:Es; [|done]. apply read_string_length in Es.
    pose proof (skip_ws_length s2). destruct (str_drop_prefix _ _) as [s3|] eqn:E3; [|done].
    apply drop_prefix_length in E3. simpl in E3. pose proof (skip_ws_length s3). rewrite IHv by lia.
    destruct (read_value _ _) as [[v s4]|] eqn:Ev; [|done]. apply readers_shorten in Ev.
    pose proof (skip_ws_length s4). destruct (skip_ws s4) as [|c' s5]; [done|]. simpl in *.
    pose proof (skip_ws_length s5). by rewrite IHm by lia.
Qed.

(** Any fuel from [json_fuel] on reads the same value. *)
Lemma json_fuel_enough s k : read_value (json_fuel s + k) s = read_value (json_fuel s) s.
Proof. apply readers_fuel. unfold json_fuel. lia. Qed.

Example json_loads_example :
  json_loads (" [1, -2.5e1, true, {" +:+ String quote "a" +:+ String quote " : [] }, " +:+
              String quote "x\u00e9" +:+ String quote " ] ")%string =
  Some (JArray [JInt 1; JFloat (Fin (decimal true "2" "5" 1)); JBool true; JObject [("a"%string, JArray [])];
                JString (String "x" (utf8 233))]).
Proof. vm_compute. reflexivity. Qed.

(** * Dicts *)

Lemma dict_get_in {A} (k : string) (v : A) d : dict_get k d = Some v → (k, v) ∈ d.
Proof.
  induction d as [|[k' v'] d IH]; simpl; [done|].
  destruct (String.eqb_spec k' k) as [->|Hne]; [intros [= ->]; left|right; auto].
Qed.

Lemma dict_get_set {A} key (v : A) d : dict_get key (dict_set key v d) = Some v.
Proof.
  induction d as [|[k w] d IH]; cbn [dict_set dict_get]; [by rewrite String.eqb_refl|].
  destruct (String.eqb k key) eqn:E; cbn [dict_get]; by rewrite E.
Qed.

Lemma dict_get_set_ne {A} key key' (v : A) d : key ≠ key' → dict_get key' (dict_set key v d) = dict_get key' d.
Proof.
  intros Hne. induction d as [|[k w] d IH]; cbn [dict_set dict_get]; [by rewrite (proj2 (String.eqb_neq key key') Hne)|].
  destruct (String.eqb_spec k key) as [->|Hk]; cbn [dict_get]; [by rewrite (proj2 (String.eqb_neq key key') Hne)|by rewrite IH].
Qed.

Lemma dict_set_same {A} key (v : A) d : dict_get key d = Some v → dict_set key v d = d.
Proof.
  induction d as [|[k w] d IH]; cbn [dict_set dict_get]; [done|].
  destruct (String.eqb k key); [by intros [= ->]|]. intros Hd. by rewrite IH.
Qed.

Lemma dict_get_pop {A} key (d : list (string * A)) : dict_get key (dict_pop key d) = None.
Proof.
  unfold dict_pop. induction d as [|[k w] d IH]; [done|]. rewrite filter_cons. cbn [fst].
  destruct (decide (k ≠ key)) as [Hk|Hk]; [|done]. cbn [dict_get]. by rewrite (proj2 (String.eqb_neq k key) Hk).
Qed.

Lemma dict_get_pop_ne {A} key key' (d : list (string * A)) : key ≠ key' → dict_get key' (dict_pop key d) = dict_get key' d.
Proof.
  intros Hne. unfold dict_pop. induction d as [|[k w] d IH]; [done|]. rewrite filter_cons. cbn [fst dict_get].
  destruct (decide (k ≠ key)) as [Hk|Hk]; cbn [dict_get]; [by rewrite IH|].
  assert (k = key) as -> by (destruct (decide (k = key)); done). by rewrite (proj2 (String.eqb_neq key key') Hne).
Qed.

Lemma dict_pop_absent {A} key (d : list (string * A)) : dict_get key d = None → dict_pop key d = d.
Proof.
  unfold dict_pop. induction d as [|[k w] d IH]; [done|]. cbn [dict_get]. rewrite filter_cons. cbn [fst].
  destruct (String.eqb_spec k key) as [|Hk]; [done|]. intros Hd. rewrite decide_True by done. by rewrite IH.
Qed.

Lemma dict_setdefault_same {A} key (v : A) d : is_Some (dict_get key d) → dict_setdefault key v d = d.
Proof. unfold dict_setdefault. by intros [w ->]. Qed.

Lemma dict_get_setdefault {A} key (v : A) d : dict_get key (dict_setdefault key v d) = Some (default v (dict_get key d)).
Proof. unfold dict_setdefault. destruct (dict_get key d) eqn:E; [done|]. by rewrite dict_get_set. Qed.

Lemma dict_get_setdefault_ne {A} key key' (v : A) d : key ≠ key' → dict_get key' (dict_setdefault key v d) = dict_get key' d.
Proof. unfold dict_setdefault. intros Hne. destruct (dict_get key d); [done|]. by apply dict_get_set_ne. Qed.
