(* ===== verification/JsonText.v ===== *)
(** [json.dumps] as the code calls it, and that [json.loads] reads what it
    writes.

    The text of a finite float ([float.__repr__]) is a parameter; a value whose
    float texts are read back as they are ([plain]) survives the round trip. *)
From stdpp Require Import base gmap strings list pretty.
From Stdlib Require Import Ascii QArith Qround Lqa Sorted.
From S2P Require Import Prelude HttpRetry Json.
Open Scope Z_scope.

(** * Writing *)

(** [separators] and [indent]. *)
Record json_style := JsonStyle {
  js_item : string;
  js_key : string;
  js_indent : option nat
}.
Definition default_style : json_style := JsonStyle ", " ": " None.
Definition compact_style : json_style := JsonStyle "," ":" None.
Definition indented_style : json_style := JsonStyle "," ": " (Some 2%nat).

Definition hex_char (z : Z) : Ascii.ascii :=
  if z <? 10 then byte_of (48 + z) else byte_of (87 + z).

(** A character inside quotes, with [ensure_ascii=False]. *)
Definition escape_char (c : Ascii.ascii) : string :=
  let n := Z.of_N (Ascii.N_of_ascii c) in
  if Ascii.eqb c quote || Ascii.eqb c backslash then String backslash (String c EmptyString)
  else if n =? 10 then String backslash "n"
  else if n =? 13 then String backslash "r"
  else if n =? 9 then String backslash "t"
  else if n =? 12 then String backslash "f"
  else if n =? 8 then String backslash "b"
  else if n <? 32 then String backslash (String "u" (String "0" (String "0"
         (String (hex_char (n / 16)) (String (hex_char (n mod 16)) EmptyString)))))
  else String c EmptyString.

Fixpoint escape (s : string) : string :=
  match s with
  | EmptyString => EmptyString
  | String c s => (escape_char c +:+ escape s)%string
  end.

Definition dumps_string (s : string) : string := String quote (escape s +:+ String quote EmptyString)%string.

Fixpoint spaces (n : nat) : string := match n with O => EmptyString | S n => String " " (spaces n) end.

(** The line break before an element, or nothing. *)
Definition line_break (style : json_style) (level : nat) : string :=
  match js_indent style with
  | Some n => String "010"%char (spaces (n * level))
  | None => EmptyString
  end.

Section Dumps.
Context (float_repr : Q → string) (style : json_style).

Definition dumps_float (f : py_float) : string :=
  match f with Fin q => float_repr q | Inf false => "Infinity" | Inf true => "-Infinity" | NaN => "NaN" end.

(** The elements between their brackets, each after a line break. *)
Definition bracketed (opening closing : string) (level : nat) (elements : list string) : string :=
  match elements with
  | [] => opening +:+ closing
  | _ => opening +:+ line_break style (S level) +:+
           str_join (js_item style +:+ line_break style (S level)) elements +:+
           line_break style level +:+ closing
  end%string.

Fixpoint dumps (level : nat) (v : json) : string :=
  match v with
  | JNull => "null"
  | JBool b => if b then "true" else "false"
  | JInt z => pretty z
  | JFloat f => dumps_float f
  | JString s => dumps_string s
  | JArray l => bracketed "[" "]" level (dumps (S level) <$> l)
  | JObject fields =>
      bracketed "{" "}" level ((λ p, dumps_string p.1 +:+ js_key style +:+ dumps (S level) p.2)%string <$> fields)
  end.
End Dumps.

Definition json_dumps (float_repr : Q → string) (style : json_style) (v : json) : string := dumps float_repr style 0 v.

(** [sort_keys=True] *)
Fixpoint sorted_keys (v : json) : json :=
  match v with
  | JArray l => JArray (sorted_keys <$> l)
  | JObject fields => JObject (sort_by (λ a b, str_leb a.1 b.1) ((λ p, (p.1, sorted_keys p.2)) <$> fields))
  | _ => v
  end.

(** JSON text with single quotes in place of double ones, for examples. *)
Definition quoted (s : string) : string := str_replace "'" quote s.

Example json_dumps_example :
  json_dumps (λ _, "0.5"%string) default_style
    (JObject [("a", JArray [JInt (-12); JNull; JFloat (Fin (1 # 2))]); ("b", JString (String "010"%char "x"))]%string) =
  (quoted "{'a': [-12, null, 0.5], 'b': '\nx'}")%string.
Proof. vm_compute. reflexivity. Qed.

(** * Reading it back *)


(** * Reading it back *)

(** ** Strings *)

Lemma read_escape c s : read_string (escape_char c +:+ s) = prepend (String c EmptyString) (read_string s).
Proof.
  destruct (decide (Z.of_N (Ascii.N_of_ascii c) < 32)) as [Hlt|Hge].
  - destruct c as [b0 b1 b2 b3 b4 b5 b6 b7].
    destruct b7; [exfalso; revert Hlt; by destruct b0, b1, b2, b3, b4, b5, b6|].
    destruct b6; [exfalso; revert Hlt; by destruct b0, b1, b2, b3, b4, b5|].
    destruct b5; [exfalso; revert Hlt; by destruct b0, b1, b2, b3, b4|].
    destruct b4, b3, b2, b1, b0; try reflexivity.
    all: cbn; destruct s as [|? [|? [|? [|? [|? [|? ?]]]]]]; reflexivity.
  - unfold escape_char. destruct (Ascii.eqb_spec c quote) as [->|Hq]; [reflexivity|].
    destruct (Ascii.eqb_spec c backslash) as [->|Hb]; [reflexivity|]. cbn [orb].
    destruct (_ =? 10) eqn:E10; [lia|]. destruct (_ =? 13) eqn:E13; [lia|]. destruct (_ =? 9) eqn:E9; [lia|].
    destruct (_ =? 12) eqn:E12; [lia|]. destruct (_ =? 8) eqn:E8; [lia|].
    destruct (_ <? 32) eqn:E32; [lia|]. cbn [String.app]. change (String c "" +:+ s)%string with (String c s).
    cbn [read_string]. destruct (Ascii.eqb_spec c quote); [done|].
    destruct (N.ltb_spec (Ascii.N_of_ascii c) 32); [lia|]. by destruct (Ascii.eqb_spec c backslash).
Qed.

Lemma read_escaped s rest : read_string (escape s +:+ String quote rest) = Some (s, rest).
Proof.
  induction s as [|c s IH]; [reflexivity|]. cbn [escape]. by rewrite app_assoc_str, read_escape, IH.
Qed.

(** ** Numbers *)

(** What may follow a number. *)
Definition delimited (rest : string) : bool :=
  match rest with
  | EmptyString => true
  | String c _ => negb (is_digit c) && negb (is_dot c) && negb (Ascii.eqb (lower_char c) "e")
  end.

Definition all_digits (s : string) : Prop := str_forallb is_digit s = true.

Lemma span_digits_app s rest : all_digits s → delimited rest = true → span_digits (s +:+ rest) = (s, rest).
Proof.
  intros Hs Hr. induction s as [|c s IH].
  - change ("" +:+ rest)%string with rest. destruct rest as [|c rest]; [done|]. cbn [delimited span_digits] in *.
    by destruct (is_digit c).
  - unfold all_digits in Hs. cbn in Hs. apply andb_true_iff in Hs as [Hc Hs].
    change (String c s +:+ rest)%string with (String c (s +:+ rest)). cbn [span_digits]. by rewrite Hc, IH.
Qed.

Lemma digits_value_app a s t : digits_value a (s +:+ t) = digits_value (digits_value a s) t.
Proof. revert a. induction s as [|c s IH]; intros a; [done|]. apply IH. Qed.

(** The decimal text of a natural number: digits, no leading zero, the value. *)
Definition decimal_text (n : N) (s : string) : Prop :=
  all_digits s ∧ digits_value 0 s = Z.of_N n ∧
  ∃ c t, s = String c t ∧ (n = 0%N → s = "0"%string) ∧ (n ≠ 0%N → c ≠ "0"%char).

Lemma digit_of_char n : (n < 10)%N → is_digit (pretty_N_char n) = true ∧ digit_value (pretty_N_char n) = Z.of_N n.
Proof.
  intros Hn. destruct n as [|p]; [by split|].
  repeat match goal with p : positive |- _ => destruct p; try (exfalso; lia); try (by split) end.
Qed.

Lemma pretty_go_digits n s : (0 < n)%N → all_digits s →
  ∃ c t, pretty_N_go n s = String c (t +:+ s) ∧ c ≠ "0"%char ∧ all_digits (pretty_N_go n s) ∧
    digits_value 0 (String c t) = Z.of_N n.
Proof.
  revert s. induction (N.lt_wf_0 n) as [n _ IH]. intros s Hn Hs. rewrite pretty_N_go_step by done.
  destruct (digit_of_char (n mod 10)) as [Hd Hv]; [by apply N.mod_lt|].
  destruct (decide (0 < n / 10)%N) as [Hpos|Hzero].
  - destruct (IH (n / 10)%N) with (String (pretty_N_char (n mod 10)) s) as (c & t & He & Hc & Ha & Hval).
    + apply N.div_lt; lia.
    + done.
    + unfold all_digits in *. cbn [str_forallb]. by rewrite Hd.
    + exists c, (t +:+ String (pretty_N_char (n mod 10)) "")%string. rewrite He, app_assoc_str. split_and!; try done.
      * by rewrite <-He.
      * change (String c (t +:+ String (pretty_N_char (n mod 10)) ""))%string
          with (String c t +:+ String (pretty_N_char (n mod 10)) "")%string.
        rewrite digits_value_app, Hval. cbn [digits_value]. rewrite Hv. pose proof (N.div_mod n 10 ltac:(lia)). lia.
  - apply N.nlt_ge, N.le_0_r in Hzero as E. pose proof (proj1 (N.div_small_iff n 10 ltac:(lia)) E) as Hlt.
    rewrite E, pretty_N_go_0. rewrite N.mod_small in * by done.
    exists (pretty_N_char n), ""%string. split_and!.
    + reflexivity.
    + intros E0. rewrite E0 in Hv. change (digit_value "0") with 0 in Hv. lia.
    + unfold all_digits in *. cbn [str_forallb]. by rewrite Hd.
    + cbn [digits_value]. rewrite Hv. lia.
Qed.

Lemma pretty_N_text n : decimal_text n (pretty n).
Proof.
  unfold pretty, pretty_N. case_decide as Hn; [subst; by repeat split; eexists _, _|].
  destruct (pretty_go_digits n "") as (c & t & He & Hc & Ha & Hv); [lia|done|].
  rewrite app_nil_str in He. split_and!; [done|by rewrite He|]. exists c, t. by split_and!.
Qed.

Lemma no_exponent rest : delimited rest = true → take_exponent rest = (0, rest).
Proof.
  destruct rest as [|c rest]; [done|]. cbn. intros [[_ _]%andb_true_iff H]%andb_true_iff.
  by destruct (Ascii.eqb (lower_char c) "e").
Qed.

Lemma no_fraction rest : delimited rest = true → read_fraction rest = ("", rest)%string.
Proof.
  destruct rest as [|c rest]; [done|]. unfold read_fraction, take_fraction. cbn [delimited].
  intros [[_ Hd]%andb_true_iff _]%andb_true_iff. by destruct (is_dot c).
Qed.

Lemma read_whole_text n s rest : decimal_text n s → delimited rest = true →
  read_whole (s +:+ rest) = Some (s, rest).
Proof.
  intros (Ha & Hv & c & t & -> & Hz & Hnz) Hr. change (String c t +:+ rest)%string with (String c (t +:+ rest)).
  cbn [read_whole]. destruct (Ascii.eqb_spec c "0") as [->|Hc].
  - destruct (decide (n = 0%N)) as [E|E]; [|by destruct (Hnz E)]. specialize (Hz E). by injection Hz as ->.
  - unfold all_digits in Ha. cbn in Ha. apply andb_true_iff in Ha as [Hc' Ha]. rewrite Hc'. f_equal.
    change (String c (t +:+ rest)) with (String c t +:+ rest)%string. apply span_digits_app; [|done].
    unfold all_digits. cbn. by rewrite Hc'.
Qed.

Lemma decimal_no_minus n s rest : decimal_text n s → ∃ c t, (s +:+ rest)%string = String c t ∧ is_digit c = true.
Proof.
  intros (Ha & _ & c & t & -> & _). exists c, (t +:+ rest)%string. split; [done|].
  unfold all_digits in Ha. cbn [str_forallb] in Ha. by apply andb_true_iff in Ha as [? _].
Qed.

Lemma digit_not_minus c : is_digit c = true → Ascii.eqb c "-" = false.
Proof. intros Hd. destruct (Ascii.eqb_spec c "-") as [->|]; [by vm_compute in Hd|done]. Qed.

Lemma digit_neq c x : is_digit c = true → is_digit x = false → Ascii.eqb c x = false.
Proof. intros Hc Hx. destruct (Ascii.eqb_spec c x); [by subst; congruence|done]. Qed.

Lemma read_pretty z rest : delimited rest = true → read_number (pretty z +:+ rest) = Some (JInt z, rest).
Proof.
  intros Hr.
  assert (∀ n (negative : bool), decimal_text n (pretty n) →
    match read_whole (pretty n +:+ rest) with
    | None => None
    | Some (whole, s2) =>
        let '(fraction, s3) := read_fraction s2 in
        let '(exponent, s4) := take_exponent s3 in
        if str_nonempty fraction || negb (String.eqb s4 s3)
        then Some (JFloat (float_of_decimal (decimal negative whole fraction exponent)), s4)
        else Some (JInt (if negative then - digits_value 0 whole else digits_value 0 whole), s4)
    end = Some (JInt (if negative then - Z.of_N n else Z.of_N n), rest)) as Hbody.
  { intros n negative Hn. rewrite (read_whole_text n _ _ Hn Hr), no_fraction, no_exponent by done.
    rewrite String.eqb_refl. cbn [str_nonempty orb negb]. destruct Hn as (_ & -> & _). done. }
  unfold pretty, pretty_Z. destruct z as [|p|p].
  - exact (Hbody 0%N false (pretty_N_text 0)).
  - destruct (decimal_no_minus (N.pos p) (pretty (N.pos p)) rest (pretty_N_text _)) as (c & t & E & Hc).
    unfold read_number. rewrite E at 1. rewrite (digit_not_minus _ Hc).
    exact (Hbody (N.pos p) false (pretty_N_text _)).
  - exact (Hbody (N.pos p) true (pretty_N_text _)).
Qed.

(** ** Values *)

(** A text starts with neither a blank nor a closing bracket. *)
Definition starts_value (s : string) : Prop :=
  match s with
  | EmptyString => False
  | String c _ => json_space c = false ∧ Ascii.eqb c "]" = false ∧ Ascii.eqb c "}" = false
  end.

Lemma starts_value_app s t : starts_value s → starts_value (s +:+ t).
Proof. by destruct s. Qed.

Lemma skip_ws_starts s : starts_value s → skip_ws s = s.
Proof. destruct s as [|c s]; [done|]. intros (Hc & _). unfold skip_ws. cbn [lstrip]. by rewrite Hc. Qed.

Definition all_blank (s : string) : Prop := str_forallb json_space s = true.

Lemma skip_ws_blank b s : all_blank b → skip_ws (b +:+ s) = skip_ws s.
Proof.
  induction b as [|c b IH]; [done|]. unfold all_blank. cbn [str_forallb]. intros [Hc Hb]%andb_true_iff.
  change (String c b +:+ s)%string with (String c (b +:+ s)). unfold skip_ws in *. cbn [lstrip]. rewrite Hc. by apply IH.
Qed.

Lemma spaces_blank n : all_blank (spaces n).
Proof. by induction n. Qed.
Lemma line_break_blank style level : all_blank (line_break style level).
Proof. unfold line_break. destruct (js_indent style); [|done]. exact (spaces_blank _). Qed.
Lemma all_blank_app a b : all_blank a → all_blank b → all_blank (a +:+ b).
Proof.
  induction a as [|c a IH]; [done|]. unfold all_blank. cbn [str_forallb]. intros [Hc Ha]%andb_true_iff Hb.
  change (String c a +:+ b)%string with (String c (a +:+ b)). cbn [str_forallb]. rewrite Hc. by apply IH.
Qed.

Lemma blank_delimited b c s : all_blank b → delimited (String c s) = true → delimited (b +:+ String c s) = true.
Proof.
  destruct b as [|d b]; [done|]. unfold all_blank. cbn [str_forallb]. intros [Hd _]%andb_true_iff _.
  change (delimited (String d (b +:+ String c s)) = true). unfold json_space in Hd. apply bool_decide_eq_true in Hd.
  rewrite <-(Ascii.ascii_N_embedding d).
  repeat (apply elem_of_cons in Hd as [->|Hd]; [reflexivity|]). by apply elem_of_nil in Hd.
Qed.

(** Separators that the reader skips over. *)
Definition style_ok (style : json_style) : Prop :=
  (∃ b, js_item style = String "," b ∧ all_blank b) ∧ (∃ b, js_key style = String ":" b ∧ all_blank b).

Lemma styles_ok : style_ok default_style ∧ style_ok compact_style ∧ style_ok indented_style.
Proof. split_and!; split; by eexists. Qed.

Section RoundTrip.
Context (float_repr : Q → string) (style : json_style) (Hstyle : style_ok style).

(** Enough fuel reads a value; the same for elements and members. *)
Definition reads (v : json) (s rest : string) : Prop :=
  ∃ n, ∀ fuel, (n ≤ fuel)%nat → read_value fuel s = Some (v, rest).
Definition reads_elements (l : list json) (s rest : string) : Prop :=
  ∃ n, ∀ fuel, (n ≤ fuel)%nat → read_elements fuel s = Some (l, rest).
Definition reads_members (l : list (string * json)) (s rest : string) : Prop :=
  ∃ n, ∀ fuel, (n ≤ fuel)%nat → read_members fuel s = Some (l, rest).

(** The text of a finite float is read back. *)
Definition float_reads_back (f : py_float) : Prop :=
  starts_value (dumps_float float_repr f) ∧
  ∀ rest, delimited rest = true → reads (JFloat f) (dumps_float float_repr f +:+ rest) rest.

(** What survives: floats whose text is read back, dicts with distinct keys. *)
Fixpoint plain (v : json) : Prop :=
  match v with
  | JFloat f => float_reads_back f
  | JArray l => foldr (λ v P, plain v ∧ P) True l
  | JObject fields => NoDup fields.*1 ∧ foldr (λ p P, plain p.2 ∧ P) True fields
  | _ => True
  end.

Lemma dumps_starts level v : plain v → starts_value (dumps float_repr style level v).
Proof.
  destruct v as [|b|z|f|s|l|fields]; cbn [dumps]; try done.
  - by destruct b.
  - intros _. unfold pretty, pretty_Z. destruct z as [|p|p]; [done| |done].
    destruct (decimal_no_minus (N.pos p) (pretty (N.pos p)) "" (pretty_N_text _)) as (c & t & E & Hc).
    rewrite app_nil_str in E. change (starts_value (pretty (N.pos p))). rewrite E. cbn [starts_value].
    split_and!; [|by apply digit_neq..].
    unfold json_space. apply bool_decide_eq_false. intros Hin. unfold is_digit in Hc.
    repeat (apply elem_of_cons in Hin as [Hin|Hin]; [by rewrite Hin in Hc|]). by apply elem_of_nil in Hin.
  - by intros [H _].
  - intros _. by destruct l.
  - intros _. by destruct fields.
Qed.

(** A minus sign or a digit starts a number. *)
Lemma reads_number fuel c t r : c = "-"%char ∨ is_digit c = true → read_number (String c t) = Some r →
  read_value (S fuel) (String c t) = Some r.
Proof.
  intros Hc Hr. cbn [read_value].
  assert (∀ d, (d = "-"%char ∨ is_digit d = true) → Ascii.eqb d quote = false ∧ Ascii.eqb d "{" = false ∧
    Ascii.eqb d "[" = false ∧ str_drop_prefix "null" (String d t) = None ∧ str_drop_prefix "true" (String d t) = None ∧
    str_drop_prefix "false" (String d t) = None) as Hd.
  { intros d [->|Hd]; [by split_and!|].
    assert (∀ x, is_digit x = false → Ascii.eqb d x = false) as Hx
      by (intros x Hx; destruct (Ascii.eqb_spec d x); [by subst; congruence|done]).
    assert (∀ x, is_digit x = false → Ascii.eqb x d = false) as Hx'
      by (intros x Hx'; destruct (Ascii.eqb_spec x d); [by subst; congruence|done]).
    cbn [str_drop_prefix]. rewrite !Hx, !Hx' by reflexivity. done. }
  destruct (Hd c Hc) as (-> & -> & -> & H1 & H2 & H3). unfold read_atom. by rewrite H1, H2, H3, Hr.
Qed.

Lemma reads_int z rest : delimited rest = true → reads (JInt z) (pretty z +:+ rest) rest.
Proof.
  intros Hr. exists 1%nat. intros [|fuel] Hf; [lia|].
  assert (∃ c t, (pretty z +:+ rest)%string = String c t ∧ (c = "-"%char ∨ is_digit c = true)) as (c & t & E & Hc).
  { unfold pretty, pretty_Z. destruct z as [|p|p].
    - exists "0"%char, rest. split; [done|by right].
    - destruct (decimal_no_minus (N.pos p) (pretty (N.pos p)) rest (pretty_N_text _)) as (c & t & E & Hc). eauto.
    - eexists _, _. split; [reflexivity|by left]. }
  pose proof (read_pretty z rest Hr) as Hz. rewrite E in *. by apply reads_number.
Qed.

Lemma reads_string s rest : reads (JString s) (dumps_string s +:+ rest) rest.
Proof.
  exists 1%nat. intros [|fuel] Hf; [lia|]. unfold dumps_string.
  change (String quote (escape s +:+ String quote "") +:+ rest)%string
    with (String quote ((escape s +:+ String quote "") +:+ rest)).
  rewrite app_assoc_str. change (String quote "" +:+ rest)%string with (String quote rest). cbn [read_value].
  rewrite Ascii.eqb_refl. by rewrite read_escaped.
Qed.

(** The closing bracket after the last element, and the separator before the
    next one. *)
Lemma item_separator level : ∃ b, (js_item style +:+ line_break style level)%string = String "," b ∧ all_blank b.
Proof.
  destruct Hstyle as [(b & -> & Hb) _]. exists (b +:+ line_break style level)%string. split; [done|].
  apply all_blank_app; [done|apply line_break_blank].
Qed.

Lemma key_separator : ∃ b, js_key style = String ":" b ∧ all_blank b.
Proof. by destruct Hstyle as [_ ?]. Qed.

Lemma skip_ws_non_blank c s : json_space c = false → skip_ws (String c s) = String c s.
Proof. intros Hc. unfold skip_ws. cbn [lstrip]. by rewrite Hc. Qed.

Lemma join_starts sep a l : starts_value a → starts_value (str_join sep (a :: l)).
Proof. intros Ha. destruct l; [done|]. by apply starts_value_app. Qed.

(** Elements joined by separators, up to a closing bracket. *)
Lemma reads_joined level l : ∀ v rest closing,
  (∀ w, w ∈ v :: l → plain w ∧ ∀ lv r, delimited r = true → reads w (dumps float_repr style lv w +:+ r) r) →
  all_blank closing →
  reads_elements (v :: l)
    (str_join (js_item style +:+ line_break style level) (dumps float_repr style level <$> v :: l) +:+
       closing +:+ String "]" rest) rest.
Proof.
  destruct (item_separator level) as (sep & Esep & Hsep). rewrite Esep.
  induction l as [|w l IH]; intros v rest closing Hall Hclosing.
  - destruct (Hall v) as [Hp Hv]; [left|]. cbn [fmap list_fmap str_join].
    destruct (Hv level (closing +:+ String "]" rest)%string) as [n Hn]; [by apply blank_delimited|].
    exists (S n). intros [|fuel] Hf; [lia|]. cbn [read_elements]. rewrite Hn by lia.
    rewrite skip_ws_blank, skip_ws_non_blank by done. by rewrite Ascii.eqb_refl.
  - destruct (Hall v) as [Hp Hv]; [left|].
    destruct (IH w rest closing) as [m Hm]; [intros x Hx; apply Hall; by right|done|].
    set (more := str_join (String "," sep) (dumps float_repr style level <$> w :: l)) in *.
    change (str_join (String "," sep) (dumps float_repr style level <$> v :: w :: l))
      with (dumps float_repr style level v +:+ String "," sep +:+ more)%string. rewrite !app_assoc_str.
    destruct (Hv level (String "," sep +:+ more +:+ closing +:+ String "]" rest)%string) as [n Hn]; [done|].
    exists (S (n + m)). intros [|fuel] Hf; [lia|]. cbn [read_elements]. rewrite Hn by lia.
    change (String "," sep +:+ more +:+ closing +:+ String "]" rest)%string
      with (String "," (sep +:+ more +:+ closing +:+ String "]" rest)).
    rewrite skip_ws_non_blank by done. cbn [Ascii.eqb]. rewrite skip_ws_blank by done.
    assert (starts_value (more +:+ closing +:+ String "]" rest)) as Hs.
    { apply starts_value_app, join_starts, dumps_starts, Hall. right. left. }
    rewrite (skip_ws_starts _ Hs), Hm by lia. done.
Qed.

Definition member_text (level : nat) (p : string * json) : string :=
  (dumps_string p.1 +:+ js_key style +:+ dumps float_repr style level p.2)%string.

Lemma member_starts level p : starts_value (member_text level p).
Proof. done. Qed.

Lemma reads_member_list level l : ∀ p rest closing,
  (∀ w, w ∈ p :: l → plain w.2 ∧ ∀ lv r, delimited r = true → reads w.2 (dumps float_repr style lv w.2 +:+ r) r) →
  all_blank closing →
  reads_members (p :: l)
    (str_join (js_item style +:+ line_break style level) (member_text level <$> p :: l) +:+
       closing +:+ String "}" rest) rest.
Proof.
  destruct (item_separator level) as (sep & Esep & Hsep). rewrite Esep. destruct key_separator as (ks & Eks & Hks).
  assert (∀ key v tail n fuel, plain v →
    (∀ fuel, (n ≤ fuel)%nat → read_value fuel (dumps float_repr style level v +:+ tail) = Some (v, tail)) → (n ≤ fuel)%nat →
    read_members (S fuel) (member_text level (key, v) +:+ tail) =
    match skip_ws tail with
    | EmptyString => None
    | String c s5 =>
        if Ascii.eqb c "}"%char then Some ([(key, v)], s5)
        else if Ascii.eqb c ","%char then
          match read_members fuel (skip_ws s5) with
          | Some (l, rest) => Some ((key, v) :: l, rest)
          | None => None
          end
        else None
    end) as Hone.
  { intros key v tail n fuel Hp Hn Hf. unfold member_text, dumps_string. cbn [fst snd]. rewrite Eks.
    change ((String quote (escape key +:+ String quote "") +:+ String ":" ks +:+ dumps float_repr style level v) +:+ tail)%string
      with (String quote (((escape key +:+ String quote "") +:+ String ":" ks +:+ dumps float_repr style level v) +:+ tail)).
    rewrite !app_assoc_str.
    change (String quote "" +:+ String ":" ks +:+ dumps float_repr style level v +:+ tail)%string
      with (String quote (String ":" (ks +:+ dumps float_repr style level v +:+ tail))).
    cbn [read_members]. rewrite Ascii.eqb_refl, read_escaped. cbn [negb]. rewrite skip_ws_non_blank by done.
    cbn [str_drop_prefix]. rewrite Ascii.eqb_refl. cbn [str_drop_prefix].
    rewrite skip_ws_blank by done. rewrite skip_ws_starts by by apply starts_value_app, dumps_starts.
    by rewrite Hn by lia. }
  induction l as [|w l IH]; intros [key v] rest closing Hall Hclosing.
  - destruct (Hall (key, v)) as [Hp Hv]; [left|]. cbn [fmap list_fmap str_join].
    destruct (Hv level (closing +:+ String "}" rest)%string) as [n Hn]; [by apply blank_delimited|].
    exists (S n). intros [|fuel] Hf; [lia|]. rewrite (Hone key v _ n) by (done || lia).
    rewrite skip_ws_blank, skip_ws_non_blank by done. by rewrite Ascii.eqb_refl.
  - destruct (Hall (key, v)) as [Hp Hv]; [left|].
    destruct (IH w rest closing) as [m Hm]; [intros x Hx; apply Hall; by right|done|].
    set (more := str_join (String "," sep) (member_text level <$> w :: l)) in *.
    change (str_join (String "," sep) (member_text level <$> (key, v) :: w :: l))
      with (member_text level (key, v) +:+ String "," sep +:+ more)%string. rewrite !app_assoc_str.
    destruct (Hv level (String "," sep +:+ more +:+ closing +:+ String "}" rest)%string) as [n Hn]; [done|].
    exists (S (n + m)). intros [|fuel] Hf; [lia|]. rewrite (Hone key v _ n) by (done || lia).
    change (String "," sep +:+ more +:+ closing +:+ String "}" rest)%string
      with (String "," (sep +:+ more +:+ closing +:+ String "}" rest)).
    rewrite skip_ws_non_blank by done. cbn [Ascii.eqb]. rewrite skip_ws_blank by done.
    assert (starts_value (more +:+ closing +:+ String "}" rest)) as Hs.
    { by apply starts_value_app, join_starts. }
    rewrite (skip_ws_starts _ Hs), Hm by lia. done.
Qed.

Lemma plain_array l : plain (JArray l) ↔ ∀ v, v ∈ l → plain v.
Proof.
  cbn [plain]. induction l as [|v l IH]; cbn [foldr]; [split; [intros _ ? H; by apply elem_of_nil in H|done]|].
  rewrite IH. split; [intros [Hv Hl] w [->|Hw]%elem_of_cons; auto|].
  intros H. split; [apply H; left|intros w Hw; apply H; by right].
Qed.

Lemma plain_object fields : plain (JObject fields) ↔ NoDup fields.*1 ∧ ∀ p, p ∈ fields → plain p.2.
Proof.
  cbn [plain]. apply and_iff_compat_l.
  induction fields as [|v l IH]; cbn [foldr]; [split; [intros _ ? H; by apply elem_of_nil in H|done]|].
  rewrite IH. split; [intros [Hv Hl] w [->|Hw]%elem_of_cons; auto|].
  intros H. split; [apply H; left|intros w Hw; apply H; by right].
Qed.

Lemma dict_set_new {A} key (v : A) d : key ∉ d.*1 → dict_set key v d = d ++ [(key, v)].
Proof.
  induction d as [|[k w] d IH]; [done|]. cbn [dict_set fmap list_fmap fst]. intros Hk.
  destruct (String.eqb_spec k key) as [->|Hne]; [destruct Hk; left|]. cbn [app].
  rewrite IH; [done|]. intros H. apply Hk. by right.
Qed.

Lemma dict_of_distinct {A} (d : list (string * A)) : NoDup d.*1 → dict_of d = d.
Proof.
  unfold dict_of. enough (∀ acc, NoDup (acc ++ d).*1 → foldl (λ d p, dict_set p.1 p.2 d) acc d = acc ++ d) as H
    by (intros Hnd; apply (H []); done).
  induction d as [|[k v] d IH]; intros acc Hnd; cbn [foldl]; [by rewrite app_nil_r|].
  rewrite fmap_app in Hnd. cbn [fmap list_fmap fst] in Hnd. apply NoDup_app in Hnd as (H1 & H2 & H3).
  apply NoDup_cons in H3 as [H3 H4].
  rewrite dict_set_new by (intros Hk; apply (H2 k Hk); left). rewrite IH, <-app_assoc; [done|].
  rewrite <-app_assoc, fmap_app. cbn. apply NoDup_app. split_and!; [done|done|]. by apply NoDup_cons.
Qed.

Lemma not_closing s c : starts_value s → (c = "]"%char ∨ c = "}"%char) → str_drop_prefix (String c "") s = None.
Proof.
  destruct s as [|d s]; [done|]. intros (_ & H1 & H2) Hc. cbn [str_drop_prefix].
  destruct (Ascii.eqb_spec c d) as [->|]; [|done]. destruct Hc as [->| ->]; done.
Qed.

Lemma reads_dumps v : plain v → ∀ level rest, delimited rest = true →
  reads v (dumps float_repr style level v +:+ rest) rest.
Proof.
  induction v as [|b|z|f|s|l IH|fields IH] using json_induction; intros Hp level rest Hr.
  - exists 1%nat. intros [|fuel] Hf; [lia|reflexivity].
  - exists 1%nat. intros [|fuel] Hf; [lia|]. by destruct b.
  - by apply reads_int.
  - by apply Hp.
  - apply reads_string.
  - rewrite plain_array in Hp. destruct l as [|v l].
    { exists 1%nat. intros [|fuel] Hf; [lia|reflexivity]. }
    cbn [dumps]. unfold bracketed. set (texts := dumps float_repr style (S level) <$> v :: l).
    change (match texts with [] => _ | _ :: _ => ?x end) with x.
    destruct (reads_joined (S level) l v rest (line_break style level)) as [n Hn].
    { intros w Hw. split; [by apply Hp|]. intros lv r. rewrite Forall_forall in IH. apply IH; [done|by apply Hp]. }
    { apply line_break_blank. }
    fold texts in Hn. exists (S n). intros [|fuel] Hf; [lia|]. rewrite !app_assoc_str.
    change ("[" +:+ ?x)%string with (String "[" x). cbn [read_value]. cbn [Ascii.eqb].
    rewrite skip_ws_blank by apply line_break_blank.
    assert (starts_value (str_join (js_item style +:+ line_break style (S level)) texts +:+ line_break style level +:+ String "]" rest)) as Hs.
    { apply starts_value_app, join_starts, dumps_starts, Hp. left. }
    change ("]" +:+ rest)%string with (String "]" rest).
    rewrite (skip_ws_starts _ Hs), (not_closing _ "]" Hs) by by left. rewrite Hn by lia. done.
  - rewrite plain_object in Hp. destruct Hp as [Hnd Hp]. destruct fields as [|p fields].
    { exists 1%nat. intros [|fuel] Hf; [lia|reflexivity]. }
    cbn [dumps]. unfold bracketed. set (texts := _ <$> p :: fields).
    change (match texts with [] => _ | _ :: _ => ?x end) with x.
    destruct (reads_member_list (S level) fields p rest (line_break style level)) as [n Hn].
    { intros w Hw. split; [by apply Hp|]. intros lv r. rewrite Forall_forall in IH. apply IH; [done|by apply Hp]. }
    { apply line_break_blank. }
    change (member_text (S level) <$> p :: fields) with texts in Hn.
    exists (S n). intros [|fuel] Hf; [lia|]. rewrite !app_assoc_str.
    change ("{" +:+ ?x)%string with (String "{" x). cbn [read_value]. cbn [Ascii.eqb].
    rewrite skip_ws_blank by apply line_break_blank.
    assert (starts_value (str_join (js_item style +:+ line_break style (S level)) texts +:+ line_break style level +:+ String "}" rest)) as Hs.
    { by apply starts_value_app, join_starts. }
    change ("}" +:+ rest)%string with (String "}" rest).
    rewrite (skip_ws_starts _ Hs), (not_closing _ "}" Hs) by by right. rewrite Hn by lia.
    by rewrite dict_of_distinct.
Qed.

(** Whatever fuel suffices, [json_fuel] does. *)
Lemma reads_loads v s b : starts_value s → all_blank b → reads v (s +:+ b) b → json_loads (s +:+ b) = Some v.
Proof.
  intros Hs Hb [n Hn]. unfold json_loads. rewrite skip_ws_starts by by apply starts_value_app.
  rewrite <-(json_fuel_enough _ n), Hn by lia. rewrite <-(app_nil_str b), skip_ws_blank by done. done.
Qed.

Lemma blank_end_delimited b : all_blank b → delimited b = true.
Proof.
  destruct b as [|c b]; [done|]. intros Hb. rewrite <-(app_nil_str (String c b)).
  unfold all_blank in Hb. cbn [str_forallb] in Hb. apply andb_true_iff in Hb as [Hc _].
  unfold json_space in Hc. apply bool_decide_eq_true in Hc. rewrite <-(Ascii.ascii_N_embedding c).
  repeat (apply elem_of_cons in Hc as [->|Hc]; [reflexivity|]). by apply elem_of_nil in Hc.
Qed.

(** [json.loads(json.dumps(v) + blanks)] *)
Lemma loads_dumps v b : plain v → all_blank b → json_loads (json_dumps float_repr style v +:+ b) = Some v.
Proof.
  intros Hp Hb. apply reads_loads; [by apply dumps_starts|done|]. apply reads_dumps; [done|by apply blank_end_delimited].
Qed.
End RoundTrip.

(** ** Two ways to see that a value is plain *)

(** A positive decimal text with a fraction. *)
Lemma decimal_reads_back (float_repr : Q → string) q c w f : float_repr q = (String c w +:+ String "." f)%string →
  is_digit c = true → (∀ rest, read_whole (String c w +:+ String "." rest) = Some (String c w, String "." rest)) →
  all_digits f → str_nonempty f = true → float_of_decimal (decimal false (String c w) f 0) = Fin q →
  float_reads_back float_repr (Fin q).
Proof.
  intros Hq Hc Hwhole Hf Hne Hvalue. unfold float_reads_back. cbn [dumps_float]. rewrite Hq. split.
  { change (starts_value (String c (w +:+ String "." f))). cbn [starts_value]. split_and!; [|by apply digit_neq..].
    clear -Hc. destruct c as [[] [] [] [] [] [] [] []]; done. }
  intros rest Hr. exists 1%nat. intros [|fuel] Hfuel; [lia|]. rewrite app_assoc_str.
  change (String "." f +:+ rest)%string with (String "." (f +:+ rest)).
  change (String c w +:+ String "." (f +:+ rest))%string with (String c (w +:+ String "." (f +:+ rest))).
  apply reads_number; [by right|]. unfold read_number. rewrite (digit_not_minus c Hc).
  change (String c (w +:+ String "." (f +:+ rest))) with (String c w +:+ String "." (f +:+ rest))%string.
  rewrite Hwhole. unfold read_fraction.
  change (take_fraction (String "." (f +:+ rest))) with (span_digits (f +:+ rest)). rewrite span_digits_app by done.
  rewrite Hne, no_exponent by done. cbn [orb]. by rewrite Hne, Hvalue.
Qed.

(** A test with a test of the floats. *)
Fixpoint plain_if (float_ok : py_float → bool) (v : json) : bool :=
  match v with
  | JFloat f => float_ok f
  | JArray l => foldr (λ v b, plain_if float_ok v && b) true l
  | JObject fields => bool_decide (NoDup fields.*1) && foldr (λ p b, plain_if float_ok p.2 && b) true fields
  | _ => true
  end.

Lemma plain_if_plain (float_repr : Q → string) float_ok v : (∀ f, float_ok f = true → float_reads_back float_repr f) →
  plain_if float_ok v = true → plain float_repr v.
Proof.
  intros Hok. induction v as [|b|z|f|s|l IH|fields IH] using json_induction; intros Hv; try done.
  - by apply Hok.
  - cbn [plain plain_if] in *. induction IH as [|v l Hv' _ IHl]; [done|]. cbn [foldr] in *.
    apply andb_true_iff in Hv as [H1 H2]. auto.
  - cbn [plain plain_if] in *. apply andb_true_iff in Hv as [Hnd Hv]. apply bool_decide_eq_true in Hnd. split; [done|].
    clear Hnd. induction IH as [|p l Hp _ IHl]; [done|]. cbn [foldr] in *. apply andb_true_iff in Hv as [H1 H2]. auto.
Qed.

(** * The theorem *)

(** [json.loads] reads what [json.dumps] writes, whatever the separators and
    the indentation: for a value whose dicts have distinct keys and whose float
    texts are read back, with any blanks after it. *)
Theorem json_round_trip (float_repr : Q → string) (style : json_style) (v : json) (blanks : string)
  (Hstyle : style_ok style) (Hplain : plain float_repr v) (Hblanks : all_blank blanks) :
  json_loads (json_dumps float_repr style v +:+ blanks) = Some v.
Proof. by apply loads_dumps. Qed.

(** A nested value with escapes, and one float text that is read back. *)
Definition ex_value : json :=
  JObject [("name", JString (String quote (String "010"%char "tab")));
           ("list", JArray [JInt (-120); JInt 0; JBool false; JNull; JObject []]);
           ("share", JFloat (Fin (1 # 2)))]%string.

Lemma ex_half_reads_back : float_reads_back (λ _, "0.5"%string) (Fin (1 # 2)).
Proof. by apply (decimal_reads_back _ _ "0" "" "5"). Qed.

Lemma json_round_trip_witness :
  json_loads (json_dumps (λ _, "0.5"%string) indented_style ex_value +:+ String "010"%char "") = Some ex_value.
Proof.
  apply json_round_trip; [apply styles_ok| |done]. apply plain_object. split; [by apply (bool_decide_unpack _)|].
  intros p Hp. repeat (apply elem_of_cons in Hp as [->|Hp]; [cbn [snd]|]); [done| | |by apply elem_of_nil in Hp].
  - repeat split. apply NoDup_nil_2.
  - exact ex_half_reads_back.
Defined.
