(* ===== verification/Net.v ===== *)
(** Bytes and addresses of the network: UTF-8, IP addresses ([ipaddress]), URLs
    ([urllib.parse]), the pieces of the Python library that the modules facing
    the network use.

    A text is the sequence of its UTF-8 bytes. *)
From stdpp Require Import base strings list.
From Stdlib Require Import Ascii.
From S2P Require Import Prelude HttpRetry Json JsonText.
Open Scope Z_scope.

(** * UTF-8 *)

(** After the first byte of a sequence: how many bytes follow, and the bounds
    of the next one. *)
Definition utf8_lead (n : N) : option (nat * N * N) :=
  let within a b := ((a <=? n) && (n <=? b))%N in
  if (n <? 128)%N then Some (0%nat, 128%N, 191%N)
  else if within 194%N 223%N then Some (1%nat, 128%N, 191%N)
  else if (n =? 224)%N then Some (2%nat, 160%N, 191%N)
  else if (n =? 237)%N then Some (2%nat, 128%N, 159%N)
  else if within 225%N 239%N then Some (2%nat, 128%N, 191%N)
  else if (n =? 240)%N then Some (3%nat, 144%N, 191%N)
  else if within 241%N 243%N then Some (3%nat, 128%N, 191%N)
  else if (n =? 244)%N then Some (3%nat, 128%N, 143%N)
  else None.

Definition byte_within (low high : N) (c : Ascii.ascii) : bool :=
  let n := Ascii.N_of_ascii c in ((low <=? n) && (n <=? high))%N.

Definition is_continuation (c : Ascii.ascii) : bool := byte_within 128 191 c.

(** [len(s)]: the characters of a text, not its bytes. *)
Fixpoint char_length (s : string) : Z :=
  match s with
  | EmptyString => 0
  | String c s => (if is_continuation c then 0 else 1) + char_length s
  end.

(** [s[:n]] in characters: a continuation byte belongs to the character before. *)
Fixpoint char_take (n : nat) (s : string) : string :=
  match s with
  | EmptyString => EmptyString
  | String c rest =>
      if is_continuation c then String c (char_take n rest)
      else match n with O => EmptyString | S n => String c (char_take n rest) end
  end.

(** [payload.decode("utf-8")] does not raise: [more] continuation bytes are
    due, the next one between [low] and [high]. *)
Fixpoint utf8_from (more : nat) (low high : N) (s : string) : bool :=
  match s with
  | EmptyString => match more with O => true | S _ => false end
  | String c s =>
      match more with
      | S more => byte_within low high c && utf8_from more 128 191 s
      | O => match utf8_lead (Ascii.N_of_ascii c) with
             | Some (more, low, high) => utf8_from more low high s
             | None => false
             end
      end
  end.
Definition is_utf8 (payload : string) : bool := utf8_from 0 128 191 payload.

Definition is_ascii (s : string) : bool := str_forallb (λ c, (Ascii.N_of_ascii c <? 128)%N) s.

(** U+FFFD *)
Definition replacement_character : string := String "239" (String "191" (String "189" EmptyString)).

(** [payload.decode("utf-8", errors="replace")]: every longest broken piece of
    a sequence becomes U+FFFD; [pending] is the sequence so far. *)
Fixpoint utf8_replace_from (pending : string) (more : nat) (low high : N) (s : string) : string :=
  match s with
  | EmptyString => match more with O => EmptyString | S _ => replacement_character end
  | String c s =>
      let start :=
        match utf8_lead (Ascii.N_of_ascii c) with
        | Some (O, _, _) => String c (utf8_replace_from EmptyString 0 128 191 s)
        | Some (more, low, high) => utf8_replace_from (String c EmptyString) more low high s
        | None => (replacement_character +:+ utf8_replace_from EmptyString 0 128 191 s)%string
        end in
      match more with
      | O => start
      | S more =>
          if byte_within low high c
          then match more with
               | O => (pending +:+ String c (utf8_replace_from EmptyString 0 128 191 s))%string
               | S _ => utf8_replace_from (pending +:+ String c EmptyString)%string more 128 191 s
               end
          else (replacement_character +:+ start)%string
      end
  end.
Definition utf8_replace (payload : string) : string := utf8_replace_from EmptyString 0 128 191 payload.

(** * IP addresses: [ipaddress.ip_address] *)

Inductive ip := IPv4 (bits : Z) | IPv6 (bits : Z).

(** One decimal part: at most three digits, no leading zero, at most 255. *)
Definition octet_of (s : string) : option Z :=
  let value := digits_value 0 s in
  if str_nonempty s && str_forallb is_digit s && Nat.leb (String.length s) 3
     && negb (str_startswith s "0" && negb (String.eqb s "0")) && (value <=? 255)
  then Some value else None.

Definition ipv4_of (s : string) : option Z :=
  octets ← mapM octet_of (str_split "."%char s);
  match octets with
  | [a; b; c; d] => Some (((a * 256 + b) * 256 + c) * 256 + d)
  | _ => None
  end.

Fixpoint hex_value (acc : Z) (s : string) : option Z :=
  match s with
  | EmptyString => Some acc
  | String c s => d ← hex_digit c; hex_value (16 * acc + d) s
  end.

(** One part of an IPv6 address: one to four hexadecimal digits. *)
Definition hextet_of (s : string) : option Z :=
  if str_nonempty s && Nat.leb (String.length s) 4 then hex_value 0 s else None.

Definition hextets (bits : Z) (parts : list string) : option Z :=
  values ← mapM hextet_of parts;
  Some (foldl (λ acc v, 65536 * acc + v) bits values).

(** The parts with an IPv4 address at the end read as two numbers. *)
Definition split_embedded (parts : list string) : option (list string * list Z) :=
  match rev parts with
  | last :: before =>
      if str_contains "." last then v ← ipv4_of last; Some (rev before, [v / 65536; v mod 65536]) else Some (parts, [])
  | [] => Some (parts, [])
  end.

Definition is_empty (s : string) : bool := negb (str_nonempty s).

(** The index of the first and the number of the empty parts between the ends. *)
Fixpoint inner_empty (index : nat) (parts : list string) : list nat :=
  match parts with
  | [] | [_] => []
  | p :: parts => (if is_empty p then [index] else []) ++ inner_empty (S index) parts
  end.

Definition shift16 (n : nat) (bits : Z) : Z := bits * 65536 ^ Z.of_nat n.

(** The address whose colon separates [parts]; [tail] holds the numbers of an
    embedded IPv4 address. *)
Definition ipv6_parts (parts : list string) (tail : list Z) : option Z :=
  let all := (length parts + length tail)%nat in
  let add bits := foldl (λ acc v, 65536 * acc + v) bits tail in
  if Nat.ltb 9 all then None
  else
    match inner_empty 1 (drop 1 (parts ++ (const "-"%string <$> tail))) with
    | [] =>
        if negb (Nat.eqb all 8) then None else add <$> hextets 0 parts
    | [skip] =>
        let first_empty := match parts with p :: _ => is_empty p | [] => false end in
        let last_empty := match tail, rev parts with [], p :: _ => is_empty p | _, _ => false end in
        let lo := (all - skip - 1)%nat in
        if (first_empty && negb (Nat.eqb skip 1)) || (last_empty && negb (Nat.eqb lo 1)) then None
        else
          let hi := if first_empty then 0%nat else skip in
          let lo := if last_empty then 0%nat else lo in
          if Nat.ltb 7 (hi + lo) then None
          else
            bits ← hextets 0 (take hi parts);
            add <$> hextets (shift16 (8 - (hi + lo)) bits) (if last_empty then [] else drop (S skip) parts)
    | _ => None
    end.

(** [addr%scope]; the scope may not be empty nor hold another percent sign. *)
Definition without_scope (s : string) : option string :=
  match str_split "%"%char s with
  | [addr] => Some addr
  | [addr; scope] => if str_nonempty scope then Some addr else None
  | _ => None
  end.

Definition ipv6_of (s : string) : option Z :=
  addr ← without_scope s;
  let parts := str_split ":"%char addr in
  if Nat.ltb (length parts) 3 then None
  else '(parts, tail) ← split_embedded parts; ipv6_parts parts tail.

Definition ip_address (s : string) : option ip :=
  if str_contains "/" s then None
  else match ipv4_of s with
       | Some bits => Some (IPv4 bits)
       | None => IPv6 <$> ipv6_of s
       end.

Definition is_ip_address (s : string) : bool := match ip_address s with Some _ => true | None => false end.

(** [is_loopback]: 127.0.0.0/8 and ::1 *)
Definition is_loopback (a : ip) : bool :=
  match a with IPv4 bits => bits / 2 ^ 24 =? 127 | IPv6 bits => bits =? 1 end.

(** [ip in network]: same version, same prefix. *)
Record network := Network { nw_address : ip; nw_prefix : Z }.
Definition in_network (a : ip) (n : network) : bool :=
  match a, nw_address n with
  | IPv4 bits, IPv4 base => bits / 2 ^ (32 - nw_prefix n) =? base / 2 ^ (32 - nw_prefix n)
  | IPv6 bits, IPv6 base => bits / 2 ^ (128 - nw_prefix n) =? base / 2 ^ (128 - nw_prefix n)
  | _, _ => false
  end.

Definition show_ip (s : string) : option (Z * Z) :=
  match ip_address s with Some (IPv4 b) => Some (4, b) | Some (IPv6 b) => Some (6, b) | None => None end.

Example ip_examples :
  show_ip <$> ["127.0.0.1"; "::1"; "1::"; "::ffff:1.2.3.4"; "1:2:3:4:5:6:7:8"; "1:2:3:4:5:6:1.2.3.4"; "1:2:3:4:5:6:7::";
               "1:2:3:4:5::1.2.3.4"]%string =
  [Some (4, 2130706433); Some (6, 1); Some (6, 5192296858534827628530496329220096); Some (6, 281470698652420);
   Some (6, 5192455318486707404433266433261576); Some (6, 5192455318486707404433266449711876);
   Some (6, 5192455318486707404433266433261568); Some (6, 5192455318486707404433240679908100)].
Proof. vm_compute. reflexivity. Qed.

Example not_ip_examples :
  forallb (λ s, negb (is_ip_address s))
    ["1.2.3"; "01.2.3.4"; "1.2.3.256"; "1.2.3.4/8"; ":::"; "1:2:3:4:5:6:7"; "1::2::3"; ":1:2:3:4:5:6:7";
     "1:2:3:4:5:6:7::8"; "12345::"; "::1%"; "g::"; ":1::"; "1::2:"; ""; ":"; "::1.2.3"; "1:2:3:4:5:6::1.2.3.4"]%string = true.
Proof. vm_compute. reflexivity. Qed.

(** * URLs: [urllib.parse] *)

(** [s.partition(c)], without the separator. *)
Fixpoint str_cut (c : Ascii.ascii) (s : string) : string * option string :=
  match s with
  | EmptyString => (EmptyString, None)
  | String d s => if Ascii.eqb d c then (EmptyString, Some s)
                  else let r := str_cut c s in (String d r.1, r.2)
  end.

Definition is_alpha (c : Ascii.ascii) : bool :=
  let n := Ascii.N_of_ascii (lower_char c) in ((97 <=? n) && (n <=? 122))%N.
Definition scheme_char (c : Ascii.ascii) : bool :=
  is_alpha c || is_digit c || Ascii.eqb c "+"%char || Ascii.eqb c "-"%char || Ascii.eqb c "."%char.

(** The scheme of an URL, in lower case, and the rest. *)
Definition split_scheme (url : string) : string * string :=
  match str_cut ":"%char url, url with
  | (scheme, Some rest), String c _ =>
      if str_nonempty scheme && is_alpha c && str_forallb scheme_char scheme then (str_lower scheme, rest) else (EmptyString, url)
  | _, _ => (EmptyString, url)
  end.

(** The network location, up to the first of [/?#], and the rest. *)
Fixpoint split_netloc (s : string) : string * string :=
  match s with
  | EmptyString => (EmptyString, EmptyString)
  | String c rest =>
      if Ascii.eqb c "/"%char || Ascii.eqb c "?"%char || Ascii.eqb c "#"%char then (EmptyString, s)
      else let r := split_netloc rest in (String c r.1, r.2)
  end.

Definition control_or_space (c : Ascii.ascii) : bool := (Ascii.N_of_ascii c <=? 32)%N.
Fixpoint without_breaks (s : string) : string :=
  match s with
  | EmptyString => EmptyString
  | String c s => let n := Ascii.N_of_ascii c in
                  if ((n =? 9) || (n =? 10) || (n =? 13))%N then without_breaks s else String c (without_breaks s)
  end.

(** The scheme, the network location and the rest of an URL.  [netloc_ok] says
    whether the network location passes the checks of its brackets and of its
    characters; [None] is [ValueError]. *)
Definition split_url (netloc_ok : string → bool) (url : string) : option (string * string * string) :=
  let '(scheme, url) := split_scheme (without_breaks (lstrip control_or_space url)) in
  let '(netloc, url) :=
    if str_startswith url "//" then split_netloc (String.substring 2 (String.length url - 2) url) else (EmptyString, url) in
  if netloc_ok netloc then Some (scheme, netloc, url) else None.

(** [urlsplit(url)]: the path and the query. *)
Definition urlsplit (netloc_ok : string → bool) (url : string) : option (string * string) :=
  '(_, _, url) ← split_url netloc_ok url;
  let '(path, query) := str_cut "?"%char (str_cut "#"%char url).1 in
  Some (path, default EmptyString query).

(** [unquote_to_bytes(s)]: [skip] characters belong to an escape read before. *)
Fixpoint percent_decode (skip : nat) (s : string) : string :=
  match s with
  | EmptyString => EmptyString
  | String c s' =>
      match skip with
      | S skip => percent_decode skip s'
      | O =>
          match s' with
          | String a (String b _) =>
              if Ascii.eqb c "%"%char
              then match hex_digit a, hex_digit b with
                   | Some x, Some y => String (byte_of (16 * x + y)) (percent_decode 2 s')
                   | _, _ => String c (percent_decode 0 s')
                   end
              else String c (percent_decode 0 s')
          | _ => String c (percent_decode 0 s')
          end
      end
  end.
Definition unquote (s : string) : string := utf8_replace (percent_decode 0 s).

(** [parse_qs(query).get(key, [..])[0]]: the first non-blank value of a key. *)
Definition query_pair (s : string) : option (string * string) :=
  match str_cut "="%char s with
  | (name, Some value) =>
      if str_nonempty value
      then Some (unquote (str_replace "+" " " name), unquote (str_replace "+" " " value)) else None
  | (_, None) => None
  end.
Definition query_first (key query : string) : option string :=
  dict_get key (omap query_pair (str_split "&"%char query)).

Example url_examples :
  urlsplit (λ _, true) "/v1/reviews?limit=5&x=%41#f" = Some ("/v1/reviews", "limit=5&x=%41")%string ∧
  urlsplit (λ _, true) "http://[::1]:80/app?" = Some ("/app", "")%string ∧
  urlsplit (λ _, true) "v1:x/y" = Some ("x/y", "")%string ∧ urlsplit (λ _, true) "//h" = Some ("", "")%string ∧
  query_first "limit" "a&limit=&limit=+5%2B&limit=7" = Some " 5+"%string ∧
  unquote "a%2Eb%zz%4" = "a.b%zz%4"%string ∧ unquote "%e2%82" = replacement_character.
Proof. repeat split; vm_compute; reflexivity. Qed.

(** * Facts *)

Lemma utf8_from_start low high s : utf8_from 0 low high s = utf8_from 0 128 191 s.
Proof. by destruct s. Qed.

Lemma utf8_replace_id s : is_utf8 s = true → utf8_replace s = s.
Proof.
  enough (∀ pending more low high, utf8_from more low high s = true →
    utf8_replace_from pending more low high s = match more with O => s | S _ => (pending +:+ s)%string end) as Hall.
  { intros Hs. unfold utf8_replace. by rewrite (Hall EmptyString 0%nat). }
  induction s as [|c s IH]; intros pending more low high; cbn [utf8_from utf8_replace_from].
  { by destruct more. }
  destruct more as [|more].
  - destruct (utf8_lead (Ascii.N_of_ascii c)) as [[[n l] h]|]; [|done]. intros Hs. destruct n as [|n].
    + rewrite utf8_from_start in Hs. by rewrite (IH EmptyString 0%nat _ _ Hs).
    + by rewrite (IH (String c EmptyString) (S n) _ _ Hs).
  - intros [Hb Hs]%andb_true_iff. rewrite Hb. destruct more as [|more].
    + by rewrite (IH EmptyString 0%nat _ _ Hs).
    + rewrite (IH _ (S more) _ _ Hs). by rewrite app_assoc_str.
Qed.
