(* ===== verification/Models.v ===== *)
(** The data of [pihole_manager/models.py] and the option and limit records of
    [config.py] and [provider_registry.py] that the other files use.  A
    [StrEnum] is an inductive type with its [value]; a frozen dataclass is a
    record, and [dataclasses.replace] is a [replace_*] function. *)
From stdpp Require Import base gmap strings list.
From Stdlib Require Import QArith.
From S2P Require Import Prelude Json.
Open Scope Z_scope.

Inductive Policy := ALLOW | DENY | MANUAL_REVIEW | UNKNOWN.
#[export] Instance Policy_eq_dec : EqDecision Policy.
Proof. solve_decision. Defined.

Definition policy_value (p : Policy) : string :=
  match p with
  | ALLOW => "allow"
  | DENY => "deny"
  | MANUAL_REVIEW => "manual_review"
  | UNKNOWN => "unknown"
  end.

(** [Policy(value)]: [None] stands for the [ValueError]. *)
Definition Policy_of_value (s : string) : option Policy :=
  if String.eqb s "allow" then Some ALLOW
  else if String.eqb s "deny" then Some DENY
  else if String.eqb s "manual_review" then Some MANUAL_REVIEW
  else if String.eqb s "unknown" then Some UNKNOWN
  else None.

Lemma Policy_of_value_value p : Policy_of_value (policy_value p) = Some p.
Proof. by destruct p. Qed.

Inductive AutomationMode := MODE_MANUAL | MODE_HYBRID | MODE_AUTO.
#[export] Instance AutomationMode_eq_dec : EqDecision AutomationMode.
Proof. solve_decision. Defined.

Definition AutomationMode_of_value (s : string) : option AutomationMode :=
  if String.eqb s "manual" then Some MODE_MANUAL
  else if String.eqb s "hybrid" then Some MODE_HYBRID
  else if String.eqb s "auto" then Some MODE_AUTO
  else None.

Inductive AnalysisPoolMode := DISTRIBUTE | FALLBACK | COMPARE | VERIFY.
#[export] Instance AnalysisPoolMode_eq_dec : EqDecision AnalysisPoolMode.
Proof. solve_decision. Defined.

Definition AnalysisPoolMode_of_value (s : string) : option AnalysisPoolMode :=
  if String.eqb s "distribute" then Some DISTRIBUTE
  else if String.eqb s "fallback" then Some FALLBACK
  else if String.eqb s "compare" then Some COMPARE
  else if String.eqb s "verify" then Some VERIFY
  else None.

Inductive ServiceRole := ROLE_CORE | ROLE_OPTIONAL | ROLE_SHARED | ROLE_UNKNOWN.
#[export] Instance ServiceRole_eq_dec : EqDecision ServiceRole.
Proof. solve_decision. Defined.

Definition role_value (r : ServiceRole) : string :=
  match r with
  | ROLE_CORE => "core"
  | ROLE_OPTIONAL => "optional"
  | ROLE_SHARED => "shared"
  | ROLE_UNKNOWN => "unknown"
  end.

Inductive ReviewPriority := PRIO_LOW | PRIO_NORMAL | PRIO_HIGH | PRIO_CRITICAL.
#[export] Instance ReviewPriority_eq_dec : EqDecision ReviewPriority.
Proof. solve_decision. Defined.

Definition priority_value (p : ReviewPriority) : string :=
  match p with
  | PRIO_LOW => "low"
  | PRIO_NORMAL => "normal"
  | PRIO_HIGH => "high"
  | PRIO_CRITICAL => "critical"
  end.

Record Classification := mkClassification {
  cl_domain : string;
  cl_policy : Policy;
  cl_category : string;
  cl_short : string;
  cl_details : string;
  cl_provider : string;
  cl_tags : list string;
  cl_service : string;
  cl_service_role : ServiceRole;
  cl_privacy_risk : Z;
  cl_security_risk : Z;
  cl_breakage_risk : Z;
  cl_confidence : Q;
  cl_needs_review : bool;
  cl_review_reason : string;
  cl_recheck_after_days : Z;
  cl_raw_text : string
}.

(** The [replace] calls the code makes on a classification. *)
Definition replace_review (c : Classification) (needs : bool) (reason : string) : Classification :=
  mkClassification (cl_domain c) (cl_policy c) (cl_category c) (cl_short c) (cl_details c)
    (cl_provider c) (cl_tags c) (cl_service c) (cl_service_role c) (cl_privacy_risk c)
    (cl_security_risk c) (cl_breakage_risk c) (cl_confidence c) needs reason
    (cl_recheck_after_days c) (cl_raw_text c).

Definition replace_tags (c : Classification) (tags : list string) : Classification :=
  mkClassification (cl_domain c) (cl_policy c) (cl_category c) (cl_short c) (cl_details c)
    (cl_provider c) tags (cl_service c) (cl_service_role c) (cl_privacy_risk c)
    (cl_security_risk c) (cl_breakage_risk c) (cl_confidence c) (cl_needs_review c)
    (cl_review_reason c) (cl_recheck_after_days c) (cl_raw_text c).

Definition replace_recheck (c : Classification) (days : Z) : Classification :=
  mkClassification (cl_domain c) (cl_policy c) (cl_category c) (cl_short c) (cl_details c)
    (cl_provider c) (cl_tags c) (cl_service c) (cl_service_role c) (cl_privacy_risk c)
    (cl_security_risk c) (cl_breakage_risk c) (cl_confidence c) (cl_needs_review c)
    (cl_review_reason c) days (cl_raw_text c).

Record ProviderUsage := mkProviderUsage {
  us_input_tokens : Z;
  us_output_tokens : Z;
  us_total_tokens : Z;
  us_units : Q
}.
Definition ProviderUsage_default : ProviderUsage := mkProviderUsage 0 0 0 0.

Record ProviderHealthState := mkProviderHealthState {
  hs_provider_id : string;
  hs_state : string;
  hs_cooldown_until : Q;
  hs_consecutive_failures : Z;
  hs_last_error : string;
  hs_last_success_at : Q;
  hs_last_failure_at : Q;
  hs_latency_ewma_ms : Q
}.
Definition ProviderHealthState_default (provider_id : string) : ProviderHealthState :=
  mkProviderHealthState provider_id "unknown" 0 0 "" 0 0 0.

(** The options of [config.py] that the workers and the dispatcher read, with all
    their fields.  A float whose range [_validate] does not bound from both
    sides may be infinite. *)
Record ProviderLimitOptions := mkProviderLimitOptions {
  lo_mode : string;
  lo_quota_group : string;
  lo_requests_per_minute : Z;
  lo_requests_per_hour : Z;
  lo_requests_per_day : Z;
  lo_input_tokens_per_minute : Z;
  lo_output_tokens_per_minute : Z;
  lo_tokens_per_minute : Z;
  lo_tokens_per_hour : Z;
  lo_tokens_per_day : Z;
  lo_units_per_day : py_float;
  lo_context_tokens : Z;
  lo_max_domains_per_request : Z;
  lo_safety_margin_percent : Q
}.

Record LLMProviderOptions := mkLLMProviderOptions {
  po_provider_id : string;
  po_name : string;
  po_preset_id : string;
  po_api_style : string;
  po_base_url : string;
  po_api_key : string;
  po_model : string;
  po_temperature : py_float;
  po_timeout_sec : py_float;
  po_max_output_tokens : Z;
  po_max_tokens_parameter : string;
  po_send_temperature : bool;
  po_structured_output : string;
  po_limits : ProviderLimitOptions
}.

Record ProviderPoolMembershipOptions := mkMembership {
  mb_provider_id : string;
  mb_enabled : bool;
  mb_role : string;
  mb_priority : Z;
  mb_weight : Z
}.

Record AnalysisPoolOptions := mkAnalysisPoolOptions {
  ap_pool_id : string;
  ap_name : string;
  ap_enabled : bool;
  ap_mode : string;
  ap_profile_index : Z;
  ap_max_parallel_requests : Z;
  ap_verification_sample_percent : Z;
  ap_verify_automatic_actions : bool;
  ap_verify_security_risk_at_least : Z;
  ap_verify_breakage_risk_at_least : Z;
  ap_memberships : list ProviderPoolMembershipOptions
}.

Record LLMOptions := mkLLMOptions {
  lm_enabled : bool;
  lm_interval_sec : Z;
  lm_worker_batch_size : Z;
  lm_domains_per_request : Z;
  lm_min_request_interval_sec : py_float;
  lm_max_retries : Z;
  lm_realtime_quota_reserve_percent : Q;
  lm_quota_wait_timeout_sec : py_float;
  lm_unknown_remote_requests_per_minute : Z;
  lm_unknown_remote_max_domains_per_request : Z;
  lm_active_provider_index : Z;
  lm_active_profile_index : Z;
  lm_automation_mode : string;
  lm_simulation_mode : bool;
  lm_default_recheck_days : Z;
  lm_review_confidence_threshold : Q;
  lm_auto_action_min_confidence : Q;
  lm_require_research_for_auto_action : bool;
  lm_tags : list string;
  lm_tag_policies : gmap string string;
  lm_tag_recheck_days : gmap string Z
}.

Record ScanOptions := mkScanOptions {
  so_enabled : bool;
  so_interval_sec : Z;
  so_batch_size : Z;
  so_initial_lookback_sec : Z;
  so_queue_trigger_size : Z;
  so_max_queue_wait_sec : Z;
  so_history_backfill_enabled : bool;
  so_history_idle_after_sec : Z;
  so_history_lookback_days : Z;
  so_history_batch_size : Z;
  so_excluded_domain_suffixes : list string
}.

Record ProviderCapability := mkProviderCapability {
  cp_context_tokens : Z;
  cp_max_output_tokens : Z;
  cp_structured_output : string;
  cp_native_browsing : bool;
  cp_local : bool;
  cp_deprecated : bool
}.

Record ProviderLimit := mkProviderLimit {
  pl_metric : string;
  pl_amount : Q;
  pl_window_seconds : Z;
  pl_scope : string;
  pl_source : string;
  pl_user_cap : Q;
  pl_reset_policy : string
}.

Record ProviderLimitProfile := mkProviderLimitProfile {
  lp_entry_id : string;
  lp_source : string;
  lp_capability : ProviderCapability;
  lp_limits : list ProviderLimit;
  lp_input_units_per_million_tokens : Q;
  lp_output_units_per_million_tokens : Q;
  lp_max_domains_per_request : Z;
  lp_safety_margin_percent : Q;
  lp_quota_group : string
}.
