(* ===== verification/Options.v ===== *)
(** The options of [config.py]: the dataclasses that are not in [Models], their
    defaults, [asdict], and the attributes of a dataclass whose values are not
    checked yet ([fields]).

    [_coerce_dataclass] puts the values of a JSON object over the defaults of a
    class without looking at them; what [_validate] reads is therefore a dict
    from attribute names to JSON values. *)
From stdpp Require Import base gmap strings list pretty.
From Stdlib Require Import Ascii QArith Qround Lqa Sorted.
From S2P Require Import Prelude HttpRetry Json Models.
Open Scope Z_scope.

Abbreviation fields := (list (string * json)).

Definition newline : string := String "010"%char EmptyString.

Definition CURRENT_SCHEMA_VERSION : Z := 18.

(** * Data *)

Record LoggingOptions := mkLoggingOptions {
  lg_enabled : bool;
  lg_level : string;
  lg_filename : string;
  lg_rotate_bytes : Z;
  lg_backup_count : Z
}.

Record NotifyOptions := mkNotifyOptions {
  nt_enable_desktop : bool;
  nt_enable_sound : bool;
  nt_rate_limit_sec : Z;
  nt_toast_title : string
}.

Record PiHoleOptions := mkPiHoleOptions {
  ph_base_url : string;
  ph_password : string;
  ph_ca_bundle_path : string;
  ph_timeout_sec : py_float
}.

Record ProviderRegistryOptions := mkProviderRegistryOptions {
  rg_auto_update : bool;
  rg_refresh_interval_hours : Z;
  rg_last_checked_at : Z;
  rg_registry_url : string;
  rg_signature_url : string
}.

Record PromptProfileOptions := mkPromptProfileOptions {
  pf_name : string;
  pf_system : string;
  pf_user_template : string
}.

Record ResearchOptions := mkResearchOptions {
  rs_max_age_days : Z
}.

Record UpdateOptions := mkUpdateOptions {
  up_check_automatically : bool;
  up_channel : string;
  up_check_interval_hours : Z;
  up_last_check_at : Z
}.

Record ExternalTriggerOptions := mkExternalTriggerOptions {
  xt_enabled : bool;
  xt_bind_host : string;
  xt_port : Z;
  xt_token : string;
  xt_allow_remote : bool;
  xt_max_domains_per_request : Z
}.

Record ResearchProviderOptions := mkResearchProviderOptions {
  sr_name : string;
  sr_kind : string;
  sr_enabled : bool;
  sr_base_url : string;
  sr_api_key : string;
  sr_timeout_sec : py_float;
  sr_min_interval_sec : py_float;
  sr_refresh_interval_hours : Z;
  sr_max_results : Z;
  sr_test_domain : string
}.

(** A table of the user interface keeps unchecked values under keys that are not
    in the defaults. *)
Record UIOptions := mkUIOptions {
  ui_theme : string;
  ui_show_tooltips : bool;
  ui_window_width : Z;
  ui_window_height : Z;
  ui_auto_update_queries : bool;
  ui_query_refresh_ms : Z;
  ui_auto_scroll_queries : bool;
  ui_history_deduplicate_domains : bool;
  ui_evidence_test_skip_api_key_sources : bool;
  ui_evidence_test_skip_missing_api_keys : bool;
  ui_lists_queue_only_unreviewed : bool;
  ui_queries_colwidths : fields;
  ui_table_visible_columns : fields;
  ui_table_column_order : fields;
  ui_table_column_widths : fields
}.

Record Options := mkOptions {
  op_schema_version : Z;
  op_logging : LoggingOptions;
  op_notify : NotifyOptions;
  op_scans : ScanOptions;
  op_pihole : PiHoleOptions;
  op_llm : LLMOptions;
  op_research : ResearchOptions;
  op_updates : UpdateOptions;
  op_provider_registry : ProviderRegistryOptions;
  op_external_trigger : ExternalTriggerOptions;
  op_llm_providers : list LLMProviderOptions;
  op_analysis_pools : list AnalysisPoolOptions;
  op_prompt_profiles : list PromptProfileOptions;
  op_research_providers : list ResearchProviderOptions;
  op_ui : UIOptions
}.

(** * [asdict] *)

Definition LoggingOptions_asdict (o : LoggingOptions) : fields :=
  [("enabled", JBool (lg_enabled o)); ("level", JString (lg_level o)); ("filename", JString (lg_filename o));
   ("rotate_bytes", JInt (lg_rotate_bytes o)); ("backup_count", JInt (lg_backup_count o))]%string.

Definition NotifyOptions_asdict (o : NotifyOptions) : fields :=
  [("enable_desktop", JBool (nt_enable_desktop o)); ("enable_sound", JBool (nt_enable_sound o));
   ("rate_limit_sec", JInt (nt_rate_limit_sec o)); ("toast_title", JString (nt_toast_title o))]%string.

Definition ScanOptions_asdict (o : ScanOptions) : fields :=
  [("enabled", JBool (so_enabled o)); ("interval_sec", JInt (so_interval_sec o));
   ("batch_size", JInt (so_batch_size o)); ("initial_lookback_sec", JInt (so_initial_lookback_sec o));
   ("queue_trigger_size", JInt (so_queue_trigger_size o)); ("max_queue_wait_sec", JInt (so_max_queue_wait_sec o));
   ("history_backfill_enabled", JBool (so_history_backfill_enabled o));
   ("history_idle_after_sec", JInt (so_history_idle_after_sec o));
   ("history_lookback_days", JInt (so_history_lookback_days o));
   ("history_batch_size", JInt (so_history_batch_size o));
   ("excluded_domain_suffixes", JArray (JString <$> so_excluded_domain_suffixes o))]%string.

Definition PiHoleOptions_asdict (o : PiHoleOptions) : fields :=
  [("base_url", JString (ph_base_url o)); ("password", JString (ph_password o));
   ("ca_bundle_path", JString (ph_ca_bundle_path o)); ("timeout_sec", JFloat (ph_timeout_sec o))]%string.

Definition ProviderLimitOptions_asdict (o : ProviderLimitOptions) : fields :=
  [("mode", JString (lo_mode o)); ("quota_group", JString (lo_quota_group o));
   ("requests_per_minute", JInt (lo_requests_per_minute o)); ("requests_per_hour", JInt (lo_requests_per_hour o));
   ("requests_per_day", JInt (lo_requests_per_day o));
   ("input_tokens_per_minute", JInt (lo_input_tokens_per_minute o));
   ("output_tokens_per_minute", JInt (lo_output_tokens_per_minute o));
   ("tokens_per_minute", JInt (lo_tokens_per_minute o)); ("tokens_per_hour", JInt (lo_tokens_per_hour o));
   ("tokens_per_day", JInt (lo_tokens_per_day o)); ("units_per_day", JFloat (lo_units_per_day o));
   ("context_tokens", JInt (lo_context_tokens o));
   ("max_domains_per_request", JInt (lo_max_domains_per_request o));
   ("safety_margin_percent", JFloat (Fin (lo_safety_margin_percent o)))]%string.

Definition ProviderPoolMembershipOptions_asdict (o : ProviderPoolMembershipOptions) : fields :=
  [("provider_id", JString (mb_provider_id o)); ("enabled", JBool (mb_enabled o)); ("role", JString (mb_role o));
   ("priority", JInt (mb_priority o)); ("weight", JInt (mb_weight o))]%string.

Definition ProviderRegistryOptions_asdict (o : ProviderRegistryOptions) : fields :=
  [("auto_update", JBool (rg_auto_update o)); ("refresh_interval_hours", JInt (rg_refresh_interval_hours o));
   ("last_checked_at", JInt (rg_last_checked_at o)); ("registry_url", JString (rg_registry_url o));
   ("signature_url", JString (rg_signature_url o))]%string.

Definition PromptProfileOptions_asdict (o : PromptProfileOptions) : fields :=
  [("name", JString (pf_name o)); ("system", JString (pf_system o));
   ("user_template", JString (pf_user_template o))]%string.

Definition ResearchOptions_asdict (o : ResearchOptions) : fields :=
  [("max_age_days", JInt (rs_max_age_days o))]%string.

Definition UpdateOptions_asdict (o : UpdateOptions) : fields :=
  [("check_automatically", JBool (up_check_automatically o)); ("channel", JString (up_channel o));
   ("check_interval_hours", JInt (up_check_interval_hours o)); ("last_check_at", JInt (up_last_check_at o))]%string.

Definition ExternalTriggerOptions_asdict (o : ExternalTriggerOptions) : fields :=
  [("enabled", JBool (xt_enabled o)); ("bind_host", JString (xt_bind_host o)); ("port", JInt (xt_port o));
   ("token", JString (xt_token o)); ("allow_remote", JBool (xt_allow_remote o));
   ("max_domains_per_request", JInt (xt_max_domains_per_request o))]%string.

Definition ResearchProviderOptions_asdict (o : ResearchProviderOptions) : fields :=
  [("name", JString (sr_name o)); ("kind", JString (sr_kind o)); ("enabled", JBool (sr_enabled o));
   ("base_url", JString (sr_base_url o)); ("api_key", JString (sr_api_key o));
   ("timeout_sec", JFloat (sr_timeout_sec o)); ("min_interval_sec", JFloat (sr_min_interval_sec o));
   ("refresh_interval_hours", JInt (sr_refresh_interval_hours o)); ("max_results", JInt (sr_max_results o));
   ("test_domain", JString (sr_test_domain o))]%string.

Definition LLMProviderOptions_asdict (o : LLMProviderOptions) : fields :=
  [("provider_id", JString (po_provider_id o)); ("name", JString (po_name o));
     ("preset_id", JString (po_preset_id o));
   ("api_style", JString (po_api_style o)); ("base_url", JString (po_base_url o));
      ("api_key", JString (po_api_key o));
   ("model", JString (po_model o)); ("temperature", JFloat (po_temperature o));
   ("timeout_sec", JFloat (po_timeout_sec o)); ("max_output_tokens", JInt (po_max_output_tokens o));
   ("max_tokens_parameter", JString (po_max_tokens_parameter o)); ("send_temperature", JBool (po_send_temperature o));
   ("structured_output", JString (po_structured_output o));
   ("limits", JObject (ProviderLimitOptions_asdict (po_limits o)))]%string.

Definition AnalysisPoolOptions_asdict (o : AnalysisPoolOptions) : fields :=
  [("pool_id", JString (ap_pool_id o)); ("name", JString (ap_name o)); ("enabled", JBool (ap_enabled o));
   ("mode", JString (ap_mode o)); ("profile_index", JInt (ap_profile_index o));
   ("max_parallel_requests", JInt (ap_max_parallel_requests o));
   ("verification_sample_percent", JInt (ap_verification_sample_percent o));
   ("verify_automatic_actions", JBool (ap_verify_automatic_actions o));
   ("verify_security_risk_at_least", JInt (ap_verify_security_risk_at_least o));
   ("verify_breakage_risk_at_least", JInt (ap_verify_breakage_risk_at_least o));
   ("memberships", JArray ((λ m, JObject (ProviderPoolMembershipOptions_asdict m)) <$> ap_memberships o))]%string.

Definition LLMOptions_asdict (o : LLMOptions) : fields :=
  [("enabled", JBool (lm_enabled o)); ("interval_sec", JInt (lm_interval_sec o));
   ("worker_batch_size", JInt (lm_worker_batch_size o)); ("domains_per_request", JInt (lm_domains_per_request o));
   ("min_request_interval_sec", JFloat (lm_min_request_interval_sec o)); ("max_retries", JInt (lm_max_retries o));
   ("realtime_quota_reserve_percent", JFloat (Fin (lm_realtime_quota_reserve_percent o)));
   ("quota_wait_timeout_sec", JFloat (lm_quota_wait_timeout_sec o));
   ("unknown_remote_requests_per_minute", JInt (lm_unknown_remote_requests_per_minute o));
   ("unknown_remote_max_domains_per_request", JInt (lm_unknown_remote_max_domains_per_request o));
   ("active_provider_index", JInt (lm_active_provider_index o));
   ("active_profile_index", JInt (lm_active_profile_index o)); ("automation_mode", JString (lm_automation_mode o));
   ("simulation_mode", JBool (lm_simulation_mode o)); ("default_recheck_days", JInt (lm_default_recheck_days o));
   ("review_confidence_threshold", JFloat (Fin (lm_review_confidence_threshold o)));
   ("auto_action_min_confidence", JFloat (Fin (lm_auto_action_min_confidence o)));
   ("require_research_for_auto_action", JBool (lm_require_research_for_auto_action o));
   ("tags", JArray (JString <$> lm_tags o));
   ("tag_policies", JObject ((λ p, (p.1, JString p.2)) <$> map_to_list (lm_tag_policies o)));
   ("tag_recheck_days", JObject ((λ p, (p.1, JInt p.2)) <$> map_to_list (lm_tag_recheck_days o)))]%string.

Definition UIOptions_asdict (o : UIOptions) : fields :=
  [("theme", JString (ui_theme o)); ("show_tooltips", JBool (ui_show_tooltips o));
   ("window_width", JInt (ui_window_width o)); ("window_height", JInt (ui_window_height o));
   ("auto_update_queries", JBool (ui_auto_update_queries o)); ("query_refresh_ms", JInt (ui_query_refresh_ms o));
   ("auto_scroll_queries", JBool (ui_auto_scroll_queries o));
   ("history_deduplicate_domains", JBool (ui_history_deduplicate_domains o));
   ("evidence_test_skip_api_key_sources", JBool (ui_evidence_test_skip_api_key_sources o));
   ("evidence_test_skip_missing_api_keys", JBool (ui_evidence_test_skip_missing_api_keys o));
   ("lists_queue_only_unreviewed", JBool (ui_lists_queue_only_unreviewed o));
   ("queries_colwidths", JObject (ui_queries_colwidths o));
   ("table_visible_columns", JObject (ui_table_visible_columns o));
   ("table_column_order", JObject (ui_table_column_order o));
   ("table_column_widths", JObject (ui_table_column_widths o))]%string.

Definition objects {A} (f : A → fields) (l : list A) : json := JArray ((λ a, JObject (f a)) <$> l).

Definition Options_asdict (o : Options) : fields :=
  [("schema_version", JInt (op_schema_version o)); ("logging", JObject (LoggingOptions_asdict (op_logging o)));
   ("notify", JObject (NotifyOptions_asdict (op_notify o))); ("scans", JObject (ScanOptions_asdict (op_scans o)));
   ("pihole", JObject (PiHoleOptions_asdict (op_pihole o))); ("llm", JObject (LLMOptions_asdict (op_llm o)));
   ("research", JObject (ResearchOptions_asdict (op_research o)));
   ("updates", JObject (UpdateOptions_asdict (op_updates o)));
   ("provider_registry", JObject (ProviderRegistryOptions_asdict (op_provider_registry o)));
   ("external_trigger", JObject (ExternalTriggerOptions_asdict (op_external_trigger o)));
   ("llm_providers", objects LLMProviderOptions_asdict (op_llm_providers o));
   ("analysis_pools", objects AnalysisPoolOptions_asdict (op_analysis_pools o));
   ("prompt_profiles", objects PromptProfileOptions_asdict (op_prompt_profiles o));
   ("research_providers", objects ResearchProviderOptions_asdict (op_research_providers o));
   ("ui", JObject (UIOptions_asdict (op_ui o)))]%string.

(** * Defaults *)

Definition LoggingOptions_default : LoggingOptions :=
  mkLoggingOptions true "INFO" "pihole_manager.log" 2000000 3.

Definition NotifyOptions_default : NotifyOptions :=
  mkNotifyOptions false false 5 "Pi-hole Manager".

Definition ScanOptions_default : ScanOptions :=
  mkScanOptions false 5 200 300 20 300 false 300 30 500 [".arpa"].

Definition PiHoleOptions_default : PiHoleOptions :=
  mkPiHoleOptions "http://pi.hole" "" "" (Fin 10).

Definition ProviderLimitOptions_default : ProviderLimitOptions :=
  mkProviderLimitOptions "auto" "" 0 0 0 0 0 0 0 0 (Fin 0) 0 0 10.

Definition ProviderPoolMembershipOptions_default : ProviderPoolMembershipOptions :=
  mkMembership "" true "primary" 100 1.

Definition ProviderRegistryOptions_default : ProviderRegistryOptions :=
  mkProviderRegistryOptions false 168 0 "https://github.com/HyperCriSiS/Pi-Hole-Manager/releases/latest/download/provider-registry.json"
    "https://github.com/HyperCriSiS/Pi-Hole-Manager/releases/latest/download/provider-registry.json.sig".

Definition PromptProfileOptions_default : PromptProfileOptions :=
  mkPromptProfileOptions "Balanced"
    "You classify DNS domains for a Pi-hole v6 administrator. Start with the supplied domain dossier and distinguish verified facts from inference. If the selected model and API perform live web search without an additional tool request, independently verify the exact domain using official vendor documentation, GitHub code, issues and discussions, Pi-hole community reports, reputable blocklist repositories such as AdGuardTeam/HostlistsRegistry, hagezi/dns-blocklists, easylist/easylist, disconnectme/disconnect-tracking-protection, and credible user reports. Pi-hole Manager does not currently invoke provider-specific web-search tools. Never claim to have searched the web when browsing is not available. Include useful source URLs in details when known, and prefer manual review when evidence is weak or blocking may break an important service."
    ("Analyse the following domain dossiers. Return only the required structured result." +:+ newline +:+ "{domain_dossiers}")%string.

Definition ResearchOptions_default : ResearchOptions :=
  mkResearchOptions 30.

Definition UpdateOptions_default : UpdateOptions :=
  mkUpdateOptions false "stable" 24 0.

Definition ExternalTriggerOptions_default : ExternalTriggerOptions :=
  mkExternalTriggerOptions false "127.0.0.1" 8765 "" false 500.

Definition ResearchProviderOptions_default : ResearchProviderOptions :=
  mkResearchProviderOptions "RDAP registration data" "rdap" false "" "" (Fin 15) (Fin 1) 24 5 "".

Definition _DEFAULT_TAGS : list string :=
  ["advertising"; "cross_site_tracking"; "analytics"; "telemetry"; "crash_reporting"; "authentication"; "payments";
     "api_backend"; "content_media"; "cdn_shared_infrastructure"; "software_updates"; "notifications_messaging";
     "security_antifraud"; "iot_cloud"; "malware"; "phishing"; "command_and_control"; "unknown"]%string.

Definition _DEFAULT_TAG_POLICIES : list (string * string) :=
  [("advertising", "deny"); ("cross_site_tracking", "deny"); ("analytics", "manual_review");
     ("telemetry", "manual_review"); ("crash_reporting", "manual_review"); ("authentication", "manual_review");
     ("payments", "manual_review"); ("api_backend", "manual_review"); ("content_media", "manual_review");
     ("cdn_shared_infrastructure", "manual_review"); ("software_updates", "manual_review");
     ("notifications_messaging", "manual_review"); ("security_antifraud", "manual_review");
     ("iot_cloud", "manual_review"); ("malware", "deny"); ("phishing", "deny"); ("command_and_control", "deny");
     ("unknown", "manual_review")]%string.

Definition _DEFAULT_TAG_RECHECK_DAYS : list (string * Z) :=
  [("advertising", 30); ("cross_site_tracking", 30); ("analytics", 30); ("telemetry", 30); ("crash_reporting", 30);
     ("authentication", 90); ("payments", 90); ("api_backend", 60); ("content_media", 60);
     ("cdn_shared_infrastructure", 90); ("software_updates", 60); ("notifications_messaging", 60);
     ("security_antifraud", 60); ("iot_cloud", 45); ("malware", 7); ("phishing", 7); ("command_and_control", 7);
     ("unknown", 3)]%string.

Definition LLMOptions_default : LLMOptions :=
  mkLLMOptions false 10 25 10 (Fin 1) 2 20 (Fin 30) 2 1 0 0 "hybrid" true 30 (3 # 4) (19 # 20) true _DEFAULT_TAGS
    (list_to_map _DEFAULT_TAG_POLICIES) (list_to_map _DEFAULT_TAG_RECHECK_DAYS).

(** The default of [provider_id] is a new identifier. *)
Definition LLMProviderOptions_default (provider_id : string) : LLMProviderOptions :=
  mkLLMProviderOptions provider_id "Custom OpenAI-compatible" "custom" "openai_compatible" "" "" "" (Fin 0) (Fin 30) 4096
    "max_tokens" true "auto" ProviderLimitOptions_default.

Definition AnalysisPoolOptions_default : AnalysisPoolOptions :=
  mkAnalysisPoolOptions "background" "Background analysis" true "distribute" 0 2 10 true 80 50 [].

Definition default_research_providers : list ResearchProviderOptions :=
  [mkResearchProviderOptions "AdGuard service catalog" "adguard_services" true "https://adguardteam.github.io/HostlistsRegistry/assets/services.json" "" (Fin 15) (Fin 1) 24 5 "";
mkResearchProviderOptions "Local DNS records" "dns_records" true "" "" (Fin 15) (Fin 0) 6 5 "";
   mkResearchProviderOptions "Disconnect tracker catalog" "disconnect_tracking" false "https://raw.githubusercontent.com/disconnectme/disconnect-tracking-protection/master/services.json" "" (Fin 15) (Fin 1) 24 5 "";
   mkResearchProviderOptions "RDAP registration data" "rdap" false "https://data.iana.org/rdap/dns.json" "" (Fin 15) (Fin 1) 168 5 "";
   mkResearchProviderOptions "RIPEstat network information" "ripestat" false "https://stat.ripe.net/data" "" (Fin 15) (Fin 1) 24 5 "";
   mkResearchProviderOptions "Netcraft Site Report" "netcraft" false "https://sitereport.netcraft.com/" "" (Fin 15) (Fin 10) 168 5 "";
   mkResearchProviderOptions "VirusTotal domain report" "virustotal" false "https://www.virustotal.com/api/v3" "" (Fin 15) (Fin (31 # 2)) 24 5 "";
   mkResearchProviderOptions "ThreatFox IOC lookup" "threatfox" false "https://threatfox-api.abuse.ch/api/v1/" "" (Fin 15) (Fin 2) 6 5 "";
   mkResearchProviderOptions "PhishTank verified phishing database" "phishtank" false "https://data.phishtank.com/data/{api_key}/online-valid.json.bz2" "" (Fin 15) (Fin 1) 1 5 "";
   mkResearchProviderOptions "urlscan.io archived scans" "urlscan" false "https://urlscan.io/api/v1" "" (Fin 15) (Fin 2) 12 3 "";
   mkResearchProviderOptions "Cloudflare Radar domain ranking" "cloudflare_radar" false "https://api.cloudflare.com/client/v4/radar" "" (Fin 15) (Fin 1) 168 5 "";
   mkResearchProviderOptions "Curated repository blocklists" "repository_lists" false "" "" (Fin 15) (Fin 0) 12 5 "example.com";
   mkResearchProviderOptions "URLhaus host lookup" "urlhaus" false "https://urlhaus-api.abuse.ch/v1" "" (Fin 15) (Fin 1) 6 5 "example.com"]%string.

Definition default_table_visible_columns : list (string * list string) :=
  [("queries", ["selected"; "time"; "client"; "domain"; "type"; "status"]);
   ("history", ["selected"; "time"; "client"; "domain"; "type"; "status"; "classified"]);
   ("lists", ["selected"; "locked"; "domain"; "enabled"; "tags"; "details"]);
   ("review", ["selected"; "order"; "queued"; "lock"; "domain"; "tags"; "service"; "role"; "policy"; "planned";
      "confidence"; "breakage"; "short"; "status"]);
   ("domains", ["domain"; "tags"; "service"; "role"; "policy"; "planned"; "confidence"; "breakage"; "queries";
      "last_seen"; "review"; "short"])]%string.

Definition default_table_column_order : list (string * list string) :=
  [("queries", ["selected"; "time"; "client"; "domain"; "type"; "status"]);
   ("history", ["selected"; "time"; "client"; "domain"; "type"; "status"; "classified"]);
   ("lists", ["selected"; "locked"; "domain"; "enabled"; "comment"; "tags"; "details"]);
   ("review", ["selected"; "order"; "queued"; "lock"; "domain"; "tags"; "service"; "role"; "policy"; "planned";
      "confidence"; "privacy"; "security"; "breakage"; "short"; "status"]);
   ("domains", ["domain"; "tags"; "service"; "role"; "policy"; "planned"; "confidence"; "privacy"; "security";
      "breakage"; "queries"; "last_seen"; "classified"; "recheck"; "review"; "lock"; "provider"; "short"])]%string.

Definition default_table_column_widths : list (string * list (string * Z)) :=
  [("queries", [("selected", 38); ("time", 90); ("client", 170); ("domain", 360); ("type", 80); ("status", 140)]);
   ("history", [("selected", 38); ("time", 150); ("client", 180); ("domain", 390); ("type", 80); ("status", 150);
      ("classified", 90)]);
   ("lists", [("selected", 38); ("locked", 58); ("domain", 290); ("enabled", 70); ("comment", 260); ("tags", 230);
      ("details", 430)]);
   ("review", [("selected", 38); ("order", 48); ("queued", 115); ("lock", 48); ("domain", 250); ("tags", 230);
      ("service", 180); ("role", 80); ("policy", 105); ("planned", 95); ("confidence", 65); ("privacy", 65);
      ("security", 65); ("breakage", 90); ("short", 300); ("status", 120)]);
   ("domains", [("domain", 280); ("tags", 240); ("service", 180); ("role", 80); ("policy", 105); ("planned", 95);
      ("confidence", 65); ("privacy", 65); ("security", 65); ("breakage", 70); ("queries", 80); ("last_seen", 135);
      ("classified", 135); ("recheck", 135); ("review", 65); ("lock", 70); ("provider", 150);
      ("short", 340)])]%string.


Definition widths_json (widths : list (string * Z)) : json := JObject ((λ p, (p.1, JInt p.2)) <$> widths).
Definition columns_json (columns : list string) : json := JArray (JString <$> columns).

Definition UIOptions_default : UIOptions :=
  mkUIOptions "system" true 1280 820 false 2000 true true false true true
    ((λ p, (p.1, JInt p.2)) <$> default [] (dict_get "queries" default_table_column_widths))
    ((λ p, (p.1, columns_json p.2)) <$> default_table_visible_columns)
    ((λ p, (p.1, columns_json p.2)) <$> default_table_column_order)
    ((λ p, (p.1, widths_json p.2)) <$> default_table_column_widths).

(** [Options()], with the identifier of its provider. *)
Definition Options_default (provider_id : string) : Options :=
  mkOptions CURRENT_SCHEMA_VERSION LoggingOptions_default NotifyOptions_default ScanOptions_default PiHoleOptions_default
    LLMOptions_default ResearchOptions_default UpdateOptions_default ProviderRegistryOptions_default
    ExternalTriggerOptions_default [LLMProviderOptions_default provider_id] [] [PromptProfileOptions_default]
    default_research_providers UIOptions_default.
