(* ===== verification/Validate.v ===== *)
(** [config.py]: the attributes of a configuration and [_validate], which makes
    options of them.

    [_coerce_dataclass] and [_load_list] put JSON over the defaults of a class
    without looking at the values; [_validate] brings every value to its type and
    range.  [repr] of a float or a container and [uuid4] are parameters; the
    identifiers that are drawn are threaded as a counter (the ones of an object
    that is thrown away are not counted).  The cases and the characters of a text
    are those of ASCII. *)
From stdpp Require Import base gmap strings list pretty.
From Stdlib Require Import Ascii QArith Qround Lqa Sorted.
From S2P Require Import Prelude HttpRetry Json Models Options.
Open Scope Z_scope.

(** * Errors

    [load_options] turns the first three into safe defaults. *)
Inductive config_exn :=
  | ConfigTypeError
  | ConfigValueError
  | ConfigAttributeError
  | ConfigOverflowError
  | UnsupportedConfigVersionError (version : Z)
  | ConfigDecodeError.

(** * Conversions *)

Definition attr (name : string) (f : fields) : json := default JNull (dict_get name f).

Definition conversion {A} (r : result conversion_exn A) (default : A) : result config_exn A :=
  match r with
  | Ok a => Ok a
  | Err ConversionOverflowError => Err ConfigOverflowError
  | Err _ => Ok default
  end.

Definition _as_int (value : json) (default : Z) : result config_exn Z := conversion (py_int_of value) default.
Definition _as_float (value : json) (default : py_float) : result config_exn py_float :=
  conversion (py_float_of value) default.

Definition _as_bool (value : json) (default : bool) : bool :=
  match value with
  | JBool b => b
  | JInt _ | JFloat _ => py_truthy value
  | JString text =>
      let normalized := str_lower (str_strip text) in
      if bool_decide (normalized ∈ ["true"; "yes"; "on"; "1"]%string) then true
      else if bool_decide (normalized ∈ ["false"; "no"; "off"; "0"]%string) then false
      else default
  | _ => default
  end.

Definition upper_char (c : Ascii.ascii) : Ascii.ascii :=
  let n := Ascii.N_of_ascii c in
  if ((97 <=? n) && (n <=? 122))%N then Ascii.ascii_of_N (n - 32) else c.
Definition str_upper (s : string) : string := str_map upper_char s.
Definition rstrip_slash (s : string) : string := rstrip (Ascii.eqb "/"%char) s.

(** [text if text in values else default] *)
Definition one_of (values : list string) (default text : string) : string :=
  if bool_decide (text ∈ values) then text else default.

(** [max(low, _as_int(...))] and the forms with an upper bound *)
Definition at_least (low : Z) (r : result config_exn Z) : result config_exn Z := z ← r; Ok (Z.max low z).
Definition between (low high : Z) (r : result config_exn Z) : result config_exn Z := z ← r; Ok (Z.min high (Z.max low z)).
Definition float_at_least (low : Q) (r : result config_exn py_float) : result config_exn py_float :=
  f ← r; Ok (float_max (Fin low) f).
Definition float_between (low high : Q) (r : result config_exn py_float) : result config_exn Q :=
  f ← r; Ok (clamp low high f).

Definition is_object (v : json) : option fields := match v with JObject f => Some f | _ => None end.
Definition _mapping (v : json) : fields := default [] (is_object v).

(** [a or b] on values *)
Definition json_or (a b : json) : json := if py_truthy a then a else b.

(** [iter(v)]: the elements, the keys, or the characters. *)
Fixpoint characters (s : string) : list json :=
  match s with
  | EmptyString => []
  | String c s => JString (String c EmptyString) :: characters s
  end.
Definition py_iter (v : json) : result config_exn (list json) :=
  match v with
  | JArray l => Ok l
  | JObject f => Ok (JString <$> f.*1)
  | JString s => Ok (characters s)
  | _ => Err ConfigTypeError
  end.

(** [for x in v or []] *)
Definition iter_or_empty (v : json) : result config_exn (list json) := py_iter (json_or v (JArray [])).

(** * Attributes from JSON *)

(** [setattr] for every known key of a dict. *)
Definition _coerce_dataclass (defaults : fields) (raw : json) : fields :=
  match raw with
  | JObject f => foldl (λ acc p, if bool_decide (p.1 ∈ defaults.*1) then dict_set p.1 p.2 acc else acc) defaults f
  | _ => defaults
  end.

Definition _load_list (raw : json) (defaults : fields) (fallback : list fields) : list fields :=
  match raw with
  | JArray l =>
      match (λ item, _coerce_dataclass defaults (JObject item)) <$> omap is_object l with
      | [] => fallback
      | loaded => loaded
      end
  | _ => fallback
  end.

(** A provider with its limits, a pool with its memberships. *)
Definition coerce_provider (provider_id : string) (item : fields) : fields :=
  dict_set "limits" (JObject (_coerce_dataclass (ProviderLimitOptions_asdict ProviderLimitOptions_default) (attr "limits" item)))
    (_coerce_dataclass (LLMProviderOptions_asdict (LLMProviderOptions_default provider_id)) (JObject item)).

Definition coerce_pool (item : fields) : fields :=
  dict_set "memberships"
    (JArray (JObject <$> _load_list (attr "memberships" item)
                           (ProviderPoolMembershipOptions_asdict ProviderPoolMembershipOptions_default) []))
    (_coerce_dataclass (AnalysisPoolOptions_asdict AnalysisPoolOptions_default) (JObject item)).

(** [uuid n] is the n-th identifier drawn. *)
Section Fresh.
Context (uuid : nat → string).

Definition fresh_provider_id (n : nat) : string := ("provider-" +:+ uuid n)%string.

Fixpoint coerce_providers (n : nat) (items : list fields) : list fields * nat :=
  match items with
  | [] => ([], n)
  | item :: items =>
      let '(rest, n') := coerce_providers (S n) items in (coerce_provider (fresh_provider_id n) item :: rest, n')
  end.

Definition _load_llm_providers (n : nat) (raw : json) : list fields * nat :=
  let fallback n := ([LLMProviderOptions_asdict (LLMProviderOptions_default (fresh_provider_id n))], S n) in
  match raw with
  | JArray l => match coerce_providers n (omap is_object l) with
                | ([], n) => fallback n
                | loaded => loaded
                end
  | _ => fallback n
  end.
End Fresh.

Definition _load_analysis_pools (raw : json) : list fields :=
  match raw with JArray l => coerce_pool <$> omap is_object l | _ => [] end.

(** The attributes of an [Options] object that was not validated. *)
Record raw_options := RawOptions {
  ro_logging : fields;
  ro_notify : fields;
  ro_scans : fields;
  ro_pihole : fields;
  ro_llm : fields;
  ro_research : fields;
  ro_updates : fields;
  ro_provider_registry : fields;
  ro_external_trigger : fields;
  ro_llm_providers : list fields;
  ro_analysis_pools : list fields;
  ro_prompt_profiles : list fields;
  ro_research_providers : list fields;
  ro_ui : fields
}.

(** The attributes of options whose values have their types already. *)
Definition raw_of (o : Options) : raw_options :=
  RawOptions (LoggingOptions_asdict (op_logging o)) (NotifyOptions_asdict (op_notify o))
    (ScanOptions_asdict (op_scans o)) (PiHoleOptions_asdict (op_pihole o)) (LLMOptions_asdict (op_llm o))
    (ResearchOptions_asdict (op_research o)) (UpdateOptions_asdict (op_updates o))
    (ProviderRegistryOptions_asdict (op_provider_registry o)) (ExternalTriggerOptions_asdict (op_external_trigger o))
    (LLMProviderOptions_asdict <$> op_llm_providers o) (AnalysisPoolOptions_asdict <$> op_analysis_pools o)
    (PromptProfileOptions_asdict <$> op_prompt_profiles o)
    (ResearchProviderOptions_asdict <$> op_research_providers o) (UIOptions_asdict (op_ui o)).

(** * [_validate] *)

Section Validate.
Context `{PyRepr}.

Definition str_attr (name : string) (f : fields) : string := py_str (attr name f).
(** [str(value or default)] *)
Definition str_or_attr (name default : string) (f : fields) : string := py_str_or (Some (attr name f)) default.
Definition stripped_attr (name default : string) (f : fields) : string := str_strip (str_or_attr name default f).
Definition choice_attr (name : string) (f : fields) : string := str_lower (str_strip (str_attr name f)).
Definition int_attr (name : string) (f : fields) (default : Z) : result config_exn Z := _as_int (attr name f) default.
Definition float_attr (name : string) (f : fields) (default : py_float) : result config_exn py_float :=
  _as_float (attr name f) default.
Definition bool_attr (name : string) (f : fields) (default : bool) : bool := _as_bool (attr name f) default.

Definition validate_logging (f : fields) : result config_exn LoggingOptions :=
  let d := LoggingOptions_default in
  rotate_bytes ← at_least 100000 (int_attr "rotate_bytes" f (lg_rotate_bytes d));
  backup_count ← at_least 1 (int_attr "backup_count" f (lg_backup_count d));
  Ok (mkLoggingOptions (bool_attr "enabled" f (lg_enabled d))
        (one_of ["DEBUG"; "INFO"; "WARNING"; "ERROR"; "CRITICAL"]%string "INFO" (str_upper (str_attr "level" f)))
        (str_or_attr "filename" (lg_filename d) f) rotate_bytes backup_count).

Definition validate_notify (f : fields) : result config_exn NotifyOptions :=
  let d := NotifyOptions_default in
  rate_limit_sec ← at_least 0 (int_attr "rate_limit_sec" f (nt_rate_limit_sec d));
  Ok (mkNotifyOptions (bool_attr "enable_desktop" f (nt_enable_desktop d)) (bool_attr "enable_sound" f (nt_enable_sound d))
        rate_limit_sec (str_or_attr "toast_title" (nt_toast_title d) f)).

Definition validate_external_trigger (f : fields) : result config_exn ExternalTriggerOptions :=
  let d := ExternalTriggerOptions_default in
  port ← between 1 65535 (int_attr "port" f (xt_port d));
  max_domains ← between 1 5000 (int_attr "max_domains_per_request" f (xt_max_domains_per_request d));
  Ok (mkExternalTriggerOptions (bool_attr "enabled" f (xt_enabled d)) (stripped_attr "bind_host" (xt_bind_host d) f) port
        (str_or_attr "token" "" f) (bool_attr "allow_remote" f (xt_allow_remote d)) max_domains).

(** A suffix in the form [.name]; an empty one is dropped. *)
Definition normalized_suffix (value : json) : string :=
  let suffix := rstrip is_dot (str_lower (str_strip (py_str value))) in
  let suffix := match suffix with
                | String c rest => if Ascii.eqb c "*"%char then rest else suffix
                | EmptyString => suffix
                end in
  if str_nonempty suffix && negb (str_startswith suffix ".") then ("." +:+ suffix)%string else suffix.

Definition excluded_suffixes (v : json) : list string :=
  let values := match v with JArray l => l | _ => [JString ".arpa"] end in
  foldl (λ acc s, if str_nonempty s && negb (bool_decide (s ∈ acc)) then acc ++ [s] else acc) []
    (normalized_suffix <$> values).

Definition validate_scans (f : fields) : result config_exn ScanOptions :=
  let d := ScanOptions_default in
  interval_sec ← at_least 1 (int_attr "interval_sec" f (so_interval_sec d));
  batch_size ← at_least 1 (int_attr "batch_size" f (so_batch_size d));
  initial_lookback_sec ← at_least 1 (int_attr "initial_lookback_sec" f (so_initial_lookback_sec d));
  queue_trigger_size ← at_least 1 (int_attr "queue_trigger_size" f (so_queue_trigger_size d));
  max_queue_wait_sec ← at_least 1 (int_attr "max_queue_wait_sec" f (so_max_queue_wait_sec d));
  history_idle_after_sec ← at_least 30 (int_attr "history_idle_after_sec" f (so_history_idle_after_sec d));
  history_lookback_days ← at_least 1 (int_attr "history_lookback_days" f (so_history_lookback_days d));
  history_batch_size ← at_least 10 (int_attr "history_batch_size" f (so_history_batch_size d));
  Ok (mkScanOptions (bool_attr "enabled" f (so_enabled d)) interval_sec batch_size initial_lookback_sec queue_trigger_size
        max_queue_wait_sec (bool_attr "history_backfill_enabled" f (so_history_backfill_enabled d))
        history_idle_after_sec history_lookback_days history_batch_size
        (excluded_suffixes (attr "excluded_domain_suffixes" f))).

Definition validate_pihole (f : fields) : result config_exn PiHoleOptions :=
  let d := PiHoleOptions_default in
  timeout_sec ← float_at_least 1 (float_attr "timeout_sec" f (ph_timeout_sec d));
  Ok (mkPiHoleOptions (str_or_attr "base_url" (ph_base_url d) f) (str_or_attr "password" "" f)
        (stripped_attr "ca_bundle_path" "" f) timeout_sec).

(** ** Tags *)

Definition tag_key (text : string) : string := str_replace " " "_" (str_lower (str_strip text)).

Definition _normalize_tags (values : json) : list string :=
  match values with
  | JArray l => fromkeys (tag_key <$> filter (λ t, str_nonempty (str_strip t) = true) (py_str <$> l))
  | _ => []
  end.

Definition validated_tags (f : fields) : list string :=
  match _normalize_tags (attr "tags" f) with [] => ["unknown"%string] | tags => tags end.

(** [d.setdefault(tag, value)] for every tag *)
Definition set_defaults {A} (value : string → A) (tags : list string) (d : gmap string A) : gmap string A :=
  foldl (λ d t, match d !! t with Some _ => d | None => <[t := value t]> d end) d tags.

Definition validated_policies (f : fields) (tags : list string) : gmap string string :=
  set_defaults (λ _, "manual_review"%string) tags
    (foldl (λ d p, if str_nonempty (str_strip p.1) then <[tag_key p.1 := str_lower (str_strip (py_str p.2))]> d else d)
       ∅ (_mapping (attr "tag_policies" f))).

(** One entry of [tag_recheck_days]; a value that is no number is left out. *)
Definition add_recheck (d : gmap string Z) (p : string * json) : result config_exn (gmap string Z) :=
  if negb (str_nonempty (tag_key p.1)) then Ok d
  else match py_int_of p.2 with
       | Ok z => Ok (<[tag_key p.1 := Z.max 1 z]> d)
       | Err ConversionOverflowError => Err ConfigOverflowError
       | Err _ => Ok d
       end.

Fixpoint add_rechecks (d : gmap string Z) (entries : fields) : result config_exn (gmap string Z) :=
  match entries with
  | [] => Ok d
  | p :: entries => d ← add_recheck d p; add_rechecks d entries
  end.

Definition validated_rechecks (f : fields) (tags : list string) (default_days : Z) : result config_exn (gmap string Z) :=
  d ← add_rechecks ∅ (_mapping (attr "tag_recheck_days" f));
  Ok (set_defaults (λ t, default default_days (dict_get t _DEFAULT_TAG_RECHECK_DAYS)) tags d).

(** [llm_providers] and [prompt_profiles] are not empty when the indices are
    bounded. *)
Definition index_attr (name : string) (f : fields) (length_of : nat) : result config_exn Z :=
  z ← int_attr name f 0; Ok (Z.min (Z.max 0 z) (Z.of_nat length_of - 1)).

Definition validate_llm (f : fields) (providers profiles : nat) : result config_exn LLMOptions :=
  let d := LLMOptions_default in
  interval_sec ← at_least 1 (int_attr "interval_sec" f (lm_interval_sec d));
  worker_batch_size ← at_least 1 (int_attr "worker_batch_size" f (lm_worker_batch_size d));
  domains ← at_least 1 (int_attr "domains_per_request" f (lm_domains_per_request d));
  min_request_interval_sec ← float_at_least 0 (float_attr "min_request_interval_sec" f (lm_min_request_interval_sec d));
  max_retries ← at_least 0 (int_attr "max_retries" f (lm_max_retries d));
  reserve ← float_between 0 90
    (float_attr "realtime_quota_reserve_percent" f (Fin (lm_realtime_quota_reserve_percent d)));
  quota_wait_timeout_sec ← float_at_least 0 (float_attr "quota_wait_timeout_sec" f (lm_quota_wait_timeout_sec d));
  unknown_rpm ← at_least 1
    (int_attr "unknown_remote_requests_per_minute" f (lm_unknown_remote_requests_per_minute d));
  unknown_domains ← at_least 1
    (int_attr "unknown_remote_max_domains_per_request" f (lm_unknown_remote_max_domains_per_request d));
  default_recheck_days ← at_least 1 (int_attr "default_recheck_days" f (lm_default_recheck_days d));
  review ← float_between 0 1 (float_attr "review_confidence_threshold" f (Fin (lm_review_confidence_threshold d)));
  auto ← float_between 0 1 (float_attr "auto_action_min_confidence" f (Fin (lm_auto_action_min_confidence d)));
  let review := if qltb auto review then auto else review in
  let tags := validated_tags f in
  rechecks ← validated_rechecks f tags default_recheck_days;
  provider_index ← index_attr "active_provider_index" f providers;
  profile_index ← index_attr "active_profile_index" f profiles;
  Ok (mkLLMOptions (bool_attr "enabled" f (lm_enabled d)) interval_sec worker_batch_size (Z.min worker_batch_size domains)
        min_request_interval_sec max_retries reserve quota_wait_timeout_sec unknown_rpm unknown_domains provider_index
        profile_index (one_of ["manual"; "hybrid"; "auto"]%string "hybrid" (str_attr "automation_mode" f))
        (bool_attr "simulation_mode" f (lm_simulation_mode d)) default_recheck_days review auto
        (bool_attr "require_research_for_auto_action" f (lm_require_research_for_auto_action d)) tags
        (validated_policies f tags) rechecks).

Definition validate_research (f : fields) : result config_exn ResearchOptions :=
  max_age_days ← at_least 1 (int_attr "max_age_days" f (rs_max_age_days ResearchOptions_default));
  Ok (mkResearchOptions max_age_days).

Definition validate_updates (f : fields) : result config_exn UpdateOptions :=
  let d := UpdateOptions_default in
  let channel := choice_attr "channel" f in
  check_interval_hours ← at_least 1 (int_attr "check_interval_hours" f (up_check_interval_hours d));
  last_check_at ← at_least 0 (int_attr "last_check_at" f (up_last_check_at d));
  Ok (mkUpdateOptions (bool_attr "check_automatically" f (up_check_automatically d))
        (if String.eqb channel "development" then "prerelease" else one_of ["stable"; "prerelease"]%string "stable" channel)
        check_interval_hours last_check_at).

Definition validate_registry (f : fields) : result config_exn ProviderRegistryOptions :=
  let d := ProviderRegistryOptions_default in
  refresh ← at_least 1 (int_attr "refresh_interval_hours" f (rg_refresh_interval_hours d));
  last_checked_at ← at_least 0 (int_attr "last_checked_at" f (rg_last_checked_at d));
  Ok (mkProviderRegistryOptions (bool_attr "auto_update" f (rg_auto_update d)) refresh last_checked_at
        (stripped_attr "registry_url" (rg_registry_url d) f) (stripped_attr "signature_url" (rg_signature_url d) f)).

(** ** The tables of the user interface *)

Definition known_texts (known : list string) (l : list json) : list string :=
  filter (λ c, c ∈ known) (py_str <$> l).

(** One table: its visible columns, or the default ones. *)
Definition visible_columns (configured : option json) (default_columns known : list string) : list string :=
  match known_texts known (match configured with Some (JArray l) => l | _ => JString <$> default_columns end) with
  | [] => default_columns
  | columns => columns
  end.

Fixpoint column_widths (configured : fields) (defaults : list (string * Z)) : result config_exn (list (string * Z)) :=
  match defaults with
  | [] => Ok []
  | (column, width) :: defaults =>
      z ← at_least 20 (_as_int (attr column configured) width);
      rest ← column_widths configured defaults;
      Ok ((column, z) :: rest)
  end.

Fixpoint validate_tables (visible widths : fields) (tables : list (string * list string))
    : result config_exn (fields * fields) :=
  match tables with
  | [] => Ok (visible, widths)
  | (key, default_columns) :: tables =>
      let defaults := default [] (dict_get key default_table_column_widths) in
      let columns := visible_columns (dict_get key visible) default_columns defaults.*1 in
      configured ← column_widths (_mapping (attr key widths)) defaults;
      validate_tables (dict_set key (columns_json columns) visible) (dict_set key (widths_json configured) widths) tables
  end.

Definition column_order (configured : option json) (default_order : list string) : list string :=
  let order := fromkeys (known_texts default_order
                 (match configured with Some (JArray l) => l | _ => JString <$> default_order end)) in
  order ++ filter (λ c, c ∉ order) default_order.

Definition validate_orders (order : fields) (tables : list (string * list string)) : fields :=
  foldl (λ order p, dict_set p.1 (columns_json (column_order (dict_get p.1 order) p.2)) order) order tables.

Definition validate_ui (f : fields) : result config_exn UIOptions :=
  let d := UIOptions_default in
  query_refresh_ms ← at_least 500 (int_attr "query_refresh_ms" f (ui_query_refresh_ms d));
  window_width ← at_least 800 (int_attr "window_width" f (ui_window_width d));
  window_height ← at_least 600 (int_attr "window_height" f (ui_window_height d));
  tables ← validate_tables (_mapping (attr "table_visible_columns" f)) (_mapping (attr "table_column_widths" f))
             default_table_visible_columns;
  let order := validate_orders (_mapping (attr "table_column_order" f)) default_table_column_order in
  Ok (mkUIOptions (one_of ["system"; "light"; "dark"]%string (ui_theme d) (choice_attr "theme" f))
        (bool_attr "show_tooltips" f (ui_show_tooltips d)) window_width window_height
        (bool_attr "auto_update_queries" f (ui_auto_update_queries d)) query_refresh_ms
        (bool_attr "auto_scroll_queries" f (ui_auto_scroll_queries d))
        (bool_attr "history_deduplicate_domains" f (ui_history_deduplicate_domains d))
        (bool_attr "evidence_test_skip_api_key_sources" f (ui_evidence_test_skip_api_key_sources d))
        (bool_attr "evidence_test_skip_missing_api_keys" f (ui_evidence_test_skip_missing_api_keys d))
        (bool_attr "lists_queue_only_unreviewed" f (ui_lists_queue_only_unreviewed d))
        (_mapping (attr "queries" tables.2)) tables.1 order tables.2).

(** ** Providers, profiles and sources *)

Definition validate_limits (f : fields) : result config_exn ProviderLimitOptions :=
  let count name := at_least 0 (int_attr name f 0) in
  requests_per_minute ← count "requests_per_minute"%string;
  requests_per_hour ← count "requests_per_hour"%string;
  requests_per_day ← count "requests_per_day"%string;
  input_tokens_per_minute ← count "input_tokens_per_minute"%string;
  output_tokens_per_minute ← count "output_tokens_per_minute"%string;
  tokens_per_minute ← count "tokens_per_minute"%string;
  tokens_per_hour ← count "tokens_per_hour"%string;
  tokens_per_day ← count "tokens_per_day"%string;
  context_tokens ← count "context_tokens"%string;
  max_domains ← count "max_domains_per_request"%string;
  units_per_day ← float_at_least 0 (float_attr "units_per_day" f (Fin 0));
  margin ← float_between 0 50 (float_attr "safety_margin_percent" f (Fin 10));
  Ok (mkProviderLimitOptions
        (one_of ["auto"; "auto_cap"; "manual"]%string "auto" (str_lower (stripped_attr "mode" "" f)))
        (stripped_attr "quota_group" "" f) requests_per_minute requests_per_hour requests_per_day
        input_tokens_per_minute output_tokens_per_minute tokens_per_minute tokens_per_hour tokens_per_day
        units_per_day context_tokens max_domains margin).

Definition validate_provider (provider_id : string) (f : fields) : result config_exn LLMProviderOptions :=
  let api_style := one_of ["openai_compatible"; "anthropic_messages"]%string "openai_compatible" (choice_attr "api_style" f) in
  let structured_output :=
    if String.eqb api_style "anthropic_messages" then "prompt_only"%string else choice_attr "structured_output" f in
  temperature ← float_attr "temperature" f (Fin 0);
  timeout_sec ← float_at_least 1 (float_attr "timeout_sec" f (Fin 30));
  max_output_tokens ← at_least 1 (int_attr "max_output_tokens" f 4096);
  limits ← validate_limits (_mapping (attr "limits" f));
  Ok (mkLLMProviderOptions provider_id (str_or_attr "name" "Unnamed provider" f)
        (str_or (choice_attr "preset_id" f) "custom") api_style
        (rstrip_slash (stripped_attr "base_url" "" f)) (stripped_attr "api_key" "" f) (stripped_attr "model" "" f)
        temperature timeout_sec max_output_tokens
        (one_of ["max_tokens"; "max_completion_tokens"; "none"]%string "max_tokens" (choice_attr "max_tokens_parameter" f))
        (bool_attr "send_temperature" f true)
        (one_of ["auto"; "json_schema"; "json_object"; "prompt_only"]%string "auto" structured_output) limits).

Definition validate_profile (f : fields) : PromptProfileOptions :=
  mkPromptProfileOptions (str_or_attr "name" "Unnamed profile" f) (str_or_attr "system" "" f)
    (str_or_attr "user_template" "" f).

Definition supported_research_kinds : list string :=
  ["adguard_services"; "dns_records"; "disconnect_tracking"; "rdap"; "ripestat"; "netcraft"; "virustotal";
   "threatfox"; "phishtank"; "urlscan"; "cloudflare_radar"; "repository_lists"; "urlhaus"]%string.

Definition validate_source (f : fields) : result config_exn ResearchProviderOptions :=
  let kind := choice_attr "kind" f in
  let base_url := stripped_attr "base_url" "" f in
  timeout_sec ← float_at_least 1 (float_attr "timeout_sec" f (Fin 15));
  min_interval_sec ← float_at_least 0 (float_attr "min_interval_sec" f (Fin 1));
  refresh ← at_least 1 (int_attr "refresh_interval_hours" f 24);
  max_results ← at_least 1 (int_attr "max_results" f 5);
  Ok (mkResearchProviderOptions (str_or_attr "name" "Unnamed source" f) kind (bool_attr "enabled" f false)
        (if String.eqb kind "rdap" && negb (str_nonempty (str_strip base_url))
         then "https://data.iana.org/rdap/dns.json"%string else base_url)
        (stripped_attr "api_key" "" f) timeout_sec min_interval_sec refresh max_results
        (str_lower (stripped_attr "test_domain" "" f))).

(** The first error of a list, or all results. *)
Fixpoint all_ok {A B} (validate : A → result config_exn B) (l : list A) : result config_exn (list B) :=
  match l with
  | [] => Ok []
  | x :: l => y ← validate x; rest ← all_ok validate l; Ok (y :: rest)
  end.

(** The sources of supported kinds, and the default ones of the other kinds. *)
Definition with_default_sources (l : list fields) : list fields :=
  let kept := filter (λ f, choice_attr "kind" f ∈ supported_research_kinds) l in
  kept ++ (ResearchProviderOptions_asdict <$>
             filter (λ d, sr_kind d ∉ (choice_attr "kind" <$> kept)) default_research_providers).

(** ** Pools *)

Definition membership_of (provider_id : string) : ProviderPoolMembershipOptions :=
  mkMembership provider_id true "primary" 100 1.

Definition validate_membership (provider_id : string) (f : fields) : result config_exn ProviderPoolMembershipOptions :=
  priority ← between 0 10000 (int_attr "priority" f 100);
  weight ← between 1 100 (int_attr "weight" f 1);
  Ok (mkMembership provider_id (bool_attr "enabled" f true)
        (one_of ["primary"; "fallback"; "verifier"]%string "primary" (str_lower (stripped_attr "role" "" f)))
        priority weight).

(** Known providers, each once. *)
Fixpoint validate_memberships (provider_ids seen : list string) (l : list fields)
    : result config_exn (list ProviderPoolMembershipOptions) :=
  match l with
  | [] => Ok []
  | f :: l =>
      let provider_id := stripped_attr "provider_id" "" f in
      if bool_decide (provider_id ∈ provider_ids) && negb (bool_decide (provider_id ∈ seen)) then
        m ← validate_membership provider_id f;
        rest ← validate_memberships provider_ids (provider_id :: seen) l;
        Ok (m :: rest)
      else validate_memberships provider_ids seen l
  end.

Definition pool_name (pool_id : string) : string :=
  if String.eqb pool_id "realtime" then "Realtime analysis" else "Background analysis".
Definition pool_mode (pool_id : string) : string :=
  if String.eqb pool_id "realtime" then "fallback" else "distribute".

Section Pools.
Context (provider_ids : list string) (active_provider_id : string) (active_profile_index : Z) (profiles : nat).

Definition validate_pool (pool_id : string) (f : fields) : result config_exn AnalysisPoolOptions :=
  profile_index ← int_attr "profile_index" f active_profile_index;
  max_parallel_requests ← between 1 16 (int_attr "max_parallel_requests" f 2);
  sample ← between 0 100 (int_attr "verification_sample_percent" f 10);
  security ← between 0 100 (int_attr "verify_security_risk_at_least" f 80);
  breakage ← between 0 100 (int_attr "verify_breakage_risk_at_least" f 50);
  memberships ← validate_memberships provider_ids []
                  (omap is_object match attr "memberships" f with JArray l => l | _ => [] end);
  Ok (mkAnalysisPoolOptions pool_id (str_or_attr "name" (pool_name pool_id) f) (bool_attr "enabled" f true)
        (one_of ["distribute"; "fallback"; "compare"; "verify"]%string (pool_mode pool_id) (str_lower (stripped_attr "mode" "" f)))
        (Z.min (Z.max 0 profile_index) (Z.of_nat profiles - 1)) max_parallel_requests sample
        (bool_attr "verify_automatic_actions" f true) security breakage
        match memberships with [] => [membership_of active_provider_id] | _ => memberships end).

Definition pool_ids : list string := ["realtime"; "background"]%string.

(** [pools_by_id]: the first pool of each known identifier. *)
Fixpoint validate_pools (pools : gmap string AnalysisPoolOptions) (l : list fields)
    : result config_exn (gmap string AnalysisPoolOptions) :=
  match l with
  | [] => Ok pools
  | f :: l =>
      let pool_id := str_lower (stripped_attr "pool_id" "" f) in
      if negb (bool_decide (pool_id ∈ pool_ids)) || bool_decide (is_Some (pools !! pool_id))
      then validate_pools pools l
      else p ← validate_pool pool_id f; validate_pools (<[pool_id := p]> pools) l
  end.

Definition default_pool (pool_id : string) : AnalysisPoolOptions :=
  mkAnalysisPoolOptions pool_id (pool_name pool_id) true (pool_mode pool_id) active_profile_index 2 10 true 80 50
    [membership_of active_provider_id].

Definition both_pools (pools : gmap string AnalysisPoolOptions) : list AnalysisPoolOptions :=
  (λ pool_id, default (default_pool pool_id) (pools !! pool_id)) <$> pool_ids.
End Pools.

(** ** The options *)

Section Identifiers.
Context (uuid : nat → string).

(** A blank or repeated identifier is replaced by a new one. *)
Fixpoint validate_providers (n : nat) (used : list string) (l : list fields)
    : result config_exn (list LLMProviderOptions * nat) :=
  match l with
  | [] => Ok ([], n)
  | f :: l =>
      let configured := stripped_attr "provider_id" "" f in
      let fresh := negb (str_nonempty configured) || bool_decide (configured ∈ used) in
      let provider_id := if fresh then fresh_provider_id uuid n else configured in
      p ← validate_provider provider_id f;
      rest ← validate_providers (if fresh then S n else n) (provider_id :: used) l;
      Ok (p :: rest.1, rest.2)
  end.

Definition _validate (o : raw_options) (n : nat) : result config_exn (Options * nat) :=
  logging ← validate_logging (ro_logging o);
  notify ← validate_notify (ro_notify o);
  external_trigger ← validate_external_trigger (ro_external_trigger o);
  scans ← validate_scans (ro_scans o);
  pihole ← validate_pihole (ro_pihole o);
  research ← validate_research (ro_research o);
  updates ← validate_updates (ro_updates o);
  registry ← validate_registry (ro_provider_registry o);
  ui ← validate_ui (ro_ui o);
  providers ← (let fallback := LLMProviderOptions_asdict (LLMProviderOptions_default (fresh_provider_id uuid n)) in
               match ro_llm_providers o with
               | [] => validate_providers (S n) [] [fallback]
               | l => validate_providers n [] l
               end);
  let profiles := validate_profile <$> match ro_prompt_profiles o with
                                       | [] => [PromptProfileOptions_asdict PromptProfileOptions_default]
                                       | l => l
                                       end in
  sources ← all_ok validate_source (with_default_sources (ro_research_providers o));
  llm ← validate_llm (ro_llm o) (length providers.1) (length profiles);
  let provider_ids := po_provider_id <$> providers.1 in
  let active_provider_id := default ""%string (provider_ids !! Z.to_nat (lm_active_provider_index llm)) in
  pools ← validate_pools provider_ids active_provider_id (lm_active_profile_index llm) (length profiles)
            ∅ (ro_analysis_pools o);
  Ok (mkOptions CURRENT_SCHEMA_VERSION logging notify scans pihole llm research updates registry external_trigger
        providers.1 (both_pools active_provider_id (lm_active_profile_index llm) pools) profiles sources ui,
      providers.2).
End Identifiers.
End Validate.

(** * Types and ranges of validated options *)

Definition float_from (low : Q) (f : py_float) : Prop := float_leb (Fin low) f = true.

Record scans_ok (o : ScanOptions) : Prop := {
  scans_positive : Forall (Z.le 1) [so_interval_sec o; so_batch_size o; so_initial_lookback_sec o;
                     so_queue_trigger_size o; so_max_queue_wait_sec o; so_history_lookback_days o];
  scans_history : 30 ≤ so_history_idle_after_sec o ∧ 10 ≤ so_history_batch_size o;
  scans_suffixes : NoDup (so_excluded_domain_suffixes o) ∧
    Forall (λ s, str_startswith s "." = true) (so_excluded_domain_suffixes o)
}.

Record llm_ok (providers profiles : nat) (o : LLMOptions) : Prop := {
  llm_positive : Forall (Z.le 1) [lm_interval_sec o; lm_domains_per_request o; lm_unknown_remote_requests_per_minute o;
                   lm_unknown_remote_max_domains_per_request o; lm_default_recheck_days o];
  llm_requests : lm_domains_per_request o ≤ lm_worker_batch_size o ∧ 0 ≤ lm_max_retries o;
  llm_floats : float_from 0 (lm_min_request_interval_sec o) ∧ float_from 0 (lm_quota_wait_timeout_sec o);
  llm_reserve : (0 <= lm_realtime_quota_reserve_percent o <= 90)%Q;
  llm_thresholds : (0 <= lm_review_confidence_threshold o <= lm_auto_action_min_confidence o)%Q ∧
    (lm_auto_action_min_confidence o <= 1)%Q;
  llm_mode : lm_automation_mode o ∈ ["manual"; "hybrid"; "auto"]%string;
  llm_tags : lm_tags o ≠ [] ∧ NoDup (lm_tags o) ∧
    ∀ t, t ∈ lm_tags o → is_Some (lm_tag_policies o !! t) ∧ is_Some (lm_tag_recheck_days o !! t);
  llm_rechecks : map_Forall (λ _ days, 1 ≤ days) (lm_tag_recheck_days o);
  llm_indices : 0 ≤ lm_active_provider_index o < Z.of_nat providers ∧ 0 ≤ lm_active_profile_index o < Z.of_nat profiles
}.

Record limits_ok (o : ProviderLimitOptions) : Prop := {
  limits_mode : lo_mode o ∈ ["auto"; "auto_cap"; "manual"]%string;
  limits_counts : Forall (Z.le 0)
    [lo_requests_per_minute o; lo_requests_per_hour o; lo_requests_per_day o; lo_input_tokens_per_minute o;
     lo_output_tokens_per_minute o; lo_tokens_per_minute o; lo_tokens_per_hour o; lo_tokens_per_day o;
     lo_context_tokens o; lo_max_domains_per_request o];
  limits_floats : float_from 0 (lo_units_per_day o) ∧ (0 <= lo_safety_margin_percent o <= 50)%Q
}.

Record provider_ok (p : LLMProviderOptions) : Prop := {
  provider_id_ok : po_provider_id p ≠ ""%string;
  provider_style : po_api_style p ∈ ["openai_compatible"; "anthropic_messages"]%string;
  provider_output : po_structured_output p ∈ ["auto"; "json_schema"; "json_object"; "prompt_only"]%string ∧
    (po_api_style p = "anthropic_messages"%string → po_structured_output p = "prompt_only"%string);
  provider_tokens : 1 ≤ po_max_output_tokens p ∧
    po_max_tokens_parameter p ∈ ["max_tokens"; "max_completion_tokens"; "none"]%string;
  provider_timeout : float_from 1 (po_timeout_sec p);
  provider_preset : po_preset_id p ≠ ""%string;
  provider_limits : limits_ok (po_limits p)
}.

Record source_ok (r : ResearchProviderOptions) : Prop := {
  source_kind : sr_kind r ∈ supported_research_kinds;
  source_url : sr_kind r = "rdap"%string → sr_base_url r ≠ ""%string;
  source_times : float_from 1 (sr_timeout_sec r) ∧ float_from 0 (sr_min_interval_sec r);
  source_counts : 1 ≤ sr_refresh_interval_hours r ∧ 1 ≤ sr_max_results r
}.

Record membership_ok (provider_ids : list string) (m : ProviderPoolMembershipOptions) : Prop := {
  membership_known : mb_provider_id m ∈ provider_ids;
  membership_role : mb_role m ∈ ["primary"; "fallback"; "verifier"]%string;
  membership_range : 0 ≤ mb_priority m ≤ 10000 ∧ 1 ≤ mb_weight m ≤ 100
}.

Record pool_ok (provider_ids : list string) (profiles : nat) (p : AnalysisPoolOptions) : Prop := {
  pool_mode_ok : ap_mode p ∈ ["distribute"; "fallback"; "compare"; "verify"]%string;
  pool_profile : 0 ≤ ap_profile_index p < Z.of_nat profiles;
  pool_parallel : 1 ≤ ap_max_parallel_requests p ≤ 16;
  pool_percents : Forall (λ z, 0 ≤ z ≤ 100)
    [ap_verification_sample_percent p; ap_verify_security_risk_at_least p; ap_verify_breakage_risk_at_least p];
  pool_members : ap_memberships p ≠ [] ∧ NoDup (mb_provider_id <$> ap_memberships p) ∧
    Forall (membership_ok provider_ids) (ap_memberships p)
}.

(** One table of the user interface. *)
Record table_ok (ui : UIOptions) (key : string) : Prop := {
  table_visible : ∃ columns, dict_get key (ui_table_visible_columns ui) = Some (columns_json columns) ∧ columns ≠ [] ∧
    ∀ c, c ∈ columns → c ∈ (default [] (dict_get key default_table_column_widths)).*1;
  table_widths : ∃ widths, dict_get key (ui_table_column_widths ui) = Some (widths_json widths) ∧
    widths.*1 = (default [] (dict_get key default_table_column_widths)).*1 ∧ Forall (Z.le 20) widths.*2;
  table_order : ∃ order, dict_get key (ui_table_column_order ui) = Some (columns_json order) ∧
    order ≡ₚ default [] (dict_get key default_table_column_order)
}.

Record ui_ok (o : UIOptions) : Prop := {
  ui_theme_ok : ui_theme o ∈ ["system"; "light"; "dark"]%string;
  ui_sizes : 500 ≤ ui_query_refresh_ms o ∧ 800 ≤ ui_window_width o ∧ 600 ≤ ui_window_height o;
  ui_tables : Forall (table_ok o) ["queries"; "history"; "lists"; "review"; "domains"]%string;
  ui_queries : JObject (ui_queries_colwidths o) = attr "queries" (ui_table_column_widths o)
}.

Record options_ok (o : Options) : Prop := {
  ok_version : op_schema_version o = CURRENT_SCHEMA_VERSION;
  ok_logging : lg_level (op_logging o) ∈ ["DEBUG"; "INFO"; "WARNING"; "ERROR"; "CRITICAL"]%string ∧
    100000 ≤ lg_rotate_bytes (op_logging o) ∧ 1 ≤ lg_backup_count (op_logging o);
  ok_notify : 0 ≤ nt_rate_limit_sec (op_notify o);
  ok_scans : scans_ok (op_scans o);
  ok_pihole : float_from 1 (ph_timeout_sec (op_pihole o));
  ok_llm : llm_ok (length (op_llm_providers o)) (length (op_prompt_profiles o)) (op_llm o);
  ok_research : 1 ≤ rs_max_age_days (op_research o);
  ok_updates : up_channel (op_updates o) ∈ ["stable"; "prerelease"]%string ∧
    1 ≤ up_check_interval_hours (op_updates o) ∧ 0 ≤ up_last_check_at (op_updates o);
  ok_registry : 1 ≤ rg_refresh_interval_hours (op_provider_registry o) ∧ 0 ≤ rg_last_checked_at (op_provider_registry o);
  ok_trigger : 1 ≤ xt_port (op_external_trigger o) ≤ 65535 ∧ 1 ≤ xt_max_domains_per_request (op_external_trigger o) ≤ 5000;
  ok_providers : Forall provider_ok (op_llm_providers o) ∧ NoDup (po_provider_id <$> op_llm_providers o);
  ok_pools : ap_pool_id <$> op_analysis_pools o = pool_ids ∧
    Forall (pool_ok (po_provider_id <$> op_llm_providers o) (length (op_prompt_profiles o))) (op_analysis_pools o);
  ok_sources : Forall source_ok (op_research_providers o) ∧
    ∀ kind, kind ∈ supported_research_kinds → kind ∈ (sr_kind <$> op_research_providers o);
  ok_ui : ui_ok (op_ui o)
}.

(** ** Lemmas *)

Lemma bind_Ok {E A B} (m : result E A) (k : A → result E B) b : (m ≫= k) = Ok b ↔ ∃ a, m = Ok a ∧ k a = Ok b.
Proof.
  destruct m as [a|e]; cbn [mbind result_bind]; split; try done; [eauto|by intros (a' & [= ->] & Hk)|by intros (? & ? & ?)].
Qed.

Lemma Ok_inj {E A} (a b : A) : Ok (E := E) a = Ok b → a = b.
Proof. by intros [= ->]. Qed.

(** The successful steps of a computation. *)
Ltac ok_steps H :=
  repeat (let x := fresh "x" in let Hx := fresh "Hx" in apply bind_Ok in H as (x & Hx & H); cbv beta in H);
  first [apply Ok_inj in H as <-|apply Ok_inj, pair_equal_spec in H as [<- <-]].

Lemma at_least_ok low r z : at_least low r = Ok z → low ≤ z.
Proof. unfold at_least. intros (y & _ & [= <-])%bind_Ok. lia. Qed.

Lemma between_ok low high r z : low ≤ high → between low high r = Ok z → low ≤ z ≤ high.
Proof. unfold between. intros Hle (y & _ & [= <-])%bind_Ok. lia. Qed.

Lemma float_max_from low f : float_from low (float_max (Fin low) f).
Proof.
  unfold float_from, float_max. destruct f as [q|[]|]; cbn; try done; [|by rewrite (proj2 (qleb_true low low)) by lra..].
  destruct (qltb low q) eqn:E; cbn; apply qleb_true; [apply qltb_true in E; lra|lra].
Qed.

Lemma float_at_least_ok low r f : float_at_least low r = Ok f → float_from low f.
Proof. unfold float_at_least. intros (y & _ & [= <-])%bind_Ok. apply float_max_from. Qed.

Lemma clamp_range low high f : (low <= high)%Q → (low <= clamp low high f <= high)%Q.
Proof. intros Hle. destruct f as [q|[]|]; cbn; [|split; lra..]. q_cases; lra. Qed.

Lemma float_between_ok low high r q : (low <= high)%Q → float_between low high r = Ok q → (low <= q <= high)%Q.
Proof. unfold float_between. intros Hle (y & _ & [= <-])%bind_Ok. by apply clamp_range. Qed.

Lemma one_of_in values d t : d ∈ values → one_of values d t ∈ values.
Proof. unfold one_of. case_bool_decide; done. Qed.

#[export] Hint Resolve at_least_ok float_at_least_ok : wormhole.

Section Ranges.
Context `{PyRepr}.

(** Bounds of the values that the hypotheses say were clamped. *)
Ltac ranges :=
  repeat match goal with
  | H : at_least _ _ = Ok _ |- _ => apply at_least_ok in H
  | H : float_at_least _ _ = Ok _ |- _ => apply float_at_least_ok in H
  | H : between ?l ?h _ = Ok _ |- _ => apply (between_ok l h) in H; [|lia]
  | H : float_between ?l ?h _ = Ok _ |- _ => apply (float_between_ok l h) in H; [|lra]
  end.
Ltac enum := apply one_of_in; apply (bool_decide_unpack _); exact I.
Ltac all_in_range := repeat (apply Forall_cons; split; [lia|]); apply Forall_nil_2.

Lemma foldl_invariant {A B} (P : B → Prop) (f : B → A → B) l b : (∀ b a, P b → P (f b a)) → P b → P (foldl f b l).
Proof. intros Hf. revert b. induction l as [|a l IH]; intros b Hb; [done|]. cbn. apply IH, Hf, Hb. Qed.

Lemma normalized_suffix_dot v : normalized_suffix v = ""%string ∨ str_startswith (normalized_suffix v) "." = true.
Proof.
  unfold normalized_suffix. generalize (rstrip is_dot (str_lower (str_strip (py_str v)))). intros s.
  generalize (match s with String c rest => if Ascii.eqb c "*" then rest else s | EmptyString => s end). intros t.
  destruct t as [|c t]; [by left|]. right. cbn [str_nonempty andb].
  destruct (str_startswith (String c t) ".") eqn:E; cbn [negb]; [done|reflexivity].
Qed.

Lemma excluded_suffixes_ok v : NoDup (excluded_suffixes v) ∧ Forall (λ s, str_startswith s "." = true) (excluded_suffixes v).
Proof.
  unfold excluded_suffixes. generalize (match v with JArray l => l | _ => [JString ".arpa"] end). intros l.
  enough (∀ acc, NoDup acc ∧ Forall (λ s, str_startswith s "." = true) acc →
    NoDup (foldl (λ acc s, if str_nonempty s && negb (bool_decide (s ∈ acc)) then acc ++ [s] else acc) acc (normalized_suffix <$> l))
    ∧ Forall (λ s, str_startswith s "." = true)
      (foldl (λ acc s, if str_nonempty s && negb (bool_decide (s ∈ acc)) then acc ++ [s] else acc) acc (normalized_suffix <$> l)))
    as Hfold by by apply Hfold; split; [apply NoDup_nil_2|apply Forall_nil_2].
  induction l as [|x l IH]; intros acc [Hnd Hdot]; cbn [fmap list_fmap foldl]; [done|]. apply IH.
  destruct (normalized_suffix_dot x) as [->|Hx]; [done|].
  destruct (str_nonempty _); [|done]. case_bool_decide as Hin; [done|]. cbn [andb negb]. split.
  - apply NoDup_app. split_and!; [done| |apply NoDup_singleton]. intros s Hs ->%list_elem_of_singleton. done.
  - apply Forall_app. by rewrite Forall_singleton.
Qed.

Lemma validate_scans_ok f o : validate_scans f = Ok o → scans_ok o.
Proof. unfold validate_scans. intros Ho. ok_steps Ho. ranges. split; cbn; [all_in_range|lia|apply excluded_suffixes_ok]. Qed.

Lemma validate_limits_ok f o : validate_limits f = Ok o → limits_ok o.
Proof. unfold validate_limits. intros Ho. ok_steps Ho. ranges. split; cbn -[one_of]; [enum|all_in_range|done]. Qed.

Lemma validate_provider_ok id f p : id ≠ ""%string → validate_provider id f = Ok p → provider_ok p.
Proof.
  unfold validate_provider. intros Hid Hp. ok_steps Hp. ranges.
  split; cbn -[one_of choice_attr String.eqb]; try done; try enum.
  - split; [enum|]. intros ->. reflexivity.
  - split; [done|enum].
  - unfold str_or. by destruct (choice_attr "preset_id" f).
  - by eapply validate_limits_ok.
Qed.

Lemma validate_source_ok f r : choice_attr "kind" f ∈ supported_research_kinds → validate_source f = Ok r → source_ok r.
Proof.
  unfold validate_source. intros Hkind Hr. ok_steps Hr. ranges. split; cbn -[choice_attr String.eqb str_strip]; try done.
  intros ->. cbn [String.eqb Ascii.eqb Bool.eqb andb]. destruct (str_nonempty (str_strip _)) eqn:E; [|done].
  cbn [negb andb]. intros Hb. by rewrite Hb in E.
Qed.

Lemma validate_membership_ok ids id f m : id ∈ ids → validate_membership id f = Ok m → membership_ok ids m ∧ mb_provider_id m = id.
Proof. unfold validate_membership. intros Hid Hm. ok_steps Hm. ranges. split; [split; cbn -[one_of]; [done|enum|done]|done]. Qed.

Lemma validate_memberships_ok ids seen l ms : validate_memberships ids seen l = Ok ms →
  NoDup (mb_provider_id <$> ms) ∧ Forall (membership_ok ids) ms ∧ ∀ m, m ∈ ms → mb_provider_id m ∉ seen.
Proof.
  revert seen ms. induction l as [|f l IH]; intros seen ms Hms; cbn [validate_memberships] in Hms.
  { injection Hms as <-. split_and!; [apply NoDup_nil_2|apply Forall_nil_2|]. by intros m Hm%elem_of_nil. }
  destruct (bool_decide (_ ∈ ids)) eqn:Hid; cbn [andb] in Hms; [|by apply IH].
  destruct (bool_decide (_ ∈ seen)) eqn:Hseen; cbn [negb] in Hms; [by apply IH|]. bool_cmp.
  ok_steps Hms. apply (validate_membership_ok ids) in Hx as [Hok Heq]; [|done].
  apply IH in Hx0 as (Hnd & Hall & Hnew). split_and!.
  - cbn [fmap list_fmap]. apply NoDup_cons. split; [|done]. intros (m & Hm & Hin)%list_elem_of_fmap.
    apply (Hnew m Hin). rewrite <-Hm, Heq. left.
  - by apply Forall_cons.
  - intros m [->|Hin]%elem_of_cons; [by rewrite Heq|]. intros Hs. apply (Hnew m Hin). by right.
Qed.

Lemma pool_mode_known id : pool_mode id ∈ ["distribute"; "fallback"; "compare"; "verify"]%string.
Proof. unfold pool_mode. destruct (String.eqb id "realtime"); apply (bool_decide_unpack _); exact I. Qed.

Lemma default_membership_ok ids id : id ∈ ids → Forall (membership_ok ids) [membership_of id].
Proof.
  intros Hid. apply Forall_singleton. split; cbn; [done| |lia]. apply (bool_decide_unpack _). exact I.
Qed.

Lemma validate_pool_ok ids active index profiles id f p : active ∈ ids → (0 < profiles)%nat →
  validate_pool ids active index profiles id f = Ok p → pool_ok ids profiles p ∧ ap_pool_id p = id.
Proof.
  unfold validate_pool. intros Hactive Hprofiles Hp. ok_steps Hp. ranges.
  split; [|done]. split; cbn -[one_of]; [apply one_of_in, pool_mode_known|lia|done|all_in_range|].
  apply validate_memberships_ok in Hx4 as (Hnd & Hall & _). destruct x4 as [|m ms]; [|done].
  split_and!; [done|apply NoDup_singleton|by apply default_membership_ok].
Qed.

Lemma default_pool_ok ids active index profiles id : active ∈ ids → 0 ≤ index < Z.of_nat profiles →
  pool_ok ids profiles (default_pool active index id).
Proof.
  intros Hactive Hindex. split; cbn -[pool_mode]; [apply pool_mode_known|done|lia|all_in_range|].
  split_and!; [done|apply NoDup_singleton|by apply default_membership_ok].
Qed.

Lemma validate_pools_ok ids active index profiles l pools pools' : active ∈ ids → (0 < profiles)%nat →
  map_Forall (λ id p, pool_ok ids profiles p ∧ ap_pool_id p = id) pools →
  validate_pools ids active index profiles pools l = Ok pools' →
  map_Forall (λ id p, pool_ok ids profiles p ∧ ap_pool_id p = id) pools'.
Proof.
  intros Hactive Hprofiles. revert pools. induction l as [|f l IH]; intros pools Hpools Hl; cbn [validate_pools] in Hl.
  { by injection Hl as <-. }
  destruct (negb _ || _); [by eapply IH|]. apply bind_Ok in Hl as (p & Hp & Hl).
  eapply IH; [|exact Hl]. apply map_Forall_insert_2; [|done]. by eapply validate_pool_ok.
Qed.


(** ** Providers and sources *)

Lemma validate_providers_ok (uuid : nat → string) l : Inj (=) (=) uuid → ∀ n used ps n',
  (∀ f m, f ∈ l → stripped_attr "provider_id" "" f = fresh_provider_id uuid m → (m < n)%nat) →
  (∀ m, fresh_provider_id uuid m ∈ used → (m < n)%nat) →
  validate_providers uuid n used l = Ok (ps, n') →
  length ps = length l ∧ Forall provider_ok ps ∧ NoDup (po_provider_id <$> ps) ∧ ∀ p, p ∈ ps → po_provider_id p ∉ used.
Proof.
  intros Huuid. induction l as [|f l IH]; intros n used ps n' Hl Hused Hps; cbn [validate_providers] in Hps.
  { injection Hps as <- <-. split_and!; [done|apply Forall_nil_2|apply NoDup_nil_2|]. by intros p Hp%elem_of_nil. }
  set (configured := stripped_attr "provider_id" "" f) in *.
  set (fresh := negb (str_nonempty configured) || bool_decide (configured ∈ used)) in *.
  set (id := if fresh then fresh_provider_id uuid n else configured) in *. cbv zeta in Hps.
  apply bind_Ok in Hps as (p & Hp & Hps). apply bind_Ok in Hps as ([rest m] & Hrest & [= <- <-]).
  assert (id ≠ ""%string ∧ id ∉ used) as [Hne Hnew].
  { unfold id, fresh. destruct (str_nonempty configured) eqn:E; cbn [negb orb].
    - case_bool_decide as Hin; [split; [done|]; intros Hf; apply Hused in Hf; lia|].
      split; [|done]. by destruct configured.
    - split; [done|]. intros Hf. apply Hused in Hf. lia. }
  assert (po_provider_id p = id) as Hid by (unfold validate_provider in Hp; by ok_steps Hp).
  apply (validate_provider_ok _ _ _ Hne) in Hp. clearbody fresh.
  assert (∀ f' k, f' ∈ l → stripped_attr "provider_id" "" f' = fresh_provider_id uuid k →
    (k < if fresh then S n else n)%nat) as Hl'.
  { intros f' k Hf' Hk. pose proof (Hl f' k (list_elem_of_further _ _ _ Hf') Hk). destruct fresh; lia. }
  assert (∀ k, fresh_provider_id uuid k ∈ id :: used → (k < if fresh then S n else n)%nat) as Hused'.
  { intros k [Hk|Hk]%elem_of_cons; [|apply Hused in Hk; destruct fresh; lia].
    unfold id in Hk. destruct fresh.
    - unfold fresh_provider_id in Hk. injection Hk as Hk. apply Huuid in Hk. lia.
    - apply (Hl f k); [left|by rewrite Hk]. }
  destruct (IH _ _ _ _ Hl' Hused' Hrest) as (Hlen & Hall & Hnd & Hout).
  cbn [length fmap list_fmap fst]. rewrite Hlen. split_and!; [done|by apply Forall_cons| |].
  - apply NoDup_cons. split; [|done]. intros (q & Hq & Hin)%list_elem_of_fmap. apply (Hout q Hin). rewrite <-Hq, Hid. left.
  - intros q [->|Hin]%elem_of_cons; [by rewrite Hid|]. intros Hu. apply (Hout q Hin). by right.
Qed.

Lemma all_ok_forall {A B} (validate : A → result config_exn B) l ys : all_ok validate l = Ok ys →
  Forall2 (λ x y, validate x = Ok y) l ys.
Proof.
  revert ys. induction l as [|x l IH]; intros ys Hl; cbn [all_ok] in Hl; [injection Hl as <-; by constructor|].
  ok_steps Hl. constructor; [done|by apply IH].
Qed.

Lemma with_default_sources_supported l f : f ∈ with_default_sources l → choice_attr "kind" f ∈ supported_research_kinds.
Proof.
  unfold with_default_sources. intros [Hf|Hf]%elem_of_app; [by apply list_elem_of_filter in Hf as [Hf _]|].
  apply list_elem_of_fmap in Hf as (d & -> & Hd). apply list_elem_of_filter in Hd as [_ Hd].
  revert d Hd. apply Forall_forall. repeat (apply Forall_cons; split; [apply (bool_decide_unpack _); exact I|]). apply Forall_nil_2.
Qed.

Lemma default_sources_cover kind : kind ∈ supported_research_kinds → ∃ d, d ∈ default_research_providers ∧ sr_kind d = kind.
Proof.
  intros Hkind. enough (kind ∈ sr_kind <$> default_research_providers) as (d & -> & Hd)%list_elem_of_fmap by eauto.
  revert kind Hkind. apply Forall_forall, (bool_decide_unpack _). vm_compute. exact I.
Qed.

Lemma with_default_sources_cover l kind : kind ∈ supported_research_kinds →
  kind ∈ (choice_attr "kind" <$> with_default_sources l).
Proof.
  intros Hkind. unfold with_default_sources. set (kept := filter _ l). rewrite fmap_app. apply elem_of_app.
  destruct (decide (kind ∈ choice_attr "kind" <$> kept)) as [Hin|Hin]; [by left|right].
  destruct (default_sources_cover kind Hkind) as (d & Hd & <-). apply list_elem_of_fmap.
  exists (ResearchProviderOptions_asdict d). split.
  - revert d Hd Hkind Hin. intros d Hd _ _. revert d Hd. apply Forall_forall.
    repeat (apply Forall_cons; split; [reflexivity|]). apply Forall_nil_2.
  - apply list_elem_of_fmap_2. by apply list_elem_of_filter.
Qed.

Lemma sources_ok l rs : all_ok validate_source (with_default_sources l) = Ok rs →
  Forall source_ok rs ∧ ∀ kind, kind ∈ supported_research_kinds → kind ∈ (sr_kind <$> rs).
Proof.
  intros Hrs%all_ok_forall. split.
  - apply Forall_forall. intros r Hr. apply list_elem_of_lookup in Hr as [i Hr].
    destruct (Forall2_lookup_r _ _ _ _ _ Hrs Hr) as (f & Hf & Hv).
    eapply validate_source_ok; [|exact Hv]. by eapply with_default_sources_supported, list_elem_of_lookup_2.
  - intros kind (f & -> & Hf)%(with_default_sources_cover l)%list_elem_of_fmap.
    apply list_elem_of_lookup in Hf as [i Hf]. destruct (Forall2_lookup_l _ _ _ _ _ Hrs Hf) as (r & Hr & Hv).
    apply list_elem_of_fmap. exists r. split; [|by eapply list_elem_of_lookup_2].
    unfold validate_source in Hv. by ok_steps Hv.
Qed.

(** ** Tags *)

Lemma set_defaults_lookup {A} (value : string → A) tags (d : gmap string A) t :
  set_defaults value tags d !! t = match d !! t with Some v => Some v | None => if decide (t ∈ tags) then Some (value t) else None end.
Proof.
  unfold set_defaults. revert d. induction tags as [|u tags IH]; intros d; cbn [foldl]; [by destruct (d !! t)|]. rewrite IH.
  destruct (d !! u) as [v|] eqn:Hu.
  - destruct (d !! t) eqn:Ht; [done|]. destruct (decide (t ∈ tags)), (decide (t ∈ u :: tags)) as [Hin|Hin]; try done.
    + destruct Hin. by right.
    + apply elem_of_cons in Hin as [->|]; [congruence|done].
  - destruct (decide (t = u)) as [->|Hne].
    + rewrite lookup_insert_eq, Hu. rewrite decide_True by left. done.
    + rewrite lookup_insert_ne by done. destruct (d !! t); [done|].
      apply decide_ext. rewrite elem_of_cons. naive_solver.
Qed.

Lemma set_defaults_covers {A} (value : string → A) tags d t : t ∈ tags → is_Some (set_defaults value tags d !! t).
Proof. intros Ht. rewrite set_defaults_lookup. destruct (d !! t); [done|]. by rewrite decide_True. Qed.

Lemma add_rechecks_positive entries d d' : map_Forall (λ _ days, 1 ≤ days) d → add_rechecks d entries = Ok d' →
  map_Forall (λ _ days, 1 ≤ days) d'.
Proof.
  revert d. induction entries as [|p l IH]; intros d Hd Hl; cbn [add_rechecks] in Hl; [by injection Hl as <-|].
  apply bind_Ok in Hl as (d1 & Hd1 & Hl). eapply IH; [|exact Hl].
  unfold add_recheck in Hd1. destruct (negb _); [by injection Hd1 as <-|].
  destruct (py_int_of p.2) as [z|[]]; first [discriminate|injection Hd1 as <-]; try done. apply map_Forall_insert_2; [lia|done].
Qed.

Lemma recheck_default_positive t default_days : 1 ≤ default_days →
  1 ≤ default default_days (dict_get t _DEFAULT_TAG_RECHECK_DAYS).
Proof.
  intros Hd. destruct (dict_get t _DEFAULT_TAG_RECHECK_DAYS) as [z|] eqn:E; [|done]. cbn [from_option id].
  assert (∀ l, Forall (λ p : string * Z, 1 ≤ p.2) l → dict_get t l = Some z → 1 ≤ z) as Hget.
  { induction l as [|[k v] l IH]; intros Hl Hg; cbn [dict_get] in Hg; [done|]. apply Forall_cons in Hl as [Hv Hl].
    destruct (String.eqb k t); [by injection Hg as <-|auto]. }
  eapply Hget; [|exact E]. repeat (apply Forall_cons; split; [cbn; lia|]). apply Forall_nil_2.
Qed.

Lemma validated_rechecks_ok f tags days d : 1 ≤ days → validated_rechecks f tags days = Ok d →
  map_Forall (λ _ days, 1 ≤ days) d ∧ ∀ t, t ∈ tags → is_Some (d !! t).
Proof.
  unfold validated_rechecks. intros Hdays (d0 & Hd0 & [= <-])%bind_Ok. split; [|intros t; by apply set_defaults_covers].
  intros t v. rewrite set_defaults_lookup. apply add_rechecks_positive in Hd0; [|apply map_Forall_empty].
  destruct (d0 !! t) as [w|] eqn:Ht; [intros [= <-]; by apply (Hd0 t)|].
  destruct (decide (t ∈ tags)); [|done]. intros [= <-]. by apply recheck_default_positive.
Qed.

Lemma validated_tags_ok f : validated_tags f ≠ [] ∧ NoDup (validated_tags f).
Proof.
  unfold validated_tags. destruct (_normalize_tags (attr "tags" f)) as [|t l] eqn:E; [split; [done|apply NoDup_singleton]|].
  split; [done|]. rewrite <-E. unfold _normalize_tags. destruct (attr "tags" f); try apply NoDup_nil_2. apply fromkeys_NoDup.
Qed.

Lemma index_attr_ok name f length_of z : (0 < length_of)%nat → index_attr name f length_of = Ok z → 0 ≤ z < Z.of_nat length_of.
Proof. unfold index_attr. intros Hl (y & _ & [= <-])%bind_Ok. lia. Qed.

Lemma validate_llm_ok f providers profiles o : (0 < providers)%nat → (0 < profiles)%nat →
  validate_llm f providers profiles = Ok o → llm_ok providers profiles o.
Proof.
  unfold validate_llm. intros Hproviders Hprofiles Ho. ok_steps Ho.
  apply index_attr_ok in Hx12, Hx13; [|done..]. ranges.
  destruct (validated_rechecks_ok f (validated_tags f) _ _ Hx8 Hx11) as [Hpos Hcovers].
  destruct (validated_tags_ok f) as [Hne Hnd]. split; cbn -[one_of validated_tags]; try done.
  - apply Forall_cons; split; [lia|]. apply Forall_cons; split; [lia|]. all_in_range.
  - lia.
  - destruct (qltb x10 x9) eqn:E; bool_cmp; split; lra.
  - enum.
  - split_and!; [done|done|]. intros t Ht. split; [by apply set_defaults_covers|by apply Hcovers].
Qed.

(** ** Tables *)

Lemma column_widths_ok configured defaults ws : column_widths configured defaults = Ok ws →
  ws.*1 = defaults.*1 ∧ Forall (Z.le 20) ws.*2.
Proof.
  revert ws. induction defaults as [|[c w] defaults IH]; intros ws Hws; cbn [column_widths] in Hws.
  { injection Hws as <-. split; [done|apply Forall_nil_2]. }
  ok_steps Hws. destruct (IH _ Hx0) as [Hk Hw]. cbn [fmap list_fmap fst snd]. split; [by f_equal|].
  apply Forall_cons. split; [by eapply at_least_ok|done].
Qed.

Lemma visible_columns_ok configured columns known : columns ≠ [] → (∀ c, c ∈ columns → c ∈ known) →
  visible_columns configured columns known ≠ [] ∧ ∀ c, c ∈ visible_columns configured columns known → c ∈ known.
Proof.
  intros Hne Hknown. unfold visible_columns. destruct (known_texts _ _) as [|c l] eqn:E; [done|]. split; [done|].
  intros d. rewrite <-E. unfold known_texts. by intros [Hd _]%list_elem_of_filter.
Qed.

(** What [validate_tables] leaves under a key. *)
Definition shown (tables : fields * fields) (key : string) : Prop :=
  let known := (default [] (dict_get key default_table_column_widths)).*1 in
  (∃ columns, dict_get key tables.1 = Some (columns_json columns) ∧ columns ≠ [] ∧ ∀ c, c ∈ columns → c ∈ known) ∧
  (∃ widths, dict_get key tables.2 = Some (widths_json widths) ∧ widths.*1 = known ∧ Forall (Z.le 20) widths.*2).

Lemma validate_tables_others tables visible widths r key : key ∉ tables.*1 → validate_tables visible widths tables = Ok r →
  dict_get key r.1 = dict_get key visible ∧ dict_get key r.2 = dict_get key widths.
Proof.
  revert visible widths. induction tables as [|[k cs] tables IH]; intros visible widths Hkey Hr; cbn [validate_tables] in Hr.
  { by injection Hr as <-. }
  apply not_elem_of_cons in Hkey as [Hne Hkey]. apply bind_Ok in Hr as (ws & _ & Hr).
  destruct (IH _ _ Hkey Hr) as [-> ->]. by rewrite !dict_get_set_ne.
Qed.

Lemma validate_tables_shown tables visible widths r : NoDup tables.*1 →
  (∀ p, p ∈ tables → p.2 ≠ [] ∧ ∀ c, c ∈ p.2 → c ∈ (default [] (dict_get p.1 default_table_column_widths)).*1) →
  validate_tables visible widths tables = Ok r → ∀ key, key ∈ tables.*1 → shown r key.
Proof.
  revert visible widths. induction tables as [|[k cs] tables IH]; intros visible widths Hnd Hcs Hr key Hkey;
    [by apply elem_of_nil in Hkey|].
  cbn [validate_tables] in Hr. apply bind_Ok in Hr as (ws & Hws & Hr). cbn [fmap list_fmap fst] in *.
  apply NoDup_cons in Hnd as [Hk Hnd].
  destruct (decide (key ∈ tables.*1)) as [Hin|Hin].
  { eapply IH; [done| |exact Hr|done]. intros p Hp. apply Hcs. by right. }
  apply elem_of_cons in Hkey as [->|]; [|done]. destruct (validate_tables_others _ _ _ _ _ Hin Hr) as [Hv Hw].
  unfold shown. rewrite Hv, Hw, !dict_get_set. destruct (Hcs (k, cs)) as [Hne Hknown]; [left|]. cbn [fst snd] in *. split.
  - eexists. split; [done|]. by apply visible_columns_ok.
  - eexists. split; [done|]. by eapply column_widths_ok.
Qed.

Lemma column_order_ok configured order : NoDup order → column_order configured order ≡ₚ order.
Proof.
  intros Hnd. unfold column_order. set (known := fromkeys _). apply NoDup_Permutation; [|done|].
  - apply NoDup_app. split_and!; [apply fromkeys_NoDup| |by apply NoDup_filter].
    intros c Hc Hf. by apply list_elem_of_filter in Hf as [Hf _].
  - intros c. rewrite elem_of_app, list_elem_of_filter. split; [intros [Hc|[_ Hc]]; [|done]|].
    + unfold known in Hc. rewrite elem_of_fromkeys in Hc. unfold known_texts in Hc. by apply list_elem_of_filter in Hc as [Hc _].
    + intros Hc. destruct (decide (c ∈ known)); [by left|by right].
Qed.

Lemma validate_orders_get tables order key d : NoDup tables.*1 → (key, d) ∈ tables →
  dict_get key (validate_orders order tables) = Some (columns_json (column_order (dict_get key order) d)).
Proof.
  unfold validate_orders. revert order. induction tables as [|[k cs] tables IH]; intros order Hnd Hin;
    [by apply elem_of_nil in Hin|].
  cbn [fmap list_fmap fst] in Hnd. apply NoDup_cons in Hnd as [Hk Hnd]. cbn [foldl fst snd].
  apply elem_of_cons in Hin as [[= <- <-]|Hin].
  - generalize (columns_json (column_order (dict_get key order) d)). intros v.
    assert (∀ tables order, key ∉ tables.*1 →
      dict_get key (foldl (λ order p, dict_set p.1 (columns_json (column_order (dict_get p.1 order) p.2)) order) order tables)
      = dict_get key order) as Hout.
    { clear. intros tables. induction tables as [|[k cs] tables IH]; intros order Hk; [done|]. cbn [foldl fst snd].
      cbn [fmap list_fmap fst] in Hk. apply not_elem_of_cons in Hk as [Hne Hk]. rewrite IH by done. by apply dict_get_set_ne. }
    rewrite Hout by done. apply dict_get_set.
  - assert (k ≠ key) as Hne by (intros ->; apply Hk, list_elem_of_fmap; by exists (key, d)).
    rewrite IH by done. by rewrite dict_get_set_ne.
Qed.

Lemma default_tables_ok p : p ∈ default_table_visible_columns →
  p.2 ≠ [] ∧ ∀ c, c ∈ p.2 → c ∈ (default [] (dict_get p.1 default_table_column_widths)).*1.
Proof.
  revert p. apply Forall_forall. repeat (apply Forall_cons; split; [split; [done|]|]); [| | | | |apply Forall_nil_2].
  all: apply Forall_forall, (bool_decide_unpack _); vm_compute; exact I.
Qed.

Definition table_keys : list string := ["queries"; "history"; "lists"; "review"; "domains"]%string.

Lemma default_orders_ok key : key ∈ table_keys →
  ∃ order, (key, order) ∈ default_table_column_order ∧ dict_get key default_table_column_order = Some order ∧ NoDup order.
Proof.
  revert key. apply Forall_forall. unfold table_keys.
  repeat (apply Forall_cons; split; [eexists; split_and!; [repeat first [left; reflexivity|right]|reflexivity
    |apply (bool_decide_unpack _); vm_compute; exact I]|]). apply Forall_nil_2.
Qed.

Lemma validate_ui_ok f o : validate_ui f = Ok o → ui_ok o.
Proof.
  unfold validate_ui. intros Ho. ok_steps Ho. ranges. rename x2 into tables. split;
    cbn [ui_theme ui_query_refresh_ms ui_window_width ui_window_height ui_queries_colwidths ui_table_column_widths].
  - apply one_of_in. apply (bool_decide_unpack _). exact I.
  - lia.
  - apply Forall_forall. intros key Hkey.
    assert (shown tables key) as [Hv Hw].
    { eapply validate_tables_shown; [|exact default_tables_ok|exact Hx2|exact Hkey]. apply (bool_decide_unpack _). vm_compute. exact I. }
    destruct (default_orders_ok key Hkey) as (order & Hin & Hget & Hnd).
    split; cbn [ui_table_visible_columns ui_table_column_widths ui_table_column_order]; [done|done|].
    exists (column_order (dict_get key (_mapping (attr "table_column_order" f))) order).
    split; [apply validate_orders_get; [|exact Hin]; apply (bool_decide_unpack _); vm_compute; exact I|].
    rewrite Hget. by apply column_order_ok.
  - assert (shown tables "queries") as [_ (ws & Hw & _)].
    { eapply validate_tables_shown; [|exact default_tables_ok|exact Hx2|left]. apply (bool_decide_unpack _). vm_compute. exact I. }
    unfold attr, _mapping. rewrite Hw. reflexivity.
Qed.

(** ** All options *)

(** The identifiers differ, and have no blanks around them. *)
Definition proper_uuid (uuid : nat → string) : Prop :=
  Inj (=) (=) uuid ∧ ∀ m, str_strip (fresh_provider_id uuid m) = fresh_provider_id uuid m.

(** Identifiers drawn from [n] on are new: none is configured. *)
Definition unused_from (uuid : nat → string) (n : nat) (o : raw_options) : Prop :=
  ∀ f m, f ∈ ro_llm_providers o → stripped_attr "provider_id" "" f = fresh_provider_id uuid m → (m < n)%nat.

Lemma validated_are_ok (uuid : nat → string) raw n o n' : proper_uuid uuid → unused_from uuid n raw →
  _validate uuid raw n = Ok (o, n') → options_ok o.
Proof.
  intros [Huuid Hstrip] Hunused. unfold _validate. intros Ho. cbv zeta in Ho. ok_steps Ho.
  rename x8 into providers, x9 into sources, x10 into llm, x11 into pools.
  destruct providers as [ps m]. cbn [fst snd] in *.
  assert (ps ≠ [] ∧ Forall provider_ok ps ∧ NoDup (po_provider_id <$> ps)) as (Hne & Hps & Hnd).
  { assert (∀ l k, l ≠ [] → (∀ f i, f ∈ l → stripped_attr "provider_id" "" f = fresh_provider_id uuid i → (i < k)%nat) →
      validate_providers uuid k [] l = Ok (ps, m) → ps ≠ [] ∧ Forall provider_ok ps ∧ NoDup (po_provider_id <$> ps)) as Hall.
    { intros l k Hl Hk Hv. apply validate_providers_ok in Hv as (Hlen & Hok & Hd & _); [|done..|by intros i Hi%elem_of_nil].
      split_and!; [|done..]. intros ->. by destruct l. }
    destruct (ro_llm_providers raw) as [|f l] eqn:El; [|apply (Hall (f :: l) n); [done|by rewrite <-El|done]].
    eapply (Hall _ (S n)); [| |exact Hx8]; [done|]. intros f i ->%list_elem_of_singleton Hi.
    change (str_strip (str_or (fresh_provider_id uuid n) "") = fresh_provider_id uuid i) in Hi.
    change (str_or (fresh_provider_id uuid n) "") with (fresh_provider_id uuid n) in Hi. rewrite Hstrip in Hi.
    injection Hi as Hi%Huuid. lia. }
  set (profiles := validate_profile <$> _) in *.
  assert (0 < length profiles)%nat as Hprofiles by (unfold profiles; rewrite length_fmap; destruct (ro_prompt_profiles raw); cbn; lia).
  assert (0 < length ps)%nat as Hlen by (destruct ps; [done|cbn; lia]).
  apply validate_llm_ok in Hx10 as Hllm; [|done..]. pose proof (llm_indices _ _ _ Hllm) as [Hindex Hprofile].
  set (active := default _ _) in *.
  assert (active ∈ po_provider_id <$> ps) as Hactive.
  { unfold active. destruct ((po_provider_id <$> ps) !! Z.to_nat (lm_active_provider_index llm)) as [id|] eqn:E;
      [by eapply list_elem_of_lookup_2|]. apply lookup_ge_None in E. rewrite length_fmap in E. lia. }
  assert (∀ id, id ∈ pool_ids → pool_ok (po_provider_id <$> ps) (length profiles)
    (default (default_pool active (lm_active_profile_index llm) id) (pools !! id)) ∧
    ap_pool_id (default (default_pool active (lm_active_profile_index llm) id) (pools !! id)) = id) as Hpools.
  { intros id _. apply validate_pools_ok in Hx11; [|done|done|by apply map_Forall_empty].
    destruct (pools !! id) as [p|] eqn:E; cbn [from_option]; [by apply (Hx11 id)|]. split; [by apply default_pool_ok|done]. }
  destruct (sources_ok _ _ Hx9) as [Hsources Hcover].
  split; cbn [op_schema_version op_logging op_notify op_scans op_pihole op_llm op_research op_updates op_provider_registry
    op_external_trigger op_llm_providers op_analysis_pools op_prompt_profiles op_research_providers op_ui].
  - done.
  - unfold validate_logging in Hx. ok_steps Hx. ranges. cbn -[one_of]. split; [enum|done].
  - unfold validate_notify in Hx0. ok_steps Hx0. ranges. done.
  - by eapply validate_scans_ok.
  - unfold validate_pihole in Hx3. ok_steps Hx3. ranges. done.
  - done.
  - unfold validate_research in Hx4. ok_steps Hx4. ranges. done.
  - unfold validate_updates in Hx5. ok_steps Hx5. ranges. cbn -[one_of choice_attr]. split; [|done].
    destruct (String.eqb _ "development"); [right; left|enum].
  - unfold validate_registry in Hx6. ok_steps Hx6. ranges. done.
  - unfold validate_external_trigger in Hx1. ok_steps Hx1. ranges. done.
  - done.
  - split; [|apply Forall_forall].
    + unfold both_pools. rewrite <-list_fmap_compose. unfold pool_ids. cbn [fmap list_fmap compose].
      f_equal; [|f_equal]; apply Hpools; unfold pool_ids; [left|right; left].
    + intros p (id & -> & Hid)%list_elem_of_fmap. by apply Hpools.
  - done.
  - by eapply validate_ui_ok.
Qed.
End Ranges.

(** ** The only error *)

Section Errors.
Context `{PyRepr}.

Definition overflow_only {A} (r : result config_exn A) : Prop := ∀ e, r = Err e → e = ConfigOverflowError.

Lemma overflow_ok {A} (a : A) : overflow_only (Ok a).
Proof. by intros e. Qed.
Lemma overflow_bind {A B} (m : result config_exn A) (k : A → result config_exn B) :
  overflow_only m → (∀ a, overflow_only (k a)) → overflow_only (m ≫= k).
Proof. intros Hm Hk e. destruct m as [a|e']; cbn [mbind result_bind]; [apply Hk|]. intros [= ->]. by apply Hm. Qed.
Lemma overflow_conversion {A} (r : result conversion_exn A) d : overflow_only (conversion r d).
Proof. intros e. destruct r as [a|[]]; cbn; congruence. Qed.

Lemma overflow_int name f d : overflow_only (int_attr name f d).
Proof. apply overflow_conversion. Qed.
Lemma overflow_float name f d : overflow_only (float_attr name f d).
Proof. apply overflow_conversion. Qed.
Lemma overflow_as_int v d : overflow_only (_as_int v d).
Proof. apply overflow_conversion. Qed.
Lemma overflow_at_least low r : overflow_only r → overflow_only (at_least low r).
Proof. intros Hr. apply overflow_bind; [done|]. intros a. apply overflow_ok. Qed.
Lemma overflow_between low high r : overflow_only r → overflow_only (between low high r).
Proof. intros Hr. apply overflow_bind; [done|]. intros a. apply overflow_ok. Qed.
Lemma overflow_float_at_least low r : overflow_only r → overflow_only (float_at_least low r).
Proof. intros Hr. apply overflow_bind; [done|]. intros a. apply overflow_ok. Qed.
Lemma overflow_float_between low high r : overflow_only r → overflow_only (float_between low high r).
Proof. intros Hr. apply overflow_bind; [done|]. intros a. apply overflow_ok. Qed.

#[local] Hint Resolve overflow_ok overflow_int overflow_float overflow_as_int overflow_at_least overflow_between
  overflow_float_at_least overflow_float_between : core.
Ltac overflow := repeat (apply overflow_bind; [eauto|intros ?]); auto.

Lemma overflow_index name f n : overflow_only (index_attr name f n).
Proof. unfold index_attr. overflow. Qed.
Lemma overflow_limits f : overflow_only (validate_limits f).
Proof. unfold validate_limits. cbv zeta. overflow. Qed.
#[local] Hint Resolve overflow_index overflow_limits : core.
Lemma overflow_provider id f : overflow_only (validate_provider id f).
Proof. unfold validate_provider. cbv zeta. overflow. Qed.
Lemma overflow_source f : overflow_only (validate_source f).
Proof. unfold validate_source. cbv zeta. overflow. Qed.
Lemma overflow_membership id f : overflow_only (validate_membership id f).
Proof. unfold validate_membership. overflow. Qed.
#[local] Hint Resolve overflow_provider overflow_source overflow_membership : core.

Lemma overflow_providers uuid l n used : overflow_only (validate_providers uuid n used l).
Proof. revert n used. induction l as [|f l IH]; intros n used; cbn [validate_providers]; cbv zeta; overflow. Qed.
Lemma overflow_all {A B} (validate : A → result config_exn B) l : (∀ x, overflow_only (validate x)) → overflow_only (all_ok validate l).
Proof. intros Hv. induction l as [|x l IH]; cbn [all_ok]; overflow. Qed.
Lemma overflow_memberships ids seen l : overflow_only (validate_memberships ids seen l).
Proof. revert seen. induction l as [|f l IH]; intros seen; cbn [validate_memberships]; cbv zeta; [auto|]. case_match; overflow. Qed.
#[local] Hint Resolve overflow_providers overflow_all overflow_memberships : core.

Lemma overflow_pools ids active index profiles l pools : overflow_only (validate_pools ids active index profiles pools l).
Proof.
  revert pools. induction l as [|f l IH]; intros pools; cbn [validate_pools]; cbv zeta; [auto|]. case_match; [auto|].
  apply overflow_bind; [|intros; auto]. unfold validate_pool. overflow.
Qed.
Lemma overflow_rechecks d entries : overflow_only (add_rechecks d entries).
Proof.
  revert d. induction entries as [|p l IH]; intros d; cbn [add_rechecks]; [auto|]. apply overflow_bind; [|auto].
  unfold add_recheck. destruct (negb _); [auto|]. destruct (py_int_of p.2) as [|[]]; auto. by intros e [= <-].
Qed.
Lemma overflow_widths configured defaults : overflow_only (column_widths configured defaults).
Proof. induction defaults as [|[c w] l IH]; cbn [column_widths]; overflow. Qed.
#[local] Hint Resolve overflow_pools overflow_rechecks overflow_widths : core.
Lemma overflow_tables tables visible widths : overflow_only (validate_tables visible widths tables).
Proof. revert visible widths. induction tables as [|[k cs] l IH]; intros visible widths; cbn [validate_tables]; cbv zeta; overflow. Qed.
Lemma overflow_llm f providers profiles : overflow_only (validate_llm f providers profiles).
Proof.
  unfold validate_llm. cbv zeta. repeat (apply overflow_bind; [unfold validated_rechecks; try (overflow; done); eauto|intros ?]). auto.
Qed.
#[local] Hint Resolve overflow_tables overflow_llm : core.

Lemma validate_overflow uuid raw n : overflow_only (_validate uuid raw n).
Proof.
  unfold _validate, validate_logging, validate_notify, validate_external_trigger, validate_scans, validate_pihole,
    validate_research, validate_updates, validate_registry, validate_ui. cbv zeta.
  repeat (apply overflow_bind; [try (overflow; done)|intros ?]); [|auto]. destruct (ro_llm_providers raw); auto.
Qed.
End Errors.

(** ** Options that validation leaves alone *)

Section Settled.
Context `{PyRepr} (uuid : nat → string).

(** What [_validate (raw_of o) = o] says of every part. *)
Record settled (o : Options) : Prop := {
  st_version : op_schema_version o = CURRENT_SCHEMA_VERSION;
  st_logging : validate_logging (LoggingOptions_asdict (op_logging o)) = Ok (op_logging o);
  st_notify : validate_notify (NotifyOptions_asdict (op_notify o)) = Ok (op_notify o);
  st_trigger : validate_external_trigger (ExternalTriggerOptions_asdict (op_external_trigger o)) = Ok (op_external_trigger o);
  st_scans : validate_scans (ScanOptions_asdict (op_scans o)) = Ok (op_scans o);
  st_pihole : validate_pihole (PiHoleOptions_asdict (op_pihole o)) = Ok (op_pihole o);
  st_research : validate_research (ResearchOptions_asdict (op_research o)) = Ok (op_research o);
  st_updates : validate_updates (UpdateOptions_asdict (op_updates o)) = Ok (op_updates o);
  st_registry : validate_registry (ProviderRegistryOptions_asdict (op_provider_registry o)) = Ok (op_provider_registry o);
  st_ui : validate_ui (UIOptions_asdict (op_ui o)) = Ok (op_ui o);
  st_providers : op_llm_providers o ≠ [] ∧
    ∀ n, validate_providers uuid n [] (LLMProviderOptions_asdict <$> op_llm_providers o) = Ok (op_llm_providers o, n);
  st_profiles : op_prompt_profiles o ≠ [] ∧
    validate_profile <$> (PromptProfileOptions_asdict <$> op_prompt_profiles o) = op_prompt_profiles o;
  st_sources : all_ok validate_source (with_default_sources (ResearchProviderOptions_asdict <$> op_research_providers o)) =
    Ok (op_research_providers o);
  st_llm : validate_llm (LLMOptions_asdict (op_llm o)) (length (op_llm_providers o)) (length (op_prompt_profiles o)) = Ok (op_llm o);
  st_pools : let ids := po_provider_id <$> op_llm_providers o in
    let active := default ""%string (ids !! Z.to_nat (lm_active_provider_index (op_llm o))) in
    ∃ pools, validate_pools ids active (lm_active_profile_index (op_llm o)) (length (op_prompt_profiles o)) ∅
               (AnalysisPoolOptions_asdict <$> op_analysis_pools o) = Ok pools ∧
             both_pools active (lm_active_profile_index (op_llm o)) pools = op_analysis_pools o
}.

Lemma providers_counter l n used ps m : validate_providers uuid n used l = Ok (ps, m) → (n ≤ m)%nat ∧ length ps = length l.
Proof.
  revert n used ps m. induction l as [|f l IH]; intros n used ps m Hl; cbn [validate_providers] in Hl.
  { injection Hl as <- <-. done. }
  cbv zeta in Hl. apply bind_Ok in Hl as (p & _ & Hl). apply bind_Ok in Hl as ([r k] & Hr & [= <- <-]).
  apply IH in Hr as [Hle Hlen]. cbn [length fst]. rewrite Hlen. split; [|done]. case_match; lia.
Qed.

(** Without a new identifier the counter does not matter. *)
Lemma providers_any_counter l n used ps : validate_providers uuid n used l = Ok (ps, n) →
  ∀ k, validate_providers uuid k used l = Ok (ps, k).
Proof.
  revert n used ps. induction l as [|f l IH]; intros n used ps Hl k; cbn [validate_providers] in *.
  { by injection Hl as <-. }
  cbv zeta in *. apply bind_Ok in Hl as (p & Hp & Hl). apply bind_Ok in Hl as ([r m] & Hr & Heq).
  apply Ok_inj, pair_equal_spec in Heq as [<- Hm]. cbn [fst snd] in *. subst m.
  destruct (negb _ || _) eqn:E; [apply providers_counter in Hr as [Hle _]; lia|].
  rewrite Hp. cbn [mbind result_bind]. by rewrite (IH _ _ _ Hr k).
Qed.

Lemma settled_intro o n : settled o → _validate uuid (raw_of o) n = Ok (o, n).
Proof.
  intros [Hversion Hlogging Hnotify Htrigger Hscans Hpihole Hresearch Hupdates Hregistry Hui [Hps Hproviders] [Hpfs Hprofiles]
    Hsources Hllm (pools & Hpools & Hboth)].
  unfold _validate, raw_of.
  cbn [ro_logging ro_notify ro_scans ro_pihole ro_llm ro_research ro_updates ro_provider_registry ro_external_trigger
    ro_llm_providers ro_analysis_pools ro_prompt_profiles ro_research_providers ro_ui].
  rewrite Hlogging, Hnotify, Htrigger, Hscans, Hpihole, Hresearch, Hupdates, Hregistry, Hui. cbn [mbind result_bind].
  replace (match LLMProviderOptions_asdict <$> op_llm_providers o with [] => _ | _ => _ end)
    with (@Ok config_exn (list LLMProviderOptions * nat) (op_llm_providers o, n))
    by (rewrite <-(Hproviders n); by destruct (op_llm_providers o)).
  cbn [mbind result_bind fst snd].
  replace (match PromptProfileOptions_asdict <$> op_prompt_profiles o with [] => _ | _ => _ end)
    with (PromptProfileOptions_asdict <$> op_prompt_profiles o) by (by destruct (op_prompt_profiles o)).
  rewrite Hprofiles, Hsources. cbn [mbind result_bind]. rewrite Hllm. cbn [mbind result_bind]. rewrite Hpools.
  cbn [mbind result_bind]. rewrite Hboth, <-Hversion. by destruct o.
Qed.

Lemma settled_elim o n : _validate uuid (raw_of o) n = Ok (o, n) → settled o.
Proof.
  intros Ho. unfold _validate, raw_of in Ho.
  cbn [ro_logging ro_notify ro_scans ro_pihole ro_llm ro_research ro_updates ro_provider_registry ro_external_trigger
    ro_llm_providers ro_analysis_pools ro_prompt_profiles ro_research_providers ro_ui] in Ho. cbv zeta in Ho.
  repeat (let x := fresh "x" in let Hx := fresh "Hx" in apply bind_Ok in Ho as (x & Hx & Ho); cbv beta in Ho).
  apply Ok_inj, pair_equal_spec in Ho as [Ho Hn]. destruct x8 as [ps m]. cbn [fst snd] in *. subst m.
  assert (ps = op_llm_providers o ∧ x = op_logging o ∧ x0 = op_notify o ∧ x1 = op_external_trigger o ∧ x2 = op_scans o ∧
    x3 = op_pihole o ∧ x4 = op_research o ∧ x5 = op_updates o ∧ x6 = op_provider_registry o ∧ x7 = op_ui o ∧
    x9 = op_research_providers o ∧ x10 = op_llm o) as (-> & -> & -> & -> & -> & -> & -> & -> & -> & -> & -> & ->)
    by (rewrite <-Ho; done).
  destruct (op_llm_providers o) as [|p ps] eqn:Eps.
  { cbn [fmap list_fmap] in Hx8. apply providers_counter in Hx8 as [Hle _]. lia. }
  destruct (op_prompt_profiles o) as [|q qs] eqn:Eqs; [by apply (f_equal op_prompt_profiles) in Ho; cbn in Ho; rewrite Eqs in Ho|].
  assert (validate_profile <$> (PromptProfileOptions_asdict <$> q :: qs) = q :: qs) as Hq
    by (apply (f_equal op_prompt_profiles) in Ho; cbn [op_prompt_profiles] in Ho; rewrite Eqs in Ho; exact Ho).
  assert (both_pools (default ""%string ((po_provider_id <$> p :: ps) !! Z.to_nat (lm_active_provider_index (op_llm o))))
    (lm_active_profile_index (op_llm o)) x11 = op_analysis_pools o) as Hboth by exact (f_equal op_analysis_pools Ho).
  assert (CURRENT_SCHEMA_VERSION = op_schema_version o) as Hversion by exact (f_equal op_schema_version Ho). clear Ho.
  change (validate_providers uuid n [] (LLMProviderOptions_asdict <$> p :: ps) = Ok (p :: ps, n)) in Hx8.
  change (validate_llm (LLMOptions_asdict (op_llm o)) (length (p :: ps))
            (length (validate_profile <$> (PromptProfileOptions_asdict <$> q :: qs))) = Ok (op_llm o)) in Hx10.
  change (match PromptProfileOptions_asdict <$> q :: qs with [] => _ | l0 :: l1 => l0 :: l1 end)
    with (PromptProfileOptions_asdict <$> q :: qs) in Hx11.
  rewrite Hq in Hx10, Hx11.
  split; rewrite ?Eps, ?Eqs; try done.
  - split; [done|]. by eapply providers_any_counter.
  - by exists x11.
Qed.
End Settled.

(** ** Options whose values have their types validate *)

Section Typed.
Context `{PyRepr} (uuid : nat → string).

Definition succeeds {A} (r : result config_exn A) : Prop := ∃ a, r = Ok a.

Lemma succeeds_then {A B} (m : result config_exn A) (k : A → result config_exn B) :
  succeeds m → (∀ a, succeeds (k a)) → succeeds (m ≫= k).
Proof. intros [a ->] Hk. apply Hk. Qed.

Lemma typed_provider id p : succeeds (validate_provider id (LLMProviderOptions_asdict p)).
Proof. eexists. reflexivity. Qed.
Lemma typed_source r : succeeds (validate_source (ResearchProviderOptions_asdict r)).
Proof. eexists. reflexivity. Qed.
Lemma typed_membership id m : succeeds (validate_membership id (ProviderPoolMembershipOptions_asdict m)).
Proof. eexists. reflexivity. Qed.

Lemma typed_providers ps : ∀ n used, succeeds (validate_providers uuid n used (LLMProviderOptions_asdict <$> ps)).
Proof.
  induction ps as [|p ps IH]; intros n used; cbn [fmap list_fmap validate_providers]; [by eexists|]. cbv zeta.
  apply succeeds_then; [apply typed_provider|]. intros q. apply succeeds_then; [apply IH|]. intros rest. by eexists.
Qed.

Lemma typed_all {A B} (validate : A → result config_exn B) l : (∀ x, x ∈ l → succeeds (validate x)) → succeeds (all_ok validate l).
Proof.
  induction l as [|x l IH]; intros Hl; cbn [all_ok]; [by eexists|].
  apply succeeds_then; [apply Hl; left|]. intros y. apply succeeds_then; [apply IH; intros z Hz; apply Hl; by right|].
  intros r. by eexists.
Qed.

Lemma typed_sources rs : succeeds (all_ok validate_source (with_default_sources (ResearchProviderOptions_asdict <$> rs))).
Proof.
  apply typed_all. unfold with_default_sources. intros f [[_ Hf]%list_elem_of_filter|Hf]%elem_of_app;
    apply list_elem_of_fmap in Hf as (r & -> & _); apply typed_source.
Qed.

Lemma typed_memberships ids ms : ∀ seen,
  succeeds (validate_memberships ids seen (ProviderPoolMembershipOptions_asdict <$> ms)).
Proof.
  induction ms as [|m ms IH]; intros seen; cbn [fmap list_fmap validate_memberships]; [by eexists|]. cbv zeta.
  case_match; [|apply IH]. apply succeeds_then; [apply typed_membership|]. intros q. apply succeeds_then; [apply IH|].
  intros rest. by eexists.
Qed.

Lemma omap_objects {A} (f : A → fields) (l : list A) : omap is_object ((λ a, JObject (f a)) <$> l) = f <$> l.
Proof. induction l as [|a l IH]; [done|]. cbn. by rewrite IH. Qed.

Lemma typed_pools ids active index profiles aps : ∀ pools,
  succeeds (validate_pools ids active index profiles pools (AnalysisPoolOptions_asdict <$> aps)).
Proof.
  induction aps as [|a aps IH]; intros pools; cbn [fmap list_fmap validate_pools]; [by eexists|]. cbv zeta.
  case_match; [apply IH|]. apply succeeds_then; [|intros p; apply IH]. unfold validate_pool.
  do 5 (apply succeeds_then; [by eexists|intros ?]). apply succeeds_then; [|intros ?; by eexists].
  change (attr "memberships" (AnalysisPoolOptions_asdict a)) with (objects ProviderPoolMembershipOptions_asdict (ap_memberships a)).
  unfold objects. rewrite omap_objects. apply typed_memberships.
Qed.

Lemma typed_rechecks (l : list (string * Z)) : ∀ d, succeeds (add_rechecks d ((λ p, (p.1, JInt p.2)) <$> l)).
Proof.
  induction l as [|[t z] l IH]; intros d; cbn [fmap list_fmap add_rechecks fst snd]; [by eexists|].
  apply succeeds_then; [|apply IH]. unfold add_recheck. cbn [snd]. destruct (negb _); by eexists.
Qed.

Lemma typed_llm o providers profiles : succeeds (validate_llm (LLMOptions_asdict o) providers profiles).
Proof.
  unfold validate_llm. cbv zeta. do 12 (apply succeeds_then; [by eexists|intros ?]).
  apply succeeds_then; [|intros ?; do 2 (apply succeeds_then; [by eexists|intros ?]); by eexists].
  unfold validated_rechecks. apply succeeds_then; [|intros ?; by eexists].
  change (_mapping (attr "tag_recheck_days" (LLMOptions_asdict o)))
    with ((λ p, (p.1, JInt p.2)) <$> map_to_list (lm_tag_recheck_days o)). apply typed_rechecks.
Qed.

Lemma widths_attr c (ws : list (string * Z)) : attr c ((λ p, (p.1, JInt p.2)) <$> ws) = JNull ∨
  ∃ z, attr c ((λ p, (p.1, JInt p.2)) <$> ws) = JInt z.
Proof.
  unfold attr. induction ws as [|[k z] ws IH]; [by left|]. cbn [fmap list_fmap dict_get fst snd].
  destruct (String.eqb k c); [right; by exists z|exact IH].
Qed.

Lemma typed_widths ws defaults : succeeds (column_widths ((λ p, (p.1, JInt p.2)) <$> ws) defaults).
Proof.
  induction defaults as [|[c w] l IH]; cbn [column_widths]; [by eexists|]. apply succeeds_then.
  - destruct (widths_attr c ws) as [->|[z ->]]; by eexists.
  - intros z. apply succeeds_then; [apply IH|]. intros rest. by eexists.
Qed.

Definition typed_widths_of (key : string) (widths : fields) : Prop := ∃ ws, attr key widths = widths_json ws.

Lemma typed_tables tables : NoDup tables.*1 → ∀ visible widths, (∀ key, key ∈ tables.*1 → typed_widths_of key widths) →
  succeeds (validate_tables visible widths tables).
Proof.
  induction tables as [|[k cs] tables IH]; intros Hnd visible widths Hw; cbn [validate_tables]; [by eexists|]. cbv zeta.
  cbn [fmap list_fmap fst] in *. apply NoDup_cons in Hnd as [Hk Hnd]. apply succeeds_then.
  - destruct (Hw k) as [ws ->]; [left|]. apply typed_widths.
  - intros ws. apply IH; [done|]. intros key Hkey. destruct (Hw key) as [ws' Hws']; [by right|]. exists ws'.
    unfold attr in *. rewrite dict_get_set_ne; [done|]. by intros ->.
Qed.

Lemma typed_ui o : ui_ok o → succeeds (validate_ui (UIOptions_asdict o)).
Proof.
  intros [_ _ Htables _]. unfold validate_ui. cbv zeta. do 3 (apply succeeds_then; [by eexists|intros ?]).
  apply succeeds_then; [|intros ?; by eexists].
  change (_mapping (attr "table_column_widths" (UIOptions_asdict o))) with (ui_table_column_widths o).
  apply typed_tables; [apply (bool_decide_unpack _); vm_compute; exact I|]. intros key Hkey.
  rewrite Forall_forall in Htables. destruct (Htables key Hkey) as [_ (ws & Hws & _) _]. exists ws. unfold attr. by rewrite Hws.
Qed.

Lemma raw_of_validates o n : ui_ok (op_ui o) → succeeds (_validate uuid (raw_of o) n).
Proof.
  intros Hui. unfold _validate, raw_of.
  cbn [ro_logging ro_notify ro_scans ro_pihole ro_llm ro_research ro_updates ro_provider_registry ro_external_trigger
    ro_llm_providers ro_analysis_pools ro_prompt_profiles ro_research_providers ro_ui]. cbv zeta.
  do 8 (apply succeeds_then; [by eexists|intros ?]). apply succeeds_then; [by apply typed_ui|intros ?].
  apply succeeds_then; [|intros ps].
  { destruct (op_llm_providers o) as [|p ps]; [|apply (typed_providers (p :: ps))].
    apply (typed_providers [LLMProviderOptions_default (fresh_provider_id uuid n)]). }
  apply succeeds_then; [apply typed_sources|intros ?]. apply succeeds_then; [apply typed_llm|intros ?].
  apply succeeds_then; [apply typed_pools|intros ?]. by eexists.
Qed.

(** The identifiers of validated providers: none is a later one. *)
Lemma validated_ids l : proper_uuid uuid → ∀ n used ps m,
  (∀ f k, f ∈ l → stripped_attr "provider_id" "" f = fresh_provider_id uuid k → (k < n)%nat) →
  validate_providers uuid n used l = Ok (ps, m) →
  (n ≤ m)%nat ∧ ∀ p k, p ∈ ps → str_strip (po_provider_id p) = fresh_provider_id uuid k → (k < m)%nat.
Proof.
  intros [Huuid Hstrip]. induction l as [|f l IH]; intros n used ps m Hl Hps; cbn [validate_providers] in Hps.
  { injection Hps as <- <-. split; [done|]. by intros p k Hp%elem_of_nil. }
  cbv zeta in Hps. apply bind_Ok in Hps as (p & Hp & Hps). apply bind_Ok in Hps as ([rest j] & Hrest & [= <- <-]).
  set (fresh := negb _ || _) in *. cbn [fst snd].
  destruct (IH (if fresh then S n else n) _ _ _ (λ f' k Hf' E, Nat.lt_le_trans _ _ _ (Hl f' k (list_elem_of_further _ _ _ Hf') E)
    (match fresh as b return (n ≤ if b then S n else n)%nat with true => Nat.le_succ_diag_r n | false => Nat.le_refl n end)) Hrest)
    as [Hle Hall].
  assert (po_provider_id p = if fresh then fresh_provider_id uuid n else stripped_attr "provider_id" "" f) as Hid
    by (unfold validate_provider in Hp; by ok_steps Hp).
  split; [destruct fresh; lia|]. intros q k [->|Hq]%elem_of_cons Hk; [|by eapply Hall]. rewrite Hid in Hk. destruct fresh.
  - rewrite Hstrip in Hk. injection Hk as Hk%Huuid. lia.
  - unfold stripped_attr in Hk. rewrite str_strip_idemp in Hk. pose proof (Hl f k (list_elem_of_here _ _) Hk). lia.
Qed.

Lemma validated_unused raw n o m : proper_uuid uuid → unused_from uuid n raw → _validate uuid raw n = Ok (o, m) →
  unused_from uuid m (raw_of o).
Proof.
  intros Huuid Hunused Ho. unfold _validate in Ho. cbv zeta in Ho. ok_steps Ho. cbn [raw_of ro_llm_providers op_llm_providers].
  intros f k (p & -> & Hp)%list_elem_of_fmap Hk.
  assert (stripped_attr "provider_id" "" (LLMProviderOptions_asdict p) = str_strip (po_provider_id p)) as Hs.
  { change (str_strip (str_or (po_provider_id p) "") = str_strip (po_provider_id p)). by destruct (po_provider_id p). }
  rewrite Hs in Hk. clear Hs. destruct x8 as [ps j]. cbn [fst snd] in *.
  destruct (ro_llm_providers raw) as [|f0 l] eqn:El.
  - apply (validated_ids _ Huuid) in Hx8 as [_ Hall]; [by eapply Hall|]. destruct Huuid as [Hinj Hstrip].
    intros f' i ->%list_elem_of_singleton Hi.
    change (str_strip (str_or (fresh_provider_id uuid n) "") = fresh_provider_id uuid i) in Hi.
    change (str_or (fresh_provider_id uuid n) "") with (fresh_provider_id uuid n) in Hi. rewrite Hstrip in Hi.
    injection Hi as Hi%Hinj. lia.
  - apply (validated_ids _ Huuid) in Hx8 as [_ Hall]; [by eapply Hall|]. intros f' i Hf'. apply Hunused. by rewrite El.
Qed.
End Typed.
