(* ===== verification/Migrate.v ===== *)
(** [config.py]: [_migrate] brings the JSON object of any older version to the
    current one.  [sha256] is a parameter. *)
From stdpp Require Import base gmap strings list pretty.
From Stdlib Require Import Ascii QArith Qround Lqa Sorted.
From S2P Require Import Prelude HttpRetry Json JsonText Models Options Validate.
Open Scope Z_scope.

Section Migrate.
Context `{PyRepr} (sha256 : string → string).

(** [d.get(a) or d.get(b) or ... or default] *)
Definition first_truthy (names : list string) (default : json) (f : fields) : json :=
  foldr (λ name v, json_or (attr name f) v) default names.
(** [d.get(a, d.get(b, ... default))] *)
Definition first_present (names : list string) (default : json) (f : fields) : json :=
  foldr (λ name v, match dict_get name f with Some w => w | None => v end) default names.

Definition set_all_defaults (defaults f : fields) : fields := foldl (λ f p, dict_setdefault p.1 p.2 f) f defaults.

Definition source_version (data : fields) : result config_exn Z :=
  match py_int_of (json_or (attr "schema_version" data) (JInt 0)) with
  | Ok z => Ok z
  | Err ConversionOverflowError => Err ConfigOverflowError
  | Err _ => Ok 0
  end.

Definition migrate_pihole (f : fields) : fields :=
  let f := dict_set "base_url" (first_truthy ["base_url"; "host"]%string (JString "http://pi.hole") f) f in
  let f := dict_set "password" (first_truthy ["password"; "app_password"]%string (JString "") f) f in
  let f := dict_set "ca_bundle_path" (JString (stripped_attr "ca_bundle_path" "" f)) f in
  dict_pop "verify_tls" f.

Definition migrate_logging (f : fields) : fields :=
  let f := dict_set "enabled" (first_present ["enabled"; "to_file"]%string (JBool true) f) f in
  dict_set "filename" (first_truthy ["filename"; "file"]%string (JString "pihole_manager.log") f) f.

Definition migrate_scans (f : fields) : fields :=
  dict_set "batch_size" (first_present ["batch_size"; "batch"]%string (JInt 200) f) f.

(** [if legacy: d[name] = legacy] *)
Definition set_truthy (name : string) (v : json) (f : fields) : fields := if py_truthy v then dict_set name v f else f.

Definition recheck_json : json := JObject ((λ p, (p.1, JInt p.2)) <$> _DEFAULT_TAG_RECHECK_DAYS).

Definition migrate_llm (f : fields) : fields :=
  let f := match dict_get "profile_active_index" f, dict_get "active_profile_index" f with
           | Some v, None => dict_set "active_profile_index" v f
           | _, _ => f
           end in
  let f := dict_set "worker_batch_size" (first_present ["worker_batch_size"; "batch_size"; "batch"]%string (JInt 25) f) f in
  let f := set_truthy "tags" (first_truthy ["tags"]%string (attr "categories" f) f) f in
  let f := set_truthy "tag_policies" (first_truthy ["tag_policies"]%string (attr "category_policies" f) f) f in
  dict_setdefault "tag_recheck_days" recheck_json f.

Definition has_text (text : string) (l : list json) : bool :=
  existsb (λ v, match v with JString s => String.eqb s text | _ => false end) l.

(** [l.insert(min(position, len(l)), text)] unless it is there *)
Definition insert_column (l : list json) (column : string * nat) : list json :=
  if has_text column.1 l then l else take column.2 l ++ JString column.1 :: drop column.2 l.
Definition review_columns : list (string * nat) := [("order", 1%nat); ("queued", 2%nat)]%string.

(** The review columns of [ui[name]]. *)
Definition migrate_columns (name : string) (ui : fields) : result config_exn fields :=
  let columns := _mapping (attr name ui) in
  review ← iter_or_empty (attr "review" columns);
  Ok match review with
     | [] => ui
     | _ => dict_set name (JObject (dict_set "review" (JArray (foldl insert_column review review_columns)) columns)) ui
     end.

Definition migrate_ui (f : fields) : result config_exn fields :=
  let f := match dict_get "table_column_widths" f, dict_get "queries_colwidths" f with
           | None, Some widths =>
               dict_set "table_column_widths"
                 (JObject (dict_set "queries" (JObject (_mapping widths)) (ui_table_column_widths UIOptions_default))) f
           | _, _ => f
           end in
  let f := dict_setdefault "show_tooltips" (JBool true) f in
  f ← migrate_columns "table_visible_columns" f;
  migrate_columns "table_column_order" f.

Definition migrate_updates (f : fields) : fields :=
  let f := dict_setdefault "check_automatically" (JBool false) f in
  let f := match dict_get "channel" f with
           | Some _ => f
           | None => dict_set "channel" (JString (if py_truthy (attr "include_prereleases" f) then "prerelease" else "stable")) f
           end in
  let f := dict_pop "include_prereleases" f in
  let f := dict_setdefault "check_interval_hours" (JInt 24) f in
  dict_setdefault "last_check_at" (JInt 0) f.

Definition migrate_registry (f : fields) : fields :=
  set_all_defaults (ProviderRegistryOptions_asdict ProviderRegistryOptions_default) f.

Definition migrate_research (f : fields) : fields := dict_pop "run_before_llm" (dict_pop "enabled" f).

Definition known_default_systems : list string :=
  ["You classify DNS domains for a Pi-hole v6 administrator. Use the supplied evidence, distinguish facts from inference, and prefer manual review when evidence is weak or blocking may break an important service.";
   "You classify DNS domains for a Pi-hole v6 administrator. Start with the supplied domain dossier and distinguish verified facts from inference. If the selected model and API perform live web search without an additional tool request, independently verify the exact domain using official vendor documentation, GitHub code, issues and discussions, Pi-hole community reports, reputable blocklist repositories, and credible user reports. Never claim to have searched the web when browsing is not available. Include useful source URLs in details when known, and prefer manual review when evidence is weak or blocking may break an important service."]%string.

(** An old default prompt becomes the new one. *)
Definition migrate_profile (f : fields) : fields :=
  if String.eqb (str_lower (stripped_attr "name" "" f)) "balanced"
     && bool_decide (stripped_attr "system" "" f ∈ known_default_systems)
  then dict_set "system" (JString (pf_system PromptProfileOptions_default)) f else f.

Definition migrate_profiles (data : fields) : result config_exn fields :=
  raw ← iter_or_empty (attr "prompt_profiles" data);
  Ok match migrate_profile <$> omap is_object raw with
     | [] => data
     | profiles => dict_set "prompt_profiles" (JArray (JObject <$> profiles)) data
     end.

(** Unsupported kinds are dropped; research that was off turns every source off. *)
Definition migrate_source (enabled : json) (f : fields) : option fields :=
  let kind := str_lower (stripped_attr "kind" "" f) in
  if bool_decide (kind ∈ supported_research_kinds) then
    let f := dict_set "kind" (JString kind) f in
    Some match enabled with JBool false => dict_set "enabled" (JBool false) f | _ => f end
  else None.

Definition migrate_sources (enabled : json) (data : fields) : result config_exn fields :=
  raw ← iter_or_empty (attr "research_providers" data);
  let sources := omap (migrate_source enabled) (omap is_object raw) in
  let missing := filter (λ d, sr_kind d ∉ (str_or_attr "kind" "" <$> sources)) default_research_providers in
  Ok (dict_set "research_providers"
        (JArray (JObject <$> (sources ++ (ResearchProviderOptions_asdict <$> missing)))) data).

(** ** Identifiers of providers *)

Definition nul : string := String "000"%char EmptyString.

(** [while candidate in used]; the candidates grow, so one more step than [used]
    has elements is enough. *)
Fixpoint free_candidate (fuel : nat) (used : list string) (candidate : string) (suffix : Z) : string :=
  match fuel with
  | O => candidate
  | S fuel => if bool_decide (candidate ∈ used)
              then free_candidate fuel used (candidate +:+ "-" +:+ pretty suffix)%string (suffix + 1)
              else candidate
  end.

Definition _migrated_provider_id (f : fields) (index : nat) (used : list string) : string :=
  let configured := stripped_attr "provider_id" "" f in
  if str_nonempty configured && negb (bool_decide (configured ∈ used)) then configured
  else
    let identity := str_join nul [pretty index; str_or_attr "name" "" f; str_or_attr "base_url" "" f; str_or_attr "model" "" f] in
    free_candidate (S (length used)) used ("provider-" +:+ str_take 20 (sha256 identity))%string 2.

Definition versioned_url (base_url : string) : bool :=
  str_endswith base_url "/v1" || str_endswith base_url "/openai" || str_endswith base_url "/chat/completions".

Definition migrate_provider (provider_id : string) (raw : fields) : fields :=
  let f := dict_set "provider_id" (JString provider_id) raw in
  let f := set_all_defaults
             [("preset_id", JString "custom"); ("api_style", JString "openai_compatible"); ("max_output_tokens", JInt 4096);
              ("max_tokens_parameter", JString "max_tokens"); ("send_temperature", JBool true)]%string f in
  let f := dict_set "limits"
             (JObject (set_all_defaults (ProviderLimitOptions_asdict ProviderLimitOptions_default)
                         (_mapping (attr "limits" f)))) f in
  let base_url := rstrip_slash (stripped_attr "base_url" "" f) in
  match dict_get "api_style" raw with
  | None => if str_nonempty base_url && negb (versioned_url base_url)
            then dict_set "base_url" (JString (base_url +:+ "/v1")) f else f
  | Some _ => f
  end.

(** [enumerate] counts the values that are no dicts, too. *)
Fixpoint migrate_providers (index : nat) (used : list string) (raw : list json) : list fields :=
  match raw with
  | [] => []
  | v :: raw =>
      match is_object v with
      | None => migrate_providers (S index) used raw
      | Some f =>
          let provider_id := _migrated_provider_id f index used in
          migrate_provider provider_id f :: migrate_providers (S index) (provider_id :: used) raw
      end
  end.

Definition migrated_providers (fresh : string) (raw : list json) : list fields :=
  match migrate_providers 0 [] raw with
  | [] => let f := LLMProviderOptions_asdict (LLMProviderOptions_default fresh) in
          [dict_set "provider_id" (JString (_migrated_provider_id f 0 [])) f]
  | providers => providers
  end.

(** ** Pools *)

Definition _default_analysis_pool (pool_id provider_id : string) (profile_index : Z) : fields :=
  AnalysisPoolOptions_asdict (default_pool provider_id profile_index pool_id).

(** A pool keeps the memberships of configured providers. *)
Definition migrate_pool (provider_ids : list string) (f : fields) : result config_exn fields :=
  raw ← iter_or_empty (attr "memberships" f);
  Ok (dict_set "memberships"
        (JArray (JObject <$> filter (λ m, stripped_attr "provider_id" "" m ∈ provider_ids) (omap is_object raw))) f).

Definition migrate_pools (provider_ids : list string) (active_provider_id : string) (active_profile_index : Z) (raw : json)
    : result config_exn (list fields) :=
  pools ← all_ok (migrate_pool provider_ids) match raw with JArray l => omap is_object l | _ => [] end;
  let configured := (λ f, str_lower (stripped_attr "pool_id" "" f)) <$> pools in
  Ok (pools ++ ((λ pool_id, _default_analysis_pool pool_id active_provider_id active_profile_index) <$>
                  filter (λ pool_id, pool_id ∉ configured) pool_ids)).

Definition provider_id_of (f : fields) : string := str_attr "provider_id" f.

(** [fresh] is the identifier of the provider that is made when there is none. *)
Definition _migrate (fresh : string) (raw : fields) : result config_exn fields :=
  version ← source_version raw;
  if CURRENT_SCHEMA_VERSION <? version then Err (UnsupportedConfigVersionError version)
  else
    let section name := _mapping (attr name raw) in
    let data := dict_pop "locks" raw in
    let data := dict_set "pihole" (JObject (migrate_pihole (section "pihole"%string))) data in
    let data := dict_set "logging" (JObject (migrate_logging (section "logging"%string))) data in
    let data := dict_set "scans" (JObject (migrate_scans (section "scans"%string))) data in
    let llm := migrate_llm (section "llm"%string) in
    let data := dict_set "llm" (JObject llm) data in
    ui ← migrate_ui (section "ui"%string);
    let data := dict_set "ui" (JObject ui) data in
    let data := dict_set "updates" (JObject (migrate_updates (section "updates"%string))) data in
    let data := dict_set "provider_registry" (JObject (migrate_registry (section "provider_registry"%string))) data in
    let data := dict_set "research" (JObject (migrate_research (section "research"%string))) data in
    data ← migrate_profiles data;
    data ← migrate_sources (attr "enabled" (section "research"%string)) data;
    raw_providers ← iter_or_empty (attr "llm_providers" data);
    let providers := migrated_providers fresh raw_providers in
    let data := dict_set "llm_providers" (JArray (JObject <$> providers)) data in
    provider_index ← int_attr "active_provider_index" llm 0;
    profile_index ← int_attr "active_profile_index" llm 0;
    let provider_ids := provider_id_of <$> providers in
    let active := Z.to_nat (Z.min (Z.max 0 provider_index) (Z.of_nat (length providers) - 1)) in
    pools ← migrate_pools provider_ids (default ""%string (provider_ids !! active)) (Z.max 0 profile_index)
              (attr "analysis_pools" data);
    let data := dict_set "analysis_pools" (JArray (JObject <$> pools)) data in
    Ok (dict_set "schema_version" (JInt CURRENT_SCHEMA_VERSION) data).
End Migrate.

(** * A second migration *)

(** ** Texts without blanks *)

Definition no_space (s : string) : Prop := str_forallb (λ c, negb (is_space c)) s = true.

Lemma no_space_strip s : no_space s → str_strip s = s.
Proof. intros Hs. unfold str_strip. rewrite lstrip_none by done. by apply rstrip_none. Qed.

Lemma no_space_app a b : no_space a → no_space b → no_space (a +:+ b).
Proof.
  unfold no_space. induction a as [|c a IH]; [done|]. change (String c a +:+ b)%string with (String c (a +:+ b)).
  cbn [str_forallb]. intros [Hc Ha]%andb_true_iff Hb. rewrite Hc. by apply IH.
Qed.

Lemma no_space_take n s : no_space s → no_space (str_take n s).
Proof.
  unfold no_space. revert s. induction n as [|n IH]; intros [|c s]; try done. cbn [str_take str_forallb].
  intros [Hc Hs]%andb_true_iff. rewrite Hc. by apply IH.
Qed.

Lemma digits_no_space s : all_digits s → no_space s.
Proof.
  unfold all_digits, no_space. induction s as [|c s IH]; [done|]. cbn [str_forallb]. intros [Hc Hs]%andb_true_iff.
  rewrite IH by done. destruct c as [[] [] [] [] [] [] [] []]; done.
Qed.

Lemma pretty_no_space (z : Z) : no_space (pretty z).
Proof.
  destruct z as [|p|p]; [done|..]; unfold pretty, pretty_Z.
  - apply digits_no_space, (pretty_N_text (N.pos p)).
  - apply (no_space_app "-"); [done|]. apply digits_no_space, (pretty_N_text (N.pos p)).
Qed.

(** ** Attributes after a change *)

Lemma attr_get key v f : dict_get key f = Some v → attr key f = v.
Proof. unfold attr. by intros ->. Qed.
Lemma attr_set key v f : attr key (dict_set key v f) = v.
Proof. unfold attr. by rewrite dict_get_set. Qed.
Lemma attr_set_ne key key' v f : key ≠ key' → attr key' (dict_set key v f) = attr key' f.
Proof. intros Hne. unfold attr. by rewrite dict_get_set_ne. Qed.
Lemma attr_pop_ne key key' f : key ≠ key' → attr key' (dict_pop key f) = attr key' f.
Proof. intros Hne. unfold attr. by rewrite dict_get_pop_ne. Qed.

Ltac dicts :=
  repeat first
    [ rewrite dict_get_set | rewrite attr_set
    | rewrite dict_get_set_ne by discriminate | rewrite attr_set_ne by discriminate
    | rewrite dict_get_pop | rewrite dict_get_pop_ne by discriminate | rewrite attr_pop_ne by discriminate
    | rewrite dict_get_setdefault | rewrite dict_get_setdefault_ne by discriminate ].

Lemma json_or_idem a b : json_or (json_or a b) b = json_or a b.
Proof. unfold json_or. destruct (py_truthy a) eqn:E; [by rewrite E|]. by destruct (py_truthy b). Qed.

Lemma iter_array l : iter_or_empty (JArray l) = Ok l.
Proof. by destruct l. Qed.

Lemma objects_of_objects (l : list fields) : omap is_object (JObject <$> l) = l.
Proof. induction l as [|f l IH]; [done|]. cbn. by rewrite IH. Qed.

Lemma foldl_setdefault_ne (defaults f : fields) key : key ∉ defaults.*1 → dict_get key (set_all_defaults defaults f) = dict_get key f.
Proof.
  unfold set_all_defaults. revert f. induction defaults as [|[k v] l IH]; intros f Hk; [done|].
  cbn [fmap list_fmap fst] in Hk. apply not_elem_of_cons in Hk as [Hne Hk]. cbn [foldl fst snd].
  rewrite IH by done. by apply dict_get_setdefault_ne.
Qed.

Lemma set_all_defaults_keeps (defaults f : fields) key : is_Some (dict_get key f) → is_Some (dict_get key (set_all_defaults defaults f)).
Proof.
  unfold set_all_defaults. revert f. induction defaults as [|[k v] l IH]; intros f Hf; [done|]. cbn [foldl fst snd]. apply IH.
  destruct (decide (k = key)) as [->|Hne]; [by rewrite dict_get_setdefault|by rewrite dict_get_setdefault_ne].
Qed.

Lemma set_all_defaults_has (defaults f : fields) key : key ∈ defaults.*1 → is_Some (dict_get key (set_all_defaults defaults f)).
Proof.
  revert f. induction defaults as [|[k v] l IH]; intros f Hk; [by apply elem_of_nil in Hk|].
  change (set_all_defaults ((k, v) :: l) f) with (set_all_defaults l (dict_setdefault k v f)).
  cbn [fmap list_fmap fst] in Hk. apply elem_of_cons in Hk as [->|Hk]; [|by apply IH].
  apply set_all_defaults_keeps. by rewrite dict_get_setdefault.
Qed.

Lemma set_all_defaults_same (defaults f : fields) : (∀ key, key ∈ defaults.*1 → is_Some (dict_get key f)) → set_all_defaults defaults f = f.
Proof.
  unfold set_all_defaults. revert f. induction defaults as [|[k v] l IH]; intros f Hf; [done|]. cbn [foldl fst snd].
  rewrite dict_setdefault_same by (apply Hf; left). apply IH. intros key Hk. apply Hf. by right.
Qed.

Lemma set_all_defaults_idem defaults f : set_all_defaults defaults (set_all_defaults defaults f) = set_all_defaults defaults f.
Proof. apply set_all_defaults_same. intros key. apply set_all_defaults_has. Qed.

Section Again.
Context `{PyRepr}.

Lemma text_attr name s f : dict_get name f = Some (JString s) → str_or_attr name "" f = s.
Proof. unfold str_or_attr, attr. intros ->. by destruct s. Qed.

Lemma stripped_text name s f : dict_get name f = Some (JString s) → stripped_attr name "" f = str_strip s.
Proof. unfold stripped_attr. by intros ->%text_attr. Qed.

(** ** Sections *)

Lemma migrate_pihole_idem f : migrate_pihole (migrate_pihole f) = migrate_pihole f.
Proof.
  unfold migrate_pihole at 1. cbn [first_truthy foldr]. set (g := migrate_pihole f).
  assert (dict_get "base_url" g = Some (json_or (attr "base_url" f) (json_or (attr "host" f) (JString "http://pi.hole"))) ∧
    attr "host" g = attr "host" f ∧ attr "app_password" g = attr "app_password" f ∧
    dict_get "password" g = Some (json_or (attr "password" f) (json_or (attr "app_password" f) (JString ""))) ∧
    dict_get "ca_bundle_path" g = Some (JString (stripped_attr "ca_bundle_path" "" f)) ∧ dict_get "verify_tls" g = None)
    as (Hbase & Hhost & Happ & Hpw & Hca & Htls).
  { unfold g, migrate_pihole. cbn [first_truthy foldr]. dicts. split_and!; try done.
    unfold stripped_attr, str_or_attr. by dicts. }
  rewrite (dict_set_same "base_url") by (unfold attr at 1; rewrite Hhost, Hbase; cbn [from_option id]; by rewrite json_or_idem).
  rewrite (dict_set_same "password") by (unfold attr at 1; rewrite Happ, Hpw; cbn [from_option id]; by rewrite json_or_idem).
  rewrite (dict_set_same "ca_bundle_path"); [by apply dict_pop_absent|].
  rewrite (stripped_text _ _ _ Hca), Hca. unfold stripped_attr. by rewrite str_strip_idemp.
Qed.

Lemma migrate_logging_idem f : migrate_logging (migrate_logging f) = migrate_logging f.
Proof.
  unfold migrate_logging at 1. cbn [first_truthy first_present foldr]. set (g := migrate_logging f).
  assert (is_Some (dict_get "enabled" g) ∧ attr "file" g = attr "file" f ∧
    dict_get "filename" g = Some (json_or (attr "filename" f) (json_or (attr "file" f) (JString "pihole_manager.log"))))
    as ((v & Henabled) & Hfile & Hname).
  { unfold g, migrate_logging. cbn [first_truthy first_present foldr]. by dicts. }
  rewrite Henabled, (dict_set_same "enabled") by done. apply dict_set_same.
  unfold attr at 1. rewrite Hfile, Hname. cbn [from_option id]. by rewrite json_or_idem.
Qed.

Lemma migrate_scans_idem f : migrate_scans (migrate_scans f) = migrate_scans f.
Proof.
  unfold migrate_scans at 1. set (g := migrate_scans f).
  assert (is_Some (dict_get "batch_size" g)) as [v Hv] by (unfold g, migrate_scans; by dicts).
  cbn [first_present foldr]. rewrite Hv. by apply dict_set_same.
Qed.

Lemma set_truthy_ne name name' v f : name ≠ name' → dict_get name' (set_truthy name v f) = dict_get name' f.
Proof. intros Hne. unfold set_truthy. destruct (py_truthy v); [by apply dict_get_set_ne|done]. Qed.

Lemma set_truthy_same name legacy f : attr name f = json_or (attr name f) legacy ∨ py_truthy (json_or (attr name f) legacy) = false →
  (py_truthy (attr name f) = true → is_Some (dict_get name f)) → set_truthy name (json_or (attr name f) legacy) f = f.
Proof.
  unfold set_truthy. intros [E|E] Hin; [|by rewrite E]. rewrite <-E. destruct (py_truthy (attr name f)); [|done].
  destruct Hin as [v Hv]; [done|]. unfold attr. rewrite Hv. by apply dict_set_same.
Qed.

Lemma truthy_present name f : py_truthy (attr name f) = true → is_Some (dict_get name f).
Proof. unfold attr. by destruct (dict_get name f). Qed.

(** After [if legacy: d[name] = legacy] *)
Lemma set_truthy_again name legacy f g : dict_get name g = dict_get name (set_truthy name (json_or (attr name f) legacy) f) →
  set_truthy name (json_or (attr name g) legacy) g = g.
Proof.
  intros Hg. apply set_truthy_same; [|apply truthy_present].
  assert (attr name g = attr name (set_truthy name (json_or (attr name f) legacy) f)) as -> by (unfold attr; by rewrite Hg).
  unfold set_truthy. destruct (py_truthy (json_or (attr name f) legacy)) eqn:E.
  - left. rewrite attr_set. by rewrite json_or_idem.
  - by right.
Qed.

Lemma migrate_llm_idem f : migrate_llm (migrate_llm f) = migrate_llm f.
Proof.
  set (g := migrate_llm f).
  set (f1 := match dict_get "profile_active_index" f, dict_get "active_profile_index" f with
             | Some v, None => dict_set "active_profile_index" v f | _, _ => f end).
  set (f2 := dict_set "worker_batch_size" (first_present ["worker_batch_size"; "batch_size"; "batch"]%string (JInt 25) f1) f1).
  set (f3 := set_truthy "tags" (json_or (attr "tags" f2) (attr "categories" f2)) f2).
  set (f4 := set_truthy "tag_policies" (json_or (attr "tag_policies" f3) (attr "category_policies" f3)) f3).
  assert (g = dict_setdefault "tag_recheck_days" recheck_json f4) as Hg by reflexivity. clearbody g.
  assert (∀ name, name ≠ "tag_recheck_days"%string → name ≠ "tag_policies"%string → dict_get name g = dict_get name f3) as H3.
  { intros name H1 H2. rewrite Hg, dict_get_setdefault_ne by done. unfold f4. by apply set_truthy_ne. }
  assert (∀ name, name ≠ "tag_recheck_days"%string → name ≠ "tag_policies"%string → name ≠ "tags"%string →
    dict_get name g = dict_get name f2) as H2 by (intros name Ha Hb Hc; rewrite H3 by done; by apply set_truthy_ne).
  assert (match dict_get "profile_active_index" g, dict_get "active_profile_index" g with
          | Some v, None => dict_set "active_profile_index" v g | _, _ => g end = g) as E1.
  { rewrite !H2 by discriminate. unfold f2. dicts. unfold f1.
    destruct (dict_get "profile_active_index" f) as [v|] eqn:Hp; [|by rewrite Hp].
    destruct (dict_get "active_profile_index" f) eqn:Ha; [by rewrite Hp, Ha|]. by dicts; rewrite Hp. }
  unfold migrate_llm. rewrite E1. cbn [first_present first_truthy foldr].
  assert (is_Some (dict_get "worker_batch_size" g)) as [v Hv] by (rewrite H2 by discriminate; unfold f2; by dicts).
  rewrite Hv, (dict_set_same "worker_batch_size") by done.
  assert (attr "categories" g = attr "categories" f2) as -> by (unfold attr; by rewrite H2).
  rewrite (set_truthy_again "tags" _ f2) by by rewrite H3.
  assert (attr "category_policies" g = attr "category_policies" f3) as -> by (unfold attr; by rewrite H3).
  rewrite (set_truthy_again "tag_policies" _ f3) by by rewrite Hg, dict_get_setdefault_ne.
  apply dict_setdefault_same. rewrite Hg, dict_get_setdefault. done.
Qed.


Lemma has_text_insert text l column : has_text text l = true ∨ text = column.1 → has_text text (insert_column l column) = true.
Proof.
  unfold insert_column. intros H1. destruct (has_text column.1 l) eqn:E; [by destruct H1 as [| ->]|].
  unfold has_text in *. rewrite existsb_app. cbn [existsb]. destruct H1 as [H1| ->]; [|by rewrite String.eqb_refl, orb_true_r].
  rewrite <-(take_drop column.2 l), existsb_app in H1. apply orb_true_iff in H1 as [->| ->]; [done|].
  by rewrite !orb_true_r.
Qed.

Lemma has_text_inserts text columns l : has_text text l = true ∨ text ∈ columns.*1 →
  has_text text (foldl insert_column l columns) = true.
Proof.
  revert l. induction columns as [|c columns IH]; intros l Hl; cbn [foldl].
  { destruct Hl as [|Hl]; [done|]. by apply elem_of_nil in Hl. }
  apply IH. cbn [fmap list_fmap] in Hl. rewrite elem_of_cons in Hl. destruct Hl as [Hl|[Hl|Hl]]; [left|left|by right].
  - apply has_text_insert. by left.
  - apply has_text_insert. by right.
Qed.

Lemma inserts_idem columns l : foldl insert_column (foldl insert_column l columns) columns = foldl insert_column l columns.
Proof.
  set (r := foldl insert_column l columns). assert (∀ c, c ∈ columns → insert_column r c = r) as Hr.
  { intros c Hc. unfold insert_column.
    assert (has_text c.1 r = true) as ->; [|done]. apply has_text_inserts. right. apply list_elem_of_fmap. eauto. }
  clearbody r. induction columns as [|c columns IH]; [done|]. cbn [foldl]. rewrite Hr by left. apply IH. intros d Hd.
  apply Hr. by right.
Qed.

Lemma insert_column_nonempty l c : insert_column l c = [] → l = [].
Proof. unfold insert_column. destruct (has_text c.1 l); [done|]. by intros [_ ?]%app_nil. Qed.

Lemma migrate_columns_ne name f g key : migrate_columns name f = Ok g → name ≠ key → dict_get key g = dict_get key f.
Proof.
  unfold migrate_columns. intros (review & _ & Hg%Ok_inj)%bind_Ok Hne. subst g. destruct review; [done|]. by apply dict_get_set_ne.
Qed.

(** It leaves alone what it made, whatever else changed. *)
Lemma migrate_columns_again name f g h : migrate_columns name f = Ok g → dict_get name h = dict_get name g →
  migrate_columns name h = Ok h.
Proof.
  unfold migrate_columns at 1. intros (review & Hreview & Hg%Ok_inj)%bind_Ok Hh. unfold migrate_columns.
  destruct review as [|v l] eqn:E.
  - assert (attr name h = attr name f) as -> by (unfold attr; by rewrite Hh, <-Hg). by rewrite Hreview.
  - rewrite <-Hg, dict_get_set in Hh. apply attr_get in Hh as Ha. rewrite Ha. unfold _mapping, is_object.
    cbn [from_option id]. rewrite attr_set, iter_array. cbn [mbind result_bind]. rewrite inserts_idem.
    set (r := foldl insert_column (v :: l) review_columns) in *.
    destruct r as [|w r'] eqn:Er.
    { unfold r, review_columns in Er. cbn [foldl] in Er. by apply insert_column_nonempty, insert_column_nonempty in Er. }
    rewrite (dict_set_same "review"), dict_set_same; [done| |by apply dict_get_set].
    by rewrite Hh.
Qed.

Lemma migrate_ui_idem f g : migrate_ui f = Ok g → migrate_ui g = Ok g.
Proof.
  unfold migrate_ui at 1. cbv zeta. set (f1 := match dict_get "table_column_widths" f, dict_get "queries_colwidths" f with
             | None, Some w => dict_set "table_column_widths" _ f | _, _ => f end).
  set (f2 := dict_setdefault "show_tooltips" (JBool true) f1). intros (f3 & H3 & Hg)%bind_Ok.
  assert (∀ key, key ≠ "table_visible_columns"%string → key ≠ "table_column_order"%string → dict_get key g = dict_get key f2) as Hkey.
  { intros key Ha Hb. by rewrite (migrate_columns_ne _ _ _ _ Hg), (migrate_columns_ne _ _ _ _ H3). }
  unfold migrate_ui. cbv zeta.
  replace (match dict_get "table_column_widths" g, dict_get "queries_colwidths" g with None, Some _ => _ | _, _ => g end) with g.
  2: { rewrite !Hkey by discriminate. unfold f2. rewrite !dict_get_setdefault_ne by discriminate. unfold f1.
       destruct (dict_get "table_column_widths" f) as [w|] eqn:Hw; [by rewrite Hw|].
       destruct (dict_get "queries_colwidths" f) eqn:Hq; [by dicts|by rewrite Hw, Hq]. }
  rewrite dict_setdefault_same by (rewrite Hkey by discriminate; unfold f2; by rewrite dict_get_setdefault).
  rewrite (migrate_columns_again _ _ _ g H3) by (by rewrite (migrate_columns_ne _ _ _ _ Hg)). cbn [mbind result_bind].
  by apply (migrate_columns_again _ _ _ g Hg).
Qed.

Lemma migrate_updates_idem f : migrate_updates (migrate_updates f) = migrate_updates f.
Proof.
  set (g := migrate_updates f).
  assert (is_Some (dict_get "check_automatically" g) ∧ is_Some (dict_get "channel" g) ∧ dict_get "include_prereleases" g = None ∧
    is_Some (dict_get "check_interval_hours" g) ∧ is_Some (dict_get "last_check_at" g)) as (Ha & [c Hc] & Hp & Hi & Hl).
  { unfold g, migrate_updates. dicts. destruct (dict_get "channel" f) eqn:E; dicts; rewrite ?E; split_and!; done. }
  unfold migrate_updates. rewrite (dict_setdefault_same "check_automatically") by done. rewrite Hc.
  rewrite dict_pop_absent by done. rewrite (dict_setdefault_same "check_interval_hours") by done. by apply dict_setdefault_same.
Qed.

Lemma migrate_research_idem f : migrate_research (migrate_research f) = migrate_research f.
Proof.
  unfold migrate_research at 1. rewrite (dict_pop_absent "enabled"); [apply dict_pop_absent|]; unfold migrate_research; by dicts.
Qed.

(** ** Profiles and sources *)

Lemma new_system_known : str_strip (pf_system PromptProfileOptions_default) ∉ known_default_systems.
Proof. apply (bool_decide_unpack _). vm_compute. exact I. Qed.

Lemma migrate_profile_idem f : migrate_profile (migrate_profile f) = migrate_profile f.
Proof.
  unfold migrate_profile at 2. destruct (String.eqb _ _ && _) eqn:E; [|by unfold migrate_profile; rewrite E].
  unfold migrate_profile at 1. rewrite bool_decide_false, andb_false_r.
  - unfold migrate_profile. by rewrite E.
  - rewrite (stripped_text _ (pf_system PromptProfileOptions_default)); [apply new_system_known|apply dict_get_set].
Qed.

Lemma migrate_profiles_ne data data' key : migrate_profiles data = Ok data' → key ≠ "prompt_profiles"%string →
  dict_get key data' = dict_get key data.
Proof.
  unfold migrate_profiles. intros (raw & _ & Hd%Ok_inj)%bind_Ok Hne. subst data'.
  destruct (migrate_profile <$> _); [done|]. by apply dict_get_set_ne.
Qed.

Lemma migrate_profiles_again data data' later : migrate_profiles data = Ok data' →
  dict_get "prompt_profiles" later = dict_get "prompt_profiles" data' → migrate_profiles later = Ok later.
Proof.
  unfold migrate_profiles at 1. intros (raw & Hraw & Hd%Ok_inj)%bind_Ok Hl. unfold migrate_profiles.
  destruct (migrate_profile <$> omap is_object raw) as [|p ps] eqn:E.
  - assert (attr "prompt_profiles" later = attr "prompt_profiles" data) as -> by (unfold attr; by rewrite Hl, <-Hd).
    rewrite Hraw. cbn [mbind result_bind]. by rewrite E.
  - rewrite <-Hd, dict_get_set in Hl. unfold attr. rewrite Hl. cbn [from_option id]. rewrite iter_array.
    cbn [mbind result_bind]. rewrite objects_of_objects.
    assert (migrate_profile <$> p :: ps = p :: ps) as ->.
    { rewrite <-E, <-list_fmap_compose. apply list_fmap_ext. intros i f _. apply migrate_profile_idem. }
    by rewrite dict_set_same.
Qed.

Lemma supported_kind_clean kind : kind ∈ supported_research_kinds → str_lower (str_strip kind) = kind.
Proof. revert kind. apply Forall_forall. repeat (apply Forall_cons; split; [reflexivity|]). apply Forall_nil_2. Qed.

Lemma migrate_source_again enabled f g : migrate_source enabled f = Some g →
  migrate_source JNull g = Some g ∧ str_or_attr "kind" "" g ∈ supported_research_kinds.
Proof.
  unfold migrate_source at 1. case_bool_decide as Hkind; [|done]. set (kind := str_lower (stripped_attr "kind" "" f)) in *.
  intros Hg. assert (dict_get "kind" g = Some (JString kind)) as Hk.
  { injection Hg as <-. destruct enabled as [| [] | | | | | ]; by dicts. }
  rewrite (text_attr _ _ _ Hk). split; [|done].
  unfold migrate_source. rewrite (stripped_text _ _ _ Hk), supported_kind_clean by done. rewrite bool_decide_true by done.
  by rewrite dict_set_same.
Qed.

Definition source_kinds (l : list fields) : list string := str_or_attr "kind" "" <$> l.

Lemma default_source_kinds (ds : list ResearchProviderOptions) :
  source_kinds (ResearchProviderOptions_asdict <$> ds) = sr_kind <$> ds.
Proof. unfold source_kinds. rewrite <-list_fmap_compose. apply list_fmap_ext. intros i d _. by apply (text_attr "kind" (sr_kind d)). Qed.

Lemma default_source_again d : d ∈ default_research_providers →
  migrate_source JNull (ResearchProviderOptions_asdict d) = Some (ResearchProviderOptions_asdict d).
Proof. revert d. apply Forall_forall. repeat (apply Forall_cons; split; [reflexivity|]). apply Forall_nil_2. Qed.

(** A list that every source leaves alone, and that has all the kinds. *)
Lemma migrate_sources_same data sources : dict_get "research_providers" data = Some (JArray (JObject <$> sources)) →
  Forall (λ f, migrate_source JNull f = Some f) sources →
  (∀ d, d ∈ default_research_providers → sr_kind d ∈ source_kinds sources) → migrate_sources JNull data = Ok data.
Proof.
  intros Hget Hall Hkinds. unfold migrate_sources, attr. rewrite Hget. cbn [from_option id].
  rewrite iter_array. cbn [mbind result_bind]. rewrite objects_of_objects.
  assert (omap (migrate_source JNull) sources = sources) as ->.
  { clear Hget Hkinds. induction Hall as [|f l Hf Hl IH]; [done|]. cbn. by rewrite Hf, IH. }
  assert (filter (λ d, sr_kind d ∉ str_or_attr "kind" "" <$> sources) default_research_providers = []) as ->.
  { apply elem_of_nil_inv. intros d [Hn Hd]%list_elem_of_filter. by apply Hn, Hkinds. }
  cbn [fmap list_fmap]. rewrite app_nil_r. by rewrite dict_set_same.
Qed.

Lemma migrate_sources_result enabled data data' : migrate_sources enabled data = Ok data' →
  ∃ sources, data' = dict_set "research_providers" (JArray (JObject <$> sources)) data ∧
    Forall (λ f, migrate_source JNull f = Some f) sources ∧
    ∀ d, d ∈ default_research_providers → sr_kind d ∈ source_kinds sources.
Proof.
  unfold migrate_sources. intros (raw & _ & Hd%Ok_inj)%bind_Ok. cbv zeta in Hd. rewrite <-Hd. eexists. split; [done|].
  set (kept := omap (migrate_source enabled) (omap is_object raw)). split.
  - apply Forall_app. split; apply Forall_forall; intros f Hf.
    + apply list_elem_of_omap in Hf as (f0 & _ & Hf). by apply migrate_source_again in Hf as [Hf _].
    + apply list_elem_of_fmap in Hf as (d & -> & [_ Hd']%list_elem_of_filter). by apply default_source_again.
  - intros d Hd'. unfold source_kinds. rewrite fmap_app. apply elem_of_app.
    destruct (decide (sr_kind d ∈ str_or_attr "kind" "" <$> kept)) as [Hin|Hin]; [by left|right].
    change (sr_kind d ∈ source_kinds (ResearchProviderOptions_asdict <$>
      filter (λ d, sr_kind d ∉ str_or_attr "kind" "" <$> kept) default_research_providers)).
    rewrite default_source_kinds. apply list_elem_of_fmap. exists d. split; [done|]. by apply list_elem_of_filter.
Qed.

(** ** Providers *)

Context (sha256 : string → string) (Hsha : ∀ s, no_space (sha256 s)).

Definition as_long (n : nat) (used : list string) : list string := filter (λ u, (n ≤ String.length u)%nat) used.

Lemma as_long_shrinks n m used (u : string) : (n ≤ String.length u < m)%nat → u ∈ used → (length (as_long m used) < length (as_long n used))%nat.
Proof.
  intros [Hn Hm] Hu. unfold as_long. induction used as [|v used IH]; [by apply elem_of_nil in Hu|].
  assert (length (filter (λ u, (m ≤ String.length u)%nat) used) ≤ length (filter (λ u, (n ≤ String.length u)%nat) used))%nat as Hle.
  { clear IH Hu. induction used as [|w used IH]; [done|]. rewrite !filter_cons.
    destruct (decide (m ≤ String.length w)%nat), (decide (n ≤ String.length w)%nat); cbn [length]; lia. }
  apply elem_of_cons in Hu as [<-|Hu]; rewrite !filter_cons.
  - rewrite decide_False, decide_True by lia. cbn [length]. lia.
  - apply IH in Hu. destruct (decide (m ≤ String.length v)%nat), (decide (n ≤ String.length v)%nat); cbn [length]; lia.
Qed.

(** The loop stops at a free candidate: more fuel than taken names of the
    candidate's length is enough. *)
Lemma free_candidate_free fuel used candidate suffix : (length (as_long (String.length candidate) used) < fuel)%nat →
  free_candidate fuel used candidate suffix ∉ used.
Proof.
  revert candidate suffix. induction fuel as [|fuel IH]; intros candidate suffix Hf; [lia|]. cbn [free_candidate].
  case_bool_decide as Hin; [|done]. set (next := (candidate +:+ "-" +:+ pretty suffix)%string). apply IH.
  assert (String.length candidate < String.length next)%nat as Hlen by (unfold next; rewrite !str_length_app; cbn; lia).
  enough (length (as_long (String.length next) used) < length (as_long (String.length candidate) used))%nat by lia.
  by apply (as_long_shrinks _ _ _ candidate).
Qed.

Lemma free_candidate_no_space fuel used candidate suffix : no_space candidate → no_space (free_candidate fuel used candidate suffix).
Proof.
  revert candidate suffix. induction fuel as [|fuel IH]; intros candidate suffix Hc; cbn [free_candidate]; [done|].
  case_bool_decide; [|done]. apply IH. repeat apply no_space_app; [done|done|apply pretty_no_space].
Qed.

Lemma free_candidate_nonempty fuel used candidate suffix : candidate ≠ ""%string → free_candidate fuel used candidate suffix ≠ ""%string.
Proof.
  revert candidate suffix. induction fuel as [|fuel IH]; intros candidate suffix Hc; cbn [free_candidate]; [done|].
  case_bool_decide; [|done]. apply IH. by destruct candidate.
Qed.

(** A new identifier: free, not blank, without blanks around it. *)
Definition good_id (used : list string) (id : string) : Prop :=
  (id ∉ used) ∧ id ≠ ""%string ∧ str_strip id = id.

Lemma migrated_id_good f index used : good_id used (_migrated_provider_id sha256 f index used).
Proof.
  unfold _migrated_provider_id. set (configured := stripped_attr "provider_id" "" f).
  destruct (str_nonempty configured && _) eqn:E.
  - apply andb_true_iff in E as [Hne Hnew]. bool_cmp. split_and!; [done|by intros Hc; rewrite Hc in Hne|].
    unfold configured, stripped_attr. by rewrite str_strip_idemp.
  - cbv zeta. split_and!.
    + apply free_candidate_free, Nat.lt_succ_r, length_filter.
    + by apply free_candidate_nonempty.
    + apply no_space_strip, free_candidate_no_space, no_space_app; [done|]. by apply no_space_take.
Qed.

Lemma migrated_id_kept f index used id : good_id used id → dict_get "provider_id" f = Some (JString id) →
  _migrated_provider_id sha256 f index used = id.
Proof.
  intros (Hnew & Hne & Hstrip) Hf. unfold _migrated_provider_id. rewrite (stripped_text _ _ _ Hf), Hstrip.
  by rewrite bool_decide_false, (proj2 (andb_true_iff _ _)) by (done || by destruct id).
Qed.

Definition provider_defaults : fields :=
  [("preset_id", JString "custom"); ("api_style", JString "openai_compatible"); ("max_output_tokens", JInt 4096);
   ("max_tokens_parameter", JString "max_tokens"); ("send_temperature", JBool true)]%string.
Definition limit_defaults : fields := ProviderLimitOptions_asdict ProviderLimitOptions_default.

(** A provider that [migrate_provider] leaves alone. *)
Definition complete (id : string) (f : fields) : Prop :=
  dict_get "provider_id" f = Some (JString id) ∧ (∀ key, key ∈ provider_defaults.*1 → is_Some (dict_get key f)) ∧
  ∃ limits, dict_get "limits" f = Some (JObject limits) ∧ ∀ key, key ∈ limit_defaults.*1 → is_Some (dict_get key limits).

Lemma complete_same i f : complete i f → migrate_provider i f = f.
Proof.
  intros (Hid & Hkeys & limits & Hlimits & Hall). unfold migrate_provider. rewrite (dict_set_same "provider_id") by done.
  fold provider_defaults. rewrite (set_all_defaults_same provider_defaults) by done. fold limit_defaults.
  rewrite (attr_get _ _ _ Hlimits). unfold _mapping. cbn [is_object from_option id].
  rewrite (set_all_defaults_same limit_defaults) by done. rewrite (dict_set_same "limits") by done. cbv zeta.
  destruct (Hkeys "api_style") as [v ->]; [|done]. apply (bool_decide_unpack _). vm_compute. exact I.
Qed.

Lemma migrate_provider_complete id f : complete id (migrate_provider id f).
Proof.
  unfold migrate_provider. fold provider_defaults limit_defaults. cbv zeta.
  set (f1 := set_all_defaults provider_defaults (dict_set "provider_id" (JString id) f)).
  set (limits := set_all_defaults limit_defaults (_mapping (attr "limits" f1))).
  set (f2 := dict_set "limits" (JObject limits) f1).
  assert (complete id f2) as H2.
  { unfold f2. split_and!.
    - dicts. unfold f1. rewrite foldl_setdefault_ne; [by dicts|]. apply (bool_decide_unpack _). vm_compute. exact I.
    - intros key Hk. rewrite dict_get_set_ne; [by apply set_all_defaults_has|]. intros <-. revert Hk.
      apply (bool_decide_unpack _). vm_compute. exact I.
    - exists limits. split; [by dicts|]. intros key. apply set_all_defaults_has. }
  destruct (dict_get "api_style" f); [done|]. destruct (_ && _); [|done].
  destruct H2 as (Hid & Hkeys & l & Hl & Hall). split_and!; [by dicts| |exists l; split; [by dicts|done]].
  intros key Hk. destruct (decide (key = "base_url"%string)) as [->|Hne]; [by rewrite dict_get_set|].
  rewrite dict_get_set_ne by done. by apply Hkeys.
Qed.

(** Complete providers with distinct good identifiers. *)
Fixpoint settled_providers (used : list string) (ps : list fields) : Prop :=
  match ps with
  | [] => True
  | f :: ps => ∃ id, good_id used id ∧ complete id f ∧ settled_providers (id :: used) ps
  end.

Lemma settled_providers_same ps : ∀ index used, settled_providers used ps →
  migrate_providers sha256 index used (JObject <$> ps) = ps.
Proof.
  induction ps as [|f ps IH]; intros index used Hps; [done|]. destruct Hps as (id & Hgood & Hf & Hps).
  cbn [fmap list_fmap migrate_providers is_object]. rewrite (migrated_id_kept f index used id Hgood) by apply Hf.
  rewrite complete_same by done. f_equal. by apply IH.
Qed.

Lemma migrate_providers_settled raw : ∀ index used, settled_providers used (migrate_providers sha256 index used raw).
Proof.
  induction raw as [|v raw IH]; intros index used; cbn [migrate_providers]; [done|].
  destruct (is_object v) as [f|]; [|by apply IH]. cbv zeta. eexists. split_and!; [apply migrated_id_good|apply migrate_provider_complete|apply IH].
Qed.

Lemma migrated_providers_settled fresh raw :
  settled_providers [] (migrated_providers sha256 fresh raw) ∧ migrated_providers sha256 fresh raw ≠ [].
Proof.
  unfold migrated_providers. pose proof (migrate_providers_settled raw 0 []) as Hps.
  destruct (migrate_providers sha256 0 [] raw) as [|p ps]; [|done]. split; [|done]. cbv zeta.
  set (id := _migrated_provider_id _ _ _ _). exists id. split_and!; [apply migrated_id_good| |done]. split_and!.
  - apply dict_get_set.
  - apply Forall_forall. repeat (apply Forall_cons; split; [by eexists|]). apply Forall_nil_2.
  - eexists. split; [reflexivity|]. apply Forall_forall. repeat (apply Forall_cons; split; [by eexists|]). apply Forall_nil_2.
Qed.

(** The identifiers of settled providers. *)
Lemma settled_provider_ids ps used : settled_providers used ps →
  NoDup (provider_id_of <$> ps) ∧ Forall (good_id used) (provider_id_of <$> ps).
Proof.
  revert used. induction ps as [|f ps IH]; intros used Hps; [split; [apply NoDup_nil_2|apply Forall_nil_2]|].
  destruct Hps as (id & Hgood & (Hid & _) & Hps). destruct (IH _ Hps) as [Hnd Hall]. cbn [fmap list_fmap].
  assert (provider_id_of f = id) as -> by (unfold provider_id_of, str_attr; by rewrite (attr_get _ _ _ Hid)). split.
  - apply NoDup_cons. split; [|done]. intros Hin. rewrite Forall_forall in Hall. apply Hall in Hin as [Hin _]. apply Hin. left.
  - apply Forall_cons. split; [done|]. eapply Forall_impl; [exact Hall|]. intros x (Hx & Hne & Hstrip). split_and!; [|done..].
    intros Hu. apply Hx. by right.
Qed.

(** ** Pools *)

(** Pools whose memberships are of known providers, with both identifiers. *)
Definition settled_pools (ids : list string) (pools : list fields) : Prop :=
  Forall (λ f, migrate_pool ids f = Ok f) pools ∧
  ∀ pool_id, pool_id ∈ pool_ids → pool_id ∈ ((λ f, str_lower (stripped_attr "pool_id" "" f)) <$> pools).

Lemma all_ok_same {A} (g : A → result config_exn A) l : Forall (λ x, g x = Ok x) l → all_ok g l = Ok l.
Proof. induction 1 as [|x l Hx Hl IH]; cbn [all_ok]; [done|]. rewrite Hx. cbn [mbind result_bind]. by rewrite IH. Qed.

Lemma settled_pools_same ids pools active index : settled_pools ids pools →
  migrate_pools ids active index (JArray (JObject <$> pools)) = Ok pools.
Proof.
  intros [Hall Hids]. unfold migrate_pools. rewrite objects_of_objects, all_ok_same by done. cbn [mbind result_bind].
  assert (filter (λ pool_id, pool_id ∉ (λ f, str_lower (stripped_attr "pool_id" "" f)) <$> pools) pool_ids = []) as ->.
  { apply elem_of_nil_inv. intros p [Hn Hp]%list_elem_of_filter. by apply Hn, Hids. }
  cbn [fmap list_fmap]. by rewrite app_nil_r.
Qed.

Lemma migrate_pool_same ids f g : migrate_pool ids f = Ok g → migrate_pool ids g = Ok g.
Proof.
  unfold migrate_pool at 1. intros (raw & _ & Hg%Ok_inj)%bind_Ok. set (ms := filter _ _) in Hg.
  unfold migrate_pool. rewrite <-Hg, attr_set, iter_array. cbn [mbind result_bind]. rewrite objects_of_objects.
  assert (filter (λ m, stripped_attr "provider_id" "" m ∈ ids) ms = ms) as ->.
  { apply filter_all. by intros m [Hm _]%list_elem_of_filter. }
  by rewrite (dict_set_same "memberships") by apply dict_get_set.
Qed.

Lemma default_pool_same ids pool_id active index : str_strip active = active → active ∈ ids →
  migrate_pool ids (_default_analysis_pool pool_id active index) = Ok (_default_analysis_pool pool_id active index).
Proof.
  intros Hstrip Hin. unfold migrate_pool, attr. set (m := ProviderPoolMembershipOptions_asdict (membership_of active)).
  change (dict_get "memberships" (_default_analysis_pool pool_id active index)) with (Some (JArray (JObject <$> [m]))).
  cbn [from_option id]. rewrite iter_array. cbn [mbind result_bind]. rewrite objects_of_objects.
  rewrite filter_cons, decide_True; [done|]. by rewrite (stripped_text _ active), Hstrip.
Qed.

Lemma default_pool_kind pool_id active index : pool_id ∈ pool_ids →
  str_lower (stripped_attr "pool_id" "" (_default_analysis_pool pool_id active index)) = pool_id.
Proof. revert pool_id. apply Forall_forall. repeat (apply Forall_cons; split; [reflexivity|]). apply Forall_nil_2. Qed.

Lemma migrate_pools_settled ids active index raw pools : str_strip active = active → active ∈ ids →
  migrate_pools ids active index raw = Ok pools → settled_pools ids pools.
Proof.
  intros Hstrip Hin. unfold migrate_pools. intros (kept & Hkept & Hp%Ok_inj)%bind_Ok. cbv zeta in Hp. rewrite <-Hp.
  clear Hp pools. split.
  - apply Forall_app. split; apply Forall_forall; intros f Hf.
    + apply all_ok_forall in Hkept. apply list_elem_of_lookup in Hf as [i Hf].
      destruct (Forall2_lookup_r _ _ _ _ _ Hkept Hf) as (f0 & _ & Hm). by eapply migrate_pool_same.
    + apply list_elem_of_fmap in Hf as (p & -> & _). by apply default_pool_same.
  - intros p Hp. rewrite fmap_app. apply elem_of_app.
    destruct (decide (p ∈ (λ f, str_lower (stripped_attr "pool_id" "" f)) <$> kept)) as [Hk|Hk]; [by left|right].
    rewrite <-list_fmap_compose. apply list_elem_of_fmap. exists p. unfold compose. rewrite default_pool_kind by done.
    split; [done|]. by apply list_elem_of_filter.
Qed.

(** ** The whole configuration *)

(** What [_migrate] returns, and leaves alone. *)
Record migrated (data : fields) : Prop := {
  mg_version : dict_get "schema_version" data = Some (JInt CURRENT_SCHEMA_VERSION);
  mg_locks : dict_get "locks" data = None;
  mg_pihole : ∃ f, dict_get "pihole" data = Some (JObject f) ∧ migrate_pihole f = f;
  mg_logging : ∃ f, dict_get "logging" data = Some (JObject f) ∧ migrate_logging f = f;
  mg_scans : ∃ f, dict_get "scans" data = Some (JObject f) ∧ migrate_scans f = f;
  mg_llm : ∃ f i j, dict_get "llm" data = Some (JObject f) ∧ migrate_llm f = f ∧
    int_attr "active_provider_index" f 0 = Ok i ∧ int_attr "active_profile_index" f 0 = Ok j;
  mg_ui : ∃ f, dict_get "ui" data = Some (JObject f) ∧ migrate_ui f = Ok f;
  mg_updates : ∃ f, dict_get "updates" data = Some (JObject f) ∧ migrate_updates f = f;
  mg_registry : ∃ f, dict_get "provider_registry" data = Some (JObject f) ∧ migrate_registry f = f;
  mg_research : ∃ f, dict_get "research" data = Some (JObject f) ∧ migrate_research f = f ∧ dict_get "enabled" f = None;
  mg_profiles : migrate_profiles data = Ok data;
  mg_sources : migrate_sources JNull data = Ok data;
  mg_providers : ∃ ps pools, dict_get "llm_providers" data = Some (JArray (JObject <$> ps)) ∧ ps ≠ [] ∧ settled_providers [] ps ∧
    dict_get "analysis_pools" data = Some (JArray (JObject <$> pools)) ∧ settled_pools (provider_id_of <$> ps) pools
}.

Lemma migrated_fixed fresh data : migrated data → _migrate sha256 fresh data = Ok data.
Proof.
  intros [Hversion Hlocks (ph & Hph & Eph) (lg & Hlg & Elg) (sc & Hsc & Esc) (lm & i & j & Hlm & Elm & Hi & Hj)
    (ui & Hui & Eui) (up & Hup & Eup) (rg & Hrg & Erg) (rs & Hrs & Ers & Een) Hprofiles Hsources
    (ps & pools & Hps & Hne & Eps & Hpools & Epools)].
  unfold _migrate, source_version. rewrite (attr_get _ _ _ Hversion).
  change (json_or (JInt CURRENT_SCHEMA_VERSION) (JInt 0)) with (JInt CURRENT_SCHEMA_VERSION).
  cbn [py_int_of mbind result_bind]. rewrite Z.ltb_irrefl. cbv zeta.
  rewrite (attr_get _ _ _ Hph), (attr_get _ _ _ Hlg), (attr_get _ _ _ Hsc), (attr_get _ _ _ Hlm), (attr_get _ _ _ Hui),
    (attr_get _ _ _ Hup), (attr_get _ _ _ Hrg), (attr_get _ _ _ Hrs).
  unfold _mapping. cbn [is_object from_option id]. rewrite Eph, Elg, Esc, Elm, Eui. cbn [mbind result_bind].
  rewrite Eup, Erg, Ers, dict_pop_absent, (dict_set_same "pihole"), (dict_set_same "logging"), (dict_set_same "scans"),
    (dict_set_same "llm"), (dict_set_same "ui"), (dict_set_same "updates"), (dict_set_same "provider_registry"),
    (dict_set_same "research") by done.
  assert (attr "enabled" rs = JNull) as -> by (unfold attr; by rewrite Een).
  rewrite Hprofiles. cbn [mbind result_bind]. rewrite Hsources.
  cbn [mbind result_bind]. rewrite (attr_get _ _ _ Hps), iter_array. cbn [mbind result_bind].
  assert (migrated_providers sha256 fresh (JObject <$> ps) = ps) as ->.
  { unfold migrated_providers. rewrite settled_providers_same by done. by destruct ps. }
  rewrite Hi, Hj. cbn [mbind result_bind]. rewrite (dict_set_same "llm_providers"), (attr_get _ _ _ Hpools) by done.
  rewrite settled_pools_same by done. cbn [mbind result_bind].
  by rewrite (dict_set_same "analysis_pools"), dict_set_same by done.
Qed.

Ltac section Hkey d8 := rewrite Hkey by (apply (bool_decide_unpack _); exact I); unfold d8; by dicts.

Lemma migrate_migrated fresh raw data : _migrate sha256 fresh raw = Ok data → migrated data.
Proof.
  unfold _migrate. intros (version & _ & Hd)%bind_Ok. destruct (CURRENT_SCHEMA_VERSION <? version); [done|]. cbv zeta in Hd.
  set (d0 := dict_pop "locks" raw) in Hd.
  apply bind_Ok in Hd as (ui & Hui & Hd). apply migrate_ui_idem in Hui.
  set (f_pihole := migrate_pihole _) in Hd. set (f_logging := migrate_logging _) in Hd. set (f_scans := migrate_scans _) in Hd.
  set (f_llm := migrate_llm _) in Hd. set (f_updates := migrate_updates _) in Hd. set (f_registry := migrate_registry _) in Hd.
  set (f_research := migrate_research _) in Hd. set (d8 := dict_set "research" _ _) in Hd.
  apply bind_Ok in Hd as (d9 & H9 & Hd). apply bind_Ok in Hd as (d10 & H10 & Hd).
  apply migrate_sources_result in H10 as (sources & H10 & Hsources & Hkinds).
  apply bind_Ok in Hd as (raw_ps & _ & Hd). destruct (migrated_providers_settled fresh raw_ps) as [Hps Hne].
  set (ps := migrated_providers sha256 fresh raw_ps) in *.
  apply bind_Ok in Hd as (i & Hi & Hd). apply bind_Ok in Hd as (j & Hj & Hd). apply bind_Ok in Hd as (pools & Hpools & Hd).
  apply Ok_inj in Hd.
  assert (settled_pools (provider_id_of <$> ps) pools) as Hset.
  { destruct (settled_provider_ids _ _ Hps) as [_ Hids]. rewrite Forall_forall in Hids.
    set (active := default _ _) in Hpools.
    assert (active ∈ provider_id_of <$> ps) as Hactive.
    { unfold active. destruct ((provider_id_of <$> ps) !! _) as [id|] eqn:E; [by eapply list_elem_of_lookup_2|].
      apply lookup_ge_None in E. rewrite length_fmap in E. destruct ps; [done|]. cbn [length] in E. lia. }
    eapply migrate_pools_settled; [by apply Hids|exact Hactive|exact Hpools]. }
  assert (∀ key, key ∉ ["schema_version"; "analysis_pools"; "llm_providers"; "research_providers"; "prompt_profiles"]%string →
    dict_get key data = dict_get key d8) as Hkey.
  { intros key Hk. rewrite !not_elem_of_cons in Hk. destruct Hk as (H1 & H2 & H3 & H4 & H5 & _).
    rewrite <-Hd, !dict_get_set_ne, H10, dict_get_set_ne by done. by apply (migrate_profiles_ne _ _ _ H9). }
  assert (dict_get "prompt_profiles" data = dict_get "prompt_profiles" d9) as Hprofiles by (rewrite <-Hd, H10; by dicts).
  assert (dict_get "research_providers" data = Some (JArray (JObject <$> sources))) as Hsrc by (rewrite <-Hd, H10; by dicts).
  split.
  - rewrite <-Hd. by dicts.
  - rewrite Hkey by (apply (bool_decide_unpack _); exact I). unfold d8. dicts. unfold d0. by dicts.
  - exists f_pihole. split; [section Hkey d8|apply migrate_pihole_idem].
  - exists f_logging. split; [section Hkey d8|apply migrate_logging_idem].
  - exists f_scans. split; [section Hkey d8|apply migrate_scans_idem].
  - exists f_llm, i, j. split; [section Hkey d8|split_and!; [apply migrate_llm_idem|done|done]].
  - exists ui. split; [section Hkey d8|done].
  - exists f_updates. split; [section Hkey d8|apply migrate_updates_idem].
  - exists f_registry. split; [section Hkey d8|apply set_all_defaults_idem].
  - exists f_research. split; [section Hkey d8|split; [apply migrate_research_idem|unfold f_research, migrate_research; by dicts]].
  - by apply (migrate_profiles_again d8 d9).
  - by apply (migrate_sources_same _ sources).
  - exists ps, pools. rewrite <-Hd. split_and!; [by dicts|done|done|by dicts|done].
Qed.
End Again.

(** C40: What [_migrate] returns is of the current version, without the old locks,
    with providers whose identifiers are distinct and not blank, and with both
    pools; and migrating it again changes nothing, whatever the configuration was
    before. *)
Theorem migration_is_idempotent `{PyRepr} (sha256 : string → string) (Hsha : ∀ s, no_space (sha256 s))
  (fresh fresh' : string) (raw data : fields) (Hdata : _migrate sha256 fresh raw = Ok data) :
  dict_get "schema_version" data = Some (JInt CURRENT_SCHEMA_VERSION) ∧ dict_get "locks" data = None ∧
  (∃ ps pools, dict_get "llm_providers" data = Some (JArray (JObject <$> ps)) ∧
     NoDup (provider_id_of <$> ps) ∧ Forall (λ id, id ≠ ""%string) (provider_id_of <$> ps) ∧
     dict_get "analysis_pools" data = Some (JArray (JObject <$> pools)) ∧
     ∀ pool_id, pool_id ∈ pool_ids → pool_id ∈ ((λ f, str_lower (stripped_attr "pool_id" "" f)) <$> pools)) ∧
  _migrate sha256 fresh' data = Ok data.
Proof.
  pose proof (migrate_migrated sha256 Hsha _ _ _ Hdata) as Hm. split_and!; [apply Hm|apply Hm| |by apply migrated_fixed].
  destruct (mg_providers _ Hm) as (ps & pools & Hps & _ & Eps & Hpools & Epools).
  destruct (settled_provider_ids _ _ Eps) as [Hnd Hall].
  exists ps, pools. split_and!; [done|done| |done|apply Epools]. by eapply Forall_impl; [exact Hall|]; intros x (_ & Hx & _).
Qed.

#[local] Instance no_repr : PyRepr := { py_repr_of _ := "..."%string }.
Definition ex_sha256 (s : string) : string := "0123456789abcdef0123456789abcdef".

(** An old configuration: two equal providers without identifiers, a value that
    is no provider, and research switched off. *)
Definition ex_old : fields :=
  let provider := JObject [("name", JString "local"); ("base_url", JString "http://localhost:1234/")]%string in
  [("schema_version", JInt 3); ("locks", JArray []); ("pihole", JObject [("host", JString "http://10.0.0.2")]%string);
   ("llm_providers", JArray [provider; JNull; provider]); ("research", JObject [("enabled", JBool false)]%string);
   ("research_providers", JArray [JObject [("kind", JString " RDAP "); ("enabled", JBool true)]%string])]%string.
Definition ex_migrated : fields := match _migrate ex_sha256 "provider-x" ex_old with Ok data => data | Err _ => [] end.

Lemma migration_is_idempotent_witness :
  _migrate ex_sha256 "provider-y" ex_migrated = Ok ex_migrated ∧
  (match dict_get "llm_providers" ex_migrated with
   | Some (JArray l) => (λ f, (provider_id_of f, str_attr "base_url" f)) <$> omap is_object l
   | _ => []
   end) = [("provider-0123456789abcdef0123", "http://localhost:1234/v1");
           ("provider-0123456789abcdef0123-2", "http://localhost:1234/v1")]%string.
Proof.
  split; [|vm_compute; reflexivity].
  refine (proj2 (proj2 (proj2 (migration_is_idempotent ex_sha256 _ "provider-x" "provider-y" ex_old ex_migrated _)))).
  - intros s. reflexivity.
  - vm_compute. reflexivity.
Defined.
