(* ===== verification/Credentials.v ===== *)
(** [pihole_manager/credentials.py]: the secrets of the options in the credential
    store of the operating system.

    The store is the class [Keyring]; an exception of its backend is an [Err].
    [secure_options_payload] returns [asdict] of the options with some secrets
    blanked; the model blanks them in the options. *)
From stdpp Require Import base gmap strings list pretty.
From Stdlib Require Import Ascii QArith Qround Lqa Sorted.
From S2P Require Import Prelude HttpRetry Json Models Options.
Open Scope Z_scope.

(** * The store *)

Inductive CredentialReadState := PRESENT | MISSING | UNAVAILABLE.
#[export] Instance CredentialReadState_eq_dec : EqDecision CredentialReadState.
Proof. solve_decision. Defined.

Class Keyring (env : Type) := {
  (** whether [import keyring] works *)
  keyring_installed : bool;
  get_password : string → env → result unit (option string) * env;
  set_password : string → string → env → result unit unit * env;
  delete_password : string → env → result unit unit * env
}.

Record kstate (env : Type) := KState {
  ks_env : env;
  _READ_STATES : gmap string CredentialReadState
}.
Arguments KState {env}.
Arguments ks_env {env}.
Arguments _READ_STATES {env}.

Section Credentials.
Context {env : Type} `{Keyring env}.
Implicit Types s : kstate env.

Definition _set_read_state (key : string) (state : CredentialReadState) (e : env) s : kstate env :=
  KState e (<[key := state]> (_READ_STATES s)).

(** [str(get_password(...) or "")] *)
Definition _read_secret (key : string) s : CredentialReadState * string * kstate env :=
  if negb keyring_installed then (UNAVAILABLE, ""%string, _set_read_state key UNAVAILABLE (ks_env s) s)
  else
    let '(reply, e) := get_password key (ks_env s) in
    match reply with
    | Err _ => (UNAVAILABLE, ""%string, _set_read_state key UNAVAILABLE e s)
    | Ok found =>
        let value := default ""%string found in
        let state := if str_nonempty value then PRESENT else MISSING in
        (state, value, _set_read_state key state e s)
    end.

Definition _write_secret (key value : string) s : bool * kstate env :=
  if negb keyring_installed then (false, s)
  else
    let '(reply, e) := set_password key value (ks_env s) in
    match reply with
    | Ok _ => (true, _set_read_state key PRESENT e s)
    | Err _ => (false, KState e (_READ_STATES s))
    end.

Definition _delete_secret (key : string) s : bool * kstate env :=
  if bool_decide (_READ_STATES s !! key = Some UNAVAILABLE) then (false, s)
  else if negb keyring_installed then (false, s)
  else
    let '(reply, e) := delete_password key (ks_env s) in
    match reply with
    | Ok _ => (true, _set_read_state key MISSING e s)
    | Err _ => (false, KState e (_READ_STATES s))
    end.

(** * One slot *)

(** The new value, and whether a plaintext may be removed from the file. *)
Definition hydrate_slot (key plaintext : string) s : string * bool * kstate env :=
  let '(state, stored, s) := _read_secret key s in
  match state with
  | PRESENT => (stored, str_nonempty plaintext, s)
  | MISSING =>
      if str_nonempty plaintext
      then let '(written, s) := _write_secret key plaintext s in (plaintext, written, s)
      else (plaintext, false, s)
  | UNAVAILABLE => (plaintext, false, s)
  end.

(** What the payload keeps of a secret. *)
Definition secure_slot (key secret : string) s : string * kstate env :=
  if str_nonempty secret
  then let '(written, s) := _write_secret key secret s in ((if written : bool then ""%string else secret), s)
  else let '(_, s) := _delete_secret key s in (""%string, s).

(** * The slots of the options *)

Definition llm_key (p : LLMProviderOptions) : option string :=
  let provider_id := str_strip (po_provider_id p) in
  if str_nonempty provider_id then Some ("llm/" +:+ provider_id +:+ "/api_key")%string else None.
Definition research_key (p : ResearchProviderOptions) : option string :=
  let kind := str_lower (str_strip (sr_kind p)) in
  if str_nonempty kind then Some ("research/" +:+ kind +:+ "/api_key")%string else None.

Definition set_llm_key (secret : string) (p : LLMProviderOptions) : LLMProviderOptions :=
  mkLLMProviderOptions (po_provider_id p) (po_name p) (po_preset_id p) (po_api_style p) (po_base_url p) secret
    (po_model p) (po_temperature p) (po_timeout_sec p) (po_max_output_tokens p) (po_max_tokens_parameter p)
    (po_send_temperature p) (po_structured_output p) (po_limits p).
Definition set_research_key (secret : string) (p : ResearchProviderOptions) : ResearchProviderOptions :=
  mkResearchProviderOptions (sr_name p) (sr_kind p) (sr_enabled p) (sr_base_url p) secret (sr_timeout_sec p)
    (sr_min_interval_sec p) (sr_refresh_interval_hours p) (sr_max_results p) (sr_test_domain p).
Definition set_pihole_password (secret : string) (o : PiHoleOptions) : PiHoleOptions :=
  mkPiHoleOptions (ph_base_url o) secret (ph_ca_bundle_path o) (ph_timeout_sec o).
Definition set_trigger_token (secret : string) (o : ExternalTriggerOptions) : ExternalTriggerOptions :=
  mkExternalTriggerOptions (xt_enabled o) (xt_bind_host o) (xt_port o) secret (xt_allow_remote o)
    (xt_max_domains_per_request o).

(** [_credential_slots]: the slots with their secrets, and the options with new
    secrets in the slots; an owner without a key has no slot. *)
Definition _credential_slots (o : Options) : list (string * string) :=
  [("pihole/password", ph_password (op_pihole o)); ("external_trigger/token", xt_token (op_external_trigger o))]%string ++
  omap (λ p, (λ key, (key, po_api_key p)) <$> llm_key p) (op_llm_providers o) ++
  omap (λ p, (λ key, (key, sr_api_key p)) <$> research_key p) (op_research_providers o).

(** Give the owners with a key the next secrets of a list. *)
Fixpoint give_secrets {A} (key_of : A → option string) (set : string → A → A) (owners : list A)
    (secrets : list string) : list A * list string :=
  match owners with
  | [] => ([], secrets)
  | a :: owners =>
      match key_of a, secrets with
      | Some _, x :: secrets =>
          let '(owners, secrets) := give_secrets key_of set owners secrets in (set x a :: owners, secrets)
      | _, _ => let '(owners, secrets) := give_secrets key_of set owners secrets in (a :: owners, secrets)
      end
  end.

Definition with_secrets (secrets : list string) (o : Options) : Options :=
  match secrets with
  | password :: token :: secrets =>
      let '(llm, secrets) := give_secrets llm_key set_llm_key (op_llm_providers o) secrets in
      let '(research, _) := give_secrets research_key set_research_key (op_research_providers o) secrets in
      mkOptions (op_schema_version o) (op_logging o) (op_notify o) (op_scans o)
        (set_pihole_password password (op_pihole o)) (op_llm o) (op_research o) (op_updates o)
        (op_provider_registry o) (set_trigger_token token (op_external_trigger o)) llm (op_analysis_pools o)
        (op_prompt_profiles o) research (op_ui o)
  | _ => o
  end.

Fixpoint hydrate_slots (slots : list (string * string)) s : list string * bool * kstate env :=
  match slots with
  | [] => ([], false, s)
  | (key, plaintext) :: slots =>
      let '(value, moved, s) := hydrate_slot key plaintext s in
      let '(values, migrated, s) := hydrate_slots slots s in
      (value :: values, moved || migrated, s)
  end.

Fixpoint secure_slots (slots : list (string * string)) s : list string * kstate env :=
  match slots with
  | [] => ([], s)
  | (key, secret) :: slots =>
      let '(kept, s) := secure_slot key secret s in
      let '(rest, s) := secure_slots slots s in
      (kept :: rest, s)
  end.

Definition hydrate_credentials (o : Options) s : Options * bool * kstate env :=
  let '(values, migrated, s) := hydrate_slots (_credential_slots o) s in (with_secrets values o, migrated, s).

Definition secure_options_payload (o : Options) s : fields * kstate env :=
  let '(kept, s) := secure_slots (_credential_slots o) s in (Options_asdict (with_secrets kept o), s).
End Credentials.

(** * Slots and their owners *)

Section Owners.
Context {A : Type} (key_of : A → option string) (secret_of : A → string) (set : string → A → A).
Context (Hkey : ∀ x a, key_of (set x a) = key_of a) (Hsecret : ∀ x a, secret_of (set x a) = x)
  (Hsame : ∀ a, set (secret_of a) a = a) (Htwice : ∀ x y a, set x (set y a) = set x a).

Definition slots_of (owners : list A) : list (string * string) :=
  omap (λ a, (λ key, (key, secret_of a)) <$> key_of a) owners.

Lemma slots_of_cons a owners : slots_of (a :: owners) =
  match key_of a with Some key => (key, secret_of a) :: slots_of owners | None => slots_of owners end.
Proof. unfold slots_of. cbn. by destruct (key_of a). Qed.

Lemma give_same owners rest :
  give_secrets key_of set owners ((slots_of owners).*2 ++ rest) = (owners, rest).
Proof.
  induction owners as [|a owners IH]; [done|]. rewrite slots_of_cons. cbn [give_secrets].
  destruct (key_of a) as [key|]; [|by rewrite IH]. cbn [fmap list_fmap snd app]. by rewrite IH, Hsame.
Qed.

Lemma give_rest owners values rest : length values = length (slots_of owners) →
  (give_secrets key_of set owners (values ++ rest)).2 = rest ∧
  slots_of (give_secrets key_of set owners (values ++ rest)).1 = zip (slots_of owners).*1 values.
Proof.
  revert values. induction owners as [|a owners IH]; intros values.
  { cbn. by destruct values. }
  rewrite slots_of_cons. cbn [give_secrets]. destruct (key_of a) as [key|] eqn:E; cbn [length].
  - destruct values as [|x values]; [done|]. intros [= Hl]. cbn [app]. destruct (IH values Hl) as [H1 H2].
    destruct (give_secrets key_of set owners (values ++ rest)) as [o r]. cbn [fst snd] in *. split; [done|].
    rewrite slots_of_cons, Hkey, E, Hsecret, H2. done.
  - intros Hl. destruct (IH values Hl) as [H1 H2].
    destruct (give_secrets key_of set owners (values ++ rest)) as [o r]. cbn [fst snd] in *. split; [done|].
    by rewrite slots_of_cons, E, H2.
Qed.

Lemma give_twice owners v1 v2 r1 r2 : length v1 = length (slots_of owners) → length v2 = length (slots_of owners) →
  (give_secrets key_of set (give_secrets key_of set owners (v1 ++ r1)).1 (v2 ++ r2)).1 =
  (give_secrets key_of set owners (v2 ++ r2)).1.
Proof.
  revert v1 v2. induction owners as [|a owners IH]; intros v1 v2; [done|].
  rewrite slots_of_cons. cbn [give_secrets]. destruct (key_of a) as [key|] eqn:E; cbn [length].
  - destruct v1 as [|x v1], v2 as [|y v2]; try done. intros [= H1] [= H2]. cbn [app]. specialize (IH v1 v2 H1 H2).
    destruct (give_secrets key_of set owners (v1 ++ r1)) as [o1 s1]. cbn [fst] in *. cbn [give_secrets].
    rewrite Hkey, E. destruct (give_secrets key_of set o1 (v2 ++ r2)) as [o2 s2].
    destruct (give_secrets key_of set owners (v2 ++ r2)) as [o3 s3]. cbn [fst] in *. by rewrite Htwice, IH.
  - intros H1 H2. specialize (IH v1 v2 H1 H2).
    destruct (give_secrets key_of set owners (v1 ++ r1)) as [o1 s1]. cbn [fst] in *. cbn [give_secrets]. rewrite E.
    destruct (give_secrets key_of set o1 (v2 ++ r2)) as [o2 s2].
    destruct (give_secrets key_of set owners (v2 ++ r2)) as [o3 s3]. cbn [fst] in *. by rewrite IH.
Qed.
End Owners.

Lemma set_llm_ok : (∀ x p, llm_key (set_llm_key x p) = llm_key p) ∧ (∀ x p, po_api_key (set_llm_key x p) = x) ∧
  (∀ p, set_llm_key (po_api_key p) p = p) ∧ (∀ x y p, set_llm_key x (set_llm_key y p) = set_llm_key x p).
Proof. split_and!; try done. by intros []. Qed.
Lemma set_research_ok : (∀ x p, research_key (set_research_key x p) = research_key p) ∧
  (∀ x p, sr_api_key (set_research_key x p) = x) ∧ (∀ p, set_research_key (sr_api_key p) p = p) ∧
  (∀ x y p, set_research_key x (set_research_key y p) = set_research_key x p).
Proof. split_and!; try done. by intros []. Qed.

Lemma credential_slots_split o : _credential_slots o =
  [("pihole/password", ph_password (op_pihole o)); ("external_trigger/token", xt_token (op_external_trigger o))]%string ++
  slots_of llm_key po_api_key (op_llm_providers o) ++ slots_of research_key sr_api_key (op_research_providers o).
Proof. done. Qed.

(** Giving the options their own secrets changes nothing. *)
Lemma with_own_secrets o : with_secrets (_credential_slots o).*2 o = o.
Proof.
  destruct set_llm_ok as (L1 & L2 & L3 & L4), set_research_ok as (R1 & R2 & R3 & R4).
  rewrite credential_slots_split, !fmap_app. cbn [fmap list_fmap snd app with_secrets].
  rewrite (give_same llm_key po_api_key set_llm_key L3).
  rewrite <-(app_nil_r (slots_of research_key _ _).*2), (give_same research_key sr_api_key set_research_key R3).
  by destruct o as [? ? ? ? [] ? ? ? ? [] ? ? ? ? ?].
Qed.

Lemma with_secrets_slots o values : length values = length (_credential_slots o) →
  _credential_slots (with_secrets values o) = zip (_credential_slots o).*1 values ∧
  ∀ values', length values' = length (_credential_slots o) →
    with_secrets values' (with_secrets values o) = with_secrets values' o.
Proof.
  destruct set_llm_ok as (L1 & L2 & L3 & L4), set_research_ok as (R1 & R2 & R3 & R4).
  rewrite credential_slots_split, !length_app. cbn [length Nat.add].
  set (n := length (slots_of llm_key po_api_key (op_llm_providers o))).
  set (m := length (slots_of research_key sr_api_key (op_research_providers o))).
  assert (∀ vs : list string, length vs = (n + m)%nat → ∃ v w, vs = v ++ w ++ [] ∧ length v = n ∧ length w = m) as Hsplit.
  { intros vs Hv. exists (take n vs), (drop n vs). rewrite app_nil_r, take_drop, length_take, length_drop.
    split_and!; [done|lia|lia]. }
  destruct values as [|p [|t values]]; [done|done|]. intros [= Hlen].
  destruct (Hsplit values Hlen) as (v & w & -> & Hv & Hw).
  cbn [with_secrets].
  destruct (give_rest llm_key po_api_key set_llm_key L1 L2 (op_llm_providers o) v (w ++ []) Hv) as [G1 G2].
  pose proof (give_twice llm_key po_api_key set_llm_key L1 L4 (op_llm_providers o) v) as T1.
  destruct (give_secrets llm_key set_llm_key (op_llm_providers o) (v ++ w ++ [])) as [llm rest] eqn:E1.
  cbn [fst snd] in G1, G2. subst rest.
  destruct (give_rest research_key sr_api_key set_research_key R1 R2 (op_research_providers o) w [] Hw) as [G3 G4].
  pose proof (give_twice research_key sr_api_key set_research_key R1 R4 (op_research_providers o) w) as T2.
  destruct (give_secrets research_key set_research_key (op_research_providers o) (w ++ [])) as [research rest] eqn:E2.
  cbn [fst snd] in G3, G4. split.
  - rewrite credential_slots_split. cbn [op_llm_providers op_research_providers op_pihole op_external_trigger].
    rewrite G2, G4, app_nil_r. cbn [ph_password set_pihole_password xt_token set_trigger_token app].
    rewrite !fmap_cons, fmap_app. cbn [fst zip_with]. f_equal. f_equal.
    rewrite zip_with_app; [done|by rewrite length_fmap].
  - intros [|p' [|t' values']]; [done|done|]. intros [= Hlen']. destruct (Hsplit values' Hlen') as (v' & w' & -> & Hv' & Hw').
    cbn [with_secrets op_llm_providers op_research_providers].
    specialize (T1 v' (w ++ []) (w' ++ []) Hv Hv'). rewrite E1 in T1. cbn [fst] in T1.
    specialize (T2 w' [] [] Hw Hw'). rewrite E2 in T2. cbn [fst] in T2.
    destruct (give_rest llm_key po_api_key set_llm_key L1 L2 (op_llm_providers o) v' (w' ++ []) Hv') as [G5 _].
    destruct (give_rest llm_key po_api_key set_llm_key L1 L2 llm v' (w' ++ [])) as [G6 _].
    { rewrite G2, length_zip_with, length_fmap. fold n. lia. }
    destruct (give_secrets llm_key set_llm_key llm (v' ++ w' ++ [])) as [llm1 r1].
    destruct (give_secrets llm_key set_llm_key (op_llm_providers o) (v' ++ w' ++ [])) as [llm2 r2].
    cbn [fst snd] in *. subst.
    destruct (give_secrets research_key set_research_key research (w' ++ [])) as [re1 s1].
    destruct (give_secrets research_key set_research_key (op_research_providers o) (w' ++ [])) as [re2 s2].
    cbn [fst snd] in *. by subst.
Qed.

(** * What the store promises *)

Lemma dict_get_distinct {A} (key : string) (x : A) d : NoDup d.*1 → (key, x) ∈ d → dict_get key d = Some x.
Proof.
  induction d as [|[k y] d IH]; cbn [fmap list_fmap fst dict_get]; intros Hnd Hin; [by apply elem_of_nil in Hin|].
  apply NoDup_cons in Hnd as [Hk Hnd]. apply elem_of_cons in Hin as [[= -> ->]|Hin]; [by rewrite String.eqb_refl|].
  destruct (String.eqb_spec k key) as [->|]; [|by apply IH]. destruct Hk. apply list_elem_of_fmap. by exists (key, x).
Qed.

(** [stored] is what the backend holds under a key.  A failed call changes
    nothing; after [delete_password] the key is gone, whether it was there (and
    the call returns) or not (and it raises). *)
Class KeyringLaws (env : Type) `{Keyring env} := {
  stored : env → string → option string;
  get_keeps : ∀ key e key', stored (get_password key e).2 key' = stored e key';
  get_returns : ∀ key e found, (get_password key e).1 = Ok found → found = stored e key;
  set_stores : ∀ key v e, (set_password key v e).1 = Ok tt → stored (set_password key v e).2 key = Some v;
  set_fails : ∀ key v e x, (set_password key v e).1 = Err x → stored (set_password key v e).2 key = stored e key;
  set_others : ∀ key v e key', key' ≠ key → stored (set_password key v e).2 key' = stored e key';
  delete_removes : ∀ key e, stored (delete_password key e).2 key = None;
  delete_others : ∀ key e key', key' ≠ key → stored (delete_password key e).2 key' = stored e key'
}.

Section Secrets.
Context {env : Type} `{Keyring env} `{!KeyringLaws env}.
Implicit Types s : kstate env.

(** A backend that answers: [import keyring] works, no call to read or to write
    fails, and no earlier read found it unavailable. *)
Definition backend_works : Prop :=
  keyring_installed = true ∧ (∀ key e, ∃ found, (get_password key e).1 = Ok found) ∧
  (∀ key v e, (set_password key v e).1 = Ok tt).
Definition none_unavailable s : Prop := ∀ key, _READ_STATES s !! key ≠ Some UNAVAILABLE.

Definition held (secret : string) : option string := if str_nonempty secret then Some secret else None.

Lemma none_unavailable_set key state e s : state ≠ UNAVAILABLE → none_unavailable s →
  none_unavailable (_set_read_state key state e s).
Proof.
  intros Hst Hs key'. cbn. destruct (decide (key' = key)) as [->|Hne]; [by rewrite lookup_insert_eq; intros [= ->]|].
  by rewrite lookup_insert_ne.
Qed.

Lemma secure_slot_works key secret s : backend_works → none_unavailable s →
  let '(kept, s') := secure_slot key secret s in
  kept = ""%string ∧ none_unavailable s' ∧ stored (ks_env s') key = held secret ∧
  ∀ key', key' ≠ key → stored (ks_env s') key' = stored (ks_env s) key'.
Proof.
  intros (Hi & _ & Hset) Hs. unfold secure_slot, held. destruct (str_nonempty secret) eqn:En.
  - unfold _write_secret. rewrite Hi. cbn [negb].
    pose proof (set_stores key secret (ks_env s) (Hset key secret (ks_env s))) as Hstored.
    pose proof (set_others key secret (ks_env s)) as Hothers. pose proof (Hset key secret (ks_env s)) as Hok.
    destruct (set_password key secret (ks_env s)) as [reply e]. cbn [fst snd] in *. subst reply.
    split_and!; [done|by apply none_unavailable_set|done|done].
  - unfold _delete_secret. rewrite bool_decide_false by apply Hs. rewrite Hi. cbn [negb].
    pose proof (delete_removes key (ks_env s)) as Hgone. pose proof (delete_others key (ks_env s)) as Hothers.
    destruct (delete_password key (ks_env s)) as [[[]|[]] e]; cbn [fst snd] in *; split_and!; try done.
    by apply none_unavailable_set.
Qed.

Lemma secure_slots_work slots s : backend_works → none_unavailable s → NoDup slots.*1 →
  let '(kept, s') := secure_slots slots s in
  kept = (λ _, ""%string) <$> slots ∧ (∀ key secret, (key, secret) ∈ slots → stored (ks_env s') key = held secret) ∧
  ∀ key', key' ∉ slots.*1 → stored (ks_env s') key' = stored (ks_env s) key'.
Proof.
  intros Hw. revert s. induction slots as [|[key secret] slots IH]; intros s Hs Hnd.
  { cbn. split_and!; [done| |done]. intros ? ? Hin. by apply elem_of_nil in Hin. }
  cbn [fmap list_fmap fst] in Hnd. apply NoDup_cons in Hnd as [Hnew Hnd]. cbn [secure_slots].
  pose proof (secure_slot_works key secret s Hw Hs) as H1. destruct (secure_slot key secret s) as [kept s1].
  destruct H1 as (-> & Hs1 & Hstored & Hothers). specialize (IH s1 Hs1 Hnd).
  destruct (secure_slots slots s1) as [rest s2]. destruct IH as (-> & Hin & Hout). split_and!; [done| |].
  - intros key' secret' [[= -> ->]|Hk]%elem_of_cons; [by rewrite Hout|by apply Hin].
  - intros key' Hk. apply not_elem_of_cons in Hk as [Hne Hk]. rewrite Hout by done. by apply Hothers.
Qed.

(** Reading back what the store holds; nothing is written, since a missing secret
    has no plaintext either. *)
Lemma hydrate_slots_works slots s (secret_of : string → string) : backend_works →
  (∀ key plaintext, (key, plaintext) ∈ slots → plaintext = ""%string ∧ stored (ks_env s) key = held (secret_of key)) →
  (hydrate_slots slots s).1.1 = secret_of <$> slots.*1.
Proof.
  intros (Hi & Hget & Hset). revert s. induction slots as [|[key plaintext] slots IH]; intros s Hall; [done|].
  destruct (Hall key plaintext) as [-> Hstored]; [left|]. cbn [hydrate_slots]. unfold hydrate_slot, _read_secret. rewrite Hi. cbn [negb].
  destruct (Hget key (ks_env s)) as [found Hfound]. pose proof (get_returns _ _ _ Hfound) as ->.
  pose proof (get_keeps key (ks_env s)) as Hkeeps.
  destruct (get_password key (ks_env s)) as [reply e]. cbn [fst snd] in *. subst reply. rewrite Hstored. cbn zeta.
  assert (∀ state, (hydrate_slots slots (_set_read_state key state e s)).1.1 = secret_of <$> slots.*1) as Hrest.
  { intros state. apply IH. intros k p Hk. destruct (Hall k p) as [-> Hst]; [by right|]. split; [done|]. cbn.
    by rewrite Hkeeps. }
  unfold held. destruct (str_nonempty (secret_of key)) eqn:En; cbn [from_option id].
  - rewrite En. specialize (Hrest PRESENT). destruct (hydrate_slots slots _) as [[values migrated] s2].
    cbn [fst] in *. rewrite Hrest. done.
  - change (str_nonempty "") with false. cbv iota. specialize (Hrest MISSING).
    destruct (hydrate_slots slots _) as [[values migrated] s2]. cbn [fst] in *. rewrite Hrest.
    change (secret_of <$> ((key, ""%string) :: slots).*1) with (secret_of key :: (secret_of <$> slots.*1)).
    f_equal. by destruct (secret_of key).
Qed.

(** Without a backend everything stays in the file. *)
Lemma secure_slots_absent slots s : keyring_installed = false → (secure_slots slots s).1 = slots.*2 ∧
  (secure_slots slots s).2 = s.
Proof.
  intros Hi. revert s. induction slots as [|[key secret] slots IH]; intros s; [done|]. cbn [secure_slots].
  unfold secure_slot, _write_secret, _delete_secret. rewrite Hi. cbn [negb].
  assert ((if bool_decide (_READ_STATES s !! key = Some UNAVAILABLE) then (false, s) else (false, s)) = (false, s)) as ->
    by by case_bool_decide.
  specialize (IH s). destruct secret; cbn [str_nonempty]; destruct (secure_slots slots s) as [rest s'];
    cbn [fst snd] in IH; by destruct IH as [-> ->].
Qed.

Lemma hydrate_slots_absent slots s : keyring_installed = false → (hydrate_slots slots s).1.1 = slots.*2.
Proof.
  intros Hi. revert s. induction slots as [|[key plaintext] slots IH]; intros s; [done|]. cbn [hydrate_slots].
  unfold hydrate_slot, _read_secret. rewrite Hi. cbn [negb]. cbn zeta. specialize (IH (_set_read_state key UNAVAILABLE (ks_env s) s)).
  destruct (hydrate_slots slots _) as [[values migrated] s2]. cbn [fst] in *. by rewrite IH.
Qed.

(** The options that the payload stands for. *)
Definition saved_options (o : Options) s : Options := with_secrets (secure_slots (_credential_slots o) s).1 o.

Lemma payload_is_saved o s : (secure_options_payload o s).1 = Options_asdict (saved_options o s).
Proof. unfold secure_options_payload, saved_options. by destruct (secure_slots (_credential_slots o) s). Qed.

Lemma secure_slots_length slots s : length (secure_slots slots s).1 = length slots.
Proof.
  revert s. induction slots as [|[key secret] slots IH]; intros s; [done|]. cbn [secure_slots].
  destruct (secure_slot key secret s) as [kept s1]. specialize (IH s1). destruct (secure_slots slots s1). cbn in *. lia.
Qed.

(** Blank slots have nothing to move to the store. *)
Lemma hydrate_slots_blank slots s : Forall (λ slot, slot.2 = ""%string) slots → (hydrate_slots slots s).1.2 = false.
Proof.
  intros Hall. revert s. induction Hall as [|[key plaintext] slots Hp Hall IH]; intros s; [done|]. cbn [snd] in Hp. subst plaintext.
  cbn [hydrate_slots]. unfold hydrate_slot. destruct (_read_secret key s) as [[[] stored] s1];
    change (str_nonempty "") with false; cbv iota; specialize (IH s1);
    by destruct (hydrate_slots slots s1) as [[values migrated] s2].
Qed.

Lemma hydrate_slots_unmoved slots s : keyring_installed = false → (hydrate_slots slots s).1.2 = false.
Proof.
  intros Hi. revert s. induction slots as [|[key plaintext] slots IH]; intros s; [done|]. cbn [hydrate_slots].
  unfold hydrate_slot, _read_secret. rewrite Hi. cbn [negb]. cbn zeta. specialize (IH (_set_read_state key UNAVAILABLE (ks_env s) s)).
  by destruct (hydrate_slots slots _) as [[values migrated] s2].
Qed.

Lemma hydrate_saved (o : Options) s s'
  (Hdistinct : NoDup (_credential_slots o).*1)
  (Hbackend : backend_works ∧ none_unavailable s ∨ keyring_installed = false)
  (Hrestart : ks_env s' = ks_env (secure_options_payload o s).2) :
  (hydrate_credentials (saved_options o s) s').1 = (o, false) ∧
  (backend_works → none_unavailable s →
     Forall (λ slot, slot.2 = ""%string) (_credential_slots (saved_options o s))).
Proof.
  assert (ks_env s' = ks_env (secure_slots (_credential_slots o) s).2) as Henv
    by (rewrite Hrestart; unfold secure_options_payload; by destruct (secure_slots (_credential_slots o) s)).
  clear Hrestart. pose proof (secure_slots_length (_credential_slots o) s) as Hlen.
  destruct (with_secrets_slots o _ Hlen) as [Hslots Htwice]. fold (saved_options o s) in Hslots, Htwice.
  assert (∀ values, (hydrate_slots (_credential_slots (saved_options o s)) s').1 = (values, false) →
    values = (_credential_slots o).*2 → (hydrate_credentials (saved_options o s) s').1 = (o, false)) as Hdone.
  { intros values Hv ->. unfold hydrate_credentials.
    destruct (hydrate_slots (_credential_slots (saved_options o s)) s') as [[v m] s2]. cbn [fst] in *.
    apply pair_equal_spec in Hv as [-> ->]. rewrite Htwice by by rewrite length_fmap. by rewrite with_own_secrets. }
  assert (backend_works → none_unavailable s →
    (secure_slots (_credential_slots o) s).1 = (λ _, ""%string) <$> _credential_slots o ∧
    ∀ key secret, (key, secret) ∈ _credential_slots o →
      stored (ks_env (secure_slots (_credential_slots o) s).2) key = held secret) as Hworks.
  { intros Hw Hs. pose proof (secure_slots_work _ s Hw Hs Hdistinct) as Hk.
    destruct (secure_slots (_credential_slots o) s) as [kept s1]. destruct Hk as (-> & Hk & _). done. }
  assert (backend_works → none_unavailable s →
    Forall (λ slot, slot.2 = ""%string) (_credential_slots (saved_options o s))) as Hblank.
  { intros Hw Hs. destruct (Hworks Hw Hs) as [Hkept _]. rewrite Hslots, Hkept. apply Forall_forall. intros [k x] Hin.
    apply elem_of_zip_r, list_elem_of_fmap in Hin as (slot & Hx & _). exact Hx. }
  split; [|done]. destruct Hbackend as [[Hw Hs]|Habsent].
  - destruct (Hworks Hw Hs) as [Hkept Hstored]. pose proof (hydrate_slots_blank _ s' (Hblank Hw Hs)) as Hflag.
    rewrite Hkept in Hslots.
    apply (Hdone ((λ key, default ""%string (dict_get key (_credential_slots o))) <$> (_credential_slots o).*1)).
    + apply injective_projections; [|done]. cbn [fst snd].
      assert ((_credential_slots (saved_options o s)).*1 = (_credential_slots o).*1) as Hkeys
        by (rewrite Hslots; apply fst_zip; by rewrite !length_fmap).
      rewrite <-Hkeys. apply hydrate_slots_works; [done|]. intros key plaintext Hin. rewrite Hslots in Hin.
      apply elem_of_zip_r in Hin as Hr. apply list_elem_of_fmap in Hr as (slot & -> & _). split; [done|].
      rewrite Henv. apply elem_of_zip_l, list_elem_of_fmap in Hin as ([k y] & -> & Hin). cbn [fst].
      rewrite (Hstored k y Hin). f_equal. by rewrite (dict_get_distinct k y _ Hdistinct Hin).
    + rewrite <-list_fmap_compose. apply list_fmap_ext. intros i [k x] Hi. unfold compose. cbn [fst snd].
      rewrite (dict_get_distinct _ _ _ Hdistinct (list_elem_of_lookup_2 _ _ _ Hi)). done.
  - destruct (secure_slots_absent (_credential_slots o) s Habsent) as [Hkept _]. rewrite Hkept in Hslots.
    eapply Hdone; [apply injective_projections; [by apply hydrate_slots_absent|by apply hydrate_slots_unmoved]|].
    rewrite Hslots. apply snd_zip. by rewrite !length_fmap.
Qed.

(** Saving and loading keeps every secret: when the options have distinct
    credential keys, and the backend works (the payload then holds no secret at
    all) or is not installed (it then holds them all), [hydrate_credentials] of
    what [secure_options_payload] wrote gives back the options, and reports that
    nothing is left to be moved out of the file. *)
Theorem secrets_survive_a_restart (o : Options) s s'
  (Hdistinct : NoDup (_credential_slots o).*1)
  (Hbackend : backend_works ∧ none_unavailable s ∨ keyring_installed = false)
  (Hrestart : ks_env s' = ks_env (secure_options_payload o s).2) :
  (hydrate_credentials (saved_options o s) s').1 = (o, false) ∧
  (backend_works → none_unavailable s →
     Forall (λ slot, slot.2 = ""%string) (_credential_slots (saved_options o s))).
Proof. by apply hydrate_saved. Qed.
End Secrets.

(** ** Witnesses *)

(** A store that keeps what it is given. *)
#[local] Instance map_keyring : Keyring (gmap string string) := {
  keyring_installed := true;
  get_password key e := (Ok (e !! key), e);
  set_password key v e := (Ok tt, <[key := v]> e);
  delete_password key e := (match e !! key with Some _ => Ok tt | None => Err tt end, delete key e)
}.

#[local] Instance map_keyring_laws : KeyringLaws (gmap string string).
Proof.
  refine {| stored e key := e !! key |}; cbn; try done.
  - by intros key e found [= <-].
  - intros key v e _. by rewrite lookup_insert_eq.
  - intros key v e key' Hne. by rewrite lookup_insert_ne.
  - intros key e. by rewrite lookup_delete_eq.
  - intros key e key' Hne. by rewrite lookup_delete_ne.
Defined.

Definition ex_options (api_key : string) (research : list ResearchProviderOptions) : Options :=
  mkOptions 18 LoggingOptions_default NotifyOptions_default ScanOptions_default (set_pihole_password "pw" PiHoleOptions_default)
    LLMOptions_default ResearchOptions_default UpdateOptions_default ProviderRegistryOptions_default
    ExternalTriggerOptions_default [set_llm_key api_key (LLMProviderOptions_default "p1")] [] [PromptProfileOptions_default]
    research UIOptions_default.
Definition ex_start : kstate (gmap string string) := KState ∅ ∅.

Lemma secrets_survive_a_restart_witness :
  let o := ex_options "key" default_research_providers in
  (hydrate_credentials (saved_options o ex_start)
     (KState (ks_env (secure_options_payload o ex_start).2) ∅)).1 = (o, false) ∧
  Forall (λ slot, slot.2 = ""%string) (_credential_slots (saved_options o ex_start)).
Proof.
  intros o. assert (backend_works (env := gmap string string)) as Hw by (split_and!; [done| |done]; intros key e; by eexists).
  destruct (secrets_survive_a_restart o ex_start (KState (ks_env (secure_options_payload o ex_start).2) ∅)) as [Ho Hall].
  - apply (bool_decide_unpack _). vm_compute. exact I.
  - left. by split.
  - reflexivity.
  - split; [exact Ho|]. by apply Hall.
Defined.

(** Two sources of one kind share a key: saving the second one, which has no
    secret, deletes the secret of the first, which was already blanked. *)
Definition ex_twice : Options :=
  let source := ResearchProviderOptions_default in ex_options "key" [set_research_key "secret" source; source].

Example sources_of_one_kind_lose_their_secret :
  let run := secure_options_payload ex_twice ex_start in
  sr_api_key <$> op_research_providers (saved_options ex_twice ex_start) = [""; ""]%string ∧
  ks_env run.2 !! "research/rdap/api_key"%string = None.
Proof. vm_compute. split; reflexivity. Qed.

(** A store that refuses to write while it is locked, and still holds an older
    secret. *)
Record vault := Vault { vt_entries : gmap string string; vt_locked : bool }.
#[local] Instance vault_keyring : Keyring vault := {
  keyring_installed := true;
  get_password key e := if vt_locked e then (Err tt, e) else (Ok (vt_entries e !! key), e);
  set_password key v e := if vt_locked e then (Err tt, e) else (Ok tt, Vault (<[key := v]> (vt_entries e)) false);
  delete_password key e := if vt_locked e then (Err tt, e) else (Ok tt, Vault (delete key (vt_entries e)) false)
}.

(** The new secret stays in the file as plain text, but the next start, with the
    store unlocked, takes the old one and reports that the file can be cleaned. *)
Example stale_secret_replaces_the_saved_one :
  let o := ex_options "new" [] in
  let locked := KState (Vault {["llm/p1/api_key" := "old"]}%string true) ∅ in
  let unlocked := KState (Vault {["llm/p1/api_key" := "old"]}%string false) ∅ in
  let run := hydrate_credentials (saved_options o locked) unlocked in
  po_api_key <$> op_llm_providers (saved_options o locked) = ["new"%string] ∧
  po_api_key <$> op_llm_providers run.1.1 = ["old"%string] ∧ run.1.2 = true.
Proof. vm_compute. split_and!; reflexivity. Qed.
