(* ===== verification/Config.v ===== *)
(** [config.py]: [load_options] and [save_options], with the file and the
    credential store as state. *)
From stdpp Require Import base gmap strings list pretty.
From Stdlib Require Import Ascii QArith Qround Lqa Sorted.
From S2P Require Import Prelude HttpRetry Json JsonText Models Options Credentials Validate Migrate.
Open Scope Z_scope.

(** * The file *)

(** [options_path()]: absent, unreadable ([OSError]), not UTF-8, or a text. *)
Inductive config_file := FileMissing | FileUnreadable | FileUndecodable | FileText (text : string).

(** The file, whether it can be replaced, the credential store, and the number
    of identifiers drawn so far. *)
Record config_state (env : Type) := ConfigState {
  cs_file : config_file;
  cs_writable : bool;
  cs_keyring : kstate env;
  cs_drawn : nat
}.
Arguments ConfigState {env}.
Arguments cs_file {env}.
Arguments cs_writable {env}.
Arguments cs_keyring {env}.
Arguments cs_drawn {env}.

(** What leaves [load_options] and [save_options]. *)
Inductive load_exn := LoadConfig (e : config_exn) | LoadOSError.

Section Files.
Context {env : Type} `{Keyring env} `{PyRepr} (sha256 : string → string) (uuid : nat → string) (float_repr : Q → string).
Implicit Types s : config_state env.

(** The attributes of [Options()]. *)
Definition default_raw (n : nat) : raw_options := raw_of (Options_default (fresh_provider_id uuid n)).

(** [_validate] in the state of the program *)
Definition validated (raw : raw_options) s : result load_exn Options * config_state env :=
  match _validate uuid raw (cs_drawn s) with
  | Ok (o, n) => (Ok o, ConfigState (cs_file s) (cs_writable s) (cs_keyring s) n)
  | Err e => (Err (LoadConfig e), s)
  end.

Definition validated_default s : result load_exn Options * config_state env :=
  let n := cs_drawn s in
  validated (default_raw n) (ConfigState (cs_file s) (cs_writable s) (cs_keyring s) (S n)).

Definition payload_text (payload : fields) : string := (json_dumps float_repr indented_style (JObject payload) +:+ newline)%string.

(** The file is replaced in one step, after the credential store took the
    secrets. *)
Definition save_options (o : Options) s : result load_exn Options * config_state env :=
  match validated (raw_of o) s with
  | (Err e, s) => (Err e, s)
  | (Ok o, s) =>
      let '(payload, ks) := secure_options_payload o (cs_keyring s) in
      if cs_writable s
      then (Ok o, ConfigState (FileText (payload_text payload)) true ks (cs_drawn s))
      else (Err LoadOSError, ConfigState (cs_file s) false ks (cs_drawn s))
  end.

(** [hydrate_credentials], and a save when [must_save] says so. *)
Definition hydrated (must_save : bool → bool) (o : Options) s : result load_exn Options * config_state env :=
  let '(o, migrated, ks) := hydrate_credentials o (cs_keyring s) in
  let s := ConfigState (cs_file s) (cs_writable s) ks (cs_drawn s) in
  if must_save migrated then save_options o s else (Ok o, s).

(** [Options(...)] of migrated JSON *)
Definition options_of_json (n : nat) (data : fields) : raw_options * nat :=
  let section (default : fields) name := _coerce_dataclass default (attr name data) in
  let '(providers, n) := _load_llm_providers uuid n (attr "llm_providers" data) in
  (RawOptions (section (LoggingOptions_asdict LoggingOptions_default) "logging")
     (section (NotifyOptions_asdict NotifyOptions_default) "notify")
     (section (ScanOptions_asdict ScanOptions_default) "scans")
     (section (PiHoleOptions_asdict PiHoleOptions_default) "pihole")
     (section (LLMOptions_asdict LLMOptions_default) "llm")
     (section (ResearchOptions_asdict ResearchOptions_default) "research")
     (section (UpdateOptions_asdict UpdateOptions_default) "updates")
     (section (ProviderRegistryOptions_asdict ProviderRegistryOptions_default) "provider_registry")
     (section (ExternalTriggerOptions_asdict ExternalTriggerOptions_default) "external_trigger")
     providers (_load_analysis_pools (attr "analysis_pools" data))
     (_load_list (attr "prompt_profiles" data) (PromptProfileOptions_asdict PromptProfileOptions_default)
        [PromptProfileOptions_asdict PromptProfileOptions_default])
     (_load_list (attr "research_providers" data) (ResearchProviderOptions_asdict ResearchProviderOptions_default)
        (ResearchProviderOptions_asdict <$> default_research_providers))
     (section (UIOptions_asdict UIOptions_default) "ui"), n)%string.

(** The exceptions that [load_options] turns into safe defaults *)
Definition recoverable (e : config_exn) : bool :=
  match e with ConfigAttributeError | ConfigTypeError | ConfigValueError => true | _ => false end.

Definition load_options s : result load_exn Options * config_state env :=
  match cs_file s with
  | FileMissing =>
      match validated_default s with
      | (Ok o, s) => hydrated (λ _, true) o s
      | failed => failed
      end
  | FileUnreadable => validated_default s
  | FileUndecodable => (Err (LoadConfig ConfigDecodeError), s)
  | FileText text =>
      match json_loads text with
      | Some (JObject raw) =>
          let n := cs_drawn s in
          let recover e s := if recoverable e then validated_default s else (Err (LoadConfig e), s) in
          match _migrate sha256 (fresh_provider_id uuid n) raw with
          | Err e => recover e s
          | Ok data =>
              let '(attributes, n) := options_of_json (S n) data in
              match validated attributes (ConfigState (cs_file s) (cs_writable s) (cs_keyring s) n) with
              | (Ok o, s) => hydrated id o s
              | (Err (LoadConfig e), s) => recover e s
              | failed => failed
              end
          end
      | _ => validated_default s
      end
  end.
End Files.

(** * New secrets in options *)

Section Owners.
Context {A : Type} (key_of : A → option string) (set : string → A → A).

(** What happens to an owner. *)
Definition resecured (secrets : list string) (a b : A) : Prop := b = a ∨ ∃ x, x ∈ secrets ∧ b = set x a.

Lemma give_resecured owners secrets : Forall2 (resecured secrets) owners (give_secrets key_of set owners secrets).1 ∧
  ∀ x, x ∈ (give_secrets key_of set owners secrets).2 → x ∈ secrets.
Proof.
  revert secrets. induction owners as [|a owners IH]; intros secrets; cbn [give_secrets]; [split; [constructor|done]|].
  assert (∀ secrets' b, (∀ x, x ∈ secrets' → x ∈ secrets) → resecured secrets a b →
    Forall2 (resecured secrets) (a :: owners) (b :: (give_secrets key_of set owners secrets').1) ∧
    ∀ x, x ∈ (give_secrets key_of set owners secrets').2 → x ∈ secrets) as Hstep.
  { intros secrets' b Hsub Hb. destruct (IH secrets') as [H1 H2]. split; [|intros x Hx; by apply Hsub, H2].
    constructor; [done|]. eapply Forall2_impl; [exact H1|]. intros c d [->|(x & Hx & ->)]; [by left|right; exists x; auto]. }
  destruct (key_of a) as [k|], secrets as [|x secrets];
    match goal with |- context [give_secrets key_of set owners ?l] =>
      specialize (Hstep l); destruct (give_secrets key_of set owners l) as [os rest] end;
    cbn [fst snd] in *; apply Hstep; try done; try (by left).
  - intros y Hy. by right.
  - right. exists x. split; [left|done].
Qed.
End Owners.

(** The parts of [with_secrets]. *)
Lemma with_secrets_parts password token secrets o : ∃ llm research,
  with_secrets (password :: token :: secrets) o =
    mkOptions (op_schema_version o) (op_logging o) (op_notify o) (op_scans o) (set_pihole_password password (op_pihole o))
      (op_llm o) (op_research o) (op_updates o) (op_provider_registry o) (set_trigger_token token (op_external_trigger o))
      llm (op_analysis_pools o) (op_prompt_profiles o) research (op_ui o) ∧
  Forall2 (resecured set_llm_key secrets) (op_llm_providers o) llm ∧
  Forall2 (resecured set_research_key secrets) (op_research_providers o) research.
Proof.
  cbn [with_secrets]. destruct (give_resecured llm_key set_llm_key (op_llm_providers o) secrets) as [H1 Hsub].
  destruct (give_secrets llm_key set_llm_key (op_llm_providers o) secrets) as [llm rest].
  destruct (give_resecured research_key set_research_key (op_research_providers o) rest) as [H2 _].
  destruct (give_secrets research_key set_research_key (op_research_providers o) rest) as [research rest'].
  cbn [fst snd] in *. exists llm, research. split_and!; [done|done|]. eapply Forall2_impl; [exact H2|].
  intros a b [->|(x & Hx & ->)]; [by left|right; exists x; auto].
Qed.

Lemma resecured_map {A B} (set : string → A → A) secrets (f : A → B) l1 l2 : (∀ x a, f (set x a) = f a) →
  Forall2 (resecured set secrets) l1 l2 → f <$> l2 = f <$> l1.
Proof. intros Hf. induction 1 as [|a b l1 l2 [->|(x & _ & ->)] _ IH]; [done|..]; cbn [fmap list_fmap]; rewrite ?Hf; by f_equal. Qed.

Lemma resecured_forall {A} (set : string → A → A) secrets (P : A → Prop) l1 l2 : (∀ x a, x ∈ secrets → P a → P (set x a)) →
  Forall2 (resecured set secrets) l1 l2 → Forall P l1 → Forall P l2.
Proof.
  intros Hset. induction 1 as [|a b l1 l2 Hab _ IH]; intros Hl; [done|]. apply Forall_cons in Hl as [Ha Hl].
  apply Forall_cons. split; [destruct Hab as [->|(x & Hx & ->)]; auto|auto].
Qed.

Lemma with_secrets_ok secrets o : options_ok o → options_ok (with_secrets secrets o).
Proof.
  intros Ho. destruct secrets as [|password [|token secrets]]; [done|done|].
  destruct (with_secrets_parts password token secrets o) as (llm & research & -> & Hllm & Hresearch).
  pose proof (resecured_map set_llm_key secrets po_provider_id _ _ (λ _ _, eq_refl) Hllm) as Hids.
  pose proof (resecured_map set_research_key secrets sr_kind _ _ (λ _ _, eq_refl) Hresearch) as Hkinds.
  pose proof (Forall2_length _ _ _ Hllm) as Hlen.
  pose proof (ok_providers _ Ho) as [Hp1 Hp2]. pose proof (ok_sources _ Ho) as [Hs1 Hs2].
  destruct Ho; split; cbn [op_schema_version op_logging op_notify op_scans op_pihole op_llm op_research op_updates
    op_provider_registry op_external_trigger op_llm_providers op_analysis_pools op_prompt_profiles op_research_providers op_ui];
    rewrite ?Hids, ?Hkinds, <-?Hlen; try done.
  - split; [|done]. eapply resecured_forall; [|exact Hllm|exact Hp1]. intros x p _ []. by split.
  - split; [|done]. eapply resecured_forall; [|exact Hresearch|exact Hs1]. intros x r _ []. by split.
Qed.

(** * What [load_options] may do *)

Section Loading.
Context {env : Type} `{Keyring env} `{PyRepr} (sha256 : string → string) (uuid : nat → string) (float_repr : Q → string).
Context (Huuid : proper_uuid uuid).
Implicit Types s : config_state env.

(** The identifiers drawn from now on are not those of the file. *)
Definition identifiers_new s : Prop :=
  match cs_file s with
  | FileText text =>
      match json_loads text with
      | Some (JObject raw) =>
          match _migrate sha256 (fresh_provider_id uuid (cs_drawn s)) raw with
          | Ok data => let '(attributes, n) := options_of_json uuid (S (cs_drawn s)) data in unused_from uuid n attributes
          | Err _ => True
          end
      | _ => True
      end
  | _ => True
  end.

(** A configuration error and the reason for it. *)
Definition config_error s (e : config_exn) : Prop :=
  match cs_file s with
  | FileUndecodable => e = ConfigDecodeError
  | FileText text => ∃ raw, json_loads text = Some (JObject raw) ∧
      (e = ConfigOverflowError ∨
       ∃ version, e = UnsupportedConfigVersionError version ∧ source_version raw = Ok version ∧ CURRENT_SCHEMA_VERSION < version)
  | _ => False
  end.

Definition outcome_ok s (r : result load_exn Options * config_state env) : Prop :=
  match r.1 with
  | Ok o => options_ok o
  | Err LoadOSError => cs_writable s = false ∧ cs_file r.2 = cs_file s
  | Err (LoadConfig e) => config_error s e ∧ cs_file r.2 = cs_file s
  end.

Lemma validated_ok raw s o n : _validate uuid raw (cs_drawn s) = Ok (o, n) →
  validated uuid raw s = (Ok o, ConfigState (cs_file s) (cs_writable s) (cs_keyring s) n).
Proof. unfold validated. by intros ->. Qed.

Lemma default_unused n : unused_from uuid (S n) (default_raw uuid n).
Proof.
  destruct Huuid as [Hinj Hstrip]. intros f m ->%list_elem_of_singleton Hm.
  change (str_strip (str_or (fresh_provider_id uuid n) "") = fresh_provider_id uuid m) in Hm.
  change (str_or (fresh_provider_id uuid n) "") with (fresh_provider_id uuid n) in Hm. rewrite Hstrip in Hm.
  injection Hm as Hm%Hinj. lia.
Qed.

Lemma default_ui_ok : ui_ok UIOptions_default.
Proof. apply (validate_ui_ok (UIOptions_asdict UIOptions_default)). vm_compute. reflexivity. Qed.

(** The defaults always validate. *)
Lemma validated_default_ok s : ∃ o n, validated_default uuid s = (Ok o, ConfigState (cs_file s) (cs_writable s) (cs_keyring s) n) ∧
  options_ok o ∧ unused_from uuid n (raw_of o).
Proof.
  set (n := cs_drawn s). destruct (raw_of_validates uuid (Options_default (fresh_provider_id uuid n)) (S n) default_ui_ok) as [[o m] Ho].
  exists o, m. pose proof (default_unused n) as Hn. split_and!.
  - unfold validated_default. fold n. cbv zeta. by rewrite (validated_ok (default_raw uuid n) _ o m).
  - by eapply validated_are_ok.
  - by eapply validated_unused.
Qed.

Lemma save_outcome o s : options_ok o → unused_from uuid (cs_drawn s) (raw_of o) →
  match (save_options uuid float_repr o s).1 with
  | Ok o => options_ok o
  | Err e => e = LoadOSError ∧ cs_writable s = false ∧ cs_file (save_options uuid float_repr o s).2 = cs_file s
  end.
Proof.
  intros Ho Hn. destruct (raw_of_validates uuid o (cs_drawn s) (ok_ui _ Ho)) as [[o' m] Hv]. unfold save_options.
  rewrite (validated_ok _ _ _ _ Hv). cbn [cs_keyring cs_writable cs_file cs_drawn].
  destruct (secure_options_payload o' (cs_keyring s)) as [payload ks]. destruct (cs_writable s); cbn [fst snd cs_file]; [|done].
  by eapply validated_are_ok.
Qed.

Lemma with_secrets_unused secrets o n : unused_from uuid n (raw_of o) → unused_from uuid n (raw_of (with_secrets secrets o)).
Proof.
  destruct secrets as [|password [|token secrets]]; [done|done|]. intros Hn.
  destruct (with_secrets_parts password token secrets o) as (llm & research & -> & Hllm & _).
  intros f k (p & -> & Hp)%list_elem_of_fmap Hk. cbn [op_llm_providers] in Hp.
  apply list_elem_of_lookup in Hp as [i Hp]. destruct (Forall2_lookup_r _ _ _ _ _ Hllm Hp) as (q & Hq & Hpq).
  apply (Hn (LLMProviderOptions_asdict q) k); [apply list_elem_of_fmap; exists q; split; [done|by eapply list_elem_of_lookup_2]|].
  by destruct Hpq as [->|(x & _ & ->)].
Qed.

Lemma hydrated_outcome must_save o s : options_ok o → unused_from uuid (cs_drawn s) (raw_of o) →
  outcome_ok s (hydrated uuid float_repr must_save o s).
Proof.
  intros Ho Hn. unfold hydrated, hydrate_credentials.
  destruct (hydrate_slots (_credential_slots o) (cs_keyring s)) as [[values migrated] ks].
  apply (with_secrets_ok values) in Ho. apply (with_secrets_unused values) in Hn.
  destruct (must_save migrated); [|done]. unfold outcome_ok.
  pose proof (save_outcome (with_secrets values o) (ConfigState (cs_file s) (cs_writable s) ks (cs_drawn s)) Ho Hn) as Hs.
  destruct (save_options _ _ _ _) as [[o'|[e|]] s']; cbn [fst snd] in *; [done|by destruct Hs|by destruct Hs].
Qed.

Lemma outcome_default s : outcome_ok s (validated_default uuid s).
Proof. destruct (validated_default_ok s) as (o & n & -> & Ho & _). done. Qed.

Lemma list_error {A B} (validate : A → result config_exn B) l e : (∀ x e, validate x = Err e → e = ConfigTypeError) →
  all_ok validate l = Err e → e = ConfigTypeError.
Proof.
  intros Hv. induction l as [|x l IH]; cbn [all_ok]; [done|]. destruct (validate x) as [y|e'] eqn:E; cbn [mbind result_bind].
  - destruct (all_ok validate l); cbn [mbind result_bind]; [done|]. intros [= ->]. by apply IH.
  - intros [= ->]. by eapply Hv.
Qed.

Lemma iter_error v e : iter_or_empty v = Err e → e = ConfigTypeError.
Proof. unfold iter_or_empty, py_iter. destruct (json_or v (JArray [])); congruence. Qed.

Lemma bind_Err {E A B} (m : result E A) (k : A → result E B) e :
  (m ≫= k) = Err e → m = Err e ∨ ∃ a, m = Ok a ∧ k a = Err e.
Proof. destruct m as [a|e']; cbn [mbind result_bind]; [right; eauto|intros [= ->]; by left]. Qed.

(** The errors of [_migrate]: one for the version, a value that cannot be
    iterated, an integer that overflows. *)
Lemma migrate_error fresh raw e : _migrate sha256 fresh raw = Err e →
  e = ConfigOverflowError ∨ e = ConfigTypeError ∨
  ∃ version, e = UnsupportedConfigVersionError version ∧ source_version raw = Ok version ∧ CURRENT_SCHEMA_VERSION < version.
Proof.
  unfold _migrate. intros [Hv|(version & Hversion & Hr)]%bind_Err.
  { unfold source_version in Hv. left. destruct (py_int_of _) as [|[]]; congruence. }
  destruct (CURRENT_SCHEMA_VERSION <? version) eqn:E; bool_cmp; [injection Hr as <-; right; right; eauto|].
  cbv zeta in Hr. assert (∀ name f e, migrate_columns name f = Err e → e = ConfigTypeError) as Hcolumns.
  { intros name f e' [He|(? & _ & [=])]%bind_Err. by eapply iter_error. }
  assert (∀ name f e, int_attr name f 0 = Err e → e = ConfigOverflowError) as Hint by (intros name f e'; apply overflow_int).
  apply bind_Err in Hr as [Hr|(ui & _ & Hr)].
  { right; left. unfold migrate_ui in Hr. cbv zeta in Hr. apply bind_Err in Hr as [Hr|(? & _ & Hr)]; by eapply Hcolumns. }
  apply bind_Err in Hr as [Hr|(data & _ & Hr)].
  { right; left. apply bind_Err in Hr as [Hr|(? & _ & [=])]. by eapply iter_error. }
  apply bind_Err in Hr as [Hr|(data' & _ & Hr)].
  { right; left. apply bind_Err in Hr as [Hr|(? & _ & [=])]. by eapply iter_error. }
  apply bind_Err in Hr as [Hr|(ps & _ & Hr)]; [right; left; by eapply iter_error|].
  apply bind_Err in Hr as [Hr|(i & _ & Hr)]; [left; by eapply Hint|].
  apply bind_Err in Hr as [Hr|(j & _ & Hr)]; [left; by eapply Hint|].
  apply bind_Err in Hr as [Hr|(pools & _ & [=])]. right; left. apply bind_Err in Hr as [Hr|(? & _ & [=])].
  eapply list_error; [|exact Hr]. intros f e' [He|(? & _ & [=])]%bind_Err. by eapply iter_error.
Qed.

Lemma load_outcome s : identifiers_new s → outcome_ok s (load_options sha256 uuid float_repr s).
Proof.
  intros Hnew. unfold load_options. destruct (cs_file s) as [| | |text] eqn:Ef.
  - destruct (validated_default_ok s) as (o & n & -> & Ho & Hn). rewrite Ef.
    pose proof (hydrated_outcome (λ _, true) o (ConfigState FileMissing (cs_writable s) (cs_keyring s) n) Ho Hn) as Hh.
    unfold outcome_ok, config_error in *. rewrite Ef. exact Hh.
  - apply outcome_default.
  - unfold outcome_ok, config_error. cbn [fst snd]. by rewrite Ef.
  - destruct (json_loads text) as [[| | | | | |raw]|] eqn:Ej;
      lazymatch goal with |- outcome_ok _ (validated_default _ _) => apply outcome_default | _ => idtac end.
    unfold identifiers_new in Hnew. rewrite Ef, Ej in Hnew.
    assert (∀ e, recoverable e = false → config_error s e → outcome_ok s (Err (LoadConfig e), s)) as Hraise by done.
    destruct (_migrate sha256 (fresh_provider_id uuid (cs_drawn s)) raw) as [data|e] eqn:Em.
    + destruct (options_of_json uuid (S (cs_drawn s)) data) as [attributes n]. unfold validated. cbn [cs_drawn cs_file cs_writable cs_keyring].
      destruct (_validate uuid attributes n) as [[o m]|e] eqn:Ev.
      * pose proof (hydrated_outcome id o (ConfigState (FileText text) (cs_writable s) (cs_keyring s) m)) as Hh.
        unfold outcome_ok, config_error in *. rewrite Ef in *. apply Hh; [by eapply validated_are_ok|by eapply validated_unused].
      * apply validate_overflow in Ev as ->. cbn [recoverable]. unfold outcome_ok, config_error. cbn [fst snd cs_file].
        rewrite Ef. split; [|done]. exists raw. split; [done|by left].
    + destruct (recoverable e) eqn:Er; [apply outcome_default|]. apply Hraise; [done|]. unfold config_error. rewrite Ef.
      exists raw. split; [done|]. apply migrate_error in Em as [->|[->|Hversion]]; [by left|done|by right].
Qed.
End Loading.

(** * Saving and loading *)

(** ** Validation and new secrets *)

Section Resecured.
Context `{PyRepr} (uuid : nat → string).

Lemma str_or_blank (x : string) : str_or x "" = x.
Proof. by destruct x. Qed.

Lemma resecured_pihole x o : validate_pihole (PiHoleOptions_asdict o) = Ok o →
  validate_pihole (PiHoleOptions_asdict (set_pihole_password x o)) = Ok (set_pihole_password x o).
Proof.
  intros Ho. transitivity (q ← validate_pihole (PiHoleOptions_asdict o); Ok (set_pihole_password x q) : result config_exn PiHoleOptions);
    [by destruct x|by rewrite Ho].
Qed.

Lemma resecured_trigger x o : validate_external_trigger (ExternalTriggerOptions_asdict o) = Ok o →
  validate_external_trigger (ExternalTriggerOptions_asdict (set_trigger_token x o)) = Ok (set_trigger_token x o).
Proof.
  intros Ho. transitivity (q ← validate_external_trigger (ExternalTriggerOptions_asdict o);
    Ok (set_trigger_token x q) : result config_exn ExternalTriggerOptions); [by destruct x|by rewrite Ho].
Qed.

Lemma resecured_provider id x p : str_strip x = x → validate_provider id (LLMProviderOptions_asdict p) = Ok p →
  validate_provider id (LLMProviderOptions_asdict (set_llm_key x p)) = Ok (set_llm_key x p).
Proof.
  intros Hx Hp. transitivity (q ← validate_provider id (LLMProviderOptions_asdict p);
    Ok (set_llm_key (str_strip (str_or x "")) q) : result config_exn LLMProviderOptions); [reflexivity|].
  rewrite Hp, str_or_blank, Hx. done.
Qed.

Lemma resecured_source x r : str_strip x = x → validate_source (ResearchProviderOptions_asdict r) = Ok r →
  validate_source (ResearchProviderOptions_asdict (set_research_key x r)) = Ok (set_research_key x r).
Proof.
  intros Hx Hr. transitivity (q ← validate_source (ResearchProviderOptions_asdict r);
    Ok (set_research_key (str_strip (str_or x "")) q) : result config_exn ResearchProviderOptions); [reflexivity|].
  rewrite Hr, str_or_blank, Hx. done.
Qed.

Lemma resecured_providers secrets ps qs : Forall (λ x, str_strip x = x) secrets → Forall2 (resecured set_llm_key secrets) ps qs →
  ∀ n used, validate_providers uuid n used (LLMProviderOptions_asdict <$> ps) = Ok (ps, n) →
  validate_providers uuid n used (LLMProviderOptions_asdict <$> qs) = Ok (qs, n).
Proof.
  intros Hsecrets. rewrite Forall_forall in Hsecrets.
  induction 1 as [|p q ps qs Hpq _ IH]; intros n used Hps; [done|]. cbn [fmap list_fmap validate_providers] in *. cbv zeta in *.
  apply bind_Ok in Hps as (p' & Hp & Hps). apply bind_Ok in Hps as ([rest m] & Hrest & Heq).
  apply Ok_inj, pair_equal_spec in Heq as [Heq Hm]. cbn [fst snd] in *. injection Heq as -> ->. subst m.
  assert (stripped_attr "provider_id" "" (LLMProviderOptions_asdict q) = stripped_attr "provider_id" "" (LLMProviderOptions_asdict p)) as ->
    by by destruct Hpq as [->|(x & _ & ->)].
  destruct (negb _ || _) eqn:E; [apply providers_counter in Hrest as [Hle _]; lia|].
  assert (validate_provider (stripped_attr "provider_id" "" (LLMProviderOptions_asdict p)) (LLMProviderOptions_asdict q) = Ok q) as ->
    by (destruct Hpq as [->|(x & Hx & ->)]; [done|apply resecured_provider; auto]).
  cbn [mbind result_bind]. by rewrite (IH _ _ Hrest).
Qed.

(** Sources of supported kinds that cover all the kinds are all kept. *)
Lemma all_sources rs : Forall source_ok rs → (∀ kind, kind ∈ supported_research_kinds → kind ∈ (sr_kind <$> rs)) →
  with_default_sources (ResearchProviderOptions_asdict <$> rs) = ResearchProviderOptions_asdict <$> rs.
Proof.
  intros Hall Hcover. unfold with_default_sources. rewrite Forall_forall in Hall.
  assert (∀ r, r ∈ rs → choice_attr "kind" (ResearchProviderOptions_asdict r) = sr_kind r) as Hkind.
  { intros r Hr. change (str_lower (str_strip (sr_kind r)) = sr_kind r). by apply supported_kind_clean, source_kind, Hall. }
  rewrite (filter_all (λ f, choice_attr "kind" f ∈ supported_research_kinds)).
  2: { intros f (r & -> & Hr)%list_elem_of_fmap. rewrite Hkind by done. by apply source_kind, Hall. }
  assert (filter (λ d, sr_kind d ∉ choice_attr "kind" <$> (ResearchProviderOptions_asdict <$> rs)) default_research_providers = []) as ->;
    [|cbn [fmap list_fmap]; by rewrite app_nil_r].
  apply elem_of_nil_inv. intros d [Hn Hd]%list_elem_of_filter. apply Hn.
  assert (sr_kind d ∈ supported_research_kinds) as Hs.
  { revert d Hd Hn. intros d Hd _. revert d Hd. apply Forall_forall.
    repeat (apply Forall_cons; split; [apply (bool_decide_unpack _); exact I|]). apply Forall_nil_2. }
  apply Hcover in Hs. apply list_elem_of_fmap in Hs as (r & -> & Hr). rewrite <-list_fmap_compose.
  apply list_elem_of_fmap. exists r. split; [|done]. symmetry. by apply Hkind.
Qed.

Lemma all_ok_map {A B} (f : A → B) (validate : B → result config_exn A) l :
  all_ok validate (f <$> l) = Ok l ↔ Forall (λ a, validate (f a) = Ok a) l.
Proof.
  induction l as [|a l IH]; [split; [intros; apply Forall_nil_2|done]|]. rewrite fmap_cons. cbn [all_ok].
  rewrite Forall_cons, <-IH. split.
  - intros (b & Hb & (r & Hr & Heq)%bind_Ok)%bind_Ok. by injection Heq as -> ->.
  - intros [-> Hl]. cbn [mbind result_bind]. by rewrite Hl.
Qed.

Lemma resecured_settled password token secrets o : settled uuid o → Forall (λ x, str_strip x = x) secrets →
  settled uuid (with_secrets (password :: token :: secrets) o).
Proof.
  intros Ho Hsecrets. destruct (with_secrets_parts password token secrets o) as (llm & research & -> & Hllm & Hresearch).
  pose proof (resecured_map set_llm_key secrets po_provider_id _ _ (λ _ _, eq_refl) Hllm) as Hids.
  pose proof (resecured_map set_research_key secrets sr_kind _ _ (λ _ _, eq_refl) Hresearch) as Hkinds.
  pose proof (Forall2_length _ _ _ Hllm) as Hlen.
  destruct (sources_ok _ _ (st_sources _ _ Ho)) as [Hs1 Hs2]. pose proof (st_sources _ _ Ho) as Hs.
  rewrite all_sources in Hs by done. rewrite all_ok_map in Hs.
  destruct (st_providers _ _ Ho) as [Hne Hps].
  destruct Ho; split; cbn [op_schema_version op_logging op_notify op_scans op_pihole op_llm op_research op_updates
    op_provider_registry op_external_trigger op_llm_providers op_analysis_pools op_prompt_profiles op_research_providers op_ui];
    rewrite ?Hids, <-?Hlen; try done.
  - by apply resecured_trigger.
  - by apply resecured_pihole.
  - split; [intros ->; by destruct (op_llm_providers o)|]. intros n. by eapply resecured_providers.
  - rewrite all_sources, all_ok_map.
    + clear Hs1 Hs2 Hkinds. rewrite Forall_forall in Hsecrets. eapply resecured_forall; [|exact Hresearch|exact Hs].
      intros x r Hx Hr. apply resecured_source; auto.
    + eapply resecured_forall; [|exact Hresearch|exact Hs1]. intros x r _ []. by split.
    + by rewrite Hkinds.
Qed.
End Resecured.

(** ** Migration of a saved configuration *)

Section Saved.
Context `{PyRepr} (uuid : nat → string).

(** What a load would change: an old default prompt becomes the new one, and the
    review table shows its first columns again. *)
Definition kept_by_migration (o : Options) : Prop :=
  Forall (λ p, str_strip (pf_system p) ∉ known_default_systems) (op_prompt_profiles o) ∧
  ∃ columns, attr "review" (ui_table_visible_columns (op_ui o)) = columns_json columns ∧
    "order"%string ∈ columns ∧ "queued"%string ∈ columns.

Lemma has_text_columns c columns : c ∈ columns → has_text c (JString <$> columns) = true.
Proof.
  unfold has_text. intros Hc. apply existsb_exists. exists (JString c). split; [|apply String.eqb_refl].
  apply list_elem_of_In, list_elem_of_fmap. eauto.
Qed.

Lemma columns_kept name ui columns f : dict_get name ui = Some (JObject f) → dict_get "review" f = Some (columns_json columns) →
  "order"%string ∈ columns → "queued"%string ∈ columns → migrate_columns name ui = Ok ui.
Proof.
  intros Hui Hf Ho Hq. unfold migrate_columns. rewrite (attr_get _ _ _ Hui). unfold _mapping. cbn [is_object from_option id].
  rewrite (attr_get _ _ _ Hf). unfold columns_json. rewrite iter_array. cbn [mbind result_bind].
  assert (foldl insert_column (JString <$> columns) review_columns = JString <$> columns) as ->.
  { unfold review_columns. cbn [foldl]. unfold insert_column at 2. rewrite has_text_columns by done.
    unfold insert_column. by rewrite has_text_columns. }
  destruct (JString <$> columns) as [|v l] eqn:E; [by destruct columns; [apply elem_of_nil in Ho|]|].
  rewrite (dict_set_same "review") by (unfold columns_json in Hf; by rewrite Hf, E). by rewrite dict_set_same.
Qed.

Lemma saved_pihole o : validate_pihole (PiHoleOptions_asdict o) = Ok o →
  migrate_pihole (PiHoleOptions_asdict o) = PiHoleOptions_asdict o.
Proof.
  intros Ho. destruct o as [base password ca timeout].
  assert (str_or base (ph_base_url PiHoleOptions_default) = base ∧ str_strip (str_or ca "") = ca) as [Hbase Hca].
  { split; [exact (f_equal ph_base_url (Ok_inj _ _ Ho))|exact (f_equal ph_ca_bundle_path (Ok_inj _ _ Ho))]. }
  destruct base as [|c base]; [done|]. destruct password as [|d password].
  all: change (migrate_pihole (PiHoleOptions_asdict (mkPiHoleOptions (String c base) ?p ca timeout)))
    with (PiHoleOptions_asdict (mkPiHoleOptions (String c base) p (str_strip (str_or ca "")) timeout)); by rewrite Hca.
Qed.

Lemma saved_logging o : validate_logging (LoggingOptions_asdict o) = Ok o →
  migrate_logging (LoggingOptions_asdict o) = LoggingOptions_asdict o.
Proof.
  intros Ho. destruct o as [enabled level filename bytes count].
  assert (str_or filename "pihole_manager.log" = filename) as Hname by exact (f_equal lg_filename (Ok_inj _ _ Ho)).
  by destruct filename.
Qed.

Lemma set_truthy_null name f : set_truthy name (json_or (attr name f) JNull) f = f.
Proof.
  unfold set_truthy, json_or. destruct (py_truthy (attr name f)) eqn:E; [|done]. rewrite E.
  destruct (truthy_present _ _ E) as [v Hv]. by rewrite (attr_get _ _ _ Hv), dict_set_same.
Qed.

Lemma saved_llm o : migrate_llm (LLMOptions_asdict o) = LLMOptions_asdict o.
Proof.
  destruct o. unfold migrate_llm. cbn [first_truthy first_present foldr].
  match goal with |- context [LLMOptions_asdict ?o] => set (f := LLMOptions_asdict o) end.
  change (match dict_get "profile_active_index" f, dict_get "active_profile_index" f with
          | Some v, None => dict_set "active_profile_index" v f | _, _ => f end) with f.
  rewrite (dict_set_same "worker_batch_size") by reflexivity. change (attr "categories" f) with JNull.
  rewrite set_truthy_null. change (attr "category_policies" f) with JNull. rewrite set_truthy_null. reflexivity.
Qed.

Lemma saved_ui o columns : ui_ok o → attr "review" (ui_table_visible_columns o) = columns_json columns →
  "order"%string ∈ columns → "queued"%string ∈ columns → migrate_ui (UIOptions_asdict o) = Ok (UIOptions_asdict o).
Proof.
  intros [_ _ Htables _] Hcols Ho Hq. rewrite Forall_forall in Htables.
  destruct (Htables "review"%string) as [(shown & Hshown & _) _ (order & Horder & Hperm)]; [do 3 right; left|].
  unfold migrate_ui. cbv zeta.
  match goal with |- (_ ← migrate_columns _ ?f; _) = _ => change f with (UIOptions_asdict o) end.
  rewrite (columns_kept "table_visible_columns" _ columns (ui_table_visible_columns o)); [|done| |done|done].
  2: { unfold attr in Hcols. rewrite Hshown in Hcols. cbn [from_option id] in Hcols. by rewrite Hshown, Hcols. }
  cbn [mbind result_bind].
  apply (columns_kept "table_column_order" _ order (ui_table_column_order o)); [done|done|..]; rewrite Hperm;
    apply (bool_decide_unpack _); vm_compute; exact I.
Qed.

Lemma provider_text p : stripped_attr "provider_id" "" (LLMProviderOptions_asdict p) = str_strip (po_provider_id p).
Proof. change (str_strip (str_or (po_provider_id p) "") = str_strip (po_provider_id p)). by destruct (po_provider_id p). Qed.

Lemma saved_providers ps : ∀ n used, validate_providers uuid n used (LLMProviderOptions_asdict <$> ps) = Ok (ps, n) →
  settled_providers used (LLMProviderOptions_asdict <$> ps).
Proof.
  induction ps as [|p ps IH]; intros n used Hps; [done|]. cbn [fmap list_fmap validate_providers settled_providers] in *.
  cbv zeta in Hps. apply bind_Ok in Hps as (q & Hq & Hps). apply bind_Ok in Hps as ([rest m] & Hrest & Heq).
  apply Ok_inj, pair_equal_spec in Heq as [Heq Hm]. cbn [fst snd] in *. injection Heq as -> ->. subst m.
  destruct (negb _ || _) eqn:E; [apply providers_counter in Hrest as [Hle _]; lia|].
  rewrite provider_text in Hq, Hrest, E.
  assert (po_provider_id p = str_strip (po_provider_id p)) as Hid by (unfold validate_provider in Hq; apply (f_equal (λ r, match r with Ok p => po_provider_id p | Err _ => ""%string end)) in Hq; exact (eq_sym Hq)).
  rewrite <-Hid in *. apply orb_false_iff in E as [E1 E2]. bool_cmp. exists (po_provider_id p). split_and!.
  - split_and!; [done| |done]. intros Hc. by rewrite Hc in E1.
  - split_and!; [done| |].
    + apply Forall_forall. repeat (apply Forall_cons; split; [by eexists|]). apply Forall_nil_2.
    + eexists. split; [reflexivity|]. apply Forall_forall. repeat (apply Forall_cons; split; [by eexists|]). apply Forall_nil_2.
  - by apply (IH n).
Qed.

Lemma saved_pool ids profiles p : Forall (λ id, str_strip id = id) ids → pool_ok ids profiles p →
  migrate_pool ids (AnalysisPoolOptions_asdict p) = Ok (AnalysisPoolOptions_asdict p).
Proof.
  intros Hids [_ _ _ _ (_ & _ & Hms)]. unfold migrate_pool.
  change (attr "memberships" (AnalysisPoolOptions_asdict p)) with (objects ProviderPoolMembershipOptions_asdict (ap_memberships p)).
  unfold objects. rewrite iter_array. cbn [mbind result_bind]. rewrite omap_objects, filter_all.
  - rewrite dict_set_same; [done|]. rewrite <-list_fmap_compose. reflexivity.
  - rewrite Forall_forall in Hids. rewrite Forall_forall in Hms. intros f (m & -> & Hm)%list_elem_of_fmap. pose proof (membership_known _ _ (Hms m Hm)) as Hk.
    rewrite (stripped_text _ (mb_provider_id m)) by done. by rewrite (Hids _ Hk).
Qed.

Lemma saved_migrated o : settled uuid o → options_ok o → kept_by_migration o → migrated (Options_asdict o).
Proof.
  intros Ho Hok [Hprofiles (columns & Hcols & Horder & Hqueued)].
  destruct (st_providers _ _ Ho) as [Hne Hps]. pose proof (saved_providers _ _ _ (Hps 0%nat)) as Hset.
  destruct (settled_provider_ids _ _ Hset) as [_ Hids].
  assert (provider_id_of <$> (LLMProviderOptions_asdict <$> op_llm_providers o) = po_provider_id <$> op_llm_providers o) as Eids
    by (rewrite <-list_fmap_compose; reflexivity).
  split.
  - change (Some (JInt (op_schema_version o)) = Some (JInt CURRENT_SCHEMA_VERSION)). by rewrite (st_version _ _ Ho).
  - reflexivity.
  - eexists. split; [reflexivity|]. by apply saved_pihole, (st_pihole uuid).
  - eexists. split; [reflexivity|]. by apply saved_logging, (st_logging uuid).
  - eexists. split; reflexivity.
  - eexists _, _, _. split; [reflexivity|]. split_and!; [apply saved_llm|reflexivity|reflexivity].
  - eexists. split; [reflexivity|]. by eapply saved_ui; [apply ok_ui|..].
  - eexists. split; reflexivity.
  - eexists. split; reflexivity.
  - eexists. split; [reflexivity|split; reflexivity].
  - unfold migrate_profiles. change (attr "prompt_profiles" (Options_asdict o))
      with (objects PromptProfileOptions_asdict (op_prompt_profiles o)).
    unfold objects. rewrite iter_array. cbn [mbind result_bind]. rewrite omap_objects, <-list_fmap_compose.
    assert (migrate_profile ∘ PromptProfileOptions_asdict <$> op_prompt_profiles o =
            PromptProfileOptions_asdict <$> op_prompt_profiles o) as ->.
    { apply list_fmap_ext. intros i p Hp. rewrite Forall_forall in Hprofiles.
      specialize (Hprofiles p (list_elem_of_lookup_2 _ _ _ Hp)). unfold compose, migrate_profile.
      rewrite (stripped_text "system" (pf_system p)), bool_decide_false, andb_false_r by done. done. }
    destruct (PromptProfileOptions_asdict <$> op_prompt_profiles o) as [|f l] eqn:El.
    { destruct (st_profiles _ _ Ho) as [Hn _]. by destruct (op_prompt_profiles o). }
    rewrite <-El, dict_set_same; [done|]. rewrite <-list_fmap_compose. reflexivity.
  - destruct (ok_sources _ Hok) as [Hs1 Hs2]. rewrite Forall_forall in Hs1.
    apply (migrate_sources_same _ (ResearchProviderOptions_asdict <$> op_research_providers o)).
    + rewrite <-list_fmap_compose. reflexivity.
    + apply Forall_forall. intros f (r & -> & Hr)%list_elem_of_fmap. pose proof (source_kind _ (Hs1 r Hr)) as Hk.
      unfold migrate_source. rewrite (stripped_text _ (sr_kind r)), supported_kind_clean by done.
      by rewrite bool_decide_true, dict_set_same.
    + intros d Hd. rewrite default_source_kinds. apply Hs2. revert d Hd. apply Forall_forall.
      repeat (apply Forall_cons; split; [apply (bool_decide_unpack _); exact I|]). apply Forall_nil_2.
  - exists (LLMProviderOptions_asdict <$> op_llm_providers o), (AnalysisPoolOptions_asdict <$> op_analysis_pools o).
    rewrite <-!list_fmap_compose. split_and!; [reflexivity| |done|reflexivity|].
    { by destruct (op_llm_providers o). }
    rewrite Eids in *. destruct (ok_pools _ Hok) as [Hpid Hpools]. split.
    + rewrite Forall_forall in Hpools. apply Forall_forall. intros f (p & -> & Hp)%list_elem_of_fmap.
      eapply saved_pool; [|by apply Hpools]. eapply Forall_impl; [exact Hids|]. by intros id (_ & _ & Hid).
    + intros id Hid. rewrite <-list_fmap_compose, <-Hpid in *. apply list_elem_of_fmap in Hid as (p & -> & Hp).
      apply list_elem_of_fmap. exists p. split; [|done]. unfold compose. rewrite (stripped_text _ (ap_pool_id p)) by done.
      assert (ap_pool_id p ∈ pool_ids) as Hin by (rewrite <-Hpid; apply list_elem_of_fmap; eauto).
      revert Hin. generalize (ap_pool_id p). apply Forall_forall. repeat (apply Forall_cons; split; [reflexivity|]). apply Forall_nil_2.
Qed.
End Saved.

(** ** Reading a saved configuration *)

Section RoundTrip.
Context {env : Type} `{Keyring env} `{!KeyringLaws env} `{PyRepr}.
Context (sha256 : string → string) (uuid : nat → string) (float_repr : Q → string).

Implicit Types s : config_state env.

Lemma coerced_providers ps : ∀ n, ps ≠ [] → ∃ m,
  _load_llm_providers uuid n (objects LLMProviderOptions_asdict ps) = (LLMProviderOptions_asdict <$> ps, m).
Proof.
  intros n Hne. unfold _load_llm_providers, objects. rewrite omap_objects.
  assert (∀ n, ∃ m, coerce_providers uuid n (LLMProviderOptions_asdict <$> ps) = (LLMProviderOptions_asdict <$> ps, m)) as Hall.
  { clear Hne. induction ps as [|p ps IH]; intros k; [by eexists|]. rewrite fmap_cons. cbn [coerce_providers].
    destruct (IH (S k)) as [m ->]. by eexists. }
  destruct (Hall n) as [m ->]. destruct ps; [done|]. by eexists.
Qed.

Lemma coerced_list {A} (asdict : A → fields) defaults fallback l :
  (∀ a, _coerce_dataclass defaults (JObject (asdict a)) = asdict a) → l ≠ [] →
  _load_list (objects asdict l) defaults fallback = asdict <$> l.
Proof.
  intros Ha Hne. unfold _load_list, objects. rewrite omap_objects, <-list_fmap_compose.
  rewrite (list_fmap_ext _ asdict l) by (intros i a _; apply Ha). by destruct l.
Qed.

Lemma coerced_pools aps : _load_analysis_pools (objects AnalysisPoolOptions_asdict aps) = AnalysisPoolOptions_asdict <$> aps.
Proof.
  unfold _load_analysis_pools, objects. rewrite omap_objects, <-list_fmap_compose. apply list_fmap_ext. intros i a _.
  unfold compose, coerce_pool.
  change (attr "memberships" (AnalysisPoolOptions_asdict a)) with (objects ProviderPoolMembershipOptions_asdict (ap_memberships a)).
  assert (_load_list (objects ProviderPoolMembershipOptions_asdict (ap_memberships a))
    (ProviderPoolMembershipOptions_asdict ProviderPoolMembershipOptions_default) [] =
    ProviderPoolMembershipOptions_asdict <$> ap_memberships a) as ->.
  { destruct (ap_memberships a) as [|m ms]; [done|]. by apply coerced_list. }
  rewrite dict_set_same; [reflexivity|]. rewrite <-list_fmap_compose. reflexivity.
Qed.

Lemma coerced_options o n : settled uuid o → options_ok o → ∃ m, options_of_json uuid n (Options_asdict o) = (raw_of o, m).
Proof.
  intros Ho Hok. unfold options_of_json. cbv zeta.
  change (attr "llm_providers" (Options_asdict o)) with (objects LLMProviderOptions_asdict (op_llm_providers o)).
  destruct (coerced_providers (op_llm_providers o) n) as [m ->]; [apply (st_providers _ _ Ho)|]. exists m. f_equal.
  change (attr "analysis_pools" (Options_asdict o)) with (objects AnalysisPoolOptions_asdict (op_analysis_pools o)).
  change (attr "prompt_profiles" (Options_asdict o)) with (objects PromptProfileOptions_asdict (op_prompt_profiles o)).
  change (attr "research_providers" (Options_asdict o)) with (objects ResearchProviderOptions_asdict (op_research_providers o)).
  rewrite coerced_pools, !coerced_list; [reflexivity|done| |done|apply (st_profiles _ _ Ho)].
  destruct (ok_sources _ Hok) as [_ Hcover]. intros E. specialize (Hcover "rdap"%string). rewrite E in Hcover.
  eapply elem_of_nil, Hcover, (bool_decide_unpack _). exact I.
Qed.

(** New secrets do not change what a text must read back. *)
Lemma plain_objects {A} (set : string → A → A) secrets (asdict : A → fields) l1 l2 :
  (∀ x a, plain float_repr (JObject (asdict a)) → plain float_repr (JObject (asdict (set x a)))) →
  Forall2 (resecured set secrets) l1 l2 → plain float_repr (objects asdict l1) → plain float_repr (objects asdict l2).
Proof.
  intros Hset Hl Hp. unfold objects in *. rewrite plain_array in *. intros v (b & -> & Hb)%list_elem_of_fmap.
  apply list_elem_of_lookup in Hb as [i Hb]. destruct (Forall2_lookup_r _ _ _ _ _ Hl Hb) as (a & Ha & Hab).
  assert (plain float_repr (JObject (asdict a))) as Hpa.
  { apply Hp, list_elem_of_fmap. exists a. split; [done|]. by eapply list_elem_of_lookup_2. }
  destruct Hab as [->|(x & _ & ->)]; auto.
Qed.

Lemma plain_secrets secrets o : plain float_repr (JObject (Options_asdict o)) →
  plain float_repr (JObject (Options_asdict (with_secrets secrets o))).
Proof.
  destruct secrets as [|password [|token secrets]]; [done|done|].
  destruct (with_secrets_parts password token secrets o) as (llm & research & -> & Hllm & Hresearch).
  intros [Hnd (H1 & H2 & H3 & H4 & H5 & H6 & H7 & H8 & H9 & H10 & Hl & H12 & H13 & Hr & H15 & _)].
  assert (plain float_repr (objects LLMProviderOptions_asdict llm)) as Hl'
    by (eapply plain_objects; [|exact Hllm|exact Hl]; intros x p Hp; exact Hp).
  assert (plain float_repr (objects ResearchProviderOptions_asdict research)) as Hr'
    by (eapply plain_objects; [|exact Hresearch|exact Hr]; intros x r Hp; exact Hp).
  exact (conj Hnd (conj H1 (conj H2 (conj H3 (conj H4 (conj H5 (conj H6 (conj H7 (conj H8 (conj H9 (conj H10
    (conj Hl' (conj H12 (conj H13 (conj Hr' (conj H15 I)))))))))))))))).
Qed.

(** ** The secrets of settled options have no blanks around them *)

Lemma stripped_keys l : ∀ n used ps m, validate_providers uuid n used l = Ok (ps, m) →
  Forall (λ p, str_strip (po_api_key p) = po_api_key p) ps.
Proof.
  induction l as [|f l IH]; intros n used ps m Hl; cbn [validate_providers] in Hl; [injection Hl as <- <-; apply Forall_nil_2|].
  cbv zeta in Hl. apply bind_Ok in Hl as (p & Hp & Hl). apply bind_Ok in Hl as ([r k] & Hr & Heq).
  apply Ok_inj, pair_equal_spec in Heq as [<- _]. apply Forall_cons. split; [|by eapply IH].
  unfold validate_provider in Hp. ok_steps Hp. apply str_strip_idemp.
Qed.

Lemma stripped_source_keys l rs : all_ok validate_source l = Ok rs → Forall (λ r, str_strip (sr_api_key r) = sr_api_key r) rs.
Proof.
  intros Hl%all_ok_forall. apply Forall_forall. intros r Hr. apply list_elem_of_lookup in Hr as [i Hr].
  destruct (Forall2_lookup_r _ _ _ _ _ Hl Hr) as (f & _ & Hv). unfold validate_source in Hv. ok_steps Hv. apply str_strip_idemp.
Qed.

Lemma secured_values slots (ks : kstate env) : Forall2 (λ slot x, x = ""%string ∨ x = slot.2) slots (secure_slots slots ks).1.
Proof.
  revert ks. induction slots as [|[key secret] slots IH]; intros ks; [constructor|]. cbn [secure_slots].
  destruct (secure_slot key secret ks) as [kept ks1] eqn:E. specialize (IH ks1). destruct (secure_slots slots ks1) as [rest ks2].
  constructor; [|done]. unfold secure_slot in E. destruct (str_nonempty secret).
  - destruct (_write_secret key secret ks) as [[] k]; injection E as <- _; [by left|by right].
  - destruct (_delete_secret key ks) as [b k]. injection E as <- _. by left.
Qed.

Lemma saved_settled o (ks : kstate env) : settled uuid o → settled uuid (saved_options o ks).
Proof.
  intros Ho. unfold saved_options. pose proof (secured_values (_credential_slots o) ks) as Hkept.
  destruct (secure_slots (_credential_slots o) ks) as [kept ks1]. cbn [fst] in *. unfold _credential_slots in Hkept.
  inversion Hkept as [|? p ? l1 _ Hkept1 E1 E2]. inversion Hkept1 as [|? t ? rest _ Hrest E3 E4]. subst.
  apply resecured_settled; [done|]. apply Forall_forall. intros x Hx. apply list_elem_of_lookup in Hx as [i Hx].
  destruct (Forall2_lookup_r _ _ _ _ _ Hrest Hx) as ([k v] & Hslot & [->|Hv]); [done|]. cbn [snd] in Hv. subst v.
  apply list_elem_of_lookup_2 in Hslot. apply elem_of_app in Hslot as [Hslot|Hslot].
  - apply list_elem_of_omap in Hslot as (q & Hq & Hslot). destruct (llm_key q); [|done]. injection Hslot as _ <-.
    pose proof (stripped_keys _ _ _ _ _ (proj2 (st_providers _ _ Ho) 0%nat)) as Hall. rewrite Forall_forall in Hall. auto.
  - apply list_elem_of_omap in Hslot as (r & Hr & Hslot). destruct (research_key r); [|done]. injection Hslot as _ <-.
    pose proof (stripped_source_keys _ _ (st_sources _ _ Ho)) as Hall. rewrite Forall_forall in Hall. auto.
Qed.

Lemma saved_kept o (ks : kstate env) : kept_by_migration o → kept_by_migration (saved_options o ks).
Proof.
  unfold saved_options. destruct (secure_slots (_credential_slots o) ks) as [[|p [|t rest]] ks1]; [done|done|]. cbn [fst].
  by destruct (with_secrets_parts p t rest o) as (llm & research & -> & _).
Qed.

(** ** The round trip *)

Lemma save_settled o s : settled uuid o → cs_writable s = true →
  save_options uuid float_repr o s =
    (Ok o, ConfigState (FileText (payload_text float_repr (Options_asdict (saved_options o (cs_keyring s))))) true
             (secure_options_payload o (cs_keyring s)).2 (cs_drawn s)).
Proof.
  intros Ho Hw. unfold save_options. rewrite (validated_ok uuid _ s o (cs_drawn s)) by by apply settled_intro.
  cbn [cs_keyring cs_writable cs_drawn]. rewrite Hw, <-payload_is_saved.
  by destruct (secure_options_payload o (cs_keyring s)) as [payload ks].
Qed.

Lemma load_saved o s file : settled uuid o → options_ok o → kept_by_migration o → plain float_repr (JObject (Options_asdict o)) →
  file = FileText (payload_text float_repr (Options_asdict o)) → cs_file s = file →
  (load_options sha256 uuid float_repr s).1 =
    (hydrated uuid float_repr id o (ConfigState file (cs_writable s) (cs_keyring s)
       (options_of_json uuid (S (cs_drawn s)) (Options_asdict o)).2)).1.
Proof.
  intros Ho Hok Hkept Hplain -> Hfile. unfold load_options. rewrite Hfile. cbv zeta.
  unfold payload_text at 1. rewrite (loads_dumps float_repr indented_style); [|apply styles_ok|done|done].
  rewrite (migrated_fixed sha256) by by apply (saved_migrated uuid).
  destruct (coerced_options o (S (cs_drawn s)) Ho Hok) as [m Hm]. rewrite Hm. cbn [snd].
  by rewrite (validated_ok uuid _ _ o m) by by apply settled_intro.
Qed.
End RoundTrip.

(** * The theorems *)

(** C18: [load_options] never yields options outside their types and ranges
    ([options_ok]: bounds, known modes, existing indices, distinct providers, both
    pools with known members, a source of every kind, the columns of every
    table), whatever the file holds.  It fails, leaving the file alone, only for a
    file that is not UTF-8, an integer beyond the floats, a configuration of a
    newer version, or when it must save and cannot write; a missing, unreadable
    or malformed file gives options. *)
Theorem load_options_is_safe {env : Type} `{Keyring env} `{PyRepr} (sha256 : string → string) (uuid : nat → string)
  (float_repr : Q → string) (s : config_state env)
  (Huuid : proper_uuid uuid) (Hnew : identifiers_new sha256 uuid s) :
  match load_options sha256 uuid float_repr s with
  | (Ok o, _) => options_ok o
  | (Err LoadOSError, s') => cs_writable s = false ∧ cs_file s' = cs_file s
  | (Err (LoadConfig e), s') => config_error s e ∧ cs_file s' = cs_file s
  end.
Proof.
  pose proof (load_outcome sha256 uuid float_repr Huuid s Hnew) as Ho.
  by destruct (load_options sha256 uuid float_repr s) as [[o|[e|]] s'].
Qed.

(** C5: What [save_options] writes, [load_options] reads back: options that
    validation leaves alone are saved as they are, and a later start with the same
    file and credential store loads them again, secrets included, when the store
    works or is not installed, the keys of the credentials are distinct, the text
    of every float is read back, and migration has nothing to change
    ([kept_by_migration]). *)
Theorem saved_options_are_loaded {env : Type} `{Keyring env} `{!KeyringLaws env} `{PyRepr} (sha256 : string → string)
  (uuid : nat → string) (float_repr : Q → string) (o : Options) (n : nat) (s s' : config_state env)
  (Huuid : proper_uuid uuid) (Hunused : unused_from uuid n (raw_of o)) (Hvalid : _validate uuid (raw_of o) n = Ok (o, n))
  (Hkept : kept_by_migration o) (Hplain : plain float_repr (JObject (Options_asdict o)))
  (Hdistinct : NoDup (_credential_slots o).*1)
  (Hbackend : backend_works ∧ none_unavailable (cs_keyring s) ∨ keyring_installed = false) (Hwritable : cs_writable s = true)
  (Hfile : cs_file s' = cs_file (save_options uuid float_repr o s).2)
  (Hstore : ks_env (cs_keyring s') = ks_env (cs_keyring (save_options uuid float_repr o s).2)) :
  (save_options uuid float_repr o s).1 = Ok o ∧ (load_options sha256 uuid float_repr s').1 = Ok o.
Proof.
  pose proof (settled_elim uuid o n Hvalid) as Ho. pose proof (validated_are_ok uuid _ _ _ _ Huuid Hunused Hvalid) as Hok.
  rewrite (save_settled uuid float_repr o s Ho Hwritable) in *. cbn [fst snd cs_file cs_keyring] in *. split; [done|].
  set (saved := saved_options o (cs_keyring s)) in *.
  rewrite (load_saved sha256 uuid float_repr saved s' _ (saved_settled uuid o _ Ho) (with_secrets_ok _ _ Hok)
    (saved_kept o _ Hkept) (plain_secrets float_repr _ _ Hplain) eq_refl Hfile).
  destruct (hydrate_saved o (cs_keyring s) (cs_keyring s') Hdistinct Hbackend Hstore) as [Hh _]. fold saved in Hh.
  unfold hydrated. cbn [cs_keyring]. destruct (hydrate_credentials saved (cs_keyring s')) as [[o' migrated] ks].
  cbn [fst] in Hh. by injection Hh as -> ->.
Qed.

(** ** Witnesses *)

#[local] Existing Instances map_keyring map_keyring_laws no_repr.
Definition ex_uuid (n : nat) : string := pretty (Z.of_nat n).

Lemma ex_uuid_proper : proper_uuid ex_uuid.
Proof.
  split; [intros m n Hmn; by apply Nat2Z.inj, (inj pretty)|]. intros m.
  apply no_space_strip, no_space_app; [done|apply pretty_no_space].
Qed.

Definition ex_state (file : config_file) : config_state (gmap string string) := ConfigState file true (KState ∅ ∅) 0.
Definition ex_file : config_file :=
  FileText (quoted "{'schema_version': 3, 'external_trigger': {'port': 70000}, 'llm_providers': [{'provider_id': 'p1'}]}").

(** No identifier of the file looks like a drawn one. *)
Definition no_drawn (o : raw_options) : bool :=
  forallb (λ f, negb (str_startswith (stripped_attr "provider_id" "" f) "provider-")) (ro_llm_providers o).

Lemma no_drawn_unused uuid n o : no_drawn o = true → unused_from uuid n o.
Proof.
  intros Ho f m Hf Hm. unfold no_drawn in Ho. rewrite forallb_forall in Ho. specialize (Ho f (proj1 (list_elem_of_In _ _) Hf)).
  rewrite Hm in Ho. assert (str_startswith (fresh_provider_id uuid m) "provider-" = true) as E by (unfold str_startswith, fresh_provider_id; cbn; by destruct (uuid m)). by rewrite E in Ho.
Qed.

Definition no_drawn_in (file : config_file) (n : nat) : bool :=
  match file with
  | FileText text =>
      match json_loads text with
      | Some (JObject raw) =>
          match _migrate ex_sha256 (fresh_provider_id ex_uuid n) raw with
          | Ok data => no_drawn (options_of_json ex_uuid (S n) data).1
          | Err _ => true
          end
      | _ => true
      end
  | _ => true
  end.

Lemma no_drawn_new {env} (s : config_state env) : no_drawn_in (cs_file s) (cs_drawn s) = true → identifiers_new ex_sha256 ex_uuid s.
Proof.
  unfold no_drawn_in, identifiers_new. destruct (cs_file s) as [| | |text]; try done.
  destruct (json_loads text) as [[| | | | | |raw]|]; try done. destruct (_migrate _ _ raw) as [data|]; [|done].
  destruct (options_of_json _ _ data) as [attributes n]. apply no_drawn_unused.
Qed.

Lemma load_options_is_safe_witness :
  match load_options ex_sha256 ex_uuid (λ _, "0.0"%string) (ex_state ex_file) with
  | (Ok o, _) => options_ok o ∧ xt_port (op_external_trigger o) = 65535
  | _ => False
  end.
Proof.
  assert (match load_options ex_sha256 ex_uuid (λ _, "0.0"%string) (ex_state ex_file) with
          | (Ok o, _) => xt_port (op_external_trigger o) = 65535 | _ => False end) as Hport by (vm_compute; reflexivity).
  assert (identifiers_new ex_sha256 ex_uuid (ex_state ex_file)) as Hnew by (apply no_drawn_new; vm_compute; reflexivity).
  pose proof (load_options_is_safe ex_sha256 ex_uuid (λ _, "0.0"%string) (ex_state ex_file) ex_uuid_proper Hnew) as Hok.
  destruct (load_options ex_sha256 ex_uuid (λ _, "0.0"%string) (ex_state ex_file)) as [[o|e] s']; [by split|done].
Defined.

(** The texts of the floats of the default options. *)
Definition ex_floats : list (Q * (string * string)) :=
  [(0, ("0", "0")); (1, ("1", "0")); (2, ("2", "0")); (10, ("10", "0")); (15, ("15", "0")); (20, ("20", "0"));
   (30, ("30", "0")); (3 # 4, ("0", "75")); (19 # 20, ("0", "95")); (31 # 2, ("15", "5"))]%Q%string.
Definition same_q (a b : Q) : bool := (Qnum a =? Qnum b) && Pos.eqb (Qden a) (Qden b).
Definition ex_repr (q : Q) : string :=
  match List.find (λ p, same_q p.1 q) ex_floats with Some (_, (w, f)) => w +:+ String "." f | None => "0.0" end.
Definition ex_known (f : py_float) : bool :=
  match f with Fin q => existsb (λ p, same_q p.1 q) ex_floats | _ => false end.

Lemma ex_known_reads f : ex_known f = true → float_reads_back ex_repr f.
Proof.
  destruct f as [q| |]; cbn [ex_known]; try done. intros Hq.
  apply existsb_exists in Hq as ([q' text] & Hin & Hq). unfold same_q in Hq. cbn [fst] in Hq.
  apply andb_true_iff in Hq as [Hn Hd]. apply Z.eqb_eq in Hn. apply Pos.eqb_eq in Hd.
  assert (q' = q) as -> by (destruct q', q; cbn in *; by subst). clear Hn Hd. unfold ex_floats in Hin.
  repeat (destruct Hin as [[= <- _]|Hin];
    [first [ by apply (decimal_reads_back _ _ "0" "" "0") | by apply (decimal_reads_back _ _ "1" "" "0")
           | by apply (decimal_reads_back _ _ "2" "" "0") | by apply (decimal_reads_back _ _ "1" "0" "0")
           | by apply (decimal_reads_back _ _ "1" "5" "0") | by apply (decimal_reads_back _ _ "2" "0" "0")
           | by apply (decimal_reads_back _ _ "3" "0" "0") | by apply (decimal_reads_back _ _ "0" "" "75")
           | by apply (decimal_reads_back _ _ "0" "" "95") | by apply (decimal_reads_back _ _ "1" "5" "5")]|]).
  by destruct Hin.
Qed.

(** The options of a first start, with a password and a key. *)
Definition ex_settled : Options :=
  match _validate ex_uuid (default_raw ex_uuid 0) 1 with
  | Ok (o, _) => with_secrets (["secret"; ""; "key"]%string ++ replicate 13 ""%string) o
  | Err _ => Options_default ""
  end.

(** A new start with the same file and store. *)
Definition restart {env} (s : config_state env) (n : nat) : config_state env :=
  ConfigState (cs_file s) (cs_writable s) (KState (ks_env (cs_keyring s)) ∅) n.
Lemma restart_same {env} (s : config_state env) n :
  cs_file (restart s n) = cs_file s ∧ ks_env (cs_keyring (restart s n)) = ks_env (cs_keyring s).
Proof. done. Qed.

Lemma ex_settled_unused : unused_from ex_uuid 1 (raw_of ex_settled).
Proof.
  intros f m Hf Hm. assert (stripped_attr "provider_id" "" <$> ro_llm_providers (raw_of ex_settled) = ["provider-0"%string]) as E
    by (vm_compute; reflexivity).
  apply (list_elem_of_fmap_2 (stripped_attr "provider_id" "")) in Hf. rewrite E, Hm in Hf. apply list_elem_of_singleton in Hf.
  injection Hf as Hf. change (ex_uuid m = ex_uuid 0) in Hf. apply ex_uuid_proper in Hf. lia.
Qed.

Lemma saved_options_are_loaded_witness :
  po_api_key <$> op_llm_providers ex_settled = ["key"%string] ∧
  (load_options ex_sha256 ex_uuid ex_repr (restart (save_options ex_uuid ex_repr ex_settled (ex_state FileMissing)).2 7)).1
    = Ok ex_settled.
Proof.
  split; [vm_compute; reflexivity|].
  refine (proj2 (saved_options_are_loaded ex_sha256 ex_uuid ex_repr ex_settled 1 (ex_state FileMissing)
    (restart (save_options ex_uuid ex_repr ex_settled (ex_state FileMissing)).2 7) ex_uuid_proper ex_settled_unused
    _ _ _ _ _ _ (proj1 (restart_same _ _)) (proj2 (restart_same _ _)))).
  - vm_compute. reflexivity.
  - split; [apply (bool_decide_unpack _); vm_compute; exact I|].
    exists (default [] (dict_get "review"%string default_table_visible_columns)). split; [vm_compute; reflexivity|].
    split; apply (bool_decide_unpack _); vm_compute; exact I.
  - apply (plain_if_plain _ ex_known); [apply ex_known_reads|]. vm_compute. reflexivity.
  - apply (bool_decide_unpack _). vm_compute. exact I.
  - left. split; [split_and!; [done| |done]; intros key e; by eexists|done].
  - reflexivity.
Defined.

(** Hiding a column of the review table does not last: validation keeps the
    choice, but the migration of the next load shows the column again. *)
Definition ex_hidden : UIOptions :=
  let ui := UIOptions_default in
  mkUIOptions (ui_theme ui) (ui_show_tooltips ui) (ui_window_width ui) (ui_window_height ui)
    (ui_auto_update_queries ui) (ui_query_refresh_ms ui) (ui_auto_scroll_queries ui)
    (ui_history_deduplicate_domains ui) (ui_evidence_test_skip_api_key_sources ui)
    (ui_evidence_test_skip_missing_api_keys ui) (ui_lists_queue_only_unreviewed ui) (ui_queries_colwidths ui)
    (dict_set "review"%string (columns_json ["selected"; "domain"]%string) (ui_table_visible_columns ui))
    (ui_table_column_order ui) (ui_table_column_widths ui).

Example hidden_columns_come_back :
  validate_ui (UIOptions_asdict ex_hidden) = Ok ex_hidden ∧
  match migrate_ui (UIOptions_asdict ex_hidden) with
  | Ok f => attr "review" (_mapping (attr "table_visible_columns" f))
  | Err _ => JNull
  end = columns_json ["selected"; "order"; "queued"; "domain"]%string.
Proof. vm_compute. split; reflexivity. Qed.

(** A file that is not UTF-8, and a number too large for an integer field, stop the
    start. *)
Example unreadable_numbers_and_bytes_escape :
  (load_options ex_sha256 ex_uuid ex_repr (ex_state FileUndecodable)).1 = Err (LoadConfig ConfigDecodeError) ∧
  (load_options ex_sha256 ex_uuid ex_repr (ex_state (FileText (quoted "{'ui': {'window_width': 1e999}}")))).1
    = Err (LoadConfig ConfigOverflowError).
Proof. vm_compute. split; reflexivity. Qed.
