(* ===== verification/Instances.v ===== *)
(** [pihole_manager/pihole_instances.py]: the registry of Pi-hole installations,
    a JSON file beside the options whose passwords lie in the credential store.

    The file, the store and the identifiers drawn are the [config_state] of
    [Config]; here its file is [pihole_instances.json].  A loaded registry is
    changed in place by the code before anybody else has it, so it is a value
    here. *)
From stdpp Require Import base gmap strings list pretty.
From Stdlib Require Import Ascii QArith Qround Lqa.
From S2P Require Import Prelude HttpRetry Json JsonText Models Options Credentials Validate Migrate Config.
Open Scope Z_scope.

Definition REGISTRY_SCHEMA_VERSION : Z := 2.

Record PiHoleInstance := mkInstance {
  in_instance_id : string;
  in_name : string;
  in_base_url : string;
  in_password : string;
  in_ca_bundle_path : string;
  in_timeout_sec : py_float
}.

Record PiHoleInstanceRegistry := mkInstances {
  ir_active_instance_id : string;
  ir_instances : list PiHoleInstance
}.

(** What leaves the functions below; the texts of the conversion errors are left
    out. *)
Inductive instance_exn :=
  | InstanceValueError (msg : string)
  | InstanceRuntimeError (msg : string)
  | InstanceTypeError
  | InstanceOverflowError
  | InstanceDecodeError
  | InstanceOSError.

(** [registry.active()]: the instance, and the registry, whose active
    identifier it may correct. *)
Definition active (r : PiHoleInstanceRegistry) : result instance_exn (PiHoleInstance * PiHoleInstanceRegistry) :=
  match list_find (λ i, in_instance_id i = ir_active_instance_id r) (ir_instances r), ir_instances r with
  | Some (_, i), _ => Ok (i, r)
  | None, [] => Err (InstanceRuntimeError "Pi-hole instance registry is empty")
  | None, i :: _ => Ok (i, mkInstances (in_instance_id i) (ir_instances r))
  end.

Definition set_password_of (password : string) (i : PiHoleInstance) : PiHoleInstance :=
  mkInstance (in_instance_id i) (in_name i) (in_base_url i) password (in_ca_bundle_path i) (in_timeout_sec i).

(** [max(1.0, float(timeout))] *)
Definition at_least_one (timeout : py_float) : py_float := float_max (Fin 1) timeout.

Definition fresh_instance_id (uuid : nat → string) (n : nat) : string := ("pihole-" +:+ uuid n)%string.

Definition instance_from_options (options : PiHoleOptions) (instance_id name : string) : PiHoleInstance :=
  mkInstance instance_id name (str_strip (str_or (ph_base_url options) "http://pi.hole")) (ph_password options)
    (str_strip (ph_ca_bundle_path options)) (at_least_one (ph_timeout_sec options)).

Definition options_from_instance (i : PiHoleInstance) : PiHoleOptions :=
  mkPiHoleOptions (in_base_url i) (in_password i) (in_ca_bundle_path i) (in_timeout_sec i).

Definition _instance_key (instance_id : string) : string := ("pihole-instance/" +:+ instance_id +:+ "/password")%string.

Definition instance_json (i : PiHoleInstance) : json :=
  JObject [("instance_id", JString (in_instance_id i)); ("name", JString (in_name i)); ("base_url", JString (in_base_url i));
    ("password", JString (in_password i)); ("ca_bundle_path", JString (in_ca_bundle_path i)); ("timeout_sec", JFloat (in_timeout_sec i))]%string.

Definition registry_payload (r : PiHoleInstanceRegistry) : fields :=
  [("schema_version", JInt REGISTRY_SCHEMA_VERSION); ("active_instance_id", JString (ir_active_instance_id r));
   ("instances", JArray (instance_json <$> ir_instances r))]%string.

(** [a == b] on floats *)
Definition float_same (a b : py_float) : bool :=
  match a, b with
  | Fin a, Fin b => Qeq_bool a b
  | Inf a, Inf b => Bool.eqb a b
  | _, _ => false
  end.

Section Instances.
Context {env : Type} `{Keyring env} `{PyRepr} (uuid : nat → string) (float_repr : Q → string).
Implicit Types s : config_state env.

(** * Reading *)

(** [float(raw.get("timeout_sec", 10.0))] with its [except] clause *)
Definition timeout_of (v : option json) : result instance_exn py_float :=
  match py_float_of (default (JFloat (Fin 10)) v) with
  | Ok timeout => Ok (at_least_one timeout)
  | Err ConversionOverflowError => Err InstanceOverflowError
  | Err _ => Ok (Fin 10)
  end.

(** [used_ids] and the number of identifiers drawn are threaded. *)
Definition _normalize_instance (raw : fields) (index : nat) (used_ids : list string) (drawn : nat)
    : result instance_exn (PiHoleInstance * list string * nat) :=
  let configured := str_strip (py_str_or (dict_get "instance_id" raw) "") in
  let fresh := negb (str_nonempty configured) || bool_decide (configured ∈ used_ids) in
  let instance_id := if fresh then fresh_instance_id uuid drawn else configured in
  let numbered := ("Pi-hole " +:+ pretty (Z.of_nat index + 1))%string in
  let name := str_or (str_strip (py_str_or (dict_get "name" raw) numbered)) numbered in
  let base_url := str_or (str_strip (py_str_or (dict_get "base_url" raw) "http://pi.hole")) "http://pi.hole" in
  timeout ← timeout_of (dict_get "timeout_sec" raw);
  Ok (mkInstance instance_id name base_url (py_str_or (dict_get "password" raw) "")
        (str_strip (py_str_or (dict_get "ca_bundle_path" raw) "")) timeout,
      instance_id :: used_ids, (if fresh then S drawn else drawn)).

Fixpoint normalize_instances (items : list json) (index : nat) (used_ids : list string) (drawn : nat)
    : result instance_exn (list PiHoleInstance * nat) :=
  match items with
  | [] => Ok ([], drawn)
  | JObject raw :: items =>
      '(i, used_ids, drawn) ← _normalize_instance raw index used_ids drawn;
      '(instances, drawn) ← normalize_instances items (S index) used_ids drawn;
      Ok (i :: instances, drawn)
  | _ :: items => normalize_instances items (S index) used_ids drawn
  end.

(** [for item in raw.get("instances") or []] *)
Definition items_of (raw : fields) : result instance_exn (list json) :=
  match iter_or_empty (attr "instances" raw) with Ok items => Ok items | Err _ => Err InstanceTypeError end.

(** [int(raw.get("schema_version") or 0)] with its [except] clause *)
Definition schema_of (raw : fields) : result instance_exn Z :=
  match py_int_of (json_or (attr "schema_version" raw) (JInt 0)) with
  | Ok version => Ok version
  | Err ConversionOverflowError => Err InstanceOverflowError
  | Err _ => Ok 0
  end.

Definition newer_schema_message (version : Z) : string :=
  ("Pi-hole instance registry was created by a newer application version (schema " +:+ pretty version +:+ "; supported up to "
   +:+ pretty REGISTRY_SCHEMA_VERSION +:+ ").")%string.

(** The instance the active options describe. *)
Definition describes (options : PiHoleOptions) (i : PiHoleInstance) : bool :=
  String.eqb (in_base_url i) (str_strip (ph_base_url options)) &&
  String.eqb (in_ca_bundle_path i) (str_strip (ph_ca_bundle_path options)) &&
  float_same (in_timeout_sec i) (at_least_one (ph_timeout_sec options)).

(** The registry adopts the active options. *)
Definition with_active_options (options : PiHoleOptions) (r : PiHoleInstanceRegistry) : PiHoleInstanceRegistry :=
  match list_find (λ i, describes options i = true) (ir_instances r), ir_instances r with
  | Some (index, i), instances =>
      mkInstances (in_instance_id i) (<[index := set_password_of (str_or (ph_password options) (in_password i)) i]> instances)
  | None, [i] =>
      mkInstances (in_instance_id i)
        [mkInstance (in_instance_id i) (in_name i) (str_or (str_strip (ph_base_url options)) (in_base_url i))
           (str_or (ph_password options) (in_password i)) (str_strip (ph_ca_bundle_path options)) (at_least_one (ph_timeout_sec options))]
  | None, _ => r
  end.

(** The registry of the active options alone. *)
Definition first_registry (options : PiHoleOptions) (drawn : nat) : PiHoleInstanceRegistry * bool * nat :=
  let first := instance_from_options options (fresh_instance_id uuid drawn) "Primary Pi-hole" in
  (mkInstances (in_instance_id first) [first], true, S drawn).

(** The registry of a JSON object, and whether it is to be rewritten. *)
Definition registry_of (options : PiHoleOptions) (raw : fields) (drawn : nat) : result instance_exn (PiHoleInstanceRegistry * bool * nat) :=
  schema_version ← schema_of raw;
  if REGISTRY_SCHEMA_VERSION <? schema_version then Err (InstanceRuntimeError (newer_schema_message schema_version))
  else
    items ← items_of raw;
    '(instances, drawn) ← normalize_instances items 0 [] drawn;
    let '(instances, drawn) :=
      match instances with
      | [] => ([instance_from_options options (fresh_instance_id uuid drawn) "Primary Pi-hole"], S drawn)
      | _ => (instances, drawn)
      end in
    let stored_active := str_strip (py_str_or (dict_get "active_instance_id" raw) "") in
    let active_id := if bool_decide (stored_active ∈ in_instance_id <$> instances) then stored_active
                     else default ""%string (in_instance_id <$> head instances) in
    Ok (with_active_options options (mkInstances active_id instances), negb (schema_version =? REGISTRY_SCHEMA_VERSION), drawn).

Definition _read_registry (options : PiHoleOptions) (file : config_file) (drawn : nat)
    : result instance_exn (PiHoleInstanceRegistry * bool * nat) :=
  match file with
  | FileMissing | FileUnreadable => Ok (first_registry options drawn)
  | FileUndecodable => Err InstanceDecodeError
  | FileText text =>
      match json_loads text with
      | Some (JObject raw) => registry_of options raw drawn
      | _ => Ok (first_registry options drawn)
      end
  end.

(** * Saving *)

Definition listed_id (item : json) : option string :=
  match item with JObject f => Some (str_strip (py_str_or (dict_get "instance_id" f) "")) | _ => None end.

Definition _existing_instance_ids (file : config_file) : result instance_exn (list string) :=
  match file with
  | FileMissing | FileUnreadable => Ok []
  | FileUndecodable => Err InstanceDecodeError
  | FileText text =>
      match json_loads text with
      | Some (JObject raw) =>
          items ← items_of raw;
          Ok (filter (λ id : string, str_nonempty id = true) (omap listed_id (items : list json)))
      | _ => Ok []
      end
  end.

Definition password_slots (instances : list PiHoleInstance) : list (string * string) :=
  (λ i, (_instance_key (in_instance_id i), in_password i)) <$> instances.

Definition registry_check (r : PiHoleInstanceRegistry) : result instance_exn unit :=
  let ids := (λ i, str_strip (in_instance_id i)) <$> ir_instances r in
  let names := (λ i, str_casefold (str_strip (in_name i))) <$> ir_instances r in
  if bool_decide (ir_instances r = []) then Err (InstanceValueError "At least one Pi-hole instance is required")
  else if bool_decide (""%string ∈ ids) || negb (bool_decide (NoDup ids))
  then Err (InstanceValueError "Pi-hole instance IDs must be non-empty and unique")
  else if bool_decide (""%string ∈ names) || negb (bool_decide (NoDup names))
  then Err (InstanceValueError "Pi-hole instance names must be non-empty and unique")
  else if negb (bool_decide (ir_active_instance_id r ∈ ids))
  then Err (InstanceValueError "Active Pi-hole instance is not present in the registry")
  else Ok tt.

Fixpoint delete_secrets (keys : list string) (ks : kstate env) : kstate env :=
  match keys with
  | [] => ks
  | key :: keys => delete_secrets keys (_delete_secret key ks).2
  end.

(** The passwords go to the store, then the file is replaced in one step, then
    the passwords of removed instances are deleted; the order of the last, which
    a Python set leaves open, is that of the file. *)
Definition save_pihole_instances (r : PiHoleInstanceRegistry) s : result instance_exn unit * config_state env :=
  match registry_check r with
  | Err e => (Err e, s)
  | Ok _ =>
      let '(kept, ks) := secure_slots (password_slots (ir_instances r)) (cs_keyring s) in
      let payload := registry_payload (mkInstances (ir_active_instance_id r) (zip_with set_password_of kept (ir_instances r))) in
      match _existing_instance_ids (cs_file s) with
      | Err e => (Err e, ConfigState (cs_file s) (cs_writable s) ks (cs_drawn s))
      | Ok existing =>
          let removed_ids := filter (λ id, id ∉ (λ i, str_strip (in_instance_id i)) <$> ir_instances r) (fromkeys existing) in
          if cs_writable s
          then (Ok tt, ConfigState (FileText (payload_text float_repr payload)) true
                         (delete_secrets (_instance_key <$> removed_ids) ks) (cs_drawn s))
          else (Err InstanceOSError, ConfigState (cs_file s) false ks (cs_drawn s))
      end
  end.

(** * Loading *)

Definition hydrate_instances (instances : list PiHoleInstance) (ks : kstate env) : list PiHoleInstance * bool * kstate env :=
  let '(passwords, migrated, ks) := hydrate_slots (password_slots instances) ks in
  (zip_with set_password_of passwords instances, migrated, ks).

(** [registry_path().exists()] at the end is covered: a missing file has
    [should_rewrite]. *)
Definition load_pihole_instances (options : PiHoleOptions) s : result instance_exn PiHoleInstanceRegistry * config_state env :=
  match _read_registry options (cs_file s) (cs_drawn s) with
  | Err e => (Err e, s)
  | Ok (r, should_rewrite, drawn) =>
      let '(instances, migrated_secret, ks) := hydrate_instances (ir_instances r) (cs_keyring s) in
      let r := mkInstances (ir_active_instance_id r) instances in
      let s := ConfigState (cs_file s) (cs_writable s) ks drawn in
      if should_rewrite || migrated_secret
      then match save_pihole_instances r s with (Ok _, s) => (Ok r, s) | (Err e, s) => (Err e, s) end
      else (Ok r, s)
  end.
End Instances.

(** * Well-formed registries *)

Record instance_ok (i : PiHoleInstance) : Prop := {
  io_id : str_strip (in_instance_id i) = in_instance_id i ∧ in_instance_id i ≠ ""%string;
  io_name : str_strip (in_name i) = in_name i ∧ in_name i ≠ ""%string;
  io_url : str_strip (in_base_url i) = in_base_url i;
  io_ca : str_strip (in_ca_bundle_path i) = in_ca_bundle_path i;
  io_timeout : at_least_one (in_timeout_sec i) = in_timeout_sec i
}.

(** A registry the program may use: [active] finds an instance. *)
Record registry_ok (r : PiHoleInstanceRegistry) : Prop := {
  ro_instances : Forall instance_ok (ir_instances r);
  ro_distinct : NoDup (in_instance_id <$> ir_instances r);
  ro_active : ir_active_instance_id r ∈ in_instance_id <$> ir_instances r
}.

(** A registry that can be saved and read back. *)
Record registry_saves (r : PiHoleInstanceRegistry) : Prop := {
  rv_ok : registry_ok r;
  rv_names : NoDup ((str_casefold ∘ in_name) <$> ir_instances r);
  rv_urls : ∀ i, i ∈ ir_instances r → in_base_url i ≠ ""%string
}.

Lemma strip_or d s : str_strip d = d → str_strip (str_or (str_strip s) d) = str_or (str_strip s) d.
Proof. intros Hd. unfold str_or. destruct (str_nonempty (str_strip s)); [apply str_strip_idemp|done]. Qed.
Lemma at_least_one_idemp t : at_least_one (at_least_one t) = at_least_one t.
Proof. unfold at_least_one, float_max. destruct (float_ltb (Fin 1) t) eqn:E; [by rewrite E|done]. Qed.

Lemma rstrip_ends a w : no_space w → w ≠ ""%string → rstrip is_space (a +:+ w) = (a +:+ w)%string.
Proof.
  intros Hw Hne. induction a as [|c a IH].
  { change ("" +:+ w)%string with w. by apply rstrip_none. }
  change (String c a +:+ w)%string with (String c (a +:+ w)). cbn [rstrip]. rewrite IH. destruct a, w; done.
Qed.

Lemma pretty_pos_nonempty z : 0 < z → pretty z ≠ ""%string.
Proof.
  intros Hz. destruct z as [|p|p]; [lia| |lia]. change (pretty (Z.pos p)) with (pretty (N.pos p)).
  destruct (pretty_N_text (N.pos p)) as (_ & Hd & _). intros E. by rewrite E in Hd.
Qed.

Lemma numbered_ok index : let numbered := ("Pi-hole " +:+ pretty (Z.of_nat index + 1))%string in
  str_strip numbered = numbered ∧ numbered ≠ ""%string.
Proof.
  cbv zeta. split; [|done]. unfold str_strip. change (lstrip is_space ("Pi-hole " +:+ pretty (Z.of_nat index + 1)))%string
    with ("Pi-hole " +:+ pretty (Z.of_nat index + 1))%string.
  apply rstrip_ends; [apply pretty_no_space|apply pretty_pos_nonempty; lia].
Qed.

Lemma active_found r : registry_ok r → ∃ i, active r = Ok (i, r) ∧ i ∈ ir_instances r ∧ in_instance_id i = ir_active_instance_id r.
Proof.
  intros Hr. unfold active. destruct (list_find _ (ir_instances r)) as [[k i]|] eqn:E.
  - apply list_find_Some in E as (Hk & Hi & _). exists i. split_and!; [done|by eapply list_elem_of_lookup_2|done].
  - rewrite list_find_None, Forall_forall in E. destruct (proj1 (list_elem_of_fmap _ _ _) (ro_active _ Hr)) as (i & Ei & Hi).
    by destruct (E i Hi).
Qed.

(** ** What reading gives *)

Section Reading.
Context `{PyRepr} (uuid : nat → string).

(** Drawn identifiers are distinct and stripped. *)
Definition instance_uuid : Prop := Inj (=) (=) uuid ∧ ∀ m, str_strip (fresh_instance_id uuid m) = fresh_instance_id uuid m.

(** None of the listed identifiers will be drawn from [drawn] on. *)
Definition ids_unused (drawn : nat) (items : list json) : Prop :=
  ∀ item m, item ∈ items → listed_id item = Some (fresh_instance_id uuid m) → (m < drawn)%nat.

Lemma fresh_inj m n : instance_uuid → fresh_instance_id uuid m = fresh_instance_id uuid n → m = n.
Proof. intros [Hinj _] [= Heq]. by apply Hinj. Qed.

Lemma normalize_instance_ok raw index used drawn i used' drawn' :
  instance_uuid → (∀ m, fresh_instance_id uuid m ∈ used → (m < drawn)%nat) → ids_unused drawn [JObject raw] →
  _normalize_instance uuid raw index used drawn = Ok (i, used', drawn') →
  instance_ok i ∧ (in_instance_id i ∉ used) ∧ used' = in_instance_id i :: used ∧ (drawn ≤ drawn')%nat ∧
  (∀ m, fresh_instance_id uuid m ∈ used' → (m < drawn')%nat).
Proof.
  intros Huuid Hused Hunused. unfold _normalize_instance. set (configured := str_strip (py_str_or (dict_get "instance_id" raw) "")).
  set (fresh := negb _ || _). destruct (timeout_of _) as [timeout|e] eqn:Et; [|done]. cbn [mbind result_bind]. intros [= <- <- <-].
  cbn [in_instance_id]. destruct (numbered_ok index) as [Hn1 Hn2].
  assert (at_least_one timeout = timeout) as Ht.
  { unfold timeout_of in Et. destruct (py_float_of _) as [t|[]]; try done; injection Et as <-; [apply at_least_one_idemp|done|done]. }
  assert (∀ id, str_strip id = id → id ≠ ""%string → instance_ok (mkInstance id
    (str_or (str_strip (py_str_or (dict_get "name" raw) ("Pi-hole " +:+ pretty (Z.of_nat index + 1)))) ("Pi-hole " +:+ pretty (Z.of_nat index + 1)))
    (str_or (str_strip (py_str_or (dict_get "base_url" raw) "http://pi.hole")) "http://pi.hole") (py_str_or (dict_get "password" raw) "")
    (str_strip (py_str_or (dict_get "ca_bundle_path" raw) "")) timeout)%string) as Hok.
  { intros id H1 H2. split; cbn; [done|split; [by apply strip_or|by apply str_or_nonempty]|by apply strip_or|apply str_strip_idemp|done]. }
  assert (fresh = false → str_nonempty configured = true ∧ configured ∉ used) as Hf.
  { intros Hf. apply orb_false_iff in Hf as [H1%negb_false_iff H2%bool_decide_eq_false]. done. }
  destruct fresh; (split; [apply Hok|split_and!; [|done|lia|]]).
  - apply Huuid.
  - done.
  - intros Hin%Hused. lia.
  - intros m [Hm|Hm]%elem_of_cons; [apply fresh_inj in Hm; [lia|done]|apply Hused in Hm; lia].
  - apply str_strip_idemp.
  - destruct (Hf eq_refl) as [Hne _]. by destruct configured.
  - by apply Hf.
  - intros m [Hm|Hm]%elem_of_cons; [|by apply Hused]. apply (Hunused (JObject raw) m); [left|]. cbn [listed_id]. by rewrite Hm.
Qed.

Lemma normalize_instances_ok items : ∀ index used drawn l drawn',
  instance_uuid → (∀ m, fresh_instance_id uuid m ∈ used → (m < drawn)%nat) → ids_unused drawn items →
  normalize_instances uuid items index used drawn = Ok (l, drawn') →
  Forall instance_ok l ∧ NoDup (in_instance_id <$> l) ∧ (∀ i, i ∈ l → in_instance_id i ∉ used).
Proof.
  induction items as [|item items IH]; intros index used drawn l drawn' Huuid Hused Hunused; cbn [normalize_instances].
  { intros [= <- <-]. split_and!; [done|apply NoDup_nil_2|]. by intros i ?%not_elem_of_nil. }
  assert (∀ d, (drawn ≤ d)%nat → ids_unused d items) as Hrest.
  { intros d Hd it m Hin Hid. enough (m < drawn)%nat by lia. by apply (Hunused it m); [right|]. }
  destruct item as [| | | | | |raw]; try (apply IH; [done|done|by apply Hrest]).
  destruct (_normalize_instance uuid raw index used drawn) as [[[i used'] drawn1]|e] eqn:E; [|done]. cbn [mbind result_bind].
  destruct (normalize_instances uuid items (S index) used' drawn1) as [[rest d']|e] eqn:Er; [|done]. cbn [mbind result_bind]. intros [= <- <-].
  apply normalize_instance_ok in E as (Hi & Hnew & -> & Hle & Hused'); [|done|done|].
  2: { intros it m ->%list_elem_of_singleton Hid. apply (Hunused (JObject raw) m); [left|done]. }
  apply IH in Er as (Hall & Hnd & Hout); [|done|done|by apply Hrest]. split_and!.
  - by constructor.
  - rewrite fmap_cons. apply NoDup_cons. split; [|done]. intros (j & Ej & Hj)%list_elem_of_fmap. apply (Hout j Hj). rewrite <-Ej. left.
  - intros j [->|Hj]%elem_of_cons; [done|]. specialize (Hout j Hj). by apply not_elem_of_cons in Hout as [_ ?].
Qed.

Lemma from_options_ok options id name : str_strip id = id → id ≠ ""%string → str_strip name = name → name ≠ ""%string →
  instance_ok (instance_from_options options id name).
Proof. intros. split; cbn; try done; [apply str_strip_idemp..|apply at_least_one_idemp]. Qed.

Lemma first_registry_ok options drawn : instance_uuid → registry_ok (first_registry uuid options drawn).1.1.
Proof.
  intros [_ Hs]. unfold first_registry. cbn [fst]. split; cbn; [|apply NoDup_singleton|left].
  apply Forall_singleton, from_options_ok; done.
Qed.

Lemma set_password_ok password i : instance_ok i → instance_ok (set_password_of password i).
Proof. by intros []. Qed.

Lemma adopting_ok options r : registry_ok r → registry_ok (with_active_options options r).
Proof.
  intros Hr. unfold with_active_options. destruct (list_find _ (ir_instances r)) as [[k i]|] eqn:E.
  - apply list_find_Some in E as (Hk & _ & _).
    assert (in_instance_id <$> <[k:=set_password_of (str_or (ph_password options) (in_password i)) i]> (ir_instances r) = in_instance_id <$> ir_instances r) as Hids.
    { rewrite list_fmap_insert. apply list_insert_id. by rewrite list_lookup_fmap, Hk. }
    split; cbn [ir_instances ir_active_instance_id]; [|by rewrite Hids; apply ro_distinct|rewrite Hids; by apply list_elem_of_fmap_2, (list_elem_of_lookup_2 _ k)].
    apply Forall_insert; [by apply ro_instances|]. apply set_password_ok. eapply Forall_lookup_1; [by apply ro_instances|done].
  - destruct (ir_instances r) as [|i [|j l]] eqn:Ei; [done| |done]. pose proof (ro_instances _ Hr) as Hi. rewrite Ei, Forall_singleton in Hi.
    split; cbn; [|apply NoDup_singleton|left]. apply Forall_singleton. destruct Hi as [H1 H2 H3 H4 H5].
    split; cbn; [done|done|by apply strip_or|apply str_strip_idemp|apply at_least_one_idemp].
Qed.

Lemma registry_of_ok options raw drawn r rewritten drawn' : instance_uuid →
  (∀ items, items_of raw = Ok items → ids_unused drawn items) →
  registry_of uuid options raw drawn = Ok (r, rewritten, drawn') → registry_ok r.
Proof.
  intros Huuid Hunused. unfold registry_of. destruct (schema_of raw) as [version|e]; [|done]. cbn [mbind result_bind].
  destruct (_ <? version); [done|]. destruct (items_of raw) as [items|e]; [|done]. cbn [mbind result_bind].
  destruct (normalize_instances uuid items 0 [] drawn) as [[l d]|e] eqn:E; [|done]. cbn [mbind result_bind].
  apply normalize_instances_ok in E as (Hall & Hnd & _); [|done|by intros m ?%not_elem_of_nil|by apply Hunused].
  set (chosen := match l with [] => _ | _ => _ end).
  assert (Forall instance_ok chosen.1 ∧ NoDup (in_instance_id <$> chosen.1) ∧ chosen.1 ≠ []) as (H1 & H2 & H3).
  { unfold chosen. destruct l; [|done]. cbn. split_and!; [|apply NoDup_singleton|done]. apply Forall_singleton, from_options_ok; try done. apply Huuid. }
  destruct chosen as [chosen_ones d']. cbn [fst] in *. intros [= <- <- <-]. apply adopting_ok. split; cbn; [done|done|].
  case_bool_decide; [done|]. destruct chosen_ones; [done|]. left.
Qed.
End Reading.

(** * Saving *)

Section Saved.
Context {env : Type} `{Keyring env} `{!KeyringLaws env} `{PyRepr} (uuid : nat → string) (float_repr : Q → string).
Implicit Types s : config_state env.

Lemma app_tail_inj (a b w : string) : (a +:+ w = b +:+ w)%string → a = b.
Proof.
  revert b. induction a as [|c a IH]; intros [|d b] E; [done|..].
  - apply (f_equal String.length) in E. change (String.length w = S (String.length (b +:+ w))) in E.
    rewrite str_length_app in E. lia.
  - apply (f_equal String.length) in E. change (S (String.length (a +:+ w)) = String.length w) in E. rewrite str_length_app in E. lia.
  - change (String c (a +:+ w) = String d (b +:+ w)) in E. injection E as -> E. f_equal. by apply IH.
Qed.
Lemma instance_key_inj a b : _instance_key a = _instance_key b → a = b.
Proof. unfold _instance_key. intros [= E]. by eapply app_tail_inj. Qed.

Lemma keys_distinct instances : NoDup (in_instance_id <$> instances) → NoDup (password_slots instances).*1.
Proof.
  intros Hnd. unfold password_slots. rewrite <-list_fmap_compose. change (fst ∘ _) with (_instance_key ∘ in_instance_id).
  rewrite list_fmap_compose. apply NoDup_fmap_2; [|done]. intros a b. apply instance_key_inj.
Qed.

Lemma delete_secrets_spec keys ks : backend_works → none_unavailable ks →
  let ks' := delete_secrets keys ks in
  none_unavailable ks' ∧ (∀ key, key ∈ keys → stored (ks_env ks') key = None) ∧
  ∀ key, key ∉ keys → stored (ks_env ks') key = stored (ks_env ks) key.
Proof.
  intros Hw. pose proof Hw as (Hi & _ & _). revert ks. induction keys as [|key keys IH]; intros ks Hks; cbn [delete_secrets].
  { split_and!; [done|by intros ? ?%not_elem_of_nil|done]. }
  assert (none_unavailable (_delete_secret key ks).2 ∧ stored (ks_env (_delete_secret key ks).2) key = None ∧
    ∀ k, k ≠ key → stored (ks_env (_delete_secret key ks).2) k = stored (ks_env ks) k) as (Hn & Hgone & Hother).
  { unfold _delete_secret. rewrite bool_decide_eq_false_2 by apply Hks. rewrite Hi. cbn [negb].
    pose proof (delete_removes key (ks_env ks)) as Hr. pose proof (delete_others key (ks_env ks)) as Ho.
    destruct (delete_password key (ks_env ks)) as [[[]|[]] e]; cbn [fst snd] in *; split_and!; try done. by apply none_unavailable_set. }
  destruct (IH _ Hn) as (Hn' & Hin & Hout). split_and!; [done| |].
  - intros k Hk. destruct (decide (k ∈ keys)); [by apply Hin|]. apply elem_of_cons in Hk as [->|]; [|done]. by rewrite Hout.
  - intros k [Hne Hk]%not_elem_of_cons. rewrite Hout, Hother; done.
Qed.

Lemma secure_slots_available slots (ks : kstate env) : backend_works → none_unavailable ks → none_unavailable (secure_slots slots ks).2.
Proof.
  intros Hw. revert ks. induction slots as [|[key secret] slots IH]; intros ks Hks; [done|]. cbn [secure_slots].
  pose proof (secure_slot_works key secret ks Hw Hks) as H1. destruct (secure_slot key secret ks) as [kept ks1].
  destruct H1 as (_ & H1 & _). specialize (IH ks1 H1). by destruct (secure_slots slots ks1).
Qed.

Definition blank (i : PiHoleInstance) : PiHoleInstance := set_password_of "" i.
Definition blanked (r : PiHoleInstanceRegistry) : PiHoleInstanceRegistry := mkInstances (ir_active_instance_id r) (blank <$> ir_instances r).

(** Every password of the registry is in the store, and only there when it is
    not blank. *)
Definition holds (instances : list PiHoleInstance) (ks : kstate env) : Prop :=
  ∀ i, i ∈ instances → stored (ks_env ks) (_instance_key (in_instance_id i)) = held (in_password i).

Lemma stripped_ids l : Forall instance_ok l → (λ i, str_strip (in_instance_id i)) <$> l = in_instance_id <$> l.
Proof. intros Hl. apply list_fmap_ext. intros k i Hk. by apply (proj1 (io_id _ (Forall_lookup_1 _ _ _ _ Hl Hk))). Qed.

Lemma registry_check_ok r : registry_saves r → registry_check r = Ok tt.
Proof.
  intros [[Hall Hnd Hact] Hnames _]. unfold registry_check. rewrite stripped_ids by done.
  assert ((λ i, str_casefold (str_strip (in_name i))) <$> ir_instances r = (str_casefold ∘ in_name) <$> ir_instances r) as ->.
  { apply list_fmap_ext. intros k i Hk. cbn. by rewrite (proj1 (io_name _ (Forall_lookup_1 _ _ _ _ Hall Hk))). }
  rewrite bool_decide_eq_false_2 by (intros E; rewrite E in Hact; inversion Hact).
  assert (""%string ∉ in_instance_id <$> ir_instances r) as H1.
  { intros (i & Ei & Hi)%list_elem_of_fmap. by destruct (proj2 (io_id _ (proj1 (Forall_forall _ _) Hall i Hi))). }
  assert (""%string ∉ (str_casefold ∘ in_name) <$> ir_instances r) as H2.
  { intros (i & Ei & Hi)%list_elem_of_fmap. destruct (io_name _ (proj1 (Forall_forall _ _) Hall i Hi)) as [_ Hne]. unfold compose in Ei. by destruct (in_name i). }
  rewrite (bool_decide_eq_false_2 _ H1), (bool_decide_eq_true_2 _ Hnd), (bool_decide_eq_false_2 _ H2), (bool_decide_eq_true_2 _ Hnames),
    (bool_decide_eq_true_2 _ Hact). done.
Qed.

Lemma blank_zip (l : list PiHoleInstance) : zip_with set_password_of ((λ _, ""%string) <$> password_slots l) l = blank <$> l.
Proof. unfold password_slots. rewrite <-list_fmap_compose. induction l as [|i l IH]; [done|]. cbn. by f_equal. Qed.

(** Saving with a working store: the file holds the registry without its
    passwords, the store holds them all, and those of the listed instances that
    are gone are deleted. *)
Lemma save_works r s existing : registry_saves r → backend_works → none_unavailable (cs_keyring s) → cs_writable s = true →
  _existing_instance_ids (cs_file s) = Ok existing →
  ∃ ks, save_pihole_instances float_repr r s =
      (Ok tt, ConfigState (FileText (payload_text float_repr (registry_payload (blanked r)))) true ks (cs_drawn s)) ∧
    holds (ir_instances r) ks ∧
    ∀ id, id ∈ existing → id ∉ in_instance_id <$> ir_instances r → stored (ks_env ks) (_instance_key id) = None.
Proof.
  intros Hr Hw Hn Hwr Hex. pose proof Hr as [[Hall Hnd Hact] _ _]. unfold save_pihole_instances. rewrite registry_check_ok by done.
  pose proof (secure_slots_work (password_slots (ir_instances r)) (cs_keyring s) Hw Hn (keys_distinct _ Hnd)) as Hs.
  pose proof (secure_slots_available (password_slots (ir_instances r)) (cs_keyring s) Hw Hn) as Hav.
  destruct (secure_slots _ _) as [kept ks]. destruct Hs as (-> & Hin & _). cbn [snd] in Hav. rewrite blank_zip, Hex, Hwr.
  set (removed := filter _ _). destruct (delete_secrets_spec (_instance_key <$> removed) ks Hw Hav) as (_ & Hgone & Hkept).
  assert (∀ id, id ∈ removed ↔ id ∈ existing ∧ id ∉ in_instance_id <$> ir_instances r) as Hrem.
  { intros id. unfold removed. rewrite list_elem_of_filter, elem_of_fromkeys, stripped_ids by done. tauto. }
  eexists. split; [reflexivity|]. split.
  - intros i Hi. rewrite Hkept.
    + apply Hin. unfold password_slots. apply list_elem_of_fmap. by exists i.
    + intros (id & Eid%instance_key_inj & Hid)%list_elem_of_fmap. apply Hrem in Hid as [_ Hid]. destruct Hid. rewrite <-Eid. by apply list_elem_of_fmap_2.
  - intros id H1 H2. apply Hgone, list_elem_of_fmap_2, Hrem. done.
Qed.
End Saved.

(** * Reading back *)

Section ReadBack.
Context `{PyRepr} (uuid : nat → string) (float_repr : Q → string).

Lemma py_text_or (s d : string) : py_str_or (Some (JString s)) d = str_or s d.
Proof. done. Qed.
Lemma str_or_first s d : s ≠ ""%string → str_or s d = s.
Proof. by destruct s. Qed.
Lemma str_or_blank_or s : str_or s "" = s.
Proof. by destruct s. Qed.

Lemma normalize_saved_instance i index used drawn : instance_ok i → in_base_url i ≠ ""%string → in_instance_id i ∉ used →
  ∃ f, instance_json i = JObject f ∧ _normalize_instance uuid f index used drawn = Ok (i, in_instance_id i :: used, drawn).
Proof.
  intros [[H1 H1'] [H2 H2'] H3 H4 H5] Hurl Hnew. eexists. split; [reflexivity|]. unfold _normalize_instance.
  set (f := [(_, _); _; _; _; _; _]).
  change (dict_get "instance_id" f) with (Some (JString (in_instance_id i))).
  change (dict_get "name" f) with (Some (JString (in_name i))).
  change (dict_get "base_url" f) with (Some (JString (in_base_url i))).
  change (dict_get "password" f) with (Some (JString (in_password i))).
  change (dict_get "ca_bundle_path" f) with (Some (JString (in_ca_bundle_path i))).
  change (dict_get "timeout_sec" f) with (Some (JFloat (in_timeout_sec i))).
  rewrite !py_text_or, !str_or_blank_or, H1, H4, (str_or_first (in_name i)), H2, (str_or_first (in_name i)) by done.
  rewrite (str_or_first (in_base_url i)), H3, (str_or_first (in_base_url i)) by done.
  assert (str_nonempty (in_instance_id i) = true) as -> by (by destruct (in_instance_id i)). rewrite bool_decide_eq_false_2 by done.
  cbn [negb orb]. unfold timeout_of. cbn [default py_float_of mbind result_bind from_option id]. rewrite H5. by destruct i.
Qed.

Lemma normalize_saved l : ∀ index used drawn, Forall instance_ok l → (∀ i, i ∈ l → in_base_url i ≠ ""%string) → NoDup (in_instance_id <$> l) →
  (∀ i, i ∈ l → in_instance_id i ∉ used) → normalize_instances uuid (instance_json <$> l) index used drawn = Ok (l, drawn).
Proof.
  induction l as [|i l IH]; intros index used drawn Hall Hurl Hnd Hout; [done|]. apply Forall_cons in Hall as [Hi Hall].
  rewrite fmap_cons in Hnd. apply NoDup_cons in Hnd as [Hni Hnd].
  destruct (normalize_saved_instance i index used drawn Hi (Hurl i ltac:(left)) (Hout i ltac:(left))) as (f & Ef & En).
  rewrite fmap_cons, Ef. cbn [normalize_instances]. rewrite En. cbn [mbind result_bind].
  rewrite IH; [done|done|intros j Hj; apply Hurl; by right|done|].
  intros j Hj [E|Hin]%elem_of_cons; [|by apply (Hout j); [right|]]. apply Hni. rewrite <-E. by apply list_elem_of_fmap_2.
Qed.

Lemma blank_ok l : Forall instance_ok l → Forall instance_ok (blank <$> l).
Proof. intros Hl. apply Forall_fmap. eapply Forall_impl; [exact Hl|]. intros i. apply set_password_ok. Qed.

Lemma blank_ids (l : list PiHoleInstance) : in_instance_id <$> (blank <$> l) = in_instance_id <$> l.
Proof. rewrite <-list_fmap_compose. by apply list_fmap_ext. Qed.

Lemma registry_of_saved options r drawn : registry_saves r →
  registry_of uuid options (registry_payload (blanked r)) drawn = Ok (with_active_options options (blanked r), false, drawn).
Proof.
  intros [[Hall Hnd Hact] _ Hurl]. unfold registry_of.
  change (schema_of (registry_payload (blanked r))) with (Ok REGISTRY_SCHEMA_VERSION : result instance_exn Z). cbn [mbind result_bind].
  rewrite Z.ltb_irrefl.
  assert (items_of (registry_payload (blanked r)) = Ok (instance_json <$> (blank <$> ir_instances r))) as ->.
  { unfold items_of, iter_or_empty. change (attr "instances" (registry_payload (blanked r))) with (JArray (instance_json <$> (blank <$> ir_instances r))).
    destruct (ir_instances r); done. }
  cbn [mbind result_bind]. rewrite normalize_saved.
  2: { by apply blank_ok. }
  2: { intros i (j & -> & Hj)%list_elem_of_fmap. exact (Hurl j Hj). }
  2: { by rewrite blank_ids. }
  2: { by intros i _ ?%not_elem_of_nil. }
  cbn [mbind result_bind]. change (dict_get "active_instance_id" (registry_payload (blanked r))) with (Some (JString (ir_active_instance_id r))).
  rewrite py_text_or, str_or_blank_or.
  assert (str_strip (ir_active_instance_id r) = ir_active_instance_id r) as Hs.
  { apply list_elem_of_fmap in Hact as (i & -> & Hi). by apply (proj1 (io_id _ (proj1 (Forall_forall _ _) Hall i Hi))). }
  assert (blank <$> ir_instances r ≠ []) as Hne by (intros E%fmap_nil_inv; rewrite E in Hact; inversion Hact).
  destruct (blank <$> ir_instances r) as [|i l] eqn:E; [done|]. rewrite Hs, bool_decide_eq_true_2; [by rewrite <-E|]. rewrite <-E. by rewrite blank_ids.
Qed.

Lemma payload_plain r : (∀ i, i ∈ ir_instances r → float_reads_back float_repr (in_timeout_sec i)) →
  plain float_repr (JObject (registry_payload (blanked r))).
Proof.
  intros Hf. apply plain_object. split; [by apply (bool_decide_unpack _); vm_compute|].
  intros p [->|[->|[->|[]%not_elem_of_nil]%elem_of_cons]%elem_of_cons]%elem_of_cons; [done|done|].
  apply plain_array. intros v (i & -> & Hi)%list_elem_of_fmap. apply list_elem_of_fmap in Hi as (j & -> & Hj).
  apply plain_object. split; [by apply (bool_decide_unpack _); vm_compute|].
  intros p Hp. repeat (apply elem_of_cons in Hp as [->|Hp]; [first [done|exact (Hf j Hj)]|]). by apply not_elem_of_nil in Hp.
Qed.

Lemma saved_is_read options r drawn : registry_saves r → (∀ i, i ∈ ir_instances r → float_reads_back float_repr (in_timeout_sec i)) →
  _read_registry uuid options (FileText (payload_text float_repr (registry_payload (blanked r)))) drawn =
    Ok (with_active_options options (blanked r), false, drawn).
Proof.
  intros Hr Hf. unfold _read_registry, payload_text. rewrite loads_dumps; [by apply registry_of_saved|apply styles_ok|by apply payload_plain|done].
Qed.

Lemma saved_ids r : registry_saves r → (∀ i, i ∈ ir_instances r → float_reads_back float_repr (in_timeout_sec i)) →
  ∃ existing, _existing_instance_ids (FileText (payload_text float_repr (registry_payload (blanked r)))) = Ok existing.
Proof.
  intros Hr Hf. unfold _existing_instance_ids, payload_text. rewrite loads_dumps; [|apply styles_ok|by apply payload_plain|done].
  unfold items_of, iter_or_empty. change (attr "instances" (registry_payload (blanked r))) with (JArray (instance_json <$> (blank <$> ir_instances r))).
  destruct (ir_instances r); by eexists.
Qed.
End ReadBack.

(** * Loading what was saved *)

Section Loaded.
Context {env : Type} `{Keyring env} `{!KeyringLaws env} `{PyRepr} (uuid : nat → string) (float_repr : Q → string).
Implicit Types s : config_state env.

Lemma hydrate_slot_holds key plaintext secret (ks : kstate env) : backend_works → none_unavailable ks →
  stored (ks_env ks) key = held secret → plaintext = ""%string ∨ plaintext = secret →
  ∃ moved ks', hydrate_slot key plaintext ks = (secret, moved, ks') ∧ none_unavailable ks' ∧ ∀ k, stored (ks_env ks') k = stored (ks_env ks) k.
Proof.
  intros (Hi & Hget & _) Hks Hst Hp. unfold hydrate_slot, _read_secret. rewrite Hi. cbn [negb].
  destruct (Hget key (ks_env ks)) as [found Hfound]. pose proof (get_returns _ _ _ Hfound) as ->. pose proof (get_keeps key (ks_env ks)) as Hkeeps.
  destruct (get_password key (ks_env ks)) as [reply e]. cbn [fst snd] in *. subst reply. rewrite Hst. unfold held.
  destruct secret as [|c secret]; cbn [str_nonempty from_option id default].
  - assert (plaintext = ""%string) as -> by (by destruct Hp). cbn [str_nonempty]. eexists _, _. split_and!; [done|by apply none_unavailable_set|done].
  - eexists _, _. split_and!; [done|by apply none_unavailable_set|done].
Qed.

(** An instance, or its blank. *)
Definition from_file (p i : PiHoleInstance) : Prop := p = blank i ∨ p = i.

Lemma hydrate_slots_hold ps l (ks : kstate env) : backend_works → none_unavailable ks → Forall2 from_file ps l → holds l ks →
  ∃ moved ks', hydrate_slots (password_slots ps) ks = (in_password <$> l, moved, ks') ∧ none_unavailable ks' ∧
    ∀ k, stored (ks_env ks') k = stored (ks_env ks) k.
Proof.
  intros Hw Hks Hpl. revert ks Hks. induction Hpl as [|p i ps l Hp Hpl IH]; intros ks Hks Hh; [by eexists _, _|].
  assert (in_instance_id p = in_instance_id i ∧ (in_password p = ""%string ∨ in_password p = in_password i)) as [Hid Hpw] by (destruct Hp as [-> | ->]; auto).
  destruct (hydrate_slot_holds (_instance_key (in_instance_id p)) (in_password p) (in_password i) ks Hw Hks) as (moved & ks1 & E & Hks1 & Hsame);
    [rewrite Hid; apply Hh; left|done|].
  destruct (IH ks1 Hks1) as (moved' & ks2 & E2 & Hks2 & Hsame2). { intros j Hj. rewrite Hsame. apply Hh. by right. }
  change (password_slots (p :: ps)) with ((_instance_key (in_instance_id p), in_password p) :: password_slots ps). cbn [hydrate_slots].
  rewrite E, E2. eexists _, _. split_and!; [done|done|]. intros k. by rewrite Hsame2.
Qed.

Lemma hydrate_instances_hold ps l (ks : kstate env) : backend_works → none_unavailable ks → Forall2 from_file ps l → holds l ks →
  ∃ moved ks', hydrate_instances ps ks = (l, moved, ks') ∧ none_unavailable ks' ∧ ∀ k, stored (ks_env ks') k = stored (ks_env ks) k.
Proof.
  intros Hw Hks Hpl Hh. destruct (hydrate_slots_hold ps l ks Hw Hks Hpl Hh) as (moved & ks' & E & H1 & H2). unfold hydrate_instances. rewrite E.
  eexists _, _. split_and!; [|done|done]. do 2 f_equal. clear -Hpl. induction Hpl as [|p i ps l Hp Hpl IH]; [done|]. cbn.
  f_equal; [|done]. by destruct i, Hp as [-> | ->].
Qed.

Lemma float_same_self t : at_least_one t = t → float_same t (at_least_one t) = true.
Proof.
  intros Ht. rewrite Ht. destruct t as [q|b|]; cbn; [by apply Qeq_bool_iff|by destruct b|]. discriminate Ht.
Qed.

(** The active options describe one instance: the active one. *)
Definition describe_active (options : PiHoleOptions) (r : PiHoleInstanceRegistry) : Prop :=
  ∃ a, a ∈ ir_instances r ∧ in_instance_id a = ir_active_instance_id r ∧ options = options_from_instance a ∧
    ∀ j, j ∈ ir_instances r → describes options j = true → j = a.

Lemma adopting_saved options r : registry_saves r → describe_active options r →
  ∃ ps, with_active_options options (blanked r) = mkInstances (ir_active_instance_id r) ps ∧ Forall2 from_file ps (ir_instances r).
Proof.
  intros [[Hall _ _] _ _] (a & Ha & Hact & Eo & Honly). pose proof (proj1 (Forall_forall _ _) Hall a Ha) as Hok.
  assert (describes options (blank a) = true) as Hd.
  { unfold describes. rewrite Eo. cbn [ph_base_url options_from_instance ph_ca_bundle_path ph_timeout_sec].
    rewrite (io_url _ Hok), (io_ca _ Hok). cbn [blank set_password_of in_base_url in_ca_bundle_path in_timeout_sec].
    rewrite !String.eqb_refl. by apply float_same_self, io_timeout. }
  unfold with_active_options, blanked. cbn [ir_instances].
  destruct (list_find _ (blank <$> ir_instances r)) as [[k b]|] eqn:E.
  2: { rewrite list_find_None, Forall_forall in E. destruct (E (blank a)); [by apply list_elem_of_fmap_2|done]. }
  apply list_find_Some in E as (Hk & Hb & _). rewrite list_lookup_fmap in Hk. destruct (ir_instances r !! k) as [j|] eqn:Ej; [|done].
  injection Hk as <-. assert (j = a) as -> by (apply Honly; [by eapply list_elem_of_lookup_2|exact Hb]).
  eexists. split; [change (in_instance_id (blank a)) with (in_instance_id a); by rewrite Hact|].
  rewrite <-(list_insert_id (ir_instances r) k a Ej) at 2. apply Forall2_insert.
  - apply Forall2_fmap_l, Forall_Forall2_diag, Forall_forall. intros i _. by left.
  - right. rewrite Eo. destruct a as [? ? ? pw ? ?]. cbn. unfold set_password_of. cbn. by rewrite (str_or_blank_or pw).
Qed.
End Loaded.

Section Usable.
Context {env : Type} `{Keyring env} `{PyRepr} (float_repr : Q → string).
Implicit Types s : config_state env.

Lemma hydrate_slots_length slots (ks : kstate env) : length (hydrate_slots slots ks).1.1 = length slots.
Proof.
  revert ks. induction slots as [|[key plaintext] slots IH]; intros ks; [done|]. cbn [hydrate_slots].
  destruct (hydrate_slot key plaintext ks) as [[value moved] ks1]. specialize (IH ks1).
  destruct (hydrate_slots slots ks1) as [[values migrated] ks2]. cbn in *. lia.
Qed.

Lemma hydrated_ok r (ks : kstate env) : registry_ok r →
  registry_ok (mkInstances (ir_active_instance_id r) (hydrate_instances (ir_instances r) ks).1.1).
Proof.
  intros Hr. unfold hydrate_instances. pose proof (hydrate_slots_length (password_slots (ir_instances r)) ks) as Hl.
  destruct (hydrate_slots _ ks) as [[pws moved] ks']. cbn [fst] in *. unfold password_slots in Hl. rewrite length_fmap in Hl.
  assert (in_instance_id <$> zip_with set_password_of pws (ir_instances r) = in_instance_id <$> ir_instances r) as Hids.
  { clear Hr. revert pws Hl. induction (ir_instances r) as [|i l IH]; intros [|pw pws] Hl; try done. cbn in *. f_equal. apply IH. lia. }
  split; cbn [ir_instances ir_active_instance_id]; [|rewrite Hids; by apply ro_distinct|rewrite Hids; by apply ro_active].
  pose proof (ro_instances _ Hr) as Hall. clear -Hall. revert pws. induction Hall as [|i l Hi Hall IH]; intros [|pw pws]; cbn; try constructor; [|apply IH].
  by apply set_password_ok.
Qed.

Lemma save_failure_keeps_file r s : match save_pihole_instances float_repr r s with (Err _, s') => cs_file s' = cs_file s | _ => True end.
Proof.
  unfold save_pihole_instances. destruct (registry_check r); [|done]. destruct (secure_slots _ _). destruct (_existing_instance_ids _); [|done].
  by destruct (cs_writable s).
Qed.
End Usable.

(** * Theorems *)

(** C34: The registry survives a restart, with its passwords outside the file:
    with a working credential store, a well-formed registry is saved; the file
    then holds no password, the store each one under the key of its instance and
    none of the listed instances that were removed; and loading with the options
    of the active instance, when no other instance looks the same, gives back
    the registry and leaves the file as it is. *)
Theorem saved_instances_are_loaded {env : Type} `{Keyring env} `{!KeyringLaws env} `{PyRepr} (uuid : nat → string) (float_repr : Q → string)
  (r : PiHoleInstanceRegistry) (options : PiHoleOptions) (existing : list string) (s s' : config_state env)
  (Hsaves : registry_saves r) (Hfloats : ∀ i, i ∈ ir_instances r → float_reads_back float_repr (in_timeout_sec i))
  (Hoptions : describe_active options r)
  (Hworks : backend_works) (Havailable : none_unavailable (cs_keyring s)) (Havailable' : none_unavailable (cs_keyring s'))
  (Hexisting : _existing_instance_ids (cs_file s) = Ok existing)
  (Hwritable : cs_writable s = true) (Hwritable' : cs_writable s' = true)
  (Hfile : cs_file s' = cs_file (save_pihole_instances float_repr r s).2)
  (Hstore : ks_env (cs_keyring s') = ks_env (cs_keyring (save_pihole_instances float_repr r s).2)) :
  let saved := save_pihole_instances float_repr r s in
  let loaded := load_pihole_instances uuid float_repr options s' in
  saved.1 = Ok tt ∧ cs_file saved.2 = FileText (payload_text float_repr (registry_payload (blanked r))) ∧
  holds (ir_instances r) (cs_keyring saved.2) ∧
  (∀ id, id ∈ existing → id ∉ in_instance_id <$> ir_instances r → stored (ks_env (cs_keyring saved.2)) (_instance_key id) = None) ∧
  loaded.1 = Ok r ∧ cs_file loaded.2 = cs_file s' ∧ holds (ir_instances r) (cs_keyring loaded.2).
Proof.
  intros saved loaded. destruct (save_works float_repr r s existing Hsaves Hworks Havailable Hwritable Hexisting) as (ks & E & Hh & Hgone).
  unfold saved, loaded. clear saved loaded. rewrite E in *. cbn [fst snd cs_file cs_keyring] in *. split_and!; [done|done|done|exact Hgone|..].
  all: destruct (adopting_saved options r Hsaves Hoptions) as (ps & Eps & Hps).
  all: assert (holds (ir_instances r) (cs_keyring s')) as Hh' by (intros i Hi; rewrite Hstore; by apply Hh).
  all: destruct (hydrate_instances_hold ps (ir_instances r) (cs_keyring s') Hworks Havailable' Hps Hh') as (moved & ks1 & Eh & Hks1 & Hsame).
  all: unfold load_pihole_instances; rewrite Hfile, (saved_is_read uuid float_repr) by done; rewrite Eps; cbn [ir_instances ir_active_instance_id]; rewrite Eh.
  all: assert (mkInstances (ir_active_instance_id r) (ir_instances r) = r) as -> by (by destruct r).
  all: destruct moved; [|cbn [orb fst snd cs_file cs_keyring]; try done; by intros i Hi; rewrite Hsame; apply Hh'].
  all: destruct (saved_ids float_repr r Hsaves Hfloats) as [existing' Hex'].
  all: destruct (save_works float_repr r (ConfigState (FileText (payload_text float_repr (registry_payload (blanked r)))) (cs_writable s') ks1 (cs_drawn s'))
    existing' Hsaves Hworks Hks1 Hwritable' Hex') as (ks2 & E2 & Hh2 & _); cbn [orb]; rewrite E2; done.
Qed.

(** Whatever the file holds, a registry that is loaded can be used: it is
    not empty, its identifiers are distinct, stripped and not blank, the active
    one is among them, names are not blank and timeouts are at least one second;
    a load that fails leaves the file as it is. *)
Theorem loaded_instances_are_usable {env : Type} `{Keyring env} `{PyRepr} (uuid : nat → string) (float_repr : Q → string)
  (options : PiHoleOptions) (s : config_state env) (Huuid : instance_uuid uuid)
  (Hunused : ∀ text raw items, cs_file s = FileText text → json_loads text = Some (JObject raw) → items_of raw = Ok items →
     ids_unused uuid (cs_drawn s) items) :
  match load_pihole_instances uuid float_repr options s with
  | (Ok r, _) => registry_ok r ∧ ∃ i, active r = Ok (i, r) ∧ i ∈ ir_instances r
  | (Err _, s') => cs_file s' = cs_file s
  end.
Proof.
  assert (∀ r b d, _read_registry uuid options (cs_file s) (cs_drawn s) = Ok (r, b, d) → registry_ok r) as Hread.
  { intros r b d. unfold _read_registry. destruct (cs_file s) as [| | |text] eqn:Ef.
    - intros E. injection E as <- <- <-. by apply (first_registry_ok uuid options (cs_drawn s)).
    - intros E. injection E as <- <- <-. by apply (first_registry_ok uuid options (cs_drawn s)).
    - done.
    - destruct (json_loads text) as [[| | | | | |raw]|] eqn:Ej; try (intros E; injection E as <- <- <-; by apply (first_registry_ok uuid options (cs_drawn s))).
      apply registry_of_ok; [done|]. intros items. by apply (Hunused text raw items). }
  unfold load_pihole_instances. destruct (_read_registry _ _ _ _) as [[[r rewritten] drawn]|e]; [|done]. specialize (Hread r rewritten drawn eq_refl).
  pose proof (hydrated_ok r (cs_keyring s) Hread) as Hr. destruct (hydrate_instances _ _) as [[l migrated] ks]. cbn [fst] in Hr.
  assert (registry_ok (mkInstances (ir_active_instance_id r) l) ∧
    ∃ i, active (mkInstances (ir_active_instance_id r) l) = Ok (i, mkInstances (ir_active_instance_id r) l) ∧ i ∈ l) as Hdone.
  { split; [done|]. destruct (active_found _ Hr) as (i & ? & ? & _). by exists i. }
  destruct (rewritten || migrated); [|exact Hdone].
  pose proof (save_failure_keeps_file float_repr (mkInstances (ir_active_instance_id r) l) (ConfigState (cs_file s) (cs_writable s) ks drawn)) as Hf.
  destruct (save_pihole_instances _ _ _) as [[[]|e] s1]; [exact Hdone|exact Hf].
Qed.

(** * Witnesses and examples *)

#[local] Existing Instances map_keyring map_keyring_laws no_repr.

Definition ex_instance (id name url password : string) : PiHoleInstance := mkInstance id name url password "" (Fin 10).
Definition ex_home : PiHoleInstance := ex_instance "home" "Home" "http://10.0.0.2" "h-pw".
Definition ex_office : PiHoleInstance := ex_instance "office" "Office" "http://10.1.0.2" "o-pw".
Definition ex_registry : PiHoleInstanceRegistry := mkInstances "office" [ex_home; ex_office].
Definition ex_ten (_ : Q) : string := "10.0".

Lemma ex_ten_reads_back : float_reads_back ex_ten (Fin 10).
Proof. by apply (decimal_reads_back _ _ "1" "0" "0"). Qed.

(** A file with an installation that has since been removed, and its password. *)
Definition ex_before : config_state (gmap string string) :=
  ConfigState (FileText (quoted "{'schema_version': 2, 'instances': [{'instance_id': 'old'}]}")) true
    (KState {[ _instance_key "old" := "gone"%string ]} ∅) 0.
Definition ex_after : config_state (gmap string string) :=
  let saved := (save_pihole_instances ex_ten ex_registry ex_before).2 in
  ConfigState (cs_file saved) true (KState (ks_env (cs_keyring saved)) ∅) 0.

Lemma ex_registry_saves : registry_saves ex_registry.
Proof.
  split; [split|..].
  - repeat (apply Forall_cons; split; [by split|]). by apply Forall_nil.
  - by apply (bool_decide_unpack _); vm_compute.
  - by apply (bool_decide_unpack _); vm_compute.
  - by apply (bool_decide_unpack _); vm_compute.
  - intros i [->|[->|[]%not_elem_of_nil]%elem_of_cons]%elem_of_cons; done.
Qed.

Lemma ex_office_active : describe_active (options_from_instance ex_office) ex_registry.
Proof.
  exists ex_office. split_and!; [right; left|done|done|]. intros j [->|[->|[]%not_elem_of_nil]%elem_of_cons]%elem_of_cons; done.
Qed.

Lemma map_works : backend_works (env := gmap string string).
Proof. split_and!; [done| |done]. intros key e. by eexists. Qed.

Lemma saved_instances_are_loaded_witness :
  (load_pihole_instances ex_uuid ex_ten (options_from_instance ex_office) ex_after).1 = Ok ex_registry ∧
  ks_env (cs_keyring ex_after) !! _instance_key "old" = None.
Proof.
  destruct (saved_instances_are_loaded ex_uuid ex_ten ex_registry (options_from_instance ex_office) ["old"%string] ex_before ex_after)
    as (_ & _ & _ & Hgone & Hloaded & _).
  - exact ex_registry_saves.
  - intros i [->|[->|[]%not_elem_of_nil]%elem_of_cons]%elem_of_cons; exact ex_ten_reads_back.
  - exact ex_office_active.
  - exact map_works.
  - by intros key.
  - by intros key.
  - vm_compute. reflexivity.
  - reflexivity.
  - reflexivity.
  - reflexivity.
  - reflexivity.
  - split; [exact Hloaded|]. apply (Hgone "old"%string); [left|]. by apply (bool_decide_unpack _); vm_compute.
Defined.

Lemma ex_instance_uuid : instance_uuid ex_uuid.
Proof.
  split; [apply ex_uuid_proper|]. intros m. apply no_space_strip, no_space_app; [done|apply pretty_no_space].
Qed.

Lemma ex_after_unused text raw items : cs_file ex_after = FileText text → json_loads text = Some (JObject raw) → items_of raw = Ok items →
  ids_unused ex_uuid 0 items.
Proof.
  intros E. assert (text = default ""%string (match cs_file ex_after with FileText t => Some t | _ => None end)) as -> by (by rewrite E).
  clear E. vm_compute (json_loads _). intros [= <-]. vm_compute (items_of _). intros [= <-].
  intros item m [->|[->|[]%not_elem_of_nil]%elem_of_cons]%elem_of_cons; by intros [=].
Qed.

Lemma loaded_instances_are_usable_witness :
  match load_pihole_instances ex_uuid ex_ten (options_from_instance ex_office) ex_after with (Ok r, _) => registry_ok r | _ => False end.
Proof.
  pose proof (loaded_instances_are_usable ex_uuid ex_ten (options_from_instance ex_office) ex_after ex_instance_uuid ex_after_unused) as Hu.
  assert ((load_pihole_instances ex_uuid ex_ten (options_from_instance ex_office) ex_after).1 = Ok ex_registry) as E by (vm_compute; reflexivity).
  destruct (load_pihole_instances _ _ _ _) as [[r|e] s]; [exact (proj1 Hu)|discriminate E].
Defined.

(** Two installations at one address with one password each (a pair behind a
    virtual address): loading activates the first one, whichever was active. *)
Definition ex_twins : PiHoleInstanceRegistry :=
  mkInstances "b" [ex_instance "a" "First" "http://pi.hole" "a-pw"; ex_instance "b" "Second" "http://pi.hole" "b-pw"].
Example the_first_twin_becomes_active :
  let saved := (save_pihole_instances ex_ten ex_twins (ConfigState FileMissing true (KState ∅ ∅) 0)).2 in
  ir_active_instance_id <$> (match (load_pihole_instances ex_uuid ex_ten (mkPiHoleOptions "http://pi.hole" "b-pw" "" (Fin 10)) saved).1 with
    Ok r => Some r | Err _ => None end) = Some "a"%string.
Proof. vm_compute. reflexivity. Qed.

(** Names are made unique neither when they are read nor when one is missing, so
    a file of the first schema with a name twice, or with a name that the
    numbering makes, can never be loaded: it is to be rewritten, and saving
    refuses it. *)
Example equal_names_lock_the_registry :
  let load text := (load_pihole_instances ex_uuid ex_ten PiHoleOptions_default (ConfigState (FileText (quoted text)) true (KState ∅ ∅) 0)).1 in
  load "{'schema_version': 1, 'instances': [{'instance_id': 'a', 'name': 'Pi-hole 2'}, {'instance_id': 'b'}]}" =
    Err (InstanceValueError "Pi-hole instance names must be non-empty and unique") ∧
  load "{'schema_version': Infinity}" = Err InstanceOverflowError ∧
  load "{'schema_version': 2, 'instances': 5}" = Err InstanceTypeError.
Proof. vm_compute. done. Qed.
