(* ===== verification/Database.v ===== *)
(** The tables of [pihole_manager/database_core.py] that the queue, the review
    workflow and the worker share, domain normalisation, and [_ensure_domain].

    A table with a primary key is a [gmap] from the key to the other columns;
    the tables with an [AUTOINCREMENT] key are lists in insertion order whose
    rows carry their [id].  A text column is a [string], whatever values the
    code writes there; a nullable column is an [option]. *)
From stdpp Require Import base gmap strings list.
From Stdlib Require Import Ascii QArith.
From S2P Require Import Prelude Models.
Open Scope Z_scope.

(** * Rows *)

Record staging_row := StagingRow {
  sr_state : string;
  sr_attempts : Z;
  sr_created_at : Z;
  sr_updated_at : Z;
  sr_last_error : string;
  sr_priority : Z;
  sr_source : string;
  sr_pool_id : string;
  sr_available_at : Z
}.

Record domain_row := DomainRow {
  dr_first_seen : Z;
  dr_last_seen : Z;
  dr_query_count : Z;
  dr_last_classified_at : option Z;
  dr_next_recheck_at : option Z;
  dr_last_researched_at : option Z;
  dr_current_policy : string;
  dr_current_service : string;
  dr_current_service_role : string
}.

(** The key of [query_observations]: domain, client, type, status, bucket. *)
Abbreviation observation_key := (string * string * string * string * Z)%type.

Record observation_row := ObservationRow {
  or_query_count : Z;
  or_first_seen : Z;
  or_last_seen : Z
}.

(** The key of [domain_tags]: domain, tag, source. *)
Abbreviation tag_key := (string * string * string)%type.

Record tag_row := TagRow {
  tr_confidence : Q;
  tr_created_at : Z;
  tr_updated_at : Z
}.

Record review_row := ReviewRow {
  rv_categories : string;
  rv_policy : string;
  rv_short : string;
  rv_details : string;
  rv_provider : string;
  rv_status : string;
  rv_service : string;
  rv_service_role : string;
  rv_privacy_risk : Z;
  rv_security_risk : Z;
  rv_breakage_risk : Z;
  rv_confidence : Q;
  rv_needs_review : bool;
  rv_review_reason : string;
  rv_next_recheck_at : option Z;
  rv_planned_action : string;
  rv_action_status : string;
  rv_created_at : Z;
  rv_updated_at : Z
}.

Record run_row := RunRow {
  rr_id : Z;
  rr_domain : string;
  rr_provider : string;
  rr_provider_id : string;
  rr_model : string;
  rr_profile : string;
  rr_prompt_hash : string;
  rr_policy : string;
  rr_primary_tag : string;
  rr_tags : list string;
  rr_service : string;
  rr_service_role : string;
  rr_privacy_risk : Z;
  rr_security_risk : Z;
  rr_breakage_risk : Z;
  rr_confidence : Q;
  rr_needs_review : bool;
  rr_review_reason : string;
  rr_short : string;
  rr_details : string;
  rr_raw_text : string;
  rr_planned_action : string;
  rr_action_status : string;
  rr_analysis_run_id : string;
  rr_pool_id : string;
  rr_pool_mode : string;
  rr_is_primary : bool;
  rr_latency_ms : Z;
  rr_input_tokens : Z;
  rr_output_tokens : Z;
  rr_created_at : Z;
  rr_expires_at : Z
}.

Record lock_row := LockRow {
  lk_list_type : string;
  lk_reason : string;
  lk_created_at : Z;
  lk_updated_at : Z
}.

Record task_row := TaskRow {
  tk_id : Z;
  tk_domain : string;
  tk_reason : string;
  tk_priority : string;
  tk_status : string;
  tk_source : string;
  tk_decision : string;
  tk_created_at : Z;
  tk_updated_at : Z
}.

(** The two [sqlite_sequence] counters are the last [id] each
    [AUTOINCREMENT] table gave out. *)
Record db := Db {
  staging_domains : gmap string staging_row;
  domains : gmap string domain_row;
  query_observations : gmap observation_key observation_row;
  domain_tags_table : gmap tag_key tag_row;
  review : gmap string review_row;
  classification_runs : list run_row;
  last_run_id : Z;
  domain_locks : gmap string lock_row;
  review_tasks : list task_row;
  last_task_id : Z
}.

Definition db_empty : db := Db ∅ ∅ ∅ ∅ ∅ [] 0 ∅ [] 0.

Definition set_staging f (d : db) : db :=
  Db (f (staging_domains d)) (domains d) (query_observations d) (domain_tags_table d) (review d)
     (classification_runs d) (last_run_id d) (domain_locks d) (review_tasks d) (last_task_id d).
Definition set_domains f (d : db) : db :=
  Db (staging_domains d) (f (domains d)) (query_observations d) (domain_tags_table d) (review d)
     (classification_runs d) (last_run_id d) (domain_locks d) (review_tasks d) (last_task_id d).
Definition set_observations f (d : db) : db :=
  Db (staging_domains d) (domains d) (f (query_observations d)) (domain_tags_table d) (review d)
     (classification_runs d) (last_run_id d) (domain_locks d) (review_tasks d) (last_task_id d).
Definition set_tags f (d : db) : db :=
  Db (staging_domains d) (domains d) (query_observations d) (f (domain_tags_table d)) (review d)
     (classification_runs d) (last_run_id d) (domain_locks d) (review_tasks d) (last_task_id d).
Definition set_review f (d : db) : db :=
  Db (staging_domains d) (domains d) (query_observations d) (domain_tags_table d) (f (review d))
     (classification_runs d) (last_run_id d) (domain_locks d) (review_tasks d) (last_task_id d).
Definition set_runs runs last (d : db) : db :=
  Db (staging_domains d) (domains d) (query_observations d) (domain_tags_table d) (review d)
     runs last (domain_locks d) (review_tasks d) (last_task_id d).
Definition set_locks f (d : db) : db :=
  Db (staging_domains d) (domains d) (query_observations d) (domain_tags_table d) (review d)
     (classification_runs d) (last_run_id d) (f (domain_locks d)) (review_tasks d) (last_task_id d).
Definition set_tasks tasks last (d : db) : db :=
  Db (staging_domains d) (domains d) (query_observations d) (domain_tags_table d) (review d)
     (classification_runs d) (last_run_id d) (domain_locks d) tasks last.

(** The exceptions the modelled operations raise. *)
Inductive exn :=
  | ValueError (msg : string)
  | RuntimeError (msg : string)
  | IntegrityError (msg : string)
  | InvalidManagedRule (msg : string)
  | ManagedRuleConflict (msg : string)
  | OtherError (msg : string).

Abbreviation dbtx := (tx db exn).
Abbreviation dbprog := (prog db exn).

(** * Domain names *)

Definition _normalize_domain (domain : string) : string :=
  rstrip is_dot (str_lower (str_strip domain)).

(** The loop with [seen] that the queue and the review operations start with. *)
Definition unique_normalized (values : list string) : list string :=
  fromkeys (filter (λ d, str_nonempty d = true) (_normalize_domain <$> values)).

(** [_normalize_tags] on a text ([values] from a split) and on an iterable. *)
Definition _normalize_tag (value : string) : string :=
  str_replace " "%char "_"%char (str_lower (str_strip value)).
Definition _normalize_tags (values : list string) : list string :=
  fromkeys (_normalize_tag <$> filter (λ v, str_nonempty (str_strip v) = true) values).
Definition _normalize_tags_text (tags : string) : list string :=
  _normalize_tags (str_split ","%char (str_replace ";"%char ","%char tags)).

(** * [_ensure_domain] *)

Definition new_domain_row (now increment : Z) : domain_row :=
  DomainRow now now increment None None None "unknown" "" "unknown".

Definition touch_domain_row (now increment : Z) (r : domain_row) : domain_row :=
  DomainRow (Z.min (dr_first_seen r) now) (Z.max (dr_last_seen r) now)
    (dr_query_count r + increment) (dr_last_classified_at r) (dr_next_recheck_at r)
    (dr_last_researched_at r) (dr_current_policy r) (dr_current_service r)
    (dr_current_service_role r).

(** [clock] is [int(time.time())]; [seen_at] is [None] or a time, and Python's
    [seen_at or ...] also takes the clock for a zero. *)
Definition _ensure_domain (clock : Z) (domain : string) (seen_at : option Z)
    (query_increment : Z) : dbtx string :=
  let normalized := _normalize_domain domain in
  if negb (str_nonempty normalized) then tx_raise (ValueError "domain must not be empty")
  else
    let now := match seen_at with
               | Some t => if Z.eqb t 0 then clock else t
               | None => clock
               end in
    let increment := Z.max 0 query_increment in
    _ ← tx_write (set_domains (λ t,
          <[normalized := match t !! normalized with
                          | None => new_domain_row now increment
                          | Some r => touch_domain_row now increment r
                          end]> t));
    mret normalized.

(** * Well-formed databases *)

(** The foreign keys of the schema: the rows of the dependent tables name a
    domain of the [domains] table.  [staging_domains] and [review] have no
    [REFERENCES] clause, but every write to them goes through
    [_ensure_domain] first. *)
Record references_ok (d : db) : Prop := {
  ref_staging : ∀ k, is_Some (staging_domains d !! k) → is_Some (domains d !! k);
  ref_review : ∀ k, is_Some (review d !! k) → is_Some (domains d !! k);
  ref_locks : ∀ k, is_Some (domain_locks d !! k) → is_Some (domains d !! k);
  ref_observations : ∀ k, is_Some (query_observations d !! k) →
    is_Some (domains d !! k.1.1.1.1);
  ref_tags : ∀ k, is_Some (domain_tags_table d !! k) → is_Some (domains d !! k.1.1);
  ref_runs : ∀ r, r ∈ classification_runs d → is_Some (domains d !! rr_domain r);
  ref_tasks : ∀ r, r ∈ review_tasks d → is_Some (domains d !! tk_domain r)
}.

Lemma _ensure_domain_spec clock domain seen_at inc d n d' :
  _ensure_domain clock domain seen_at inc d = Ok (n, d') →
  n = _normalize_domain domain ∧ n ≠ ""%string ∧
  ∃ r, d' = set_domains (<[n := r]>) d.
Proof.
  unfold _ensure_domain. destruct (str_nonempty _) eqn:Hn; simpl; [|done].
  intros [= <- <-]. split; [done|]. split.
  - intros E. by rewrite E in Hn.
  - destruct (domains d !! _normalize_domain domain) eqn:E; eexists;
      unfold set_domains; by rewrite E.
Qed.

Lemma _ensure_domain_ok clock domain seen_at inc d :
  _normalize_domain domain ≠ ""%string →
  ∃ r, _ensure_domain clock domain seen_at inc d =
       Ok (_normalize_domain domain, set_domains (<[_normalize_domain domain := r]>) d).
Proof.
  intros Hn. unfold _ensure_domain.
  destruct (str_nonempty _) eqn:E; [|by destruct (_normalize_domain domain)]. simpl.
  eexists. cbv [mbind tx_bind tx_write mret tx_ret]. reflexivity.
Qed.

(** Inserting a domain keeps the references. *)
Lemma references_set_domains d n r :
  references_ok d → references_ok (set_domains (<[n := r]>) d).
Proof.
  intros [H1 H2 H3 H4 H5 H6 H7].
  assert (∀ k, is_Some (domains d !! k) → is_Some (<[n:=r]> (domains d) !! k)) as Hi.
  { intros k Hk. destruct (decide (n = k)) as [->|]; [rewrite lookup_insert_eq|
    rewrite lookup_insert_ne by done]; eauto. }
  constructor; simpl; auto.
Qed.

Lemma references_ensure clock domain seen_at inc d n d' :
  _ensure_domain clock domain seen_at inc d = Ok (n, d') →
  references_ok d → references_ok d' ∧ is_Some (domains d' !! n).
Proof.
  intros He Hd. apply _ensure_domain_spec in He as (-> & _ & r & ->). split.
  - by apply references_set_domains.
  - simpl. rewrite lookup_insert_eq. eauto.
Qed.

#[export] Hint Resolve references_set_domains : wormhole.

(** * Normalisation is stable

    [_normalize_domain] strips blanks before it strips the trailing dots, so a
    blank between two dots survives one pass; on names without blanks a second
    pass changes nothing. *)
Definition no_space (s : string) : bool := str_forallb (λ c, negb (is_space c)) s.

Lemma normalize_no_space s : no_space s = true → no_space (_normalize_domain s) = true.
Proof.
  intros H. unfold _normalize_domain, str_lower, str_strip, no_space.
  apply rstrip_forallb, str_map_forallb; [intros c; by rewrite lower_char_space|].
  by apply rstrip_forallb, lstrip_forallb.
Qed.

Lemma normalize_domain_fixed s :
  no_space (_normalize_domain s) = true →
  _normalize_domain (_normalize_domain s) = _normalize_domain s.
Proof.
  intros H. set (n := _normalize_domain s) in *.
  assert (str_lower n = n) as Hl.
  { unfold n, _normalize_domain. apply rstrip_lower_fixed; [apply lower_char_dot|].
    apply str_lower_idemp. }
  unfold _normalize_domain at 1. unfold str_strip.
  rewrite (lstrip_none _ _ H), (rstrip_none _ _ H), Hl.
  unfold n, _normalize_domain. by rewrite rstrip_idemp.
Qed.

(** Without blanks, [strip] and [lower] before the normalisation do nothing more. *)
Lemma normalize_stripped s :
  no_space (_normalize_domain s) = true →
  _normalize_domain (str_lower (str_strip s)) = _normalize_domain s.
Proof.
  intros H. assert (no_space (str_lower (str_strip s)) = true) as Hs.
  { apply (rstrip_forallb_inv is_dot); [|exact H].
    intros c. destruct c as [[] [] [] [] [] [] [] []]; vm_compute; done. }
  unfold _normalize_domain at 1. unfold str_strip at 1.
  by rewrite (lstrip_none _ _ Hs), (rstrip_none _ _ Hs), str_lower_idemp.
Qed.

Lemma unique_normalized_spec values x :
  x ∈ unique_normalized values ↔
  x ≠ ""%string ∧ ∃ v, v ∈ values ∧ x = _normalize_domain v.
Proof.
  unfold unique_normalized. rewrite elem_of_fromkeys, list_elem_of_filter, list_elem_of_fmap.
  split; intros [Hx (v & ? & ?)]; split; eauto; by destruct x.
Qed.

Lemma unique_normalized_NoDup values : NoDup (unique_normalized values).
Proof. apply fromkeys_NoDup. Qed.
