(* ===== verification/Answers.v ===== *)
(** The answers of the language models: [llm.py] from the text of a response to
    the classifications, with the JSON schema that the request sends along.

    An answer passes [_parse_json_object], [_validate_batch_payload] and the
    matching of its results with the requested domains.  The order in which
    Python walks the set of string fields only decides which error comes first;
    the order of the source is taken. *)
From stdpp Require Import base gmap strings list pretty.
From Stdlib Require Import Ascii QArith Qround Lqa Sorted.
From S2P Require Import Prelude HttpRetry Json JsonText Models Database.
Open Scope Z_scope.

(** * The schema of an answer *)

Definition _RESULT_FIELDS : list string :=
  ["domain"; "policy"; "category"; "tags"; "service"; "service_role"; "privacy_risk"; "security_risk";
   "breakage_risk"; "confidence"; "needs_review"; "review_reason"; "recheck_after_days"; "short"; "details"]%string.

(** [list(dict.fromkeys(...))] of the configured tags, with [unknown]. *)
Definition allowed_tag_list (tags : list string) : list string :=
  let allowed := fromkeys (filter (λ t, str_nonempty t = true) ((λ t, str_lower (str_strip t)) <$> tags)) in
  if bool_decide ("unknown"%string ∈ allowed) then allowed else allowed ++ ["unknown"%string].

Definition typed (type : string) (rest : list (string * json)) : json :=
  JObject (("type"%string, JString type) :: rest).
Definition enumeration (values : list string) : string * json := ("enum"%string, JArray (JString <$> values)).
Definition range (low high : Z) : list (string * json) :=
  [("minimum", JInt low); ("maximum", JInt high)]%string.

(** An object with required and no other properties. *)
Definition object_schema (required : list string) (properties : list (string * json)) : json :=
  typed "object" [("additionalProperties", JBool false); ("required", JArray (JString <$> required));
                  ("properties", JObject properties)]%string.

Definition result_properties (allowed_tags : list string) : list (string * json) :=
  [("domain", typed "string" []);
   ("policy", typed "string" [enumeration ["allow"; "deny"; "manual_review"]]);
   ("category", typed "string" [enumeration allowed_tags]);
   ("tags", typed "array" [("minItems", JInt 1); ("uniqueItems", JBool true);
                           ("items", typed "string" [enumeration allowed_tags])]);
   ("service", typed "string" []);
   ("service_role", typed "string" [enumeration ["core"; "optional"; "shared"; "unknown"]]);
   ("privacy_risk", typed "integer" (range 0 100));
   ("security_risk", typed "integer" (range 0 100));
   ("breakage_risk", typed "integer" (range 0 100));
   ("confidence", typed "number" (range 0 1));
   ("needs_review", typed "boolean" []);
   ("review_reason", typed "string" []);
   ("recheck_after_days", typed "integer" (range 1 3650));
   ("short", typed "string" []);
   ("details", typed "string" [])]%string.

Definition result_schema (allowed_tags : list string) : json :=
  object_schema _RESULT_FIELDS (result_properties allowed_tags).

Definition classification_schema (tags : list string) : json :=
  object_schema ["schema_version"; "results"]%string
    [("schema_version", typed "integer" [("enum", JArray [JInt 1])]);
     ("results", typed "array" [("minItems", JInt 1); ("items", result_schema (allowed_tag_list tags))])]%string.

(** [_structured_modes] and [_response_format] *)
Definition _structured_modes (mode : string) : list string :=
  let normalized := str_lower (str_strip mode) in
  if String.eqb normalized "auto" then ["json_schema"; "json_object"; "prompt_only"]%string
  else if bool_decide (normalized ∈ ["json_schema"; "json_object"; "prompt_only"]%string) then [normalized]
  else ["prompt_only"]%string.

Definition _response_format (mode : string) (tags : list string) : option json :=
  if String.eqb mode "json_schema"
  then Some (JObject [("type", JString "json_schema");
                      ("json_schema", JObject [("name", JString "domain_classification_batch");
                                               ("strict", JBool true);
                                               ("schema", classification_schema tags)])]%string)
  else if String.eqb mode "json_object" then Some (JObject [("type", JString "json_object")]%string)
  else None.

(** * Finding the object in a text *)

(** [text.find("{")], as the text from there on, and [text[:rfind("}") + 1]]. *)
Fixpoint from_brace (s : string) : option string :=
  match s with
  | EmptyString => None
  | String c rest => if Ascii.eqb c "{"%char then Some s else from_brace rest
  end.

Fixpoint upto_last_brace (s : string) : option string :=
  match s with
  | EmptyString => None
  | String c rest => match upto_last_brace rest with
                     | Some t => Some (String c t)
                     | None => if Ascii.eqb c "}"%char then Some (String c EmptyString) else None
                     end
  end.

(** The shortest text up to a brace that is followed by blanks and a fence. *)
Fixpoint upto_fence (s : string) : option string :=
  match s with
  | EmptyString => None
  | String c rest =>
      if Ascii.eqb c "}"%char && str_startswith (lstrip is_space rest) "```" then Some (String c EmptyString)
      else String c <$> upto_fence rest
  end.

(** One match of the fenced pattern at the start of a text. *)
Definition fenced_here (s : string) : option string :=
  match str_drop_prefix "```" s with
  | None => None
  | Some s =>
      let s := if String.eqb (str_lower (str_take 4 s)) "json" then str_drop_prefix (str_take 4 s) s else Some s in
      match s with
      | None => None
      | Some s => match lstrip is_space s with
                  | String c rest => if Ascii.eqb c "{"%char then String c <$> upto_fence rest else None
                  | EmptyString => None
                  end
      end
  end.

Fixpoint find_fenced (s : string) : option string :=
  match fenced_here s with
  | Some t => Some t
  | None => match s with EmptyString => None | String _ rest => find_fenced rest end
  end.

Definition braced (text : string) : option string :=
  match from_brace text with
  | Some s => upto_last_brace s
  | None => None
  end.

Definition _parse_json_object (text : string) : option (list (string * json)) :=
  let candidates := option_list (find_fenced text) ++ [text] ++ option_list (braced text) in
  match omap (λ t, match json_loads t with Some (JObject o) => Some o | _ => None end) candidates with
  | o :: _ => Some o
  | [] => None
  end.

(** * Validation

    What escapes is [LLMResponseError] with its message, and [OverflowError] of
    [float(n)] on an integer beyond the floats. *)

Inductive answer_exn := LLMResponseError (msg : string) | AnswerOverflow.

Definition check (condition : bool) (message : string) : result answer_exn unit :=
  if condition then Ok tt else Err (LLMResponseError message).

Definition is_json_string (v : option json) : bool := match v with Some (JString _) => true | _ => false end.
Definition is_json_bool (v : option json) : bool := match v with Some (JBool _) => true | _ => false end.
Definition json_text (v : option json) : string := match v with Some (JString s) => s | _ => "" end.

(** An integer in a range; [True] is no integer here. *)
Definition int_in (low high : Z) (v : option json) : bool :=
  match v with Some (JInt z) => (low <=? z) && (z <=? high) | _ => false end.

(** [0 <= float(v) <= 1] for a number *)
Definition unit_number (v : option json) : bool :=
  match v with
  | Some (JInt z) => (0 <=? z) && (z <=? 1)
  | Some (JFloat (Fin q)) => Qle_bool 0 q && Qle_bool q 1
  | _ => false
  end.

Definition oversized (v : option json) : bool :=
  match v with Some (JInt z) => negb (Z.abs z <? float_limit) | _ => false end.

Definition check_confidence (v : option json) (message : string) : result answer_exn unit :=
  if oversized v then Err AnswerOverflow else check (unit_number v) message.

Definition allowed_tag_set (tags : list string) : gset string :=
  list_to_set (filter (λ t, str_nonempty t = true) ((λ t, str_lower (str_strip t)) <$> tags)) ∪
  {["unknown"%string]}.

Definition is_allowed (allowed : gset string) (v : json) : bool :=
  match v with JString t => bool_decide (t ∈ allowed) | _ => false end.

Definition _STRING_FIELDS : list string :=
  ["domain"; "policy"; "category"; "service"; "service_role"; "review_reason"; "short"; "details"]%string.

Definition check_all (checks : list (result answer_exn unit)) : result answer_exn unit :=
  foldr (λ c rest, _ ← c; rest) (Ok tt) checks.

Definition _validate_result_types (item : list (string * json)) (index : Z) (allowed : gset string)
    : result answer_exn unit :=
  let get key := dict_get key item in
  let result_n := ("Result " +:+ pretty index)%string in
  _ ← check_all ((λ field, check (is_json_string (get field))
                             (result_n +:+ " field " +:+ field +:+ " must be a string")%string) <$> _STRING_FIELDS);
  _ ← check (str_nonempty (str_strip (json_text (get "domain"%string))))
        (result_n +:+ " domain must not be empty")%string;
  _ ← check (bool_decide (json_text (get "policy"%string) ∈ ["allow"; "deny"; "manual_review"]%string))
        (result_n +:+ " policy is invalid")%string;
  _ ← check (bool_decide (json_text (get "category"%string) ∈ allowed))
        (result_n +:+ " category is not configured")%string;
  _ ← check (bool_decide (json_text (get "service_role"%string) ∈ ["core"; "optional"; "shared"; "unknown"]%string))
        (result_n +:+ " service_role is invalid")%string;
  _ ← match get "tags"%string with
      | Some (JArray ((_ :: _) as l)) =>
          _ ← check (forallb (is_allowed allowed) l) (result_n +:+ " contains an invalid tag")%string;
          _ ← check (bool_decide (NoDup ((λ v, json_text (Some v)) <$> l)))
                (result_n +:+ " contains duplicate tags")%string;
          check (bool_decide (json_text (get "category"%string) ∈ (λ v, json_text (Some v)) <$> l))
            (result_n +:+ " category must also appear in tags")%string
      | _ => Err (LLMResponseError (result_n +:+ " tags must be a non-empty array")%string)
      end;
  _ ← check_all ((λ field, check (int_in 0 100 (get field))
        (result_n +:+ " field " +:+ field +:+ " must be an integer from 0 to 100")%string) <$>
        ["privacy_risk"; "security_risk"; "breakage_risk"]%string);
  _ ← check_confidence (get "confidence"%string) (result_n +:+ " confidence must be a number from 0 to 1")%string;
  _ ← check (is_json_bool (get "needs_review"%string)) (result_n +:+ " needs_review must be a boolean")%string;
  check (int_in 1 3650 (get "recheck_after_days"%string))
    (result_n +:+ " recheck_after_days must be an integer from 1 to 3650")%string.

(** The keys of one list that are not in the other, sorted and joined. *)
Definition joined_difference (l1 l2 : list string) : string :=
  str_join ", " (sort_by str_leb (fromkeys (filter (λ k, k ∉ l2) l1))).

Definition _validate_result (tags : gset string) (index : Z) (item : json) : result answer_exn unit :=
  let result_n := ("Result " +:+ pretty index)%string in
  match item with
  | JObject fields =>
      _ ← check (bool_decide (Forall (λ k, k ∈ fields.*1) _RESULT_FIELDS))
            (result_n +:+ " is missing fields: " +:+ joined_difference _RESULT_FIELDS fields.*1)%string;
      _ ← check (bool_decide (Forall (λ k, k ∈ _RESULT_FIELDS) fields.*1))
            (result_n +:+ " contains unsupported fields: " +:+ joined_difference fields.*1 _RESULT_FIELDS)%string;
      _validate_result_types fields index tags
  | _ => Err (LLMResponseError (result_n +:+ " must be an object")%string)
  end.

Fixpoint _validate_results (tags : gset string) (index : Z) (results : list json) : result answer_exn unit :=
  match results with
  | [] => Ok tt
  | item :: results => _ ← _validate_result tags index item; _validate_results tags (index + 1) results
  end.

(** [schema_version != 1], where a float of that value is equal *)
Definition is_version_one (v : option json) : bool :=
  match v with
  | Some (JInt z) => z =? 1
  | Some (JFloat (Fin q)) => Qeq_bool q 1
  | _ => false
  end.

Definition top_level_fields : list string := ["schema_version"; "results"]%string.

Definition _validate_batch_payload (payload : list (string * json)) (tags : list string) : result answer_exn unit :=
  _ ← check (bool_decide (Forall (λ k, k ∈ payload.*1) top_level_fields))
        ("LLM response is missing top-level fields: " +:+ joined_difference top_level_fields payload.*1)%string;
  _ ← check (bool_decide (Forall (λ k, k ∈ top_level_fields) payload.*1))
        ("LLM response contains unsupported top-level fields: " +:+
           joined_difference payload.*1 top_level_fields)%string;
  _ ← check (is_version_one (dict_get "schema_version" payload))
        "LLM response schema_version must be the integer 1"%string;
  match dict_get "results" payload with
  | Some (JArray results) => _validate_results (allowed_tag_set tags) 0 results
  | _ => Err (LLMResponseError "LLM response results must be an array")
  end.

(** * From a result to a classification *)

Definition _normalize_policy (value : string) : Policy :=
  let normalized := str_replace " " "_" (str_lower (str_strip value)) in
  if bool_decide (normalized ∈ ["allow"; "allowed"; "permit"; "permitted"; "whitelist"]%string) then ALLOW
  else if bool_decide (normalized ∈ ["deny"; "denied"; "block"; "blocked"; "blacklist"]%string) then DENY
  else if bool_decide (normalized ∈ ["manual"; "review"; "manual_review"; "needs_review"]%string)
       then MANUAL_REVIEW
  else UNKNOWN.

Definition role_of_value (value : string) : ServiceRole :=
  if String.eqb value "core" then ROLE_CORE
  else if String.eqb value "optional" then ROLE_OPTIONAL
  else if String.eqb value "shared" then ROLE_SHARED
  else ROLE_UNKNOWN.

Section Payload.
Context `{PyRepr}.

Definition _normalize_tag (value : option json) (allowed : list string) : string :=
  let normalized := str_replace " " "_" (str_lower (str_strip (py_str_or value "unknown"))) in
  if bool_decide (normalized ∈ allowed) then normalized else "unknown".

Definition _normalize_service_role (value : option json) : ServiceRole :=
  role_of_value (str_lower (str_strip (py_str_or value "unknown"))).

(** [min(maximum, max(minimum, int(float(value))))], [default] when that raises
    [TypeError] or [ValueError]. *)
Definition _bounded_int (value : option json) (minimum maximum default : Z) : result answer_exn Z :=
  match value with
  | None => Ok default
  | Some v => match py_float_of v with
              | Ok (Fin q) => Ok (Z.min maximum (Z.max minimum (py_int q)))
              | Ok (Inf _) | Err ConversionOverflowError => Err AnswerOverflow
              | Ok NaN | Err _ => Ok default
              end
  end.

Definition _bounded_float (value : option json) (minimum maximum : Q) : result answer_exn Q :=
  match value with
  | None => Ok minimum
  | Some v => match py_float_of v with
              | Ok f => Ok (clamp minimum maximum f)
              | Err ConversionOverflowError => Err AnswerOverflow
              | Err _ => Ok minimum
              end
  end.

Definition _as_bool (value : option json) (default : bool) : bool :=
  match value with
  | Some (JBool b) => b
  | Some (JInt _ as v) | Some (JFloat _ as v) => py_truthy v
  | _ => let normalized := str_lower (str_strip (py_str_or value "")) in
         if bool_decide (normalized ∈ ["true"; "yes"; "1"; "on"]%string) then true
         else if bool_decide (normalized ∈ ["false"; "no"; "0"; "off"]%string) then false
         else default
  end.

Definition tag_values (raw_tags : option json) : list json :=
  match raw_tags with
  | Some (JString t) => JString <$> str_split "," (str_replace ";" "," t)
  | Some (JArray l) => l
  | _ => []
  end.

Definition payload_tags (payload : list (string * json)) (allowed : list string) (category : string) : list string :=
  let tags := fromkeys (filter (λ t, t ≠ "unknown"%string)
                ((λ v, _normalize_tag (Some v) allowed) <$> tag_values (dict_get "tags" payload))) in
  let tags := if bool_decide (category ∈ tags) then tags else category :: tags in
  match tags with [] => ["unknown"%string] | _ => tags end.

Definition _classification_from_payload (payload : list (string * json)) (allowed_tags : list string)
    (domain provider raw_text : string) (llm_options : LLMOptions) : result answer_exn Classification :=
  let get key := dict_get key payload in
  let allowed := allowed_tag_list allowed_tags in
  let category := _normalize_tag (get "category"%string) allowed in
  let tags := payload_tags payload allowed category in
  let details := str_strip (py_str_or (get "details"%string) "") in
  let short := str_take 500 (str_strip (py_str_or (get "short"%string) "")) in
  let short := if str_nonempty short then short
               else str_or (str_take 180 details) (str_take 180 raw_text) in
  let details := if str_nonempty details then details else str_or short raw_text in
  confidence ← _bounded_float (get "confidence"%string) 0 1;
  breakage_risk ← _bounded_int (get "breakage_risk"%string) 0 100 50;
  let review_reason := str_strip (py_str_or (get "review_reason"%string) "") in
  let needs_review := _as_bool (get "needs_review"%string) true in
  let below := qltb confidence (lm_review_confidence_threshold llm_options) in
  let needs_review := needs_review || below in
  let review_reason := if below
    then str_or review_reason "Classification confidence is below the configured threshold."
    else review_reason in
  let service_role := _normalize_service_role (get "service_role"%string) in
  let sensitive := bool_decide (service_role = ROLE_CORE ∨ service_role = ROLE_SHARED) && (50 <=? breakage_risk) in
  let needs_review := needs_review || sensitive in
  let review_reason := if sensitive
    then str_or review_reason "Blocking may affect a core or shared service." else review_reason in
  privacy_risk ← _bounded_int (get "privacy_risk"%string) 0 100 0;
  security_risk ← _bounded_int (get "security_risk"%string) 0 100 0;
  recheck_after_days ← _bounded_int (get "recheck_after_days"%string) 1 3650 (lm_default_recheck_days llm_options);
  Ok (mkClassification (_normalize_domain domain) (_normalize_policy (py_str_or (get "policy"%string) ""))
        category short details provider tags (str_strip (py_str_or (get "service"%string) "")) service_role
        privacy_risk security_risk breakage_risk confidence needs_review review_reason recheck_after_days raw_text).

(** * The whole answer *)

(** The domain a result is about; an answer for one domain may leave it blank
    after normalisation. *)
Definition item_domain (expected : list string) (item : list (string * json)) : string :=
  let domain := _normalize_domain (py_str_or (dict_get "domain" item) "") in
  match expected with
  | [only] => if str_nonempty domain then domain else only
  | _ => domain
  end.

Definition parse_item (expected tags : list string) (provider raw : string) (llm_options : LLMOptions)
    (parsed : list (string * Classification)) (item : json) : result answer_exn (list (string * Classification)) :=
  match item with
  | JObject fields =>
      let domain := item_domain expected fields in
      if negb (bool_decide (domain ∈ expected))
      then Err (LLMResponseError ("Unexpected domain in LLM response: " +:+ str_or domain "<empty>")%string)
      else match dict_get domain parsed with
           | Some _ => Err (LLMResponseError ("Duplicate domain in LLM response: " +:+ domain)%string)
           | None =>
               c ← _classification_from_payload fields tags domain provider raw llm_options;
               Ok (parsed ++ [(domain, c)])
           end
  | _ => Err (LLMResponseError "A classification result is not an object")
  end.

Fixpoint parse_items (expected tags : list string) (provider raw : string) (llm_options : LLMOptions)
    (parsed : list (string * Classification)) (items : list json)
    : result answer_exn (list (string * Classification)) :=
  match items with
  | [] => Ok parsed
  | item :: items => parsed ← parse_item expected tags provider raw llm_options parsed item;
                     parse_items expected tags provider raw llm_options parsed items
  end.

Definition parse_batch_classifications (text : string) (expected_domains tags : list string) (provider : string)
    (llm_options : LLMOptions) : result answer_exn (list Classification) :=
  let raw := str_strip text in
  if negb (str_nonempty raw) then Err (LLMResponseError "LLM returned an empty response")
  else
    match _parse_json_object raw with
    | None => Err (LLMResponseError "LLM response is not valid JSON")
    | Some payload =>
        _ ← _validate_batch_payload payload tags;
        let results := match dict_get "results" payload with Some (JArray l) => l | _ => [] end in
        let expected := _normalize_domain <$> expected_domains in
        parsed ← parse_items expected tags provider raw llm_options [] results;
        match filter (λ d, dict_get d parsed = None) expected with
        | [] => Ok (omap (λ d, dict_get d parsed) expected)
        | missing => Err (LLMResponseError ("LLM response omitted domains: " +:+ str_join ", " missing)%string)
        end
    end.
End Payload.

(** * What a schema means

    The keywords that [classification_schema] uses, as JSON Schema defines them:
    numbers are compared by value, and a number without a fraction is an
    integer however it is written. *)

Definition json_number (v : json) : option Q :=
  match v with JInt z => Some (zq z) | JFloat (Fin q) => Some q | _ => None end.

Fixpoint json_eqb (a b : json) : bool :=
  match a, b with
  | JNull, JNull => true
  | JBool a, JBool b => Bool.eqb a b
  | JString a, JString b => String.eqb a b
  | JArray l1, JArray l2 =>
      (fix go l1 l2 := match l1, l2 with
                       | [], [] => true
                       | a :: l1, b :: l2 => json_eqb a b && go l1 l2
                       | _, _ => false
                       end) l1 l2
  | JObject d1, JObject d2 =>
      Nat.eqb (length d1) (length d2) &&
      (fix go d1 := match d1 with
                    | [] => true
                    | (k, a) :: d1 => match dict_get k d2 with Some b => json_eqb a b | None => false end && go d1
                    end) d1
  | _, _ => match json_number a, json_number b with Some p, Some q => Qeq_bool p q | _, _ => false end
  end.

Definition has_type (type : string) (v : json) : bool :=
  match v with
  | JString _ => String.eqb type "string"
  | JBool _ => String.eqb type "boolean"
  | JArray _ => String.eqb type "array"
  | JObject _ => String.eqb type "object"
  | JInt _ => String.eqb type "integer" || String.eqb type "number"
  | JFloat (Fin q) => String.eqb type "number" || String.eqb type "integer" && Qeq_bool q (zq (Qfloor q))
  | _ => false
  end.

Fixpoint distinct_json (l : list json) : bool :=
  match l with [] => true | v :: l => negb (existsb (json_eqb v) l) && distinct_json l end.

(** The keywords that hold no schemas. *)
Definition keyword_valid (properties : list string) (keyword : string) (arg v : json) : bool :=
  match v, arg with
  | _, JString type => if String.eqb keyword "type" then has_type type v else true
  | JObject fields, JBool extra =>
      if String.eqb keyword "additionalProperties" then extra || forallb (λ p, bool_decide (p.1 ∈ properties)) fields
      else true
  | JObject fields, JArray names =>
      if String.eqb keyword "required"
      then forallb (λ n, match n with JString k => bool_decide (k ∈ fields.*1) | _ => false end) names
      else if String.eqb keyword "enum" then existsb (json_eqb v) names else true
  | JArray l, JBool unique => if String.eqb keyword "uniqueItems" then negb unique || distinct_json l else true
  | JArray l, JInt n => if String.eqb keyword "minItems" then n <=? Z.of_nat (length l) else true
  | _, JArray values => if String.eqb keyword "enum" then existsb (json_eqb v) values else true
  | _, JInt n =>
      match json_number v with
      | Some q => if String.eqb keyword "minimum" then Qle_bool (zq n) q
                  else if String.eqb keyword "maximum" then Qle_bool q (zq n) else true
      | None => true
      end
  | _, _ => true
  end.

Definition property_names (schema : list (string * json)) : list string :=
  match dict_get "properties" schema with Some (JObject ps) => ps.*1 | _ => [] end.

Fixpoint schema_valid (schema v : json) : bool :=
  match schema with
  | JObject keywords =>
      (fix go l := match l with
                   | [] => true
                   | (keyword, arg) :: l =>
                       keyword_valid (property_names keywords) keyword arg v &&
                       (if String.eqb keyword "items"
                        then match v with JArray vs => forallb (schema_valid arg) vs | _ => true end
                        else if String.eqb keyword "properties" then
                          match arg, v with
                          | JObject ps, JObject fields =>
                              (fix each ps := match ps with
                                              | [] => true
                                              | (k, sub) :: ps =>
                                                  match dict_get k fields with
                                                  | Some w => schema_valid sub w
                                                  | None => true
                                                  end && each ps
                                              end) ps
                          | _, _ => true
                          end
                        else true) && go l
                   end) keywords
  | _ => true
  end.

(** What the validator asks for beyond the schema: numbers written as integers,
    a domain that is not blank, and the category among the tags. *)
Definition is_int_literal (v : option json) : bool := match v with Some (JInt _) => true | _ => false end.

Definition stricter_item (item : json) : bool :=
  match item with
  | JObject fields =>
      forallb (λ f, is_int_literal (dict_get f fields))
        ["privacy_risk"; "security_risk"; "breakage_risk"; "recheck_after_days"]%string &&
      str_nonempty (str_strip (json_text (dict_get "domain" fields))) &&
      match dict_get "tags" fields, dict_get "category" fields with
      | Some (JArray tags), Some category => existsb (json_eqb category) tags
      | _, _ => false
      end
  | _ => false
  end.

Definition results_of (payload : list (string * json)) : list json :=
  match dict_get "results" payload with Some (JArray l) => l | _ => [] end.

(** * The validator, declaratively *)

(** The fields of an accepted result. *)
Record valid_fields (allowed : gset string) (fields : list (string * json)) : Prop := {
  vf_keys : ∀ k, k ∈ fields.*1 ↔ k ∈ _RESULT_FIELDS;
  vf_strings : ∀ f, f ∈ _STRING_FIELDS → ∃ s, dict_get f fields = Some (JString s);
  vf_domain : str_strip (json_text (dict_get "domain" fields)) ≠ ""%string;
  vf_policy : json_text (dict_get "policy" fields) ∈ ["allow"; "deny"; "manual_review"]%string;
  vf_category : json_text (dict_get "category" fields) ∈ allowed;
  vf_role : json_text (dict_get "service_role" fields) ∈ ["core"; "optional"; "shared"; "unknown"]%string;
  vf_tags : ∃ tags, dict_get "tags" fields = Some (JArray (JString <$> tags)) ∧ tags ≠ [] ∧ NoDup tags ∧
    (∀ t, t ∈ tags → t ∈ allowed) ∧ json_text (dict_get "category" fields) ∈ tags;
  vf_risks : ∀ f, f ∈ ["privacy_risk"; "security_risk"; "breakage_risk"]%string →
    ∃ z, dict_get f fields = Some (JInt z) ∧ 0 ≤ z ≤ 100;
  vf_confidence : unit_number (dict_get "confidence" fields) = true;
  vf_needs_review : ∃ b, dict_get "needs_review" fields = Some (JBool b);
  vf_recheck : ∃ z, dict_get "recheck_after_days" fields = Some (JInt z) ∧ 1 ≤ z ≤ 3650
}.

Lemma check_ok b m : check b m = Ok tt ↔ b = true.
Proof. by destruct b. Qed.

Lemma bind_unit_ok {E} (m : result E unit) (k : unit → result E unit) :
  (m ≫= k) = Ok tt ↔ m = Ok tt ∧ k tt = Ok tt.
Proof. destruct m as [[]|e]; cbn; naive_solver. Qed.

Lemma check_all_ok {A} (f : A → result answer_exn unit) l :
  check_all (f <$> l) = Ok tt ↔ ∀ x, x ∈ l → f x = Ok tt.
Proof.
  unfold check_all. induction l as [|x l IH]; cbn [fmap list_fmap foldr].
  - split; [by intros _ ? ?%elem_of_nil|done].
  - rewrite bind_unit_ok, IH. set_solver.
Qed.

Lemma is_json_string_true v : is_json_string v = true ↔ ∃ s, v = Some (JString s).
Proof. destruct v as [[]|]; simpl; naive_solver. Qed.

Lemma is_json_bool_true v : is_json_bool v = true ↔ ∃ b, v = Some (JBool b).
Proof. destruct v as [[]|]; simpl; naive_solver. Qed.

Lemma int_in_true low high v : int_in low high v = true ↔ ∃ z, v = Some (JInt z) ∧ low ≤ z ≤ high.
Proof.
  split.
  - destruct v as [[]|]; simpl; try done. intros H. exists z. split; [done|lia].
  - intros (z & -> & Hz). simpl. lia.
Qed.

(** A list of strings with a member in a set. *)
Lemma allowed_strings allowed l :
  forallb (is_allowed allowed) l = true ↔ ∃ tags, l = JString <$> tags ∧ ∀ t, t ∈ tags → t ∈ allowed.
Proof.
  rewrite forallb_forall. split.
  - intros H. exists ((λ v, json_text (Some v)) <$> l).
    assert (∀ v, v ∈ l → is_allowed allowed v = true) as H' by (intros v Hv; by apply H, list_elem_of_In).
    clear H. split.
    + rewrite <-list_fmap_compose. induction l as [|v l IH]; [done|]. rewrite fmap_cons, <-IH by set_solver.
      f_equal. specialize (H' v ltac:(left)). by destruct v.
    + intros t Ht. apply list_elem_of_fmap in Ht as (v & -> & Hv). specialize (H' v Hv).
      destruct v; try done. by apply bool_decide_eq_true in H'.
  - intros (tags & -> & H) v Hv. apply list_elem_of_In, list_elem_of_fmap in Hv as (t & -> & Ht).
    apply bool_decide_eq_true. auto.
Qed.

Lemma texts_of_strings (tags : list string) : (λ v, json_text (Some v)) <$> (JString <$> tags) = tags.
Proof. rewrite <-list_fmap_compose. apply list_fmap_id. Qed.

Lemma validate_tags_ok (get_tags : option json) allowed category (m1 m2 m3 m4 : string) :
  match get_tags with
  | Some (JArray ((_ :: _) as l)) =>
      _ ← check (forallb (is_allowed allowed) l) m1;
      _ ← check (bool_decide (NoDup ((λ v, json_text (Some v)) <$> l))) m2;
      check (bool_decide (category ∈ (λ v, json_text (Some v)) <$> l)) m3
  | _ => Err (LLMResponseError m4)
  end = Ok tt ↔
  ∃ tags, get_tags = Some (JArray (JString <$> tags)) ∧ tags ≠ [] ∧ NoDup tags ∧
    (∀ t, t ∈ tags → t ∈ allowed) ∧ category ∈ tags.
Proof.
  split.
  - destruct get_tags as [[| | | | |[|v l]|]|]; try done.
    rewrite !bind_unit_ok, !check_ok, !bool_decide_eq_true, allowed_strings.
    intros ((tags & E & Hall) & Hnd & Hc). rewrite E, texts_of_strings in Hnd, Hc.
    exists tags. rewrite E. split_and!; try done. by intros ->.
  - intros (tags & -> & Hne & Hnd & Hall & Hc). destruct tags as [|t tags]; [done|].
    cbn [fmap list_fmap]. change (JString t :: list_fmap string json JString tags) with (JString <$> (t :: tags)).
    rewrite !bind_unit_ok, !check_ok, !bool_decide_eq_true, allowed_strings, texts_of_strings.
    split_and!; [by exists (t :: tags)|done|done].
Qed.

Lemma oversized_no_unit v : oversized v = true → unit_number v = false.
Proof.
  destruct v as [[| |z| | | |]|]; cbn [oversized unit_number]; try done. intros Hz%negb_true_iff%Z.ltb_ge.
  destruct (Z.leb_spec 0 z), (Z.leb_spec z 1); try done. assert (1 < float_limit) by done. lia.
Qed.

Lemma check_confidence_ok v m : check_confidence v m = Ok tt ↔ unit_number v = true.
Proof.
  unfold check_confidence. destruct (oversized v) eqn:E; [|apply check_ok].
  apply oversized_no_unit in E. by rewrite E.
Qed.

Lemma validate_result_ok allowed index item :
  _validate_result allowed index item = Ok tt ↔ ∃ fields, item = JObject fields ∧ valid_fields allowed fields.
Proof.
  destruct item as [| | | | | |fields]; try (split; [done|by intros (? & ? & _)]).
  cbn [_validate_result]. rewrite !bind_unit_ok, !check_ok, !bool_decide_eq_true. unfold _validate_result_types.
  cbn zeta. rewrite !bind_unit_ok, !check_all_ok, check_confidence_ok, !check_ok, !bool_decide_eq_true, validate_tags_ok.
  rewrite !Forall_forall. split.
  - intros (Hmiss & Hextra & Hstr & Hdom & Hpol & Hcat & Hrole & Htags & Hrisk & Hconf & Hrev & Hre).
    exists fields. split; [done|]. constructor; try done.
    + split; auto.
    + intros f Hf. specialize (Hstr f Hf). by apply check_ok, is_json_string_true in Hstr.
    + by destruct (str_strip _).
    + intros f Hf. specialize (Hrisk f Hf). by apply check_ok, int_in_true in Hrisk.
    + by apply is_json_bool_true.
    + by apply int_in_true.
  - intros (fields' & [= <-] & [Hkeys Hstr Hdom Hpol Hcat Hrole Htags Hrisk Hconf Hrev Hre]).
    split_and!; try done.
    + intros k Hk. by apply Hkeys.
    + intros k Hk. by apply Hkeys.
    + intros f Hf. by apply check_ok, is_json_string_true, Hstr.
    + by destruct (str_strip _).
    + intros f Hf. by apply check_ok, int_in_true, Hrisk.
    + by apply is_json_bool_true.
    + by apply int_in_true.
Qed.

Lemma validate_results_ok allowed index results :
  _validate_results allowed index results = Ok tt ↔
  ∀ item, item ∈ results → ∃ fields, item = JObject fields ∧ valid_fields allowed fields.
Proof.
  revert index. induction results as [|item results IH]; intros index; cbn [_validate_results].
  - split; [by intros _ ? ?%elem_of_nil|done].
  - rewrite bind_unit_ok, validate_result_ok, IH. set_solver.
Qed.

(** An accepted payload. *)
Record valid_payload (tags : list string) (payload : list (string * json)) : Prop := {
  vp_keys : ∀ k, k ∈ payload.*1 ↔ k ∈ top_level_fields;
  vp_version : is_version_one (dict_get "schema_version" payload) = true;
  vp_results : dict_get "results" payload = Some (JArray (results_of payload));
  vp_items : ∀ item, item ∈ results_of payload →
    ∃ fields, item = JObject fields ∧ valid_fields (allowed_tag_set tags) fields
}.

Lemma validate_payload_ok payload tags :
  _validate_batch_payload payload tags = Ok tt ↔ valid_payload tags payload.
Proof.
  unfold _validate_batch_payload. rewrite !bind_unit_ok, !check_ok, !bool_decide_eq_true, !Forall_forall. split.
  - intros (Hmiss & Hextra & Hver & Hres). destruct (dict_get "results" payload) as [[]|] eqn:E; try done.
    pose proof (proj1 (validate_results_ok _ _ _) Hres) as Hitems. constructor; try done.
    + split; auto.
    + unfold results_of. by rewrite E.
    + unfold results_of. by rewrite E.
  - intros [Hkeys Hver Hres Hitems]. rewrite Hres. split_and!; try done.
    + intros k Hk. by apply Hkeys.
    + intros k Hk. by apply Hkeys.
    + by apply validate_results_ok.
Qed.

(** * The schema, keyword by keyword *)

Lemma schema_string v : schema_valid (typed "string" []) v = true ↔ ∃ s, v = JString s.
Proof. destruct v as [| | |[]| | |]; cbn; naive_solver. Qed.

Lemma schema_boolean v : schema_valid (typed "boolean" []) v = true ↔ ∃ b, v = JBool b.
Proof. destruct v as [| | |[]| | |]; cbn; naive_solver. Qed.

Lemma enumerated values s :
  existsb (json_eqb (JString s)) (JString <$> values) = true ↔ s ∈ values.
Proof.
  rewrite existsb_exists. split.
  - intros (v & Hv & Heq). apply list_elem_of_In, list_elem_of_fmap in Hv as (t & -> & Ht).
    cbn in Heq. apply String.eqb_eq in Heq as ->. done.
  - intros Hs. exists (JString s). split; [by apply list_elem_of_In, list_elem_of_fmap_2|].
    cbn. apply String.eqb_refl.
Qed.

Lemma schema_enumeration values v :
  schema_valid (typed "string" [enumeration values]) v = true ↔ ∃ s, v = JString s ∧ s ∈ values.
Proof.
  split.
  - destruct v as [| | |[]| | |]; cbn; try done. rewrite !andb_true_r. intros H. exists s. split; [done|].
    by apply enumerated.
  - intros (s & -> & Hs). cbn. rewrite !andb_true_r. by apply enumerated.
Qed.

(** A literal integer in a range. *)
Lemma schema_integer low high v :
  is_int_literal (Some v) = true →
  schema_valid (typed "integer" (range low high)) v = true ↔ ∃ z, v = JInt z ∧ low ≤ z ≤ high.
Proof.
  destruct v as [| |z| | | |]; try done. intros _. cbn. rewrite !andb_true_r, andb_true_iff.
  rewrite !qleb_true, !zq_le. naive_solver.
Qed.

Lemma schema_unit_number v :
  schema_valid (typed "number" (range 0 1)) v = true ↔ unit_number (Some v) = true.
Proof.
  destruct v as [| |z|[q| |]| | |]; cbn; try done; rewrite !andb_true_r, ?andb_true_iff, !qleb_true; [|done].
  change 0%Q with (zq 0). rewrite !zq_le. lia.
Qed.

Lemma schema_version_one v :
  schema_valid (typed "integer" [("enum"%string, JArray [JInt 1])]) v = true ↔ is_version_one (Some v) = true.
Proof.
  destruct v as [| |z|[q| |]| | |]; cbn -[zq Qeq_bool Qfloor]; try done; rewrite ?andb_true_r, ?orb_false_r.
  - rewrite Qeq_bool_iff, Z.eqb_eq. apply inject_Z_injective.
  - split; [by intros [_ H]%andb_true_iff|]. intros H. apply Qeq_bool_iff in H. rewrite andb_true_iff, !Qeq_bool_iff.
    split; [rewrite H; reflexivity|exact H].
Qed.

Lemma distinct_strings tags : distinct_json (JString <$> tags) = true ↔ NoDup tags.
Proof.
  induction tags as [|t tags IH]; cbn [fmap list_fmap distinct_json].
  - split; [intros _; constructor|done].
  - rewrite andb_true_iff, negb_true_iff, NoDup_cons, <-IH, <-not_true_iff_false.
    change (list_fmap string json JString tags) with (JString <$> tags). by rewrite enumerated.
Qed.


Lemma schema_tags allowed v :
  schema_valid (typed "array" [("minItems", JInt 1); ("uniqueItems", JBool true);
                               ("items", typed "string" [enumeration allowed])]%string) v = true ↔
  ∃ tags, v = JArray (JString <$> tags) ∧ tags ≠ [] ∧ NoDup tags ∧ ∀ t, t ∈ tags → t ∈ allowed.
Proof.
  assert (∀ l, schema_valid (typed "array" [("minItems", JInt 1); ("uniqueItems", JBool true);
      ("items", typed "string" [enumeration allowed])]%string) (JArray l) =
    (1 <=? Z.of_nat (length l)) && (distinct_json l && forallb (schema_valid (typed "string" [enumeration allowed])) l))
    as Hl.
  { intros l. change (schema_valid (typed "array" [("minItems", JInt 1); ("uniqueItems", JBool true);
      ("items", typed "string" [enumeration allowed])]%string) (JArray l)) with
      (((1 <=? Z.of_nat (length l)) && true && ((distinct_json l && true) &&
        (true && forallb (schema_valid (typed "string" [enumeration allowed])) l && true)))).
    by rewrite !andb_true_r, andb_true_l. }
  split.
  - destruct v as [| | |[]| |l|]; try done. rewrite Hl, !andb_true_iff, forallb_forall, Z.leb_le.
    intros (Hlen & Hd & Hall).
    assert (∃ tags, l = JString <$> tags ∧ ∀ t, t ∈ tags → t ∈ allowed) as (tags & -> & Ht).
    { clear Hlen Hd. induction l as [|v l IH]; [by exists []; split; [|intros ? ?%elem_of_nil]|].
      destruct IH as (tags & -> & Htags); [intros; apply Hall; by right|].
      specialize (Hall v ltac:(left; done)). apply schema_enumeration in Hall as (s & -> & Hs).
      exists (s :: tags). split; [done|]. set_solver. }
    exists tags. apply distinct_strings in Hd. split_and!; try done. by intros ->.
  - intros (tags & -> & Hne & Hd%distinct_strings & Ht). rewrite Hl, !andb_true_iff, forallb_forall, Z.leb_le.
    split_and!; [|done|].
    + destruct tags; [done|]. cbn [fmap list_fmap length]. lia.
    + intros v Hv. apply list_elem_of_In, list_elem_of_fmap in Hv as (t & -> & Hin).
      apply schema_enumeration. eauto.
Qed.

Lemma schema_object required properties v :
  schema_valid (object_schema required properties) v = true ↔
  ∃ fields, v = JObject fields ∧ (∀ k, k ∈ fields.*1 → k ∈ properties.*1) ∧
    (∀ k, k ∈ required → k ∈ fields.*1) ∧
    ∀ k sub w, (k, sub) ∈ properties → dict_get k fields = Some w → schema_valid sub w = true.
Proof.
  set (each := fix each (ps fields : list (string * json)) :=
    match ps with
    | [] => true
    | (k, sub) :: ps => match dict_get k fields with Some w => schema_valid sub w | None => true end && each ps fields
    end).
  assert (∀ fields, schema_valid (object_schema required properties) (JObject fields) =
    (forallb (λ p, bool_decide (p.1 ∈ properties.*1)) fields &&
     (forallb (λ n, match n with JString k => bool_decide (k ∈ fields.*1) | _ => false end) (JString <$> required) &&
      each properties fields))) as Hv.
  { intros fields. unfold object_schema, typed. cbn [schema_valid keyword_valid String.eqb Ascii.eqb Bool.eqb].
    cbn [property_names dict_get String.eqb Ascii.eqb Bool.eqb has_type orb]. rewrite !andb_true_r, !andb_true_l.
    f_equal. f_equal. induction properties as [|[k sub] ps IH]; [done|]. cbn [each]. by rewrite <-IH. }
  assert (∀ ps fields, each ps fields = true ↔
    ∀ k sub w, (k, sub) ∈ ps → dict_get k fields = Some w → schema_valid sub w = true) as Heach.
  { intros ps fields. induction ps as [|[k sub] ps IH]; cbn [each].
    - split; [by intros _ ? ? ? ?%elem_of_nil|done].
    - rewrite andb_true_iff, IH. split.
      + intros [H1 H2] k' sub' w [[= -> ->]|Hin]%elem_of_cons Hw; [by rewrite Hw in H1|by eapply H2].
      + intros H. split; [|intros k' sub' w Hin Hw; eapply H; [by right|done]].
        destruct (dict_get k fields) as [w|] eqn:E; [|done]. eapply H; [by left|done]. }
  split.
  - destruct v as [| | |[]| | |fields]; try done. rewrite Hv, !andb_true_iff, !forallb_forall, Heach.
    intros (H1 & H2 & H3). exists fields. split_and!; try done.
    + intros k Hk. apply list_elem_of_fmap in Hk as (p & -> & Hp). apply list_elem_of_In, H1 in Hp.
      by apply bool_decide_eq_true in Hp.
    + intros k Hk. specialize (H2 (JString k)). apply bool_decide_eq_true in H2; [done|].
      by apply list_elem_of_In, list_elem_of_fmap_2.
  - intros (fields & -> & H1 & H2 & H3). rewrite Hv, !andb_true_iff, !forallb_forall, Heach. split_and!; try done.
    + intros p Hp. apply bool_decide_eq_true, H1, list_elem_of_fmap_2. by apply list_elem_of_In.
    + intros n Hn. apply list_elem_of_In, list_elem_of_fmap in Hn as (k & -> & Hk).
      by apply bool_decide_eq_true, H2.
Qed.

(** * The validator and the schema agree *)

Lemma dict_get_key {A} k (d : list (string * A)) : k ∈ d.*1 ↔ is_Some (dict_get k d).
Proof.
  induction d as [|[k' v] d IH]; cbn [dict_get fmap list_fmap].
  - split; [by intros ?%elem_of_nil|by intros [? ?]].
  - rewrite elem_of_cons. destruct (String.eqb_spec k' k) as [->|Hne]; [split; [eauto|auto]|].
    fold (fst <$> d). rewrite IH. simpl. naive_solver.
Qed.

Lemma elem_of_allowed tags t : t ∈ allowed_tag_list tags ↔ t ∈ allowed_tag_set tags.
Proof.
  unfold allowed_tag_list, allowed_tag_set. rewrite elem_of_union, elem_of_singleton, elem_of_list_to_set.
  case_bool_decide as H; [|rewrite elem_of_app, list_elem_of_singleton]; rewrite elem_of_fromkeys in *;
    naive_solver.
Qed.

Lemma same_string s v : json_eqb (JString s) v = true ↔ v = JString s.
Proof.
  split; [|intros ->; apply String.eqb_refl]. destruct v as [| | |[]| | |]; try done. cbn.
  by intros ->%String.eqb_eq.
Qed.

(** The conditions of the validator beyond the schema. *)
Lemma stricter_item_ok fields :
  (∀ k, k ∈ _RESULT_FIELDS → is_Some (dict_get k fields)) →
  stricter_item (JObject fields) = true ↔
  (∀ f, f ∈ ["privacy_risk"; "security_risk"; "breakage_risk"; "recheck_after_days"]%string →
     is_int_literal (dict_get f fields) = true) ∧
  str_strip (json_text (dict_get "domain" fields)) ≠ ""%string ∧
  ∃ tags category, dict_get "tags" fields = Some (JArray tags) ∧ dict_get "category" fields = Some category ∧
    existsb (json_eqb category) tags = true.
Proof.
  intros Hkeys. cbn [stricter_item]. rewrite !andb_true_iff, forallb_forall. split.
  - intros [[H1 H2] H3]. split_and!.
    + intros f Hf. by apply H1, list_elem_of_In.
    + by destruct (str_strip _).
    + destruct (dict_get "tags" fields) as [[]|]; try done. destruct (dict_get "category" fields); [|done]. eauto.
  - intros (H1 & H2 & tags & category & -> & -> & H3). split; [split|done].
    + intros f Hf. by apply H1, list_elem_of_In.
    + by destruct (str_strip _).
Qed.

(** The properties of a valid result, one by one. *)
Lemma valid_fields_schema tags fields :
  valid_fields (allowed_tag_set tags) fields →
  ∀ k sub w, (k, sub) ∈ result_properties (allowed_tag_list tags) → dict_get k fields = Some w →
  schema_valid sub w = true.
Proof.
  intros [_ Hstr _ Hpol Hcat Hrole (ts & Hts & Hne & Hnd & Hall & _) Hrisk Hconf [b Hb] (n & Hn & Hn')].
  assert (∀ f w, f ∈ _STRING_FIELDS → dict_get f fields = Some w → ∃ s, w = JString s ∧ json_text (dict_get f fields) = s)
    as Htext.
  { intros f w Hf Hw. destruct (Hstr f Hf) as [s Hs]. rewrite Hw in *. simplify_eq. by exists s. }
  assert (∀ f w, f ∈ ["privacy_risk"; "security_risk"; "breakage_risk"]%string → dict_get f fields = Some w →
    schema_valid (typed "integer" (range 0 100)) w = true) as Hint.
  { intros f w Hf Hw. destruct (Hrisk f Hf) as (z & Hz & Hr). rewrite Hw in Hz. simplify_eq.
    apply schema_integer; [done|eauto]. }
  assert (∀ f w values, f ∈ _STRING_FIELDS → dict_get f fields = Some w → json_text (dict_get f fields) ∈ values →
    schema_valid (typed "string" [enumeration values]) w = true) as Henum.
  { intros f w values Hf Hw Hin. destruct (Htext f w Hf Hw) as (s & -> & Hs). apply schema_enumeration.
    exists s. split; [done|]. by rewrite <-Hs. }
  assert (∀ f w, f ∈ _STRING_FIELDS → dict_get f fields = Some w → schema_valid (typed "string" []) w = true) as Hany.
  { intros f w Hf Hw. destruct (Htext f w Hf Hw) as (s & -> & _). by apply schema_string; exists s. }
  assert (∀ f, bool_decide (f ∈ _STRING_FIELDS) = true → f ∈ _STRING_FIELDS) as Hdec
    by (intros f; apply bool_decide_eq_true).
  assert (∀ f l, bool_decide (f ∈ l) = true → f ∈ (l : list string)) as Hdec'
    by (intros f l; apply bool_decide_eq_true).
  intros k sub w Hk Hw. unfold result_properties in Hk.
  repeat (apply elem_of_cons in Hk as [[= -> ->]|Hk];
    [first [ eapply Hany; [|exact Hw]; apply Hdec; reflexivity
           | eapply Henum; [|exact Hw|first [exact Hpol|exact Hrole|by apply elem_of_allowed]]; apply Hdec; reflexivity
           | eapply Hint; [|exact Hw]; apply Hdec'; reflexivity
           | idtac ]|]); [| | | |by apply elem_of_nil in Hk].
  - rewrite Hts in Hw. injection Hw as <-. apply schema_tags. exists ts. split_and!; try done.
    intros t Ht. by apply elem_of_allowed, Hall.
  - apply schema_unit_number. by rewrite Hw in Hconf.
  - rewrite Hb in Hw. injection Hw as <-. apply schema_boolean. eauto.
  - rewrite Hn in Hw. injection Hw as <-. apply schema_integer; [done|eauto].
Qed.

Lemma listed (f : string) (l : list string) : bool_decide (f ∈ l) = true → f ∈ l.
Proof. apply bool_decide_eq_true. Qed.

Lemma schema_valid_fields tags fields :
  (∀ k, k ∈ fields.*1 → k ∈ _RESULT_FIELDS) → (∀ k, k ∈ _RESULT_FIELDS → k ∈ fields.*1) →
  (∀ k sub w, (k, sub) ∈ result_properties (allowed_tag_list tags) → dict_get k fields = Some w →
     schema_valid sub w = true) →
  stricter_item (JObject fields) = true → valid_fields (allowed_tag_set tags) fields.
Proof.
  intros Hk1 Hk2 Hsub Hstrict.
  assert (∀ k, bool_decide (k ∈ _RESULT_FIELDS) = true → ∃ w, dict_get k fields = Some w) as Hget.
  { intros k Hk%bool_decide_eq_true%Hk2. by apply dict_get_key. }
  apply stricter_item_ok in Hstrict as (Hints & Hdom & ts & category & Hts & Hcat & Hin);
    [|intros k Hk; by apply dict_get_key, Hk2].
  assert (∀ k sub, (k, sub) ∈ result_properties (allowed_tag_list tags) → bool_decide (k ∈ _RESULT_FIELDS) = true →
    ∃ w, dict_get k fields = Some w ∧ schema_valid sub w = true) as Hprop.
  { intros k sub Hin' Hk. destruct (Hget k Hk) as [w Hw]. exists w. split; [done|by eapply Hsub]. }
  assert (∀ k, (k, typed "string" []) ∈ result_properties (allowed_tag_list tags) →
    bool_decide (k ∈ _RESULT_FIELDS) = true → ∃ s, dict_get k fields = Some (JString s)) as Hstr.
  { intros k Hp Hk. destruct (Hprop k _ Hp Hk) as (w & Hw & Hv). apply schema_string in Hv as [s ->]. eauto. }
  assert (∀ k values, (k, typed "string" [enumeration values]) ∈ result_properties (allowed_tag_list tags) →
    bool_decide (k ∈ _RESULT_FIELDS) = true → ∃ s, dict_get k fields = Some (JString s) ∧ s ∈ values) as Henum.
  { intros k values Hp Hk. destruct (Hprop k _ Hp Hk) as (w & Hw & Hv).
    apply schema_enumeration in Hv as (s & -> & Hs). eauto. }
  assert (∀ k low high, (k, typed "integer" (range low high)) ∈ result_properties (allowed_tag_list tags) →
    bool_decide (k ∈ _RESULT_FIELDS) = true → is_int_literal (dict_get k fields) = true →
    ∃ z, dict_get k fields = Some (JInt z) ∧ low ≤ z ≤ high) as Hint.
  { intros k low high Hp Hk Hlit. destruct (Hprop k _ Hp Hk) as (w & Hw & Hv). rewrite Hw in Hlit.
    apply schema_integer in Hv as (z & -> & Hz); [eauto|done]. }
  unfold result_properties in *.
  destruct (Henum "policy"%string _ ltac:(do 1 right; left) eq_refl) as (p & Hp & Hp').
  destruct (Henum "category"%string _ ltac:(do 2 right; left) eq_refl) as (c & Hc & Hc').
  destruct (Henum "service_role"%string _ ltac:(do 5 right; left) eq_refl) as (ro & Hro & Hro').
  destruct (Hprop "tags"%string _ ltac:(do 3 right; left) eq_refl) as (w & Hw & Hwv).
  apply schema_tags in Hwv as (names & -> & Hne & Hnd & Hall).
  destruct (Hprop "confidence"%string _ ltac:(do 9 right; left) eq_refl) as (cf & Hcf & Hcv).
  apply schema_unit_number in Hcv.
  destruct (Hprop "needs_review"%string _ ltac:(do 10 right; left) eq_refl) as (nr & Hnr & Hnv).
  apply schema_boolean in Hnv as [b ->].
  rewrite Hw in Hts. injection Hts as <-. rewrite Hc in Hcat. injection Hcat as <-.
  constructor.
  - intros k. split; auto.
  - intros f Hf. unfold _STRING_FIELDS in Hf. 
    repeat (apply elem_of_cons in Hf as [->|Hf]; [first [solve [eauto]|apply Hstr; [do 0 right; left|reflexivity]
      |apply Hstr; [do 4 right; left|reflexivity]|apply Hstr; [do 11 right; left|reflexivity]
      |apply Hstr; [do 13 right; left|reflexivity]|apply Hstr; [do 14 right; left|reflexivity]]|]).
    by apply elem_of_nil in Hf.
  - done.
  - by rewrite Hp.
  - rewrite Hc. by apply elem_of_allowed.
  - by rewrite Hro.
  - exists names. split_and!; try done; [intros t Ht; by apply elem_of_allowed, Hall|].
    rewrite Hc. by apply enumerated.
  - intros f Hf.
    repeat (apply elem_of_cons in Hf as [->|Hf]; [first
      [ apply Hint; [do 6 right; left|reflexivity|apply Hints, listed; reflexivity]
      | apply Hint; [do 7 right; left|reflexivity|apply Hints, listed; reflexivity]
      | apply Hint; [do 8 right; left|reflexivity|apply Hints, listed; reflexivity]]|]).
    by apply elem_of_nil in Hf.
  - by rewrite Hcf.
  - eauto.
  - apply Hint; [do 12 right; left|reflexivity|apply Hints, listed; reflexivity].
Qed.

Lemma valid_item_iff tags item :
  (∃ fields, item = JObject fields ∧ valid_fields (allowed_tag_set tags) fields) ↔
  schema_valid (result_schema (allowed_tag_list tags)) item = true ∧ stricter_item item = true.
Proof.
  unfold result_schema. rewrite schema_object. split.
  - intros (fields & -> & Hv). split.
    + exists fields. split_and!; [done|intros k Hk; by apply (vf_keys _ _ Hv)|intros k Hk; by apply (vf_keys _ _ Hv)|].
      by apply valid_fields_schema.
    + apply stricter_item_ok; [intros k Hk; by apply dict_get_key, (vf_keys _ _ Hv)|].
      destruct Hv as [_ Hstr Hdom _ _ _ (ts & Hts & _ & _ & _ & Hin) Hrisk _ _ (n & Hn & _)]. split_and!; [|done|].
      * intros f Hf. apply list_elem_of_In in Hf. simpl in Hf.
        destruct Hf as [<-|[<-|[<-|[<-|[]]]]]; [| | |by rewrite Hn];
          (edestruct Hrisk as (z & -> & _); [apply listed; reflexivity|done]).
      * destruct (Hstr "category"%string) as [c Hc]; [apply listed; reflexivity|]. rewrite Hc in Hin. exists (JString <$> ts), (JString c).
        split_and!; [done|done|]. by apply enumerated.
  - intros [(fields & -> & Hk1 & Hk2 & Hsub) Hstrict]. exists fields. split; [done|].
    by apply schema_valid_fields.
Qed.

Lemma validate_iff_schema tags payload :
  results_of payload ≠ [] →
  valid_payload tags payload ↔
  schema_valid (classification_schema tags) (JObject payload) = true ∧
  ∀ item, item ∈ results_of payload → stricter_item item = true.
Proof.
  intros Hne. unfold classification_schema. rewrite schema_object.
  set (item_schema := result_schema (allowed_tag_list tags)).
  assert (∀ l, schema_valid (typed "array" [("minItems", JInt 1); ("items", item_schema)]%string) (JArray l) =
    (1 <=? Z.of_nat (length l)) && forallb (schema_valid item_schema) l) as Harray.
  { intros l. change (schema_valid (typed "array" [("minItems", JInt 1); ("items", item_schema)]%string) (JArray l))
      with (((1 <=? Z.of_nat (length l)) && true && (true && forallb (schema_valid item_schema) l && true))).
    by rewrite !andb_true_r, andb_true_l. }
  split.
  - intros [Hkeys Hver Hres Hitems]. split.
    + exists payload. split_and!; [done|intros k Hk; by apply Hkeys|intros k Hk; by apply Hkeys|].
      intros k sub w Hk Hw. apply elem_of_cons in Hk as [[= -> ->]|[[= -> ->]|Hk%elem_of_nil]%elem_of_cons]; [| |done].
      * apply schema_version_one. by rewrite Hw in Hver.
      * rewrite Hres in Hw. injection Hw as <-. rewrite Harray, andb_true_iff, Z.leb_le, forallb_forall. split.
        { destruct (results_of payload); [done|]. cbn [length]. lia. }
        intros item Hin%list_elem_of_In. by apply valid_item_iff, Hitems.
    + intros item Hin. by apply (valid_item_iff tags), Hitems.
  - intros [(fields & [= <-] & Hk1 & Hk2 & Hsub) Hstrict].
    assert (∀ k, bool_decide (k ∈ top_level_fields) = true → is_Some (dict_get k payload)) as Hget
      by (intros k Hk; by apply dict_get_key, Hk2, listed).
    destruct (Hget "schema_version"%string eq_refl) as [v Hv]. destruct (Hget "results"%string eq_refl) as [rs Hrs].
    constructor.
    + intros k. split; auto.
    + rewrite Hv. apply schema_version_one. apply (Hsub "schema_version"%string); [left|done].
    + unfold results_of in *. destruct (dict_get "results" payload) as [[]|]; done.
    + intros item Hin. apply valid_item_iff. split; [|by apply Hstrict].
      assert (schema_valid (typed "array" [("minItems", JInt 1); ("items", item_schema)]%string) rs = true) as Hvalid
        by (apply (Hsub "results"%string); [right; left|done]).
      unfold results_of in *. rewrite Hrs in *. destruct rs as [| | | | |l|]; try done.
      rewrite Harray, andb_true_iff, forallb_forall in Hvalid. by apply Hvalid, list_elem_of_In.
Qed.

(** * A classification from a valid result *)

(** The ranges and the review flags the rest of the program relies on. *)
Record well_typed (tags : list string) (opts : LLMOptions) (c : Classification) : Prop := {
  wt_policy : cl_policy c ≠ UNKNOWN;
  wt_category : cl_category c ∈ allowed_tag_list tags ∧ cl_category c ∈ cl_tags c;
  wt_tags : NoDup (cl_tags c) ∧ ∀ t, t ∈ cl_tags c → t ∈ allowed_tag_list tags;
  wt_privacy : 0 ≤ cl_privacy_risk c ≤ 100;
  wt_security : 0 ≤ cl_security_risk c ≤ 100;
  wt_breakage : 0 ≤ cl_breakage_risk c ≤ 100;
  wt_confidence : (0 <= cl_confidence c <= 1)%Q;
  wt_recheck : 1 ≤ cl_recheck_after_days c ≤ 3650;
  wt_texts : cl_short c ≠ ""%string ∧ cl_details c ≠ ""%string;
  wt_low_confidence : (cl_confidence c < lm_review_confidence_threshold opts)%Q →
    cl_needs_review c = true ∧ cl_review_reason c ≠ ""%string;
  wt_sensitive : cl_service_role c = ROLE_CORE ∨ cl_service_role c = ROLE_SHARED → 50 ≤ cl_breakage_risk c →
    cl_needs_review c = true ∧ cl_review_reason c ≠ ""%string
}.

Section Classified.
Context `{PyRepr}.

Lemma small_float z : -10000 ≤ z ≤ 10000 → (Z.abs z <? float_limit) = true.
Proof. intros Hz. apply Z.ltb_lt. assert (10000 < float_limit) by done. lia. Qed.

Lemma bounded_int_ok z low high default : -10000 ≤ low → high ≤ 10000 →
  low ≤ z ≤ high → _bounded_int (Some (JInt z)) low high default = Ok z.
Proof.
  intros Hl Hh Hz. cbn [_bounded_int py_float_of]. rewrite small_float by lia. f_equal. unfold py_int, zq, inject_Z.
  cbn [Qnum Qden]. rewrite Z.quot_1_r. lia.
Qed.

Lemma normalize_tag_allowed value allowed :
  "unknown"%string ∈ allowed → _normalize_tag value allowed ∈ allowed.
Proof. intros Hu. unfold _normalize_tag. by case_bool_decide. Qed.

Lemma unknown_allowed tags : "unknown"%string ∈ allowed_tag_list tags.
Proof. unfold allowed_tag_list. case_bool_decide; [done|]. apply elem_of_app. right. left. Qed.

Lemma payload_tags_ok payload allowed category :
  "unknown"%string ∈ allowed → category ∈ allowed →
  let tags := payload_tags payload allowed category in
  NoDup tags ∧ category ∈ tags ∧ ∀ t, t ∈ tags → t ∈ allowed.
Proof.
  intros Hu Hc. unfold payload_tags. cbn zeta. set (ts := fromkeys _).
  assert (∀ t, t ∈ ts → t ∈ allowed) as Hts.
  { intros t Ht. unfold ts in Ht. apply elem_of_fromkeys, list_elem_of_filter in Ht as [_ Ht].
    apply list_elem_of_fmap in Ht as (v & -> & _). by apply normalize_tag_allowed. }
  assert (NoDup ts) as Hnd by apply fromkeys_NoDup.
  case_bool_decide as Hin.
  - destruct ts as [|t ts]; [by apply elem_of_nil in Hin|]. done.
  - split_and!; [by constructor|left|]. intros t [->|Ht]%elem_of_cons; auto.
Qed.

Lemma str_take_nonempty n s : (0 < n)%nat → s ≠ ""%string → str_take n s ≠ ""%string.
Proof. by destruct n, s; [lia..| |]. Qed.

Lemma unit_number_bounds v : unit_number (Some v) = true →
  ∃ q, _bounded_float (Some v) 0 1 = Ok q ∧ (0 <= q <= 1)%Q.
Proof.
  assert (∀ f, (0 <= clamp 0 1 f <= 1)%Q) as Hc.
  { intros [q|[]|]; unfold clamp; try (split; lra). destruct (qmax_spec 0 q) as [[? ->]|[? ->]];
    [destruct (qmin_spec 1 q) as [[? ->]|[? ->]]|destruct (qmin_spec 1 0) as [[? ->]|[? ->]]]; split; lra. }
  intros Hv. unfold _bounded_float. destruct v as [| |z|f| | |]; try done; [|eauto].
  cbn [unit_number] in Hv. cbn [py_float_of]. rewrite small_float by lia. eauto.
Qed.

Lemma policy_known s :
  s ∈ ["allow"; "deny"; "manual_review"]%string → _normalize_policy s ≠ UNKNOWN.
Proof.
  intros Hs. apply list_elem_of_In in Hs. by destruct Hs as [<-|[<-|[<-|[]]]].
Qed.

Lemma text_or fields f s : dict_get f fields = Some (JString s) → py_str_or (dict_get f fields) "" = s.
Proof. intros ->. cbn [py_str_or py_truthy py_str]. by destruct s. Qed.

Lemma classified tags fields domain provider raw opts :
  valid_fields (allowed_tag_set tags) fields → raw ≠ ""%string →
  ∃ c, _classification_from_payload fields tags domain provider raw opts = Ok c ∧
    cl_domain c = _normalize_domain domain ∧ well_typed tags opts c.
Proof.
  intros Hv Hraw.
  destruct Hv as [_ Hstr _ Hpol _ _ _ Hrisk Hconf [b Hb] (n & Hn & Hn')].
  destruct (Hrisk "privacy_risk"%string) as (pr & Hpr & Hpr'); [apply listed; reflexivity|].
  destruct (Hrisk "security_risk"%string) as (sr & Hsr & Hsr'); [apply listed; reflexivity|].
  destruct (Hrisk "breakage_risk"%string) as (br & Hbr & Hbr'); [apply listed; reflexivity|].
  destruct (Hstr "policy"%string) as [p Hp]; [apply listed; reflexivity|].
  unfold _classification_from_payload. cbn zeta.
  destruct (dict_get "confidence" fields) as [v|] eqn:Ev; [|done].
  destruct (unit_number_bounds v Hconf) as (confidence & -> & Hunit).
  rewrite Hpr, Hsr, Hbr, Hn, Hb, !bounded_int_ok by (done || lia). cbn [mbind result_bind].
  eexists. split; [reflexivity|]. split; [reflexivity|].
  pose proof (unknown_allowed tags) as Hu.
  destruct (payload_tags_ok fields (allowed_tag_list tags) (_normalize_tag (dict_get "category" fields)
    (allowed_tag_list tags)) Hu (normalize_tag_allowed _ _ Hu)) as (Hnd & Hc & Hall).
  constructor; cbn [cl_policy cl_category cl_tags cl_privacy_risk cl_security_risk cl_breakage_risk cl_confidence
    cl_recheck_after_days cl_short cl_details cl_needs_review cl_review_reason cl_service_role]; try done.
  - rewrite (text_or _ _ _ Hp). apply policy_known. by rewrite Hp in Hpol.
  - split; [by apply normalize_tag_allowed|done].
  - set (details := str_strip (py_str_or (dict_get "details"%string fields) "")). set (short := str_take 500 _).
    assert (str_or (str_take 180 details) (str_take 180 raw) ≠ ""%string) as Hs
      by (apply str_or_nonempty, str_take_nonempty; [lia|done]).
    split.
    + destruct (str_nonempty short) eqn:E; [by intros E'; rewrite E' in E|exact Hs].
    + destruct (str_nonempty details) eqn:E; [by intros E'; rewrite E' in E|by apply str_or_nonempty].
  - intros Hlow. apply qltb_true in Hlow. rewrite Hlow, !orb_true_r, orb_true_l. split; [done|].
    destruct (bool_decide _ && _); [by apply str_or_nonempty|by apply str_or_nonempty].
  - intros Hrole Hrisk50. rewrite bool_decide_true by done. rewrite (proj2 (Z.leb_le _ _) Hrisk50). cbn [andb].
    rewrite orb_true_r. split; [done|by apply str_or_nonempty].
Qed.
End Classified.

(** * All the results of an answer *)

Definition item_fields (item : json) : list (string * json) :=
  match item with JObject fields => fields | _ => [] end.

(** The domains an answer is about, in its order. *)
Definition answer_domains `{PyRepr} (expected : list string) (items : list json) : list string :=
  (λ item, item_domain expected (item_fields item)) <$> items.

Lemma dict_get_none {A} (k : string) (d : list (string * A)) : dict_get k d = None ↔ k ∉ d.*1.
Proof.
  induction d as [|[k' v] d IH]; simpl; [split; [intros _ H; by apply elem_of_nil in H|done]|].
  destruct (String.eqb_spec k' k) as [->|Hne]; [split; [done|intros H; destruct H; left]|].
  rewrite IH. split; [by intros H [->|?]%elem_of_cons|intros H H'; destruct H; by right].
Qed.

Lemma dict_get_app {A} (k : string) (d1 d2 : list (string * A)) :
  dict_get k (d1 ++ d2) = match dict_get k d1 with Some v => Some v | None => dict_get k d2 end.
Proof. induction d1 as [|[k' v] d1 IH]; simpl; [done|]. by destruct (String.eqb k' k). Qed.

Section Items.
Context `{PyRepr} (tags : list string) (opts : LLMOptions) (provider raw : string) (expected : list string).
Context (Hraw : raw ≠ ""%string).

Definition classified_entry (p : string * Classification) : Prop :=
  cl_domain p.2 = _normalize_domain p.1 ∧ well_typed tags opts p.2.

(** The results are taken exactly when they name different requested domains. *)
Lemma parse_items_ok items : ∀ parsed,
  (∀ item, item ∈ items → ∃ fields, item = JObject fields ∧ valid_fields (allowed_tag_set tags) fields) →
  NoDup parsed.*1 → Forall classified_entry parsed →
  (∃ parsed', parse_items expected tags provider raw opts parsed items = Ok parsed' ∧
     parsed'.*1 = parsed.*1 ++ answer_domains expected items ∧
     NoDup (parsed.*1 ++ answer_domains expected items) ∧ (∀ d, d ∈ answer_domains expected items → d ∈ expected) ∧
     Forall classified_entry parsed') ∨
  (∃ msg, parse_items expected tags provider raw opts parsed items = Err (LLMResponseError msg) ∧
     ¬ (NoDup (parsed.*1 ++ answer_domains expected items) ∧ ∀ d, d ∈ answer_domains expected items → d ∈ expected)).
Proof.
  induction items as [|item items IH]; intros parsed Hall Hnd Hcl.
  - left. exists parsed. cbn. rewrite app_nil_r. split_and!; try done. intros d Hd. by apply elem_of_nil in Hd.
  - destruct (Hall item) as (fields & -> & Hv); [left|].
    cbn [parse_items parse_item answer_domains fmap list_fmap item_fields]. set (d := item_domain expected fields).
    case_bool_decide as Hd; cbn [negb].
    2: { right. eexists. split; [reflexivity|]. intros [_ Hin]. apply Hd, Hin. left. }
    destruct (dict_get d parsed) eqn:Ed.
    { right. eexists. split; [reflexivity|]. intros [(_ & Hno & _)%NoDup_app _].
      destruct (decide (d ∈ parsed.*1)) as [Hin|Hin%dict_get_none]; [apply (Hno d Hin); left|congruence]. }
    destruct (classified tags fields d provider raw opts Hv Hraw) as (c & -> & Hc & Hw). cbn [mbind result_bind].
    destruct (IH (parsed ++ [(d, c)])) as [(p & -> & Hp & Hnd' & Hin & Hcl')|(msg & -> & Hno)].
    + intros i Hi. apply Hall. by right.
    + rewrite fmap_app. apply NoDup_app. split_and!; [done| |apply NoDup_singleton].
      intros x Hx ->%list_elem_of_singleton. by apply dict_get_none in Ed.
    + apply Forall_app. split; [done|]. by constructor.
    + left. rewrite fmap_app, <-app_assoc in Hp, Hnd'. exists p. split_and!; try done.
      intros x [->|Hx]%elem_of_cons; [done|by apply Hin].
    + right. exists msg. split; [done|]. intros [Hnd' Hin]. apply Hno. rewrite fmap_app, <-app_assoc.
      split; [done|]. intros x Hx. apply Hin. by right.
Qed.

Lemma omap_dict_get (parsed : list (string * Classification)) ds :
  (∀ d, d ∈ ds → dict_get d parsed ≠ None) → Forall (λ d, _normalize_domain d = d) ds →
  Forall classified_entry parsed →
  cl_domain <$> omap (λ d, dict_get d parsed) ds = ds ∧ Forall (well_typed tags opts) (omap (λ d, dict_get d parsed) ds).
Proof.
  intros Hin Hn Hcl. induction ds as [|d ds IH]; [done|].
  apply Forall_cons in Hn as [Hd Hn]. cbn. destruct (dict_get d parsed) as [c|] eqn:E; [|by destruct (Hin d); [left|]].
  assert (classified_entry (d, c)) as [Hc Hw].
  { rewrite Forall_forall in Hcl. apply Hcl. by apply dict_get_in. }
  destruct IH as [IH1 IH2]; [intros x Hx; apply Hin; by right|done|]. cbn [fst snd] in Hc. cbn [fmap list_fmap].
  split; [by rewrite Hc, Hd; f_equal|by constructor].
Qed.

(** A batch: the missing domains decide. *)
Lemma nothing_missing (parsed : list (string * Classification)) ds :
  filter (λ d, dict_get d parsed = None) ds = [] ↔ ∀ d, d ∈ ds → d ∈ parsed.*1.
Proof.
  split.
  - intros Hf d Hd. destruct (decide (d ∈ parsed.*1)) as [|Hno%dict_get_none]; [done|].
    assert (d ∈ filter (λ d, dict_get d parsed = None) ds) as Hd' by by apply list_elem_of_filter.
    rewrite Hf in Hd'. by apply elem_of_nil in Hd'.
  - intros Hall. apply elem_of_nil_inv. intros d [Hd Hin]%list_elem_of_filter.
    apply dict_get_none in Hd. by apply Hd, Hall.
Qed.
End Items.

(** The payload that an accepted text carries. *)
Definition answer_payload (text : string) : option (list (string * json)) :=
  if str_nonempty (str_strip text) then _parse_json_object (str_strip text) else None.

(** *** Where the overflow comes from *)

(** The answer has a confidence that is an integer beyond the floats. *)
Definition oversized_answer (payload : list (string * json)) : Prop :=
  ∃ fields, JObject fields ∈ results_of payload ∧ oversized (dict_get "confidence" fields) = true.

Lemma bind_overflow (m : result answer_exn unit) (k : unit → result answer_exn unit) :
  (m ≫= k) = Err AnswerOverflow → m = Err AnswerOverflow ∨ k tt = Err AnswerOverflow.
Proof. destruct m as [[]|e]; cbn; [by right|by left]. Qed.

Lemma check_no_overflow b m : check b m ≠ Err AnswerOverflow.
Proof. by destruct b. Qed.

Lemma check_all_no_overflow {A} (f : A → result answer_exn unit) l :
  (∀ x, f x ≠ Err AnswerOverflow) → check_all (f <$> l) ≠ Err AnswerOverflow.
Proof.
  intros Hf. unfold check_all. induction l as [|x l IH]; cbn [fmap list_fmap foldr]; [done|].
  intros [H|H]%bind_overflow; [by apply (Hf x)|by apply IH].
Qed.

Lemma validate_types_overflow fields index allowed :
  _validate_result_types fields index allowed = Err AnswerOverflow → oversized (dict_get "confidence" fields) = true.
Proof.
  unfold _validate_result_types. cbn zeta.
  intros [H|H]%bind_overflow; [by apply check_all_no_overflow in H; [|intros x; apply check_no_overflow]|].
  do 4 (apply bind_overflow in H as [H|H]; [by apply check_no_overflow in H|]).
  apply bind_overflow in H as [H|H].
  { destruct (dict_get "tags" fields) as [[| | | | |[|v l]|]|]; try done.
    do 2 (apply bind_overflow in H as [H|H]; [by apply check_no_overflow in H|]). by apply check_no_overflow in H. }
  apply bind_overflow in H as [H|H]; [by apply check_all_no_overflow in H; [|intros x; apply check_no_overflow]|].
  apply bind_overflow in H as [H|H].
  { unfold check_confidence in H. destruct (oversized _); [done|]. by apply check_no_overflow in H. }
  apply bind_overflow in H as [H|H]; by apply check_no_overflow in H.
Qed.

Lemma validator_overflow payload tags :
  _validate_batch_payload payload tags = Err AnswerOverflow → oversized_answer payload.
Proof.
  unfold _validate_batch_payload, oversized_answer, results_of. intros H.
  do 3 (apply bind_overflow in H as [H|H]; [by apply check_no_overflow in H|]).
  destruct (dict_get "results" payload) as [[| | | | |items|]|]; try done. revert H. generalize 0.
  induction items as [|item items IH]; intros index; cbn [_validate_results]; [done|].
  intros [H|H]%bind_overflow.
  - destruct item as [| | | | | |fields]; try done. exists fields. split; [left|]. cbn [_validate_result] in H.
    do 2 (apply bind_overflow in H as [H|H]; [by apply check_no_overflow in H|]). by eapply validate_types_overflow.
  - destruct (IH _ H) as (fields & Hf & Ho). exists fields. split; [by right|done].
Qed.

Section Answer.
Context `{PyRepr} (tags : list string) (opts : LLMOptions) (provider text : string) (expected : list string).
Context (Hfixed : Forall (λ d, _normalize_domain d = d) expected).

Lemma normalized_expected : _normalize_domain <$> expected = expected.
Proof.
  revert Hfixed. induction expected as [|d ds IH]; intros Hf; [done|]. apply Forall_cons in Hf as [Hd Hf].
  rewrite fmap_cons, Hd. exact (f_equal (cons d) (IH Hf)).
Qed.

Lemma parse_batch_cases :
  (∃ payload cs, answer_payload text = Some payload ∧ valid_payload tags payload ∧
     parse_batch_classifications text expected tags provider opts = Ok cs ∧
     NoDup (answer_domains expected (results_of payload)) ∧
     (∀ d, d ∈ answer_domains expected (results_of payload) ↔ d ∈ expected) ∧
     cl_domain <$> cs = expected ∧ Forall (well_typed tags opts) cs) ∨
  (∃ payload, answer_payload text = Some payload ∧ ¬ valid_payload tags payload ∧ oversized_answer payload ∧
     parse_batch_classifications text expected tags provider opts = Err AnswerOverflow) ∨
  (∃ msg, parse_batch_classifications text expected tags provider opts = Err (LLMResponseError msg) ∧
     ∀ payload, answer_payload text = Some payload → valid_payload tags payload →
       NoDup (answer_domains expected (results_of payload)) →
       ¬ ∀ d, d ∈ answer_domains expected (results_of payload) ↔ d ∈ expected).
Proof.
  unfold parse_batch_classifications, answer_payload. rewrite normalized_expected.
  destruct (str_nonempty (str_strip text)) eqn:Hraw; cbn [negb];
    [|right; right; eexists; split; [reflexivity|intros ? [=]]].
  destruct (_parse_json_object (str_strip text)) as [payload|];
    [|right; right; eexists; split; [reflexivity|intros ? [=]]].
  destruct (_validate_batch_payload payload tags) as [[]|e] eqn:Ev; cbn [mbind result_bind].
  2: { right. assert (¬ valid_payload tags payload) as Hno by (intros Hv%validate_payload_ok; congruence).
       destruct e as [msg|]; [right; exists msg; split; [done|]; by intros ? [= <-] ?|left].
       exists payload. split_and!; [done|done|by eapply validator_overflow|done]. }
  apply validate_payload_ok in Ev. fold (results_of payload).
  assert (str_strip text ≠ ""%string) as Hne by (by destruct (str_strip text)).
  destruct (parse_items_ok tags opts provider (str_strip text) expected Hne (results_of payload) [])
    as [(parsed & -> & Hkeys & Hnd & Hin & Hcl)|(msg & -> & Hno)]; [by apply Ev|apply NoDup_nil_2|by constructor| |].
  - cbn [mbind result_bind]. cbn in Hkeys, Hnd. pose proof (nothing_missing parsed expected) as Hmissing.
    rewrite Hkeys in Hmissing.
    destruct (filter _ expected) as [|m ms].
    + left. exists payload. eexists. split_and!; [done|done|reflexivity|done| | |].
      * intros d. split; [apply Hin|]. by apply Hmissing.
      * apply (omap_dict_get tags opts); [|done|done]. intros d Hd Hd'%dict_get_none. apply Hd'. rewrite Hkeys. by apply Hmissing.
      * apply (omap_dict_get tags opts); [|done|done]. intros d Hd Hd'%dict_get_none. apply Hd'. rewrite Hkeys. by apply Hmissing.
    + right. right. eexists. split; [reflexivity|]. intros ? [= <-] _ _ Hall.
      destruct Hmissing as [_ Hm]. discriminate Hm. intros d Hd. by apply Hall.
  - right. right. exists msg. split; [done|]. intros ? [= <-] _ Hnd Hall. apply Hno. cbn. split; [done|]. intros d. apply Hall.
Qed.
End Answer.

Lemma parse_batch_well_typed `{PyRepr} text expected tags provider opts cs :
  parse_batch_classifications text expected tags provider opts = Ok cs → Forall (well_typed tags opts) cs.
Proof.
  unfold parse_batch_classifications. destruct (str_nonempty (str_strip text)) eqn:Hraw; cbn [negb]; [|done].
  destruct (_parse_json_object (str_strip text)) as [payload|]; [|done].
  destruct (_validate_batch_payload payload tags) as [[]|e] eqn:Ev; cbn [mbind result_bind]; [|done].
  apply validate_payload_ok in Ev. fold (results_of payload).
  destruct (parse_items_ok tags opts provider (str_strip text) (_normalize_domain <$> expected)
    ltac:(by destruct (str_strip text)) (results_of payload) []) as [(parsed & -> & _ & _ & _ & Hcl)|(msg & -> & _)];
    [by apply Ev|apply NoDup_nil_2|by constructor| |done].
  cbn [mbind result_bind]. destruct (filter _ _) as [|m ms]; [|done]. intros [= <-].
  apply Forall_forall. intros c (d & _ & Hd)%list_elem_of_omap.
  apply dict_get_in in Hd. rewrite Forall_forall in Hcl. by apply (Hcl _ Hd).
Qed.

(** * Theorems *)

(** C13: The hand-written validator accepts a payload with results exactly when
    the payload is valid under the JSON schema sent with the request and each
    result also meets the three conditions that the schema does not state (the
    integers are written without a fraction, the domain is not blank, the
    category is among the tags). *)
Theorem validator_matches_schema (tags : list string) (payload : list (string * json))
  (Hresults : results_of payload ≠ []) :
  _validate_batch_payload payload tags = Ok tt ↔
  schema_valid (classification_schema tags) (JObject payload) = true ∧
  ∀ item, item ∈ results_of payload → stricter_item item = true.
Proof. rewrite validate_payload_ok. by apply validate_iff_schema. Qed.

(** [parse_batch_classifications] accepts a response exactly when it carries
    a valid payload whose results are about the requested domains, each of them
    once; any other response raises [LLMResponseError], unless it states a
    confidence as an integer beyond the floats ([OverflowError]). *)
Theorem answer_accepted_iff `{PyRepr} (text provider : string) (expected tags : list string) (opts : LLMOptions)
  (Hdistinct : NoDup expected) (Hfixed : Forall (λ d, _normalize_domain d = d) expected) :
  let accepted := ∃ payload, answer_payload text = Some payload ∧ _validate_batch_payload payload tags = Ok tt ∧
                    answer_domains expected (results_of payload) ≡ₚ expected in
  match parse_batch_classifications text expected tags provider opts with
  | Ok _ => accepted
  | Err (LLMResponseError _) => ¬ accepted
  | Err AnswerOverflow => ¬ accepted ∧ ∃ payload, answer_payload text = Some payload ∧ oversized_answer payload
  end.
Proof.
  cbn zeta. destruct (parse_batch_cases tags opts provider text expected Hfixed)
    as [(payload & cs & Hp & Hv & -> & Hnd & Hdom & _)|[(payload & Hp & Hno & Ho & ->)|(msg & -> & Hno)]].
  - exists payload. split_and!; [done|by apply validate_payload_ok|by apply NoDup_Permutation].
  - split; [|eauto]. intros (payload' & Hp' & Hv%validate_payload_ok & _). congruence.
  - intros (payload & Hp & Hv%validate_payload_ok & Hperm). apply (Hno payload Hp Hv); [by rewrite Hperm|].
    intros d. by rewrite Hperm.
Qed.

(** C12: The classifications of an accepted response to a request for domains
    whose names are their own normal form are those of the requested domains, in
    the order of the request, and every one is well typed: its policy is known,
    its category and tags are configured ones, without duplicates and the
    category among them, its risks, confidence and recheck interval are in
    range, its texts are not empty, and a low confidence or a likely breakage of
    a core or shared service asks for a review with a reason. *)
Theorem answers_are_well_typed `{PyRepr} (text provider : string) (expected tags : list string) (opts : LLMOptions)
  (cs : list Classification) (Hfixed : Forall (λ d, _normalize_domain d = d) expected)
  (Hok : parse_batch_classifications text expected tags provider opts = Ok cs) :
  cl_domain <$> cs = expected ∧ Forall (well_typed tags opts) cs.
Proof.
  destruct (parse_batch_cases tags opts provider text expected Hfixed)
    as [(payload & cs' & _ & _ & Heq & _ & _ & Hcs)|[(payload & _ & _ & _ & Heq)|(msg & Heq & _)]]; congruence.
Qed.

(** ** Witnesses *)

Definition ex_item (domain category confidence : string) : string :=
  (quoted "{'domain': '" +:+ domain +:+ quoted "', 'policy': 'deny', 'category': '" +:+ category +:+
   quoted "', 'tags': ['" +:+ category +:+ quoted "'], 'service': '', 'service_role': 'core', 'privacy_risk': 80, 'security_risk': 5, 'breakage_risk': 60, 'confidence': " +:+ confidence +:+
   quoted ", 'needs_review': false, 'review_reason': '', 'recheck_after_days': 30, 'short': 'A tracker', 'details': ''}")%string.

(** Two results in the other order, in a fenced block after some prose. *)
Definition ex_text : string :=
  ("Here you are: ```json {" +:+ quoted "'schema_version': 1, 'results': [" +:+ ex_item "b.example" "unknown" "0.5" +:+
   ", " +:+ ex_item "A.Example." "tracking" "1" +:+ "]} ``` Bye.")%string.

Definition ex_expected : list string := ["a.example"; "b.example"]%string.
Definition ex_tags : list string := [" Tracking "]%string.
Definition ex_options : LLMOptions :=
  mkLLMOptions true 10 25 10 (Fin 1) 2 20 (Fin 30) 2 1 0 0 "hybrid" true 30 (3 # 4) (19 # 20) true ex_tags ∅ ∅.
#[local] Instance ex_repr : PyRepr := {| py_repr_of _ := "..."%string |}.

Definition ex_payload : list (string * json) := default [] (answer_payload ex_text).

Lemma ex_fixed : Forall (λ d, _normalize_domain d = d) ex_expected.
Proof. repeat constructor. Qed.

Lemma ex_distinct : NoDup ex_expected.
Proof. by apply (bool_decide_unpack _). Qed.

Lemma validator_matches_schema_witness :
  results_of ex_payload ≠ [] ∧ schema_valid (classification_schema ex_tags) (JObject ex_payload) = true.
Proof.
  split; [by vm_compute|]. apply validator_matches_schema; [by vm_compute|vm_compute; reflexivity].
Defined.

Lemma answer_accepted_iff_witness :
  answer_domains ex_expected (results_of ex_payload) ≡ₚ ex_expected.
Proof.
  pose proof (answer_accepted_iff ex_text "p" ex_expected ex_tags ex_options ex_distinct ex_fixed) as Hp.
  cbn zeta in Hp.
  destruct (parse_batch_classifications ex_text ex_expected ex_tags "p" ex_options) eqn:E;
    [|by vm_compute in E].
  destruct Hp as (payload & Hp & _ & Hperm). unfold ex_payload. by rewrite Hp.
Defined.

Lemma answers_are_well_typed_witness :
  ∃ cs, parse_batch_classifications ex_text ex_expected ex_tags "p" ex_options = Ok cs ∧
    cl_domain <$> cs = ["a.example"; "b.example"]%string ∧ cl_needs_review <$> cs = [true; true] ∧
    Forall (well_typed ex_tags ex_options) cs.
Proof.
  eexists. split; [vm_compute; reflexivity|]. split; [reflexivity|]. split; [reflexivity|].
  apply (answers_are_well_typed ex_text "p" ex_expected ex_tags ex_options); [exact ex_fixed|vm_compute; reflexivity].
Defined.
