(* ===== verification/Queue.v ===== *)
(** The durable analysis queue of [database_core.py]: the [staging_domains]
    table, its enqueue, claim, acknowledge, fail, defer and recovery
    operations, the producers that fill it, and the query observations.

    Every operation takes the clock reading [now = int(time.time())] as an
    argument.  A [with _connection()] block is one [dbtx]; the Python function
    is the [commit] of it. *)
From stdpp Require Import base gmap strings list.
From Stdlib Require Import Ascii QArith Lqa Sorted.
From S2P Require Import Prelude Models Database.
Open Scope Z_scope.

(** * Results and helpers *)

Record QueueEnqueueResult := mkEnqueue {
  qe_requested : Z;
  qe_queued : Z;
  qe_requeued : Z;
  qe_already_pending : Z;
  qe_skipped_locked : Z;
  qe_skipped_filtered : Z
}.

Definition accepted (r : QueueEnqueueResult) : Z :=
  qe_queued r + qe_requeued r + qe_already_pending r.

Definition is_pool (p : string) : bool :=
  String.eqb p "realtime" || String.eqb p "background".

Definition _queue_pool_id (pool_id : string) (priority : Z) (source : string) : string :=
  let normalized := str_lower (str_strip pool_id) in
  if is_pool normalized then normalized
  else if (100 <=? priority) || str_startswith (str_lower (str_strip source)) "manual_"
  then "realtime" else "background".

Definition suffix_of_option (suffix : string) : string :=
  let s := rstrip is_dot (str_lower (str_strip suffix)) in
  let s := match s with
           | String c s' => if Ascii.eqb c "*"%char then s' else s
           | EmptyString => s
           end in
  if negb (str_nonempty s) then s
  else if str_startswith s "." then s else String "."%char s.

Fixpoint _domain_matches_suffix (domain : string) (suffixes : list string) : bool :=
  let normalized := _normalize_domain domain in
  match suffixes with
  | [] => false
  | suffix :: rest =>
      let s := suffix_of_option suffix in
      if negb (str_nonempty s) then _domain_matches_suffix domain rest
      else if String.eqb normalized (lstrip is_dot s) || str_endswith normalized s then true
      else _domain_matches_suffix domain rest
  end.

(** * Enqueueing *)

Definition staging_insert_row (now priority : Z) (source pool : string) : staging_row :=
  StagingRow "queued" 0 now now "" priority source pool 0.

(** The [UPDATE] of a row that is still queued. *)
Definition staging_touch_queued (priority : Z) (source pool : string) (r : staging_row) :=
  StagingRow (sr_state r) (sr_attempts r) (sr_created_at r) (sr_updated_at r) (sr_last_error r)
    (Z.max (sr_priority r) priority)
    (if (sr_priority r <=? priority) && str_nonempty source then source else sr_source r)
    (if sr_priority r <=? priority then pool else sr_pool_id r)
    0.

(** The [UPDATE] that puts a failed row back. *)
Definition staging_requeue_row (now priority : Z) (source pool : string) (r : staging_row) :=
  StagingRow "queued" 0 (sr_created_at r) now ""
    (Z.max (sr_priority r) priority)
    (if str_nonempty source then source else sr_source r)
    pool 0.

(** The counters of the loop: queued, requeued, already pending, locked. *)
Record enqueue_counts := Counts {
  ec_queued : Z; ec_requeued : Z; ec_pending : Z; ec_locked : Z
}.

Definition put_staging (domain : string) (r : staging_row) : dbtx unit :=
  tx_write (set_staging (<[domain := r]>)).

(** One iteration of the loop of [staging_enqueue_detailed]. *)
Definition enqueue_one (now priority : Z) (source pool : string) (requeue_existing : bool)
    (c : enqueue_counts) (value : string) : dbtx enqueue_counts :=
  domain ← _ensure_domain now value (Some now) 0;
  locked ← tx_read (λ d, domain_locks d !! domain);
  match locked with
  | Some _ => mret (Counts (ec_queued c) (ec_requeued c) (ec_pending c) (ec_locked c + 1))
  | None =>
      existing ← tx_read (λ d, staging_domains d !! domain);
      match existing with
      | None =>
          _ ← put_staging domain (staging_insert_row now priority source pool);
          mret (Counts (ec_queued c + 1) (ec_requeued c) (ec_pending c) (ec_locked c))
      | Some r =>
          let state := str_or (sr_state r) "queued" in
          let pending := Counts (ec_queued c) (ec_requeued c) (ec_pending c + 1) (ec_locked c) in
          if String.eqb state "processing" then mret pending
          else if String.eqb state "queued" then
            _ ← put_staging domain (staging_touch_queued priority source pool r);
            mret pending
          else if String.eqb state "failed" || requeue_existing then
            _ ← put_staging domain (staging_requeue_row now priority source pool r);
            mret (Counts (ec_queued c) (ec_requeued c + 1) (ec_pending c) (ec_locked c))
          else mret pending
      end
  end.

Definition staging_enqueue_detailed (excluded_suffixes : list string) (now : Z)
    (values : list string) (priority : Z) (source pool_id : string)
    (requeue_existing : bool) : dbprog QueueEnqueueResult :=
  let normalized_priority := Z.max 0 priority in
  let normalized_source := str_strip source in
  let normalized_pool_id := _queue_pool_id pool_id normalized_priority normalized_source in
  let unique_domains := unique_normalized values in
  let requested := Z.of_nat (length unique_domains) in
  let filtered_domains :=
    filter (λ d, _domain_matches_suffix d excluded_suffixes = true) unique_domains in
  let unique_domains := filter (λ d, d ∉ filtered_domains) unique_domains in
  counts ← commit (tx_fold
    (enqueue_one now normalized_priority normalized_source normalized_pool_id requeue_existing)
    (Counts 0 0 0 0) unique_domains);
  mret (mkEnqueue requested (ec_queued counts) (ec_requeued counts) (ec_pending counts)
          (ec_locked counts) (Z.of_nat (length filtered_domains))).

Definition staging_enqueue (excluded_suffixes : list string) (now : Z) (values : list string)
    (priority : Z) (source pool_id : string) : dbprog Z :=
  r ← staging_enqueue_detailed excluded_suffixes now values priority source pool_id false;
  mret (qe_queued r + qe_requeued r).

Definition queue_domains_for_review (excluded_suffixes : list string) (now : Z)
    (values : list string) (source : string) : dbprog QueueEnqueueResult :=
  staging_enqueue_detailed excluded_suffixes now values 100 source "realtime" true.

(** * Producers *)

(** [EXISTS(SELECT 1 FROM classification_runs ...)] *)
Definition has_recent_comparison (now : Z) (domain : string) (d : db) : bool :=
  existsb (λ r, String.eqb (rr_domain r) domain && negb (rr_is_primary r) &&
                (now <? rr_expires_at r)) (classification_runs d).

Definition needs_analysis (now : Z) (domain : string) (d : db) : bool :=
  match domains d !! domain with
  | None => true
  | Some row =>
      if has_recent_comparison now domain d then false
      else match dr_last_classified_at row with
           | None => true
           | Some _ => match dr_next_recheck_at row with
                       | Some t => t <=? now
                       | None => false
                       end
           end
  end.

Definition needing_step (now : Z) (force : bool) (candidates : list string) (value : string)
    : dbtx (list string) :=
  domain ← _ensure_domain now value (Some now) 0;
  if force then mret (candidates ++ [domain])
  else
    lock ← tx_read (λ d, domain_locks d !! domain);
    match lock with
    | Some _ => mret candidates
    | None =>
        needs ← tx_read (needs_analysis now domain);
        mret (if needs : bool then candidates ++ [domain] else candidates)
    end.

Definition queue_domains_needing_analysis (excluded_suffixes : list string) (now : Z)
    (values : list string) (force : bool) : dbprog Z :=
  candidates ← commit (tx_fold (needing_step now force) [] values);
  staging_enqueue excluded_suffixes now candidates
    (if force then 100 else 0)
    (if force then "manual" else "live_query")
    (if force then "realtime" else "background").

(** [ORDER BY next_recheck_at, last_seen DESC] *)
Definition recheck_leb (a b : string * domain_row) : bool :=
  let na := default 0 (dr_next_recheck_at a.2) in
  let nb := default 0 (dr_next_recheck_at b.2) in
  (na <? nb) || (na =? nb) && (dr_last_seen b.2 <=? dr_last_seen a.2).

Definition due_for_recheck (now : Z) (d : db) (p : string * domain_row) : bool :=
  match dr_next_recheck_at p.2 with
  | Some t => (t <=? now) && bool_decide (domain_locks d !! p.1 = None)
  | None => false
  end.

Definition due_recheck_rows (now limit : Z) (d : db) : list (string * domain_row) :=
  take (Z.to_nat (Z.max 1 limit))
    (sort_by recheck_leb (filter (λ p, due_for_recheck now d p = true) (map_to_list (domains d)))).

Definition queue_due_rechecks (excluded_suffixes : list string) (now limit : Z) : dbprog Z :=
  rows ← prog_read (due_recheck_rows now limit);
  staging_enqueue excluded_suffixes now (rows.*1) 10 "scheduled_recheck" "background".

(** * Claiming *)

(** The [AND pool_id = ?] clause, present only for the two known pools. *)
Definition pool_clause (pool_id : string) (r : staging_row) : bool :=
  let normalized := str_lower (str_strip pool_id) in
  if is_pool normalized then String.eqb (sr_pool_id r) normalized else true.

Definition claimable (now : Z) (pool_id : string) (p : string * staging_row) : bool :=
  String.eqb (sr_state p.2) "queued" && (sr_available_at p.2 <=? now) && pool_clause pool_id p.2.

Definition claimable_rows (now : Z) (pool_id : string) (d : db) : list (string * staging_row) :=
  filter (λ p, claimable now pool_id p = true) (map_to_list (staging_domains d)).

(** [ORDER BY priority DESC, created_at, domain] *)
Definition staging_leb (a b : string * staging_row) : bool :=
  (sr_priority b.2 <? sr_priority a.2) ||
  (sr_priority a.2 =? sr_priority b.2) &&
    ((sr_created_at a.2 <? sr_created_at b.2) ||
     (sr_created_at a.2 =? sr_created_at b.2) && str_leb a.1 b.1).

(** [MAX(priority)] and [MIN(created_at)] of the selected rows. *)
Definition max_priority (rows : list (string * staging_row)) : option Z :=
  foldr (λ p acc, Some (match acc with None => sr_priority p.2
                                     | Some m => Z.max (sr_priority p.2) m end)) None rows.
Definition min_created (rows : list (string * staging_row)) : option Z :=
  foldr (λ p acc, Some (match acc with None => sr_created_at p.2
                                     | Some m => Z.min (sr_created_at p.2) m end)) None rows.

Definition staging_ready (now trigger_size max_wait_sec : Z) (pool_id : string) (d : db) : bool :=
  let rows := claimable_rows now pool_id d in
  let queued_count := Z.of_nat (length rows) in
  if queued_count =? 0 then false
  else if 100 <=? default 0 (max_priority rows) then true
  else if Z.max 1 trigger_size <=? queued_count then true
  else
    let created := default now (min_created rows) in
    let oldest := if created =? 0 then now else created in
    Z.max 1 max_wait_sec <=? now - oldest.

Definition claim_row (now : Z) (r : staging_row) : staging_row :=
  StagingRow "processing" (sr_attempts r + 1) (sr_created_at r) now (sr_last_error r)
    (sr_priority r) (sr_source r) (sr_pool_id r) (sr_available_at r).

Definition staging_claim_items (now limit : Z) (pool_id : string)
    : dbprog (list (string * staging_row)) :=
  commit (
    rows ← tx_read (λ d, take (Z.to_nat (Z.max 1 limit))
                           (sort_by staging_leb (claimable_rows now pool_id d)));
    _ ← tx_write (set_staging (update_where (λ k _, bool_decide (k ∈ rows.*1)) (claim_row now)));
    mret rows).

Definition staging_claim (now limit : Z) (pool_id : string) : dbprog (list string) :=
  items ← staging_claim_items now limit pool_id;
  mret (items.*1).

(** * Completing, failing and deferring *)

Definition staging_ack (domain : string) : dbprog unit :=
  commit (tx_write (set_staging (delete (_normalize_domain domain)))).

Definition staging_remove (values : list string) : dbprog Z :=
  let normalized := unique_normalized values in
  if bool_decide (normalized = []) then mret 0
  else commit (
    rowcount ← tx_read (λ d, Z.of_nat (length (filter (λ k, is_Some (staging_domains d !! k)) normalized)));
    _ ← tx_write (set_staging (λ t, foldr delete t normalized));
    mret rowcount).

Definition fail_row (now : Z) (state error : string) (r : staging_row) : staging_row :=
  StagingRow state (sr_attempts r) (sr_created_at r) now (str_take 1000 error)
    (sr_priority r) (sr_source r) (sr_pool_id r) 0.

Definition staging_fail (now : Z) (domain error : string) (max_attempts : Z) : dbprog unit :=
  let normalized := _normalize_domain domain in
  commit (
    row ← tx_read (λ d, staging_domains d !! normalized);
    let attempts := match row with Some r => sr_attempts r | None => max_attempts end in
    let state := if max_attempts <=? attempts then "failed"%string else "queued"%string in
    tx_write (set_staging (alter (fail_row now state error) normalized))).

Definition defer_row (now available_at : Z) (error : string) (r : staging_row) : staging_row :=
  StagingRow "queued" (Z.max 0 (sr_attempts r - 1)) (sr_created_at r) now (str_take 1000 error)
    (sr_priority r) (sr_source r) (sr_pool_id r) available_at.

Definition staging_defer (now : Z) (domain error : string) (retry_at : Q) : dbprog unit :=
  let normalized := _normalize_domain domain in
  let available_at := Z.max (now + 1) (py_int retry_at) in
  commit (tx_write (set_staging (alter (defer_row now available_at error) normalized))).

Definition recover_row (now : Z) (r : staging_row) : staging_row :=
  StagingRow "queued" (sr_attempts r) (sr_created_at r) now (sr_last_error r)
    (sr_priority r) (sr_source r) (sr_pool_id r) 0.

Definition interrupted (pool_id : string) (r : staging_row) : bool :=
  String.eqb (sr_state r) "processing" && pool_clause pool_id r.

Definition staging_requeue_processing (now : Z) (pool_id : string) : dbprog Z :=
  commit (
    rowcount ← tx_read (λ d, Z.of_nat (length
      (filter (λ p, interrupted pool_id p.2 = true) (map_to_list (staging_domains d)))));
    _ ← tx_write (set_staging (update_where (λ _ r, interrupted pool_id r) (recover_row now)));
    mret rowcount).

Definition staging_list (limit : Z) (d : db) : list (string * staging_row) :=
  take (Z.to_nat (Z.max 1 limit)) (sort_by staging_leb (map_to_list (staging_domains d))).

(** [GROUP BY state] over a dictionary that starts with the three states. *)
Definition staging_summary (d : db) : gmap string Z :=
  map_fold (λ _ r acc, <[sr_state r := default 0 (acc !! sr_state r) + 1]> acc)
    (<["queued" := 0]> (<["processing" := 0]> (<["failed" := 0]> ∅))) (staging_domains d).

(** * Enqueueing: one iteration *)

Definition counts_total (c : enqueue_counts) : Z :=
  ec_queued c + ec_requeued c + ec_pending c + ec_locked c.
Definition counts_nonneg (c : enqueue_counts) : Prop :=
  0 ≤ ec_queued c ∧ 0 ≤ ec_requeued c ∧ 0 ≤ ec_pending c ∧ 0 ≤ ec_locked c.

(** What enqueueing leaves in the row of a domain that is not locked. *)
Definition enqueued_row (now priority : Z) (source pool : string) (requeue_existing : bool)
    (existing : option staging_row) : staging_row :=
  match existing with
  | None => staging_insert_row now priority source pool
  | Some r =>
      let state := str_or (sr_state r) "queued" in
      if String.eqb state "processing" then r
      else if String.eqb state "queued" then staging_touch_queued priority source pool r
      else if String.eqb state "failed" || requeue_existing
           then staging_requeue_row now priority source pool r
      else r
  end.

Section EnqueueOne.
Context (now priority : Z) (source pool : string) (requeue : bool).
Local Abbreviation step := (enqueue_one now priority source pool requeue).
Local Abbreviation new_row := (enqueued_row now priority source pool requeue).

Lemma enqueue_one_spec c v d c' d' :
  step c v d = Ok (c', d') →
  let n := _normalize_domain v in
  n ≠ ""%string ∧ counts_total c' = counts_total c + 1 ∧
  (counts_nonneg c → counts_nonneg c') ∧
  (∃ r, domains d' = <[n := r]> (domains d)) ∧
  staging_domains d' =
    (if decide (domain_locks d !! n = None)
     then <[n := new_row (staging_domains d !! n)]> (staging_domains d)
     else staging_domains d) ∧
  (∃ r, set_staging (λ _, staging_domains d) d' = set_domains (<[n := r]>) d).
Proof.
  unfold enqueue_one, mbind, tx_bind.
  destruct (_ensure_domain _ _ _ _ _) as [[n d1]|e] eqn:He; [|done].
  apply _ensure_domain_spec in He as (-> & Hne & r & ->).
  set (n := _normalize_domain v) in *.
  cbn [tx_read domain_locks staging_domains set_domains put_staging tx_write mret tx_ret].
  unfold counts_total, counts_nonneg.
  destruct (domain_locks d !! n) as [lk|] eqn:Hl.
  { intros [= <- <-]. simpl.
    split_and!; eauto; lia. }
  destruct (staging_domains d !! n) as [row|] eqn:Hs; simpl; rewrite Hs; cbv [mret tx_ret].
  2: { intros [= <- <-]. simpl. split_and!; eauto; lia. }
  repeat (match goal with |- context [if ?b then _ else _] =>
            match b with String.eqb _ _ => idtac | orb _ _ => idtac end;
            destruct b eqn:? end);
    intros [= <- <-]; simpl; split_and!; eauto; try lia;
    by rewrite insert_id.
Qed.

Lemma enqueue_one_ok c v d :
  _normalize_domain v ≠ ""%string → ∃ c' d', step c v d = Ok (c', d').
Proof.
  intros Hn. unfold enqueue_one, mbind, tx_bind.
  destruct (_ensure_domain_ok now v (Some now) 0 d Hn) as [r ->].
  cbn [tx_read domain_locks staging_domains set_domains put_staging tx_write mret tx_ret].
  repeat case_match; eauto.
Qed.

Lemma enqueue_one_err c v d e :
  step c v d = Err e → _normalize_domain v = ""%string ∧ e = ValueError "domain must not be empty".
Proof.
  unfold enqueue_one, mbind, tx_bind, _ensure_domain.
  destruct (_normalize_domain v) eqn:Hn; simpl; [by intros [= <-]|].
  cbv [mbind tx_bind tx_write mret tx_ret].
  cbn [tx_read domain_locks staging_domains set_domains put_staging tx_write].
  repeat case_match; done.
Qed.

(** ** The loop *)

Lemma enqueue_fold_total l c d c' d' :
  tx_fold step c l d = Ok (c', d') →
  counts_total c' = counts_total c + Z.of_nat (length l) ∧
  (counts_nonneg c → counts_nonneg c').
Proof.
  revert c d. induction l as [|v l IH]; intros c d; simpl.
  - intros [= -> ->]. split; [lia|done].
  - unfold mbind, tx_bind. destruct (step c v d) as [[c1 d1]|e] eqn:E; [|done].
    intros Hf. apply IH in Hf as [Ht Hp]. apply enqueue_one_spec in E as (_ & Ht1 & Hp1 & _).
    split; [lia|]. auto.
Qed.

(** Any name that two passes of normalisation empty poisons the batch. *)
Lemma enqueue_fold_poison l c d v :
  v ∈ l → _normalize_domain v = ""%string →
  tx_fold step c l d = Err (ValueError "domain must not be empty").
Proof.
  intros Hv Hn. revert c d. induction Hv as [v l|v w l Hv IH]; intros c d; simpl;
    unfold mbind, tx_bind.
  - destruct (step c v d) as [[c1 d1]|e] eqn:E.
    + by apply enqueue_one_spec in E as [? _].
    + apply enqueue_one_err in E as [_ ->]. done.
  - destruct (step c w d) as [[c1 d1]|e] eqn:E; [by apply IH|].
    apply enqueue_one_err in E as [_ ->]. done.
Qed.

Definition stable_name (v : string) : Prop := _normalize_domain v = v ∧ v ≠ ""%string.

(** On names that normalisation leaves alone the loop never raises, touches
    every name once, and is the pointwise update by [new_row]. *)
Lemma enqueue_fold_stable l c d :
  NoDup l → Forall stable_name l →
  ∃ c' d', tx_fold step c l d = Ok (c', d') ∧
    domain_locks d' = domain_locks d ∧ review d' = review d ∧
    classification_runs d' = classification_runs d ∧ review_tasks d' = review_tasks d ∧
    (∀ k, is_Some (domains d !! k) ∨ k ∈ l → is_Some (domains d' !! k)) ∧
    ∀ k, staging_domains d' !! k =
      if decide (k ∈ l ∧ domain_locks d !! k = None)
      then Some (new_row (staging_domains d !! k)) else staging_domains d !! k.
Proof.
  revert c d. induction l as [|v l IH]; intros c d Hnd Hst; simpl.
  { exists c, d. unfold mret, tx_ret. split_and!; try done; intros k.
    all: first [by intros [?|?%not_elem_of_nil] | rewrite decide_False; [done|set_solver]]. }
  apply NoDup_cons in Hnd as [Hv Hnd]. apply Forall_cons in Hst as [[Hn Hne] Hst].
  destruct (enqueue_one_ok c v d) as (c1 & d1 & E); [by rewrite Hn|].
  unfold mbind, tx_bind. rewrite E.
  apply enqueue_one_spec in E. simpl in E. rewrite Hn in E.
  destruct E as (_ & _ & _ & [r Hd] & Hs & [r' Ho]).
  destruct (IH c1 d1 Hnd Hst) as (c' & d' & -> & Hl & Hrv & Hru & Htk & Hdom & Hk).
  exists c', d'. split; [done|].
  assert (domain_locks d1 = domain_locks d) as Hl1 by exact (f_equal domain_locks Ho).
  assert (review d1 = review d) as Hr1 by exact (f_equal review Ho).
  assert (classification_runs d1 = classification_runs d) as Hu1
    by exact (f_equal classification_runs Ho).
  assert (review_tasks d1 = review_tasks d) as Ht1 by exact (f_equal review_tasks Ho).
  split_and!; try congruence.
  - intros k Hk'. apply Hdom. rewrite Hd.
    destruct (decide (v = k)) as [->|]; [rewrite lookup_insert_eq; eauto|].
    rewrite lookup_insert_ne by done. set_solver.
  - intros k. rewrite Hk, Hl1, Hs. destruct (decide (v = k)) as [<-|Hvk].
    + rewrite (decide_False (P := v ∈ l ∧ _)) by (by intros [? _]).
      repeat case_decide; rewrite ?lookup_insert_eq; set_solver.
    + assert (∀ s, (if decide (domain_locks d !! v = None)
                    then <[v := s]> (staging_domains d) else staging_domains d) !! k
                   = staging_domains d !! k) as Hsk
        by (intros; case_decide; [by rewrite lookup_insert_ne|done]).
      rewrite Hsk. repeat case_decide; set_solver.
Qed.
End EnqueueOne.

(** * Claiming *)

Lemma staging_leb_total a b : staging_leb a b = true ∨ staging_leb b a = true.
Proof.
  unfold staging_leb. rewrite !orb_true_iff, !andb_true_iff, !orb_true_iff, !andb_true_iff,
    !Z.ltb_lt, !Z.eqb_eq.
  destruct (str_leb_total a.1 b.1) as [-> | ->]; lia.
Qed.

Lemma staging_leb_trans a b c :
  staging_leb a b = true → staging_leb b c = true → staging_leb a c = true.
Proof.
  unfold staging_leb. rewrite !orb_true_iff, !andb_true_iff, !orb_true_iff, !andb_true_iff,
    !Z.ltb_lt, !Z.eqb_eq.
  pose proof (str_leb_trans a.1 b.1 c.1) as Ht.
  destruct (str_leb a.1 b.1), (str_leb b.1 c.1), (str_leb a.1 c.1); lia.
Qed.

Lemma claimable_rows_spec now pool d k r :
  (k, r) ∈ claimable_rows now pool d ↔
  staging_domains d !! k = Some r ∧ claimable now pool (k, r) = true.
Proof. unfold claimable_rows. rewrite list_elem_of_filter, elem_of_map_to_list. tauto. Qed.

Definition claimed_rows (now limit : Z) (pool_id : string) (d : db) :=
  take (Z.to_nat (Z.max 1 limit)) (sort_by staging_leb (claimable_rows now pool_id d)).

Lemma staging_claim_items_eq now limit pool d :
  staging_claim_items now limit pool d =
  (Ok (claimed_rows now limit pool d),
   set_staging (update_where (λ k _, bool_decide (k ∈ (claimed_rows now limit pool d).*1))
                  (claim_row now)) d).
Proof. reflexivity. Qed.

Lemma claimed_rows_sub now limit pool d p :
  p ∈ claimed_rows now limit pool d → p ∈ claimable_rows now pool d.
Proof.
  intros H. apply (elem_of_sort_by staging_leb). eapply subseteq_take, H.
Qed.

Lemma claimed_rows_rest now limit pool d p q :
  p ∈ claimed_rows now limit pool d → q ∈ claimable_rows now pool d →
  q ∉ claimed_rows now limit pool d → staging_leb p q = true.
Proof.
  intros Hp Hq Hn. apply (elem_of_sort_by staging_leb) in Hq.
  eapply (StronglySorted_take_drop (λ a b, staging_leb a b = true)); [|exact Hp|].
  - apply sort_by_sorted; [apply staging_leb_total|apply staging_leb_trans].
  - rewrite <- (take_drop (Z.to_nat (Z.max 1 limit)) (sort_by _ _)) in Hq.
    apply elem_of_app in Hq as [Hq|Hq]; [done|exact Hq].
Qed.

Lemma claimed_rows_nonempty now limit pool d :
  claimable_rows now pool d ≠ [] → claimed_rows now limit pool d ≠ [].
Proof.
  intros H E. unfold claimed_rows in E.
  assert (length (sort_by staging_leb (claimable_rows now pool d)) ≠ 0%nat) as Hl.
  { rewrite (sort_by_Permutation staging_leb). by destruct (claimable_rows now pool d). }
  apply (f_equal length) in E. rewrite length_take in E. simpl in E. lia.
Qed.

(** A domain is in a claim exactly with the row the table holds for it. *)
Lemma claimed_row_lookup now limit pool d k :
  k ∈ (claimed_rows now limit pool d).*1 →
  ∃ r, staging_domains d !! k = Some r ∧ claimable now pool (k, r) = true ∧
       (k, r) ∈ claimed_rows now limit pool d.
Proof.
  intros ([k' r] & -> & H)%list_elem_of_fmap. simpl. exists r.
  destruct (proj1 (claimable_rows_spec now pool d k' r)) as [? ?];
    [by eapply claimed_rows_sub|done].
Qed.

(** * The operations as steps

    [queue_op] lists the operations that write the queue, with their
    arguments; [run_op] runs one of them and reports the domains it handed to
    a worker. *)
Inductive queue_op :=
  | OpEnqueue (excluded : list string) (now : Z) (values : list string) (priority : Z)
      (source pool_id : string) (requeue_existing : bool)
  | OpNeeding (excluded : list string) (now : Z) (values : list string) (force : bool)
  | OpRechecks (excluded : list string) (now limit : Z)
  | OpClaim (now limit : Z) (pool_id : string)
  | OpAck (domain : string)
  | OpRemove (values : list string)
  | OpFail (now : Z) (domain error : string) (max_attempts : Z)
  | OpDefer (now : Z) (domain error : string) (retry_at : Q)
  | OpRecover (now : Z) (pool_id : string).

Definition run_op (op : queue_op) (d : db) : list string * db :=
  match op with
  | OpEnqueue ex now vs p src pool rq => ([], (staging_enqueue_detailed ex now vs p src pool rq d).2)
  | OpNeeding ex now vs force => ([], (queue_domains_needing_analysis ex now vs force d).2)
  | OpRechecks ex now limit => ([], (queue_due_rechecks ex now limit d).2)
  | OpClaim now limit pool => ((claimed_rows now limit pool d).*1, (staging_claim_items now limit pool d).2)
  | OpAck k => ([], (staging_ack k d).2)
  | OpRemove vs => ([], (staging_remove vs d).2)
  | OpFail now k e m => ([], (staging_fail now k e m d).2)
  | OpDefer now k e t => ([], (staging_defer now k e t d).2)
  | OpRecover now pool => ([], (staging_requeue_processing now pool d).2)
  end.

(** The steps that give a claimed domain back to the queue. *)
Definition releases (op : queue_op) (k : string) : Prop :=
  match op with
  | OpAck x | OpFail _ x _ _ | OpDefer _ x _ _ => _normalize_domain x = k
  | OpRemove xs => k ∈ unique_normalized xs
  | OpRecover _ _ => True
  | _ => False
  end.

Definition in_processing (k : string) (d : db) : Prop :=
  ∃ r, staging_domains d !! k = Some r ∧ sr_state r = "processing"%string.

(** [P] is kept by every iteration of an enqueue loop, hence by the producers. *)
Lemma enqueue_detailed_keeps (P : db → Prop) ex now vs p src pool rq d :
  (∀ c v c' d d', enqueue_one now (Z.max 0 p) (str_strip src)
       (_queue_pool_id pool (Z.max 0 p) (str_strip src)) rq c v d = Ok (c', d') → P d → P d') →
  P d → P (staging_enqueue_detailed ex now vs p src pool rq d).2.
Proof.
  intros Hstep Hd. unfold staging_enqueue_detailed, mbind, prog_bind, commit.
  destruct (tx_fold _ _ _ _) as [[c d']|e] eqn:E; simpl; [|done].
  eapply (tx_fold_ind (λ _, P)); [|exact Hd|exact E]. intros; by eapply Hstep.
Qed.

Lemma staging_enqueue_db ex now vs p src pool d :
  (staging_enqueue ex now vs p src pool d).2 =
  (staging_enqueue_detailed ex now vs p src pool false d).2.
Proof.
  unfold staging_enqueue, mbind, prog_bind.
  by destruct (staging_enqueue_detailed _ _ _ _ _ _ _ _) as [[r|e] d'].
Qed.

Lemma needing_step_db now force c v d c' d' :
  needing_step now force c v d = Ok (c', d') →
  ∃ n, _ensure_domain now v (Some now) 0 d = Ok (n, d').
Proof.
  unfold needing_step, mbind, tx_bind.
  destruct (_ensure_domain _ _ _ _ _) as [[n d1]|e] eqn:He; [|done].
  intros H. exists n. f_equal. f_equal.
  destruct force; [by injection H|]. unfold tx_read in H. simpl in H.
  destruct (domain_locks d1 !! n); by injection H.
Qed.

(** The producers keep whatever [_ensure_domain] and an enqueue step keep. *)
Lemma producers_keep (P : db → Prop) :
  (∀ now v d n d', _ensure_domain now v (Some now) 0 d = Ok (n, d') → P d → P d') →
  (∀ now p src pool rq c v c' d d', 0 ≤ p → is_pool pool = true →
     enqueue_one now p src pool rq c v d = Ok (c', d') → P d → P d') →
  ∀ op d, P d → match op with OpEnqueue _ _ _ _ _ _ _ | OpNeeding _ _ _ _ | OpRechecks _ _ _ =>
                  P (run_op op d).2 | _ => True end.
Proof.
  intros He Hs.
  assert (∀ pool p src, is_pool (_queue_pool_id pool p src) = true) as Hpool.
  { intros. unfold _queue_pool_id. repeat case_match; done. }
  assert (∀ ex now vs p src pool rq d, P d → P (staging_enqueue_detailed ex now vs p src pool rq d).2)
    as Hq by (intros; apply enqueue_detailed_keeps; eauto using Z.le_max_l).
  intros [] d Hd; simpl; auto.
  - unfold queue_domains_needing_analysis, mbind, prog_bind, commit.
    destruct (tx_fold _ _ _ _) as [[c d']|e] eqn:E; simpl; [|done].
    rewrite staging_enqueue_db. apply Hq.
    eapply (tx_fold_ind (λ _, P)); [|exact Hd|exact E].
    intros x b s b' s' _ HP (n & Hn)%needing_step_db. eauto.
  - unfold queue_due_rechecks, mbind, prog_bind, prog_read. rewrite staging_enqueue_db. auto.
Qed.

(** ** A claimed domain stays claimed *)

Lemma enqueue_one_processing now p src pool rq c v c' d d' k :
  enqueue_one now p src pool rq c v d = Ok (c', d') →
  in_processing k d → in_processing k d'.
Proof.
  intros (_ & _ & _ & _ & Hs & _)%enqueue_one_spec (r & Hr & Hst).
  exists r. rewrite Hs. split; [|done]. case_decide; [|done].
  destruct (decide (_normalize_domain v = k)) as [->|]; [|by rewrite lookup_insert_ne].
  rewrite lookup_insert_eq, Hr. simpl. by rewrite Hst.
Qed.

Lemma ensure_domain_staging now v s i d n d' :
  _ensure_domain now v s i d = Ok (n, d') → staging_domains d' = staging_domains d.
Proof. intros H. apply _ensure_domain_spec in H as (_ & _ & r & ->). done. Qed.

Lemma processing_kept op k d :
  in_processing k d → ¬ releases op k →
  in_processing k (run_op op d).2 ∧ k ∉ (run_op op d).1.
Proof.
  intros Hp Hrel.
  pose proof (producers_keep (in_processing k)
    (λ now v d n d' He, match ensure_domain_staging _ _ _ _ _ _ _ He with
       eq => λ '(ex_intro _ r (conj Hr Hs)), ex_intro _ r (conj (eq_trans (f_equal (lookup k) eq) Hr) Hs) end)
    (λ now p src pool rq c v c' d d' _ _ He, enqueue_one_processing _ _ _ _ _ _ _ _ _ _ _ He)
    op d Hp) as Hprod.
  destruct Hp as (r & Hr & Hst). destruct op; simpl in *; try (split; [exact Hprod|set_solver]).
  - split.
    + exists r. split; [|done]. simpl. rewrite lookup_update_where, Hr. simpl.
      rewrite bool_decide_eq_false_2; [done|].
      intros (r' & Hr' & Hc & _)%claimed_row_lookup. simplify_eq.
      unfold claimable in Hc. simpl in Hc. by rewrite Hst in Hc.
    + intros (r' & Hr' & Hc & _)%claimed_row_lookup. simplify_eq.
      unfold claimable in Hc. simpl in Hc. by rewrite Hst in Hc.
  - split; [|set_solver]. exists r. simpl. by rewrite lookup_delete_ne.
  - split; [|set_solver]. exists r. unfold staging_remove. case_bool_decide; [done|].
    simpl. rewrite lookup_foldr_delete, decide_False by done. done.
  - split; [|set_solver]. exists r. simpl. by rewrite lookup_alter_ne.
  - split; [|set_solver]. exists r. simpl. by rewrite lookup_alter_ne.
  - done.
Qed.

Lemma claimed_is_processing op k d :
  k ∈ (run_op op d).1 → in_processing k (run_op op d).2.
Proof.
  destruct op; simpl; try set_solver. intros Hk.
  destruct (claimed_row_lookup _ _ _ _ _ Hk) as (r & Hr & _).
  exists (claim_row now r). simpl. rewrite lookup_update_where, Hr. simpl.
  by rewrite bool_decide_eq_true_2.
Qed.

Fixpoint handed_out (ops : list queue_op) (d : db) : list string :=
  match ops with
  | [] => []
  | op :: ops => (run_op op d).1 ++ handed_out ops (run_op op d).2
  end.

Lemma processing_not_handed_out ops k d :
  in_processing k d → Forall (λ op, ¬ releases op k) ops → k ∉ handed_out ops d.
Proof.
  revert d. induction ops as [|op ops IH]; intros d Hp; simpl; [set_solver|].
  intros [Hr Hrs]%Forall_cons. destruct (processing_kept op k d Hp Hr) as [Hp' Hn].
  rewrite elem_of_app. intros [?|?]; [done|]. by eapply IH.
Qed.

(** * The invariant of the queue *)

Definition is_state (s : string) : bool :=
  String.eqb s "queued" || String.eqb s "processing" || String.eqb s "failed".

Definition row_ok (r : staging_row) : Prop :=
  is_state (sr_state r) = true ∧
  0 ≤ sr_attempts r ∧ 0 ≤ sr_priority r ∧ is_pool (sr_pool_id r) = true.

Definition queue_inv (d : db) : Prop :=
  references_ok d ∧ map_Forall (λ _ r, row_ok r) (staging_domains d).

Lemma enqueued_row_ok now p src pool rq e :
  0 ≤ p → is_pool pool = true → (∀ r, e = Some r → row_ok r) →
  row_ok (enqueued_row now p src pool rq e).
Proof.
  intros Hp Hpool He. destruct e as [r|]; simpl.
  2: { by split_and!; simpl; try lia. }
  pose proof (He r eq_refl) as Hr. destruct Hr as (Hs & Ha & Hpr & Hpl).
  destruct (String.eqb _ "processing"); [by split_and!|].
  destruct (String.eqb _ "queued").
  { split_and!; simpl; try lia; [done|]. by destruct (_ <=? _). }
  destruct (_ || _); [|by split_and!]. by split_and!; simpl; try lia.
Qed.

(** Steps that only rewrite or delete rows, by a row-preserving function. *)
Lemma queue_inv_staging f d :
  queue_inv d →
  (∀ t k, is_Some (f t !! k) → is_Some (t !! k)) →
  (∀ t, map_Forall (λ _ r, row_ok r) t → map_Forall (λ _ r, row_ok r) (f t)) →
  queue_inv (set_staging f d).
Proof.
  intros [[] Hrows] Hdom Hok. split; [|by apply Hok].
  constructor; simpl; auto.
Qed.

Lemma update_where_keeps p g :
  (∀ r, row_ok r → row_ok (g r)) →
  (∀ t k, is_Some (update_where p g t !! k) → is_Some ((t : gmap string staging_row) !! k)) ∧
  (∀ t, map_Forall (λ _ r, row_ok r) t → map_Forall (λ _ r, row_ok r) (update_where p g t)).
Proof.
  intros Hg. split.
  - intros t k. rewrite lookup_update_where. by rewrite fmap_is_Some.
  - intros t Ht k r. rewrite lookup_update_where.
    intros (r0 & Hr & ->)%fmap_Some. specialize (Ht _ _ Hr). case_match; auto.
Qed.

Lemma alter_keeps g n :
  (∀ r, row_ok r → row_ok (g r)) →
  (∀ (t : gmap string staging_row) k, is_Some (alter g n t !! k) → is_Some (t !! k)) ∧
  (∀ t : gmap string staging_row, map_Forall (λ _ r, row_ok r) t → map_Forall (λ _ r, row_ok r) (alter g n t)).
Proof.
  intros Hg. split.
  - intros t k. rewrite lookup_alter. case_decide; [subst|done]. by rewrite fmap_is_Some.
  - intros t Ht k r. rewrite lookup_alter. case_decide; [|apply Ht].
    subst. intros (r0 & Hr & ->)%fmap_Some. eauto.
Qed.

Lemma delete_keeps (ks : list string) :
  (∀ (t : gmap string staging_row) k, is_Some (foldr delete t ks !! k) → is_Some (t !! k)) ∧
  (∀ t : gmap string staging_row, map_Forall (λ _ r, row_ok r) t → map_Forall (λ _ r, row_ok r) (foldr delete t ks)).
Proof.
  split.
  - intros t k. rewrite lookup_foldr_delete. case_decide; [|done]. by intros [].
  - intros t Ht k r. rewrite lookup_foldr_delete. case_decide; [done|]. apply Ht.
Qed.

Lemma queue_inv_ensure now v s i d n d' :
  _ensure_domain now v s i d = Ok (n, d') → queue_inv d → queue_inv d'.
Proof.
  intros He [Hr Hs]. split; [by eapply references_ensure|].
  by rewrite (ensure_domain_staging _ _ _ _ _ _ _ He).
Qed.

Lemma queue_inv_enqueue_one now p src pool rq c v c' d d' :
  0 ≤ p → is_pool pool = true →
  enqueue_one now p src pool rq c v d = Ok (c', d') → queue_inv d → queue_inv d'.
Proof.
  intros Hp Hpool H [Hr Hs].
  apply enqueue_one_spec in H as (_ & _ & _ & [row Hd] & Hst & [row' Ho]).
  assert (references_ok (set_staging (λ _, staging_domains d) d')) as [R1 R2 R3 R4 R5 R6 R7].
  { rewrite Ho. by apply references_set_domains. }
  split.
  - constructor; simpl in *; try done. rewrite Hst, Hd in *. intros k.
    case_decide; [|apply R1]. intros Hk.
    destruct (decide (_normalize_domain v = k)) as [->|]; [rewrite lookup_insert_eq; eauto|].
    rewrite lookup_insert_ne in Hk by done. by apply R1.
  - rewrite Hst. case_decide; [|done]. apply map_Forall_insert_2; [|done].
    apply enqueued_row_ok; eauto.
Qed.

Lemma queue_inv_op op d : queue_inv d → queue_inv (run_op op d).2.
Proof.
  intros Hd. pose proof (producers_keep queue_inv (λ now v d n d', queue_inv_ensure now v _ _ d n d')
    (λ now p src pool rq c v c' d d' Hp Hpool, queue_inv_enqueue_one now p src pool rq c v c' d d' Hp Hpool)
    op d Hd) as Hprod.
  destruct op; try exact Hprod.
  - apply queue_inv_staging; [done|..];
      apply (update_where_keeps _ (claim_row now)); intros r (_ & ? & ? & ?);
      (split_and!; simpl; [done|lia|lia|done]).
  - apply queue_inv_staging; [done|..]; apply (delete_keeps [_]).
  - simpl. unfold staging_remove. case_bool_decide; [done|].
    apply queue_inv_staging; [done|..]; apply delete_keeps.
  - apply queue_inv_staging; [done|..]; apply alter_keeps; intros r (_ & ? & ? & ?);
      (split_and!; simpl; [by destruct (max_attempts <=? _)|lia|lia|done]).
  - apply queue_inv_staging; [done|..]; apply alter_keeps; intros r (_ & ? & ? & ?);
      (split_and!; simpl; [done|lia|lia|done]).
  - apply queue_inv_staging; [done|..]; apply (update_where_keeps _ (recover_row now));
      intros r (_ & ? & ? & ?); (split_and!; simpl; [done|lia|lia|done]).
Qed.

(** The databases the operations reach from [d]. *)
Inductive queue_reachable (d : db) : db → Prop :=
  | qr_start : queue_reachable d d
  | qr_step op d' : queue_reachable d d' → queue_reachable d (run_op op d').2.

(** * Classification filters *)

(** The [SELECT] of [filter_unclassified_domains] on one domain. *)
Definition is_classified (d : db) (domain : string) : bool :=
  match domains d !! domain with
  | None => false
  | Some row =>
      match dr_last_classified_at row with
      | Some _ => true
      | None =>
          match review d !! domain with
          | None => false
          | Some r =>
              negb (bool_decide (rv_status r ∈ ["queued"; "processing"; "failed"]%string)) &&
              (negb (String.eqb (rv_policy r) "unknown") || str_nonempty (rv_short r) ||
               str_nonempty (rv_details r) || str_nonempty (rv_categories r))
          end
      end
  end.

(** [for start in range(0, len(l), size)]: the slices, in order. *)
Fixpoint chunks_fuel {A} (fuel size : nat) (l : list A) : list (list A) :=
  match fuel, l with
  | O, _ | _, [] => []
  | S fuel, _ => take size l :: chunks_fuel fuel size (drop size l)
  end.
Definition chunks {A} (size : nat) (l : list A) : list (list A) :=
  chunks_fuel (length l) size l.

Definition filter_unclassified_domains (values : list string) (d : db) : list string :=
  let normalized := unique_normalized values in
  let classified := mjoin ((λ chunk, filter (λ k, is_classified d k = true) chunk) <$>
                             chunks 500 normalized) in
  filter (λ k, k ∉ classified) normalized.

Definition domains_without_classification (values : list string) (d : db) : gset string :=
  let normalized := list_to_set (C := gset string) (unique_normalized values) in
  let classified := list_to_set (C := gset string)
    (rr_domain <$> filter (λ r, rr_is_primary r = true ∧ rr_domain r ∈ normalized)
                     (classification_runs d)) in
  normalized ∖ classified.

(** * Query observations *)

(** [row.get("time")]: missing, a number, or a text that is not one. *)
Inductive time_value := NoTime | Time (q : Q) | BadTime.

Record query_row := QueryRow {
  qr_domain : string;
  qr_client : string;
  qr_type : string;
  qr_status : string;
  qr_time : time_value
}.

Definition row_timestamp (now : Z) (r : query_row) : Z :=
  match qr_time r with
  | Time q => if Qeq_bool q 0 then now else py_int q
  | NoTime | BadTime => now
  end.

Definition row_key (now : Z) (r : query_row) : observation_key :=
  let timestamp := row_timestamp now r in
  let bucket := timestamp - timestamp mod 3600 in
  (_normalize_domain (qr_domain r), qr_client r, qr_type r, qr_status r, bucket).

(** The [Counter] [grouped] and [first_last] in one list, in insertion order:
    count, first and last time of every key. *)
Abbreviation observation_group := (observation_key * (Z * Z * Z))%type.

Fixpoint group_add (key : observation_key) (timestamp : Z) (l : list observation_group)
    : list observation_group :=
  match l with
  | [] => [(key, (1, timestamp, timestamp))]
  | (k, (count, first, last)) :: l' =>
      if decide (k = key)
      then (k, (count + 1, Z.min first timestamp, Z.max last timestamp)) :: l'
      else (k, (count, first, last)) :: group_add key timestamp l'
  end.

Definition group_rows (now : Z) (rows : list query_row) : list observation_group :=
  foldl (λ l r, if str_nonempty (_normalize_domain (qr_domain r))
                then group_add (row_key now r) (row_timestamp now r) l else l) [] rows.

Definition upsert_observation (count first last : Z) (e : option observation_row) : observation_row :=
  match e with
  | None => ObservationRow count first last
  | Some r => ObservationRow (or_query_count r + count) (Z.min (or_first_seen r) first)
                (Z.max (or_last_seen r) last)
  end.

(** One pass of the storing loop; the foreign key of [query_observations] is
    checked by the insertion. *)
Definition store_observation (clock : Z) (_ : unit) (g : observation_group) : dbtx unit :=
  let '(key, (count, first, last)) := g in
  let domain := key.1.1.1.1 in
  _ ← _ensure_domain clock domain (Some last) count;
  known ← tx_read (λ d, domains d !! domain);
  match known with
  | None => tx_raise (IntegrityError "FOREIGN KEY constraint failed")
  | Some _ => tx_write (set_observations (λ t,
                <[key := upsert_observation count first last (t !! key)]> t))
  end.

Definition record_query_observations (clock : Z) (rows : list query_row) : dbprog Z :=
  let grouped := group_rows clock rows in
  _ ← commit (tx_fold (store_observation clock) tt grouped);
  mret (sumZ (λ g, g.2.1.1) grouped).

(** [record_discovered_domains]: the largest time of every domain. *)
Fixpoint discovered_add (domain : string) (timestamp : Z) (l : list (string * Z)) :=
  match l with
  | [] => [(domain, Z.max 0 timestamp)]
  | (k, t) :: l' => if String.eqb k domain then (k, Z.max t timestamp) :: l'
                    else (k, t) :: discovered_add domain timestamp l'
  end.

Definition record_discovered_domains (clock : Z) (rows : list query_row) : dbprog Z :=
  let discovered := foldl (λ l r,
    let domain := _normalize_domain (qr_domain r) in
    if str_nonempty domain then discovered_add domain (row_timestamp clock r) l else l) [] rows in
  _ ← commit (tx_fold (λ _ p, _ ← _ensure_domain clock p.1 (Some p.2) 0; mret tt) tt discovered);
  mret (Z.of_nat (length discovered)).

(** [domain_observation_summary]: the aggregated groups, by falling count. *)
Record observation_aggregate := Aggregate {
  ag_client : string; ag_type : string; ag_status : string;
  ag_count : Z; ag_first_seen : Z; ag_last_seen : Z
}.

Fixpoint aggregate_add (client ty status : string) (o : observation_row)
    (l : list observation_aggregate) : list observation_aggregate :=
  match l with
  | [] => [Aggregate client ty status (or_query_count o) (or_first_seen o) (or_last_seen o)]
  | a :: l' =>
      if String.eqb (ag_client a) client && String.eqb (ag_type a) ty && String.eqb (ag_status a) status
      then Aggregate client ty status (ag_count a + or_query_count o)
             (Z.min (ag_first_seen a) (or_first_seen o)) (Z.max (ag_last_seen a) (or_last_seen o)) :: l'
      else a :: aggregate_add client ty status o l'
  end.

Definition domain_observation_summary (now : Z) (domain : string) (days : Z) (d : db)
    : option domain_row * list observation_aggregate :=
  let normalized := _normalize_domain domain in
  let cutoff := now - Z.max 1 days * 86400 in
  let rows := filter (λ p : observation_key * observation_row,
                 p.1.1.1.1.1 = normalized ∧ cutoff ≤ or_last_seen p.2)
                (map_to_list (query_observations d)) in
  let groups := foldl (λ l (p : observation_key * observation_row),
                  let '(_, client, ty, status, _) := p.1 in aggregate_add client ty status p.2 l)
                  [] rows in
  (domains d !! normalized, take 100 (sort_by (λ a b, ag_count b <=? ag_count a) groups)).

(** ** Accounting for observations *)

Definition valid_row (r : query_row) : bool := str_nonempty (_normalize_domain (qr_domain r)).

Definition group_weight (p : observation_key → bool) (l : list observation_group) : Z :=
  sumZ (λ g, if p g.1 then g.2.1.1 else 0) l.

Lemma group_add_weight p key ts l :
  group_weight p (group_add key ts l) = group_weight p l + (if p key then 1 else 0).
Proof.
  unfold group_weight. induction l as [|[k [[c f] t]] l IH]; simpl; [lia|].
  case_decide as Hk; simpl; [subst; destruct (p key); lia|].
  rewrite IH. lia.
Qed.

Lemma count_if_cons {A} (p : A → bool) x l :
  count_if p (x :: l) = (if p x then 1 else 0) + count_if p l.
Proof. unfold count_if. rewrite filter_cons. destruct (p x); simpl; lia. Qed.

Lemma group_rows_weight p now rows :
  group_weight p (group_rows now rows) = count_if (λ r, valid_row r && p (row_key now r)) rows.
Proof.
  unfold group_rows.
  enough (∀ l, group_weight p (foldl (λ l r, if valid_row r
             then group_add (row_key now r) (row_timestamp now r) l else l) l rows) =
           group_weight p l + count_if (λ r, valid_row r && p (row_key now r)) rows) as H
    by exact (eq_trans (H []) (Z.add_0_l _)).
  induction rows as [|r rows IH]; intros l; simpl; [unfold count_if; simpl; lia|].
  rewrite IH, count_if_cons. destruct (valid_row r); simpl; [rewrite group_add_weight|]; lia.
Qed.

Lemma group_add_key key ts l g :
  g ∈ group_add key ts l → g.1 = key ∨ ∃ g', g' ∈ l ∧ g'.1 = g.1.
Proof.
  induction l as [|[k [[c f] t]] l IH]; simpl.
  - intros ->%list_elem_of_singleton. by left.
  - case_decide as Hk.
    + intros [->|Hg]%elem_of_cons; [by left|]. right. exists g. split; [by right|done].
    + intros [->|Hg]%elem_of_cons.
      * right. eexists. split; [by left|done].
      * destruct (IH Hg) as [?|(g' & ? & ?)]; [by left|]. right. exists g'. split; [by right|done].
Qed.

(** Every group comes from a row. *)
Lemma group_rows_key now rows g :
  g ∈ group_rows now rows → ∃ r, r ∈ rows ∧ valid_row r = true ∧ g.1 = row_key now r.
Proof.
  unfold group_rows.
  enough (∀ l, g ∈ foldl (λ l r, if valid_row r
             then group_add (row_key now r) (row_timestamp now r) l else l) l rows →
           (∃ g', g' ∈ l ∧ g'.1 = g.1) ∨
           ∃ r, r ∈ rows ∧ valid_row r = true ∧ g.1 = row_key now r) as H.
  { intros Hg. destruct (H [] Hg) as [(g' & Hg' & _)|?]; [set_solver|done]. }
  induction rows as [|r rows IH]; intros l; simpl; [eauto|].
  intros [(g' & Hg' & Hk)|(r' & ? & ? & ?)]%IH.
  - destruct (valid_row r) eqn:Hv; [|eauto].
    destruct (group_add_key _ _ _ _ Hg') as [E|(g2 & ? & ?)].
    + right. exists r. split_and!; [by left|done|congruence].
    + left. exists g2. split; [done|congruence].
  - right. exists r'. split_and!; [by right|done|done].
Qed.

Lemma group_rows_count_pos now rows g : g ∈ group_rows now rows → 0 ≤ g.2.1.1.
Proof.
  unfold group_rows.
  enough (∀ l, (∀ g, g ∈ l → 0 ≤ g.2.1.1) → g ∈ foldl (λ l r, if valid_row r
             then group_add (row_key now r) (row_timestamp now r) l else l) l rows →
           0 ≤ g.2.1.1) as H by (apply H; set_solver).
  induction rows as [|r rows IH]; intros l Hl; simpl; [by apply Hl|].
  apply IH. destruct (valid_row r); [|done]. clear -Hl. revert Hl.
  generalize (row_key now r) (row_timestamp now r). intros key ts.
  induction l as [|[k [[c f] t]] l IHl]; intros Hl g; simpl.
  - intros ->%list_elem_of_singleton. simpl. lia.
  - assert (0 ≤ c) by (apply (Hl (k, (c, f, t))); by left).
    assert (∀ g, g ∈ l → 0 ≤ g.2.1.1) as Hl' by (intros; apply Hl; by right).
    case_decide; intros [->|Hg]%elem_of_cons; simpl; auto; lia.
Qed.

Definition observed (d : db) (key : observation_key) : Z :=
  default 0 (or_query_count <$> query_observations d !! key).
Definition queries_of (d : db) (domain : string) : Z :=
  default 0 (dr_query_count <$> domains d !! domain).

Lemma ensure_domain_count clock v s i d n d' k :
  0 ≤ i → _ensure_domain clock v s i d = Ok (n, d') →
  queries_of d' k = queries_of d k + (if String.eqb (_normalize_domain v) k then i else 0).
Proof.
  intros Hi. unfold _ensure_domain. destruct (str_nonempty _); simpl; [|done].
  intros [= <- <-]. unfold queries_of. simpl.
  destruct (String.eqb_spec (_normalize_domain v) k) as [->|Hne].
  - rewrite lookup_insert_eq. destruct (domains d !! k); simpl; lia.
  - rewrite lookup_insert_ne by done. lia.
Qed.

Lemma store_observation_count clock g d d' :
  0 ≤ g.2.1.1 → store_observation clock tt g d = Ok (tt, d') →
  (∀ key, observed d' key = observed d key + (if bool_decide (g.1 = key) then g.2.1.1 else 0)) ∧
  (∀ k, queries_of d' k = queries_of d k +
        (if String.eqb (_normalize_domain g.1.1.1.1.1) k then g.2.1.1 else 0)).
Proof.
  destruct g as [key [[count first] last]]. simpl. intros Hc.
  unfold store_observation, mbind, tx_bind. simpl.
  destruct (_ensure_domain _ _ _ _ _) as [[n d1]|e] eqn:He; [|done].
  pose proof (λ k, ensure_domain_count _ _ _ _ _ _ _ k Hc He) as Hq.
  apply _ensure_domain_spec in He as (_ & _ & r & ->).
  unfold tx_read. destruct (domains _ !! _); [|done]. intros [= <-]. split; intros k.
  - unfold observed. simpl. case_bool_decide as Hk; [subst k|].
    + rewrite lookup_insert_eq. destruct (query_observations d !! key); simpl; lia.
    + rewrite lookup_insert_ne by done. lia.
  - exact (Hq k).
Qed.

Lemma store_fold_count clock gs d d' :
  (∀ g, g ∈ gs → 0 ≤ g.2.1.1) →
  tx_fold (store_observation clock) tt gs d = Ok (tt, d') →
  (∀ key, observed d' key = observed d key + group_weight (λ k, bool_decide (k = key)) gs) ∧
  (∀ k, queries_of d' k =
        queries_of d k + group_weight (λ key, String.eqb (_normalize_domain key.1.1.1.1) k) gs).
Proof.
  revert d. induction gs as [|g gs IH]; intros d Hpos; simpl.
  - intros [= ->]. unfold group_weight. simpl. split; intros; lia.
  - unfold mbind, tx_bind. destruct (store_observation _ _ _ _) as [[[] d1]|e] eqn:E; [|done].
    intros Hf. apply IH in Hf as [H1 H2]; [|intros; apply Hpos; by right].
    apply store_observation_count in E as [E1 E2]; [|apply Hpos; by left].
    unfold group_weight in *. simpl. split; intros k.
    + rewrite H1, E1. lia.
    + rewrite H2, E2. lia.
Qed.

(** Storing a group whose domain is a fixed point of normalisation succeeds. *)
Lemma store_fold_ok clock gs d :
  (∀ g, g ∈ gs → stable_name g.1.1.1.1.1) →
  ∃ d', tx_fold (store_observation clock) tt gs d = Ok (tt, d').
Proof.
  revert d. induction gs as [|[key [[c f] t]] gs IH]; intros d Hs; simpl; [by eexists|].
  destruct (Hs (key, (c, f, t))) as [Hn Hne]; [by left|]. simpl in *.
  unfold mbind, tx_bind.
  destruct (_ensure_domain_ok clock key.1.1.1.1 (Some t) c d) as [r ->]; [by rewrite Hn|].
  unfold tx_read. simpl. rewrite Hn, lookup_insert_eq. simpl.
  apply IH. intros. apply Hs. by right.
Qed.

(** ** Chunked filtering *)

Lemma chunks_fuel_join {A} fuel size (l : list A) :
  (0 < size)%nat → (length l ≤ fuel)%nat → mjoin (chunks_fuel fuel size l) = l.
Proof.
  intros Hs. revert l. induction fuel as [|fuel IH]; intros [|x l] Hl; try done; simpl in *.
  { lia. }
  rewrite IH; [by rewrite (take_drop size (x :: l))|].
  rewrite length_drop. simpl. lia.
Qed.

Lemma filter_join {A} (P : A → Prop) `{∀ x, Decision (P x)} (ls : list (list A)) :
  mjoin (filter P <$> ls) = filter P (mjoin ls).
Proof. induction ls as [|l ls IH]; [done|].
  change (filter P l ++ mjoin (filter P <$> ls) = filter P (l ++ mjoin ls)).
  by rewrite filter_app, IH. Qed.

(** ** Readiness *)

Lemma max_priority_ge rows p :
  p ∈ rows → sr_priority p.2 ≤ default 0 (max_priority rows).
Proof.
  induction 1 as [p rows|p q rows Hp IH]; simpl; destruct (max_priority rows) eqn:E; simpl in *; try lia.
  destruct rows; [set_solver|done].
Qed.

Lemma max_priority_in rows :
  rows ≠ [] → ∃ p, p ∈ rows ∧ max_priority rows = Some (sr_priority p.2).
Proof.
  induction rows as [|p rows IH]; [done|]. intros _. simpl.
  destruct rows as [|q rows']; [exists p; split; [by left|done]|].
  destruct IH as (m & Hm & ->); [done|].
  destruct (Z.le_ge_cases (sr_priority p.2) (sr_priority m.2)).
  - exists m. split; [by right|]. f_equal. lia.
  - exists p. split; [by left|]. f_equal. lia.
Qed.

Lemma min_created_le rows p c :
  p ∈ rows → min_created rows = Some c → c ≤ sr_created_at p.2.
Proof.
  intros Hp. revert c. induction Hp as [p rows|p q rows Hp IH]; simpl; intros c [= <-].
  - destruct (min_created rows); lia.
  - destruct (min_created rows) as [m|] eqn:E; [specialize (IH m eq_refl); lia|].
    destruct rows; [set_solver|done].
Qed.

Lemma min_created_in rows :
  rows ≠ [] → ∃ p, p ∈ rows ∧ min_created rows = Some (sr_created_at p.2).
Proof.
  induction rows as [|p rows IH]; [done|]. intros _. simpl.
  destruct rows as [|q rows']; [exists p; split; [by left|done]|].
  destruct IH as (m & Hm & ->); [done|].
  destruct (Z.le_ge_cases (sr_created_at p.2) (sr_created_at m.2)).
  - exists p. split; [by left|]. f_equal. lia.
  - exists m. split; [by right|]. f_equal. lia.
Qed.

Definition eligible (now : Z) (pool : string) (d : db) (k : string) (r : staging_row) : Prop :=
  staging_domains d !! k = Some r ∧ claimable now pool (k, r) = true.

Lemma claimable_rows_eligible now pool d p :
  p ∈ claimable_rows now pool d ↔ eligible now pool d p.1 p.2.
Proof. destruct p. apply claimable_rows_spec. Qed.

(** * Properties *)

(** Every requested domain is accounted for exactly once in the result of an enqueue. *)
Theorem enqueue_accounts_for_every_domain ex now vs p src pool rq d r d' :
  staging_enqueue_detailed ex now vs p src pool rq d = (Ok r, d') →
  qe_requested r = Z.of_nat (length (unique_normalized vs)) ∧
  qe_requested r = accepted r + qe_skipped_locked r + qe_skipped_filtered r ∧
  0 ≤ qe_queued r ∧ 0 ≤ qe_requeued r ∧ 0 ≤ qe_already_pending r ∧
  0 ≤ qe_skipped_locked r ∧ 0 ≤ qe_skipped_filtered r.
Proof.
  unfold staging_enqueue_detailed, mbind, prog_bind, commit.
  destruct (tx_fold _ _ _ _) as [[c d1]|e] eqn:E; [|done].
  cbv [mret prog_ret]. intros [= <- <-]. unfold accepted. simpl.
  apply enqueue_fold_total in E as [Ht Hp]. unfold counts_total, counts_nonneg in *. simpl in *.
  assert (length (unique_normalized vs) =
    (length (filter (λ d, _domain_matches_suffix d ex = true) (unique_normalized vs)) +
     length (filter (λ d, d ∉ filter (λ d, _domain_matches_suffix d ex = true)
                                (unique_normalized vs)) (unique_normalized vs)))%nat) as Hl.
  { rewrite <- (filter_partition_length (unique_normalized vs)
      (λ d, _domain_matches_suffix d ex = true)). do 2 f_equal.
    apply list_filter_iff_in. intros x Hx. rewrite list_elem_of_filter. tauto. }
  lia.
Qed.
Lemma enqueue_accounts_for_every_domain_witness :
  ∃ r d', staging_enqueue_detailed [".arpa"%string] 1000
            ["Ads.Example.com."; "ads.example.com"; "x.in-addr.arpa"]%string 0 "live_query" ""
            false db_empty = (Ok r, d') ∧ qe_requested r = 2.
Proof.
  eexists _, _. split; [vm_compute; reflexivity|].
  destruct (enqueue_accounts_for_every_domain [".arpa"%string] 1000
    ["Ads.Example.com."; "ads.example.com"; "x.in-addr.arpa"]%string 0 "live_query" "" false
    db_empty _ _ eq_refl) as (H & _). vm_compute. reflexivity.
Defined.

(** On names that normalisation leaves alone an enqueue never fails and gives
    every requested, unfiltered and unlocked domain its new row. *)
Lemma enqueue_pointwise ex now vs p src pool rq d :
  Forall stable_name (unique_normalized vs) →
  let p' := Z.max 0 p in
  let src' := str_strip src in
  let accepted k := k ∈ unique_normalized vs ∧ _domain_matches_suffix k ex = false ∧
                    domain_locks d !! k = None in
  ∃ r d', staging_enqueue_detailed ex now vs p src pool rq d = (Ok r, d') ∧
    domain_locks d' = domain_locks d ∧ review d' = review d ∧
    classification_runs d' = classification_runs d ∧
    ∀ k, (accepted k → staging_domains d' !! k =
           Some (enqueued_row now p' src' (_queue_pool_id pool p' src') rq (staging_domains d !! k))) ∧
         (¬ accepted k → staging_domains d' !! k = staging_domains d !! k).
Proof.
  intros Hv p' src' accepted.
  set (us := unique_normalized vs).
  set (l := filter (λ d, d ∉ filter (λ d, _domain_matches_suffix d ex = true) us) us).
  assert (NoDup l) as Hnd by apply NoDup_filter, unique_normalized_NoDup.
  assert (Forall stable_name l) as Hst.
  { apply Forall_forall. intros x Hx. apply list_elem_of_filter in Hx as [_ Hx].
    by apply (proj1 (Forall_forall _ _) Hv). }
  destruct (enqueue_fold_stable now p' src' (_queue_pool_id pool p' src') rq l (Counts 0 0 0 0) d
              Hnd Hst) as (c & d' & Hf & Hl & Hr & Hu & _ & _ & Hk).
  unfold staging_enqueue_detailed, mbind, prog_bind, commit.
  fold p' src' us l. rewrite Hf. eexists _, d'. split_and!; try done.
  intros k. rewrite Hk.
  assert (k ∈ l ↔ k ∈ us ∧ _domain_matches_suffix k ex = false) as Hkl.
  { unfold l. rewrite !list_elem_of_filter. destruct (_domain_matches_suffix k ex); naive_solver. }
  unfold accepted. fold us. split; intros Ha; case_decide; tauto.
Qed.

(** On names without blanks an enqueue never fails and is the pointwise update
    that gives every requested, unfiltered and unlocked domain its new row and
    leaves every other row, the locks, the reviews and the history alone. *)
Theorem enqueue_refines_pointwise ex now vs p src pool rq d :
  Forall (λ v, no_space (_normalize_domain v) = true) vs →
  let p' := Z.max 0 p in
  let src' := str_strip src in
  let accepted k := k ∈ unique_normalized vs ∧ _domain_matches_suffix k ex = false ∧
                    domain_locks d !! k = None in
  ∃ r d', staging_enqueue_detailed ex now vs p src pool rq d = (Ok r, d') ∧
    domain_locks d' = domain_locks d ∧ review d' = review d ∧
    classification_runs d' = classification_runs d ∧
    ∀ k, (accepted k → staging_domains d' !! k =
           Some (enqueued_row now p' src' (_queue_pool_id pool p' src') rq (staging_domains d !! k))) ∧
         (¬ accepted k → staging_domains d' !! k = staging_domains d !! k).
Proof.
  intros Hv. apply enqueue_pointwise, Forall_forall. intros x (Hne & v & Hin & ->)%unique_normalized_spec.
  split; [|done]. apply normalize_domain_fixed. by eapply Forall_forall in Hv.
Qed.
Lemma enqueue_refines_pointwise_witness :
  ∃ r d', staging_enqueue_detailed [".arpa"%string] 1000 ["ads.example.com"]%string 0 "live_query" ""
            false db_empty = (Ok r, d') ∧ domain_locks d' = ∅ ∧
  staging_domains d' !! "ads.example.com"%string =
    Some (StagingRow "queued" 0 1000 1000 "" 0 "live_query" "background" 0).
Proof.
  destruct (enqueue_refines_pointwise [".arpa"%string] 1000 ["ads.example.com"]%string 0 "live_query" ""
    false db_empty) as (r & d' & E & L & _ & _ & K); [by repeat constructor|].
  exists r, d'. split; [exact E|]. split; [exact L|]. apply K.
  split; [|split; vm_compute; reflexivity].
  apply unique_normalized_spec. split; [done|]. eexists. split; [by left|]. reflexivity.
Defined.

(** A batch with a name that one pass of normalisation keeps and a second one
    empties (a blank between two dots) is rejected as a whole: the call raises
    and nothing of the batch is queued. *)
Theorem enqueue_blank_dot_rejects_batch ex now vs p src pool rq d v :
  v ∈ vs → _normalize_domain v ≠ ""%string →
  _normalize_domain (_normalize_domain v) = ""%string →
  _domain_matches_suffix (_normalize_domain v) ex = false →
  staging_enqueue_detailed ex now vs p src pool rq d =
    (Err (ValueError "domain must not be empty"), d).
Proof.
  intros Hv Hne Hn Hex.
  unfold staging_enqueue_detailed, mbind, prog_bind.
  erewrite commit_err; [reflexivity|].
  eapply enqueue_fold_poison; [|exact Hn].
  assert (_normalize_domain v ∈ unique_normalized vs) as Hu
    by (apply unique_normalized_spec; eauto).
  rewrite !list_elem_of_filter, Hex. naive_solver.
Qed.
Lemma enqueue_blank_dot_rejects_batch_witness :
  staging_enqueue_detailed [".arpa"%string] 1000 ["ads.example.com"; ". ."]%string 0 "live_query" ""
    false db_empty = (Err (ValueError "domain must not be empty"), db_empty).
Proof.
  apply (enqueue_blank_dot_rejects_batch [".arpa"%string] 1000 ["ads.example.com"; ". ."]%string 0
    "live_query" "" false db_empty ". ."%string);
    [right; left|vm_compute; discriminate|vm_compute; reflexivity|vm_compute; reflexivity].
Defined.

(** A claim takes rows that are queued, due and of the pool, at most the limit
    of them, in the order of the queue and before every eligible row it leaves;
    it marks exactly those as being processed and counts the attempt. *)
Theorem claim_takes_the_first_eligible now limit pool d :
  ∃ items, staging_claim_items now limit pool d =
    (Ok items, (staging_claim_items now limit pool d).2) ∧
  Z.of_nat (length items) ≤ Z.max 1 limit ∧
  StronglySorted (λ a b, staging_leb a b = true) items ∧
  (∀ k r, (k, r) ∈ items → eligible now pool d k r) ∧
  (∀ k r k' r', (k, r) ∈ items → eligible now pool d k' r' → (k', r') ∉ items →
     staging_leb (k, r) (k', r') = true) ∧
  ((∃ k r, eligible now pool d k r) → items ≠ []) ∧
  ∀ k, staging_domains (staging_claim_items now limit pool d).2 !! k =
    (λ r, if bool_decide (k ∈ items.*1) then claim_row now r else r) <$> staging_domains d !! k.
Proof.
  exists (claimed_rows now limit pool d). rewrite staging_claim_items_eq.
  split_and!; [done| | | | | |].
  - unfold claimed_rows. rewrite length_take. lia.
  - apply StronglySorted_take, sort_by_sorted; [apply staging_leb_total|apply staging_leb_trans].
  - intros k r H%claimed_rows_sub. by apply claimable_rows_spec.
  - intros k r k' r' H He Hn. eapply claimed_rows_rest; [done| |done]. by apply claimable_rows_spec.
  - intros (k & r & H). apply claimed_rows_nonempty. apply claimable_rows_spec in H. by intros E; rewrite E in H; apply not_elem_of_nil in H.
  - intros k. simpl. apply lookup_update_where.
Qed.

(** C8: no domain is handed to two workers: after a claim returned it, no sequence
    of queue operations, with any clocks, pools and interleaving, returns it
    again unless one of them gave it back. *)
Theorem claimed_domain_is_exclusive op k d ops :
  k ∈ (run_op op d).1 → Forall (λ o, ¬ releases o k) ops → k ∉ handed_out ops (run_op op d).2.
Proof. intros Hk. apply processing_not_handed_out. by apply claimed_is_processing. Qed.
Lemma claimed_domain_is_exclusive_witness :
  "ads.example.com"%string ∉
    handed_out [OpClaim 2000 10 "realtime"; OpDefer 2000 "cdn.example.com" "" 0; OpClaim 2100 10 ""]
      (run_op (OpClaim 1500 1 "background")
        (run_op (OpEnqueue [] 1000 ["ads.example.com"; "cdn.example.com"]%string 0 "" "" false) db_empty).2).2.
Proof.
  apply claimed_domain_is_exclusive.
  - vm_compute. left.
  - repeat constructor; simpl; vm_compute; congruence.
Defined.

(** C7: every database the queue operations reach from a well-formed one is
    well-formed: rows have a known state and pool, attempts and priority are not
    negative, and every dependent row names a registered domain. *)
Theorem queue_operations_keep_invariant d d' :
  queue_inv d → queue_reachable d d' → queue_inv d'.
Proof. intros Hd. induction 1; [done|by apply queue_inv_op]. Qed.
Lemma queue_operations_keep_invariant_witness :
  queue_inv (run_op (OpClaim 1500 1 "background")
        (run_op (OpEnqueue [] 1000 ["ads.example.com"]%string 0 "" "" false) db_empty).2).2.
Proof.
  apply (queue_operations_keep_invariant db_empty).
  - split; [|apply map_Forall_empty].
    constructor; simpl; intros k; rewrite ?lookup_empty; try (intros []; discriminate);
      intros Hk; exfalso; exact (not_elem_of_nil _ Hk).
  - apply qr_step, qr_step, qr_start.
Defined.

(** A pool is ready exactly when a row is eligible and either a manual one
    (priority 100 or more) is among them, or they reach the trigger size, or
    one of them has waited long enough; and a ready pool has work to claim. *)
Theorem ready_exactly_when now trigger wait pool d :
  (∀ k r, eligible now pool d k r → 0 < sr_created_at r) →
  (staging_ready now trigger wait pool d = true ↔
     ∃ k r, eligible now pool d k r ∧
       (100 ≤ sr_priority r ∨
        Z.max 1 trigger ≤ Z.of_nat (length (claimable_rows now pool d)) ∨
        Z.max 1 wait ≤ now - sr_created_at r)) ∧
  (staging_ready now trigger wait pool d = true →
     ∀ limit, ∃ items, (staging_claim_items now limit pool d).1 = Ok items ∧ items ≠ []).
Proof.
  intros Hpos. set (rows := claimable_rows now pool d).
  assert (∀ p, p ∈ rows → eligible now pool d p.1 p.2) as Hin
    by (intros; by apply claimable_rows_eligible).
  assert (staging_ready now trigger wait pool d = true → rows ≠ []) as Hne.
  { unfold staging_ready. fold rows. by destruct rows. }
  split; [|intros Hr limit; eexists; split; [reflexivity|]; apply claimed_rows_nonempty, Hne, Hr].
  split.
  - intros Hr. pose proof (Hne Hr) as Hn. unfold staging_ready in Hr. fold rows in Hr.
    destruct (max_priority_in rows Hn) as (p & Hp & Hmax).
    destruct (min_created_in rows Hn) as (q & Hq & Hmin).
    rewrite Hmax, Hmin in Hr. simpl in Hr.
    destruct (Z.of_nat (length rows) =? 0); [done|].
    destruct (100 <=? sr_priority p.2) eqn:E1; [exists p.1, p.2; bool_cmp; split; [by apply Hin|lia]|].
    destruct (Z.max 1 trigger <=? _) eqn:E2; [exists p.1, p.2; bool_cmp; split; [by apply Hin|lia]|].
    pose proof (Hpos _ _ (Hin q Hq)). exists q.1, q.2. split; [by apply Hin|].
    destruct (sr_created_at q.2 =? 0) eqn:E3; bool_cmp; lia.
  - intros (k & r & He & Hc).
    assert ((k, r) ∈ rows) as Hp by (by apply claimable_rows_spec).
    unfold staging_ready. fold rows. fold rows in Hc.
    assert (length rows ≠ 0%nat) as Hl by (destruct rows; [by apply not_elem_of_nil in Hp|done]).
    destruct (Z.of_nat (length rows) =? 0) eqn:E0; [bool_cmp; lia|].
    pose proof (max_priority_ge rows _ Hp) as Hm. simpl in Hm.
    destruct (100 <=? _) eqn:E1; [done|]. destruct (Z.max 1 trigger <=? _) eqn:E2; [done|].
    destruct (min_created_in rows) as (q & Hq & Hmin); [by intros E; rewrite E in Hl|].
    pose proof (min_created_le rows _ _ Hp Hmin) as Hle. simpl in Hle.
    pose proof (Hpos _ _ (Hin q Hq)). rewrite Hmin. simpl.
    destruct (sr_created_at q.2 =? 0) eqn:E3; bool_cmp; [lia|]. apply Z.leb_le. lia.
Qed.
Lemma ready_exactly_when_witness :
  let d := (run_op (OpEnqueue [] 1000 ["ads.example.com"]%string 0 "" "" false) db_empty).2 in
  staging_ready 1400 20 300 "background" d = true.
Proof.
  apply ready_exactly_when.
  - intros k r [Hk _]. revert Hk. vm_compute (staging_domains _).
    intros Hk. apply elem_of_map_to_list in Hk. vm_compute in Hk.
    apply list_elem_of_singleton in Hk. injection Hk as _ ->. done.
  - eexists "ads.example.com"%string, _. split; [split; vm_compute; reflexivity|]. right. right.
    vm_compute. discriminate.
Defined.

(** Deferring a claimed row gives its attempt back and hides it until the retry
    time: it is eligible at a later clock exactly when that clock has reached it. *)
Theorem defer_hides_until_retry now now' domain error retry_at pool k r d :
  _normalize_domain domain = k → staging_domains d !! k = Some r → 0 ≤ sr_attempts r →
  pool_clause pool r = true →
  let d1 := set_staging (alter (claim_row now) k) d in
  let d2 := (staging_defer now domain error retry_at d1).2 in
  ∃ r2, staging_domains d2 !! k = Some r2 ∧ sr_attempts r2 = sr_attempts r ∧
    now < sr_available_at r2 ∧ py_int retry_at ≤ sr_available_at r2 ∧
    (eligible now' pool d2 k r2 ↔ Z.max (now + 1) (py_int retry_at) ≤ now') ∧
    ∀ k', k' ≠ k → staging_domains d2 !! k' = staging_domains d !! k'.
Proof.
  intros <- Hr Ha Hp. simpl. rewrite !lookup_alter_eq, Hr. simpl.
  eexists. split; [reflexivity|]. simpl. split_and!; try lia.
  - unfold eligible. simpl. rewrite !lookup_alter_eq, Hr. simpl.
    unfold claimable, pool_clause in *. simpl in *. rewrite Hp, andb_true_r, Z.leb_le. tauto.
  - intros k' Hne. by rewrite !lookup_alter_ne.
Qed.
Lemma defer_hides_until_retry_witness :
  let d := (run_op (OpEnqueue [] 1000 ["ads.example.com"]%string 0 "" "" false) db_empty).2 in
  ∃ r2, staging_domains (staging_defer 1100 "Ads.example.com" "quota" (3000 # 2)
          (set_staging (alter (claim_row 1100) "ads.example.com"%string) d)).2 !!
          "ads.example.com"%string = Some r2 ∧ sr_attempts r2 = 0.
Proof.
  intros d. destruct (defer_hides_until_retry 1100 1400 "Ads.example.com" "quota" (3000 # 2)
    "background" "ads.example.com"%string
    (StagingRow "queued" 0 1000 1000 "" 0 "" "background" 0) d) as (r2 & H1 & H2 & _);
    [reflexivity|vm_compute; reflexivity|vm_compute; discriminate|reflexivity|].
  exists r2. split; [exact H1|exact H2].
Defined.

(** A domain that keeps failing is retried at most [max_attempts] times: the
    row goes back to the queue while its attempts are below the bound and is
    failed from then on, where no claim takes it. *)
Theorem failing_domain_stops_after_max_attempts now domain error max_attempts k r d :
  _normalize_domain domain = k → staging_domains d !! k = Some r →
  ∃ r', staging_domains (staging_fail now domain error max_attempts d).2 !! k = Some r' ∧
    sr_attempts r' = sr_attempts r ∧
    (sr_state r' = "queued"%string ↔ sr_attempts r < max_attempts) ∧
    (max_attempts ≤ sr_attempts r →
       sr_state r' = "failed"%string ∧
       ∀ now' pool, ¬ eligible now' pool (staging_fail now domain error max_attempts d).2 k r').
Proof.
  intros <- Hr. unfold staging_fail, commit, mbind, tx_bind. simpl. rewrite Hr. simpl.
  rewrite lookup_alter_eq, Hr. simpl. eexists. split; [reflexivity|]. simpl.
  destruct (max_attempts <=? sr_attempts r) eqn:E; bool_cmp; (split_and!; [done| |]).
  - split; [done|lia].
  - intros _. split; [done|]. intros now' pool [_ H]. done.
  - split; [lia|done].
  - lia.
Qed.
Lemma failing_domain_stops_after_max_attempts_witness :
  let d := (run_op (OpEnqueue [] 1000 ["ads.example.com"]%string 0 "" "" false) db_empty).2 in
  ∃ r', staging_domains (staging_fail 1100 "ads.example.com" "timeout" 3 d).2 !!
          "ads.example.com"%string = Some r' ∧ sr_state r' = "queued"%string.
Proof.
  intros d. destruct (failing_domain_stops_after_max_attempts 1100 "ads.example.com" "timeout" 3
    "ads.example.com"%string
    (StagingRow "queued" 0 1000 1000 "" 0 "" "background" 0) d) as (r' & H1 & _ & H2 & _);
    [reflexivity|vm_compute; reflexivity|].
  exists r'. split; [exact H1|]. apply H2. vm_compute. reflexivity.
Defined.

(** Recording query rows loses and invents nothing: on names without blanks it
    succeeds, returns the number of usable rows, and the count of every
    observation key and of every domain grows by its rows. *)
Theorem observations_are_counted_exactly clock rows d :
  Forall (λ r, no_space (_normalize_domain (qr_domain r)) = true) rows →
  ∃ d', record_query_observations clock rows d = (Ok (count_if valid_row rows), d') ∧
    (∀ key, observed d' key = observed d key +
       count_if (λ r, valid_row r && bool_decide (row_key clock r = key)) rows) ∧
    (∀ k, queries_of d' k = queries_of d k +
       count_if (λ r, valid_row r && String.eqb (_normalize_domain (qr_domain r)) k) rows).
Proof.
  intros Hrows. set (gs := group_rows clock rows).
  assert (∀ r, r ∈ rows → no_space (_normalize_domain (qr_domain r)) = true) as Hns
    by (intros r Hr; by eapply Forall_forall in Hrows).
  destruct (store_fold_ok clock gs d) as [d' Hd'].
  { intros g (r & Hr & Hv & ->)%group_rows_key. split.
    - apply normalize_domain_fixed. by apply Hns.
    - simpl. unfold valid_row in Hv. by destruct (_normalize_domain (qr_domain r)). }
  destruct (store_fold_count clock gs d d') as [H1 H2];
    [intros; by eapply group_rows_count_pos|done|].
  exists d'. split_and!.
  - unfold record_query_observations, mbind, prog_bind. fold gs.
    rewrite (commit_ok _ _ _ _ Hd'). cbv [mret prog_ret]. do 2 f_equal.
    pose proof (group_rows_weight (λ _, true) clock rows) as Hw. fold gs in Hw.
    unfold group_weight in Hw. rewrite Hw. unfold count_if. do 2 f_equal.
    apply list_filter_iff. intros r. by rewrite andb_true_r.
  - intros key. rewrite H1. unfold gs. by rewrite group_rows_weight.
  - intros k. rewrite H2. unfold gs. rewrite group_rows_weight. f_equal. unfold count_if. do 2 f_equal.
    apply list_filter_iff_in. intros r Hr. simpl. by rewrite (normalize_domain_fixed _ (Hns r Hr)).
Qed.
Lemma observations_are_counted_exactly_witness :
  ∃ d', record_query_observations 5000
          [QueryRow "a.com" "10.0.0.2" "A" "FORWARDED" (Time 4000);
           QueryRow "A.com." "10.0.0.2" "A" "FORWARDED" (Time 4100);
           QueryRow "" "" "" "" NoTime]%string db_empty = (Ok 2, d').
Proof.
  destruct (observations_are_counted_exactly 5000
     [QueryRow "a.com" "10.0.0.2" "A" "FORWARDED" (Time 4000);
      QueryRow "A.com." "10.0.0.2" "A" "FORWARDED" (Time 4100);
      QueryRow "" "" "" "" NoTime]%string db_empty) as (d' & H & _); [by repeat constructor|].
  exists d'. exact H.
Defined.

(** Looking domains up in chunks of 500 gives the same answer as one lookup of
    them all: the unclassified names, each once, in their first order. *)
Theorem chunked_filter_is_plain_filter vs d :
  filter_unclassified_domains vs d =
  filter (λ k, is_classified d k = false) (unique_normalized vs).
Proof.
  unfold filter_unclassified_domains. rewrite filter_join.
  unfold chunks. rewrite chunks_fuel_join by lia.
  apply list_filter_iff_in. intros k Hk. rewrite list_elem_of_filter.
  destruct (is_classified d k); naive_solver.
Qed.
