(* ===== verification/Quota.v ===== *)
(** [pihole_manager/quota.py]: usage estimates, quota reservations in SQLite,
    rolling and daily limits, live header state and retry times.

    [quota_db] holds the two tables of the module.  [reserve_quota] and
    [complete_quota] run in one [BEGIN IMMEDIATE] transaction, so they are one
    [tx]; the clock reading [now] and the fresh [uuid4] are arguments. *)
From stdpp Require Import base gmap strings list.
From Stdlib Require Import Ascii QArith Qround Lqa Sorted.
From S2P Require Import Prelude Json Models HttpRetry.
Open Scope Z_scope.

(** * Data *)

Record QuotaEstimate := mkQuotaEstimate {
  es_domain_count : Z;
  es_request_count : Z;
  es_input_tokens : Z;
  es_output_tokens : Z;
  es_units : Q
}.
Definition es_total_tokens (e : QuotaEstimate) : Z := es_input_tokens e + es_output_tokens e.

Record QuotaReservation := mkQuotaReservation {
  qr_reservation_id : string;
  qr_scope_key : string;
  qr_provider_id : string;
  qr_pool_id : string;
  qr_estimate : QuotaEstimate;
  qr_created_at : Q;
  qr_expires_at : Q
}.

(** A row of [quota_reservations], without its primary key [id]. *)
Record reservation_row := ReservationRow {
  qw_scope_key : string;
  qw_provider_id : string;
  qw_pool_id : string;
  qw_state : string;
  qw_domain_count : Z;
  qw_request_count : Z;
  qw_input_tokens : Z;
  qw_output_tokens : Z;
  qw_units : Q;
  qw_created_at : Q;
  qw_expires_at : Q;
  qw_completed_at : option Q
}.

(** A row of [runtime_quota_state]; the key is scope, metric and window. *)
Record RuntimeQuotaState := mkRuntimeQuotaState {
  rs_limit_amount : Q;
  rs_remaining_amount : Q;
  rs_reset_at : Q;
  rs_observed_at : Q;
  rs_source : string
}.
Abbreviation runtime_key := (string * string * Z)%type.

Record quota_db := QuotaDb {
  quota_reservations : gmap string reservation_row;
  runtime_quota_state : gmap runtime_key RuntimeQuotaState
}.

Inductive quota_exn :=
  | QuotaUnavailableError (retry_at : Q)
  | QuotaIntegrityError.

(** [QuotaUnavailableError.__init__] stores [max(0.0, retry_at)]. *)
Definition quota_unavailable (retry_at : Q) : quota_exn := QuotaUnavailableError (qmax 0 retry_at).
Definition wait_seconds (retry_at now : Q) : Q := qmax 0 (retry_at - now).

(** * Estimates *)

(** The length of a character in [json.dumps(..., ensure_ascii=False)]. *)
Definition json_char_length (c : Ascii.ascii) : Z :=
  let n := Ascii.N_of_ascii c in
  if (n =? 34)%N || (n =? 92)%N then 2
  else if ((8 <=? n) && (n <=? 10) || (12 <=? n) && (n <=? 13))%N then 2
  else if (n <? 32)%N then 6 else 1.

Fixpoint json_body_length (s : string) : Z :=
  match s with
  | EmptyString => 0
  | String c s => json_char_length c + json_body_length s
  end.

(** A message is a dictionary of texts, printed with the separators [,] and [:]. *)
Definition json_message_length (m : list (string * string)) : Z :=
  2 + Z.max 0 (Z.of_nat (length m) - 1) +
  sumZ (λ kv, (2 + json_body_length kv.1) + 1 + (2 + json_body_length kv.2)) m.

Definition json_messages_length (ms : list (list (string * string))) : Z :=
  2 + Z.max 0 (Z.of_nat (length ms) - 1) + sumZ json_message_length ms.

Definition estimate_message_tokens (ms : list (list (string * string))) : Z :=
  Z.max 1 (Qceiling (zq (json_messages_length ms) / (7 # 2))).

Definition _units_for_usage (input_tokens output_tokens : Z) (p : ProviderLimitProfile) : Q :=
  (zq (Z.max 0 input_tokens) * lp_input_units_per_million_tokens p +
   zq (Z.max 0 output_tokens) * lp_output_units_per_million_tokens p) / 1000000.

(** [AVG(output_tokens * 1.0 / MAX(domain_count, 1))] of the 50 completed rows
    with the latest [completed_at]. *)
Definition calibration_rows (provider_id : string) (q : quota_db) : list reservation_row :=
  take 50 (sort_by (λ a b, Qle_bool (default 0 (qw_completed_at b)) (default 0 (qw_completed_at a)))%Q
    (filter (λ r, qw_provider_id r = provider_id ∧ qw_state r = "completed"%string ∧
                  0 < qw_output_tokens r)
       ((map_to_list (quota_reservations q)).*2))).

Definition calibrated_output_tokens_per_domain (provider_id : string) (default_ : Q) (q : quota_db) : Q :=
  let rows := calibration_rows provider_id q in
  let average :=
    match rows with
    | [] => 0%Q
    | _ => (sumQ (λ r, zq (qw_output_tokens r) / zq (Z.max (qw_domain_count r) 1)) rows /
            zq (Z.of_nat (length rows)))%Q
    end in
  qmin 4096 (qmax 128 (if Qeq_bool average 0 then default_ else average)).

Definition estimate_provider_usage (ms : list (list (string * string)))
    (provider : LLMProviderOptions) (profile : ProviderLimitProfile) (domain_count : Z)
    (q : quota_db) : QuotaEstimate :=
  let selected_domain_count := Z.max 1 domain_count in
  let input_tokens := estimate_message_tokens ms in
  let output_per_domain := calibrated_output_tokens_per_domain (po_provider_id provider) 600 q in
  let output_tokens := Qceiling (output_per_domain * zq selected_domain_count * (6 # 5)) in
  let output_tokens := Z.max 256 (Z.min (Z.max 1 (po_max_output_tokens provider)) output_tokens) in
  mkQuotaEstimate selected_domain_count 1 input_tokens output_tokens
    (_units_for_usage input_tokens output_tokens profile).

Definition batch_fits_context (e : QuotaEstimate) (provider : LLMProviderOptions)
    (profile : ProviderLimitProfile) : bool :=
  let context_tokens :=
    if 0 <? lo_context_tokens (po_limits provider) then lo_context_tokens (po_limits provider)
    else cp_context_tokens (lp_capability profile) in
  if context_tokens <=? 0 then true
  else
    let margin := qmin 50 (qmax 0 (lp_safety_margin_percent profile)) in
    let usable_context := Qfloor (zq context_tokens * (1 - margin / 100)) in
    es_total_tokens e <=? usable_context.

Definition maximum_provider_batch_size (profile : ProviderLimitProfile) (o : LLMOptions) : Z :=
  let configured := Z.max 1 (lm_domains_per_request o) in
  let configured :=
    if 0 <? lp_max_domains_per_request profile
    then Z.min configured (lp_max_domains_per_request profile) else configured in
  if String.eqb (lp_source profile) "unknown" && negb (cp_local (lp_capability profile))
  then Z.min configured (Z.max 1 (lm_unknown_remote_max_domains_per_request o))
  else configured.

(** * Metrics *)

Definition _metric_value (e : QuotaEstimate) (metric : string) : Q :=
  if String.eqb metric "requests" then zq (es_request_count e)
  else if String.eqb metric "input_tokens" then zq (es_input_tokens e)
  else if String.eqb metric "output_tokens" then zq (es_output_tokens e)
  else if String.eqb metric "total_tokens" then zq (es_total_tokens e)
  else if String.eqb metric "units" then es_units e
  else 0%Q.

Definition _row_metric_value (r : reservation_row) (metric : string) : Q :=
  if String.eqb metric "total_tokens" then (zq (qw_input_tokens r) + zq (qw_output_tokens r))%Q
  else if String.eqb metric "requests" then zq (qw_request_count r)
  else if String.eqb metric "input_tokens" then zq (qw_input_tokens r)
  else if String.eqb metric "output_tokens" then zq (qw_output_tokens r)
  else if String.eqb metric "units" then qw_units r
  else 0%Q.

(** * Limits *)

Definition _effective_limits (profile : ProviderLimitProfile) (o : LLMOptions) : list ProviderLimit :=
  if negb (bool_decide (lp_limits profile = [])) || cp_local (lp_capability profile) ||
     String.eqb (lp_source profile) "user"
  then lp_limits profile
  else [mkProviderLimit "requests" (zq (Z.max 1 (lm_unknown_remote_requests_per_minute o))) 60
          "provider_model" "conservative_unknown" 0 "rolling"].

(** [WHERE scope_key = ? AND reset_at > ?] *)
Definition live_states (scope_key : string) (now : Q) (q : quota_db)
    : list (runtime_key * RuntimeQuotaState) :=
  filter (λ p, p.1.1.1 = scope_key ∧ qltb now (rs_reset_at p.2) = true)
    (map_to_list (runtime_quota_state q)).

(** The dictionary [combined] after one live state. *)
Definition add_live_state (combined : gmap (string * Z) ProviderLimit)
    (s : runtime_key * RuntimeQuotaState) : gmap (string * Z) ProviderLimit :=
  let key := (s.1.1.2, s.1.2) in
  let existing := combined !! key in
  let amount := rs_limit_amount s.2 in
  let amount := match existing with
                | Some l => if qltb 0 (pl_user_cap l) then qmin amount (pl_user_cap l) else amount
                | None => amount
                end in
  <[key := mkProviderLimit key.1 amount key.2
             (match existing with Some l => pl_scope l | None => "live" end)
             "live_header"
             (match existing with Some l => pl_user_cap l | None => 0%Q end)
             (match existing with Some l => pl_reset_policy l | None => "rolling" end)]> combined.

Definition limit_leb (a b : ProviderLimit) : bool :=
  str_ltb (pl_metric a) (pl_metric b) ||
  String.eqb (pl_metric a) (pl_metric b) && (pl_window_seconds a <=? pl_window_seconds b).

Definition _limits_with_live_state (q : quota_db) (scope_key : string) (limits : list ProviderLimit)
    (profile : ProviderLimitProfile) (now : Q) : list ProviderLimit :=
  if String.eqb (lp_source profile) "user" then limits
  else
    let combined := foldl (λ m l, <[(pl_metric l, pl_window_seconds l) := l]> m) ∅ limits in
    let combined := foldl add_live_state combined (live_states scope_key now q) in
    sort_by limit_leb ((map_to_list combined).*2).

(** The loop of [_retry_at_for_limit], which stops at the first row whose
    expiry frees enough. *)
Fixpoint retry_scan (rows : list reservation_row) (metric : string) (candidate cap reduced retry_at : Q)
    (window_seconds : Z) : Q :=
  match rows with
  | [] => retry_at
  | r :: rows =>
      let reduced := (reduced - _row_metric_value r metric)%Q in
      let retry_at := (qw_created_at r + zq window_seconds)%Q in
      if Qle_bool (reduced + candidate) cap then retry_at
      else retry_scan rows metric candidate cap reduced retry_at window_seconds
  end.

Definition _retry_at_for_limit (rows : list reservation_row) (metric : string) (candidate cap : Q)
    (window_seconds : Z) (now : Q) : Q :=
  let current := sumQ (λ r, _row_metric_value r metric) rows in
  if qltb cap candidate then (now + zq (Z.max 1 window_seconds))%Q
  else if Qle_bool (current + candidate) cap then 0%Q
  else qmax now (retry_scan rows metric candidate cap current
                   (now + zq (Z.max 1 window_seconds))%Q window_seconds).

(** The share of a limit a pool may use. *)
Definition limit_cap (l : ProviderLimit) (pool_id : string)
    (realtime_reserve_percent safety_margin_percent : Q) : Q :=
  let safety_factor := (1 - qmin 50 (qmax 0 safety_margin_percent) / 100)%Q in
  let cap := (pl_amount l * safety_factor)%Q in
  if String.eqb pool_id "background"
  then (cap * (1 - qmin 90 (qmax 0 realtime_reserve_percent) / 100))%Q
  else cap.

Definition utc_day_start (now : Q) : Q := zq (Qfloor (now / 86400) * 86400).

(** The rows a limit counts: since midnight, or within the rolling window. *)
Definition limit_rows (l : ProviderLimit) (now : Q) (rows : list reservation_row)
    : list reservation_row :=
  if String.eqb (pl_reset_policy l) "utc_day"
  then filter (λ r, Qle_bool (utc_day_start now) (qw_created_at r) = true) rows
  else filter (λ r, qltb (now - zq (pl_window_seconds l)) (qw_created_at r) = true) rows.

(** One pass of the loop of [_limit_retry_at]. *)
Definition limit_retry (rows : list reservation_row) (e : QuotaEstimate) (pool_id : string)
    (reserve margin now : Q) (l : ProviderLimit) : Q :=
  let candidate := _metric_value e (pl_metric l) in
  if Qle_bool candidate 0 then 0%Q
  else
    let cap := limit_cap l pool_id reserve margin in
    let relevant := limit_rows l now rows in
    if String.eqb (pl_reset_policy l) "utc_day" then
      let current := sumQ (λ r, _row_metric_value r (pl_metric l)) relevant in
      if qltb cap (current + candidate) then (utc_day_start now + 86400)%Q else 0%Q
    else _retry_at_for_limit relevant (pl_metric l) candidate cap (pl_window_seconds l) now.

Definition _limit_retry_at (rows : list reservation_row) (limits : list ProviderLimit)
    (e : QuotaEstimate) (pool_id : string) (reserve margin now : Q) : Q :=
  foldl (λ retry_at l, qmax retry_at (limit_retry rows e pool_id reserve margin now l)) 0%Q limits.

Definition _live_limit_retry_at (q : quota_db) (rows : list reservation_row) (scope_key : string)
    (e : QuotaEstimate) (now : Q) : Q :=
  foldl (λ retry_at (s : runtime_key * RuntimeQuotaState),
    let metric := s.1.1.2 in
    let candidate := _metric_value e metric in
    let used := sumQ (λ r, _row_metric_value r metric)
                  (filter (λ r, qltb (rs_observed_at s.2) (qw_created_at r) = true) rows) in
    if qltb (rs_remaining_amount s.2) (candidate + used)
    then qmax retry_at (rs_reset_at s.2) else retry_at) 0%Q (live_states scope_key now q).

(** * Reservations *)

(** [state = 'reserved' AND expires_at <= ?] *)
Definition expired (now : Q) (r : reservation_row) : bool :=
  String.eqb (qw_state r) "reserved" && Qle_bool (qw_expires_at r) now.

Definition close_row (state : string) (now : Q) (r : reservation_row) : reservation_row :=
  ReservationRow (qw_scope_key r) (qw_provider_id r) (qw_pool_id r) state (qw_domain_count r)
    (qw_request_count r) (qw_input_tokens r) (qw_output_tokens r) (qw_units r) (qw_created_at r)
    (qw_expires_at r) (Some now).

Definition set_reservations f (q : quota_db) : quota_db :=
  QuotaDb (f (quota_reservations q)) (runtime_quota_state q).
Definition set_runtime f (q : quota_db) : quota_db :=
  QuotaDb (quota_reservations q) (f (runtime_quota_state q)).

Definition cancel_expired (now : Q) : quota_db → quota_db :=
  set_reservations (update_where (λ _ r, expired now r) (close_row "cancelled" now)).

Definition counted (scope_key : string) (r : reservation_row) : bool :=
  String.eqb (qw_scope_key r) scope_key &&
  (String.eqb (qw_state r) "reserved" || String.eqb (qw_state r) "completed").

(** [ORDER BY created_at, id] *)
Definition reservation_leb (a b : string * reservation_row) : bool :=
  qltb (qw_created_at a.2) (qw_created_at b.2) ||
  Qeq_bool (qw_created_at a.2) (qw_created_at b.2) && str_leb a.1 b.1.

Definition scope_rows (scope_key : string) (q : quota_db) : list reservation_row :=
  (sort_by reservation_leb
     (filter (λ p, counted scope_key p.2 = true) (map_to_list (quota_reservations q)))).*2.

Definition new_reservation_row (r : QuotaReservation) (now : Q) : reservation_row :=
  let e := qr_estimate r in
  ReservationRow (qr_scope_key r) (qr_provider_id r) (qr_pool_id r) "reserved"
    (Z.max 1 (es_domain_count e)) (Z.max 0 (es_request_count e)) (Z.max 0 (es_input_tokens e))
    (Z.max 0 (es_output_tokens e)) (qmax 0 (es_units e)) now (qr_expires_at r) None.

Section Reserve.
(** [url_hostname] is [urlparse(url).hostname or ""], [account_fingerprint] the
    truncated HMAC of an account identity. *)
Context (url_hostname account_fingerprint : string → string).

Definition quota_scope_key (provider : LLMProviderOptions) (profile : ProviderLimitProfile)
    (limits : list ProviderLimit) : string :=
  let scopes := (λ l, str_lower (str_strip (pl_scope l))) <$> limits in
  let group := str_lower (str_strip (lp_quota_group profile)) in
  let group :=
    if str_nonempty group then group
    else
      let host := str_lower (str_or (url_hostname (po_base_url provider)) (po_preset_id provider)) in
      str_or host (po_provider_id provider) in
  let fingerprint := account_fingerprint (str_or (po_api_key provider) (po_provider_id provider)) in
  let include_model :=
    negb (existsb (λ s, bool_decide (s ∈ ["account"; "organization"; "project"]%string)) scopes) in
  str_join ":" ([group; fingerprint] ++
    (if include_model
     then [str_or (str_lower (str_strip (po_model provider))) (po_provider_id provider)] else [])).

(** The retry time the transaction computes, after the expired reservations are gone. *)
Definition reserve_retry_at (profile : ProviderLimitProfile) (e : QuotaEstimate)
    (pool_id scope_key : string) (limits : list ProviderLimit) (o : LLMOptions) (now : Q)
    (q : quota_db) : Q :=
  let rows := scope_rows scope_key q in
  let active := _limits_with_live_state q scope_key limits profile now in
  let retry_at := _limit_retry_at rows active e pool_id
                    (lm_realtime_quota_reserve_percent o) (lp_safety_margin_percent profile) now in
  qmax retry_at (_live_limit_retry_at q rows scope_key e now).

Definition reserve_quota (provider : LLMProviderOptions) (profile : ProviderLimitProfile)
    (e : QuotaEstimate) (pool_id : string) (o : LLMOptions) (now : Q) (uuid : string)
    : prog quota_db quota_exn QuotaReservation :=
  let normalized_pool := str_or (str_lower (str_strip pool_id)) "background" in
  let limits := _effective_limits profile o in
  let scope_key := quota_scope_key provider profile limits in
  let maximum_window := match limits with
                        | [] => 300
                        | l :: ls => foldl Z.max (pl_window_seconds l) (pl_window_seconds <$> ls)
                        end in
  let expires_at := (now + zq (Z.max 300 maximum_window))%Q in
  let reservation := mkQuotaReservation uuid scope_key (po_provider_id provider) normalized_pool
                       e now expires_at in
  _ ← commit (
    _ ← tx_write (cancel_expired now);
    retry_at ← tx_read (reserve_retry_at profile e normalized_pool scope_key limits o now);
    if qltb now retry_at then tx_raise (quota_unavailable retry_at)
    else
      taken ← tx_read (λ q, quota_reservations q !! uuid);
      match taken with
      | Some _ => tx_raise QuotaIntegrityError
      | None => tx_write (set_reservations (<[uuid := new_reservation_row reservation now]>))
      end);
  mret reservation.
End Reserve.

(** * Completion *)

Definition _normalized_usage (usage : option ProviderUsage) (e : QuotaEstimate)
    (profile : option ProviderLimitProfile) : ProviderUsage :=
  match usage with
  | None => mkProviderUsage (es_input_tokens e) (es_output_tokens e) (es_total_tokens e) (es_units e)
  | Some u =>
      let input_tokens := Z.max 0 (us_input_tokens u) in
      let output_tokens := Z.max 0 (us_output_tokens u) in
      let '(input_tokens, output_tokens) :=
        if (input_tokens =? 0) && (output_tokens =? 0)
        then (es_input_tokens e, es_output_tokens e) else (input_tokens, output_tokens) in
      let units := qmax 0 (us_units u) in
      let units := match profile with
                   | Some p => if Qeq_bool units 0 then _units_for_usage input_tokens output_tokens p
                               else units
                   | None => units
                   end in
      mkProviderUsage input_tokens output_tokens
        (Z.max (us_total_tokens u) (input_tokens + output_tokens)) units
  end.

Definition q_abs (a : Q) : Q := if qltb a 0 then (- a)%Q else a.

(** [math.isclose(a, b, rel_tol=0.001)] *)
Definition is_close (a b : Q) : bool :=
  Qle_bool (q_abs (a - b)) ((1 # 1000) * qmax (q_abs a) (q_abs b)).

(** [min(l, key=...)]: the first of the smallest. *)
Fixpoint min_by {A} (key : A → Q) (best : A) (l : list A) : A :=
  match l with
  | [] => best
  | x :: l => min_by key (if qltb (key x) (key best) then x else best) l
  end.

Definition _matching_window (profile : ProviderLimitProfile) (metric : string) (amount : Q) : Z :=
  let candidates := filter (λ l, pl_metric l = metric) (lp_limits profile) in
  let exact := filter (λ l, is_close (pl_amount l) amount = true) candidates in
  match (match exact with [] => candidates | _ => exact end) with
  | [] => 60
  | l :: ls => pl_window_seconds (min_by (λ l, q_abs (pl_amount l - amount)) l ls)
  end.

Section Headers.
Context (py_float date_timestamp : string → option Q).

(** [float(str(value))]; a missing header is the text [None], not a number. *)
Definition _positive_float (value : option string) : option Q :=
  match value with
  | None => None
  | Some v => match py_float v with
              | Some q => if qltb 0 q then Some q else None
              | None => None
              end
  end.
Definition _nonnegative_float (value : option string) : option Q :=
  match value with
  | None => None
  | Some v => match py_float v with
              | Some q => if Qle_bool 0 q then Some q else None
              | None => None
              end
  end.

Definition header_definitions : list (string * string * string * string) :=
  [("requests", "x-ratelimit-limit-requests", "x-ratelimit-remaining-requests",
    "x-ratelimit-reset-requests");
   ("total_tokens", "x-ratelimit-limit-tokens", "x-ratelimit-remaining-tokens",
    "x-ratelimit-reset-tokens")]%string.

Definition runtime_state_of (scope_key : string) (profile : ProviderLimitProfile)
    (normalized : gmap string string) (now : Q) (def : string * string * string * string)
    : option (runtime_key * RuntimeQuotaState) :=
  let '(metric, limit_name, remaining_name, reset_name) := def in
  match _positive_float (normalized !! limit_name), _nonnegative_float (normalized !! remaining_name) with
  | Some limit_amount, Some remaining_amount =>
      let window := _matching_window profile metric limit_amount in
      let reset_delay := retry_delay_from_headers py_float date_timestamp
            [(reset_name, default ""%string (normalized !! reset_name))]
            (qmax 604800 (zq window)) now in
      let reset_at := (now + match reset_delay with
                             | Some d => d
                             | None => zq (Z.max 1 window)
                             end)%Q in
      Some ((scope_key, metric, Z.max 1 window),
            mkRuntimeQuotaState limit_amount (qmin limit_amount remaining_amount) reset_at now
              "live_header")
  | _, _ => None
  end.

Definition runtime_quota_states_from_headers (scope_key : string) (profile : ProviderLimitProfile)
    (headers : list (string * string)) (now : Q) : list (runtime_key * RuntimeQuotaState) :=
  omap (runtime_state_of scope_key profile (normalized_headers headers) now) header_definitions.

(** [INSERT ... ON CONFLICT DO UPDATE] *)
Definition _save_runtime_state (s : runtime_key * RuntimeQuotaState) : quota_db → quota_db :=
  set_runtime (<[s.1 := s.2]>).

Definition complete_row (usage : ProviderUsage) (now : Q) (r : reservation_row) : reservation_row :=
  ReservationRow (qw_scope_key r) (qw_provider_id r) (qw_pool_id r) "completed" (qw_domain_count r)
    (qw_request_count r) (us_input_tokens usage) (us_output_tokens usage) (us_units usage)
    (qw_created_at r) (qw_expires_at r) (Some now).

Definition is_reserved (id : string) (k : string) (r : reservation_row) : bool :=
  String.eqb k id && String.eqb (qw_state r) "reserved".

Definition complete_quota (r : QuotaReservation) (usage : option ProviderUsage)
    (profile : option ProviderLimitProfile) (headers : list (string * string)) (now : Q)
    : prog quota_db quota_exn unit :=
  let selected := _normalized_usage usage (qr_estimate r) profile in
  commit (
    _ ← tx_write (set_reservations
          (update_where (is_reserved (qr_reservation_id r)) (complete_row selected now)));
    match profile, headers with
    | Some p, _ :: _ =>
        tx_write (λ q, foldl (λ q s, _save_runtime_state s q) q
          (runtime_quota_states_from_headers (qr_scope_key r) p headers now))
    | _, _ => mret tt
    end).
End Headers.

Definition cancel_quota (r : QuotaReservation) (now : Q) : prog quota_db quota_exn unit :=
  commit (tx_write (set_reservations
    (update_where (is_reserved (qr_reservation_id r)) (close_row "cancelled" now)))).

(** [ORDER BY metric, window_seconds] *)
Definition quota_runtime_states (scope_key : string) (now : Q) (q : quota_db)
    : list (runtime_key * RuntimeQuotaState) :=
  sort_by (λ a b, str_ltb a.1.1.2 b.1.1.2 ||
                  String.eqb a.1.1.2 b.1.1.2 && (a.1.2 <=? b.1.2)) (live_states scope_key now q).

(** * Sums over reservation rows *)

Definition row_nonneg (r : reservation_row) : Prop :=
  0 ≤ qw_request_count r ∧ 0 ≤ qw_input_tokens r ∧ 0 ≤ qw_output_tokens r ∧ (0 <= qw_units r)%Q.

Lemma row_metric_nonneg r metric : row_nonneg r → (0 <= _row_metric_value r metric)%Q.
Proof.
  intros (H1 & H2 & H3 & H4). unfold _row_metric_value.
  apply zq_le in H1, H2, H3. change (zq 0) with 0%Q in *.
  repeat case_match; lra.
Qed.

Abbreviation used metric rows := (sumQ (λ r, _row_metric_value r metric) rows).

Lemma used_nonneg metric rows : (∀ r, r ∈ rows → row_nonneg r) → (0 <= used metric rows)%Q.
Proof. intros H. apply sumQ_nonneg. intros. by apply row_metric_nonneg, H. Qed.

Lemma sumQ_Permutation {A} (f : A → Q) l1 l2 : l1 ≡ₚ l2 → (sumQ f l1 == sumQ f l2)%Q.
Proof. induction 1; simpl; lra. Qed.

(** * The cap of a limit *)

Lemma percent x : (x / 100 == x * (1 # 100))%Q.
Proof. field. Qed.

(** [1 - min(top, max(0, x)) / 100], with [top] at most 100, is a share. *)
Lemma share_bounds top x :
  (0 <= top <= 100 -> 0 <= 1 - qmin top (qmax 0 x) / 100 <= 1)%Q.
Proof.
  intros [H1 H2]. pose proof (percent (qmin top (qmax 0 x))).
  assert (0 <= qmin top (qmax 0 x) <= 100)%Q by (q_cases; lra). lra.
Qed.

Lemma share_scale c s : (0 <= c -> 0 <= s <= 1 -> 0 <= c * s <= c)%Q.
Proof.
  intros Hc [H1 H2]. assert (0 <= c * s)%Q by (by apply Qmult_le_0_compat).
  assert (0 <= c * (1 - s))%Q by (apply Qmult_le_0_compat; lra). lra.
Qed.

Lemma limit_cap_nonneg l pool reserve margin :
  (0 <= pl_amount l -> 0 <= limit_cap l pool reserve margin)%Q.
Proof.
  intros H. unfold limit_cap.
  assert (0 <= 50 <= 100)%Q as H50 by lra. assert (0 <= 90 <= 100)%Q as H90 by lra.
  pose proof (share_scale _ _ H (share_bounds 50 margin H50)) as [H1 _].
  pose proof (share_scale _ _ H1 (share_bounds 90 reserve H90)) as [H2 _]. by case_match.
Qed.

Lemma background_cap_le l pool reserve margin :
  (0 <= pl_amount l -> limit_cap l "background" reserve margin <= limit_cap l pool reserve margin)%Q.
Proof.
  intros H. unfold limit_cap. simpl. destruct (String.eqb pool "background"); [lra|].
  assert (0 <= 50 <= 100)%Q as H50 by lra. assert (0 <= 90 <= 100)%Q as H90 by lra.
  pose proof (share_scale _ _ H (share_bounds 50 margin H50)) as [H1 _].
  by pose proof (share_scale _ _ H1 (share_bounds 90 reserve H90)) as [_ ?].
Qed.

(** * Folds of maxima *)

Lemma qmax_fold_ge {A} (f : A → Q) (l : list A) b : (b <= foldl (λ t x, qmax t (f x)) b l)%Q.
Proof.
  revert b. induction l as [|x l IH]; intros b; simpl; [lra|].
  specialize (IH (qmax b (f x))). q_cases; lra.
Qed.

Lemma qmax_fold_in {A} (f : A → Q) (l : list A) b x :
  x ∈ l → (f x <= foldl (λ t x, qmax t (f x)) b l)%Q.
Proof.
  intros Hx. revert b. induction Hx as [x l|x y l Hx IH]; intros b; simpl; [|apply IH].
  pose proof (qmax_fold_ge f l (qmax b (f x))). q_cases; lra.
Qed.

Lemma qmax_fold_le {A} (f : A → Q) (l : list A) b t :
  (b <= t)%Q → (∀ x, x ∈ l → f x <= t)%Q → (foldl (λ t x, qmax t (f x)) b l <= t)%Q.
Proof.
  revert b. induction l as [|x l IH]; intros b Hb Hl; simpl; [done|].
  apply IH; [|intros; apply Hl; by right].
  assert (f x <= t)%Q by (apply Hl; by left). q_cases; lra.
Qed.

(** * What a zero retry time means *)

(** The limit has room for the estimate now. *)
Definition fits (rows : list reservation_row) (e : QuotaEstimate) (pool : string)
    (reserve margin now : Q) (l : ProviderLimit) : Prop :=
  (used (pl_metric l) (limit_rows l now rows) + _metric_value e (pl_metric l)
   <= limit_cap l pool reserve margin)%Q.

Lemma utc_day_next now : (now < utc_day_start now + 86400)%Q.
Proof.
  unfold utc_day_start, zq. pose proof (Qlt_floor (now / 86400)) as H.
  rewrite inject_Z_mult, inject_Z_plus in *.
  assert (now == now / 86400 * 86400)%Q as E by (field).
  change (inject_Z 1) with 1%Q in *. change (inject_Z 86400) with 86400%Q. lra.
Qed.

Lemma retry_scan_after rows metric candidate cap reduced t w now :
  (now < t)%Q → (∀ r, r ∈ rows → now < qw_created_at r + zq w)%Q →
  (now < retry_scan rows metric candidate cap reduced t w)%Q.
Proof.
  revert reduced t. induction rows as [|r rows IH]; intros reduced t Ht Hr; simpl; [done|].
  assert (now < qw_created_at r + zq w)%Q by (apply Hr; by left).
  destruct (Qle_bool _ _); [done|]. apply IH; [done|]. intros; apply Hr; by right.
Qed.

Lemma window_pos w : (1 <= zq (Z.max 1 w))%Q.
Proof. change 1%Q with (zq 1). apply zq_le. lia. Qed.

Lemma limit_rows_in l now rows r : r ∈ limit_rows l now rows → r ∈ rows.
Proof. unfold limit_rows. case_match; rewrite list_elem_of_filter; tauto. Qed.

(** A limit asks for a time after [now] exactly when it has no room. *)
Lemma limit_retry_now rows e pool reserve margin now l :
  (0 < _metric_value e (pl_metric l))%Q → (0 <= now)%Q → (∀ r, r ∈ rows → row_nonneg r) →
  ((limit_retry rows e pool reserve margin now l <= now)%Q ↔ fits rows e pool reserve margin now l).
Proof.
  intros Hc Hnow Hrows. unfold limit_retry, fits. cbv zeta.
  assert (Qle_bool (_metric_value e (pl_metric l)) 0 = false) as -> by (by apply qleb_false).
  assert (0 <= used (pl_metric l) (limit_rows l now rows))%Q as Hu0
    by (apply used_nonneg; intros r ?%limit_rows_in; by apply Hrows).
  destruct (String.eqb (pl_reset_policy l) "utc_day") eqn:Hu.
  - pose proof (utc_day_next now). destruct (qltb _ _) eqn:E; bool_cmp; split; intros; lra.
  - unfold _retry_at_for_limit. pose proof (window_pos (pl_window_seconds l)).
    destruct (qltb (limit_cap _ _ _ _) _) eqn:E1; bool_cmp; [split; intros; exfalso; lra|].
    destruct (Qle_bool (_ + _) _) eqn:E2; bool_cmp; [split; intros; [done|lra]|].
    split; [|intros; exfalso; lra]. intros Hle. exfalso.
    apply qmax_le_iff in Hle as [_ Hle]. revert Hle. apply Qlt_not_le.
    apply retry_scan_after; [lra|]. unfold limit_rows. apply String.eqb_neq in Hu. rewrite Hu.
    intros r [Hr _]%list_elem_of_filter. bool_cmp. lra.
Qed.

Lemma limits_retry_now rows e pool reserve margin now limits :
  (0 <= now)%Q → (∀ r, r ∈ rows → row_nonneg r) →
  ((_limit_retry_at rows limits e pool reserve margin now <= now)%Q ↔
   ∀ l, l ∈ limits → (0 < _metric_value e (pl_metric l))%Q → fits rows e pool reserve margin now l).
Proof.
  intros Hnow Hrows. unfold _limit_retry_at. split.
  - intros H l Hin Hc. apply limit_retry_now; [done..|].
    pose proof (qmax_fold_in (limit_retry rows e pool reserve margin now) limits 0 l Hin). lra.
  - intros H. apply qmax_fold_le; [done|]. intros l Hin.
    destruct (Qlt_le_dec 0 (_metric_value e (pl_metric l))) as [Hc|Hc].
    + apply limit_retry_now; [done..|by apply H].
    + unfold limit_retry. cbv zeta. apply qleb_true in Hc. by rewrite Hc.
Qed.

(** * Waiting until the retry time is enough *)

Definition created_le (a b : reservation_row) : Prop := (qw_created_at a <= qw_created_at b)%Q.

Lemma used_filter_le metric (p q : reservation_row → bool) rows :
  (∀ r, r ∈ rows → row_nonneg r) → (∀ r, r ∈ rows → p r = true → q r = true) →
  (used metric (filter (λ r, p r = true) rows) <= used metric (filter (λ r, q r = true) rows))%Q.
Proof. intros Hr. apply sumQ_filter_le. intros. by apply row_metric_nonneg, Hr. Qed.

Lemma filter_all_false {A} (p : A → bool) (l : list A) :
  (∀ x, x ∈ l → p x = false) → filter (λ x, p x = true) l = [].
Proof.
  induction l as [|x l IH]; intros H; [done|]. rewrite filter_cons, (H x) by (by left).
  simpl. apply IH. intros. apply H. by right.
Qed.

Lemma used_filter_total metric (p : reservation_row → bool) rows :
  (∀ r, r ∈ rows → row_nonneg r) →
  (used metric (filter (λ r, p r = true) rows) <= used metric rows)%Q.
Proof.
  intros Hr. induction rows as [|r rows IH]; [simpl; lra|].
  assert (0 <= _row_metric_value r metric)%Q by (apply row_metric_nonneg, Hr; by left).
  assert (used metric (filter (λ r, p r = true) rows) <= used metric rows)%Q
    by (apply IH; intros; apply Hr; by right).
  rewrite filter_cons. simpl. case_decide; simpl; lra.
Qed.

Lemma retry_scan_row rows metric candidate cap reduced t w :
  rows ≠ [] → ∃ s, s ∈ rows ∧
    (retry_scan rows metric candidate cap reduced t w == qw_created_at s + zq w)%Q.
Proof.
  revert reduced t. induction rows as [|r rows IH]; intros reduced t Hne; [done|]. simpl.
  destruct (Qle_bool _ _); [exists r; split; [by left|lra]|].
  destruct rows as [|r' rows']; [exists r; split; [by left|simpl; lra]|].
  destruct (IH (reduced - _row_metric_value r metric)%Q (qw_created_at r + zq w)%Q) as (s & Hs & E);
    [done|]. exists s. split; [by right|done].
Qed.

(** At any time from the scan's answer on, the rows still in the window leave room. *)
Lemma retry_scan_frees rows metric candidate cap reduced t w T :
  rows ≠ [] → StronglySorted created_le rows → (∀ r, r ∈ rows → row_nonneg r) →
  (candidate <= cap)%Q → (reduced == used metric rows)%Q →
  (retry_scan rows metric candidate cap reduced t w <= T)%Q →
  (used metric (filter (λ r, qltb (T - zq w) (qw_created_at r) = true) rows) + candidate <= cap)%Q.
Proof.
  revert reduced t. induction rows as [|r rows IH]; intros reduced t Hne Hs Hr Hc He HT; [done|].
  apply StronglySorted_inv in Hs as [Hs Hall].
  assert (∀ x, x ∈ rows → row_nonneg x) as Hr' by (intros; apply Hr; by right).
  simpl in HT, He.
  assert (qw_created_at r + zq w <= T -> qltb (T - zq w) (qw_created_at r) = false)%Q as Hout
    by (intros; apply qltb_false; lra).
  rewrite filter_cons. destruct (Qle_bool _ _) eqn:E; bool_cmp.
  - rewrite (Hout HT). simpl.
    pose proof (used_filter_total metric (λ x, qltb (T - zq w) (qw_created_at x)) rows Hr') as Hf.
    cbv beta in Hf. lra.
  - assert (rows ≠ []) as Hne' by (intros ->; simpl in *; lra).
    destruct (retry_scan_row rows metric candidate cap (reduced - _row_metric_value r metric)
      (qw_created_at r + zq w) w Hne') as (s & Hs' & Es).
    assert (created_le r s) as Hrs by (by eapply Forall_forall in Hall). unfold created_le in Hrs.
    rewrite Hout by lra. simpl. eapply IH; [done..| |exact HT]. lra.
Qed.

Lemma limit_rows_later l now T rows metric :
  (now <= T)%Q → (∀ r, r ∈ rows → row_nonneg r) →
  (used metric (limit_rows l T rows) <= used metric (limit_rows l now rows))%Q.
Proof.
  intros HT Hr. unfold limit_rows. destruct (String.eqb _ _); apply used_filter_le; try done;
    intros r _ H; bool_cmp; [apply qleb_true|apply qltb_true; lra].
  assert (utc_day_start now <= utc_day_start T)%Q; [|lra].
  unfold utc_day_start. apply zq_le, Z.mul_le_mono_nonneg_r; [lia|]. apply Qfloor_resp_le.
  apply Qmult_le_compat_r; [done|]. vm_compute. discriminate.
Qed.

Lemma utc_day_elapsed now T :
  (utc_day_start now + 86400 <= T -> utc_day_start now + 86400 <= utc_day_start T)%Q.
Proof.
  unfold utc_day_start. intros H.
  assert (zq (Qfloor (now / 86400) * 86400) + 86400 == zq ((Qfloor (now / 86400) + 1) * 86400))%Q as E.
  { unfold zq. rewrite !inject_Z_mult, inject_Z_plus. change (inject_Z 1) with 1%Q.
    change (inject_Z 86400) with 86400%Q. lra. }
  rewrite E in *. apply zq_le, Z.mul_le_mono_nonneg_r; [lia|].
  rewrite <- (Qfloor_Z (Qfloor (now / 86400) + 1)). apply Qfloor_resp_le.
  unfold zq in *. rewrite inject_Z_mult in H. change (inject_Z 86400) with 86400%Q in H.
  apply Qle_shift_div_l; [done|]. lra.
Qed.

Lemma limit_retry_suffices rows e pool reserve margin now l T :
  StronglySorted created_le rows → (∀ r, r ∈ rows → row_nonneg r) →
  (∀ r, r ∈ rows → qw_created_at r <= now)%Q → (0 <= now)%Q →
  (0 < _metric_value e (pl_metric l))%Q →
  (_metric_value e (pl_metric l) <= limit_cap l pool reserve margin)%Q →
  (now <= T)%Q → (limit_retry rows e pool reserve margin now l <= T)%Q →
  fits rows e pool reserve margin T l.
Proof.
  intros Hs Hr Hpast Hnow Hc Hcap HT Hle.
  destruct (Qlt_le_dec now (limit_retry rows e pool reserve margin now l)) as [Hgt|Hfit].
  2: { apply limit_retry_now in Hfit; [|done..]. unfold fits in *.
       pose proof (limit_rows_later l now T rows (pl_metric l) HT Hr). lra. }
  unfold fits, limit_retry in *. cbv zeta in *.
  assert (Qle_bool (_metric_value e (pl_metric l)) 0 = false) as E by (by apply qleb_false).
  rewrite E in *. clear E. unfold limit_rows in *.
  destruct (String.eqb (pl_reset_policy l) "utc_day").
  - destruct (qltb _ _); [|lra].
    pose proof (utc_day_elapsed now T Hle). pose proof (utc_day_next now).
    rewrite (filter_all_false (λ r, Qle_bool (utc_day_start T) (qw_created_at r))); [simpl; lra|].
    intros r Hin. apply qleb_false. specialize (Hpast r Hin). lra.
  - unfold _retry_at_for_limit in *. destruct (qltb _ _) eqn:E1; bool_cmp; [lra|].
    destruct (Qle_bool (_ + _) _) eqn:E2; bool_cmp; [lra|].
    apply qmax_le_iff in Hle as [_ Hle].
    set (rel := filter (λ r, qltb (now - zq (pl_window_seconds l)) (qw_created_at r) = true) rows) in *.
    assert (rel ≠ []) as Hne by (intros En; rewrite En in *; simpl in *; lra).
    eapply retry_scan_frees in Hle; [|done| |by intros r [_ ?]%list_elem_of_filter; apply Hr|done|reflexivity].
    2: { unfold rel. clear -Hs. induction Hs as [|x l' Hs IH Hx]; [constructor|]. rewrite filter_cons.
         case_decide; [|done]. constructor; [done|]. apply Forall_forall. intros y [_ Hy]%list_elem_of_filter.
         by eapply Forall_forall in Hx. }
    assert (filter (λ r, qltb (T - zq (pl_window_seconds l)) (qw_created_at r) = true) rel =
            filter (λ r, qltb (T - zq (pl_window_seconds l)) (qw_created_at r) = true) rows) as Ef; [|by rewrite <- Ef].
    unfold rel. rewrite list_filter_filter. apply list_filter_iff. intros r. rewrite !qltb_true.
    split; [tauto|]. intros; split; [done|lra].
Qed.

(** * The rows of a scope *)

Lemma reservation_leb_total a b : reservation_leb a b = true ∨ reservation_leb b a = true.
Proof.
  unfold reservation_leb. rewrite !orb_true_iff, !andb_true_iff, !qltb_true, !Qeq_bool_iff.
  destruct (Q_dec (qw_created_at a.2) (qw_created_at b.2)) as [[?|?]|?]; [tauto|tauto|].
  assert (qw_created_at b.2 == qw_created_at a.2)%Q by lra.
  destruct (str_leb_total a.1 b.1); tauto.
Qed.

Lemma reservation_leb_trans a b c :
  reservation_leb a b = true → reservation_leb b c = true → reservation_leb a c = true.
Proof.
  unfold reservation_leb. rewrite !orb_true_iff, !andb_true_iff, !qltb_true, !Qeq_bool_iff.
  pose proof (str_leb_trans a.1 b.1 c.1). intros [?|[? ?]] [?|[? ?]]; try (left; lra).
  right. split; [lra|auto].
Qed.

Lemma StronglySorted_fmap {A B} (f : A → B) (R : A → A → Prop) (S : B → B → Prop) l :
  (∀ x y, R x y → S (f x) (f y)) → StronglySorted R l → StronglySorted S (f <$> l).
Proof.
  intros HRS. induction 1 as [|x l Hl IH Hx]; simpl; constructor; [done|].
  apply Forall_fmap. eapply Forall_impl; [exact Hx|]. eauto.
Qed.

Lemma scope_rows_sorted scope q : StronglySorted created_le (scope_rows scope q).
Proof.
  unfold scope_rows. eapply StronglySorted_fmap;
    [|apply sort_by_sorted; [apply reservation_leb_total|apply reservation_leb_trans]].
  unfold reservation_leb, created_le. intros a b H. simpl.
  rewrite orb_true_iff, andb_true_iff, qltb_true, Qeq_bool_iff in H. destruct H as [?|[? _]]; lra.
Qed.

Lemma elem_of_scope_rows scope q r :
  r ∈ scope_rows scope q ↔ ∃ id, quota_reservations q !! id = Some r ∧ counted scope r = true.
Proof.
  unfold scope_rows. rewrite list_elem_of_fmap. split.
  - intros ([id r'] & -> & H). apply elem_of_sort_by, list_elem_of_filter in H as [Hc H].
    apply elem_of_map_to_list in H. eauto.
  - intros (id & H & Hc). exists (id, r). split; [done|].
    apply elem_of_sort_by, list_elem_of_filter. split; [done|]. by apply elem_of_map_to_list.
Qed.

(** A fresh reservation adds its row to its scope. *)
Lemma scope_rows_insert scope id r q :
  quota_reservations q !! id = None → counted scope r = true →
  scope_rows scope (set_reservations (<[id := r]>) q) ≡ₚ r :: scope_rows scope q.
Proof.
  intros Hf Hc. unfold scope_rows, set_reservations. simpl.
  rewrite !(sort_by_Permutation reservation_leb). rewrite map_to_list_insert by done.
  rewrite filter_cons. simpl. rewrite Hc. done.
Qed.

Lemma limit_rows_Permutation l now rows1 rows2 :
  rows1 ≡ₚ rows2 → limit_rows l now rows1 ≡ₚ limit_rows l now rows2.
Proof. intros H. unfold limit_rows. case_match; by rewrite H. Qed.

Lemma used_limit_rows_cons metric l now r rows :
  row_nonneg r →
  (used metric (limit_rows l now (r :: rows)) <=
   _row_metric_value r metric + used metric (limit_rows l now rows))%Q.
Proof.
  intros Hr. pose proof (row_metric_nonneg r metric Hr).
  unfold limit_rows. destruct (String.eqb _ _); rewrite filter_cons; case_decide; simpl; lra.
Qed.

(** * Well-formed tables *)

Definition rows_ok (q : quota_db) : Prop := map_Forall (λ _ r, row_nonneg r) (quota_reservations q).
Definition estimate_ok (e : QuotaEstimate) : Prop :=
  0 ≤ es_request_count e ∧ 0 ≤ es_input_tokens e ∧ 0 ≤ es_output_tokens e ∧ (0 <= es_units e)%Q.

Lemma scope_rows_ok scope q : rows_ok q → ∀ r, r ∈ scope_rows scope q → row_nonneg r.
Proof. intros H r (id & Hl & _)%elem_of_scope_rows. by eapply H. Qed.

Lemma update_where_rows_ok p f q :
  (∀ r, row_nonneg r → row_nonneg (f r)) → rows_ok q → rows_ok (set_reservations (update_where p f) q).
Proof.
  intros Hf H id r. simpl. rewrite lookup_update_where.
  intros (r0 & Hl & ->)%fmap_Some. specialize (H _ _ Hl). case_match; auto.
Qed.

Lemma new_row_nonneg r now : row_nonneg (new_reservation_row r now).
Proof. unfold row_nonneg, new_reservation_row. simpl. split_and!; try lia. q_cases; lra. Qed.

Lemma new_row_metric r now metric :
  estimate_ok (qr_estimate r) →
  (_row_metric_value (new_reservation_row r now) metric == _metric_value (qr_estimate r) metric)%Q.
Proof.
  intros (H1 & H2 & H3 & H4). unfold _row_metric_value, _metric_value, new_reservation_row,
    es_total_tokens. simpl.
  rewrite !Z.max_r by done. destruct (String.eqb_spec metric "total_tokens") as [->|]; simpl.
  - unfold zq. rewrite inject_Z_plus. lra.
  - repeat case_match; try lra. q_cases; lra.
Qed.

Lemma new_row_counted r now : counted (qr_scope_key r) (new_reservation_row r now) = true.
Proof. unfold counted. simpl. by rewrite String.eqb_refl. Qed.

(** * What a reservation did *)

Section ReserveSpec.
Context (url_hostname account_fingerprint : string → string).
Context (provider : LLMProviderOptions) (profile : ProviderLimitProfile) (o : LLMOptions).

Definition scope_of : string :=
  quota_scope_key url_hostname account_fingerprint provider profile (_effective_limits profile o).
Definition pool_of (pool_id : string) : string :=
  str_or (str_lower (str_strip pool_id)) "background".
Definition active_limits (now : Q) (q : quota_db) : list ProviderLimit :=
  _limits_with_live_state q scope_of (_effective_limits profile o) profile now.

Lemma reserve_quota_cases e pool now uuid q :
  let q1 := cancel_expired now q in
  let t := reserve_retry_at profile e (pool_of pool) scope_of (_effective_limits profile o) o now q1 in
  (∃ r, reserve_quota url_hostname account_fingerprint provider profile e pool o now uuid q =
          (Ok r, set_reservations (<[uuid := new_reservation_row r now]>) q1) ∧
        qr_reservation_id r = uuid ∧ qr_scope_key r = scope_of ∧ qr_estimate r = e ∧
        qr_pool_id r = pool_of pool ∧
        quota_reservations q1 !! uuid = None ∧ (t <= now)%Q) ∨
  (reserve_quota url_hostname account_fingerprint provider profile e pool o now uuid q =
     (Err (quota_unavailable t), q) ∧ (now < t)%Q) ∨
  (reserve_quota url_hostname account_fingerprint provider profile e pool o now uuid q =
     (Err QuotaIntegrityError, q) ∧ is_Some (quota_reservations q1 !! uuid)).
Proof.
  intros q1 t. unfold reserve_quota, commit, mbind, prog_bind, tx_bind, tx_write, tx_read.
  fold q1. change (reserve_retry_at profile e (str_or (str_lower (str_strip pool)) "background")
    (quota_scope_key url_hostname account_fingerprint provider profile (_effective_limits profile o))
    (_effective_limits profile o) o now q1) with t.
  destruct (qltb now t) eqn:E; [right; left; bool_cmp; done|].
  destruct (quota_reservations q1 !! uuid) eqn:Hu; [right; right; eauto|].
  left. eexists. split; [reflexivity|]. bool_cmp. done.
Qed.

Lemma reserve_retry_fits e pool now q :
  (0 <= now)%Q → rows_ok q →
  (reserve_retry_at profile e pool scope_of (_effective_limits profile o) o now q <= now)%Q →
  (∀ l, l ∈ active_limits now q → (0 < _metric_value e (pl_metric l))%Q →
     fits (scope_rows scope_of q) e pool (lm_realtime_quota_reserve_percent o)
       (lp_safety_margin_percent profile) now l) ∧
  (_live_limit_retry_at q (scope_rows scope_of q) scope_of e now <= now)%Q.
Proof.
  intros Hn Hok [H1 H2]%qmax_le_iff. split; [|done].
  apply limits_retry_now; [done|by apply scope_rows_ok|done].
Qed.
End ReserveSpec.

(** The live check passes exactly when every live state has room. *)
Lemma live_retry_fits q rows scope e now :
  (0 <= now)%Q →
  (_live_limit_retry_at q rows scope e now <= now)%Q →
  ∀ s, s ∈ live_states scope now q →
    (_metric_value e s.1.1.2 +
     used s.1.1.2 (filter (λ r, qltb (rs_observed_at s.2) (qw_created_at r) = true) rows)
     <= rs_remaining_amount s.2)%Q.
Proof.
  intros Hn. unfold _live_limit_retry_at.
  assert (∀ s, s ∈ live_states scope now q → (now < rs_reset_at s.2)%Q) as Hlive.
  { unfold live_states. intros s [[_ H] _]%list_elem_of_filter. by apply qltb_true. }
  revert Hlive. generalize (live_states scope now q). intros ss Hlive.
  enough (∀ b, (foldl (λ retry_at (s : runtime_key * RuntimeQuotaState),
      if qltb (rs_remaining_amount s.2) (_metric_value e s.1.1.2 + sumQ (λ r, _row_metric_value r s.1.1.2)
           (filter (λ r, qltb (rs_observed_at s.2) (qw_created_at r) = true) rows))
      then qmax retry_at (rs_reset_at s.2) else retry_at) b ss <= now)%Q → (b <= now)%Q ∧
    ∀ s, s ∈ ss → (_metric_value e s.1.1.2 + used s.1.1.2
      (filter (λ r, qltb (rs_observed_at s.2) (qw_created_at r) = true) rows) <= rs_remaining_amount s.2)%Q) as H
    by (intros Hle; exact (proj2 (H 0%Q Hle))).
  induction ss as [|s ss IH]; intros b; simpl; [intros; split; [done|set_solver]|].
  intros [Hb Hs]%IH; [|intros; apply Hlive; by right].
  pose proof (Hlive s (list_elem_of_here _ _)).
  destruct (qltb _ _) eqn:E; bool_cmp.
  - apply qmax_le_iff in Hb as [? ?]. lra.
  - split; [done|]. intros x [->|Hx]%elem_of_cons; [done|by apply Hs].
Qed.

Lemma cancel_expired_ok now q : rows_ok q → rows_ok (cancel_expired now q).
Proof. apply update_where_rows_ok. by intros r. Qed.

Lemma normalized_usage_nonneg u e p :
  estimate_ok e →
  (∀ p', p = Some p' → 0 <= lp_input_units_per_million_tokens p' /\
                       0 <= lp_output_units_per_million_tokens p')%Q →
  let n := _normalized_usage u e p in
  0 ≤ us_input_tokens n ∧ 0 ≤ us_output_tokens n ∧ (0 <= us_units n)%Q.
Proof.
  intros (_ & H2 & H3 & H4) Hp. unfold _normalized_usage. destruct u as [u|]; [|done].
  assert (0 <= qmax 0 (us_units u))%Q as Hu by (q_cases; lra).
  assert (∀ i k, p ≠ None → (∀ p', p = Some p' → 0 <= _units_for_usage i k p')%Q) as Hunits.
  { intros i k _ p' Ep. specialize (Hp _ Ep) as [Hi Ho]. unfold _units_for_usage.
    pose proof (proj2 (zq_le 0 (Z.max 0 i)) (Z.le_max_l 0 i)) as Zi.
    pose proof (proj2 (zq_le 0 (Z.max 0 k)) (Z.le_max_l 0 k)) as Zk.
    change (zq 0) with 0%Q in *. apply Qle_shift_div_l; [done|].
    pose proof (Qmult_le_0_compat _ _ Zi Hi). pose proof (Qmult_le_0_compat _ _ Zk Ho). lra. }
  destruct (_ && _); destruct p as [p'|]; simpl; split_and!; try lia; try done;
    destruct (Qeq_bool _ _); try done; by apply Hunits.
Qed.

Lemma reserve_ok_rows host fp provider profile o e pool now uuid q r q' :
  rows_ok q → reserve_quota host fp provider profile e pool o now uuid q = (Ok r, q') →
  rows_ok q' ∧ qr_estimate r = e.
Proof.
  intros Hok Hr.
  destruct (reserve_quota_cases host fp provider profile o e pool now uuid q)
    as [(r' & E & _ & _ & He & _)|[[E _]|[E _]]]; rewrite E in Hr; [|done|done].
  injection Hr as <- <-. split; [|done].
  apply map_Forall_insert_2; [apply new_row_nonneg|by apply cancel_expired_ok].
Qed.

(** * Sizes of requests *)

Lemma maximum_provider_batch_size_pos profile o : 1 ≤ maximum_provider_batch_size profile o.
Proof.
  unfold maximum_provider_batch_size.
  destruct (0 <? lp_max_domains_per_request profile) eqn:E; bool_cmp;
    destruct (_ && _); lia.
Qed.

(** * Properties *)

Section Properties.
Context (url_hostname account_fingerprint : string → string).
Context (provider : LLMProviderOptions) (profile : ProviderLimitProfile) (o : LLMOptions).
Abbreviation reserve := (reserve_quota url_hostname account_fingerprint provider profile).
Abbreviation scope := (scope_of url_hostname account_fingerprint provider profile o).
Abbreviation active := (active_limits url_hostname account_fingerprint provider profile o).

(** C16: a granted reservation keeps every limit it draws on: with it counted,
    the usage of the scope in the window of each active limit on something the
    estimate asks a positive amount of stays within the share of the pool (a
    limit on what the estimate asks nothing of is not checked, even when it is
    exceeded), and within what the provider last said remains. Stored
    reservations, the estimate and the time are not negative. *)
Theorem reservation_respects_every_limit e pool now uuid q r q' :
  rows_ok q → estimate_ok e → (0 <= now)%Q →
  reserve e pool o now uuid q = (Ok r, q') →
  (∀ l, l ∈ active now (cancel_expired now q) → (0 < _metric_value e (pl_metric l))%Q →
     (used (pl_metric l) (limit_rows l now (scope_rows scope q')) <=
      limit_cap l (pool_of pool) (lm_realtime_quota_reserve_percent o)
        (lp_safety_margin_percent profile))%Q) ∧
  (∀ s, s ∈ live_states scope now q →
     (_metric_value e s.1.1.2 +
      used s.1.1.2 (filter (λ r, qltb (rs_observed_at s.2) (qw_created_at r) = true)
                      (scope_rows scope (cancel_expired now q)))
      <= rs_remaining_amount s.2)%Q) ∧
  runtime_quota_state q' = runtime_quota_state q.
Proof.
  intros Hok He Hn Hr.
  destruct (reserve_quota_cases url_hostname account_fingerprint provider profile o e pool now uuid q)
    as [(r' & E & Hid & Hsc & Hes & Hpo & Hfresh & Ht)|[[E _]|[E _]]]; rewrite E in Hr; [|done|done].
  injection Hr as <- <-.
  apply reserve_retry_fits in Ht as [Hfit Hlive]; [|done|by apply cancel_expired_ok].
  split_and!; [|exact (live_retry_fits _ _ _ _ _ Hn Hlive)|done].
  intros l Hl Hpos. specialize (Hfit l Hl Hpos). unfold fits in Hfit.
  assert (counted scope (new_reservation_row r' now) = true) as Hc
    by (rewrite <- Hsc; apply new_row_counted).
  rewrite (sumQ_Permutation _ _ _ (limit_rows_Permutation l now _ _ (scope_rows_insert _ _ _ _ Hfresh Hc))).
  pose proof (used_limit_rows_cons (pl_metric l) l now _ (scope_rows scope (cancel_expired now q))
    (new_row_nonneg r' now)) as Hcons.
  rewrite (new_row_metric r' now (pl_metric l)) in Hcons by (by rewrite Hes). rewrite Hes in Hcons. lra.
Qed.

(** A refused reservation changes nothing and names a time that is still to come. *)
Theorem refused_reservation_changes_nothing e pool now uuid q retry_at q' :
  reserve e pool o now uuid q = (Err (QuotaUnavailableError retry_at), q') →
  q' = q ∧ (0 <= now → now < retry_at)%Q ∧ ((0 <= now → 0 < wait_seconds retry_at now)%Q).
Proof.
  intros Hr.
  destruct (reserve_quota_cases url_hostname account_fingerprint provider profile o e pool now uuid q)
    as [(r' & E & _)|[[E Ht]|[E _]]]; rewrite E in Hr; [done| |done].
  injection Hr as <- <-. unfold wait_seconds. split_and!; [done|intros; q_cases; lra|].
  intros. q_cases; lra.
Qed.

(** What the background pool takes never eats the realtime reserve: right after
    a background reservation, a realtime estimate no larger than the reserved
    share of every limit still passes all of them. *)
Theorem background_leaves_the_realtime_reserve e e' now uuid q r q' :
  rows_ok q → estimate_ok e → (0 <= now)%Q →
  reserve e "background" o now uuid q = (Ok r, q') →
  let reserve_pct := lm_realtime_quota_reserve_percent o in
  let margin := lp_safety_margin_percent profile in
  let limits := active now (cancel_expired now q) in
  (∀ l, l ∈ limits → 0 < _metric_value e (pl_metric l) /\
     _metric_value e' (pl_metric l) <=
       limit_cap l "realtime" reserve_pct margin - limit_cap l "background" reserve_pct margin)%Q →
  (_limit_retry_at (scope_rows scope q') limits e' "realtime" reserve_pct margin now <= now)%Q.
Proof.
  intros Hok He Hn Hr reserve_pct margin limits Hl.
  destruct (reserve_quota_cases url_hostname account_fingerprint provider profile o e "background" now uuid q)
    as [(r' & E & Hid & Hsc & Hes & Hpo & Hfresh & Ht)|[[E _]|[E _]]]; rewrite E in Hr; [|done|done].
  injection Hr as <- <-.
  apply reserve_retry_fits in Ht as [Hfit _]; [|done|by apply cancel_expired_ok].
  assert (counted scope (new_reservation_row r' now) = true) as Hc
    by (rewrite <- Hsc; apply new_row_counted).
  set (q1 := cancel_expired now q) in *.
  assert (∀ x, x ∈ scope_rows scope (set_reservations (<[uuid := new_reservation_row r' now]>) q1) →
            row_nonneg x) as Hnn.
  { intros x. rewrite (scope_rows_insert _ _ _ _ Hfresh Hc). intros [->|Hx]%elem_of_cons;
      [apply new_row_nonneg|]. by eapply scope_rows_ok, Hx; apply cancel_expired_ok. }
  apply limits_retry_now; [done..|]. intros l Hin _. destruct (Hl l Hin) as [Hpos Hle].
  specialize (Hfit l Hin Hpos). unfold fits in *.
  rewrite (sumQ_Permutation _ _ _ (limit_rows_Permutation l now _ _ (scope_rows_insert _ _ _ _ Hfresh Hc))).
  pose proof (used_limit_rows_cons (pl_metric l) l now _ (scope_rows scope q1) (new_row_nonneg r' now)) as Hcons.
  rewrite (new_row_metric r' now (pl_metric l)) in Hcons by (by rewrite Hes). rewrite Hes in Hcons.
  change (pool_of "background") with "background"%string in Hfit. fold reserve_pct margin in Hfit. lra.
Qed.
End Properties.

(** Waiting is enough: when every metric of the estimate is within the cap of its
    limit, the limits that refused it at [now] accept it at the retry time they
    gave and at any later time, unless new usage was recorded. *)
Theorem waiting_until_retry_at_is_enough rows limits e pool reserve margin now T :
  StronglySorted created_le rows → (∀ r, r ∈ rows → row_nonneg r) →
  (∀ r, r ∈ rows → qw_created_at r <= now)%Q → (0 <= now)%Q →
  (∀ l, l ∈ limits → _metric_value e (pl_metric l) <= limit_cap l pool reserve margin)%Q →
  (now <= T)%Q → (_limit_retry_at rows limits e pool reserve margin now <= T)%Q →
  (_limit_retry_at rows limits e pool reserve margin T <= T)%Q.
Proof.
  intros Hs Hr Hpast Hn Hcap HT Hle. apply limits_retry_now; [lra|done|].
  intros l Hl Hc. eapply limit_retry_suffices; try done; [by apply Hcap|].
  pose proof (qmax_fold_in (limit_retry rows e pool reserve margin now) limits 0 l Hl) as H.
  unfold _limit_retry_at in Hle. cbv beta in H. lra.
Qed.

(** Completing or cancelling touches only a reservation that is still open, closes
    it for good, and keeps every counter non-negative. *)
Theorem reservations_close_once py_float date_timestamp r usage p headers now q q' :
  rows_ok q → estimate_ok (qr_estimate r) →
  (∀ p', p = Some p' → 0 <= lp_input_units_per_million_tokens p' /\
                       0 <= lp_output_units_per_million_tokens p')%Q →
  (q' = (complete_quota py_float date_timestamp r usage p headers now q).2 ∨
   q' = (cancel_quota r now q).2) →
  rows_ok q' ∧
  ∀ id row, quota_reservations q !! id = Some row →
    ∃ row', quota_reservations q' !! id = Some row' ∧
      (id = qr_reservation_id r → qw_state row = "reserved"%string →
         qw_state row' ∈ ["completed"; "cancelled"]%string) ∧
      (id ≠ qr_reservation_id r ∨ qw_state row ≠ "reserved"%string → row' = row).
Proof.
  intros Hok He Hp.
  destruct (normalized_usage_nonneg usage (qr_estimate r) p He Hp) as (N1 & N2 & N3).
  set (f := complete_row (_normalized_usage usage (qr_estimate r) p) now).
  assert (∀ (ss : list (runtime_key * RuntimeQuotaState)) q0,
      quota_reservations (foldl (λ (q : quota_db) (s : runtime_key * RuntimeQuotaState),
        _save_runtime_state s q) q0 ss) =
                   quota_reservations q0) as Hsave
    by (induction ss as [|s ss IH]; intros q0; simpl; [done|by rewrite IH]).
  intros Hq'. enough (∃ g, quota_reservations q' =
      update_where (is_reserved (qr_reservation_id r)) g (quota_reservations q) ∧
      (∀ x, row_nonneg x → row_nonneg (g x)) ∧ ∀ x, qw_state (g x) ∈ ["completed"; "cancelled"]%string)
    as (g & Eg & Hg & Hst).
  { split.
    - intros id x. rewrite Eg, lookup_update_where. intros (r0 & Hl & ->)%fmap_Some.
      specialize (Hok _ _ Hl). case_match; auto.
    - intros id row Hl. rewrite Eg, lookup_update_where, Hl. eexists. split; [reflexivity|].
      unfold is_reserved. split.
      + intros -> Hs. rewrite String.eqb_refl, Hs. simpl. apply Hst.
      + intros Hd. destruct (String.eqb_spec id (qr_reservation_id r)),
          (String.eqb_spec (qw_state row) "reserved"); simpl; tauto. }
  destruct Hq' as [->| ->].
  - exists f. split_and!; [|intros x (?&?&?&?); by split_and!|intros; by left].
    unfold complete_quota, commit, mbind, tx_bind, tx_write.
    destruct p as [p|]; [destruct headers|]; simpl; [done| |done]. by rewrite Hsave.
  - exists (close_row "cancelled" now). split_and!; [done|by intros x|intros; by right; left].
Qed.

(** A batch accepted for a model fits its context window, and the batch size of a
    provider is at least one and within every configured maximum. *)
Theorem batch_sizes_are_bounded e provider profile o :
  (batch_fits_context e provider profile = true →
   let context := if 0 <? lo_context_tokens (po_limits provider)
                  then lo_context_tokens (po_limits provider)
                  else cp_context_tokens (lp_capability profile) in
   0 < context → es_total_tokens e ≤ context) ∧
  1 ≤ maximum_provider_batch_size profile o ≤ Z.max 1 (lm_domains_per_request o) ∧
  (0 < lp_max_domains_per_request profile →
     maximum_provider_batch_size profile o ≤ lp_max_domains_per_request profile) ∧
  (lp_source profile = "unknown"%string → cp_local (lp_capability profile) = false →
     maximum_provider_batch_size profile o ≤ Z.max 1 (lm_unknown_remote_max_domains_per_request o)).
Proof.
  split.
  - unfold batch_fits_context. set (context := if 0 <? lo_context_tokens (po_limits provider) then _ else _).
    intros H Hc.
    destruct (context <=? 0) eqn:E; bool_cmp; [lia|].
    assert (0 <= 50 <= 100)%Q as H50 by lra.
    pose proof (share_bounds 50 (lp_safety_margin_percent profile) H50) as Hs.
    apply zq_lt in Hc. change (zq 0) with 0%Q in Hc.
    destruct (share_scale _ _ (Qlt_le_weak _ _ Hc) Hs) as [_ Hle].
    apply Qfloor_resp_le in Hle. unfold zq in Hle at 2. rewrite Qfloor_Z in Hle. lia.
  - unfold maximum_provider_batch_size.
    destruct (0 <? lp_max_domains_per_request profile) eqn:E;
      destruct (String.eqb_spec (lp_source profile) "unknown") as [Hs|Hs];
      destruct (cp_local (lp_capability profile)); simpl; bool_cmp; split_and!; intros; try lia; done.
Qed.

(** * Concrete instances *)

Definition ex_provider : LLMProviderOptions :=
  mkLLMProviderOptions "p1" "Provider" "custom" "openai_compatible" "https://api.example.com/v1" "key" "model-a"
    (Fin 0) (Fin 30) 4096 "max_tokens" true "auto" (mkProviderLimitOptions "auto" "" 0 0 0 0 0 0 0 0 (Fin 0) 0 0 10).
Definition ex_profile : ProviderLimitProfile :=
  mkProviderLimitProfile "e" "registry" (mkProviderCapability 8000 0 "auto" false false false)
    [mkProviderLimit "requests" 10 60 "account" "registry" 0 "rolling";
     mkProviderLimit "total_tokens" 100000 86400 "account" "registry" 0 "utc_day"] 1 2 0 10 "grp".
Definition ex_options : LLMOptions :=
  mkLLMOptions true 10 25 10 (Fin 1) 2 20 (Fin 30) 2 1 0 0 "hybrid" true 30 (3 # 4) (19 # 20) true ["unknown"%string]
    ∅ ∅.
Definition ex_estimate : QuotaEstimate := mkQuotaEstimate 1 1 400 300 0.
Definition ex_db : quota_db := QuotaDb ∅ ∅.
Definition ex_reserve (pool uuid : string) (now : Q) (q : quota_db) :=
  reserve_quota (λ _, "api.example.com"%string) (λ _, "f00d"%string) ex_provider ex_profile
    ex_estimate pool ex_options now uuid q.

Lemma ex_rows_ok : rows_ok ex_db.
Proof. apply map_Forall_empty. Qed.
Lemma ex_estimate_ok : estimate_ok ex_estimate.
Proof. unfold estimate_ok; simpl; split_and!; try lia; lra. Qed.

Lemma reservation_respects_every_limit_witness :
  ∃ r q', ex_reserve "realtime" "r1" 1000 ex_db = (Ok r, q') ∧ runtime_quota_state q' = ∅.
Proof.
  destruct (ex_reserve "realtime" "r1" 1000 ex_db) as [[r|e] q'] eqn:E;
    [|vm_compute in E; discriminate E].
  exists r, q'. split; [reflexivity|].
  destruct (reservation_respects_every_limit (λ _, "api.example.com"%string) (λ _, "f00d"%string)
    ex_provider ex_profile ex_options ex_estimate "realtime" 1000 "r1" ex_db r q'
    ex_rows_ok ex_estimate_ok ltac:(lra) E) as (_ & _ & H). exact H.
Defined.

(** Ten requests a minute, a safety margin of ten percent and a realtime reserve of
    twenty leave the background pool seven. *)
Definition ex_full : quota_db :=
  foldl (λ q id, (ex_reserve "background" id 1000 q).2) ex_db
    ["a"; "b"; "c"; "d"; "e"; "f"; "g"]%string.

Lemma refused_reservation_changes_nothing_witness :
  ∃ retry_at q', ex_reserve "background" "h" 1010 ex_full =
    (Err (QuotaUnavailableError retry_at), q') ∧ q' = ex_full.
Proof.
  destruct (ex_reserve "background" "h" 1010 ex_full) as [[r|[t|]] q'] eqn:E;
    [vm_compute in E; discriminate E| |vm_compute in E; discriminate E].
  exists t, q'. split; [reflexivity|].
  exact (proj1 (refused_reservation_changes_nothing (λ _, "api.example.com"%string)
    (λ _, "f00d"%string) ex_provider ex_profile ex_options ex_estimate "background" 1010 "h"
    ex_full t q' E)).
Defined.

Lemma background_leaves_the_realtime_reserve_witness :
  ∃ r q', ex_reserve "background" "r1" 1000 ex_db = (Ok r, q') ∧
    (_limit_retry_at (scope_rows (scope_of (λ _, "api.example.com"%string) (λ _, "f00d"%string)
        ex_provider ex_profile ex_options) q')
      (active_limits (λ _, "api.example.com"%string) (λ _, "f00d"%string) ex_provider ex_profile
        ex_options 1000 (cancel_expired 1000 ex_db))
      ex_estimate "realtime" 20 10 1000 <= 1000)%Q.
Proof.
  destruct (ex_reserve "background" "r1" 1000 ex_db) as [[r|e] q'] eqn:E;
    [|vm_compute in E; discriminate E].
  exists r, q'. split; [reflexivity|].
  apply (background_leaves_the_realtime_reserve (λ _, "api.example.com"%string) (λ _, "f00d"%string)
    ex_provider ex_profile ex_options ex_estimate ex_estimate 1000 "r1" ex_db r q'
    ex_rows_ok ex_estimate_ok); [lra|exact E|].
  intros l Hl. vm_compute in Hl.
  repeat (apply elem_of_cons in Hl as [->|Hl];
    [split; [reflexivity|vm_compute; discriminate]|]).
  exfalso. exact (not_elem_of_nil _ Hl).
Defined.

Lemma waiting_until_retry_at_is_enough_witness :
  let rows := [ReservationRow "s" "p" "background" "reserved" 1 1 400 300 0 1000 2000 None] in
  let limits := [mkProviderLimit "requests" 2 60 "account" "registry" 0 "rolling"] in
  (_limit_retry_at rows limits ex_estimate "background" 50 0 1010 == 1060)%Q ∧
  (_limit_retry_at rows limits ex_estimate "background" 50 0 1060 <= 1060)%Q.
Proof.
  intros rows limits. split; [vm_compute; reflexivity|].
  apply (waiting_until_retry_at_is_enough rows limits ex_estimate "background" 50 0 1010 1060).
  - repeat constructor.
  - intros r ->%list_elem_of_singleton. unfold row_nonneg; simpl. split_and!; try lia; lra.
  - intros r ->%list_elem_of_singleton. simpl. lra.
  - lra.
  - intros l ->%list_elem_of_singleton. vm_compute. discriminate.
  - lra.
  - vm_compute. discriminate.
Defined.

Lemma reservations_close_once_witness :
  ∃ r q, ex_reserve "realtime" "r1" 1000 ex_db = (Ok r, q) ∧ rows_ok (cancel_quota r 1005 q).2.
Proof.
  destruct (ex_reserve "realtime" "r1" 1000 ex_db) as [[r|e] q] eqn:E;
    [|vm_compute in E; discriminate E].
  exists r, q. split; [reflexivity|].
  destruct (reserve_ok_rows (λ _, "api.example.com"%string) (λ _, "f00d"%string)
    ex_provider ex_profile ex_options ex_estimate "realtime" 1000 "r1" ex_db r q ex_rows_ok E) as [Hq He].
  apply (reservations_close_once (λ _, None) (λ _, None) r None None [] 1005 q _ Hq);
    [rewrite He; exact ex_estimate_ok|discriminate|by right].
Defined.
