(* ===== verification/Provider.v ===== *)
(** [pihole_manager/provider_api.py]: the HTTP requests to a provider, with their
    retries, the rate slots shared by the requests to one provider, the quota
    reservation of every attempt, and the text, citations and token usage of a
    response.

    The requests go through the class [Network]: what [requests] answers or
    raises, the clocks, the cancellation token, [uuid4] and the options on disk.
    One request runs at a time here: the lock that protects the rate states
    is not modelled. *)
From stdpp Require Import base gmap strings list pretty.
From Stdlib Require Import Ascii QArith Qround Lqa Sorted.
From S2P Require Import Prelude HttpRetry Json Models Quota.
Open Scope Z_scope.

(** * Data *)

Record _ProviderRateState := mkRateState {
  rt_next_request_at : py_float;
  rt_adaptive_interval : py_float;
  rt_consecutive_limits : Z
}.
Definition _ProviderRateState_default : _ProviderRateState := mkRateState (Fin 0) (Fin 0) 0.

Record ProviderRequestContext := mkRequestContext {
  rc_pool_id : string;
  rc_profile : ProviderLimitProfile;
  rc_llm_options : LLMOptions;
  rc_estimate : QuotaEstimate
}.

Record ProviderCitation := mkCitation {
  ci_url : string;
  ci_title : string;
  ci_start_index : Z;
  ci_end_index : Z
}.
#[export] Instance ProviderCitation_eq_dec : EqDecision ProviderCitation.
Proof. solve_decision. Defined.

Record ProviderResponse := mkProviderResponse {
  rp_text : string;
  rp_usage : ProviderUsage;
  rp_latency_ms : Z;
  rp_headers : list (string * string);
  rp_citations : list ProviderCitation;
  rp_web_search_used : bool
}.

(** What the functions raise: [ApiRateLimit] is [ProviderRateLimitError],
    [ApiHTTP] another [HTTPError], [ApiRequest] any other [RequestException]
    (the JSON error of a response among them). *)
Inductive api_exn :=
  | ApiCancelled
  | ApiQuota (e : quota_exn)
  | ApiRateLimit (text : string) (retry_after : Q)
  | ApiHTTP (status : Z) (text : string)
  | ApiConnection (text : string)
  | ApiTimeout (text : string)
  | ApiRequest (text : string)
  | ApiValue (text : string)
  | ApiOverflow
  | ApiRuntime (text : string).

(** ** The requests library and the environment *)

Record http_request := mkHttpRequest {
  rq_method : string;
  rq_url : string;
  rq_headers : list (string * string);
  rq_json : option json;
  rq_timeout : py_float
}.

(** A response: [rsp_json] is [response.json()] or the text of its exception,
    [rsp_error] the text of the exception of [raise_for_status()]. *)
Record http_response := mkHttpResponse {
  rsp_status : Z;
  rsp_reason : string;
  rsp_headers : list (string * string);
  rsp_json : result string json;
  rsp_error : string
}.

Inductive request_failure :=
  | ConnectionFailure (text : string)
  | TimeoutFailure (text : string)
  | RequestFailure (text : string).

Class Network (env : Type) := {
  send : http_request → env → result request_failure http_response * env;
  (** [time.time()] and [time.monotonic()] *)
  wall_time : env → Q * env;
  monotonic : env → Q * env;
  (** [cancel_token.is_set()] *)
  token_set : env → bool * env;
  (** [cancel_token.wait(delay)]; without a token, [time.sleep(delay)], not set *)
  token_wait : py_float → env → bool * env;
  uuid4 : env → string * env;
  (** [load_options().llm] *)
  current_options : env → LLMOptions
}.

Record pstate (env : Type) := PState {
  ps_env : env;
  ps_rates : gmap string _ProviderRateState;
  ps_quota : quota_db
}.
Arguments PState {env}.
Arguments ps_env {env}.
Arguments ps_rates {env}.
Arguments ps_quota {env}.

(** * Addresses and headers *)

Definition str_lstrip_slash (s : string) : string := lstrip (Ascii.eqb "/"%char) s.
Definition str_rstrip_slash (s : string) : string := rstrip (Ascii.eqb "/"%char) s.

Definition _append_path (base_url path : string) : result api_exn string :=
  let base := str_rstrip_slash (str_strip base_url) in
  if negb (str_nonempty base) then Err (ApiValue "LLM provider base URL is empty")
  else
    let suffix := str_strip path in
    if negb (str_nonempty suffix) then Ok base
    else
      let normalized_suffix := ("/" +:+ str_lstrip_slash suffix)%string in
      if str_endswith base normalized_suffix then Ok base else Ok (base +:+ normalized_suffix)%string.

Definition is_anthropic (provider : LLMProviderOptions) : bool :=
  String.eqb (po_api_style provider) "anthropic_messages".

Definition chat_url (provider : LLMProviderOptions) : result api_exn string :=
  if is_anthropic provider then _append_path (po_base_url provider) "messages"
  else _append_path (po_base_url provider) "chat/completions".
Definition responses_url (provider : LLMProviderOptions) : result api_exn string :=
  _append_path (po_base_url provider) "responses".
Definition models_url (provider : LLMProviderOptions) : result api_exn string :=
  _append_path (po_base_url provider) "models".

Definition _headers (provider : LLMProviderOptions) : list (string * string) :=
  [("Content-Type", "application/json"); ("Accept", "application/json")]%string ++
  if is_anthropic provider
  then (if str_nonempty (po_api_key provider) then [("x-api-key"%string, po_api_key provider)] else []) ++
       [("anthropic-version", "2023-06-01")]%string
  else if str_nonempty (po_api_key provider)
       then [("Authorization"%string, "Bearer " +:+ po_api_key provider)%string] else [].

Definition _provider_key (provider : LLMProviderOptions) : string :=
  str_join "|" [str_lower (str_strip (po_api_style provider));
                str_rstrip_slash (str_lower (str_strip (po_base_url provider)));
                str_lower (str_strip (po_name provider))].

(** * What a response holds *)

Definition newline : string := String "010"%char EmptyString.

(** The text parts that are not empty, one per line. *)
Definition joined_parts (parts : list string) : string :=
  str_strip (str_join newline (filter (λ p, str_nonempty p = true) parts)).

Definition object_of (v : json) : option (list (string * json)) :=
  match v with JObject fields => Some fields | _ => None end.

Definition array_field (key : string) (fields : list (string * json)) : option (list json) :=
  match dict_get key fields with Some (JArray l) => Some l | _ => None end.

Definition has_type_field (type : string) (fields : list (string * json)) : bool :=
  match dict_get "type" fields with Some (JString t) => String.eqb t type | _ => false end.

Section Extract.
Context `{PyRepr}.

(** The content blocks of type [output_text] in the messages of an output. *)
Definition output_blocks (output : list json) : list (list (string * json)) :=
  item ← omap object_of output;
  if has_type_field "message" item
  then filter (λ b, has_type_field "output_text" b = true) (omap object_of (default [] (array_field "content" item)))
  else [].

Definition _extract_openai_responses_text (data : json) : result api_exn string :=
  match data with
  | JObject data =>
      let from_output :=
        match array_field "output" data with
        | None => Err (ApiValue "OpenAI Responses response contains no output array")
        | Some output =>
            let text := joined_parts ((λ b, str_strip (py_str_or (dict_get "text" b) "")) <$> output_blocks output) in
            if str_nonempty text then Ok text
            else Err (ApiValue "OpenAI Responses response contains no output text")
        end in
      match dict_get "output_text" data with
      | Some (JString t) => if str_nonempty (str_strip t) then Ok (str_strip t) else from_output
      | _ => from_output
      end
  | _ => Err (ApiValue "OpenAI Responses response is not a JSON object")
  end.

Definition _citation_index (value : option json) : result api_exn Z :=
  match value with
  | None => Ok (-1)
  | Some v => match py_int_of v with
              | Ok z => Ok z
              | Err ConversionOverflowError => Err ApiOverflow
              | Err _ => Ok (-1)
              end
  end.

(** One annotation: the citations so far are distinct. *)
Definition add_citation (citations : list ProviderCitation) (annotation : list (string * json))
    : result api_exn (list ProviderCitation) :=
  if negb (has_type_field "url_citation" annotation) then Ok citations
  else
    let url := str_strip (py_str_or (dict_get "url" annotation) "") in
    if negb (str_nonempty url) then Ok citations
    else
      let title := str_strip (py_str_or (dict_get "title" annotation) "") in
      start_index ← _citation_index (dict_get "start_index" annotation);
      end_index ← _citation_index (dict_get "end_index" annotation);
      let citation := mkCitation url title start_index end_index in
      Ok (if bool_decide (citation ∈ citations) then citations else citations ++ [citation]).

Fixpoint add_citations (citations : list ProviderCitation) (annotations : list (list (string * json)))
    : result api_exn (list ProviderCitation) :=
  match annotations with
  | [] => Ok citations
  | a :: annotations => citations ← add_citation citations a; add_citations citations annotations
  end.

Definition _extract_openai_responses_citations (data : json) : result api_exn (list ProviderCitation) :=
  match data with
  | JObject data =>
      add_citations [] (block ← output_blocks (default [] (array_field "output" data));
                        omap object_of (default [] (array_field "annotations" block)))
  | _ => Ok []
  end.

Definition _openai_responses_used_web_search (data : json) : bool :=
  match data with
  | JObject data => existsb (has_type_field "web_search_call") (omap object_of (default [] (array_field "output" data)))
  | _ => false
  end.

(** The text of a chat message: a string, or the texts of its parts. *)
Definition message_text (message : list (string * json)) : result api_exn string :=
  match dict_get "content" message with
  | Some (JString content) => Ok (str_strip content)
  | Some (JArray content) => Ok (joined_parts ((λ b, py_str_or (dict_get "text" b) "") <$> omap object_of content))
  | _ => Err (ApiValue "LLM response message contains no text")
  end.

Definition _extract_openai_text (data : json) : result api_exn string :=
  match data with
  | JObject data =>
      match array_field "choices" data with
      | Some (JObject first :: _) =>
          match dict_get "message" first with
          | Some (JObject message) =>
              match dict_get "refusal" message with
              | Some r =>
                  if py_truthy r then Err (ApiValue ("LLM refused the request: " +:+ py_str r)%string)
                  else message_text message
              | None => message_text message
              end
          | _ => Err (ApiValue "LLM response contains no message")
          end
      | Some (_ :: _) => Err (ApiValue "LLM response choice is invalid")
      | _ => Err (ApiValue "LLM response contains no choices")
      end
  | _ => Err (ApiValue "LLM response is not a JSON object")
  end.

Definition _extract_anthropic_text (data : json) : result api_exn string :=
  match data with
  | JObject data =>
      match array_field "content" data with
      | None => Err (ApiValue "Anthropic response contains no content array")
      | Some content =>
          let text := joined_parts ((λ b, py_str_or (dict_get "text" b) "") <$>
                        filter (λ b, has_type_field "text" b = true) (omap object_of content)) in
          if str_nonempty text then Ok text else Err (ApiValue "Anthropic response contains no text block")
      end
  | _ => Err (ApiValue "Anthropic response is not a JSON object")
  end.
End Extract.

(** [int(usage.get(name) or 0)] of the first name whose value is a number that
    is not negative. *)
Fixpoint _usage_integer (usage : list (string * json)) (names : list string) : result api_exn Z :=
  match names with
  | [] => Ok 0
  | name :: names =>
      match (match dict_get name usage with
             | Some v => if py_truthy v then py_int_of v else Ok 0
             | None => Ok 0
             end) with
      | Ok value => if 0 <=? value then Ok value else _usage_integer usage names
      | Err ConversionOverflowError => Err ApiOverflow
      | Err _ => _usage_integer usage names
      end
  end.

Definition _extract_provider_usage (data : json) : result api_exn ProviderUsage :=
  match data with
  | JObject data =>
      match dict_get "usage" data with
      | Some (JObject usage) =>
          input_tokens ← _usage_integer usage ["prompt_tokens"; "input_tokens"; "prompt_token_count"]%string;
          output_tokens ← _usage_integer usage ["completion_tokens"; "output_tokens"; "candidates_token_count"]%string;
          total_tokens ← _usage_integer usage ["total_tokens"; "total_token_count"]%string;
          Ok (mkProviderUsage input_tokens output_tokens (Z.max total_tokens (input_tokens + output_tokens)) 0)
      | _ => Ok ProviderUsage_default
      end
  | _ => Ok ProviderUsage_default
  end.

Definition _response_usage (response : http_response) : result api_exn ProviderUsage :=
  match rsp_json response with
  | Ok data => _extract_provider_usage data
  | Err _ => Ok ProviderUsage_default
  end.

(** What a 429 says, for the text of its exception. *)
Definition _response_error_message `{PyRepr} (response : http_response) : string :=
  let otherwise := rsp_reason response in
  match rsp_json response with
  | Ok (JObject payload) =>
      let message := match dict_get "message" payload with
                     | Some m => if py_truthy m then py_str m else otherwise
                     | None => otherwise
                     end in
      match dict_get "error" payload with
      | Some (JObject error) =>
          match dict_get "message" error with
          | Some m => if py_truthy m then py_str m else py_str_or (dict_get "type" error) ""
          | None => py_str_or (dict_get "type" error) ""
          end
      | Some error => if py_truthy error then py_str error else message
      | None => message
      end
  | _ => otherwise
  end.

(** * Rate slots, quota and retries *)

Definition float_add (a b : py_float) : py_float :=
  match a, b with
  | Fin p, Fin q => Fin (p + q)
  | NaN, _ | _, NaN => NaN
  | Inf x, Inf y => if Bool.eqb x y then Inf x else NaN
  | Inf x, _ | _, Inf x => Inf x
  end.

Definition float_scale (k : Q) (a : py_float) : py_float := match a with Fin q => Fin (k * q) | _ => a end.

Definition _RETRYABLE_STATUS_CODES : list Z := [408; 429; 500; 502; 503; 504].
Definition is_retryable (status : Z) : bool := bool_decide (status ∈ _RETRYABLE_STATUS_CODES).

(** [min(300.0, max(1.0, 2.0 ** attempt))]; the power overflows from 1024 on. *)
Definition default_delay (attempt : Z) : result api_exn Q :=
  if 1024 <=? attempt then Err ApiOverflow else Ok (qmin 300 (qmax 1 (zq (2 ^ attempt)))).

Section Requests.
Context {env : Type} `{Network env} `{PyRepr}.
(** Of the quota and of the header modules: [urlparse(...).hostname], the
    account fingerprint, [float(text)] and the date parser. *)
Context (url_hostname account_fingerprint : string → string) (header_float date_timestamp : string → option Q).

Abbreviation pprog := (prog (pstate env) api_exn).

Definition set_env (e : env) (s : pstate env) : pstate env := PState e (ps_rates s) (ps_quota s).
Definition set_quota (q : quota_db) (s : pstate env) : pstate env := PState (ps_env s) (ps_rates s) q.
Definition set_rate (key : string) (r : _ProviderRateState) (s : pstate env) : pstate env :=
  PState (ps_env s) (<[key := r]> (ps_rates s)) (ps_quota s).

Definition ask {A} (f : env → A * env) : pprog A := λ s, let r := f (ps_env s) in (Ok r.1, set_env r.2 s).
Definition lift {A} (r : result api_exn A) : pprog A := λ s, (r, s).
Definition on_quota {A} (m : prog quota_db quota_exn A) : pprog A := λ s,
  match m (ps_quota s) with
  | (Ok a, q) => (Ok a, set_quota q s)
  | (Err e, q) => (Err (ApiQuota e), set_quota q s)
  end.

(** [try]: what a call raises, as a value. *)
Definition attempt {A} (m : pprog A) : pprog (result api_exn A) := λ s, let r := m s in (Ok r.1, r.2).
Definition put_rate (key : string) (r : _ProviderRateState) : pprog unit := λ s, (Ok tt, set_rate key r s).

Definition cancelled_now : pprog bool := ask token_set.
Definition wait_cancelled (delay : py_float) : pprog bool := ask (token_wait delay).
Definition read_monotonic : pprog Q := ask monotonic.
Definition read_wall : pprog Q := ask wall_time.
Definition fresh_uuid : pprog string := ask uuid4.

Definition raise_if_cancelled : pprog unit :=
  cancelled ← cancelled_now;
  if (cancelled : bool) then prog_raise ApiCancelled else mret tt.

Definition rate_of (key : string) (s : pstate env) : _ProviderRateState :=
  default _ProviderRateState_default (ps_rates s !! key).

(** One turn of the loop of [_wait_for_request_slot], under the lock: the slot
    is taken at [now], or the delay until it is free. *)
Definition take_slot (provider : LLMProviderOptions) (configured_minimum : py_float) : pprog (option py_float) :=
  let key := _provider_key provider in
  let base_interval := float_max (Fin 0) configured_minimum in
  state ← prog_read (rate_of key);
  now ← read_monotonic;
  let delay := float_max (Fin 0) (float_add (rt_next_request_at state) (Fin (- now))) in
  if float_leb delay (Fin 0)
  then
    let interval := float_max base_interval (rt_adaptive_interval state) in
    _ ← put_rate key (mkRateState (float_add (Fin now) interval) (rt_adaptive_interval state)
                        (rt_consecutive_limits state));
    mret None
  else
    _ ← put_rate key state;
    mret (Some delay).

Fixpoint _wait_for_request_slot (fuel : nat) (provider : LLMProviderOptions) (configured_minimum : py_float)
    : pprog unit :=
  match fuel with
  | O => prog_raise (ApiRuntime "still waiting for a request slot")
  | S fuel =>
      delay ← take_slot provider configured_minimum;
      match delay with
      | None => mret tt
      | Some delay =>
          cancelled ← wait_cancelled delay;
          if (cancelled : bool) then prog_raise ApiCancelled else _wait_for_request_slot fuel provider configured_minimum
      end
  end.

(** [wait_for_quota] of [quota.py]. *)
Fixpoint wait_for_quota_until (fuel : nat) (deadline : py_float) (provider : LLMProviderOptions)
    (c : ProviderRequestContext) : pprog QuotaReservation :=
  match fuel with
  | O => prog_raise (ApiRuntime "still waiting for quota")
  | S fuel =>
      _ ← raise_if_cancelled;
      now ← read_wall;
      uuid ← fresh_uuid;
      outcome ← attempt (on_quota (reserve_quota url_hostname account_fingerprint provider (rc_profile c)
                           (rc_estimate c) (rc_pool_id c) (rc_llm_options c) now uuid));
      match outcome with
      | Err (ApiQuota (QuotaUnavailableError retry_at)) =>
          now ← read_monotonic;
          wall ← read_wall;
          let remaining := float_add deadline (Fin (- now)) in
          let delay := float_min (Fin (wait_seconds retry_at wall)) remaining in
          if float_leb delay (Fin 0) then prog_raise (ApiQuota (QuotaUnavailableError retry_at))
          else
            cancelled ← wait_cancelled delay;
            if (cancelled : bool) then prog_raise ApiCancelled else wait_for_quota_until fuel deadline provider c
      | Err e => prog_raise e
      | Ok reservation => mret reservation
      end
  end.

Definition wait_for_quota (fuel : nat) (provider : LLMProviderOptions) (c : ProviderRequestContext)
    : pprog QuotaReservation :=
  now ← read_monotonic;
  wait_for_quota_until fuel
    (float_add (Fin now) (float_max (Fin 0) (lm_quota_wait_timeout_sec (rc_llm_options c)))) provider c.

Definition float_nonzero (a : py_float) : bool := match a with Fin q => negb (Qeq_bool q 0) | _ => true end.

Definition configured_interval (s : pstate env) : py_float :=
  float_max (Fin 0) (lm_min_request_interval_sec (current_options (ps_env s))).

Definition _increase_backoff (provider : LLMProviderOptions) (delay : Q) (rate_limited : bool) : pprog unit :=
  let key := _provider_key provider in
  configured ← prog_read configured_interval;
  state ← prog_read (rate_of key);
  let adaptive := if float_nonzero (rt_adaptive_interval state) then float_scale 2 (rt_adaptive_interval state)
                  else float_max (Fin 1) configured in
  let adaptive_interval := float_min (Fin 60) (float_max configured adaptive) in
  now ← read_monotonic;
  let next_request_at := float_max (rt_next_request_at state)
                           (float_add (Fin now) (float_max (Fin delay) adaptive_interval)) in
  put_rate key (mkRateState next_request_at adaptive_interval
                  (rt_consecutive_limits state + if rate_limited then 1 else 0)).

Definition _register_transient_failure (provider : LLMProviderOptions) (attempt : Z) : pprog Q :=
  delay ← lift (default_delay attempt);
  _ ← _increase_backoff provider delay false;
  mret delay.

Definition _register_response_failure (provider : LLMProviderOptions) (response : http_response) (attempt : Z)
    : pprog Q :=
  wall ← read_wall;
  delay ← match retry_delay_from_headers header_float date_timestamp (rsp_headers response) 300 wall with
          | Some delay => mret delay
          | None => lift (default_delay attempt)
          end;
  _ ← _increase_backoff provider delay (rsp_status response =? 429);
  mret delay.

Definition _register_success (provider : LLMProviderOptions) : pprog unit :=
  let key := _provider_key provider in
  configured ← prog_read configured_interval;
  state ← prog_read (rate_of key);
  put_rate key (mkRateState (rt_next_request_at state)
                  (float_max configured (float_scale (1 # 2) (rt_adaptive_interval state))) 0).

(** The quota calls on the reservation of an attempt, when it has one. *)
Definition cancel_reservation (reservation : option (QuotaReservation * ProviderRequestContext)) : pprog unit :=
  match reservation with
  | None => mret tt
  | Some (r, _) => now ← read_wall; on_quota (cancel_quota r now)
  end.

Definition complete_reservation (reservation : option (QuotaReservation * ProviderRequestContext))
    (usage : ProviderUsage) (response : http_response) : pprog unit :=
  match reservation with
  | None => mret tt
  | Some (r, c) =>
      now ← read_wall;
      on_quota (complete_quota header_float date_timestamp r (Some usage) (Some (rc_profile c))
                  (rsp_headers response) now)
  end.

Definition estimated_usage (reservation : option (QuotaReservation * ProviderRequestContext)) : ProviderUsage :=
  match reservation with
  | None => ProviderUsage_default
  | Some (_, c) => mkProviderUsage (es_input_tokens (rc_estimate c)) 0 (es_input_tokens (rc_estimate c)) 0
  end.

(** [response.raise_for_status()] *)
Definition is_error_status (status : Z) : bool := (400 <=? status) && (status <? 600).
Definition raise_for_status (response : http_response) : pprog unit :=
  if is_error_status (rsp_status response) then prog_raise (ApiHTTP (rsp_status response) (rsp_error response))
  else mret tt.

(** An iteration of the retry loop returns a response, or goes on with the last
    connection error. *)
Inductive attempt_step := Return (response : http_response) | Continue (last_error : option api_exn).

(** The end of an iteration, from the second [raise_for_status()] on. *)
Definition finish_response (provider : LLMProviderOptions)
    (reservation : option (QuotaReservation * ProviderRequestContext)) (response : http_response)
    : pprog attempt_step :=
  if is_error_status (rsp_status response) then
    _ ← complete_reservation reservation (estimated_usage reservation) response;
    prog_raise (ApiHTTP (rsp_status response) (rsp_error response))
  else
    usage ← match reservation with
            | None => mret ProviderUsage_default
            | Some _ => lift (_response_usage response)
            end;
    _ ← complete_reservation reservation usage response;
    _ ← raise_if_cancelled;
    _ ← _register_success provider;
    mret (Return response).

Definition handle_response (provider : LLMProviderOptions)
    (reservation : option (QuotaReservation * ProviderRequestContext)) (response : http_response)
    (last_error : option api_exn) (attempt : Z) (final : bool) : pprog attempt_step :=
  if is_retryable (rsp_status response) then
    _ ← complete_reservation reservation (estimated_usage reservation) response;
    delay ← _register_response_failure provider response attempt;
    _ ← raise_if_cancelled;
    if negb final then mret (Continue last_error)
    else if rsp_status response =? 429
    then prog_raise (ApiRateLimit (str_or (_response_error_message response) "LLM provider rate limit exceeded") delay)
    else _ ← raise_for_status response; finish_response provider reservation response
  else finish_response provider reservation response.

Definition handle_connection_error (provider : LLMProviderOptions)
    (reservation : option (QuotaReservation * ProviderRequestContext)) (error : api_exn) (attempt : Z) (final : bool)
    : pprog attempt_step :=
  _ ← cancel_reservation reservation;
  _ ← raise_if_cancelled;
  _ ← _register_transient_failure provider attempt;
  if final then prog_raise error else mret (Continue (Some error)).

(** [fuel] bounds the two waiting loops. *)
Definition one_attempt (fuel : nat) (provider : LLMProviderOptions) (request : http_request)
    (request_context : option ProviderRequestContext) (options : LLMOptions) (last_error : option api_exn)
    (attempt : Z) (final : bool) : pprog attempt_step :=
  _ ← raise_if_cancelled;
  _ ← _wait_for_request_slot fuel provider (lm_min_request_interval_sec options);
  reservation ← match request_context with
                | None => mret None
                | Some c => r ← wait_for_quota fuel provider c; mret (Some (r, c))
                end;
  cancelled ← cancelled_now;
  if (cancelled : bool) then _ ← cancel_reservation reservation; prog_raise ApiCancelled
  else
    reply ← ask (send request);
    match reply with
    | Err (ConnectionFailure text) =>
        handle_connection_error provider reservation (ApiConnection text) attempt final
    | Err (TimeoutFailure text) => handle_connection_error provider reservation (ApiTimeout text) attempt final
    | Err (RequestFailure text) => prog_raise (ApiRequest text)
    | Ok response => handle_response provider reservation response last_error attempt final
    end.

(** [remaining] attempts are left, the next is number [attempt]. *)
Fixpoint attempts_loop (fuel : nat) (provider : LLMProviderOptions) (request : http_request)
    (request_context : option ProviderRequestContext) (options : LLMOptions) (remaining : nat)
    (last_error : option api_exn) (attempt : Z) : pprog http_response :=
  match remaining with
  | O => match last_error with
         | Some e => prog_raise e
         | None => prog_raise (ApiRuntime "Provider request failed without a response")
         end
  | S remaining =>
      step ← one_attempt fuel provider request request_context options last_error attempt
               (match remaining with O => true | _ => false end);
      match step with
      | Return response => mret response
      | Continue last_error =>
          attempts_loop fuel provider request request_context options remaining last_error (attempt + 1)
      end
  end.

Definition attempts_of (options : LLMOptions) : nat := Z.to_nat (Z.max 1 (lm_max_retries options + 1)).

Definition _request_with_retries (fuel : nat) (provider : LLMProviderOptions) (method url : string)
    (body : option json) (request_context : option ProviderRequestContext) : pprog http_response :=
  current ← prog_read (λ s, current_options (ps_env s));
  let options := match request_context with Some c => rc_llm_options c | None => current end in
  let request := mkHttpRequest method url (_headers provider) body (float_max (Fin 1) (po_timeout_sec provider)) in
  attempts_loop fuel provider request request_context options (attempts_of options) None 0.

(** * The three API styles *)

Definition max_output (provider : LLMProviderOptions) : json := JInt (Z.max 1 (po_max_output_tokens provider)).

Definition json_message (message : list (string * string)) : json := JObject ((λ p, (p.1, JString p.2)) <$> message).

Definition with_temperature (provider : LLMProviderOptions) (payload : list (string * json)) : list (string * json) :=
  if po_send_temperature provider then dict_set "temperature" (JFloat (po_temperature provider)) payload else payload.

Definition _NATIVE_BROWSING_DISABLED_PROMPT : string :=
  "Pi-hole Manager does not currently invoke provider-specific web-search tools. Never claim to have searched the web when browsing is not available.".
Definition _NATIVE_BROWSING_ENABLED_PROMPT : string :=
  "Provider-native web search is enabled for this request. Use it when useful, prefer primary sources, and preserve source URLs/citations in the response when available.".

(** [s.replace(old, new)] for a text [old] that is not empty;
    [skip] characters of a match are still to be dropped. *)
Fixpoint str_replace_all (old new : string) (skip : nat) (s : string) : string :=
  match s with
  | EmptyString => EmptyString
  | String c s' =>
      match skip with
      | S skip => str_replace_all old new skip s'
      | O => if str_startswith s old
             then (new +:+ str_replace_all old new (String.length old - 1) s')%string
             else String c (str_replace_all old new 0 s')
      end
  end.

Definition browsing_message (message : list (string * string)) : list (string * string) :=
  let content := default ""%string (dict_get "content" message) in
  dict_set "content"
    (if str_contains _NATIVE_BROWSING_DISABLED_PROMPT content
     then str_replace_all _NATIVE_BROWSING_DISABLED_PROMPT _NATIVE_BROWSING_ENABLED_PROMPT 0 content
     else str_strip (content +:+ newline +:+ newline +:+ _NATIVE_BROWSING_ENABLED_PROMPT)%string) message.

Definition is_system (message : list (string * string)) : bool :=
  match dict_get "role" message with Some role => String.eqb role "system" | None => false end.

(** The first system message gets the instruction; without one it is put first. *)
Fixpoint add_browsing (messages : list (list (string * string))) : option (list (list (string * string))) :=
  match messages with
  | [] => None
  | m :: messages => if is_system m then Some (browsing_message m :: messages) else cons m <$> add_browsing messages
  end.

Definition _native_browsing_messages (messages : list (list (string * string))) : list (list (string * string)) :=
  match add_browsing messages with
  | Some messages => messages
  | None => [("role", "system"); ("content", _NATIVE_BROWSING_ENABLED_PROMPT)]%string :: messages
  end.

Definition responses_payload (provider : LLMProviderOptions) (messages : list (list (string * string)))
    : list (string * json) :=
  with_temperature provider
    [("model", JString (po_model provider)); ("input", JArray (json_message <$> _native_browsing_messages messages));
     ("tools", JArray [JObject [("type", JString "web_search")]]); ("max_output_tokens", max_output provider);
     ("store", JBool false)]%string.

Definition openai_payload (provider : LLMProviderOptions) (messages : list (list (string * string)))
    (response_format : option json) : list (string * json) :=
  let payload := with_temperature provider
    [("model", JString (po_model provider)); ("messages", JArray (json_message <$> messages))]%string in
  let payload := if String.eqb (po_max_tokens_parameter provider) "none" then payload
                 else dict_set (po_max_tokens_parameter provider) (max_output provider) payload in
  match response_format with
  | Some format => dict_set "response_format" format payload
  | None => payload
  end.

Definition anthropic_payload (provider : LLMProviderOptions) (messages : list (list (string * string)))
    : list (string * json) :=
  let content message := default ""%string (dict_get "content" message) in
  let system_parts := content <$> filter (λ m, is_system m = true) messages in
  let conversation := (λ m, JObject [("role", JString (default "user" (dict_get "role" m)));
                                     ("content", JString (content m))]%string) <$>
                        filter (λ m, is_system m = false) messages in
  let payload := with_temperature provider
    [("model", JString (po_model provider)); ("max_tokens", max_output provider);
     ("messages", JArray conversation)]%string in
  match system_parts with
  | [] => payload
  | _ => dict_set "system" (JString (str_join (newline +:+ newline) system_parts)) payload
  end.

(** [response.json()] *)
Definition response_json (response : http_response) : result api_exn json :=
  match rsp_json response with Ok data => Ok data | Err text => Err (ApiRequest text) end.

(** The request of a style, and what is taken from its data. *)
Definition style_request (provider : LLMProviderOptions) (messages : list (list (string * string)))
    (response_format : option json) : result api_exn (string * json) :=
  if String.eqb (po_api_style provider) "openai_responses_web_search"
  then url ← responses_url provider; Ok (url, JObject (responses_payload provider messages))
  else if is_anthropic provider
  then url ← chat_url provider; Ok (url, JObject (anthropic_payload provider messages))
  else url ← chat_url provider; Ok (url, JObject (openai_payload provider messages response_format)).

Definition style_answer (provider : LLMProviderOptions) (data : json)
    : result api_exn (string * list ProviderCitation * bool) :=
  if String.eqb (po_api_style provider) "openai_responses_web_search"
  then text ← _extract_openai_responses_text data;
       citations ← _extract_openai_responses_citations data;
       Ok (text, citations, _openai_responses_used_web_search data)
  else if is_anthropic provider
  then text ← _extract_anthropic_text data; Ok (text, [], false)
  else text ← _extract_openai_text data; Ok (text, [], false).

Definition request_provider (fuel : nat) (provider : LLMProviderOptions) (messages : list (list (string * string)))
    (response_format : option json) (request_context : option ProviderRequestContext) : pprog ProviderResponse :=
  _ ← raise_if_cancelled;
  started_at ← read_monotonic;
  target ← lift (style_request provider messages response_format);
  response ← _request_with_retries fuel provider "POST" target.1 (Some target.2) request_context;
  data ← lift (response_json response);
  answer ← lift (style_answer provider data);
  usage ← lift (_extract_provider_usage data);
  finished_at ← read_monotonic;
  let '(text, citations, web_search_used) := answer in
  mret (mkProviderResponse text usage (Z.max 0 (py_round ((finished_at - started_at) * 1000)))
          (rsp_headers response) citations web_search_used).

(** [list_provider_models]: [str.casefold] orders, ties in the order of a set. *)
Definition model_id (item : json) : option string :=
  fields ← object_of item;
  let id := str_strip (py_str_or (dict_get "id" fields) "") in
  if str_nonempty id then Some id else None.

Definition list_provider_models (fuel : nat) (provider : LLMProviderOptions) : pprog (list string) :=
  url ← lift (models_url provider);
  response ← _request_with_retries fuel provider "GET" url None None;
  data ← lift (response_json response);
  match (fields ← object_of data; array_field "data" fields) with
  | None => prog_raise (ApiValue "Provider model response contains no data array")
  | Some items =>
      match sort_by (λ a b, str_leb (str_casefold a) (str_casefold b)) (fromkeys (omap model_id items)) with
      | [] => prog_raise (ApiValue "Provider returned no model IDs")
      | models => mret models
      end
  end.
End Requests.

(** * A program logic

    [triple P m Q]: from a state with [P], [m] ends with an outcome and a state
    with [Q]. *)
Definition triple {S E A} (P : S → Prop) (m : prog S E A) (Q : result E A → S → Prop) : Prop :=
  ∀ s, P s → Q (m s).1 (m s).2.

Section Triples.
Context {S E : Type}.

Lemma triple_bind {A B} P (R : result E A → S → Prop) (Q : result E B → S → Prop) (m : prog S E A)
    (k : A → prog S E B) :
  triple P m R → (∀ a, triple (R (Ok a)) (k a) Q) → (∀ e s, R (Err e) s → Q (Err e) s) → triple P (m ≫= k) Q.
Proof.
  intros Hm Hk He s HP. unfold mbind, prog_bind. specialize (Hm s HP).
  destruct (m s) as [[a|e] s']; simpl in *; [by apply Hk|by apply He].
Qed.

Lemma triple_impl {A} (P P' : S → Prop) (Q Q' : result E A → S → Prop) (m : prog S E A) :
  triple P' m Q' → (∀ s, P s → P' s) → (∀ r s, Q' r s → Q r s) → triple P m Q.
Proof. intros Hm HP HQ s Hs. by apply HQ, Hm, HP. Qed.

(** A part of the state that a call keeps. *)
Lemma triple_keeps {A B} (f : S → B) (I : B → Prop) (m : prog S E A) :
  prog_keeps f m → triple (λ s, I (f s)) m (λ _ s, I (f s)).
Proof. intros Hm s Hs. by rewrite Hm. Qed.

Lemma triple_keeps_bind {A A' B} (f : S → B) (I : B → Prop) (Q : result E A' → S → Prop) (m : prog S E A)
    (k : A → prog S E A') :
  prog_keeps f m → (∀ a, triple (λ s, I (f s)) (k a) Q) → (∀ e s, I (f s) → Q (Err e) s) →
  triple (λ s, I (f s)) (m ≫= k) Q.
Proof. intros Hm Hk He. eapply triple_bind; [by apply triple_keeps|exact Hk|exact He]. Qed.

Lemma triple_ret {A} (P : S → Prop) (a : A) (Q : result E A → S → Prop) :
  (∀ s, P s → Q (Ok a) s) → triple P (mret a) Q.
Proof. intros H s Hs. by apply H. Qed.
Lemma triple_raise {A} (P : S → Prop) (e : E) (Q : result E A → S → Prop) :
  (∀ s, P s → Q (Err e) s) → triple P (prog_raise e) Q.
Proof. intros H s Hs. by apply H. Qed.
End Triples.

Lemma retryable_is_error status : is_retryable status = true → is_error_status status = true.
Proof.
  intros Hin%bool_decide_eq_true. unfold is_error_status, _RETRYABLE_STATUS_CODES in *.
  repeat (apply elem_of_cons in Hin as [->|Hin]; [done|]). by apply elem_of_nil in Hin.
Qed.

Lemma usage_integer_error usage names e : _usage_integer usage names = Err e → e = ApiOverflow.
Proof.
  induction names as [|name names IH]; cbn [_usage_integer]; [done|].
  destruct (match dict_get name usage with Some _ => _ | None => _ end) as [z|[]];
    [destruct (0 <=? z); [done|exact IH]|exact IH..|by intros [= <-]].
Qed.

Lemma provider_usage_error data e : _extract_provider_usage data = Err e → e = ApiOverflow.
Proof.
  unfold _extract_provider_usage. destruct data as [| | | | | |data]; try done.
  destruct (dict_get "usage" data) as [[| | | | | |usage]|]; try done.
  unfold mbind, result_bind.
  destruct (_usage_integer usage _) as [z1|e1] eqn:E1; [|intros [= ->]; by eapply usage_integer_error].
  destruct (_usage_integer usage ["completion_tokens"%string; _; _]) as [z2|e2] eqn:E2;
    [|intros [= ->]; by eapply usage_integer_error].
  destruct (_usage_integer usage ["total_tokens"%string; _]) as [z3|e3] eqn:E3;
    [done|intros [= ->]; by eapply usage_integer_error].
Qed.

Lemma response_usage_error response e : _response_usage response = Err e → e = ApiOverflow.
Proof. unfold _response_usage. destruct (rsp_json response); [apply provider_usage_error|done]. Qed.

(** * What a request leaves in the quota table *)

Section RequestSpec.
Context {env : Type} `{Network env} `{PyRepr}.
Context (url_hostname account_fingerprint : string → string) (header_float date_timestamp : string → option Q).
Implicit Types s : pstate env.

Abbreviation quota_of := (ps_quota (env := env)).

Lemma keeps_ask {A B} (g : pstate env → B) (f : env → A * env) :
  (∀ s, g (set_env (f (ps_env s)).2 s) = g s) → prog_keeps g (ask f).
Proof. intros Hg s. apply Hg. Qed.
Lemma keeps_lift {A B} (g : pstate env → B) (r : result api_exn A) : prog_keeps g (lift r).
Proof. by intros s. Qed.
Lemma keeps_put {B} (g : pstate env → B) key r : (∀ s, g (set_rate key r s) = g s) → prog_keeps g (put_rate key r).
Proof. intros Hg s. apply Hg. Qed.

(** A part of the state that changes neither with the rates nor with the clocks,
    the token and the identifiers. *)
Record quiet {B} (g : pstate env → B) : Prop := {
  quiet_rate : ∀ key r s, g (set_rate key r s) = g s;
  quiet_wall : ∀ s, g (set_env (wall_time (ps_env s)).2 s) = g s;
  quiet_monotonic : ∀ s, g (set_env (monotonic (ps_env s)).2 s) = g s;
  quiet_token : ∀ s, g (set_env (token_set (ps_env s)).2 s) = g s;
  quiet_wait : ∀ delay s, g (set_env (token_wait delay (ps_env s)).2 s) = g s;
  quiet_uuid : ∀ s, g (set_env (uuid4 (ps_env s)).2 s) = g s
}.

Lemma quiet_quota : quiet quota_of.
Proof. by split. Qed.

(** Asking the environment never fails. *)
Lemma ask_bind {A A' B} (g : pstate env → B) (I : B → Prop) (f : env → A * env) (k : A → prog (pstate env) api_exn A')
    (Q : result api_exn A' → pstate env → Prop) :
  (∀ s, g (set_env (f (ps_env s)).2 s) = g s) → (∀ a, triple (λ s, I (g s)) (k a) Q) →
  triple (λ s, I (g s)) (ask f ≫= k) Q.
Proof.
  intros Hg Hk s Hs. unfold mbind, prog_bind, ask. cbn zeta. apply Hk. by rewrite Hg.
Qed.

(** Walk through a program whose steps keep a part of the state. *)
Ltac keep := repeat match goal with
  | |- prog_keeps _ ((λ _, _) _) => cbv beta
  | |- ∀ _, _ = _ => solve [auto]
  | |- _ = _ => solve [auto]
  | |- prog_keeps _ (prog_raise _ ≫= _) => by intros ?
  | |- prog_keeps _ (_ ≫= _) => apply pkeeps_bind; [|intros ?]
  | |- prog_keeps _ (match ?x with _ => _ end) => destruct x
  | H : context [prog_keeps _ _] |- prog_keeps _ _ => solve [apply H]
  | Hg : quiet ?g |- prog_keeps ?g (put_rate _ _) => apply keeps_put, (quiet_rate _ Hg)
  | Hg : quiet ?g |- prog_keeps ?g read_wall => apply keeps_ask, (quiet_wall _ Hg)
  | Hg : quiet ?g |- prog_keeps ?g read_monotonic => apply keeps_ask, (quiet_monotonic _ Hg)
  | Hg : quiet ?g |- prog_keeps ?g cancelled_now => apply keeps_ask, (quiet_token _ Hg)
  | Hg : quiet ?g |- prog_keeps ?g (wait_cancelled _) => apply keeps_ask, (quiet_wait _ Hg)
  | Hg : quiet ?g |- prog_keeps ?g fresh_uuid => apply keeps_ask, (quiet_uuid _ Hg)
  | |- prog_keeps _ (lift _) => apply keeps_lift
  | |- prog_keeps _ (mret _) => apply pkeeps_ret
  | |- prog_keeps _ (prog_read _) => apply pkeeps_read
  | |- prog_keeps _ (prog_raise _) => apply pkeeps_raise
  end.

Section Quiet.
Context {B : Type} (g : pstate env → B) (Hg : quiet g).

Lemma raise_keeps : prog_keeps g raise_if_cancelled.
Proof. unfold raise_if_cancelled. keep. Qed.

Lemma take_slot_keeps provider m : prog_keeps g (take_slot provider m).
Proof. unfold take_slot. keep. Qed.

Lemma slot_keeps fuel provider m : prog_keeps g (_wait_for_request_slot fuel provider m).
Proof.
  pose proof take_slot_keeps. induction fuel as [|fuel IH]; cbn [_wait_for_request_slot]; keep.
Qed.

Lemma backoff_keeps provider delay limited : prog_keeps g (_increase_backoff provider delay limited).
Proof. unfold _increase_backoff. keep. Qed.

Lemma transient_keeps provider attempt : prog_keeps g (_register_transient_failure provider attempt).
Proof. pose proof backoff_keeps. unfold _register_transient_failure. keep. Qed.

Lemma failure_keeps provider response attempt :
  prog_keeps g (_register_response_failure header_float date_timestamp provider response attempt).
Proof. pose proof backoff_keeps. unfold _register_response_failure. keep. Qed.

Lemma success_keeps provider : prog_keeps g (_register_success provider).
Proof. unfold _register_success. keep. Qed.
End Quiet.

(** A reservation is open while its row is in the state [reserved]. *)
Definition open_in (q : quota_db) (id : string) : Prop :=
  ∃ row, quota_reservations q !! id = Some row ∧ qw_state row = "reserved"%string.
Definition no_new_open (q0 q : quota_db) : Prop := ∀ id, open_in q id → open_in q0 id.
Definition only_open (r : QuotaReservation) (q0 q : quota_db) : Prop :=
  ∀ id, open_in q id → id = qr_reservation_id r ∨ open_in q0 id.

Definition closes (f : reservation_row → reservation_row) : Prop := ∀ row, qw_state (f row) ≠ "reserved"%string.

Lemma open_update p f q id (Hf : closes f) :
  open_in (set_reservations (update_where p f) q) id → open_in q id ∧ ∀ row, quota_reservations q !! id = Some row → p id row = false.
Proof.
  intros (row & Hl & Hs). cbn in Hl. rewrite lookup_update_where in Hl.
  destruct (quota_reservations q !! id) as [row0|] eqn:E; [|done]. cbn in Hl. destruct (p id row0) eqn:Ep.
  - injection Hl as <-. by destruct (Hf row0).
  - injection Hl as <-. split; [by exists row0|]. by intros ? [= <-].
Qed.

Lemma open_save (states : list (runtime_key * RuntimeQuotaState)) q id :
  open_in (foldl (λ (q : quota_db) (x : runtime_key * RuntimeQuotaState), _save_runtime_state x q) q states) id ↔ open_in q id.
Proof.
  revert q. induction states as [|x states IH]; intros q; simpl; [done|]. rewrite IH. by unfold open_in.
Qed.

Lemma cancel_closes r now q :
  ∃ q', cancel_quota r now q = (Ok tt, q') ∧ ∀ q0, only_open r q0 q → no_new_open q0 q'.
Proof.
  eexists. split; [reflexivity|]. intros q0 Hq id [Ho Hp]%open_update; [|done].
  destruct (Hq id Ho) as [->|]; [|done]. destruct Ho as (row & Hl & Hs). specialize (Hp _ Hl).
  unfold is_reserved in Hp. by rewrite Hs, !String.eqb_refl in Hp.
Qed.

Lemma complete_closes r usage p headers now q :
  ∃ q', complete_quota header_float date_timestamp r usage p headers now q = (Ok tt, q') ∧
    ∀ q0, only_open r q0 q → no_new_open q0 q'.
Proof.
  unfold complete_quota. set (f := complete_row _ _).
  assert (∀ q0, only_open r q0 q →
    no_new_open q0 (set_reservations (update_where (is_reserved (qr_reservation_id r)) f) q)) as Hclose.
  { intros q0 Hq id [Ho Hp]%open_update; [|done]. destruct (Hq id Ho) as [->|]; [|done].
    destruct Ho as (row & Hl & Hs). specialize (Hp _ Hl). unfold is_reserved in Hp.
    by rewrite Hs, !String.eqb_refl in Hp. }
  destruct p as [p|]; [destruct headers as [|h hs]|]; eexists; (split; [reflexivity|]); try exact Hclose.
  intros q0 Hq id Ho%open_save. by apply (Hclose q0 Hq).
Qed.

Lemma no_new_only r q0 q : no_new_open q0 q → only_open r q0 q.
Proof. intros Hq id Ho. right. by apply Hq. Qed.

Lemma reserve_opens provider profile e pool o now uuid q q0 :
  no_new_open q0 q →
  let outcome := reserve_quota url_hostname account_fingerprint provider profile e pool o now uuid q in
  match outcome.1 with
  | Ok r => only_open r q0 outcome.2
  | Err _ => no_new_open q0 outcome.2
  end.
Proof.
  intros Hq. unfold reserve_quota, commit, mbind, prog_bind, tx_bind, tx_write, tx_read. cbn zeta beta iota.
  destruct (qltb now _); [exact Hq|].
  destruct (quota_reservations (cancel_expired now q) !! uuid) eqn:E; [exact Hq|]. cbn.
  intros id (row & Hl & Hs). cbn in Hl. destruct (decide (uuid = id)) as [->|Hne]; [by left|].
  rewrite lookup_insert_ne in Hl by done. right. apply Hq.
  apply (open_update (λ _ row, expired now row) (close_row "cancelled" now)); [done|]. by exists row.
Qed.

(** ** The attempts *)

Definition reservation_open (q0 : quota_db) (reservation : option (QuotaReservation * ProviderRequestContext))
    (q : quota_db) : Prop :=
  match reservation with Some (r, _) => only_open r q0 q | None => no_new_open q0 q end.

Lemma on_quota_closes q0 (r : QuotaReservation) (m : prog quota_db quota_exn unit) :
  (∀ q, ∃ q', m q = (Ok tt, q') ∧ ∀ q0, only_open r q0 q → no_new_open q0 q') →
  triple (λ s, only_open r q0 (ps_quota s)) (on_quota (env := env) m)
    (λ o s, o = Ok tt ∧ no_new_open q0 (ps_quota s)).
Proof. intros Hm s Hs. unfold on_quota. destruct (Hm (ps_quota s)) as (q' & -> & Hq). split; [done|]. by apply Hq. Qed.

Lemma cancel_reservation_closes q0 reservation :
  triple (λ s, reservation_open q0 reservation (ps_quota s)) (cancel_reservation (env := env) reservation)
    (λ o s, o = Ok tt ∧ no_new_open q0 (ps_quota s)).
Proof.
  destruct reservation as [[r c]|]; [|intros s Hs; by split]. unfold cancel_reservation.
  apply (ask_bind quota_of (reservation_open q0 (Some (r, c)))); [done|]. intros now. apply on_quota_closes, cancel_closes.
Qed.

Lemma complete_reservation_closes q0 reservation usage response :
  triple (λ s, reservation_open q0 reservation (ps_quota s))
    (complete_reservation (env := env) header_float date_timestamp reservation usage response)
    (λ o s, o = Ok tt ∧ no_new_open q0 (ps_quota s)).
Proof.
  destruct reservation as [[r c]|]; [|intros s Hs; by split]. unfold complete_reservation.
  apply (ask_bind quota_of (reservation_open q0 (Some (r, c)))); [done|]. intros now.
  apply on_quota_closes, complete_closes.
Qed.

(** The steps that close the reservation come first; what follows keeps the
    table. *)
Lemma closed_then {A} q0 reservation (m : prog (pstate env) api_exn unit) (k : unit → prog (pstate env) api_exn A) :
  triple (λ s, reservation_open q0 reservation (ps_quota s)) m (λ o s, o = Ok tt ∧ no_new_open q0 (ps_quota s)) →
  prog_keeps quota_of (k tt) →
  triple (λ s, reservation_open q0 reservation (ps_quota s)) (m ≫= k) (λ _ s, no_new_open q0 (ps_quota s)).
Proof.
  intros Hm Hk s Hs. unfold mbind, prog_bind. destruct (Hm s Hs) as [Ho Hq].
  destruct (m s) as [o s'] eqn:E. cbn in Ho, Hq. rewrite Ho. by rewrite Hk.
Qed.

(** The outcome of an attempt: its reservation is closed, unless the request
    raised an exception that is neither a connection error nor a timeout, or a
    number of the response overflowed. *)
Definition leaks (o : result api_exn http_response) : Prop :=
  match o with Err (ApiRequest _) | Err ApiOverflow => True | _ => False end.
Definition step_leaks (o : result api_exn attempt_step) : Prop :=
  match o with Err (ApiRequest _) | Err ApiOverflow => True | _ => False end.

Lemma finish_response_closes q0 provider reservation response :
  triple (λ s, reservation_open q0 reservation (ps_quota s))
    (finish_response header_float date_timestamp provider reservation response)
    (λ o s, step_leaks o ∨ no_new_open q0 (ps_quota s)).
Proof.
  unfold finish_response. destruct (is_error_status _).
  { eapply triple_impl; [apply (closed_then q0 reservation); [apply complete_reservation_closes|]|done|by right]. keep. }
  assert (∀ usage, triple (λ s, reservation_open q0 reservation (ps_quota s))
    (_ ← complete_reservation header_float date_timestamp reservation usage response;
     _ ← raise_if_cancelled; _ ← _register_success provider; mret (Return response))
    (λ o s, step_leaks o ∨ no_new_open q0 (ps_quota s))) as Hdone.
  { intros usage. eapply triple_impl; [apply (closed_then q0 reservation);
      [apply complete_reservation_closes|]|done|by right].
    pose proof (success_keeps quota_of quiet_quota). pose proof (raise_keeps quota_of quiet_quota). keep. }
  destruct reservation as [[r c]|]; [|apply Hdone].
  destruct (_response_usage response) as [usage|e] eqn:Eu; [apply Hdone|].
  apply response_usage_error in Eu as ->. intros s Hs. by left.
Qed.

Lemma handle_response_closes q0 provider reservation response last attempt final :
  triple (λ s, reservation_open q0 reservation (ps_quota s))
    (handle_response header_float date_timestamp provider reservation response last attempt final)
    (λ o s, step_leaks o ∨ no_new_open q0 (ps_quota s)).
Proof.
  unfold handle_response. destruct (is_retryable _) eqn:Er; [|apply finish_response_closes].
  eapply triple_impl; [apply (closed_then q0 reservation); [apply complete_reservation_closes|]|done|by right].
  pose proof (failure_keeps quota_of quiet_quota). pose proof (raise_keeps quota_of quiet_quota).
  pose proof (retryable_is_error _ Er) as He. unfold raise_for_status. rewrite He. keep.
Qed.

Lemma handle_error_closes q0 provider reservation error attempt final :
  triple (λ s, reservation_open q0 reservation (ps_quota s))
    (handle_connection_error provider reservation error attempt final)
    (λ o s, step_leaks o ∨ no_new_open q0 (ps_quota s)).
Proof.
  unfold handle_connection_error.
  eapply triple_impl; [apply (closed_then q0 reservation); [apply cancel_reservation_closes|]|done|by right].
  pose proof (transient_keeps quota_of quiet_quota). pose proof (raise_keeps quota_of quiet_quota). keep.
Qed.

Lemma wait_for_quota_opens q0 fuel deadline provider c :
  triple (λ s, no_new_open q0 (ps_quota s))
    (wait_for_quota_until url_hostname account_fingerprint fuel deadline provider c)
    (λ o s, match o with Ok r => only_open r q0 (ps_quota s) | Err _ => no_new_open q0 (ps_quota s) end).
Proof.
  induction fuel as [|fuel IH]; cbn [wait_for_quota_until]; [by apply triple_raise|].
  apply (triple_keeps_bind quota_of (no_new_open q0)); [apply raise_keeps, quiet_quota| |done]. intros _.
  apply (ask_bind quota_of (no_new_open q0)); [done|]. intros now.
  apply (ask_bind quota_of (no_new_open q0)); [done|]. intros uuid.
  set (Q := λ (o : result api_exn QuotaReservation) s,
    match o with Ok r => only_open r q0 (ps_quota s) | Err _ => no_new_open q0 (ps_quota s) end).
  eapply (triple_bind _ (λ o s, match o with Ok o => Q o s | Err _ => False end)); [| |done].
  - intros s Hs. unfold Q, attempt, on_quota. cbn zeta.
    pose proof (reserve_opens provider (rc_profile c) (rc_estimate c) (rc_pool_id c) (rc_llm_options c) now uuid
      (ps_quota s) q0 Hs) as Hr. cbn zeta in Hr. by destruct (reserve_quota _ _ _ _ _ _ _ _ _ _) as [[r|e] q].
  - intros [r|e]; [by apply triple_ret|]. unfold Q at 1.
    assert (triple (λ s, no_new_open q0 (ps_quota s)) (prog_raise e : prog (pstate env) api_exn QuotaReservation) Q)
      as Hraise by by apply triple_raise.
    destruct e as [|[retry_at|]| | | | | | | |]; try exact Hraise.
    apply (ask_bind quota_of (no_new_open q0)); [done|]. intros m.
    apply (ask_bind quota_of (no_new_open q0)); [done|]. intros wall. destruct (float_leb _ _); [exact Hraise|].
    apply (ask_bind quota_of (no_new_open q0)); [done|]. intros []; [by apply triple_raise|exact IH].
Qed.

Lemma one_attempt_closes q0 fuel provider request context options last attempt final :
  triple (λ s, no_new_open q0 (ps_quota s))
    (one_attempt url_hostname account_fingerprint header_float date_timestamp fuel provider request context options
       last attempt final)
    (λ o s, step_leaks o ∨ no_new_open q0 (ps_quota s)).
Proof.
  unfold one_attempt.
  apply (triple_keeps_bind quota_of (no_new_open q0)); [apply raise_keeps, quiet_quota| |by right]. intros _.
  apply (triple_keeps_bind quota_of (no_new_open q0)); [apply slot_keeps, quiet_quota| |by right]. intros _.
  eapply (triple_bind _ (λ o s, match o with Ok r => reservation_open q0 r (ps_quota s)
                                           | Err _ => no_new_open q0 (ps_quota s) end)); [| |by right].
  - destruct context as [c|]; [|apply triple_ret; intros s Hs; exact Hs].
    eapply triple_bind.
    + apply (ask_bind quota_of (no_new_open q0)); [done|]. intros now. apply wait_for_quota_opens.
    + intros r. apply triple_ret. intros s Hs. exact Hs.
    + intros e s Hs. exact Hs.
  - intros reservation. apply (ask_bind quota_of (reservation_open q0 reservation)); [done|]. intros [].
    { eapply triple_impl; [apply (closed_then q0 reservation); [apply cancel_reservation_closes|]|done|by right]. keep. }
    apply (ask_bind quota_of (reservation_open q0 reservation)); [done|].
    intros [response|[text|text|text]]; [apply handle_response_closes|apply handle_error_closes..|].
    apply triple_raise. by left.
Qed.

Lemma attempts_loop_closes q0 fuel provider request context options remaining : ∀ last attempt,
  triple (λ s, no_new_open q0 (ps_quota s))
    (attempts_loop url_hostname account_fingerprint header_float date_timestamp fuel provider request context options
       remaining last attempt)
    (λ o s, leaks o ∨ no_new_open q0 (ps_quota s)).
Proof.
  induction remaining as [|remaining IH]; intros last attempt; cbn [attempts_loop].
  { destruct last; apply triple_raise; by right. }
  eapply triple_bind; [apply one_attempt_closes| |].
  - intros [response|last']; [apply triple_ret; intros s [Hf|Hs]; [destruct Hf|by right]|].
    eapply triple_impl; [apply IH|intros s [Hf|Hs]; [destruct Hf|exact Hs]|done].
  - intros e s [Hl|Hs]; [left; exact Hl|by right].
Qed.

Lemma request_with_retries_closes q0 fuel provider method url body context :
  triple (λ s, no_new_open q0 (ps_quota s))
    (_request_with_retries url_hostname account_fingerprint header_float date_timestamp fuel provider method url body context)
    (λ o s, leaks o ∨ no_new_open q0 (ps_quota s)).
Proof.
  intros s Hs. unfold _request_with_retries, mbind, prog_bind, prog_read. by apply attempts_loop_closes.
Qed.

Definition api_leaks {A} (o : result api_exn A) : Prop :=
  match o with Err (ApiRequest _) | Err ApiOverflow => True | _ => False end.

Lemma request_provider_closes q0 fuel provider messages format context :
  triple (λ s, no_new_open q0 (ps_quota s))
    (request_provider url_hostname account_fingerprint header_float date_timestamp fuel provider messages format context)
    (λ o s, api_leaks o ∨ no_new_open q0 (ps_quota s)).
Proof.
  unfold request_provider.
  apply (triple_keeps_bind quota_of (no_new_open q0)); [apply raise_keeps, quiet_quota| |by right]. intros _.
  apply (triple_keeps_bind quota_of (no_new_open q0)); [apply keeps_ask; done| |by right]. intros started.
  apply (triple_keeps_bind quota_of (no_new_open q0)); [apply keeps_lift| |by right]. intros target.
  eapply triple_bind; [apply request_with_retries_closes| |intros e s [Hl|Hs]; [left; exact Hl|by right]].
  intros response.
  eapply (triple_impl _ (λ s, no_new_open q0 (ps_quota s)) _ (λ _ s, no_new_open q0 (ps_quota s)));
    [|by intros s [[]|Hs]|by right].
  apply (triple_keeps quota_of (no_new_open q0)). pose proof quiet_quota as Hquiet. keep.
Qed.

(** ** What an attempt returns *)

Abbreviation one_attempt := (one_attempt url_hostname account_fingerprint header_float date_timestamp).
Abbreviation attempts_loop := (attempts_loop url_hostname account_fingerprint header_float date_timestamp).
Abbreviation request_with_retries :=
  (_request_with_retries url_hostname account_fingerprint header_float date_timestamp).
Abbreviation wait_for_quota := (wait_for_quota url_hostname account_fingerprint).

(** Only a response that is no error is returned, and the last attempt never
    goes on. *)
Definition good_step (final : bool) (step : attempt_step) : Prop :=
  match step with Return r => is_error_status (rsp_status r) = false | Continue _ => final = false end.

Lemma returns_step {A} (m : prog (pstate env) api_exn A) final k :
  (∀ a, prog_returns (good_step final) (k a)) → prog_returns (good_step final) (m ≫= k).
Proof. intros Hk. eapply returns_bind; [apply returns_any|]. intros a _. apply Hk. Qed.

Lemma finish_response_returns provider reservation response final :
  prog_returns (good_step final) (finish_response header_float date_timestamp provider reservation response).
Proof.
  unfold finish_response. destruct (is_error_status _) eqn:E; [apply returns_step; intros ?; by apply returns_raise|].
  do 4 (apply returns_step; intros ?). by apply returns_ret.
Qed.

Lemma handle_response_returns provider reservation response last attempt final :
  prog_returns (good_step final)
    (handle_response header_float date_timestamp provider reservation response last attempt final).
Proof.
  unfold handle_response. destruct (is_retryable _); [|apply finish_response_returns].
  do 3 (apply returns_step; intros ?). destruct final; [|by apply returns_ret]. cbn [negb].
  destruct (_ =? 429); [apply returns_raise|]. apply returns_step. intros ?. apply finish_response_returns.
Qed.

Lemma handle_error_returns provider reservation error attempt final :
  prog_returns (good_step final) (handle_connection_error provider reservation error attempt final).
Proof.
  unfold handle_connection_error. do 3 (apply returns_step; intros ?).
  destruct final; [apply returns_raise|by apply returns_ret].
Qed.

Lemma one_attempt_returns fuel provider request context options last attempt final :
  prog_returns (good_step final) (one_attempt fuel provider request context options last attempt final).
Proof.
  unfold Provider.one_attempt. do 3 (apply returns_step; intros ?). apply returns_step. intros [].
  { apply returns_step. intros ?. apply returns_raise. }
  apply returns_step. intros [response|[text|text|text]];
    [apply handle_response_returns|apply handle_error_returns..|apply returns_raise].
Qed.

Lemma attempts_loop_returns fuel provider request context options remaining : ∀ last attempt,
  prog_returns (λ r, is_error_status (rsp_status r) = false)
    (attempts_loop fuel provider request context options remaining last attempt).
Proof.
  induction remaining as [|remaining IH]; intros last attempt; cbn [Provider.attempts_loop].
  - destruct last; apply returns_raise.
  - eapply returns_bind; [apply one_attempt_returns|]. intros [r|last'] Hr; [by apply returns_ret|apply IH].
Qed.

(** ** How often a request is sent *)

Section Sends.
Context (sent : env → nat).
Abbreviation sent_of := (λ s : pstate env, sent (ps_env s)).
Context (Hsend : ∀ request e, sent (send request e).2 = S (sent e)) (Hquiet : quiet sent_of).

Definition sends_at_most {A} (n : nat) (m : prog (pstate env) api_exn A) : Prop :=
  ∀ s, (sent_of (m s).2 ≤ sent_of s + n)%nat.

Lemma sends_keeps {A} (m : prog (pstate env) api_exn A) : prog_keeps sent_of m → sends_at_most 0 m.
Proof. intros Hm s. specialize (Hm s). cbn beta in *. lia. Qed.

Lemma sends_bind {A A'} n1 n2 (m : prog (pstate env) api_exn A) (k : A → prog (pstate env) api_exn A') :
  sends_at_most n1 m → (∀ a, sends_at_most n2 (k a)) → sends_at_most (n1 + n2) (m ≫= k).
Proof.
  intros Hm Hk s. unfold mbind, prog_bind. specialize (Hm s). destruct (m s) as [[a|e] s']; cbn in *; [|lia].
  specialize (Hk a s'). cbn in Hk. lia.
Qed.

Lemma on_quota_keeps {A} (m : prog quota_db quota_exn A) : prog_keeps sent_of (on_quota (env := env) m).
Proof. intros s. unfold on_quota. by destruct (m (ps_quota s)) as [[a|e] q]. Qed.

Lemma attempt_keeps {A} (m : prog (pstate env) api_exn A) : prog_keeps sent_of m → prog_keeps sent_of (attempt m).
Proof. intros Hm s. apply Hm. Qed.

Lemma wait_for_quota_keeps fuel deadline provider c :
  prog_keeps sent_of (wait_for_quota_until url_hostname account_fingerprint fuel deadline provider c).
Proof.
  pose proof (raise_keeps sent_of Hquiet).
  induction fuel as [|fuel IH]; cbn [wait_for_quota_until]; keep. apply attempt_keeps, on_quota_keeps.
Qed.

Lemma complete_keeps reservation usage response :
  prog_keeps sent_of (complete_reservation (env := env) header_float date_timestamp reservation usage response).
Proof. pose proof @on_quota_keeps. unfold complete_reservation. keep. Qed.

Lemma cancel_keeps reservation : prog_keeps sent_of (cancel_reservation (env := env) reservation).
Proof. pose proof @on_quota_keeps. unfold cancel_reservation. keep. Qed.

Lemma finish_keeps provider reservation response :
  prog_keeps sent_of (finish_response header_float date_timestamp provider reservation response).
Proof.
  pose proof complete_keeps. pose proof (raise_keeps sent_of Hquiet). pose proof (success_keeps sent_of Hquiet).
  unfold finish_response. keep.
Qed.

Lemma handle_response_keeps provider reservation response last attempt final :
  prog_keeps sent_of (handle_response header_float date_timestamp provider reservation response last attempt final).
Proof.
  pose proof finish_keeps. pose proof complete_keeps. pose proof (raise_keeps sent_of Hquiet).
  pose proof (failure_keeps sent_of Hquiet). unfold handle_response, raise_for_status. keep.
Qed.

Lemma handle_error_keeps provider reservation error attempt final :
  prog_keeps sent_of (handle_connection_error provider reservation error attempt final).
Proof.
  pose proof cancel_keeps. pose proof (raise_keeps sent_of Hquiet). pose proof (transient_keeps sent_of Hquiet).
  unfold handle_connection_error. keep.
Qed.

Lemma one_attempt_sends fuel provider request context options last attempt final :
  sends_at_most 1 (one_attempt fuel provider request context options last attempt final).
Proof.
  pose proof (raise_keeps sent_of Hquiet). pose proof (slot_keeps sent_of Hquiet). pose proof cancel_keeps.
  pose proof wait_for_quota_keeps. unfold Provider.one_attempt, Provider.wait_for_quota.
  change 1%nat with (0 + (0 + (0 + (0 + 1))))%nat.
  apply sends_bind; [apply sends_keeps; keep|intros _]. apply sends_bind; [apply sends_keeps; keep|intros _].
  apply sends_bind; [apply sends_keeps; keep|intros reservation].
  apply sends_bind; [apply sends_keeps; keep|intros []].
  - change 1%nat with (0 + 1)%nat. apply sends_bind; [apply sends_keeps; keep|intros _ s]. cbn. lia.
  - change 1%nat with (1 + 0)%nat. apply sends_bind.
    + intros s. cbn. rewrite Hsend. lia.
    + pose proof handle_response_keeps. pose proof handle_error_keeps.
      intros [response|[text|text|text]]; apply sends_keeps; keep.
Qed.

Lemma attempts_loop_sends fuel provider request context options remaining : ∀ last attempt,
  sends_at_most remaining (attempts_loop fuel provider request context options remaining last attempt).
Proof.
  induction remaining as [|remaining IH]; intros last attempt; cbn [Provider.attempts_loop].
  - apply sends_keeps. keep.
  - change (S remaining) with (1 + remaining)%nat. apply sends_bind; [apply one_attempt_sends|].
    intros [r|last']; [|apply IH]. intros s. cbn. lia.
Qed.
End Sends.
End RequestSpec.

(** * Waiting ends *)

(** A monotonic clock: [reading] bounds what it will show from a state on, and a
    wait that was not interrupted takes its time, which the clock counts in
    ticks. *)
Class NetworkClock (env : Type) `{Network env} := {
  reading : env → Q;
  tick : Q;
  monotonic_reads : ∀ e, (reading e <= (monotonic e).1 /\ (monotonic e).1 <= reading (monotonic e).2)%Q;
  wall_reads : ∀ e, (reading e <= reading (wall_time e).2)%Q;
  token_reads : ∀ e, (reading e <= reading (token_set e).2)%Q;
  uuid_reads : ∀ e, (reading e <= reading (uuid4 e).2)%Q;
  wait_reads : ∀ d e, (0 < d)%Q → (token_wait (Fin d) e).1 = false →
    (reading e + d <= reading (token_wait (Fin d) e).2 /\ reading e + tick <= reading (token_wait (Fin d) e).2)%Q
}.

Definition finite (f : py_float) : Prop := match f with Fin _ => True | _ => False end.

Lemma finite_max a b : finite a → finite b → finite (float_max a b).
Proof. unfold float_max. by destruct (float_ltb a b). Qed.
Lemma finite_min a b : finite a → finite b → finite (float_min a b).
Proof. unfold float_min. by destruct (float_ltb b a). Qed.
Lemma finite_add a b : finite a → finite b → finite (float_add a b).
Proof. by destruct a, b. Qed.
Lemma finite_scale k a : finite a → finite (float_scale k a).
Proof. by destruct a. Qed.

Lemma float_max_fin a b : float_max (Fin a) (Fin b) = Fin (qmax a b).
Proof. unfold float_max, qmax. cbn. by destruct (qltb a b). Qed.
Lemma float_min_fin a b : float_min (Fin a) (Fin b) = Fin (qmin a b).
Proof. unfold float_min, qmin. cbn. by destruct (qltb b a). Qed.

Section Waiting.
Context {env : Type} `{Network env} `{!NetworkClock env} `{PyRepr}.
Context (url_hostname account_fingerprint : string → string) (header_float date_timestamp : string → option Q).
Implicit Types s : pstate env.

Lemma set_env_rate key e s : rate_of key (set_env e s) = rate_of key s.
Proof. done. Qed.

(** The state after the slot was taken at [now]. *)
Definition slot_taken (provider : LLMProviderOptions) (configured : py_float) (now : Q) s s' : Prop :=
  let key := _provider_key provider in
  rt_next_request_at (rate_of key s') =
    float_add (Fin now) (float_max (float_max (Fin 0) configured) (rt_adaptive_interval (rate_of key s))) ∧
  rt_adaptive_interval (rate_of key s') = rt_adaptive_interval (rate_of key s) ∧
  ∀ key', key' ≠ key → ps_rates s' !! key' = ps_rates s !! key'.

Lemma take_slot_spec provider configured next s :
  rt_next_request_at (rate_of (_provider_key provider) s) = Fin next →
  let o := take_slot provider configured s in
  let now := (monotonic (ps_env s)).1 in
  ps_env o.2 = (monotonic (ps_env s)).2 ∧
  ((next <= now)%Q ∧ o.1 = Ok None ∧ slot_taken provider configured now s o.2 ∨
   (now < next)%Q ∧ o.1 = Ok (Some (Fin (next - now))) ∧
     rate_of (_provider_key provider) o.2 = rate_of (_provider_key provider) s ∧
     ∀ key', key' ≠ _provider_key provider → ps_rates o.2 !! key' = ps_rates s !! key').
Proof.
  intros Hn. unfold take_slot, read_monotonic, mbind, prog_bind, prog_read, ask. cbn zeta beta iota.
  rewrite Hn. cbn [float_add]. rewrite float_max_fin. cbn [float_leb fst snd].
  set (now := (monotonic (ps_env s)).1).
  destruct (Qle_bool (qmax 0 (next + - now)) 0) eqn:E; (split; [reflexivity|]); [left|right].
  - apply Qle_bool_iff in E. split; [destruct (qmax_spec 0 (next + - now)) as [[? Hq]|[? Hq]]; rewrite Hq in E; lra|]. split; [done|].
    unfold slot_taken, rate_of, put_rate, set_rate, mret, prog_ret. cbn. rewrite lookup_insert_eq. cbn. split_and!; try done.
    intros key' Hne. by rewrite lookup_insert_ne.
  - assert (0 < next + - now)%Q as Hpos.
    { destruct (qmax_spec 0 (next + - now)) as [[? Hq]|[? Hq]]; [done|]. rewrite Hq in E. by destruct (Qle_bool 0 0) eqn:E0. }
    destruct (qmax_spec 0 (next + - now)) as [[? Hq]|[? Hq]]; [|lra]. rewrite Hq. split; [lra|].
    split; [done|]. unfold rate_of, put_rate, set_rate, mret, prog_ret. cbn. rewrite lookup_insert_eq.
    split; [done|]. intros key' Hne. by rewrite lookup_insert_ne.
Qed.

(** With two turns of fuel the slot is granted, at a time when the previous
    interval is over, unless the caller cancels. *)
Lemma slot_granted fuel provider configured next s :
  rt_next_request_at (rate_of (_provider_key provider) s) = Fin next →
  let o := _wait_for_request_slot (S (S fuel)) provider configured s in
  o.1 = Err ApiCancelled ∨ o.1 = Ok tt ∧ ∃ now, (next <= now)%Q ∧ slot_taken provider configured now s o.2.
Proof.
  intros Hn. cbn zeta. rewrite (eq_refl : _wait_for_request_slot (S (S fuel)) provider configured =
    (delay ← take_slot provider configured;
     match delay with
     | None => mret tt
     | Some delay => cancelled ← wait_cancelled delay;
                     if (cancelled : bool) then prog_raise ApiCancelled
                     else _wait_for_request_slot (S fuel) provider configured
     end)).
  unfold wait_cancelled, ask, mbind, prog_bind. cbn zeta.
  generalize (take_slot_spec provider configured next s Hn).
  destruct (take_slot provider configured s) as [o s1]; cbn [fst snd].
  intros [He [(Hle & -> & Ht)|(Hlt & -> & Hr & Hk)]]; [right; split; [done|]; eexists; split; [exact Hle|exact Ht]|].
  cbn zeta beta iota.
  set (now := (monotonic (ps_env s)).1) in *.
  destruct ((token_wait (Fin (next - now)) (ps_env s1)).1) eqn:Ec; [by left|].
  pose proof (wait_reads (next - now) (ps_env s1) ltac:(lra) Ec) as [Hw _].
  pose proof (monotonic_reads (ps_env s)) as [_ Hm]. rewrite <-He in Hm. fold now in Hm.
  set (s2 := set_env _ s1). set (e2 := (token_wait (Fin (next - now)) (ps_env s1)).2) in *.
  assert (rt_next_request_at (rate_of (_provider_key provider) s2) = Fin next) as Hn2
    by (unfold s2; by rewrite set_env_rate, Hr).
  cbn [_wait_for_request_slot]. unfold mbind, prog_bind.
  pose proof (monotonic_reads e2) as [Hm2 _].
  generalize (take_slot_spec provider configured next s2 Hn2). change (ps_env s2) with e2.
  destruct (take_slot provider configured s2) as [o2 s3]. cbn [fst snd].
  intros [_ [(Hle & -> & Ht)|(Hlt2 & _)]]; [|lra]. right.
  split; [done|]. eexists. split; [exact Hle|]. destruct Ht as (H1 & H2 & H3). unfold s2 in H1, H2.
  rewrite set_env_rate, Hr in H1, H2. split_and!; [done|done|]. intros key' Hne. rewrite H3 by done. by apply Hk.
Qed.

(** What is not the internal error of a loop that ran out of fuel, or of a
    retry loop that ended without an outcome. *)
Definition no_runtime {A} (o : result api_exn A) : Prop := ∀ text, o ≠ Err (ApiRuntime text).

(** The clock shows at least [t]. *)
Definition later_than (t : Q) s : Prop := (t <= reading (ps_env s))%Q.

Lemma ask_later {A B} t (f : env → A * env) (k : A → prog (pstate env) api_exn B) Q :
  (∀ e, (reading e <= reading (f e).2)%Q) → (∀ a, triple (later_than t) (k a) Q) →
  triple (later_than t) (ask f ≫= k) Q.
Proof.
  intros Hf Hk s Hs. unfold mbind, prog_bind, ask. cbn zeta. apply Hk. unfold later_than in *. cbn.
  specialize (Hf (ps_env s)). lra.
Qed.

Lemma raise_later {B} t (k : unit → prog (pstate env) api_exn B) (Q : result api_exn B → pstate env → Prop) :
  (∀ s, Q (Err ApiCancelled) s) → triple (later_than t) (k tt) Q → triple (later_than t) (raise_if_cancelled ≫= k) Q.
Proof.
  intros He Hk s Hs. unfold raise_if_cancelled, cancelled_now, ask, mbind, prog_bind. cbn zeta beta iota.
  pose proof (token_reads (ps_env s)). destruct (token_set (ps_env s)).1; [apply He|]. apply Hk. unfold later_than in *.
  cbn. lra.
Qed.

(** The quota is granted or refused before the deadline and one tick. *)
Lemma quota_wait_ends n provider c d t : (d - t <= zq (Z.of_nat n) * tick)%Q →
  triple (later_than t) (wait_for_quota_until url_hostname account_fingerprint (S n) (Fin d) provider c)
    (λ o _, no_runtime o).
Proof.
  revert t. induction n as [|n IH]; intros t Ht; cbn [wait_for_quota_until].
  all: apply raise_later; [done|]; apply ask_later; [apply wall_reads|]; intros wall.
  all: apply ask_later; [apply uuid_reads|]; intros uuid.
  all: eapply (triple_bind _ (λ o s, later_than t s ∧ ∃ a, o = Ok a ∧ no_runtime a));
    [intros s Hs; unfold attempt, on_quota; cbn zeta; destruct (reserve_quota _ _ _ _ _ _ _ _ _ _) as [[r|e] q];
     (split; [exact Hs|]; eexists; by split)| |by intros e s (_ & a & ? & _)].
  all: intros o; intros s (Hs & a & [= <-] & Ha).
  all: destruct o as [r|e]; [done|].
  all: destruct e as [|[retry_at|]| | | | | | | |text]; try done; try by destruct (Ha text).
  all: unfold read_monotonic, read_wall, wait_cancelled, ask, mbind, prog_bind; cbn zeta beta iota.
  all: cbn [fst snd float_add]; rewrite float_min_fin; cbn [float_leb].
  all: set (m := (monotonic (ps_env s)).1); set (e1 := (monotonic (ps_env s)).2);
    set (w := (wall_time (ps_env (set_env e1 s))).1).
  all: pose proof (monotonic_reads (ps_env s)) as [Hm1 Hm2]; fold m e1 in Hm1, Hm2; unfold later_than in Hs.
  all: set (delay := qmin (wait_seconds retry_at w) (d + - m)).
  all: destruct (Qle_bool delay 0) eqn:Ed; [done|].
  all: assert (delay <= d + - m)%Q as Hd by (unfold delay; destruct (qmin_spec (wait_seconds retry_at w) (d + - m)) as [[? ->]|[? ->]]; lra).
  all: assert (0 < delay)%Q as Hpos by (destruct (Qlt_le_dec 0 delay) as [|Hle%Qle_bool_iff]; [done|congruence]).
  - change (zq (Z.of_nat 0)) with 0%Q in Ht. exfalso. lra.
  - set (s1 := set_env _ (set_env e1 s)).
    destruct ((token_wait (Fin delay) (ps_env s1)).1) eqn:Ew; [done|].
    pose proof (wait_reads delay (ps_env s1) Hpos Ew) as [_ Hw].
    pose proof (wall_reads e1) as Hwall.
    apply (IH (t + tick)%Q).
    + rewrite Nat2Z.inj_succ in Ht. unfold zq, Z.succ in *. rewrite inject_Z_plus in Ht.
      change (inject_Z 1) with 1%Q in Ht. lra.
    + unfold later_than. cbn in *. lra.
Qed.

(** ** The rate states stay finite *)

Definition finite_rate (r : _ProviderRateState) : Prop :=
  finite (rt_next_request_at r) ∧ finite (rt_adaptive_interval r).
Definition finite_rates s : Prop := map_Forall (λ _ r, finite_rate r) (ps_rates s).

Context (Hoptions : ∀ e, finite (lm_min_request_interval_sec (current_options e))).

Lemma finite_rate_of key s : finite_rates s → finite_rate (rate_of key s).
Proof.
  intros Hf. unfold rate_of. destruct (ps_rates s !! key) as [r|] eqn:E; [by apply (Hf _ _ E)|done].
Qed.

Lemma finite_put key r s : finite_rate r → finite_rates s → finite_rates (set_rate key r s).
Proof. intros Hr Hf. by apply map_Forall_insert_2. Qed.

(** [ends m]: from finite rates [m] leaves finite rates and does not end in the
    internal error. *)
Definition ends {A} (m : prog (pstate env) api_exn A) : Prop :=
  triple finite_rates m (λ o s, finite_rates s ∧ no_runtime o).

Lemma ends_bind {A B} (m : prog (pstate env) api_exn A) (k : A → prog (pstate env) api_exn B) :
  ends m → (∀ a, ends (k a)) → ends (m ≫= k).
Proof.
  intros Hm Hk. eapply triple_bind; [exact Hm| |].
  - intros a. eapply triple_impl; [apply Hk|by intros s [Hs _]|done].
  - intros e s [Hs He]. split; [done|]. intros text [= ->]. by apply (He text).
Qed.

Lemma ends_keeps {A} (m : prog (pstate env) api_exn A) :
  (∀ s, ps_rates (m s).2 = ps_rates s) → (∀ s, no_runtime (m s).1) → ends m.
Proof. intros Hk Hn s Hs. split; [unfold finite_rates; by rewrite Hk|apply Hn]. Qed.

Lemma ends_raise {A} e : (∀ text, e ≠ ApiRuntime text) → ends (prog_raise e : prog (pstate env) api_exn A).
Proof. intros He. apply ends_keeps; [done|]. intros s text [= ->]. by apply (He text). Qed.
Lemma ends_lift {A} (r : result api_exn A) : no_runtime r → ends (lift r).
Proof. intros Hr. by apply ends_keeps. Qed.
Lemma ends_ask {A} (f : env → A * env) : ends (ask f).
Proof. by apply ends_keeps. Qed.
Lemma ends_ret {A} (a : A) : ends (mret a).
Proof. by apply ends_keeps. Qed.

Lemma ends_on_quota {A} (m : prog quota_db quota_exn A) : ends (on_quota m).
Proof. apply ends_keeps; intros s; unfold on_quota; by destruct (m (ps_quota s)) as [[a|e] q]. Qed.

Lemma ends_raise_if_cancelled : ends raise_if_cancelled.
Proof.
  unfold raise_if_cancelled. apply ends_bind; [apply ends_ask|]. intros []; [by apply ends_raise|apply ends_ret].
Qed.

Lemma configured_finite s : finite (configured_interval s).
Proof. apply finite_max; [done|apply Hoptions]. Qed.

Lemma ends_take_slot provider m : finite m → ends (take_slot provider m).
Proof.
  intros Hm s Hs. pose proof (finite_rate_of (_provider_key provider) s Hs) as [Hn Ha].
  unfold take_slot, read_monotonic, put_rate, mbind, prog_bind, prog_read, ask. cbn zeta beta iota.
  destruct (float_leb _ _); (split; [|done]); apply finite_put; try done.
  split; [|done]. apply finite_add; [done|]. apply finite_max; [by apply finite_max|done].
Qed.

Lemma ends_slot fuel provider m : finite m → ends (_wait_for_request_slot (S (S fuel)) provider m).
Proof.
  intros Hm s Hs. split.
  - assert (∀ n, triple finite_rates (_wait_for_request_slot n provider m) (λ _ s, finite_rates s)) as Hf.
    { induction n as [|n IH]; cbn [_wait_for_request_slot]; [by apply triple_raise|].
      eapply triple_bind; [by apply ends_take_slot| |by intros e s' [? _]]. intros [delay|].
      - eapply triple_bind; [intros s' [Hs' _]; exact (ends_ask (token_wait delay) s' Hs')| |by intros e s' [? _]].
        intros []; [by apply triple_raise; intros s' [? _]|]. eapply triple_impl; [exact IH|by intros s' [? _]|done].
      - by apply triple_ret; intros s' [? _]. }
    by apply Hf.
  - pose proof (finite_rate_of (_provider_key provider) s Hs) as [Hn _].
    destruct (rt_next_request_at _) as [next| |] eqn:E; try done.
    destruct (slot_granted fuel provider m next s E) as [->|[-> _]]; done.
Qed.

Lemma ends_wait_for_quota n provider c t : lm_quota_wait_timeout_sec (rc_llm_options c) = Fin t →
  (qmax 0 t <= zq (Z.of_nat n) * tick)%Q →
  ends (wait_for_quota url_hostname account_fingerprint (S n) provider c).
Proof.
  intros Ht Hn s Hs. unfold Provider.wait_for_quota, read_monotonic, ask, mbind, prog_bind. cbn zeta beta iota.
  rewrite Ht, float_max_fin. cbn [float_add]. set (now := (monotonic (ps_env s)).1).
  set (s1 := set_env _ s). split.
  - assert (prog_keeps ps_rates (wait_for_quota_until url_hostname account_fingerprint (S n)
      (Fin (now + qmax 0 t)) provider c)) as Hk; [|unfold finite_rates; by rewrite Hk].
    generalize (S n) as k. induction k as [|k IH]; cbn [wait_for_quota_until]; [apply pkeeps_raise|].
    assert (prog_keeps ps_rates (raise_if_cancelled (env := env))) as Hr
      by (apply pkeeps_bind; [done|intros []; done]).
    apply pkeeps_bind; [exact Hr|intros _]. apply pkeeps_bind; [done|intros wall]. apply pkeeps_bind; [done|intros uuid].
    apply pkeeps_bind; [intros s'; unfold attempt, on_quota; by destruct (reserve_quota _ _ _ _ _ _ _ _ _ _) as [[r|e] q]|].
    intros [r|[|[retry_at|]| | | | | | | |]]; try done. apply pkeeps_bind; [done|intros m].
    apply pkeeps_bind; [done|intros w]. destruct (float_leb _ _); [done|]. apply pkeeps_bind; [done|intros []]; [done|exact IH].
  - apply (quota_wait_ends n provider c _ now); [lra|]. unfold later_than, s1. cbn.
    by destruct (monotonic_reads (ps_env s)).
Qed.

Lemma ends_backoff provider delay limited : ends (_increase_backoff provider delay limited).
Proof.
  intros s Hs. pose proof (finite_rate_of (_provider_key provider) s Hs) as [Hn Ha].
  pose proof (configured_finite s) as Hc.
  unfold _increase_backoff, read_monotonic, put_rate, mbind, prog_bind, prog_read, ask. cbn zeta beta iota.
  split; [|done]. apply finite_put; [|done].
  set (adaptive := if float_nonzero _ then _ else _).
  assert (finite adaptive) as Hd
    by (unfold adaptive; destruct (float_nonzero _); [by apply finite_scale|by apply finite_max]).
  assert (finite (float_min (Fin 60) (float_max (configured_interval s) adaptive))) as He
    by (apply finite_min; [done|by apply finite_max]).
  split; [|exact He]. apply finite_max; [exact Hn|]. apply finite_add; [done|by apply finite_max].
Qed.

Lemma default_delay_ends attempt : no_runtime (default_delay attempt).
Proof. unfold default_delay. by destruct (1024 <=? attempt). Qed.

Lemma ends_transient provider attempt : ends (_register_transient_failure provider attempt).
Proof.
  unfold _register_transient_failure. apply ends_bind; [apply ends_lift, default_delay_ends|]. intros delay.
  apply ends_bind; [apply ends_backoff|]. intros _. apply ends_ret.
Qed.

Lemma ends_failure provider response attempt :
  ends (_register_response_failure header_float date_timestamp provider response attempt).
Proof.
  unfold _register_response_failure. apply ends_bind; [apply ends_ask|]. intros wall.
  apply ends_bind; [destruct (retry_delay_from_headers _ _ _ _ _); [apply ends_ret|apply ends_lift, default_delay_ends]|].
  intros delay. apply ends_bind; [apply ends_backoff|]. intros _. apply ends_ret.
Qed.

Lemma ends_success provider : ends (_register_success provider).
Proof.
  intros s Hs. pose proof (finite_rate_of (_provider_key provider) s Hs) as [Hn Ha].
  pose proof (configured_finite s) as Hc. unfold _register_success, put_rate, mbind, prog_bind, prog_read. cbn zeta beta iota.
  split; [|done]. apply finite_put; [|done]. split; [exact Hn|].
  apply finite_max; [exact Hc|by apply finite_scale].
Qed.

Lemma ends_complete reservation usage response :
  ends (complete_reservation header_float date_timestamp reservation usage response).
Proof.
  destruct reservation as [[r c]|]; [|apply ends_ret]. apply ends_bind; [apply ends_ask|]. intros now. apply ends_on_quota.
Qed.
Lemma ends_cancel reservation : ends (cancel_reservation reservation).
Proof.
  destruct reservation as [[r c]|]; [|apply ends_ret]. apply ends_bind; [apply ends_ask|]. intros now. apply ends_on_quota.
Qed.

Lemma ends_finish provider reservation response :
  ends (finish_response header_float date_timestamp provider reservation response).
Proof.
  unfold finish_response. destruct (is_error_status _).
  { apply ends_bind; [apply ends_complete|]. intros _. by apply ends_raise. }
  apply ends_bind.
  { destruct reservation; [|apply ends_ret]. apply ends_lift. intros text Ht. by apply response_usage_error in Ht. }
  intros usage. apply ends_bind; [apply ends_complete|]. intros _.
  apply ends_bind; [apply ends_raise_if_cancelled|]. intros _.
  apply ends_bind; [apply ends_success|]. intros _. apply ends_ret.
Qed.

Lemma ends_handle_response provider reservation response last attempt final :
  ends (handle_response header_float date_timestamp provider reservation response last attempt final).
Proof.
  unfold handle_response. destruct (is_retryable _); [|apply ends_finish].
  apply ends_bind; [apply ends_complete|]. intros _. apply ends_bind; [apply ends_failure|]. intros delay.
  apply ends_bind; [apply ends_raise_if_cancelled|]. intros _. destruct (negb final); [apply ends_ret|].
  destruct (_ =? 429); [by apply ends_raise|]. apply ends_bind; [|intros _; apply ends_finish].
  unfold raise_for_status. destruct (is_error_status _); [by apply ends_raise|apply ends_ret].
Qed.

Lemma ends_handle_error provider reservation error attempt final : (∀ text, error ≠ ApiRuntime text) →
  ends (handle_connection_error provider reservation error attempt final).
Proof.
  intros He. unfold handle_connection_error. apply ends_bind; [apply ends_cancel|]. intros _.
  apply ends_bind; [apply ends_raise_if_cancelled|]. intros _. apply ends_bind; [apply ends_transient|]. intros delay.
  destruct final; [by apply ends_raise|apply ends_ret].
Qed.

(** Fuel enough for a request: two turns for a slot, and the timeout of the
    quota in ticks. *)
Definition fuel_enough (n : nat) (context : option ProviderRequestContext) : Prop :=
  match context with
  | None => True
  | Some c => ∃ t, lm_quota_wait_timeout_sec (rc_llm_options c) = Fin t ∧ (qmax 0 t <= zq (Z.of_nat n) * tick)%Q
  end.

Lemma ends_attempt fuel provider request context options last attempt final :
  finite (lm_min_request_interval_sec options) → fuel_enough (S fuel) context →
  ends (one_attempt url_hostname account_fingerprint header_float date_timestamp (S (S fuel)) provider request context options last attempt final).
Proof.
  intros Hm Hfuel. unfold Provider.one_attempt. apply ends_bind; [apply ends_raise_if_cancelled|]. intros _.
  apply ends_bind; [by apply ends_slot|]. intros _. apply ends_bind.
  { destruct context as [c|]; [|apply ends_ret]. destruct Hfuel as (t & Ht & Hn).
    apply ends_bind; [by eapply ends_wait_for_quota|]. intros r. apply ends_ret. }
  intros reservation. apply ends_bind; [apply ends_ask|]. intros [].
  { apply ends_bind; [apply ends_cancel|]. intros _. by apply ends_raise. }
  apply ends_bind; [apply ends_ask|]. intros [response|[text|text|text]];
    [apply ends_handle_response|by apply ends_handle_error..|by apply ends_raise].
Qed.

Lemma ends_attempts fuel provider request context options : finite (lm_min_request_interval_sec options) →
  fuel_enough (S fuel) context → ∀ remaining last attempt,
  ends (attempts_loop url_hostname account_fingerprint header_float date_timestamp (S (S fuel)) provider request context
          options (S remaining) last attempt).
Proof.
  intros Hm Hfuel. induction remaining as [|remaining IH]; intros last attempt s Hs.
  - pose proof (ends_attempt fuel provider request context options last attempt true Hm Hfuel s Hs) as [Hs' Hn].
    pose proof (one_attempt_returns url_hostname account_fingerprint header_float date_timestamp (S (S fuel)) provider
      request context options last attempt true s) as Hr.
    cbn [Provider.attempts_loop]. unfold mbind, prog_bind.
    destruct (one_attempt _ _ _ _ _ _ _ _ _ _ _ _ s) as [[[r|last']|e] s']; cbn in *; [done|done|].
    split; [done|]. intros text [= ->]. by apply (Hn text).
  - revert s Hs. cbn [Provider.attempts_loop]. apply ends_bind; [by apply ends_attempt|].
    intros [r|last']; [apply ends_ret|apply IH].
Qed.
End Waiting.

(** * Theorems *)

Section Theorems.
Context {env : Type} `{Network env} `{PyRepr}.
Context (url_hostname account_fingerprint : string → string) (header_float date_timestamp : string → option Q).
Abbreviation request_with_retries :=
  (_request_with_retries url_hostname account_fingerprint header_float date_timestamp).

(** A request leaves no quota reservation of its own open, whether it returns
    a response or raises: whatever is reserved afterwards was reserved before.
    The exceptions are [requests] errors other than connection errors and
    timeouts, and a token count in the response that overflows. *)
Theorem request_closes_its_reservations fuel provider method url body context (s s' : pstate env) o
  (Hrun : request_with_retries fuel provider method url body context s = (o, s'))
  (Hrequest : ∀ text, o ≠ Err (ApiRequest text)) (Hoverflow : o ≠ Err ApiOverflow) (id : string)
  (Hopen : open_in (ps_quota s') id) :
  open_in (ps_quota s) id.
Proof.
  pose proof (request_with_retries_closes url_hostname account_fingerprint header_float date_timestamp (ps_quota s) fuel
    provider method url body context s) as Hc. rewrite Hrun in Hc.
  destruct Hc as [Hl|Hq]; [by intros x Hx| |by apply Hq].
  destruct o as [r|[]]; try done. by destruct (Hrequest text).
Qed.

(** A call sends its request at most [max_retries + 1] times, and the response
    it returns has no error status. *)
Theorem requests_are_bounded (sent : env → nat)
  (Hsend : ∀ request e, sent (send request e).2 = S (sent e)) (Hquiet : quiet (λ s : pstate env, sent (ps_env s)))
  fuel provider method url body context (s s' : pstate env) o
  (Hrun : request_with_retries fuel provider method url body context s = (o, s')) :
  let options := match context with Some c => rc_llm_options c | None => current_options (ps_env s) end in
  (Z.of_nat (sent (ps_env s')) ≤ Z.of_nat (sent (ps_env s)) + Z.max 1 (lm_max_retries options + 1)) ∧
  ∀ response, o = Ok response → is_error_status (rsp_status response) = false.
Proof.
  intros options. unfold _request_with_retries, mbind, prog_bind, prog_read in Hrun. fold options in Hrun. split.
  - pose proof (attempts_loop_sends url_hostname account_fingerprint header_float date_timestamp sent Hsend Hquiet fuel
      provider (mkHttpRequest method url (_headers provider) body (float_max (Fin 1) (po_timeout_sec provider))) context
      options (attempts_of options) None 0 s) as Hs.
    rewrite Hrun in Hs. unfold attempts_of in Hs. cbn in Hs. lia.
  - intros response ->.
    pose proof (attempts_loop_returns url_hostname account_fingerprint header_float date_timestamp fuel provider
      (mkHttpRequest method url (_headers provider) body (float_max (Fin 1) (po_timeout_sec provider))) context options
      (attempts_of options) None 0 s) as Hr.
    by rewrite Hrun in Hr.
Qed.

Section Clock.
Context `{!NetworkClock env}.

(** C15: A request comes to an end: when the configured intervals and the rate
    states are finite, fuel for two turns at a slot and for the ticks of the
    quota timeout is enough, and the retry loop always has an outcome (its last
    two lines are never reached). *)
Theorem request_terminates n provider method url body context (s : pstate env)
  (Hoptions : ∀ e : env, finite (lm_min_request_interval_sec (current_options e)))
  (Hcontext : ∀ c, context = Some c → finite (lm_min_request_interval_sec (rc_llm_options c)))
  (Hfuel : fuel_enough (S n) context) (Hrates : finite_rates s) :
  no_runtime (request_with_retries (S (S n)) provider method url body context s).1 ∧
  finite_rates (request_with_retries (S (S n)) provider method url body context s).2.
Proof.
  unfold _request_with_retries, mbind, prog_bind, prog_read.
  set (options := match context with Some c => rc_llm_options c | None => current_options (ps_env s) end).
  assert (finite (lm_min_request_interval_sec options)) as Hm
    by (unfold options; destruct context as [c|]; [by apply Hcontext|apply Hoptions]).
  destruct (attempts_of options) as [|remaining] eqn:Ea; [unfold attempts_of in Ea; lia|].
  destruct (ends_attempts url_hostname account_fingerprint header_float date_timestamp Hoptions n provider
    (mkHttpRequest method url (_headers provider) body (float_max (Fin 1) (po_timeout_sec provider))) context options Hm
    Hfuel remaining None 0 s Hrates). done.
Qed.

(** The request slots of a provider are spaced: a slot is granted no earlier
    than the time the previous request or backoff set, and moves that time on by
    the configured interval or the adaptive one, whichever is longer; two turns
    of the loop are enough, and the other providers are not touched. *)
Theorem request_slots_are_spaced fuel provider configured next (s s' : pstate env) o
  (Hnext : rt_next_request_at (rate_of (_provider_key provider) s) = Fin next)
  (Hrun : _wait_for_request_slot (S (S fuel)) provider configured s = (o, s')) :
  o = Err ApiCancelled ∨ o = Ok tt ∧ ∃ now, (next <= now)%Q ∧ slot_taken provider configured now s s'.
Proof. pose proof (slot_granted fuel provider configured next s Hnext) as Hg. by rewrite Hrun in Hg. Qed.
End Clock.
End Theorems.

(** ** Witnesses *)

(** A network that answers from a list, with a clock that only waiting moves. *)
Record net := Net {
  nt_replies : list (result request_failure http_response);
  nt_sent : nat;
  nt_time : Q;
  nt_ids : list string
}.

Definition ex_response : http_response :=
  mkHttpResponse 200 "OK" [("Content-Type", "application/json")]%string (Ok (JObject [])) "".
Definition ex_failure (status : Z) : http_response :=
  mkHttpResponse status "Too Many Requests" [("Retry-After", "7")]%string (Err "no JSON"%string) "429 Client Error".

#[local] Instance net_network : Network net := {
  send _ e := match nt_replies e with
              | r :: rest => (r, Net rest (S (nt_sent e)) (nt_time e) (nt_ids e))
              | [] => (Ok ex_response, Net [] (S (nt_sent e)) (nt_time e) (nt_ids e))
              end;
  wall_time e := (nt_time e, e);
  monotonic e := (nt_time e, e);
  token_set e := (false, e);
  token_wait d e := (false, Net (nt_replies e) (nt_sent e)
                              (nt_time e + match d with Fin q => qmax q 1 | _ => 1 end) (nt_ids e));
  uuid4 e := (default ""%string (head (nt_ids e)), Net (nt_replies e) (nt_sent e) (nt_time e) (tail (nt_ids e)));
  current_options _ := Quota.ex_options
}.

#[local] Instance net_clock : NetworkClock net.
Proof.
  refine {| reading := nt_time; tick := 1 |}; try (intros; cbn; lra).
  intros d e Hd _. cbn. destruct (qmax_spec d 1) as [[? ->]|[? ->]]; split; lra.
Defined.

#[local] Instance ex_repr : PyRepr := {| py_repr_of _ := "..."%string |}.

Definition ex_context : ProviderRequestContext :=
  mkRequestContext "background" Quota.ex_profile Quota.ex_options Quota.ex_estimate.
Definition ex_net (replies : list (result request_failure http_response)) : pstate net :=
  PState (Net replies 0 1000 ["r1"; "r2"; "r3"]%string) ∅ (QuotaDb ∅ ∅).
Definition ex_float (text : string) : option Q :=
  match py_float_text text with Some (Fin q) => Some q | _ => None end.
Definition ex_request (n : nat) (s : pstate net) : result api_exn http_response * pstate net :=
  _request_with_retries (λ _, "host"%string) (λ _, "account"%string) ex_float (λ _, None) n Quota.ex_provider
    "POST" "https://host/v1/chat/completions" None (Some ex_context) s.

(** One failed connection, one 429 and then an answer. *)
Definition ex_replies : list (result request_failure http_response) :=
  [Err (ConnectionFailure "reset"); Ok (ex_failure 429); Ok ex_response].

Definition ex_states (s : pstate net) : list (option string) :=
  (λ id, qw_state <$> (quota_reservations (ps_quota s) !! id)) <$> ["r1"; "r2"; "r3"]%string.

Example ex_request_runs :
  let run := ex_request 40 (ex_net ex_replies) in
  run.1 = Ok ex_response ∧ nt_sent (ps_env run.2) = 3%nat ∧
  ex_states run.2 = [Some "cancelled"; Some "completed"; Some "completed"]%string.
Proof. vm_compute. split_and!; reflexivity. Qed.

(** A broken body ([ChunkedEncodingError]) is neither a connection error nor a
    timeout: its reservation stays open until it expires. *)
Example ex_request_leaves_a_reservation_open :
  let run := ex_request 40 (ex_net [Err (RequestFailure "Connection broken")]) in
  run.1 = Err (ApiRequest "Connection broken") ∧ ex_states run.2 = [Some "reserved"%string; None; None].
Proof. vm_compute. split; reflexivity. Qed.

Lemma request_closes_its_reservations_witness :
  ¬ open_in (ps_quota (ex_request 40 (ex_net ex_replies)).2) "r2".
Proof.
  intros Hopen.
  assert ((ex_request 40 (ex_net ex_replies)).1 = Ok ex_response) as Ho by (vm_compute; reflexivity).
  destruct (ex_request 40 (ex_net ex_replies)) as [o s'] eqn:E. cbn [fst snd] in *. subst o.
  destruct (request_closes_its_reservations _ _ _ _ 40 Quota.ex_provider "POST" _ None (Some ex_context)
    (ex_net ex_replies) s' _ E ltac:(done) ltac:(done) "r2" Hopen) as (row & Hl & _). by vm_compute in Hl.
Defined.

Lemma ex_quiet : quiet (λ s : pstate net, nt_sent (ps_env s)).
Proof. by split. Qed.

Lemma requests_are_bounded_witness :
  Z.of_nat (nt_sent (ps_env (ex_request 40 (ex_net [Ok (ex_failure 429); Ok (ex_failure 503); Ok (ex_failure 429)])).2)) ≤ 3 ∧
  (ex_request 40 (ex_net [Ok (ex_failure 429); Ok (ex_failure 503); Ok (ex_failure 429)])).1 =
    Err (ApiRateLimit "Too Many Requests" 7).
Proof.
  split; [|vm_compute; reflexivity].
  destruct (ex_request 40 (ex_net [Ok (ex_failure 429); Ok (ex_failure 503); Ok (ex_failure 429)])) as [o s'] eqn:E.
  apply (requests_are_bounded _ _ _ _ nt_sent) in E as [Hb _]; [exact Hb|by intros request [[|r rs] n t ids]|exact ex_quiet].
Defined.

Lemma request_terminates_witness : no_runtime (ex_request 40 (ex_net ex_replies)).1.
Proof.
  apply (request_terminates _ _ _ _ 38 Quota.ex_provider "POST" _ None (Some ex_context) (ex_net ex_replies));
    [done|by intros c [= <-]| |apply map_Forall_empty].
  exists 30%Q. split; [reflexivity|]. by apply Qle_bool_iff.
Defined.

(** The slot is free at 1500; it is 1000 now. *)
Definition ex_waiting : pstate net :=
  set_rate (_provider_key Quota.ex_provider) (mkRateState (Fin 1500) (Fin 4) 0) (ex_net []).

Lemma request_slots_are_spaced_witness :
  ∃ now, (1500 <= now)%Q ∧
    slot_taken Quota.ex_provider (Fin 1) now ex_waiting (_wait_for_request_slot 2 Quota.ex_provider (Fin 1) ex_waiting).2.
Proof.
  destruct (_wait_for_request_slot 2 Quota.ex_provider (Fin 1) ex_waiting) as [o s'] eqn:E.
  assert (rt_next_request_at (rate_of (_provider_key Quota.ex_provider) ex_waiting) = Fin 1500) as Hn
    by (vm_compute; reflexivity).
  destruct (request_slots_are_spaced 0 Quota.ex_provider (Fin 1) 1500 ex_waiting s' o Hn E)
    as [->|[_ Hs]]; [by vm_compute in E|exact Hs].
Defined.
