(* ===== verification/Registry.v ===== *)
(** [pihole_manager/provider_registry.py]: reading, verifying, caching and
    refreshing the registry of provider limits, and the limit profile of a
    provider.

    Parameters are the [cryptography] package, [urlparse], the downloads and
    whether a file can be replaced, and the bundled registry.  An amount may be
    any float a signed registry holds, infinite or not a number included. *)
From stdpp Require Import base gmap strings list.
From Stdlib Require Import Ascii QArith Lqa Sorted.
From S2P Require Import Prelude HttpRetry Json JsonText Net Models Options Validate Provider.
Open Scope Z_scope.

(** * Errors

    [RegistryOther] is an exception that is no [ProviderRegistryError]. *)
Inductive registry_exn :=
  | ProviderRegistryError (msg : string)
  | ProviderRegistrySignatureError (msg : string)
  | RegistryOSError
  | RegistryRequestError (text : string)
  | RegistryOther (text : string).

(** [except (OSError, ProviderRegistryError)] *)
Definition is_ignored (e : registry_exn) : bool :=
  match e with
  | ProviderRegistryError _ | ProviderRegistrySignatureError _ | RegistryOSError => true
  | RegistryRequestError _ | RegistryOther _ => false
  end.

Definition require (condition : bool) (message : string) : result registry_exn unit :=
  if condition then Ok tt else Err (ProviderRegistryError message).

(** [float(v)] and [int(v)], where [TypeError] and [ValueError] become the given
    exception. *)
Definition converted {A} (r : result conversion_exn A) (e : registry_exn) : result registry_exn A :=
  match r with
  | Ok a => Ok a
  | Err ConversionOverflowError => Err (RegistryOther "OverflowError")
  | Err _ => Err e
  end.

(** [v or 0], [for x in v or []] *)
Definition or_zero (v : option json) : json := json_or (default JNull v) (JInt 0).
Definition elements_of (v : option json) : result registry_exn (list json) :=
  match iter_or_empty (default JNull v) with Ok l => Ok l | Err _ => Err (RegistryOther "TypeError") end.

(** * Versions *)

Abbreviation version_key := (Z * Z * Z * Z)%type.

Definition days_in_month (year month : Z) : Z :=
  if month =? 2
  then if (year mod 4 =? 0) && (negb (year mod 100 =? 0) || (year mod 400 =? 0)) then 29 else 28
  else if bool_decide (month ∈ [4; 6; 9; 11]) then 30 else 31.

(** [datetime.date(year, month, day)] does not raise. *)
Definition is_date (year month day : Z) : bool :=
  (1 <=? year) && (year <=? 9999) && (1 <=? month) && (month <=? 12) &&
  (1 <=? day) && (day <=? days_in_month year month).

Definition is_digits (part : string) : bool := str_nonempty part && str_forallb is_digit part.

Definition _registry_version_key (value : string) : result registry_exn version_key :=
  let parts := str_split "." value in
  if negb (bool_decide (length parts ∈ [3; 4]%nat)) || negb (bool_decide (String.length <$> take 3 parts = [4; 2; 2]%nat))
     || negb (forallb is_digits parts)
  then Err (ProviderRegistryError "Provider registry version must use YYYY.MM.DD[.revision].")
  else
    match digits_value 0 <$> parts with
    | year :: month :: day :: rest =>
        if is_date year month day then Ok (year, month, day, default 0 (head rest))
        else Err (ProviderRegistryError "Provider registry version contains an invalid date.")
    | _ => Err (ProviderRegistryError "Provider registry version must use YYYY.MM.DD[.revision].")
    end.

(** [a < b] on tuples *)
Definition key_ltb (a b : version_key) : bool :=
  let '(y1, m1, d1, r1) := a in
  let '(y2, m2, d2, r2) := b in
  (y1 <? y2) || (y1 =? y2) && ((m1 <? m2) || (m1 =? m2) && ((d1 <? d2) || (d1 =? d2) && (r1 <? r2))).

(** * Parsing *)

Record ProviderRegistry := mkProviderRegistry {
  rr_schema_version : Z;
  rr_registry_version : string;
  rr_generated_at : string;
  rr_entries : list fields;
  rr_source : string
}.

Definition _ALLOWED_METRICS : list string := ["requests"; "input_tokens"; "output_tokens"; "total_tokens"; "units"]%string.
Definition _MAX_REGISTRY_BYTES : Z := 2000000.

(** [v == 1] *)
Definition equals_one (v : option json) : bool :=
  match v with
  | Some (JBool b) => b
  | Some (JInt z) => z =? 1
  | Some (JFloat (Fin q)) => Qeq_bool q 1
  | _ => false
  end.

Section Parse.
Context `{PyRepr}.

Definition check_limit (entry_id : string) (limit : json) : result registry_exn unit :=
  match limit with
  | JObject limit =>
      let metric := py_str_or (dict_get "metric" limit) "" in
      let invalid := ProviderRegistryError ("Invalid limit value in registry entry " +:+ entry_id +:+ ".")%string in
      amount ← converted (py_float_of (or_zero (dict_get "amount" limit))) invalid;
      window ← converted (py_int_of (or_zero (dict_get "window_seconds" limit))) invalid;
      _ ← require (bool_decide (metric ∈ _ALLOWED_METRICS) && negb (float_leb amount (Fin 0)) && negb (window <=? 0))
            ("Invalid limit definition in registry entry " +:+ entry_id +:+ ".")%string;
      require (bool_decide (py_str_or (dict_get "reset_policy" limit) "rolling" ∈ ["rolling"; "utc_day"]%string))
        ("Invalid reset policy in registry entry " +:+ entry_id +:+ ".")%string
  | _ => Err (ProviderRegistryError ("Invalid limit in registry entry " +:+ entry_id +:+ ".")%string)
  end.

Fixpoint check_limits (entry_id : string) (limits : list json) : result registry_exn unit :=
  match limits with
  | [] => Ok tt
  | limit :: limits => _ ← check_limit entry_id limit; check_limits entry_id limits
  end.

Definition entry_id_of (entry : fields) : string := str_strip (py_str_or (dict_get "entry_id" entry) "").

Fixpoint normalized_entries (entry_ids : list string) (entries : list json) : result registry_exn (list fields) :=
  match entries with
  | [] => Ok []
  | JObject entry :: entries =>
      let entry_id := entry_id_of entry in
      _ ← require (str_nonempty entry_id && negb (bool_decide (entry_id ∈ entry_ids)))
            "Provider registry entry IDs must be unique.";
      limits ← elements_of (dict_get "limits" entry);
      _ ← check_limits entry_id limits;
      rest ← normalized_entries (entry_id :: entry_ids) entries;
      Ok (entry :: rest)
  | _ :: _ => Err (ProviderRegistryError "Provider registry entry is not an object.")
  end.

Definition _parse_registry (payload source : string) : result registry_exn ProviderRegistry :=
  _ ← require (Z.of_nat (String.length payload) <=? _MAX_REGISTRY_BYTES)
        "Provider registry exceeds the maximum allowed size.";
  match (if is_utf8 payload then json_loads payload else None) with
  | None => Err (ProviderRegistryError "Provider registry is not valid UTF-8 JSON.")
  | Some (JObject data) =>
      _ ← require (equals_one (dict_get "schema_version" data)) "Unsupported provider registry schema.";
      let registry_version := str_strip (py_str_or (dict_get "registry_version" data) "") in
      let generated_at := str_strip (py_str_or (dict_get "generated_at" data) "") in
      match dict_get "entries" data with
      | Some (JArray entries) =>
          _ ← require (str_nonempty registry_version && str_nonempty generated_at)
                "Provider registry metadata is incomplete.";
          _ ← _registry_version_key registry_version;
          entries ← normalized_entries [] entries;
          Ok (mkProviderRegistry 1 registry_version generated_at entries source)
      | _ => Err (ProviderRegistryError "Provider registry metadata is incomplete.")
      end
  | Some _ => Err (ProviderRegistryError "Unsupported provider registry schema.")
  end.

Definition parse_provider_registry (payload source : string) : result registry_exn ProviderRegistry :=
  _parse_registry payload source.
End Parse.

(** * Signatures *)

(** [bytes.strip()] *)
Definition bytes_space (c : Ascii.ascii) : bool :=
  let n := Ascii.N_of_ascii c in ((9 <=? n) && (n <=? 13) || (n =? 32))%N.
Definition bytes_strip (s : string) : string := rstrip bytes_space (lstrip bytes_space s).

Definition base64_value (c : Ascii.ascii) : option Z :=
  let n := Z.of_N (Ascii.N_of_ascii c) in
  if (65 <=? n) && (n <=? 90) then Some (n - 65)
  else if (97 <=? n) && (n <=? 122) then Some (n - 71)
  else if (48 <=? n) && (n <=? 57) then Some (n + 4)
  else if n =? 43 then Some 62
  else if n =? 47 then Some 63
  else None.

(** [base64.b64decode(s, validate=True)]: groups of four, padding at the end. *)
Fixpoint b64decode (s : string) : option string :=
  match s with
  | EmptyString => Some EmptyString
  | String a (String b (String c (String d rest))) =>
      va ← base64_value a;
      vb ← base64_value b;
      let first := byte_of (4 * va + vb / 16) in
      if Ascii.eqb c "="%char then
        if Ascii.eqb d "="%char && negb (str_nonempty rest) then Some (String first EmptyString) else None
      else
        vc ← base64_value c;
        let second := byte_of (16 * (vb mod 16) + vc / 4) in
        if Ascii.eqb d "="%char then
          if negb (str_nonempty rest) then Some (String first (String second EmptyString)) else None
        else
          vd ← base64_value d;
          tail ← b64decode rest;
          Some (String first (String second (String (byte_of (64 * (vc mod 4) + vd)) tail)))
  | _ => None
  end.

(** The encoded signature: the text itself, or a field of a JSON object. *)
Definition encoded_signature `{PyRepr} (payload : string) : result registry_exn string :=
  let stripped := bytes_strip payload in
  match (if is_utf8 stripped then json_loads stripped else None) with
  | Some (JObject decoded) =>
      if negb (String.eqb (str_lower (py_str_or (dict_get "algorithm" decoded) "")) "ed25519")
      then Err (ProviderRegistrySignatureError "Unsupported registry signature algorithm.")
      else
        let signature := py_str_or (dict_get "signature" decoded) "" in
        if is_ascii signature then Ok signature else Err (RegistryOther "UnicodeEncodeError")
  | _ => Ok stripped
  end.

Definition _decode_signature `{PyRepr} (payload : string) : result registry_exn string :=
  encoded ← encoded_signature payload;
  match b64decode encoded with
  | None => Err (ProviderRegistrySignatureError "Provider registry signature is invalid.")
  | Some signature =>
      if Nat.eqb (String.length signature) 64 then Ok signature
      else Err (ProviderRegistrySignatureError "Provider registry signature has an invalid length.")
  end.

(** The [cryptography] package: a public key in PEM is unreadable, of another
    kind, or an Ed25519 key. *)
Inductive public_key (K : Type) := KeyUnreadable | KeyOther | KeyEd25519 (key : K).
Arguments KeyUnreadable {K}.
Arguments KeyOther {K}.
Arguments KeyEd25519 {K}.

Class Crypto (K : Type) := {
  crypto_available : bool;
  load_pem_public_key : string → public_key K;
  (** [key.verify(signature, payload)] does not raise *)
  ed25519_verify : K → string → string → bool
}.

Section Verify.
Context {K : Type} `{Crypto K} `{PyRepr}.

Definition verify_registry_signature (payload signature_payload public_key_pem : string) : result registry_exn unit :=
  if negb crypto_available
  then Err (ProviderRegistrySignatureError "The cryptography package is required for registry verification.")
  else
    signature ← _decode_signature signature_payload;
    match load_pem_public_key public_key_pem with
    | KeyUnreadable => Err (ProviderRegistrySignatureError "Provider registry public key is invalid.")
    | KeyOther => Err (ProviderRegistrySignatureError "Provider registry key is not Ed25519.")
    | KeyEd25519 key =>
        if ed25519_verify key signature payload then Ok tt
        else Err (ProviderRegistrySignatureError "Provider registry signature verification failed.")
    end.
End Verify.

(** * The cache *)

Inductive stored_file := Absent | Unreadable | Stored (bytes : string).

Definition read_bytes (f : stored_file) : result registry_exn string :=
  match f with Stored bytes => Ok bytes | Absent | Unreadable => Err RegistryOSError end.

(** A download: [dl_error] is the text of [raise_for_status]. *)
Record download := mkDownload { dl_status : Z; dl_content : string; dl_error : string }.

Class RegistryEnv (env : Type) := {
  (** [requests.get(url, timeout=...)]; [Err] is a [RequestException] *)
  fetch_url : string → Q → env → result string download * env;
  (** whether [_atomic_write] gets as far as [os.replace] *)
  can_write : env → bool * env;
  (** [load_options], [last_checked_at = now] and [save_options] *)
  store_checked_at : Z → env → result registry_exn unit * env
}.

Record registry_state (env : Type) := RegistryState {
  gs_env : env;
  gs_registry : stored_file;
  gs_signature : stored_file
}.
Arguments RegistryState {env}.
Arguments gs_env {env}.
Arguments gs_registry {env}.
Arguments gs_signature {env}.

Section Cache.
Context {K env : Type} `{Crypto K} `{RegistryEnv env} `{PyRepr}.
(** [urlparse]: the scheme and the host name; [None] is [ValueError]. *)
Context (url_parts : string → option (string * option string)).
(** The file in the package, the environment variable and the file of the key. *)
Context (bundled_payload environment_key : string) (key_file : stored_file).

Abbreviation rprog := (prog (registry_state env) registry_exn).
Implicit Types s : registry_state env.

Definition _load_public_key : option string :=
  let configured := str_strip environment_key in
  if str_nonempty configured
  then Some (str_replace_all (String backslash "n") newline 0 configured)
  else match key_file with
       | Stored bytes => let payload := bytes_strip bytes in
                         if str_startswith payload "-----BEGIN PUBLIC KEY-----" then Some payload else None
       | Absent | Unreadable => None
       end.

(** [public_key_pem or _load_public_key()] *)
Definition selected_key (public_key_pem : option string) : option string :=
  match public_key_pem with
  | Some pem => if str_nonempty pem then Some pem else _load_public_key
  | None => _load_public_key
  end.

Definition _require_https_url (value : string) : result registry_exn unit :=
  match url_parts value with
  | None => Err (RegistryOther "ValueError")
  | Some (scheme, hostname) =>
      require (String.eqb (str_lower scheme) "https" && str_nonempty (default ""%string hostname))
        "Provider registry URLs must use HTTPS."
  end.

(** The cached registry, when it can be trusted. *)
Definition read_cached (key : string) (registry_file signature_file : stored_file) : result registry_exn ProviderRegistry :=
  payload ← read_bytes registry_file;
  signature ← read_bytes signature_file;
  _ ← verify_registry_signature payload signature key;
  _parse_registry payload "online_registry".

Definition exists_file (f : stored_file) : bool := match f with Absent => false | _ => true end.

Definition load_provider_registry (prefer_cached : bool) (public_key_pem : option string) s
    : result registry_exn ProviderRegistry :=
  bundled ← _parse_registry bundled_payload "bundled_registry";
  if negb prefer_cached then Ok bundled
  else if negb (exists_file (gs_registry s)) || negb (exists_file (gs_signature s)) then Ok bundled
  else
    match selected_key public_key_pem with
    | None => Ok bundled
    | Some key =>
        match read_cached key (gs_registry s) (gs_signature s) with
        | Err e => if is_ignored e then Ok bundled else Err e
        | Ok cached =>
            cached_key ← _registry_version_key (rr_registry_version cached);
            bundled_key ← _registry_version_key (rr_registry_version bundled);
            Ok (if key_ltb cached_key bundled_key then bundled else cached)
        end
    end.

Definition of_result {A} (r : result registry_exn A) : rprog A := λ s, (r, s).
Definition on_env {A} (f : env → A * env) : rprog A := λ s,
  let r := f (gs_env s) in (Ok r.1, RegistryState r.2 (gs_registry s) (gs_signature s)).

(** [requests.get(...)] and [raise_for_status()] *)
Definition get_url (url : string) (timeout_sec : Q) : rprog download :=
  outcome ← on_env (fetch_url url (qmax 1 timeout_sec));
  match outcome with
  | Err text => prog_raise (RegistryRequestError text)
  | Ok d => mret d
  end.
Definition checked (d : download) : rprog unit :=
  if is_error_status (dl_status d) then prog_raise (RegistryRequestError (dl_error d)) else mret tt.

Definition modify (f : registry_state env → registry_state env) : rprog unit := λ s, (Ok tt, f s).

(** [_atomic_write]: the file is replaced, or left as it is. *)
Definition _atomic_write (set : registry_state env → registry_state env) : rprog unit :=
  written ← on_env can_write;
  if (written : bool) then modify set else prog_raise RegistryOSError.

Definition set_registry_file (payload : string) s : registry_state env :=
  RegistryState (gs_env s) (Stored payload) (gs_signature s).
Definition set_signature_file (payload : string) s : registry_state env :=
  RegistryState (gs_env s) (gs_registry s) (Stored payload).

Definition refresh_provider_registry (registry_url signature_url : string) (public_key_pem : option string)
    (timeout_sec : Q) : rprog ProviderRegistry :=
  match selected_key public_key_pem with
  | None => prog_raise (ProviderRegistrySignatureError
                          "Remote provider registry updates require a reviewed Ed25519 public key.")
  | Some key =>
      _ ← of_result (_require_https_url registry_url);
      _ ← of_result (_require_https_url signature_url);
      registry_response ← get_url registry_url timeout_sec;
      _ ← checked registry_response;
      signature_response ← get_url signature_url timeout_sec;
      _ ← checked signature_response;
      let payload := dl_content registry_response in
      let signature := dl_content signature_response in
      _ ← of_result (require (Z.of_nat (String.length payload) <=? _MAX_REGISTRY_BYTES)
                       "Provider registry exceeds the maximum allowed size.");
      _ ← of_result (verify_registry_signature payload signature key);
      registry ← of_result (_parse_registry payload "online_registry");
      loaded ← prog_read (load_provider_registry true (Some key));
      current ← of_result loaded;
      new_key ← of_result (_registry_version_key (rr_registry_version registry));
      current_key ← of_result (_registry_version_key (rr_registry_version current));
      _ ← of_result (require (negb (key_ltb new_key current_key)) "Provider registry downgrade was rejected.");
      _ ← _atomic_write (set_registry_file payload);
      _ ← _atomic_write (set_signature_file signature);
      mret registry
  end.

(** [now] is [time.time()]. *)
Definition refresh_provider_registry_if_due (settings : ProviderRegistryOptions) (now : Q)
    : rprog (option ProviderRegistry) :=
  let interval := Z.max 1 (rg_refresh_interval_hours settings) * 3600 in
  if negb (rg_auto_update settings) then mret None
  else if qltb (now - zq (Z.max 0 (rg_last_checked_at settings))) (zq interval) then mret None
  else
    stored ← on_env (store_checked_at (py_int now));
    _ ← of_result stored;
    registry ← refresh_provider_registry (rg_registry_url settings) (rg_signature_url settings) None 15;
    mret (Some registry).
End Cache.

(** * Limit profiles *)

(** [ProviderLimit] and [ProviderLimitProfile] with every field, before the
    floats are known to be numbers. *)
Record limit := mkLimit {
  li_metric : string;
  li_amount : py_float;
  li_window_seconds : Z;
  li_scope : string;
  li_source : string;
  li_user_cap : py_float;
  li_reset_policy : string
}.

Record limit_profile := mkLimitProfile {
  pf_entry_id : string;
  pf_source : string;
  pf_free_tier : string;
  pf_free_tier_note : string;
  pf_source_url : string;
  pf_capability : ProviderCapability;
  pf_limits : list limit;
  pf_input_units_per_million_tokens : py_float;
  pf_output_units_per_million_tokens : py_float;
  pf_max_domains_per_request : Z;
  pf_safety_margin_percent : Q;
  pf_quota_group : string
}.

(** ** [fnmatch.fnmatchcase]

    A bracket that is not closed stands for itself; in a class a character may
    be a range, and an empty range matches nothing. *)

(** The text of a class up to its closing bracket, and the rest; a bracket that
    comes first does not close. *)
Fixpoint class_text (first : bool) (s : string) : option (string * string) :=
  match s with
  | EmptyString => None
  | String c s =>
      if Ascii.eqb c "]"%char && negb first then Some (EmptyString, s)
      else match class_text false s with Some (t, rest) => Some (String c t, rest) | None => None end
  end.

Definition in_range (low high c : Ascii.ascii) : bool :=
  ((Ascii.N_of_ascii low <=? Ascii.N_of_ascii c) && (Ascii.N_of_ascii c <=? Ascii.N_of_ascii high))%N.

Fixpoint in_class (c : Ascii.ascii) (text : string) : bool :=
  match text with
  | EmptyString => false
  | String a rest =>
      match rest with
      | String h (String b rest') => if Ascii.eqb h "-"%char then in_range a b c || in_class c rest'
                                     else Ascii.eqb a c || in_class c rest
      | _ => Ascii.eqb a c || in_class c rest
      end
  end.

(** What follows an opening bracket: the class and the rest of the pattern. *)
Definition read_class (s : string) : option (bool * string * string) :=
  match s with
  | String c rest =>
      if Ascii.eqb c "!"%char
      then match class_text true rest with Some (t, rest) => Some (true, t, rest) | None => None end
      else match class_text true s with Some (t, rest) => Some (false, t, rest) | None => None end
  | EmptyString => None
  end.

Inductive pattern_item := AnyText | AnyChar | OneChar (c : Ascii.ascii) | CharClass (negated : bool) (text : string).

(** The items of a pattern; [skip] characters of a class are still to be passed. *)
Fixpoint pattern_items (skip : nat) (s : string) : list pattern_item :=
  match s with
  | EmptyString => []
  | String c s =>
      match skip with
      | S skip => pattern_items skip s
      | O =>
          if Ascii.eqb c "*"%char then AnyText :: pattern_items 0 s
          else if Ascii.eqb c "?"%char then AnyChar :: pattern_items 0 s
          else if Ascii.eqb c "["%char then
            match read_class s with
            | Some (negated, text, rest) =>
                CharClass negated text :: pattern_items (String.length s - String.length rest) s
            | None => OneChar c :: pattern_items 0 s
            end
          else OneChar c :: pattern_items 0 s
      end
  end.

Definition item_matches (item : pattern_item) (c : Ascii.ascii) : bool :=
  match item with
  | AnyText | AnyChar => true
  | OneChar d => Ascii.eqb d c
  | CharClass negated text => xorb negated (in_class c text)
  end.

Fixpoint items_match (items : list pattern_item) (s : string) : bool :=
  match items with
  | [] => negb (str_nonempty s)
  | AnyText :: items =>
      (fix suffixes s := items_match items s || match s with EmptyString => false | String _ s => suffixes s end) s
  | item :: items =>
      match s with
      | EmptyString => false
      | String c s => item_matches item c && items_match items s
      end
  end.

Definition fnmatchcase (name pattern : string) : bool := items_match (pattern_items 0 pattern) name.

Example patterns_match :
  fnmatchcase "gpt-4o-mini" "gpt-4*" = true ∧ fnmatchcase "gpt-5" "gpt-4*" = false ∧
  fnmatchcase "a/b" "*[/]?" = true ∧ fnmatchcase "m7" "m[0-57]" = true ∧ fnmatchcase "m6" "m[!0-57]" = true ∧
  fnmatchcase "x]" "x[]]" = true ∧ fnmatchcase "[x" "[x" = true ∧ fnmatchcase "" "*" = true.
Proof. vm_compute. split_and!; reflexivity. Qed.

(** ** The profile of a provider *)

(** An element of a sequence of pairs: a key that is a text, or one that no
    lookup by a text finds. *)
Definition pair_of (v : json) : option (option string * json) :=
  match v with
  | JArray [JString k; x] => Some (Some k, x)
  | JArray [JArray _; _] | JArray [JObject _; _] => None
  | JArray [_; x] => Some (None, x)
  | JString (String a (String b EmptyString)) => Some (Some (String a EmptyString), JString (String b EmptyString))
  | JObject [(k, _); (x, _)] => Some (Some k, JString x)
  | _ => None
  end.

(** [dict(v or {})] *)
Definition py_dict (v : option json) : result registry_exn fields :=
  match json_or (default JNull v) (JObject []) with
  | JObject f => Ok f
  | v =>
      elements ← elements_of (Some v);
      match mapM pair_of elements with
      | Some pairs => Ok (dict_of (omap (λ p, match p.1 with Some k => Some (k, p.2) | None => None end) pairs))
      | None => Err (RegistryOther "TypeError")
      end
  end.

(** [int(v or 0)] and [float(v or 0)] outside of a [try] *)
Definition int_or_zero (v : option json) : result registry_exn Z := converted (py_int_of (or_zero v)) (RegistryOther "ValueError").
Definition float_or_zero (v : option json) : result registry_exn py_float :=
  converted (py_float_of (or_zero v)) (RegistryOther "ValueError").

(** [item[key]] *)
Definition item_of (key : string) (f : fields) : result registry_exn json :=
  match dict_get key f with Some v => Ok v | None => Err (RegistryOther "KeyError") end.

Definition truthy (v : option json) : bool := py_truthy (default JNull v).

Definition each {A} (f : json → result registry_exn A) : list json → result registry_exn (list A) :=
  fix go l := match l with
              | [] => Ok []
              | x :: l => y ← f x; rest ← go l; Ok (y :: rest)
              end.

Section Profiles.
Context `{PyRepr} (url_parts : string → option (string * option string)).

(** [(urlparse(url).hostname or "").lower()] *)
Definition host_of (url : string) : result registry_exn string :=
  match url_parts url with
  | None => Err (RegistryOther "ValueError")
  | Some (_, hostname) => Ok (str_lower (default ""%string hostname))
  end.

Definition _is_local_provider (provider : LLMProviderOptions) : result registry_exn bool :=
  host ← host_of (po_base_url provider);
  Ok (bool_decide (host ∈ ["localhost"; "127.0.0.1"; "::1"]%string)).

Definition clean_text (v : json) : string := str_lower (str_strip (py_str v)).

Definition clean_texts (l : list json) : list string := clean_text <$> l.

(** The score of one pattern. *)
Definition pattern_score (model : string) (pattern_value : json) : Z :=
  let pattern := clean_text pattern_value in
  if negb (str_nonempty pattern) then 0
  else if String.eqb pattern model then 4
  else if str_nonempty model && fnmatchcase model pattern then 1
  else 0.

Definition _entry_match_score (entry : fields) (provider : LLMProviderOptions) : result registry_exn Z :=
  preset_ids ← elements_of (dict_get "preset_ids" entry);
  hosts ← elements_of (dict_get "base_url_hosts" entry);
  provider_host ← host_of (po_base_url provider);
  let identity_score :=
    if bool_decide (str_lower (str_strip (po_preset_id provider)) ∈ clean_texts preset_ids) then 4
    else if str_nonempty provider_host && bool_decide (provider_host ∈ clean_texts hosts) then 2
    else 0 in
  if identity_score =? 0 then Ok 0
  else
    models ← elements_of (dict_get "models" entry);
    let model := str_lower (str_strip (po_model provider)) in
    let model_score := foldl (λ score p, Z.max score (pattern_score model p)) 0 models in
    Ok (if model_score =? 0 then 0 else identity_score + model_score).

(** The entries that match, with their scores. *)
Fixpoint scored_entries (provider : LLMProviderOptions) (entries : list fields) : result registry_exn (list (Z * fields)) :=
  match entries with
  | [] => Ok []
  | entry :: entries =>
      score ← _entry_match_score entry provider;
      rest ← scored_entries provider entries;
      Ok (if 0 <? score then (score, entry) :: rest else rest)
  end.

(** [max(matches, key=...)]: the first of the best. *)
Definition best_entry (matches : list (Z * fields)) : option fields :=
  match matches with
  | [] => None
  | m :: matches => Some (foldl (λ best m, if best.1 <? m.1 then m else best) m matches).2
  end.

Definition own_capability (provider : LLMProviderOptions) (local : bool) : ProviderCapability :=
  mkProviderCapability (Z.max 0 (lo_context_tokens (po_limits provider))) (Z.max 1 (po_max_output_tokens provider))
    (po_structured_output provider) false local false.

Definition own_profile (provider : LLMProviderOptions) (source : string) (local : bool) (limits : list limit)
    : limit_profile :=
  let configured := po_limits provider in
  mkLimitProfile "" source "unknown" "" "" (own_capability provider local) limits (Fin 0) (Fin 0)
    (Z.max 0 (lo_max_domains_per_request configured)) (lo_safety_margin_percent configured) (lo_quota_group configured).

Definition parsed_limit (source : string) (item : json) : result registry_exn limit :=
  match item with
  | JObject item =>
      metric ← item_of "metric" item;
      amount ← (v ← item_of "amount" item; converted (py_float_of v) (RegistryOther "ValueError"));
      window ← (v ← item_of "window_seconds" item; converted (py_int_of v) (RegistryOther "ValueError"));
      Ok (mkLimit (py_str metric) amount window (py_str_or (dict_get "scope" item) "provider_model") source (Fin 0)
            (py_str_or (dict_get "reset_policy" item) "rolling"))
  | _ => Err (RegistryOther "TypeError")
  end.

Definition entry_profile (provider : LLMProviderOptions) (source : string) (entry : fields)
    : result registry_exn limit_profile :=
  capabilities ← py_dict (dict_get "capabilities" entry);
  unit_costs ← py_dict (dict_get "unit_costs" entry);
  context_tokens ← int_or_zero (dict_get "context_tokens" capabilities);
  max_output_tokens ← int_or_zero (dict_get "max_output_tokens" capabilities);
  let capability := mkProviderCapability (Z.max 0 context_tokens) (Z.max 0 max_output_tokens)
    (py_str_or (dict_get "structured_output" capabilities) "auto") (truthy (dict_get "native_browsing" capabilities))
    (truthy (dict_get "local" capabilities)) (truthy (dict_get "deprecated" capabilities)) in
  items ← elements_of (dict_get "limits" entry);
  parsed_limits ← each (parsed_limit source) items;
  input_units ← float_or_zero (dict_get "input_tokens_per_million" unit_costs);
  output_units ← float_or_zero (dict_get "output_tokens_per_million" unit_costs);
  let configured := po_limits provider in
  Ok (mkLimitProfile (py_str_or (dict_get "entry_id" entry) "") source (py_str_or (dict_get "free_tier" entry) "unknown")
        (py_str_or (dict_get "free_tier_note" entry) "") (py_str_or (dict_get "source_url" entry) "") capability
        parsed_limits (float_max (Fin 0) input_units) (float_max (Fin 0) output_units)
        (Z.max 0 (lo_max_domains_per_request configured)) (lo_safety_margin_percent configured)
        (str_or (lo_quota_group configured) (str_strip (py_str_or (dict_get "quota_group" entry) "")))).

Definition _profile_from_registry (provider : LLMProviderOptions) (registry : ProviderRegistry)
    : result registry_exn limit_profile :=
  local ← _is_local_provider provider;
  if (local : bool) then Ok (own_profile provider "local" true [])
  else
    matches ← scored_entries provider (rr_entries registry);
    match best_entry matches with
    | None => Ok (own_profile provider "unknown" false [])
    | Some entry => entry_profile provider (rr_source registry) entry
    end.

(** The metrics with their amounts and windows. *)
Definition configured_fields (configured : ProviderLimitOptions) : list (string * json * Z) :=
  [("requests", JInt (lo_requests_per_minute configured), 60);
   ("requests", JInt (lo_requests_per_hour configured), 3600);
   ("requests", JInt (lo_requests_per_day configured), 86400);
   ("input_tokens", JInt (lo_input_tokens_per_minute configured), 60);
   ("output_tokens", JInt (lo_output_tokens_per_minute configured), 60);
   ("total_tokens", JInt (lo_tokens_per_minute configured), 60);
   ("total_tokens", JInt (lo_tokens_per_hour configured), 3600);
   ("total_tokens", JInt (lo_tokens_per_day configured), 86400);
   ("units", JFloat (lo_units_per_day configured), 86400)]%string.

Fixpoint limits_from (source : string) (entries : list (string * json * Z)) : result registry_exn (list limit) :=
  match entries with
  | [] => Ok []
  | (metric, value, window) :: entries =>
      amount ← converted (py_float_of value) (RegistryOther "ValueError");
      rest ← limits_from source entries;
      Ok (if float_ltb (Fin 0) amount
          then mkLimit metric amount window "configured" source (Fin 0) "rolling" :: rest else rest)
  end.

Definition _configured_limits (configured : ProviderLimitOptions) (source : string) : result registry_exn (list limit) :=
  limits_from source (configured_fields configured).

Definition _manual_profile (provider : LLMProviderOptions) (source : string) : result registry_exn limit_profile :=
  local ← _is_local_provider provider;
  limits ← _configured_limits (po_limits provider) source;
  Ok (own_profile provider source local limits).

Definition limit_key (l : limit) : string * Z := (li_metric l, li_window_seconds l).

Definition as_cap (l : limit) : limit :=
  mkLimit (li_metric l) (li_amount l) (li_window_seconds l) (li_scope l) "user_cap" (li_amount l) (li_reset_policy l).

(** [replace(existing, amount=min(existing.amount, limit.amount), ...)] *)
Definition capped (existing l : limit) : limit :=
  mkLimit (li_metric existing) (float_min (li_amount existing) (li_amount l)) (li_window_seconds existing)
    (li_scope existing) (li_source existing) (li_amount l) (li_reset_policy existing).

Definition add_cap (combined : gmap (string * Z) limit) (l : limit) : gmap (string * Z) limit :=
  <[limit_key l := match combined !! limit_key l with None => as_cap l | Some existing => capped existing l end]> combined.

(** The limits of the base, the last one of a key, lowered by those of the user. *)
Definition combined_limits (base manual : list limit) : gmap (string * Z) limit :=
  foldl add_cap (foldl (λ m l, <[limit_key l := l]> m) ∅ base) manual.

Definition limit_leb (a b : limit) : bool :=
  str_ltb (li_metric a) (li_metric b) ||
  String.eqb (li_metric a) (li_metric b) && (li_window_seconds a <=? li_window_seconds b).

Definition _minimum_positive (first second : Z) : Z :=
  match filter (λ z, 0 < z) [first; second] with
  | [] => 0
  | z :: rest => foldl Z.min z rest
  end.

Definition _apply_user_caps (base : limit_profile) (provider : LLMProviderOptions) : result registry_exn limit_profile :=
  manual ← _manual_profile provider "user";
  let limits := po_limits provider in
  let c := pf_capability base in
  Ok (mkLimitProfile (pf_entry_id base) ("user_cap+" +:+ pf_source base) (pf_free_tier base) (pf_free_tier_note base)
        (pf_source_url base)
        (mkProviderCapability (_minimum_positive (cp_context_tokens c) (lo_context_tokens limits)) (cp_max_output_tokens c)
           (cp_structured_output c) (cp_native_browsing c) (cp_local c) (cp_deprecated c))
        (sort_by limit_leb ((map_to_list (combined_limits (pf_limits base) (pf_limits manual))).*2))
        (pf_input_units_per_million_tokens base) (pf_output_units_per_million_tokens base)
        (_minimum_positive (pf_max_domains_per_request base) (lo_max_domains_per_request limits))
        (lo_safety_margin_percent limits) (str_or (lo_quota_group limits) (pf_quota_group base))).

Definition resolve_provider_limit_profile (provider : LLMProviderOptions) (registry : ProviderRegistry)
    : result registry_exn limit_profile :=
  registry_profile ← _profile_from_registry provider registry;
  let limits := po_limits provider in
  if String.eqb (lo_mode limits) "manual" then _manual_profile provider "user"
  else if String.eqb (lo_mode limits) "auto_cap" then _apply_user_caps registry_profile provider
  else
    Ok (mkLimitProfile (pf_entry_id registry_profile) (pf_source registry_profile) (pf_free_tier registry_profile)
          (pf_free_tier_note registry_profile) (pf_source_url registry_profile) (pf_capability registry_profile)
          (pf_limits registry_profile) (pf_input_units_per_million_tokens registry_profile)
          (pf_output_units_per_million_tokens registry_profile) (pf_max_domains_per_request registry_profile)
          (lo_safety_margin_percent limits) (str_or (lo_quota_group limits) (pf_quota_group registry_profile))).
End Profiles.

(** The profile as the quota accounting takes it: its floats are numbers. *)
Definition number_of (f : py_float) : option Q := match f with Fin q => Some q | Inf _ | NaN => None end.

Definition finite_limit (l : limit) : option ProviderLimit :=
  amount ← number_of (li_amount l);
  user_cap ← number_of (li_user_cap l);
  Some (mkProviderLimit (li_metric l) amount (li_window_seconds l) (li_scope l) (li_source l) user_cap (li_reset_policy l)).

Definition finite_profile (p : limit_profile) : option ProviderLimitProfile :=
  limits ← mapM finite_limit (pf_limits p);
  input_units ← number_of (pf_input_units_per_million_tokens p);
  output_units ← number_of (pf_output_units_per_million_tokens p);
  Some (mkProviderLimitProfile (pf_entry_id p) (pf_source p) (pf_capability p) limits input_units output_units
          (pf_max_domains_per_request p) (pf_safety_margin_percent p) (pf_quota_group p)).

(** * The order of versions *)

Lemma key_ltb_true a b : key_ltb a b = true ↔
  let '(y1, m1, d1, r1) := a in let '(y2, m2, d2, r2) := b in
  y1 < y2 ∨ y1 = y2 ∧ (m1 < m2 ∨ m1 = m2 ∧ (d1 < d2 ∨ d1 = d2 ∧ r1 < r2)).
Proof.
  destruct a as [[[y1 m1] d1] r1], b as [[[y2 m2] d2] r2]. unfold key_ltb.
  rewrite !orb_true_iff, !andb_true_iff, !orb_true_iff, !andb_true_iff, !Z.ltb_lt, !Z.eqb_eq. split; intros; lia.
Qed.

Definition key_le (a b : version_key) : Prop := key_ltb b a = false.

Lemma key_le_refl a : key_le a a.
Proof. unfold key_le. apply not_true_iff_false. rewrite key_ltb_true. destruct a as [[[y m] d] r]. lia. Qed.

Lemma key_le_trans a b c : key_le a b → key_le b c → key_le a c.
Proof.
  unfold key_le. rewrite <-!not_true_iff_false, !key_ltb_true.
  destruct a as [[[y1 m1] d1] r1], b as [[[y2 m2] d2] r2], c as [[[y3 m3] d3] r3]. lia.
Qed.

Lemma key_lt_le a b : key_ltb a b = true → key_le a b.
Proof.
  unfold key_le. rewrite <-not_true_iff_false, !key_ltb_true.
  destruct a as [[[y1 m1] d1] r1], b as [[[y2 m2] d2] r2]. lia.
Qed.

(** * What a parsed registry is *)

Definition version_of (r : ProviderRegistry) : version_key :=
  match _registry_version_key (rr_registry_version r) with Ok k => k | Err _ => (0, 0, 0, 0) end.

(** Take the first step of a computation that returned. *)
Ltac first_step H :=
  let x := fresh "x" in let E := fresh "E" in
  match type of H with
  | ?m ≫= _ = Ok _ => destruct m as [x|] eqn:E; [cbn [mbind result_bind] in H|discriminate H]
  end.

Section Parsed.
Context `{PyRepr}.

(** A limit as the checks leave it: the amount is not zero or less, which [NaN]
    is not either. *)
Record limit_ok (v : json) : Prop := {
  lk_fields : ∃ f amount window, v = JObject f ∧
    py_str_or (dict_get "metric" f) "" ∈ _ALLOWED_METRICS ∧
    py_float_of (or_zero (dict_get "amount" f)) = Ok amount ∧ float_leb amount (Fin 0) = false ∧
    py_int_of (or_zero (dict_get "window_seconds" f)) = Ok window ∧ 0 < window ∧
    py_str_or (dict_get "reset_policy" f) "rolling" ∈ ["rolling"; "utc_day"]%string
}.

Definition entry_ok (entry : fields) : Prop :=
  ∃ limits, elements_of (dict_get "limits" entry) = Ok limits ∧ Forall limit_ok limits.

Record registry_ok (r : ProviderRegistry) : Prop := {
  ro_version : _registry_version_key (rr_registry_version r) = Ok (version_of r);
  ro_ids : NoDup (entry_id_of <$> rr_entries r) ∧ ∀ e, e ∈ rr_entries r → entry_id_of e ≠ ""%string;
  ro_limits : Forall entry_ok (rr_entries r)
}.

Lemma require_ok b m : require b m = Ok tt → b = true.
Proof. by destruct b. Qed.

Lemma converted_ok {A} (r : result conversion_exn A) e a : converted r e = Ok a → r = Ok a.
Proof. destruct r as [x|[]]; cbn; congruence. Qed.

Lemma check_limit_ok id v : check_limit id v = Ok tt → limit_ok v.
Proof.
  destruct v as [| | | | | |f]; try done. cbn [check_limit]. intros Hc.
  first_step Hc. apply converted_ok in E. first_step Hc. apply converted_ok in E0.
  first_step Hc. destruct x1. apply require_ok in E1. rewrite !andb_true_iff in E1. destruct E1 as [[Hm Ha] Hw].
  apply require_ok in Hc. constructor. exists f, x, x0. split_and!; try done.
  - by apply bool_decide_eq_true in Hm.
  - by apply negb_true_iff in Ha.
  - apply negb_true_iff, Z.leb_gt in Hw. done.
  - by apply bool_decide_eq_true in Hc.
Qed.

Lemma check_limits_ok id l : check_limits id l = Ok tt → Forall limit_ok l.
Proof.
  induction l as [|v l IH]; cbn [check_limits]; [constructor|]. intros Hc. first_step Hc. destruct x.
  constructor; [by eapply check_limit_ok|by apply IH].
Qed.

Lemma normalized_entries_ok seen entries l : normalized_entries seen entries = Ok l →
  NoDup (entry_id_of <$> l) ∧ (∀ e, e ∈ l → entry_id_of e ≠ ""%string ∧ entry_id_of e ∉ seen) ∧ Forall entry_ok l.
Proof.
  revert seen l. induction entries as [|v entries IH]; intros seen l; cbn [normalized_entries].
  { intros [= <-]. split_and!; [constructor| |constructor]. by intros e ?%elem_of_nil. }
  destruct v as [| | | | | |entry]; try done. intros Hc. first_step Hc. destruct x. apply require_ok in E.
  apply andb_true_iff in E as [Hid Hseen%negb_true_iff%bool_decide_eq_false].
  first_step Hc. first_step Hc. destruct x0. first_step Hc. injection Hc as <-.
  apply IH in E1 as (Hnd & Hids & Hok). apply check_limits_ok in E0. rewrite fmap_cons. split_and!.
  - constructor; [|done]. intros (e & He & Hin)%list_elem_of_fmap. apply Hids in Hin as [_ Hn]. apply Hn.
    rewrite <-He. left.
  - intros e [->|Hin]%elem_of_cons; [split; [by intros E1; rewrite E1 in Hid|done]|].
    apply Hids in Hin as [Hne Hn]. split; [done|]. intros Hs. apply Hn. by right.
  - constructor; [by exists x|done].
Qed.

Lemma parse_registry_ok payload source r : _parse_registry payload source = Ok r →
  registry_ok r ∧ Z.of_nat (String.length payload) ≤ _MAX_REGISTRY_BYTES ∧ rr_source r = source.
Proof.
  unfold _parse_registry. intros Hc. first_step Hc. destruct x. apply require_ok, Z.leb_le in E.
  destruct (if is_utf8 payload then json_loads payload else None) as [[| | | | | |data]|]; try done.
  first_step Hc. destruct (dict_get "entries" data) as [[| | | | |entries|]|]; try done.
  first_step Hc. first_step Hc. first_step Hc. injection Hc as <-. apply normalized_entries_ok in E3 as (Hnd & Hids & Hok).
  split_and!; [|done|done]. constructor; cbn [rr_registry_version rr_entries]; [|split; [done|apply Hids]|done].
  unfold version_of. cbn [rr_registry_version]. by rewrite E2.
Qed.
End Parsed.

(** * What is loaded *)

Section Loading.
Context {K env : Type} `{Crypto K} `{RegistryEnv env} `{PyRepr}.
Context (url_parts : string → option (string * option string)).
Context (bundled_payload environment_key : string) (key_file : stored_file).
Implicit Types s : registry_state env.

Abbreviation load := (load_provider_registry (K := K) (env := env) bundled_payload environment_key key_file).
Abbreviation refresh :=
  (refresh_provider_registry (K := K) (env := env) url_parts bundled_payload environment_key key_file).
Abbreviation key_for := (selected_key environment_key key_file).

(** The signature of a payload verifies under the Ed25519 key in a PEM text. *)
Definition authentic (pem payload signature : string) : Prop :=
  ∃ key bytes, crypto_available = true ∧ load_pem_public_key pem = KeyEd25519 key ∧
    _decode_signature signature = Ok bytes ∧ ed25519_verify key bytes payload = true.

Lemma verify_ok payload signature pem :
  verify_registry_signature payload signature pem = Ok tt ↔ authentic pem payload signature.
Proof.
  unfold verify_registry_signature, authentic. destruct crypto_available; cbn [negb]; [|split; [done|by intros (? & ? & ? & _)]].
  destruct (_decode_signature signature) as [bytes|e]; cbn [mbind result_bind]; [|split; [done|by intros (? & ? & _ & _ & ? & _)]].
  destruct (load_pem_public_key pem) as [| |key] eqn:Ek; try (split; [done|by intros (? & ? & _ & ? & _)]).
  destruct (ed25519_verify key bytes payload) eqn:Ev.
  - split; [by exists key, bytes|done].
  - split; [done|]. intros (key' & bytes' & _ & [= <-] & [= <-] & Hv). congruence.
Qed.

(** The cache holds this registry. *)
Definition cached_as (pem : string) s (r : ProviderRegistry) : Prop :=
  ∃ payload signature, gs_registry s = Stored payload ∧ gs_signature s = Stored signature ∧
    authentic pem payload signature ∧ _parse_registry payload "online_registry" = Ok r.

Lemma read_cached_ok pem s r : read_cached pem (gs_registry s) (gs_signature s) = Ok r ↔ cached_as pem s r.
Proof.
  unfold read_cached, cached_as. destruct (gs_registry s) as [| |payload], (gs_signature s) as [| |signature];
    try (split; [done|by intros (? & ? & ? & ? & _)]).
  cbn [read_bytes mbind result_bind]. destruct (verify_registry_signature payload signature pem) as [[]|e] eqn:Ev.
  - cbn [mbind result_bind]. apply verify_ok in Ev. split.
    + intros Hp. by exists payload, signature.
    + by intros (? & ? & [= <-] & [= <-] & _ & Hp).
  - split; [done|]. intros (? & ? & [= <-] & [= <-] & Ha%verify_ok & _). congruence.
Qed.

Lemma load_spec prefer pem s r : load prefer pem s = Ok r →
  ∃ bundled, _parse_registry bundled_payload "bundled_registry" = Ok bundled ∧
    (r = bundled ∨ prefer = true ∧ ∃ key, key_for pem = Some key ∧ cached_as key s r) ∧
    key_le (version_of bundled) (version_of r).
Proof.
  unfold load_provider_registry. destruct (_parse_registry bundled_payload _) as [bundled|e] eqn:Eb; [|done].
  cbn [mbind result_bind]. pose proof (ro_version _ (proj1 (parse_registry_ok _ _ _ Eb))) as Hvb.
  intros Ho. enough (∃ bundled', bundled = bundled' ∧
    (r = bundled' ∨ prefer = true ∧ ∃ key, key_for pem = Some key ∧ cached_as key s r) ∧
    key_le (version_of bundled') (version_of r)) as (? & <- & ? & ?) by (by exists bundled).
  assert ((Ok bundled : result registry_exn ProviderRegistry) = Ok r → ∃ bundled', bundled = bundled' ∧
    (r = bundled' ∨ prefer = true ∧ ∃ key, key_for pem = Some key ∧ cached_as key s r) ∧
    key_le (version_of bundled') (version_of r)) as Hbundled.
  { intros [= <-]. exists bundled. split_and!; [done|by left|apply key_le_refl]. }
  revert Ho.
  destruct prefer; cbn [negb]; [|apply Hbundled]. destruct (_ || _); [apply Hbundled|].
  destruct (key_for pem) as [key|] eqn:Ek; [|apply Hbundled].
  destruct (read_cached key _ _) as [cached|e] eqn:Ec; [|by destruct (is_ignored e); [apply Hbundled|]].
  apply read_cached_ok in Ec. pose proof Ec as (payload & signature & _ & _ & _ & Hp).
  rewrite (ro_version _ (proj1 (parse_registry_ok _ _ _ Hp))), Hvb. cbn [mbind result_bind].
  destruct (key_ltb _ _) eqn:El; [apply Hbundled|]. intros [= <-]. exists bundled. split_and!; [done| |done].
  right. split; [done|]. by exists key.
Qed.

(** A cached registry that is no older than the bundled one is loaded. *)
Lemma load_newer key pem s r bundled : key_for pem = Some key → cached_as key s r →
  _parse_registry bundled_payload "bundled_registry" = Ok bundled → key_le (version_of bundled) (version_of r) →
  load true pem s = Ok r.
Proof.
  intros Hk Hc Eb Hle. unfold load_provider_registry. rewrite Eb. cbn [mbind result_bind negb].
  pose proof Hc as (payload & signature & Hr & Hs & _ & Hp). rewrite Hr, Hs. cbn [exists_file orb negb]. rewrite Hk.
  rewrite <-Hr, <-Hs, (proj2 (read_cached_ok key s r) Hc).
  rewrite (ro_version _ (proj1 (parse_registry_ok _ _ _ Hp))), (ro_version _ (proj1 (parse_registry_ok _ _ _ Eb))).
  cbn [mbind result_bind]. by rewrite Hle.
Qed.

(** ** Keys are not empty *)

Lemma replace_nonempty old new text : new ≠ ""%string → text ≠ ""%string → str_replace_all old new 0 text ≠ ""%string.
Proof.
  destruct text as [|c text]; [done|]. cbn [str_replace_all]. intros Hn _.
  destruct (str_startswith (String c text) old); [by destruct new|done].
Qed.

Lemma load_key_nonempty key : _load_public_key environment_key key_file = Some key → str_nonempty key = true.
Proof.
  unfold _load_public_key. destruct (str_nonempty (str_strip environment_key)) eqn:En.
  - intros [= <-]. assert (str_replace_all (String backslash "n") newline 0 (str_strip environment_key) ≠ ""%string) as Hne.
    { apply replace_nonempty; [done|]. by intros E; rewrite E in En. }
    by destruct (str_replace_all _ _ _ _).
  - destruct key_file as [| |bytes]; try done. destruct (str_startswith _ _) eqn:Es; [|done]. intros [= <-].
    by destruct (bytes_strip bytes).
Qed.

Lemma key_for_nonempty pem key : key_for pem = Some key → key_for (Some key) = Some key.
Proof.
  intros Hk. assert (str_nonempty key = true) as Hne.
  { destruct pem as [p|]; [|by apply load_key_nonempty]. unfold selected_key in Hk.
    destruct (str_nonempty p) eqn:E; [by injection Hk as <-|by apply load_key_nonempty]. }
  unfold selected_key. by rewrite Hne.
Qed.

(** ** A refresh *)

(** The two files of the cache. *)
Definition files s : stored_file * stored_file := (gs_registry s, gs_signature s).

Lemma load_files prefer pem s s' : files s = files s' → load prefer pem s = load prefer pem s'.
Proof. unfold files, load_provider_registry. by intros [= -> ->]. Qed.

Lemma files_step {A B} (m : prog (registry_state env) registry_exn A) (k : A → prog (registry_state env) registry_exn B) s o s' :
  prog_keeps files m → (m ≫= k) s = (o, s') →
  (∃ a s1, m s = (Ok a, s1) ∧ files s1 = files s ∧ k a s1 = (o, s')) ∨ files s' = files s ∧ ∃ e, o = Err e.
Proof.
  intros Hk. unfold mbind, prog_bind. specialize (Hk s). destruct (m s) as [[a|e] s1]; cbn in Hk.
  - intros Hr. left. by exists a, s1.
  - intros [= <- <-]. right. split; [done|by exists e].
Qed.

Lemma keeps_result {A} (r : result registry_exn A) : prog_keeps files (of_result (env := env) r).
Proof. by intros s. Qed.
Lemma keeps_get url t : prog_keeps files (get_url (env := env) url t).
Proof. apply pkeeps_bind; [by intros s|]. intros [d|text]; by intros s. Qed.
Lemma keeps_checked d : prog_keeps files (checked (env := env) d).
Proof. unfold checked. by destruct (is_error_status _). Qed.
Lemma keeps_files_read {A} (f : registry_state env → A) : prog_keeps files (prog_read (E := registry_exn) f).
Proof. by intros s. Qed.

Lemma result_step {A} (r : result registry_exn A) s a s1 : of_result r s = (Ok a, s1) → r = Ok a ∧ s1 = s.
Proof. by intros [= -> ->]. Qed.
Lemma checked_step d s a s1 : checked (env := env) d s = (Ok a, s1) → is_error_status (dl_status d) = false ∧ s1 = s.
Proof. unfold checked. destruct (is_error_status _); [done|]. by intros [= _ ->]. Qed.
(** A page that was downloaded came from the address asked for. *)
Lemma get_step url t s d s1 : get_url url t s = (Ok d, s1) → fetch_url url (qmax 1 t) (gs_env s) = (Ok d, gs_env s1).
Proof.
  unfold get_url, mbind, prog_bind, on_env. cbn. destruct (fetch_url _ _ _) as [[d'|text] e]; cbn; [|done]. by intros [= -> <-].
Qed.

Lemma write_step (set : registry_state env → registry_state env) s o s' : _atomic_write set s = (o, s') →
  (∃ s1, files s1 = files s ∧ o = Ok tt ∧ s' = set s1) ∨ o = Err RegistryOSError ∧ files s' = files s.
Proof.
  unfold _atomic_write, mbind, prog_bind, on_env. destruct (can_write (gs_env s)) as [[] e]; cbn.
  - intros [= <- <-]. left. by exists (RegistryState e (gs_registry s) (gs_signature s)).
  - intros [= <- <-]. by right.
Qed.

(** Take the next step of a program that keeps the files. *)
Ltac next Hr :=
  apply files_step in Hr;
  [destruct Hr as [(? & ? & ? & ? & Hr)|[? [? ->]]]; [|left; congruence]
  |first [apply keeps_result|apply keeps_get|apply keeps_checked|apply keeps_files_read]].

(** An address with the scheme HTTPS and a host. *)
Definition https_address (url : string) : Prop :=
  ∃ scheme host, url_parts url = Some (scheme, Some host) ∧ str_lower scheme = "https"%string ∧ host ≠ ""%string.

Lemma require_https_ok url : _require_https_url url_parts url = Ok tt → https_address url.
Proof.
  unfold _require_https_url. destruct (url_parts url) as [[scheme host]|] eqn:E; [|done].
  intros [Hs%String.eqb_eq Hh]%require_ok%andb_true_iff. destruct host as [host|]; [|done]. exists scheme, host.
  split_and!; [done..|]. intros ->. done.
Qed.

(** What an accepted refresh has done: both pages come from the addresses given,
    which are HTTPS, the second right after the first, and they are what the
    cache holds. *)
Definition accepted (pem : option string) (registry_url signature_url : string) (timeout : Q) s s' (r : ProviderRegistry) : Prop :=
  ∃ key payload signature current e1 e2,
    key_for pem = Some key ∧
    https_address registry_url ∧ https_address signature_url ∧
    fetch_url registry_url (qmax 1 timeout) (gs_env s) = (Ok payload, e1) ∧
    fetch_url signature_url (qmax 1 timeout) e1 = (Ok signature, e2) ∧
    is_error_status (dl_status payload) = false ∧ is_error_status (dl_status signature) = false ∧
    files s' = (Stored (dl_content payload), Stored (dl_content signature)) ∧
    Z.of_nat (String.length (dl_content payload)) ≤ _MAX_REGISTRY_BYTES ∧
    authentic key (dl_content payload) (dl_content signature) ∧ _parse_registry (dl_content payload) "online_registry" = Ok r ∧
    load true (Some key) s = Ok current ∧ key_le (version_of current) (version_of r).

Definition refused s s' (e : registry_exn) : Prop :=
  files s' = files s ∨ e = RegistryOSError ∧ ∃ payload, files s' = (Stored payload, gs_signature s).

Lemma refresh_outcome registry_url signature_url pem timeout s o s' :
  refresh registry_url signature_url pem timeout s = (o, s') →
  match o with
  | Ok r => accepted pem registry_url signature_url timeout s s' r
  | Err e => refused s s' e
  end.
Proof.
  unfold refresh_provider_registry. destruct (key_for pem) as [key|] eqn:Hk.
  2:{ intros [= <- <-]. by left. }
  intros Hr.
  do 14 next Hr.
  repeat match goal with
  | E : of_result _ _ = (Ok _, _) |- _ => apply result_step in E as [E ->]
  | E : checked _ _ = (Ok _, _) |- _ => apply checked_step in E as [E ->]
  | E : get_url _ _ _ = (Ok _, _) |- _ => apply get_step in E
  end.
  match goal with E : prog_read _ ?s0 = _, F : files ?s0 = _ |- _ => injection E as Hload _; rewrite (load_files _ _ s0 s) in Hload by congruence end.
  match goal with E : verify_registry_signature _ _ _ = Ok ?u |- _ => destruct u; apply verify_ok in E as Ha end.
  repeat match goal with E : _require_https_url _ _ = Ok ?u |- _ => is_var u; destruct u end.
  repeat match goal with E : require _ _ = Ok ?u |- _ => destruct u; apply require_ok in E end.
  match goal with E : _parse_registry _ _ = Ok ?r0 |- _ => set (r := r0) in *; pose proof (parse_registry_ok _ _ _ E) as (Hok & _) end.
  unfold mbind at 1, prog_bind at 1 in Hr.
  destruct (_atomic_write _ _) as [o1 s1] eqn:Ew. apply write_step in Ew as [(s1' & Hf1 & -> & ->)|[-> Hf1]].
  2:{ injection Hr as <- <-. left. congruence. }
  unfold mbind, prog_bind in Hr.
  destruct (_atomic_write _ _) as [o2 s2] eqn:Ew. apply write_step in Ew as [(s2' & Hf2 & -> & ->)|[-> Hf2]].
  2:{ injection Hr as <- <-. right. split; [done|]. exists (dl_content x3). rewrite Hf2. unfold files; cbn. unfold files in *. congruence. }
  injection Hr as <- <-. exists key, x3, x7, x19, (gs_env x4), (gs_env x8). split_and!; try done.
  - by apply require_https_ok.
  - by apply require_https_ok.
  - unfold files in *; cbn in *. congruence.
  - by apply Z.leb_le.
  - congruence.
  - unfold key_le, version_of. repeat match goal with E : _registry_version_key _ = Ok _ |- _ => rewrite E; clear E end.
    by apply negb_true_iff.
Qed.

(** An accepted registry is the one that is loaded from then on. *)
Lemma accepted_loads pem ru su t s s' r : accepted pem ru su t s s' r → load true pem s' = Ok r.
Proof.
  intros (key & payload & signature & current & e1 & e2 & Hk & _ & _ & _ & _ & _ & _ & Hf & _ & Ha & Hp & Hl & Hle).
  apply load_spec in Hl as (bundled & Hb & _ & Hle'). injection Hf as Hr Hs.
  apply (load_newer key _ _ _ bundled); [done| |done|by eapply key_le_trans].
  by exists (dl_content payload), (dl_content signature).
Qed.

Lemma load_key pem key s : key_for pem = Some key → load true pem s = load true (Some key) s.
Proof. intros Hk. unfold load_provider_registry. by rewrite Hk, (key_for_nonempty pem key Hk). Qed.

(** ** A history of refreshes

    Between refreshes the rest of the program may change the rest of the
    state.  A refresh that fails in the middle of replacing the two files is
    not a step: see [interrupted_refresh_loses_the_cache]. *)

Inductive refreshed (pem : option string) : registry_state env → registry_state env → Prop :=
| refreshed_nothing s : refreshed pem s s
| refreshed_once s s1 s2 ru su timeout o : refreshed pem s s1 → refresh ru su pem timeout s1 = (o, s2) →
    o ≠ Err RegistryOSError → refreshed pem s s2
| refreshed_elsewhere s s1 s2 : refreshed pem s s1 → files s2 = files s1 → refreshed pem s s2.

(** The loaded registry never goes back to an older version: whatever
    the servers answer to any sequence of refreshes, each either accepted or
    refused, the registry that is loaded with the cache afterwards is at
    least as new as the one before. *)
Theorem versions_never_go_back pem key s s' r :
  key_for pem = Some key → refreshed pem s s' → load true pem s = Ok r →
  ∃ r', load true pem s' = Ok r' ∧ key_le (version_of r) (version_of r').
Proof.
  intros Hk Hs Hl. induction Hs as [s|s s1 s2 ru su t o _ IH Hr Ho|s s1 s2 _ IH Hf].
  - exists r. split; [done|apply key_le_refl].
  - specialize (IH Hl) as (r1 & Hl1 & Hle). apply refresh_outcome in Hr. destruct o as [r2|e].
    + exists r2. split; [by eapply accepted_loads|]. destruct Hr as (key' & _ & _ & current & _ & _ & Hk' & _ & _ & _ & _ & _ & _ & _ & _ & _ & _ & Hc & Hle').
      rewrite (load_key _ _ _ Hk') in Hl1. rewrite Hl1 in Hc. injection Hc as <-. by eapply key_le_trans.
    + destruct Hr as [Hf|[-> _]]; [|done]. exists r1. split; [|done]. by rewrite (load_files _ _ s2 s1).
  - specialize (IH Hl) as (r1 & Hl1 & Hle). exists r1. split; [|done]. by rewrite (load_files _ _ s2 s1).
Qed.

(** C23: a refresh changes the cache only to a registry that was downloaded, with
    its signature, from the two addresses given, which are HTTPS and answered
    without an error status, that is within the size bound, is signed by the
    selected key, is well formed (distinct entry ids, limits of known metrics
    over positive windows, with amounts that are not zero or less, which NaN is
    not either) and is no older than the one loaded before, and that one is
    loaded from then on; a refresh that raises leaves both files as they were,
    unless the second write fails, which leaves the new registry beside the old
    signature.  (The redirections a download follows are those of the HTTP
    library and are not modelled.) *)
Theorem refresh_is_authenticated registry_url signature_url pem timeout s o s' :
  refresh registry_url signature_url pem timeout s = (o, s') →
  match o with
  | Ok r => accepted pem registry_url signature_url timeout s s' r ∧ registry_ok r ∧ load true pem s' = Ok r
  | Err e => refused s s' e
  end.
Proof.
  intros Hr%refresh_outcome. destruct o as [r|e]; [|done].
  pose proof Hr as (_ & payload & _ & _ & _ & _ & _ & _ & _ & _ & _ & _ & _ & _ & _ & _ & Hp & _).
  split_and!; [done|by apply parse_registry_ok in Hp as []|by eapply accepted_loads].
Qed.
End Loading.

(** * The limits of a provider *)

(** The last limit of a key. *)
Fixpoint last_for (k : string * Z) (l : list limit) : option limit :=
  match l with
  | [] => None
  | x :: l => match last_for k l with
              | Some y => Some y
              | None => if decide (limit_key x = k) then Some x else None
              end
  end.

(** What the limit of a key becomes under the limit of the user. *)
Definition merged (base user : option limit) : option limit :=
  match base, user with
  | None, None => None
  | Some b, None => Some b
  | None, Some u => Some (as_cap u)
  | Some b, Some u => Some (capped b u)
  end.

Lemma last_for_elem k l x : last_for k l = Some x → x ∈ l ∧ limit_key x = k.
Proof.
  induction l as [|y l IH]; cbn [last_for]; [done|]. destruct (last_for k l) as [z|].
  - intros [= ->]. destruct (IH eq_refl). split; [by right|done].
  - case_decide; [|done]. intros [= <-]. split; [left|done].
Qed.

Lemma last_for_none k l : k ∉ limit_key <$> l → last_for k l = None.
Proof.
  intros Hk. destruct (last_for k l) as [x|] eqn:E; [|done]. apply last_for_elem in E as [Hx <-].
  destruct Hk. by apply list_elem_of_fmap_2.
Qed.

Lemma last_for_distinct l x : NoDup (limit_key <$> l) → x ∈ l → last_for (limit_key x) l = Some x.
Proof.
  induction l as [|y l IH]; [by intros _ ?%elem_of_nil|]. rewrite fmap_cons. cbn [last_for].
  intros [Hy Hnd]%NoDup_cons [->|Hx]%elem_of_cons.
  - rewrite (last_for_none _ _ Hy). by rewrite decide_True.
  - by rewrite (IH Hnd Hx).
Qed.

Lemma base_lookup (l : list limit) (m : gmap (string * Z) limit) (k : string * Z) :
  foldl (λ m (x : limit), <[limit_key x := x]> m) m l !! k = match last_for k l with Some x => Some x | None => m !! k end.
Proof.
  revert m. induction l as [|x l IH]; intros m; cbn [foldl last_for]; [done|]. rewrite IH.
  destruct (last_for k l); [done|]. case_decide as Hk; [by rewrite <-Hk, lookup_insert_eq|by rewrite lookup_insert_ne].
Qed.

Lemma add_caps_lookup (l : list limit) (m : gmap (string * Z) limit) (k : string * Z) : NoDup (limit_key <$> l) →
  foldl add_cap m l !! k = merged (m !! k) (last_for k l).
Proof.
  revert m. induction l as [|x l IH]; intros m; cbn [foldl last_for]; [by destruct (m !! k)|].
  rewrite fmap_cons. intros [Hx Hnd]%NoDup_cons. rewrite (IH _ Hnd). unfold add_cap at 1. case_decide as Hk.
  - subst k. rewrite lookup_insert_eq, (last_for_none _ _ Hx). by destruct (m !! limit_key x).
  - rewrite lookup_insert_ne by done. by destruct (last_for k l).
Qed.

Lemma combined_lookup base user k : NoDup (limit_key <$> user) →
  combined_limits base user !! k = merged (last_for k base) (last_for k user).
Proof.
  intros Hnd. unfold combined_limits. rewrite (add_caps_lookup _ _ _ Hnd), base_lookup. by destruct (last_for k base).
Qed.

Lemma merged_key base user k l : merged (last_for k base) (last_for k user) = Some l → limit_key l = k.
Proof.
  destruct (last_for k base) as [b|] eqn:Eb, (last_for k user) as [u|] eqn:Eu; intros [= <-].
  - by apply last_for_elem in Eb as [_ <-].
  - by apply last_for_elem in Eb as [_ <-].
  - by apply last_for_elem in Eu as [_ <-].
Qed.

Lemma limits_from_sublist source entries l : limits_from source entries = Ok l →
  limit_key <$> l `sublist_of` ((λ e, (e.1.1, e.2)) <$> entries) ∧ Forall (λ x, float_ltb (Fin 0) (li_amount x) = true) l.
Proof.
  revert l. induction entries as [|[[metric value] window] entries IH]; intros l; cbn [limits_from].
  { intros [= <-]. split; [done|constructor]. }
  intros Hl. first_step Hl. first_step Hl. destruct (IH _ eq_refl) as [Hs Hf]. rewrite fmap_cons. cbn [fst snd].
  destruct (float_ltb (Fin 0) x) eqn:Ep; injection Hl as <-.
  - rewrite fmap_cons. split; [by apply sublist_skip|by constructor].
  - split; [by apply sublist_cons|done].
Qed.

Lemma configured_distinct c source l : _configured_limits c source = Ok l → NoDup (limit_key <$> l).
Proof.
  intros [Hs _]%limits_from_sublist. eapply sublist_NoDup; [|exact Hs]. apply (bool_decide_unpack _). by vm_compute.
Qed.

Lemma float_ltb_irrefl a : float_ltb a a = false.
Proof. destruct a as [q|[]|]; cbn; try done. apply qltb_false. lra. Qed.

Lemma float_min_right a b : float_ltb b (float_min a b) = false.
Proof. unfold float_min. destruct (float_ltb b a) eqn:E; [apply float_ltb_irrefl|done]. Qed.

Lemma float_min_left a b : float_ltb a (float_min a b) = false.
Proof.
  unfold float_min. destruct (float_ltb b a) eqn:E; [|apply float_ltb_irrefl].
  destruct a as [p|[]|], b as [q|[]|]; try done. apply qltb_true in E. apply qltb_false. lra.
Qed.

(** The limit [l] respects the limit [m]: its amount is not above. *)
Definition within (l m : limit) : Prop := float_ltb (li_amount m) (li_amount l) = false.

Lemma merged_within base user k l : merged (last_for k base) (last_for k user) = Some l →
  (∀ b, last_for k base = Some b → within l b) ∧ (∀ u, last_for k user = Some u → within l u ∧ li_user_cap l = li_amount u).
Proof.
  unfold within. destruct (last_for k base) as [b|], (last_for k user) as [u|]; intros [= <-]; split; intros x [= <-];
    cbn [li_amount li_user_cap capped as_cap];
    first [split; [|done]|idtac]; auto using float_min_left, float_min_right, float_ltb_irrefl.
Qed.

Section Caps.
Context `{PyRepr} (url_parts : string → option (string * option string)).

(** In the mode auto_cap the limits of a provider are those of the
    registry lowered by those of the user: one limit for each metric and
    window of either, none above the user's limit nor above the (last)
    registry limit of that metric and window, the user's amount kept as the
    cap, and a limit that only one side names is taken from there. *)
Theorem resolved_limits_are_capped provider registry p :
  lo_mode (po_limits provider) = "auto_cap"%string →
  resolve_provider_limit_profile url_parts provider registry = Ok p →
  ∃ base user, _profile_from_registry url_parts provider registry = Ok base ∧
    _configured_limits (po_limits provider) "user" = Ok user ∧
    NoDup (limit_key <$> pf_limits p) ∧
    (∀ l, l ∈ pf_limits p ↔
       merged (last_for (limit_key l) (pf_limits base)) (last_for (limit_key l) user) = Some l) ∧
    (∀ l u, l ∈ pf_limits p → u ∈ user → limit_key u = limit_key l → within l u ∧ li_user_cap l = li_amount u) ∧
    (∀ l b, l ∈ pf_limits p → last_for (limit_key l) (pf_limits base) = Some b → within l b).
Proof.
  intros Hm. unfold resolve_provider_limit_profile. intros Hr. first_step Hr. rewrite Hm in Hr. cbn in Hr.
  unfold _apply_user_caps, _manual_profile in Hr. first_step Hr. first_step E0. first_step E0.
  injection E0 as <-. injection Hr as <-. cbn [pf_limits own_profile]. exists x, x2.
  pose proof (configured_distinct _ _ _ E2) as Hnd.
  assert (∀ l, l ∈ sort_by limit_leb ((map_to_list (combined_limits (pf_limits x) x2)).*2) ↔
    merged (last_for (limit_key l) (pf_limits x)) (last_for (limit_key l) x2) = Some l) as Hall.
  { intros l. rewrite elem_of_sort_by, list_elem_of_fmap. split.
    - intros ([k l'] & -> & Hin%elem_of_map_to_list). cbn [snd]. rewrite (combined_lookup _ _ _ Hnd) in Hin.
      by rewrite (merged_key _ _ _ _ Hin).
    - rewrite <-(combined_lookup _ _ _ Hnd). intros Hl. exists (limit_key l, l). by rewrite elem_of_map_to_list. }
  split_and!; try done.
  - rewrite sort_by_Permutation, <-list_fmap_compose.
    rewrite (list_fmap_ext _ fst); [apply NoDup_fst_map_to_list|].
    intros i [k l] Hi%list_elem_of_lookup_2%elem_of_map_to_list. rewrite (combined_lookup _ _ _ Hnd) in Hi.
    by apply merged_key in Hi.
  - intros l u Hl%Hall Hu Hk. apply merged_within in Hl as [_ Hl]. apply Hl. rewrite <-Hk. by apply last_for_distinct.
  - intros l b Hl%Hall Hb. by apply merged_within in Hl as [Hl _]; apply Hl.
Qed.
End Caps.

(** * Concrete inputs

    A key signs with a prefix of its name, the servers answer from a list, and
    the writes succeed as a list of booleans says. *)

#[local] Instance ex_repr : PyRepr := {| py_repr_of _ := "..."%string |}.

(** A stand-in for the cryptography: the signature repeats the length of the
    payload, modulo 256. *)
#[local] Instance ex_crypto : Crypto string := {|
  crypto_available := true;
  load_pem_public_key pem := if str_nonempty pem then KeyEd25519 pem else KeyUnreadable;
  ed25519_verify _ signature payload := str_forallb (Ascii.eqb (byte_of (Z.of_nat (String.length payload)))) signature
|}.

Record ex_env := ExEnv { ex_pages : list (string * string); ex_writes : list bool }.

#[local] Instance ex_registry_env : RegistryEnv ex_env := {|
  fetch_url url _ e :=
    (match list_find (λ p, p.1 = url) (ex_pages e) with
     | Some (_, (_, body)) => Ok (mkDownload 200 body "")
     | None => Ok (mkDownload 404 "" "not found")
     end, e);
  can_write e := match ex_writes e with
                 | [] => (true, e)
                 | b :: rest => (b, ExEnv (ex_pages e) rest)
                 end;
  store_checked_at _ e := (Ok tt, e)
|}.

(** URLs whose host starts after [https://]. *)
Definition ex_parts (url : string) : option (string * option string) :=
  if str_startswith url "https://" then Some ("https", Some "registry.example")%string else Some ("http", None)%string.

Definition ex_registry (version note : string) : string :=
  quoted ("{'schema_version': 1, 'registry_version': '" +:+ version +:+ "', 'generated_at': '" +:+ note +:+
    "', 'entries': [{'entry_id': 'e1', 'preset_ids': ['p1'], 'models': ['m-*'], 'limits': [" +:+
    "{'metric': 'requests', 'amount': 30, 'window_seconds': 60}," +:+
    "{'metric': 'requests', 'amount': 1000, 'window_seconds': 86400, 'reset_policy': 'utc_day'}]}]}")%string.

Definition ex_bundled : string := ex_registry "2026.01.01" "bundled".
Definition ex_newer : string := ex_registry "2026.02.01.2" "newer".
Definition ex_older : string := ex_registry "2026.01.15" "an older one".

Definition base64_char (z : Z) : Ascii.ascii :=
  byte_of (if z <? 26 then z + 65 else if z <? 52 then z + 71 else if z <? 62 then z - 4 else if z =? 62 then 43 else 47).

(** Sixty-four bytes [n]. *)
Definition ex_signature (payload : string) : string :=
  let n := Z.of_nat (String.length payload) mod 256 in
  let group := String (base64_char (n / 4)) (String (base64_char (16 * (n mod 4) + n / 16))
                 (String (base64_char (4 * (n mod 16) + n / 64)) (String (base64_char (n mod 64)) ""))) in
  (String.concat "" (repeat group 21) +:+
   String (base64_char (n / 4)) (String (base64_char (16 * (n mod 4))) "=="))%string.

Definition ex_state (payload : string) (writes : list bool) : registry_state ex_env :=
  RegistryState (ExEnv [("https://r", payload); ("https://s", ex_signature payload)]%string writes) Absent Absent.

Abbreviation ex_refresh := (refresh_provider_registry (K := string) (env := ex_env) ex_parts ex_bundled "the key" Absent
  "https://r" "https://s" None 15).
Abbreviation ex_load := (load_provider_registry (K := string) (env := ex_env) ex_bundled "the key" Absent true None).

Definition ex_run (s : registry_state ex_env) : option registry_exn * option string :=
  let r := ex_refresh s in
  (match r.1 with Ok _ => None | Err e => Some e end,
   match ex_load r.2 with Ok reg => Some (rr_registry_version reg) | Err _ => None end).

Example refresh_updates : ex_run (ex_state ex_newer []) = (None, Some "2026.02.01.2"%string).
Proof. vm_compute. reflexivity. Qed.

(** [NaN <= 0] is false: a limit of [NaN] requests passes the checks. *)
Example nan_is_accepted_as_a_limit :
  check_limit "e1" (JObject [("metric", JString "requests"); ("amount", JFloat NaN); ("window_seconds", JInt 60)]%string) = Ok tt.
Proof. vm_compute. reflexivity. Qed.

(** An older registry, though signed, is refused. *)
Definition ex_updated : registry_state ex_env := (ex_refresh (ex_state ex_newer [])).2.
Definition ex_served (payload : string) (writes : list bool) (s : registry_state ex_env) : registry_state ex_env :=
  RegistryState (gs_env (ex_state payload writes)) (gs_registry s) (gs_signature s).

Example refresh_refuses_older : ex_run (ex_served ex_older [] ex_updated) =
  (Some (ProviderRegistryError "Provider registry downgrade was rejected."), Some "2026.02.01.2"%string).
Proof. vm_compute. reflexivity. Qed.

Definition ex_newest : string := ex_registry "2026.03.01" "the newest".

(** When the second of the two writes fails, the new registry stays beside the
    old signature, and the bundled registry, older than both, is loaded. *)
Example interrupted_refresh_loses_the_cache : ex_run (ex_served ex_newest [true; false] ex_updated) =
  (Some RegistryOSError, Some "2026.01.01"%string).
Proof. vm_compute. reflexivity. Qed.

Lemma refresh_is_authenticated_witness :
  ∃ r, (ex_refresh (ex_state ex_newer [])).1 = Ok r ∧ registry_ok r ∧ ex_load ex_updated = Ok r.
Proof.
  pose proof (refresh_is_authenticated (K := string) (env := ex_env) ex_parts ex_bundled "the key" Absent
    "https://r" "https://s" None 15 (ex_state ex_newer []) _ _ (surjective_pairing _)) as Hr.
  unfold ex_updated. destruct (ex_refresh (ex_state ex_newer [])) as [[r|e] s'] eqn:E.
  - exists r. cbn [fst snd] in *. split; [done|]. apply Hr.
  - exfalso. assert ((ex_refresh (ex_state ex_newer [])).1 = Err e) as E1 by by rewrite E. vm_compute in E1. discriminate E1.
Defined.

(** The older registry is served, and refused, after the update. *)
Definition ex_after : registry_state ex_env := (ex_refresh (ex_served ex_older [] ex_updated)).2.

Lemma ex_history : refreshed (K := string) ex_parts ex_bundled "the key" Absent None ex_updated ex_after.
Proof.
  eapply (refreshed_once _ _ _ _ _ _ (ex_served ex_older [] ex_updated) _ "https://r" "https://s" 15).
  - eapply refreshed_elsewhere; [apply refreshed_nothing|reflexivity].
  - apply surjective_pairing.
  - vm_compute. discriminate.
Qed.

Lemma ex_selected : selected_key "the key" Absent None = Some "the key"%string.
Proof. reflexivity. Qed.

Lemma versions_never_go_back_witness :
  ∃ r r', ex_load ex_updated = Ok r ∧ ex_load ex_after = Ok r' ∧ key_le (version_of r) (version_of r').
Proof.
  destruct (ex_load ex_updated) as [r|e] eqn:E; [|exfalso; vm_compute in E; discriminate E].
  destruct (versions_never_go_back (K := string) (env := ex_env) ex_parts ex_bundled "the key" Absent
    None "the key" ex_updated ex_after r ex_selected ex_history E) as (r' & Hl & Hle).
  exists r, r'. split; [reflexivity|]. split; [exact Hl|exact Hle].
Defined.

Definition ex_limits : ProviderLimitOptions :=
  mkProviderLimitOptions "auto_cap" "" 20 100 0 0 0 0 0 0 (Fin 0) 0 0 10.
Definition ex_provider : LLMProviderOptions :=
  mkLLMProviderOptions "id" "Provider" "P1" "openai" "https://registry.example/v1" "" "m-large" (Fin 0) (Fin 30) 1000
    "max_tokens" true "auto" ex_limits.
Definition ex_parsed : ProviderRegistry :=
  match _parse_registry ex_newer "online_registry" with Ok r => r | Err _ => mkProviderRegistry 0 "" "" [] "" end.
Definition ex_resolved : result registry_exn limit_profile := resolve_provider_limit_profile ex_parts ex_provider ex_parsed.

Lemma resolved_limits_are_capped_witness :
  ∃ p, ex_resolved = Ok p ∧
    ((λ l, (limit_key l, li_amount l, li_user_cap l)) <$> pf_limits p) =
      [("requests", 60, Fin 20, Fin 20); ("requests", 3600, Fin 100, Fin 100); ("requests", 86400, Fin 1000, Fin 0)]%string ∧
    NoDup (limit_key <$> pf_limits p).
Proof.
  destruct ex_resolved as [p|e] eqn:E; [|exfalso; vm_compute in E; discriminate E].
  exists p. split; [done|]. split.
  - assert (((λ q, (λ l, (limit_key l, li_amount l, li_user_cap l)) <$> pf_limits q) <$>
      match ex_resolved with Ok q => Some q | Err _ => None end) = Some
      [("requests", 60, Fin 20, Fin 20); ("requests", 3600, Fin 100, Fin 100); ("requests", 86400, Fin 1000, Fin 0)]%string)
      as Hl by (vm_compute; reflexivity).
    rewrite E in Hl. by injection Hl.
  - destruct (resolved_limits_are_capped ex_parts ex_provider ex_parsed p) as (base & user & _ & _ & Hnd & _);
      [reflexivity|exact E|exact Hnd].
Defined.
