(* ===== verification/ReviewDb.v ===== *)
(** [pihole_manager/database_review.py] and the lock and task operations of
    [database_features.py]: current reviews, the immutable classification
    history, source tags, protected-domain locks, review tasks. *)
From stdpp Require Import base gmap strings list sorting.
From Stdlib Require Import Ascii QArith Lqa Sorted.
From S2P Require Import Prelude Models Database Queue.
Open Scope Z_scope.

(** * Helpers *)

Definition _risk (value : Z) : Z := Z.min 100 (Z.max 0 value).
Definition _confidence (value : Q) : Q := qmin 1 (qmax 0 value).

Definition _normalize_planned_action (value : string) : string :=
  let normalized := str_lower (str_strip value) in
  if String.eqb normalized "allow" || String.eqb normalized "deny" then normalized else ""%string.

Definition _normalize_action_status (value : string) : string :=
  let normalized := str_lower (str_strip value) in
  if bool_decide (normalized ∈ ["none"; "simulated"; "applied"; "dismissed"]%string)
  then normalized else "none"%string.

(** [categories: object] is a text or a list of tags. *)
Inductive tags_object := TagsText (s : string) | TagsList (l : list string).
Definition normalize_tags_object (t : tags_object) : list string :=
  match t with TagsText s => _normalize_tags_text s | TagsList l => _normalize_tags l end.

(** * Source tags *)

Definition _replace_source_tags (domain : string) (tags : list string) (source : string)
    (confidence : Q) (now : Z) : dbtx unit :=
  let normalized_tags := _normalize_tags tags in
  tx_write (set_tags (λ t,
    foldl (λ t tag, <[(domain, tag, source) := TagRow (_confidence confidence) now now]> t)
      (filter (λ p : tag_key * tag_row, ¬ (p.1.1.1 = domain ∧ p.1.2 = source)) t)
      normalized_tags)).

Definition set_manual_tags (now : Z) (domain : string) (tags : list string) : dbprog unit :=
  commit (
    normalized ← _ensure_domain now domain (Some now) 0;
    _replace_source_tags normalized tags "manual" 1 now).

(** [SELECT tag ... WHERE source = 'manual' ORDER BY tag] *)
Definition manual_tags (domain : string) (d : db) : list string :=
  sort_by str_leb ((λ p, p.1.1.2) <$>
    filter (λ p : tag_key * tag_row, p.1.1.1 = _normalize_domain domain ∧ p.1.2 = "manual"%string)
      (map_to_list (domain_tags_table d))).

Definition effective_tags (domain : string) (fallback : list string) (d : db) : list string :=
  match manual_tags domain d with [] => _normalize_tags fallback | override => override end.

(** * The current review *)

Record review_fields := ReviewFields {
  rf_policy : string;
  rf_short : string;
  rf_provider : string;
  rf_service : string;
  rf_service_role : string;
  rf_privacy_risk : Z;
  rf_security_risk : Z;
  rf_breakage_risk : Z;
  rf_confidence : Q;
  rf_needs_review : bool;
  rf_review_reason : string;
  rf_next_recheck_at : option Z;
  rf_planned_action : string;
  rf_action_status : string
}.

(** The defaults of the keyword arguments of [review_save]. *)
Definition review_fields_default : review_fields :=
  ReviewFields "unknown" "" "" "" "unknown" 0 0 50 0 true "" None "" "none".

Definition review_values (tags : list string) (details status : string) (f : review_fields)
    (created now : Z) : review_row :=
  ReviewRow (str_join "," tags)
    (str_or (str_lower (str_strip (rf_policy f))) "unknown")
    (str_strip (rf_short f)) (str_strip details) (str_strip (rf_provider f))
    (str_or (str_strip status) "edited")
    (str_strip (rf_service f))
    (str_or (str_lower (str_strip (rf_service_role f))) "unknown")
    (_risk (rf_privacy_risk f)) (_risk (rf_security_risk f)) (_risk (rf_breakage_risk f))
    (_confidence (rf_confidence f)) (rf_needs_review f) (str_strip (rf_review_reason f))
    (rf_next_recheck_at f) (_normalize_planned_action (rf_planned_action f))
    (_normalize_action_status (rf_action_status f)) created now.

(** [UPDATE domains SET current_policy = ?, ..., next_recheck_at = COALESCE(?, next_recheck_at)] *)
Definition set_current (policy service role : string) (next : option Z) (r : domain_row) : domain_row :=
  DomainRow (dr_first_seen r) (dr_last_seen r) (dr_query_count r) (dr_last_classified_at r)
    (match next with Some t => Some t | None => dr_next_recheck_at r end)
    (dr_last_researched_at r) policy service role.

Definition _review_save (now : Z) (domain : string) (categories : tags_object)
    (details status : string) (f : review_fields) : dbtx unit :=
  let tags := normalize_tags_object categories in
  normalized ← _ensure_domain now domain (Some now) 0;
  _ ← tx_write (set_review (λ t,
        <[normalized := review_values tags details status f
            (match t !! normalized with Some r => rv_created_at r | None => now end) now]> t));
  _ ← tx_write (set_domains (alter
        (set_current (str_or (str_lower (str_strip (rf_policy f))) "unknown")
           (str_strip (rf_service f))
           (str_or (str_lower (str_strip (rf_service_role f))) "unknown")
           (rf_next_recheck_at f)) normalized));
  _replace_source_tags normalized tags "current" (rf_confidence f) now.

Definition review_save (now : Z) (domain : string) (categories : tags_object)
    (details status : string) (f : review_fields) : dbprog unit :=
  commit (_review_save now domain categories details status f).

(** * Classification runs *)

(** The keyword arguments of [save_classification_run]. *)
Record run_args := RunArgs {
  ra_provider_id : string;
  ra_model : string;
  ra_profile : string;
  ra_prompt_hash : string;
  ra_status : string;
  ra_planned_action : string;
  ra_action_status : string;
  ra_analysis_run_id : string;
  ra_pool_id : string;
  ra_pool_mode : string;
  ra_is_primary : bool;
  ra_latency_ms : Z;
  ra_input_tokens : Z;
  ra_output_tokens : Z;
  ra_update_current : bool
}.

Definition run_tags (c : Classification) : list string :=
  let tags := _normalize_tags (match cl_tags c with [] => [cl_category c] | ts => ts end) in
  if str_nonempty (cl_category c) && bool_decide (cl_category c ∉ tags)
  then cl_category c :: tags else tags.

Definition run_expires_at (now : Z) (c : Classification) : Z :=
  now + Z.max 1 (cl_recheck_after_days c) * 86400.

Definition new_run_row (id now : Z) (domain : string) (c : Classification) (a : run_args) : run_row :=
  RunRow id domain (cl_provider c) (str_strip (ra_provider_id a)) (ra_model a) (ra_profile a)
    (ra_prompt_hash a) (policy_value (cl_policy c)) (cl_category c) (run_tags c) (cl_service c)
    (role_value (cl_service_role c)) (_risk (cl_privacy_risk c)) (_risk (cl_security_risk c))
    (_risk (cl_breakage_risk c)) (_confidence (cl_confidence c)) (cl_needs_review c)
    (cl_review_reason c) (cl_short c) (cl_details c) (cl_raw_text c)
    (_normalize_planned_action (ra_planned_action a)) (_normalize_action_status (ra_action_status a))
    (str_strip (ra_analysis_run_id a)) (str_lower (str_strip (ra_pool_id a)))
    (str_lower (str_strip (ra_pool_mode a))) (ra_is_primary a) (Z.max 0 (ra_latency_ms a))
    (Z.max 0 (ra_input_tokens a)) (Z.max 0 (ra_output_tokens a)) now (run_expires_at now c).

Definition classify_domain_row (now expires : Z) (c : Classification) (r : domain_row) : domain_row :=
  DomainRow (dr_first_seen r) (dr_last_seen r) (dr_query_count r) (Some now) (Some expires)
    (dr_last_researched_at r) (policy_value (cl_policy c)) (cl_service c)
    (role_value (cl_service_role c)).

Definition run_review_fields (expires : Z) (c : Classification) (a : run_args) : review_fields :=
  let simulated := String.eqb (_normalize_action_status (ra_action_status a)) "simulated" in
  ReviewFields (policy_value (cl_policy c)) (cl_short c) (cl_provider c) (cl_service c)
    (role_value (cl_service_role c)) (cl_privacy_risk c) (cl_security_risk c) (cl_breakage_risk c)
    (cl_confidence c) (cl_needs_review c || simulated)
    (if simulated
     then ("Simulation mode prevented automatic " +:+ ra_planned_action a +:+ ".")%string
     else cl_review_reason c)
    (Some expires) (ra_planned_action a) (ra_action_status a).

Definition save_classification_run (now : Z) (c : Classification) (a : run_args) : dbprog Z :=
  let expires_at := run_expires_at now c in
  let tags := run_tags c in
  commit (
    domain ← _ensure_domain now (cl_domain c) (Some now) 0;
    run_id ← tx_read (λ d, last_run_id d + 1);
    _ ← tx_write (λ d, set_runs (classification_runs d ++ [new_run_row run_id now domain c a]) run_id d);
    _ ← (if ra_update_current a then
           _ ← tx_write (set_domains (alter (classify_domain_row now expires_at c) domain));
           _ ← _replace_source_tags domain tags "llm" (cl_confidence c) now;
           _review_save now (cl_domain c) (TagsList tags) (cl_details c) (ra_status a)
             (run_review_fields expires_at c a)
         else mret tt);
    mret run_id).

Definition review_save_classification (now : Z) (c : Classification) (a : run_args) : dbprog unit :=
  _ ← save_classification_run now c a; mret tt.

(** [ORDER BY created_at DESC LIMIT ?] *)
Definition classification_history (domain : string) (limit : Z) (d : db) : list run_row :=
  take (Z.to_nat (Z.max 1 limit))
    (sort_by (λ a b, rr_created_at b <=? rr_created_at a)
       (filter (λ r, rr_domain r = _normalize_domain domain) (classification_runs d))).

(** * Resolving reviews *)

Definition resolve_task (decision : string) (now : Z) (k : task_row) : task_row :=
  TaskRow (tk_id k) (tk_domain k) (tk_reason k) (tk_priority k) "resolved" (tk_source k) decision
    (tk_created_at k) now.

(** [UPDATE review_tasks ... WHERE status = 'open' AND domain IN (...)] *)
Definition resolve_open_tasks (ks : list string) (decision : string) (now : Z) : dbtx unit :=
  tx_write (λ d, set_tasks
    ((λ k, if String.eqb (tk_status k) "open" && bool_decide (tk_domain k ∈ ks)
           then resolve_task decision now k else k) <$> review_tasks d) (last_task_id d) d).

Definition applied_review (action : string) (now : Z) (r : review_row) : review_row :=
  ReviewRow (rv_categories r) (rv_policy r) (rv_short r) (rv_details r) (rv_provider r)
    "manually_applied" (rv_service r) (rv_service_role r) (rv_privacy_risk r) (rv_security_risk r)
    (rv_breakage_risk r) (rv_confidence r) false "" (rv_next_recheck_at r) action "applied"
    (rv_created_at r) now.

Definition mark_action_applied (now : Z) (domain action : string) : dbprog unit :=
  let normalized := _normalize_domain domain in
  let normalized_action := _normalize_planned_action action in
  if negb (str_nonempty normalized) || negb (str_nonempty normalized_action)
  then prog_raise (ValueError "domain and action must be valid")
  else commit (
    _ ← tx_write (set_review (alter (applied_review normalized_action now) normalized));
    resolve_open_tasks [normalized] ("applied_" +:+ normalized_action)%string now).

Definition resolved_review (now : Z) (r : review_row) : review_row :=
  ReviewRow (rv_categories r) (rv_policy r) (rv_short r) (rv_details r) (rv_provider r)
    "reviewed" (rv_service r) (rv_service_role r) (rv_privacy_risk r) (rv_security_risk r)
    (rv_breakage_risk r) (rv_confidence r) false "" (rv_next_recheck_at r) (rv_planned_action r)
    (if String.eqb (rv_action_status r) "simulated" then "dismissed" else rv_action_status r)
    (rv_created_at r) now.

Definition normalized_names (values : list string) : list string :=
  filter (λ d, str_nonempty d = true) (_normalize_domain <$> values).

Definition review_resolve (now : Z) (values : list string) (decision : string) : dbprog Z :=
  let normalized := normalized_names values in
  if bool_decide (normalized = []) then mret 0
  else commit (
    rowcount ← tx_read (λ d, Z.of_nat (length (filter (λ k, is_Some (review d !! k)) (fromkeys normalized))));
    _ ← tx_write (set_review (update_where (λ k _, bool_decide (k ∈ normalized)) (resolved_review now)));
    _ ← resolve_open_tasks normalized (str_or (str_strip decision) "dismissed") now;
    mret rowcount).

Definition review_delete (values : list string) : dbprog Z :=
  let normalized := normalized_names values in
  if bool_decide (normalized = []) then mret 0
  else commit (
    rowcount ← tx_read (λ d, Z.of_nat (length (filter (λ k, is_Some (review d !! k)) (fromkeys normalized))));
    _ ← tx_write (set_review (λ t, foldr delete t normalized));
    mret rowcount).

(** * Reading the queue of reviews *)

(** A row of [review_get]: the review, its tags, and whether the domain is locked. *)
Record review_item := ReviewItem {
  ri_domain : string;
  ri_row : review_row;
  ri_tags : list string;
  ri_locked : bool;
  ri_lock_type : option string;
  ri_lock_reason : option string
}.

Definition review_item_of (d : db) (p : string * review_row) : review_item :=
  let lock := domain_locks d !! p.1 in
  ReviewItem p.1 p.2 (_normalize_tags_text (rv_categories p.2))
    (match lock with Some l => str_nonempty (lk_list_type l) | None => false end)
    (lk_list_type <$> lock) (lk_reason <$> lock).

(** [status] is the optional filter; an empty text is no filter. *)
Definition review_get (limit : Z) (status : option string) (needs_review : option bool) (d : db)
    : list review_item :=
  review_item_of d <$>
  take (Z.to_nat (Z.max 1 limit))
    (sort_by (λ a b, rv_updated_at b.2 <=? rv_updated_at a.2)
       (filter (λ p : string * review_row,
            (match status with
             | Some s => negb (str_nonempty s) || String.eqb (rv_status p.2) s
             | None => true
             end &&
             match needs_review with
             | Some b => Bool.eqb (rv_needs_review p.2) b
             | None => true
             end) = true) (map_to_list (review d)))).

Definition _queue_summary (state _source : string) : string :=
  if String.eqb state "processing" then "Analysis in progress."
  else if String.eqb state "failed"
  then "Analysis failed. Queue the domain again after correcting the error."
  else "Not analyzed.".

(** The fields [review_queue_get] adds or overrides for a queued domain. *)
Record queue_fields := QueueFields {
  qf_source : string; qf_state : string; qf_error : string; qf_priority : Z; qf_created_at : Z
}.
Record queue_item := QueueItem {
  qi_domain : string;
  qi_status : string;
  qi_short : string;
  qi_details : string;
  qi_updated_at : Z;
  qi_review : option review_item;
  qi_queue : option queue_fields
}.

Definition queue_item_of_review (i : review_item) : queue_item :=
  QueueItem (ri_domain i) (rv_status (ri_row i)) (rv_short (ri_row i)) (rv_details (ri_row i))
    (rv_updated_at (ri_row i)) (Some i) None.

Definition merge_queued (domain : string) (r : staging_row) (existing : option queue_item) : queue_item :=
  let state := str_or (sr_state r) "queued" in
  let source := sr_source r in
  let error := sr_last_error r in
  let q := Some (QueueFields source state error (sr_priority r) (sr_created_at r)) in
  match existing with
  | None => QueueItem domain state (str_or error (_queue_summary state source)) error 0 None q
  | Some i =>
      if str_nonempty error
      then QueueItem domain state error error (qi_updated_at i) (qi_review i) q
      else QueueItem domain state (qi_short i) (qi_details i) (qi_updated_at i) (qi_review i) q
  end.

Definition queue_sort_key (i : queue_item) : Z * Z * Z * string :=
  let state := match qi_queue i with Some q => qf_state q | None => ""%string end in
  let state_rank := if String.eqb state "failed" then 0
                    else if String.eqb state "processing" then 1
                    else if String.eqb state "queued" then 2 else 3 in
  let priority := match qi_queue i with Some q => - qf_priority q | None => 0 end in
  let queued_at := match qi_queue i with Some q => qf_created_at q | None => 0 end in
  (state_rank, priority, (if queued_at =? 0 then qi_updated_at i else queued_at), qi_domain i).

Definition queue_key_leb (a b : Z * Z * Z * string) : bool :=
  let '(a1, a2, a3, a4) := a in
  let '(b1, b2, b3, b4) := b in
  (a1 <? b1) || (a1 =? b1) && ((a2 <? b2) || (a2 =? b2) &&
    ((a3 <? b3) || (a3 =? b3) && str_leb a4 b4)).

(** The dictionary [combined], in insertion order. *)
Fixpoint combine_queued (domain : string) (r : staging_row) (l : list queue_item) : list queue_item :=
  match l with
  | [] => [merge_queued domain r None]
  | i :: l => if String.eqb (qi_domain i) domain then merge_queued domain r (Some i) :: l
              else i :: combine_queued domain r l
  end.

Definition review_queue_get (limit : Z) (d : db) : list queue_item :=
  let review_rows := review_get limit None (Some true) d in
  let combined := queue_item_of_review <$> review_rows in
  let combined := foldl (λ l p, combine_queued p.1 p.2 l) combined (staging_list limit d) in
  take (Z.to_nat (Z.max 1 limit))
    (sort_by (λ a b, queue_key_leb (queue_sort_key a) (queue_sort_key b)) combined).

(** * Locks and tasks ([database_features.py]) *)

Definition set_domain_lock (now : Z) (domain list_type reason : string) : dbprog unit :=
  if negb (String.eqb list_type "allow" || String.eqb list_type "deny")
  then prog_raise (ValueError "list_type must be allow or deny")
  else commit (
    normalized ← _ensure_domain now domain (Some now) 0;
    _ ← tx_write (set_locks (λ t,
          <[normalized := LockRow list_type (str_strip reason)
              (match t !! normalized with Some l => lk_created_at l | None => now end) now]> t));
    tx_write (set_staging (delete normalized))).

Definition remove_domain_lock (domain : string) : dbprog Z :=
  commit (
    rowcount ← tx_read (λ d, if bool_decide (is_Some (domain_locks d !! _normalize_domain domain)) then 1 else 0);
    _ ← tx_write (set_locks (delete (_normalize_domain domain)));
    mret rowcount).

Definition get_domain_lock (domain : string) (d : db) : option lock_row :=
  domain_locks d !! _normalize_domain domain.

Definition is_domain_locked (domain : string) (list_type : option string) (d : db) : bool :=
  match get_domain_lock domain d with
  | None => false
  | Some l => match list_type with None => true | Some t => String.eqb (lk_list_type l) t end
  end.

Definition open_task (domain reason : string) (k : task_row) : bool :=
  String.eqb (tk_domain k) domain && String.eqb (tk_reason k) reason && String.eqb (tk_status k) "open".

Definition create_review_task (now : Z) (domain reason : string) (priority : ReviewPriority)
    (source : string) : dbprog Z :=
  commit (
    normalized ← _ensure_domain now domain (Some now) 0;
    existing ← tx_read (λ d, list_find (λ k, open_task normalized (str_strip reason) k = true) (review_tasks d));
    match existing with
    | Some (_, k) => mret (tk_id k)
    | None =>
        id ← tx_read (λ d, last_task_id d + 1);
        _ ← tx_write (λ d, set_tasks (review_tasks d ++
              [TaskRow id normalized (str_strip reason) (priority_value priority) "open"
                 (str_strip source) "" now now]) id d);
        mret id
    end).

Definition resolve_review_task (now task_id : Z) (decision : string) : dbprog unit :=
  commit (tx_write (λ d, set_tasks
    ((λ k, if tk_id k =? task_id then resolve_task (str_strip decision) now k else k) <$> review_tasks d)
    (last_task_id d) d)).

Definition priority_rank (p : string) : Z :=
  if String.eqb p "critical" then 0 else if String.eqb p "high" then 1
  else if String.eqb p "normal" then 2 else 3.

Definition review_tasks_get (status : string) (limit : Z) (d : db) : list task_row :=
  take (Z.to_nat (Z.max 1 limit))
    (sort_by (λ a b, (priority_rank (tk_priority a) <? priority_rank (tk_priority b)) ||
                     (priority_rank (tk_priority a) =? priority_rank (tk_priority b)) &&
                     (tk_created_at a <=? tk_created_at b))
       (filter (λ k, tk_status k = status) (review_tasks d))).

(** * Invariants of the tables *)

Definition planned_ok (s : string) : Prop := s ∈ [""; "allow"; "deny"]%string.
Definition action_status_ok (s : string) : Prop := s ∈ ["none"; "simulated"; "applied"; "dismissed"]%string.

Definition percent_ok (z : Z) : Prop := 0 ≤ z ≤ 100.
Definition confidence_ok (q : Q) : Prop := (0 <= q <= 1)%Q.

Definition review_row_ok (r : review_row) : Prop :=
  percent_ok (rv_privacy_risk r) ∧ percent_ok (rv_security_risk r) ∧ percent_ok (rv_breakage_risk r) ∧
  confidence_ok (rv_confidence r) ∧ planned_ok (rv_planned_action r) ∧
  action_status_ok (rv_action_status r) ∧ rv_status r ≠ ""%string ∧ rv_policy r ≠ ""%string.

Definition run_row_ok (r : run_row) : Prop :=
  percent_ok (rr_privacy_risk r) ∧ percent_ok (rr_security_risk r) ∧ percent_ok (rr_breakage_risk r) ∧
  confidence_ok (rr_confidence r) ∧ planned_ok (rr_planned_action r) ∧
  action_status_ok (rr_action_status r) ∧ rr_created_at r < rr_expires_at r ∧
  is_Some (Policy_of_value (rr_policy r)).

(** Identifiers grow along a history, up to the counter. *)
Definition ids_ok (ids : list Z) (last : Z) : Prop :=
  StronglySorted Z.lt ids ∧ Forall (λ i, i ≤ last) ids.

Lemma ids_ok_append ids last : ids_ok ids last → ids_ok (ids ++ [last + 1]) (last + 1).
Proof.
  intros [Hs Hl]. split.
  - induction Hs as [|i ids Hs IH Hi]; simpl; [by repeat constructor|].
    apply Forall_cons in Hl as [Hil Hl]. constructor; [by apply IH|].
    apply Forall_app. split; [done|]. constructor; [lia|constructor].
  - apply Forall_app. split; [|constructor; [lia|constructor]].
    eapply Forall_impl; [exact Hl|]. simpl. lia.
Qed.

(** At most one open task for a domain and a reason. *)
Definition open_tasks_unique (ks : list task_row) : Prop :=
  ∀ i j a b, ks !! i = Some a → ks !! j = Some b →
    tk_status a = "open"%string → tk_status b = "open"%string →
    tk_domain a = tk_domain b → tk_reason a = tk_reason b → i = j.

(** The tables the review workflow writes. *)
Record database_inv (d : db) : Prop := {
  inv_references : references_ok d;
  inv_staging : map_Forall (λ _ r, row_ok r) (staging_domains d);
  inv_reviews : map_Forall (λ _ r, review_row_ok r) (review d);
  inv_runs : Forall run_row_ok (classification_runs d);
  inv_run_ids : ids_ok (rr_id <$> classification_runs d) (last_run_id d);
  inv_task_ids : ids_ok (tk_id <$> review_tasks d) (last_task_id d);
  inv_open_tasks : open_tasks_unique (review_tasks d);
  inv_locks : map_Forall (λ _ l, lk_list_type l = "allow"%string ∨ lk_list_type l = "deny"%string)
                (domain_locks d);
  inv_locked_not_queued : ∀ k, is_Some (domain_locks d !! k) → staging_domains d !! k = None
}.

Lemma risk_ok z : percent_ok (_risk z).
Proof. unfold percent_ok, _risk. lia. Qed.

Lemma confidence_ok_clamp q : confidence_ok (_confidence q).
Proof. unfold confidence_ok, _confidence. split; q_cases; lra. Qed.

Lemma planned_ok_normalize s : planned_ok (_normalize_planned_action s).
Proof.
  unfold planned_ok, _normalize_planned_action. destruct (_ || _) eqn:E; [|by left].
  apply orb_true_iff in E as [E|E]; apply String.eqb_eq in E; rewrite E; set_solver.
Qed.

Lemma action_status_ok_normalize s : action_status_ok (_normalize_action_status s).
Proof.
  unfold action_status_ok, _normalize_action_status. case_bool_decide; [done|by left].
Qed.

Lemma review_values_ok tags details status f created now :
  review_row_ok (review_values tags details status f created now).
Proof.
  unfold review_row_ok. simpl. split_and!;
    auto using risk_ok, confidence_ok_clamp, planned_ok_normalize, action_status_ok_normalize;
    by apply str_or_nonempty.
Qed.

Lemma new_run_row_ok id now domain c a : run_row_ok (new_run_row id now domain c a).
Proof.
  unfold run_row_ok, new_run_row, run_expires_at. simpl. split_and!;
    auto using risk_ok, confidence_ok_clamp, planned_ok_normalize, action_status_ok_normalize; [lia|].
  rewrite Policy_of_value_value. eauto.
Qed.

#[export] Hint Resolve risk_ok confidence_ok_clamp planned_ok_normalize action_status_ok_normalize
  review_values_ok new_run_row_ok : wormhole.

(** ** Every kind of write keeps the invariant *)

Abbreviation known n := (λ d, is_Some (domains d !! n)).

Lemma ensure_triple clock v s i :
  hoare database_inv (_ensure_domain clock v s i) (λ n d, database_inv d ∧ is_Some (domains d !! n)).
Proof.
  intros d [] n d' He. destruct (references_ensure _ _ _ _ _ _ _ He) as [Hr Hn]; [done|].
  apply _ensure_domain_spec in He as (_ & _ & r & ->). split; [|done]. by constructor.
Qed.

Lemma references_alter f n d : references_ok d → references_ok (set_domains (alter f n) d).
Proof.
  intros [H1 H2 H3 H4 H5 H6 H7].
  assert (∀ k, is_Some (domains d !! k) → is_Some (alter f n (domains d) !! k)) as Hk.
  { intros k. rewrite lookup_alter. case_decide; [subst|done]. by rewrite fmap_is_Some. }
  constructor; simpl; auto.
Qed.

Lemma write_domains_triple f n k :
  hoare (λ d, database_inv d ∧ is_Some (domains d !! k))
    (tx_write (set_domains (alter f n)) : dbtx unit)
    (λ _ d, database_inv d ∧ is_Some (domains d !! k)).
Proof.
  apply hoare_write. intros d [[] Hk]. split; [|simpl].
  - constructor; try done. by apply references_alter.
  - rewrite lookup_alter. case_decide; [subst|done]. by rewrite fmap_is_Some.
Qed.

Lemma write_review_triple (g : gmap string review_row → review_row) n :
  (∀ t, review_row_ok (g t)) →
  hoare (λ d, database_inv d ∧ is_Some (domains d !! n))
    (tx_write (set_review (λ t, <[n := g t]> t)) : dbtx unit)
    (λ _ d, database_inv d ∧ is_Some (domains d !! n)).
Proof.
  intros Hg. apply hoare_write. intros d [[[] ? Hrv] Hn]. split; [|done].
  constructor; simpl; try done; [|by apply map_Forall_insert_2].
  constructor; simpl; try done. intros k. rewrite lookup_insert. case_decide; [by subst|eauto].
Qed.

(** Rewriting rows of [review] by a row-preserving function. *)
Lemma write_review_rows_triple P (g : gmap string review_row → gmap string review_row) :
  (∀ t k, is_Some (g t !! k) → is_Some (t !! k)) →
  (∀ t, map_Forall (λ _ r, review_row_ok r) t → map_Forall (λ _ r, review_row_ok r) (g t)) →
  hoare (λ d, database_inv d ∧ P) (tx_write (set_review g) : dbtx unit) (λ _ d, database_inv d ∧ P).
Proof.
  intros Hd Hr. apply hoare_write. intros d [[[] ? Hrv] Hn]. split; [|done].
  constructor; simpl; try done; [|by apply Hr]. constructor; simpl; eauto.
Qed.

Lemma tags_triple n tags source confidence now :
  hoare (λ d, database_inv d ∧ is_Some (domains d !! n))
    (_replace_source_tags n tags source confidence now)
    (λ _ d, database_inv d ∧ is_Some (domains d !! n)).
Proof.
  unfold _replace_source_tags. apply hoare_write. intros d [[[] ? Hrv] Hn]. split; [|done].
  constructor; simpl; try done. constructor; simpl; try done.
  generalize (_normalize_tags tags). intros ts.
  enough (∀ t, (∀ k, is_Some (t !! k) → is_Some (domains d !! k.1.1)) →
    ∀ k, is_Some (foldl (λ (t : gmap tag_key tag_row) tag,
      <[(n, tag, source) := TagRow (_confidence confidence) now now]> t) t ts !! k) →
      is_Some (domains d !! k.1.1)) as H.
  { apply H. intros k [x Hx]. apply map_lookup_filter_Some in Hx as [Hx _]. eauto. }
  induction ts as [|tag ts IH]; intros t Ht; simpl; [done|]. apply IH. intros k.
  rewrite lookup_insert. case_decide; [by subst|eauto].
Qed.

Lemma review_save_triple now domain categories details status f :
  hoare database_inv (_review_save now domain categories details status f) (λ _, database_inv).
Proof.
  unfold _review_save. eapply hoare_bind; [apply ensure_triple|]. intros n. simpl.
  eapply hoare_bind; [apply write_review_triple; auto with wormhole|]. intros [].
  eapply hoare_bind; [apply write_domains_triple|]. intros [].
  eapply hoare_consequence; [apply tags_triple|done|by intros ? ? [? _]].
Qed.

(** Rewriting tasks in place, when a closed task is never reopened. *)
Lemma write_tasks_triple P (g : task_row → task_row) :
  (∀ k, tk_id (g k) = tk_id k ∧ tk_domain (g k) = tk_domain k) →
  (∀ k, tk_status (g k) = "open"%string → g k = k) →
  hoare (λ d, database_inv d ∧ P)
    (tx_write (λ d, set_tasks (g <$> review_tasks d) (last_task_id d) d) : dbtx unit)
    (λ _ d, database_inv d ∧ P).
Proof.
  intros Hid Hop. apply hoare_write. intros d [[[] ? ? ? ? Hids Hu] HP]. split; [|done].
  constructor; simpl; try done.
  - constructor; simpl; try done. intros r (k & -> & Hk)%list_elem_of_fmap.
    rewrite (proj2 (Hid k)). auto.
  - rewrite <-list_fmap_compose. rewrite (list_fmap_ext _ tk_id); [done|]. intros ? k _. apply Hid.
  - intros i j a b. rewrite !list_lookup_fmap.
    intros (a0 & Ha & ->)%fmap_Some (b0 & Hb & ->)%fmap_Some Hao Hbo.
    pose proof (Hop _ Hao) as Ea. pose proof (Hop _ Hbo) as Eb. intros ? ?.
    apply (Hu i j a0 b0); congruence.
Qed.

Lemma resolve_open_tasks_triple P ks decision now :
  hoare (λ d, database_inv d ∧ P) (resolve_open_tasks ks decision now) (λ _ d, database_inv d ∧ P).
Proof.
  apply write_tasks_triple; intros k; destruct (_ && _); simpl; (split_and! || idtac); done.
Qed.

Lemma append_run_triple id now n c a :
  hoare (λ d, (database_inv d ∧ is_Some (domains d !! n)) ∧ id = last_run_id d + 1)
    (tx_write (λ d, set_runs (classification_runs d ++ [new_run_row id now n c a]) id d) : dbtx unit)
    (λ _ d, database_inv d ∧ is_Some (domains d !! n)).
Proof.
  apply hoare_write. intros d [[[[] ? ? Hr Hid] Hn] ->]. split; [|done].
  constructor; simpl; try done.
  - constructor; simpl; try done. intros r [Hin| ->%list_elem_of_singleton]%elem_of_app; simpl; eauto.
  - apply Forall_app. split; [done|]. constructor; [|constructor]. apply new_run_row_ok.
  - rewrite fmap_app. by apply ids_ok_append.
Qed.

Lemma append_task_triple id now n reason priority source :
  hoare (λ d, ((database_inv d ∧ is_Some (domains d !! n)) ∧
               None = list_find (λ k, open_task n reason k = true) (review_tasks d)) ∧
              id = last_task_id d + 1)
    (tx_write (λ d, set_tasks (review_tasks d ++
       [TaskRow id n reason priority "open" source "" now now]) id d) : dbtx unit)
    (λ _, database_inv).
Proof.
  apply hoare_write. intros d [[[[[] ? ? ? ? Hid Hu] Hn] Hf] ->].
  symmetry in Hf. apply list_find_None in Hf. rewrite Forall_forall in Hf.
  assert (∀ i a, review_tasks d !! i = Some a → tk_status a = "open"%string →
    tk_domain a = n → tk_reason a = reason → False) as Hno.
  { intros i a Ha Hs Hd Hr. apply (Hf a); [by eapply list_elem_of_lookup_2|].
    unfold open_task. by rewrite Hs, Hd, Hr, !String.eqb_refl. }
  constructor; simpl; try done.
  - constructor; simpl; try done. intros r [Hin| ->%list_elem_of_singleton]%elem_of_app; simpl; eauto.
  - rewrite fmap_app. by apply ids_ok_append.
  - intros i j a b Ha Hb Hao Hbo Hd Hr.
    apply lookup_app_Some in Ha as [Ha|[Hi Ha]], Hb as [Hb|[Hj Hb]];
      rewrite ?list_lookup_singleton in *; repeat case_match; simplify_eq; simpl in *;
      first [by eapply Hu|exfalso; by eapply Hno|lia].
Qed.

(** * Every operation keeps the invariant *)

Inductive db_op :=
  | DbQueue (op : queue_op)
  | DbReviewSave (now : Z) (domain : string) (categories : tags_object) (details status : string)
      (f : review_fields)
  | DbSaveRun (now : Z) (c : Classification) (a : run_args)
  | DbManualTags (now : Z) (domain : string) (tags : list string)
  | DbMarkApplied (now : Z) (domain action : string)
  | DbResolve (now : Z) (values : list string) (decision : string)
  | DbDelete (values : list string)
  | DbSetLock (now : Z) (domain list_type reason : string)
  | DbRemoveLock (domain : string)
  | DbCreateTask (now : Z) (domain reason : string) (priority : ReviewPriority) (source : string)
  | DbResolveTask (now task_id : Z) (decision : string)
  | DbObserve (clock : Z) (rows : list query_row)
  | DbDiscover (clock : Z) (rows : list query_row).

Definition run_db_op (op : db_op) (d : db) : db :=
  match op with
  | DbQueue op => (run_op op d).2
  | DbReviewSave now domain cats details status f => (review_save now domain cats details status f d).2
  | DbSaveRun now c a => (save_classification_run now c a d).2
  | DbManualTags now domain tags => (set_manual_tags now domain tags d).2
  | DbMarkApplied now domain action => (mark_action_applied now domain action d).2
  | DbResolve now vs decision => (review_resolve now vs decision d).2
  | DbDelete vs => (review_delete vs d).2
  | DbSetLock now domain t reason => (set_domain_lock now domain t reason d).2
  | DbRemoveLock domain => (remove_domain_lock domain d).2
  | DbCreateTask now domain reason p source => (create_review_task now domain reason p source d).2
  | DbResolveTask now id decision => (resolve_review_task now id decision d).2
  | DbObserve clock rows => (record_query_observations clock rows d).2
  | DbDiscover clock rows => (record_discovered_domains clock rows d).2
  end.

(** The databases reached from [d] by any sequence of operations. *)
Inductive db_reachable (d : db) : db → Prop :=
  | dbr_start : db_reachable d d
  | dbr_step op d' : db_reachable d d' → db_reachable d (run_db_op op d').

(** ** The queue operations leave the other tables alone *)

(** What a queue operation keeps of the other tables, and that it puts no
    locked domain in the queue. *)
Record queue_frame (d d' : db) : Prop := {
  fr_review : review d' = review d;
  fr_tags : domain_tags_table d' = domain_tags_table d;
  fr_runs : classification_runs d' = classification_runs d;
  fr_last_run : last_run_id d' = last_run_id d;
  fr_locks : domain_locks d' = domain_locks d;
  fr_tasks : review_tasks d' = review_tasks d;
  fr_last_task : last_task_id d' = last_task_id d;
  fr_staging : ∀ k, is_Some (domain_locks d !! k) → staging_domains d !! k = None →
    staging_domains d' !! k = None
}.

Lemma queue_frame_refl d : queue_frame d d.
Proof. by constructor. Qed.

Lemma queue_frame_trans d1 d2 d3 : queue_frame d1 d2 → queue_frame d2 d3 → queue_frame d1 d3.
Proof.
  intros [] [? ? ? ? E ? ? H]. constructor; try congruence.
  intros k Hl Hs. apply H; [congruence|auto].
Qed.

Lemma queue_frame_ensure now v s i d n d' :
  _ensure_domain now v s i d = Ok (n, d') → queue_frame d d'.
Proof. intros He. apply _ensure_domain_spec in He as (_ & _ & r & ->). by constructor. Qed.

Lemma queue_frame_enqueue_one now p src pool rq c v c' d d' :
  enqueue_one now p src pool rq c v d = Ok (c', d') → queue_frame d d'.
Proof.
  intros (_ & _ & _ & _ & Hst & [r Ho])%enqueue_one_spec.
  pose proof (λ A (f : db → A), f_equal f Ho) as Hf.
  constructor; [exact (Hf _ review)|exact (Hf _ domain_tags_table)|exact (Hf _ classification_runs)|
    exact (Hf _ last_run_id)|exact (Hf _ domain_locks)|exact (Hf _ review_tasks)|
    exact (Hf _ last_task_id)|].
  intros k [l Hl] Hs. rewrite Hst. case_decide; [|done].
  rewrite lookup_insert_ne; [done|]. intros <-. congruence.
Qed.

Lemma queue_frame_staging f d :
  (∀ k, staging_domains d !! k = None → f (staging_domains d) !! k = None) →
  queue_frame d (set_staging f d).
Proof. intros H. constructor; simpl; auto. Qed.

Lemma queue_frame_op op d : queue_frame d (run_op op d).2.
Proof.
  pose proof (producers_keep (queue_frame d)
    (λ now v d1 n d2 He Hf, queue_frame_trans _ _ _ Hf (queue_frame_ensure _ _ _ _ _ _ _ He))
    (λ now p src pool rq c v c' d1 d2 _ _ He Hf,
       queue_frame_trans _ _ _ Hf (queue_frame_enqueue_one _ _ _ _ _ _ _ _ _ _ He))
    op d (queue_frame_refl d)) as Hp.
  destruct op; try exact Hp; simpl.
  - apply queue_frame_staging. intros k Hk. by rewrite lookup_update_where, Hk.
  - apply queue_frame_staging. intros k Hk. apply lookup_delete_None. by right.
  - unfold staging_remove. case_bool_decide; [apply queue_frame_refl|].
    apply queue_frame_staging. intros k Hk. rewrite lookup_foldr_delete, Hk. by case_decide.
  - apply queue_frame_staging. intros k Hk. rewrite lookup_alter. case_decide; subst; by rewrite Hk.
  - apply queue_frame_staging. intros k Hk. rewrite lookup_alter. case_decide; subst; by rewrite Hk.
  - apply queue_frame_staging. intros k Hk. by rewrite lookup_update_where, Hk.
Qed.

Lemma queue_op_keeps_database_inv op d : database_inv d → database_inv (run_op op d).2.
Proof.
  intros [? ? ? ? ? ? ? ? Hl]. destruct (queue_inv_op op d) as [Hr Hs]; [by split|].
  destruct (queue_frame_op op d) as [Hrv _ Hrun Hlast Hlk Htk Hlt Hq].
  constructor; rewrite ?Hrv, ?Hrun, ?Hlast, ?Hlk, ?Htk, ?Hlt; auto.
Qed.

(** ** The review, lock and task operations *)

Lemma save_run_triple now c a :
  ∀ d, database_inv d → database_inv (save_classification_run now c a d).2.
Proof.
  intros d. apply (hoare_commit database_inv); [done|].
  eapply hoare_bind; [apply ensure_triple|]. intros n. simpl.
  eapply hoare_bind; [apply hoare_read|]. intros id. simpl.
  eapply hoare_bind; [apply append_run_triple|]. intros []. simpl.
  apply (hoare_bind _ _ _ (λ _, database_inv)); [|intros []; by apply hoare_ret].
  destruct (ra_update_current a).
  - eapply hoare_bind; [apply write_domains_triple|]. intros [].
    eapply hoare_bind; [apply tags_triple|]. intros []. simpl.
    eapply hoare_consequence; [apply review_save_triple|by intros ? [? _]|done].
  - apply hoare_ret. by intros ? [? _].
Qed.

Lemma write_locks_triple t reason now n :
  t = "allow"%string ∨ t = "deny"%string →
  hoare (λ d, database_inv d ∧ is_Some (domains d !! n))
    (_ ← tx_write (set_locks (λ m, <[n := LockRow t reason
           (match m !! n with Some l => lk_created_at l | None => now end) now]> m));
     tx_write (set_staging (delete n)) : dbtx unit)
    (λ _, database_inv).
Proof.
  intros Ht d [[[] Hst ? ? ? ? ? ? Hq] Hn] [] d'. cbv [mbind tx_bind tx_write]. intros [= <-].
  constructor; simpl; try done.
  - constructor; simpl; try done.
    + intros k [? Hk]. apply lookup_delete_Some in Hk as [_ Hk]. eauto.
    + intros k. rewrite lookup_insert. case_decide; [by subst|eauto].
  - by apply map_Forall_delete.
  - by apply map_Forall_insert_2.
  - intros k. rewrite lookup_insert. case_decide; [subst; intros _; apply lookup_delete_eq|].
    intros Hk. apply lookup_delete_None. auto.
Qed.

Lemma store_observation_triple clock u g :
  hoare database_inv (store_observation clock u g) (λ _, database_inv).
Proof.
  destruct g as [key [[count first] last]]. simpl.
  eapply hoare_bind; [apply ensure_triple|]. intros n. simpl.
  eapply hoare_bind; [apply hoare_read|]. intros [row|]; simpl; [|apply hoare_raise].
  apply hoare_write. intros d [[[[] ? ? ? ? ? ? ? ?] _] Hrow].
  constructor; simpl; try done. constructor; simpl; try done.
  intros k. rewrite lookup_insert. case_decide; [subst; intros _; by rewrite <-Hrow|eauto].
Qed.

Lemma tx_fold_triple {A B} (f : B → A → dbtx B) b l :
  (∀ b x, hoare database_inv (f b x) (λ _, database_inv)) →
  hoare database_inv (tx_fold f b l) (λ _, database_inv).
Proof.
  intros Hf d Hd b' d' E. eapply (tx_fold_ind (λ _, database_inv)); [|exact Hd|exact E].
  intros x b1 s b2 s' _ HI Es. by eapply Hf.
Qed.

Lemma then_ret_db {A B} (m : dbprog A) (f : A → B) d : (x ← m; mret (f x)) d = 
  (match (m d).1 with Ok x => Ok (f x) | Err e => Err e end, (m d).2).
Proof. unfold mbind, prog_bind. by destruct (m d) as [[x|e] d']. Qed.

Lemma update_reviews_triple P p g :
  (∀ r, review_row_ok r → review_row_ok (g r)) →
  hoare (λ d, database_inv d ∧ P) (tx_write (set_review (update_where p g)) : dbtx unit)
    (λ _ d, database_inv d ∧ P).
Proof.
  intros Hg. apply write_review_rows_triple.
  - intros t k. rewrite lookup_update_where. by rewrite fmap_is_Some.
  - intros t Ht k r. rewrite lookup_update_where.
    intros (r0 & Hr & ->)%fmap_Some. specialize (Ht _ _ Hr). case_match; auto.
Qed.

Lemma resolved_review_ok now r : review_row_ok r → review_row_ok (resolved_review now r).
Proof.
  intros (? & ? & ? & ? & ? & ? & ? & ?). split_and!; simpl; try done.
  destruct (String.eqb _ _); [|done]. unfold action_status_ok. set_solver.
Qed.

Lemma applied_review_ok action now r :
  action ≠ ""%string → planned_ok action → review_row_ok r → review_row_ok (applied_review action now r).
Proof.
  intros ? ? (? & ? & ? & ? & ? & ? & ? & ?). split_and!; simpl; try done.
  unfold action_status_ok. set_solver.
Qed.

Lemma mark_applied_triple now domain action d :
  database_inv d → database_inv (mark_action_applied now domain action d).2.
Proof.
  intros Hd. unfold mark_action_applied.
  destruct (negb _ || negb _) eqn:E; [done|]. apply orb_false_iff in E as [_ E].
  revert Hd. apply (hoare_commit (λ d, database_inv d ∧ True)); [done|].
  apply (hoare_bind _ _ _ (λ _ d, database_inv d ∧ True)).
  - apply write_review_rows_triple.
    + intros t k. rewrite lookup_alter. case_decide; [subst|done]. by rewrite fmap_is_Some.
    + intros t Ht k r. rewrite lookup_alter. case_decide; [|apply Ht].
      subst. intros (r0 & Hr & ->)%fmap_Some. apply applied_review_ok; eauto with wormhole.
      intros H0. by rewrite H0 in E.
  - intros []. eapply hoare_consequence; [apply (resolve_open_tasks_triple True)|done|by intros ? ? [? _]].
Qed.

Lemma resolve_triple now vs decision d :
  database_inv d → database_inv (review_resolve now vs decision d).2.
Proof.
  intros Hd. unfold review_resolve. case_bool_decide; [done|].
  revert Hd. apply (hoare_commit database_inv); [done|].
  eapply hoare_bind; [apply hoare_read|]. intros n.
  apply (hoare_bind _ _ _ (λ _ d, database_inv d ∧ True)).
  - eapply hoare_consequence; [apply (update_reviews_triple True), resolved_review_ok|by intros ? [? _]|done].
  - intros []. apply (hoare_bind _ _ _ (λ _ d, database_inv d ∧ True));
      [apply resolve_open_tasks_triple|].
    intros []. apply hoare_ret. by intros ? [? _].
Qed.

Lemma delete_triple vs d : database_inv d → database_inv (review_delete vs d).2.
Proof.
  intros Hd. unfold review_delete. case_bool_decide; [done|].
  revert Hd. apply (hoare_commit database_inv); [done|].
  eapply hoare_bind; [apply hoare_read|]. intros n.
  apply (hoare_bind _ _ _ (λ _ d, database_inv d ∧ True)).
  - eapply hoare_consequence; [apply (write_review_rows_triple True)|by intros ? [? _]|done].
    + intros t k. rewrite lookup_foldr_delete. case_decide; [by intros []|done].
    + intros t Ht k r. rewrite lookup_foldr_delete. case_decide; [done|apply Ht].
  - intros []. apply hoare_ret. by intros ? [? _].
Qed.

Lemma create_task_triple now domain reason p source d :
  database_inv d → database_inv (create_review_task now domain reason p source d).2.
Proof.
  apply (hoare_commit database_inv); [done|].
  eapply hoare_bind; [apply ensure_triple|]. intros n. simpl.
  eapply hoare_bind; [apply hoare_read|]. intros [[i k]|]; simpl.
  - apply hoare_ret. by intros ? [[? _] _].
  - eapply hoare_bind; [apply hoare_read|]. intros id. simpl.
    eapply hoare_bind; [apply append_task_triple|]. intros []. by apply hoare_ret.
Qed.

Lemma set_lock_triple now domain t reason d :
  database_inv d → database_inv (set_domain_lock now domain t reason d).2.
Proof.
  intros Hd. unfold set_domain_lock.
  destruct (negb _) eqn:E; [done|]. apply negb_false_iff, orb_true_iff in E.
  rewrite !String.eqb_eq in E. revert Hd. apply (hoare_commit database_inv); [done|].
  eapply hoare_bind; [apply ensure_triple|]. intros n. by apply write_locks_triple.
Qed.

Lemma remove_lock_triple domain d :
  database_inv d → database_inv (remove_domain_lock domain d).2.
Proof.
  apply (hoare_commit database_inv); [done|].
  eapply hoare_bind; [apply hoare_read|]. intros n.
  apply (hoare_bind _ _ _ (λ _, database_inv)); [|intros []; by apply hoare_ret].
  apply hoare_write. intros s [[[] Hst ? ? ? ? ? ? Hq] _]. constructor; simpl; try done.
  - constructor; simpl; try done. intros k [l Hk]. apply lookup_delete_Some in Hk as [_ Hk]. eauto.
  - by apply map_Forall_delete.
  - intros k [l Hk]. apply lookup_delete_Some in Hk as [_ Hk]. eauto.
Qed.

Lemma manual_tags_triple now domain tags d :
  database_inv d → database_inv (set_manual_tags now domain tags d).2.
Proof.
  apply (hoare_commit database_inv); [done|].
  eapply hoare_bind; [apply ensure_triple|]. intros n. simpl.
  eapply hoare_consequence; [apply tags_triple|done|by intros ? ? [? _]].
Qed.

Lemma database_inv_empty : database_inv db_empty.
Proof.
  constructor; simpl; try done; try (by intros ? ?).
  - constructor; simpl; try (by intros ? [? ?]); set_solver.
  - split; constructor.
  - split; constructor.
Qed.

Lemma run_db_op_inv op d : database_inv d → database_inv (run_db_op op d).
Proof.
  intros Hd. destruct op; cbn [run_db_op].
  - by apply queue_op_keeps_database_inv.
  - revert Hd. apply (hoare_commit database_inv); [done|]. apply review_save_triple.
  - by apply save_run_triple.
  - by apply manual_tags_triple.
  - by apply mark_applied_triple.
  - by apply resolve_triple.
  - by apply delete_triple.
  - by apply set_lock_triple.
  - by apply remove_lock_triple.
  - by apply create_task_triple.
  - revert Hd. apply (hoare_commit (λ d, database_inv d ∧ True)); [done|].
    eapply hoare_consequence; [apply (write_tasks_triple True)|done|by intros ? ? [? _]];
      intros k; by destruct (tk_id k =? task_id).
  - unfold record_query_observations. rewrite then_ret_db. cbn [snd].
    revert Hd. apply (hoare_commit database_inv); [done|]. apply tx_fold_triple, store_observation_triple.
  - unfold record_discovered_domains. rewrite then_ret_db. cbn [snd].
    revert Hd. apply (hoare_commit database_inv); [done|]. apply tx_fold_triple.
    intros [] p. eapply hoare_bind; [apply ensure_triple|]. intros n. apply hoare_ret. by intros ? [? _].
Qed.

Lemma db_reachable_inv d d' : database_inv d → db_reachable d d' → database_inv d'.
Proof. induction 2; [done|]. by apply run_db_op_inv. Qed.

(** * What saving a classification does *)

Abbreviation tag_table := (gmap tag_key tag_row).

(** [_replace_source_tags] on the table: the tags of one domain and one source. *)
Definition replaced_tags (n : string) (tags : list string) (source : string) (confidence : Q) (now : Z)
    (t : tag_table) : tag_table :=
  foldl (λ t tag, <[(n, tag, source) := TagRow (_confidence confidence) now now]> t)
    (filter (λ p : tag_key * tag_row, ¬ (p.1.1.1 = n ∧ p.1.2 = source)) t) (_normalize_tags tags).

Lemma lookup_foldl_tags (n source : string) (v : tag_row) (ts : list string) (t : tag_table) (k : tag_key) :
  foldl (λ (t : tag_table) tag, <[(n, tag, source) := v]> t) t ts !! k =
  if decide (k.1.1 = n ∧ k.2 = source ∧ k.1.2 ∈ ts) then Some v else t !! k.
Proof.
  revert t. induction ts as [|tag ts IH]; intros t; simpl.
  - rewrite decide_False; [done|]. intros (_ & _ & H). by apply not_elem_of_nil in H.
  - rewrite IH. destruct k as [[n' tag'] s']. simpl. rewrite lookup_insert.
    repeat case_decide; set_solver.
Qed.

Lemma lookup_replaced_tags n tags source q now t k :
  replaced_tags n tags source q now t !! k =
  if decide (k.1.1 = n ∧ k.2 = source)
  then if decide (k.1.2 ∈ _normalize_tags tags) then Some (TagRow (_confidence q) now now) else None
  else t !! k.
Proof.
  unfold replaced_tags. rewrite lookup_foldl_tags.
  destruct (decide (k.1.1 = n ∧ k.2 = source)) as [Hk|Hk].
  - case_decide as Ht; [by rewrite decide_True by tauto|].
    rewrite decide_False by tauto. apply map_lookup_filter_None. right. simpl. tauto.
  - rewrite decide_False by tauto. apply option_eq. intros r.
    rewrite map_lookup_filter_Some. simpl. tauto.
Qed.

Lemma elem_of_manual_tags domain d x :
  x ∈ manual_tags domain d ↔ is_Some (domain_tags_table d !! (_normalize_domain domain, x, "manual"%string)).
Proof.
  unfold manual_tags. rewrite elem_of_sort_by, list_elem_of_fmap. split.
  - intros ([[[n y] s] r] & -> & Hin). apply list_elem_of_filter in Hin as [[E1 E2] Hin].
    simpl in *. subst. apply elem_of_map_to_list in Hin. simpl. eauto.
  - intros [r Hr]. exists ((_normalize_domain domain, x, "manual"%string), r).
    split; [done|]. apply list_elem_of_filter. split; [done|]. by apply elem_of_map_to_list.
Qed.

Lemma NoDup_manual_tags domain d : NoDup (manual_tags domain d).
Proof.
  unfold manual_tags. rewrite sort_by_Permutation. apply NoDup_fmap_2_strong.
  - intros [[[n x] s] r] [[[n' x'] s'] r'] [[E1 E2] Hp]%list_elem_of_filter [[E3 E4] Hq]%list_elem_of_filter.
    simpl in *. intros ->. subst. apply elem_of_map_to_list in Hp, Hq. congruence.
  - apply NoDup_filter, NoDup_map_to_list.
Qed.

Lemma manual_tags_sorted domain d : StronglySorted (λ a b, str_leb a b = true) (manual_tags domain d).
Proof. apply sort_by_sorted; [apply str_leb_total|apply str_leb_trans]. Qed.

#[local] Instance str_leb_antisymm : AntiSymm (=) (λ a b, str_leb a b = true).
Proof. intros x y Hx Hy. by apply String.leb_antisym. Qed.

Lemma sorted_tags_unique l1 l2 :
  StronglySorted (λ a b, str_leb a b = true) l1 → StronglySorted (λ a b, str_leb a b = true) l2 →
  l1 ≡ₚ l2 → l1 = l2.
Proof.
  apply (StronglySorted_unique (λ a b, str_leb a b = true)).
Qed.

(** The manual tags only depend on the rows whose source is [manual]. *)
Lemma manual_tags_ext domain d d' :
  (∀ x, domain_tags_table d' !! (_normalize_domain domain, x, "manual"%string) =
        domain_tags_table d !! (_normalize_domain domain, x, "manual"%string)) →
  manual_tags domain d' = manual_tags domain d.
Proof.
  intros H. apply sorted_tags_unique; auto using manual_tags_sorted.
  apply NoDup_Permutation; auto using NoDup_manual_tags.
  intros x. by rewrite !elem_of_manual_tags, H.
Qed.

(** The database a successful [_review_save] leaves. *)
Lemma review_save_ok now domain categories details status f d :
  let n := _normalize_domain domain in
  n ≠ ""%string →
  ∃ d', _review_save now domain categories details status f d = Ok (tt, d') ∧
    (∃ created, review d' = <[n := review_values (normalize_tags_object categories) details status f created now]>
                              (review d)) ∧
    domain_tags_table d' = replaced_tags n (normalize_tags_object categories) "current" (rf_confidence f)
                             now (domain_tags_table d) ∧
    (∀ k, k ≠ n → domains d' !! k = domains d !! k) ∧
    (∃ row, domains d' !! n = Some row ∧
       dr_current_policy row = str_or (str_lower (str_strip (rf_policy f))) "unknown" ∧
       dr_last_classified_at row = match domains d !! n with Some r => dr_last_classified_at r | None => None end ∧
       (∀ t, rf_next_recheck_at f = Some t → dr_next_recheck_at row = Some t)) ∧
    classification_runs d' = classification_runs d ∧ last_run_id d' = last_run_id d ∧
    staging_domains d' = staging_domains d ∧ domain_locks d' = domain_locks d ∧
    review_tasks d' = review_tasks d.
Proof.
  intros n Hn. unfold _review_save, _ensure_domain. fold n.
  destruct (str_nonempty n) eqn:E; [|by destruct n]. cbn [negb].
  cbv [mbind tx_bind tx_write mret tx_ret _replace_source_tags].
  eexists. split; [reflexivity|]. simpl.
  split; [eauto|]. split; [done|]. split; [|split; [|done]].
  - intros k Hk. by rewrite lookup_alter_ne, lookup_insert_ne.
  - rewrite lookup_alter_eq, lookup_insert_eq. simpl. eexists. split; [done|]. simpl.
    split; [done|]. split; [by destruct (domains d !! n)|]. by intros t ->.
Qed.

(** * History *)

Lemma ensure_keeps {B} (f : db → B) now v s i :
  (∀ g d, f (set_domains g d) = f d) → tx_keeps f (_ensure_domain now v s i).
Proof. intros H d n d' He. apply _ensure_domain_spec in He as (_ & _ & r & ->). apply H. Qed.

Definition run_history (d : db) : list run_row * Z := (classification_runs d, last_run_id d).

Lemma review_save_keeps_history now domain c details status f :
  tx_keeps run_history (_review_save now domain c details status f).
Proof.
  unfold _review_save, _replace_source_tags.
  repeat first [apply keeps_bind; [|intros ?] | by apply ensure_keeps | by apply keeps_write].
Qed.

Ltac keep_history :=
  repeat first
    [ apply keeps_bind; [|intros ?] | by apply ensure_keeps | by apply keeps_write
    | apply keeps_read | apply keeps_ret | apply keeps_raise | apply keeps_fold; intros ? ?
    | apply review_save_keeps_history ].

(** Only [save_classification_run] writes the history. *)
Lemma history_kept op d :
  (∀ now c a, op ≠ DbSaveRun now c a) → run_history (run_db_op op d) = run_history d.
Proof.
  intros Hop. destruct op; cbn [run_db_op]; try (by apply (keeps_commit run_history); keep_history).
  - destruct (queue_frame_op op d). unfold run_history. congruence.
  - by destruct (Hop now c a).
  - unfold mark_action_applied. case_match; [done|]. apply (keeps_commit run_history).
    unfold resolve_open_tasks. keep_history.
  - unfold review_resolve. case_bool_decide; [done|]. apply (keeps_commit run_history).
    unfold resolve_open_tasks. keep_history.
  - unfold review_delete. case_bool_decide; [done|]. apply (keeps_commit run_history). keep_history.
  - unfold set_domain_lock. case_match; [done|]. apply (keeps_commit run_history). keep_history.
  - apply (keeps_commit run_history). keep_history. repeat case_match; keep_history.
  - unfold record_query_observations. rewrite then_ret_db. apply (keeps_commit run_history).
    apply keeps_fold. intros ? [key [[count first] last]]. simpl. keep_history. case_match; keep_history.
  - unfold record_discovered_domains. rewrite then_ret_db. apply (keeps_commit run_history). keep_history.
Qed.

(** The transaction of [save_classification_run], for a name that is not empty. *)
Lemma save_run_ok now c a d :
  let n := _normalize_domain (cl_domain c) in
  n ≠ ""%string →
  ∃ d', save_classification_run now c a d = (Ok (last_run_id d + 1), d') ∧
    classification_runs d' = classification_runs d ++ [new_run_row (last_run_id d + 1) now n c a] ∧
    last_run_id d' = last_run_id d + 1 ∧ staging_domains d' = staging_domains d ∧
    domain_locks d' = domain_locks d ∧ review_tasks d' = review_tasks d ∧
    (∀ k, k ≠ n → domains d' !! k = domains d !! k) ∧
    (if ra_update_current a then
       (∃ created, review d' = <[n := review_values (normalize_tags_object (TagsList (run_tags c)))
          (cl_details c) (ra_status a) (run_review_fields (run_expires_at now c) c a) created now]> (review d)) ∧
       domain_tags_table d' = replaced_tags n (_normalize_tags (run_tags c)) "current" (cl_confidence c) now
         (replaced_tags n (run_tags c) "llm" (cl_confidence c) now (domain_tags_table d)) ∧
       (∃ row, domains d' !! n = Some row ∧ dr_last_classified_at row = Some now ∧
          dr_next_recheck_at row = Some (run_expires_at now c) ∧
          dr_current_policy row = policy_value (cl_policy c))
     else
       review d' = review d ∧ domain_tags_table d' = domain_tags_table d ∧
       (∃ row, domains d' !! n = Some row ∧
          dr_current_policy row = match domains d !! n with Some r => dr_current_policy r | None => "unknown"%string end ∧
          dr_last_classified_at row = match domains d !! n with Some r => dr_last_classified_at r | None => None end ∧
          dr_next_recheck_at row = match domains d !! n with Some r => dr_next_recheck_at r | None => None end)).
Proof.
  intros n Hn. unfold save_classification_run, commit.
  unfold _ensure_domain at 1. fold n.
  destruct (str_nonempty n) eqn:E; [|by destruct n]. cbn [negb].
  cbv [mbind tx_bind tx_write tx_read mret tx_ret]. cbn [last_run_id set_domains].
  destruct (ra_update_current a).
  - cbn [_replace_source_tags tx_write].
    match goal with |- context [_review_save ?a ?b ?c ?e ?f ?g ?s] =>
      destruct (review_save_ok a b c e f g s Hn) as (d' & -> & Hrev & Htags & Hother & Hrow & Hruns & Hlast & Hst & Hlk & Htk)
    end.
    fold n in Hrev, Htags, Hother, Hrow. simpl in *.
    exists d'. rewrite Hruns, Hlast, Hst, Hlk, Htk. simpl. split_and!; try done.
    + intros k Hk. rewrite Hother by done. by rewrite lookup_alter_ne, lookup_insert_ne.
    + destruct Hrow as (row & Hrow & Hpol & Hcl & Hnext). exists row. split; [done|].
      rewrite lookup_alter_eq, lookup_insert_eq in Hcl. simpl in Hcl. split; [done|].
      split; [by apply Hnext|]. rewrite Hpol. by destruct (cl_policy c).
  - eexists. split; [reflexivity|]. simpl. split_and!; try done.
    + intros k Hk. by rewrite lookup_insert_ne.
    + rewrite lookup_insert_eq. eexists. split; [done|]. by destruct (domains d !! n).
Qed.

Lemma save_run_empty now c a d :
  _normalize_domain (cl_domain c) = ""%string →
  save_classification_run now c a d = (Err (ValueError "domain must not be empty"), d).
Proof. intros Hn. unfold save_classification_run, commit, _ensure_domain. by rewrite Hn. Qed.

Lemma history_step op d :
  ∃ new, classification_runs (run_db_op op d) = classification_runs d ++ new ∧
         Forall (λ r, last_run_id d < rr_id r) new ∧ last_run_id d ≤ last_run_id (run_db_op op d).
Proof.
  assert (run_history (run_db_op op d) = run_history d →
    ∃ new, classification_runs (run_db_op op d) = classification_runs d ++ new ∧
         Forall (λ r, last_run_id d < rr_id r) new ∧ last_run_id d ≤ last_run_id (run_db_op op d)) as Hsame.
  { intros [= -> ->]. exists []. rewrite app_nil_r. split_and!; [done|done|lia]. }
  destruct op as [| |now c a| | | | | | | | | |]; try (by apply Hsame, history_kept).
  destruct (decide (_normalize_domain (cl_domain c) = ""%string)) as [He|Hne].
  { apply Hsame. cbn [run_db_op]. by rewrite save_run_empty. }
  destruct (save_run_ok now c a d Hne) as (d2 & E & Hr2 & Hl2 & _).
  cbn [run_db_op]. rewrite E. simpl. rewrite Hr2, Hl2. eexists. split; [done|]. split; [|lia].
  constructor; [simpl; lia|constructor].
Qed.

(** ** Properties *)

(** C9: every operation of the queue, the review workflow, the locks, the tasks
    and the observations, in any order and with any arguments, keeps the
    database well formed: references, value ranges of the clamped columns,
    growing ids, at most one open task per domain and reason, and no locked
    domain in the queue. *)
Theorem database_operations_keep_invariant d :
  db_reachable db_empty d → database_inv d.
Proof. apply db_reachable_inv, database_inv_empty. Qed.
Lemma database_operations_keep_invariant_witness :
  let d := run_db_op (DbSetLock 5 "Example.com." "deny" " test ")
    (run_db_op (DbQueue (OpEnqueue [] 4 ["example.com"; "other.org"]%string 0 "live" "" false)) db_empty) in
  staging_domains d !! "example.com"%string = None ∧ is_Some (staging_domains d !! "other.org"%string) ∧
  database_inv d.
Proof.
  split; [vm_compute; reflexivity|]. split; [vm_compute; eauto|].
  apply database_operations_keep_invariant. by repeat constructor.
Defined.

(** A domain that carries a protection lock is never handed to a worker,
    whatever happened before. *)
Theorem locked_domains_are_never_handed_out d op k :
  db_reachable db_empty d → k ∈ (run_op op d).1 → domain_locks d !! k = None.
Proof.
  intros Hd Hk. pose proof (db_reachable_inv _ _ database_inv_empty Hd) as Hinv.
  destruct (domain_locks d !! k) as [l|] eqn:El; [|done].
  assert (staging_domains d !! k = None) as Hn by (apply (inv_locked_not_queued _ Hinv); eauto).
  destruct op; simpl in Hk; try set_solver.
  apply claimed_row_lookup in Hk as (r & Hr & _). congruence.
Qed.
Lemma locked_domains_are_never_handed_out_witness :
  let d := run_db_op (DbSetLock 5 "a.com" "allow" "")
    (run_db_op (DbQueue (OpEnqueue [] 4 ["a.com"; "b.com"]%string 0 "live" "" false)) db_empty) in
  (run_op (OpClaim 9 10 "background") d).1 = ["b.com"%string] ∧ domain_locks d !! "b.com"%string = None.
Proof.
  split; [vm_compute; reflexivity|].
  eapply (locked_domains_are_never_handed_out _ (OpClaim 9 10 "background"));
    [by repeat constructor|]. vm_compute. left.
Defined.

(** The classification history is append-only: whatever operation runs, the
    rows recorded before stay as they were, in order, and the new ones get
    larger ids than every id given out before. *)
Theorem history_is_append_only d d' :
  db_reachable d d' →
  ∃ new, classification_runs d' = classification_runs d ++ new ∧
         Forall (λ r, last_run_id d < rr_id r) new ∧ last_run_id d ≤ last_run_id d'.
Proof.
  induction 1 as [|op d' _ (new & Hr & Hn & Hl)]; [exists []; rewrite app_nil_r; split_and!; [done|done|lia]|].
  destruct (history_step op d') as (new' & Hr' & Hn' & Hl').
  exists (new ++ new'). rewrite Hr', Hr, app_assoc. split; [done|]. split; [|lia].
  apply Forall_app. split; [done|]. eapply Forall_impl; [exact Hn'|]. simpl. lia.
Qed.
Lemma history_is_append_only_witness :
  let c := mkClassification "a.com" DENY "ads" "s" "d" "p" ["ads"]%string "" ROLE_UNKNOWN 10 10 10 (9 # 10)
             false "" 30 "" in
  let a := RunArgs "p" "m" "default" "" "new" "" "" "" "" "" true 0 0 0 true in
  let d := run_db_op (DbSaveRun 100 c a) db_empty in
  let d' := run_db_op (DbDelete ["a.com"]%string) (run_db_op (DbSaveRun 200 c a) d) in
  (rr_id <$> classification_runs d') = [1; 2] ∧
  ∃ new, classification_runs d' = classification_runs d ++ new ∧
         Forall (λ r, last_run_id d < rr_id r) new ∧ last_run_id d ≤ last_run_id d'.
Proof.
  intros c a d d'. split; [vm_compute; reflexivity|].
  apply history_is_append_only. by repeat constructor.
Defined.

(** A comparison or shadow run ([update_current=False]) adds one history row
    and nothing else: the current review, the tags, the queue, the tasks, the
    locks and the current policy and recheck time of the domain stay. *)
Theorem comparison_run_only_appends now c a d :
  let n := _normalize_domain (cl_domain c) in
  n ≠ ""%string → ra_update_current a = false →
  ∃ d', save_classification_run now c a d = (Ok (last_run_id d + 1), d') ∧
    classification_runs d' = classification_runs d ++ [new_run_row (last_run_id d + 1) now n c a] ∧
    review d' = review d ∧ domain_tags_table d' = domain_tags_table d ∧
    staging_domains d' = staging_domains d ∧ domain_locks d' = domain_locks d ∧
    review_tasks d' = review_tasks d ∧
    (∀ r, domains d !! n = Some r → ∃ r', domains d' !! n = Some r' ∧
       dr_current_policy r' = dr_current_policy r ∧ dr_next_recheck_at r' = dr_next_recheck_at r ∧
       dr_last_classified_at r' = dr_last_classified_at r).
Proof.
  intros n Hn Hu. destruct (save_run_ok now c a d Hn) as (d' & E & ? & ? & ? & ? & ? & _ & Hc).
  rewrite Hu in Hc. destruct Hc as (? & ? & row & Hrow & Hp1 & Hp2 & Hp3).
  exists d'. split_and!; try done. intros r Hr. exists row.
  fold n in Hp1, Hp2, Hp3. by rewrite Hr in Hp1, Hp2, Hp3.
Qed.
Definition ex_classification : Classification :=
  mkClassification "Ads.example." DENY "ads" "s" "d" "p" ["ads"]%string "" ROLE_UNKNOWN 10 10 10 (9 # 10)
    false "" 30 "".
Definition ex_run_args (action status : string) (current : bool) : run_args :=
  RunArgs "p" "m" "default" "" "auto" action status "" "" "" true 0 0 0 current.
Lemma comparison_run_only_appends_witness :
  ∃ d', save_classification_run 50 ex_classification (ex_run_args "" "" false) db_empty = (Ok 1, d') ∧
    review d' = ∅.
Proof.
  destruct (comparison_run_only_appends 50 ex_classification (ex_run_args "" "" false) db_empty)
    as (d' & E & _ & Hr & _); [by vm_compute|done|]. exists d'. split; [exact E|exact Hr].
Defined.

(** A classification saved as the current one replaces the review of its
    domain (and of no other), with risks and confidence clamped, schedules the
    recheck, asks for a review whenever the action was only simulated, and
    never touches the tags a person set. *)
Theorem saved_classification_becomes_current now c a d :
  let n := _normalize_domain (cl_domain c) in
  n ≠ ""%string → ra_update_current a = true →
  ∃ d' r, save_classification_run now c a d = (Ok (last_run_id d + 1), d') ∧
    review d' !! n = Some r ∧ (∀ k, k ≠ n → review d' !! k = review d !! k) ∧
    review_row_ok r ∧ rv_policy r = policy_value (cl_policy c) ∧
    rv_next_recheck_at r = Some (now + Z.max 1 (cl_recheck_after_days c) * 86400) ∧
    rv_action_status r = _normalize_action_status (ra_action_status a) ∧
    (rv_action_status r = "simulated"%string → rv_needs_review r = true) ∧
    (cl_needs_review c = true → rv_needs_review r = true) ∧
    (∃ row, domains d' !! n = Some row ∧ dr_last_classified_at row = Some now ∧
       dr_current_policy row = policy_value (cl_policy c)) ∧
    (∀ k, manual_tags k d' = manual_tags k d).
Proof.
  intros n Hn Hu. destruct (save_run_ok now c a d Hn) as (d' & E & ? & ? & ? & ? & ? & _ & Hc).
  rewrite Hu in Hc. destruct Hc as ([created Hrev] & Htags & row & Hrow & Hp1 & Hp2 & Hp3).
  eexists d', _. fold n in Hrev. rewrite Hrev, lookup_insert_eq. split_and!; try done.
  - intros k Hk. by rewrite lookup_insert_ne.
  - apply review_values_ok.
  - simpl. by destruct (cl_policy c).
  - simpl. intros Hs. rewrite Hs. simpl. apply orb_true_r.
  - simpl. by intros ->.
  - eauto.
  - intros k. apply manual_tags_ext. intros x. rewrite Htags.
    rewrite !lookup_replaced_tags. simpl. by rewrite !decide_False by (by intros [_ ?]).
Qed.
Lemma saved_classification_becomes_current_witness :
  ∃ d' r, save_classification_run 50 ex_classification (ex_run_args "deny" "simulated" true) db_empty =
            (Ok 1, d') ∧
    review d' !! "ads.example"%string = Some r ∧ rv_needs_review r = true.
Proof.
  destruct (saved_classification_becomes_current 50 ex_classification
    (ex_run_args "deny" "simulated" true) db_empty)
    as (d' & r & E & Hr & _ & _ & _ & _ & Hst & Hs & _); [by vm_compute|done|].
  exists d', r. split; [exact E|]. split; [exact Hr|]. apply Hs. rewrite Hst. vm_compute. reflexivity.
Defined.

(** The tags a person sets are the ones read back, sorted and normalised,
    and from then on they are the effective tags of the domain whatever tags a
    classifier proposes. *)
Theorem manual_tags_round_trip now domain tags fallback d :
  _normalize_domain domain ≠ ""%string →
  ∃ d', set_manual_tags now domain tags d = (Ok tt, d') ∧
    manual_tags domain d' = sort_by str_leb (_normalize_tags tags) ∧
    effective_tags domain fallback d' =
      (if decide (_normalize_tags tags = []) then _normalize_tags fallback
       else sort_by str_leb (_normalize_tags tags)).
Proof.
  intros Hn. unfold set_manual_tags, commit. destruct (_ensure_domain_ok now domain (Some now) 0 d Hn) as [r E].
  unfold mbind, tx_bind. rewrite E. eexists. split; [reflexivity|].
  match goal with |- manual_tags _ ?d' = _ ∧ _ => set (d2 := d') end.
  assert (manual_tags domain d2 = sort_by str_leb (_normalize_tags tags)) as Hm.
  { apply sorted_tags_unique; [apply manual_tags_sorted| |].
    - apply sort_by_sorted; [apply str_leb_total|apply str_leb_trans].
    - rewrite sort_by_Permutation. apply NoDup_Permutation; [apply NoDup_manual_tags|apply fromkeys_NoDup|].
      intros x. rewrite elem_of_manual_tags.
      assert (domain_tags_table d2 = replaced_tags (_normalize_domain domain) tags "manual" 1 now
                                       (domain_tags_table d)) as -> by done.
      rewrite lookup_replaced_tags, decide_True by done. cbn [fst snd].
      case_decide; [by split|]. split; [by intros []|done]. }
  split; [done|]. unfold effective_tags. rewrite Hm.
  case_decide as Hnil; [by rewrite Hnil|].
  destruct (sort_by str_leb (_normalize_tags tags)) eqn:Es; [|done].
  destruct Hnil. apply Permutation_nil_r. by rewrite <-(sort_by_Permutation str_leb), Es.
Qed.
Lemma manual_tags_round_trip_witness :
  ∃ d', set_manual_tags 5 "a.com" ["Zeta"; " Ads "; "zeta"]%string db_empty = (Ok tt, d') ∧
    effective_tags "A.com." ["other"]%string d' = ["ads"; "zeta"]%string.
Proof.
  destruct (manual_tags_round_trip 5 "a.com" ["Zeta"; " Ads "; "zeta"]%string ["other"]%string db_empty)
    as (d' & E & _ & He); [by vm_compute|].
  exists d'. split; [exact E|]. exact He.
Defined.

Lemma task_found now domain reason p source d id d1 :
  create_review_task now domain reason p source d = (Ok id, d1) →
  _normalize_domain domain ≠ ""%string ∧
  ∃ i t, list_find (λ k, open_task (_normalize_domain domain) (str_strip reason) k = true) (review_tasks d1) =
           Some (i, t) ∧ tk_id t = id.
Proof.
  unfold create_review_task, commit. cbv [mbind tx_bind tx_read tx_write].
  destruct (_ensure_domain _ _ _ _ _) as [[n d']|e] eqn:He; [|done].
  apply _ensure_domain_spec in He as (-> & Hne & r & ->). cbn [review_tasks set_domains].
  destruct (list_find _ _) as [[i k]|] eqn:Ef; cbv [mret tx_ret]; intros [= <- <-].
  - split; [done|]. cbn [review_tasks set_domains]. eauto.
  - split; [done|]. cbn [review_tasks set_tasks set_domains last_task_id].
    eexists _, _. rewrite list_find_app_r by done. simpl. rewrite decide_True; [done|].
    unfold open_task. simpl. by rewrite !String.eqb_refl.
Qed.

(** ** The combined review queue *)

Lemma review_items_NoDup limit status needs d :
  NoDup (qi_domain <$> (queue_item_of_review <$> review_get limit status needs d)).
Proof.
  unfold review_get. rewrite <-!list_fmap_compose.
  change (qi_domain ∘ queue_item_of_review ∘ review_item_of d) with (fst : string * review_row → string).
  eapply (NoDup_app _ (fst <$> drop _ _)). rewrite <-fmap_app, take_drop, sort_by_Permutation.
  apply NoDup_fmap_2_strong.
  - intros [k r] [k' r'] [_ H1]%list_elem_of_filter [_ H2]%list_elem_of_filter.
    apply elem_of_map_to_list in H1, H2. simpl. intros ->. congruence.
  - apply NoDup_filter, NoDup_map_to_list.
Qed.

Lemma review_items_need_review limit d j :
  j ∈ review_get limit None (Some true) d →
  ∃ r, review d !! ri_domain j = Some r ∧ rv_needs_review r = true.
Proof.
  unfold review_get. intros ([k r] & -> & Hp)%list_elem_of_fmap. apply subseteq_take in Hp.
  rewrite elem_of_sort_by in Hp. apply list_elem_of_filter in Hp as [Hn Hp].
  apply elem_of_map_to_list in Hp. simpl in *. exists r. split; [done|]. by destruct (rv_needs_review r).
Qed.

Lemma merge_queued_domain k r e : qi_domain (merge_queued k r e) = k.
Proof. destruct e; simpl; by repeat case_match. Qed.

Lemma combine_queued_spec k r l i :
  i ∈ combine_queued k r l → i ∈ l ∨ qi_domain i = k.
Proof.
  induction l as [|j l IH]; cbn [combine_queued].
  - intros ->%list_elem_of_singleton. right. apply merge_queued_domain.
  - destruct (String.eqb _ _); intros [->|H]%elem_of_cons.
    + right. apply merge_queued_domain.
    + left. by right.
    + left. by left.
    + destruct (IH H); [left; by right|by right].
Qed.

Lemma combine_queued_domains k r l :
  qi_domain <$> combine_queued k r l =
  if decide (k ∈ qi_domain <$> l) then qi_domain <$> l else (qi_domain <$> l) ++ [k].
Proof.
  induction l as [|j l IH]; [done|].
  cbn [combine_queued fmap list_fmap]. destruct (String.eqb _ _) eqn:E.
  - apply String.eqb_eq in E. rewrite decide_True by (rewrite E; left).
    cbn [fmap list_fmap]. by rewrite merge_queued_domain, E.
  - apply String.eqb_neq in E. cbn [fmap list_fmap]. rewrite IH.
    repeat case_decide; try done; set_solver.
Qed.

Lemma combined_NoDup rows l :
  NoDup (qi_domain <$> l) → NoDup (qi_domain <$> foldl (λ l p, combine_queued p.1 p.2 l) l rows).
Proof.
  revert l. induction rows as [|[k r] rows IH]; intros l Hl; [done|]. simpl. apply IH.
  rewrite combine_queued_domains. case_decide; [done|]. apply NoDup_app.
  split; [done|]. split; [set_solver|]. apply NoDup_singleton.
Qed.

Lemma combined_elem_of limit d i (rows : list review_item) :
  i ∈ foldl (λ l p, combine_queued p.1 p.2 l) (queue_item_of_review <$> rows) (staging_list limit d) →
  (∃ j, j ∈ rows ∧ i = queue_item_of_review j) ∨ is_Some (staging_domains d !! qi_domain i).
Proof.
  assert (∀ p, p ∈ staging_list limit d → is_Some (staging_domains d !! p.1)) as Hst.
  { intros [k r] Hp. apply subseteq_take in Hp. rewrite elem_of_sort_by in Hp.
    apply elem_of_map_to_list in Hp. simpl. eauto. }
  enough (∀ l, i ∈ foldl (λ l p, combine_queued p.1 p.2 l) l (staging_list limit d) →
    i ∈ l ∨ is_Some (staging_domains d !! qi_domain i)) as H.
  { intros [Hi|]%H; [left|by right]. apply list_elem_of_fmap in Hi as (j & -> & ?). eauto. }
  induction (staging_list limit d) as [|p ps IH]; intros l; simpl; [by left|].
  intros [[Hi|E]%combine_queued_spec|]%IH; [by left|right|by right|..].
  - rewrite E. apply Hst. left.
  - intros. apply Hst. by right.
Qed.

(** Resolving reviews clears the review flag of exactly the named reviews
    and turns a simulated action into a dismissed one, reports how many there
    were, and leaves no open task on those domains; every other review and
    task stays. *)
Theorem resolving_settles_named_reviews now vs decision d :
  let names := normalized_names vs in
  ∃ d', review_resolve now vs decision d =
          (Ok (Z.of_nat (length (filter (λ k, is_Some (review d !! k)) (fromkeys names)))), d') ∧
    (∀ k r, review d !! k = Some r →
       ∃ r', review d' !! k = Some r' ∧
         if decide (k ∈ names)
         then rv_needs_review r' = false ∧ rv_status r' = "reviewed"%string ∧
              rv_action_status r' ≠ "simulated"%string ∧ rv_policy r' = rv_policy r
         else r' = r) ∧
    (∀ k, review d !! k = None → review d' !! k = None) ∧
    (∀ i t, review_tasks d !! i = Some t →
       ∃ t', review_tasks d' !! i = Some t' ∧
         (tk_domain t ∈ names → tk_status t' ≠ "open"%string) ∧
         (tk_domain t ∉ names → t' = t)).
Proof.
  intros names. unfold review_resolve. fold names. case_bool_decide as Hnil.
  { rewrite Hnil. exists d. split; [done|]. split; [|split; [done|]].
    - intros k r Hr. exists r. split; [done|]. rewrite decide_False; [done|].
      apply not_elem_of_nil.
    - intros i t Ht. exists t. split; [done|]. split; [|done]. intros Hin. by apply not_elem_of_nil in Hin. }
  unfold commit, resolve_open_tasks. cbv [mbind tx_bind tx_read tx_write mret tx_ret].
  eexists. split; [reflexivity|]. cbn [review set_tasks set_review review_tasks]. split_and!.
  - intros k r Hr. rewrite lookup_update_where, Hr. simpl. eexists. split; [done|].
    case_bool_decide; [rewrite decide_True by done|by rewrite decide_False].
    simpl. split_and!; try done. destruct (String.eqb _ "simulated") eqn:E; [done|].
    by apply String.eqb_neq.
  - intros k Hk. by rewrite lookup_update_where, Hk.
  - intros i t Ht. rewrite list_lookup_fmap, Ht. simpl. eexists. split; [done|].
    case_bool_decide; [|by rewrite andb_false_r].
    split; [|done]. intros _. destruct (String.eqb (tk_status t) "open") eqn:E; [done|].
    by apply String.eqb_neq.
Qed.

(** Asking for a review task twice gives one task: the second call returns
    the same id and changes no task, and the task is open for that domain. *)
Theorem create_review_task_is_idempotent now now' domain reason p p' source source' d id d1 :
  create_review_task now domain reason p source d = (Ok id, d1) →
  (∃ t, t ∈ review_tasks d1 ∧ tk_id t = id ∧ tk_domain t = _normalize_domain domain ∧
        tk_reason t = str_strip reason ∧ tk_status t = "open"%string) ∧
  ∃ d2, create_review_task now' domain reason p' source' d1 = (Ok id, d2) ∧
        review_tasks d2 = review_tasks d1.
Proof.
  intros H. destruct (task_found now domain reason p source d id d1 H) as (Hne & i & t & Hf & Hid).
  pose proof Hf as (Hi & Ho & _)%list_find_Some. split.
  - exists t. apply andb_true_iff in Ho as [[H1 H2]%andb_true_iff H3].
    apply String.eqb_eq in H1, H2, H3. split; [by eapply list_elem_of_lookup_2|done].
  - destruct (_ensure_domain_ok now' domain (Some now') 0 d1 Hne) as [r E].
    unfold create_review_task, commit. cbv [mbind tx_bind tx_read mret tx_ret]. rewrite E.
    cbn [review_tasks set_domains]. rewrite Hf, Hid. by eexists.
Qed.
Lemma create_review_task_is_idempotent_witness :
  ∃ d1, create_review_task 5 "A.com" "check" PRIO_HIGH "ui" db_empty = (Ok 1, d1) ∧
  ∃ d2, create_review_task 9 "A.com" "check" PRIO_LOW "other" d1 = (Ok 1, d2) ∧ review_tasks d2 = review_tasks d1.
Proof.
  eexists. split; [vm_compute; reflexivity|].
  eapply (create_review_task_is_idempotent 5 9 "A.com" "check" PRIO_HIGH PRIO_LOW "ui" "other" db_empty).
  vm_compute. reflexivity.
Defined.

(** The review queue shown to a person has no domain twice, at most [limit]
    entries, and every entry is a review that still asks for one or a queued
    domain. *)
Theorem review_queue_is_a_bounded_union limit d :
  let items := review_queue_get limit d in
  Z.of_nat (length items) ≤ Z.max 1 limit ∧ NoDup (qi_domain <$> items) ∧
  ∀ i, i ∈ items →
    (∃ r, review d !! qi_domain i = Some r ∧ rv_needs_review r = true) ∨
    is_Some (staging_domains d !! qi_domain i).
Proof.
  intros items. unfold items, review_queue_get. split_and!.
  - rewrite length_take. lia.
  - eapply (NoDup_app _ (qi_domain <$> drop _ _)). rewrite <-fmap_app, take_drop.
    rewrite sort_by_Permutation. apply combined_NoDup. apply review_items_NoDup.
  - intros i Hi. apply subseteq_take in Hi. rewrite elem_of_sort_by in Hi.
    apply combined_elem_of in Hi as [(j & Hj & ->)|Hs].
    + left. by eapply review_items_need_review.
    + right. exact Hs.
Qed.
