(* ===== verification/Behavior.v ===== *)
(** [pihole_manager/behavior_change.py] and [compatibility_profiles.py]: the
    two guards that may demand a human review before an automatic change, the
    comparison with the classification history and the protected-service
    profiles. *)
From stdpp Require Import base gmap strings list pretty.
From Stdlib Require Import Ascii QArith Lqa.
From S2P Require Import Prelude Models Database Queue ReviewDb.
Open Scope Z_scope.

(** * Signals and reports *)

(** The [Any] values a signal carries. *)
Inductive signal_value := VText (s : string) | VInt (z : Z) | VTags (l : list string).

Record BehaviorChangeSignal := mkSignal {
  sg_field : string;
  sg_previous : signal_value;
  sg_current : signal_value;
  sg_score : Z;
  sg_severity : string;
  sg_summary : string
}.

Record BehaviorChangeReport := mkReport {
  bc_domain : string;
  bc_has_history : bool;
  bc_score : Z;
  bc_severity : string;
  bc_requires_review : bool;
  bc_previous_run_id : Z;
  bc_previous_created_at : Z;
  bc_previous_provider : string;
  bc_previous_model : string;
  bc_previous_profile : string;
  bc_baseline_consistency : Q;
  bc_signals : list BehaviorChangeSignal
}.

Definition report_without_comparison (domain : string) (has_history : bool) (run_id created : Z) :=
  mkReport domain has_history 0 "none" false run_id created "" "" "" 0 [].

Definition report_review_reason (r : BehaviorChangeReport) : string :=
  if negb (bc_requires_review r) then ""%string
  else
    let summaries := str_join "; " (sg_summary <$> take 3 (bc_signals r)) in
    let suffix := if str_nonempty summaries
                  then (" Key changes: " +:+ summaries +:+ ".")%string else ""%string in
    ("Historical behavior-change signal (" +:+ bc_severity r +:+ ", score " +:+ pretty (bc_score r)
       +:+ "/100)." +:+ suffix +:+ " Review before applying an automatic Pi-hole change.")%string.

(** * Snapshots *)

(** The keys of the dictionaries that are compared: a row of the history, or a
    new classification. *)
Record snapshot := Snapshot {
  sn_id : Z;
  sn_created_at : Z;
  sn_provider : string;
  sn_model : string;
  sn_profile : string;
  sn_policy : string;
  sn_primary_tag : string;
  sn_tags : list string;
  sn_service : string;
  sn_service_role : string;
  sn_privacy_risk : Z;
  sn_security_risk : Z;
  sn_breakage_risk : Z
}.

Definition row_snapshot (r : run_row) : snapshot :=
  Snapshot (rr_id r) (rr_created_at r) (rr_provider r) (rr_model r) (rr_profile r) (rr_policy r)
    (rr_primary_tag r) (rr_tags r) (rr_service r) (rr_service_role r) (rr_privacy_risk r)
    (rr_security_risk r) (rr_breakage_risk r).

Definition tags_or_category (c : Classification) : list string :=
  fromkeys (match cl_tags c with [] => [cl_category c] | ts => ts end).

Definition _classification_snapshot (c : Classification) : snapshot :=
  Snapshot 0 0 "" "" "" (policy_value (cl_policy c)) (cl_category c) (tags_or_category c)
    (cl_service c) (role_value (cl_service_role c)) (cl_privacy_risk c) (cl_security_risk c)
    (cl_breakage_risk c).

(** [ORDER BY created_at DESC, id DESC LIMIT ?] over the primary runs. *)
Definition history_leb (a b : run_row) : bool :=
  (rr_created_at b <? rr_created_at a) ||
  (rr_created_at a =? rr_created_at b) && (rr_id b <=? rr_id a).

Definition _primary_history (domain : string) (limit : Z) (d : db) : list snapshot :=
  if negb (str_nonempty domain) then []
  else row_snapshot <$> take (Z.to_nat (Z.max 1 limit))
    (sort_by history_leb
       (filter (λ r, rr_domain r = domain ∧ rr_is_primary r = true) (classification_runs d))).

(** * Comparing *)

Definition _service_name (value : string) : string :=
  str_join " " (str_words (str_casefold (str_strip value))).

Definition _role_class (role : string) : string :=
  if String.eqb role "core" || String.eqb role "shared" then "protected" else "non_protected".

Definition _severity (score : Z) : string :=
  if 75 <=? score then "critical"
  else if 50 <=? score then "high"
  else if 35 <=? score then "medium"
  else if 0 <? score then "low"
  else "none".

Definition lower_or_unknown (s : string) : string := str_lower (str_or s "unknown").

Definition policy_signal (previous current : snapshot) : list BehaviorChangeSignal :=
  let p := lower_or_unknown (sn_policy previous) in
  let c := lower_or_unknown (sn_policy current) in
  if String.eqb p c then []
  else
    let decisive := (String.eqb p "allow" || String.eqb p "deny") &&
                    (String.eqb c "allow" || String.eqb c "deny") in
    [mkSignal "policy" (VText p) (VText c) (if decisive then 45 else 22)
       (if decisive then "high" else "medium")
       ("policy changed from " +:+ p +:+ " to " +:+ c)%string].

Definition service_signal (previous current : snapshot) : list BehaviorChangeSignal :=
  let p := _service_name (sn_service previous) in
  let c := _service_name (sn_service current) in
  if str_nonempty p && str_nonempty c && negb (String.eqb p c)
  then [mkSignal "service" (VText (sn_service previous)) (VText (sn_service current)) 25 "high"
          "classified service identity changed"]
  else [].

Definition role_signal (previous current : snapshot) : list BehaviorChangeSignal :=
  let p := lower_or_unknown (sn_service_role previous) in
  let c := lower_or_unknown (sn_service_role current) in
  if String.eqb p c then []
  else
    let critical_boundary := negb (String.eqb (_role_class p) (_role_class c)) in
    [mkSignal "service_role" (VText p) (VText c) (if critical_boundary then 30 else 12)
       (if critical_boundary then "high" else "medium")
       ("service role changed from " +:+ p +:+ " to " +:+ c)%string].

(** [field.replace('_', ' ')] is in the summary; [before] and [after] are the
    values of the field. *)
Definition _risk_signal (field : string) (before after high_delta medium_delta : Z)
    : list BehaviorChangeSignal :=
  let delta := Z.abs (after - before) in
  if delta <? medium_delta then []
  else
    let high := high_delta <=? delta in
    let direction := (if Z.ltb before after then "increased" else "decreased")%string in
    [mkSignal field (VInt before) (VInt after) (if high then 22 else 10)
       (if high then "high" else "medium")
       (str_replace "_"%char " "%char field +:+ " " +:+ direction +:+ " from " +:+ pretty before
          +:+ " to " +:+ pretty after)%string].

Definition primary_tag_signal (previous current : snapshot) : list BehaviorChangeSignal :=
  let p := str_or (sn_primary_tag previous) "unknown" in
  let c := str_or (sn_primary_tag current) "unknown" in
  if String.eqb p c then []
  else [mkSignal "primary_tag" (VText p) (VText c) 10 "medium"
          ("primary tag changed from " +:+ p +:+ " to " +:+ c)%string].

(** The two sets as duplicate-free lists; [_tags] normalises a list as
    [_normalize_tags] does. *)
Definition tags_signal (previous current : snapshot) : list BehaviorChangeSignal :=
  let p := _normalize_tags (sn_tags previous) in
  let c := _normalize_tags (sn_tags current) in
  let inter := Z.of_nat (length (filter (λ t, t ∈ c) p)) in
  let union := Z.of_nat (length p) + Z.of_nat (length c) - inter in
  let same := forallb (λ t, bool_decide (t ∈ c)) p && forallb (λ t, bool_decide (t ∈ p)) c in
  if bool_decide (p = []) || bool_decide (c = []) || same then []
  else if 4 * inter <? union
  then [mkSignal "tags" (VTags (sort_by str_leb p)) (VTags (sort_by str_leb c)) 18 "high"
          "tag set changed substantially"]
  else if 5 * inter <? 3 * union
  then [mkSignal "tags" (VTags (sort_by str_leb p)) (VTags (sort_by str_leb c)) 8 "medium"
          "tag set changed materially"]
  else [].

Definition compare_signals (previous current : snapshot) : list BehaviorChangeSignal :=
  policy_signal previous current ++ service_signal previous current ++ role_signal previous current ++
  _risk_signal "security_risk" (sn_security_risk previous) (sn_security_risk current) 25 12 ++
  _risk_signal "privacy_risk" (sn_privacy_risk previous) (sn_privacy_risk current) 30 15 ++
  _risk_signal "breakage_risk" (sn_breakage_risk previous) (sn_breakage_risk current) 30 15 ++
  primary_tag_signal previous current ++ tags_signal previous current.

Definition _stable_signature (s : snapshot) : string * string * string * list string :=
  (lower_or_unknown (sn_policy s), _service_name (sn_service s), lower_or_unknown (sn_service_role s),
   sort_by str_leb (_normalize_tags (sn_tags s))).

Definition _baseline_consistency (baseline : snapshot) (history : list snapshot) : Q :=
  let selected := take 5 history in
  match selected with
  | [] => 0
  | _ => zq (Z.of_nat (length (filter (λ s, _stable_signature s = _stable_signature baseline) selected)))
         / zq (Z.of_nat (length selected))
  end.

(** The three tests of [hard_review]. *)
Definition hard_signal (s : BehaviorChangeSignal) : bool :=
  (String.eqb (sg_field s) "policy" && String.eqb (sg_severity s) "high") ||
  (String.eqb (sg_field s) "service_role" && String.eqb (sg_severity s) "high") ||
  (String.eqb (sg_field s) "security_risk" &&
   match sg_current s, sg_previous s with
   | VInt c, VInt p => 25 <=? c - p
   | _, _ => false
   end).

Definition signal_leb (a b : BehaviorChangeSignal) : bool :=
  (sg_score b <? sg_score a) || (sg_score a =? sg_score b) && str_leb (sg_field a) (sg_field b).

Definition _compare_snapshots (domain : string) (previous current : snapshot) (history : list snapshot)
    : BehaviorChangeReport :=
  let signals := compare_signals previous current in
  let score := Z.min 100 (sumZ sg_score signals) in
  let hard_review := existsb hard_signal signals in
  let requires_review := hard_review || (35 <=? score) in
  mkReport domain true score (_severity score) requires_review (sn_id previous) (sn_created_at previous)
    (sn_provider previous) (sn_model previous) (sn_profile previous)
    (_baseline_consistency previous history) (sort_by signal_leb signals).

Definition behavior_change_for_classification (c : Classification) (d : db) : BehaviorChangeReport :=
  let domain := _normalize_domain (cl_domain c) in
  match _primary_history domain 6 d with
  | [] => report_without_comparison domain false 0 0
  | previous :: _ as rows => _compare_snapshots domain previous (_classification_snapshot c) rows
  end.

Definition historical_behavior_change (domain : string) (d : db) : BehaviorChangeReport :=
  let normalized := _normalize_domain domain in
  match _primary_history normalized (6 + 1) d with
  | [] => report_without_comparison normalized false 0 0
  | [row] => report_without_comparison normalized true (sn_id row) (sn_created_at row)
  | current :: (previous :: _) as history => _compare_snapshots normalized previous current history
  end.

(** The way both guards extend a review reason. *)
Definition extend_reason (existing reason : string) : string :=
  if str_nonempty existing
  then if str_contains reason existing then existing
       else (existing +:+ " " +:+ reason)%string
  else reason.

Definition apply_behavior_change_guard (c : Classification) (d : db) : Classification :=
  let selected := behavior_change_for_classification c d in
  if negb (bc_requires_review selected) then c
  else replace_review c true (extend_reason (cl_review_reason c) (report_review_reason selected)).

(** * Compatibility profiles *)

Record CompatibilityProfile := mkProfile {
  pf_profile_id : string;
  pf_name : string;
  pf_description : string;
  pf_service_role : ServiceRole;
  pf_min_breakage_risk : Z;
  pf_protection : string;
  pf_exact_domains : list string;
  pf_suffix_domains : list string;
  pf_reason : string;
  pf_source_url : string
}.

Record CompatibilityMatch := mkMatch {
  cm_profile : CompatibilityProfile;
  cm_matched_pattern : string;
  cm_match_type : string
}.

Definition profile_matches (normalized : string) (p : CompatibilityProfile) : list CompatibilityMatch :=
  ((λ e, mkMatch p e "exact") <$> filter (λ e, normalized = e) (pf_exact_domains p)) ++
  ((λ s, mkMatch p s "suffix") <$>
     filter (λ s, (String.eqb normalized s || str_endswith normalized ("." +:+ s)%string) = true)
       (pf_suffix_domains p)).

Definition role_order (r : ServiceRole) : Z :=
  match r with ROLE_CORE => 0 | ROLE_SHARED => 1 | ROLE_OPTIONAL => 2 | ROLE_UNKNOWN => 3 end.

Definition match_key (m : CompatibilityMatch) : Z * Z * Z * Z * string :=
  ((if String.eqb (cm_match_type m) "exact" then 0 else 1), role_order (pf_service_role (cm_profile m)),
   - pf_min_breakage_risk (cm_profile m), - Z.of_nat (String.length (cm_matched_pattern m)),
   str_casefold (pf_profile_id (cm_profile m))).

(** Tuples are compared from the left. *)
Definition match_leb (a b : CompatibilityMatch) : bool :=
  let '(a1, a2, a3, a4, a5) := match_key a in
  let '(b1, b2, b3, b4, b5) := match_key b in
  (a1 <? b1) || (a1 =? b1) && ((a2 <? b2) || (a2 =? b2) && ((a3 <? b3) || (a3 =? b3) &&
    ((a4 <? b4) || (a4 =? b4) && str_leb a5 b5))).

Definition compatibility_matches (profiles : list CompatibilityProfile) (domain : string)
    : list CompatibilityMatch :=
  let normalized := _normalize_domain domain in
  if negb (str_nonempty normalized) then []
  else sort_by match_leb (profiles ≫= profile_matches normalized).

Definition compatibility_match_for_domain (profiles : list CompatibilityProfile) (domain : string)
    : option CompatibilityMatch :=
  match compatibility_matches profiles domain with m :: _ => Some m | [] => None end.

Definition role_strength (r : ServiceRole) : Z :=
  match r with ROLE_CORE => 3 | ROLE_SHARED => 2 | ROLE_OPTIONAL => 1 | ROLE_UNKNOWN => 0 end.

Definition _stronger_service_role (current profile : ServiceRole) : ServiceRole :=
  if role_strength current <? role_strength profile then profile else current.

Definition compatibility_reason (m : CompatibilityMatch) : string :=
  ("Protected compatibility profile '" +:+ pf_name (cm_profile m) +:+ "' matched " +:+
     cm_matched_pattern m +:+ ". " +:+ pf_reason (cm_profile m))%string.

(** The [replace] of [apply_compatibility_profile]. *)
Definition enrich (m : CompatibilityMatch) (c : Classification) : Classification :=
  let p := cm_profile m in
  let guarded := String.eqb (pf_protection p) "deny_requires_review" && bool_decide (cl_policy c = DENY) in
  mkClassification (cl_domain c) (cl_policy c) (cl_category c) (cl_short c) (cl_details c)
    (cl_provider c) (cl_tags c) (str_or (cl_service c) (pf_name p))
    (_stronger_service_role (cl_service_role c) (pf_service_role p)) (cl_privacy_risk c)
    (cl_security_risk c) (Z.max (cl_breakage_risk c) (pf_min_breakage_risk p)) (cl_confidence c)
    (if guarded then true else cl_needs_review c)
    (if guarded then extend_reason (cl_review_reason c) (compatibility_reason m) else cl_review_reason c)
    (cl_recheck_after_days c) (cl_raw_text c).

Definition apply_compatibility_profile (profiles : list CompatibilityProfile) (c : Classification) (d : db)
    : Classification :=
  match compatibility_match_for_domain profiles (cl_domain c) with
  | None => apply_behavior_change_guard c d
  | Some m => apply_behavior_change_guard (enrich m c) d
  end.

(** * Extending a reason *)

#[local] Arguments str_startswith : simpl never.

Lemma str_startswith_refl s : str_startswith s s = true.
Proof. unfold str_startswith. induction s as [|c s IH]; simpl; [done|]. destruct (ascii_dec c c); [apply IH|congruence]. Qed.

Lemma str_contains_refl s : str_contains s s = true.
Proof. destruct s; [done|]. simpl. by rewrite str_startswith_refl. Qed.

Lemma str_startswith_app s p t : str_startswith s p = true → str_startswith (s +:+ t) p = true.
Proof.
  unfold str_startswith. revert s. induction p as [|c p IH]; intros [|c' s]; simpl; try done;
    [by destruct t|].
  destruct (ascii_dec c c'); [apply IH|done].
Qed.

Lemma str_contains_app_l r s t : str_contains r s = true → str_contains r (s +:+ t)%string = true.
Proof.
  induction s as [|c s IH]; simpl.
  - rewrite orb_false_r. destruct r; [|done]. intros _. by destruct t.
  - intros [H|H]%orb_true_iff; apply orb_true_iff; [left|right; by apply IH].
    by apply (str_startswith_app (String c s)).
Qed.

Lemma str_contains_app_r r s t : str_contains r t = true → str_contains r (s +:+ t)%string = true.
Proof. intros H. induction s as [|c s IH]; [done|]. simpl. by rewrite IH, orb_true_r. Qed.

Lemma extend_reason_contains e r : str_contains r (extend_reason e r) = true.
Proof.
  unfold extend_reason. destruct (str_nonempty e); [|apply str_contains_refl].
  destruct (str_contains r e) eqn:E; [done|]. apply str_contains_app_r, str_contains_app_r, str_contains_refl.
Qed.

Lemma extend_reason_keeps e r x :
  str_nonempty x = true → str_contains x e = true → str_contains x (extend_reason e r) = true.
Proof.
  intros Hx H. unfold extend_reason. destruct e as [|c e].
  - simpl in H. rewrite orb_false_r in H. by destruct x.
  - cbn [str_nonempty]. destruct (str_contains r _); [done|]. by apply str_contains_app_l.
Qed.

Lemma extend_reason_id e r : str_contains r e = true → extend_reason e r = e.
Proof.
  unfold extend_reason. destruct e as [|c e]; [|by intros ->].
  simpl. rewrite orb_false_r. by destruct r.
Qed.

(** * The guards *)

Lemma guard_spec c d :
  let r := behavior_change_for_classification c d in
  apply_behavior_change_guard c d =
  replace_review c (cl_needs_review c || bc_requires_review r)
    (if bc_requires_review r then extend_reason (cl_review_reason c) (report_review_reason r)
     else cl_review_reason c).
Proof.
  intros r. unfold apply_behavior_change_guard. fold r.
  destruct (bc_requires_review r); simpl; rewrite ?orb_true_r, ?orb_false_r; [done|].
  by destruct c.
Qed.

(** The report does not look at the review columns. *)
Lemma report_replace_review c b s d :
  behavior_change_for_classification (replace_review c b s) d = behavior_change_for_classification c d.
Proof. done. Qed.

Lemma replace_review_twice c b s b' s' :
  replace_review (replace_review c b s) b' s' = replace_review c b' s'.
Proof. done. Qed.

Lemma guard_idemp c d :
  apply_behavior_change_guard (apply_behavior_change_guard c d) d = apply_behavior_change_guard c d.
Proof.
  rewrite !guard_spec, !report_replace_review. set (r := behavior_change_for_classification c d).
  unfold replace_review. simpl. f_equal.
  - by destruct (cl_needs_review c), (bc_requires_review r).
  - destruct (bc_requires_review r); [|done]. apply extend_reason_id, extend_reason_contains.
Qed.

Lemma stronger_role_idemp a b : _stronger_service_role (_stronger_service_role a b) b = _stronger_service_role a b.
Proof. by destruct a, b. Qed.

Lemma enrich_replace_review m c b s :
  enrich m (replace_review c b s) =
  let guarded := String.eqb (pf_protection (cm_profile m)) "deny_requires_review" && bool_decide (cl_policy c = DENY) in
  replace_review (enrich m c) (if guarded then true else b)
    (if guarded then extend_reason s (compatibility_reason m) else s).
Proof. done. Qed.

Lemma enrich_idemp_review m c :
  let guarded := String.eqb (pf_protection (cm_profile m)) "deny_requires_review" && bool_decide (cl_policy c = DENY) in
  enrich m (enrich m c) =
  replace_review (enrich m c) (cl_needs_review (enrich m c))
    (if guarded then extend_reason (cl_review_reason (enrich m c)) (compatibility_reason m)
     else cl_review_reason (enrich m c)).
Proof.
  intros guarded. unfold enrich at 1, replace_review. simpl. fold guarded. f_equal.
  - unfold str_or. destruct (str_nonempty (cl_service c)) eqn:E; [by rewrite E|]. by destruct (pf_name _).
  - apply stronger_role_idemp.
  - lia.
  - by destruct guarded.
Qed.

Lemma compatibility_reason_nonempty m : str_nonempty (compatibility_reason m) = true.
Proof. done. Qed.

(** One pass of both guards, as a change of the enriched classification. *)
Lemma guard_after_enrich_idemp m c d :
  apply_behavior_change_guard (enrich m (apply_behavior_change_guard (enrich m c) d)) d =
  apply_behavior_change_guard (enrich m c) d.
Proof.
  set (e := enrich m c). set (r := behavior_change_for_classification e d).
  set (guarded := String.eqb (pf_protection (cm_profile m)) "deny_requires_review" && bool_decide (cl_policy c = DENY)).
  assert (guarded = true → str_contains (compatibility_reason m) (cl_review_reason e) = true) as Hin.
  { intros Hg. unfold e, enrich. simpl. fold guarded. rewrite Hg. apply extend_reason_contains. }
  assert (guarded = true → cl_needs_review e = true) as Hneed.
  { intros Hg. unfold e, enrich. simpl. fold guarded. by rewrite Hg. }
  assert (enrich m (apply_behavior_change_guard e d) = apply_behavior_change_guard e d) as ->;
    [|apply guard_idemp].
  rewrite guard_spec. fold r. rewrite enrich_replace_review. unfold e at 3. rewrite enrich_idemp_review.
  fold e guarded. change (cl_policy e) with (cl_policy c). fold guarded.
  rewrite replace_review_twice. f_equal.
  - destruct guarded; [|done]. by rewrite Hneed.
  - destruct guarded; [|done]. apply extend_reason_id.
    destruct (bc_requires_review r); [apply extend_reason_keeps|]; auto using compatibility_reason_nonempty.
Qed.

(** * The latest primary run *)

Definition primary_of (n : string) (r : run_row) : Prop := rr_domain r = n ∧ rr_is_primary r = true.

(** [r] is a primary run of [n] and no primary run of [n] comes after it. *)
Definition latest_primary (n : string) (d : db) (r : run_row) : Prop :=
  r ∈ classification_runs d ∧ primary_of n r ∧
  ∀ r', r' ∈ classification_runs d → primary_of n r' → r' = r ∨ history_leb r' r = false.

Lemma history_leb_total a b : history_leb a b = true ∨ history_leb b a = true.
Proof. unfold history_leb. rewrite !orb_true_iff, !andb_true_iff, !Z.ltb_lt, !Z.eqb_eq, !Z.leb_le. lia. Qed.

Lemma history_leb_trans a b c : history_leb a b = true → history_leb b c = true → history_leb a c = true.
Proof. unfold history_leb. rewrite !orb_true_iff, !andb_true_iff, !Z.ltb_lt, !Z.eqb_eq, !Z.leb_le. lia. Qed.

Lemma latest_primary_head n d r limit :
  n ≠ ""%string → latest_primary n d r → ∃ rest, _primary_history n limit d = row_snapshot r :: rest.
Proof.
  intros Hn (Hin & Hp & Hmax). unfold _primary_history.
  destruct (str_nonempty n) eqn:E; [|by destruct n]. cbn [negb].
  set (l := filter _ (classification_runs d)).
  assert (r ∈ sort_by history_leb l) as Hr.
  { rewrite elem_of_sort_by. by apply list_elem_of_filter. }
  pose proof (sort_by_sorted history_leb history_leb_total history_leb_trans l) as Hs.
  destruct (sort_by history_leb l) as [|x xs] eqn:El; [by apply not_elem_of_nil in Hr|].
  replace (Z.to_nat (Z.max 1 limit)) with (S (Nat.pred (Z.to_nat (Z.max 1 limit)))) by lia.
  simpl. assert (x = r) as ->; [|eauto].
  assert (x ∈ l) as Hx by (rewrite <-(elem_of_sort_by history_leb), El; left).
  apply list_elem_of_filter in Hx as [Hpx Hx].
  destruct (Hmax x Hx Hpx) as [?|Hlt]; [done|].
  apply elem_of_cons in Hr as [->|Hr]; [done|]. inversion Hs as [|? ? _ Hall]; subst.
  rewrite Forall_forall in Hall. rewrite (Hall r Hr) in Hlt. done.
Qed.

Lemma report_of_latest c d r :
  let n := _normalize_domain (cl_domain c) in
  n ≠ ""%string → latest_primary n d r →
  ∃ rest, behavior_change_for_classification c d =
          _compare_snapshots n (row_snapshot r) (_classification_snapshot c) rest.
Proof.
  intros n Hn Hl. destruct (latest_primary_head n d r 6 Hn Hl) as [rest E].
  unfold behavior_change_for_classification. fold n. rewrite E. eauto.
Qed.

(** * What demands a review *)

(** The three changes that always demand a review: the policy flips between
    allow and deny, the service crosses the boundary of the protected roles,
    or the security risk rises by 25 or more. *)
Definition significant_change (r : run_row) (c : Classification) : Prop :=
  (rr_policy r = "allow"%string ∧ cl_policy c = DENY) ∨
  (rr_policy r = "deny"%string ∧ cl_policy c = ALLOW) ∨
  _role_class (lower_or_unknown (rr_service_role r)) ≠ _role_class (role_value (cl_service_role c)) ∨
  rr_security_risk r + 25 ≤ cl_security_risk c.

Lemma significant_change_hard r c :
  significant_change r c →
  existsb hard_signal (compare_signals (row_snapshot r) (_classification_snapshot c)) = true.
Proof.
  intros H. apply existsb_exists. unfold compare_signals, significant_change in *.
  destruct H as [[Hr Hc]|[[Hr Hc]|[Hrole|Hsec]]].
  - eexists. split; [apply in_or_app; left; unfold policy_signal; simpl; rewrite Hr, Hc; simpl; by left|done].
  - eexists. split; [apply in_or_app; left; unfold policy_signal; simpl; rewrite Hr, Hc; simpl; by left|done].
  - set (p := lower_or_unknown (rr_service_role r)) in *.
    assert (lower_or_unknown (role_value (cl_service_role c)) = role_value (cl_service_role c)) as Hv
      by (by destruct (cl_service_role c)).
    eexists. split.
    + apply in_or_app; right; apply in_or_app; right; apply in_or_app; left.
      unfold role_signal. simpl. rewrite Hv. fold p.
      destruct (String.eqb p _) eqn:E; [apply String.eqb_eq in E; congruence|].
      destruct (String.eqb (_role_class p) _) eqn:E'; [apply String.eqb_eq in E'; congruence|]. by left.
    + done.
  - eexists. split.
    + do 3 (apply in_or_app; right). apply in_or_app; left. unfold _risk_signal. simpl.
      destruct (Z.abs _ <? 12) eqn:E; [apply Z.ltb_lt in E; lia|]. by left.
    + unfold hard_signal. simpl. apply Z.leb_le. lia.
Qed.

Lemma guards_need_review profiles c d :
  cl_needs_review c = true ∨
    bc_requires_review (behavior_change_for_classification
      (match compatibility_match_for_domain profiles (cl_domain c) with
       | Some m => enrich m c | None => c end) d) = true →
  cl_needs_review (apply_compatibility_profile profiles c d) = true.
Proof.
  unfold apply_compatibility_profile.
  destruct (compatibility_match_for_domain _ _) as [m|]; rewrite guard_spec; cbn [cl_needs_review replace_review];
    intros [H|H]; rewrite orb_true_iff; auto.
  left. unfold enrich. cbn [cl_needs_review]. by destruct (_ && _).
Qed.

(** * A profile match *)

Lemma match_from_profiles profiles domain m :
  compatibility_match_for_domain profiles domain = Some m →
  cm_profile m ∈ profiles.
Proof.
  unfold compatibility_match_for_domain, compatibility_matches.
  destruct (negb _); [done|].
  destruct (sort_by match_leb _) as [|m' ms] eqn:E; [done|]. intros [= ->].
  assert (m ∈ profiles ≫= profile_matches (_normalize_domain domain)) as Hm
    by (rewrite <-(elem_of_sort_by match_leb), E; left).
  apply list_elem_of_bind in Hm as (p & Hm & Hp).
  unfold profile_matches in Hm. apply elem_of_app in Hm as [Hm|Hm];
    apply list_elem_of_fmap in Hm as (x & -> & _); done.
Qed.

Lemma match_exists profiles domain p :
  let n := _normalize_domain domain in
  n ≠ ""%string → p ∈ profiles →
  (n ∈ pf_exact_domains p ∨
   ∃ s, s ∈ pf_suffix_domains p ∧ (n = s ∨ str_endswith n ("." +:+ s) = true)) →
  is_Some (compatibility_match_for_domain profiles domain).
Proof.
  intros n Hn Hp Hm. unfold compatibility_match_for_domain, compatibility_matches. fold n.
  destruct (str_nonempty n) eqn:E; [|by destruct n]. cbn [negb].
  assert (∃ m, m ∈ profiles ≫= profile_matches n) as [m Hin].
  { assert (∃ m, m ∈ profile_matches n p) as [m Hm'].
    { destruct Hm as [He|(s & Hs & Hd)].
      - exists (mkMatch p n "exact"). unfold profile_matches. apply elem_of_app. left.
        apply list_elem_of_fmap. exists n. split; [done|]. by apply list_elem_of_filter.
      - exists (mkMatch p s "suffix"). unfold profile_matches. apply elem_of_app. right.
        apply list_elem_of_fmap. exists s. split; [done|]. apply list_elem_of_filter. split; [|done].
        destruct Hd as [->|Hd]; [by rewrite String.eqb_refl|]. apply orb_true_iff. by right. }
    exists m. apply list_elem_of_bind. eauto. }
  destruct (sort_by match_leb _) as [|m' ms] eqn:Es; [|eauto].
  rewrite <-(elem_of_sort_by match_leb), Es in Hin. by apply not_elem_of_nil in Hin.
Qed.

(** The classification the behavior guard looks at. *)
Definition enriched (profiles : list CompatibilityProfile) (c : Classification) : Classification :=
  match compatibility_match_for_domain profiles (cl_domain c) with Some m => enrich m c | None => c end.

Lemma risk_signal_same f v hi med : 0 < med → _risk_signal f v v hi med = [].
Proof.
  intros H. unfold _risk_signal. replace (Z.abs (v - v)) with 0 by lia.
  destruct (0 <? med) eqn:E; [done|]. apply Z.ltb_ge in E. lia.
Qed.

Lemma risk_clamp_id z : percent_ok z → _risk z = z.
Proof. unfold percent_ok, _risk. lia. Qed.

(** Saving a classification and seeing it again can at most differ in tags. *)
Lemma repeat_signals id now n c a :
  percent_ok (cl_privacy_risk c) → percent_ok (cl_security_risk c) → percent_ok (cl_breakage_risk c) →
  compare_signals (row_snapshot (new_run_row id now n c a)) (_classification_snapshot c) =
  tags_signal (row_snapshot (new_run_row id now n c a)) (_classification_snapshot c).
Proof.
  intros Hp Hs Hb. unfold compare_signals.
  assert (∀ x : string, String.eqb x x = true) as Heq by (intros; apply String.eqb_refl).
  unfold policy_signal, service_signal, role_signal, primary_tag_signal. simpl.
  rewrite !Heq, !risk_clamp_id by done. simpl. rewrite andb_false_r, !risk_signal_same by lia. done.
Qed.

Lemma tags_signal_weak p c : existsb hard_signal (tags_signal p c) = false ∧ sumZ sg_score (tags_signal p c) ≤ 18.
Proof.
  unfold tags_signal. cbv zeta. destruct (_ || _); [split; [done|unfold sumZ; simpl; lia]|].
  destruct (_ <? _); [split; [done|unfold sumZ; simpl; lia]|].
  destruct (_ <? _); (split; [done|unfold sumZ; simpl; lia]).
Qed.

(** ** Properties *)

(** The two guards are idempotent: guarding a classification that was
    already guarded against the same history changes nothing, so no review
    reason is repeated. *)
Theorem protection_guards_are_idempotent profiles c d :
  apply_compatibility_profile profiles (apply_compatibility_profile profiles c d) d =
  apply_compatibility_profile profiles c d.
Proof.
  unfold apply_compatibility_profile at 2 3.
  destruct (compatibility_match_for_domain profiles (cl_domain c)) as [m|] eqn:E;
    unfold apply_compatibility_profile; rewrite guard_spec; cbn [cl_domain replace_review enrich]; rewrite E;
    rewrite <-guard_spec.
  - apply guard_after_enrich_idemp.
  - apply guard_idemp.
Qed.

(** When the latest primary run of the domain said the opposite, when the
    service crosses the boundary of the protected roles, or when the security
    risk rises by 25 points or more, the guarded classification asks for a
    human review; the guards never drop a review request, never lower the
    breakage risk or the service role, and never change the recommendation,
    the tags or the confidence. *)
Theorem behavior_change_demands_review profiles c d r :
  let g := apply_compatibility_profile profiles c d in
  _normalize_domain (cl_domain c) ≠ ""%string →
  latest_primary (_normalize_domain (cl_domain c)) d r →
  significant_change r (enriched profiles c) →
  cl_needs_review g = true ∧ cl_policy g = cl_policy c ∧ cl_tags g = cl_tags c ∧
  cl_confidence g = cl_confidence c ∧ cl_breakage_risk c ≤ cl_breakage_risk g ∧
  role_strength (cl_service_role c) ≤ role_strength (cl_service_role g).
Proof.
  intros g Hn Hl Hs. split.
  - apply guards_need_review. right. fold (enriched profiles c).
    assert (cl_domain (enriched profiles c) = cl_domain c) as Hd
      by (unfold enriched; by destruct (compatibility_match_for_domain _ _)).
    destruct (report_of_latest (enriched profiles c) d r) as [rest ->]; rewrite ?Hd; [done|done|].
    simpl. by rewrite significant_change_hard.
  - unfold g, apply_compatibility_profile.
    destruct (compatibility_match_for_domain _ _) as [m|]; rewrite guard_spec; simpl; [|done].
    split_and!; try done; [lia|]. unfold _stronger_service_role. destruct (_ <? _) eqn:E; [|done].
    apply Z.ltb_lt in E. lia.
Qed.
Lemma behavior_change_demands_review_witness :
  let d := (save_classification_run 100
              (mkClassification "Ads.example" ALLOW "ads" "s" "d" "p" [] "" ROLE_UNKNOWN 0 0 0 1 false "" 30 "")
              (ex_run_args "" "" true) db_empty).2 in
  cl_needs_review (apply_compatibility_profile [] ex_classification d) = true.
Proof.
  intros d.
  eapply (behavior_change_demands_review [] ex_classification d
    (new_run_row 1 100 "ads.example"
      (mkClassification "Ads.example" ALLOW "ads" "s" "d" "p" [] "" ROLE_UNKNOWN 0 0 0 1 false "" 30 "")
      (ex_run_args "" "" true))).
  - by vm_compute.
  - assert (classification_runs d = [new_run_row 1 100 "ads.example"
      (mkClassification "Ads.example" ALLOW "ads" "s" "d" "p" [] "" ROLE_UNKNOWN 0 0 0 1 false "" 30 "")
      (ex_run_args "" "" true)]) as Hr by (vm_compute; reflexivity).
    split; [rewrite Hr; left|]. split; [split; vm_compute; reflexivity|].
    intros r'. rewrite Hr. intros ->%list_elem_of_singleton _. by left.
  - left. split; vm_compute; reflexivity.
Defined.

(** A classification that repeats the latest primary run of its domain
    (with risks in range) is never sent to review by the behavior guard. *)
Theorem repeated_classification_needs_no_review c d id now a :
  let n := _normalize_domain (cl_domain c) in
  n ≠ ""%string →
  percent_ok (cl_privacy_risk c) → percent_ok (cl_security_risk c) → percent_ok (cl_breakage_risk c) →
  latest_primary n d (new_run_row id now n c a) →
  apply_behavior_change_guard c d = c.
Proof.
  intros n Hn Hp Hs Hb Hl. destruct (report_of_latest c d _ Hn Hl) as [rest E].
  assert (bc_requires_review (behavior_change_for_classification c d) = false) as Hr.
  { rewrite E. unfold _compare_snapshots. rewrite repeat_signals by done. simpl. fold n.
    destruct (tags_signal_weak (row_snapshot (new_run_row id now n c a)) (_classification_snapshot c)) as [-> Hle].
    simpl. apply Z.leb_gt. lia. }
  unfold apply_behavior_change_guard. by rewrite Hr.
Qed.
Lemma repeated_classification_needs_no_review_witness :
  let d := (save_classification_run 100 ex_classification (ex_run_args "" "" true) db_empty).2 in
  apply_behavior_change_guard ex_classification d = ex_classification.
Proof.
  intros d.
  assert (classification_runs d = [new_run_row 1 100 "ads.example" ex_classification (ex_run_args "" "" true)])
    as Hr by (vm_compute; reflexivity).
  apply (repeated_classification_needs_no_review ex_classification d 1 100 (ex_run_args "" "" true));
    try (split; vm_compute; discriminate); [by vm_compute|].
  split; [rewrite Hr; left|]. split; [split; vm_compute; reflexivity|].
  intros r'. rewrite Hr. intros ->%list_elem_of_singleton _. by left.
Defined.

(** The score of an unchanged classification need not be zero: the saved tags
    include the category, the compared ones do not. *)
Example unchanged_classification_scores :
  let c := mkClassification "a.com" ALLOW "cdn" "s" "d" "p" ["media"]%string "" ROLE_UNKNOWN 0 0 0 1 false "" 30 "" in
  let d := (save_classification_run 100 c (ex_run_args "" "" true) db_empty).2 in
  bc_score (behavior_change_for_classification c d) = 8.
Proof. vm_compute. reflexivity. Qed.
