(* ===== verification/PiHole.v ===== *)
(** The boundary to Pi-hole: [pihole_manager/pihole_service.py] (exact
    domains), [pihole_rules.py] and [application/managed_rules.py] (regex rules
    and subscribed lists) and the change journal with rollback of
    [pihole_audit.py].

    The Pi-hole server is not part of the sources: reached through the client of
    [Connection.v] and [Api.v], it is the interface [PiHoleServer], whose laws
    [PiHoleLaws] state what its REST API documents. *)
From stdpp Require Import base gmap strings list sorting.
From Stdlib Require Import Ascii QArith Sorted.
From S2P Require Import Prelude Models Database Queue ReviewDb Behavior.
Open Scope Z_scope.

(** * The server *)

(** A resource of the server; [kind] is [exact_domain], [regex_domain] or
    [subscribed_list], and a domain is identified by kind, type and text. *)
Record remote_row := RemoteRow {
  rm_key : string;
  rm_type : string;
  rm_comment : string;
  rm_enabled : bool;
  rm_groups : list Z
}.

Class PiHoleServer (srv : Type) := {
  ph_rows : string → string → srv → result exn (list remote_row);
  ph_add : string → string → string → option string → list Z → bool → srv → result exn srv;
  ph_update : string → string → string → option string → list Z → bool → srv → result exn srv;
  ph_delete : string → string → string → srv → result exn srv
}.

(** * Snapshots *)

Record rule_snapshot := RuleSnapshot {
  ss_key : string;
  ss_type : string;
  ss_comment : string;
  ss_enabled : bool;
  ss_groups : option (list Z)
}.
#[export] Instance rule_snapshot_eq_dec : EqDecision rule_snapshot.
Proof. solve_decision. Defined.

Definition _normalize_groups (groups : list Z) : list Z := sort_by Z.leb (fromkeys groups).

Definition normalize_snapshot (resource_type resource_key : string) (s : option rule_snapshot)
    : option rule_snapshot :=
  match s with
  | None => None
  | Some s => Some (RuleSnapshot (str_or (ss_key s) resource_key) (str_or (ss_type s) resource_type)
                      (ss_comment s) (ss_enabled s) (_normalize_groups <$> ss_groups s))
  end.

Definition snapshot_of_row (r : remote_row) : rule_snapshot :=
  RuleSnapshot (rm_key r) (rm_type r) (rm_comment r) (rm_enabled r) (Some (rm_groups r)).

(** [expected[key] is None] skips a field, which only [groups] can be. *)
Definition _snapshot_matches (current expected : option rule_snapshot) : bool :=
  match current, expected with
  | None, None => true
  | Some c, Some e =>
      String.eqb (ss_key c) (ss_key e) && String.eqb (ss_type c) (ss_type e) &&
      String.eqb (ss_comment c) (ss_comment e) && Bool.eqb (ss_enabled c) (ss_enabled e) &&
      match ss_groups e with
      | None => true
      | Some g => bool_decide (ss_groups c = Some g)
      end
  | _, _ => false
  end.

(** * The journal *)

Record PiHoleAuditEntry := AuditEntry {
  ae_id : Z;
  ae_instance_id : string;
  ae_instance_name : string;
  ae_instance_url : string;
  ae_operation : string;
  ae_resource_kind : string;
  ae_resource_type : string;
  ae_resource_key : string;
  ae_before : option rule_snapshot;
  ae_after : option rule_snapshot;
  ae_reversible : bool;
  ae_related_entry_id : option Z;
  ae_rolled_back_at : option Z;
  ae_rollback_error : string;
  ae_created_at : Z
}.

Definition _SUPPORTED_KINDS : list string := ["exact_domain"; "regex_domain"; "subscribed_list"]%string.

(** What the functions of this file read and write.  [w_instance] is the
    result of [_instance_context()]; [w_audit_ok] tells whether the journal
    database can be opened and written. *)
Record world (srv : Type) := World {
  w_server : srv;
  w_db : db;
  w_audit : list PiHoleAuditEntry;
  w_last_audit : Z;
  w_instance : string * string * string;
  w_audit_ok : bool;
  w_profiles : list CompatibilityProfile;
  w_notices : list string
}.
Arguments World {srv}.
Arguments w_server {srv}.
Arguments w_db {srv}.
Arguments w_audit {srv}.
Arguments w_last_audit {srv}.
Arguments w_instance {srv}.
Arguments w_audit_ok {srv}.
Arguments w_profiles {srv}.
Arguments w_notices {srv}.

Section World.
Context {srv : Type}.
Implicit Types w : world srv.

Definition set_server (s : srv) w : world srv :=
  World s (w_db w) (w_audit w) (w_last_audit w) (w_instance w) (w_audit_ok w) (w_profiles w) (w_notices w).
Definition set_db (d : db) w : world srv :=
  World (w_server w) d (w_audit w) (w_last_audit w) (w_instance w) (w_audit_ok w) (w_profiles w) (w_notices w).
Definition set_audit (l : list PiHoleAuditEntry) (last : Z) w : world srv :=
  World (w_server w) (w_db w) l last (w_instance w) (w_audit_ok w) (w_profiles w) (w_notices w).
Definition add_notice (s : string) w : world srv :=
  World (w_server w) (w_db w) (w_audit w) (w_last_audit w) (w_instance w) (w_audit_ok w) (w_profiles w)
    (w_notices w ++ [s]).
End World.

Abbreviation wprog srv := (prog (world srv) exn).

Section Service.
Context {srv : Type} `{PiHoleServer srv}.
Context (now : Z).

(** A call of the client: the server's new state, or its exception. *)
Definition remote (call : srv → result exn srv) : wprog srv unit :=
  λ w, match call (w_server w) with Ok s => (Ok tt, set_server s w) | Err e => (Err e, w) end.

(** ** Recording a change *)

Definition default_reversible (operation : string) (before : option rule_snapshot) : bool :=
  String.eqb operation "add" ||
  (String.eqb operation "update" || String.eqb operation "delete") && bool_decide (is_Some before).

Definition record_pihole_change (operation kind ty key : string) (before after : option rule_snapshot)
    : wprog srv (option Z) := λ w,
  if negb (bool_decide (kind ∈ _SUPPORTED_KINDS)) then (Ok None, w)
  else
    let before := normalize_snapshot ty key before in
    let after := normalize_snapshot ty key after in
    let '(iid, iname, iurl) := w_instance w in
    if w_audit_ok w then
      let id := w_last_audit w + 1 in
      (Ok (Some id), set_audit (w_audit w ++
         [AuditEntry id iid iname iurl operation kind ty key before after
            (default_reversible operation before) None None "" now]) id w)
    else (Ok None, w).

(** The type the fetch function of a kind asks for, when it accepts it. *)
Definition fetch_type (kind ty : string) : option string :=
  let normalized := if String.eqb kind "exact_domain" then ty else str_lower (str_strip ty) in
  let other := if String.eqb kind "subscribed_list" then "block"%string else "deny"%string in
  if String.eqb normalized "allow" || String.eqb normalized other then Some normalized else None.

(** A failed fetch looks like a missing resource. *)
Definition capture_pihole_snapshot (kind ty key : string) (w : world srv) : option rule_snapshot :=
  if negb (bool_decide (kind ∈ _SUPPORTED_KINDS)) then None
  else match fetch_type kind ty with None => None | Some fetched =>
       match ph_rows kind fetched (w_server w) with
       | Err _ => None
       | Ok rows =>
           match list_find (λ r, rm_key r = key) rows with
           | Some (_, r) => normalize_snapshot ty key (Some (snapshot_of_row r))
           | None => None
           end
       end
       end.

(** ** Changing resources *)

Definition text_or_none (s : string) : option string := if str_nonempty s then Some s else None.

Definition after_snapshot (key ty comment : string) (groups : option (list Z)) (enabled : bool) :=
  Some (RuleSnapshot key ty comment enabled groups).

(** The shared shape of the add, update and delete operations. *)
Definition add_resource (kind ty key comment : string) (groups : option (list Z)) (enabled : bool)
    : wprog srv unit :=
  _ ← remote (ph_add kind ty key (text_or_none comment) (default [] groups) enabled);
  _ ← record_pihole_change "add" kind ty key None (after_snapshot key ty comment groups enabled);
  mret tt.

Definition update_resource (kind ty key comment : string) (groups : list Z) (enabled : bool)
    : wprog srv unit :=
  before ← prog_read (capture_pihole_snapshot kind ty key);
  _ ← remote (ph_update kind ty key (text_or_none comment) groups enabled);
  _ ← record_pihole_change "update" kind ty key before (after_snapshot key ty comment (Some groups) enabled);
  mret tt.

Definition delete_resource (kind ty key : string) : wprog srv unit :=
  before ← prog_read (capture_pihole_snapshot kind ty key);
  _ ← remote (ph_delete kind ty key);
  _ ← record_pihole_change "delete" kind ty key before None;
  mret tt.

(** ** Exact domains *)

Definition add_exact_domain (domain policy comment : string) (compatibility_override : bool)
    : wprog srv unit :=
  if negb (String.eqb policy "allow" || String.eqb policy "deny")
  then prog_raise (ValueError "policy must be allow or deny")
  else
    lock ← prog_read (λ w, get_domain_lock domain (w_db w));
    match lock with
    | Some l =>
        if negb (String.eqb (lk_list_type l) policy)
        then prog_raise (RuntimeError ("Domain is protected in the " +:+ lk_list_type l +:+
               " list and cannot be added to " +:+ policy +:+ ".")%string)
        else mret tt
    | None => mret tt
    end;;
    compatibility ← prog_read (λ w, compatibility_match_for_domain (w_profiles w) domain);
    match compatibility with
    | Some m =>
        if String.eqb policy "deny" && negb compatibility_override
        then prog_raise (RuntimeError ("Domain matches protected compatibility profile '" +:+
               pf_name (cm_profile m) +:+ "' (" +:+ cm_matched_pattern m +:+
               "). Blocking requires an explicit compatibility override. " +:+
               pf_reason (cm_profile m))%string)
        else mret tt
    | None => mret tt
    end;;
    add_resource "exact_domain" policy domain comment None true.

Definition delete_exact_domain (domain domain_type : string) : wprog srv unit :=
  if negb (String.eqb domain_type "allow" || String.eqb domain_type "deny")
  then prog_raise (ValueError "domain_type must be 'allow' or 'deny'")
  else
    lock ← prog_read (λ w, get_domain_lock domain (w_db w));
    match lock with
    | Some l =>
        if String.eqb (lk_list_type l) domain_type
        then prog_raise (RuntimeError "Domain is protected and cannot be removed until it is unlocked.")
        else delete_resource "exact_domain" domain_type domain
    | None => delete_resource "exact_domain" domain_type domain
    end.

Definition update_exact_domain_groups (domain domain_type : string) (groups : list Z) (comment : string)
    (enabled : bool) : wprog srv unit :=
  if negb (String.eqb domain_type "allow" || String.eqb domain_type "deny")
  then prog_raise (ValueError "domain_type must be 'allow' or 'deny'")
  else update_resource "exact_domain" domain_type domain comment (_normalize_groups groups) enabled.

Definition update_subscribed_list_groups (address list_type : string) (groups : list Z) (comment : string)
    (enabled : bool) : wprog srv unit :=
  if negb (String.eqb list_type "allow" || String.eqb list_type "block")
  then prog_raise (ValueError "list_type must be 'allow' or 'block'")
  else update_resource "subscribed_list" list_type address comment (_normalize_groups groups) enabled.
End Service.

(** * Rolling a change back *)

Section Rollback.
Context {srv : Type} `{PiHoleServer srv}.
Context (now : Z).

Definition get_pihole_audit_entry (entry_id : Z) (w : world srv) : option PiHoleAuditEntry :=
  match list_find (λ e, ae_id e = entry_id) (w_audit w) with Some (_, e) => Some e | None => None end.

(** [ORDER BY created_at DESC, id DESC LIMIT ?] *)
Definition list_pihole_audit (limit : Z) (w : world srv) : list PiHoleAuditEntry :=
  take (Z.to_nat (Z.max 1 (Z.min 5000 limit)))
    (sort_by (λ a b, (ae_created_at b <? ae_created_at a) ||
                     (ae_created_at a =? ae_created_at b) && (ae_id b <=? ae_id a)) (w_audit w)).

Definition _apply_rollback (e : PiHoleAuditEntry) : wprog srv unit :=
  let kind := ae_resource_kind e in
  let ty := ae_resource_type e in
  let key := ae_resource_key e in
  if String.eqb (ae_operation e) "add" then remote (ph_delete kind ty key)
  else match ae_before e with
       | None => prog_raise (RuntimeError "The audit entry has no previous state to restore.")
       | Some s =>
           let groups := match ss_groups s with None => [] | Some g => _normalize_groups g end in
           if String.eqb (ae_operation e) "delete"
           then remote (ph_add kind ty key (text_or_none (ss_comment s)) groups (ss_enabled s))
           else remote (ph_update kind ty key (text_or_none (ss_comment s)) groups (ss_enabled s))
       end.

Definition update_entry (id : Z) (f : PiHoleAuditEntry → PiHoleAuditEntry) (w : world srv) : world srv :=
  set_audit ((λ e, if ae_id e =? id then f e else e) <$> w_audit w) (w_last_audit w) w.

Definition with_rollback_error (error : string) (e : PiHoleAuditEntry) : PiHoleAuditEntry :=
  AuditEntry (ae_id e) (ae_instance_id e) (ae_instance_name e) (ae_instance_url e) (ae_operation e)
    (ae_resource_kind e) (ae_resource_type e) (ae_resource_key e) (ae_before e) (ae_after e)
    (ae_reversible e) (ae_related_entry_id e) (ae_rolled_back_at e) (str_take 2000 error) (ae_created_at e).

Definition rolled_back (e : PiHoleAuditEntry) : PiHoleAuditEntry :=
  AuditEntry (ae_id e) (ae_instance_id e) (ae_instance_name e) (ae_instance_url e) (ae_operation e)
    (ae_resource_kind e) (ae_resource_type e) (ae_resource_key e) (ae_before e) (ae_after e)
    (ae_reversible e) (ae_related_entry_id e) (Some now) "" (ae_created_at e).

Definition rollback_entry (id : Z) (e : PiHoleAuditEntry) : PiHoleAuditEntry :=
  AuditEntry id (ae_instance_id e) (ae_instance_name e) (ae_instance_url e) "rollback"
    (ae_resource_kind e) (ae_resource_type e) (ae_resource_key e) (ae_after e) (ae_before e)
    false (Some (ae_id e)) None "" now.

Definition exn_text (e : exn) : string :=
  match e with
  | ValueError m | RuntimeError m | IntegrityError m | InvalidManagedRule m | ManagedRuleConflict m
  | OtherError m => m
  end.

Definition is_slash (c : Ascii.ascii) : bool := Ascii.eqb c "/"%char.

Definition switch_message (e : PiHoleAuditEntry) : string :=
  ("Switch to Pi-hole instance '" +:+ ae_instance_name e +:+ "' before rolling this change back.")%string.

Definition unavailable_journal : exn := OtherError "unable to open database file".

(** The guards of [rollback_pihole_audit], in the order of the code. *)
Definition rollback_guard (w : world srv) (entry : option PiHoleAuditEntry) : result exn PiHoleAuditEntry :=
  match entry with
  | None => Err (ValueError "Audit entry was not found.")
  | Some e =>
      let '(current_id, _, current_url) := w_instance w in
      if negb (ae_reversible e) || negb (bool_decide (ae_operation e ∈ ["add"; "update"; "delete"]%string))
      then Err (RuntimeError "This audit entry cannot be rolled back.")
      else if negb (default 0 (ae_rolled_back_at e) =? 0)
      then Err (RuntimeError "This change has already been rolled back.")
      else if str_nonempty (ae_instance_id e) && str_nonempty current_id &&
              negb (String.eqb (ae_instance_id e) current_id)
      then Err (RuntimeError (switch_message e))
      else if negb (String.eqb (rstrip is_slash (ae_instance_url e)) (rstrip is_slash current_url))
      then Err (RuntimeError (switch_message e))
      else
        let current := capture_pihole_snapshot (ae_resource_kind e) (ae_resource_type e) (ae_resource_key e) w in
        let expected := if String.eqb (ae_operation e) "delete" then None else ae_after e in
        if negb (_snapshot_matches current expected)
        then Err (RuntimeError ("The Pi-hole resource changed after this audit entry. Rollback was refused " +:+
                    "to avoid overwriting a newer change.")%string)
        else Ok e
  end.

Definition rollback_pihole_audit (entry_id : Z) : wprog srv Z := λ w,
  if negb (w_audit_ok w) then (Err unavailable_journal, w)
  else match rollback_guard w (get_pihole_audit_entry entry_id w) with
       | Err x => (Err x, w)
       | Ok e =>
           match _apply_rollback e w with
           | (Err x, w1) => (Err x, update_entry (ae_id e) (with_rollback_error (exn_text x)) w1)
           | (Ok _, w1) =>
               let w2 := update_entry (ae_id e) rolled_back w1 in
               let id := w_last_audit w2 + 1 in
               (Ok id, set_audit (w_audit w2 ++ [rollback_entry id e]) id w2)
           end
       end.
End Rollback.

(** * Managed rules *)

Record ManagedRuleQuery := mkRuleQuery { mq_kind : string; mq_rule_type : string }.

Record ManagedRuleMutationCommand := mkRuleCommand {
  mc_operation : string;
  mc_kind : string;
  mc_value : string;
  mc_rule_type : string;
  mc_comment : string;
  mc_groups : option (list Z);
  mc_enabled : bool
}.

Record ManagedRuleMutationResult := mkRuleResult {
  mr_kind : string; mr_operation : string; mr_value : string; mr_rule_type : string; mr_applied : bool
}.

(** The operations the application service is given. *)
Record ManagedRulePorts (S : Type) := mkRulePorts {
  mp_fetch_regex_domains : string → prog S exn (list remote_row);
  mp_add_regex_domain : string → string → string → option (list Z) → bool → prog S exn unit;
  mp_update_regex_domain : string → string → string → option (list Z) → bool → prog S exn unit;
  mp_delete_regex_domain : string → string → prog S exn unit;
  mp_fetch_subscribed_lists : string → prog S exn (list remote_row);
  mp_add_subscribed_list : string → string → string → option (list Z) → bool → prog S exn unit;
  mp_update_subscribed_list : string → string → string → option (list Z) → bool → prog S exn unit;
  mp_delete_subscribed_list : string → string → prog S exn unit
}.
Arguments mp_fetch_regex_domains {S}.
Arguments mp_add_regex_domain {S}.
Arguments mp_update_regex_domain {S}.
Arguments mp_delete_regex_domain {S}.
Arguments mp_fetch_subscribed_lists {S}.
Arguments mp_add_subscribed_list {S}.
Arguments mp_update_subscribed_list {S}.
Arguments mp_delete_subscribed_list {S}.

Section ManagedRules.
Context {S : Type} (ports : ManagedRulePorts S).

Definition _validate_kind (raw : string) : result exn string :=
  let kind := str_lower (str_strip raw) in
  if String.eqb kind "regex_domain" || String.eqb kind "subscribed_list" then Ok kind
  else Err (InvalidManagedRule "kind must be regex_domain or subscribed_list").

Definition valid_rule_types (kind : string) : list string :=
  if String.eqb kind "regex_domain" then ["allow"; "deny"]%string else ["allow"; "block"]%string.

Definition _validate_rule_type (kind raw : string) : result exn string :=
  let rule_type := str_lower (str_strip raw) in
  if bool_decide (rule_type ∈ valid_rule_types kind) then Ok rule_type
  else Err (InvalidManagedRule ("rule_type for " +:+ kind +:+ " must be " +:+
              str_join " or " (sort_by str_leb (valid_rule_types kind)))%string).

(** [except RuntimeError as exc: raise ManagedRuleConflict(str(exc))] *)
Definition as_conflict {A} (m : prog S exn A) : prog S exn A := λ s,
  match m s with
  | (Err (RuntimeError msg), s') => (Err (ManagedRuleConflict msg), s')
  | r => r
  end.

Definition prog_lift {A} (r : result exn A) : prog S exn A := λ s, (r, s).

Definition fetch (q : ManagedRuleQuery) : prog S exn (list remote_row) :=
  kind ← prog_lift (_validate_kind (mq_kind q));
  rule_type ← prog_lift (_validate_rule_type kind (mq_rule_type q));
  as_conflict (if String.eqb kind "regex_domain" then mp_fetch_regex_domains ports rule_type
               else mp_fetch_subscribed_lists ports rule_type).

Definition _mutate_regex (operation value rule_type comment : string) (groups : option (list Z))
    (enabled : bool) : prog S exn unit :=
  if String.eqb operation "add" then mp_add_regex_domain ports value rule_type comment groups enabled
  else if String.eqb operation "update"
  then mp_update_regex_domain ports value rule_type comment groups enabled
  else mp_delete_regex_domain ports value rule_type.

Definition _mutate_subscription (operation value rule_type comment : string) (groups : option (list Z))
    (enabled : bool) : prog S exn unit :=
  if String.eqb operation "add" then mp_add_subscribed_list ports value rule_type comment groups enabled
  else if String.eqb operation "update"
  then mp_update_subscribed_list ports value rule_type comment groups enabled
  else mp_delete_subscribed_list ports value rule_type.

Definition execute (c : ManagedRuleMutationCommand) : prog S exn ManagedRuleMutationResult :=
  let operation := str_lower (str_strip (mc_operation c)) in
  if negb (bool_decide (operation ∈ ["add"; "update"; "delete"]%string))
  then prog_raise (InvalidManagedRule "operation must be add, update, or delete")
  else
    kind ← prog_lift (_validate_kind (mc_kind c));
    rule_type ← prog_lift (_validate_rule_type kind (mc_rule_type c));
    let value := if String.eqb operation "add" then str_strip (mc_value c) else mc_value c in
    if String.eqb operation "add" && negb (str_nonempty value)
    then prog_raise (InvalidManagedRule
           ((if String.eqb kind "regex_domain" then "regex domain" else "list address")
              +:+ " must not be empty")%string)
    else
      _ ← as_conflict
            (if String.eqb kind "regex_domain"
             then _mutate_regex operation value rule_type (mc_comment c) (mc_groups c) (mc_enabled c)
             else _mutate_subscription operation value rule_type (mc_comment c) (mc_groups c) (mc_enabled c));
      mret (mkRuleResult kind operation value rule_type true).
End ManagedRules.

(** The wiring of [pihole_rules.py]. *)
Section Rules.
Context {srv : Type} `{PiHoleServer srv}.
Context (now : Z).

Definition fetch_rows (kind ty : string) : wprog srv (list remote_row) := λ w,
  (ph_rows kind ty (w_server w), w).

Definition add_rule (kind value ty comment : string) (groups : option (list Z)) (enabled : bool)
    : wprog srv unit :=
  add_resource now kind ty (str_strip value) comment (Some (_normalize_groups (default [] groups))) enabled.

Definition update_rule (kind value ty comment : string) (groups : option (list Z)) (enabled : bool)
    : wprog srv unit :=
  update_resource now kind ty value comment (_normalize_groups (default [] groups)) enabled.

Definition delete_rule (kind value ty : string) : wprog srv unit := delete_resource now kind ty value.

Definition _add_regex_domain_impl (domain domain_type comment : string) (groups : option (list Z)) (enabled : bool)
    : wprog srv unit := add_rule "regex_domain" domain domain_type comment groups enabled.
Definition _update_regex_domain_impl (domain domain_type comment : string) (groups : option (list Z)) (enabled : bool)
    : wprog srv unit := update_rule "regex_domain" domain domain_type comment groups enabled.
Definition _delete_regex_domain_impl (domain domain_type : string) : wprog srv unit :=
  delete_rule "regex_domain" domain domain_type.

Definition _add_subscribed_list_impl (address list_type comment : string) (groups : option (list Z)) (enabled : bool)
    : wprog srv unit := add_rule "subscribed_list" address list_type comment groups enabled.
Definition _update_subscribed_list_impl (address list_type comment : string) (groups : option (list Z)) (enabled : bool)
    : wprog srv unit := update_rule "subscribed_list" address list_type comment groups enabled.
Definition _delete_subscribed_list_impl (address list_type : string) : wprog srv unit :=
  delete_rule "subscribed_list" address list_type.

Definition _application_service : ManagedRulePorts (world srv) :=
  mkRulePorts _ (fetch_rows "regex_domain") _add_regex_domain_impl _update_regex_domain_impl _delete_regex_domain_impl
    (fetch_rows "subscribed_list") _add_subscribed_list_impl _update_subscribed_list_impl _delete_subscribed_list_impl.

Definition execute_managed_rule_mutation (c : ManagedRuleMutationCommand)
    : wprog srv ManagedRuleMutationResult := execute _application_service c.

Definition fetch_managed_rules (q : ManagedRuleQuery) : wprog srv (list remote_row) :=
  fetch _application_service q.

Definition fetch_regex_domains (domain_type : string) : wprog srv (list remote_row) :=
  fetch_managed_rules (mkRuleQuery "regex_domain" domain_type).

(** The operations on one kind; the value they return is Pi-hole's answer, which
    is left out. *)
Definition mutate_rule (operation kind value rule_type comment : string) (groups : option (list Z)) (enabled : bool)
    : wprog srv unit :=
  execute_managed_rule_mutation (mkRuleCommand operation kind value rule_type comment groups enabled);; mret tt.

Definition add_regex_domain (domain domain_type comment : string) (groups : option (list Z)) (enabled : bool) : wprog srv unit :=
  mutate_rule "add" "regex_domain" domain domain_type comment groups enabled.
Definition update_regex_domain (domain domain_type comment : string) (groups : option (list Z)) (enabled : bool) : wprog srv unit :=
  mutate_rule "update" "regex_domain" domain domain_type comment groups enabled.
Definition delete_regex_domain (domain domain_type : string) : wprog srv unit :=
  mutate_rule "delete" "regex_domain" domain domain_type "" None true.

Definition fetch_subscribed_lists (list_type : string) : wprog srv (list remote_row) :=
  fetch_managed_rules (mkRuleQuery "subscribed_list" list_type).
Definition add_subscribed_list (address list_type comment : string) (groups : option (list Z)) (enabled : bool) : wprog srv unit :=
  mutate_rule "add" "subscribed_list" address list_type comment groups enabled.
Definition update_subscribed_list (address list_type comment : string) (groups : option (list Z)) (enabled : bool) : wprog srv unit :=
  mutate_rule "update" "subscribed_list" address list_type comment groups enabled.
Definition delete_subscribed_list (address list_type : string) : wprog srv unit :=
  mutate_rule "delete" "subscribed_list" address list_type "" None true.

Definition fetch_exact_domains (domain_type : string) : wprog srv (list remote_row) := λ w,
  if negb (String.eqb domain_type "allow" || String.eqb domain_type "deny")
  then (Err (ValueError "domain_type must be 'allow' or 'deny'"), w)
  else (ph_rows "exact_domain" domain_type (w_server w), w).
End Rules.

(** * What the server promises *)

Section Laws.
Context (srv : Type) `{PiHoleServer srv}.

Definition server_row (kind ty key : string) (s : srv) : option remote_row :=
  match ph_rows kind ty s with
  | Ok rows => snd <$> list_find (λ r, rm_key r = key) rows
  | Err _ => None
  end.

(** The row of a resource that was just written. *)
Definition written (ty key : string) (comment : option string) (groups : list Z) (enabled : bool)
    (r : remote_row) : Prop :=
  rm_key r = key ∧ (rm_type r = ""%string ∨ rm_type r = ty) ∧ rm_comment r = default ""%string comment ∧
  rm_enabled r = enabled ∧ _normalize_groups (rm_groups r) = _normalize_groups groups.

(** Reading back what was written or deleted; the rows of a list carry its
    type. *)
Class PiHoleLaws : Prop := {
  law_rows_type : ∀ kind ty key s r, server_row kind ty key s = Some r →
    rm_type r = ""%string ∨ rm_type r = ty;
  law_add : ∀ kind ty key c g b s s', ph_add kind ty key c g b s = Ok s' →
    ∃ r, server_row kind ty key s' = Some r ∧ written ty key c g b r;
  law_update : ∀ kind ty key c g b s s', ph_update kind ty key c g b s = Ok s' →
    ∃ r, server_row kind ty key s' = Some r ∧ written ty key c g b r;
  law_delete : ∀ kind ty key s s', ph_delete kind ty key s = Ok s' →
    server_row kind ty key s' = None
}.
End Laws.

(** ** Groups *)

#[local] Instance zleb_antisymm : AntiSymm (=) (λ a b, (a <=? b) = true).
Proof. intros x y Hx%Z.leb_le Hy%Z.leb_le. lia. Qed.

Lemma normalize_groups_sorted g : StronglySorted (λ a b, (a <=? b) = true) (_normalize_groups g).
Proof. apply sort_by_sorted; intros; rewrite !Z.leb_le in *; lia. Qed.

Lemma normalize_groups_idemp g : _normalize_groups (_normalize_groups g) = _normalize_groups g.
Proof.
  apply (StronglySorted_unique (λ a b, (a <=? b) = true)); [apply normalize_groups_sorted..|].
  unfold _normalize_groups at 1. rewrite sort_by_Permutation, fromkeys_id; [done|].
  unfold _normalize_groups. rewrite sort_by_Permutation. apply fromkeys_NoDup.
Qed.

Section RollbackFacts.
Context {srv : Type} `{PiHoleServer srv} {L : PiHoleLaws srv}.
Implicit Types w : world srv.

(** A kind and a type the fetch functions accept as they are. *)
Definition valid_resource (kind ty : string) : Prop :=
  kind ∈ _SUPPORTED_KINDS ∧ fetch_type kind ty = Some ty ∧ str_nonempty ty = true.

Lemma capture_row kind ty key w :
  valid_resource kind ty →
  capture_pihole_snapshot kind ty key w =
    (snapshot_of_row <$> server_row srv kind ty key (w_server w)) ≫=
      λ s, normalize_snapshot ty key (Some s).
Proof.
  intros (Hk & Ht & _). unfold capture_pihole_snapshot, server_row.
  rewrite bool_decide_eq_true_2, Ht by done. simpl.
  destruct (ph_rows kind ty (w_server w)) as [rows|e]; [|done].
  by destruct (list_find _ rows) as [[i r]|].
Qed.

Lemma capture_written kind ty key w r c g b :
  valid_resource kind ty → str_nonempty key = true →
  server_row srv kind ty key (w_server w) = Some r → written ty key c g b r →
  capture_pihole_snapshot kind ty key w =
    Some (RuleSnapshot key ty (default ""%string c) b (Some (_normalize_groups g))).
Proof.
  intros Hv Hkey Hr (Hk & Ht & Hc & Hb & Hg). rewrite capture_row by done. rewrite Hr. simpl.
  rewrite Hk, Hc, Hb, Hg. unfold str_or. rewrite Hkey.
  destruct Hv as (_ & _ & Hne). by destruct Ht as [->| ->]; rewrite ?Hne.
Qed.

Lemma capture_shape kind ty key w s :
  valid_resource kind ty → str_nonempty key = true → capture_pihole_snapshot kind ty key w = Some s →
  ∃ c b g, s = RuleSnapshot key ty c b (Some (_normalize_groups g)).
Proof using L.
  intros Hv Hkey. rewrite capture_row by done.
  destruct (server_row srv kind ty key (w_server w)) as [r|] eqn:Er; [|done]. simpl. intros [= <-].
  assert (rm_key r = key) as Hrk.
  { unfold server_row in Er. destruct (ph_rows _ _ _) as [rows|]; [|done].
    apply fmap_Some in Er as ([i r'] & Hf & ->). apply list_find_Some in Hf as (_ & Hk & _). done. }
  exists (rm_comment r), (rm_enabled r), (rm_groups r). unfold str_or. rewrite Hrk, Hkey.
  destruct Hv as (_ & _ & Hne). by destruct (law_rows_type srv _ _ _ _ _ Er) as [->| ->]; rewrite ?Hne.
Qed.

Lemma text_or_none_default s : default ""%string (text_or_none s) = s.
Proof. unfold text_or_none. by destruct s. Qed.

Lemma snapshot_matches_refl s : _snapshot_matches (Some s) (Some s) = true.
Proof.
  unfold _snapshot_matches. rewrite !String.eqb_refl, eqb_reflx. simpl.
  destruct (ss_groups s); [|done]. by apply bool_decide_eq_true_2.
Qed.
End RollbackFacts.

(** * Changes and their reversal *)

Inductive change :=
  | ChAdd (comment : string) (groups : option (list Z)) (enabled : bool)
  | ChUpdate (comment : string) (groups : list Z) (enabled : bool)
  | ChDelete.

Section Changes.
Context {srv : Type} `{PiHoleServer srv}.
Implicit Types w : world srv.

Definition run_change (now : Z) (kind ty key : string) (c : change) : wprog srv unit :=
  match c with
  | ChAdd comment groups enabled => add_resource now kind ty key comment groups enabled
  | ChUpdate comment groups enabled => update_resource now kind ty key comment groups enabled
  | ChDelete => delete_resource now kind ty key
  end.

Definition change_call (kind ty key : string) (c : change) : srv → result exn srv :=
  match c with
  | ChAdd comment groups enabled => ph_add kind ty key (text_or_none comment) (default [] groups) enabled
  | ChUpdate comment groups enabled => ph_update kind ty key (text_or_none comment) groups enabled
  | ChDelete => ph_delete kind ty key
  end.

Definition change_name (c : change) : string :=
  match c with ChAdd _ _ _ => "add" | ChUpdate _ _ _ => "update" | ChDelete => "delete" end.

(** The state a change leaves, as the journal records it (an addition without
    groups records none), and the state it found: nothing for an addition,
    something for the other two. *)
Definition change_after (ty key : string) (c : change) : option rule_snapshot :=
  match c with
  | ChAdd comment groups enabled => Some (RuleSnapshot key ty comment enabled (_normalize_groups <$> groups))
  | ChUpdate comment groups enabled =>
      Some (RuleSnapshot key ty comment enabled (Some (_normalize_groups groups)))
  | ChDelete => None
  end.
Definition change_applies (c : change) (before : option rule_snapshot) : Prop :=
  match c with ChAdd _ _ _ => before = None | _ => is_Some before end.

(** The journal's ids grow up to its counter. *)
Definition journal_ok w : Prop := ids_ok (ae_id <$> w_audit w) (w_last_audit w).

(** The server takes the reverse call. *)
Definition reversal_accepted (e : PiHoleAuditEntry) w : Prop :=
  (_apply_rollback e w).1 = Ok tt.
End Changes.

Section ChangeFacts.
Context {srv : Type} `{PiHoleServer srv} {L : PiHoleLaws srv}.
Implicit Types w : world srv.

Definition entry_of (now id : Z) (kind ty key : string) (c : change) (before : option rule_snapshot) w :=
  AuditEntry id (w_instance w).1.1 (w_instance w).1.2 (w_instance w).2 (change_name c) kind ty key
    before (change_after ty key c) true None None "" now.

Lemma run_change_spec now kind ty key c w w1 :
  valid_resource kind ty → str_nonempty key = true → w_audit_ok w = true →
  change_applies c (capture_pihole_snapshot kind ty key w) →
  run_change now kind ty key c w = (Ok tt, w1) →
  ∃ s, change_call kind ty key c (w_server w) = Ok s ∧
    w1 = set_audit (w_audit w ++ [entry_of now (w_last_audit w + 1) kind ty key c
           (capture_pihole_snapshot kind ty key w) w]) (w_last_audit w + 1) (set_server s w).
Proof using L.
  intros Hv Hkey Hok Hap. pose proof Hv as (Hk & Hft & Hne). unfold entry_of.
  pose proof (capture_shape kind ty key w) as Hshape.
  unfold run_change, change_call, add_resource, update_resource, delete_resource, remote,
    record_pihole_change, after_snapshot.
  destruct c as [cm g b|cm g b|]; simpl in Hap; cbv [mbind prog_bind prog_read mret prog_ret].
  - destruct (ph_add _ _ _ _ _ _ _) as [s|e]; [|done]. rewrite bool_decide_eq_true_2 by done. simpl.
    destruct (w_instance w) as [[iid iname] iurl] eqn:Ei. rewrite Hok. intros [= <-]. exists s.
    split; [done|]. rewrite Hap. simpl. unfold str_or. by rewrite Hkey, Hne.
  - destruct (ph_update _ _ _ _ _ _ _) as [s|e]; [|done]. rewrite bool_decide_eq_true_2 by done. simpl.
    destruct (w_instance w) as [[iid iname] iurl] eqn:Ei. rewrite Hok. intros [= <-]. exists s.
    split; [done|]. destruct Hap as [sn Hsn]. rewrite Hsn in *.
    destruct (Hshape sn Hv Hkey eq_refl) as (cm' & b' & g' & ->). simpl. unfold str_or.
    by rewrite Hkey, Hne, normalize_groups_idemp.
  - destruct (ph_delete _ _ _ _) as [s|e]; [|done]. rewrite bool_decide_eq_true_2 by done. simpl.
    destruct (w_instance w) as [[iid iname] iurl] eqn:Ei. rewrite Hok. intros [= <-]. exists s.
    split; [done|]. destruct Hap as [sn Hsn]. rewrite Hsn in *.
    destruct (Hshape sn Hv Hkey eq_refl) as (cm' & b' & g' & ->). simpl. unfold str_or.
    by rewrite Hkey, Hne, normalize_groups_idemp.
Qed.

(** Right after the change the server shows what the journal recorded. *)
Lemma capture_after_change kind ty key c w s w1 :
  valid_resource kind ty → str_nonempty key = true →
  change_call kind ty key c (w_server w) = Ok s → w_server w1 = s →
  _snapshot_matches (capture_pihole_snapshot kind ty key w1) (change_after ty key c) = true.
Proof using L.
  intros Hv Hkey Hc <-. destruct c as [cm g b|cm g b|]; simpl in *.
  - destruct (law_add srv _ _ _ _ _ _ _ _ Hc) as (r & Hr & Hw).
    rewrite (capture_written _ _ _ _ _ _ _ _ Hv Hkey Hr Hw), text_or_none_default.
    destruct g as [g|]; [apply snapshot_matches_refl|]. simpl. by rewrite !String.eqb_refl, eqb_reflx.
  - destruct (law_update srv _ _ _ _ _ _ _ _ Hc) as (r & Hr & Hw).
    rewrite (capture_written _ _ _ _ _ _ _ _ Hv Hkey Hr Hw), text_or_none_default. apply snapshot_matches_refl.
  - rewrite capture_row by done. by rewrite (law_delete srv _ _ _ _ _ Hc).
Qed.

Lemma find_entry id l e :
  ids_ok (ae_id <$> l) id → ae_id e = id + 1 →
  list_find (λ x, ae_id x = id + 1) (l ++ [e]) = Some (length l, e).
Proof.
  intros [_ Hle] He. rewrite list_find_app_r.
  - simpl. by rewrite decide_True.
  - apply list_find_None, Forall_forall. intros x Hx Hid.
    rewrite Forall_forall in Hle. specialize (Hle (ae_id x)). rewrite Hid in Hle.
    enough (id + 1 ≤ id) by lia. apply Hle. apply list_elem_of_fmap. eauto.
Qed.

(** The reverse call restores what was there. *)
Lemma reversal_restores now id kind ty key c w w1 w2 :
  valid_resource kind ty → str_nonempty key = true →
  change_applies c (capture_pihole_snapshot kind ty key w) →
  _apply_rollback (entry_of now id kind ty key c (capture_pihole_snapshot kind ty key w) w) w1 = (Ok tt, w2) →
  capture_pihole_snapshot kind ty key w2 = capture_pihole_snapshot kind ty key w ∧
  w_audit w2 = w_audit w1 ∧ w_last_audit w2 = w_last_audit w1.
Proof using L.
  intros Hv Hkey Hap. pose proof (capture_shape kind ty key w) as Hshape.
  unfold _apply_rollback, entry_of, remote. destruct c as [cm g b|cm g b|]; simpl in *.
  - destruct (ph_delete _ _ _ _) as [s|] eqn:E; [|done]. intros [= <-]. split; [|done].
    rewrite Hap, capture_row by done. simpl. by rewrite (law_delete srv _ _ _ _ _ E).
  - destruct Hap as [sn Hsn]. rewrite Hsn. destruct (Hshape sn Hv Hkey Hsn) as (cm' & b' & g' & ->). simpl.
    destruct (ph_update _ _ _ _ _ _ _) as [s|] eqn:E; [|done]. intros [= <-]. split; [|done].
    destruct (law_update srv _ _ _ _ _ _ _ _ E) as (r & Hr & Hw).
    rewrite (capture_written _ _ _ (set_server s w1) _ _ _ _ Hv Hkey Hr Hw).
    by rewrite text_or_none_default, !normalize_groups_idemp.
  - destruct Hap as [sn Hsn]. rewrite Hsn. destruct (Hshape sn Hv Hkey Hsn) as (cm' & b' & g' & ->). simpl.
    destruct (ph_add _ _ _ _ _ _ _) as [s|] eqn:E; [|done]. intros [= <-]. split; [|done].
    destruct (law_add srv _ _ _ _ _ _ _ _ E) as (r & Hr & Hw).
    rewrite (capture_written _ _ _ (set_server s w1) _ _ _ _ Hv Hkey Hr Hw).
    by rewrite text_or_none_default, !normalize_groups_idemp.
Qed.
End ChangeFacts.

(** * A concrete server

    A table of resources; it refuses to update or delete what is not there. *)
Abbreviation map_server := (gmap (string * string * string) (string * list Z * bool)).

Definition map_rows (kind ty : string) (s : map_server) : list remote_row :=
  (λ p, RemoteRow p.1.2 ty p.2.1.1 p.2.2 p.2.1.2) <$>
    filter (λ p : string * string * string * (string * list Z * bool), p.1.1.1 = kind ∧ p.1.1.2 = ty)
      (map_to_list s).

#[export] Instance map_server_ops : PiHoleServer map_server := {
  ph_rows kind ty s := Ok (map_rows kind ty s);
  ph_add kind ty key c g b s := Ok (<[(kind, ty, key) := (default ""%string c, g, b)]> s);
  ph_update kind ty key c g b s :=
    match s !! (kind, ty, key) with
    | Some _ => Ok (<[(kind, ty, key) := (default ""%string c, g, b)]> s)
    | None => Err (OtherError "not found")
    end;
  ph_delete kind ty key s :=
    match s !! (kind, ty, key) with
    | Some _ => Ok (delete (kind, ty, key) s)
    | None => Err (OtherError "not found")
    end
}.

Lemma map_server_row (kind ty key : string) (s : map_server) :
  server_row map_server kind ty key s =
  (λ v : string * list Z * bool, RemoteRow key ty v.1.1 v.2 v.1.2) <$> s !! (kind, ty, key).
Proof.
  unfold server_row. cbn [ph_rows map_server_ops].
  destruct (list_find _ _) as [[i r]|] eqn:Ef; simpl.
  - apply list_find_Some in Ef as (Hi & Hk & _). apply list_elem_of_lookup_2 in Hi.
    apply list_elem_of_fmap in Hi as ([[[k t] y] v] & -> & Hp).
    apply list_elem_of_filter in Hp as [[E1 E2] Hp]. simpl in *. subst.
    apply elem_of_map_to_list in Hp. by rewrite Hp.
  - destruct (s !! _) as [v|] eqn:Es; [|done]. apply list_find_None in Ef.
    rewrite Forall_forall in Ef. destruct (Ef (RemoteRow key ty v.1.1 v.2 v.1.2)); [|done].
    apply list_elem_of_fmap. exists ((kind, ty, key), v). split; [done|].
    apply list_elem_of_filter. split; [done|]. by apply elem_of_map_to_list.
Qed.

#[export] Instance map_server_laws : PiHoleLaws map_server.
Proof.
  split.
  - intros kind ty key s r. rewrite map_server_row. intros (v & _ & ->)%fmap_Some. by right.
  - intros kind ty key c g b s s' [= <-]. rewrite map_server_row, lookup_insert_eq. simpl.
    eexists. split; [done|]. split_and!; auto.
  - intros kind ty key c g b s s'. simpl. destruct (s !! _) eqn:E; [|done]. intros [= <-].
    rewrite map_server_row, lookup_insert_eq. simpl. eexists. split; [done|]. split_and!; auto.
  - intros kind ty key s s'. simpl. destruct (s !! _) eqn:E; [|done]. intros [= <-].
    by rewrite map_server_row, lookup_delete_eq.
Qed.

Definition ex_world (s : map_server) : world map_server :=
  World s db_empty [] 0 ("", "Home", "http://pi.hole")%string true [] [].

Section RollbackSteps.
Context {srv : Type} `{PiHoleServer srv} {L : PiHoleLaws srv}.
Implicit Types w : world srv.

(** The guards let a fresh journal entry through. *)
Lemma guard_after_change now kind ty key c before w s :
  valid_resource kind ty → str_nonempty key = true →
  change_call kind ty key c (w_server w) = Ok s →
  let e := entry_of now (w_last_audit w + 1) kind ty key c before w in
  let w1 := set_audit (w_audit w ++ [e]) (w_last_audit w + 1) (set_server s w) in
  rollback_guard w1 (Some e) = Ok e.
Proof using L.
  intros Hv Hkey Hcall e w1.
  assert (_snapshot_matches (capture_pihole_snapshot (ae_resource_kind e) (ae_resource_type e) (ae_resource_key e) w1)
          (if String.eqb (ae_operation e) "delete" then None else ae_after e) = true) as Hcap.
  { etransitivity; [|exact (capture_after_change kind ty key c w s w1 Hv Hkey Hcall eq_refl)]. by destruct c. }
  unfold rollback_guard. rewrite Hcap. unfold w1 at 1. simpl.
  destruct (w_instance w) as [[iid iname] iurl] eqn:Ei. simpl.
  rewrite !String.eqb_refl, andb_false_r. simpl.
  rewrite bool_decide_eq_true_2 by (destruct c; simpl; set_solver). done.
Qed.

(** The marked entry is the one found again under its id. *)
Lemma find_rolled_back w e later (w3 : world srv) x :
  journal_ok w → ae_id e = w_last_audit w + 1 →
  w_audit w3 = ((λ e0, if ae_id e0 =? w_last_audit w + 1 then rolled_back later e0 else e0) <$>
                  (w_audit w ++ [e])) ++ x →
  get_pihole_audit_entry (w_last_audit w + 1) w3 = Some (rolled_back later e).
Proof.
  intros [_ Hle] Hid Hw3. unfold get_pihole_audit_entry. rewrite Hw3, fmap_app. simpl.
  rewrite Hid, Z.eqb_refl, <-app_assoc. rewrite list_find_app_r.
  - simpl. by rewrite decide_True.
  - apply list_find_None, Forall_forall. intros y (z & -> & Hz)%list_elem_of_fmap.
    rewrite Forall_forall in Hle.
    assert (ae_id z ≤ w_last_audit w) by (apply Hle, list_elem_of_fmap; eauto).
    case_match; simpl; lia.
Qed.
End RollbackSteps.

(** * Properties *)

(** C21: a journalled change can be taken back: when an addition of a resource
    that was not there (with or without groups), or an update or a deletion of
    one that was, succeeded and was journalled, and nothing else has happened
    since, rolling its journal entry back succeeds as soon as the server takes
    the reverse call, restores exactly the state seen before the change, and
    cannot be done a second time.  (The resource is of a kind and type the
    program knows and has a name, the journal can be written, its ids grow, the
    time of the rollback is not 0, and the server stores what it is told to.  An
    addition journals no previous state: taking back one over a resource that
    was already there deletes it.) *)
Theorem rollback_restores_previous_state {srv} `{PiHoleServer srv, !PiHoleLaws srv}
    now later kind ty key c (w w1 : world srv) :
  let before := capture_pihole_snapshot kind ty key w in
  valid_resource kind ty → str_nonempty key = true → w_audit_ok w = true → journal_ok w → later ≠ 0 →
  change_applies c before →
  run_change now kind ty key c w = (Ok tt, w1) →
  reversal_accepted (entry_of now (w_last_audit w + 1) kind ty key c before w) w1 →
  ∃ id w2, rollback_pihole_audit later (w_last_audit w + 1) w1 = (Ok id, w2) ∧
    capture_pihole_snapshot kind ty key w2 = before ∧
    rollback_pihole_audit later (w_last_audit w + 1) w2 =
      (Err (RuntimeError "This change has already been rolled back."), w2).
Proof.
  intros before Hv Hkey Hok Hj Hlater Hap Hrun Hacc.
  unfold reversal_accepted in Hacc. destruct (_apply_rollback _ w1) as [acc w'] eqn:Hrev. simpl in Hacc. subst acc.
  destruct (run_change_spec now kind ty key c w w1) as (s & Hcall & ->); [done..|].
  fold before in Hrev |- *. set (e := entry_of now (w_last_audit w + 1) kind ty key c before w) in *.
  set (w1 := set_audit (w_audit w ++ [e]) (w_last_audit w + 1) (set_server s w)) in *.
  assert (get_pihole_audit_entry (w_last_audit w + 1) w1 = Some e) as Hget.
  { unfold get_pihole_audit_entry, w1. simpl. rewrite (find_entry (w_last_audit w) (w_audit w) e); done. }
  destruct (reversal_restores now (w_last_audit w + 1) kind ty key c w w1 w') as (Hres & Ha & Hl); [done..|].
  assert (w_instance w' = w_instance w1 ∧ w_audit_ok w' = w_audit_ok w1) as [Hi' Hok'].
  { revert Hrev. unfold _apply_rollback, remote. repeat case_match; try done; by intros [= <-]. }
  assert (rollback_guard w1 (Some e) = Ok e) as Hguard by (by apply guard_after_change).
  unfold rollback_pihole_audit. change (w_audit_ok w1) with (w_audit_ok w). rewrite Hok, Hget, Hguard. cbn [negb].
  rewrite Hrev. eexists _, _. split; [reflexivity|]. split.
  { exact Hres. }
  match goal with |- context [w_audit_ok ?x] => assert (w_audit_ok x = true) as ->
    by (simpl; by rewrite Hok') end. cbn [negb].
  erewrite (find_rolled_back w e) by (done || simpl; rewrite Ha; reflexivity).
  unfold rollback_guard. simpl. rewrite Hi'. destruct (w_instance w1) as [[iid iname] iurl].
  rewrite bool_decide_eq_true_2 by (destruct c; simpl; set_solver). simpl.
  destruct (later =? 0) eqn:E0; [apply Z.eqb_eq in E0; lia|]. done.
Qed.
Lemma rollback_restores_previous_state_witness :
  let s : map_server := {[("exact_domain", "deny", "ads.example")%string := ("old"%string, [2; 1], true)]} in
  let w := ex_world s in
  let c := ChUpdate "new" [3] false in
  ∃ w1 id w2, run_change 10 "exact_domain" "deny" "ads.example" c w = (Ok tt, w1) ∧
    rollback_pihole_audit 20 1 w1 = (Ok id, w2) ∧
    capture_pihole_snapshot "exact_domain" "deny" "ads.example" w2 =
      Some (RuleSnapshot "ads.example" "deny" "old" true (Some [1; 2])).
Proof.
  intros s w c.
  destruct (run_change 10 "exact_domain" "deny" "ads.example" c w) as [r w1] eqn:Er.
  assert (r = Ok tt) as -> by (change r with (r, w1).1; rewrite <-Er; vm_compute; reflexivity).
  destruct (rollback_restores_previous_state 10 20 "exact_domain" "deny" "ads.example" c w w1)
    as (id & w2 & H1 & H2 & _).
  - split_and!; [unfold _SUPPORTED_KINDS; left|vm_compute; reflexivity..].
  - reflexivity.
  - reflexivity.
  - split; constructor.
  - lia.
  - eexists. vm_compute. reflexivity.
  - exact Er.
  - change w1 with ((Ok (E := exn) tt, w1).2). rewrite <-Er. vm_compute. reflexivity.
  - exists w1, id, w2. split; [reflexivity|]. split; [exact H1|]. rewrite H2. vm_compute. reflexivity.
Defined.

(** The addition of an exact domain, journalled without groups, is taken back. *)
Example an_added_domain_is_removed_again :
  let w := ex_world ∅ in
  let w1 := (add_exact_domain 10 "ads.example" "deny" "why" false w).2 in
  w1 = (run_change 10 "exact_domain" "deny" "ads.example" (ChAdd "why" None true) w).2 ∧
  capture_pihole_snapshot "exact_domain" "deny" "ads.example" w1 = Some (RuleSnapshot "ads.example" "deny" "why" true (Some [])) ∧
  (rollback_pihole_audit 20 1 w1).1 = Ok 2 ∧
  capture_pihole_snapshot "exact_domain" "deny" "ads.example" (rollback_pihole_audit 20 1 w1).2 = None.
Proof. intros w w1. split; [reflexivity|]. split; [|split]; vm_compute; reflexivity. Qed.

(** An addition over a resource that is there is taken back by deleting it. *)
Example an_overwriting_addition_is_not_restored :
  let s : map_server := {[("exact_domain", "deny", "ads.example")%string := ("mine"%string, [2; 1], true)]} in
  let w1 := (add_exact_domain 10 "ads.example" "deny" "why" false (ex_world s)).2 in
  capture_pihole_snapshot "exact_domain" "deny" "ads.example" (rollback_pihole_audit 20 1 w1).2 = None.
Proof. vm_compute. reflexivity. Qed.

(** A rollback that is not allowed touches neither the server nor the
    journal: an unknown or irreversible entry, one already rolled back, one
    of another Pi-hole instance, or a resource that no longer looks the way
    the entry left it; and a rollback that succeeds passed all those tests. *)
Theorem refused_rollback_changes_nothing {srv} `{PiHoleServer srv} now id (w : world srv) :
  w_audit_ok w = true →
  match rollback_guard w (get_pihole_audit_entry id w) with
  | Err x => rollback_pihole_audit now id w = (Err x, w)
  | Ok e =>
      ae_id e = id ∧ ae_reversible e = true ∧ default 0 (ae_rolled_back_at e) = 0 ∧
      _snapshot_matches
        (capture_pihole_snapshot (ae_resource_kind e) (ae_resource_type e) (ae_resource_key e) w)
        (if String.eqb (ae_operation e) "delete" then None else ae_after e) = true ∧
      ((rollback_pihole_audit now id w).1 = Ok (w_last_audit w + 1) ↔ (_apply_rollback e w).1 = Ok tt)
  end.
Proof.
  intros Hok. unfold rollback_pihole_audit. rewrite Hok. cbn [negb].
  destruct (get_pihole_audit_entry id w) as [e|] eqn:Eg; [|done].
  destruct (rollback_guard w (Some e)) as [e'|x] eqn:E; [|done].
  unfold rollback_guard in E. destruct (w_instance w) as [[cid cname] curl].
  repeat match goal with E : (if ?b then _ else _) = _ |- _ =>
    let Eb := fresh "G" in destruct b eqn:Eb; [discriminate E|] end.
  injection E as <-.
  apply orb_false_iff in G as [Hrev%negb_false_iff _]. apply negb_false_iff in G0, G3. apply Z.eqb_eq in G0.
  assert (ae_id e = id) as Hid.
  { unfold get_pihole_audit_entry in Eg. destruct (list_find _ _) as [[i e1]|] eqn:Ef; [|done].
    injection Eg as ->. by apply list_find_Some in Ef as (_ & ? & _). }
  split_and!; [done..|].
  assert (w_last_audit (_apply_rollback e w).2 = w_last_audit w) as Hlast.
  { unfold _apply_rollback, remote. repeat case_match; done. }
  destruct (_apply_rollback e w) as [[[]|x] w1]; simpl in *; [by rewrite Hlast|done].
Qed.
Lemma refused_rollback_changes_nothing_witness :
  rollback_pihole_audit 5 7 (ex_world ∅) = (Err (ValueError "Audit entry was not found."), ex_world ∅).
Proof.
  exact (refused_rollback_changes_nothing (srv := map_server) 5 7 (ex_world ∅) eq_refl).
Defined.

(** Either nothing happens, or the request reaches the server. *)
Lemma add_exact_domain_cases {srv} `{PiHoleServer srv} now domain policy comment override (w : world srv) :
  let r := add_exact_domain now domain policy comment override w in
  (∃ e, r = (Err e, w)) ∨
  (r = add_resource now "exact_domain" policy domain comment None true w ∧
   (policy = "allow"%string ∨ policy = "deny"%string) ∧
   (∀ l, get_domain_lock domain (w_db w) = Some l → lk_list_type l = policy) ∧
   (policy = "deny"%string → override = false → compatibility_match_for_domain (w_profiles w) domain = None)).
Proof.
  unfold add_exact_domain. destruct (negb _) eqn:E; [left; by eexists|].
  apply negb_false_iff, orb_true_iff in E. rewrite !String.eqb_eq in E.
  cbv [mbind prog_bind prog_read prog_raise mret prog_ret].
  destruct (get_domain_lock domain (w_db w)) as [l|] eqn:El;
    [destruct (negb (String.eqb _ _)) eqn:Et; [left; by eexists|];
     apply negb_false_iff, String.eqb_eq in Et|];
    destruct (compatibility_match_for_domain _ _) as [m|] eqn:Em;
    try (destruct (String.eqb policy "deny" && negb override) eqn:Eo; [left; by eexists|]);
    right; split_and!; try done; try (by intros ? [= <-]); intros -> ->; done.
Qed.

Lemma add_exact_domain_guarded {srv} `{PiHoleServer srv} now domain policy comment override (w : world srv) :
  (policy = "allow"%string ∨ policy = "deny"%string) →
  let r := add_exact_domain now domain policy comment override w in
  let blocked_by_lock := ∃ l, get_domain_lock domain (w_db w) = Some l ∧ lk_list_type l ≠ policy in
  let blocked_by_profile := policy = "deny"%string ∧ override = false ∧
                            is_Some (compatibility_match_for_domain (w_profiles w) domain) in
  ((blocked_by_lock ∨ blocked_by_profile) → ∃ msg, r = (Err (RuntimeError msg), w)) ∧
  (¬ blocked_by_lock → ¬ blocked_by_profile → 
     r = add_resource now "exact_domain" policy domain comment None true w).
Proof.
  intros Hp r blocked_by_lock blocked_by_profile. unfold r, add_exact_domain.
  destruct (negb _) eqn:E.
  { apply negb_true_iff, orb_false_iff in E as [E1 E2]. apply String.eqb_neq in E1, E2. by destruct Hp. }
  unfold blocked_by_lock, blocked_by_profile. cbv [mbind prog_bind prog_read prog_raise mret prog_ret].
  destruct (get_domain_lock domain (w_db w)) as [l|] eqn:El.
  - destruct (String.eqb (lk_list_type l) policy) eqn:Et; cbn [negb].
    + apply String.eqb_eq in Et. destruct (compatibility_match_for_domain _ _) as [m|] eqn:Em.
      * destruct (String.eqb policy "deny" && negb override) eqn:Eo.
        -- apply andb_true_iff in Eo as [Ed%String.eqb_eq Eo%negb_true_iff]. split; [eauto|].
           intros _ []. eauto.
        -- split; [|done]. intros [(l' & [= <-] & ?)|(-> & -> & _)]; [congruence|done].
      * split; [|done]. intros [(l' & [= <-] & ?)|(_ & _ & [])]; congruence.
    + apply String.eqb_neq in Et. split; [eauto|]. intros []. eauto.
  - destruct (compatibility_match_for_domain _ _) as [m|] eqn:Em.
    + destruct (String.eqb policy "deny" && negb override) eqn:Eo.
      * apply andb_true_iff in Eo as [Ed%String.eqb_eq Eo%negb_true_iff]. split; [eauto|].
        intros _ []. eauto.
      * split; [|done]. intros [(l' & ? & _)|(-> & -> & _)]; done.
    + split; [|done]. intros [(l' & ? & _)|(_ & _ & [])]; congruence.
Qed.

(** No code path writes a protected domain: adding an exact domain to the
    list opposite to its lock, or denying a domain of a compatibility profile
    without the explicit override, raises and changes nothing at all; every
    other valid request reaches the server and is journalled. *)
Theorem protected_domains_are_refused {srv} `{PiHoleServer srv} now domain policy comment override (w : world srv) :
  (policy = "allow"%string ∨ policy = "deny"%string) →
  let r := add_exact_domain now domain policy comment override w in
  let blocked_by_lock := ∃ l, get_domain_lock domain (w_db w) = Some l ∧ lk_list_type l ≠ policy in
  let blocked_by_profile := policy = "deny"%string ∧ override = false ∧
                            is_Some (compatibility_match_for_domain (w_profiles w) domain) in
  ((blocked_by_lock ∨ blocked_by_profile) → ∃ msg, r = (Err (RuntimeError msg), w)) ∧
  (¬ blocked_by_lock → ¬ blocked_by_profile → 
     r = add_resource now "exact_domain" policy domain comment None true w).
Proof. apply add_exact_domain_guarded. Qed.
Lemma protected_domains_are_refused_witness :
  let d := (set_domain_lock 5 "bank.example" "allow" "" db_empty).2 in
  let w := set_db d (ex_world ∅) in
  ∃ msg, add_exact_domain 9 "bank.example" "deny" "" true w = (Err (RuntimeError msg), w).
Proof.
  intros d w. apply (protected_domains_are_refused (srv := map_server) 9 "bank.example" "deny" "" true w);
    [by right|]. left. eexists. split; [vm_compute; reflexivity|]. vm_compute. discriminate.
Defined.

(** The state seen before a rollback is [None] both when the resource is gone
    and when it could not be fetched, so the test that protects newer changes
    passes when the fetch fails: with a server that answers writes but not
    reads, rolling a deletion back overwrites the resource someone re-added. *)
Definition blind_server_ops : PiHoleServer map_server := {|
  ph_rows _ _ _ := Err (OtherError "timeout");
  ph_add := ph_add (srv := map_server);
  ph_update := ph_update (srv := map_server);
  ph_delete := ph_delete (srv := map_server)
|}.
Example rollback_overwrites_when_fetch_fails :
  let old := RuleSnapshot "a.example" "deny" "old" true (Some [0]) in
  let e := AuditEntry 1 "" "Home" "http://pi.hole" "delete" "exact_domain" "deny" "a.example" (Some old) None
             true None None "" 5 in
  let s : map_server := {[("exact_domain", "deny", "a.example")%string := ("newer"%string, [3], false)]} in
  let w : world map_server := World s db_empty [e] 1 ("", "Home", "http://pi.hole")%string true [] [] in
  let r := rollback_pihole_audit (H := blind_server_ops) 9 1 w in
  r.1 = Ok 2 ∧ w_server r.2 !! ("exact_domain", "deny", "a.example")%string = Some ("old"%string, [0], true).
Proof. vm_compute. split; reflexivity. Qed.
