(* ===== verification/Policy.v ===== *)
(** The policy of [pihole_manager/workers.py]: when a classification leads to
    an automatic change ([resolve_automatic_decision]), and the whole handling
    of one classification ([Classifier._handle_classification]): review tasks,
    lock conflicts, simulation, the change itself, the saved run. *)
From stdpp Require Import base gmap strings list.
From Stdlib Require Import Ascii QArith Lqa.
From S2P Require Import Prelude Json Models Database Queue ReviewDb Behavior PiHole.
Open Scope Z_scope.

(** * Decisions *)

Record AutomaticActionDecision := mkDecision {
  ad_action : option Policy;
  ad_review_reason : string
}.

Definition apply_manual_tag_override (c : Classification) (d : db) : Classification :=
  match manual_tags (cl_domain c) d with [] => c | override => replace_tags c override end.

Definition tag_policy (opts : LLMOptions) (tag : string) : string :=
  default (policy_value MANUAL_REVIEW) (lm_tag_policies opts !! tag).

Definition known_tag_policy (p : string) : bool :=
  String.eqb p (policy_value ALLOW) || String.eqb p (policy_value DENY) ||
  String.eqb p (policy_value MANUAL_REVIEW).

(** [sorted(policies_by_tag.items())] compares the tags, which are distinct. *)
Definition mapping_text (opts : LLMOptions) (tags : list string) : string :=
  str_join ", " ((λ t, t +:+ "=" +:+ tag_policy opts t)%string <$> sort_by str_leb tags).

Definition resolve_automatic_decision (c : Classification) (evidence_count : Z) (opts : LLMOptions)
    : AutomaticActionDecision :=
  let mode := default MODE_HYBRID (AutomationMode_of_value (lm_automation_mode opts)) in
  if bool_decide (mode = MODE_MANUAL) then mkDecision None ""
  else if cl_needs_review c
  then mkDecision None (str_or (cl_review_reason c) "The model marked the result for manual review.")
  else if qltb (cl_confidence c) (lm_auto_action_min_confidence opts) then mkDecision None ""
  else if bool_decide (cl_service_role c = ROLE_CORE ∨ cl_service_role c = ROLE_SHARED)
  then mkDecision None "Core or shared service infrastructure must be reviewed manually."
  else if 50 <=? cl_breakage_risk c
  then mkDecision None "Breakage risk is too high for an automatic Pi-hole change."
  else
    let tags := tags_or_category c in
    let invalid_tags := filter (λ t, known_tag_policy (tag_policy opts t) = false) tags in
    if negb (bool_decide (invalid_tags = []))
    then mkDecision None ("Invalid default policy for tag(s): " +:+ str_join ", " (sort_by str_leb invalid_tags))
    else
      let manual_review_tags := filter (λ t, tag_policy opts t = policy_value MANUAL_REVIEW) tags in
      if negb (bool_decide (manual_review_tags = []))
      then mkDecision None ("Manual review is required by tag policy: " +:+
                              str_join ", " (sort_by str_leb manual_review_tags))
      else
        match fromkeys (tag_policy opts <$> tags) with
        | [p] =>
            match Policy_of_value p with
            | None => mkDecision None ""
            | Some tag_policy =>
                if lm_require_research_for_auto_action opts && (evidence_count <=? 0)
                then mkDecision None ("No decision-relevant structured evidence is available for an automatic " +:+
                                        "Pi-hole change.")%string
                else if bool_decide (mode = MODE_AUTO) then mkDecision (Some tag_policy) ""
                else if bool_decide (cl_policy c = tag_policy) then mkDecision (Some tag_policy) ""
                else mkDecision None "The model recommendation does not match the configured tag policy."
            end
        | _ => mkDecision None ("Tag policies conflict and no automatic action is safe: " +:+ mapping_text opts tags)
        end.

(** [x or y] on integers *)
Definition int_or (x y : Z) : Z := if x =? 0 then y else x.

Definition _configured_recheck_days (c : Classification) (opts : LLMOptions) : Z :=
  let suggested := Z.max 1 (int_or (cl_recheck_after_days c) (lm_default_recheck_days opts)) in
  match omap (λ t, lm_tag_recheck_days opts !! t) (tags_or_category c) with
  | [] => suggested
  | x :: xs => Z.min suggested (Z.max 1 (foldr Z.min x xs))
  end.

Definition _review_priority (c : Classification) : ReviewPriority :=
  if 80 <=? cl_security_risk c then PRIO_CRITICAL
  else if (70 <=? cl_breakage_risk c) || bool_decide (cl_service_role c = ROLE_CORE) then PRIO_HIGH
  else if qltb (cl_confidence c) (1 # 2) then PRIO_HIGH
  else PRIO_NORMAL.

(** * Handling one classification *)

Record ClassificationRunContext := mkRunContext {
  cx_analysis_run_id : string;
  cx_pool_id : string;
  cx_pool_mode : string;
  cx_provider_id : string;
  cx_model : string;
  cx_profile : string;
  cx_prompt_hash : string;
  cx_is_primary : bool;
  cx_latency_ms : Z;
  cx_usage : ProviderUsage
}.

(** The first [replace] of [_handle_classification]. *)
Definition prepare_classification (opts : LLMOptions) (queue_source : string) (c : Classification)
    : Classification :=
  let manual_review_requested := str_startswith queue_source "manual_" in
  replace_recheck
    (replace_review c (cl_needs_review c || manual_review_requested)
       (str_or (cl_review_reason c)
          (if manual_review_requested then "Manually queued for review." else "")))
    (_configured_recheck_days c opts).

Definition action_name (p : Policy) : string :=
  if bool_decide (p = ALLOW) then "whitelist" else "blacklist".

Section Handle.
Context {srv : Type} `{PiHoleServer srv}.
Context (now : Z) (opts : LLMOptions).

Definition in_db {A} (m : dbprog A) : wprog srv A := λ w,
  let '(r, d) := m (w_db w) in (r, set_db d w).

Definition notify (message : string) : wprog srv unit := λ w, (Ok tt, add_notice message w).

Definition task (domain reason : string) (priority : ReviewPriority) (source : string) : wprog srv unit :=
  _ ← in_db (create_review_task now domain reason priority source); mret tt.

(** What the two guards and the tag override make of a classification. *)
Definition guarded_classification (queue_source : string) (c : Classification) (w : world srv) : Classification :=
  apply_compatibility_profile (w_profiles w) (prepare_classification opts queue_source c) (w_db w).

Definition decision_for (queue_source : string) (evidence_count : Z) (c : Classification) (w : world srv)
    : AutomaticActionDecision :=
  resolve_automatic_decision (apply_manual_tag_override (guarded_classification queue_source c w) (w_db w))
    evidence_count opts.

(** The branch [if action is not None]: planned action, action status, status. *)
Definition perform_action (c : Classification) (action : Policy) : wprog srv (string * string * string) :=
  if lm_simulation_mode opts then
    _ ← task (cl_domain c)
          ("Simulation mode: automatic " +:+ action_name action +:+ " would have been applied.")%string
          PRIO_NORMAL "simulation";
    _ ← notify ("Simulation: would " +:+ action_name action +:+ " " +:+ cl_domain c +:+ " — " +:+ cl_short c)%string;
    mret (policy_value action, "simulated", ("simulation_" +:+ policy_value action))%string
  else
    _ ← add_exact_domain now (cl_domain c) (policy_value action) (cl_short c) false;
    _ ← notify (action_name action +:+ ": " +:+ cl_domain c +:+ " — " +:+ cl_short c)%string;
    mret (policy_value action, "applied", ("auto_" +:+ policy_value action))%string.

Definition _handle_classification (provider_id provider_model profile_name : string)
    (cx : ClassificationRunContext) (queue_source : string) (evidence_count : Z) (c0 : Classification)
    : wprog srv unit :=
  c ← prog_read (guarded_classification queue_source c0);
  decision ← prog_read (decision_for queue_source evidence_count c0);
  lock ← prog_read (λ w, get_domain_lock (cl_domain c) (w_db w));
  _ ← (if str_nonempty (ad_review_reason decision)
       then task (cl_domain c) (ad_review_reason decision) (_review_priority c) "policy"
       else mret tt);
  let conflict := match lock, ad_action decision with
                  | Some l, Some a => negb (String.eqb (lk_list_type l) (policy_value a))
                  | _, _ => false
                  end in
  _ ← (if conflict
       then task (cl_domain c) "Automatic recommendation conflicts with a protected list entry."
              PRIO_CRITICAL "lock_conflict"
       else mret tt);
  let action := if conflict then None else ad_action decision in
  outcome ← match action with
            | Some a => perform_action c a
            | None => mret (""%string, "none"%string,
                        if conflict then "locked_conflict"%string else "classified"%string)
            end;
  let '(planned_action, action_status, status) := outcome in
  _ ← (if cl_needs_review c || bool_decide (cl_policy c = MANUAL_REVIEW ∨ cl_policy c = UNKNOWN)
       then task (cl_domain c) (str_or (cl_review_reason c) "The classification requires manual review.")
              (_review_priority c) "llm"
       else mret tt);
  _ ← in_db (review_save_classification now c
        (RunArgs provider_id (str_or (cx_model cx) provider_model) (str_or (cx_profile cx) profile_name)
           (cx_prompt_hash cx) status planned_action action_status (cx_analysis_run_id cx) (cx_pool_id cx)
           (cx_pool_mode cx) (cx_is_primary cx) (cx_latency_ms cx) (us_input_tokens (cx_usage cx))
           (us_output_tokens (cx_usage cx)) true));
  mret tt.
End Handle.

(** * When an automatic action is taken *)

Definition automation_mode (opts : LLMOptions) : AutomationMode :=
  default MODE_HYBRID (AutomationMode_of_value (lm_automation_mode opts)).

(** Everything an automatic change of policy [p] requires. *)
Record may_act (opts : LLMOptions) (c : Classification) (evidence_count : Z) (p : Policy) : Prop := {
  act_mode : automation_mode opts ≠ MODE_MANUAL;
  act_no_review : cl_needs_review c = false;
  act_confidence : (lm_auto_action_min_confidence opts <= cl_confidence c)%Q;
  act_role : cl_service_role c ≠ ROLE_CORE ∧ cl_service_role c ≠ ROLE_SHARED;
  act_breakage : cl_breakage_risk c < 50;
  act_policy : p = ALLOW ∨ p = DENY;
  act_tags : ∀ t, t ∈ tags_or_category c → tag_policy opts t = policy_value p;
  act_evidence : lm_require_research_for_auto_action opts = true → 0 < evidence_count;
  act_agreement : automation_mode opts = MODE_AUTO ∨ cl_policy c = p
}.

Lemma tags_or_category_nonempty c : tags_or_category c ≠ [].
Proof.
  intros E. unfold tags_or_category in E.
  assert (∃ t, t ∈ match cl_tags c with [] => [cl_category c] | ts => ts end) as [t Ht].
  { destruct (cl_tags c) as [|t ts]; eexists; left. }
  rewrite <-elem_of_fromkeys, E in Ht. by apply not_elem_of_nil in Ht.
Qed.

(** The set [actionable] is a singleton exactly when the tags agree. *)
Lemma fromkeys_singleton (l : list string) p :
  fromkeys l = [p] ↔ l ≠ [] ∧ ∀ x, x ∈ l → x = p.
Proof.
  split.
  - intros E. split; [intros ->; done|]. intros x Hx. rewrite <-elem_of_fromkeys, E in Hx.
    by apply list_elem_of_singleton in Hx.
  - intros [Hne Hall]. destruct l as [|y l]; [done|].
    assert (y = p) as -> by (apply Hall; left). unfold fromkeys. cbn [fromkeys_from].
    rewrite decide_False by apply not_elem_of_nil. f_equal.
    assert (∀ seen, p ∈ seen → fromkeys_from seen l = []) as H; [|apply H; left].
    assert (∀ x, x ∈ l → x = p) as Hl by (intros; apply Hall; by right).
    clear Hall Hne. induction l as [|z l IH]; intros seen Hs; simpl; [done|].
    assert (z = p) as -> by (apply Hl; left). rewrite decide_True by done.
    apply IH; [|done]. intros x Hx. apply Hl. by right.
Qed.

Lemma filter_nil_iff {A} (P : A → Prop) `{∀ x, Decision (P x)} (l : list A) :
  filter P l = [] ↔ ∀ x, x ∈ l → ¬ P x.
Proof.
  split.
  - intros E x Hx HP. apply (not_elem_of_nil x). rewrite <-E. by apply list_elem_of_filter.
  - intros Hn. destruct (filter P l) as [|x xs] eqn:E; [done|].
    assert (x ∈ filter P l) as [HP Hx]%list_elem_of_filter by (rewrite E; left). by destruct (Hn x).
Qed.

Lemma act_policy_value p : (p = ALLOW ∨ p = DENY) →
  known_tag_policy (policy_value p) = true ∧ policy_value p ≠ policy_value MANUAL_REVIEW.
Proof. by intros [->| ->]. Qed.

Lemma decision_acts c ev opts p : may_act opts c ev p → ad_action (resolve_automatic_decision c ev opts) = Some p.
Proof.
  intros [Hm Hr Hc [Hr1 Hr2] Hb Hp Ht He Ha]. unfold resolve_automatic_decision. fold (automation_mode opts).
  cbv zeta. rewrite bool_decide_eq_false_2 by done. rewrite Hr.
  rewrite (proj2 (qltb_false _ _)) by done. rewrite bool_decide_eq_false_2 by tauto.
  rewrite (proj2 (Z.leb_gt _ _)) by lia.
  destruct (act_policy_value p Hp) as [Hknown Hnot].
  rewrite bool_decide_eq_true_2 by (apply filter_nil_iff; intros t Hin; rewrite Ht by done; congruence).
  rewrite bool_decide_eq_true_2 by (apply filter_nil_iff; intros t Hin; rewrite Ht by done; done). cbn [negb].
  rewrite (proj2 (fromkeys_singleton _ (policy_value p))).
  2: { split; [intros E%fmap_nil_inv; by apply tags_or_category_nonempty in E|].
       intros x (t & -> & Hin)%list_elem_of_fmap. by apply Ht. }
  rewrite Policy_of_value_value.
  assert (lm_require_research_for_auto_action opts && (ev <=? 0) = false) as ->.
  { destruct (lm_require_research_for_auto_action opts); [|done]. simpl. apply Z.leb_gt. auto. }
  case_bool_decide; [done|]. by rewrite bool_decide_eq_true_2 by (by destruct Ha).
Qed.

Lemma acts_decision c ev opts p : ad_action (resolve_automatic_decision c ev opts) = Some p → may_act opts c ev p.
Proof.
  unfold resolve_automatic_decision. fold (automation_mode opts). cbv zeta.
  case_bool_decide as Hm; [done|]. destruct (cl_needs_review c) eqn:Hr; [done|].
  destruct (qltb _ _) eqn:Hc; [done|]. apply qltb_false in Hc.
  case_bool_decide as Hrole; [done|]. destruct (50 <=? _) eqn:Hb; [done|]. apply Z.leb_gt in Hb.
  destruct (negb _) eqn:Hinv; [done|]. apply negb_false_iff, bool_decide_eq_true in Hinv.
  destruct (negb _) eqn:Hman; [done|]. apply negb_false_iff, bool_decide_eq_true in Hman.
  destruct (fromkeys _) as [|q [|q' qs]] eqn:Hkeys; [done| |done].
  destruct (Policy_of_value q) as [tp|] eqn:Hq; [|done].
  destruct (_ && _) eqn:He; [done|].
  apply fromkeys_singleton in Hkeys as [_ Hall]. rewrite filter_nil_iff in Hinv, Hman.
  assert (q = policy_value tp) as Hqv.
  { unfold Policy_of_value in Hq. repeat case_match; simplify_eq;
      match goal with H : String.eqb q _ = true |- _ => by apply String.eqb_eq in H end. }
  assert (∀ t, t ∈ tags_or_category c → tag_policy opts t = policy_value tp) as Ht.
  { intros t Hin. rewrite <-Hqv. apply Hall. apply list_elem_of_fmap. eauto. }
  assert (tp = ALLOW ∨ tp = DENY) as Htp.
  { destruct (tags_or_category c) as [|t ts] eqn:Et; [by apply tags_or_category_nonempty in Et|].
    specialize (Hinv t (list_elem_of_here _ _)). specialize (Hman t (list_elem_of_here _ _)).
    rewrite (Ht t (list_elem_of_here _ _)) in Hinv, Hman. destruct tp; auto; by destruct Hinv || by destruct Hman. }
  intros Hact.
  assert (tp = p ∧ (automation_mode opts = MODE_AUTO ∨ cl_policy c = p)) as [-> Hagree].
  { repeat case_bool_decide; simpl in Hact; simplify_eq; auto. }
  constructor; try done; try tauto.
  intros Hreq. rewrite Hreq in He. simpl in He. apply Z.leb_gt in He. lia.
Qed.

(** * What handling a classification does *)

Section HandleFacts.
Context {srv : Type} `{PiHoleServer srv}.
Context (now : Z) (opts : LLMOptions).
Implicit Types w : world srv.

(** Everything but the tasks, the runs, the reviews and the domains. *)
Definition outside w := (w_server w, w_audit w, w_last_audit w, w_profiles w, domain_locks (w_db w)).

Lemma in_db_keeps {A} (m : dbprog A) :
  (∀ d, domain_locks (m d).2 = domain_locks d) → prog_keeps outside (in_db m).
Proof. intros Hm w. unfold in_db, outside. specialize (Hm (w_db w)). destruct (m (w_db w)). simpl in *. congruence. Qed.

Lemma create_task_keeps {B} (f : db → B) n domain reason p source d :
  (∀ g d, f (set_domains g d) = f d) → (∀ l i d, f (set_tasks l i d) = f d) →
  f (create_review_task n domain reason p source d).2 = f d.
Proof.
  intros Hd Ht. apply (keeps_commit f). apply keeps_bind; [by apply ensure_keeps|]. intros k.
  apply keeps_bind; [apply keeps_read|]. intros [[i t]|]; [apply keeps_ret|].
  apply keeps_bind; [apply keeps_read|]. intros id.
  apply keeps_bind; [by apply keeps_write|]. intros []. apply keeps_ret.
Qed.

Lemma task_keeps_outside domain reason p source : prog_keeps outside (task now domain reason p source).
Proof.
  apply pkeeps_bind; [|intros; apply pkeeps_ret]. apply in_db_keeps. intros d. by apply create_task_keeps.
Qed.

Lemma task_keeps_history domain reason p source :
  prog_keeps (λ w, run_history (w_db w)) (task now domain reason p source).
Proof.
  apply pkeeps_bind; [|intros; apply pkeeps_ret]. intros w. unfold in_db.
  pose proof (create_task_keeps run_history now domain reason p source (w_db w)) as Hk.
  destruct (create_review_task _ _ _ _ _ _). simpl in *. by apply Hk.
Qed.

Lemma save_keeps_outside c a : prog_keeps outside (in_db (review_save_classification now c a)).
Proof.
  apply in_db_keeps. intros d. unfold review_save_classification. rewrite then_ret_db. simpl.
  destruct (decide (_normalize_domain (cl_domain c) = ""%string)) as [E|E].
  - by rewrite save_run_empty.
  - by destruct (save_run_ok now c a d E) as (d' & -> & _ & _ & _ & ? & _).
Qed.

(** The action that is left after the lock was consulted. *)
Definition effective_action (queue_source : string) (evidence_count : Z) (c0 : Classification) w : option Policy :=
  let action := ad_action (decision_for opts queue_source evidence_count c0 w) in
  match get_domain_lock (cl_domain c0) (w_db w), action with
  | Some l, Some a => if String.eqb (lk_list_type l) (policy_value a) then Some a else None
  | _, a => a
  end.

Lemma guarded_domain qs c0 w : cl_domain (guarded_classification opts qs c0 w) = cl_domain c0.
Proof.
  unfold guarded_classification, apply_compatibility_profile.
  destruct (compatibility_match_for_domain _ _); by rewrite guard_spec.
Qed.

(** The function in three parts: the tasks before the action, the action,
    the tasks and the saved run after it. *)
Definition before_action (c : Classification) (decision : AutomaticActionDecision) (conflict : bool)
    : wprog srv unit :=
  _ ← (if str_nonempty (ad_review_reason decision)
       then task now (cl_domain c) (ad_review_reason decision) (_review_priority c) "policy" else mret tt);
  (if conflict
   then task now (cl_domain c) "Automatic recommendation conflicts with a protected list entry."
          PRIO_CRITICAL "lock_conflict" else mret tt).

Definition after_action (c : Classification) (args : run_args) : wprog srv unit :=
  _ ← (if cl_needs_review c || bool_decide (cl_policy c = MANUAL_REVIEW ∨ cl_policy c = UNKNOWN)
       then task now (cl_domain c) (str_or (cl_review_reason c) "The classification requires manual review.")
              (_review_priority c) "llm"
       else mret tt);
  _ ← in_db (review_save_classification now c args);
  mret tt.

Lemma before_keeps c dec b : prog_keeps outside (before_action c dec b).
Proof. apply pkeeps_bind; [|intros _]; case_match; auto using task_keeps_outside with wormhole. Qed.

Lemma before_keeps_history c dec b : prog_keeps (λ w, run_history (w_db w)) (before_action c dec b).
Proof. apply pkeeps_bind; [|intros _]; case_match; auto using task_keeps_history with wormhole. Qed.

Lemma after_keeps c args : prog_keeps outside (after_action c args).
Proof.
  apply pkeeps_bind; [case_match; auto using task_keeps_outside with wormhole|]. intros _.
  apply pkeeps_bind; [apply save_keeps_outside|]. intros _. apply pkeeps_ret.
Qed.
End HandleFacts.

Section HandleSteps.
Context {srv : Type} `{PiHoleServer srv}.
Context (now : Z) (opts : LLMOptions).
Implicit Types w : world srv.

Lemma handle_eq pid pm pn cx qs ev c0 w :
  let c := guarded_classification opts qs c0 w in
  let dec := decision_for opts qs ev c0 w in
  let action := effective_action opts qs ev c0 w in
  let conflict := bool_decide (action ≠ ad_action dec) in
  _handle_classification now opts pid pm pn cx qs ev c0 w =
  (before_action now c dec conflict ≫= λ _,
   (match action with
    | Some a => perform_action now opts c a
    | None => mret (""%string, "none"%string, if conflict then "locked_conflict"%string else "classified"%string)
    end) ≫= λ o,
   after_action now c
     (RunArgs pid (str_or (cx_model cx) pm) (str_or (cx_profile cx) pn) (cx_prompt_hash cx) o.2 o.1.1 o.1.2
        (cx_analysis_run_id cx) (cx_pool_id cx) (cx_pool_mode cx) (cx_is_primary cx) (cx_latency_ms cx)
        (us_input_tokens (cx_usage cx)) (us_output_tokens (cx_usage cx)) true)) w.
Proof.
  intros c dec action conflict. unfold _handle_classification, prog_read.
  unfold mbind at 1, prog_bind at 1. fold c. unfold mbind at 1, prog_bind at 1. fold dec.
  unfold mbind at 1, prog_bind at 1.
  set (cf := match get_domain_lock (cl_domain c) (w_db w) with Some l => _ | None => _ end).
  assert (cf = conflict ∧ (if cf then None else ad_action dec) = action) as [Hcf Hact].
  { unfold conflict, action, effective_action, cf, c, dec. rewrite guarded_domain.
    clear. destruct (get_domain_lock (cl_domain c0) (w_db w)) as [l|];
      destruct (ad_action (decision_for opts qs ev c0 w)) as [a|];
      try (by rewrite bool_decide_eq_false_2 by (intros Hn; by apply Hn)).
    destruct (String.eqb _ _); simpl; [|done].
    by rewrite bool_decide_eq_false_2 by (intros Hn; by apply Hn). }
  rewrite Hcf in *. rewrite Hact. unfold before_action, after_action, mbind, prog_bind.
  match goal with |- context [(if str_nonempty _ then ?x else ?y) w] =>
    destruct ((if str_nonempty (ad_review_reason dec) then x else y) w) as [[[]|e] w1] end; [|done].
  match goal with |- context [(if conflict then ?x else ?y) w1] =>
    destruct ((if conflict then x else y) w1) as [[[]|e] w2] end; [|done].
  match goal with |- context [(match action with Some a => @?x a | None => ?y end) w2] =>
    destruct ((match action with Some a => x a | None => y end) w2) as [[[[pl st] status]|e] w3] end; done.
Qed.

Lemma add_resource_server n kind ty key cm g b w :
  let r := add_resource n kind ty key cm g b w in
  (r.1 = Ok tt ∧ ph_add kind ty key (text_or_none cm) (default [] g) b (w_server w) = Ok (w_server r.2)) ∨
  (∃ e, r = (Err e, w)).
Proof.
  unfold add_resource, mbind, prog_bind, remote.
  destruct (ph_add _ _ _ _ _ _ _) as [s|e] eqn:E; [left|right; eauto].
  unfold record_pihole_change. destruct (negb _); [done|]. simpl.
  destruct (w_instance w) as [[x y] z]. by destruct (w_audit_ok w).
Qed.

(** A performed action changes the server only outside simulation, for a
    domain neither lock nor profile protects. *)
Lemma perform_server c a w :
  let r := perform_action now opts c a w in
  w_server r.2 ≠ w_server w →
  lm_simulation_mode opts = false ∧
  (a = DENY → compatibility_match_for_domain (w_profiles w) (cl_domain c) = None) ∧
  ph_add "exact_domain" (policy_value a) (cl_domain c) (text_or_none (cl_short c)) [] true (w_server w) =
    Ok (w_server r.2).
Proof.
  intros r Hne. unfold r, perform_action in *. clear r. destruct (lm_simulation_mode opts).
  - destruct Hne. unfold mbind, prog_bind.
    pose proof (task_keeps_outside now (cl_domain c)
      ("Simulation mode: automatic " +:+ action_name a +:+ " would have been applied.") PRIO_NORMAL "simulation" w) as Hk.
    destruct (task _ _ _ _ _ w) as [[[]|e] w1]; unfold outside in Hk; simpl in *; congruence.
  - split; [done|]. unfold mbind, prog_bind in *.
    destruct (add_exact_domain_cases now (cl_domain c) (policy_value a) (cl_short c) false w)
      as [[e E]|(E & _ & _ & Hcomp)]; rewrite E in *; [done|].
    split; [intros ->; by apply Hcomp|].
    destruct (add_resource_server now "exact_domain" (policy_value a) (cl_domain c) (cl_short c) None true w)
      as [[Hok Hadd]|[e He]]; [|by rewrite He in Hne].
    destruct (add_resource _ _ _ _ _ _ _ w) as [[[]|e] w1]; simpl in *; [done|discriminate Hok].
Qed.

Lemma handle_server pid pm pn cx qs ev c0 w :
  let r := _handle_classification now opts pid pm pn cx qs ev c0 w in
  w_server r.2 ≠ w_server w →
  ∃ p, effective_action opts qs ev c0 w = Some p ∧ lm_simulation_mode opts = false ∧
    (p = DENY → compatibility_match_for_domain (w_profiles w) (cl_domain c0) = None) ∧
    ph_add "exact_domain" (policy_value p) (cl_domain c0)
      (text_or_none (cl_short (guarded_classification opts qs c0 w))) [] true (w_server w) =
      Ok (w_server r.2).
Proof.
  rewrite handle_eq. set (c := guarded_classification opts qs c0 w).
  set (dec := decision_for opts qs ev c0 w). set (action := effective_action opts qs ev c0 w).
  set (cf := bool_decide (action ≠ ad_action dec)).
  assert (cl_domain c = cl_domain c0) as Hdom by apply guarded_domain.
  unfold mbind, prog_bind. pose proof (before_keeps now c dec cf w) as Hb.
  destruct (before_action now c dec cf w) as [[[]|e] w1]; unfold outside in Hb; simpl in *; [|congruence].
  injection Hb as Hs _ _ Hp _. intros Hne. rewrite <-Hs in Hne |- *. rewrite <-Hp.
  destruct action as [a|] eqn:Ea.
  - exists a. split; [done|]. pose proof (perform_server c a w1) as Hperf.
    destruct (perform_action now opts c a w1) as [[o|e] w2]; simpl in *.
    + match goal with |- context [after_action now c ?a ?b] => pose proof (after_keeps now c a b) as Ha end.
      unfold outside in Ha. injection Ha as Ha _ _ _ _. rewrite Ha in *. rewrite <-Hdom. by apply Hperf.
    + rewrite <-Hdom. by apply Hperf.
  - exfalso. apply Hne. cbn -[after_action].
    match goal with |- context [after_action now c ?a ?b] => pose proof (after_keeps now c a b) as Ha end.
    unfold outside in Ha. by injection Ha as Ha _ _ _ _.
Qed.
End HandleSteps.

Section HandleRecords.
Context {srv : Type} `{PiHoleServer srv}.
Context (now : Z) (opts : LLMOptions).
Implicit Types w : world srv.

Lemma guarded_short qs c0 w : cl_short (guarded_classification opts qs c0 w) = cl_short c0.
Proof.
  unfold guarded_classification, apply_compatibility_profile.
  destruct (compatibility_match_for_domain _ _); by rewrite guard_spec.
Qed.

Lemma add_resource_db n kind ty key cm g b w : w_db (add_resource n kind ty key cm g b w).2 = w_db w.
Proof.
  unfold add_resource, mbind, prog_bind, remote. destruct (ph_add _ _ _ _ _ _ _) as [s|e]; [|done].
  unfold record_pihole_change. destruct (negb _); [done|]. simpl.
  destruct (w_instance w) as [[x y] z]. by destruct (w_audit_ok w).
Qed.

Lemma perform_outcome c a w o w2 :
  perform_action now opts c a w = (Ok o, w2) →
  run_history (w_db w2) = run_history (w_db w) ∧ o.1.1 = policy_value a ∧
  o.1.2 = (if lm_simulation_mode opts then "simulated"%string else "applied"%string).
Proof.
  unfold perform_action. destruct (lm_simulation_mode opts); unfold mbind, prog_bind.
  - pose proof (task_keeps_history now (cl_domain c)
      ("Simulation mode: automatic " +:+ action_name a +:+ " would have been applied.") PRIO_NORMAL "simulation" w) as Hk.
    destruct (task _ _ _ _ _ w) as [[[]|e] w1]; [|done]. simpl in *. intros [= <- <-]. done.
  - destruct (add_exact_domain_cases now (cl_domain c) (policy_value a) (cl_short c) false w)
      as [[e E]|(E & _)]; rewrite E; [done|].
    pose proof (add_resource_db now "exact_domain" (policy_value a) (cl_domain c) (cl_short c) None true w) as Hd.
    destruct (add_resource _ _ _ _ _ _ _ w) as [[[]|e] w1]; [|done]. simpl in *.
    intros [= <- <-]. simpl. by rewrite Hd.
Qed.

Lemma after_records c a w :
  (after_action now c a w).1 = Ok tt → ra_update_current a = true →
  classification_runs (w_db (after_action now c a w).2) =
    classification_runs (w_db w) ++
      [new_run_row (last_run_id (w_db w) + 1) now (_normalize_domain (cl_domain c)) c a] ∧
  ∃ rv, review (w_db (after_action now c a w).2) !! _normalize_domain (cl_domain c) = Some rv ∧
    rv_action_status rv = _normalize_action_status (ra_action_status a) ∧
    rv_planned_action rv = _normalize_planned_action (ra_planned_action a).
Proof.
  unfold after_action, mbind, prog_bind. intros Hok Hu.
  set (t := if _ : bool then _ else _) in *.
  assert (run_history (w_db (t w).2) = run_history (w_db w)) as Hh.
  { unfold t. destruct (_ || _); [apply task_keeps_history|done]. }
  destruct (t w) as [[[]|e] w1]; [|done]. simpl in Hh. injection Hh as Hr Hl.
  unfold in_db in *. unfold review_save_classification in *. rewrite then_ret_db in *.
  destruct (decide (_normalize_domain (cl_domain c) = ""%string)) as [E|E].
  { rewrite save_run_empty in Hok by done. done. }
  destruct (save_run_ok now c a (w_db w1) E) as (d' & Es & Hruns & _ & _ & _ & _ & _ & Hcur).
  rewrite Es. simpl. rewrite Hruns, Hr, Hl. split; [done|].
  rewrite Hu in Hcur. destruct Hcur as ([created Hrev] & _). rewrite Hrev, lookup_insert_eq.
  eexists. split; [done|]. done.
Qed.
End HandleRecords.

(** The record that handling leaves in the history. *)
Lemma handle_records {srv} `{PiHoleServer srv} now opts pid pm pn cx qs ev c0 (w : world srv) :
  let r := _handle_classification now opts pid pm pn cx qs ev c0 w in
  r.1 = Ok tt →
  ∃ row rv, classification_runs (w_db r.2) = classification_runs (w_db w) ++ [row] ∧
    rr_domain row = _normalize_domain (cl_domain c0) ∧
    review (w_db r.2) !! rr_domain row = Some rv ∧ rv_action_status rv = rr_action_status row ∧
    rv_planned_action rv = rr_planned_action row ∧
    match effective_action opts qs ev c0 w with
    | Some p => rr_planned_action row = _normalize_planned_action (policy_value p) ∧
                rr_action_status row = (if lm_simulation_mode opts then "simulated"%string else "applied"%string)
    | None => rr_planned_action row = ""%string ∧ rr_action_status row = "none"%string
    end.
Proof.
  intros r. unfold r. rewrite handle_eq. set (c := guarded_classification opts qs c0 w).
  set (dec := decision_for opts qs ev c0 w). set (action := effective_action opts qs ev c0 w).
  set (cf := bool_decide (action ≠ ad_action dec)).
  assert (cl_domain c = cl_domain c0) as Hdom by apply guarded_domain.
  unfold mbind, prog_bind. pose proof (before_keeps_history now c dec cf w) as Hb.
  destruct (before_action now c dec cf w) as [[[]|e] w1]; simpl in *; [|done].
  set (perform := match action with Some a => _ | None => _ end).
  assert (∀ o w2, perform w1 = (Ok o, w2) → run_history (w_db w2) = run_history (w_db w1) ∧
    match action with
    | Some p => o.1.1 = policy_value p ∧ o.1.2 = (if lm_simulation_mode opts then "simulated"%string else "applied"%string)
    | None => o.1.1 = ""%string ∧ o.1.2 = "none"%string
    end) as Hperf.
  { intros o w2. unfold perform. destruct action as [a|].
    - by apply perform_outcome.
    - by intros [= <- <-]. }
  destruct (perform w1) as [[o|e] w2]; [|done]. destruct (Hperf o w2 eq_refl) as [Hh Hout].
  match goal with |- context [after_action now c ?args w2] => set (a := args) end. intros Hok.
  destruct (after_records now c a w2 Hok eq_refl) as (Hruns & rv & Hrv & Hst & Hpl).
  rewrite Hdom in Hruns, Hrv.
  assert (run_history (w_db w2) = run_history (w_db w)) as [= Hr Hl] by congruence.
  rewrite Hruns, Hr. eexists _, rv. split; [done|]. split; [done|]. split; [exact Hrv|].
  split; [exact Hst|]. split; [exact Hpl|]. simpl.
  destruct action as [p|]; destruct Hout as [Ho1 Ho2]; unfold a; simpl; rewrite Ho1, Ho2; [|done].
  split; [done|]. by destruct (lm_simulation_mode opts).
Qed.

(** * Properties *)

(** C6: an automatic change is decided exactly when every condition holds: the
    mode is not manual, no review is asked for, the confidence reaches the
    minimum, the service is neither core nor shared, the breakage risk is
    below 50, every tag has the same allow or deny policy, the required
    evidence exists, and in hybrid mode the model recommends the same. *)
Theorem automatic_action_iff c ev opts p :
  ad_action (resolve_automatic_decision c ev opts) = Some p ↔ may_act opts c ev p.
Proof. split; [apply acts_decision|apply decision_acts]. Qed.

(** C4: handling a classification changes Pi-hole only when the policy decided
    that action for the guarded classification, outside simulation mode, for a
    domain whose lock (if any) agrees, never for a manually queued domain or
    one the model wants reviewed, never denying a domain of a protected
    service; and the change is exactly the addition of that domain. *)
Theorem pihole_changes_only_when_every_guard_agrees {srv} `{PiHoleServer srv}
    now opts pid pm pn cx qs ev c0 (w : world srv) :
  let r := _handle_classification now opts pid pm pn cx qs ev c0 w in
  w_server r.2 ≠ w_server w →
  ∃ p, may_act opts (apply_manual_tag_override (guarded_classification opts qs c0 w) (w_db w)) ev p ∧
    lm_simulation_mode opts = false ∧ str_startswith qs "manual_" = false ∧ cl_needs_review c0 = false ∧
    (∀ l, get_domain_lock (cl_domain c0) (w_db w) = Some l → lk_list_type l = policy_value p) ∧
    (p = DENY → compatibility_match_for_domain (w_profiles w) (cl_domain c0) = None) ∧
    ph_add "exact_domain" (policy_value p) (cl_domain c0) (text_or_none (cl_short c0)) [] true (w_server w) =
      Ok (w_server r.2).
Proof.
  intros r Hne. destruct (handle_server now opts pid pm pn cx qs ev c0 w Hne) as (p & Ha & Hs & Hc & Hadd).
  exists p. unfold effective_action in Ha.
  assert (ad_action (decision_for opts qs ev c0 w) = Some p ∧
    (∀ l, get_domain_lock (cl_domain c0) (w_db w) = Some l → lk_list_type l = policy_value p)) as [Hdec Hlock].
  { destruct (get_domain_lock _ _) as [l|]; [|by split; [|intros ?]].
    destruct (ad_action _) as [a|]; [|done]. destruct (String.eqb _ _) eqn:E; [|done].
    apply String.eqb_eq in E. injection Ha as ->. split; [done|]. by intros ? [= <-]. }
  pose proof (acts_decision _ _ _ _ Hdec) as Hmay.
  assert (cl_needs_review (guarded_classification opts qs c0 w) = false) as Hnr.
  { pose proof (act_no_review _ _ _ _ Hmay) as Hn. unfold apply_manual_tag_override in Hn.
    by destruct (manual_tags _ _). }
  assert (cl_needs_review (prepare_classification opts qs c0) = false) as Hprep.
  { destruct (cl_needs_review (prepare_classification opts qs c0)) eqn:E; [|done].
    rewrite <-Hnr. symmetry. apply guards_need_review. by left. }
  unfold prepare_classification in Hprep. simpl in Hprep. apply orb_false_iff in Hprep as [? ?].
  split_and!; try done. rewrite guarded_short in Hadd. exact Hadd.
Qed.
Definition ex_llm (simulation : bool) (mode : string) : LLMOptions :=
  mkLLMOptions true 10 10 5 (Fin 1) 2 0 (Fin 0) 0 0 0 0 mode simulation 30 (3 # 4) (8 # 10) true
    ["ads"; "unknown"]%string {["ads"%string := "deny"%string]} ∅.
Definition ex_context : ClassificationRunContext :=
  mkRunContext "run" "background" "distribute" "p" "m" "default" "" true 5 ProviderUsage_default.
Definition ex_handle (simulation : bool) (qs : string) : result exn unit * world map_server :=
  _handle_classification 100 (ex_llm simulation "hybrid") "p" "m" "default" ex_context qs 2
    ex_classification (ex_world ∅).
Lemma pihole_changes_only_when_every_guard_agrees_witness :
  w_server (ex_handle false "live").2 !! ("exact_domain", "deny", "Ads.example.")%string =
    Some ("s"%string, [], true) ∧
  ∃ p, may_act (ex_llm false "hybrid")
         (apply_manual_tag_override
            (guarded_classification (ex_llm false "hybrid") "live" ex_classification (ex_world ∅)) db_empty) 2 p.
Proof.
  split; [vm_compute; reflexivity|].
  destruct (pihole_changes_only_when_every_guard_agrees 100 (ex_llm false "hybrid") "p" "m" "default" ex_context
    "live" 2 ex_classification (ex_world ∅)) as (p & Hp & _).
  - intros E. apply (f_equal (lookup ("exact_domain", "deny", "Ads.example.")%string)) in E.
    vm_compute in E. discriminate E.
  - exists p. exact Hp.
Defined.

(** Steps over a program that is known to succeed. *)
Ltac run_ok H :=
  match type of H with
  | (?m ?w).1 = Ok tt => destruct (m w) as [[[]|?] ?]; cbn [fst] in H; [|discriminate H]
  end.

Section HandleTotal.
Context {srv : Type} `{PiHoleServer srv}.
Context (now : Z) (opts : LLMOptions).
Implicit Types w : world srv.

Lemma task_ok domain reason p source w :
  _normalize_domain domain ≠ ""%string → (task now domain reason p source w).1 = Ok tt.
Proof.
  intros Hn. unfold task, in_db, mbind, prog_bind, create_review_task, commit. cbv [mbind tx_bind tx_read tx_write].
  destruct (_ensure_domain_ok now domain (Some now) 0 (w_db w) Hn) as [r ->].
  destruct (list_find _ _) as [[i t]|]; done.
Qed.

Lemma maybe_task_ok (b : bool) domain reason p source w :
  _normalize_domain domain ≠ ""%string →
  ((if b then task now domain reason p source else mret tt) w).1 = Ok tt.
Proof. destruct b; [apply task_ok|done]. Qed.

Lemma before_ok c dec b w : _normalize_domain (cl_domain c) ≠ ""%string → (before_action now c dec b w).1 = Ok tt.
Proof.
  intros Hn. unfold before_action, mbind, prog_bind.
  pose proof (maybe_task_ok (str_nonempty (ad_review_reason dec)) (cl_domain c) (ad_review_reason dec)
    (_review_priority c) "policy" w Hn) as H1.
  run_ok H1.
  by apply maybe_task_ok.
Qed.

Lemma after_ok c a w : _normalize_domain (cl_domain c) ≠ ""%string → (after_action now c a w).1 = Ok tt.
Proof.
  intros Hn. unfold after_action, mbind, prog_bind.
  pose proof (maybe_task_ok (cl_needs_review c || bool_decide (cl_policy c = MANUAL_REVIEW ∨ cl_policy c = UNKNOWN))
    (cl_domain c) (str_or (cl_review_reason c) "The classification requires manual review.")
    (_review_priority c) "llm" w Hn) as H1.
  run_ok H1.
  unfold in_db, review_save_classification. rewrite then_ret_db.
  match goal with |- context [save_classification_run _ _ _ ?d] =>
    by destruct (save_run_ok now c a d Hn) as (d' & -> & _) end.
Qed.

Lemma handle_ok pid pm pn cx qs ev c0 w :
  _normalize_domain (cl_domain c0) ≠ ""%string →
  effective_action opts qs ev c0 w = None ∨ lm_simulation_mode opts = true →
  (_handle_classification now opts pid pm pn cx qs ev c0 w).1 = Ok tt.
Proof.
  intros Hn Hsafe. rewrite handle_eq. rewrite <-(guarded_domain opts qs c0 w) in Hn.
  set (c := guarded_classification opts qs c0 w) in *.
  set (dec := decision_for opts qs ev c0 w). set (cf := bool_decide _).
  unfold mbind, prog_bind. pose proof (before_ok c dec cf w Hn) as Hb.
  run_ok Hb.
  destruct (effective_action opts qs ev c0 w) as [a|]; [|by apply after_ok].
  destruct Hsafe as [?|Hsim]; [done|]. unfold perform_action. rewrite Hsim. unfold mbind, prog_bind.
  pose proof (task_ok (cl_domain c)
    ("Simulation mode: automatic " +:+ action_name a +:+ " would have been applied.") PRIO_NORMAL "simulation") as Ht.
  match goal with |- context [task _ _ _ _ _ ?w1] => specialize (Ht w1 Hn) end.
  run_ok Ht. by apply after_ok.
Qed.
End HandleTotal.

(** Handling always completes when no remote change is attempted, and a
    handled classification is always recorded: one history row is added, the
    current review of the domain shows the same planned action, and the
    recorded status is [applied], [simulated] or [none] according to the
    action that was left and to simulation mode. *)
Theorem handled_classification_is_recorded {srv} `{PiHoleServer srv} now opts pid pm pn cx qs ev c0 (w : world srv) :
  let r := _handle_classification now opts pid pm pn cx qs ev c0 w in
  _normalize_domain (cl_domain c0) ≠ ""%string →
  (effective_action opts qs ev c0 w = None ∨ lm_simulation_mode opts = true → r.1 = Ok tt) ∧
  (r.1 = Ok tt →
   ∃ row rv, classification_runs (w_db r.2) = classification_runs (w_db w) ++ [row] ∧
     rr_domain row = _normalize_domain (cl_domain c0) ∧
     review (w_db r.2) !! rr_domain row = Some rv ∧ rv_action_status rv = rr_action_status row ∧
     rv_planned_action rv = rr_planned_action row ∧
     match effective_action opts qs ev c0 w with
     | Some p => rr_planned_action row = _normalize_planned_action (policy_value p) ∧
                 rr_action_status row = (if lm_simulation_mode opts then "simulated"%string else "applied"%string)
     | None => rr_planned_action row = ""%string ∧ rr_action_status row = "none"%string
     end).
Proof. intros r Hn. split; [by apply handle_ok|apply handle_records]. Qed.
Lemma handled_classification_is_recorded_witness :
  (ex_handle true "live").1 = Ok tt.
Proof.
  eapply (handled_classification_is_recorded 100 (ex_llm true "hybrid") "p" "m" "default" ex_context "live" 2
    ex_classification (ex_world ∅)); [by vm_compute|by right].
Defined.

(** The recheck interval is at least a day and never longer than the
    suggested one or any interval configured for a tag of the domain. *)
Theorem recheck_interval_is_bounded c opts :
  let days := _configured_recheck_days c opts in
  1 ≤ days ∧ days ≤ Z.max 1 (int_or (cl_recheck_after_days c) (lm_default_recheck_days opts)) ∧
  ∀ t v, t ∈ tags_or_category c → lm_tag_recheck_days opts !! t = Some v → days ≤ Z.max 1 v.
Proof.
  assert (∀ (xs : list Z) x, foldr Z.min x xs ≤ x ∧ ∀ y, y ∈ xs → foldr Z.min x xs ≤ y) as Hmin.
  { intros xs x. induction xs as [|z xs [IH1 IH2]]; simpl; [split; [lia|intros y []%not_elem_of_nil]|].
    split; [lia|]. intros y [->|Hy]%elem_of_cons; [lia|]. specialize (IH2 y Hy). lia. }
  intros days. unfold days, _configured_recheck_days. cbv zeta.
  destruct (omap _ _) as [|x xs] eqn:E.
  - split; [lia|]. split; [lia|]. intros t v Ht Hv. exfalso. apply (not_elem_of_nil v).
    rewrite <-E. apply list_elem_of_omap. eauto.
  - split; [lia|]. split; [lia|]. intros t v Ht Hv.
    assert (v ∈ x :: xs) as [->|Hin]%elem_of_cons by (rewrite <-E; apply list_elem_of_omap; eauto);
      destruct (Hmin xs x) as [H1 H2]; [lia|]. specialize (H2 v Hin). lia.
Qed.
