(* ===== verification/Dispatch.v ===== *)
(** [pihole_manager/analysis_dispatcher.py] with the provider-health and
    analysis-run tables of [database_analysis.py]: freezing the dossiers,
    choosing the candidates of a pool, cutting batches, executing them on a
    provider with bisection on exhausted quota, and the four pool modes
    distribute, fallback, compare and verify.

    What lies outside is the interface [ProviderCalls]: the request to a
    provider, the clock, the cancellation token, SHA-256, the prompt builder
    and the limit profiles.  Requests of a thread pool run in submission order;
    the order in which their outcomes are collected is the parameter
    [completion]. *)
From stdpp Require Import base gmap strings list sorting.
From Stdlib Require Import Ascii QArith Lqa Sorted.
From S2P Require Import Prelude Json Models Options Database Quota.
Open Scope Z_scope.

(** * Exceptions *)

(** What a provider call raises, with [__cause__ or __context__] where it has one. *)
Inductive provider_exn_kind :=
  | KQuota (retry_at : Q)
  | KRateLimit (retry_after : option Q)
  | KConnection
  | KTimeout
  | KHTTP (status : option Z)
  | KOther.

Inductive provider_exn :=
  | PExn (kind : provider_exn_kind) (text : string)
  | PCaused (kind : provider_exn_kind) (text : string) (cause : provider_exn).

Definition px_kind (e : provider_exn) : provider_exn_kind :=
  match e with PExn k _ | PCaused k _ _ => k end.
Definition px_text (e : provider_exn) : string :=
  match e with PExn _ t | PCaused _ t _ => t end.

Fixpoint _exception_chain (e : provider_exn) : list provider_exn :=
  match e with
  | PExn _ _ => [e]
  | PCaused _ _ c => e :: _exception_chain c
  end.

Definition fallback_status (status : option Z) : bool :=
  match status with
  | Some s => bool_decide (s ∈ [408; 429; 500; 502; 503; 504])
  | None => false
  end.

Definition _is_fallback_eligible (e : provider_exn) : bool :=
  existsb (λ x, match px_kind x with
                | KQuota _ | KRateLimit _ | KConnection | KTimeout => true
                | KHTTP status => fallback_status status
                | KOther => false
                end) (_exception_chain e).

Fixpoint retry_at_of_chain (now : Q) (chain : list provider_exn) : Q :=
  match chain with
  | [] => 0
  | x :: rest =>
      match px_kind x with
      | KQuota t => t
      | KRateLimit (Some after) => now + qmax 0 after
      | _ => retry_at_of_chain now rest
      end
  end.

Definition _retry_at (now : Q) (e : provider_exn) : Q := retry_at_of_chain now (_exception_chain e).

(** * Data *)

Record ProviderAnalysisResult := mkAnalysisResult {
  pr_provider_id : string;
  pr_provider_name : string;
  pr_model : string;
  pr_profile_name : string;
  pr_limit_source : string;
  pr_classifications : list Classification;
  pr_latency_ms : Z;
  pr_usage : ProviderUsage;
  pr_is_primary : bool
}.

Record ProviderAnalysisError := mkAnalysisError {
  pe_provider_id : string;
  pe_provider_name : string;
  pe_error : string;
  pe_retry_at : Q
}.

Record AnalysisDispatchResult := mkDispatchResult {
  dr_run_id : string;
  dr_pool_id : string;
  dr_mode : string;
  dr_dossier_hash : string;
  dr_provider_results : list ProviderAnalysisResult;
  dr_errors : list ProviderAnalysisError
}.

Record _Candidate := mkCandidate {
  ca_membership : ProviderPoolMembershipOptions;
  ca_provider : LLMProviderOptions;
  ca_limit_profile : ProviderLimitProfile
}.

(** The options [dispatch_analysis] reads. *)
Record dispatch_options := mkDispatchOptions {
  do_llm : LLMOptions;
  do_llm_providers : list LLMProviderOptions;
  do_analysis_pools : list AnalysisPoolOptions;
  do_prompt_profiles : list PromptProfileOptions
}.

Record analysis_run_row := mkAnalysisRun {
  an_pool_id : string;
  an_mode : string;
  an_source : string;
  an_dossier_hash : string;
  an_status : string;
  an_error : string;
  an_created_at : Z;
  an_completed_at : option Z
}.

(** What a dispatch raises. *)
Inductive dispatch_exn :=
  | OperationCancelledError
  | AnalysisUnavailableError (msg : string) (retry_at : Q)
  | ProviderFailure (e : provider_exn)
  | DispatchValueError (msg : string)
  | DispatchRuntimeError (msg : string).

Definition dispatch_exn_text (e : dispatch_exn) : string :=
  match e with
  | OperationCancelledError => "Operation cancelled"
  | AnalysisUnavailableError m _ | DispatchValueError m | DispatchRuntimeError m => m
  | ProviderFailure x => px_text x
  end.

(** * The interface *)

Record call_result := CallResult {
  cr_classifications : list Classification;
  cr_latency_ms : Z;
  cr_usage : ProviderUsage
}.

Inductive call_exn := CallCancelled | CallFailed (e : provider_exn).

Class ProviderCalls (env : Type) := {
  (** [classify_domains_with_metadata] *)
  classify : string → _Candidate → list string → env → result call_exn call_result * env;
  (** [raise_if_cancelled]: whether the token is set by now *)
  cancel_requested : env → bool * env;
  (** [time.time()] *)
  clock : env → Q;
  (** the quota tables, which the batch estimates read *)
  quota_tables : env → quota_db;
  (** [build_batch_messages] on the dossiers of these domains *)
  batch_messages : PromptProfileOptions → list string → result provider_exn (list (list (string * string)));
  (** [resolve_provider_limit_profile] *)
  limit_profile_of : LLMProviderOptions → ProviderLimitProfile;
  (** [int.from_bytes(sha256(domain)[:n], "big")] *)
  digest_prefix : nat → string → Z;
  (** the canonical JSON of the dossiers and its hash *)
  dossier_digest : list string → string;
  (** [uuid4().hex] *)
  fresh_id : env → string * env
}.

Record dstate (env : Type) := DState {
  ds_env : env;
  ds_health : gmap string ProviderHealthState;
  ds_runs : gmap string analysis_run_row
}.
Arguments DState {env}.
Arguments ds_env {env}.
Arguments ds_health {env}.
Arguments ds_runs {env}.

(** * Provider health *)

Definition health_of (t : gmap string ProviderHealthState) (provider_id : string) : ProviderHealthState :=
  default (ProviderHealthState_default provider_id) (t !! provider_id).

Definition healthy_state (now : Q) (latency_ms : Z) (p : ProviderHealthState) : ProviderHealthState :=
  let latency := zq (Z.max 0 latency_ms) in
  let average := if qltb 0 (hs_latency_ewma_ms p)
                 then (hs_latency_ewma_ms p * (8 # 10) + latency * (2 # 10))%Q else latency in
  mkProviderHealthState (hs_provider_id p) "healthy" 0 0 "" now (hs_last_failure_at p) average.

Definition failed_state (now : Q) (error : string) (cooldown_until : Q) (p : ProviderHealthState)
    : ProviderHealthState :=
  mkProviderHealthState (hs_provider_id p)
    (if qltb now cooldown_until then "cooldown" else "unavailable")
    (qmax 0 cooldown_until) (hs_consecutive_failures p + 1) (str_take 2000 error)
    (hs_last_success_at p) now (hs_latency_ewma_ms p).

Section Dispatch.
Context {env : Type} `{ProviderCalls env}.

Abbreviation dprog := (prog (dstate env) dispatch_exn).
Implicit Types s : dstate env.

Definition set_env (e : env) s : dstate env := DState e (ds_health s) (ds_runs s).
Definition set_health f s : dstate env := DState (ds_env s) (f (ds_health s)) (ds_runs s).
Definition set_analysis_runs f s : dstate env := DState (ds_env s) (ds_health s) (f (ds_runs s)).

Definition now_of s : Q := clock (ds_env s).

Definition raise_if_cancelled : dprog unit := λ s,
  let '(c, e) := cancel_requested (ds_env s) in
  (if c : bool then Err OperationCancelledError else Ok tt, set_env e s).

(** ** [database_analysis.py] *)

Definition provider_health_get (provider_id : string) s : ProviderHealthState :=
  health_of (ds_health s) provider_id.

Definition provider_health_success (provider_id : string) (latency_ms : Z) s : dstate env :=
  set_health (<[provider_id := healthy_state (now_of s) latency_ms (provider_health_get provider_id s)]>) s.

Definition provider_health_failure (provider_id error : string) (cooldown_until : Q) s : dstate env :=
  set_health (<[provider_id :=
    failed_state (now_of s) error cooldown_until (provider_health_get provider_id s)]>) s.

Definition analysis_run_start (pool_id mode source dossier_hash : string) : dprog string := λ s,
  let '(run_id, e) := fresh_id (ds_env s) in
  (Ok run_id, set_analysis_runs (<[run_id := mkAnalysisRun (str_lower (str_strip pool_id))
     (str_lower (str_strip mode)) (str_strip source) (str_strip dossier_hash) "running" ""
     (py_int (now_of s)) None]>) (set_env e s)).

Definition finished_run (now : Q) (error status : string) (r : analysis_run_row) : analysis_run_row :=
  let selected := str_lower (str_strip status) in
  mkAnalysisRun (an_pool_id r) (an_mode r) (an_source r) (an_dossier_hash r)
    (if bool_decide (selected ∈ ["completed"; "completed_with_errors"; "failed"; "cancelled"]%string)
     then selected else if str_nonempty error then "failed"%string else "completed"%string)
    (str_take 2000 error) (an_created_at r) (Some (py_int now)).

Definition analysis_run_finish (run_id error status : string) s : dstate env :=
  set_analysis_runs (alter (finished_run (now_of s) error status) run_id) s.

(** ** Freezing the dossiers *)

Definition freeze_domains (domains : list string) : list string :=
  fromkeys (_normalize_domain <$> filter (λ d, str_nonempty (str_strip d) = true) domains).

(** ** Candidates *)

Definition _role_order (role : string) : Z :=
  if String.eqb role "primary" then 0 else if String.eqb role "verifier" then 1
  else if String.eqb role "fallback" then 2 else 3.

(** Keys are a rank, the priority and the folded name. *)
Definition candidate_leb (rank : _Candidate → Z) (a b : _Candidate) : bool :=
  (rank a <? rank b) || (rank a =? rank b) &&
    ((mb_priority (ca_membership a) <? mb_priority (ca_membership b)) ||
     (mb_priority (ca_membership a) =? mb_priority (ca_membership b)) &&
       str_leb (str_casefold (po_name (ca_provider a))) (str_casefold (po_name (ca_provider b)))).

Definition role_rank (role : string) (c : _Candidate) : Z :=
  if String.eqb (mb_role (ca_membership c)) role then 0 else 1.

Definition _fallback_order (l : list _Candidate) : list _Candidate :=
  sort_by (candidate_leb (role_rank "primary")) l.
Definition _verification_order (l : list _Candidate) : list _Candidate :=
  sort_by (candidate_leb (role_rank "verifier")) l.

(** The last provider with an id wins in the dictionary. *)
Definition provider_by_id (l : list LLMProviderOptions) (id : string) : option LLMProviderOptions :=
  foldl (λ acc p, if String.eqb (po_provider_id p) id then Some p else acc) None l.

Definition usable_candidate (o : dispatch_options) (include_cooldown : bool) s
    (m : ProviderPoolMembershipOptions) : option _Candidate :=
  match provider_by_id (do_llm_providers o) (mb_provider_id m) with
  | None => None
  | Some p =>
      if negb (mb_enabled m) || negb (str_nonempty (str_strip (po_base_url p))) ||
         negb (str_nonempty (str_strip (po_model p))) then None
      else if negb include_cooldown &&
              qltb (now_of s) (hs_cooldown_until (provider_health_get (po_provider_id p) s)) then None
      else Some (mkCandidate m p (limit_profile_of p))
  end.

Definition _pool_candidates (o : dispatch_options) (pool : AnalysisPoolOptions) (include_cooldown : bool) s
    : list _Candidate :=
  sort_by (candidate_leb (λ c, _role_order (mb_role (ca_membership c))))
    (omap (usable_candidate o include_cooldown s) (ap_memberships pool)).

Definition _pool_by_id (o : dispatch_options) (pool_id : string) : option AnalysisPoolOptions :=
  let normalized := str_lower (str_strip pool_id) in
  snd <$> list_find (λ p, ap_pool_id p = normalized ∧ ap_enabled p = true) (do_analysis_pools o).

(** ** Batches *)

Definition batch_fits (pool_profile : PromptProfileOptions) (c : _Candidate) (q : quota_db) (batch : list string)
    : result provider_exn bool :=
  messages ← batch_messages pool_profile batch;
  Ok (batch_fits_context
        (estimate_provider_usage messages (ca_provider c) (ca_limit_profile c) (Z.of_nat (length batch)) q)
        (ca_provider c) (ca_limit_profile c)).

(** The inner loop: the largest size up to [size] whose batch fits. *)
Fixpoint fitting_size (fits : list string → result provider_exn bool) (remaining : list string) (size : nat)
    : result provider_exn nat :=
  match size with
  | O => Ok O
  | S n => ok ← fits (take size remaining);
           if (ok : bool) then Ok size else fitting_size fits remaining n
  end.

(** The outer loop; every round takes at least one domain, so the number of
    domains is enough fuel. *)
Fixpoint cut_batches (fits : list string → result provider_exn bool) (maximum fuel : nat) (name : string)
    (remaining : list string) : result provider_exn (list (list string)) :=
  match remaining, fuel with
  | [], _ => Ok []
  | _, O => Ok []
  | x :: _, S fuel =>
      size ← fitting_size fits remaining (Nat.min maximum (length remaining));
      match size with
      | O => Err (PExn KOther ("The dossier for " +:+ x +:+ " exceeds the context limit of " +:+
                    name +:+ ".")%string)
      | size =>
          batches ← cut_batches fits maximum fuel name (drop size remaining);
          mret (take size remaining :: batches)
      end
  end.

Definition _provider_batches (o : dispatch_options) (pool_profile : PromptProfileOptions) (c : _Candidate) (q : quota_db)
    (domains : list string) : result provider_exn (list (list string)) :=
  cut_batches (batch_fits pool_profile c q)
    (Z.to_nat (maximum_provider_batch_size (ca_limit_profile c) (do_llm o)))
    (length domains) (po_name (ca_provider c)) domains.

(** ** Executing on one provider *)

Definition add_usage (a b : ProviderUsage) : ProviderUsage :=
  mkProviderUsage (us_input_tokens a + us_input_tokens b) (us_output_tokens a + us_output_tokens b)
    (us_total_tokens a + us_total_tokens b) (us_units a + us_units b)%Q.

(** The accumulators of the loop. *)
Record totals := Totals { tt_classifications : list Classification; tt_latency : Z; tt_usage : ProviderUsage }.
Definition totals_zero : totals := Totals [] 0 ProviderUsage_default.

Definition add_call (t : totals) (r : call_result) : totals :=
  Totals (tt_classifications t ++ cr_classifications r) (tt_latency t + cr_latency_ms r)
    (add_usage (tt_usage t) (cr_usage r)).

Inductive loop_end :=
  | LoopDone (t : totals)
  | LoopCancelled
  | LoopFailed (t : totals) (rest : list (list string)) (e : provider_exn)
  | LoopOutOfFuel.

Fixpoint execute_batches (fuel : nat) (pool_id : string) (c : _Candidate) (batches : list (list string))
    (t : totals) s : loop_end * dstate env :=
  match fuel with
  | O => (LoopOutOfFuel, s)
  | S fuel =>
      match batches with
      | [] => (LoopDone t, s)
      | batch :: rest =>
          match raise_if_cancelled s with
          | (Err _, s) => (LoopCancelled, s)
          | (Ok _, s) =>
              let '(r, e) := classify pool_id c batch (ds_env s) in
              let s := set_env e s in
              match r with
              | Err CallCancelled => (LoopCancelled, s)
              | Err (CallFailed x) =>
                  match px_kind x with
                  | KQuota _ =>
                      if Nat.leb (length batch) 1 then (LoopFailed t batches x, s)
                      else
                        let midpoint := Nat.max 1 (Nat.div2 (length batch)) in
                        execute_batches fuel pool_id c
                          (take midpoint batch :: drop midpoint batch :: rest) t s
                  | _ => (LoopFailed t batches x, s)
                  end
              | Ok result =>
                  match raise_if_cancelled s with
                  | (Err _, s) => (LoopCancelled, s)
                  | (Ok _, s) => execute_batches fuel pool_id c rest (add_call t result) s
                  end
              end
          end
      end
  end.

Inductive exec_outcome :=
  | ExecOk (r : ProviderAnalysisResult)
  | ExecCancelled
  | ExecPartial (r : ProviderAnalysisResult) (failed_domains : list string) (cause : provider_exn)
  | ExecFailed (e : provider_exn).

Definition _analysis_result (c : _Candidate) (profile_name : string) (t : totals) (is_primary : bool)
    : ProviderAnalysisResult :=
  mkAnalysisResult (po_provider_id (ca_provider c)) (po_name (ca_provider c)) (po_model (ca_provider c))
    profile_name (lp_source (ca_limit_profile c)) (tt_classifications t) (tt_latency t) (tt_usage t)
    is_primary.

(** [l[i]] *)
Definition py_index {A} (l : list A) (i : Z) : option A :=
  let j := if i <? 0 then Z.of_nat (length l) + i else i in
  if j <? 0 then None else l !! Z.to_nat j.

Definition is_quota (e : provider_exn) : bool := match px_kind e with KQuota _ => true | _ => false end.

(** The back-off of a provider that failed without saying when to retry. *)
Definition backoff_seconds (failures : Z) : Q := qmin 300 (qmax 5 (zq (2 ^ Z.min 8 failures))).

Definition record_failure (provider_id : string) (e : provider_exn) s : dstate env :=
  if is_quota e then s
  else
    let retry_at := _retry_at (now_of s) e in
    let retry_at := if Qle_bool retry_at (now_of s)
                    then (now_of s + backoff_seconds (hs_consecutive_failures (provider_health_get provider_id s)))%Q
                    else retry_at in
    provider_health_failure provider_id (px_text e) retry_at s.

Definition _execute_provider (o : dispatch_options) (pool : AnalysisPoolOptions) (c : _Candidate)
    (domains : list string) (is_primary : bool) s : exec_outcome * dstate env :=
  match raise_if_cancelled s with
  | (Err _, s) => (ExecCancelled, s)
  | (Ok _, s) =>
      match py_index (do_prompt_profiles o) (ap_profile_index pool) with
      | None => (ExecFailed (PExn KOther "list index out of range"), s)
      | Some profile =>
          match _provider_batches o profile c (quota_tables (ds_env s)) domains with
          | Err e => (ExecFailed e, s)
          | Ok batches =>
              let id := po_provider_id (ca_provider c) in
              match execute_batches (S (2 * length domains)) (ap_pool_id pool) c batches totals_zero s with
              | (LoopDone t, s) =>
                  (ExecOk (_analysis_result c (pf_name profile) t is_primary), provider_health_success id (tt_latency t) s)
              | (LoopCancelled, s) => (ExecCancelled, s)
              | (LoopFailed t rest e, s) =>
                  let s := record_failure id e s in
                  match tt_classifications t with
                  | [] => (ExecFailed e, s)
                  | _ => (ExecPartial (_analysis_result c (pf_name profile) t is_primary) (concat rest) e, s)
                  end
              | (LoopOutOfFuel, s) => (ExecCancelled, s) (* never: see [execute_batches_fuel] *)
              end
          end
      end
  end.

Definition _provider_error (c : _Candidate) (e : provider_exn) s : ProviderAnalysisError :=
  let id := po_provider_id (ca_provider c) in
  mkAnalysisError id (po_name (ca_provider c)) (px_text e)
    (qmax (_retry_at (now_of s) e) (hs_cooldown_until (provider_health_get id s))).

(** ** Collecting the outcomes of a thread pool *)

Abbreviation outcomes := (list ProviderAnalysisResult * list ProviderAnalysisError)%type.

Fixpoint collect (done : list (_Candidate * exec_outcome)) (acc : outcomes) : dprog outcomes :=
  match done with
  | [] => mret acc
  | (c, o) :: rest =>
      _ ← raise_if_cancelled;
      match o with
      | ExecCancelled => prog_raise OperationCancelledError
      | ExecOk r => collect rest (acc.1 ++ [r], acc.2)
      | ExecPartial r _ e =>
          err ← prog_read (_provider_error c e);
          collect rest (acc.1 ++ [r], acc.2 ++ [err])
      | ExecFailed e =>
          err ← prog_read (_provider_error c e);
          collect rest (acc.1, acc.2 ++ [err])
      end
  end.

Definition candidate_index (candidates : list _Candidate) (id : string) : option nat :=
  fst <$> list_find (λ c, po_provider_id (ca_provider c) = id) (reverse candidates).

(** [order.get(provider_id, math.inf)], with the last index of an id. *)
Definition result_leb (candidates : list _Candidate) (a b : ProviderAnalysisResult) : bool :=
  match candidate_index candidates (pr_provider_id a), candidate_index candidates (pr_provider_id b) with
  | Some i, Some j => Nat.leb j i
  | Some _, None => true
  | None, Some _ => false
  | None, None => true
  end.
Definition _sort_results (results : list ProviderAnalysisResult) (candidates : list _Candidate)
    : list ProviderAnalysisResult := sort_by (result_leb candidates) results.
End Dispatch.

(** * The four modes *)

Section Modes.
Context {env : Type} `{ProviderCalls env}.
(** The order in which the outcomes of a thread pool come in. *)
Context (completion : list nat → list nat).
Context (o : dispatch_options) (pool : AnalysisPoolOptions).

Abbreviation dprog := (prog (dstate env) dispatch_exn).
Abbreviation outcomes := (list ProviderAnalysisResult * list ProviderAnalysisError)%type.
Implicit Types s : dstate env.

Definition run_provider (c : _Candidate) (domains : list string) (is_primary : bool) : dprog exec_outcome :=
  λ s, let '(r, s') := _execute_provider o pool c domains is_primary s in (Ok r, s').

(** The submissions, in order, with the outcome each will have; [poll] tells
    whether the token is looked at before each submission. *)
Fixpoint submit_all (poll is_primary : bool) (jobs : list (_Candidate * list string))
    : dprog (list (_Candidate * exec_outcome)) :=
  match jobs with
  | [] => mret []
  | (c, domains) :: rest =>
      _ ← (if poll then raise_if_cancelled else mret tt);
      r ← run_provider c domains is_primary;
      done ← submit_all poll is_primary rest;
      mret ((c, r) :: done)
  end.

Definition in_completion_order {A} (l : list A) : list A :=
  omap (λ i, l !! i) (completion (seq 0 (length l))).

(** *** distribute *)

Definition weighted (candidates : list _Candidate) : list _Candidate :=
  concat ((λ c, replicate (Z.to_nat (Z.max 1 (mb_weight (ca_membership c)))) c) <$> candidates).

Definition choose (w : list _Candidate) (domain : string) : option _Candidate :=
  w !! Z.to_nat (digest_prefix 8 domain mod Z.of_nat (length w)).

(** The dictionary [assignments], in insertion order. *)
Fixpoint assign (id domain : string) (l : list (string * list string)) : list (string * list string) :=
  match l with
  | [] => [(id, [domain])]
  | (k, ds) :: l => if String.eqb k id then (k, ds ++ [domain]) :: l else (k, ds) :: assign id domain l
  end.

Definition assignments (candidates : list _Candidate) (domains : list string) : list (string * list string) :=
  foldl (λ l d, match choose (weighted candidates) d with
                | Some c => assign (po_provider_id (ca_provider c)) d l
                | None => l
                end) [] domains.

Definition candidate_by_id (candidates : list _Candidate) (id : string) : option _Candidate :=
  foldl (λ acc c, if String.eqb (po_provider_id (ca_provider c)) id then Some c else acc) None candidates.

Definition jobs_of (candidates : list _Candidate) (l : list (string * list string))
    : list (_Candidate * list string) :=
  omap (λ p, (λ c, (c, p.2)) <$> candidate_by_id candidates p.1) l.

Definition _dispatch_distribute (candidates : list _Candidate) (domains : list string) : dprog outcomes :=
  done ← submit_all true true (jobs_of candidates (assignments candidates domains));
  acc ← collect (in_completion_order done) ([], []);
  mret (_sort_results acc.1 candidates, acc.2).

(** *** fallback *)

Fixpoint fallback_loop (order : list _Candidate) (remaining : list string) (acc : outcomes) : dprog outcomes :=
  match order with
  | [] => mret acc
  | c :: rest =>
      _ ← raise_if_cancelled;
      if bool_decide (remaining = []) then mret acc
      else
        r ← run_provider c remaining true;
        match r with
        | ExecOk x => fallback_loop rest [] (acc.1 ++ [x], acc.2)
        | ExecCancelled => prog_raise OperationCancelledError
        | ExecPartial x failed e =>
            err ← prog_read (_provider_error c e);
            let acc := (acc.1 ++ [x], acc.2 ++ [err]) in
            if _is_fallback_eligible e then fallback_loop rest failed acc else mret acc
        | ExecFailed e =>
            err ← prog_read (_provider_error c e);
            if _is_fallback_eligible e then fallback_loop rest remaining (acc.1, acc.2 ++ [err])
            else prog_raise (ProviderFailure e)
        end
  end.

Definition _dispatch_fallback (candidates : list _Candidate) (domains : list string) : dprog outcomes :=
  fallback_loop (_fallback_order candidates) domains ([], []).

(** *** compare *)

Definition _dispatch_compare (candidates : list _Candidate) (domains : list string) : dprog outcomes :=
  done ← submit_all false false ((λ c, (c, domains)) <$> candidates);
  acc ← collect (in_completion_order done) ([], []);
  mret (_sort_results acc.1 candidates, acc.2).

(** *** verify *)

Definition _requires_verification (c : Classification) : bool :=
  (ap_verify_security_risk_at_least pool <=? cl_security_risk c) ||
  (ap_verify_breakage_risk_at_least pool <=? cl_breakage_risk c) ||
  ap_verify_automatic_actions pool && negb (cl_needs_review c) &&
    bool_decide (cl_policy c = ALLOW ∨ cl_policy c = DENY) ||
  (digest_prefix 4 (cl_domain c) mod 100 <? Z.min 100 (Z.max 0 (ap_verification_sample_percent pool))).

(** [set(a) == set(b)] *)
Definition same_tags (a b : list string) : bool :=
  forallb (λ t, bool_decide (t ∈ b)) a && forallb (λ t, bool_decide (t ∈ a)) b.

Definition _classifications_agree (a b : Classification) : bool :=
  bool_decide (cl_policy a = cl_policy b) && String.eqb (cl_category a) (cl_category b) &&
  same_tags (cl_tags a) (cl_tags b) &&
  (Z.abs (cl_security_risk a - cl_security_risk b) <=? 20) &&
  (Z.abs (cl_breakage_risk a - cl_breakage_risk b) <=? 20).

Definition with_classifications (r : ProviderAnalysisResult) (l : list Classification) : ProviderAnalysisResult :=
  mkAnalysisResult (pr_provider_id r) (pr_provider_name r) (pr_model r) (pr_profile_name r)
    (pr_limit_source r) l (pr_latency_ms r) (pr_usage r) (pr_is_primary r).

Definition mark_unavailable (domains : list string) (c : Classification) : Classification :=
  if bool_decide (cl_domain c ∈ domains)
  then replace_review c true (str_or (cl_review_reason c) "Independent provider verification was unavailable.")
  else c.

Definition _mark_verification_unavailable (r : ProviderAnalysisResult) (domains : list string)
    : ProviderAnalysisResult :=
  with_classifications r (mark_unavailable domains <$> pr_classifications r).

(** [secondary_by_domain]: the last classification of a domain wins. *)
Definition secondary_of (l : list Classification) (domain : string) : option Classification :=
  foldl (λ acc c, if String.eqb (cl_domain c) domain then Some c else acc) None l.

Definition reconcile (secondary : list Classification) (c : Classification) : Classification :=
  match secondary_of secondary (cl_domain c) with
  | Some other =>
      if _classifications_agree c other then c
      else replace_review c true "Independent provider verification disagreed with the primary result."
  | None => c
  end.

Definition verification_result (primary : ProviderAnalysisResult) (errors : list ProviderAnalysisError)
    (secondary : ProviderAnalysisResult) : outcomes :=
  ([with_classifications primary (reconcile (pr_classifications secondary) <$> pr_classifications primary);
    secondary], errors).

Definition verify_with (verifier : option _Candidate) (primary : ProviderAnalysisResult)
    (verify_domains : list string) (errors : list ProviderAnalysisError) : dprog outcomes :=
  match verifier with
  | None =>
      mret ([_mark_verification_unavailable primary verify_domains],
            errors ++ [mkAnalysisError "" "" "No independent verification provider is configured." 0])
  | Some v =>
      r ← run_provider v verify_domains false;
      match r with
      | ExecCancelled => prog_raise OperationCancelledError
      | ExecOk secondary => mret (verification_result primary errors secondary)
      | ExecPartial secondary failed e =>
          err ← prog_read (_provider_error v e);
          mret (verification_result (_mark_verification_unavailable primary failed) (errors ++ [err]) secondary)
      | ExecFailed e =>
          err ← prog_read (_provider_error v e);
          mret ([_mark_verification_unavailable primary verify_domains], errors ++ [err])
      end
  end.

Definition _dispatch_verify (candidates : list _Candidate) (domains : list string) : dprog outcomes :=
  _ ← raise_if_cancelled;
  match _fallback_order candidates with
  | [] => prog_raise (DispatchRuntimeError "list index out of range")
  | primary_candidate :: _ =>
      r ← run_provider primary_candidate domains true;
      let continue primary errors :=
        let verify_domains := cl_domain <$> filter (λ c, _requires_verification c = true) (pr_classifications primary) in
        if bool_decide (verify_domains = []) then mret ([primary], errors)
        else
          verify_with
            (snd <$> list_find (λ c, po_provider_id (ca_provider c) ≠ pr_provider_id primary)
                       (_verification_order candidates))
            primary verify_domains errors in
      match r with
      | ExecCancelled => prog_raise OperationCancelledError
      | ExecFailed e => prog_raise (ProviderFailure e)
      | ExecOk primary => continue primary []
      | ExecPartial primary _ e =>
          err ← prog_read (_provider_error primary_candidate e);
          continue primary [err]
      end
  end.

Definition dispatch_mode (candidates : list _Candidate) (domains : list string) : dprog outcomes :=
  match AnalysisPoolMode_of_value (ap_mode pool) with
  | None => prog_raise (DispatchValueError (ap_mode pool +:+ " is not a valid AnalysisPoolMode")%string)
  | Some DISTRIBUTE => _dispatch_distribute candidates domains
  | Some FALLBACK => _dispatch_fallback candidates domains
  | Some COMPARE => _dispatch_compare candidates domains
  | Some VERIFY => _dispatch_verify candidates domains
  end.
End Modes.

Section DispatchAnalysis.
Context {env : Type} `{ProviderCalls env}.
Context (completion : list nat → list nat) (o : dispatch_options).

Abbreviation dprog := (prog (dstate env) dispatch_exn).
Implicit Types s : dstate env.

Definition error_text (errors : list ProviderAnalysisError) : string := str_join "; " (pe_error <$> errors).

Definition latest_retry (errors : list ProviderAnalysisError) : Q :=
  match pe_retry_at <$> errors with [] => 0 | x :: xs => foldl qmax x xs end.

(** [min(... default=0.0)] over the cooldowns still running *)
Definition earliest_cooldown (now : Q) (cooldowns : list Q) : Q :=
  match filter (λ t, qltb now t = true) cooldowns with [] => 0 | x :: xs => foldl qmin x xs end.

Definition no_candidates_error (pool : AnalysisPoolOptions) s : dispatch_exn :=
  let cooling := _pool_candidates o pool true s in
  let retry_at := earliest_cooldown (now_of s)
    ((λ c, hs_cooldown_until (provider_health_get (po_provider_id (ca_provider c)) s)) <$> cooling) in
  if qltb (now_of s) retry_at
  then AnalysisUnavailableError ("All providers in analysis pool " +:+ ap_name pool +:+ " are cooling down.")%string
         (qmax 0 retry_at)
  else DispatchRuntimeError ("Analysis pool " +:+ ap_name pool +:+ " has no usable providers.")%string.

(** The [try] block, its handlers, and the closing of the analysis run. *)
Definition run_dispatch (pool : AnalysisPoolOptions) (candidates : list _Candidate) (domains : list string)
    (run_id dossier_hash : string) : dprog AnalysisDispatchResult := λ s,
  match dispatch_mode completion o pool candidates domains s with
      | (Err OperationCancelledError, s) =>
          (Err OperationCancelledError,
           analysis_run_finish run_id (dispatch_exn_text OperationCancelledError) "cancelled" s)
      | (Err e, s) => (Err e, analysis_run_finish run_id (dispatch_exn_text e) "" s)
      | (Ok ([], errors), s) =>
          let e := AnalysisUnavailableError (str_or (error_text errors) "No provider result")
                     (qmax 0 (latest_retry errors)) in
          (Err e, analysis_run_finish run_id (dispatch_exn_text e) "" s)
      | (Ok (results, errors), s) =>
          (Ok (mkDispatchResult run_id (ap_pool_id pool) (ap_mode pool) dossier_hash results errors),
           analysis_run_finish run_id (error_text errors)
             (if bool_decide (errors = []) then "completed" else "completed_with_errors") s)
      end.

Definition dispatch_analysis (pool_id : string) (domains : list string) (source : string)
    : dprog AnalysisDispatchResult :=
  _ ← raise_if_cancelled;
  match _pool_by_id o pool_id with
  | None =>
      let normalized := str_lower (str_strip pool_id) in
      prog_raise (DispatchRuntimeError ("Analysis pool is disabled or missing: " +:+ str_or normalized "<empty>")%string)
  | Some pool =>
      let normalized_domains := freeze_domains domains in
      let dossier_hash := dossier_digest normalized_domains in
      if bool_decide (normalized_domains = [])
      then prog_raise (DispatchValueError "At least one domain is required for analysis.")
      else
        candidates ← prog_read (_pool_candidates o pool false);
        if bool_decide (candidates = [])
        then (exc ← prog_read (no_candidates_error pool); prog_raise exc)
        else
          run_id ← analysis_run_start (ap_pool_id pool) (ap_mode pool) source dossier_hash;
          run_dispatch pool candidates normalized_domains run_id dossier_hash
  end.
End DispatchAnalysis.

(** * What the provider calls promise *)

(** Names as [freeze_domains] leaves them: distinct and normalised. *)
Definition frozen (domains : list string) : Prop :=
  NoDup domains ∧ ∀ d, d ∈ domains → _normalize_domain d = d ∧ str_nonempty (str_strip d) = true.

(** [classify_domains_with_metadata] raises unless the response classifies
    every requested domain once, and returns them in the order asked for. *)
Class ProviderCallsLaws (env : Type) `{ProviderCalls env} : Prop := {
  classify_covers : ∀ pool c batch e r e', frozen batch → classify pool c batch e = (Ok r, e') →
    cl_domain <$> cr_classifications r = batch
}.

Lemma frozen_app l1 l2 : frozen (l1 ++ l2) → frozen l1 ∧ frozen l2.
Proof.
  intros [(H1 & _ & H2)%NoDup_app Hn]. split; split; try done; intros d Hd; apply Hn, elem_of_app; auto.
Qed.

(** * Batches *)

Section Batches.
Context (fits : list string → result provider_exn bool).

Lemma fitting_size_spec l n k : fitting_size fits l n = Ok k →
  (k ≤ n)%nat ∧ (k ≠ 0%nat → fits (take k l) = Ok true) ∧ (k = 0%nat → (n ≠ 0%nat) → fits (take 1 l) = Ok false).
Proof.
  revert k. induction n as [|n IH]; intros k; cbn [fitting_size]; [by intros [= <-]|].
  destruct (fits (take (S n) l)) as [[]|e] eqn:E; cbn; [by intros [= <-]|..|done].
  intros (IH1 & IH2 & IH3)%IH. split_and!; [lia|done|]. intros Hk _. destruct n as [|n]; [done|]. by apply IH3.
Qed.

Lemma fitting_size_error l n e : fitting_size fits l n = Err e → ∃ k, fits (take k l) = Err e.
Proof.
  induction n as [|n IH]; cbn [fitting_size]; [done|].
  destruct (fits (take (S n) l)) as [[]|e'] eqn:E; cbn; [done|done|]. intros [= ->]. by exists (S n).
Qed.

Lemma cut_batches_spec maximum fuel name l bs :
  (length l ≤ fuel)%nat → cut_batches fits maximum fuel name l = Ok bs →
  concat bs = l ∧ Forall (λ b, b ≠ [] ∧ (length b ≤ maximum)%nat ∧ fits b = Ok true) bs.
Proof.
  revert l bs. induction fuel as [|fuel IH]; intros [|x l] bs Hlen; cbn [cut_batches length] in *; try lia;
    try (by intros [= <-]).
  destruct (fitting_size fits (x :: l) _) as [k|e] eqn:Ek; [|done].
  apply fitting_size_spec in Ek as (Hk & Hfit & _). cbn [mbind result_bind]. destruct k as [|k]; [done|].
  destruct (cut_batches fits maximum fuel name (drop (S k) (x :: l))) as [bs'|e] eqn:E; [|done].
  intros [= <-]. apply IH in E as [Hc Hall]; [|rewrite length_drop; cbn; lia]. cbn [concat]. rewrite Hc. split.
  - apply (take_drop (S k) (x :: l)).
  - constructor; [|done]. split; [done|]. split; [|by apply Hfit]. cbn [length take]. rewrite length_take. lia.
Qed.

(** Cutting fails only on a domain that does not fit on its own, or when the
    messages of some of the domains cannot be built. *)
Lemma cut_batches_fails maximum fuel name l e :
  (1 ≤ maximum)%nat → cut_batches fits maximum fuel name l = Err e →
  (∃ x, x ∈ l ∧ fits [x] = Ok false) ∨ ∃ batch, fits batch = Err e.
Proof.
  intros Hm. revert l. induction fuel as [|fuel IH]; intros [|x l]; cbn [cut_batches]; try done.
  destruct (fitting_size fits (x :: l) _) as [k|e'] eqn:Ek; cbn [mbind result_bind].
  2: { intros [= ->]. apply fitting_size_error in Ek as [k Hk]. right. eauto. }
  apply fitting_size_spec in Ek as (_ & _ & H0). destruct k as [|k].
  - intros _. left. exists x. split; [left|]. apply H0; [done|cbn; lia].
  - destruct (cut_batches fits maximum fuel name (drop (S k) (x :: l))) eqn:E; [done|].
    intros [= ->]. apply IH in E as [(y & Hy & Hf)|Hb]; [|by right]. left. exists y. split; [|done].
    by eapply subseteq_drop.
Qed.
End Batches.

(** * Executing batches *)

Section Execution.
Context {env : Type} `{ProviderCalls env} {L : ProviderCallsLaws env}.
Implicit Types s : dstate env.

(** Calls still possible: a batch of [n] domains is asked at most [2 n - 1]
    times. *)
Definition batch_budget (b : list string) : nat := 2 * length b - 1.
Definition call_budget (batches : list (list string)) : nat := sum_list_with batch_budget batches.

Lemma budget_bound batches : (call_budget batches ≤ 2 * length (concat batches))%nat.
Proof.
  unfold call_budget. induction batches as [|b bs IH]; simpl; [lia|].
  rewrite length_app. unfold batch_budget at 1. lia.
Qed.

Lemma halves_budget (b : list string) :
  (2 ≤ length b)%nat →
  let m := Nat.max 1 (Nat.div2 (length b)) in
  take m b ≠ [] ∧ drop m b ≠ [] ∧
  (batch_budget (take m b) + batch_budget (drop m b) < batch_budget b)%nat.
Proof.
  intros Hb m. assert (1 ≤ m < length b)%nat as Hm.
  { unfold m. pose proof (Nat.div2_decr (length b) (length b - 1)). lia. }
  split_and!.
  - intros E%(f_equal length). rewrite length_take in E. simpl in E. lia.
  - intros E%(f_equal length). rewrite length_drop in E. simpl in E. lia.
  - unfold batch_budget. rewrite length_take, length_drop. lia.
Qed.

(** The fuel of the loop is never used up. *)
Lemma execute_batches_fuel fuel pool_id c batches t s :
  Forall (λ b, b ≠ []) batches → (call_budget batches < fuel)%nat →
  (execute_batches fuel pool_id c batches t s).1 ≠ LoopOutOfFuel.
Proof.
  revert batches t s. induction fuel as [|fuel IH]; intros batches t s Hne Hf; [lia|].
  cbn [execute_batches]. destruct batches as [|b rest]; [done|].
  apply Forall_cons in Hne as [Hb Hne]. unfold call_budget in Hf. simpl in Hf.
  assert (1 ≤ batch_budget b)%nat as Hlen by (unfold batch_budget; destruct b; [done|simpl; lia]).
  destruct (raise_if_cancelled s) as [[[]|x] s1]; [|done].
  destruct (classify pool_id c b (ds_env s1)) as [[r|[|x]] e].
  - destruct (raise_if_cancelled _) as [[[]|x] s2]; [|done]. apply IH; [done|]. unfold call_budget. lia.
  - done.
  - destruct (px_kind x); try done. destruct (Nat.leb (length b) 1) eqn:E; [done|].
    apply Nat.leb_gt in E. destruct (halves_budget b) as (H1 & H2 & H3); [lia|].
    apply IH; [by repeat constructor|]. unfold call_budget. simpl in *. lia.
Qed.

(** Nothing is lost and nothing repeated: what was classified, then what is
    left, is what there was to do, in order. *)
Lemma execute_batches_partition fuel pool_id c batches t s :
  frozen (concat batches) → Forall (λ b, b ≠ []) batches →
  match (execute_batches fuel pool_id c batches t s).1 with
  | LoopDone t' => cl_domain <$> tt_classifications t' = (cl_domain <$> tt_classifications t) ++ concat batches
  | LoopFailed t' rest _ =>
      (cl_domain <$> tt_classifications t') ++ concat rest =
        (cl_domain <$> tt_classifications t) ++ concat batches ∧ concat rest ≠ []
  | _ => True
  end.
Proof using L.
  revert batches t s. induction fuel as [|fuel IH]; intros batches t s Hfr Hne; [done|].
  cbn [execute_batches]. destruct batches as [|b rest]; [simpl; by rewrite app_nil_r|].
  apply Forall_cons in Hne as [Hbne Hne].
  assert (b ++ concat rest ≠ []) as Hcne by (by destruct b).
  destruct (raise_if_cancelled s) as [[[]|x] s1]; [|done].
  destruct (classify pool_id c b (ds_env s1)) as [[r|[|x]] e] eqn:Ec.
  - destruct (raise_if_cancelled _) as [[[]|x] s2]; [|done].
    simpl in Hfr. destruct (frozen_app _ _ Hfr) as [Hb Hrest].
    pose proof (classify_covers _ _ _ _ _ _ Hb Ec) as Hcov.
    specialize (IH rest (add_call t r) s2 Hrest Hne).
    destruct (execute_batches fuel pool_id c rest (add_call t r) s2) as [[t'| |t' rest' x|] s3];
      simpl in *; try done; rewrite fmap_app, Hcov, <-app_assoc in IH; done.
  - done.
  - destruct (px_kind x); try done. destruct (Nat.leb (length b) 1) eqn:E; [done|].
    apply Nat.leb_gt in E. destruct (halves_budget b) as (H1 & H2 & H3); [lia|].
    specialize (IH (take (Nat.max 1 (Nat.div2 (length b))) b :: drop (Nat.max 1 (Nat.div2 (length b))) b :: rest)
                  t (set_env e s1)).
    simpl concat in IH. rewrite app_assoc, take_drop in IH. apply IH; [done|by repeat constructor].
Qed.

(** The same of the whole execution on one provider. *)
Lemma execute_provider_partition o pool c domains is_primary s :
  frozen domains →
  match (_execute_provider o pool c domains is_primary s).1 with
  | ExecOk r => cl_domain <$> pr_classifications r = domains ∧ pr_is_primary r = is_primary ∧
                pr_provider_id r = po_provider_id (ca_provider c)
  | ExecPartial r failed _ =>
      (cl_domain <$> pr_classifications r) ++ failed = domains ∧ pr_classifications r ≠ [] ∧ failed ≠ [] ∧
      pr_is_primary r = is_primary ∧ pr_provider_id r = po_provider_id (ca_provider c)
  | ExecCancelled | ExecFailed _ => True
  end.
Proof using L.
  intros Hfr. unfold _execute_provider. destruct (raise_if_cancelled s) as [[[]|x] s1]; [|done].
  destruct (py_index _ _) as [profile|]; [|done].
  destruct (_provider_batches _ _ _ _ _) as [batches|e] eqn:Eb; [|done].
  apply cut_batches_spec in Eb as [Hc Hall]; [|done].
  assert (Forall (λ b, b ≠ []) batches) as Hne by (eapply Forall_impl; [exact Hall|]; by intros b [? _]).
  rewrite <-Hc in Hfr.
  pose proof (execute_batches_partition (S (2 * length domains)) (ap_pool_id pool) c batches totals_zero s1 Hfr Hne) as Hp.
  destruct (execute_batches _ _ _ _ _ _) as [[t| |t rest e|] s2]; simpl in *; try done.
  - by rewrite <-Hc.
  - destruct Hp as [Hp Hrest]. destruct (tt_classifications t) as [|x xs] eqn:Et; [done|].
    simpl. rewrite Et. rewrite Hc in Hp. done.
Qed.
End Execution.

(** * Collecting *)

Definition outcome_result (o : exec_outcome) : option ProviderAnalysisResult :=
  match o with ExecOk r | ExecPartial r _ _ => Some r | ExecCancelled | ExecFailed _ => None end.
Definition outcome_clean (o : exec_outcome) : bool := match o with ExecOk _ => true | _ => false end.

(** The domains a result classifies, and all those of several results. *)
Definition result_domains (r : ProviderAnalysisResult) : list string := cl_domain <$> pr_classifications r.
Definition classified (rs : list ProviderAnalysisResult) : list string := concat (result_domains <$> rs).

(** What [execute_provider_partition] says of an outcome. *)
Definition outcome_ok (c : _Candidate) (domains : list string) (is_primary : bool) (o : exec_outcome) : Prop :=
  match o with
  | ExecOk r => result_domains r = domains ∧ pr_is_primary r = is_primary ∧
                pr_provider_id r = po_provider_id (ca_provider c)
  | ExecPartial r failed _ =>
      result_domains r ++ failed = domains ∧ pr_classifications r ≠ [] ∧ failed ≠ [] ∧
      pr_is_primary r = is_primary ∧ pr_provider_id r = po_provider_id (ca_provider c)
  | ExecCancelled | ExecFailed _ => True
  end.

Section ModeFacts.
Context {env : Type} `{ProviderCalls env} {L : ProviderCallsLaws env}.
Context (o : dispatch_options) (pool : AnalysisPoolOptions).
Implicit Types s : dstate env.

Lemma run_provider_returns c domains b :
  frozen domains → prog_returns (outcome_ok c domains b) (run_provider o pool c domains b).
Proof using L.
  intros Hf s. unfold run_provider. pose proof (execute_provider_partition o pool c domains b s Hf) as Hp.
  by destruct (_execute_provider o pool c domains b s) as [[] s'].
Qed.

Lemma submit_all_returns poll b jobs :
  Forall (λ j, frozen j.2) jobs →
  prog_returns (Forall2 (λ j d, d.1 = j.1 ∧ outcome_ok j.1 j.2 b d.2) jobs) (submit_all o pool poll b jobs).
Proof using L.
  induction 1 as [|[c ds] jobs Hf _ IH]; simpl; [by apply returns_ret|].
  eapply returns_bind; [apply returns_any|]. intros _ _.
  eapply returns_bind; [by apply run_provider_returns|]. intros r Hr.
  eapply returns_bind; [exact IH|]. intros done Hd. apply returns_ret. by constructor.
Qed.

Lemma collect_returns done acc :
  prog_returns (λ out, out.1 = acc.1 ++ omap (outcome_result ∘ snd) done ∧
                       (Forall (λ d, outcome_clean d.2 = false) done → done ≠ [] → out.2 ≠ []) ∧
                       (out.2 = [] → acc.2 = [] ∧ Forall (λ d, outcome_clean d.2 = true) done))
    (collect done acc).
Proof.
  revert acc. induction done as [|[c r] done IH]; intros acc; simpl.
  - apply returns_ret. rewrite app_nil_r. by split_and!.
  - eapply returns_bind; [apply returns_any|]. intros _ _. destruct r as [r| |r failed e|e]; simpl.
    + eapply returns_impl; [apply IH|]. simpl. intros out (H1 & H2 & H3). rewrite H1, <-app_assoc. split_and!.
      * done.
      * intros Hall. apply Forall_cons in Hall as [Hx _]. done.
      * intros Ho. destruct (H3 Ho). split; [done|]. by constructor.
    + apply returns_raise.
    + eapply returns_bind; [apply returns_any|]. intros err _.
      eapply returns_impl; [apply IH|]. simpl. intros out (H1 & H2 & H3). rewrite H1, <-app_assoc.
      assert (out.2 ≠ []) as Hne by (intros Ho; destruct (H3 Ho) as [Hn _]; by destruct acc.2).
      split_and!; done.
    + eapply returns_bind; [apply returns_any|]. intros err _.
      eapply returns_impl; [apply IH|]. simpl. intros out (H1 & H2 & H3). rewrite H1.
      assert (out.2 ≠ []) as Hne by (intros Ho; destruct (H3 Ho) as [Hn _]; by destruct acc.2).
      split_and!; done.
Qed.
End ModeFacts.

Section Completion.
Context (completion : list nat → list nat) (Hcompletion : ∀ l, completion l ≡ₚ l).

Lemma omap_seq_lookup {A} (pre l : list A) :
  omap (λ i, (pre ++ l) !! i) (seq (length pre) (length l)) = l.
Proof.
  revert pre. induction l as [|x l IH]; intros pre; [done|]. cbn [length seq]. simpl.
  rewrite list_lookup_middle by done. f_equal. specialize (IH (pre ++ [x])).
  rewrite length_app, <-app_assoc in IH. simpl in IH. by rewrite Nat.add_1_r in IH.
Qed.

Lemma in_completion_order_Permutation {A} (l : list A) : in_completion_order completion l ≡ₚ l.
Proof using Hcompletion. unfold in_completion_order. rewrite Hcompletion. exact (reflexive_eq _ _ (omap_seq_lookup [] l)). Qed.
End Completion.

(** The jobs that were done, split into what was classified and what was not. *)
Lemma done_partition b (jobs : list (_Candidate * list string)) (done : list (_Candidate * exec_outcome)) :
  Forall2 (λ j d, d.1 = j.1 ∧ outcome_ok j.1 j.2 b d.2) jobs done →
  let rs := omap (outcome_result ∘ snd) done in
  (∃ missing, classified rs ++ missing ≡ₚ concat (snd <$> jobs) ∧
     (Forall (λ d, outcome_clean d.2 = true) done → missing = [])) ∧
  Forall (λ r, pr_is_primary r = b) rs.
Proof.
  induction 1 as [|[c ds] [c' r] jobs done [Hc Hr] _ [(missing & Hp & Hm) IHb]]; simpl in *.
  { split; [by exists []|constructor]. }
  subst c'. destruct r as [r| |r failed e|e]; simpl in *.
  - destruct Hr as (Hd & Hb & _). split; [|by constructor]. exists missing. split.
    + unfold classified in *. simpl. rewrite Hd, <-app_assoc. by rewrite Hp.
    + intros [_ Hall]%Forall_cons. auto.
  - split; [|done]. exists (missing ++ ds). split; [rewrite app_assoc, Hp; apply Permutation_app_comm|].
    intros [Hx _]%Forall_cons. done.
  - destruct Hr as (Hd & _ & _ & Hb & _). split; [|by constructor]. exists (missing ++ failed). split.
    + unfold classified in *. simpl. rewrite <-Hd, <-Hp. solve_Permutation.
    + intros [Hx _]%Forall_cons. done.
  - split; [|done]. exists (missing ++ ds). split; [rewrite app_assoc, Hp; apply Permutation_app_comm|].
    intros [Hx _]%Forall_cons. done.
Qed.

(** * Distribution *)

Lemma assign_spec id d l :
  concat (snd <$> assign id d l) ≡ₚ concat (snd <$> l) ++ [d] ∧
  (∀ k, k ∈ (assign id d l).*1 ↔ k = id ∨ k ∈ l.*1) ∧ (NoDup l.*1 → NoDup (assign id d l).*1) ∧
  (∀ P : string → Prop, P d → Forall (λ p, Forall P p.2) l → Forall (λ p, Forall P p.2) (assign id d l)).
Proof.
  induction l as [|[k ds] l (IH1 & IH2 & IH3 & IH4)]; simpl.
  { split_and!; [done|set_solver| |].
    - intros _. apply NoDup_singleton.
    - intros P Hd _. by repeat constructor. }
  destruct (String.eqb k id) eqn:E; simpl.
  - apply String.eqb_eq in E as ->. split_and!.
    + solve_Permutation.
    + set_solver.
    + done.
    + intros P Hd [Hds Hl]%Forall_cons. constructor; [|done]. apply Forall_app. by repeat constructor.
  - apply String.eqb_neq in E. split_and!.
    + rewrite IH1. solve_Permutation.
    + intros x. rewrite !elem_of_cons, IH2. tauto.
    + rewrite !NoDup_cons. intros [Hk Hl]. rewrite IH2. split; [|auto]. intros [->|?]; done.
    + intros P Hd [Hds Hl]%Forall_cons. constructor; [done|]. by apply IH4.
Qed.

Lemma candidate_by_id_spec candidates id :
  id ∈ (po_provider_id ∘ ca_provider <$> candidates) → ∃ c, candidate_by_id candidates id = Some c ∧ c ∈ candidates.
Proof.
  unfold candidate_by_id. induction candidates as [|c cs IH] using rev_ind; [by intros ?%not_elem_of_nil|].
  rewrite foldl_app, fmap_app. simpl. destruct (String.eqb _ id) eqn:E.
  - intros _. exists c. split; [done|]. apply elem_of_app. right. left.
  - intros [Hin|Hin]%elem_of_app.
    + destruct (IH Hin) as (c' & Hc' & Hi). exists c'. split; [done|]. apply elem_of_app. by left.
    + apply list_elem_of_singleton in Hin as ->. apply String.eqb_neq in E. done.
Qed.

Section Distribute.
Context {env : Type} `{ProviderCalls env} {L : ProviderCallsLaws env}.
Context (o : dispatch_options) (pool : AnalysisPoolOptions).

Lemma weighted_spec candidates :
  candidates ≠ [] → weighted candidates ≠ [] ∧ ∀ c, c ∈ weighted candidates → c ∈ candidates.
Proof.
  intros Hne. unfold weighted. split.
  - destruct candidates as [|c cs]; [done|]. simpl.
    replace (Z.to_nat (Z.max 1 (mb_weight (ca_membership c)))) with
      (S (Nat.pred (Z.to_nat (Z.max 1 (mb_weight (ca_membership c)))))) by lia. done.
  - intros c Hc. apply list_elem_of_In, in_concat in Hc as (l & Hl & Hc).
    apply list_elem_of_In in Hl, Hc. apply list_elem_of_fmap in Hl as (c' & -> & Hc').
    apply elem_of_replicate in Hc as [-> _]. done.
Qed.

Lemma choose_spec candidates d :
  candidates ≠ [] → ∃ c, choose (weighted candidates) d = Some c ∧ c ∈ candidates.
Proof.
  intros Hne. destruct (weighted_spec candidates Hne) as [Hw Hin]. unfold choose.
  destruct (lookup_lt_is_Some_2 (weighted candidates)
    (Z.to_nat (digest_prefix 8 d mod Z.of_nat (length (weighted candidates))))) as [c Hc].
  { assert (0 < Z.of_nat (length (weighted candidates))) as Hp by (destruct (weighted candidates); [done|simpl; lia]).
    pose proof (Z.mod_pos_bound (digest_prefix 8 d) _ Hp). lia. }
  exists c. split; [done|]. apply Hin. by eapply list_elem_of_lookup_2.
Qed.

Lemma assignments_spec candidates domains :
  candidates ≠ [] →
  let l := assignments candidates domains in
  concat (snd <$> l) ≡ₚ domains ∧ NoDup l.*1 ∧
  (∀ k, k ∈ l.*1 → k ∈ (po_provider_id ∘ ca_provider <$> candidates)).
Proof.
  intros Hne. unfold assignments. induction domains as [|d ds (IH1 & IH2 & IH3)] using rev_ind.
  { split_and!; [done|constructor|by intros ? ?%not_elem_of_nil]. }
  rewrite foldl_app. cbn [foldl]. destruct (choose_spec candidates d Hne) as (c & -> & Hc).
  set (l := foldl _ [] ds) in *.
  destruct (assign_spec (po_provider_id (ca_provider c)) d l) as (H1 & H2 & H3 & _).
  split_and!; [by rewrite H1, IH1|auto|].
  intros k Hk. apply H2 in Hk as [->|Hk]; [|auto]. apply list_elem_of_fmap. eauto.
Qed.

Lemma jobs_of_domains candidates l :
  (∀ k, k ∈ l.*1 → k ∈ (po_provider_id ∘ ca_provider <$> candidates)) →
  concat (snd <$> jobs_of candidates l) = concat (snd <$> l).
Proof.
  unfold jobs_of. induction l as [|[k ds] l IH]; intros Hk; [done|]. simpl.
  destruct (candidate_by_id_spec candidates k) as (c & -> & _); [apply Hk; left|]. simpl.
  f_equal. apply IH. intros x Hx. apply Hk. by right.
Qed.

(** A part of a frozen list is frozen. *)
Lemma frozen_parts (ls : list (list string)) domains :
  concat ls ≡ₚ domains → frozen domains → Forall frozen ls.
Proof.
  intros Hp [Hnd Hn]. rewrite <-Hp in Hnd.
  assert (∀ d, d ∈ concat ls → _normalize_domain d = d ∧ str_nonempty (str_strip d) = true) as Hn'
    by (intros d Hd; apply Hn; by rewrite <-Hp).
  clear Hp Hn domains. induction ls as [|l ls IH]; constructor.
  - simpl in *. by apply (frozen_app l (concat ls)).
  - simpl in *. destruct (frozen_app l (concat ls)) as [_ [? ?]]; [done|]. by apply IH.
Qed.
End Distribute.

(** What the callers rely on: nothing is classified twice, what is missing is
    accounted for by an error, and only results of the right kind are there. *)
Definition sound_outcome (domains : list string) (is_primary : bool)
    (out : list ProviderAnalysisResult * list ProviderAnalysisError) : Prop :=
  (∃ missing, classified out.1 ++ missing ≡ₚ domains ∧ (out.2 = [] → missing = [])) ∧
  Forall (λ r, pr_is_primary r = is_primary) out.1.

Section ModeTheorems.
Context {env : Type} `{ProviderCalls env} {L : ProviderCallsLaws env}.
Context (completion : list nat → list nat) (Hcompletion : ∀ l, completion l ≡ₚ l).
Context (o : dispatch_options) (pool : AnalysisPoolOptions).

Lemma classified_Permutation rs1 rs2 : rs1 ≡ₚ rs2 → classified rs1 ≡ₚ classified rs2.
Proof.
  intros Hp. unfold classified. induction Hp; simpl; [done|by apply Permutation_app_head| |by etrans].
  rewrite !app_assoc. apply Permutation_app_tail, Permutation_app_comm.
Qed.

Lemma distribute_sound candidates domains :
  candidates ≠ [] → frozen domains →
  prog_returns (sound_outcome domains true) (_dispatch_distribute completion o pool candidates domains).
Proof using L Hcompletion.
  intros Hne Hf. destruct (assignments_spec candidates domains Hne) as (Ha & _ & Hk).
  pose proof (jobs_of_domains candidates _ Hk) as Hj. unfold _dispatch_distribute.
  set (jobs := jobs_of candidates (assignments candidates domains)) in *.
  rewrite <-Hj in Ha. eapply returns_bind.
  { apply submit_all_returns. apply (frozen_parts _ _ Ha) in Hf. by rewrite Forall_fmap in Hf. }
  intros done Hd. eapply returns_bind; [apply collect_returns|]. simpl. intros acc (H1 & _ & H3).
  apply returns_ret. destruct (done_partition true jobs done Hd) as [(missing & Hp & Hm) Hb].
  assert (acc.1 ≡ₚ omap (outcome_result ∘ snd) done) as Hacc
    by (rewrite H1, in_completion_order_Permutation by done; done).
  split; simpl.
  - exists missing. split.
    + rewrite <-Ha, <-Hp. apply Permutation_app_tail, classified_Permutation.
      unfold _sort_results. by rewrite sort_by_Permutation.
    + intros He. apply Hm. destruct (H3 He) as [_ Hall]. by rewrite in_completion_order_Permutation in Hall by done.
  - unfold _sort_results. rewrite sort_by_Permutation, Hacc. done.
Qed.

End ModeTheorems.

(** * Without cancellation *)

(** Nobody sets the token. *)
Definition never_cancelled (env : Type) `{ProviderCalls env} : Prop :=
  (∀ e, (cancel_requested e).1 = false) ∧ ∀ pool c batch e, (classify pool c batch e).1 ≠ Err CallCancelled.

Section Uncancelled.
Context {env : Type} `{ProviderCalls env} (Hnc : never_cancelled env).
Context (completion : list nat → list nat).
Context (o : dispatch_options) (pool : AnalysisPoolOptions).
Implicit Types s : dstate env.

Lemma poll_ok s : ∃ s', raise_if_cancelled s = (Ok tt, s').
Proof using Hnc.
  unfold raise_if_cancelled. pose proof (proj1 Hnc (ds_env s)) as Hc.
  destruct (cancel_requested (ds_env s)) as [[] e]; [done|eauto].
Qed.

Lemma poll_succeeds : prog_succeeds (λ _, True) (raise_if_cancelled (env := env)).
Proof using Hnc. intros s. destruct (poll_ok s) as [s' ->]. by exists tt, s'. Qed.

Lemma execute_batches_uncancelled fuel pool_id c batches t s :
  (execute_batches fuel pool_id c batches t s).1 ≠ LoopCancelled.
Proof using Hnc.
  revert batches t s. induction fuel as [|fuel IH]; intros batches t s; [done|].
  cbn [execute_batches]. destruct batches as [|b rest]; [done|].
  destruct (poll_ok s) as [s1 ->].
  pose proof (proj2 Hnc pool_id c b (ds_env s1)) as Hcall.
  destruct (classify pool_id c b (ds_env s1)) as [[r|[|x]] e]; [|done|].
  - destruct (poll_ok (set_env e s1)) as [s2 ->]. apply IH.
  - destruct (px_kind x); try done. destruct (Nat.leb _ _); [done|]. apply IH.
Qed.

(** The loop ends within its fuel, and a provider is abandoned only on a token. *)
Lemma execute_provider_uncancelled c domains b s : (_execute_provider o pool c domains b s).1 ≠ ExecCancelled.
Proof using Hnc.
  unfold _execute_provider. destruct (poll_ok s) as [s1 ->].
  destruct (py_index _ _) as [profile|]; [|done].
  destruct (_provider_batches _ _ _ _ _) as [batches|e] eqn:Eb; [|done].
  apply cut_batches_spec in Eb as [Hc Hall]; [|done].
  assert (Forall (λ b, b ≠ []) batches) as Hne by (eapply Forall_impl; [exact Hall|]; by intros x [? _]).
  pose proof (execute_batches_uncancelled (S (2 * length domains)) (ap_pool_id pool) c batches totals_zero s1) as H1.
  pose proof (execute_batches_fuel (S (2 * length domains)) (ap_pool_id pool) c batches totals_zero s1 Hne) as H2.
  pose proof (budget_bound batches) as Hbud. rewrite Hc in Hbud. specialize (H2 ltac:(lia)).
  destruct (execute_batches _ _ _ _ _ _) as [[t| |t rest e|] s2]; simpl in *; try done.
  by destruct (tt_classifications t).
Qed.

Lemma run_provider_succeeds c domains b : prog_succeeds (λ r, r ≠ ExecCancelled) (run_provider o pool c domains b).
Proof using Hnc.
  intros s. unfold run_provider. pose proof (execute_provider_uncancelled c domains b s) as Hx.
  destruct (_execute_provider _ _ _ _ _ _) as [r s']. eauto.
Qed.

Lemma submit_all_succeeds poll b jobs :
  prog_succeeds (Forall (λ d, d.2 ≠ ExecCancelled)) (submit_all o pool poll b jobs).
Proof using Hnc.
  induction jobs as [|[c ds] jobs IH]; simpl; [apply succeeds_ret; constructor|].
  apply (succeeds_bind (λ _, True)); [destruct poll; [apply poll_succeeds|by apply succeeds_ret]|]. intros _ _.
  eapply succeeds_bind; [apply run_provider_succeeds|]. intros r Hr.
  eapply succeeds_bind; [exact IH|]. intros done Hd. apply succeeds_ret. by constructor.
Qed.

Lemma collect_succeeds done acc :
  Forall (λ d, d.2 ≠ ExecCancelled) done → prog_succeeds (λ _, True) (collect (env := env) done acc).
Proof using Hnc.
  intros Hd. revert acc. induction Hd as [|[c r] done Hr _ IH]; intros acc; simpl; [by apply succeeds_ret|].
  eapply succeeds_bind; [apply poll_succeeds|]. intros _ _.
  destruct r as [r| |r failed e|e]; [apply IH|done|..]; (eapply succeeds_bind; [apply succeeds_read|]); intros err _; apply IH.
Qed.

Lemma completion_Forall {A} (P : A → Prop) l :
  Forall P l → Forall P (in_completion_order completion l).
Proof.
  rewrite !Forall_forall. intros Hl x (i & _ & Hx)%list_elem_of_omap. apply Hl. by eapply list_elem_of_lookup_2.
Qed.

Lemma distribute_succeeds candidates domains :
  prog_succeeds (λ _, True) (_dispatch_distribute completion o pool candidates domains).
Proof using Hnc.
  unfold _dispatch_distribute. eapply succeeds_bind; [apply submit_all_succeeds|]. intros done Hd.
  eapply succeeds_bind; [by apply collect_succeeds, completion_Forall|]. intros acc _. by apply succeeds_ret.
Qed.

Lemma compare_succeeds candidates domains :
  prog_succeeds (λ _, True) (_dispatch_compare completion o pool candidates domains).
Proof using Hnc.
  unfold _dispatch_compare. eapply succeeds_bind; [apply submit_all_succeeds|]. intros done Hd.
  eapply succeeds_bind; [by apply collect_succeeds, completion_Forall|]. intros acc _. by apply succeeds_ret.
Qed.

(** Fallback gives up only on an error that another provider cannot mend. *)
Lemma fallback_loop_raises order remaining acc s e s' :
  fallback_loop o pool order remaining acc s = (Err e, s') →
  ∃ x, e = ProviderFailure x ∧ _is_fallback_eligible x = false.
Proof using Hnc.
  revert remaining acc s. induction order as [|c order IH]; intros remaining acc s; simpl; [done|].
  unfold mbind, prog_bind. destruct (poll_ok s) as [s1 ->]. destruct (bool_decide _); [done|].
  destruct (run_provider_succeeds c remaining true s1) as (r & s2 & -> & Hr).
  destruct r as [x| |x failed y|y]; simpl; [apply IH|done|..]; destruct (_is_fallback_eligible y) eqn:E;
    try apply IH; try done. intros [= <- <-]. eauto.
Qed.
End Uncancelled.

(** * The modes, in full *)

Section Fallback.
Context {env : Type} `{ProviderCalls env} {L : ProviderCallsLaws env}.
Context (o : dispatch_options) (pool : AnalysisPoolOptions).

Lemma classified_snoc rs r : classified (rs ++ [r]) = classified rs ++ result_domains r.
Proof. unfold classified. rewrite fmap_app, concat_app. simpl. by rewrite app_nil_r. Qed.

Lemma fallback_loop_sound order remaining acc :
  frozen remaining → Forall (λ r, pr_is_primary r = true) acc.1 →
  order ≠ [] ∨ acc.2 ≠ [] ∨ remaining = [] →
  prog_returns (λ out, Forall (λ r, pr_is_primary r = true) out.1 ∧
                  ∃ missing, classified out.1 ++ missing = classified acc.1 ++ remaining ∧
                    (out.2 = [] → missing = []))
    (fallback_loop o pool order remaining acc).
Proof using L.
  revert remaining acc. induction order as [|c order IH]; intros remaining acc Hf Hp Hcase; cbn [fallback_loop].
  { apply returns_ret. split; [done|]. exists remaining. split; [done|]. intros He. destruct Hcase as [?|[?|?]]; done. }
  eapply returns_bind; [apply returns_any|]. intros _ _. case_bool_decide as Hr.
  { apply returns_ret. split; [done|]. by exists remaining. }
  eapply returns_bind; [by apply run_provider_returns|]. intros [x| |x failed e|e] Ho; simpl in Ho.
  - destruct Ho as (Hd & Hb & _).
    eapply returns_impl.
    { apply IH; [split; [constructor|by intros ? ?%not_elem_of_nil]| |by auto].
      simpl. apply Forall_app. by repeat constructor. }
    simpl. by rewrite classified_snoc, Hd, app_nil_r.
  - apply returns_raise.
  - destruct Ho as (Hd & _ & _ & Hb & _). rewrite <-Hd in Hf. apply frozen_app in Hf as [_ Hf].
    eapply returns_bind; [apply returns_any|]. intros err _.
    assert (Forall (λ r, pr_is_primary r = true) (acc.1 ++ [x])) as Hall by (apply Forall_app; by repeat constructor).
    destruct (_is_fallback_eligible e).
    + eapply returns_impl; [apply IH; [done|done|right; left; simpl; by destruct acc.2]|].
      simpl. by rewrite classified_snoc, <-app_assoc, Hd.
    + apply returns_ret. simpl. split; [done|]. exists failed. rewrite classified_snoc, <-app_assoc, Hd.
      split; [done|]. by destruct acc.2.
  - eapply returns_bind; [apply returns_any|]. intros err _. destruct (_is_fallback_eligible e); [|apply returns_raise].
    eapply returns_impl; [apply IH; [done|done|right; left; simpl; by destruct acc.2]|]. done.
Qed.
End Fallback.

(** * Verification *)

Section Verify.
Context {env : Type} `{ProviderCalls env} {L : ProviderCallsLaws env}.
Context (o : dispatch_options) (pool : AnalysisPoolOptions).

(** An unreviewed classification of the primary either needs no verification
    or agrees with one of the secondary. *)
Definition verified (others : list ProviderAnalysisResult) (c : Classification) : Prop :=
  cl_needs_review c = true ∨ _requires_verification pool c = false ∨
  ∃ r c', r ∈ others ∧ c' ∈ pr_classifications r ∧ pr_is_primary r = false ∧
          cl_domain c' = cl_domain c ∧ _classifications_agree c c' = true.

Lemma secondary_of_spec l d c' : secondary_of l d = Some c' → c' ∈ l ∧ cl_domain c' = d.
Proof.
  unfold secondary_of. induction l as [|x l IH] using rev_ind; [done|]. rewrite foldl_app. simpl.
  destruct (String.eqb _ d) eqn:E.
  - intros [= ->]. apply String.eqb_eq in E. split; [apply elem_of_app; right; left|done].
  - intros Hs. destruct (IH Hs). split; [apply elem_of_app; by left|done].
Qed.

Lemma secondary_of_None l d : secondary_of l d = None → d ∉ cl_domain <$> l.
Proof.
  unfold secondary_of. induction l as [|x l IH] using rev_ind; [intros _; apply not_elem_of_nil|].
  rewrite foldl_app, fmap_app. simpl. destruct (String.eqb _ d) eqn:E; [done|]. apply String.eqb_neq in E.
  intros Hs. rewrite not_elem_of_app, list_elem_of_singleton. split; [auto|done].
Qed.

Lemma mark_unavailable_domain ds c : cl_domain (mark_unavailable ds c) = cl_domain c.
Proof. unfold mark_unavailable. by case_bool_decide. Qed.

Lemma marked_or_same ds c :
  cl_needs_review (mark_unavailable ds c) = true ∨ (mark_unavailable ds c = c ∧ cl_domain c ∉ ds).
Proof. unfold mark_unavailable. case_bool_decide; [by left|by right]. Qed.

Lemma reconcile_domain l c : cl_domain (reconcile l c) = cl_domain c.
Proof. unfold reconcile. destruct (secondary_of _ _); [|done]. by destruct (_classifications_agree _ _). Qed.

(** Whatever is neither marked nor reconciled is not required to be. *)
Lemma reconcile_verified (secondary : ProviderAnalysisResult) (todo failed : list string) c :
  pr_is_primary secondary = false → result_domains secondary ++ failed = todo →
  (_requires_verification pool c = true → cl_domain c ∈ todo) →
  verified [secondary] (reconcile (pr_classifications secondary) (mark_unavailable failed c)).
Proof.
  intros Hsec Htodo Hreq. unfold verified, reconcile. rewrite mark_unavailable_domain.
  destruct (secondary_of _ _) as [c'|] eqn:Es.
  - destruct (_classifications_agree _ _) eqn:Ea; [|by left]. right. right.
    apply secondary_of_spec in Es as [Hin Hd]. exists secondary, c'. rewrite mark_unavailable_domain.
    split_and!; [by left|done..].
  - apply secondary_of_None in Es. destruct (marked_or_same failed c) as [?|[-> Hf]]; [by left|]. right. left.
    destruct (_requires_verification pool c) eqn:Er; [|done]. specialize (Hreq eq_refl). subst todo.
    apply elem_of_app in Hreq as [?|?]; done.
Qed.

Lemma marked_verified todo c :
  (_requires_verification pool c = true → cl_domain c ∈ todo) → verified [] (mark_unavailable todo c).
Proof.
  intros Hreq. destruct (marked_or_same todo c) as [?|[-> Hn]]; [by left|]. right. left.
  destruct (_requires_verification pool c) eqn:Er; [|done]. exfalso. auto.
Qed.

(** The first result is the primary's, the others are of other providers, and
    every classification of the primary is settled. *)
Definition verified_outcome (domains : list string)
    (out : list ProviderAnalysisResult * list ProviderAnalysisError) : Prop :=
  ∃ primary others missing, out.1 = primary :: others ∧ result_domains primary ++ missing = domains ∧
    pr_is_primary primary = true ∧ (out.2 = [] → missing = []) ∧
    Forall (λ r, pr_is_primary r = false ∧ pr_provider_id r ≠ pr_provider_id primary) others ∧
    Forall (verified others) (pr_classifications primary).

Lemma domains_fmap (f : Classification → Classification) r :
  (∀ c, cl_domain (f c) = cl_domain c) →
  result_domains (with_classifications r (f <$> pr_classifications r)) = result_domains r.
Proof.
  intros Hf. unfold result_domains. simpl. rewrite <-list_fmap_compose. apply list_fmap_ext. intros _ c _. apply Hf.
Qed.

Definition to_verify (primary : ProviderAnalysisResult) : list string :=
  cl_domain <$> filter (λ c, _requires_verification pool c = true) (pr_classifications primary).

Lemma to_verify_spec primary c :
  c ∈ pr_classifications primary → _requires_verification pool c = true → cl_domain c ∈ to_verify primary.
Proof. intros Hc Hr. apply list_elem_of_fmap. exists c. split; [done|]. by apply list_elem_of_filter. Qed.

Lemma frozen_sublist l1 l2 : l1 `sublist_of` l2 → frozen l2 → frozen l1.
Proof.
  intros Hs [Hn Hd]. split; [by eapply sublist_NoDup|]. intros d Hin. apply Hd. by eapply elem_of_sublist.
Qed.

Lemma fmap_sublist {A B} (f : A → B) l1 l2 : l1 `sublist_of` l2 → f <$> l1 `sublist_of` f <$> l2.
Proof. induction 1; simpl; by constructor. Qed.

Lemma verify_with_sound verifier primary missing errors domains :
  frozen domains → result_domains primary ++ missing = domains → pr_is_primary primary = true →
  (errors = [] → missing = []) →
  (∀ v, verifier = Some v → po_provider_id (ca_provider v) ≠ pr_provider_id primary) →
  prog_returns (verified_outcome domains)
    (verify_with o pool verifier primary (to_verify primary) errors).
Proof using L.
  intros Hf Hd Hp Hm Hother.
  assert (frozen (to_verify primary)) as Hfv.
  { rewrite <-Hd in Hf. apply frozen_app in Hf as [Hf _]. eapply frozen_sublist; [|exact Hf].
    unfold to_verify, result_domains. apply fmap_sublist, sublist_filter. }
  assert (∀ e, errors ++ [e] = [] → missing = []) as Hm' by (intros e He; by destruct errors).
  assert (∀ errs, (errs = [] → missing = []) → verified_outcome domains
            ([_mark_verification_unavailable primary (to_verify primary)], errs)) as Hmark.
  { intros errs He. eexists _, [], missing. split; [done|]. split_and!; [|done|done|done|].
    - unfold _mark_verification_unavailable. rewrite domains_fmap; [done|]. intros c. apply mark_unavailable_domain.
    - simpl. apply Forall_fmap, Forall_forall. intros c Hc. apply marked_verified. by apply to_verify_spec. }
  destruct verifier as [v|]; [|apply returns_ret, Hmark, Hm']. specialize (Hother v eq_refl). simpl.
  eapply returns_bind; [by apply run_provider_returns|]. intros [x| |x failed e|e] Ho; simpl in Ho.
  - destruct Ho as (Hx & Hb & Hid). apply returns_ret. eexists _, [x], missing. split; [done|].
    split_and!; [|done|done|apply Forall_singleton; simpl; by rewrite Hid|].
    + rewrite domains_fmap; [done|]. apply reconcile_domain.
    + simpl. apply Forall_fmap, Forall_forall. intros c Hc.
      pose proof (reconcile_verified x (to_verify primary) [] c Hb) as Hr. rewrite app_nil_r in Hr.
      assert (mark_unavailable [] c = c) as Hc' by done. rewrite Hc' in Hr. apply Hr; [done|by apply to_verify_spec].
  - apply returns_raise.
  - destruct Ho as (Hx & _ & _ & Hb & Hid). eapply returns_bind; [apply returns_any|]. intros err _.
    apply returns_ret. eexists _, [x], missing. split; [done|]. split_and!; [|done|apply Hm'|apply Forall_singleton; simpl; by rewrite Hid|].
    + rewrite domains_fmap; [|apply reconcile_domain]. unfold _mark_verification_unavailable.
      rewrite domains_fmap; [done|]. intros c. apply mark_unavailable_domain.
    + simpl. apply Forall_fmap, Forall_fmap, Forall_forall. intros c Hc.
      apply (reconcile_verified x (to_verify primary) failed c); [done|done|by apply to_verify_spec].
  - eapply returns_bind; [apply returns_any|]. intros err _. apply returns_ret, Hmark, Hm'.
Qed.

Lemma verify_sound candidates domains :
  frozen domains → prog_returns (verified_outcome domains) (_dispatch_verify o pool candidates domains).
Proof using L.
  intros Hf. unfold _dispatch_verify. eapply returns_bind; [apply returns_any|]. intros _ _.
  destruct (_fallback_order candidates) as [|c cs]; [apply returns_raise|].
  eapply returns_bind; [by apply run_provider_returns|].
  assert (∀ primary missing errors, result_domains primary ++ missing = domains → pr_is_primary primary = true →
    (errors = [] → missing = []) →
    prog_returns (verified_outcome domains)
      (if bool_decide (to_verify primary = []) then mret ([primary], errors)
       else verify_with o pool
              (snd <$> list_find (λ c, po_provider_id (ca_provider c) ≠ pr_provider_id primary)
                 (_verification_order candidates)) primary (to_verify primary) errors)) as Hcont.
  { intros primary missing errors Hd Hp Hm. case_bool_decide as Hn.
    2: { eapply verify_with_sound; try done.
         intros v ([i c'] & Hv & ->)%fmap_Some. by apply list_find_Some in Hv as (_ & Hne & _). }
    apply returns_ret. exists primary, [], missing. split_and!; try done.
    apply Forall_forall. intros c' Hc. right. left.
    destruct (_requires_verification pool c') eqn:Er; [|done].
    pose proof (to_verify_spec _ _ Hc Er) as Hin. rewrite Hn in Hin. by apply not_elem_of_nil in Hin. }
  intros [x| |x failed e|e] Ho; simpl in Ho; try apply returns_raise.
  - destruct Ho as (Hd & Hb & _). apply (Hcont x []); [by rewrite app_nil_r|done|done].
  - destruct Ho as (Hd & _ & _ & Hb & _). eapply returns_bind; [apply returns_any|]. intros err _.
    by apply (Hcont x failed).
Qed.
End Verify.

(** * What holds of every classification of a result *)

(** A property of classifications that the provider calls guarantee and that
    asking for a review keeps holds of everything a dispatch returns. *)
Section AllResults.
Context {env : Type} `{ProviderCalls env} (P : Classification → Prop).
Context (Hreview : ∀ c reason, P c → reason ≠ ""%string → P (replace_review c true reason)).
Context (Hclassify : ∀ pool c batch e r e', classify pool c batch e = (Ok r, e') → Forall P (cr_classifications r)).
Context (completion : list nat → list nat) (Hcompletion : ∀ l, completion l ≡ₚ l).
Context (o : dispatch_options) (pool : AnalysisPoolOptions).

Definition result_all (r : ProviderAnalysisResult) : Prop := Forall P (pr_classifications r).
Definition outcome_all (x : exec_outcome) : Prop := ∀ r, outcome_result x = Some r → result_all r.

Lemma execute_batches_all fuel pool_id c batches t s : Forall P (tt_classifications t) →
  match (execute_batches fuel pool_id c batches t s).1 with
  | LoopDone t' | LoopFailed t' _ _ => Forall P (tt_classifications t')
  | _ => True
  end.
Proof using Hclassify.
  revert batches t s. induction fuel as [|fuel IH]; intros batches t s Ht; [done|].
  cbn [execute_batches]. destruct batches as [|b rest]; [done|].
  destruct (raise_if_cancelled s) as [[[]|x] s1]; [|done].
  destruct (classify pool_id c b (ds_env s1)) as [[r|[|x]] e] eqn:Ec; [|done|].
  - destruct (raise_if_cancelled _) as [[[]|x] s2]; [|done]. apply IH. apply Forall_app. eauto.
  - destruct (px_kind x); try done. destruct (Nat.leb _ _); [done|by apply IH].
Qed.

Lemma run_provider_all c domains b : prog_returns outcome_all (run_provider o pool c domains b).
Proof using Hclassify.
  intros s. unfold run_provider, _execute_provider, outcome_all, result_all.
  destruct (raise_if_cancelled s) as [[[]|x] s1]; [|done].
  destruct (py_index _ _) as [profile|]; [|done]. destruct (_provider_batches _ _ _ _ _) as [batches|e]; [|done].
  pose proof (execute_batches_all (S (2 * length domains)) (ap_pool_id pool) c batches totals_zero s1) as Ha.
  destruct (execute_batches _ _ _ _ _ _) as [[t| |t rest e|] s2]; simpl in *; try done.
  - intros r [= <-]. by apply Ha.
  - destruct (tt_classifications t) as [|x l] eqn:Et; [done|]. intros r [= <-]. simpl. rewrite Et. by apply Ha.
Qed.

Lemma submit_all_all poll b jobs :
  prog_returns (Forall (λ d, outcome_all d.2)) (submit_all o pool poll b jobs).
Proof using Hclassify.
  induction jobs as [|[c ds] jobs IH]; simpl; [by apply returns_ret|].
  eapply returns_bind; [apply returns_any|]. intros _ _.
  eapply returns_bind; [by apply run_provider_all|]. intros r Hr.
  eapply returns_bind; [exact IH|]. intros done Hd. apply returns_ret. by constructor.
Qed.

Lemma collected_all (done : list (_Candidate * exec_outcome)) :
  Forall (λ d, outcome_all d.2) done → Forall result_all (omap (outcome_result ∘ snd) done).
Proof.
  intros Hd. apply Forall_forall. intros r ([c x] & Hin & Hx)%list_elem_of_omap.
  rewrite Forall_forall in Hd. by apply (Hd _ Hin).
Qed.

Lemma pooled_all candidates poll b jobs :
  prog_returns (λ out, Forall result_all out.1)
    (done ← submit_all o pool poll b jobs;
     acc ← collect (in_completion_order completion done) ([], []);
     mret (_sort_results acc.1 candidates, acc.2)).
Proof using Hclassify Hcompletion.
  eapply returns_bind; [apply submit_all_all|]. intros done Hd.
  eapply returns_bind; [apply collect_returns|]. simpl. intros acc (Hacc & _). apply returns_ret. simpl.
  unfold _sort_results. rewrite sort_by_Permutation, Hacc, in_completion_order_Permutation by done.
  by apply collected_all.
Qed.

Lemma fallback_loop_all order remaining acc : Forall result_all acc.1 →
  prog_returns (λ out, Forall result_all out.1) (fallback_loop o pool order remaining acc).
Proof using Hclassify.
  revert remaining acc. induction order as [|c order IH]; intros remaining acc Ha; cbn [fallback_loop].
  { by apply returns_ret. }
  eapply returns_bind; [apply returns_any|]. intros _ _. case_bool_decide; [by apply returns_ret|].
  eapply returns_bind; [by apply run_provider_all|]. intros [x| |x failed e|e] Ho.
  - apply IH. apply Forall_app. split; [done|]. constructor; [by apply Ho|done].
  - apply returns_raise.
  - eapply returns_bind; [apply returns_any|]. intros err _.
    assert (Forall result_all (acc.1 ++ [x])) by (apply Forall_app; split; [done|constructor; [by apply Ho|done]]).
    destruct (_is_fallback_eligible e); [by apply IH|by apply returns_ret].
  - eapply returns_bind; [apply returns_any|]. intros err _.
    destruct (_is_fallback_eligible e); [by apply IH|apply returns_raise].
Qed.

Lemma mapped_all (f : Classification → Classification) r :
  (∀ c, P c → P (f c)) → result_all r → result_all (with_classifications r (f <$> pr_classifications r)).
Proof. intros Hf Hr. apply Forall_fmap. eapply Forall_impl; [exact Hr|exact Hf]. Qed.

Lemma unavailable_all domains r : result_all r → result_all (_mark_verification_unavailable r domains).
Proof using Hreview.
  apply mapped_all. intros c Hc. unfold mark_unavailable. case_bool_decide; [|done]. apply Hreview; [done|].
  unfold str_or. destruct (cl_review_reason c); done.
Qed.

Lemma verification_all primary errors secondary : result_all primary → result_all secondary →
  Forall result_all (verification_result primary errors secondary).1.
Proof using Hreview.
  intros Hp Hs. repeat constructor; [|done]. apply mapped_all; [|done]. intros c Hc. unfold reconcile.
  destruct (secondary_of _ _) as [other|]; [|done]. destruct (_classifications_agree _ _); [done|by apply Hreview].
Qed.

Lemma verify_with_all verifier primary domains errors : result_all primary →
  prog_returns (λ out, Forall result_all out.1) (verify_with o pool verifier primary domains errors).
Proof using Hreview Hclassify.
  intros Hp. pose proof (unavailable_all domains _ Hp) as Hm. destruct verifier as [v|];
    [|apply returns_ret; by repeat constructor]. cbn [verify_with].
  eapply returns_bind; [by apply run_provider_all|]. intros [x| |x failed e|e] Ho.
  - apply returns_ret. apply verification_all; [done|by apply Ho].
  - apply returns_raise.
  - eapply returns_bind; [apply returns_any|]. intros err _. apply returns_ret.
    apply verification_all; [by apply unavailable_all|by apply Ho].
  - eapply returns_bind; [apply returns_any|]. intros err _. apply returns_ret. by repeat constructor.
Qed.

Lemma verify_all candidates domains :
  prog_returns (λ out, Forall result_all out.1) (_dispatch_verify o pool candidates domains).
Proof using Hreview Hclassify.
  unfold _dispatch_verify. eapply returns_bind; [apply returns_any|]. intros _ _.
  destruct (_fallback_order candidates) as [|c cs]; [apply returns_raise|].
  eapply returns_bind; [by apply run_provider_all|].
  intros [x| |x failed e|e] Ho; try apply returns_raise;
    [|eapply returns_bind; [apply returns_any|]; intros err _];
    (case_bool_decide; [apply returns_ret; constructor; [by apply Ho|done]|apply verify_with_all; by apply Ho]).
Qed.

Lemma mode_all candidates domains :
  prog_returns (λ out, Forall result_all out.1) (dispatch_mode completion o pool candidates domains).
Proof using Hreview Hclassify Hcompletion.
  unfold dispatch_mode. destruct (AnalysisPoolMode_of_value (ap_mode pool)) as [[]|]; [..|apply returns_raise].
  - apply pooled_all.
  - by apply fallback_loop_all.
  - apply pooled_all.
  - apply verify_all.
Qed.
End AllResults.

(** * The run of a dispatch *)

Section Runs.
Context {env : Type} `{ProviderCalls env}.
Context (completion : list nat → list nat) (o : dispatch_options) (pool : AnalysisPoolOptions).
Implicit Types s : dstate env.

Lemma poll_keeps_runs : prog_keeps ds_runs (raise_if_cancelled (env := env)).
Proof. intros s. unfold raise_if_cancelled. by destruct (cancel_requested _). Qed.

Lemma execute_batches_keeps_runs fuel pool_id c batches t s :
  ds_runs (execute_batches fuel pool_id c batches t s).2 = ds_runs s.
Proof.
  revert batches t s. induction fuel as [|fuel IH]; intros batches t s; [done|].
  cbn [execute_batches]. destruct batches as [|b rest]; [done|].
  pose proof (poll_keeps_runs s) as H1. destruct (raise_if_cancelled s) as [[[]|x] s1]; [|done].
  destruct (classify pool_id c b (ds_env s1)) as [[r|[|x]] e]; [|done|].
  - pose proof (poll_keeps_runs (set_env e s1)) as H2.
    destruct (raise_if_cancelled _) as [[[]|x] s2]; simpl in *; [rewrite IH|]; congruence.
  - destruct (px_kind x); try done. destruct (Nat.leb _ _); [done|]. by rewrite IH.
Qed.

Lemma run_provider_keeps_runs c domains b : prog_keeps ds_runs (run_provider o pool c domains b).
Proof.
  intros s. unfold run_provider, _execute_provider. pose proof (poll_keeps_runs s) as H1.
  destruct (raise_if_cancelled s) as [[[]|x] s1]; [|done]. destruct (py_index _ _); [|done].
  destruct (_provider_batches _ _ _ _ _) as [batches|e]; [|done].
  pose proof (execute_batches_keeps_runs (S (2 * length domains)) (ap_pool_id pool) c batches totals_zero s1) as H2.
  assert (∀ id e s', ds_runs (record_failure id e s') = ds_runs s') as Hrec
    by (intros id e s'; unfold record_failure; by destruct (is_quota e)).
  destruct (execute_batches _ _ _ _ _ _) as [[t| |t rest e|] s2]; simpl in *; try congruence.
  destruct (tt_classifications t); simpl; rewrite Hrec; congruence.
Qed.

Create HintDb runs.
#[local] Hint Resolve poll_keeps_runs run_provider_keeps_runs pkeeps_ret pkeeps_read pkeeps_raise : runs.
#[local] Hint Extern 1 (prog_keeps _ (_ ≫= _)) => apply pkeeps_bind; [|intros ?] : runs.

Lemma submit_all_keeps_runs poll b jobs : prog_keeps ds_runs (submit_all o pool poll b jobs).
Proof. induction jobs as [|[c ds] jobs IH]; simpl; [auto with runs|]. destruct poll; eauto 10 with runs. Qed.

Lemma collect_keeps_runs done acc : prog_keeps ds_runs (collect (env := env) done acc).
Proof. revert acc. induction done as [|[c []] done IH]; intros acc; simpl; eauto 10 with runs. Qed.

Lemma fallback_loop_keeps_runs order remaining acc : prog_keeps ds_runs (fallback_loop o pool order remaining acc).
Proof.
  revert remaining acc. induction order as [|c order IH]; intros remaining acc; simpl; [auto with runs|].
  apply pkeeps_bind; [auto with runs|intros _]. case_bool_decide; [auto with runs|].
  apply pkeeps_bind; [auto with runs|]. intros [x| |x failed e|e]; eauto with runs;
    (apply pkeeps_bind; [auto with runs|]); intros err; destruct (_is_fallback_eligible e); eauto with runs.
Qed.

Lemma verify_keeps_runs candidates domains : prog_keeps ds_runs (_dispatch_verify o pool candidates domains).
Proof.
  assert (∀ v p ds errs, prog_keeps ds_runs (verify_with o pool v p ds errs)) as Hv.
  { intros [v|] p ds errs; simpl; [|auto with runs]. apply pkeeps_bind; [auto with runs|].
    intros [x| |x failed e|e]; eauto with runs. }
  unfold _dispatch_verify. apply pkeeps_bind; [auto with runs|intros _].
  destruct (_fallback_order candidates); [auto with runs|]. apply pkeeps_bind; [auto with runs|].
  intros [x| |x failed e|e]; try (by auto with runs).
  - case_bool_decide; [auto with runs|]. apply Hv.
  - apply pkeeps_bind; [auto with runs|]. intros err. case_bool_decide; [auto with runs|]. apply Hv.
Qed.

#[local] Hint Resolve submit_all_keeps_runs collect_keeps_runs fallback_loop_keeps_runs verify_keeps_runs : runs.

Lemma dispatch_mode_keeps_runs candidates domains : prog_keeps ds_runs (dispatch_mode completion o pool candidates domains).
Proof.
  unfold dispatch_mode, _dispatch_distribute, _dispatch_compare, _dispatch_fallback.
  destruct (AnalysisPoolMode_of_value _) as [[]|]; eauto 10 with runs.
Qed.
End Runs.

(** A run that is over: its status is final and its end is recorded. *)
Definition run_closed (r : analysis_run_row) : Prop :=
  an_status r ∈ ["completed"; "completed_with_errors"; "failed"; "cancelled"]%string ∧ an_completed_at r ≠ None.

Lemma finished_run_closed now error status r : run_closed (finished_run now error status r).
Proof.
  split; [|done]. unfold finished_run. simpl. case_bool_decide; [done|].
  destruct (str_nonempty error); set_solver.
Qed.

Section Dispatching.
Context {env : Type} `{ProviderCalls env}.
Context (completion : list nat → list nat) (o : dispatch_options).
Implicit Types s : dstate env.

Lemma finish_runs run_id error status s :
  ds_runs (analysis_run_finish run_id error status s) =
    alter (finished_run (now_of s) error status) run_id (ds_runs s).
Proof. done. Qed.

Lemma alter_started f run_id (row : analysis_run_row) (m : gmap string analysis_run_row) :
  alter f run_id (<[run_id := row]> m) = <[run_id := f row]> m.
Proof. apply map_eq. intros i. destruct (decide (i = run_id)) as [->|]; by simplify_map_eq. Qed.

(** What [run_dispatch] leaves in the table of runs. *)
Lemma run_dispatch_closes pool candidates domains run_id hash row s m r s' :
  ds_runs s = <[run_id := row]> m →
  run_dispatch completion o pool candidates domains run_id hash s = (r, s') →
  ∃ row', ds_runs s' = <[run_id := row']> m ∧ run_closed row' ∧
    ∀ res, r = Ok res → dr_run_id res = run_id ∧
      an_status row' = (if bool_decide (dr_errors res = []) then "completed" else "completed_with_errors")%string.
Proof.
  intros Hs. unfold run_dispatch.
  pose proof (dispatch_mode_keeps_runs completion o pool candidates domains s) as Hk.
  destruct (dispatch_mode _ _ _ _ _ s) as [[[[|x xs] errors]|e] s1]; simpl in Hk; rewrite Hs in Hk.
  - intros [= <- <-]. rewrite finish_runs, Hk, alter_started.
    eexists. split; [done|]. split; [apply finished_run_closed|done].
  - intros [= <- <-]. rewrite finish_runs, Hk, alter_started.
    eexists. split; [done|]. split; [apply finished_run_closed|]. intros res [= <-]. split; [done|].
    simpl. by destruct errors.
  - intros Hr. assert (∃ text st, s' = analysis_run_finish run_id text st s1 ∧ ∃ e', r = Err e') as (text & st & -> & e' & ->).
    { destruct e; injection Hr as <- <-; eauto. }
    rewrite finish_runs, Hk, alter_started. eexists. split; [done|]. split; [apply finished_run_closed|done].
Qed.

(** A dispatch either starts no analysis run, and then the table of runs is
    as it was and it raises, or starts exactly one and closes it whatever
    happens (results, errors, cancellation): its status is final, its end is
    recorded, and a dispatch that returns names that run, marked as completed
    without errors exactly when no provider failed. *)
Theorem dispatch_closes_its_run pool_id domains source s :
  let '(r, s') := dispatch_analysis completion o pool_id domains source s in
  (ds_runs s' = ds_runs s ∧ ∃ e, r = Err e) ∨
  (∃ run_id row, ds_runs s' = <[run_id := row]> (ds_runs s) ∧ run_closed row ∧
     ∀ res, r = Ok res → dr_run_id res = run_id ∧
       an_status row = (if bool_decide (dr_errors res = []) then "completed" else "completed_with_errors")%string).
Proof.
  destruct (dispatch_analysis _ _ _ _ _ s) as [r s'] eqn:Ed. revert Ed. unfold dispatch_analysis, mbind, prog_bind.
  pose proof (poll_keeps_runs s) as H1. destruct (raise_if_cancelled s) as [[[]|x] s1]; simpl in H1;
    [|intros [= <- <-]; left; eauto].
  destruct (_pool_by_id o pool_id) as [pool|]; [|intros [= <- <-]; left; eauto].
  case_bool_decide; [intros [= <- <-]; left; eauto|]. simpl. case_bool_decide; [intros [= <- <-]; left; eauto|].
  unfold analysis_run_start. destruct (fresh_id (ds_env s1)) as [run_id e]. intros Hr. right.
  eapply run_dispatch_closes in Hr as (row' & Hruns & Hc & Hres); [|done].
  exists run_id, row'. simpl in Hruns. by rewrite H1 in Hruns.
Qed.
End Dispatching.

Lemma fallback_order_nonempty candidates : candidates ≠ [] → _fallback_order candidates ≠ [].
Proof. intros Hne Hs. apply Hne, Permutation_nil. rewrite <-Hs. apply sort_by_Permutation. Qed.

Section VerifyRaises.
Context {env : Type} `{ProviderCalls env} (Hnc : never_cancelled env).
Context (o : dispatch_options) (pool : AnalysisPoolOptions).


End VerifyRaises.

(** * Properties of the dispatcher *)

Section DispatchProperties.
Context {env : Type} `{ProviderCalls env} {L : ProviderCallsLaws env}.
Context (completion : list nat → list nat) (o : dispatch_options) (pool : AnalysisPoolOptions).
Implicit Types s : dstate env.

(** Executing a list of domains on one provider neither loses nor repeats a
    domain, however the batches are cut and bisected: the result classifies
    all of them in order, or the ones before the failure, with exactly the
    rest reported as failed; unless the operation is cancelled it always ends
    with a result or an error (the loop never runs out of its rounds). *)
Theorem provider_execution_partitions_domains c domains is_primary s :
  frozen domains →
  outcome_ok c domains is_primary (_execute_provider o pool c domains is_primary s).1 ∧
  (never_cancelled env → (_execute_provider o pool c domains is_primary s).1 ≠ ExecCancelled).
Proof using L.
  intros Hf. split; [by apply execute_provider_partition|]. intros Hn. by apply execute_provider_uncancelled.
Qed.

(** Distribution over a pool classifies every domain at most once, whatever
    the order in which the providers answer; the domains that are missing are
    missing because some provider failed, and with no error there is none.
    Unless the operation is cancelled it always returns. *)
Theorem distribute_accounts_for_every_domain candidates domains :
  (∀ l, completion l ≡ₚ l) → candidates ≠ [] → frozen domains →
  prog_returns (sound_outcome domains true) (_dispatch_distribute completion o pool candidates domains) ∧
  (never_cancelled env → prog_succeeds (λ _, True) (_dispatch_distribute completion o pool candidates domains)).
Proof using L.
  intros Hc Hne Hf. split; [by apply distribute_sound|]. intros Hn. by apply distribute_succeeds.
Qed.

(** Fallback hands each provider exactly what the ones before it left over:
    the classified domains followed by the missing ones are the domains asked
    for, in order, and nothing is missing when no provider failed.  Unless the
    operation is cancelled it raises only an error that is not eligible for
    fallback. *)
Theorem fallback_continues_with_what_is_left candidates domains :
  candidates ≠ [] → frozen domains →
  prog_returns (λ out, Forall (λ r, pr_is_primary r = true) out.1 ∧
                  ∃ missing, classified out.1 ++ missing = domains ∧ (out.2 = [] → missing = []))
    (_dispatch_fallback o pool candidates domains) ∧
  (never_cancelled env → ∀ s e s', _dispatch_fallback o pool candidates domains s = (Err e, s') →
     ∃ x, e = ProviderFailure x ∧ _is_fallback_eligible x = false).
Proof using L.
  intros Hne Hf. split; [|intros Hn s e s'; by apply fallback_loop_raises].
  apply (fallback_loop_sound o pool _ domains ([], [])); [done|constructor|].
  left. by apply fallback_order_nonempty.
Qed.

End DispatchProperties.

Section EndToEnd.
Context {env : Type} `{ProviderCalls env} {L : ProviderCallsLaws env}.
Context (completion : list nat → list nat) (Hcompletion : ∀ l, completion l ≡ₚ l) (o : dispatch_options).

Definition primaries (rs : list ProviderAnalysisResult) : list ProviderAnalysisResult :=
  filter (λ r, pr_is_primary r = true) rs.

(** Every domain once, the missing ones accounted for. *)
Definition covers (domains : list string) (rs : list ProviderAnalysisResult) (errors : list ProviderAnalysisError)
    : Prop :=
  ∃ missing, classified (primaries rs) ++ missing ≡ₚ domains ∧ (errors = [] → missing = []).

Lemma primaries_all rs : Forall (λ r, pr_is_primary r = true) rs → primaries rs = rs.
Proof.
  unfold primaries. induction 1 as [|r rs Hr _ IH]; [done|]. rewrite filter_cons_True by done. by rewrite IH.
Qed.

Lemma primaries_none rs : Forall (λ r, pr_is_primary r = false) rs → primaries rs = [].
Proof.
  unfold primaries. induction 1 as [|r rs Hr _ IH]; [done|]. rewrite filter_cons_False by congruence. done.
Qed.

Lemma mode_covers pool candidates domains :
  candidates ≠ [] → frozen domains → AnalysisPoolMode_of_value (ap_mode pool) ≠ Some COMPARE →
  prog_returns (λ out, covers domains out.1 out.2) (dispatch_mode completion o pool candidates domains).
Proof using L Hcompletion.
  intros Hne Hf Hm. unfold dispatch_mode. destruct (AnalysisPoolMode_of_value (ap_mode pool)) as [[]|]; try done;
    try apply returns_raise.
  - eapply returns_impl; [by apply distribute_sound|]. intros out [(missing & Hp & He) Hb].
    exists missing. by rewrite primaries_all.
  - eapply returns_impl.
    { apply (fallback_loop_sound o pool _ domains ([], [])); [done|constructor|].
      left. by apply fallback_order_nonempty. }
    intros out (Hb & missing & Hp & He). exists missing. rewrite primaries_all, Hp by done. done.
  - eapply returns_impl; [by apply verify_sound|].
    intros out (primary & others & missing & Ho & Hp & Hb & He & Hn & _). exists missing.
    rewrite Ho. unfold primaries. rewrite filter_cons_True by done.
    change (filter _ others) with (primaries others).
    rewrite primaries_none by (eapply Forall_impl; [exact Hn|]; by intros r []).
    unfold classified. simpl. rewrite app_nil_r, Hp. done.
Qed.

(** What the outcome of a mode satisfies, the result of a dispatch does. *)
Lemma dispatch_returns (Q : list ProviderAnalysisResult → list ProviderAnalysisError → Prop) pool_id domains source s res
    s' pool :
  _pool_by_id o pool_id = Some pool →
  (∀ candidates, candidates ≠ [] → prog_returns (λ out, Q out.1 out.2)
     (dispatch_mode completion o pool candidates (freeze_domains domains))) →
  dispatch_analysis completion o pool_id domains source s = (Ok res, s') →
  Q (dr_provider_results res) (dr_errors res).
Proof.
  intros Hpool Hmode. unfold dispatch_analysis, mbind, prog_bind.
  destruct (raise_if_cancelled s) as [[[]|x] s1]; [|done]. rewrite Hpool.
  case_bool_decide; [done|]. simpl. case_bool_decide as Hne; [done|].
  destruct (analysis_run_start _ _ _ _ s1) as [[run_id|e] s2]; [|done]. unfold run_dispatch.
  specialize (Hmode _ Hne s2).
  destruct (dispatch_mode _ _ _ _ _ s2) as [[[[|x xs] errors]|e] s3]; simpl in Hmode; try done.
  - intros [= <- _]. exact Hmode.
  - by destruct e.
Qed.

Lemma dispatch_hash pool_id domains source s res s' :
  dispatch_analysis completion o pool_id domains source s = (Ok res, s') →
  dr_dossier_hash res = dossier_digest (freeze_domains domains).
Proof.
  unfold dispatch_analysis, mbind, prog_bind. destruct (raise_if_cancelled s) as [[[]|x] s1]; [|done].
  destruct (_pool_by_id o pool_id) as [pool|]; [|done]. case_bool_decide; [done|]. simpl. case_bool_decide; [done|].
  destruct (analysis_run_start _ _ _ _ s1) as [[run_id|e] s2]; [|done]. unfold run_dispatch.
  destruct (dispatch_mode _ _ _ _ _ s2) as [[[[|x xs] errors]|e] s3]; [done|by intros [= <- _]|by destruct e].
Qed.

(** C17: A dispatch that returns, in any mode but compare, classifies every
    requested domain at most once in its primary results; the ones it leaves out
    are left out only if some provider failed - provided the requested names,
    once normalised, are distinct, not blank and their own normal form. (The
    name 'b.example. .' normalises to 'b.example. ', which is not, and is left
    out without a failure.) *)
Theorem dispatch_classifies_each_domain_once pool_id domains source s res s' pool :
  frozen (freeze_domains domains) → _pool_by_id o pool_id = Some pool →
  AnalysisPoolMode_of_value (ap_mode pool) ≠ Some COMPARE →
  dispatch_analysis completion o pool_id domains source s = (Ok res, s') →
  covers (freeze_domains domains) (dr_provider_results res) (dr_errors res).
Proof using L Hcompletion.
  intros Hf Hpool Hmode. eapply (dispatch_returns (covers (freeze_domains domains))); [done|].
  intros candidates Hne. by apply mode_covers.
Qed.
End EndToEnd.

(** * When every provider answers *)

Section Healthy.
Context {env : Type} `{ProviderCalls env} {L : ProviderCallsLaws env}.
Context (completion : list nat → list nat) (Hcompletion : ∀ l, completion l ≡ₚ l) (o : dispatch_options).

(** Nobody cancels, every request is answered, and each domain on its own
    fits the context of every candidate. *)
Definition healthy (pool : AnalysisPoolOptions) (candidates : list _Candidate) (domains : list string) : Prop :=
  never_cancelled env ∧
  (∀ pool_id c batch e, ∃ r e', classify pool_id c batch e = (Ok r, e')) ∧
  (∃ profile, py_index (do_prompt_profiles o) (ap_profile_index pool) = Some profile ∧
     (∀ c e d, c ∈ candidates → d ∈ domains → batch_fits profile c (quota_tables e) [d] = Ok true) ∧
     ∀ batch, ∃ messages, batch_messages profile batch = Ok messages).

Context (pool : AnalysisPoolOptions) (candidates : list _Candidate) (domains : list string).
Context (Hh : healthy pool candidates domains).
Implicit Types s : dstate env.

Definition job_ok (j : _Candidate * list string) : Prop := j.1 ∈ candidates ∧ ∀ d, d ∈ j.2 → d ∈ domains.

Lemma execute_batches_healthy fuel pool_id c batches t s :
  match (execute_batches fuel pool_id c batches t s).1 with LoopFailed _ _ _ => False | _ => True end.
Proof using Hh.
  revert batches t s. induction fuel as [|fuel IH]; intros batches t s; [done|].
  cbn [execute_batches]. destruct batches as [|b rest]; [done|].
  destruct (raise_if_cancelled s) as [[[]|x] s1]; [|done].
  destruct (proj1 (proj2 Hh) pool_id c b (ds_env s1)) as (r & e & ->).
  destruct (raise_if_cancelled _) as [[[]|x] s2]; [|done]. apply IH.
Qed.

Lemma run_provider_healthy c ds b :
  job_ok (c, ds) → prog_succeeds (λ r, outcome_clean r = true) (run_provider o pool c ds b).
Proof using Hh.
  intros [Hin Hds] s. unfold run_provider.
  pose proof (execute_provider_uncancelled (proj1 Hh) o pool c ds b s) as Hc.
  revert Hc. unfold _execute_provider. destruct (poll_ok (proj1 Hh) s) as [s1 ->].
  destruct (proj2 (proj2 Hh)) as (profile & -> & Hfit & Hbuilt).
  destruct (_provider_batches _ _ _ _ _) as [batches|e] eqn:Eb.
  - pose proof (execute_batches_healthy (S (2 * length ds)) (ap_pool_id pool) c batches totals_zero s1) as Hf.
    destruct (execute_batches _ _ _ _ _ _) as [[t| |t rest e|] s2]; simpl in *; intros Hc; eauto; done.
  - apply cut_batches_fails in Eb as [(d & Hd & Hno)|(batch & Hno)]; [by rewrite Hfit in Hno by auto| |].
    { unfold batch_fits in Hno. destruct (Hbuilt batch) as [m Hm]. by rewrite Hm in Hno. }
    pose proof (maximum_provider_batch_size_pos (ca_limit_profile c) (do_llm o)). lia.
Qed.

Lemma submit_all_healthy poll b jobs :
  Forall job_ok jobs → prog_succeeds (Forall (λ d, outcome_clean d.2 = true)) (submit_all o pool poll b jobs).
Proof using Hh.
  induction 1 as [|[c ds] jobs Hj _ IH]; simpl; [apply succeeds_ret; constructor|].
  apply (succeeds_bind (λ _, True));
    [destruct poll; [apply poll_succeeds, (proj1 Hh)|by apply succeeds_ret]|]. intros _ _.
  eapply succeeds_bind; [by apply run_provider_healthy|]. intros r Hr.
  eapply succeeds_bind; [exact IH|]. intros done Hd. apply succeeds_ret. by constructor.
Qed.

Lemma jobs_ok : candidates ≠ [] → Forall job_ok (jobs_of candidates (assignments candidates domains)).
Proof.
  intros Hne. destruct (assignments_spec candidates domains Hne) as (Ha & _ & Hk).
  rewrite <-(jobs_of_domains candidates _ Hk) in Ha. apply Forall_forall. intros [c ds] Hj. split; simpl.
  - apply list_elem_of_omap in Hj as ([k l] & Hkl & Hc). simpl in Hc.
    destruct (candidate_by_id_spec candidates k) as (c' & Ec & Hin).
    { apply Hk, list_elem_of_fmap. by exists (k, l). }
    rewrite Ec in Hc. by injection Hc as <- _.
  - intros d Hd. rewrite <-Ha. apply list_elem_of_In, in_concat. exists ds. rewrite <-!list_elem_of_In.
    split; [|done]. apply list_elem_of_fmap. by exists (c, ds).
Qed.

Lemma collect_healthy done acc :
  Forall (λ d, outcome_clean d.2 = true) done → prog_succeeds (λ out, out.2 = acc.2) (collect (env := env) done acc).
Proof using Hh.
  intros Hd. revert acc. induction Hd as [|[c r] done Hr _ IH]; intros acc; simpl; [by apply succeeds_ret|].
  eapply succeeds_bind; [apply poll_succeeds, (proj1 Hh)|]. intros _ _. destruct r as [r| | |]; try done.
  apply (IH (acc.1 ++ [r], acc.2)).
Qed.

Lemma fallback_loop_healthy order remaining acc :
  Forall (λ c, c ∈ candidates) order → (∀ d, d ∈ remaining → d ∈ domains) →
  prog_succeeds (λ out, out.2 = acc.2) (fallback_loop o pool order remaining acc).
Proof using Hh.
  intros Ho. revert remaining acc. induction Ho as [|c order Hc _ IH]; intros remaining acc Hr; cbn [fallback_loop];
    [by apply succeeds_ret|].
  eapply succeeds_bind; [apply poll_succeeds, (proj1 Hh)|]. intros _ _. case_bool_decide; [by apply succeeds_ret|].
  eapply succeeds_bind; [by apply run_provider_healthy|]. intros [r| | |] Hclean; try done.
  apply (IH [] (acc.1 ++ [r], acc.2)). by intros d ?%not_elem_of_nil.
Qed.

Lemma mode_healthy :
  candidates ≠ [] → AnalysisPoolMode_of_value (ap_mode pool) ∈ [Some DISTRIBUTE; Some FALLBACK] →
  prog_succeeds (λ out, out.2 = []) (dispatch_mode completion o pool candidates domains).
Proof using Hh.
  intros Hne Hm. unfold dispatch_mode.
  apply elem_of_cons in Hm as [E|E%list_elem_of_singleton]; rewrite E.
  - unfold _dispatch_distribute. eapply succeeds_bind; [by apply submit_all_healthy, jobs_ok|]. intros done Hd.
    eapply succeeds_bind; [by apply collect_healthy, completion_Forall|]. intros acc Hacc. by apply succeeds_ret.
  - apply fallback_loop_healthy; [|done]. apply Forall_forall. intros c. unfold _fallback_order.
    by rewrite sort_by_Permutation.
Qed.
End Healthy.

Section HealthyDispatch.
Context {env : Type} `{ProviderCalls env} {L : ProviderCallsLaws env}.
Context (completion : list nat → list nat) (Hcompletion : ∀ l, completion l ≡ₚ l) (o : dispatch_options).

(** The token is polled before the candidates are chosen. *)
Definition polled (s : dstate env) : dstate env := (raise_if_cancelled s).2.

(** C19: A dispatch to a pool in distribute or fallback mode with a usable
    provider, for at least one domain, returns without errors and classifies
    every requested domain exactly once, when nothing is cancelled, every
    request to a provider returns, the profile of the pool exists, its messages
    can be built, each domain on its own fits the context of every usable
    provider, and the requested names, once normalised, are distinct, not blank
    and their own normal form. *)
Theorem healthy_dispatch_classifies_everything pool pool_id domains source s :
  let candidates := _pool_candidates o pool false (polled s) in
  healthy o pool candidates (freeze_domains domains) →
  _pool_by_id o pool_id = Some pool →
  AnalysisPoolMode_of_value (ap_mode pool) ∈ [Some DISTRIBUTE; Some FALLBACK] →
  frozen (freeze_domains domains) → freeze_domains domains ≠ [] → candidates ≠ [] →
  ∃ res s', dispatch_analysis completion o pool_id domains source s = (Ok res, s') ∧ dr_errors res = [] ∧
    classified (primaries (dr_provider_results res)) ≡ₚ freeze_domains domains.
Proof using L Hcompletion.
  intros candidates Hh Hpool Hmode Hf Hdom Hcand. unfold dispatch_analysis, mbind, prog_bind.
  destruct (poll_ok (proj1 Hh) s) as [s1 Hs1]. rewrite Hs1, Hpool, bool_decide_false by done. simpl.
  assert (candidates = _pool_candidates o pool false s1) as Hcs by (unfold candidates, polled; by rewrite Hs1).
  rewrite <-Hcs, bool_decide_false by done.
  unfold analysis_run_start. destruct (fresh_id _) as [run_id e]. unfold run_dispatch.
  match goal with |- context [dispatch_mode _ _ _ _ _ ?st] => set (s2 := st) end.
  destruct (mode_healthy completion o pool candidates _ Hh Hcand Hmode s2) as (out & s3 & Hout & He).
  assert (AnalysisPoolMode_of_value (ap_mode pool) ≠ Some COMPARE) as Hnc by (intros E; rewrite E in Hmode; set_solver).
  pose proof (mode_covers completion Hcompletion o pool candidates _ Hcand Hf Hnc s2) as Hc.
  rewrite Hout in Hc. simpl in Hc. destruct Hc as (missing & Hp & Hm). rewrite (Hm He), app_nil_r in Hp.
  rewrite Hout. destruct out as [[|x xs] errors]; simpl in *; subst errors.
  - unfold primaries, classified in Hp. simpl in Hp. by apply Permutation_nil in Hp.
  - eexists _, _. split; [done|]. done.
Qed.
End HealthyDispatch.

(** * A scripted provider *)

(** The replies still to come, a failure each or an answer; after the script
    every request is answered. *)
Record script := Script { sc_replies : list (option provider_exn); sc_ids : list string }.

Definition scripted_classification (d : string) : Classification :=
  mkClassification d ALLOW "cdn" "" "" "Provider" [] "" ROLE_CORE 10 10 10 (9 # 10) false "" 30 "".

#[export] Instance scripted_calls : ProviderCalls script := {
  classify _ _ batch e :=
    let answer := CallResult (scripted_classification <$> batch) 100 ProviderUsage_default in
    match sc_replies e with
    | Some x :: rest => (Err (CallFailed x), Script rest (sc_ids e))
    | _ :: rest => (Ok answer, Script rest (sc_ids e))
    | [] => (Ok answer, e)
    end;
  cancel_requested e := (false, e);
  clock _ := 1000%Q;
  quota_tables _ := QuotaDb ∅ ∅;
  batch_messages _ batch := Ok [(λ d, ("content"%string, d)) <$> batch];
  limit_profile_of _ := ex_profile;
  digest_prefix _ d := Z.of_nat (String.length d);
  dossier_digest _ := "digest"%string;
  fresh_id e := match sc_ids e with [] => ("run"%string, e) | id :: ids => (id, Script (sc_replies e) ids) end
}.

#[export] Instance scripted_laws : ProviderCallsLaws script.
Proof.
  split. intros pool c batch e r e' _. simpl.
  assert (cl_domain <$> (scripted_classification <$> batch) = batch) as Hd
    by (rewrite <-list_fmap_compose; exact (list_fmap_id batch)).
  destruct (sc_replies e) as [|[x|] rest]; intros [= <- <-]; exact Hd.
Qed.

Lemma scripted_never_cancelled : never_cancelled script.
Proof. split; [done|]. intros pool c batch e. simpl. by destruct (sc_replies e) as [|[x|] rest]. Qed.

Definition ex_members : list ProviderPoolMembershipOptions :=
  [mkMembership "p1" true "primary" 1 1; mkMembership "p2" true "verifier" 2 1].
Definition ex_pool (mode : string) : AnalysisPoolOptions :=
  mkAnalysisPoolOptions "main" "Main" true mode 0 2 100 false 70 70 ex_members.
Definition ex_second : LLMProviderOptions :=
  mkLLMProviderOptions "p2" "Second" "custom" "openai_compatible" "https://second.example.com/v1" "key" "model-b"
    (Fin 0) (Fin 30) 4096 "max_tokens" true "auto" (mkProviderLimitOptions "auto" "" 0 0 0 0 0 0 0 0 (Fin 0) 0 0 10).
Definition ex_dispatch (mode : string) : dispatch_options :=
  mkDispatchOptions ex_options [ex_provider; ex_second] [ex_pool mode] [mkPromptProfileOptions "default" "" ""].
Definition ex_start (replies : list (option provider_exn)) : dstate script :=
  DState (Script replies ["r1"%string]) ∅ ∅.
Definition ex_candidates (mode : string) : list _Candidate :=
  _pool_candidates (ex_dispatch mode) (ex_pool mode) false (ex_start []).
Definition ex_domains : list string := ["a.example"; "bb.example"; "c.example"]%string.

Lemma ex_domains_frozen : frozen ex_domains.
Proof.
  split; [by apply (bool_decide_unpack _); vm_compute|].
  intros d Hd. repeat (apply elem_of_cons in Hd as [->|Hd]; [by vm_compute|]). by apply not_elem_of_nil in Hd.
Qed.

Definition quota_gone : option provider_exn := Some (PExn (KQuota 2000%Q) "quota").
Definition refused : option provider_exn := Some (PExn (KHTTP (Some 400)) "bad request").
Definition silent_failure : option provider_exn := Some (PExn KOther "").

Definition out_domains {A B} (x : result A (list ProviderAnalysisResult * B) * dstate script) : list (string * list string) :=
  match x.1 with Ok out => (λ r, (pr_provider_id r, result_domains r)) <$> out.1 | Err _ => [] end.

Lemma provider_execution_partitions_domains_witness :
  let c := mkCandidate (mkMembership "p1" true "primary" 1 1) ex_provider ex_profile in
  ∃ r failed e s', _execute_provider (ex_dispatch "fallback") (ex_pool "fallback") c ex_domains true
                     (ex_start [quota_gone; None; quota_gone; quota_gone]) = (ExecPartial r failed e, s') ∧
    result_domains r ++ failed = ex_domains.
Proof.
  intros c.
  destruct (provider_execution_partitions_domains (ex_dispatch "fallback") (ex_pool "fallback") c ex_domains true
    (ex_start [quota_gone; None; quota_gone; quota_gone]) ex_domains_frozen) as [Hp _].
  destruct (_execute_provider _ _ c _ _ _) as [[r| |r failed e|e] s'] eqn:E; try (vm_compute in E; discriminate E).
  exists r, failed, e, s'. split; [reflexivity|]. exact (proj1 Hp).
Defined.

Lemma distribute_accounts_for_every_domain_witness :
  ∃ out s', _dispatch_distribute (@rev nat) (ex_dispatch "distribute") (ex_pool "distribute") (ex_candidates "distribute")
              ex_domains (ex_start [refused]) = (Ok out, s') ∧ sound_outcome ex_domains true out.
Proof.
  destruct (distribute_accounts_for_every_domain (env := script) (@rev nat) (ex_dispatch "distribute")
    (ex_pool "distribute") (ex_candidates "distribute") ex_domains) as [Hs Ht].
  - intros l. symmetry. apply Permutation_rev.
  - vm_compute. discriminate.
  - exact ex_domains_frozen.
  - destruct (Ht scripted_never_cancelled (ex_start [refused])) as (out & s' & E & _).
    exists out, s'. split; [exact E|]. specialize (Hs (ex_start [refused])). rewrite E in Hs. exact Hs.
Defined.

Lemma fallback_continues_with_what_is_left_witness :
  let run := _dispatch_fallback (ex_dispatch "fallback") (ex_pool "fallback") (ex_candidates "fallback") ex_domains
               (ex_start [quota_gone; None; quota_gone; quota_gone]) in
  out_domains run = [("p1", ["a.example"]); ("p2", ["bb.example"; "c.example"])]%string ∧
  ∃ out s' missing, run = (Ok out, s') ∧ classified out.1 ++ missing = ex_domains.
Proof.
  intros run. split; [vm_compute; reflexivity|].
  destruct (fallback_continues_with_what_is_left (env := script) (ex_dispatch "fallback") (ex_pool "fallback")
    (ex_candidates "fallback") ex_domains) as [Hs _].
  - vm_compute. discriminate.
  - exact ex_domains_frozen.
  - specialize (Hs (ex_start [quota_gone; None; quota_gone; quota_gone])). fold run in Hs.
    destruct run as [[out|e] s'] eqn:E; [|vm_compute in E; discriminate E].
    destruct Hs as (_ & missing & Hm & _). exists out, s', missing. split; [reflexivity|exact Hm].
Defined.


Lemma dispatch_classifies_each_domain_once_witness :
  ∃ res s', dispatch_analysis (λ l, l) (ex_dispatch "fallback") "Main " ex_domains "manual"
              (ex_start [quota_gone; None; quota_gone; quota_gone]) = (Ok res, s') ∧
    covers ex_domains (dr_provider_results res) (dr_errors res).
Proof.
  destruct (dispatch_analysis (λ l, l) (ex_dispatch "fallback") "Main " ex_domains "manual"
    (ex_start [quota_gone; None; quota_gone; quota_gone])) as [[res|e] s'] eqn:E; [|vm_compute in E; discriminate E].
  exists res, s'. split; [reflexivity|].
  apply (dispatch_classifies_each_domain_once (λ l, l) (λ l, Permutation_refl l) (ex_dispatch "fallback") "Main " ex_domains
    "manual" (ex_start [quota_gone; None; quota_gone; quota_gone]) res s' (ex_pool "fallback")).
  - exact ex_domains_frozen.
  - reflexivity.
  - vm_compute. discriminate.
  - exact E.
Defined.

(** Providers that answer every request. *)
Definition answering_calls : ProviderCalls unit := {|
  classify _ _ batch e := (Ok (CallResult (scripted_classification <$> batch) 100 ProviderUsage_default), e);
  cancel_requested e := (false, e);
  clock _ := 1000%Q;
  quota_tables _ := QuotaDb ∅ ∅;
  batch_messages _ batch := Ok [(λ d, ("content"%string, d)) <$> batch];
  limit_profile_of _ := ex_profile;
  digest_prefix _ d := Z.of_nat (String.length d);
  dossier_digest _ := "digest"%string;
  fresh_id e := ("run"%string, e)
|}.

Lemma answering_laws : @ProviderCallsLaws unit answering_calls.
Proof.
  split. intros pool c batch e r e' _ [= <- <-]. simpl. rewrite <-list_fmap_compose. exact (list_fmap_id batch).
Qed.

Lemma healthy_dispatch_classifies_everything_witness :
  ∃ res s', @dispatch_analysis unit answering_calls (@rev nat) (ex_dispatch "distribute") "main" ex_domains "manual"
              (DState tt ∅ ∅) = (Ok res, s') ∧ dr_errors res = [] ∧
    classified (primaries (dr_provider_results res)) ≡ₚ ex_domains.
Proof.
  apply (@healthy_dispatch_classifies_everything unit answering_calls answering_laws (@rev nat)
    (λ l, Permutation_sym (Permutation_rev l)) (ex_dispatch "distribute") (ex_pool "distribute") "main" ex_domains
    "manual" (DState tt ∅ ∅)).
  - split; [split; [reflexivity|discriminate]|]. split; [intros; eexists _, _; reflexivity|].
    eexists. split; [reflexivity|]. split; [|by eexists].
    intros c [] d Hc Hd. apply list_elem_of_In in Hc, Hd. vm_compute in Hc, Hd.
    repeat (destruct Hc as [<-|Hc]; [repeat (destruct Hd as [<-|Hd]; [vm_compute; reflexivity|]); destruct Hd|]).
    destruct Hc.
  - reflexivity.
  - left.
  - exact ex_domains_frozen.
  - vm_compute. discriminate.
  - vm_compute. discriminate.
Defined.

(** ** Two consequences of the error handling *)

(** Normalising strips blanks before it strips dots, so a normalised name may
    not be its own normal form: it then names another domain to whoever
    normalises it again. *)
Example a_normalised_name_may_change_again :
  freeze_domains ["b.example. ."]%string = ["b.example. "]%string ∧ _normalize_domain "b.example. " = "b.example"%string.
Proof. vm_compute. done. Qed.

(** The first provider classified a domain, the second one was refused: the
    dispatch raises and the classification is lost. *)
Example fallback_discards_partial_results :
  let run replies := _dispatch_fallback (ex_dispatch "fallback") (ex_pool "fallback") (ex_candidates "fallback")
                       ex_domains (ex_start replies) in
  out_domains (run [quota_gone; None; quota_gone; quota_gone; None]) =
    [("p1", ["a.example"]); ("p2", ["bb.example"; "c.example"])]%string ∧
  (run [quota_gone; None; quota_gone; quota_gone; refused]).1 =
    Err (ProviderFailure (PExn (KHTTP (Some 400)) "bad request")).
Proof. split; vm_compute; reflexivity. Qed.

(** A failure without a message is recorded as a completed run. *)
Example failed_run_without_message_is_completed :
  let '(r, s') := dispatch_analysis (λ l, l) (ex_dispatch "fallback") "main" ex_domains "manual"
                    (ex_start [silent_failure]) in
  r = Err (ProviderFailure (PExn KOther "")) ∧ an_status <$> ds_runs s' !! "r1"%string = Some "completed"%string.
Proof. vm_compute. split; reflexivity. Qed.
