(* ===== verification/Classify.v ===== *)
(** The requests of [llm.py]: the prompt from the templates, the dossiers and
    the configured tags, the classification of a batch of domains over the
    output modes of a provider, and the HTTP provider calls as the dispatcher
    uses them.

    Parameters are the texts of floats, SHA-256, and what [str.format] does with
    a field that has a conversion, a format specification or an accessor. *)
From stdpp Require Import base gmap strings list pretty.
From Stdlib Require Import Ascii QArith Qround Lqa Sorted.
From S2P Require Import Prelude HttpRetry Json JsonText Models Options Database Answers Quota Provider Dispatch.
Open Scope Z_scope.

(** * [str.format_map]

    The grammar of CPython's [MarkupIterator]: doubled braces stand for
    themselves, a field goes up to its closing brace. *)

Inductive format_exn :=
  | FormatKeyError (key : string)
  | FormatValueError (text : string)
  | FormatOther (text : string).

(** A field: the name looked up, the accessors after it, the conversion and the
    specification. *)
Record format_field := FormatField {
  ff_name : string;
  ff_access : string;
  ff_conversion : option Ascii.ascii;
  ff_spec : string
}.

(** The name up to the character that ends it, which is not looked for inside
    brackets. *)
Fixpoint read_name (bracket : bool) (s : string) : result format_exn (string * Ascii.ascii * string) :=
  match s with
  | EmptyString => Err (FormatValueError "expected '}' before end of string")
  | String c rest =>
      let continue bracket := '(name, last, rest) ← read_name bracket rest; Ok (String c name, last, rest) in
      if bracket then continue (negb (Ascii.eqb c "]"%char))
      else if Ascii.eqb c "{"%char then Err (FormatValueError "unexpected '{' in field name")
      else if Ascii.eqb c "}"%char || Ascii.eqb c ":"%char || Ascii.eqb c "!"%char then Ok (EmptyString, c, rest)
      else continue (Ascii.eqb c "["%char)
  end.

(** The specification, in which braces nest. *)
Fixpoint read_spec (depth : nat) (s : string) : result format_exn (string * string) :=
  match s with
  | EmptyString => Err (FormatValueError "unmatched '{' in format spec")
  | String c rest =>
      let continue depth := '(spec, rest) ← read_spec depth rest; Ok (String c spec, rest) in
      if Ascii.eqb c "{"%char then continue (S depth)
      else if Ascii.eqb c "}"%char
           then match depth with O => Ok (EmptyString, rest) | S depth => continue depth end
           else continue depth
  end.

(** What follows an exclamation mark: the conversion and the specification. *)
Definition read_conversion (s : string) : result format_exn (Ascii.ascii * string * string) :=
  match s with
  | EmptyString => Err (FormatValueError "end of string while looking for conversion specifier")
  | String conversion EmptyString => Err (FormatValueError "unmatched '{' in format spec")
  | String conversion (String c rest) =>
      if Ascii.eqb c "}"%char then Ok (conversion, EmptyString, rest)
      else if Ascii.eqb c ":"%char then '(spec, rest) ← read_spec 0 rest; Ok (conversion, spec, rest)
      else Err (FormatValueError "expected ':' after conversion specifier")
  end.

(** A name up to its first dot or bracket. *)
Fixpoint split_access (name : string) : string * string :=
  match name with
  | EmptyString => (EmptyString, EmptyString)
  | String c rest =>
      if is_dot c || Ascii.eqb c "["%char then (EmptyString, name)
      else let '(first, access) := split_access rest in (String c first, access)
  end.

(** A field after its opening brace, and the text after it. *)
Definition read_field (s : string) : result format_exn (format_field * string) :=
  '(name, last, rest) ← read_name false s;
  let '(first, access) := split_access name in
  if Ascii.eqb last "!"%char
  then '(conversion, spec, rest) ← read_conversion rest; Ok (FormatField first access (Some conversion) spec, rest)
  else if Ascii.eqb last ":"%char
  then '(spec, rest) ← read_spec 0 rest; Ok (FormatField first access None spec, rest)
  else Ok (FormatField first access None EmptyString, rest).

Section Format.
(** What becomes of a value in a field with an accessor, a conversion or a
    specification. *)
Context (format_rest : string → format_field → result format_exn string).
Context (variables : list (string * string)).

Definition is_plain (field : format_field) : bool :=
  negb (str_nonempty (ff_access field)) && negb (str_nonempty (ff_spec field)) &&
  match ff_conversion field with None => true | Some _ => false end.

Definition render_field (field : format_field) : result format_exn string :=
  if str_forallb is_digit (ff_name field) then Err (FormatValueError "Format string contains positional fields")
  else match dict_get (ff_name field) variables with
       | None => Err (FormatKeyError (ff_name field))
       | Some value => if is_plain field then Ok value else format_rest value field
       end.

Definition is_brace (c : Ascii.ascii) : bool := Ascii.eqb c "{"%char || Ascii.eqb c "}"%char.
Definition single_brace (c : Ascii.ascii) : format_exn :=
  FormatValueError ("Single '" +:+ String c "' encountered in format string")%string.

(** [skip]: the characters that a field or a doubled brace still covers. *)
Fixpoint format_from (skip : nat) (template : string) : result format_exn string :=
  match template with
  | EmptyString => Ok EmptyString
  | String c rest =>
      match skip with
      | S skip => format_from skip rest
      | O =>
          if is_brace c then
            match rest with
            | EmptyString => Err (single_brace c)
            | String d _ =>
                if Ascii.eqb d c then text ← format_from 1 rest; Ok (String c text)
                else if Ascii.eqb c "}"%char then Err (single_brace c)
                else
                  '(field, after) ← read_field rest;
                  text ← render_field field;
                  tail ← format_from (String.length rest - String.length after) rest;
                  Ok (text +:+ tail)%string
            end
          else text ← format_from 0 rest; Ok (String c text)
      end
  end.

Definition format_map (template : string) : result format_exn string := format_from 0 template.
End Format.

(** * The prompt *)

Definition dossier : Type := list (string * json).

Section Prompt.
Context `{PyRepr} (float_repr : Q → string) (sha256 : string → string).
Context (format_rest : string → format_field → result format_exn string).

(** [options.tag_policies.get(tag, "manual_review")] *)
Definition tag_policy (options : LLMOptions) (tag : string) : string :=
  default "manual_review"%string (lm_tag_policies options !! tag).

Definition policies (options : LLMOptions) : list (string * string) :=
  dict_of ((λ tag, (tag, tag_policy options tag)) <$> lm_tags options).

Definition prompt_variables (options : LLMOptions) (dossiers : list dossier) : list (string * string) :=
  let domains := (λ d, str_lower (str_strip (py_str_or (dict_get "domain" d) ""))) <$> dossiers in
  let dumps := json_dumps float_repr default_style in
  [("domain", default ""%string (head domains));
   ("domains", str_join ", " domains);
   ("domain_dossiers", json_dumps float_repr indented_style (JArray (JObject <$> dossiers)));
   ("tags", dumps (JArray (JString <$> lm_tags options)));
   ("policies", dumps (JObject ((λ p, (p.1, JString p.2)) <$> policies options)));
   ("schema", dumps (classification_schema (lm_tags options)))]%string.

Definition technical (options : LLMOptions) : string :=
  newline +:+ newline +:+ str_join newline
    ["Technical contract:";
     "- Return one JSON object and no prose outside it.";
     "- Return exactly one result for every supplied domain and no additional domains.";
     "- Tags describe purposes or technical roles; policy is only a recommendation.";
     "- Distinguish evidence from inference in details.";
     "- Set needs_review=true for weak evidence, shared infrastructure, high breakage risk, authentication, payments, updates, or conflicting evidence.";
     "- short must be suitable as a concise Pi-hole comment.";
     "Allowed tags: " +:+ str_join ", " (lm_tags options) +:+ ".";
     "Administrative default policies:";
     str_join newline ((λ tag, "- " +:+ tag +:+ ": " +:+ tag_policy options tag) <$> lm_tags options);
     "Required JSON schema:";
     json_dumps float_repr default_style (classification_schema (lm_tags options))]%string.

(** What [build_batch_messages] raises: [ValueError] for a template that cannot
    be formatted, anything else a format specification raises. *)
Inductive prompt_exn := PromptValue (text : string) | PromptOther (text : string).

Definition invalid_template (e : format_exn) : prompt_exn :=
  match e with
  | FormatKeyError key => PromptValue ("Invalid user prompt template: " +:+ py_repr_of (JString key))%string
  | FormatValueError text => PromptValue ("Invalid user prompt template: " +:+ text)%string
  | FormatOther text => PromptOther text
  end.

Definition build_batch_messages (profile : PromptProfileOptions) (dossiers : list dossier) (options : LLMOptions)
    : result prompt_exn (list (list (string * string))) :=
  match format_map format_rest (prompt_variables options dossiers) (pf_user_template profile) with
  | Err e => Err (invalid_template e)
  | Ok user =>
      Ok [[("role", "system"); ("content", str_strip (pf_system profile) +:+ technical options)];
          [("role", "user"); ("content", user)]]%string
  end.

Definition build_messages (profile : PromptProfileOptions) (domain : string) (d : dossier) (options : LLMOptions)
    : result prompt_exn (list (list (string * string))) :=
  build_batch_messages profile [dict_setdefault "domain" (JString domain) d] options.

(** [sort_keys=True] makes the order of the policies irrelevant. *)
Definition prompt_fingerprint (profile : PromptProfileOptions) (options : LLMOptions) : string :=
  sha256 (json_dumps float_repr default_style (sorted_keys (JObject
    [("system", JString (pf_system profile));
     ("user_template", JString (pf_user_template profile));
     ("tags", JArray (JString <$> lm_tags options));
     ("policies", JObject ((λ p, (p.1, JString p.2)) <$> map_to_list (lm_tag_policies options)));
     ("schema", classification_schema (lm_tags options))]%string))).

(** ** The dossiers of the requested domains *)

Definition dossier_domain (d : dossier) : string := _normalize_domain (py_str_or (dict_get "domain" d) "").

Definition dossier_map (dossiers : list dossier) : list (string * dossier) :=
  dict_of ((λ d, (dossier_domain d, d)) <$> dossiers).

Definition normalized_dossiers (domains : list string) (dossiers : list dossier) : list dossier :=
  (λ domain, dict_set "domain" (JString domain)
               (default [("domain"%string, JString domain)] (dict_get domain (dossier_map dossiers)))) <$> domains.

(** [_freeze_dossiers] of the dispatcher: the dossiers as they are read back
    from their canonical text, and its hash. *)
Definition canonical_text (domains : list string) (dossiers : list dossier) : string :=
  json_dumps float_repr compact_style (sorted_keys (JArray (JObject <$> normalized_dossiers domains dossiers))).

Definition _freeze_dossiers (domains : list string) (dossiers : list dossier)
    : option (list string * list dossier * string) :=
  let normalized_domains := freeze_domains domains in
  let serialized := canonical_text normalized_domains dossiers in
  match json_loads serialized with
  | Some (JArray frozen) => Some (normalized_domains, omap object_of frozen, sha256 serialized)
  | _ => None
  end.
End Prompt.

(** * Classifying a batch *)

Record ClassificationBatchResult := mkBatchResult {
  br_classifications : list Classification;
  br_response : ProviderResponse
}.

(** What ends an attempt in one output mode and is caught: an exception of the
    request, or [LLMResponseError]. *)
Inductive failure := RequestFailed (e : api_exn) | AnswerRefused (text : string).

(** What the functions raise: [ClassifyFailed] is the [RuntimeError] of a failed
    request, with its cause; [ClassifyRaised] passes on what is not caught. *)
Inductive classify_exn :=
  | ClassifyRaised (e : api_exn)
  | ClassifyFailed (cause : failure)
  | ClassifyValue (text : string)
  | ClassifyRuntime (text : string)
  | ClassifyOverflow
  | ClassifyOther (text : string).

Section ExceptionText.
(** [_format_timestamp], and the text of an [OverflowError], which names the
    operation. *)
Context (format_timestamp : Q → string) (overflow_text : string).

(** [str(exc)] *)
Definition api_text (e : api_exn) : string :=
  match e with
  | ApiCancelled => "Operation cancelled"
  | ApiQuota (QuotaUnavailableError t) => "Provider quota is reserved until " +:+ format_timestamp t +:+ "."
  | ApiQuota QuotaIntegrityError => "UNIQUE constraint failed: quota_reservations.reservation_id"
  | ApiRateLimit text _ | ApiHTTP _ text | ApiConnection text | ApiTimeout text | ApiRequest text
  | ApiValue text | ApiRuntime text => text
  | ApiOverflow => overflow_text
  end%string.

Definition failure_text (f : failure) : string :=
  match f with RequestFailed e => api_text e | AnswerRefused text => text end.

Definition classify_text (e : classify_exn) : string :=
  match e with
  | ClassifyRaised e => api_text e
  | ClassifyFailed cause => "LLM request failed: " +:+ failure_text cause
  | ClassifyValue text | ClassifyRuntime text | ClassifyOther text => text
  | ClassifyOverflow => overflow_text
  end%string.
End ExceptionText.

(** [except (requests.RequestException, ValueError, LLMResponseError)] *)
Definition is_caught (e : api_exn) : bool :=
  match e with
  | ApiRateLimit _ _ | ApiHTTP _ _ | ApiConnection _ | ApiTimeout _ | ApiRequest _ | ApiValue _ => true
  | ApiCancelled | ApiQuota _ | ApiOverflow | ApiRuntime _ => false
  end.

Definition _can_try_output_mode_fallback (f : failure) : bool :=
  match f with
  | RequestFailed (ApiHTTP status _) => bool_decide (status ∈ [400; 404; 415; 422])
  | RequestFailed (ApiValue _) | AnswerRefused _ => true
  | RequestFailed _ => false
  end.

Definition output_modes (provider : LLMProviderOptions) : list string :=
  if is_anthropic provider then ["prompt_only"%string] else _structured_modes (po_structured_output provider).

(** [if x is None: raise ...] and the exceptions of a prompt *)
Definition of_prompt {A} (r : result prompt_exn A) : result classify_exn A :=
  match r with
  | Ok a => Ok a
  | Err (PromptValue text) => Err (ClassifyValue text)
  | Err (PromptOther text) => Err (ClassifyOther text)
  end.

Section Classify.
Context {env : Type} `{Network env} `{PyRepr}.
Context (url_hostname account_fingerprint : string → string) (header_float date_timestamp : string → option Q).
Context (float_repr : Q → string) (format_rest : string → format_field → result format_exn string).
(** Fuel for each request. *)
Context (fuel : nat).

Abbreviation cprog := (prog (pstate env) classify_exn).

Definition raised {A} (m : prog (pstate env) api_exn A) : cprog A := λ s,
  match m s with
  | (Ok a, s) => (Ok a, s)
  | (Err e, s) => (Err (ClassifyRaised e), s)
  end.
Definition computed {A} (r : result classify_exn A) : cprog A := λ s, (r, s).

(** The body of the [try]: one request in one mode, and its answer. *)
Definition try_mode (provider : LLMProviderOptions) (messages : list (list (string * string)))
    (context : option ProviderRequestContext) (domains : list string) (options : LLMOptions) (mode : string)
    : cprog (failure + ClassificationBatchResult) := λ s,
  match request_provider url_hostname account_fingerprint header_float date_timestamp fuel provider messages
          (_response_format mode (lm_tags options)) context s with
  | (Err e, s) => (if is_caught e then Ok (inl (RequestFailed e)) else Err (ClassifyRaised e), s)
  | (Ok response, s) =>
      (match parse_batch_classifications (rp_text response) domains (lm_tags options) (po_name provider) options with
       | Ok classifications => Ok (inr (mkBatchResult classifications response))
       | Err (LLMResponseError text) => Ok (inl (AnswerRefused text))
       | Err AnswerOverflow => Err ClassifyOverflow
       end, s)
  end.

(** The loop over the modes; no provider is left without a mode. *)
Fixpoint try_modes (provider : LLMProviderOptions) (messages : list (list (string * string)))
    (context : option ProviderRequestContext) (domains : list string) (options : LLMOptions) (modes : list string)
    : cprog ClassificationBatchResult :=
  match modes with
  | [] => prog_raise (ClassifyRuntime "LLM request failed: None")
  | mode :: modes =>
      _ ← raised Provider.raise_if_cancelled;
      outcome ← try_mode provider messages context domains options mode;
      match outcome with
      | inr result => mret result
      | inl cause =>
          if bool_decide (modes = []) || negb (_can_try_output_mode_fallback cause)
          then prog_raise (ClassifyFailed cause)
          else try_modes provider messages context domains options modes
      end
  end.

Definition classify_domains_with_metadata (domains : list string) (provider : LLMProviderOptions)
    (profile : PromptProfileOptions) (dossiers : list dossier) (options : LLMOptions) (pool_id : string)
    (limit_profile : ProviderLimitProfile) : cprog ClassificationBatchResult :=
  _ ← raised Provider.raise_if_cancelled;
  let normalized_domains := freeze_domains domains in
  if bool_decide (normalized_domains = [])
  then prog_raise (ClassifyValue "At least one domain is required for provider analysis.")
  else if negb (str_nonempty (str_strip (po_base_url provider)))
  then prog_raise (ClassifyRuntime ("LLM provider " +:+ po_name provider +:+ " has no base URL configured")%string)
  else if negb (str_nonempty (str_strip (po_model provider)))
  then prog_raise (ClassifyRuntime ("LLM provider " +:+ po_name provider +:+ " has no model configured")%string)
  else
    messages ← computed (of_prompt (build_batch_messages float_repr format_rest profile
                  (normalized_dossiers normalized_domains dossiers) options));
    estimate ← prog_read (λ s, estimate_provider_usage messages provider limit_profile
                  (Z.of_nat (length normalized_domains)) (ps_quota s));
    try_modes provider messages (Some (mkRequestContext pool_id limit_profile options estimate))
      normalized_domains options (output_modes provider).

(** [options.llm_providers[options.llm.active_provider_index]]: nothing without
    providers; [IndexError] beyond them. *)
Definition _active_provider (options : Options) : result classify_exn (option LLMProviderOptions) :=
  match op_llm_providers options with
  | [] => Ok None
  | providers => match py_index providers (lm_active_provider_index (op_llm options)) with
                 | Some provider => Ok (Some provider)
                 | None => Err (ClassifyOther "list index out of range")
                 end
  end.

Definition _active_profile (options : Options) : result classify_exn PromptProfileOptions :=
  match py_index (op_prompt_profiles options) (lm_active_profile_index (op_llm options)) with
  | Some profile => Ok profile
  | None => Err (ClassifyOther "list index out of range")
  end.

(** [given or active] *)
Definition given_or {A} (given : option A) (active : result classify_exn A) : result classify_exn A :=
  match given with Some a => Ok a | None => active end.

(** [options] is what [load_options()] returns. *)
Definition classify_domains (domains : list string) (provider : option LLMProviderOptions)
    (profile : option PromptProfileOptions) (dossiers : list dossier) (options : Options)
    : cprog (list Classification) :=
  _ ← raised Provider.raise_if_cancelled;
  let normalized_domains := freeze_domains domains in
  if bool_decide (normalized_domains = []) then mret []
  else
    selected ← computed (match provider with Some p => Ok (Some p) | None => _active_provider options end);
    match selected with
    | None => prog_raise (ClassifyRuntime "No LLM provider is configured")
    | Some selected_provider =>
        if negb (str_nonempty (str_strip (po_base_url selected_provider)))
        then prog_raise (ClassifyRuntime "No LLM provider is configured")
        else if negb (str_nonempty (str_strip (po_model selected_provider)))
        then prog_raise (ClassifyRuntime "The active LLM provider has no model configured")
        else
          selected_profile ← computed (given_or profile (_active_profile options));
          messages ← computed (of_prompt (build_batch_messages float_repr format_rest selected_profile
                        (normalized_dossiers normalized_domains dossiers) (op_llm options)));
          result ← try_modes selected_provider messages None normalized_domains (op_llm options)
                     (output_modes selected_provider);
          mret (br_classifications result)
    end.

Definition classify_domain (domain : string) (provider : option LLMProviderOptions)
    (profile : option PromptProfileOptions) (d : dossier) (options : Options) : cprog Classification :=
  let d := match d with [] => [("domain"%string, JString domain)] | _ => d end in
  classifications ← classify_domains [domain] provider profile [d] options;
  match classifications with
  | c :: _ => mret c
  | [] => prog_raise (ClassifyOther "list index out of range")
  end.
End Classify.

(** * The other functions of [llm.py] *)

Definition _chat_url (base_url : string) : result classify_exn string :=
  let value := str_rstrip_slash (str_strip base_url) in
  if negb (str_nonempty value) then Err (ClassifyValue "LLM provider base URL is empty")
  else if str_endswith value "/chat/completions" then Ok value
  else if str_endswith value "/v1" then Ok (value +:+ "/chat/completions")%string
  else Ok (value +:+ "/v1/chat/completions")%string.

(** [text.splitlines()]; a line break is a character, or the two of DOS. *)
Definition is_line_break (c : Ascii.ascii) : bool :=
  let n := Ascii.N_of_ascii c in
  ((10 <=? n) && (n <=? 13) || (28 <=? n) && (n <=? 30))%N.

Fixpoint splitlines_from (line text : string) : list string :=
  match text with
  | EmptyString => if str_nonempty line then [str_rev line] else []
  | String c rest =>
      if is_line_break c
      then str_rev line ::
           match rest with
           | String d rest' => if Ascii.eqb c "013"%char && Ascii.eqb d "010"%char
                               then splitlines_from EmptyString rest' else splitlines_from EmptyString rest
           | EmptyString => []
           end
      else splitlines_from (String c line) rest
  end.
Definition splitlines (text : string) : list string := splitlines_from EmptyString text.

Definition labels : list string :=
  ["policy"; "category"; "tags"; "service"; "service_role"; "privacy_risk"; "security_risk"; "breakage_risk";
   "confidence"; "needs_review"; "review_reason"; "recheck_after_days"; "short"; "details"]%string.

(** The text after a prefix, compared without case. *)
Fixpoint after_label (label s : string) : option string :=
  match label, s with
  | EmptyString, _ => Some s
  | String a label, String b s => if Ascii.eqb a (lower_char b) then after_label label s else None
  | _, EmptyString => None
  end.

(** One label with its colon, at the start of a line. *)
Definition labeled (line label : string) : option (string * string) :=
  match after_label label (lstrip is_space line) with
  | Some rest => match lstrip is_space rest with
                 | String c value => if Ascii.eqb c ":"%char then Some (label, str_strip value) else None
                 | EmptyString => None
                 end
  | None => None
  end.

(** The state: the key of the last label, and the output. *)
Definition labeled_line (state : option string * list (string * string)) (line : string)
    : option string * list (string * string) :=
  let '(current_key, output) := state in
  match omap (labeled line) labels with
  | (key, value) :: _ => (Some key, dict_set key value output)
  | [] =>
      if bool_decide (current_key = Some "details"%string) && str_nonempty (str_strip line)
      then (current_key, dict_set "details"
              (str_strip (default "" (dict_get "details" output) +:+ newline +:+ str_strip line)) output)%string
      else state
  end.

Definition _parse_labeled_lines (text : string) : list (string * json) :=
  let output := (foldl labeled_line (None, []) (splitlines text)).2 in
  let output :=
    match dict_get "policy" output with
    | Some _ => output
    | None => match filter (λ p, str_contains p (str_lower text) = true) ["manual_review"; "deny"; "allow"]%string with
              | candidate :: _ => dict_set "policy" candidate output
              | [] => output
              end
    end in
  (λ p, (p.1, JString p.2)) <$> output.

(** An attribute of a result that is no object: [AttributeError]. *)
Definition parse_classification `{PyRepr} (text : string) (categories : list string) (options : LLMOptions)
    : result classify_exn Classification :=
  let raw := str_strip text in
  if negb (str_nonempty raw) then Err (ClassifyValue "LLM returned an empty response")
  else
    let payload := default (_parse_labeled_lines raw) (_parse_json_object raw) in
    let payload := match dict_get "results" payload with
                   | Some (JArray (first :: _)) => object_of first
                   | _ => Some payload
                   end in
    match payload with
    | None => Err (ClassifyOther "object has no attribute 'get'")
    | Some payload =>
        match _classification_from_payload payload categories (py_str_or (dict_get "domain" payload) "") "" raw options with
        | Ok c => Ok c
        | Err (LLMResponseError text) => Err (ClassifyValue text)
        | Err AnswerOverflow => Err ClassifyOverflow
        end
    end.

(** The text of a chat response, as [_extract_openai_text] of [provider_api.py]
    takes it. *)
Definition _extract_response_text `{PyRepr} (data : json) : result classify_exn string :=
  match _extract_openai_text data with
  | Ok text => Ok text
  | Err (ApiValue text) => Err (ClassifyValue text)
  | Err e => Err (ClassifyRaised e)
  end.

Example labels_are_read :
  _parse_labeled_lines (str_join newline ["Policy : DENY"; " service_role:core"; "Details: a tracker"; "  of users "; "Short:"])%string =
  [("policy", JString "DENY"); ("service_role", JString "core");
   ("details", JString ("a tracker" +:+ newline +:+ "of users")); ("short", JString "")]%string.
Proof. reflexivity. Qed.

Example templates_are_formatted :
  let run := format_map (λ _ _, Err (FormatOther "spec")) [("domain", "a.example"); ("tags", "[]")]%string in
  run "{{{domain}}} in {tags}"%string = Ok "{a.example} in []"%string ∧
  run "{domains}"%string = Err (FormatKeyError "domains") ∧
  run "{domain:>20} }"%string = Err (FormatOther "spec") ∧
  run "} {domain}"%string = Err (FormatValueError "Single '}' encountered in format string") ∧
  run "{}"%string = Err (FormatValueError "Format string contains positional fields") ∧
  run "{domain"%string = Err (FormatValueError "expected '}' before end of string").
Proof. vm_compute. split_and!; reflexivity. Qed.

(** * What a classification returns *)

Lemma freeze_frozen domains : frozen domains → freeze_domains domains = domains.
Proof.
  intros [Hnd Hd]. unfold freeze_domains.
  rewrite filter_all by (intros d Hin; by apply Hd).
  assert (_normalize_domain <$> domains = domains) as ->; [|by apply fromkeys_id].
  clear Hnd. induction domains as [|d ds IH]; [done|]. rewrite fmap_cons.
  rewrite (proj1 (Hd d (list_elem_of_here _ _))). f_equal. apply IH. intros x Hx. apply Hd. by right.
Qed.

Lemma parse_batch_domains `{PyRepr} text provider expected tags opts cs :
  Forall (λ d, _normalize_domain d = d) expected →
  parse_batch_classifications text expected tags provider opts = Ok cs → cl_domain <$> cs = expected.
Proof.
  intros Hf Hp. destruct (parse_batch_cases tags opts provider text expected Hf)
    as [(payload & cs' & _ & _ & Heq & _ & _ & Hd & _)|[(payload & _ & _ & _ & Heq)|(msg & Heq & _)]]; congruence.
Qed.

Section Returned.
Context {env : Type} `{Network env} `{PyRepr}.
Context (url_hostname account_fingerprint : string → string) (header_float date_timestamp : string → option Q).
Context (float_repr : Q → string) (format_rest : string → format_field → result format_exn string) (fuel : nat).
Context (options : LLMOptions).

Abbreviation try_mode' := (try_mode (env := env) url_hostname account_fingerprint header_float date_timestamp fuel).
Abbreviation try_modes' := (try_modes (env := env) url_hostname account_fingerprint header_float date_timestamp fuel).

(** What the text of the response was parsed to. *)
Definition parsed_from (provider : LLMProviderOptions) (domains : list string) (r : ClassificationBatchResult) : Prop :=
  parse_batch_classifications (rp_text (br_response r)) domains (lm_tags options) (po_name provider) options =
    Ok (br_classifications r).

Lemma try_mode_returns provider messages context domains mode :
  prog_returns (λ o, ∀ r, o = inr r → parsed_from provider domains r)
    (try_mode' provider messages context domains options mode).
Proof.
  intros s. unfold try_mode. destruct (request_provider _ _ _ _ _ _ _ _ _ s) as [[response|e] s'].
  - cbn [fst]. destruct (parse_batch_classifications _ _ _ _ _) as [cs|[]] eqn:E; [|done..]. by intros r [= <-].
  - cbn [fst]. by destruct (is_caught e).
Qed.

Lemma try_modes_returns provider messages context domains modes :
  prog_returns (parsed_from provider domains) (try_modes' provider messages context domains options modes).
Proof.
  induction modes as [|mode modes IH]; cbn [try_modes]; [apply returns_raise|].
  eapply returns_bind; [apply returns_any|]. intros _ _.
  eapply returns_bind; [apply try_mode_returns|]. intros [cause|r] Hr.
  - destruct (_ || _); [apply returns_raise|exact IH].
  - apply returns_ret. by apply Hr.
Qed.

Lemma classify_returns domains provider profile dossiers pool_id limit_profile :
  prog_returns (λ r, parsed_from provider (freeze_domains domains) r ∧ freeze_domains domains ≠ [])
    (classify_domains_with_metadata (env := env) url_hostname account_fingerprint header_float date_timestamp float_repr
       format_rest fuel domains provider profile dossiers options pool_id limit_profile).
Proof.
  unfold classify_domains_with_metadata. eapply returns_bind; [apply returns_any|]. intros _ _. cbn zeta.
  case_bool_decide as Hne; [apply returns_raise|].
  destruct (negb _); [apply returns_raise|]. destruct (negb _); [apply returns_raise|].
  eapply returns_bind; [apply returns_any|]. intros messages _.
  eapply returns_bind; [apply returns_any|]. intros estimate _.
  eapply returns_impl; [apply try_modes_returns|]. by intros r Hr.
Qed.
End Returned.

(** * What a classification leaves in the quota table *)

(** The outcomes after which a reservation may be open: an error of [requests]
    that is neither a connection error nor a timeout, and an overflow. *)
Definition classify_leaks {A} (o : result classify_exn A) : Prop :=
  match o with
  | Err (ClassifyFailed (RequestFailed (ApiRequest _))) | Err (ClassifyRaised ApiOverflow) => True
  | _ => False
  end.

Section Closing.
Context {env : Type} `{Network env} `{PyRepr}.
Context (url_hostname account_fingerprint : string → string) (header_float date_timestamp : string → option Q).
Context (float_repr : Q → string) (format_rest : string → format_field → result format_exn string) (fuel : nat).
Context (q0 : quota_db).

Abbreviation closed_before := (λ s : pstate env, no_new_open q0 (ps_quota s)).
Abbreviation closed_after := (λ o (s : pstate env), classify_leaks o ∨ no_new_open q0 (ps_quota s)).

Lemma raised_keeps {A B} (g : pstate env → B) (m : prog (pstate env) api_exn A) : prog_keeps g m → prog_keeps g (raised m).
Proof. intros Hm s. specialize (Hm s). unfold raised. destruct (m s) as [[a|e] s']; exact Hm. Qed.

Lemma try_mode_closes provider messages context domains options mode :
  triple closed_before
    (try_mode url_hostname account_fingerprint header_float date_timestamp fuel provider messages context domains options mode)
    (λ o s, match o with Ok (inl (RequestFailed (ApiRequest _))) | Err (ClassifyRaised ApiOverflow) => True | _ => False end ∨
            no_new_open q0 (ps_quota s)).
Proof.
  intros s Hs. unfold try_mode.
  pose proof (request_provider_closes url_hostname account_fingerprint header_float date_timestamp q0 fuel provider messages
    (_response_format mode (lm_tags options)) context s Hs) as Hc.
  destruct (request_provider _ _ _ _ _ _ _ _ _ s) as [[response|e] s']; cbn [fst snd] in *.
  - right. by destruct Hc.
  - destruct Hc as [Hl|Hc]; [left|by right]. by destruct e.
Qed.

Lemma try_modes_closes provider messages context domains options modes :
  triple closed_before
    (try_modes url_hostname account_fingerprint header_float date_timestamp fuel provider messages context domains options modes)
    closed_after.
Proof.
  induction modes as [|mode modes IH]; cbn [try_modes]; [apply triple_raise; by right|].
  apply (triple_keeps_bind ps_quota (no_new_open q0)); [apply raised_keeps, raise_keeps, quiet_quota| |by right]. intros _.
  eapply triple_bind; [apply try_mode_closes| |].
  - intros [cause|r]; [|apply triple_ret; intros s [[]|Hs]; by right].
    destruct (bool_decide (modes = []) || negb (_can_try_output_mode_fallback cause)) eqn:Ec.
    + apply triple_raise. intros s [Hl|Hs]; [left|by right]. by destruct cause as [[]|].
    + eapply triple_impl; [apply IH| |done]. intros s [Hl|Hs]; [|done].
      apply orb_false_iff in Ec as [_ Ec]. by destruct cause as [[]|].
  - intros e s [Hl|Hs]; [left; by destruct e|by right].
Qed.

Lemma classify_closes domains provider profile dossiers options pool_id limit_profile :
  triple closed_before
    (classify_domains_with_metadata url_hostname account_fingerprint header_float date_timestamp float_repr format_rest fuel
       domains provider profile dossiers options pool_id limit_profile)
    closed_after.
Proof.
  unfold classify_domains_with_metadata.
  apply (triple_keeps_bind ps_quota (no_new_open q0)); [apply raised_keeps, raise_keeps, quiet_quota| |by right]. intros _.
  cbn zeta. case_bool_decide; [apply triple_raise; by right|].
  destruct (negb _); [apply triple_raise; by right|]. destruct (negb _); [apply triple_raise; by right|].
  apply (triple_keeps_bind ps_quota (no_new_open q0)); [by intros s| |by right]. intros messages.
  apply (triple_keeps_bind ps_quota (no_new_open q0)); [apply pkeeps_read| |by right]. intros estimate.
  apply try_modes_closes.
Qed.
End Closing.

(** * The calls of the dispatcher *)

(** The kind of an exception, as the dispatcher looks for it in a chain. *)
Definition kind_of (e : api_exn) : provider_exn_kind :=
  match e with
  | ApiQuota (QuotaUnavailableError t) => KQuota t
  | ApiRateLimit _ after => KRateLimit (Some after)
  | ApiHTTP status _ => KHTTP (Some status)
  | ApiConnection _ => KConnection
  | ApiTimeout _ => KTimeout
  | _ => KOther
  end.

Section HttpCalls.
Context {env : Type} `{Network env} `{PyRepr}.
Context (url_hostname account_fingerprint : string → string) (header_float date_timestamp : string → option Q).
Context (float_repr : Q → string) (format_rest : string → format_field → result format_exn string).
Context (format_timestamp : Q → string) (overflow_text : string) (sha256 : string → string).
(** [int.from_bytes(sha256(domain)[:n], "big")], and the limit profiles of the
    registry. *)
Context (sha256_prefix : nat → string → Z) (limit_profile_of : LLMProviderOptions → ProviderLimitProfile).
Context (fuel : nat) (o : Options).
(** The dossiers given to the dispatch, and the frozen ones. *)
Context (dossiers frozen_dossiers : list dossier).

Definition as_provider_exn (e : classify_exn) : provider_exn :=
  let text := classify_text format_timestamp overflow_text e in
  match e with
  | ClassifyRaised x => PExn (kind_of x) text
  | ClassifyFailed (RequestFailed x as cause) =>
      PCaused KOther text (PExn (kind_of x) (failure_text format_timestamp overflow_text cause))
  | ClassifyFailed (AnswerRefused t) => PCaused KOther text (PExn KOther t)
  | ClassifyValue _ | ClassifyRuntime _ | ClassifyOverflow | ClassifyOther _ => PExn KOther text
  end.

Definition as_call_exn (e : classify_exn) : call_exn :=
  match e with
  | ClassifyRaised ApiCancelled => CallCancelled
  | _ => CallFailed (as_provider_exn e)
  end.

(** [dossier_by_domain[domain] for domain in batch], of the frozen dossiers *)
Definition selected_dossiers (batch : list string) : list dossier :=
  let by_domain := dict_of ((λ d, (py_str_or (dict_get "domain" d) "", d)) <$> frozen_dossiers) in
  omap (λ domain, dict_get domain by_domain) batch.

(** The prompt profile of a pool. *)
Definition pool_profile (pool_id : string) : option PromptProfileOptions :=
  match list_find (λ p, ap_pool_id p = pool_id ∧ ap_enabled p = true) (op_analysis_pools o) with
  | Some (_, pool) => py_index (op_prompt_profiles o) (ap_profile_index pool)
  | None => None
  end.

Definition http_classify (pool_id : string) (c : _Candidate) (batch : list string) (s : pstate env)
    : result call_exn call_result * pstate env :=
  match pool_profile pool_id with
  | None => (Err (CallFailed (PExn KOther "list index out of range")), s)
  | Some profile =>
      match classify_domains_with_metadata url_hostname account_fingerprint header_float date_timestamp float_repr
              format_rest fuel batch (ca_provider c) profile (selected_dossiers batch) (op_llm o) pool_id
              (ca_limit_profile c) s with
      | (Ok r, s) => (Ok (CallResult (br_classifications r) (rp_latency_ms (br_response r)) (rp_usage (br_response r))), s)
      | (Err e, s) => (Err (as_call_exn e), s)
      end
  end.

Definition prompt_failure (e : prompt_exn) : provider_exn :=
  match e with PromptValue text | PromptOther text => PExn KOther text end.

#[local] Instance http_calls : ProviderCalls (pstate env) := {
  classify := http_classify;
  cancel_requested s := let r := token_set (ps_env s) in (r.1, Provider.set_env r.2 s);
  clock s := (wall_time (ps_env s)).1;
  quota_tables := ps_quota;
  batch_messages profile batch :=
    match build_batch_messages float_repr format_rest profile (selected_dossiers batch) (op_llm o) with
    | Ok messages => Ok messages
    | Err e => Err (prompt_failure e)
    end;
  limit_profile_of := limit_profile_of;
  digest_prefix := sha256_prefix;
  dossier_digest domains := sha256 (canonical_text float_repr domains dossiers);
  fresh_id s := let r := uuid4 (ps_env s) in (r.1, Provider.set_env r.2 s)
}.
End HttpCalls.

(** ** The contract of the dispatcher *)

Section Contract.
Context {env : Type} `{Network env} `{PyRepr}.
Context (url_hostname account_fingerprint : string → string) (header_float date_timestamp : string → option Q).
Context (float_repr : Q → string) (format_rest : string → format_field → result format_exn string).
Context (format_timestamp : Q → string) (overflow_text : string) (sha256 : string → string).
Context (sha256_prefix : nat → string → Z) (limit_profile_of : LLMProviderOptions → ProviderLimitProfile).
Context (fuel : nat) (o : Options) (dossiers frozen_dossiers : list dossier).

#[local] Instance calls : ProviderCalls (pstate env) :=
  http_calls url_hostname account_fingerprint header_float date_timestamp float_repr format_rest format_timestamp
    overflow_text sha256 sha256_prefix limit_profile_of fuel o dossiers frozen_dossiers.

Lemma http_classify_parsed pool_id c batch s r s' : classify pool_id c batch s = (Ok r, s') →
  ∃ b, cr_classifications r = br_classifications b ∧ parsed_from (op_llm o) (ca_provider c) (freeze_domains batch) b.
Proof.
  change (classify pool_id c batch s) with (http_classify url_hostname account_fingerprint header_float date_timestamp
    float_repr format_rest format_timestamp overflow_text fuel o frozen_dossiers pool_id c batch s).
  unfold http_classify. destruct (pool_profile o pool_id) as [profile|]; [|done].
  pose proof (classify_returns url_hostname account_fingerprint header_float date_timestamp float_repr format_rest fuel
    (op_llm o) batch (ca_provider c) profile (selected_dossiers frozen_dossiers batch) pool_id (ca_limit_profile c) s) as Hr.
  destruct (classify_domains_with_metadata _ _ _ _ _ _ _ _ _ _ _ _ _ _ s) as [[b|e] s1]; [|done].
  intros [= <- _]. exists b. split; [done|]. apply Hr.
Qed.

(** The interface [ProviderCallsLaws]. *)
#[local] Instance http_laws : ProviderCallsLaws (pstate env).
Proof.
  split. intros pool c batch s r s' Hf Hr. apply http_classify_parsed in Hr as (b & -> & Hb).
  rewrite freeze_frozen in Hb by done. eapply parse_batch_domains; [|exact Hb].
  apply Forall_forall. intros d Hd. by apply Hf.
Qed.

Lemma http_well_typed pool_id c batch s r s' : classify pool_id c batch s = (Ok r, s') →
  Forall (well_typed (lm_tags (op_llm o)) (op_llm o)) (cr_classifications r).
Proof. intros (b & -> & Hb)%http_classify_parsed. by eapply parse_batch_well_typed. Qed.
End Contract.

Lemma review_well_typed tags opts c reason : well_typed tags opts c → reason ≠ ""%string →
  well_typed tags opts (replace_review c true reason).
Proof. intros [] Hr. constructor; try assumption; intros; split; [reflexivity|exact Hr|reflexivity|exact Hr]. Qed.

(** The options of the configuration that a dispatch reads. *)
Definition dispatch_options_of (o : Options) : dispatch_options :=
  mkDispatchOptions (op_llm o) (op_llm_providers o) (op_analysis_pools o) (op_prompt_profiles o).

(** ** Templates *)

(** A template as its author means it: texts and fields. *)
Inductive template_part := Text (s : string) | Field (name : string).

Fixpoint double_braces (s : string) : string :=
  match s with
  | EmptyString => EmptyString
  | String c s => if is_brace c then String c (String c (double_braces s)) else String c (double_braces s)
  end.

Definition write_part (p : template_part) : string :=
  match p with Text s => double_braces s | Field name => "{" +:+ name +:+ "}" end%string.
Definition write_template (parts : list template_part) : string := foldr (λ p t, write_part p +:+ t)%string ""%string parts.

(** A name that [format_map] looks up as it is. *)
Definition name_char (c : Ascii.ascii) : bool :=
  negb (is_brace c || is_dot c || Ascii.eqb c "["%char || Ascii.eqb c ":"%char || Ascii.eqb c "!"%char).
Definition is_name (name : string) : bool := str_forallb name_char name && negb (str_forallb is_digit name).

(** Substitution: the value of each field, [KeyError] for the first one that is
    unknown. *)
Fixpoint substitute (variables : list (string * string)) (parts : list template_part) : result format_exn string :=
  match parts with
  | [] => Ok ""%string
  | Text s :: parts => t ← substitute variables parts; Ok (s +:+ t)%string
  | Field name :: parts =>
      match dict_get name variables with
      | None => Err (FormatKeyError name)
      | Some value => t ← substitute variables parts; Ok (value +:+ t)%string
      end
  end.

Definition names_ok (parts : list template_part) : Prop :=
  Forall (λ p, match p with Text _ => True | Field name => is_name name = true end) parts.

Section Templates.
Context (format_rest : string → format_field → result format_exn string) (variables : list (string * string)).
Abbreviation format_from' := (format_from format_rest variables).

Lemma format_skip a b : format_from' (String.length a) (a +:+ b)%string = format_from' 0 b.
Proof. induction a as [|c a IH]; [done|exact IH]. Qed.

Lemma format_text s t : format_from' 0 (double_braces s +:+ t)%string = (u ← format_from' 0 t; Ok (s +:+ u)%string).
Proof.
  induction s as [|c s IH]; cbn [double_braces].
  { change (format_from' 0 t = (u ← format_from' 0 t; Ok u)). by destruct (format_from' 0 t). }
  destruct (is_brace c) eqn:Hc.
  - change (format_from' 0 (String c (String c (double_braces s +:+ t)%string)) = (u ← format_from' 0 t; Ok (String c (s +:+ u)%string))).
    cbn [format_from]. rewrite Hc, Ascii.eqb_refl. rewrite IH. by destruct (format_from' 0 t).
  - change (format_from' 0 (String c (double_braces s +:+ t)%string) = (u ← format_from' 0 t; Ok (String c (s +:+ u)%string))).
    cbn [format_from]. rewrite Hc, IH. by destruct (format_from' 0 t).
Qed.

Lemma read_name_plain name t : str_forallb name_char name = true →
  read_name false (name +:+ String "}"%char t)%string = Ok (name, "}"%char, t).
Proof.
  induction name as [|c name IH]; [done|]. cbn [str_forallb]. intros [Hc Hn]%andb_true_iff.
  change (read_name false (String c (name +:+ String "}"%char t)%string) = Ok (String c name, "}"%char, t)).
  cbn [read_name]. unfold name_char, is_brace in Hc. apply negb_true_iff in Hc. rewrite !orb_false_iff in Hc.
  destruct Hc as [[[[[H1 H2] H3] H4] H5] H6]. rewrite H1, H2, H4, H5, H6. cbn [orb]. by rewrite IH.
Qed.

Lemma split_access_plain name : str_forallb name_char name = true → split_access name = (name, ""%string).
Proof.
  induction name as [|c name IH]; [done|]. cbn [str_forallb split_access]. intros [Hc Hn]%andb_true_iff.
  unfold name_char in Hc. apply negb_true_iff in Hc. rewrite !orb_false_iff in Hc.
  destruct Hc as [[[[H1 H3] H4] H5] H6]. by rewrite H3, H4, IH.
Qed.

Lemma read_field_plain name t : str_forallb name_char name = true →
  read_field (name +:+ String "}"%char t)%string = Ok (FormatField name "" None "", t).
Proof.
  intros Hn. unfold read_field. rewrite (read_name_plain name t Hn). cbn [mbind result_bind].
  by rewrite (split_access_plain name Hn).
Qed.

Lemma format_brace c s : Ascii.eqb c "{"%char = false →
  format_from' 0 (String "{"%char (String c s)) =
  '(field, after) ← read_field (String c s);
  text ← render_field format_rest variables field;
  tail ← format_from' (String.length (String c s) - String.length after) (String c s);
  Ok (text +:+ tail)%string.
Proof. intros Hc. unfold format_from at 1. change (is_brace "{"%char) with true. by rewrite Hc. Qed.

Lemma format_field_plain name t : is_name name = true →
  format_from' 0 ("{" +:+ name +:+ "}" +:+ t)%string =
  match dict_get name variables with
  | None => Err (FormatKeyError name)
  | Some value => u ← format_from' 0 t; Ok (value +:+ u)%string
  end.
Proof.
  intros [Hn Hd%negb_true_iff]%andb_true_iff. destruct name as [|c name]; [done|].
  change (format_from' 0 ("{" +:+ String c name +:+ "}" +:+ t)%string)
    with (format_from' 0 (String "{"%char (String c (name +:+ String "}"%char t)%string))).
  rewrite format_brace.
  2: { cbn [str_forallb] in Hn. apply andb_true_iff in Hn as [Hc _]. unfold name_char, is_brace in Hc.
       apply negb_true_iff in Hc. rewrite !orb_false_iff in Hc. apply Hc. }
  change (String c (name +:+ String "}"%char t)%string) with (String c name +:+ String "}"%char t)%string.
  rewrite (read_field_plain _ _ Hn), length_app_str. change (String.length (String "}"%char t)) with (S (String.length t)).
  assert (String.length (String c name) + S (String.length t) - String.length t =
          String.length (String c name +:+ "}"))%nat as Hlen by (rewrite length_app_str; cbn [String.length]; lia).
  unfold mbind at 1, result_bind at 1. rewrite Hlen.
  assert ((String c name +:+ String "}"%char t)%string = ((String c name +:+ "}") +:+ t)%string) as ->
    by (by rewrite app_assoc_str).
  rewrite format_skip. unfold render_field. cbn [ff_name]. rewrite Hd.
  by destruct (dict_get (String c name) variables).
Qed.

Lemma format_template parts : names_ok parts →
  format_from' 0 (write_template parts) = substitute variables parts.
Proof.
  induction 1 as [|[s|name] parts Hp _ IH]; [done| |]; cbn [write_template foldr write_part substitute].
  - rewrite format_text. fold (write_template parts). by rewrite IH.
  - fold (write_template parts).
    assert ((("{" +:+ name +:+ "}") +:+ write_template parts) = "{" +:+ name +:+ "}" +:+ write_template parts)%string as ->.
    { change (("{" +:+ name +:+ "}") +:+ write_template parts)%string with (String "{"%char ((name +:+ "}") +:+ write_template parts)%string).
      by rewrite app_assoc_str. }
    rewrite format_field_plain by done. by rewrite IH.
Qed.
End Templates.

(** * Theorems *)

Section Theorems.
Context {env : Type} `{Network env} `{PyRepr}.
Context (url_hostname account_fingerprint : string → string) (header_float date_timestamp : string → option Q).
Context (float_repr : Q → string) (format_rest : string → format_field → result format_exn string).
Context (format_timestamp : Q → string) (overflow_text : string) (sha256 : string → string).
Context (sha256_prefix : nat → string → Z) (limit_profile_of : LLMProviderOptions → ProviderLimitProfile).
Context (fuel : nat) (o : Options).

(** C1: A dispatch whose provider calls are HTTP requests keeps the contract of
    the dispatcher, for names that are distinct and their own normal form
    (normalising them once more changes nothing and leaves something): in any
    mode but compare it classifies every requested domain at most once in its
    primary results, leaving some out only if a provider failed; every
    classification it returns, in any mode, is well typed for the configured
    tags and thresholds; and its hash is that of the frozen dossiers. A name
    such as 'b.example. .' is not its own normal form even after the dispatcher
    normalised it, and may be left out without an error. *)
Theorem dispatch_over_http_is_sound completion domains dossiers frozen_dossiers normalized hash pool_id source
  (s s' : dstate (pstate env)) res pool
  (Hcompletion : ∀ l, completion l ≡ₚ l)
  (Hfreeze : _freeze_dossiers float_repr sha256 domains dossiers = Some (normalized, frozen_dossiers, hash))
  (Hfrozen : frozen normalized)
  (Hpool : _pool_by_id (dispatch_options_of o) pool_id = Some pool)
  (Hrun : @dispatch_analysis _ (http_calls url_hostname account_fingerprint header_float date_timestamp float_repr
            format_rest format_timestamp overflow_text sha256 sha256_prefix limit_profile_of fuel o dossiers
            frozen_dossiers) completion (dispatch_options_of o) pool_id domains source s = (Ok res, s')) :
  (AnalysisPoolMode_of_value (ap_mode pool) ≠ Some COMPARE →
     covers normalized (dr_provider_results res) (dr_errors res)) ∧
  Forall (λ r, Forall (well_typed (lm_tags (op_llm o)) (op_llm o)) (pr_classifications r)) (dr_provider_results res) ∧
  dr_dossier_hash res = hash.
Proof.
  unfold _freeze_dossiers in Hfreeze. destruct (json_loads _) as [[| | | | |l|]|]; try done.
  apply (inj Some) in Hfreeze. apply pair_equal_spec in Hfreeze as [[Hn Hd]%pair_equal_spec Hh]. subst normalized hash.
  pose proof (http_laws url_hostname account_fingerprint header_float date_timestamp float_repr format_rest format_timestamp
    overflow_text sha256 sha256_prefix limit_profile_of fuel o dossiers frozen_dossiers) as Hlaws.
  pose proof (http_well_typed url_hostname account_fingerprint header_float date_timestamp float_repr format_rest
    format_timestamp overflow_text sha256 sha256_prefix limit_profile_of fuel o dossiers frozen_dossiers) as Htyped.
  pose proof (dispatch_hash _ _ _ _ _ _ _ _ Hrun) as Hhash. split_and!; [..|exact Hhash]; clear Hhash;
    set (calls := http_calls _ _ _ _ _ _ _ _ _ _ _ _ _ _ _) in *.
  - intros Hmode. eapply (dispatch_returns completion _ (covers (freeze_domains domains))); [exact Hpool| |exact Hrun].
    intros candidates Hne. by apply mode_covers.
  - refine (dispatch_returns completion _ (λ rs _, Forall _ rs) _ _ _ _ _ _ _ Hpool _ Hrun).
    intros candidates _. apply (mode_all (well_typed (lm_tags (op_llm o)) (op_llm o))); [|exact Htyped|done].
    apply review_well_typed.
Qed.

(** C14: The classification of a batch, with all its attempts in the output
    modes of the provider, leaves no quota reservation of its own open, whether
    it returns or raises.  The exceptions are errors of [requests] other than
    HTTP, connection and timeout errors, and a number that overflows. *)
Theorem classification_closes_its_reservations domains provider profile dossiers options pool_id limit_profile
  (s s' : pstate env) outcome
  (Hrun : classify_domains_with_metadata url_hostname account_fingerprint header_float date_timestamp float_repr format_rest
            fuel domains provider profile dossiers options pool_id limit_profile s = (outcome, s'))
  (Hleaks : ¬ classify_leaks outcome) (id : string) (Hopen : open_in (ps_quota s') id) :
  open_in (ps_quota s) id.
Proof.
  pose proof (classify_closes url_hostname account_fingerprint header_float date_timestamp float_repr format_rest fuel
    (ps_quota s) domains provider profile dossiers options pool_id limit_profile s) as Hc.
  rewrite Hrun in Hc. destruct Hc as [Hl|Hq]; [by intros x Hx|done|by apply Hq].
Qed.
End Theorems.

(** A prompt template is read as its author means it: the text of
    [write_template], which doubles the braces of the texts and puts the names
    of the fields in braces, is formatted by substitution, and the first
    unknown name raises [KeyError]. *)
Theorem templates_are_substituted format_rest variables parts (Hnames : names_ok parts) :
  format_map format_rest variables (write_template parts) = substitute variables parts.
Proof. by apply format_template. Qed.

(** ** Witnesses *)

(** Providers that answer [ex_text] of the answers in a chat message, after an
    answer that is no JSON. *)
Definition ex_answer (content : string) : result request_failure http_response :=
  Ok (mkHttpResponse 200 "OK" []
        (Ok (JObject [("choices", JArray [JObject [("message", JObject [("content", JString content)])]])]))%string "").
Definition ex_llm : LLMOptions :=
  mkLLMOptions true 10 25 10 (Fin 1) 2 20 (Fin 30) 20 10 0 0 "hybrid" true 30 (3 # 4) (19 # 20) true ex_tags ∅ ∅.
Definition ex_configuration (mode : string) : Options :=
  let o := Options_default "p1" in
  mkOptions (op_schema_version o) (op_logging o) (op_notify o) (op_scans o) (op_pihole o) ex_llm (op_research o)
    (op_updates o) (op_provider_registry o) (op_external_trigger o) [Quota.ex_provider] [Dispatch.ex_pool mode]
    (op_prompt_profiles o) (op_research_providers o) (op_ui o).
Definition ex_dossiers : list dossier :=
  [[("domain", JString "A.example."); ("hits", JInt 3)]; [("domain", JString "b.example")]]%string.
Definition ex_profile_roomy : ProviderLimitProfile :=
  mkProviderLimitProfile "e" "registry" (mkProviderCapability 0 0 "auto" false false false) [] 1 2 0 10 "grp".
Definition ex_rest (value : string) (field : format_field) : result format_exn string := Err (FormatOther "spec").
#[local] Existing Instance Provider.net_network.
#[local] Existing Instance Answers.ex_repr.

Definition ex_frozen : list dossier := match _freeze_dossiers (λ _, "0.5"%string) (λ t, t) ex_expected ex_dossiers with
  | Some (_, frozen_dossiers, _) => frozen_dossiers | None => [] end.
Definition ex_dispatched (mode : string) (replies : list (result request_failure http_response)) :=
  @dispatch_analysis _ (http_calls (λ _, "host"%string) (λ _, "account"%string) ex_float (λ _, None) (λ _, "0.5"%string)
    ex_rest (λ _, "soon"%string) "overflow" (λ t, t) (λ _ d, Z.of_nat (String.length d)) (λ _, ex_profile_roomy) 40
    (ex_configuration mode) ex_dossiers ex_frozen) (λ l, l) (dispatch_options_of (ex_configuration mode)) "main" ex_expected
    "live" (DState (ex_net replies) ∅ ∅).

Definition ex_good : list (result request_failure http_response) := [ex_answer "no JSON"; ex_answer ex_text].

Example ex_dispatch_runs :
  match (ex_dispatched "fallback" ex_good).1 with
  | Ok res => (λ r, cl_domain <$> pr_classifications r) <$> dr_provider_results res = [ex_expected] ∧ dr_errors res = []
  | Err _ => False
  end.
Proof. vm_compute. split; reflexivity. Qed.

Lemma ex_frozen_names : frozen ex_expected.
Proof.
  split; [exact ex_distinct|]. intros d Hd.
  repeat (apply elem_of_cons in Hd as [->|Hd]; [by vm_compute|]). by apply elem_of_nil in Hd.
Qed.

Lemma dispatch_over_http_is_sound_witness :
  ∃ res, (ex_dispatched "fallback" ex_good).1 = Ok res ∧
    covers ex_expected (dr_provider_results res) (dr_errors res) ∧
    Forall (λ r, Forall (well_typed ex_tags ex_llm) (pr_classifications r)) (dr_provider_results res).
Proof.
  destruct (ex_dispatched "fallback" ex_good) as [[res|e] s'] eqn:E.
  2: { assert (match (ex_dispatched "fallback" ex_good).1 with Ok _ => true | Err _ => false end = true) as Hok
         by (vm_compute; reflexivity). by rewrite E in Hok. }
  exists res. split; [reflexivity|].
  destruct (dispatch_over_http_is_sound _ _ _ _ (λ _, "0.5"%string) _ _ _ (λ t, t) _ _ _ (ex_configuration "fallback") _ ex_expected ex_dossiers ex_frozen ex_expected
    (canonical_text (λ _, "0.5"%string) ex_expected ex_dossiers) "main" "live" _ s' res (Dispatch.ex_pool "fallback")
    (λ l, reflexivity l) ltac:(vm_compute; reflexivity) ex_frozen_names ltac:(vm_compute; reflexivity) E) as (Hc & Hw & _).
  split; [|exact Hw]. apply Hc. by vm_compute.
Defined.

(** The classification of the same batch: the first reservation is completed by
    an answer that is refused, the second one by the answer that is taken. *)
Definition ex_classified : result classify_exn ClassificationBatchResult * pstate net :=
  classify_domains_with_metadata (λ _, "host"%string) (λ _, "account"%string) ex_float (λ _, None) (λ _, "0.5"%string)
    ex_rest 40 ex_expected Quota.ex_provider PromptProfileOptions_default ex_dossiers ex_llm "main" ex_profile_roomy
    (ex_net ex_good).

Example ex_classified_closes :
  ex_states ex_classified.2 = [Some "completed"; Some "completed"; None]%string.
Proof. vm_compute. reflexivity. Qed.

Lemma classification_closes_its_reservations_witness : ¬ open_in (ps_quota ex_classified.2) "r2".
Proof.
  intros Hopen. destruct ex_classified as [outcome s'] eqn:E.
  assert (match ex_classified.1 with Ok _ => true | Err _ => false end = true) as Hok by (vm_compute; reflexivity).
  rewrite E in Hok. destruct outcome as [r|]; [|done].
  destruct (classification_closes_its_reservations _ _ _ _ _ _ _ ex_expected Quota.ex_provider
    PromptProfileOptions_default ex_dossiers ex_llm "main" ex_profile_roomy (ex_net ex_good) s' _ E (λ f, f) "r2" Hopen)
    as (row & Hl & _). by vm_compute in Hl.
Defined.

Definition ex_parts : list template_part :=
  [Text "{domains}: "; Field "domains"; Text " {"; Field "schema"; Text "}"]%string.

Lemma templates_are_substituted_witness :
  write_template ex_parts = "{{domains}}: {domains} {{{schema}}}"%string ∧
  format_map ex_rest [("domains", "a.example"); ("schema", "{...}")]%string (write_template ex_parts) =
    Ok "{domains}: a.example {{...}}"%string.
Proof.
  split; [reflexivity|]. rewrite templates_are_substituted; [reflexivity|]. by repeat constructor.
Defined.
