(* ===== verification/Worker.v ===== *)
(** The classifier thread of [pihole_manager/workers.py]: one round of
    [Classifier.run] (readiness, claim, locks, dossiers, dispatch, results,
    acknowledgement, deferral or failure of every claimed domain),
    [_handle_dispatch_result], and the loop around the rounds.

    The queue and the reviews are the tables of [Database], changes go through
    [PiHole], providers through [Dispatch].  The research that fills a dossier
    is a parameter; of a dossier the worker itself reads only the number of
    decision-relevant findings. *)
From stdpp Require Import base gmap strings list.
From Stdlib Require Import Ascii QArith Qround Lqa.
From S2P Require Import Prelude Models Options Database Queue Quota ReviewDb Behavior PiHole Policy Dispatch.
Open Scope Z_scope.

(** The options a round reads. *)
Record worker_options := mkWorkerOptions {
  wo_enabled : bool;
  wo_queue_trigger_size : Z;
  wo_max_queue_wait_sec : Z;
  wo_dispatch : dispatch_options
}.

Record cstate (srv env : Type) := CState { cs_world : world srv; cs_dispatch : dstate env }.
Arguments CState {srv env}.
Arguments cs_world {srv env}.
Arguments cs_dispatch {srv env}.

(** What the [try] block of a round can raise. *)
Inductive cycle_exn := FromDispatch (e : dispatch_exn) | FromStore (e : exn).
Definition cycle_exn_text (e : cycle_exn) : string :=
  match e with FromDispatch e => dispatch_exn_text e | FromStore e => exn_text e end.

Inductive cycle_end := Waited | Continued | Stopped.

Section Worker.
Context {srv env : Type} `{PiHoleServer srv} `{ProviderCalls env}.
Context (completion : list nat → list nat).
(** [self._stop_event.is_set()] *)
Context (stop_is_set : env → bool).
(** [_build_dossiers]: the decision-relevant findings of each domain *)
Context (build_dossiers : list string → env → result dispatch_exn (string → Z) * env).
Context (prompt_fingerprint : PromptProfileOptions → string).

Abbreviation cprog := (prog (cstate srv env) cycle_exn).
Implicit Types s : cstate srv env.

Definition in_world {A} (m : wprog srv A) : cprog A := λ s,
  let '(r, w) := m (cs_world s) in
  (match r with Ok a => Ok a | Err e => Err (FromStore e) end, CState w (cs_dispatch s)).

Definition in_dispatch {A} (m : prog (dstate env) dispatch_exn A) : cprog A := λ s,
  let '(r, d) := m (cs_dispatch s) in
  (match r with Ok a => Ok a | Err e => Err (FromDispatch e) end, CState (cs_world s) d).

Definition in_queue (m : dbprog unit) s : cstate srv env :=
  CState (set_db (m (w_db (cs_world s))).2 (cs_world s)) (cs_dispatch s).

Definition time_of s : Q := now_of (cs_dispatch s).
Definition second_of s : Z := py_int (time_of s).

(** [for domain in domains: f(domain)] over queue operations *)
Definition for_each (f : string → cstate srv env → dbprog unit) (domains : list string) s : cstate srv env :=
  foldl (λ s d, in_queue (f d s) s) s domains.

Definition defer_now (error domain : string) s : dbprog unit :=
  staging_defer (second_of s) domain error (time_of s).

Definition defer_or_fail (error_deferred error_failed : string) (retry_at : Q) (domain : string) s : dbprog unit :=
  if qltb (time_of s) retry_at then staging_defer (second_of s) domain error_deferred retry_at
  else staging_fail (second_of s) domain error_failed 1.

Definition fail_once (error domain : string) s : dbprog unit := staging_fail (second_of s) domain error 1.

(** ** [_handle_dispatch_result] *)

Definition share (count x : Z) : Z := py_round (zq x / zq count).

Definition run_context (res : AnalysisDispatchResult) (provider : LLMProviderOptions)
    (profile : PromptProfileOptions) (pr : ProviderAnalysisResult) : ClassificationRunContext :=
  let count := Z.max 1 (Z.of_nat (length (pr_classifications pr))) in
  mkRunContext (dr_run_id res) (dr_pool_id res) (dr_mode res) (po_provider_id provider) (po_model provider)
    (Options.pf_name profile) (prompt_fingerprint profile) (pr_is_primary pr) (share count (pr_latency_ms pr))
    (mkProviderUsage (share count (us_input_tokens (pr_usage pr))) (share count (us_output_tokens (pr_usage pr)))
       (share count (us_total_tokens (pr_usage pr))) (us_units (pr_usage pr) / zq count)%Q).

Definition save_compared (cx : ClassificationRunContext) (c : Classification) : cprog unit := λ s,
  in_world (in_db (review_save_classification (second_of s) c
    (RunArgs (cx_provider_id cx) (cx_model cx) (cx_profile cx) (cx_prompt_hash cx) "compared" "" "none"
       (cx_analysis_run_id cx) (cx_pool_id cx) (cx_pool_mode cx) false (cx_latency_ms cx)
       (us_input_tokens (cx_usage cx)) (us_output_tokens (cx_usage cx)) false))) s.

Definition handle_one (opts : LLMOptions) (provider : LLMProviderOptions) (profile : PromptProfileOptions)
    (cx : ClassificationRunContext) (queue_source : string → string) (evidence : string → Z)
    (c : Classification) : cprog unit :=
  if cx_is_primary cx
  then λ s, in_world (_handle_classification (second_of s) opts (po_provider_id provider) (po_model provider)
         (Options.pf_name profile) cx (queue_source (cl_domain c)) (evidence (cl_domain c)) c) s
  else save_compared cx c.

Definition handle_result (o : dispatch_options) (res : AnalysisDispatchResult) (profile : PromptProfileOptions)
    (queue_source : string → string) (evidence : string → Z) (completed : list string)
    (pr : ProviderAnalysisResult) : cprog (list string) :=
  match provider_by_id (do_llm_providers o) (pr_provider_id pr) with
  | None => mret completed
  | Some provider =>
      let cx := run_context res provider profile pr in
      prog_fold (λ done c, _ ← handle_one (do_llm o) provider profile cx queue_source evidence c;
                           mret (done ++ [cl_domain c])) completed (pr_classifications pr)
  end.

Definition _handle_dispatch_result (o : dispatch_options) (res : AnalysisDispatchResult)
    (queue_source : string → string) (evidence : string → Z) : cprog (list string) :=
  match list_find (λ p, ap_pool_id p = dr_pool_id res) (do_analysis_pools o) with
  | None => prog_raise (FromStore (OtherError ""))
  | Some (_, pool) =>
      match py_index (do_prompt_profiles o) (ap_profile_index pool) with
      | None => prog_raise (FromStore (OtherError "list index out of range"))
      | Some profile =>
          prog_fold (handle_result o res profile queue_source evidence) [] (dr_provider_results res)
      end
  end.

(** ** One round *)

(** [queue_sources]: the claimed rows have distinct domains. *)
Definition source_of (items : list (string * staging_row)) (domain : string) : string :=
  match list_find (λ p, p.1 = domain) items with Some (_, p) => sr_source p.2 | None => "" end.

Definition evidence_of (dossiers : list string) (found : string → Z) (domain : string) : Z :=
  if bool_decide (domain ∈ dossiers) then found domain else 0.

(** Protected domains are acknowledged and left out. *)
Definition drop_locked (domains : list string) s : list string * cstate srv env :=
  foldl (λ '(unlocked, s) d,
    match get_domain_lock d (w_db (cs_world s)) with
    | Some _ => (unlocked, in_queue (staging_ack d) s)
    | None => (unlocked ++ [d], s)
    end) ([], s) domains.

(** The [try] block up to the acknowledgements: the completed domains and the
    latest retry time. *)
Definition analyse (o : dispatch_options) (pool_id : string) (items : list (string * staging_row))
    (unlocked : list string) : cprog (list string * Q) :=
  found ← in_dispatch (λ d, let '(r, e) := build_dossiers unlocked (ds_env d) in (r, set_env e d));
  res ← in_dispatch (dispatch_analysis completion o pool_id unlocked "queue");
  completed ← _handle_dispatch_result o res (source_of items) (evidence_of unlocked found);
  mret (completed, latest_retry (dr_errors res)).

Definition settle (completed : list string) (retry_at : Q) (domain : string) s : dbprog unit :=
  if bool_decide (domain ∈ completed) then staging_ack domain
  else defer_or_fail "Assigned provider is temporarily unavailable." "No provider returned a classification."
         retry_at domain s.

Definition process (o : dispatch_options) (pool_id : string) (items : list (string * staging_row))
    (unlocked : list string) s : cycle_end * cstate srv env :=
  match analyse o pool_id items unlocked s with
  | (Ok (completed, retry_at), s) => (Continued, for_each (settle completed retry_at) unlocked s)
  | (Err (FromDispatch OperationCancelledError), s) =>
      let s := for_each (defer_now "Classification cancelled") unlocked s in
      (if stop_is_set (ds_env (cs_dispatch s)) then Stopped else Continued, s)
  | (Err (FromDispatch (AnalysisUnavailableError m retry_at)), s) =>
      (Continued, for_each (defer_or_fail m m retry_at) unlocked s)
  | (Err e, s) => (Continued, for_each (fail_once (cycle_exn_text e)) unlocked s)
  end.

Definition classifier_cycle (o : worker_options) (pool_id : string) s : cycle_end * cstate srv env :=
  if negb (wo_enabled o) then (Waited, s)
  else match list_find (λ p, ap_pool_id p = pool_id) (do_analysis_pools (wo_dispatch o)) with
  | None => (Waited, s)
  | Some (_, pool) =>
      if negb (ap_enabled pool) then (Waited, s)
      else if negb (staging_ready (second_of s) (wo_queue_trigger_size o) (wo_max_queue_wait_sec o) pool_id
                      (w_db (cs_world s))) then (Waited, s)
      else
        let '(r, d) := staging_claim_items (second_of s) (lm_worker_batch_size (do_llm (wo_dispatch o))) pool_id
                         (w_db (cs_world s)) in
        let items := match r with Ok l => l | Err _ => [] end in (* it never raises *)
        let s := CState (set_db d (cs_world s)) (cs_dispatch s) in
        if bool_decide (items = []) then (Waited, s)
        else
          let domains := items.*1 in
          if stop_is_set (ds_env (cs_dispatch s))
          then (Stopped, for_each (defer_now "Classifier stopped before processing") domains s)
          else
            let '(unlocked, s) := drop_locked domains s in
            if bool_decide (unlocked = []) then (Continued, s)
            else process (wo_dispatch o) pool_id items unlocked s
  end.

(** [Classifier.run]: recovery, then rounds until the stop event.  The options
    are read again before every round, so a run is given by their sequence. *)
Fixpoint classifier_rounds (os : list worker_options) (pool_id : string) s : cstate srv env :=
  match os with
  | [] => s
  | o :: os =>
      if stop_is_set (ds_env (cs_dispatch s)) then s
      else match classifier_cycle o pool_id s with
           | (Stopped, s) => s
           | (_, s) => classifier_rounds os pool_id s
           end
  end.

Definition classifier_run (os : list worker_options) (pool_id : string) s : cstate srv env :=
  let '(_, d) := staging_requeue_processing (second_of s) pool_id (w_db (cs_world s)) in
  classifier_rounds os pool_id (CState (set_db d (cs_world s)) (cs_dispatch s)).
End Worker.

(** * What a round does to the queue *)

Section QueueFrame.
Context {srv : Type} `{PiHoleServer srv}.
Context (now : Z) (opts : LLMOptions).
Implicit Types w : world srv.

Definition staging_of w := staging_domains (w_db w).

Lemma task_keeps_staging domain reason p source : prog_keeps staging_of (task now domain reason p source).
Proof.
  apply pkeeps_bind; [|intros; apply pkeeps_ret]. intros w. unfold in_db, staging_of.
  pose proof (create_task_keeps staging_domains now domain reason p source (w_db w)) as Hk.
  destruct (create_review_task _ _ _ _ _ _). simpl in *. by apply Hk.
Qed.

Lemma save_keeps_staging c a : prog_keeps staging_of (in_db (review_save_classification now c a)).
Proof.
  intros w. unfold in_db, staging_of, review_save_classification. rewrite then_ret_db. simpl.
  destruct (decide (_normalize_domain (cl_domain c) = ""%string)) as [E|E].
  - by rewrite save_run_empty.
  - by destruct (save_run_ok now c a (w_db w) E) as (d' & -> & _ & _ & ? & _).
Qed.

Lemma perform_keeps_staging c a : prog_keeps staging_of (perform_action now opts c a).
Proof.
  unfold perform_action. destruct (lm_simulation_mode opts).
  - apply pkeeps_bind; [apply task_keeps_staging|]. intros _. apply pkeeps_bind; [by intros w|]. intros _.
    apply pkeeps_ret.
  - apply pkeeps_bind; [|intros _; apply pkeeps_bind; [by intros w|intros _; apply pkeeps_ret]].
    intros w. unfold staging_of.
    destruct (add_exact_domain_cases now (cl_domain c) (policy_value a) (cl_short c) false w)
      as [[e ->]|(-> & _)]; [done|]. by rewrite add_resource_db.
Qed.

Lemma handle_keeps_staging pid pm pn cx qs ev c0 :
  prog_keeps staging_of (_handle_classification now opts pid pm pn cx qs ev c0).
Proof.
  intros w. rewrite handle_eq.
  match goal with |- staging_of (?m w).2 = _ => enough (prog_keeps staging_of m) as Hm by apply Hm end.
  apply pkeeps_bind.
  { apply pkeeps_bind; [|intros _]; case_match; auto using task_keeps_staging with wormhole. }
  intros _. apply pkeeps_bind; [destruct (effective_action _ _ _ _ _); [apply perform_keeps_staging|apply pkeeps_ret]|].
  intros out. apply pkeeps_bind; [case_match; auto using task_keeps_staging with wormhole|]. intros _.
  apply pkeeps_bind; [apply save_keeps_staging|]. intros _. apply pkeeps_ret.
Qed.
End QueueFrame.

Section Cycle.
Context {srv env : Type} `{PiHoleServer srv} `{ProviderCalls env}.
Context (completion : list nat → list nat) (stop_is_set : env → bool).
Context (build_dossiers : list string → env → result dispatch_exn (string → Z) * env).
Context (prompt_fingerprint : PromptProfileOptions → string).
Implicit Types s : cstate srv env.

Definition queue_of s := staging_domains (w_db (cs_world s)).

Lemma in_world_keeps {A B} (f : world srv → B) (m : wprog srv A) :
  prog_keeps f m → prog_keeps (f ∘ cs_world) (in_world (env := env) m).
Proof. intros Hm s. unfold in_world. specialize (Hm (cs_world s)). by destruct (m (cs_world s)). Qed.

Lemma in_dispatch_keeps {A B} (f : world srv → B) (m : prog (dstate env) dispatch_exn A) :
  prog_keeps (f ∘ cs_world) (in_dispatch (srv := srv) m).
Proof. intros s. unfold in_dispatch. by destruct (m (cs_dispatch s)). Qed.

Lemma handle_one_keeps_queue opts p profile cx qs ev c :
  prog_keeps queue_of (handle_one (srv := srv) (env := env) opts p profile cx qs ev c).
Proof.
  unfold handle_one, save_compared. destruct (cx_is_primary cx); intros s.
  - exact (in_world_keeps staging_of _ (handle_keeps_staging _ _ _ _ _ _ _ _ _) s).
  - exact (in_world_keeps staging_of _ (save_keeps_staging _ _ _) s).
Qed.

Lemma handle_results_keep_queue o res qs ev :
  prog_keeps queue_of (_handle_dispatch_result (srv := srv) (env := env) prompt_fingerprint o res qs ev).
Proof.
  unfold _handle_dispatch_result. destruct (list_find _ _) as [[i pool]|]; [|apply pkeeps_raise].
  destruct (py_index _ _) as [profile|]; [|apply pkeeps_raise]. apply pkeeps_fold. intros done pr.
  unfold handle_result. destruct (provider_by_id _ _) as [p|]; [|apply pkeeps_ret].
  apply pkeeps_fold. intros done' c. apply pkeeps_bind; [apply handle_one_keeps_queue|]. intros _. apply pkeeps_ret.
Qed.

Lemma analyse_keeps_queue o pool_id items unlocked :
  prog_keeps queue_of (analyse (srv := srv) completion build_dossiers prompt_fingerprint o pool_id items unlocked).
Proof.
  unfold analyse. apply pkeeps_bind; [apply (in_dispatch_keeps staging_of)|]. intros found.
  apply pkeeps_bind; [apply (in_dispatch_keeps staging_of)|]. intros res.
  apply pkeeps_bind; [apply handle_results_keep_queue|]. intros done. apply pkeeps_ret.
Qed.
End Cycle.

(** * Releasing what was claimed *)

Section Release.
Context {srv env : Type} `{PiHoleServer srv} `{ProviderCalls env}.
Implicit Types s : cstate srv env.

(** A queue operation that lets go of [k] and touches nothing else. *)
Definition releasing (k : string) (m : dbprog unit) : Prop := ∀ d,
  (∀ i, i ≠ k → staging_domains (m d).2 !! i = staging_domains d !! i) ∧
  (∀ r, staging_domains (m d).2 !! k = Some r → sr_state r ≠ "processing"%string ∧ is_Some (staging_domains d !! k)) ∧
  domain_locks (m d).2 = domain_locks d ∧ classification_runs (m d).2 = classification_runs d.

(** Such an operation, when it keeps the row in the table. *)
Definition retaining (k : string) (m : dbprog unit) : Prop := ∀ d,
  is_Some (staging_domains d !! k) → is_Some (staging_domains (m d).2 !! k).

Lemma ack_releasing k : _normalize_domain k = k → releasing k (staging_ack k).
Proof.
  intros Hk d. unfold staging_ack. rewrite Hk. simpl. split_and!; try done.
  - intros i Hi. by rewrite lookup_delete_ne.
  - intros r. by rewrite lookup_delete_eq.
Qed.

Lemma alter_releasing k (f : staging_row → staging_row) (m : dbprog unit) :
  (∀ d, (m d).2 = set_staging (alter f k) d) → (∀ r, sr_state (f r) ≠ "processing"%string) →
  releasing k m ∧ retaining k m.
Proof.
  intros Hm Hf. split; intros d; rewrite Hm; simpl.
  - split_and!; try done.
    + intros i Hi. by rewrite lookup_alter_ne.
    + intros r. rewrite lookup_alter_eq. destruct (staging_domains d !! k) as [r0|]; [|done]. intros [= <-]. eauto.
  - rewrite lookup_alter_eq. by intros [r ->].
Qed.

Lemma defer_releasing now k e t : _normalize_domain k = k →
  releasing k (staging_defer now k e t) ∧ retaining k (staging_defer now k e t).
Proof. intros Hk. eapply alter_releasing; [intros d; unfold staging_defer; by rewrite Hk|done]. Qed.

Lemma fail_releasing now k e m : _normalize_domain k = k →
  releasing k (staging_fail now k e m) ∧ retaining k (staging_fail now k e m).
Proof.
  intros Hk.
  assert (∀ d, ∃ st, st ≠ "processing"%string ∧ (staging_fail now k e m d).2 = set_staging (alter (fail_row now st e) k) d) as Hd.
  { intros d. unfold staging_fail. rewrite Hk. cbv [commit mbind tx_bind tx_read tx_write]. simpl.
    eexists. split; [|reflexivity]. by destruct (_ <=? _). }
  split; intros d; destruct (Hd d) as (st & Hst & ->); simpl.
  - split_and!; try done.
    + intros i Hi. by rewrite lookup_alter_ne.
    + intros r. rewrite lookup_alter_eq. destruct (staging_domains d !! k) as [r0|]; [|done]. intros [= <-]. eauto.
  - rewrite lookup_alter_eq. by intros [r ->].
Qed.

Lemma for_each_frame (f : string → cstate srv env → dbprog unit) ds s :
  (∀ d s, d ∈ ds → releasing d (f d s)) →
  let s' := for_each f ds s in
  (∀ k, k ∉ ds → queue_of s' !! k = queue_of s !! k) ∧
  (∀ k r, k ∈ ds → queue_of s' !! k = Some r → sr_state r ≠ "processing"%string) ∧
  (∀ k, is_Some (queue_of s' !! k) → is_Some (queue_of s !! k)) ∧
  domain_locks (w_db (cs_world s')) = domain_locks (w_db (cs_world s)) ∧
  classification_runs (w_db (cs_world s')) = classification_runs (w_db (cs_world s)).
Proof.
  revert s. induction ds as [|d ds IH]; intros s Hf; unfold for_each; simpl.
  { split_and!; try done. by intros k r ?%not_elem_of_nil. }
  destruct (Hf d s (list_elem_of_here _ _) (w_db (cs_world s))) as (Hother & Hd & Hl & Hr).
  set (s1 := in_queue (f d s) s) in *.
  destruct (IH s1) as (H1 & H2 & H3 & H4 & H5); [intros x t Hx; apply Hf; by right|].
  assert (∀ k, k ≠ d → queue_of s1 !! k = queue_of s !! k) as Hs1 by exact Hother.
  split_and!; try (by etrans; [eassumption|]).
  - intros k [Hkd Hk]%not_elem_of_cons. by rewrite H1, Hs1.
  - intros k r Hk Hkr. destruct (decide (k ∈ ds)) as [Hin|Hn]; [by eapply H2|].
    apply elem_of_cons in Hk as [->|?]; [|done]. rewrite H1 in Hkr by done. by apply Hd.
  - intros k Hk%H3. destruct (decide (k = d)) as [->|Hne]; [|by rewrite <-Hs1].
    destruct Hk as [r Hk]. by apply Hd in Hk as [_ ?].
Qed.

Lemma for_each_retains (f : string → cstate srv env → dbprog unit) ds s k :
  (∀ d s, d ∈ ds → releasing d (f d s)) → (∀ s, k ∈ ds → retaining k (f k s)) →
  is_Some (queue_of s !! k) → is_Some (queue_of (for_each f ds s) !! k).
Proof.
  revert s. induction ds as [|d ds IH]; intros s Hf Hr Hk; [done|]. unfold for_each. simpl.
  apply IH; [intros x t Hx; apply Hf; by right|intros t Hx; apply Hr; by right|].
  destruct (decide (k = d)) as [->|Hne]; [apply (Hr s); [left|done]|].
  destruct (Hf d s (list_elem_of_here _ _) (w_db (cs_world s))) as (Hother & _).
  change (is_Some (staging_domains (f d s (w_db (cs_world s))).2 !! k)). by rewrite Hother.
Qed.

(** What skipping the protected domains leaves. *)
Lemma drop_locked_spec ds s :
  (∀ d, d ∈ ds → _normalize_domain d = d) →
  let '(unlocked, s') := drop_locked ds s in
  (∀ k, k ∈ unlocked ↔ k ∈ ds ∧ get_domain_lock k (w_db (cs_world s)) = None) ∧
  (∀ k, queue_of s' !! k = if decide (k ∈ ds ∧ get_domain_lock k (w_db (cs_world s)) ≠ None) then None
                           else queue_of s !! k) ∧
  domain_locks (w_db (cs_world s')) = domain_locks (w_db (cs_world s)) ∧
  classification_runs (w_db (cs_world s')) = classification_runs (w_db (cs_world s)).
Proof.
  unfold drop_locked. induction ds as [|d ds IH] using rev_ind; intros Hn.
  { split_and!; [|intros k; rewrite decide_False; [done|by intros [?%not_elem_of_nil _]]|done|done].
    intros k. split; [by intros ?%not_elem_of_nil|by intros [?%not_elem_of_nil _]]. }
  rewrite foldl_app. cbn [foldl].
  specialize (IH (λ x Hx, Hn x (proj2 (elem_of_app _ _ _) (or_introl Hx)))).
  destruct (foldl _ ([], s) ds) as [unlocked s1]. destruct IH as (H1 & H2 & H3 & H4).
  assert (_normalize_domain d = d) as Hd by (apply Hn, elem_of_app; right; left).
  assert (∀ x, get_domain_lock x (w_db (cs_world s1)) = get_domain_lock x (w_db (cs_world s))) as Hlock
    by (intros x; unfold get_domain_lock; by rewrite H3).
  rewrite Hlock. destruct (get_domain_lock d (w_db (cs_world s))) as [l|] eqn:El.
  - split_and!; try done.
    + intros k. rewrite elem_of_app, list_elem_of_singleton, H1. split; [tauto|].
      intros [[?| ->] ?]; [done|congruence].
    + intros k. assert (queue_of (in_queue (staging_ack d) s1) = delete d (queue_of s1)) as ->
        by (unfold staging_ack; by rewrite Hd).
      destruct (decide (k = d)) as [->|Hne].
      * rewrite lookup_delete_eq, decide_True; [done|]. split; [apply elem_of_app; right; left|congruence].
      * rewrite lookup_delete_ne, H2 by done.
        apply decide_ext. rewrite elem_of_app, list_elem_of_singleton. tauto.
  - split_and!; try done.
    + intros k. rewrite !elem_of_app, !list_elem_of_singleton, H1. split; [|tauto]. intros [[? ?]| ->]; tauto.
    + intros k. rewrite H2. apply decide_ext. rewrite elem_of_app, list_elem_of_singleton.
      split; [tauto|]. intros [[?| ->] ?]; tauto.
Qed.
End Release.

(** * What was completed was recorded *)

Section Records.
Context {srv env : Type} `{PiHoleServer srv} `{ProviderCalls env}.
Context (completion : list nat → list nat) (stop_is_set : env → bool).
Context (build_dossiers : list string → env → result dispatch_exn (string → Z) * env).
Context (prompt_fingerprint : PromptProfileOptions → string).
Implicit Types s : cstate srv env.

Definition runs_of s := classification_runs (w_db (cs_world s)).

Lemma handle_one_records opts p profile cx qs ev c s s' :
  handle_one (srv := srv) (env := env) opts p profile cx qs ev c s = (Ok tt, s') →
  ∃ row, runs_of s' = runs_of s ++ [row] ∧ rr_domain row = _normalize_domain (cl_domain c).
Proof.
  unfold handle_one, save_compared, in_world. destruct (cx_is_primary cx).
  - match goal with |- context [_handle_classification ?n ?o ?a ?b ?c ?d ?e ?f ?g ?w] =>
      pose proof (handle_records n o a b c d e f g w) as Hr;
      destruct (_handle_classification n o a b c d e f g w) as [[[]|x] w'] end; [|done].
    intros [= <-]. destruct (Hr eq_refl) as (row & rv & Hruns & Hd & _). eauto.
  - unfold in_db, review_save_classification. rewrite then_ret_db.
    destruct (decide (_normalize_domain (cl_domain c) = ""%string)) as [E|E]; [by rewrite save_run_empty|].
    match goal with |- context [save_classification_run ?n ?c ?a ?d] =>
      destruct (save_run_ok n c a d E) as (d' & -> & Hruns & _) end.
    intros [= <-]. eexists. split; [exact Hruns|done].
Qed.

(** New history rows for every completed domain. *)
Definition recorded (s0 : cstate srv env) (completed : list string) s : Prop :=
  ∃ new, runs_of s = runs_of s0 ++ new ∧
    ∀ k, k ∈ completed → ∃ row, row ∈ new ∧ rr_domain row = _normalize_domain k.

Lemma handle_results_record o res qs ev s completed s' :
  _handle_dispatch_result (srv := srv) (env := env) prompt_fingerprint o res qs ev s = (Ok completed, s') →
  recorded s completed s'.
Proof.
  unfold _handle_dispatch_result. destruct (list_find _ _) as [[i pool]|]; [|done].
  destruct (py_index _ _) as [profile|]; [|done].
  apply (prog_fold_ind (recorded s)).
  2: { exists []. split; [by rewrite app_nil_r|]. by intros k ?%not_elem_of_nil. }
  intros pr acc s1 acc' s2 _ Hd. unfold handle_result. destruct (provider_by_id _ _) as [p|]; [|by intros [= <- <-]].
  apply (prog_fold_ind (recorded s)); [|done]. clear acc s1 acc' s2 Hd.
  intros c acc s1 acc' s2 _ (new & Hruns & Hall). unfold mbind, prog_bind.
  destruct (handle_one _ _ _ _ _ _ _ s1) as [[[]|e] s3] eqn:E1; [|done]. intros [= <- <-].
  apply handle_one_records in E1 as (row & Hr & Hdom). exists (new ++ [row]).
  split; [by rewrite Hr, Hruns, app_assoc|]. intros k [Hk|Hk]%elem_of_app.
  - destruct (Hall k Hk) as (x & Hx & Hxd). exists x. split; [apply elem_of_app; by left|done].
  - apply list_elem_of_singleton in Hk as ->. exists row. split; [apply elem_of_app; right; left|done].
Qed.

Lemma in_dispatch_world {A} (m : prog (dstate env) dispatch_exn A) s r s' :
  in_dispatch (srv := srv) m s = (r, s') → cs_world s' = cs_world s.
Proof. unfold in_dispatch. destruct (m (cs_dispatch s)) as [x d]. by intros [= _ <-]. Qed.

Lemma analyse_records o pool_id items unlocked s completed t s' :
  analyse (srv := srv) completion build_dossiers prompt_fingerprint o pool_id items unlocked s =
    (Ok (completed, t), s') → recorded s completed s'.
Proof.
  unfold analyse, mbind, prog_bind.
  destruct (in_dispatch _ s) as [[found|e] s1] eqn:E1; [|done]. apply in_dispatch_world in E1.
  destruct (in_dispatch _ s1) as [[res|e] s2] eqn:E2; [|done]. apply in_dispatch_world in E2.
  destruct (_handle_dispatch_result _ _ _ _ _ s2) as [[acc|e] s3] eqn:E3; [|done]. intros [= <- <- <-].
  apply handle_results_record in E3. unfold recorded, runs_of in *. by rewrite E2, E1 in E3.
Qed.
End Records.

Section Round.
Context {srv env : Type} `{PiHoleServer srv} `{ProviderCalls env}.
Context (completion : list nat → list nat) (stop_is_set : env → bool).
Context (build_dossiers : list string → env → result dispatch_exn (string → Z) * env).
Context (prompt_fingerprint : PromptProfileOptions → string).
Implicit Types s : cstate srv env.

(** The history rows that came in between. *)
Definition new_runs s s' : list run_row := drop (length (runs_of s)) (runs_of s').

(** Every domain of [ds] was let go of, the rest of the queue is as it was,
    and a domain that left the queue has a new history row. *)
Definition released (ds : list string) s s' : Prop :=
  (∀ k, k ∉ ds → queue_of s' !! k = queue_of s !! k) ∧
  (∀ k r, k ∈ ds → queue_of s' !! k = Some r → sr_state r ≠ "processing"%string) ∧
  (∀ k, is_Some (queue_of s' !! k) → is_Some (queue_of s !! k)) ∧
  (∀ k, k ∈ ds → is_Some (queue_of s !! k) → queue_of s' !! k = None →
     ∃ row, row ∈ new_runs s s' ∧ rr_domain row = k).

Lemma defer_or_fail_releases e1 e2 t k s : _normalize_domain k = k →
  releasing k (defer_or_fail e1 e2 t k s) ∧ retaining k (defer_or_fail e1 e2 t k s).
Proof. intros Hk. unfold defer_or_fail. destruct (qltb _ _); [by apply defer_releasing|by apply fail_releasing]. Qed.

Lemma settle_releases completed t k s : _normalize_domain k = k → releasing k (settle completed t k s).
Proof. intros Hk. unfold settle. case_bool_decide; [by apply ack_releasing|by apply defer_or_fail_releases]. Qed.

(** A loop that never drops a row. *)
Lemma retaining_loop (f : string → cstate srv env → dbprog unit) ds s0 s :
  (∀ d s, d ∈ ds → releasing d (f d s) ∧ retaining d (f d s)) → queue_of s = queue_of s0 →
  released ds s0 (for_each f ds s).
Proof.
  intros Hf Hq. destruct (for_each_frame f ds s) as (H1 & H2 & H3 & _ & _); [intros; by apply Hf|].
  unfold released. rewrite <-Hq. split_and!; [done|done|done|]. intros k Hk Hs Hn. exfalso.
  destruct (for_each_retains f ds s k) as [r Hr]; [intros; by apply Hf|intros; by apply Hf|done|]. congruence.
Qed.

Lemma settle_loop completed t ds s0 s :
  (∀ d, d ∈ ds → _normalize_domain d = d) → queue_of s = queue_of s0 → recorded s0 completed s →
  released ds s0 (for_each (settle completed t) ds s).
Proof.
  intros Hn Hq (new & Hnew & Hrec).
  assert (∀ d s, d ∈ ds → releasing d (settle completed t d s)) as Hf by (intros; apply settle_releases; auto).
  destruct (for_each_frame (settle completed t) ds s Hf) as (H1 & H2 & H3 & _ & H5).
  unfold released. rewrite <-Hq. split_and!; try done.
  intros k Hk Hs Hnone. destruct (decide (k ∈ completed)) as [Hc|Hc].
  - destruct (Hrec k Hc) as (row & Hrow & Hd). exists row. rewrite Hn in Hd by done. split; [|done].
    unfold new_runs, runs_of in *. by rewrite H5, Hnew, drop_app_length.
  - exfalso. destruct (for_each_retains (settle completed t) ds s k Hf) as [r Hr]; [|done|congruence].
    intros x Hx. unfold settle. rewrite bool_decide_false by done. apply defer_or_fail_releases. auto.
Qed.

Abbreviation proc := (process (srv := srv) completion stop_is_set build_dossiers prompt_fingerprint).
Abbreviation cycle := (classifier_cycle (srv := srv) completion stop_is_set build_dossiers prompt_fingerprint).
Abbreviation run := (classifier_run (srv := srv) completion stop_is_set build_dossiers prompt_fingerprint).
Abbreviation rounds := (classifier_rounds (srv := srv) completion stop_is_set build_dossiers prompt_fingerprint).

Lemma process_releases o pool_id items unlocked s :
  (∀ d, d ∈ unlocked → _normalize_domain d = d) → released unlocked s (proc o pool_id items unlocked s).2.
Proof.
  intros Hn. unfold process.
  pose proof (analyse_keeps_queue completion build_dossiers prompt_fingerprint o pool_id items unlocked s) as Hq.
  destruct (analyse _ _ _ o pool_id items unlocked s) as [[[completed t]|e] s1] eqn:E; simpl in Hq.
  { apply settle_loop; [done|done|by eapply analyse_records]. }
  assert (∀ text, released unlocked s (for_each (fail_once text) unlocked s1)) as Hfail.
  { intros text. apply retaining_loop; [|done]. intros d x Hd. apply fail_releasing. auto. }
  destruct e as [[|m t|x|m|m]|x]; cbn [snd]; [| |exact (Hfail _)..].
  - apply retaining_loop; [|done]. intros d x Hd. apply defer_releasing. auto.
  - apply retaining_loop; [|done]. intros d x Hd. apply defer_or_fail_releases. auto.
Qed.

(** The names in the queue are fixed points of normalisation. *)
Definition stable_queue s : Prop := ∀ k, is_Some (queue_of s !! k) → _normalize_domain k = k.

(** What a round promises. *)
Definition round_ok s s' : Prop :=
  (∀ k, in_processing k (w_db (cs_world s')) → in_processing k (w_db (cs_world s))) ∧
  (∀ k, is_Some (queue_of s' !! k) → is_Some (queue_of s !! k)) ∧
  (∀ k, is_Some (queue_of s !! k) → queue_of s' !! k = None →
     get_domain_lock k (w_db (cs_world s)) ≠ None ∨ ∃ row, row ∈ new_runs s s' ∧ rr_domain row = k).

Lemma round_ok_refl s : round_ok s s.
Proof. split_and!; try done. intros k [r Hr] Hn. congruence. Qed.

(** The state after the claim. *)
Lemma claim_step now limit pool s s1 items :
  stable_queue s → items = (claimed_rows now limit pool (w_db (cs_world s))).*1 →
  s1 = CState (set_db (staging_claim_items now limit pool (w_db (cs_world s))).2 (cs_world s)) (cs_dispatch s) →
  (∀ k, k ∈ items → _normalize_domain k = k) ∧
  (∀ k, k ∉ items → queue_of s1 !! k = queue_of s !! k) ∧
  (∀ k, is_Some (queue_of s1 !! k) ↔ is_Some (queue_of s !! k)).
Proof.
  intros Hst -> ->. rewrite staging_claim_items_eq. unfold queue_of. cbn [cs_world set_db w_db snd set_staging staging_domains].
  split_and!.
  - intros k (r & Hr & _)%claimed_row_lookup. apply Hst. by exists r.
  - intros k Hk. rewrite lookup_update_where. destruct (staging_domains _ !! k); [|done]. simpl.
    by rewrite bool_decide_false.
  - intros k. rewrite lookup_update_where. by destruct (staging_domains _ !! k).
Qed.

Lemma round_ok_intro s s1 s2 (items : list string) :
  (∀ k, k ∉ items → queue_of s1 !! k = queue_of s !! k) → (∀ k, is_Some (queue_of s1 !! k) ↔ is_Some (queue_of s !! k)) →
  runs_of s1 = runs_of s →
  (∀ k, k ∉ items → queue_of s2 !! k = queue_of s1 !! k) →
  (∀ k r, k ∈ items → queue_of s2 !! k = Some r → sr_state r ≠ "processing"%string) →
  (∀ k, is_Some (queue_of s2 !! k) → is_Some (queue_of s1 !! k)) →
  (∀ k, k ∈ items → is_Some (queue_of s1 !! k) → queue_of s2 !! k = None →
     get_domain_lock k (w_db (cs_world s)) ≠ None ∨ ∃ row, row ∈ new_runs s1 s2 ∧ rr_domain row = k) →
  round_ok s s2.
Proof.
  intros Hc1 Hc2 Hr H1 H2 H3 H4. split_and!.
  - intros k (r & Hk & Hp). destruct (decide (k ∈ items)) as [Hin|Hn]; [by destruct (H2 k r)|].
    exists r. split; [|done].
    transitivity (queue_of s1 !! k); [by rewrite Hc1|]. rewrite <-(H1 k Hn). exact Hk.
  - intros k Hk. by apply Hc2, H3.
  - intros k Hk Hn. apply Hc2 in Hk. destruct (decide (k ∈ items)) as [Hin|Hni].
    + unfold new_runs in *. rewrite Hr in H4. auto.
    + rewrite H1 in Hn by done. destruct Hk as [r Hk]. congruence.
Qed.

Lemma cycle_round_ok o pool_id s : stable_queue s → round_ok s (cycle o pool_id s).2.
Proof.
  intros Hst. unfold classifier_cycle. destruct (negb (wo_enabled o)); [apply round_ok_refl|].
  destruct (list_find _ _) as [[i pool]|]; [|apply round_ok_refl].
  destruct (negb (ap_enabled pool)); [apply round_ok_refl|]. destruct (negb _); [apply round_ok_refl|].
  set (limit := lm_worker_batch_size _). set (now := second_of s).
  destruct (claim_step now limit pool_id s _ _ Hst eq_refl eq_refl) as (Hn & Hc1 & Hc2).
  rewrite staging_claim_items_eq in *. set (rows := claimed_rows now limit pool_id (w_db (cs_world s))) in *.
  cbv iota beta. cbn [snd] in *.
  set (s1 := CState _ _) in *. assert (runs_of s1 = runs_of s) as Hr1 by done.
  case_bool_decide as Hrows.
  { cbn [snd]. rewrite Hrows in *. eapply (round_ok_intro s s1 s1 []); try done; by intros k; intros; apply not_elem_of_nil in H1. }
  destruct (stop_is_set _).
  { cbn [snd]. destruct (retaining_loop (defer_now "Classifier stopped before processing") rows.*1 s1 s1)
      as (H1 & H2 & H3 & H4); [intros d x Hd; apply defer_releasing; auto|done|].
    apply (round_ok_intro s s1 _ rows.*1); auto. }
  pose proof (drop_locked_spec rows.*1 s1 Hn) as Hd. destruct (drop_locked rows.*1 s1) as [unlocked s2].
  destruct Hd as (Hu & Hq & Hl & Hr).
  assert (∀ s3, released unlocked s2 s3 → round_ok s s3) as Hfinish.
  { intros s3 (H1 & H2 & H3 & H4). apply (round_ok_intro s s1 s3 rows.*1); auto.
    - intros k Hk. rewrite H1 by (intros Hin; by apply Hu in Hin as [? _]). rewrite Hq, decide_False; [done|].
      by intros [? _].
    - intros k r Hk Hkr. destruct (decide (k ∈ unlocked)) as [Hin|Hnin]; [by eapply H2|].
      rewrite H1, Hq in Hkr by done. exfalso. apply Hnin, Hu. case_decide as Hx; [done|]. split; [done|].
      destruct (get_domain_lock k (w_db (cs_world s1))); [|done]. by destruct Hx.
    - intros k [r Hk]%H3. rewrite Hq in Hk. case_decide; [done|eauto].
    - intros k Hk Hs Hnone. destruct (get_domain_lock k (w_db (cs_world s))) as [l|] eqn:El; [by left|right].
      assert (get_domain_lock k (w_db (cs_world s1)) = None) as El1 by exact El.
      destruct (H4 k) as (row & Hrow & Hd); [by apply Hu| |done|].
      + rewrite Hq, decide_False; [done|]. intros [_ Hx]. by apply Hx.
      + exists row. split; [|done]. unfold new_runs in *.
        by rewrite (Hr : runs_of s2 = runs_of s1) in Hrow. }
  case_bool_decide as Hun.
  - cbn [snd]. apply Hfinish. rewrite Hun. split_and!; try done; by intros k; intros; apply not_elem_of_nil in H1.
  - apply Hfinish, process_releases. intros d Hd. apply Hn. by apply Hu in Hd as [? _].
Qed.
End Round.

(** * Properties *)

Section WorkerProperties.
Context {srv env : Type} `{PiHoleServer srv} `{ProviderCalls env}.
Context (completion : list nat → list nat) (stop_is_set : env → bool).
Context (build_dossiers : list string → env → result dispatch_exn (string → Z) * env).
Context (prompt_fingerprint : PromptProfileOptions → string).
Implicit Types s : cstate srv env.

Abbreviation cycle := (classifier_cycle (srv := srv) completion stop_is_set build_dossiers prompt_fingerprint).
Abbreviation rounds := (classifier_rounds (srv := srv) completion stop_is_set build_dossiers prompt_fingerprint).
Abbreviation run := (classifier_run (srv := srv) completion stop_is_set build_dossiers prompt_fingerprint).

Lemma rounds_processing os pool_id s :
  stable_queue s → ∀ k, in_processing k (w_db (cs_world (rounds os pool_id s))) → in_processing k (w_db (cs_world s)).
Proof.
  revert s. induction os as [|o os IH]; intros s Hst k; simpl; [done|]. destruct (stop_is_set _); [done|].
  destruct (cycle_round_ok completion stop_is_set build_dossiers prompt_fingerprint o pool_id s Hst) as (H1 & H2 & _).
  assert (stable_queue (cycle o pool_id s).2) as Hst' by (intros x Hx; auto).
  destruct (cycle o pool_id s) as [[] s']; simpl in *; auto.
Qed.

(** C2: When every name in the queue is its own normal form: whatever the
    providers do in a round of the classifier (answer, fail or run out of
    quota), and whether the job is cancelled, the Pi-hole fails or a stop is
    requested, a domain that is in processing after it was in processing before
    it: the round lets go of every domain it claimed. (A name such as 'a. ',
    which the queue stores for 'a. .', is looked up under another name and would
    stay in processing.) *)
Theorem round_releases_every_claim o pool_id s :
  stable_queue s →
  ∀ k, in_processing k (w_db (cs_world (cycle o pool_id s).2)) → in_processing k (w_db (cs_world s)).
Proof.
  intros Hst. by apply (cycle_round_ok completion stop_is_set build_dossiers prompt_fingerprint).
Qed.

(** C3: When every name in the queue is its own normal form, a round of the
    classifier loses no work: a domain that was in the queue before the round
    and is not there after it is protected by a lock, or the round recorded a
    classification of it. (Without that condition acknowledging the row 'a. '
    deletes the row 'a'.) *)
Theorem round_loses_no_domain o pool_id s :
  stable_queue s →
  ∀ k, is_Some (queue_of s !! k) → queue_of (cycle o pool_id s).2 !! k = None →
    get_domain_lock k (w_db (cs_world s)) ≠ None ∨
    ∃ row, row ∈ new_runs s (cycle o pool_id s).2 ∧ rr_domain row = k.
Proof.
  intros Hst. by apply (cycle_round_ok completion stop_is_set build_dossiers prompt_fingerprint).
Qed.

(** After a run of the classifier thread of a pool, from its recovery step
    to its last round, nothing of that pool is left in processing, not even
    what an interrupted process had left there. *)
Theorem run_leaves_nothing_in_processing os pool_id s :
  stable_queue s →
  ∀ k, in_processing k (w_db (cs_world (run os pool_id s))) →
    ∃ r, queue_of s !! k = Some r ∧ sr_state r = "processing"%string ∧ pool_clause pool_id r = false.
Proof.
  intros Hst k. unfold classifier_run. cbv [staging_requeue_processing commit mbind tx_bind tx_read tx_write mret tx_ret].
  set (s1 := CState _ _).
  assert (∀ i, queue_of s1 !! i = (λ r, if interrupted pool_id r then recover_row (second_of s) r else r) <$> queue_of s !! i)
    as Hq by (intros i; unfold queue_of, s1; simpl; by rewrite lookup_update_where).
  intros Hp%rounds_processing.
  2: { intros i Hi. apply Hst. rewrite Hq in Hi. by destruct (queue_of s !! i); [eexists|destruct Hi]. }
  destruct Hp as (r & Hr & Hs). change (queue_of s1 !! k = Some r) in Hr. rewrite Hq in Hr.
  destruct (queue_of s !! k) as [r0|] eqn:E; [|done]. simpl in Hr. injection Hr as <-.
  exists r0. split; [done|]. unfold interrupted in Hs. destruct (sr_state r0 =? "processing")%string eqn:Es; simpl in Hs.
  - apply String.eqb_eq in Es. destruct (pool_clause pool_id r0); [discriminate Hs|done].
  - by apply String.eqb_neq in Es.
Qed.
End WorkerProperties.

(** * A concrete worker *)

Definition wx_pool (mode : string) : AnalysisPoolOptions :=
  mkAnalysisPoolOptions "background" "Background" true mode 0 2 100 false 70 70 ex_members.
Definition wx_options (mode : string) : worker_options :=
  mkWorkerOptions true 1 60
    (mkDispatchOptions (ex_llm true "hybrid") [ex_provider; ex_second] [wx_pool mode] [mkPromptProfileOptions "default" "" ""]).

Definition wx_db : db :=
  (staging_enqueue [] 900 ["a.example"; "bb.example"]%string 50 "live" "background" db_empty).2.
Definition wx_state (d : db) (replies : list (option provider_exn)) : cstate map_server script :=
  CState (set_db d (ex_world ∅)) (ex_start replies).
Definition wx_cycle (mode : string) (s : cstate map_server script) : cycle_end * cstate map_server script :=
  classifier_cycle (λ l, l) (λ _, false) (λ _ e, (Ok (λ _, 2), e)) Options.pf_name (wx_options mode) "background" s.

(** States of the queue. *)
Definition states (s : cstate map_server script) : list (string * string) :=
  (λ p, (p.1, sr_state p.2)) <$> map_to_list (queue_of s).

Lemma wx_stable replies : stable_queue (wx_state wx_db replies).
Proof.
  intros k [r Hk%elem_of_map_to_list]. change (queue_of _) with (staging_domains wx_db) in Hk.
  apply (list_elem_of_fmap_2 fst) in Hk.
  assert ((map_to_list (staging_domains wx_db)).*1 = ["a.example"; "bb.example"]%string) as E by (vm_compute; reflexivity).
  rewrite E in Hk. cbn [fst] in Hk. apply list_elem_of_In in Hk. destruct Hk as [<-|[<-|[]]]; vm_compute; reflexivity.
Qed.

(** The quota gives out after the first domain: it is classified and leaves the
    queue, the other one is deferred. *)
Lemma round_releases_every_claim_witness :
  let s := wx_state wx_db [quota_gone; None; quota_gone; quota_gone] in
  states s = [("a.example", "queued"); ("bb.example", "queued")]%string ∧
  states (wx_cycle "fallback" s).2 = [("bb.example", "queued")]%string ∧
  ∀ k, in_processing k (w_db (cs_world (wx_cycle "fallback" s).2)) → in_processing k (w_db (cs_world s)).
Proof.
  intros s. split; [vm_compute; reflexivity|]. split; [vm_compute; reflexivity|].
  exact (round_releases_every_claim (λ l, l) (λ _, false) (λ _ e, (Ok (λ _, 2), e)) Options.pf_name
    (wx_options "fallback") "background" s (wx_stable _)).
Defined.

Lemma round_loses_no_domain_witness :
  let s := wx_state wx_db [quota_gone; None; quota_gone; quota_gone] in
  get_domain_lock "a.example" (w_db (cs_world s)) ≠ None ∨
  ∃ row, row ∈ new_runs s (wx_cycle "fallback" s).2 ∧ rr_domain row = "a.example"%string.
Proof.
  intros s.
  apply (round_loses_no_domain (λ l, l) (λ _, false) (λ _ e, (Ok (λ _, 2), e)) Options.pf_name
    (wx_options "fallback") "background" s (wx_stable _) "a.example").
  - vm_compute. eexists. reflexivity.
  - vm_compute. reflexivity.
Defined.

Lemma run_leaves_nothing_in_processing_witness :
  let s := wx_state (staging_claim_items 950 1 "background" wx_db).2 [] in
  let s' := classifier_run (λ l, l) (λ _, false) (λ _ e, (Ok (λ _, 2), e)) Options.pf_name [wx_options "fallback"] "background" s in
  states s = [("a.example", "processing"); ("bb.example", "queued")]%string ∧
  ∀ k, in_processing k (w_db (cs_world s')) →
    ∃ r, queue_of s !! k = Some r ∧ sr_state r = "processing"%string ∧ pool_clause "background" r = false.
Proof.
  intros s s'. split; [vm_compute; reflexivity|].
  apply (run_leaves_nothing_in_processing (λ l, l) (λ _, false) (λ _ e, (Ok (λ _, 2), e)) Options.pf_name).
  intros k Hk. apply (wx_stable [] k). unfold s in Hk. rewrite staging_claim_items_eq in Hk.
  unfold queue_of, wx_state in *. cbn [cs_world set_db w_db snd set_staging staging_domains] in *.
  rewrite lookup_update_where in Hk. destruct (staging_domains wx_db !! k) as [r|]; [by eexists|by destruct Hk].
Defined.
