(* ===== verification/Decisions.v ===== *)
(** Human review decisions: the application service of
    [pihole_manager/application/review_decisions.py] over its ports, the wiring
    of [review_decisions.py], and the preferences table of
    [review_preferences.py].

    The service is written against a record of operations, as in the code; the
    wiring instantiates them with the Pi-hole operations, the queue, the reviews
    and the preferences, which live in a database of their own. *)
From stdpp Require Import base gmap strings list.
From Stdlib Require Import QArith.
From S2P Require Import Prelude Models Database Queue ReviewDb Behavior PiHole Policy.
Open Scope Z_scope.

(** * Preferences *)

Record preference_row := PreferenceRow {
  vp_never_ask : bool;
  vp_postponed_until : option Z;
  vp_last_decision : string;
  vp_updated_at : Z
}.

(** The dictionary the functions return: the domain and the other columns. *)
Abbreviation preference := (string * preference_row)%type.
Abbreviation preferences := (gmap string preference_row).

(** The file of preferences: its rows, and whether its schema is supported. *)
Record preference_db := PreferenceDb { pd_rows : preferences; pd_supported : bool }.

Definition newer_schema : exn := RuntimeError "The review-preference database was created by a newer application version.".

(** [_init_db] before an operation *)
Definition with_preferences {A} (m : prog preferences exn A) : prog preference_db exn A := λ p,
  if pd_supported p
  then let '(r, rows) := m (pd_rows p) in (r, PreferenceDb rows (pd_supported p))
  else (Err newer_schema, p).

Definition preference_lookup (domain : string) (t : preferences) : option preference :=
  let normalized := _normalize_domain domain in
  if str_nonempty normalized then (λ r, (normalized, r)) <$> t !! normalized else None.

Definition review_preference_get (domain : string) : prog preference_db exn (option preference) :=
  if str_nonempty (_normalize_domain domain)
  then with_preferences (prog_read (preference_lookup domain))
  else mret None.

Definition set_review_preference (now : Z) (domain : string) (never_ask : bool) (postponed_until : option Z)
    (last_decision : string) : prog preference_db exn preference :=
  let normalized := _normalize_domain domain in
  if negb (str_nonempty normalized) then prog_raise (ValueError "domain must not be empty")
  else
    let row := PreferenceRow never_ask postponed_until (str_lower (str_strip last_decision)) now in
    _ ← with_preferences (λ t, (Ok tt, <[normalized := row]> t));
    stored ← review_preference_get normalized;
    mret (default (normalized, row) stored).

Definition clear_review_preference (domain : string) : prog preference_db exn bool :=
  let normalized := _normalize_domain domain in
  if negb (str_nonempty normalized) then mret false
  else with_preferences (λ t, (Ok (bool_decide (is_Some (t !! normalized))), delete normalized t)).

Definition blocks (now : Z) (r : preference_row) : bool :=
  vp_never_ask r || match vp_postponed_until r with Some t => now <? t | None => false end.

Definition preference_blocks_review (now : Z) (domain : string) : prog preference_db exn bool :=
  item ← review_preference_get domain;
  mret (match item with Some (_, r) => blocks now r | None => false end).

(** [apply_review_preferences]: each row with the preference of its domain;
    [hide_blocked] drops the blocked ones. *)
Definition decorate {A} (t : preferences) (p : string * A) : (string * A) * option preference_row :=
  (p, t !! _normalize_domain p.1).

Definition apply_review_preferences {A} (now : Z) (hide_blocked : bool) (rows : list (string * A))
    : prog preference_db exn (list ((string * A) * option preference_row)) :=
  let names := filter (λ d, str_nonempty d = true) (_normalize_domain <$> rows.*1) in
  found ← (if bool_decide (names = []) then mret ∅
           else with_preferences (prog_read (λ t, filter (λ p, p.1 ∈ names) t)));
  mret (filter (λ i, negb (hide_blocked && match i.2 with Some r => blocks now r | None => false end) = true)
          (decorate found <$> rows)).

(** * The application service *)

Record ReviewDecisionCommand := mkDecisionCommand {
  dc_domain : string;
  dc_decision : string;
  dc_postpone_until : option Z;
  dc_comment : string
}.

Record ReviewDecisionResult := mkDecisionResult {
  dx_domain : string;
  dx_decision : string;
  dx_applied : bool;
  dx_preference : preference;
  dx_postpone_until : option Z
}.

Inductive decision_exn :=
  | InvalidReviewDecision (msg : string)
  | ReviewDecisionConflict (msg : string)
  | FromPort (e : exn).

Record ReviewDecisionPorts (S : Type) := mkDecisionPorts {
  rp_fetch_exact_domains : string → prog S exn (list remote_row);
  rp_add_exact_domain : string → Policy → string → prog S exn unit;
  rp_delete_exact_domain : string → string → prog S exn unit;
  rp_mark_action_applied : string → string → prog S exn unit;
  rp_staging_remove : list string → prog S exn Z;
  rp_resolve_review : list string → string → prog S exn Z;
  rp_set_review_preference : string → bool → option Z → string → prog S exn preference;
  rp_resolve_open_review_tasks : string → string → prog S exn unit;
  rp_clock : S → Q
}.
Arguments rp_fetch_exact_domains {S}.
Arguments rp_add_exact_domain {S}.
Arguments rp_delete_exact_domain {S}.
Arguments rp_mark_action_applied {S}.
Arguments rp_staging_remove {S}.
Arguments rp_resolve_review {S}.
Arguments rp_set_review_preference {S}.
Arguments rp_resolve_open_review_tasks {S}.
Arguments rp_clock {S}.

Definition VALID_REVIEW_DECISIONS : list string := ["allow"; "deny"; "postpone"; "ignore"; "never_ask"]%string.

Section Service.
Context {S : Type} (ports : ReviewDecisionPorts S).

Definition port {A} (m : prog S exn A) : prog S decision_exn A := λ s,
  match m s with (Ok a, s') => (Ok a, s') | (Err e, s') => (Err (FromPort e), s') end.

Definition _exact_rule_exists (domain policy : string) : prog S decision_exn bool :=
  rows ← port (rp_fetch_exact_domains ports policy);
  mret (existsb (λ r, String.eqb (rm_key r) domain) rows).

(** The branch for [allow] and [deny]. *)
Definition decide_policy (domain decision comment : string) : prog S decision_exn ReviewDecisionResult :=
  let policy := if String.eqb decision "allow" then ALLOW else DENY in
  let opposite := (if String.eqb decision "allow" then "deny" else "allow")%string in
  desired_exists ← _exact_rule_exists domain decision;
  opposite_exists ← _exact_rule_exists domain opposite;
  _ ← (if desired_exists : bool then mret tt
       else port (rp_add_exact_domain ports domain policy
                    (str_or (str_strip comment) ("Review decision: " +:+ decision)%string)));
  _ ← (if opposite_exists : bool then port (rp_delete_exact_domain ports domain opposite) else mret tt);
  _ ← port (rp_mark_action_applied ports domain decision);
  _ ← port (rp_staging_remove ports [domain]);
  preference ← port (rp_set_review_preference ports domain false None decision);
  mret (mkDecisionResult domain decision true preference None).

Definition decide_ignore (domain decision : string) : prog S decision_exn ReviewDecisionResult :=
  _ ← port (rp_staging_remove ports [domain]);
  _ ← port (rp_resolve_review ports [domain] "ignored");
  preference ← port (rp_set_review_preference ports domain false None "ignore");
  mret (mkDecisionResult domain decision true preference None).

Definition decide_postpone (domain decision : string) (postpone_until : option Z)
    : prog S decision_exn ReviewDecisionResult :=
  match postpone_until with
  | None => prog_raise (InvalidReviewDecision "postpone_until is required for postpone")
  | Some postponed =>
      now ← prog_read (rp_clock ports);
      if postponed <=? py_int now
      then prog_raise (InvalidReviewDecision "postpone_until must be in the future")
      else
        _ ← port (rp_staging_remove ports [domain]);
        _ ← port (rp_resolve_open_review_tasks ports domain "postponed");
        preference ← port (rp_set_review_preference ports domain false (Some postponed) "postpone");
        mret (mkDecisionResult domain decision true preference (Some postponed))
  end.

Definition decide_never_ask (domain decision : string) : prog S decision_exn ReviewDecisionResult :=
  _ ← port (rp_staging_remove ports [domain]);
  _ ← port (rp_resolve_open_review_tasks ports domain "never_ask");
  preference ← port (rp_set_review_preference ports domain true None "never_ask");
  mret (mkDecisionResult domain decision true preference None).

Definition _execute_validated (domain decision : string) (postpone_until : option Z) (comment : string)
    : prog S decision_exn ReviewDecisionResult :=
  if String.eqb decision "allow" || String.eqb decision "deny" then decide_policy domain decision comment
  else if String.eqb decision "ignore" then decide_ignore domain decision
  else if String.eqb decision "postpone" then decide_postpone domain decision postpone_until
  else decide_never_ask domain decision.

(** [except RuntimeError]: the two runtime errors a port can raise. *)
Definition runtime_as_conflict (e : decision_exn) : decision_exn :=
  match e with
  | FromPort (RuntimeError msg) | FromPort (ManagedRuleConflict msg) => ReviewDecisionConflict msg
  | e => e
  end.

Definition execute_decision (c : ReviewDecisionCommand) : prog S decision_exn ReviewDecisionResult := λ s,
  let normalized := _normalize_domain (dc_domain c) in
  let selected := str_lower (str_strip (dc_decision c)) in
  if negb (str_nonempty normalized) then (Err (InvalidReviewDecision "domain must not be empty"), s)
  else if negb (bool_decide (selected ∈ VALID_REVIEW_DECISIONS))
  then (Err (InvalidReviewDecision "decision must be allow, deny, postpone, ignore, or never_ask"), s)
  else match _execute_validated normalized selected (dc_postpone_until c) (dc_comment c) s with
       | (Ok r, s') => (Ok r, s')
       | (Err e, s') => (Err (runtime_as_conflict e), s')
       end.
End Service.

(** * The wiring *)

Record decision_state (srv : Type) := DecisionState { ds_world : world srv; ds_preferences : preference_db }.
Arguments DecisionState {srv}.
Arguments ds_world {srv}.
Arguments ds_preferences {srv}.

Section Wiring.
Context {srv : Type} `{PiHoleServer srv}.
Context (clock : Q).

Definition second : Z := py_int clock.

Definition on_world {A} (m : wprog srv A) : prog (decision_state srv) exn A := λ s,
  let '(r, w) := m (ds_world s) in (r, DecisionState w (ds_preferences s)).

Definition on_db {A} (m : dbprog A) : prog (decision_state srv) exn A :=
  on_world (λ w, let '(r, d) := m (w_db w) in (r, set_db d w)).

Definition on_preferences {A} (m : prog preference_db exn A) : prog (decision_state srv) exn A := λ s,
  let '(r, p) := m (ds_preferences s) in (r, DecisionState (ds_world s) p).

(** [_resolve_open_review_tasks], on the name as it is given *)
Definition _resolve_open_review_tasks (domain decision : string) : dbprog unit :=
  commit (resolve_open_tasks [domain] decision second).

Definition decision_ports : ReviewDecisionPorts (decision_state srv) := {|
  rp_fetch_exact_domains ty := on_world (fetch_exact_domains ty);
  rp_add_exact_domain domain policy comment :=
    on_world (add_exact_domain second domain (policy_value policy) comment false);
  rp_delete_exact_domain domain ty := on_world (delete_exact_domain second domain ty);
  rp_mark_action_applied domain action := on_db (mark_action_applied second domain action);
  rp_staging_remove domains := on_db (staging_remove domains);
  rp_resolve_review domains decision := on_db (review_resolve second domains decision);
  rp_set_review_preference domain never_ask postponed last :=
    on_preferences (set_review_preference second domain never_ask postponed last);
  rp_resolve_open_review_tasks domain decision := on_db (_resolve_open_review_tasks domain decision);
  rp_clock _ := clock
|}.

Definition execute_review_decision (c : ReviewDecisionCommand)
    : prog (decision_state srv) decision_exn ReviewDecisionResult :=
  execute_decision decision_ports c.

Definition apply_review_decision (domain decision : string) (postpone_until : option Z) (comment : string)
    : prog (decision_state srv) decision_exn ReviewDecisionResult :=
  execute_review_decision (mkDecisionCommand domain decision postpone_until comment).
End Wiring.

(** * Frames of the server *)

(** Writing one list leaves the entry of another list alone. *)
Class PiHoleFrame (srv : Type) `{PiHoleServer srv} : Prop := {
  frame_add : ∀ kind ty ty' key c g b s s', ty' ≠ ty → ph_add kind ty key c g b s = Ok s' →
    server_row srv kind ty' key s' = server_row srv kind ty' key s;
  frame_delete : ∀ kind ty ty' key s s', ty' ≠ ty → ph_delete kind ty key s = Ok s' →
    server_row srv kind ty' key s' = server_row srv kind ty' key s
}.

#[export] Instance map_server_frame : PiHoleFrame map_server.
Proof.
  split.
  - intros kind ty ty' key c g b s s' Hne [= <-]. rewrite !map_server_row, lookup_insert_ne; [done|]. by intros [= ?].
  - intros kind ty ty' key s s' Hne. simpl. destruct (s !! _) eqn:E; [|done]. intros [= <-].
    rewrite !map_server_row, lookup_delete_ne; [done|]. by intros [= ?].
Qed.

(** * What a decision does *)

Section Facts.
Context {srv : Type} `{PiHoleServer srv}.
Context (clock : Q).
Implicit Types s : decision_state srv.

Abbreviation ports := (decision_ports (srv := srv) clock).

Definition db_of s : db := w_db (ds_world s).
Definition rule_of (policy domain : string) s : option remote_row :=
  server_row srv "exact_domain" policy domain (w_server (ds_world s)).

Lemma port_ok {A} (m : prog (decision_state srv) exn A) s a s' :
  port m s = (Ok a, s') ↔ m s = (Ok a, s').
Proof. unfold port. destruct (m s) as [[x|e] s1]; split; congruence. Qed.

Lemma exact_rule_exists_ok domain policy s b s' :
  _exact_rule_exists ports domain policy s = (Ok b, s') →
  s' = s ∧ (policy = "allow"%string ∨ policy = "deny"%string) ∧
  b = bool_decide (is_Some (rule_of policy domain s)) .
Proof.
  unfold _exact_rule_exists, mbind, prog_bind, port. simpl. unfold on_world, fetch_exact_domains.
  destruct (String.eqb policy "allow" || String.eqb policy "deny") eqn:Ep; simpl; [|done].
  apply orb_true_iff in Ep. rewrite !String.eqb_eq in Ep. unfold rule_of, server_row.
  destruct (ph_rows "exact_domain" policy (w_server (ds_world s))) as [rows|e]; [|done].
  intros [= <- <-]. split; [by destruct s|]. split; [done|].
  destruct (list_find (λ r, rm_key r = domain) rows) as [[i r]|] eqn:E; simpl.
  - apply list_find_Some in E as (Hi & Hk & _).
    apply existsb_exists. exists r. split; [by eapply list_elem_of_In, list_elem_of_lookup_2|by apply String.eqb_eq].
  - apply list_find_None in E.
    destruct (existsb _ rows) eqn:Ex; [|done]. apply existsb_exists in Ex as (r & Hr & Hk%String.eqb_eq).
    rewrite Forall_forall in E. exfalso. apply (E r); [by apply list_elem_of_In|done].
Qed.

(** ** The store *)

(** The operations a decision performs on the store keep the rest. *)
Lemma on_db_ok {A} (m : dbprog A) s a s' :
  on_db m s = (Ok a, s') → m (db_of s) = (Ok a, db_of s') ∧
    w_server (ds_world s') = w_server (ds_world s) ∧ ds_preferences s' = ds_preferences s.
Proof. unfold on_db, on_world, db_of. destruct (m (w_db (ds_world s))) as [[x|e] d]; by intros [= <- <-]. Qed.

Lemma staging_remove_one n d :
  _normalize_domain n = n → n ≠ ""%string →
  ∃ k, staging_remove [n] d = (Ok k, set_staging (delete n) d).
Proof.
  intros Hn Hne. unfold staging_remove, unique_normalized. rewrite fmap_cons, Hn. simpl.
  rewrite filter_cons_True by (by destruct n). simpl. eexists. reflexivity.
Qed.

(** No open task of a domain. *)
Definition settled (n : string) (d : db) : Prop :=
  ∀ t, t ∈ review_tasks d → tk_domain t = n → tk_status t ≠ "open"%string.

Lemma resolve_open_settles n decision now d :
  settled n (set_tasks ((λ k, if String.eqb (tk_status k) "open" && bool_decide (tk_domain k ∈ [n])
                              then resolve_task decision now k else k) <$> review_tasks d) (last_task_id d) d).
Proof.
  intros t. simpl. intros (k & -> & _)%list_elem_of_fmap.
  destruct (String.eqb (tk_status k) "open") eqn:E; simpl; [|by apply String.eqb_neq in E].
  case_bool_decide as Hin; simpl; [done|]. intros Hk. destruct Hin. by apply list_elem_of_singleton.
Qed.

Lemma mark_applied_ok n decision now d :
  _normalize_domain n = n → n ≠ ""%string → decision = "allow"%string ∨ decision = "deny"%string →
  ∃ d', mark_action_applied now n decision d = (Ok tt, d') ∧ staging_domains d' = staging_domains d ∧
    settled n d' ∧ review d' = alter (applied_review decision now) n (review d).
Proof.
  intros Hn Hne Hd. unfold mark_action_applied. rewrite Hn.
  assert (_normalize_planned_action decision = decision) as -> by (by destruct Hd as [->| ->]).
  destruct (str_nonempty n) eqn:En; [|by destruct n].
  destruct (str_nonempty decision) eqn:Ed; [|by destruct Hd as [->| ->]].
  cbv [commit mbind tx_bind tx_write resolve_open_tasks negb orb]. eexists. split; [reflexivity|].
  split; [done|]. split; [|done]. apply resolve_open_settles.
Qed.

Lemma set_preference_ok now n never_ask postponed last p :
  _normalize_domain n = n → n ≠ ""%string → pd_supported p = true →
  let row := PreferenceRow never_ask postponed (str_lower (str_strip last)) now in
  set_review_preference now n never_ask postponed last p =
    (Ok (n, row), PreferenceDb (<[n := row]> (pd_rows p)) true).
Proof.
  intros Hn Hne Hp row. unfold set_review_preference, review_preference_get. rewrite Hn.
  destruct (str_nonempty n) eqn:En; [|by destruct n]. simpl.
  unfold mbind, prog_bind, with_preferences. rewrite Hp. simpl. unfold preference_lookup, prog_read. rewrite Hn, En.
  assert (<[n := row]> (pd_rows p) !! n = Some row) as Hl by apply lookup_insert_eq.
  cbn [pd_rows pd_supported]. fold row. by rewrite Hl.
Qed.

Lemma set_preference_supported now n never_ask postponed last p a p' :
  set_review_preference now n never_ask postponed last p = (Ok a, p') → pd_supported p = true.
Proof.
  unfold set_review_preference, mbind, prog_bind, with_preferences.
  destruct (negb _); [done|]. by destruct (pd_supported p).
Qed.
End Facts.

(** * Programs that raise only what their ports raise *)

Definition prog_raises {S E A} (R : E → Prop) (m : prog S E A) : Prop :=
  ∀ s, match (m s).1 with Ok _ => True | Err e => R e end.

Section Raises.
Context {S E : Type} (R : E → Prop).

Lemma raises_ret {A} (a : A) : prog_raises R (mret a : prog S E A).
Proof. by intros s. Qed.
Lemma raises_bind {A B} (m : prog S E A) (k : A → prog S E B) :
  prog_raises R m → (∀ a, prog_raises R (k a)) → prog_raises R (m ≫= k).
Proof.
  intros Hm Hk s. unfold mbind, prog_bind. specialize (Hm s). destruct (m s) as [[a|e] s']; [apply Hk|done].
Qed.
End Raises.

Definition from_port (e : decision_exn) : Prop := match e with FromPort _ => True | _ => False end.

Lemma port_raises {S A} (m : prog S exn A) : prog_raises from_port (port m).
Proof. intros s. unfold port. by destruct (m s) as [[a|e] s']. Qed.

Create HintDb ports.
#[export] Hint Resolve raises_ret port_raises : ports.
#[export] Hint Extern 1 (prog_raises _ (_ ≫= _)) => apply raises_bind; [|intros ?] : ports.

(** * Deciding *)

(** A step of a decision that is known to have returned. *)
Ltac step H s1 Hs :=
  match type of H with
  | (?m ≫= ?k) ?s = (Ok ?r, ?s') =>
      unfold mbind at 1, prog_bind at 1 in H; destruct (m s) as [[?x|?x] s1] eqn:Hs; [|discriminate H]
  end.

Section Deciding.
Context {srv : Type} `{PiHoleServer srv} (clock : Q).
Implicit Types s : decision_state srv.

Abbreviation ports := (decision_ports (srv := srv) clock).

(** The row of preferences a decision leaves. *)
Definition decided_preference (selected : string) (postpone_until : option Z) : preference_row :=
  PreferenceRow (String.eqb selected "never_ask")
    (if String.eqb selected "postpone" then postpone_until else None) selected (second clock).

(** What every decision that was applied leaves. *)
Definition decided (n selected : string) (postpone_until : option Z) (r : ReviewDecisionResult) s s' : Prop :=
  staging_domains (db_of s') !! n = None ∧ settled n (db_of s') ∧
  pd_rows (ds_preferences s') =
    <[n := decided_preference selected postpone_until]> (pd_rows (ds_preferences s)) ∧
  dx_domain r = n ∧ dx_decision r = selected ∧ dx_applied r = true.

Lemma settled_staging n f d : settled n (set_staging f d) ↔ settled n d.
Proof. done. Qed.

Lemma finish_ok n never_ask postponed last s a s' :
  _normalize_domain n = n → n ≠ ""%string →
  port (rp_set_review_preference ports n never_ask postponed last) s = (Ok a, s') →
  db_of s' = db_of s ∧ w_server (ds_world s') = w_server (ds_world s) ∧
  pd_rows (ds_preferences s') =
    <[n := PreferenceRow never_ask postponed (str_lower (str_strip last)) (second clock)]> (pd_rows (ds_preferences s)).
Proof.
  intros Hn Hne Hp%port_ok. cbn [rp_set_review_preference decision_ports] in Hp. unfold on_preferences in Hp.
  destruct (set_review_preference _ _ _ _ _ _) as [[x|e] p] eqn:E; [|done]. injection Hp as <- <-.
  pose proof (set_preference_supported _ _ _ _ _ _ _ _ E) as Hs.
  rewrite set_preference_ok in E by done. by injection E as <- <-.
Qed.

Lemma remove_ok n s a s' :
  _normalize_domain n = n → n ≠ ""%string →
  port (rp_staging_remove ports [n]) s = (Ok a, s') →
  db_of s' = set_staging (delete n) (db_of s) ∧ w_server (ds_world s') = w_server (ds_world s) ∧
  ds_preferences s' = ds_preferences s.
Proof.
  intros Hn Hne Hp%port_ok. cbn [rp_staging_remove decision_ports] in Hp. apply on_db_ok in Hp as (Hr & Hw & Hpr).
  destruct (staging_remove_one n (db_of s) Hn Hne) as [k E]. rewrite E in Hr. by injection Hr as _ <-.
Qed.

Lemma resolve_tasks_ok n decision s a s' :
  port (rp_resolve_open_review_tasks ports n decision) s = (Ok a, s') →
  staging_domains (db_of s') = staging_domains (db_of s) ∧ settled n (db_of s') ∧ ds_preferences s' = ds_preferences s.
Proof.
  intros Hp%port_ok. cbn [rp_resolve_open_review_tasks decision_ports] in Hp. apply on_db_ok in Hp as (Hr & _ & Hpr).
  unfold _resolve_open_review_tasks, commit, resolve_open_tasks, tx_write in Hr. injection Hr as _ <-.
  split; [done|]. split; [apply resolve_open_settles|done].
Qed.

Lemma resolve_review_ok n decision s a s' :
  _normalize_domain n = n → n ≠ ""%string →
  port (rp_resolve_review ports [n] decision) s = (Ok a, s') →
  staging_domains (db_of s') = staging_domains (db_of s) ∧ settled n (db_of s') ∧ ds_preferences s' = ds_preferences s.
Proof.
  intros Hn Hne Hp%port_ok. cbn [rp_resolve_review decision_ports] in Hp. apply on_db_ok in Hp as (Hr & _ & Hpr).
  unfold review_resolve, normalized_names in Hr. rewrite fmap_cons, Hn in Hr. simpl in Hr.
  rewrite filter_cons_True in Hr by (by destruct n). simpl in Hr.
  cbv [commit mbind tx_bind tx_read tx_write resolve_open_tasks] in Hr. injection Hr as _ <-.
  split; [done|]. split; [|done]. exact (resolve_open_settles n _ _ (set_review _ (db_of s))).
Qed.

Lemma decide_ignore_ok n s r s' :
  _normalize_domain n = n → n ≠ ""%string →
  decide_ignore ports n "ignore" s = (Ok r, s') → decided n "ignore" None r s s'.
Proof.
  intros Hn Hne. unfold decide_ignore. intros Hr.
  step Hr s1 E1. apply remove_ok in E1 as (Hd1 & _ & Hp1); [|done..].
  step Hr s2 E2. apply resolve_review_ok in E2 as (Hq2 & Ht2 & Hp2); [|done..].
  step Hr s3 E3. apply finish_ok in E3 as (Hd3 & _ & Hp3); [|done..]. injection Hr as <- <-.
  unfold decided. rewrite Hd3, Hq2, Hd1, Hp3, Hp2, Hp1. split_and!; try done. apply lookup_delete_eq.
Qed.

Lemma decide_never_ask_ok n s r s' :
  _normalize_domain n = n → n ≠ ""%string →
  decide_never_ask ports n "never_ask" s = (Ok r, s') → decided n "never_ask" None r s s'.
Proof.
  intros Hn Hne. unfold decide_never_ask. intros Hr.
  step Hr s1 E1. apply remove_ok in E1 as (Hd1 & _ & Hp1); [|done..].
  step Hr s2 E2. apply resolve_tasks_ok in E2 as (Hq2 & Ht2 & Hp2).
  step Hr s3 E3. apply finish_ok in E3 as (Hd3 & _ & Hp3); [|done..]. injection Hr as <- <-.
  unfold decided. rewrite Hd3, Hq2, Hd1, Hp3, Hp2, Hp1. split_and!; try done. apply lookup_delete_eq.
Qed.

Lemma decide_postpone_ok n t s r s' :
  _normalize_domain n = n → n ≠ ""%string →
  decide_postpone ports n "postpone" t s = (Ok r, s') →
  decided n "postpone" t r s s' ∧ ∃ u, t = Some u ∧ second clock < u.
Proof.
  intros Hn Hne. unfold decide_postpone. intros Hr. destruct t as [u|]; [|discriminate Hr].
  step Hr s0 E0. injection E0 as <- <-. cbn [rp_clock decision_ports] in Hr.
  destruct (u <=? py_int clock) eqn:Eu; [discriminate Hr|]. apply Z.leb_gt in Eu.
  step Hr s1 E1. apply remove_ok in E1 as (Hd1 & _ & Hp1); [|done..].
  step Hr s2 E2. apply resolve_tasks_ok in E2 as (Hq2 & Ht2 & Hp2).
  step Hr s3 E3. apply finish_ok in E3 as (Hd3 & _ & Hp3); [|done..]. injection Hr as <- <-.
  split; [|by exists u]. unfold decided. rewrite Hd3, Hq2, Hd1, Hp3, Hp2, Hp1.
  split_and!; try done. apply lookup_delete_eq.
Qed.
End Deciding.

(** * Allow and deny *)

Section PolicyDecision.
Context {srv : Type} `{PiHoleServer srv} {L : PiHoleLaws srv} {F : PiHoleFrame srv} (clock : Q).
Implicit Types s : decision_state srv.
Implicit Types w : world srv.

Abbreviation ports := (decision_ports (srv := srv) clock).

Definition opposite_of (decision : string) : string :=
  (if String.eqb decision "allow" then "deny" else "allow")%string.

Lemma add_exact_ok now domain policy comment override w w' :
  add_exact_domain now domain policy comment override w = (Ok tt, w') →
  w_db w' = w_db w ∧
  ph_add "exact_domain" policy domain (text_or_none comment) [] true (w_server w) = Ok (w_server w').
Proof.
  intros Ha. destruct (add_exact_domain_cases now domain policy comment override w) as [[e E]|(E & _)];
    rewrite E in Ha; [done|].
  pose proof (add_resource_db now "exact_domain" policy domain comment None true w) as Hd.
  destruct (add_resource_server now "exact_domain" policy domain comment None true w) as [[_ Hs]|[e He]];
    [|by rewrite He in Ha]. rewrite Ha in Hd, Hs. done.
Qed.

Lemma delete_resource_ok now kind ty key w w' :
  delete_resource now kind ty key w = (Ok tt, w') →
  w_db w' = w_db w ∧ ph_delete kind ty key (w_server w) = Ok (w_server w').
Proof.
  unfold delete_resource, mbind, prog_bind, prog_read, remote. destruct (ph_delete _ _ _ _) as [sv|e]; [|done].
  unfold record_pihole_change. destruct (negb _); simpl; [by intros [= <-]|].
  destruct (w_instance w) as [[x y] z]. destruct (w_audit_ok w); by intros [= <-].
Qed.

Lemma delete_exact_ok now domain ty w w' :
  delete_exact_domain now domain ty w = (Ok tt, w') →
  w_db w' = w_db w ∧ ph_delete "exact_domain" ty domain (w_server w) = Ok (w_server w').
Proof.
  unfold delete_exact_domain, mbind, prog_bind, prog_read. destruct (negb _); [done|].
  destruct (get_domain_lock domain (w_db w)) as [l|]; [|apply delete_resource_ok].
  destruct (String.eqb _ _); [done|apply delete_resource_ok].
Qed.

(** A port that changes the world and neither the store nor the preferences. *)
Lemma on_world_ok (m : wprog srv unit) s s' :
  port (on_world m) s = (Ok tt, s') → m (ds_world s) = (Ok tt, ds_world s') ∧ ds_preferences s' = ds_preferences s.
Proof.
  intros Hp%port_ok. unfold on_world in Hp. destruct (m (ds_world s)) as [[[]|e] w] eqn:E; [|done].
  by injection Hp as <-.
Qed.

Lemma desired_step n decision comment (desired : bool) s s1 :
  desired = bool_decide (is_Some (rule_of decision n s)) →
  (if desired then mret tt else port (on_world (add_exact_domain (second clock) n decision comment false))) s =
    (Ok tt, s1) →
  db_of s1 = db_of s ∧ ds_preferences s1 = ds_preferences s ∧ is_Some (rule_of decision n s1) ∧
  ∀ ty, ty ≠ decision → rule_of ty n s1 = rule_of ty n s.
Proof using L F.
  intros Hd. destruct desired.
  - intros [= <-]. symmetry in Hd. apply bool_decide_eq_true in Hd. done.
  - intros (Ha & Hp)%on_world_ok. apply add_exact_ok in Ha as [Hdb Hs]. split_and!; try done.
    + destruct (law_add srv _ _ _ _ _ _ _ _ Hs) as (r & Hr & _). by exists r.
    + intros ty Hty. by apply (frame_add _ _ _ _ _ _ _ _ _ Hty Hs).
Qed.

Lemma opposite_step n opposite (exists_ : bool) s s1 :
  exists_ = bool_decide (is_Some (rule_of opposite n s)) →
  (if exists_ then port (on_world (delete_exact_domain (second clock) n opposite)) else mret tt) s = (Ok tt, s1) →
  db_of s1 = db_of s ∧ ds_preferences s1 = ds_preferences s ∧ rule_of opposite n s1 = None ∧
  ∀ ty, ty ≠ opposite → rule_of ty n s1 = rule_of ty n s.
Proof using L F.
  intros Hd. destruct exists_.
  - intros (Ha & Hp)%on_world_ok. apply delete_exact_ok in Ha as [Hdb Hs]. split_and!; try done.
    + by apply (law_delete srv _ _ _ _ _ Hs).
    + intros ty Hty. by apply (frame_delete _ _ _ _ _ _ Hty Hs).
  - intros [= <-]. symmetry in Hd. apply bool_decide_eq_false in Hd. split_and!; try done.
    destruct (rule_of opposite n s) as [r|]; [|done]. by destruct Hd.
Qed.

Lemma mark_step n decision s a s' :
  _normalize_domain n = n → n ≠ ""%string → decision = "allow"%string ∨ decision = "deny"%string →
  port (rp_mark_action_applied ports n decision) s = (Ok a, s') →
  staging_domains (db_of s') = staging_domains (db_of s) ∧ settled n (db_of s') ∧
  review (db_of s') = alter (applied_review decision (second clock)) n (review (db_of s)) ∧
  w_server (ds_world s') = w_server (ds_world s) ∧ ds_preferences s' = ds_preferences s.
Proof.
  intros Hn Hne Hdec Hp%port_ok. cbn [rp_mark_action_applied decision_ports] in Hp.
  apply on_db_ok in Hp as (Hr & Hw & Hpr).
  destruct (mark_applied_ok n decision (second clock) (db_of s) Hn Hne Hdec) as (d' & E & Hq & Hs & Hrev).
  rewrite E in Hr. injection Hr as _ <-. done.
Qed.

Lemma decide_policy_ok n decision comment s r s' :
  _normalize_domain n = n → n ≠ ""%string → decision = "allow"%string ∨ decision = "deny"%string →
  decide_policy ports n decision comment s = (Ok r, s') →
  decided clock n decision None r s s' ∧
  review (db_of s') = alter (applied_review decision (second clock)) n (review (db_of s)) ∧
  is_Some (rule_of decision n s') ∧ rule_of (opposite_of decision) n s' = None.
Proof using L F.
  intros Hn Hne Hdec. unfold decide_policy. intros Hr.
  assert (policy_value (if String.eqb decision "allow" then ALLOW else DENY) = decision) as Hpol
    by (by destruct Hdec as [->| ->]).
  assert (opposite_of decision ≠ decision) as Hop by (by destruct Hdec as [->| ->]).
  step Hr s1 E1. apply exact_rule_exists_ok in E1 as (-> & _ & H1).
  step Hr s2 E2. apply exact_rule_exists_ok in E2 as (-> & _ & H2).
  step Hr s3 E3. cbn [rp_add_exact_domain decision_ports] in E3. rewrite Hpol in E3. destruct x1.
  apply (desired_step n decision) in E3 as (Hd3 & Hp3 & Hs3 & Hf3); [|done].
  step Hr s4 E4. destruct x1. cbn [rp_delete_exact_domain decision_ports] in E4.
  apply (opposite_step n (opposite_of decision)) in E4 as (Hd4 & Hp4 & Hs4 & Hf4); [|by rewrite (Hf3 _ Hop)].
  step Hr s5 E5. apply mark_step in E5 as (Hq5 & Ht5 & Hr5 & Hw5 & Hp5); [|done..].
  step Hr s6 E6. apply remove_ok in E6 as (Hd6 & Hw6 & Hp6); [|done..].
  step Hr s7 E7. apply finish_ok in E7 as (Hd7 & Hw7 & Hp7); [|done..]. injection Hr as <- <-.
  assert (∀ ty, rule_of ty n s7 = rule_of ty n s4) as Hrule by (intros ty; unfold rule_of; by rewrite Hw7, Hw6, Hw5).
  split; [|split_and!].
  - unfold decided, decided_preference. rewrite Hd7, Hd6, Hp7, Hp6, Hp5, Hp4, Hp3. split_and!; try done.
    + apply lookup_delete_eq.
    + by destruct Hdec as [->| ->].
  - by rewrite Hd7, Hd6, <-Hd3, <-Hd4.
  - by rewrite Hrule, Hf4.
  - by rewrite Hrule.
Qed.
End PolicyDecision.

(** * Properties *)

Section DecisionProperties.
Context {srv : Type} `{PiHoleServer srv} (clock : Q).
Implicit Types s : decision_state srv.

Definition named (c : ReviewDecisionCommand) : string := _normalize_domain (dc_domain c).
Definition selected (c : ReviewDecisionCommand) : string := str_lower (str_strip (dc_decision c)).

Lemma execute_ok c s r s' :
  execute_review_decision clock c s = (Ok r, s') →
  named c ≠ ""%string ∧ selected c ∈ VALID_REVIEW_DECISIONS ∧
  _execute_validated (decision_ports clock) (named c) (selected c) (dc_postpone_until c) (dc_comment c) s = (Ok r, s').
Proof.
  unfold execute_review_decision, execute_decision. fold (named c). fold (selected c).
  destruct (str_nonempty (named c)) eqn:E; [|done]. simpl. case_bool_decide as Hs; [|done]. simpl.
  destruct (_execute_validated _ _ _ _ _ s) as [[x|e] s1]; [|done]. intros [= <- <-]. split; [|done].
  intros Hn. by rewrite Hn in E.
Qed.

Lemma decide_policy_raises domain decision comment :
  prog_raises from_port (decide_policy (decision_ports (srv := srv) clock) domain decision comment).
Proof.
  assert (∀ p, prog_raises from_port (_exact_rule_exists (decision_ports (srv := srv) clock) domain p)) as He
    by (intros p; unfold _exact_rule_exists; eauto with ports).
  unfold decide_policy. apply raises_bind; [apply He|intros b1]. apply raises_bind; [apply He|intros b2].
  destruct b1, b2; eauto 20 with ports.
Qed.

Lemma unchanged_when_invalid c s e s' :
  execute_review_decision clock c s = (Err e, s') → (∃ m, e = InvalidReviewDecision m) → s' = s.
Proof.
  unfold execute_review_decision, execute_decision. destruct (negb (str_nonempty _)); [by intros [= _ <-]|].
  destruct (negb (bool_decide _)); [by intros [= _ <-]|]. intros Hr [m ->].
  assert (∀ (p : prog (decision_state srv) decision_exn ReviewDecisionResult), prog_raises from_port p →
    match p s with (Ok r, s1) => (Ok r, s1) | (Err e, s1) => (Err (runtime_as_conflict e), s1) end
      = (Err (InvalidReviewDecision m), s') → s' = s) as Hport.
  { intros p Hp Hx. specialize (Hp s). destruct (p s) as [[x|[m1|m1|x]] s1]; simpl in *; try done.
    destruct x; discriminate Hx. }
  unfold _execute_validated in Hr. destruct (_ || _); [by eapply Hport, Hr; apply decide_policy_raises|].
  destruct (String.eqb _ "ignore"); [eapply Hport, Hr; unfold decide_ignore; eauto 10 with ports|].
  destruct (String.eqb _ "postpone"); [|eapply Hport, Hr; unfold decide_never_ask; eauto 10 with ports].
  unfold decide_postpone in Hr. destruct (dc_postpone_until c) as [u|]; [|by injection Hr].
  unfold mbind at 1, prog_bind at 1, prog_read in Hr. destruct (u <=? _); [by injection Hr|].
  eapply Hport, Hr. eauto 10 with ports.
Qed.

Lemma execute_decided c s r s' :
  PiHoleLaws srv → PiHoleFrame srv → _normalize_domain (named c) = named c →
  execute_review_decision clock c s = (Ok r, s') →
  decided clock (named c) (selected c) (dc_postpone_until c) r s s' ∧
  (selected c = "postpone"%string → ∃ u, dc_postpone_until c = Some u ∧ second clock < u).
Proof.
  intros HL HF Hn (Hne & Hsel & Hr)%execute_ok. unfold _execute_validated in Hr.
  assert (∀ d, d = "allow"%string ∨ d = "deny"%string → decided_preference clock d (dc_postpone_until c) = decided_preference clock d None)
    as Hpref by (by intros d [->| ->]).
  unfold VALID_REVIEW_DECISIONS in Hsel.
  repeat (apply elem_of_cons in Hsel as [Hsel|Hsel]); [..|by apply not_elem_of_nil in Hsel]; rewrite Hsel in *; simpl in Hr.
  - apply decide_policy_ok in Hr as [Hd _]; [|done|done|by left]. split; [|done].
    unfold decided in *. by rewrite Hpref by by left.
  - apply decide_policy_ok in Hr as [Hd _]; [|done|done|by right]. split; [|done].
    unfold decided in *. by rewrite Hpref by by right.
  - apply decide_postpone_ok in Hr; [|done..]. by destruct Hr.
  - by apply decide_ignore_ok in Hr.
  - by apply decide_never_ask_ok in Hr.
Qed.

(** A decision that is rejected as invalid (no domain, an unknown decision, a
    postponement without a time or to a time that has passed) changes nothing:
    neither Pi-hole nor the queue, the reviews, the tasks or the preferences. *)
Theorem rejected_decision_changes_nothing c s m s' :
  execute_review_decision clock c s = (Err (InvalidReviewDecision m), s') → s' = s.
Proof. intros Hr. eapply unchanged_when_invalid; eauto. Qed.

(** C32: Every decision that was applied to a domain whose name is its own
    normal form settles it: it leaves the queue, no review task on it stays
    open, and its preference becomes the one the decision asks for and no other
    preference changes; from then on a review of the domain is blocked exactly
    when the decision was to never ask, or, until the given time, to postpone.
    The Pi-hole is taken to store what it is told to. (A decision on 'a. .'
    leaves the row 'a. ' queued and stores the preference under 'a'.) *)
Theorem decision_settles_the_domain c s r s' :
  PiHoleLaws srv → PiHoleFrame srv → _normalize_domain (named c) = named c →
  execute_review_decision clock c s = (Ok r, s') →
  staging_domains (db_of s') !! named c = None ∧ settled (named c) (db_of s') ∧
  (∀ k, k ≠ named c → pd_rows (ds_preferences s') !! k = pd_rows (ds_preferences s) !! k) ∧
  ∃ row, pd_rows (ds_preferences s') !! named c = Some row ∧
    ∀ now, blocks now row = true ↔
      selected c = "never_ask"%string ∨
      selected c = "postpone"%string ∧ ∃ u, dc_postpone_until c = Some u ∧ now < u.
Proof.
  intros HL HF Hn Hr. destruct (execute_decided c s r s' HL HF Hn Hr) as [(Hq & Ht & Hp & _) Hpost].
  split; [done|]. split; [done|]. rewrite Hp. split; [by intros k Hk; rewrite lookup_insert_ne|].
  eexists. split; [apply lookup_insert_eq|]. intros now. unfold blocks, decided_preference. simpl.
  rewrite orb_true_iff, String.eqb_eq. destruct (String.eqb (selected c) "postpone") eqn:E.
  - apply String.eqb_eq in E. destruct (Hpost E) as (u & -> & _). rewrite Z.ltb_lt.
    split; [intros [?|?]; eauto|]. intros [?|(_ & v & [= <-] & ?)]; auto.
  - apply String.eqb_neq in E. split; [intros [?|?]; by auto|]. intros [?|[? _]]; [by left|done].
Qed.

(** An allow or deny decision that was applied is in force: Pi-hole has the
    domain in the chosen list and not in the opposite one, and the review of
    the domain, if there is one, records the action as applied and asks for no
    review any more. *)
Theorem policy_decision_takes_effect c s r s' :
  PiHoleLaws srv → PiHoleFrame srv → _normalize_domain (named c) = named c →
  selected c = "allow"%string ∨ selected c = "deny"%string →
  execute_review_decision clock c s = (Ok r, s') →
  is_Some (rule_of (selected c) (named c) s') ∧ rule_of (opposite_of (selected c)) (named c) s' = None ∧
  ∀ k, review (db_of s') !! k =
    if decide (k = named c) then applied_review (selected c) (second clock) <$> review (db_of s) !! k
    else review (db_of s) !! k.
Proof.
  intros HL HF Hn Hsel (Hne & _ & Hr)%execute_ok. unfold _execute_validated in Hr.
  assert ((selected c =? "allow")%string || (selected c =? "deny")%string = true) as Hb
    by (by destruct Hsel as [->| ->]).
  rewrite Hb in Hr. apply decide_policy_ok in Hr as (_ & Hrev & Hin & Hout); [|done..].
  split; [done|]. split; [done|]. intros k. rewrite Hrev. case_decide as Hk.
  - subst k. by rewrite lookup_alter_eq.
  - by rewrite lookup_alter_ne.
Qed.
End DecisionProperties.

(** * Witnesses *)

(** A domain that was queued, is blocked in Pi-hole and has an open task. *)
Definition dx_db : db :=
  (create_review_task 90 "shop.example" "why" PRIO_NORMAL "policy"
    (staging_enqueue [] 80 ["shop.example"]%string 50 "live" "background" db_empty).2).2.
Definition dx_state : decision_state map_server :=
  DecisionState
    (set_db dx_db (ex_world {[("exact_domain", "deny", "shop.example")%string := (""%string, [], true)]}))
    (PreferenceDb ∅ true).
Definition dx_run (decision : string) (until : option Z) :=
  execute_review_decision (100 # 1) (mkDecisionCommand " Shop.Example." decision until "") dx_state.

Lemma rejected_decision_changes_nothing_witness :
  ∃ m s', dx_run "postpone" (Some 100) = (Err (InvalidReviewDecision m), s') ∧ s' = dx_state.
Proof.
  assert ((dx_run "postpone" (Some 100)).1 = Err (InvalidReviewDecision "postpone_until must be in the future")) as E1
    by (vm_compute; reflexivity).
  destruct (dx_run "postpone" (Some 100)) as [r s'] eqn:E. cbn [fst] in E1. subst r.
  exists "postpone_until must be in the future"%string, s'. split; [reflexivity|].
  exact (rejected_decision_changes_nothing _ _ _ _ _ E).
Defined.

Lemma decision_settles_the_domain_witness :
  ∃ r s', dx_run "postpone" (Some 500) = (Ok r, s') ∧ staging_domains dx_db !! "shop.example"%string ≠ None ∧
    staging_domains (db_of s') !! "shop.example"%string = None ∧ settled "shop.example" (db_of s').
Proof.
  assert (∃ r, (dx_run "postpone" (Some 500)).1 = Ok r) as [r E1] by (vm_compute; eexists; reflexivity).
  destruct (dx_run "postpone" (Some 500)) as [x s'] eqn:E. cbn [fst] in E1. subst x.
  exists r, s'. split; [reflexivity|]. split; [vm_compute; discriminate|].
  destruct (decision_settles_the_domain (100 # 1) (mkDecisionCommand " Shop.Example." "postpone" (Some 500) "") dx_state r s'
    map_server_laws map_server_frame) as (Hq & Ht & _); [vm_compute; reflexivity|exact E|]. split; [exact Hq|exact Ht].
Defined.

Lemma policy_decision_takes_effect_witness :
  ∃ r s', dx_run "Allow" None = (Ok r, s') ∧ is_Some (rule_of "allow" "shop.example" s') ∧
    rule_of "deny" "shop.example" s' = None ∧ rule_of "deny" "shop.example" dx_state ≠ None.
Proof.
  assert (∃ r, (dx_run "Allow" None).1 = Ok r) as [r E1] by (vm_compute; eexists; reflexivity).
  destruct (dx_run "Allow" None) as [x s'] eqn:E. cbn [fst] in E1. subst x.
  exists r, s'. split; [reflexivity|].
  destruct (policy_decision_takes_effect (100 # 1) (mkDecisionCommand " Shop.Example." "Allow" None "") dx_state r s'
    map_server_laws map_server_frame) as (Hin & Hout & _); [vm_compute; reflexivity|left; vm_compute; reflexivity|exact E|].
  split; [exact Hin|]. split; [exact Hout|]. vm_compute. discriminate.
Defined.
