(* ===== verification/Trigger.v ===== *)
(** [pihole_manager/external_trigger.py], [webapp.py] and [network_access.py]:
    the HTTP endpoint through which other programs and the review web
    application queue domains, read reviews and decide them, with its guards:
    the networks a client may come from, the bearer token, the bounds of a
    request.

    A request is answered by a program over the state [S] behind the callbacks;
    the callbacks of the endpoint are a record of ports, wired to the queue and
    to the decision service further down.  An exception the handler does not
    catch ends the connection without an answer: [Uncaught]. *)
From stdpp Require Import base gmap strings list pretty.
From Stdlib Require Import Ascii QArith.
From S2P Require Import Prelude HttpRetry Json JsonText Net Models Options Database Queue PiHole Decisions.
Open Scope Z_scope.

(** * Static files *)

Record WebAsset := mkWebAsset { wa_content : string; wa_content_type : string; wa_cache_control : string }.

Definition _ROUTES : list (string * (string * string * string)) :=
  [("/app/", ("index.html", "text/html; charset=utf-8", "no-cache"));
   ("/app/app.css", ("app.css", "text/css; charset=utf-8", "public, max-age=3600"));
   ("/app/app.js", ("app.js", "text/javascript; charset=utf-8", "public, max-age=3600"));
   ("/app/icon.svg", ("icon.svg", "image/svg+xml", "public, max-age=86400"));
   ("/manifest.webmanifest", ("manifest.webmanifest", "application/manifest+json; charset=utf-8", "public, max-age=3600"));
   ("/sw.js", ("sw.js", "text/javascript; charset=utf-8", "no-cache"))]%string.

(** [read_file] reads a file of the package; [None] is [OSError]. *)
Definition get_web_asset (read_file : string → option string) (path : string) : option WebAsset :=
  '(filename, content_type, cache_control) ← dict_get path _ROUTES;
  content ← read_file filename;
  Some (mkWebAsset content content_type cache_control).

(** * Who may ask *)

Definition ACCESS_MODES : list string := ["local"; "lan"; "tailscale"; "lan_tailscale"; "any"]%string.

Definition _LAN_NETWORKS : list network :=
  [Network (IPv4 (10 * 2 ^ 24)) 8; Network (IPv4 (172 * 2 ^ 24 + 16 * 2 ^ 16)) 12;
   Network (IPv4 (192 * 2 ^ 24 + 168 * 2 ^ 16)) 16; Network (IPv6 (64512 * 2 ^ 112)) 7; Network (IPv6 (65152 * 2 ^ 112)) 10].
Definition _TAILSCALE_NETWORKS : list network :=
  [Network (IPv4 (100 * 2 ^ 24 + 64 * 2 ^ 16)) 10;
   Network (IPv6 (64890 * 2 ^ 112 + 4444 * 2 ^ 96 + 41440 * 2 ^ 80)) 48].

Definition in_networks (a : ip) (l : list network) : bool := existsb (in_network a) l.

Section Access.
Context `{PyRepr}.

Definition normalize_access_mode (value : option json) (legacy_remote : bool) : string :=
  let mode := str_lower (str_strip (py_str_or value "")) in
  if bool_decide (mode ∈ ACCESS_MODES) then mode else if legacy_remote then "any"%string else "local"%string.

(** The file with the access mode. *)
Inductive access_file := AccessAbsent | AccessUnreadable | AccessText (payload : string).

(** [None]: the text is not UTF-8, which is not among the caught errors. *)
Definition load_review_access_options (file : access_file) (legacy_remote : bool) : option string :=
  let fallback := (if legacy_remote then "any" else "local")%string in
  match file with
  | AccessAbsent | AccessUnreadable => Some fallback
  | AccessText payload =>
      if negb (is_utf8 payload) then None
      else Some (match json_loads payload with
                 | Some (JObject raw) => normalize_access_mode (dict_get "mode" raw) legacy_remote
                 | _ => fallback
                 end)
  end.

(** What [save_review_access_options] writes, and returns. *)
Definition save_review_access_options (float_repr : Q → string) (mode : string) : string * access_file :=
  let normalized := normalize_access_mode (Some (JString mode)) false in
  (normalized,
   AccessText (json_dumps float_repr indented_style (JObject [("version", JInt 1); ("mode", JString normalized)]%string)
               +:+ newline)%string).

Definition client_access_allowed (address mode : string) : bool :=
  match ip_address (str_cut "%"%char address).1 with
  | None => false
  | Some ip =>
      let normalized_mode := normalize_access_mode (Some (JString mode)) false in
      if is_loopback ip then true
      else if String.eqb normalized_mode "any" then true
      else if bool_decide (normalized_mode ∈ ["lan"; "lan_tailscale"]%string) && in_networks ip _LAN_NETWORKS then true
      else bool_decide (normalized_mode ∈ ["tailscale"; "lan_tailscale"]%string) && in_networks ip _TAILSCALE_NETWORKS
  end.

Definition _is_loopback_host (host : string) : bool :=
  let normalized := str_lower (str_strip host) in
  if String.eqb normalized "localhost" then true
  else match ip_address normalized with Some a => is_loopback a | None => false end.
End Access.

(** * Requests and answers *)

Inductive http_method := GET | POST.

(** A request: the body holds the bytes that arrive, [rq_closed] says whether
    the client closes the connection after them. *)
Record http_request := mkRequest {
  rq_method : http_method;
  rq_client : string;
  rq_target : string;
  rq_authorization : option string;
  rq_content_length : option string;
  rq_body : string;
  rq_closed : bool
}.

Inductive http_body := JsonBody (payload : json) | AssetBody (asset : WebAsset) | RedirectTo (location : string).
Record http_answer := mkAnswer { an_status : Z; an_body : http_body }.

(** How a handler ends early: with an answer, or with an exception. *)
Inductive handler_exit := Answered (answer : http_answer) | Uncaught (e : string).

(** [json.dumps(...).encode("utf-8")] does not raise: no lone surrogates. *)
Fixpoint encodable (v : json) : bool :=
  match v with
  | JString s => is_utf8 s
  | JArray l => forallb encodable l
  | JObject f => forallb (λ p, is_utf8 p.1 && encodable p.2) f
  | JNull | JBool _ | JInt _ | JFloat _ => true
  end.

Definition error_body (message : string) : json := JObject [("error", JString message)]%string.

Definition _MAX_BODY_BYTES : Z := 64 * 1024.
Definition _API_VERSION : Z := 1.

Definition _REVIEW_API_FIELDS : list string :=
  ["domain"; "tags"; "categories"; "policy"; "short"; "details"; "provider"; "status"; "service"; "service_role";
   "privacy_risk"; "security_risk"; "breakage_risk"; "confidence"; "needs_review"; "review_reason"; "planned_action";
   "action_status"; "locked"; "queue_source"; "queue_state"; "queue_error"; "queue_priority"; "queue_created_at";
   "updated_at"]%string.

Abbreviation fields := (list (string * json)).

Definition _serialize_review (row : fields) : fields :=
  let payload := omap (λ field, (λ v, (field, v)) <$> dict_get field row) _REVIEW_API_FIELDS in
  let payload :=
    match dict_get "tags" payload, dict_get "categories" payload with
    | None, Some categories => dict_set "tags" (match categories with JArray l => JArray l | _ => JArray [] end) payload
    | _, _ => payload
    end in
  dict_pop "categories" payload.

Definition endpoint_domain (s : string) : string := rstrip is_dot (str_lower (str_strip s)).

Definition _lookup_review `{PyRepr} (domain : string) (rows : list fields) : option fields :=
  let normalized := rstrip is_dot (str_lower (str_strip domain)) in
  snd <$> list_find (λ row, rstrip is_dot (str_lower (py_str_or (dict_get "domain" row) "")) = normalized) rows.

(** * The handler *)

(** What the queue callback returns: a dataclass or a dict, as its fields, or
    another value. *)
Inductive queue_result := QueueFields (f : fields) | QueueValue (v : json).

Record trigger_ports (S : Type) := mkTriggerPorts {
  tp_queue : list string → prog S exn queue_result;
  tp_cancel : prog S exn Z;
  tp_recheck : Z → prog S exn Z;
  tp_review_queue : Z → prog S exn (list fields);
  tp_review_lookup : string → prog S exn (option fields);
  tp_decision : string → string → option Z → prog S exn json
}.
Arguments tp_queue {S}.
Arguments tp_cancel {S}.
Arguments tp_recheck {S}.
Arguments tp_review_queue {S}.
Arguments tp_review_lookup {S}.
Arguments tp_decision {S}.

Definition exn_name (e : exn) : string :=
  match e with
  | ValueError _ => "ValueError"
  | RuntimeError _ => "RuntimeError"
  | IntegrityError _ => "IntegrityError"
  | InvalidManagedRule _ => "InvalidManagedRule"
  | ManagedRuleConflict _ => "ManagedRuleConflict"
  | OtherError msg => msg
  end.

Definition conversion_name (e : conversion_exn) : string :=
  match e with
  | ConversionTypeError => "TypeError"
  | ConversionValueError => "ValueError"
  | ConversionOverflowError => "OverflowError"
  end.

(** The server the handler belongs to: its stripped token, the bound on domains
    and the networks its clients may come from. *)
Record endpoint := mkEndpoint { ep_token : string; ep_max_domains : Z; ep_access_mode : string }.

Section Handler.
Context {S : Type} `{PyRepr} (ports : trigger_ports S).
(** The checks of [urlsplit] on a network location, and the packaged files. *)
Context (netloc_ok : string → bool) (read_file : string → option string).
Context (ep : endpoint) (rq : http_request).

Abbreviation hprog := (prog S handler_exit).

Definition uncaught {A} (e : string) : hprog A := prog_raise (Uncaught e).
Definition answer {A} (a : http_answer) : hprog A := prog_raise (Answered a).

Definition _send_json {A} (status : Z) (payload : json) : hprog A :=
  if encodable payload then answer (mkAnswer status (JsonBody payload)) else uncaught "UnicodeEncodeError".

Definition call {A} (m : prog S exn A) : hprog A := λ s,
  match m s with
  | (Ok a, s') => (Ok a, s')
  | (Err e, s') => (Err (Uncaught (exn_name e)), s')
  end.

(** [hmac.compare_digest] refuses texts that are not ASCII. *)
Definition _authorized : hprog bool :=
  let expected := ("Bearer " +:+ ep_token ep)%string in
  let supplied := default ""%string (rq_authorization rq) in
  if is_ascii supplied && is_ascii expected then mret (String.eqb supplied expected) else uncaught "TypeError".

Definition _require_auth : hprog unit :=
  authorized ← _authorized;
  if (authorized : bool) then mret tt else _send_json 401 (error_body "unauthorized").

(** The bytes [rfile.read(length)] returns: it waits, ten seconds at most, for
    all of them or the end of the connection. *)
Definition read_body (length : Z) : hprog string :=
  if (length <=? Z.of_nat (String.length (rq_body rq))) || rq_closed rq
  then mret (str_take (Z.to_nat length) (rq_body rq))
  else uncaught "TimeoutError".

Definition _read_json : hprog fields :=
  let length := default 0 (py_int_text (default "0"%string (rq_content_length rq))) in
  if (length <=? 0) || (_MAX_BODY_BYTES <? length) then _send_json 400 (error_body "invalid_request_body")
  else
    payload ← read_body length;
    match (if is_utf8 payload then json_loads payload else None) with
    | Some (JObject f) => mret f
    | _ => _send_json 400 (error_body "invalid_json")
    end.

(** The limit of the query string, between 1 and the bound of the server. *)
Definition query_limit (fallback : Z) (query : string) : Z :=
  let requested := match query_first "limit" query with
                   | Some text => default fallback (py_int_text text)
                   | None => fallback
                   end in
  Z.min (ep_max_domains ep) (Z.max 1 requested).

Definition status_body : json :=
  JObject [("status", JString "ok"); ("api_version", JInt _API_VERSION); ("service", JString "wormhole-observatory");
           ("capabilities", JArray (JString <$> ["review_queue"; "review_lookup"; "queue_review"; "queue_rechecks";
                                                 "cancel_jobs"; "review_pwa"; "review_decisions"]))]%string.

Definition get_reviews (query : string) : hprog http_answer :=
  let limit := query_limit 200 query in
  rows ← call (tp_review_queue ports limit);
  let items := _serialize_review <$> take (Z.to_nat limit) rows in
  _send_json 200 (JObject [("items", JArray (JObject <$> items)); ("count", JInt (Z.of_nat (length items)));
                           ("limit", JInt limit)]%string).

Definition get_review (encoded : string) : hprog http_answer :=
  let domain := endpoint_domain (unquote encoded) in
  if negb (str_nonempty domain) || str_contains "/" domain then _send_json 400 (error_body "invalid_domain")
  else
    row ← call (tp_review_lookup ports domain);
    match row with
    | None => _send_json 404 (error_body "review_not_found")
    | Some row => _send_json 200 (JObject [("item", JObject (_serialize_review row))]%string)
    end.

Definition after (prefix path : string) : string :=
  String.substring (String.length prefix) (String.length path - String.length prefix) path.

Definition do_GET : hprog http_answer :=
  match urlsplit netloc_ok (rq_target rq) with
  | None => uncaught "ValueError"
  | Some (path, query) =>
      if bool_decide (path ∈ ["/"; "/app"]%string) then answer (mkAnswer 307 (RedirectTo "/app/"))
      else
        match get_web_asset read_file path with
        | Some asset => answer (mkAnswer 200 (AssetBody asset))
        | None =>
            _ ← _require_auth;
            if String.eqb path "/health" then _send_json 200 (JObject [("status", JString "ok")]%string)
            else if String.eqb path "/v1/status" then _send_json 200 status_body
            else if String.eqb path "/v1/reviews" then get_reviews query
            else if str_startswith path "/v1/reviews/" then get_review (after "/v1/reviews/" path)
            else _send_json 404 (error_body "not_found")
        end
  end.

Definition is_value_error (e : exn) : bool := match e with ValueError _ | InvalidManagedRule _ => true | _ => false end.
Definition is_runtime_error (e : exn) : bool := match e with RuntimeError _ | ManagedRuleConflict _ => true | _ => false end.
Definition exn_text (e : exn) : string :=
  match e with
  | ValueError m | RuntimeError m | IntegrityError m | InvalidManagedRule m | ManagedRuleConflict m | OtherError m => m
  end.

Definition message_body (error message : string) : json :=
  JObject [("error", JString error); ("message", JString message)]%string.

(** [int(raw_postpone)] *)
Definition postpone_of (payload : fields) : hprog (option Z) :=
  match default JNull (dict_get "postpone_until" payload) with
  | JNull => mret None
  | raw => match py_int_of raw with
           | Ok z => mret (Some z)
           | Err ConversionOverflowError => uncaught "OverflowError"
           | Err _ => _send_json 400 (error_body "invalid_postpone_until")
           end
  end.

Definition decide (domain decision : string) (postpone_until : option Z) : hprog json := λ s,
  match tp_decision ports domain decision postpone_until s with
  | (Ok r, s') => (Ok r, s')
  | (Err e, s') =>
      if is_value_error e then _send_json 400 (message_body "invalid_decision" (exn_text e)) s'
      else if is_runtime_error e then _send_json 409 (message_body "decision_conflict" (exn_text e)) s'
      else uncaught (exn_name e) s'
  end.

Definition decision_suffix : string := "/decision".
(** [path[len(prefix) : -len(suffix)]] *)
Definition decision_domain (path : string) : string :=
  String.substring (String.length "/v1/reviews/")
    (String.length path - String.length decision_suffix - String.length "/v1/reviews/") path.

Definition post_decision (path : string) : hprog http_answer :=
  let domain := endpoint_domain (unquote (decision_domain path)) in
  if negb (str_nonempty domain) || str_contains "/" domain then _send_json 400 (error_body "invalid_domain")
  else
    payload ← _read_json;
    let decision := str_lower (str_strip (py_str_or (dict_get "decision" payload) "")) in
    postpone_until ← postpone_of payload;
    result ← decide domain decision postpone_until;
    _send_json 200 (JObject [("result", result)]%string).

(** The names of a request, normalised, the first of each kept. *)
Definition requested_domains (raw_domains : list json) : list string :=
  fromkeys (omap (λ v, match v with
                       | JString s => let d := endpoint_domain s in if str_nonempty d then Some d else None
                       | _ => None
                       end) raw_domains).

Definition queued_fields (r : queue_result) : hprog json :=
  match r with
  | QueueFields f => mret (JObject f)
  | QueueValue v => match py_int_of v with
                    | Ok z => mret (JObject [("accepted", JInt z)]%string)
                    | Err e => uncaught (conversion_name e)
                    end
  end.

Definition post_review : hprog http_answer :=
  payload ← _read_json;
  match dict_get "domains" payload with
  | Some (JArray raw_domains) =>
      let domains := requested_domains raw_domains in
      if bool_decide (domains = []) then _send_json 400 (error_body "no_valid_domains")
      else if ep_max_domains ep <? Z.of_nat (length domains)
      then _send_json 413 (JObject [("error", JString "too_many_domains"); ("limit", JInt (ep_max_domains ep))]%string)
      else
        result ← call (tp_queue ports domains);
        queued ← queued_fields result;
        _send_json 202 (JObject [("status", JString "queued"); ("domains", JArray (JString <$> domains));
                                 ("result", queued)]%string)
  | _ => _send_json 400 (error_body "domains_must_be_a_list")
  end.

Definition do_POST : hprog http_answer :=
  _ ← _require_auth;
  match urlsplit netloc_ok (rq_target rq) with
  | None => uncaught "ValueError"
  | Some (path, query) =>
      if str_startswith path "/v1/reviews/" && str_endswith path decision_suffix then post_decision path
      else if String.eqb path "/v1/review" then post_review
      else if String.eqb path "/v1/recheck-due" then
        let limit := query_limit (ep_max_domains ep) query in
        queued ← call (tp_recheck ports limit);
        _send_json 202 (JObject [("status", JString "queued"); ("queued", JInt queued); ("limit", JInt limit)]%string)
      else if String.eqb path "/v1/cancel" then
        cancelled ← call (tp_cancel ports);
        _send_json 200 (JObject [("status", JString "cancelled"); ("jobs", JInt cancelled)]%string)
      else _send_json 404 (error_body "not_found")
  end.

(** The handler of [network_access.py] around the one of [external_trigger.py]. *)
Definition _network_allowed : bool := client_access_allowed (rq_client rq) (ep_access_mode ep).

Definition handle_request : hprog http_answer :=
  if negb _network_allowed then _send_json 403 (error_body "client_network_not_allowed")
  else match rq_method rq with GET => do_GET | POST => do_POST end.

(** Every request ends with one answer, or none. *)
Definition serve (s : S) : handler_exit * S :=
  match handle_request s with
  | (Ok a, s') => (Answered a, s')
  | (Err e, s') => (e, s')
  end.
End Handler.

(** * Guards *)

Section Guards.
Context {S : Type} `{PyRepr}.
Context (netloc_ok : string → bool) (read_file : string → option string) (ep : endpoint).
Implicit Types (ports : trigger_ports S) (rq : http_request).

Abbreviation serve_with := (λ ports rq, serve ports netloc_ok read_file ep rq).

(** The client is in an allowed network and shows the token. *)
Definition trusted rq : Prop :=
  client_access_allowed (rq_client rq) (ep_access_mode ep) = true ∧
  rq_authorization rq = Some ("Bearer " +:+ ep_token ep)%string.

(** The answers a client that is not trusted can get. *)
Definition public_answer rq (a : http_answer) : Prop :=
  an_status a = 403 ∧ client_access_allowed (rq_client rq) (ep_access_mode ep) = false ∨
  client_access_allowed (rq_client rq) (ep_access_mode ep) = true ∧
  (an_status a = 401 ∨ an_body a = RedirectTo "/app/" ∨
   ∃ path asset, get_web_asset read_file path = Some asset ∧ an_body a = AssetBody asset).

Definition public_exit rq (e : handler_exit) : Prop :=
  match e with Answered a => public_answer rq a | Uncaught _ => True end.

(** Without the token the check itself ends the request. *)
Lemma require_auth_stops rq s : rq_authorization rq ≠ Some ("Bearer " +:+ ep_token ep)%string →
  ∃ e, _require_auth (S := S) ep rq s = (Err e, s) ∧
    match e with Answered a => an_status a = 401 | Uncaught _ => True end.
Proof.
  intros Ha. unfold _require_auth, _authorized, mbind, prog_bind.
  destruct (is_ascii _ && is_ascii _); [|by eexists].
  destruct (String.eqb _ _) eqn:E; [|by eexists]. apply String.eqb_eq in E.
  destruct (rq_authorization rq) as [a|]; [by destruct Ha; f_equal|discriminate E].
Qed.

Lemma require_auth_passes rq s : rq_authorization rq = Some ("Bearer " +:+ ep_token ep)%string →
  is_ascii (ep_token ep) = true → _require_auth (S := S) ep rq s = (Ok tt, s).
Proof.
  intros Ha Hascii. unfold _require_auth, _authorized. rewrite Ha. unfold default, from_option, id.
  assert (is_ascii ("Bearer " +:+ ep_token ep)%string = true) as -> by (by cbn).
  cbn [andb]. rewrite String.eqb_refl. reflexivity.
Qed.

Lemma returned_bind {A B} (m : prog S handler_exit A) (k : A → prog S handler_exit B) s a s' :
  m s = (Ok a, s') → (m ≫= k) s = k a s'.
Proof. unfold mbind, prog_bind. by intros ->. Qed.

Lemma stopped_bind {A B} (m : prog S handler_exit A) (k : A → prog S handler_exit B) s e s' :
  m s = (Err e, s') → (m ≫= k) s = (Err e, s').
Proof. unfold mbind, prog_bind. by intros ->. Qed.

(** C10: nothing happens without the token: a request from a client outside
    the allowed networks, or without the exact bearer token of the server,
    leaves the state behind the endpoint untouched whatever its method, path
    and body, and is answered with 403, with 401, with the redirect or with a
    packaged file of the web application, if it is answered at all. *)
Theorem untrusted_requests_have_no_effect ports rq s :
  ¬ trusted rq → (serve_with ports rq s).2 = s ∧ public_exit rq (serve_with ports rq s).1.
Proof.
  intros Ht. unfold serve, handle_request, _network_allowed.
  destruct (client_access_allowed _ _) eqn:Ea; cbn [negb].
  2:{ cbn. split; [done|]. by left. }
  assert (rq_authorization rq ≠ Some ("Bearer " +:+ ep_token ep)%string) as Hauth by (intros E; by apply Ht).
  assert (∀ a : http_answer, an_status a = 401 ∨ an_body a = RedirectTo "/app/" ∨
    (∃ path asset, get_web_asset read_file path = Some asset ∧ an_body a = AssetBody asset) → public_answer rq a) as Hpub
    by (intros a Hb; by right).
  destruct (require_auth_stops rq s Hauth) as (e & He & Hs).
  assert (∀ m : prog S handler_exit http_answer, m s = (Err e, s) →
    (match m s with (Ok a, s') => (Answered a, s') | (Err e, s') => (e, s') end).2 = s ∧
    public_exit rq (match m s with (Ok a, s') => (Answered a, s') | (Err e, s') => (e, s') end).1) as Hstop.
  { intros m ->. split; [done|]. destruct e as [a|]; [|done]. apply Hpub. by left. }
  destruct (rq_method rq).
  - unfold do_GET. destruct (urlsplit netloc_ok (rq_target rq)) as [[path query]|]; [|by cbn].
    destruct (bool_decide _); [split; [done|]; apply Hpub; by right; left|].
    destruct (get_web_asset read_file path) as [asset|] eqn:Ew; [|apply Hstop, stopped_bind, He].
    split; [done|]. apply Hpub. right. right. by exists path, asset.
  - unfold do_POST. apply Hstop, stopped_bind, He.
Qed.
End Guards.

(** * Bounds *)

Section Bounds.
Context {S : Type} `{PyRepr}.
Context (netloc_ok : string → bool) (read_file : string → option string) (ep : endpoint).
Implicit Types (ports : trigger_ports S) (rq : http_request) (s : S).

(** A name as the endpoint hands it on. *)
Definition endpoint_name (d : string) : Prop := d ≠ ""%string ∧ str_lower d = d ∧ rstrip is_dot d = d.

(** The arguments the endpoint may call the program with. *)
Definition names_ok (l : list string) : Prop :=
  l ≠ [] ∧ NoDup l ∧ Z.of_nat (length l) ≤ ep_max_domains ep ∧ Forall endpoint_name l.
Definition limit_in_bounds (n : Z) : Prop := 1 ≤ n ≤ ep_max_domains ep.
Definition single_name (d : string) : Prop := endpoint_name d ∧ str_contains "/" d = false.

(** Two programs that agree on the arguments within the bounds. *)
Record agree ports ports' : Prop := {
  ag_queue : ∀ l s, names_ok l → tp_queue ports l s = tp_queue ports' l s;
  ag_cancel : ∀ s, tp_cancel ports s = tp_cancel ports' s;
  ag_recheck : ∀ n s, limit_in_bounds n → tp_recheck ports n s = tp_recheck ports' n s;
  ag_review_queue : ∀ n s, limit_in_bounds n → tp_review_queue ports n s = tp_review_queue ports' n s;
  ag_review_lookup : ∀ d s, single_name d → tp_review_lookup ports d s = tp_review_lookup ports' d s;
  ag_decision : ∀ d decision until s, single_name d → str_lower (str_strip decision) = decision →
    tp_decision ports d decision until s = tp_decision ports' d decision until s
}.

Lemma prog_bind_ext {A B} (m m' : prog S handler_exit A) (k k' : A → prog S handler_exit B) s :
  m s = m' s → (∀ a s, k a s = k' a s) → (m ≫= k) s = (m' ≫= k') s.
Proof. unfold mbind, prog_bind. intros ->. intros Hk. destruct (m' s) as [[a|e] s']; [apply Hk|done]. Qed.

Lemma call_ext {A} (m m' : prog S exn A) s : m s = m' s → call m s = call m' s.
Proof. unfold call. by intros ->. Qed.

Lemma endpoint_domain_ok text : str_nonempty (endpoint_domain text) = true → endpoint_name (endpoint_domain text).
Proof.
  intros Hne. split_and!.
  - by intros E; rewrite E in Hne.
  - apply rstrip_lower_fixed; [apply lower_char_dot|apply str_lower_idemp].
  - apply rstrip_idemp.
Qed.

Lemma requested_domains_ok raw : Forall endpoint_name (requested_domains raw) ∧ NoDup (requested_domains raw).
Proof.
  split; [|apply fromkeys_NoDup]. apply Forall_forall. intros d Hd. unfold requested_domains in Hd.
  rewrite elem_of_fromkeys in Hd. apply list_elem_of_omap in Hd as (v & _ & Hv). destruct v; try done. cbn in Hv.
  destruct (str_nonempty (endpoint_domain _)) eqn:E; [|done]. injection Hv as <-. by apply endpoint_domain_ok.
Qed.

Lemma query_limit_ok fallback query : 1 ≤ ep_max_domains ep → limit_in_bounds (query_limit ep fallback query).
Proof. unfold limit_in_bounds, query_limit. lia. Qed.

Lemma lstrip_lower p text : (∀ c, p (lower_char c) = p c) → lstrip p (str_lower text) = str_lower (lstrip p text).
Proof.
  intros Hp. unfold str_lower. induction text as [|c text IH]; cbn [str_map lstrip]; [done|]. rewrite Hp.
  by destruct (p c).
Qed.

Lemma rstrip_lower p text : (∀ c, p (lower_char c) = p c) → rstrip p (str_lower text) = str_lower (rstrip p text).
Proof.
  intros Hp. unfold str_lower. induction text as [|c text IH]; cbn [str_map rstrip]; [done|]. rewrite IH, Hp.
  destruct (rstrip p text); [by destruct (p c)|done].
Qed.

Lemma strip_lower_idemp text : str_lower (str_strip (str_lower (str_strip text))) = str_lower (str_strip text).
Proof.
  assert (str_strip (str_lower (str_strip text)) = str_lower (str_strip (str_strip text))) as ->.
  { unfold str_strip at 1 2. by rewrite lstrip_lower, rstrip_lower by apply lower_char_space. }
  by rewrite str_strip_idemp, str_lower_idemp.
Qed.

(** A name without a slash, as the paths of single reviews give it. *)
Lemma single_name_ok d : negb (str_nonempty (endpoint_domain d)) || str_contains "/" (endpoint_domain d) = false →
  single_name (endpoint_domain d).
Proof. intros [Hne%negb_false_iff Hs]%orb_false_iff. split; [by apply endpoint_domain_ok|done]. Qed.

Section Agree.
Context (ports ports' : trigger_ports S) (Hag : agree ports ports') (Hmax : 1 ≤ ep_max_domains ep).

Lemma agree_get_reviews query s : get_reviews ports ep query s = get_reviews ports' ep query s.
Proof. apply prog_bind_ext; [|done]. by apply call_ext, (ag_review_queue _ _ Hag), query_limit_ok. Qed.

Lemma agree_get_review encoded s : get_review ports encoded s = get_review ports' encoded s.
Proof.
  unfold get_review. destruct (_ || _) eqn:E; [done|]. apply prog_bind_ext; [|done].
  by apply call_ext, (ag_review_lookup _ _ Hag), single_name_ok.
Qed.

Lemma agree_decide domain decision until s : single_name domain → str_lower (str_strip decision) = decision →
  decide ports domain decision until s = decide ports' domain decision until s.
Proof. intros Hn Hd. unfold decide. by rewrite (ag_decision _ _ Hag). Qed.
Lemma agree_post_decision rq path s : post_decision ports rq path s = post_decision ports' rq path s.
Proof.
  unfold post_decision. destruct (_ || _) eqn:E; [done|]. apply prog_bind_ext; [done|]. intros payload s1.
  apply prog_bind_ext; [done|]. intros postpone s2. apply prog_bind_ext; [|done].
  apply agree_decide; [by apply single_name_ok|apply strip_lower_idemp].
Qed.

Lemma agree_post_review rq s : post_review ports ep rq s = post_review ports' ep rq s.
Proof.
  unfold post_review. apply prog_bind_ext; [done|]. intros payload s1.
  destruct (dict_get "domains" payload) as [[| | | | |raw|]|]; try done.
  case_bool_decide as Hne; [done|]. destruct (_ <? _) eqn:El; [done|]. apply prog_bind_ext; [|done].
  apply call_ext, (ag_queue _ _ Hag). destruct (requested_domains_ok raw) as [Hok Hnd]. split_and!; try done.
  by apply Z.ltb_ge in El.
Qed.

(** The program behind the endpoint is only ever called within bounds:
    whatever the request, the queue gets a non-empty list of distinct
    normalised names no longer than the bound of the server, the limits lie
    between 1 and that bound, and single reviews are read and decided under a
    normalised name without a slash.  So two programs that agree on such
    arguments give every request the same answer and the same effect. *)
Theorem calls_are_within_bounds rq s :
  serve ports netloc_ok read_file ep rq s = serve ports' netloc_ok read_file ep rq s.
Proof.
  unfold serve. enough (handle_request ports netloc_ok read_file ep rq s = handle_request ports' netloc_ok read_file ep rq s)
    as -> by done.
  unfold handle_request. destruct (negb _); [done|]. destruct (rq_method rq).
  - unfold do_GET. destruct (urlsplit _ _) as [[path query]|]; [|done]. destruct (bool_decide _); [done|].
    destruct (get_web_asset _ _); [done|]. apply prog_bind_ext; [done|]. intros [] s1.
    repeat (destruct (String.eqb _ _); [solve [done|apply agree_get_reviews]|]).
    destruct (str_startswith _ _); [apply agree_get_review|done].
  - unfold do_POST. apply prog_bind_ext; [done|]. intros [] s1. destruct (urlsplit _ _) as [[path query]|]; [|done].
    destruct (_ && _); [apply agree_post_decision|]. destruct (String.eqb _ _); [apply agree_post_review|].
    destruct (String.eqb _ _); [|destruct (String.eqb _ _); [|done]]; (apply prog_bind_ext; [|done]); apply call_ext.
    + by apply (ag_recheck _ _ Hag), query_limit_ok.
    + apply (ag_cancel _ _ Hag).
Qed.
End Agree.

End Bounds.

(** * The endpoint of the program *)

Definition enqueue_fields (r : QueueEnqueueResult) : fields :=
  [("requested", JInt (qe_requested r)); ("queued", JInt (qe_queued r)); ("requeued", JInt (qe_requeued r));
   ("already_pending", JInt (qe_already_pending r)); ("skipped_locked", JInt (qe_skipped_locked r));
   ("skipped_filtered", JInt (qe_skipped_filtered r))]%string.

Definition optional_int (v : option Z) : json := match v with Some z => JInt z | None => JNull end.

Definition preference_json (p : preference) : json :=
  JObject [("domain", JString p.1); ("never_ask", JBool (vp_never_ask p.2));
           ("postponed_until", optional_int (vp_postponed_until p.2)); ("last_decision", JString (vp_last_decision p.2));
           ("updated_at", JInt (vp_updated_at p.2))]%string.

(** [ReviewDecisionResult.to_dict] *)
Definition decision_json (r : ReviewDecisionResult) : json :=
  JObject ([("domain", JString (dx_domain r)); ("decision", JString (dx_decision r)); ("applied", JBool (dx_applied r));
            ("preference", preference_json (dx_preference r))]%string ++
           match dx_postpone_until r with Some z => [("postpone_until", JInt z)]%string | None => [] end).

(** [InvalidReviewDecision] is a [ValueError], [ReviewDecisionConflict] a
    [RuntimeError]. *)
Definition decision_error (e : decision_exn) : exn :=
  match e with
  | InvalidReviewDecision m => ValueError m
  | ReviewDecisionConflict m => RuntimeError m
  | FromPort e => e
  end.

Section Endpoint.
Context {srv : Type} `{PiHoleServer srv} `{PyRepr}.
Context (clock : Q) (excluded_suffixes : list string).
(** Cancelling the running jobs, and the two queries of reviews, are left open. *)
Context (cancel_jobs : prog (decision_state srv) exn Z).
Context (review_queue_rows : Z → decision_state srv → list fields).
Context (domain_browser_search : string → decision_state srv → list fields).

Definition as_exn {A} (m : prog (decision_state srv) decision_exn A) : prog (decision_state srv) exn A := λ s,
  match m s with (Ok a, s') => (Ok a, s') | (Err e, s') => (Err (decision_error e), s') end.

Definition endpoint_ports : trigger_ports (decision_state srv) := {|
  tp_queue domains :=
    r ← on_db (queue_domains_for_review excluded_suffixes (second clock) domains "manual_external_trigger");
    mret (QueueFields (enqueue_fields r));
  tp_cancel := cancel_jobs;
  tp_recheck limit := on_db (queue_due_rechecks excluded_suffixes (second clock) limit);
  tp_review_queue limit := prog_read (review_queue_rows limit);
  tp_review_lookup domain := prog_read (λ s, _lookup_review domain (domain_browser_search domain s));
  tp_decision domain decision until :=
    r ← as_exn (apply_review_decision clock domain decision until "");
    mret (decision_json r)
|}.

(** ** Its effects *)

Context (netloc_ok : string → bool) (read_file : string → option string) (ep : endpoint).
Implicit Types (rq : http_request) (s : decision_state srv).

Abbreviation serve_endpoint := (serve endpoint_ports netloc_ok read_file ep).

Lemma serve_post rq s path query :
  trusted ep rq → rq_method rq = POST → urlsplit netloc_ok (rq_target rq) = Some (path, query) →
  is_ascii (ep_token ep) = true →
  serve_endpoint rq s =
  match (if str_startswith path "/v1/reviews/" && str_endswith path decision_suffix
         then post_decision endpoint_ports rq path
         else if String.eqb path "/v1/review" then post_review endpoint_ports ep rq
         else if String.eqb path "/v1/recheck-due" then
           let limit := query_limit ep (ep_max_domains ep) query in
           queued ← call (tp_recheck endpoint_ports limit);
           _send_json 202 (JObject [("status", JString "queued"); ("queued", JInt queued); ("limit", JInt limit)]%string)
         else if String.eqb path "/v1/cancel" then
           cancelled ← call (tp_cancel endpoint_ports);
           _send_json 200 (JObject [("status", JString "cancelled"); ("jobs", JInt cancelled)]%string)
         else _send_json 404 (error_body "not_found")) s with
  | (Ok a, s') => (Answered a, s')
  | (Err e, s') => (e, s')
  end.
Proof.
  intros [Ha Ht] Hm Hu Hascii. unfold serve, handle_request, _network_allowed. rewrite Ha, Hm. cbn [negb].
  unfold do_POST. unfold mbind at 1, prog_bind at 1. rewrite (require_auth_passes ep rq s Ht Hascii). by rewrite Hu.
Qed.
Lemma stable_names l : Forall endpoint_name l → Forall (λ d, no_space d = true) l →
  Forall stable_name l ∧ ∀ k, k ∈ unique_normalized l ↔ k ∈ l.
Proof.
  intros Hl Hs. assert (∀ d, d ∈ l → _normalize_domain d = d) as Hfix.
  { intros d Hd. rewrite Forall_forall in Hl, Hs. destruct (Hl d Hd) as (_ & Hlow & Hdot). specialize (Hs d Hd).
    unfold _normalize_domain, str_strip. by rewrite (lstrip_none _ _ Hs), (rstrip_none _ _ Hs), Hlow. }
  split.
  - apply Forall_forall. intros d Hd. split; [by apply Hfix|]. rewrite Forall_forall in Hl. by apply (Hl d Hd).
  - intros k. rewrite unique_normalized_spec. split.
    + intros (_ & v & Hv & ->). by rewrite (Hfix v Hv).
    + intros Hk. split; [|exists k; by rewrite (Hfix k Hk)]. rewrite Forall_forall in Hl. by apply (Hl k Hk).
Qed.

(** The answer to an accepted request can be encoded. *)
Lemma queued_encodable domains r s : Forall (λ d, is_utf8 d = true) domains →
  _send_json (A := http_answer) 202
    (JObject [("status", JString "queued"); ("domains", JArray (JString <$> domains));
              ("result", JObject (enqueue_fields r))]%string) s =
  (Err (Answered (mkAnswer 202 (JsonBody
    (JObject [("status", JString "queued"); ("domains", JArray (JString <$> domains));
              ("result", JObject (enqueue_fields r))]%string)))), s).
Proof.
  intros Hd. unfold _send_json. assert (encodable (JArray (JString <$> domains)) = true) as Hj.
  { cbn [encodable]. apply forallb_forall. intros v Hv%list_elem_of_In.
    apply list_elem_of_fmap in Hv as (x & -> & Hx). rewrite Forall_forall in Hd. by apply Hd. }
  assert (encodable (JObject (enqueue_fields r)) = true) as Hr by (vm_compute; reflexivity).
  cbn [encodable forallb fst snd] in Hj, Hr |- *. rewrite Hj.
  assert (is_utf8 "status" = true ∧ is_utf8 "queued" = true ∧ is_utf8 "domains" = true ∧ is_utf8 "result" = true)
    as (-> & -> & -> & ->) by (vm_compute; repeat split).
  by rewrite Hr.
Qed.

(** The row of a domain after a review of it was asked for. *)
Definition review_row_of (existing : option staging_row) : staging_row :=
  enqueued_row (second clock) 100 "manual_external_trigger" "realtime" true existing.

(** An authorised request for reviews is always answered, and as it
    should: with 400 when it names no domain and with 413 when it names more
    than the bound of the server, nothing being changed; otherwise with 202, and
    then every listed domain that is neither locked nor excluded is queued with
    the priority of a live request, and nothing else in the queue, the locks,
    the reviews or the preferences is touched. *)
Theorem review_requests_are_queued rq s path query payload raw :
  trusted ep rq → is_ascii (ep_token ep) = true → rq_method rq = POST →
  urlsplit netloc_ok (rq_target rq) = Some (path, query) → path = "/v1/review"%string →
  _read_json rq s = (Ok payload, s) → dict_get "domains" payload = Some (JArray raw) →
  Forall (λ d, no_space d = true ∧ is_utf8 d = true) (requested_domains raw) →
  let domains := requested_domains raw in
  let d := db_of s in
  let d' := db_of (serve_endpoint rq s).2 in
  ∃ a, (serve_endpoint rq s).1 = Answered a ∧
    if bool_decide (domains = []) then an_status a = 400 ∧ (serve_endpoint rq s).2 = s
    else if ep_max_domains ep <? Z.of_nat (length domains) then an_status a = 413 ∧ (serve_endpoint rq s).2 = s
    else
      an_status a = 202 ∧ ds_preferences (serve_endpoint rq s).2 = ds_preferences s ∧
      domain_locks d' = domain_locks d ∧ review d' = review d ∧
      ∀ k, let wanted := k ∈ domains ∧ _domain_matches_suffix k excluded_suffixes = false ∧ domain_locks d !! k = None in
        (wanted → staging_domains d' !! k = Some (review_row_of (staging_domains d !! k))) ∧
        (¬ wanted → staging_domains d' !! k = staging_domains d !! k).
Proof.
  intros Ht Hascii Hm Hu -> Hr Hd Hok domains d d'. unfold d'.
  rewrite (serve_post rq s _ _ Ht Hm Hu Hascii). 
  assert (str_startswith "/v1/review" "/v1/reviews/" = false) as -> by (vm_compute; reflexivity). cbn [andb].
  rewrite String.eqb_refl.
  unfold post_review. rewrite (returned_bind _ _ _ _ _ Hr), Hd. fold domains.
  case_bool_decide as Hne; [by eexists|]. destruct (_ <? _) eqn:El; [by eexists|].
  destruct (stable_names domains) as [Hst Hin].
  { apply requested_domains_ok. }
  { eapply Forall_impl; [exact Hok|]. by intros x []. }
  destruct (enqueue_pointwise excluded_suffixes (second clock) domains 100 "manual_external_trigger" "realtime" true (db_of s))
    as (r & d1 & He & Hlock & Hrev & _ & Hk).
  { apply Forall_forall. intros x Hx%Hin. rewrite Forall_forall in Hst. by apply Hst. }
  set (s1 := DecisionState (set_db d1 (ds_world s)) (ds_preferences s)).
  assert (call (tp_queue endpoint_ports domains) s = (Ok (QueueFields (enqueue_fields r)), s1)) as Hc.
  { unfold call, endpoint_ports, tp_queue, mbind, prog_bind, on_db, on_world, queue_domains_for_review.
    by unfold db_of in He; rewrite He. }
  rewrite (returned_bind _ _ _ _ _ Hc). cbn [queued_fields]. erewrite (returned_bind _ _ s1); [|reflexivity].
  rewrite (queued_encodable domains r); [|eapply Forall_impl; [exact Hok|]; by intros x []].
  cbn [fst snd an_status]. eexists. split; [reflexivity|]. split_and!; try done.
  intros k. specialize (Hk k). rewrite Hin in Hk. exact Hk.
Qed.
(** The exit of a decision request, by the outcome of the decision. *)
Definition decision_exit (r : result decision_exn ReviewDecisionResult) : handler_exit :=
  match r with
  | Ok res =>
      let body := JObject [("result", decision_json res)]%string in
      if encodable body then Answered (mkAnswer 200 (JsonBody body)) else Uncaught "UnicodeEncodeError"
  | Err e =>
      let e := decision_error e in
      let reply status error :=
        let body := message_body error (exn_text e) in
        if encodable body then Answered (mkAnswer status (JsonBody body)) else Uncaught "UnicodeEncodeError" in
      if is_value_error e then reply 400 "invalid_decision"%string
      else if is_runtime_error e then reply 409 "decision_conflict"%string
      else Uncaught (exn_name e)
  end.

Lemma post_decision_spec rq s path payload until :
  let n := endpoint_domain (unquote (decision_domain path)) in
  let decision := str_lower (str_strip (py_str_or (dict_get "decision" payload) "")) in
  single_name n → _read_json rq s = (Ok payload, s) → postpone_of payload s = (Ok until, s) →
  let '(r, s') := apply_review_decision clock n decision until "" s in
  match post_decision endpoint_ports rq path s with
  | (Ok a, s1) => (Answered a, s1)
  | (Err e, s1) => (e, s1)
  end = (decision_exit r, s').
Proof.
  intros n decision [[Hne _] Hslash] Hr Hu. unfold post_decision. fold n.
  assert (str_nonempty n = true) as -> by (by destruct n). rewrite Hslash. cbn [negb orb].
  rewrite (returned_bind _ _ _ _ _ Hr). fold decision. rewrite (returned_bind _ _ _ _ _ Hu).
  unfold mbind at 1, prog_bind at 1, decide. cbn [tp_decision endpoint_ports].
  unfold mbind at 1, prog_bind at 1, as_exn. destruct (apply_review_decision clock n decision until "" s) as [[res|e] s'].
  - cbn [mret prog_ret decision_exit]. unfold _send_json. by destruct (encodable _).
  - cbn [decision_exit]. unfold _send_json. destruct (is_value_error _); [by destruct (encodable _)|].
    destruct (is_runtime_error _); [by destruct (encodable _)|done].
Qed.

(** C11: an authorised decision request for a domain that, as the endpoint
    normalises it, is a single name without white space or a slash, does what
    its answer says: the exit of the handler is the one of the decision service
    (200 with the result, 400 for an invalid decision, 409 for a conflict), and
    the state afterwards is the one the service leaves; after a 200 the decision
    is settled (the domain has left the queue, has no open task and has the
    preference decided on), and a decision the service refuses as invalid
    changes nothing. The token is ASCII, the body and the time of a postponement
    can be read, and the Pi-hole stores what it is told to. (A name such as 'a.
    .' is answered with 200 while its row 'a. ' stays in the queue.) *)
Theorem decisions_over_http rq s path query payload until :
  PiHoleLaws srv → PiHoleFrame srv →
  trusted ep rq → is_ascii (ep_token ep) = true → rq_method rq = POST →
  urlsplit netloc_ok (rq_target rq) = Some (path, query) →
  str_startswith path "/v1/reviews/" = true → str_endswith path decision_suffix = true →
  _read_json rq s = (Ok payload, s) → postpone_of payload s = (Ok until, s) →
  let n := endpoint_domain (unquote (decision_domain path)) in
  let decision := str_lower (str_strip (py_str_or (dict_get "decision" payload) "")) in
  single_name n → no_space n = true →
  let '(r, s') := apply_review_decision clock n decision until "" s in
  serve_endpoint rq s = (decision_exit r, s') ∧
  match r with
  | Ok res => decided clock n decision until res s s'
  | Err (InvalidReviewDecision _) => s' = s
  | Err _ => True
  end.
Proof.
  intros HL HF Ht Hascii Hm Hu Hpre Hsuf Hr Hp n decision Hn Hs.
  pose proof (post_decision_spec rq s path payload until Hn Hr Hp) as Hspec. cbv zeta in Hspec. fold n decision in Hspec.
  rewrite (serve_post rq s _ _ Ht Hm Hu Hascii), Hpre, Hsuf. cbn [andb].
  destruct (apply_review_decision clock n decision until "" s) as [r s'] eqn:E. split; [exact Hspec|].
  assert (_normalize_domain n = n) as Hfix.
  { destruct (stable_names [n]) as [Hst _]; [constructor; [apply Hn|done]|by constructor|].
    by apply Forall_cons in Hst as [[? _] _]. }
  destruct r as [res|[m|m|e]]; [|by eapply unchanged_when_invalid; eauto|done|done].
  assert (named (mkDecisionCommand n decision until "") = n) as Hnamed by exact Hfix.
  assert (selected (mkDecisionCommand n decision until "") = decision) as Hsel by apply strip_lower_idemp.
  apply execute_decided in E as [Hd _]; [|done|done|by rewrite !Hnamed]. by rewrite Hnamed, Hsel in Hd.
Qed.
End Endpoint.

(** * The life of the server *)

(** The operating system: listening sockets with the thread that serves them,
    and the file of the access mode. *)
Class Sockets (env : Type) := {
  listen : string → Z → env → result exn Z * env;
  shutdown : Z → env → env;
  thread_alive : Z → env → bool;
  access_of : env → access_file
}.

(** [ExternalTriggerServer]: its options, and what it runs. *)
Record trigger_server := mkTriggerServer {
  ts_options : ExternalTriggerOptions;
  ts_running : option (Z * endpoint)
}.

Record trigger_state (env : Type) := TriggerState { tg_env : env; tg_server : option trigger_server }.
Arguments TriggerState {env}.
Arguments tg_env {env}.
Arguments tg_server {env}.

Section Life.
Context {env : Type} `{Sockets env} `{PyRepr}.
Abbreviation lprog := (prog (trigger_state env) exn).
Implicit Types st : trigger_state env.

Definition in_env {A} (f : env → A * env) : lprog A := λ st,
  let r := f (tg_env st) in (Ok r.1, TriggerState r.2 (tg_server st)).
Definition set_server (v : option trigger_server) : lprog unit := λ st, (Ok tt, TriggerState (tg_env st) v).

Definition running (sv : trigger_server) (e : env) : bool :=
  match ts_running sv with Some (h, _) => thread_alive h e | None => false end.

Definition bind_host (options : ExternalTriggerOptions) : string := str_or (str_strip (xt_bind_host options)) "127.0.0.1".

(** [start] of [external_trigger.py], with the [allow_remote] in force;
    [access_mode] is the mode the handler is made with. *)
Definition start_listening (allow_remote : bool) (access_mode : string) (sv : trigger_server) : lprog trigger_server :=
  alive ← prog_read (λ st, running sv (tg_env st));
  if (alive : bool) then mret sv
  else
    let options := ts_options sv in
    if negb (xt_enabled options) then mret sv
    else
      let token := str_strip (xt_token options) in
      if negb (str_nonempty token) then prog_raise (ValueError "External trigger requires an authentication token")
      else
        let host := bind_host options in
        if negb (_is_loopback_host host) && negb allow_remote
        then prog_raise (ValueError "External trigger may bind to a non-loopback address only when remote access is explicitly enabled")
        else
          outcome ← in_env (listen host (xt_port options));
          match outcome with
          | Err e => prog_raise e
          | Ok h =>
              mret (mkTriggerServer options
                      (Some (h, mkEndpoint token (Z.max 1 (xt_max_domains_per_request options)) access_mode)))
          end.

(** [start] of [network_access.py] *)
Definition start (sv : trigger_server) : lprog trigger_server :=
  file ← prog_read (λ st, access_of (tg_env st));
  match load_review_access_options file (xt_allow_remote (ts_options sv)) with
  | None => prog_raise (OtherError "UnicodeDecodeError")
  | Some mode =>
      let allow_remote := negb (String.eqb mode "local") in
      start_listening allow_remote (default mode (load_review_access_options file allow_remote)) sv
  end.

Definition stop (sv : trigger_server) : lprog unit :=
  match ts_running sv with
  | None => mret tt
  | Some (h, _) => in_env (λ e, (tt, shutdown h e))
  end.

Definition stop_external_trigger : lprog unit :=
  current ← prog_read tg_server;
  match current with
  | None => mret tt
  | Some sv => _ ← stop sv; set_server None
  end.

Definition configure_external_trigger (options : ExternalTriggerOptions) : lprog (option trigger_server) :=
  _ ← stop_external_trigger;
  if negb (xt_enabled options) then mret None
  else
    server ← start (mkTriggerServer options None);
    _ ← set_server (Some server);
    mret (Some server).

(** ** One guarded listener *)

(** The sockets that listen, and how the operating system changes them. *)
Class SocketLaws := {
  listening : env → gset Z;
  listen_ok host port e h e' : listen host port e = (Ok h, e') → (h ∉ listening e) ∧ (listening e' = {[h]} ∪ listening e);
  listen_err host port e x e' : listen host port e = (Err x, e') → listening e' = listening e;
  shutdown_ok h e : listening (shutdown h e) = listening e ∖ {[h]}
}.
End Life.
Arguments SocketLaws env {_}.

Section LifeProperties.
Context {env : Type} `{Sockets env} `{!SocketLaws env} `{PyRepr}.
Implicit Types st : trigger_state env.

(** The guards a listening server has passed. *)
Definition guarded (options : ExternalTriggerOptions) (ep : endpoint) : Prop :=
  xt_enabled options = true ∧ ep_token ep ≠ ""%string ∧ ep_token ep = str_strip (xt_token options) ∧
  1 ≤ ep_max_domains ep ∧ ep_access_mode ep ∈ ACCESS_MODES ∧
  (ep_access_mode ep = "local"%string → _is_loopback_host (bind_host options) = true).

Definition life_inv st : Prop :=
  match tg_server st with
  | Some (mkTriggerServer options (Some (h, ep))) => listening (tg_env st) = {[h]} ∧ guarded options ep
  | _ => listening (tg_env st) = ∅
  end.

(** One step of the program: a (re)configuration, a stop, or anything else that
    leaves the sockets alone. *)
Inductive life_step : trigger_state env → trigger_state env → Prop :=
| step_configure st options : life_step st (configure_external_trigger options st).2
| step_stop st : life_step st (stop_external_trigger st).2
| step_other st e : listening e = listening (tg_env st) → life_step st (TriggerState e (tg_server st)).

Lemma normalize_mode v legacy : normalize_access_mode v legacy ∈ ACCESS_MODES.
Proof.
  unfold normalize_access_mode. case_bool_decide; [done|]. destruct legacy; apply (bool_decide_unpack _); exact I.
Qed.

Lemma load_mode file legacy mode : load_review_access_options file legacy = Some mode → mode ∈ ACCESS_MODES.
Proof.
  assert ((if legacy then "any" else "local")%string ∈ ACCESS_MODES) as Hf
    by (destruct legacy; apply (bool_decide_unpack _); exact I).
  unfold load_review_access_options. destruct file as [| |payload]; [by intros [= <-]..|].
  destruct (negb _); [done|]. destruct (json_loads payload) as [[]|]; intros [= <-]; try done. apply normalize_mode.
Qed.

Lemma load_again file legacy mode : load_review_access_options file legacy = Some mode →
  load_review_access_options file (negb (String.eqb mode "local")) = Some mode.
Proof.
  unfold load_review_access_options. destruct file as [| |payload]; [by destruct legacy; intros [= <-]..|].
  destruct (negb (is_utf8 payload)); [done|]. unfold normalize_access_mode.
  destruct (json_loads payload) as [[]|]; try (by destruct legacy; intros [= <-]).
  case_bool_decide; [by intros [= <-]|]. by destruct legacy; intros [= <-].
Qed.

Lemma stop_clears st : life_inv st → (stop_external_trigger st).2 = TriggerState (tg_env (stop_external_trigger st).2) None ∧
  listening (tg_env (stop_external_trigger st).2) = ∅ ∧ (stop_external_trigger st).1 = Ok tt.
Proof.
  unfold life_inv. destruct st as [e [[options [[h ep]|]]|]]; cbn [tg_server tg_env]; [|done..]. intros [Hl _].
  assert (stop_external_trigger (TriggerState e (Some (mkTriggerServer options (Some (h, ep))))) =
    (Ok tt, TriggerState (shutdown h e) None)) as -> by reflexivity.
  cbn [fst snd tg_env]. split_and!; [done| |done]. rewrite shutdown_ok, Hl. set_solver.
Qed.

Lemma start_inv e options : listening e = ∅ →
  match start (mkTriggerServer options None) (TriggerState e None) with
  | (Ok sv, st) => ts_options sv = options ∧ tg_server st = None ∧ life_inv (TriggerState (tg_env st) (Some sv))
  | (Err _, st) => life_inv st
  end.
Proof.
  intros He. unfold start. unfold mbind at 1, prog_bind at 1. cbn [prog_read tg_env ts_options].
  destruct (load_review_access_options (access_of e) (xt_allow_remote options)) as [mode|] eqn:El; [|done].
  rewrite (load_again _ _ _ El). cbn [default]. unfold start_listening. unfold mbind at 1, prog_bind at 1.
  cbn [prog_read running ts_running ts_options tg_env]. destruct (xt_enabled options) eqn:Een; [|done]. cbn [negb].
  destruct (str_nonempty (str_strip (xt_token options))) eqn:Et; [|done]. cbn [negb].
  destruct (negb (_is_loopback_host (bind_host options)) && _) eqn:Eg; [done|].
  unfold mbind at 1, prog_bind at 1, in_env. cbn [tg_env].
  destruct (listen (bind_host options) (xt_port options) e) as [[h|x] e'] eqn:Ep; cbn.
  - split; [done|]. split; [done|]. apply listen_ok in Ep as [_ ->]. rewrite He. split; [set_solver|].
    unfold guarded. cbn [ep_token ep_max_domains ep_access_mode]. split_and!; try done.
    + by intros E; rewrite E in Et.
    + lia.
    + by eapply load_mode.
    + intros ->. cbn in Eg. rewrite andb_true_r in Eg. by apply negb_false_iff in Eg.
  - apply listen_err in Ep. unfold life_inv. cbn. by rewrite Ep.
Qed.

Lemma step_inv st st' : life_inv st → life_step st st' → life_inv st'.
Proof.
  intros Hi Hs. destruct Hs as [st options|st|st e He].
  - unfold configure_external_trigger. destruct (stop_clears st Hi) as (Hst & Hl & Hok).
    unfold mbind at 1, prog_bind at 1. destruct (stop_external_trigger st) as [r st1]. cbn [fst snd] in *. rewrite Hok.
    rewrite Hst in *. set (e := tg_env st1) in *. destruct (negb (xt_enabled options)); [done|].
    pose proof (start_inv e options Hl) as Hstart. unfold mbind at 1, prog_bind at 1.
    destruct (start (mkTriggerServer options None) (TriggerState e None)) as [[sv|x] st2]; [|done]. by apply Hstart.
  - destruct (stop_clears st Hi) as (Hst & Hl & _). rewrite Hst. exact Hl.
  - unfold life_inv in *. cbn. destruct (tg_server st) as [[options [[h ep]|]]|]; rewrite He; done.
Qed.

(** Whatever the sequence of reconfigurations and stops, successful or
    not, at most one socket listens, it is the one of the current server, and
    that server has a token, a positive bound on the domains and a known access
    mode, which for a host that is not a loopback address is not the local one. *)
Theorem one_guarded_listener st st' :
  listening (tg_env st) = ∅ → tg_server st = None → rtc life_step st st' →
  match tg_server st' with
  | Some (mkTriggerServer options (Some (h, ep))) => listening (tg_env st') = {[h]} ∧ guarded options ep
  | _ => listening (tg_env st') = ∅
  end.
Proof.
  intros Hl Hn Hs. change (life_inv st'). assert (life_inv st) as Hi by (unfold life_inv; by rewrite Hn).
  clear Hl Hn. induction Hs as [st|st st1 st' Hs _ IH]; [done|]. by apply IH, (step_inv st).
Qed.
End LifeProperties.

(** * Concrete inputs *)

#[local] Instance ex_repr : PyRepr := {| py_repr_of _ := "..."%string |}.

Definition ex_endpoint : endpoint := mkEndpoint "secret" 2 "lan".
Definition ex_request (method : http_method) (client target token body : string) : http_request :=
  mkRequest method client target (Some ("Bearer " +:+ token)%string)
    (Some (pretty (Z.of_nat (String.length body)))) body false.
Definition ex_files (name : string) : option string := if String.eqb name "sw.js" then Some "js"%string else None.
Definition ex_netloc (_ : string) : bool := true.

(** The ports append what they are called with to the state. *)
Definition ex_ports : trigger_ports (list string) := {|
  tp_queue l := λ s, (Ok (QueueValue (JInt (Z.of_nat (length l)))), s ++ l);
  tp_cancel := λ s, (Ok 3, s ++ ["cancel"%string]);
  tp_recheck n := λ s, (Ok n, s ++ [pretty n]);
  tp_review_queue n := λ s, (Ok [], s ++ [pretty n]);
  tp_review_lookup d := λ s, (Ok None, s ++ [d]);
  tp_decision d decision _ := λ s, (Ok JNull, s ++ [d; decision])
|}.

Definition ex_serve (rq : http_request) : option Z * list string :=
  let r := serve ex_ports ex_netloc ex_files ex_endpoint rq [] in
  (match r.1 with Answered a => Some (an_status a) | Uncaught _ => None end, r.2).

Definition ex_body (names : string) : string := quoted ("{'domains': [" +:+ names +:+ "]}")%string.

Example endpoint_examples :
  ex_serve (ex_request POST "192.168.1.7" "/v1/review" "secret" (ex_body "'A.example.', 5, ' a.example', 'b.example'")) =
    (Some 202, ["a.example"; "b.example"]%string) ∧
  ex_serve (ex_request POST "192.168.1.7" "/v1/review" "secret" (ex_body "'a.example', 'b.example', 'c.example'")) = (Some 413, []) ∧
  ex_serve (ex_request POST "192.168.1.7" "/v1/review" "guess" (ex_body "'a.example'")) = (Some 401, []) ∧
  ex_serve (ex_request POST "8.8.8.8" "/v1/review" "secret" (ex_body "'a.example'")) = (Some 403, []) ∧
  ex_serve (ex_request GET "127.0.0.1" "/v1/reviews?limit=500" "secret" "") = (Some 200, ["2"%string]) ∧
  ex_serve (ex_request GET "127.0.0.1" "/v1/reviews/a%2Eexample" "secret" "") = (Some 404, ["a.example"%string]) ∧
  ex_serve (ex_request GET "127.0.0.1" "/v1/reviews/a%2Fb" "secret" "") = (Some 400, []) ∧
  ex_serve (ex_request GET "127.0.0.1" "/sw.js" "guess" "") = (Some 200, []) ∧
  ex_serve (ex_request POST "::1" "/v1/reviews/A.example/decision" "secret" (quoted "{'decision': ' Allow '}")) =
    (Some 200, ["a.example"; "allow"]%string).
Proof. repeat split; vm_compute; reflexivity. Qed.

(** A token or a header that is not ASCII raises in [compare_digest], so that
    such a token locks everybody out. *)
Definition ex_umlaut : string := String "195" (String "164" EmptyString).
Example tokens_must_be_ascii :
  (serve ex_ports ex_netloc ex_files (mkEndpoint ex_umlaut 2 "lan")
     (ex_request POST "127.0.0.1" "/v1/cancel" ex_umlaut "") []).1 = Uncaught "TypeError".
Proof. vm_compute. reflexivity. Qed.

Lemma untrusted_requests_have_no_effect_witness :
  let rq := ex_request POST "192.168.1.7" "/v1/cancel" "guess" "" in
  (serve ex_ports ex_netloc ex_files ex_endpoint rq []).2 = [] ∧
  public_exit ex_files ex_endpoint rq (serve ex_ports ex_netloc ex_files ex_endpoint rq []).1.
Proof. intros rq. apply (untrusted_requests_have_no_effect ex_netloc ex_files ex_endpoint ex_ports rq []). by intros [_ [= ]]. Defined.

(** Ports that differ where the endpoint does not go. *)
Definition ex_other_ports : trigger_ports (list string) := {|
  tp_queue l := if bool_decide (l = []) then λ s, (Err (OtherError "no names"), s) else tp_queue ex_ports l;
  tp_cancel := tp_cancel ex_ports;
  tp_recheck n := if n <? 1 then λ s, (Err (OtherError "limit"), s) else tp_recheck ex_ports n;
  tp_review_queue n := if 2 <? n then λ s, (Err (OtherError "limit"), s) else tp_review_queue ex_ports n;
  tp_review_lookup d := tp_review_lookup ex_ports d;
  tp_decision := tp_decision ex_ports
|}.

Lemma ex_agree : agree ex_endpoint ex_ports ex_other_ports.
Proof.
  constructor; try done; cbn.
  - intros l s (Hne & _). by rewrite bool_decide_eq_false_2.
  - intros n s [H1 _]. destruct (n <? 1) eqn:E; [lia|done].
  - intros n s [_ H2]. cbn in H2. destruct (2 <? n) eqn:E; [lia|done].
Qed.

Lemma calls_are_within_bounds_witness :
  let rq := ex_request GET "127.0.0.1" "/v1/reviews?limit=500" "secret" "" in
  serve ex_ports ex_netloc ex_files ex_endpoint rq [] = serve ex_other_ports ex_netloc ex_files ex_endpoint rq [].
Proof. intros rq. apply (calls_are_within_bounds ex_netloc ex_files ex_endpoint ex_ports ex_other_ports ex_agree); done. Defined.

(** The endpoint of the program, on the state of the examples of the decisions. *)
Definition ex_cancel : prog (decision_state map_server) exn Z := mret 0.
Abbreviation ex_program := (endpoint_ports (srv := map_server) (100 # 1) [".arpa"%string] ex_cancel (λ _ _, []) (λ _ _, [])).
Definition ex_review : http_request :=
  ex_request POST "192.168.1.7" "/v1/review" "secret" (ex_body "'New.example', 'printer.arpa'").
Definition ex_names : list json := [JString "New.example"; JString "printer.arpa"]%string.

Lemma ex_trusted : trusted ex_endpoint ex_review.
Proof. split; vm_compute; reflexivity. Qed.

Lemma ex_read {S} (s : S) : _read_json ex_review s = (Ok [("domains", JArray ex_names)]%string, s).
Proof. vm_compute. reflexivity. Qed.

Lemma ex_target : urlsplit ex_netloc (rq_target ex_review) = Some ("/v1/review", "")%string.
Proof. vm_compute. reflexivity. Qed.

Lemma ex_names_ok : Forall (λ d, no_space d = true ∧ is_utf8 d = true) (requested_domains ex_names).
Proof. apply (bool_decide_unpack _). vm_compute. exact I. Qed.

Lemma review_requests_are_queued_witness :
  let s' := (serve ex_program ex_netloc ex_files ex_endpoint ex_review dx_state).2 in
  staging_domains (db_of s') !! "new.example"%string = Some (review_row_of (100 # 1) None) ∧
  staging_domains (db_of s') !! "printer.arpa"%string = None.
Proof.
  destruct (review_requests_are_queued (100 # 1) [".arpa"%string] ex_cancel (λ _ _, []) (λ _ _, []) ex_netloc ex_files
    ex_endpoint ex_review dx_state "/v1/review" "" [("domains", JArray ex_names)]%string ex_names ex_trusted eq_refl eq_refl
    ex_target eq_refl (ex_read dx_state) eq_refl ex_names_ok) as (a & _ & Hall).
  rewrite bool_decide_eq_false_2 in Hall by (vm_compute; discriminate).
  change (ep_max_domains ex_endpoint <? Z.of_nat (length (requested_domains ex_names))) with false in Hall.
  destruct Hall as (_ & _ & _ & _ & Hk). split.
  - apply (Hk "new.example"%string). split; [vm_compute; by left|]. split; vm_compute; reflexivity.
  - rewrite (proj2 (Hk "printer.arpa"%string)); [vm_compute; reflexivity|]. intros (_ & Hf & _). vm_compute in Hf. discriminate Hf.
Defined.

Definition ex_decision : http_request :=
  ex_request POST "192.168.1.7" "/v1/reviews/Shop.example/decision" "secret" (quoted "{'decision': 'postpone', 'postpone_until': 500}").
Definition ex_decision_fields : fields := [("decision", JString "postpone"); ("postpone_until", JInt 500)]%string.

Lemma ex_decision_trusted : trusted ex_endpoint ex_decision.
Proof. split; vm_compute; reflexivity. Qed.
Lemma ex_decision_target : urlsplit ex_netloc (rq_target ex_decision) = Some ("/v1/reviews/Shop.example/decision", "")%string.
Proof. vm_compute. reflexivity. Qed.
Lemma ex_decision_read {S} (s : S) : _read_json ex_decision s = (Ok ex_decision_fields, s).
Proof. vm_compute. reflexivity. Qed.
Lemma ex_decision_name : single_name (endpoint_domain (unquote (decision_domain "/v1/reviews/Shop.example/decision"))).
Proof. split; [split|]; vm_compute; [discriminate|by split|reflexivity]. Qed.

Lemma decisions_over_http_witness :
  let s' := (serve ex_program ex_netloc ex_files ex_endpoint ex_decision dx_state).2 in
  staging_domains dx_db !! "shop.example"%string ≠ None ∧ staging_domains (db_of s') !! "shop.example"%string = None.
Proof.
  pose proof (decisions_over_http (100 # 1) [".arpa"%string] ex_cancel (λ _ _, []) (λ _ _, []) ex_netloc ex_files
    ex_endpoint ex_decision dx_state "/v1/reviews/Shop.example/decision" "" ex_decision_fields (Some 500)
    map_server_laws map_server_frame ex_decision_trusted eq_refl eq_refl ex_decision_target eq_refl eq_refl
    (ex_decision_read dx_state) eq_refl ex_decision_name eq_refl) as Hd.
  assert (match (apply_review_decision (srv := map_server) (100 # 1)
            (endpoint_domain (unquote (decision_domain "/v1/reviews/Shop.example/decision")))
            (str_lower (str_strip (py_str_or (dict_get "decision" ex_decision_fields) ""))) (Some 500) "" dx_state).1 with
          | Ok _ => true | Err _ => false end = true) as Hok by (vm_compute; reflexivity).
  cbv zeta in Hd. destruct (apply_review_decision _ _ _ _ _ _) as [[res|e] s'] in Hd, Hok; [|discriminate Hok].
  destruct Hd as [Hs (Hq & _)]. split; [vm_compute; discriminate|]. rewrite Hs. exact Hq.
Defined.

(** Sockets are numbered; binding to port 0 fails. *)
Record ex_sockets := ExSockets { ex_open : gset Z; ex_access : access_file }.

#[local] Instance ex_socket_env : Sockets ex_sockets := {|
  listen _ port e :=
    if port =? 0 then (Err (OtherError "OSError"), e)
    else let h := fresh (ex_open e) in (Ok h, ExSockets ({[h]} ∪ ex_open e) (ex_access e));
  shutdown h e := ExSockets (ex_open e ∖ {[h]}) (ex_access e);
  thread_alive h e := bool_decide (h ∈ ex_open e);
  access_of := ex_access
|}.

#[local] Instance ex_socket_laws : SocketLaws ex_sockets.
Proof.
  refine {| listening := ex_open |}.
  - intros host port e h e'. cbn. destruct (port =? 0); [done|]. intros [= <- <-]. split; [apply is_fresh|done].
  - intros host port e x e'. cbn. destruct (port =? 0); [by intros [= _ <-]|done].
  - done.
Defined.

Definition ex_options (host : string) (port : Z) : ExternalTriggerOptions :=
  mkExternalTriggerOptions true host port " secret " false 50.
Definition ex_started (options : list ExternalTriggerOptions) : trigger_state ex_sockets :=
  foldl (λ st o, (configure_external_trigger o st).2)
    (TriggerState (ExSockets ∅ (AccessText (quoted "{'mode': ' LAN '}"))) None) options.

(** Starting, moving to another port, failing to move to port 0. *)
Example reconfigure_examples :
  (λ l, size (ex_open (tg_env (ex_started l)))) <$>
    [[]; [ex_options "0.0.0.0" 8765]; [ex_options "0.0.0.0" 8765; ex_options "127.0.0.1" 8766];
     [ex_options "0.0.0.0" 8765; ex_options "127.0.0.1" 0]] = [0; 1; 1; 0]%nat.
Proof. vm_compute. reflexivity. Qed.

Lemma ex_life : rtc life_step (ex_started []) (ex_started [ex_options "0.0.0.0" 8765; ex_options "127.0.0.1" 8766]).
Proof. do 2 (eapply rtc_l; [apply step_configure|]). apply rtc_refl. Qed.

Lemma one_guarded_listener_witness :
  ∃ options h ep, tg_server (ex_started [ex_options "0.0.0.0" 8765; ex_options "127.0.0.1" 8766]) =
      Some (mkTriggerServer options (Some (h, ep))) ∧
    ex_open (tg_env (ex_started [ex_options "0.0.0.0" 8765; ex_options "127.0.0.1" 8766])) = {[h]} ∧
    guarded options ep ∧ ep_access_mode ep = "lan"%string.
Proof.
  pose proof (one_guarded_listener (ex_started []) _ eq_refl eq_refl ex_life) as Hl.
  set (st := ex_started [_; _]) in *.
  assert (match tg_server st with
          | Some (mkTriggerServer _ (Some (_, ep))) => String.eqb (ep_access_mode ep) "lan"
          | _ => false end = true) as Hm by (vm_compute; reflexivity).
  destruct (tg_server st) as [[options [[h ep]|]]|]; [|discriminate Hm..].
  exists options, h, ep. destruct Hl as [Hl Hg]. split; [reflexivity|]. split; [exact Hl|]. split; [exact Hg|].
  by apply String.eqb_eq.
Defined.

(** A file of the access mode that is not UTF-8 stops the server and keeps a new
    one from starting. *)
Example unreadable_access_mode_stops_the_server :
  let st := TriggerState (ExSockets {[7]} (AccessText ex_umlaut)) (Some (mkTriggerServer (ex_options "" 1) (Some (7, ex_endpoint)))) in
  let broken := TriggerState (ExSockets {[7]} (AccessText (String "255" EmptyString))) (tg_server st) in
  (configure_external_trigger (ex_options "" 1) broken).1 = Err (OtherError "UnicodeDecodeError") ∧
  ex_open (tg_env (configure_external_trigger (ex_options "" 1) broken).2) = ∅ ∧
  (configure_external_trigger (ex_options "" 1) st).1 ≠ Err (OtherError "UnicodeDecodeError").
Proof. vm_compute. repeat split; discriminate. Qed.

(** A name that a second normalisation empties raises behind the endpoint: the
    request, and every good name in it, is dropped without an answer. *)
Example blank_dots_end_the_connection :
  (serve ex_program ex_netloc ex_files ex_endpoint
     (ex_request POST "192.168.1.7" "/v1/review" "secret" (ex_body "'good.example', '. . .'")) dx_state).1 = Uncaught "ValueError".
Proof. vm_compute. reflexivity. Qed.
