(* ===== verification/ListAudit.v ===== *)
(** [pihole_manager/list_rule_parser.py], [list_audit.py], [list_audit_config.py]
    and the turns of [list_audit_worker.py]: the domains named by the rules of a
    block list, the download of a list, a cycle over the subscribed lists that
    queues what has not been classified yet, its options and when it is due.

    The download and the worker's clock are the class [ListSource]; the state
    adds the queue and the key-value table of the program. *)
From stdpp Require Import base gmap strings list pretty.
From Stdlib Require Import Ascii QArith Lqa.
From Stdlib Require Qcanon.
From S2P Require Import Prelude HttpRetry Json JsonText Net Models Database Queue.
Open Scope Z_scope.

(** * Rules *)

Definition alnum (c : Ascii.ascii) : bool := is_alpha c || is_digit c.

Fixpoint str_last (s : string) : option Ascii.ascii :=
  match s with
  | EmptyString => None
  | String c EmptyString => Some c
  | String _ s => str_last s
  end.

(** [_HOST_LABEL_RE.fullmatch] *)
Definition host_label (label : string) : bool :=
  match label, str_last label with
  | String first _, Some last =>
      alnum first && alnum last && str_forallb (λ c, alnum c || Ascii.eqb c "-"%char) label && Nat.leb (String.length label) 63
  | _, _ => false
  end.

(** One of the characters occurs. *)
Definition has_any (chars : list Ascii.ascii) (s : string) : bool :=
  negb (str_forallb (λ c, negb (bool_decide (c ∈ chars))) s).

Section Rules.
(** The codec [idna] on a text that is not ASCII; [None] is [UnicodeError]. *)
Context (idna : string → option string).

(** On an ASCII text the codec only checks the lengths of the labels. *)
Definition encode_idna (s : string) : option string :=
  if is_ascii s then
    let labels := str_split "."%char s in
    let short l := Nat.ltb (String.length l) 64 in
    if forallb (λ l, str_nonempty l && short l) (removelast labels) && forallb short labels then Some s else None
  else idna s.

Definition _validated_domain (value : string) : string :=
  let normalized := rstrip is_dot (str_lower (str_strip value)) in
  if negb (str_nonempty normalized) || (253 <? char_length normalized) || negb (str_contains "." normalized) then ""%string
  else if is_ip_address normalized then ""%string
  else
    match encode_idna normalized with
    | None => ""%string
    | Some ascii_domain =>
        if forallb (λ label, str_nonempty label && Nat.leb (String.length label) 63 && host_label label)
             (str_split "."%char ascii_domain)
        then normalized else ""%string
    end.

Definition domain_from_list_rule (rule : string) : string :=
  let value := str_strip rule in
  if negb (str_nonempty value) || existsb (str_startswith value) ["!"; "#"; "["; "@@"]%string then ""%string
  else if str_startswith value "||" then
    let candidate := (str_cut "$"%char (String.substring 2 (String.length value - 2) value)).1 in
    let bar c := Ascii.eqb c "|"%char || Ascii.eqb c "/"%char in
    let candidate := rstrip bar (lstrip bar (str_cut "^"%char candidate).1) in
    if negb (str_nonempty candidate) || has_any ["*"; "["; "]"; "("; ")"; backslash]%char candidate then ""%string
    else _validated_domain candidate
  else
    match str_words value with
    | first :: second :: _ => if is_ip_address first then _validated_domain second else ""%string
    | [_] =>
        if has_any ["/"; "^"; "$"; "|"; "*"; "="; ","; ";"; "("; ")"; "["; "]"; backslash]%char value then ""%string
        else _validated_domain value
    | [] => ""%string
    end.

(** * Lines *)

Record ListFetchResult := mkFetch { lf_domains : list string; lf_truncated : bool }.

(** A line as bytes or as text. *)
Inductive raw_line := BytesLine (bytes : string) | TextLine (text : string).
Definition line_bytes (l : raw_line) : Z := match l with BytesLine s | TextLine s => Z.of_nat (String.length s) end.
Definition line_text (l : raw_line) : string := match l with BytesLine s => utf8_replace s | TextLine s => s end.

(** The loop over the lines, with the domains found so far; the flag says
    whether it stopped before the end of the lines. *)
Fixpoint extract_loop (limit byte_limit consumed : Z) (domains : list string) (lines : list raw_line) : ListFetchResult :=
  match lines with
  | [] => mkFetch domains false
  | line :: lines =>
      let consumed := consumed + line_bytes line + 1 in
      if byte_limit <? consumed then mkFetch domains true
      else
        let domain := domain_from_list_rule (line_text line) in
        if negb (str_nonempty domain) || bool_decide (domain ∈ domains)
        then extract_loop limit byte_limit consumed domains lines
        else
          let domains := domains ++ [domain] in
          if limit <=? Z.of_nat (length domains) then mkFetch domains true
          else extract_loop limit byte_limit consumed domains lines
  end.

Definition _MAX_DOWNLOAD_BYTES : Z := 32 * 1024 * 1024.

Definition extract_domains_from_lines (lines : list raw_line) (max_domains max_bytes : Z) : ListFetchResult :=
  extract_loop (Z.max 1 max_domains) (Z.max 1 max_bytes) 0 [] lines.
End Rules.

(** * Downloading *)

(** A streamed response: the lines that arrive, and the error that ends them
    when the connection breaks. *)
Record list_stream := mkStream { ls_status : Z; ls_error : string; ls_lines : list string; ls_broken : option string }.

Class ListSource (env : Type) := {
  (** [requests.get(address, stream=True)]; [Err] is an exception *)
  open_list : string → Q → env → result string list_stream * env;
  (** the stop event is set *)
  stopping : env → bool * env;
  (** [stop_event.wait(seconds)]: it was set meanwhile *)
  pause : Q → env → bool * env;
  (** [fetch_subscribed_lists()] *)
  subscribed_lists : env → result exn (list (list (string * json))) * env;
  (** [time.time()] *)
  audit_clock : env → Q * env
}.

Record audit_state (env : Type) := AuditState { as_env : env; as_db : db; as_app : gmap string string }.
Arguments AuditState {env}.
Arguments as_env {env}.
Arguments as_db {env}.
Arguments as_app {env}.

Record ListAuditOptions := mkAuditOptions {
  la_enabled : bool;
  la_interval_sec : Z;
  la_batch_size : Z;
  la_rate_limit_sec : Q;
  la_max_domains_per_list : Z
}.

Record ListAuditSummary := mkSummary {
  su_lists_seen : Z;
  su_lists_audited : Z;
  su_lists_failed : Z;
  su_domains_seen : Z;
  su_domains_queued : Z;
  su_batches : Z;
  su_truncated_lists : Z;
  su_cancelled : bool
}.

Section Cycle.
Context {env : Type} `{ListSource env} `{PyRepr}.
Context (idna : string → option string) (netloc_ok : string → bool).
(** The options and the second in force. *)
Context (excluded_suffixes : list string) (now : Z) (audit : ListAuditOptions) (timeout_sec : Q).

Abbreviation aprog := (prog (audit_state env) exn).
Implicit Types s : audit_state env.

Definition ask {A} (f : env → A * env) : aprog A := λ s,
  let r := f (as_env s) in (Ok r.1, AuditState r.2 (as_db s) (as_app s)).
Definition on_queue {A} (m : dbprog A) : aprog A := λ s,
  let r := m (as_db s) in (r.1, AuditState (as_env s) r.2 (as_app s)).

Definition fetch_domains_from_list (address : string) (max_domains : Z) : aprog ListFetchResult :=
  match split_url netloc_ok (str_strip address) with
  | None => prog_raise (ValueError "Invalid URL")
  | Some (scheme, netloc, _) =>
      if negb (bool_decide (scheme ∈ ["http"; "https"]%string)) || negb (str_nonempty netloc)
      then prog_raise (ValueError "List audit currently supports HTTP and HTTPS list addresses only.")
      else
        opened ← ask (open_list address (qmax 1 timeout_sec));
        match opened with
        | Err e => prog_raise (OtherError e)
        | Ok stream =>
            if (400 <=? ls_status stream) && (ls_status stream <? 600) then prog_raise (OtherError (ls_error stream))
            else
              let r := extract_domains_from_lines idna (BytesLine <$> ls_lines stream) max_domains _MAX_DOWNLOAD_BYTES in
              match ls_broken stream with
              | Some e => if lf_truncated r then mret r else prog_raise (OtherError e)
              | None => mret r
              end
        end
  end.

(** [try: ... except Exception] *)
Definition attempt {A} (m : aprog A) : aprog (option A) := λ s,
  match m s with (Ok a, s') => (Ok (Some a), s') | (Err _, s') => (Ok None, s') end.

(** The counters of a cycle so far, whether a batch was queued, and whether the
    cycle was cancelled. *)
Record progress := mkProgress { pg_summary : ListAuditSummary; pg_first_batch : bool }.

Definition cancelled (p : progress) : progress :=
  let u := pg_summary p in
  mkProgress (mkSummary (su_lists_seen u) (su_lists_audited u) (su_lists_failed u) (su_domains_seen u) (su_domains_queued u)
                (su_batches u) (su_truncated_lists u) true) (pg_first_batch p).
Definition list_failed (p : progress) : progress :=
  let u := pg_summary p in
  mkProgress (mkSummary (su_lists_seen u) (su_lists_audited u) (su_lists_failed u + 1) (su_domains_seen u) (su_domains_queued u)
                (su_batches u) (su_truncated_lists u) (su_cancelled u)) (pg_first_batch p).
Definition list_audited (fetched : ListFetchResult) (p : progress) : progress :=
  let u := pg_summary p in
  mkProgress (mkSummary (su_lists_seen u) (su_lists_audited u + 1) (su_lists_failed u)
                (su_domains_seen u + Z.of_nat (length (lf_domains fetched))) (su_domains_queued u) (su_batches u)
                (su_truncated_lists u + if lf_truncated fetched then 1 else 0) (su_cancelled u)) (pg_first_batch p).
Definition batch_queued (queued : Z) (p : progress) : progress :=
  let u := pg_summary p in
  mkProgress (mkSummary (su_lists_seen u) (su_lists_audited u) (su_lists_failed u) (su_domains_seen u)
                (su_domains_queued u + queued) (su_batches u + 1) (su_truncated_lists u) (su_cancelled u)) false.

(** The batches of one list. *)
Fixpoint queue_batches (batches : list (list string)) (p : progress) : aprog progress :=
  match batches with
  | [] => mret p
  | batch :: batches =>
      stop ← ask stopping;
      if (stop : bool) then mret (cancelled p)
      else
        interrupted ← (if negb (pg_first_batch p) && qltb 0 (la_rate_limit_sec audit)
                       then ask (pause (la_rate_limit_sec audit)) else mret false);
        if (interrupted : bool) then mret (cancelled p)
        else
          queued ← on_queue (staging_enqueue excluded_suffixes now batch 0 "list_audit" "background");
          queue_batches batches (batch_queued queued p)
  end.

Definition eligible_domains (fetched : ListFetchResult) : aprog (list string) :=
  prog_read (λ s, filter_unclassified_domains (lf_domains fetched) (as_db s)).

Definition audit_list (row : list (string * json)) (p : progress) : aprog progress :=
  let address := str_strip (py_str_or (dict_get "address" row) "") in
  if negb (str_nonempty address) then mret (list_failed p)
  else
    outcome ← attempt (fetch_domains_from_list address (la_max_domains_per_list audit));
    match outcome with
    | None => mret (list_failed p)
    | Some fetched =>
        let p := list_audited fetched p in
        eligible ← eligible_domains fetched;
        queue_batches (chunks (Z.to_nat (Z.max 1 (la_batch_size audit))) eligible) p
    end.

Fixpoint audit_lists (rows : list (list (string * json))) (p : progress) : aprog progress :=
  match rows with
  | [] => mret p
  | row :: rows =>
      stop ← ask stopping;
      if (stop : bool) then mret (cancelled p)
      else
        p' ← audit_list row p;
        if su_cancelled (pg_summary p') then mret p' else audit_lists rows p'
  end.

Definition enabled_row (row : list (string * json)) : bool := py_truthy (default (JBool true) (dict_get "enabled" row)).

Definition run_list_audit_cycle : aprog ListAuditSummary :=
  fetched ← ask subscribed_lists;
  match fetched with
  | Err e => prog_raise e
  | Ok rows =>
      let rows := filter (λ row, enabled_row row = true) rows in
      p ← audit_lists rows (mkProgress (mkSummary (Z.of_nat (length rows)) 0 0 0 0 0 0 false) true);
      mret (pg_summary p)
  end.
End Cycle.

(** * What the rules name *)

Section RuleFacts.
Context (idna : string → option string).

(** A domain as the parser returns it: normalised, not too long, with a dot,
    not an address, and with host labels in its encoded form. *)
Record valid_domain (d : string) : Prop := {
  vd_lower : str_lower d = d;
  vd_dots : rstrip is_dot d = d;
  vd_length : char_length d ≤ 253;
  vd_dot : str_contains "." d = true;
  vd_address : is_ip_address d = false;
  vd_labels : ∃ a, encode_idna idna d = Some a ∧
    Forall (λ l, host_label l = true ∧ (String.length l ≤ 63)%nat) (str_split "."%char a)
}.

Lemma validated_name_ok value : _validated_domain idna value ≠ ""%string → valid_domain (_validated_domain idna value).
Proof.
  unfold _validated_domain. set (n := rstrip is_dot (str_lower (str_strip value))).
  destruct (_ || _ || _) eqn:E1; [done|]. destruct (is_ip_address n) eqn:E2; [done|].
  destruct (encode_idna idna n) as [a|] eqn:E3; [|done]. destruct (forallb _ _) eqn:E4; [|done]. intros _.
  apply orb_false_iff in E1 as [[_ Hl]%orb_false_iff Hd%negb_false_iff]. constructor; try done.
  - apply rstrip_lower_fixed; [apply lower_char_dot|apply str_lower_idemp].
  - apply rstrip_idemp.
  - by apply Z.ltb_ge.
  - exists a. split; [done|]. apply Forall_forall. intros l Hin%list_elem_of_In.
    pose proof (proj1 (forallb_forall _ _) E4 l Hin) as Hb. apply andb_true_iff in Hb as [[_ Hn]%andb_true_iff Hh].
    split; [done|]. by apply Nat.leb_le.
Qed.

Lemma rule_ok rule : domain_from_list_rule idna rule ≠ ""%string → valid_domain (domain_from_list_rule idna rule).
Proof.
  unfold domain_from_list_rule. destruct (_ || existsb _ _); [done|].
  destruct (str_startswith _ _); [destruct (_ || _); [done|apply validated_name_ok]|].
  destruct (str_words _) as [|w [|w' ws]]; [done| |].
  - destruct (has_any _ _); [done|apply validated_name_ok].
  - destruct (is_ip_address w); [apply validated_name_ok|done].
Qed.

(** ** ASCII names have no blanks *)

Lemma split_forallb p sep s : p sep = true → Forall (λ w, str_forallb p w = true) (str_split sep s) → str_forallb p s = true.
Proof.
  intros Hp. induction s as [|c s IH]; cbn [str_split str_forallb]; [done|]. destruct (Ascii.eqb c sep) eqn:E.
  - apply Ascii.eqb_eq in E as ->. rewrite Hp. intros [_ Hs]%Forall_cons. by apply IH.
  - destruct (str_split sep s) as [|w ws]; intros Hs.
    + apply Forall_cons in Hs as [Hc _]. cbn in Hc. apply andb_true_iff in Hc as [Hc _]. rewrite Hc. by apply IH.
    + apply Forall_cons in Hs as [Hc Hs]. cbn [str_forallb] in Hc. apply andb_true_iff in Hc as [Hc Hw]. rewrite Hc.
      apply IH. by constructor.
Qed.

Lemma alnum_no_space c : alnum c || Ascii.eqb c "-"%char = true → negb (is_space c) = true.
Proof. destruct c as [[] [] [] [] [] [] [] []]; vm_compute; done. Qed.

Lemma forallb_impl_str p q s : (∀ c, p c = true → q c = true) → str_forallb p s = true → str_forallb q s = true.
Proof.
  intros Hpq. induction s as [|c s IH]; cbn; [done|]. intros [Hc Hs]%andb_true_iff. by rewrite (Hpq c Hc), (IH Hs).
Qed.

Lemma valid_ascii_stable d : valid_domain d → is_ascii d = true → stable_name d.
Proof.
  intros [Hlow Hdots _ Hdot _ (a & Ha & Hl)] Hascii. unfold encode_idna in Ha. rewrite Hascii in Ha.
  destruct (_ && _) in Ha; [|done]. injection Ha as <-.
  assert (no_space d = true) as Hs.
  { apply (split_forallb _ "."%char); [done|]. eapply Forall_impl; [exact Hl|]. intros l [Hh _]. unfold host_label in Hh.
    destruct l as [|c l]; [done|]. destruct (str_last _); [|done].
    apply andb_true_iff in Hh as [[_ Hc]%andb_true_iff _]. by eapply forallb_impl_str; [apply alnum_no_space|]. }
  split.
  - unfold _normalize_domain, str_strip. by rewrite (lstrip_none _ _ Hs), (rstrip_none _ _ Hs), Hlow.
  - by intros ->.
Qed.

(** * What the lines name *)

(** The lines before the one that exceeds the byte limit. *)
Fixpoint lines_within (byte_limit consumed : Z) (lines : list raw_line) : list raw_line :=
  match lines with
  | [] => []
  | line :: lines =>
      let consumed := consumed + line_bytes line + 1 in
      if byte_limit <? consumed then [] else line :: lines_within byte_limit consumed lines
  end.

Definition named_domains (lines : list raw_line) : list string :=
  filter (λ d, str_nonempty d = true) (domain_from_list_rule idna ∘ line_text <$> lines).

Lemma fromkeys_from_ext (l : list string) : ∀ s1 s2, (∀ x, x ∈ s1 ↔ x ∈ s2) → fromkeys_from s1 l = fromkeys_from s2 l.
Proof.
  induction l as [|x l IH]; intros s1 s2 Hs; cbn [fromkeys_from]; [done|].
  destruct (decide (x ∈ s1)), (decide (x ∈ s2)); try (exfalso; set_solver).
  - by apply IH.
  - f_equal. apply IH. set_solver.
Qed.

Lemma extract_loop_spec limit byte_limit lines : ∀ consumed ds, Z.of_nat (length ds) < limit →
  let all := ds ++ fromkeys_from ds (named_domains (lines_within byte_limit consumed lines)) in
  extract_loop idna limit byte_limit consumed ds lines =
    mkFetch (take (Z.to_nat limit) all)
      ((limit <=? Z.of_nat (length all)) || Nat.ltb (length (lines_within byte_limit consumed lines)) (length lines)).
Proof.
  induction lines as [|line lines IH]; intros consumed ds Hlt all; unfold all; cbn [extract_loop lines_within].
  { cbn. rewrite app_nil_r, take_ge by lia. by rewrite (proj2 (Z.leb_gt _ _)) by lia. }
  destruct (byte_limit <? _) eqn:Eb.
  { cbn. rewrite app_nil_r, take_ge by lia. by rewrite orb_true_r. }
  set (consumed' := consumed + line_bytes line + 1). set (domain := domain_from_list_rule idna (line_text line)).
  assert (named_domains (line :: lines_within byte_limit consumed' lines) =
    (if str_nonempty domain then [domain] else []) ++ named_domains (lines_within byte_limit consumed' lines)) as ->.
  { unfold named_domains. rewrite fmap_cons. unfold compose at 1 3. fold domain. rewrite filter_cons.
    case_decide as Hd; [by rewrite Hd|]. by destruct (str_nonempty domain). }
  destruct (str_nonempty domain) eqn:En; cbn [negb orb app fromkeys_from]; [|by rewrite IH by done].
  case_bool_decide as Hin; [rewrite decide_True by done; by rewrite IH by done|]. rewrite decide_False by done.
  rewrite length_app. cbn [length]. destruct (limit <=? _) eqn:El; [apply Z.leb_le in El|apply Z.leb_gt in El].
  - assert (length (ds ++ [domain]) = Z.to_nat limit) as Hlen by (rewrite length_app; cbn; lia).
    rewrite (cons_middle domain ds (fromkeys_from _ _)), (assoc_L (++)), <-Hlen, take_app_length. f_equal.
    symmetry. apply orb_true_iff. left. apply Z.leb_le. rewrite length_app. lia.
  - rewrite IH by (rewrite length_app; cbn; lia). rewrite (fromkeys_from_ext _ (ds ++ [domain]) (domain :: ds)) by set_solver.
    by rewrite (cons_middle domain ds (fromkeys_from _ _)), (assoc_L (++)).
Qed.

Lemma extract_eq lines max_domains max_bytes :
  let within := lines_within (Z.max 1 max_bytes) 0 lines in
  let all := fromkeys (named_domains within) in
  extract_domains_from_lines idna lines max_domains max_bytes =
    mkFetch (take (Z.to_nat (Z.max 1 max_domains)) all)
      ((Z.max 1 max_domains <=? Z.of_nat (length all)) || Nat.ltb (length within) (length lines)).
Proof. intros within all. unfold extract_domains_from_lines. by rewrite extract_loop_spec by (cbn; lia). Qed.

Lemma extract_valid lines max_domains max_bytes :
  Forall valid_domain (lf_domains (extract_domains_from_lines idna lines max_domains max_bytes)).
Proof.
  rewrite extract_eq. cbn [lf_domains]. apply Forall_forall. intros d Hd.
  apply elem_of_take in Hd as (i & Hi & _). apply list_elem_of_lookup_2 in Hi.
  apply elem_of_fromkeys, list_elem_of_filter in Hi as [Hne (line & -> & _)%list_elem_of_fmap].
  apply rule_ok. by intros E; unfold compose in Hne; rewrite E in Hne.
Qed.

(** Reading a list is exact: the result holds the first distinct domains
    that the lines within the byte limit name, as many as the bound allows, and
    says that it was cut exactly when the bound was reached or a line exceeded
    the byte limit; every domain is normalised, at most 253 characters long,
    not an address, and made of host labels. *)
Theorem extraction_is_exact lines max_domains max_bytes :
  let r := extract_domains_from_lines idna lines max_domains max_bytes in
  let within := lines_within (Z.max 1 max_bytes) 0 lines in
  let all := fromkeys (named_domains within) in
  lf_domains r = take (Z.to_nat (Z.max 1 max_domains)) all ∧
  (lf_truncated r = true ↔ Z.max 1 max_domains ≤ Z.of_nat (length all) ∨ (length within < length lines)%nat) ∧
  NoDup (lf_domains r) ∧ Forall valid_domain (lf_domains r).
Proof.
  intros r within all. unfold r. split_and!; [| | |apply extract_valid]; rewrite extract_eq; cbn [lf_domains lf_truncated].
  - done.
  - by rewrite orb_true_iff, Z.leb_le, Nat.ltb_lt.
  - eapply sublist_NoDup; [apply fromkeys_NoDup|apply sublist_take].
Qed.
End RuleFacts.

(** * What a cycle leaves *)

Lemma prog_bind_Ok {S E A B} (m : prog S E A) (k : A → prog S E B) s b s' :
  (m ≫= k) s = (Ok b, s') → ∃ a s1, m s = (Ok a, s1) ∧ k a s1 = (Ok b, s').
Proof. unfold mbind, prog_bind. destruct (m s) as [[a|e] s1]; [eauto|done]. Qed.

Lemma prog_bind_Err {S E A B} (m : prog S E A) (k : A → prog S E B) s e s' :
  (m ≫= k) s = (Err e, s') → m s = (Err e, s') ∨ ∃ a s1, m s = (Ok a, s1) ∧ k a s1 = (Err e, s').
Proof. unfold mbind, prog_bind. destruct (m s) as [[a|e1] s1]; [eauto|]. intros [= -> ->]. by left. Qed.

Lemma ensure_keeps_classified now v d n d' k :
  _ensure_domain now v (Some now) 0 d = Ok (n, d') → is_classified d k = true → is_classified d' k = true.
Proof.
  unfold _ensure_domain. destruct (negb _); [done|]. cbv [mbind tx_bind tx_write mret tx_ret].
  intros [= <- <-]. unfold is_classified. cbn [domains set_domains review].
  destruct (decide (_normalize_domain v = k)) as [->|]; [rewrite lookup_insert_eq|by rewrite lookup_insert_ne].
  destruct (domains d !! k) as [r|]; [|done]. by destruct r.
Qed.

Lemma put_staging_classified n r d k : is_classified (set_staging (<[n := r]>) d) k = is_classified d k.
Proof. done. Qed.

Lemma enqueue_one_classified now p src pool rq c v c' d d' k :
  enqueue_one now p src pool rq c v d = Ok (c', d') → is_classified d k = true → is_classified d' k = true.
Proof.
  unfold enqueue_one, mbind, tx_bind. destruct (_ensure_domain _ _ _ _ _) as [[n d1]|e] eqn:He; [|done].
  intros H Hk. eapply ensure_keeps_classified in Hk; [|exact He]. revert H.
  cbn [tx_read put_staging tx_write mret tx_ret]. destruct (domain_locks d1 !! n); [by intros [= _ <-]|].
  destruct (staging_domains d1 !! n); [|intros [= _ <-]; by rewrite put_staging_classified].
  repeat (match goal with |- context [if ?b then _ else _] => destruct b end);
    intros [= _ <-]; rewrite ?put_staging_classified; done.
Qed.

Section CycleFacts.
Context {env : Type} `{ListSource env} `{PyRepr}.
Context (idna : string → option string) (netloc_ok : string → bool).
Context (excluded_suffixes : list string) (now : Z) (audit : ListAuditOptions) (timeout_sec : Q).
Implicit Types s : audit_state env.

(** Nothing is left to do for a domain: it has been classified, is locked, is
    excluded, or has a row in the queue. *)
Definition settled (d : db) (k : string) : Prop :=
  is_classified d k = true ∨ is_Some (domain_locks d !! k) ∨ _domain_matches_suffix k excluded_suffixes = true ∨
  is_Some (staging_domains d !! k).

Lemma enqueue_one_settles p src pool rq c v c' d d' :
  enqueue_one now p src pool rq c v d = Ok (c', d') →
  settled d' (_normalize_domain v) ∧ ∀ k, settled d k → settled d' k.
Proof.
  intros E. pose proof (λ k, enqueue_one_classified _ _ _ _ _ _ _ _ _ _ k E) as Hc.
  apply enqueue_one_spec in E as (_ & _ & _ & _ & Hs & r & Ho).
  assert (domain_locks d' = domain_locks d) as Hl by exact (f_equal domain_locks Ho).
  unfold settled. rewrite Hl, Hs. split.
  - case_decide as Hd; [do 3 right; by rewrite lookup_insert_eq|]. right. left. by apply not_eq_None_Some.
  - intros k [Hk|[Hk|[Hk|Hk]]]; eauto. do 3 right. case_decide; [|done].
    destruct (decide (_normalize_domain v = k)) as [->|]; [by rewrite lookup_insert_eq|by rewrite lookup_insert_ne].
Qed.

Lemma enqueue_fold_settles p src pool rq l : ∀ c d c' d',
  tx_fold (enqueue_one now p src pool rq) c l d = Ok (c', d') →
  (∀ v, v ∈ l → settled d' (_normalize_domain v)) ∧ ∀ k, settled d k → settled d' k.
Proof.
  induction l as [|v l IH]; intros c d c' d'; cbn [tx_fold].
  { intros [= _ <-]. split; [by intros v ?%not_elem_of_nil|done]. }
  unfold mbind, tx_bind. destruct (enqueue_one _ _ _ _ _ _ _ _) as [[c1 d1]|e] eqn:E; [|done].
  apply enqueue_one_settles in E as [Hv Hk]. intros [Hl Hkl]%IH. split; [|by auto].
  intros w [->|Hw]%elem_of_cons; auto.
Qed.

Lemma enqueue_settles vs p src pool d n d' :
  staging_enqueue excluded_suffixes now vs p src pool d = (Ok n, d') →
  (∀ k, k ∈ vs → stable_name k → settled d' k) ∧ ∀ k, settled d k → settled d' k.
Proof.
  unfold staging_enqueue, staging_enqueue_detailed, commit. unfold mbind, prog_bind.
  set (us := unique_normalized vs). set (l := filter _ us).
  destruct (tx_fold _ _ _ _) as [[c d1]|e] eqn:E; [|done]. intros [= _ <-].
  apply enqueue_fold_settles in E as [Hl Hk]. split; [|done].
  intros k Hin [Hn Hne]. destruct (_domain_matches_suffix k excluded_suffixes) eqn:Em; [by do 2 right; left|].
  rewrite <-Hn. apply Hl. unfold l. rewrite !list_elem_of_filter, Em. split; [naive_solver|].
  apply unique_normalized_spec. eauto.
Qed.

(** The program writes to the queue only, and what it settled stays settled. *)
Definition settles {A} (m : prog (audit_state env) exn A) : Prop :=
  ∀ s a s', m s = (Ok a, s') → ∀ k, settled (as_db s) k → settled (as_db s') k.

Lemma fetch_keeps_db address n s : as_db (fetch_domains_from_list idna netloc_ok timeout_sec address n s).2 = as_db s.
Proof.
  unfold fetch_domains_from_list. destruct (split_url _ _) as [[[? ?] ?]|]; [|done].
  destruct (_ || _); [done|]. unfold mbind, prog_bind, ask.
  destruct (open_list _ _ _) as [[st|e] w]; cbn [fst snd]; [|done]. destruct (_ && _); [done|].
  destruct (ls_broken st); [|done]. by destruct (lf_truncated _).
Qed.

Lemma queue_batches_settles batches : ∀ p s p' s',
  queue_batches excluded_suffixes now audit batches p s = (Ok p', s') → su_cancelled (pg_summary p) = false →
  (∀ k, settled (as_db s) k → settled (as_db s') k) ∧
  (su_cancelled (pg_summary p') = false →
    (∀ k, k ∈ mjoin batches → stable_name k → settled (as_db s') k) ∧
    su_lists_seen (pg_summary p') = su_lists_seen (pg_summary p) ∧
    su_lists_audited (pg_summary p') = su_lists_audited (pg_summary p) ∧
    su_lists_failed (pg_summary p') = su_lists_failed (pg_summary p) ∧
    su_domains_seen (pg_summary p') = su_domains_seen (pg_summary p) ∧
    su_truncated_lists (pg_summary p') = su_truncated_lists (pg_summary p) ∧
    su_batches (pg_summary p') = su_batches (pg_summary p) + Z.of_nat (length batches)).
Proof.
  induction batches as [|batch batches IH]; intros p s p' s'; cbn [queue_batches].
  { intros [= <- <-] _. split; [done|]. intros _. split; [by intros k ?%not_elem_of_nil|]. cbn. split_and!; lia. }
  intros (stop & s1 & E1 & H1)%prog_bind_Ok Hp. injection E1 as <- <-.
  destruct (stopping _) as [[] w1]; cbn [fst snd] in H1; [by injection H1 as <- <-|].
  apply prog_bind_Ok in H1 as (i & s2 & E2 & H2).
  assert (as_db s2 = as_db s) as Hd2.
  { destruct (_ && _) in E2; [by injection E2 as _ <-|by injection E2 as _ <-]. }
  rewrite <-Hd2. destruct i; [by injection H2 as <- <-|].
  apply prog_bind_Ok in H2 as (n & s3 & E3 & H3).
  assert (∃ d3, staging_enqueue excluded_suffixes now batch 0 "list_audit" "background" (as_db s2) = (Ok n, d3) ∧ as_db s3 = d3)
    as (d3 & E4%enqueue_settles & Hd3).
  { unfold on_queue in E3. destruct (staging_enqueue _ _ _ _ _ _ _) as [r d3]. injection E3 as -> <-. eauto. }
  subst d3. destruct E4 as [Hin Hmono]. apply IH in H3 as [Hm Hc]; [|done]. split; [by auto|].
  intros Hx. destruct (Hc Hx) as (Hall & ? & ? & ? & ? & ? & Hb). cbn [pg_summary batch_queued] in *.
  split; [|cbn in *; split_and!; try done; cbn [length]; lia].
  intros k [Hk|Hk]%elem_of_app Hst; auto.
Qed.

(** What came of one list: not read, or read with this result. *)
Definition row_outcome (row : list (string * json)) (o : option ListFetchResult) : Prop :=
  let address := str_strip (py_str_or (dict_get "address" row) "") in
  let fetch := fetch_domains_from_list idna netloc_ok timeout_sec address (la_max_domains_per_list audit) in
  match o with
  | None => address = ""%string ∨ ∃ t e t', fetch t = (Err e, t')
  | Some fetched => address ≠ ""%string ∧ ∃ t t', fetch t = (Ok fetched, t')
  end.

Definition outcome_domains (o : option ListFetchResult) : list string := default [] (lf_domains <$> o).
Definition was_read (o : option ListFetchResult) : bool := match o with Some _ => true | None => false end.
Definition was_cut (o : option ListFetchResult) : bool := match o with Some f => lf_truncated f | None => false end.

(** The summary counts the outcomes. *)
Definition counts_outcomes (os : list (option ListFetchResult)) (u u' : ListAuditSummary) : Prop :=
  su_lists_seen u' = su_lists_seen u ∧
  su_lists_audited u' = su_lists_audited u + count_if was_read os ∧
  su_lists_failed u' = su_lists_failed u + count_if (negb ∘ was_read) os ∧
  su_domains_seen u' = su_domains_seen u + sumZ (λ o, Z.of_nat (length (outcome_domains o))) os ∧
  su_truncated_lists u' = su_truncated_lists u + count_if was_cut os.

Ltac counts_one := unfold counts_outcomes; rewrite ?count_if_cons; unfold count_if, sumZ; cbn; lia.

(** A list that was read has all its ASCII domains settled. *)
Definition outcome_settled (d : db) (o : option ListFetchResult) : Prop :=
  ∀ k, k ∈ outcome_domains o → is_ascii k = true → settled d k.

Lemma counts_outcomes_cons o os u u1 u' :
  counts_outcomes [o] u u1 → counts_outcomes os u1 u' → counts_outcomes (o :: os) u u'.
Proof.
  unfold counts_outcomes. rewrite !count_if_cons. cbn [sumZ foldr]. intros (?&?&?&?&?) (?&?&?&?&?).
  split_and!; unfold count_if, sumZ in *; cbn in *; lia.
Qed.

Lemma fetched_valid address n s f s' :
  fetch_domains_from_list idna netloc_ok timeout_sec address n s = (Ok f, s') → Forall (valid_domain idna) (lf_domains f).
Proof.
  unfold fetch_domains_from_list. destruct (split_url _ _) as [[[? ?] ?]|]; [|done]. destruct (_ || _); [done|].
  intros (st & t1 & _ & H1)%prog_bind_Ok. destruct st as [st|e]; [|done]. destruct (_ && _) in H1; [done|].
  assert (f = extract_domains_from_lines idna (BytesLine <$> ls_lines st) n _MAX_DOWNLOAD_BYTES) as ->.
  { destruct (ls_broken st); [|by injection H1]. destruct (lf_truncated _); [by injection H1|done]. }
  apply extract_valid.
Qed.

Lemma eligible_covers f d k :
  Forall (valid_domain idna) (lf_domains f) → k ∈ lf_domains f → is_ascii k = true →
  stable_name k ∧ (is_classified d k = true ∨ k ∈ filter_unclassified_domains (lf_domains f) d).
Proof.
  intros Hv Hk Ha. assert (stable_name k) as Hs.
  { eapply valid_ascii_stable; [|done]. by eapply Forall_forall in Hv. }
  split; [done|]. destruct (is_classified d k) eqn:Ec; [by left|right]. rewrite chunked_filter_is_plain_filter. apply list_elem_of_filter. split; [done|].
  apply unique_normalized_spec. destruct Hs. split; [done|]. by exists k.
Qed.

Lemma audit_list_spec row p s p' s' :
  audit_list idna netloc_ok excluded_suffixes now audit timeout_sec row p s = (Ok p', s') →
  su_cancelled (pg_summary p) = false →
  (∀ k, settled (as_db s) k → settled (as_db s') k) ∧
  (su_cancelled (pg_summary p') = false →
    ∃ o, row_outcome row o ∧ counts_outcomes [o] (pg_summary p) (pg_summary p') ∧ outcome_settled (as_db s') o).
Proof.
  unfold audit_list. destruct (str_strip _) as [|c a] eqn:Ea; cbn [str_nonempty negb].
  { intros [= <- <-] _. split; [done|]. intros _. exists None. split; [by left|].
    split; [|by intros k ?%not_elem_of_nil]. counts_one. }
  rewrite <-Ea. intros (o & s1 & E1 & H1)%prog_bind_Ok Hp. unfold attempt in E1.
  destruct (fetch_domains_from_list _ _ _ _ _ _) as [r t] eqn:Ef.
  assert (as_db t = as_db s) as Ht by (rewrite <-(fetch_keeps_db (str_strip (py_str_or (dict_get "address" row) "")) (la_max_domains_per_list audit) s); by rewrite Ef).
  destruct r as [f|e].
  2: { injection E1 as <- <-. injection H1 as <- <-. rewrite Ht. split; [done|]. intros _. exists None.
    split; [right; eauto|]. split; [|by intros k ?%not_elem_of_nil]. counts_one. }
  injection E1 as <- <-. apply prog_bind_Ok in H1 as (el & s2 & E2 & H2). injection E2 as <- <-.
  apply queue_batches_settles in H2 as [Hm Hc]; [|done]. rewrite Ht in *. split; [done|]. intros Hx.
  destruct (Hc Hx) as (Hall & H1 & H2 & H3 & H4 & H5 & _). exists (Some f). split; [split; [by rewrite Ea|eauto]|]. split.
  - unfold counts_outcomes. rewrite !count_if_cons. unfold count_if, sumZ. cbn in *. destruct (lf_truncated f); cbn; lia.
  - intros k Hk Ha. destruct (eligible_covers f (as_db s) k) as [Hs [Hcl|Hel]]; [by eapply fetched_valid|done|done| |].
    + apply Hm. by left.
    + apply Hall; [|done]. unfold chunks. by rewrite chunks_fuel_join by lia.
Qed.

Lemma audit_lists_spec rows : ∀ p s p' s',
  audit_lists idna netloc_ok excluded_suffixes now audit timeout_sec rows p s = (Ok p', s') →
  su_cancelled (pg_summary p) = false →
  (∀ k, settled (as_db s) k → settled (as_db s') k) ∧
  (su_cancelled (pg_summary p') = false →
    ∃ os, Forall2 row_outcome rows os ∧ counts_outcomes os (pg_summary p) (pg_summary p') ∧
      Forall (outcome_settled (as_db s')) os).
Proof.
  induction rows as [|row rows IH]; intros p s p' s'; cbn [audit_lists].
  { intros [= <- <-] _. split; [done|]. intros _. exists []. split; [done|]. split; [|done].
    counts_one. }
  intros (stop & s1 & E1 & H1)%prog_bind_Ok Hp. injection E1 as <- <-.
  destruct (stopping _) as [[] w1]; cbn [fst snd] in H1; [injection H1 as <- <-; split; [done|by intros ?]|].
  apply prog_bind_Ok in H1 as (p1 & s2 & E2 & H2). apply audit_list_spec in E2 as [Hm Hc]; [|done]. cbn [as_db] in Hm.
  destruct (su_cancelled (pg_summary p1)) eqn:Ec; [injection H2 as <- <-; split; [done|by rewrite Ec]|].
  destruct (Hc eq_refl) as (o & Ho & Hn & Hs). apply IH in H2 as [Hm2 Hc2]; [|done]. split; [by auto|].
  intros Hx. destruct (Hc2 Hx) as (os & Hos & Hn2 & Hs2). exists (o :: os). split; [by constructor|].
  split; [by eapply counts_outcomes_cons|]. constructor; [|done]. intros k Hk Ha. by apply Hm2, Hs.
Qed.

Lemma count_if_total os : count_if was_read os + count_if (negb ∘ was_read) os = Z.of_nat (length os).
Proof. apply count_if_split. Qed.

(** C26: a cycle that was not cancelled accounts for every enabled list and
    settles what it read: each list was read or failed on its own, the summary
    counts exactly that (lists, domains, cut lists), and every ASCII domain of
    a list that was read is at the end classified, locked, excluded or in the
    queue; a cycle that was cancelled undoes nothing either. *)
Theorem complete_cycle_settles_every_list s u s' :
  run_list_audit_cycle idna netloc_ok excluded_suffixes now audit timeout_sec s = (Ok u, s') →
  (∀ k, settled (as_db s) k → settled (as_db s') k) ∧
  (su_cancelled u = false →
    ∃ rows os, (subscribed_lists (as_env s)).1 = Ok rows ∧
      Forall2 row_outcome (filter (λ row, enabled_row row = true) rows) os ∧
      su_lists_seen u = su_lists_audited u + su_lists_failed u ∧
      counts_outcomes os (mkSummary (Z.of_nat (length os)) 0 0 0 0 0 0 false) u ∧
      ∀ f k, Some f ∈ os → k ∈ lf_domains f → is_ascii k = true → settled (as_db s') k).
Proof.
  unfold run_list_audit_cycle. intros (r & s1 & E1 & H1)%prog_bind_Ok. injection E1 as <- <-.
  destruct (subscribed_lists (as_env s)) as [[rows|e] w]; cbn [fst snd] in H1; [|done].
  apply prog_bind_Ok in H1 as (p & s2 & E2 & [= <- <-]). apply audit_lists_spec in E2 as [Hm Hc]; [|done].
  split; [done|]. intros Hx. destruct (Hc Hx) as (os & Hos & Hn & Hs). exists rows, os. split; [done|]. split; [done|].
  apply Forall2_length in Hos as Hl. rewrite Hl in Hn. pose proof (count_if_total os).
  split; [unfold counts_outcomes in Hn; cbn in Hn; lia|]. split; [done|].
  intros f k Hf Hk Ha. eapply Forall_forall in Hs; [|done]. by apply Hs.
Qed.
End CycleFacts.

(** * Options and turns *)

Definition _STATE_KEY : string := "list_audit_options".
Definition completed_key : string := "list_audit_completed_at".
Definition summary_key : string := "list_audit_last_summary".

(** The options before they are normalised: [rate_limit_sec] is any float. *)
Record audit_input := mkAuditInput {
  ai_enabled : bool;
  ai_interval_sec : Z;
  ai_batch_size : Z;
  ai_rate_limit_sec : py_float;
  ai_max_domains_per_list : Z
}.

Definition default_audit_options : ListAuditOptions := mkAuditOptions false 86400 100 2 5000.

Definition normalize_list_audit_options (o : audit_input) : ListAuditOptions :=
  mkAuditOptions (ai_enabled o) (Z.max 300 (ai_interval_sec o)) (Z.min 5000 (Z.max 1 (ai_batch_size o)))
    (clamp 0 3600 (ai_rate_limit_sec o)) (Z.min 100000 (Z.max 1 (ai_max_domains_per_list o))).

Definition audit_input_of (o : ListAuditOptions) : audit_input :=
  mkAuditInput (la_enabled o) (la_interval_sec o) (la_batch_size o) (Fin (la_rate_limit_sec o)) (la_max_domains_per_list o).

Definition read_audit_input (data : list (string * json)) : result conversion_exn audit_input :=
  let get key (fallback : json) := default fallback (dict_get key data) in
  let enabled := py_truthy (get "enabled"%string (JBool false)) in
  interval ← py_int_of (get "interval_sec"%string (JInt 86400));
  batch ← py_int_of (get "batch_size"%string (JInt 100));
  rate ← py_float_of (get "rate_limit_sec"%string (JFloat (Fin 2)));
  most ← py_int_of (get "max_domains_per_list"%string (JInt 5000));
  mret (mkAuditInput enabled interval batch rate most).

(** [data.get] on a value that is not a dict raises [AttributeError]; neither
    it nor [OverflowError] is caught. *)
Definition load_list_audit_options (app : gmap string string) : result exn ListAuditOptions :=
  let raw := default ""%string (app !! _STATE_KEY) in
  if negb (str_nonempty raw) then Ok default_audit_options
  else
    match json_loads raw with
    | None => Ok default_audit_options
    | Some (JObject data) =>
        match read_audit_input data with
        | Ok o => Ok (normalize_list_audit_options o)
        | Err ConversionOverflowError => Err (OtherError "OverflowError")
        | Err _ => Ok default_audit_options
        end
    | Some _ => Err (OtherError "AttributeError")
    end.

Definition audit_options_fields (o : ListAuditOptions) : list (string * json) :=
  [("enabled", JBool (la_enabled o)); ("interval_sec", JInt (la_interval_sec o)); ("batch_size", JInt (la_batch_size o));
   ("rate_limit_sec", JFloat (Fin (la_rate_limit_sec o))); ("max_domains_per_list", JInt (la_max_domains_per_list o))]%string.

Definition summary_fields (completed_at : Z) (u : ListAuditSummary) : list (string * json) :=
  [("completed_at", JInt completed_at); ("lists_seen", JInt (su_lists_seen u)); ("lists_audited", JInt (su_lists_audited u));
   ("lists_failed", JInt (su_lists_failed u)); ("domains_seen", JInt (su_domains_seen u));
   ("domains_queued", JInt (su_domains_queued u)); ("batches", JInt (su_batches u));
   ("truncated_lists", JInt (su_truncated_lists u)); ("cancelled", JBool (su_cancelled u))]%string.

(** [float(get_state("list_audit_completed_at", "0") or 0)], and [0.0] on
    [ValueError]. *)
Definition last_completed (app : gmap string string) : py_float :=
  default (Fin 0) (py_float_text (str_or (default "0"%string (app !! completed_key)) "0")).

(** [now < last_completed + interval] for a moment that is not infinite. *)
Definition before_due (now : Q) (completed : py_float) (interval : Z) : bool :=
  match completed with
  | Fin q => qltb now (q + zq interval)
  | Inf negative => negb negative
  | NaN => false
  end.

(** [min(30.0, max(1.0, due_at - now))] *)
Definition idle_seconds (now : Q) (completed : py_float) (interval : Z) : Q :=
  match completed with
  | Fin q => qmin 30 (qmax 1 (q + zq interval - now))
  | _ => 30
  end.

(** How one pass of the thread's loop ends: it waits until it is due or woken,
    the cycle completed, was cancelled (the loop ends) or failed. *)
Inductive turn := TurnIdle (seconds : Q) | TurnCompleted | TurnCancelled | TurnFailed.

Section Turns.
Context {env : Type} `{ListSource env} `{PyRepr}.
Context (float_repr : Q → string) (idna : string → option string) (netloc_ok : string → bool).
Context (excluded_suffixes : list string) (now : Z) (timeout_sec : Q).

Definition set_app (key value : string) : prog (audit_state env) exn unit := λ s,
  (Ok tt, AuditState (as_env s) (as_db s) (<[key := value]> (as_app s))).

Definition save_list_audit_options (o : audit_input) : prog (audit_state env) exn ListAuditOptions :=
  let normalized := normalize_list_audit_options o in
  _ ← set_app _STATE_KEY (json_dumps float_repr default_style (sorted_keys (JObject (audit_options_fields normalized))));
  mret normalized.

(** The [try] of the loop. *)
Definition audit_turn (audit : ListAuditOptions) : prog (audit_state env) exn turn :=
  summary ← run_list_audit_cycle idna netloc_ok excluded_suffixes now audit timeout_sec;
  if su_cancelled summary then mret TurnCancelled
  else
    t ← ask audit_clock;
    let completed_at := py_int t in
    _ ← set_app completed_key (pretty completed_at);
    _ ← set_app summary_key (json_dumps float_repr default_style (sorted_keys (JObject (summary_fields completed_at summary))));
    mret TurnCompleted.

(** One pass of [ListAuditWorker.run]; [Err] ends the thread. *)
Definition worker_pass : prog (audit_state env) exn turn := λ s,
  match load_list_audit_options (as_app s) with
  | Err e => (Err e, s)
  | Ok audit =>
      if negb (la_enabled audit) then (Ok (TurnIdle 30), s)
      else
        (t ← ask audit_clock;
         let completed := last_completed (as_app s) in
         if float_ltb (Fin 0) completed && before_due t completed (la_interval_sec audit)
         then mret (TurnIdle (idle_seconds t completed (la_interval_sec audit)))
         else
           ended ← attempt (audit_turn audit);
           mret (default TurnFailed ended)) s
  end.

(** [request_list_audit_now]: the state it writes. *)
Definition request_list_audit_now : prog (audit_state env) exn unit := set_app completed_key "0".
End Turns.

(** ** Facts *)

Lemma qminmax_fixed low high q : (low <= high)%Q →
  qmin high (qmax low (qmin high (qmax low q))) = qmin high (qmax low q).
Proof.
  intros Hle. unfold qmin, qmax.
  destruct (qltb low q) eqn:?, (qltb q high) eqn:?, (qltb low high) eqn:?, (qltb high high) eqn:?, (qltb low low) eqn:?;
    repeat (match goal with H : qltb ?a ?b = _ |- context [qltb ?a ?b] => rewrite H end; try done); try done;
    exfalso; bool_cmp; lra.
Qed.

Lemma normalize_audit_idemp o :
  normalize_list_audit_options (audit_input_of (normalize_list_audit_options o)) = normalize_list_audit_options o.
Proof.
  unfold normalize_list_audit_options, audit_input_of. cbn. f_equal; [lia|lia| |lia].
  destruct (ai_rate_limit_sec o) as [q|[]|]; cbn; [|done..]. apply qminmax_fixed. lra.
Qed.

(** A text of digits as a number. *)
Lemma digits_text s : all_digits s →
  str_strip s = s ∧ (∀ b, underscores_ok b s = true) ∧ without_underscores s = s ∧ span_digits s = (s, ""%string).
Proof.
  intros Hs. assert (str_forallb (λ c, negb (is_space c)) s = true) as Hn.
  { eapply forallb_impl_str; [|exact Hs]. intros c. destruct c as [[] [] [] [] [] [] [] []]; vm_compute; done. }
  unfold str_strip. rewrite (lstrip_none _ _ Hn), (rstrip_none _ _ Hn). split; [done|].
  rewrite <-(app_nil_str s) at 3. rewrite span_digits_app by done. split; [|split; [|done]].
  - clear Hn. induction s as [|c s IH]; intros b; [done|]. unfold all_digits in *. cbn in Hs.
    apply andb_true_iff in Hs as [Hc Hs]. cbn. unfold is_underscore. rewrite (digit_neq c) by done. by apply IH.
  - clear Hn. induction s as [|c s IH]; [done|]. unfold all_digits in *. cbn in Hs.
    apply andb_true_iff in Hs as [Hc Hs]. cbn. unfold is_underscore. rewrite (digit_neq c) by done. f_equal. by apply IH.
Qed.

Lemma qred_int z : Qred (inject_Z z) = inject_Z z.
Proof. apply Qcanon.Qred_identity. apply Z.gcd_1_r. Qed.

(** [float(str(n))] *)
Lemma float_of_pretty n : (Z.of_N n < float_limit) → py_float_text (pretty n) = Some (Fin (inject_Z (Z.of_N n))).
Proof.
  intros Hlim. destruct (pretty_N_text n) as (Ha & Hv & c & t & E & _).
  destruct (digits_text _ Ha) as (Hst & Hu & Hw & Hsp). unfold py_float_text. rewrite Hst, Hu, Hw. cbn [negb].
  assert (is_digit c = true) as Hc by (rewrite E in Ha; unfold all_digits in Ha; cbn in Ha; by apply andb_true_iff in Ha as [? _]).
  assert (take_sign (pretty n) = (false, pretty n)) as ->.
  { rewrite E. unfold take_sign. by rewrite !(digit_neq c) by done. }
  assert (∀ x w, is_digit x = false → String.eqb (str_lower (pretty n)) (String x w) = false) as Hword.
  { intros x w Hx. rewrite E. cbn. assert (lower_char c = c) as ->; [|by rewrite (digit_neq c x)].
    destruct c as [[] [] [] [] [] [] [] []]; vm_compute in Hc; done. }
  rewrite !Hword by done. cbn [orb]. rewrite Hsp. cbn [take_fraction]. rewrite app_nil_str.
  replace (str_nonempty (pretty n)) with true by by rewrite E. cbn [negb take_exponent str_nonempty].
  unfold decimal. rewrite app_nil_str, Hv. change (pow10 _) with (zq 1).
  assert (Qred (zq (Z.of_N n) * zq 1) = inject_Z (Z.of_N n)) as ->.
  { transitivity (Qred (inject_Z (Z.of_N n))); [apply Qred_complete; unfold zq; ring|apply qred_int]. }
  unfold float_of_decimal. rewrite (proj2 (qleb_false _ _)).
  - rewrite (proj2 (qleb_false _ _)); [done|]. unfold zq. rewrite <-inject_Z_opp, <-Zlt_Qlt. assert (0 < float_limit) by reflexivity. lia.
  - unfold zq. by rewrite <-Zlt_Qlt.
Qed.

Lemma float_of_pretty_Z z : 0 ≤ z < float_limit → py_float_text (pretty z) = Some (Fin (inject_Z z)).
Proof.
  intros Hz. destruct (float_of_pretty (Z.to_N z)) as []; [rewrite Z2N.id; lia|].
  destruct z as [|p|p]; [done| |lia]. exact (float_of_pretty (N.pos p) ltac:(cbn; lia)).
Qed.

Section TurnFacts.
Context {env : Type} `{ListSource env} `{PyRepr}.
Context (float_repr : Q → string) (idna : string → option string) (netloc_ok : string → bool).
Context (excluded_suffixes : list string) (now : Z) (timeout_sec : Q).
Local Abbreviation pass := (worker_pass float_repr idna netloc_ok excluded_suffixes now timeout_sec).
Implicit Types s t : audit_state env.

Lemma sorted_options o : sorted_keys (JObject (audit_options_fields o)) =
  JObject [("batch_size", JInt (la_batch_size o)); ("enabled", JBool (la_enabled o)); ("interval_sec", JInt (la_interval_sec o));
           ("max_domains_per_list", JInt (la_max_domains_per_list o)); ("rate_limit_sec", JFloat (Fin (la_rate_limit_sec o)))]%string.
Proof. reflexivity. Qed.

(** The options of the audit survive being saved and loaded: whatever was
    entered, [load] gives back the normalised options, which are within the
    bounds the worker relies on (an interval of five minutes or more, batches of
    1 to 5,000, a pause of 0 to 3,600 seconds, 1 to 100,000 domains a list);
    nothing else of the state changes. *)
Theorem audit_options_round_trip (o : audit_input) s
  (Hfloat : float_reads_back float_repr (Fin (la_rate_limit_sec (normalize_list_audit_options o)))) :
  let n := normalize_list_audit_options o in
  let r := save_list_audit_options float_repr o s in
  r.1 = Ok n ∧ load_list_audit_options (as_app r.2) = Ok n ∧
  as_db r.2 = as_db s ∧ (∀ k, k ≠ _STATE_KEY → as_app r.2 !! k = as_app s !! k) ∧
  300 ≤ la_interval_sec n ∧ 1 ≤ la_batch_size n ≤ 5000 ∧ (0 <= la_rate_limit_sec n <= 3600)%Q ∧
  1 ≤ la_max_domains_per_list n ≤ 100000.
Proof.
  intros n r. split; [done|]. split.
  - unfold load_list_audit_options.
    change (as_app r.2) with
      (<[_STATE_KEY := json_dumps float_repr default_style (sorted_keys (JObject (audit_options_fields n)))]> (as_app s)).
    rewrite lookup_insert_eq. unfold default, from_option, id. rewrite sorted_options. set (v := JObject _).
    assert (plain float_repr v) as Hp.
    { split; [by apply (bool_decide_unpack _)|]. cbn. by split_and!. }
    assert (json_loads (json_dumps float_repr default_style v) = Some v) as Hl.
    { rewrite <-(app_nil_str (json_dumps _ _ _)). apply loads_dumps; [apply styles_ok|done|done]. }
    destruct (str_nonempty _) eqn:En; cbn [negb].
    + rewrite Hl. unfold v, read_audit_input. cbn [dict_get]. cbn. f_equal. apply normalize_audit_idemp.
    + destruct (json_dumps _ _ _); [|done]. done.
  - split; [done|]. split; [intros k Hk; apply lookup_insert_ne; congruence|]. unfold n, normalize_list_audit_options. cbn.
    split_and!; try lia; destruct (ai_rate_limit_sec o) as [q|[]|]; cbn; q_solve.
Qed.

(** ** When a pass audits *)

Lemma audit_turn_completed audit s s' : audit_turn float_repr idna netloc_ok excluded_suffixes now timeout_sec audit s = (Ok TurnCompleted, s') →
  ∃ w, as_app s' !! completed_key = Some (pretty (py_int (audit_clock w).1)).
Proof.
  unfold audit_turn. intros (u & s1 & _ & H1)%prog_bind_Ok. destruct (su_cancelled u); [done|].
  apply prog_bind_Ok in H1 as (x & s2 & E2 & H2). injection E2 as <- <-.
  apply prog_bind_Ok in H2 as (x & s3 & E3 & H3). injection E3 as <- <-.
  apply prog_bind_Ok in H3 as (x & s4 & E4 & [= <-]). injection E4 as <- <-. exists (as_env s1). cbn [as_app].
  rewrite lookup_insert_ne by done. by rewrite lookup_insert_eq.
Qed.

Lemma audit_turn_not_idle audit s : match (audit_turn float_repr idna netloc_ok excluded_suffixes now timeout_sec audit s).1 with
  | Ok x => ∀ q, x ≠ TurnIdle q | Err _ => True end.
Proof.
  unfold audit_turn, mbind, prog_bind. destruct (run_list_audit_cycle _ _ _ _ _ _ _) as [[u|e] s1]; [|done].
  by destruct (su_cancelled u).
Qed.

(** The pass audits: it does not wait. *)
Definition audits (r : result exn turn) : Prop := ∃ x, r = Ok x ∧ ∀ q, x ≠ TurnIdle q.

Lemma pass_decides s audit : load_list_audit_options (as_app s) = Ok audit → la_enabled audit = true →
  let m := (audit_clock (as_env s)).1 in
  let completed := last_completed (as_app s) in
  let s1 := AuditState (audit_clock (as_env s)).2 (as_db s) (as_app s) in
  if float_ltb (Fin 0) completed && before_due m completed (la_interval_sec audit)
  then pass s = (Ok (TurnIdle (idle_seconds m completed (la_interval_sec audit))), s1)
  else audits (pass s).1.
Proof.
  intros Hl He m completed s1. unfold worker_pass. rewrite Hl, He. cbn [negb]. unfold mbind, prog_bind, ask. cbn [fst snd].
  fold m completed s1. destruct (_ && _); [done|]. unfold attempt.
  pose proof (audit_turn_not_idle audit s1) as Hn. destruct (audit_turn _ _ _ _ _ _ _ s1) as [[x|e] s2]; cbn in *.
  - by exists x.
  - by exists TurnFailed.
Qed.

Lemma pass_completed s s' : pass s = (Ok TurnCompleted, s') →
  ∃ w, as_app s' !! completed_key = Some (pretty (py_int (audit_clock w).1)).
Proof.
  unfold worker_pass. destruct (load_list_audit_options _) as [audit|e]; [|done]. destruct (negb _); [done|].
  intros (m & s1 & _ & H1)%prog_bind_Ok. destruct (_ && _) in H1; [done|].
  apply prog_bind_Ok in H1 as (x & s2 & E2 & [= Hx <-]). unfold attempt in E2.
  destruct (audit_turn _ _ _ _ _ _ _ _) as [[y|e] s3] eqn:Ey; injection E2 as <- <-; [|done].
  unfold default, from_option, id in Hx. subst y. by eapply audit_turn_completed.
Qed.

Lemma pass_audits_when_unset s audit : load_list_audit_options (as_app s) = Ok audit → la_enabled audit = true →
  float_ltb (Fin 0) (last_completed (as_app s)) = false → audits (pass s).1.
Proof. intros Hl He Hf. pose proof (pass_decides s audit Hl He) as Hp. cbv zeta in Hp. by rewrite Hf in Hp. Qed.

Lemma idle_range m q interval : (1 <= idle_seconds m (Fin q) interval <= 30)%Q.
Proof. cbn. q_solve. Qed.

(** Audits are spaced by the interval and can be asked for: after a pass
    that completed an audit at second [c], a pass with the same stored state
    waits, for 1 to 30 seconds and without touching the queue, exactly while the
    clock is before [c] plus the interval, and audits from then on; after
    [request_list_audit_now] the next pass audits whatever the clock says. *)
Theorem audits_are_spaced s s' t audit
  (Hpass : pass s = (Ok TurnCompleted, s')) (Happ : as_app t = as_app s')
  (Hload : load_list_audit_options (as_app t) = Ok audit) (Henabled : la_enabled audit = true) :
  (∃ w, let c := py_int (audit_clock w).1 in 0 < c < float_limit →
    let m := (audit_clock (as_env t)).1 in
    if qltb m (inject_Z c + inject_Z (la_interval_sec audit))
    then ∃ q, (1 <= q <= 30)%Q ∧ pass t = (Ok (TurnIdle q), AuditState (audit_clock (as_env t)).2 (as_db t) (as_app t))
    else audits (pass t).1) ∧
  audits (pass (request_list_audit_now t).2).1.
Proof.
  split.
  - apply pass_completed in Hpass as [w Hw]. exists w. intros c Hc m. fold c in Hw.
    pose proof (pass_decides t audit Hload Henabled) as Hp. cbv zeta in Hp. fold m in Hp.
    assert (last_completed (as_app t) = Fin (inject_Z c)) as Hlast.
    { unfold last_completed. rewrite Happ, Hw. unfold default at 2, from_option, id. unfold str_or.
      destruct (str_nonempty (pretty c)) eqn:En; [by rewrite float_of_pretty_Z by lia|].
      pose proof (float_of_pretty_Z c ltac:(lia)) as Hf. destruct (pretty c); [|done]. vm_compute in Hf. done. }
    rewrite Hlast in Hp. cbn [float_ltb before_due] in Hp.
    rewrite (proj2 (qltb_true 0 (inject_Z c))) in Hp by (change 0%Q with (inject_Z 0); rewrite <-Zlt_Qlt; lia). cbn [andb] in Hp.
    change (zq (la_interval_sec audit)) with (inject_Z (la_interval_sec audit)) in Hp.
    destruct (qltb m _); [|done]. eexists. split; [|exact Hp]. apply idle_range.
  - eapply pass_audits_when_unset; [|exact Henabled|].
    + rewrite <-Hload. unfold request_list_audit_now, set_app. cbn [snd as_app]. unfold load_list_audit_options.
      by rewrite lookup_insert_ne.
    + unfold request_list_audit_now, set_app, last_completed. cbn [snd as_app]. rewrite lookup_insert_eq. by vm_compute.
Qed.
End TurnFacts.

(** * Witnesses *)

(** A source whose every list has the same lines, with a clock that moves one
    second at a reading. *)
Definition ex_repr : PyRepr := {| py_repr_of := λ _, ""%string |}.
Definition ex_stream : list_stream :=
  mkStream 200 "" ["! title"; "||Ads.Example.com^"; "0.0.0.0 track.example.net"; "||*.example^"; "ads.example.com"]%string None.
Definition ex_source : ListSource Q := {|
  open_list := λ _ _ e, (Ok ex_stream, e);
  stopping := λ e, (false, e);
  pause := λ _ e, (false, e);
  subscribed_lists := λ e, (Ok [[("address", JString "https://lists.example/a.txt")];
                                [("address", JString "ftp://lists.example/b.txt")];
                                [("address", JString "https://lists.example/c.txt"); ("enabled", JBool false)]]%string, e);
  audit_clock := λ e, (e, (e + 1)%Q)
|}.
Definition ex_idna (_ : string) : option string := None.
Definition ex_audit : ListAuditOptions := mkAuditOptions true 3600 1 (1 # 2) 5000.
Definition ex_state (clock : Q) : audit_state Q := AuditState clock db_empty
  {[_STATE_KEY := quoted "{'enabled': true, 'interval_sec': 3600, 'batch_size': 1, 'rate_limit_sec': 0.5}"]}.

Lemma extraction_is_exact_witness :
  Forall (valid_domain ex_idna) (lf_domains (extract_domains_from_lines ex_idna (BytesLine <$> ls_lines ex_stream) 100 1000)) ∧
  lf_domains (extract_domains_from_lines ex_idna (BytesLine <$> ls_lines ex_stream) 100 1000) =
    ["ads.example.com"; "track.example.net"]%string.
Proof.
  split; [|vm_compute; reflexivity].
  apply (extraction_is_exact ex_idna (BytesLine <$> ls_lines ex_stream) 100 1000).
Defined.

Definition ex_cycle : result exn ListAuditSummary * audit_state Q :=
  run_list_audit_cycle (H := ex_source) (H0 := ex_repr) ex_idna (λ _, true) [] 1000 ex_audit 20 (ex_state 1000).
Definition ex_summary : ListAuditSummary := mkSummary 2 1 1 2 2 2 0 false.

Lemma ex_cycle_result : ex_cycle.1 = Ok ex_summary.
Proof. vm_compute. reflexivity. Qed.

Lemma ex_cycle_pair : ex_cycle = (Ok ex_summary, ex_cycle.2).
Proof. rewrite <-ex_cycle_result. apply surjective_pairing. Qed.

Lemma complete_cycle_settles_every_list_witness :
  ∃ rows os, (subscribed_lists (ListSource := ex_source) (as_env (ex_state 1000))).1 = Ok rows ∧
    Forall2 (row_outcome (H := ex_source) (H0 := ex_repr) ex_idna (λ _, true) ex_audit 20)
      (filter (λ row, enabled_row row = true) rows) os ∧
    ∀ f k, Some f ∈ os → k ∈ lf_domains f → is_ascii k = true → settled [] (as_db ex_cycle.2) k.
Proof.
  destruct (complete_cycle_settles_every_list (H := ex_source) (H0 := ex_repr) ex_idna (λ _, true) [] 1000 ex_audit 20
              (ex_state 1000) ex_summary ex_cycle.2 ex_cycle_pair) as [_ Hc].
  destruct (Hc eq_refl) as (rows & os & Hrows & Hos & _ & _ & Hall).
  exists rows, os. split; [exact Hrows|]. split; [exact Hos|exact Hall].
Defined.

Lemma ex_half_text : float_reads_back (λ _, "0.5"%string) (Fin (1 # 2)).
Proof. exact ex_half_reads_back. Qed.

Definition ex_input : audit_input := mkAuditInput true 5 0 (Fin (1 # 2)) 200000.

Lemma audit_options_round_trip_witness :
  load_list_audit_options (as_app (save_list_audit_options (env := Q) (λ _, "0.5"%string) ex_input (ex_state 0)).2) =
    Ok (mkAuditOptions true 300 1 (1 # 2) 100000).
Proof.
  destruct (audit_options_round_trip (env := Q) (λ _, "0.5"%string) ex_input (ex_state 0) ex_half_text) as (_ & H & _).
  exact H.
Defined.

Definition ex_pass (t : audit_state Q) : result exn turn * audit_state Q :=
  worker_pass (H := ex_source) (H0 := ex_repr) (λ _, "0.5"%string) ex_idna (λ _, true) [] 1000 20 t.

Lemma ex_pass_completes : ex_pass (ex_state 1000) = (Ok TurnCompleted, (ex_pass (ex_state 1000)).2).
Proof.
  assert ((ex_pass (ex_state 1000)).1 = Ok TurnCompleted) as <- by (vm_compute; reflexivity). apply surjective_pairing.
Qed.

Lemma ex_pass_options : load_list_audit_options (as_app (ex_pass (ex_state 1000)).2) = Ok ex_audit.
Proof. vm_compute. reflexivity. Qed.

Lemma audits_are_spaced_witness :
  audits (ex_pass (request_list_audit_now (ex_pass (ex_state 1000)).2).2).1.
Proof.
  apply (audits_are_spaced (H := ex_source) (H0 := ex_repr) (λ _, "0.5"%string) ex_idna (λ _, true) [] 1000 20
           (ex_state 1000) (ex_pass (ex_state 1000)).2 (ex_pass (ex_state 1000)).2 ex_audit
           ex_pass_completes eq_refl ex_pass_options eq_refl).
Defined.

(** Stored options that are JSON but not an object, or that hold an infinity,
    end the worker's thread: the exception leaves [load_list_audit_options]. *)
Example unreadable_audit_options_stop_the_worker t (text : string) :
  text = "[]"%string ∨ text = quoted "{'interval_sec': Infinity}" → as_app t = {[_STATE_KEY := text]} →
  ∃ e, ex_pass t = (Err e, t).
Proof.
  intros [->| ->] Ht; unfold ex_pass, worker_pass; rewrite Ht.
  - exists (OtherError "AttributeError"). reflexivity.
  - exists (OtherError "OverflowError"). reflexivity.
Qed.
