(* ===== verification/Updater.v ===== *)
(** [pihole_manager/updater.py]: the order of versions, the choice of a release
    and of its asset, the verified download, the preparation of an installation
    in a staging directory, and the script that completes it.

    The files are a map from absolute paths (lists of names, POSIX, without
    symbolic links) to nodes.  GitHub, the downloads, the parser of a ZIP
    directory, SHA-256 and the random tokens are parameters. *)
From stdpp Require Import base gmap strings list pretty.
From Stdlib Require Import Ascii QArith Sorted.
From S2P Require Import Prelude HttpRetry Json JsonText Net Options Database.
Open Scope Z_scope.

(** * Versions *)

Definition __version__ : string := "0.3.6".

Definition _version_tuple : Type := Z * Z * Z * Z * string.

Definition no_newline (s : string) : bool := str_forallb (λ c, negb (Ascii.eqb c "010"%char)) s.

(** An optional dot with digits: the digits, or the text as it was. *)
Definition dotted_digits (s : string) : string * string :=
  match s with
  | String c rest =>
      if Ascii.eqb c "."%char then
        let '(digits, rest) := span_digits rest in
        if str_nonempty digits then (digits, rest) else (EmptyString, s)
      else (EmptyString, s)
  | EmptyString => (EmptyString, s)
  end.

(** [_VERSION_RE.match(s)]: major, minor, patch (blank when missing) and the
    suffix; every choice of the expression is forced by the next character. *)
Definition version_match (s : string) : option (string * string * string * string) :=
  let s := match s with String c rest => if Ascii.eqb c "v"%char then rest else s | EmptyString => s end in
  let '(major, s) := span_digits s in
  if negb (str_nonempty major) then None
  else
    let '(minor, s) := dotted_digits s in
    let '(patch, s) := dotted_digits s in
    match s with
    | EmptyString => Some (major, minor, patch, EmptyString)
    | String c suffix =>
        if (Ascii.eqb c "-"%char || Ascii.eqb c "+"%char) && no_newline suffix
        then Some (major, minor, patch, suffix) else None
    end.

Definition _version_key (value : string) : _version_tuple :=
  let normalized := str_strip value in
  match version_match normalized with
  | None => (0, 0, 0, -1, str_casefold normalized)
  | Some (major, minor, patch, suffix) =>
      (digits_value 0 major, digits_value 0 minor, digits_value 0 patch, (if str_nonempty suffix then 0 else 1), suffix)
  end.

(** [a < b] on tuples *)
Definition version_ltb (a b : _version_tuple) : bool :=
  let '(a1, a2, a3, a4, a5) := a in
  let '(b1, b2, b3, b4, b5) := b in
  (a1 <? b1) || (a1 =? b1) && ((a2 <? b2) || (a2 =? b2) && ((a3 <? b3) || (a3 =? b3) &&
    ((a4 <? b4) || (a4 =? b4) && str_ltb a5 b5))).

Definition compare_versions (left right : string) : Z :=
  let left_key := _version_key left in
  let right_key := _version_key right in
  (if version_ltb right_key left_key then 1 else 0) - (if version_ltb left_key right_key then 1 else 0).

Definition should_check (options : UpdateOptions) (now : Z) : bool :=
  if negb (up_check_automatically options) then false
  else
    let interval := Z.max 1 (up_check_interval_hours options) * 3600 in
    interval <=? now - Z.max 0 (up_last_check_at options).

(** * The machine *)

(** [os.name == "nt"] and [platform.machine()] *)
Record host := mkHost { on_windows : bool; machine : string }.

Definition _platform_id (h : host) : string := if on_windows h then "windows" else "linux".

Definition _architecture_id (h : host) : result exn string :=
  let m := str_lower (machine h) in
  if bool_decide (m ∈ ["amd64"; "x86_64"; "x64"]%string) then Ok "x64"%string
  else if bool_decide (m ∈ ["arm64"; "aarch64"]%string) then Ok "arm64"%string
  else Err (RuntimeError ("Unsupported CPU architecture: " +:+ m)).

(** * Releases *)

Record ReleaseAsset := mkAsset { ra_name : string; ra_download_url : string; ra_size : Z; ra_digest : string }.

Record UpdateInfo := mkUpdateInfo {
  ui_current_version : string;
  ui_latest_version : string;
  ui_release_name : string;
  ui_release_url : string;
  ui_release_notes : string;
  ui_published_at : string;
  ui_asset : option ReleaseAsset;
  ui_channel : string;
  ui_build_id : string;
  ui_current_build_id : string;
  ui_build_based : bool
}.

Definition _same_build_id (left right : string) : bool :=
  let left_value := str_lower (str_strip left) in
  let right_value := str_lower (str_strip right) in
  if negb (str_nonempty left_value) || negb (str_nonempty right_value) then false
  else str_startswith left_value right_value || str_startswith right_value left_value.

Definition available (u : UpdateInfo) : bool :=
  if ui_build_based u then str_nonempty (ui_build_id u) && negb (_same_build_id (ui_build_id u) (ui_current_build_id u))
  else 0 <? compare_versions (ui_latest_version u) (ui_current_version u).

Definition _SUPPORTED_CHANNELS : list string := ["stable"; "prerelease"]%string.

Definition _normalize_channel (channel : string) : result exn string :=
  let value := str_lower (str_strip channel) in
  if bool_decide (value ∈ _SUPPORTED_CHANNELS) then Ok value
  else Err (ValueError ("Unsupported update channel: " +:+ channel)).

Definition _display_version (tag channel : string) : string :=
  let stripped := lstrip (λ c, Ascii.eqb c "v"%char || Ascii.eqb c "V"%char) tag in
  if String.eqb channel "prerelease" && str_startswith (str_lower stripped) "dev-" then __version__ else stripped.

(** [text.rsplit("-", 1)[-1]] *)
Definition after_last_dash (s : string) : string := default s (last (str_split "-"%char s)).

Definition fields : Type := list (string * json).

Section Releases.
Context `{PyRepr}.

(** [str(payload.get(a) or payload.get(b) or "")] *)
Definition first_text (keys : list string) (payload : fields) : string :=
  foldr (λ key rest, match dict_get key payload with Some v => if py_truthy v then py_str v else rest | None => rest end)
    ""%string keys.
Definition get_truthy (key : string) (payload : fields) : bool := py_truthy (default JNull (dict_get key payload)).

Definition _is_development_release (payload : fields) : bool :=
  if negb (get_truthy "prerelease" payload) then false
  else
    let tag := str_lower (first_text ["tag_name"%string] payload) in
    let name := str_lower (first_text ["name"%string] payload) in
    let target := str_lower (first_text ["target_commitish"%string] payload) in
    String.eqb target "dev" || str_startswith tag "dev-" || str_contains "development build" name.

Definition _release_build_id (payload : fields) : string :=
  let tag := str_strip (first_text ["tag_name"%string] payload) in
  let target := str_strip (first_text ["target_commitish"%string] payload) in
  if str_nonempty target && negb (String.eqb (str_lower target) "dev") then target
  else if str_startswith (str_lower tag) "dev-" then after_last_dash tag
  else str_or target tag.

(** [max(items, key=...)]: the first of the largest; [None] is an empty list. *)
Fixpoint max_by_version (key : fields → _version_tuple) (best : fields) (items : list fields) : fields :=
  match items with
  | [] => best
  | item :: items => max_by_version key (if version_ltb (key best) (key item) then item else best) items
  end.

Definition release_key (item : fields) : _version_tuple := _version_key (first_text ["tag_name"; "name"]%string item).

(** The candidates of the prerelease channel: published objects. *)
Definition candidates_of (releases : list json) : list fields :=
  omap (λ item, match item with JObject f => if get_truthy "draft" f then None else Some f | _ => None end) releases.

(** The part of [_fetch_release_payload] after the list of releases arrived. *)
Definition select_release (releases : json) : result exn fields :=
  match releases with
  | JArray items =>
      match candidates_of items with
      | [] => Err (ValueError "No published GitHub release or prerelease was found")
      | first :: rest =>
          if _is_development_release first then Ok first
          else
            match filter (λ item, _is_development_release item = false) (first :: rest) with
            | [] => Err (ValueError "max() iterable argument is empty")
            | best :: versioned => Ok (max_by_version release_key best versioned)
            end
      end
  | _ => Err (ValueError "GitHub returned an invalid releases response")
  end.

(** ** Assets *)

Definition arch_aliases : list (string * list string) :=
  [("x64", ["x64"; "amd64"; "x86_64"]); ("arm64", ["arm64"; "aarch64"])]%string.

Definition _asset_priority (name current_platform current_arch : string) : Z * string :=
  let lower := str_lower name in
  if negb (str_contains "pi-hole-manager" lower) || str_contains "source" lower then (9, lower)
  else
    let platform_match := str_contains current_platform lower in
    let arch_match := existsb (λ a, str_contains a lower) (default [] (dict_get current_arch arch_aliases)) in
    if platform_match && arch_match then (0, lower)
    else if platform_match && negb (existsb (λ a, str_contains a lower) (mjoin arch_aliases.*2)) then (1, lower)
    else (9, lower).

(** [a <= b] on the keys of the candidates *)
Definition priority_leb (a b : Z * string) : bool := (a.1 <? b.1) || (a.1 =? b.1) && str_leb a.2 b.2.

Definition asset_name (item : fields) : string := str_strip (first_text ["name"%string] item).

Definition asset_candidate (platform arch : string) (item : json) : option ((Z * string) * fields) :=
  match item with
  | JObject item =>
      let name := asset_name item in
      if negb (str_endswith (str_lower name) ".zip") then None
      else
        let priority := _asset_priority name platform arch in
        if priority.1 <? 9 then Some (priority, item) else None
  | _ => None
  end.

Definition conversion_error (e : conversion_exn) : exn :=
  match e with
  | ConversionTypeError => OtherError "TypeError"
  | ConversionValueError => ValueError "invalid literal for int()"
  | ConversionOverflowError => OtherError "OverflowError"
  end.
Definition int_field (key : string) (fallback : Z) (payload : fields) : result exn Z :=
  match dict_get key payload with
  | Some v => if py_truthy v then match py_int_of v with Ok z => Ok z | Err e => Err (conversion_error e) end else Ok fallback
  | None => Ok fallback
  end.

Definition _select_asset (h : host) (raw_assets : json) : result exn (option ReleaseAsset) :=
  match raw_assets with
  | JArray items =>
      arch ← _architecture_id h;
      match sort_by (λ a b, priority_leb a.1 b.1) (omap (asset_candidate (_platform_id h) arch) items) with
      | [] => mret None
      | (_, item) :: _ =>
          size ← int_field "size" 0 item;
          mret (Some (mkAsset (asset_name item) (str_strip (first_text ["browser_download_url"%string] item))
                        (Z.max 0 size) (str_strip (first_text ["digest"%string] item))))
      end
  | _ => mret None
  end.
End Releases.

Example versions_example :
  compare_versions "v1.10.0" "1.9.9" = 1 ∧ compare_versions "1.0.0-rc1" "1.0.0" = -1 ∧
  compare_versions "1.0" "v1.0.0" = 0 ∧ _version_key "1.2.x" = (0, 0, 0, -1, "1.2.x"%string).
Proof. vm_compute. done. Qed.

(** Prerelease suffixes are compared as texts: the tenth candidate is older than
    the ninth, and a build suffix makes a release older. *)
Example prerelease_numbers_are_texts :
  compare_versions "1.0.0-rc10" "1.0.0-rc9" = -1 ∧ compare_versions "1.0.0+build.5" "1.0.0" = -1.
Proof. vm_compute. done. Qed.

Example assets_example :
  _asset_priority "Pi-Hole-Manager-linux-x86_64.zip" "linux" "x64" = (0, "pi-hole-manager-linux-x86_64.zip"%string) ∧
  _asset_priority "Pi-Hole-Manager-linux.zip" "linux" "x64" = (1, "pi-hole-manager-linux.zip"%string) ∧
  _asset_priority "Pi-Hole-Manager-linux-aarch64.zip" "linux" "x64" = (9, "pi-hole-manager-linux-aarch64.zip"%string).
Proof. vm_compute. done. Qed.

(** * Files *)

Abbreviation path := (list string).
Inductive node := Dir | File (content : string) (executable : bool).
Abbreviation fs := (gmap path node).

(** The root always exists. *)
Definition is_dir (files : fs) (p : path) : bool :=
  match p with [] => true | _ => match files !! p with Some Dir => true | _ => false end end.
Definition is_file (files : fs) (p : path) : bool := match files !! p with Some (File _ _) => true | _ => false end.
Definition path_exists (files : fs) (p : path) : bool := is_dir files p || is_file files p.

(** [Path(text).parts] without the root: names between slashes, blanks and
    [.] dropped; whether the text is absolute. *)
Definition parts_of (text : string) : list string :=
  filter (λ x, x ≠ ""%string ∧ x ≠ "."%string) (str_split "/"%char text).
Definition is_absolute (text : string) : bool := str_startswith text "/".

(** Following a relative path from a directory as the system does: a name or
    [..] is looked up in a directory that exists. *)
Fixpoint walk (files : fs) (from : path) (names : list string) : option path :=
  match names with
  | [] => Some from
  | name :: names =>
      if negb (is_dir files from) then None
      else walk files (if String.eqb name ".." then removelast from else from ++ [name]) names
  end.

(** [root / text]: where it leads. *)
Definition locate (files : fs) (root : path) (text : string) : option path :=
  walk files (if is_absolute text then [] else root) (parts_of text).
Definition is_file_at (files : fs) (root : path) (text : string) : bool :=
  match locate files root text with Some p => is_file files p | None => false end.

(** [Path.resolve()] without links: [..] removes the name before it. *)
Definition resolve (root : path) (parts : list string) : path :=
  foldl (λ p name, if String.eqb name ".." then removelast p else p ++ [name]) root parts.

(** [p] is [root] or below it. *)
Abbreviation within root p := (prefix (A := string) root p).

(** [shutil.rmtree] *)
Definition rmtree (p : path) (files : fs) : fs := filter (λ q, ¬ within p q.1) files.

(** [mkdir(parents=True, exist_ok=True)]: the directories on the way; [None] is
    [OSError] (a file is in the way). *)
Fixpoint make_dirs (files : fs) (from : path) (names : list string) : option fs :=
  match names with
  | [] => Some files
  | name :: names =>
      let p := from ++ [name] in
      if is_file files p then None
      else make_dirs (if is_dir files p then files else <[p := Dir]> files) p names
  end.
Definition makedirs (p : path) (files : fs) : option fs := make_dirs files [] p.

(** * Manifests *)

Record InstallManifest := mkManifest {
  im_application : string;
  im_version : string;
  im_channel : string;
  im_platform : string;
  im_architecture : string;
  im_entrypoint : string;
  im_build_id : string;
  im_schema_version : Z
}.

Definition _MANIFEST_NAME : string := "install_manifest.json".

Section Manifests.
Context `{PyRepr}.

Definition text_or (key fallback : string) (raw : fields) : string := py_str_or (dict_get key raw) fallback.

(** A missing file, bytes that are not UTF-8, a text that is not JSON and a bad
    schema version are [None]; [AttributeError] (not an object) and
    [OverflowError] are not caught. *)
Definition read_install_manifest (files : fs) (directory : path) : result exn (option InstallManifest) :=
  match files !! (directory ++ [_MANIFEST_NAME]) with
  | Some (File content _) =>
      if negb (is_utf8 content) then Ok None
      else
        match json_loads content with
        | None => Ok None
        | Some (JObject raw) =>
            match int_field "schema_version" 1 raw with
            | Ok schema =>
                Ok (Some (mkManifest (text_or "application" "" raw) (text_or "version" "" raw) (text_or "channel" "stable" raw)
                            (text_or "platform" "" raw) (text_or "architecture" "" raw) (text_or "entrypoint" "" raw)
                            (text_or "build_id" "" raw) schema))
            | Err (OtherError "OverflowError") => Err (OtherError "OverflowError")
            | Err _ => Ok None
            end
        | Some _ => Err (OtherError "AttributeError")
        end
  | _ => Ok None
  end.

(** [os.access(root.parent, os.W_OK)] is the parameter [writable]. *)
Definition can_install_update (writable : path → bool) (files : fs) (root : path) : result exn bool :=
  manifest ← read_install_manifest files root;
  match manifest with
  | None => mret false
  | Some m =>
      if negb (String.eqb (im_application m) "pi-hole-manager") then mret false
      else mret (is_file_at files root (im_entrypoint m) && writable (removelast root))
  end.

Definition _validate_manifest (h : host) (m : InstallManifest) (u : UpdateInfo) : result exn unit :=
  if negb (String.eqb (im_application m) "pi-hole-manager") then Err (ValueError "The update archive is not a Pi-hole Manager build")
  else if negb (im_schema_version m =? 1) then Err (ValueError "Unsupported update manifest version")
  else if negb (String.eqb (im_platform m) (_platform_id h))
  then Err (ValueError ("This update targets " +:+ im_platform m +:+ ", not " +:+ _platform_id h))
  else
    arch ← _architecture_id h;
    if negb (String.eqb (im_architecture m) arch)
    then Err (ValueError ("This update targets " +:+ im_architecture m +:+ ", not " +:+ arch))
    else if ui_build_based u then
      if str_nonempty (ui_build_id u) && str_nonempty (im_build_id m) && negb (_same_build_id (ui_build_id u) (im_build_id m))
      then Err (ValueError "The development build ID does not match the release") else Ok tt
    else if negb (compare_versions (im_version m) (ui_latest_version u) =? 0)
    then Err (ValueError "The update version does not match the selected release") else Ok tt.

(** * Archives *)

(** A member of a ZIP archive: its name, the upper half of its external
    attributes, and its bytes ([None]: reading them raises). *)
Record zip_member := mkMember { zm_filename : string; zm_mode : Z; zm_data : option string }.

(** [stat.S_ISLNK(mode)] *)
Definition is_link (mode : Z) : bool := Z.land mode 61440 =? 40960.

(** The checks on one member: its parts, after a backslash counts as a slash. *)
Definition check_member (destination : path) (m : zip_member) : result exn unit :=
  let name := str_replace backslash "/"%char (zm_filename m) in
  let unsafe := Err (ValueError ("Unsafe archive member: " +:+ zm_filename m)) in
  if negb (str_nonempty name) || str_startswith name "/" || bool_decide (".."%string ∈ parts_of name) then unsafe
  else if is_link (zm_mode m) then Err (ValueError ("Symbolic links are not allowed in updates: " +:+ zm_filename m))
  else if negb (bool_decide (within destination (resolve destination (parts_of name)))) then unsafe
  else Ok tt.

(** [ZipFile._extract_member]: blank names, [.] and [..] are dropped, the
    directories on the way are made, a name with a slash at its end is a
    directory.  The member is opened before its file is made. *)
Definition arcname (filename : string) : list string :=
  filter (λ x, x ≠ ".."%string) (parts_of filename).

Definition extract_member (destination : path) (files : fs) (m : zip_member) : result exn unit * fs :=
  let target := destination ++ arcname (zm_filename m) in
  let os_error := Err (OtherError "OSError") in
  match makedirs (removelast target) files with
  | None => (os_error, files)
  | Some files =>
      if str_endswith (zm_filename m) "/" then
        if is_file files target then (os_error, files)
        else (Ok tt, if is_dir files target then files else <[target := Dir]> files)
      else
        match zm_data m with
        | None => (Err (OtherError "BadZipFile"), files)
        | Some data =>
            if is_dir files target then (os_error, files)
            else (Ok tt, <[target := File data (match files !! target with Some (File _ x) => x | _ => false end)]> files)
        end
  end.

(** The extraction: when it fails, the files made so far stay. *)
Fixpoint extract_all (destination : path) (files : fs) (members : list zip_member) : result exn unit * fs :=
  match members with
  | [] => (Ok tt, files)
  | m :: members =>
      match extract_member destination files m with
      | (Ok _, files) => extract_all destination files members
      | (Err e, files) => (Err e, files)
      end
  end.

Fixpoint check_members (destination : path) (members : list zip_member) : result exn unit :=
  match members with
  | [] => Ok tt
  | m :: members => _ ← check_member destination m; check_members destination members
  end.

(** [zipfile.ZipFile(path)] is the parameter [members_of]: [None] is [BadZipFile]. *)
Definition _safe_extract_zip (members_of : string → option (list zip_member)) (archive destination : path) (files : fs)
    : result exn unit * fs :=
  match files !! archive with
  | Some (File content _) =>
      match members_of content with
      | None => (Err (OtherError "BadZipFile"), files)
      | Some members =>
          match check_members destination members with
          | Err e => (Err e, files)
          | Ok _ => extract_all destination files members
          end
      end
  | _ => (Err (OtherError "OSError"), files)
  end.

(** [container.glob("*/install_manifest.json")] *)
Definition manifests_below (files : fs) (container : path) : list path :=
  omap (λ p, match p.1 with
             | [] => None
             | _ => let parent := removelast p.1 in
                    if bool_decide (p.1 = parent ++ [_MANIFEST_NAME]) && bool_decide (removelast parent = container) &&
                       bool_decide (parent ≠ []) then Some parent else None
             end) (map_to_list files).

Definition _find_staged_root (files : fs) (container : path) : result exn path :=
  if is_file files (container ++ [_MANIFEST_NAME]) then Ok container
  else
    match manifests_below files container with
    | [root] => Ok root
    | _ => Err (ValueError "The update archive must contain exactly one Onedir application")
    end.
End Manifests.

(** * Downloading *)

Record DownloadResult := mkDownload { dl_path : path; dl_verified : bool }.

(** A streamed download: the status, the text of its error, the blocks that
    arrive, and the error that breaks it. *)
Record byte_stream := mkByteStream { bs_status : Z; bs_error : string; bs_blocks : list string; bs_broken : option string }.

(** [text.partition(":")]; without a colon the separator is blank. *)
Definition _verify_digest (expected actual_sha256 : string) : bool :=
  if negb (str_nonempty expected) then false
  else
    let '(algorithm, rest) := str_cut ":"%char expected in
    match rest with
    | None => false
    | Some value =>
        if negb (String.eqb (str_lower algorithm) "sha256") then false
        else String.eqb (str_lower (str_strip value)) (str_lower (str_strip actual_sha256))
    end.

Definition is_http_error (status : Z) : bool := (400 <=? status) && (status <? 600).

(** The result and the files; [sha256_hex] is the digest, [reply] the opened
    connection ([Err] is an exception).  A name with a slash has no place for
    the temporary file. *)
Definition download_update (sha256_hex : string → string) (reply : string → result exn byte_stream) (updates : path)
    (u : UpdateInfo) (files : fs) : result exn DownloadResult * fs :=
  match ui_asset u with
  | None => (Err (ValueError "The release has no suitable downloadable Onedir ZIP asset"), files)
  | Some asset =>
      match makedirs updates files with
      | None => (Err (OtherError "OSError"), files)
      | Some files =>
          match reply (ra_download_url asset) with
          | Err e => (Err e, files)
          | Ok stream =>
              if is_http_error (bs_status stream) then (Err (OtherError (bs_error stream)), files)
              else if str_contains "/" (ra_name asset) then (Err (OtherError "OSError"), files)
              else
                match bs_broken stream with
                | Some e => (Err (OtherError e), files)
                | None =>
                    let content := str_join "" (bs_blocks stream) in
                    let verified := _verify_digest (ra_digest asset) (sha256_hex content) in
                    if str_nonempty (ra_digest asset) && negb verified
                    then (Err (ValueError "Downloaded update failed SHA-256 verification"), files)
                    else
                      let target := updates ++ [ra_name asset] in
                      if is_dir files target then (Err (OtherError "OSError"), files)
                      else (Ok (mkDownload target verified), <[target := File content false]> files)
                end
          end
      end
  end.

(** * Checking for an update *)

(** What GitHub answers: an exception of the connection, or a status, its error
    text, and the JSON of the body ([None]: it is not JSON). *)
Inductive api_reply := ApiFailed (e : exn) | ApiReply (status : Z) (error : string) (body : option json).

Section Checking.
Context `{PyRepr}.
(** The latest release and the list of releases, as GitHub answers them. *)
Context (latest releases : api_reply).

Definition api_json (r : api_reply) : result exn json :=
  match r with
  | ApiFailed e => Err e
  | ApiReply status error body =>
      if is_http_error status then
        if status =? 404
        then Err (RuntimeError "GitHub releases are unavailable. The repository is currently private, missing, or has not been published yet.")
        else Err (OtherError error)
      else match body with Some v => Ok v | None => Err (ValueError "Expecting value") end
  end.

Definition _fetch_release_payload (channel : string) : result exn fields :=
  if String.eqb channel "stable" then
    payload ← api_json latest;
    match payload with
    | JObject f => mret f
    | _ => Err (ValueError "GitHub returned an invalid release response")
    end
  else
    payload ← api_json releases;
    select_release payload.

Definition check_for_update (h : host) (files : fs) (installation_directory : path) (channel : string) : result exn UpdateInfo :=
  normalized_channel ← _normalize_channel channel;
  payload ← _fetch_release_payload normalized_channel;
  let latest_version := str_strip (first_text ["tag_name"; "name"]%string payload) in
  if negb (str_nonempty latest_version) then Err (ValueError "The GitHub release contains no version tag")
  else
    current_manifest ← read_install_manifest files installation_directory;
    asset ← _select_asset h (default JNull (dict_get "assets" payload));
    mret (mkUpdateInfo __version__ (_display_version latest_version normalized_channel)
      (py_str_or (dict_get "name" payload) latest_version) (first_text ["html_url"%string] payload)
      (first_text ["body"%string] payload) (first_text ["published_at"%string] payload) asset normalized_channel
      (_release_build_id payload) (match current_manifest with Some m => im_build_id m | None => ""%string end)
      (_is_development_release payload)).
End Checking.

(** * Preparing the installation *)

Record InstallPlan := mkPlan {
  ip_install_directory : path;
  ip_staged_directory : path;
  ip_stage_container : path;
  ip_backup_directory : path;
  ip_entrypoint : string;
  ip_marker_path : path;
  ip_status_path : path;
  ip_token : string;
  ip_version : string;
  ip_preserved_names : list string
}.

Definition _PRESERVED_NAMES : list string :=
  ["options.json"; "pihole_manager.sqlite3"; "pihole_manager.sqlite3-wal"; "pihole_manager.sqlite3-shm"; "evidence_cache"; "updates"]%string.

Definition path_name (p : path) : string := default ""%string (last p).

(** [install_dir.glob("*.log")]: the names of the files, in order. *)
Definition log_names (install_dir : path) (files : fs) : list string :=
  sort_by str_leb (omap (λ p, match p.2 with
    | File _ _ => if bool_decide (removelast p.1 = install_dir) && bool_decide (p.1 ≠ []) && str_endswith (path_name p.1) ".log"
                  then Some (path_name p.1) else None
    | Dir => None
    end) (map_to_list files)).

Definition _preserved_names (install_dir : path) (files : fs) : list string :=
  foldl (λ names name, if bool_decide (name ∈ names) then names else names ++ [name]) _PRESERVED_NAMES (log_names install_dir files).

Section Preparing.
Context `{PyRepr}.
Context (h : host) (writable : path → bool) (members_of : string → option (list zip_member)).
(** [tempfile.gettempdir()], [app_directory()] and [uuid.uuid4().hex] *)
Context (temp_directory app_directory : path) (token : string).

Definition stage_of (install_dir : path) : path := removelast install_dir ++ ["." +:+ path_name install_dir +:+ ".update-" +:+ token].
Definition backup_of (install_dir : path) : path := removelast install_dir ++ ["." +:+ path_name install_dir +:+ ".backup"].
Definition temp_root : path := temp_directory ++ ["pihole-manager-updater"%string].
Definition status_directory : path := app_directory ++ ["updates"%string].

(** [chmod(mode | S_IXUSR | S_IXGRP)] *)
Definition make_executable (p : path) (files : fs) : fs :=
  alter (λ n, match n with File content _ => File content true | Dir => Dir end) p files.

(** The [try] block: the staged directory and the manifest. *)
Definition stage_update (u : UpdateInfo) (archive container : path) (files : fs) : result exn (path * InstallManifest) * fs :=
  match _safe_extract_zip members_of archive container files with
  | (Err e, files) => (Err e, files)
  | (Ok _, files) =>
      let checked :=
        staged_root ← _find_staged_root files container;
        manifest ← read_install_manifest files staged_root;
        match manifest with
        | None => Err (ValueError "The update archive contains no valid install manifest")
        | Some m =>
            _ ← _validate_manifest h m u;
            match locate files staged_root (im_entrypoint m) with
            | Some p =>
                if is_file files p then mret (staged_root, m, p)
                else Err (ValueError ("The update entrypoint is missing: " +:+ im_entrypoint m))
            | None => Err (ValueError ("The update entrypoint is missing: " +:+ im_entrypoint m))
            end
        end in
      match checked with
      | Err e => (Err e, files)
      | Ok (staged_root, m, p) => (Ok (staged_root, m), if on_windows h then files else make_executable p files)
      end
  end.

(** [stage_container.mkdir(parents=True)] after [rmtree] *)
Definition make_container (container : path) (files : fs) : option fs :=
  if is_file files container then None else makedirs container (rmtree container files).

Definition finish_plan (install_dir : path) (staged : path * InstallManifest) (files : fs) : result exn InstallPlan * fs :=
  let os_error := Err (OtherError "OSError") in
  let marker := temp_root ++ ["started-" +:+ token +:+ ".marker"] in
  match makedirs temp_root files with
  | None => (os_error, files)
  | Some files =>
      if is_dir files marker then (os_error, files)
      else
        let files := delete marker files in
        match makedirs status_directory files with
        | None => (os_error, files)
        | Some files =>
            (Ok (mkPlan install_dir staged.1 (stage_of install_dir) (backup_of install_dir) (im_entrypoint staged.2) marker
                   (status_directory ++ ["install-" +:+ token +:+ ".json"]) token (im_version staged.2) (_preserved_names install_dir files)), files)
        end
  end.

Definition prepare_update_install (u : UpdateInfo) (archive install_dir : path) (files : fs) : result exn InstallPlan * fs :=
  match can_install_update writable files install_dir with
  | Err e => (Err e, files)
  | Ok false =>
      (Err (RuntimeError "Automatic installation is available only in a packaged Onedir build located in a writable directory."), files)
  | Ok true =>
      if negb (is_file files archive) then (Err (OtherError "FileNotFoundError"), files)
      else
        let container := stage_of install_dir in
        match make_container container files with
        | None => (Err (OtherError "OSError"), files)
        | Some files =>
            match stage_update u archive container files with
            | (Err e, files) => (Err e, rmtree container files)
            | (Ok staged, files) => finish_plan install_dir staged files
            end
        end
  end.
End Preparing.

(** * The installer scripts

    What the scripts that [_shell_script] and [_powershell_script] write do to
    the files.  The parameters are what the commands do when the system gets in
    their way, and the two programs: a removal may leave some of what it was to
    remove, a move or a copy may be refused, a copy may leave debris; the new
    program works on the files until it has started, which is when the marker
    is there, and the old one once it is started again.  A move within a
    directory is atomic, a copy onto the directory that a removal left fails,
    and a program is stopped before the script goes on. *)
Record installer := mkInstaller {
  io_remove : path → fs → fs;
  io_moves : path → bool;
  io_copies : string → bool;
  io_debris : path → fs → fs;
  io_program : fs → fs;
  io_relaunch : fs → fs
}.

(** The nodes below [p], by their path from [p]. *)
Definition subtree (p : path) (files : fs) : fs :=
  list_to_map (omap (λ q, if decide (within p q.1) then Some (drop (length p) q.1, q.2) else None) (map_to_list files)).
(** A tree placed at [p], where nothing was. *)
Definition graft (p : path) (tree files : fs) : fs := kmap (app p) tree ∪ rmtree p files.

(** [mv source target] and [cp -a source target] of a directory or file, where
    an existing directory takes the source in; [None] is a failure. *)
Definition destination_of (source target : path) (files : fs) : path :=
  if is_dir files target then target ++ [path_name source] else target.
Definition free_for (p : path) (files : fs) : bool := negb (path_exists files p).
Definition overwrites (source target : path) (files : fs) : bool := is_file files source && is_file files target.
Definition mv (source target : path) (files : fs) : option fs :=
  let target := destination_of source target files in
  if path_exists files source && free_for target files && is_dir files (removelast target) && negb (bool_decide (within source target))
  then Some (graft target (subtree source files) (rmtree source files)) else None.
Definition cp (source target : path) (files : fs) : option fs :=
  let target := destination_of source target files in
  if path_exists files source && (free_for target files || overwrites source target files) &&
     is_dir files (removelast target) && negb (bool_decide (within source target))
  then Some (graft target (subtree source files) files) else None.

Inductive install_end := NotMoved | RolledBack (message : string) | Installed.

Section Installer.
Context (plan : InstallPlan) (io : installer).
Local Abbreviation install_dir := (ip_install_directory plan).
Local Abbreviation backup_dir := (ip_backup_directory plan).

Definition move (source target : path) (files : fs) : option fs := if io_moves io source then mv source target files else None.

Definition status_text (state message : string) : string :=
  str_replace "'" quote ("{'state':'" +:+ state +:+ "','message':'" +:+ message +:+ "','version':'" +:+ ip_version plan +:+ "'}") +:+
  String "010"%char EmptyString.
Definition write_status (state message : string) (files : fs) : fs :=
  match makedirs (removelast (ip_status_path plan)) files with
  | Some files => if is_dir files (ip_status_path plan) then files
                  else <[ip_status_path plan := File (status_text state message) false]> files
  | None => files
  end.

(** [-x "$install_dir/$entrypoint"], and the command line that starts it. *)
Definition executable (files : fs) : bool :=
  match walk files install_dir (parts_of (ip_entrypoint plan)) with
  | Some p => match files !! p with Some (File _ x) => x | _ => false end
  | None => false
  end.
Definition relaunched (files : fs) : fs := if executable files then io_relaunch io files else files.
Definition started (files : fs) : fs := if executable files then io_program io files else files.

Definition rollback (message : string) (files : fs) : install_end * fs :=
  let files := io_remove io install_dir files in
  let files := if is_dir files backup_dir then default files (move backup_dir install_dir files) else files in
  (RolledBack message, write_status "rolled_back" message (relaunched files)).

(** [None] is a copy that failed. *)
Definition preserve_item (name : string) (files : fs) : option fs :=
  if path_exists files (backup_dir ++ [name]) then
    let files := io_remove io (install_dir ++ [name]) files in
    if io_copies io name then cp (backup_dir ++ [name]) (install_dir ++ [name]) files else None
  else Some files.
Fixpoint preserve_items (names : list string) (files : fs) : option fs * fs :=
  match names with
  | [] => (Some files, files)
  | name :: names =>
      match preserve_item name files with
      | Some files => preserve_items names files
      | None => (None, io_debris io (install_dir ++ [name]) (io_remove io (install_dir ++ [name]) files))
      end
  end.

(** The new application in place with the data of the old one: [Err] is the
    message of the rollback and the files it starts from. *)
Definition swap (files : fs) : (result string fs * fs) :=
  match move (ip_staged_directory plan) install_dir files with
  | None => (Err "Could not move the staged update into place."%string, files)
  | Some files =>
      match preserve_items (ip_preserved_names plan) files with
      | (Some files, _) => (Ok files, files)
      | (None, files) => (Err "Could not preserve application data."%string, files)
      end
  end.

Definition cleaned (files : fs) : fs :=
  io_remove io (ip_marker_path plan) (io_remove io (ip_stage_container plan) (io_remove io backup_dir files)).

Definition run_installer (files : fs) : install_end * fs :=
  let files := io_remove io backup_dir files in
  match move install_dir backup_dir files with
  | None => (NotMoved, files)
  | Some files =>
      match swap files with
      | (Err message, files) => rollback message files
      | (Ok files, _) =>
          let files := started files in
          if is_file files (ip_marker_path plan)
          then (Installed, write_status "success" "Update installed successfully." (cleaned files))
          else rollback "The updated application did not start successfully." files
      end
  end.

(** ** The PowerShell script

    An error of any command goes to the [catch] block: [ps_error] is its
    message, [ps_json] the text that [ConvertTo-Json] and [Set-Content] make of
    the status, and [ps_starts] whether a program can be started.  Windows takes
    [..] out of a path before it looks it up. *)
Context (ps_error : string) (ps_json : string → string → string) (ps_starts : fs → bool).

Definition ps_write_status (state message : string) (files : fs) : option fs :=
  match makedirs (removelast (ip_status_path plan)) files with
  | Some files => if is_dir files (ip_status_path plan) then None
                  else Some (<[ip_status_path plan := File (ps_json state message) false]> files)
  | None => None
  end.

(** Nothing catches an error of the [catch] block: the script ends there. *)
Definition ps_catch (message : string) (files : fs) : install_end * fs :=
  let files := io_remove io install_dir files in
  match (if path_exists files backup_dir then move backup_dir install_dir files else Some files) with
  | None => (RolledBack message, files)
  | Some files =>
      if path_exists files (resolve install_dir (parts_of (ip_entrypoint plan))) then
        if ps_starts files
        then let files := io_relaunch io files in (RolledBack message, default files (ps_write_status "rolled_back" message files))
        else (RolledBack message, files)
      else (RolledBack message, default files (ps_write_status "rolled_back" message files))
  end.

Definition run_powershell (files : fs) : install_end * fs :=
  let files := io_remove io backup_dir files in
  match move install_dir backup_dir files with
  | None => ps_catch ps_error files
  | Some files =>
      match swap files with
      | (Err _, files) => ps_catch ps_error files
      | (Ok files, _) =>
          if ps_starts files then
            let files := io_program io files in
            if path_exists files (ip_marker_path plan) then
              let files := cleaned files in
              match ps_write_status "success" "Update installed successfully." files with
              | Some files => (Installed, files)
              | None => ps_catch ps_error files
              end
            else ps_catch "The updated application did not start successfully." files
          else ps_catch ps_error files
      end
  end.
End Installer.

(** ** Lookups *)

Lemma rmtree_lookup p q files : rmtree p files !! q = if decide (within p q) then None else files !! q.
Proof.
  unfold rmtree. rewrite map_lookup_filter. destruct (files !! q) as [n|]; simpl; [|by destruct (decide _)].
  destruct (decide (within p q)) as [Hw|Hw]; simpl.
  - case_guard as Hg; [by destruct Hg|done].
  - by case_guard.
Qed.

Lemma within_app p rest : within p (p ++ rest).
Proof. by exists rest. Qed.

Lemma subtree_lookup p files rest : subtree p files !! rest = files !! (p ++ rest).
Proof.
  unfold subtree. destruct (files !! (p ++ rest)) as [n|] eqn:E.
  - apply elem_of_list_to_map_1'.
    + intros n' Hn'. apply list_elem_of_omap in Hn' as ([q m] & Hq & Hm). cbn [fst snd] in Hm.
      destruct (decide (within p q)) as [[r ->]|]; [|done]. injection Hm as <- <-. rewrite drop_app_length in *.
      apply elem_of_map_to_list in Hq. congruence.
    + apply list_elem_of_omap. exists (p ++ rest, n). split; [by apply elem_of_map_to_list|]. cbn [fst snd].
      rewrite decide_True by apply within_app. by rewrite drop_app_length.
  - apply not_elem_of_list_to_map_1. intros ([r m] & Hr & Hm)%list_elem_of_fmap. cbn in Hr. subst r.
    apply list_elem_of_omap in Hm as ([q n] & Hq & Hn). cbn [fst snd] in Hn.
    destruct (decide (within p q)) as [[r ->]|]; [|done]. injection Hn as Hr Hmn. rewrite drop_app_length in Hr. subst r.
    apply elem_of_map_to_list in Hq. congruence.
Qed.

Lemma graft_inside p tree files rest : graft p tree files !! (p ++ rest) = tree !! rest.
Proof.
  unfold graft. destruct (tree !! rest) as [n|] eqn:E.
  - apply lookup_union_Some_l. rewrite (lookup_kmap (app p)). exact E.
  - rewrite lookup_union_None. split; [rewrite (lookup_kmap (app p)); exact E|]. rewrite rmtree_lookup, decide_True; [done|apply within_app].
Qed.

Lemma graft_outside p tree files q : ¬ within p q → graft p tree files !! q = files !! q.
Proof.
  intros Hq. unfold graft. rewrite lookup_union_r; [by rewrite rmtree_lookup, decide_False|].
  apply lookup_kmap_None; [apply _|]. intros rest ->. by destruct Hq; exists rest.
Qed.

Lemma within_refl p : within p p.
Proof. exists []. by rewrite app_nil_r. Qed.
Lemma within_trans p q r : within p q → within q r → within p r.
Proof. intros [a ->] [b ->]. exists (a ++ b). by rewrite assoc_L by apply _. Qed.
Lemma within_comparable p q r : within p r → within q r → within p q ∨ within q p.
Proof. apply prefix_weak_total. Qed.
Lemma within_parent p : within (removelast p) p.
Proof.
  destruct p as [|x p _] using rev_ind; [by exists []|]. rewrite removelast_last. by exists [x].
Qed.

(** Two places with nothing in common. *)
Definition apart (p q : path) : Prop := ¬ within p q ∧ ¬ within q p.

Lemma apart_below p q r : apart p q → within p r → ¬ within q r.
Proof. intros [H1 H2] Hp Hq. by destruct (within_comparable p q r Hp Hq). Qed.

Lemma is_dir_lookup files p : p ≠ [] → is_dir files p = true ↔ files !! p = Some Dir.
Proof. intros Hp. unfold is_dir. destruct p; [done|]. destruct (files !! _) as [[]|]; split; congruence. Qed.

Lemma path_exists_lookup files p : p ≠ [] → path_exists files p = true ↔ is_Some (files !! p).
Proof.
  intros Hp. unfold path_exists, is_file, is_dir. destruct p; [done|].
  destruct (files !! _) as [[]|]; split; intros H; try done; by destruct H.
Qed.

(** ** Moving and copying *)

Definition absent (p : path) (files : fs) : Prop := ∀ rest, files !! (p ++ rest) = None.

Lemma absent_here p files : p ≠ [] → absent p files → is_dir files p = false ∧ path_exists files p = false.
Proof.
  intros Hp Ha. pose proof (Ha []) as Hn. rewrite app_nil_r in Hn.
  unfold path_exists, is_file, is_dir. destruct p; [done|]. by rewrite Hn.
Qed.

Lemma rmtree_absent p files : absent p (rmtree p files).
Proof. intros rest. rewrite rmtree_lookup, decide_True; [done|apply within_app]. Qed.

Lemma rmtree_outside p q files : ¬ within p q → rmtree p files !! q = files !! q.
Proof. intros Hq. by rewrite rmtree_lookup, decide_False. Qed.

Lemma is_dir_same files files' p : files' !! p = files !! p → is_dir files' p = is_dir files p.
Proof. intros E. unfold is_dir. destruct p; [done|]. by rewrite E. Qed.
Lemma path_exists_same files files' p : files' !! p = files !! p → path_exists files' p = path_exists files p.
Proof. intros E. unfold path_exists, is_file. by rewrite (is_dir_same files files' p E), E. Qed.

Lemma mv_moves source target files files' : mv source target files = Some files' →
  let place := destination_of source target files in
  ¬ within source place ∧ (∀ rest, files' !! (place ++ rest) = files !! (source ++ rest)) ∧
  ∀ q, ¬ within place q → files' !! q = if decide (within source q) then None else files !! q.
Proof.
  unfold mv. destruct (_ && _) eqn:E; [|done]. intros [= <-]. apply andb_true_iff in E as [_ Hw%negb_true_iff%bool_decide_eq_false].
  split; [done|]. split.
  - intros rest. by rewrite graft_inside, subtree_lookup.
  - intros q Hq. rewrite graft_outside by done. apply rmtree_lookup.
Qed.

Lemma destination_absent source target files : target ≠ [] → absent target files → destination_of source target files = target.
Proof. intros Ht Ha. destruct (absent_here _ _ Ht Ha) as [Hd _]. unfold destination_of. by rewrite Hd. Qed.

Lemma mv_spec source target files files' : target ≠ [] → absent target files → mv source target files = Some files' →
  ¬ within source target ∧ (∀ rest, files' !! (target ++ rest) = files !! (source ++ rest)) ∧
  ∀ q, ¬ within target q → files' !! q = if decide (within source q) then None else files !! q.
Proof. intros Ht Ha Hm. apply mv_moves in Hm. by rewrite destination_absent in Hm. Qed.

Lemma mv_ok source target files : target ≠ [] → absent target files → path_exists files source = true →
  is_dir files (removelast target) = true → ¬ within source target → is_Some (mv source target files).
Proof.
  intros Ht Ha Hs Hp Hw. destruct (absent_here _ _ Ht Ha) as [Hd Hf]. unfold mv, destination_of, free_for. rewrite Hd, Hs, Hf, Hp.
  rewrite bool_decide_false by done. eauto.
Qed.

Lemma cp_spec source target files files' : target ≠ [] → absent target files → cp source target files = Some files' →
  (∀ rest, files' !! (target ++ rest) = files !! (source ++ rest)) ∧ ∀ q, ¬ within target q → files' !! q = files !! q.
Proof.
  intros Ht Ha. unfold cp. rewrite destination_absent by done. destruct (_ && _) eqn:E; [|done]. intros [= <-]. split.
  - intros rest. by rewrite graft_inside, subtree_lookup.
  - intros q Hq. by rewrite graft_outside.
Qed.

(** ** Making directories *)

Lemma make_dirs_spec names : ∀ files from files', make_dirs files from names = Some files' →
  (∀ q, ¬ (within from q ∧ within q (from ++ names)) → files' !! q = files !! q) ∧
  (∀ q, is_dir files q = true → is_dir files' q = true) ∧
  (∀ q, within from q → within q (from ++ names) → q ≠ from → is_dir files' q = true) ∧
  (∀ q, is_dir files q = true → files' !! q = files !! q) ∧
  (∀ q, files' !! q = files !! q ∨ files' !! q = Some Dir).
Proof.
  induction names as [|name names IH]; intros files from files'; cbn [make_dirs].
  { intros [= <-]. split_and!; [done|done| |done|by left]. intros q [a ->] [b Hb] Hne. rewrite app_nil_r in Hb.
    exfalso. apply Hne. destruct a as [|x a]; [by rewrite app_nil_r|]. apply (f_equal length) in Hb. rewrite !length_app in Hb. cbn in Hb. lia. }
  destruct (is_file _ _) eqn:Ef; [done|]. set (p := from ++ [name]). set (files1 := if is_dir files p then files else <[p:=Dir]> files).
  intros (H1 & H2 & H3 & H4 & H5)%IH.
  assert (p ++ names = from ++ name :: names) as Hp by (unfold p; by rewrite <-assoc_L by apply _). rewrite Hp in *.
  assert (p ≠ []) as Hne by (unfold p; by destruct from).
  assert (is_dir files1 p = true) as Hd.
  { unfold files1. destruct (is_dir files p) eqn:E; [done|]. apply is_dir_lookup; [done|]. by rewrite lookup_insert_eq. }
  assert (∀ q, q ≠ p → files1 !! q = files !! q) as Hsame.
  { intros q Hq. unfold files1. destruct (is_dir files p); [done|]. by rewrite lookup_insert_ne. }
  assert (∀ q, is_dir files q = true → files1 !! q = files !! q) as Hkeep.
  { intros q Hq. destruct (decide (q = p)) as [->|]; [|by apply Hsame]. unfold files1. by rewrite Hq. }
  split_and!.
  - intros q Hq. rewrite H1; [apply Hsame|].
    + intros ->. apply Hq. split; [by exists [name]|]. rewrite <-Hp. apply within_app.
    + intros [Ha Hb]. apply Hq. split; [|done]. eapply within_trans; [|done]. by exists [name].
  - intros q Hq. apply H2. rewrite (is_dir_same files files1 q); [done|by apply Hkeep].
  - intros q Ha Hb Hq. destruct (decide (within p q)) as [Hw|Hw].
    + destruct (decide (q = p)) as [->|]; [by apply H2|by apply H3].
    + exfalso. destruct Ha as [a ->]. destruct a as [|x a]; [by rewrite app_nil_r in Hq|]. apply Hw.
      destruct Hb as [b Hb]. rewrite <-assoc_L in Hb by apply _. apply app_inj_1 in Hb as [_ Hb]; [|done]. injection Hb as <- _.
      exists a. unfold p. by rewrite <-assoc_L by apply _.
  - intros q Hq. rewrite H4; [by apply Hkeep|]. rewrite (is_dir_same files files1 q); [done|by apply Hkeep].
  - intros q. destruct (H5 q) as [->|]; [|by right]. destruct (decide (q = p)) as [->|]; [|left; by apply Hsame].
    unfold files1. destruct (is_dir files p); [by left|]. right. by rewrite lookup_insert_eq.
Qed.

Lemma makedirs_spec p files files' : makedirs p files = Some files' →
  (∀ q, ¬ within q p → files' !! q = files !! q) ∧
  (∀ q, is_dir files q = true → is_dir files' q = true ∧ files' !! q = files !! q) ∧
  (∀ q, within q p → is_dir files' q = true) ∧ ∀ q, files' !! q = files !! q ∨ files' !! q = Some Dir.
Proof.
  intros (H1 & H2 & H3 & H4 & H5)%make_dirs_spec. cbn [app] in *. split_and!; [|by auto| |done].
  - intros q Hq. apply H1. by intros [_ ?].
  - intros q Hq. destruct (decide (q = [])) as [->|]; [done|]. apply H3; [by exists q|done|done].
Qed.

(** ** The installer *)

(** The places of a plan: the old application, its backup beside it, and the
    staging area with the new one are apart. *)
Record plan_ok (plan : InstallPlan) : Prop := {
  po_named : ip_install_directory plan ≠ [];
  po_beside : removelast (ip_backup_directory plan) = removelast (ip_install_directory plan);
  po_backup_named : ip_backup_directory plan ≠ [];
  po_backup : apart (ip_install_directory plan) (ip_backup_directory plan);
  po_stage : apart (ip_install_directory plan) (ip_stage_container plan);
  po_stage_backup : apart (ip_backup_directory plan) (ip_stage_container plan);
  po_staged : within (ip_stage_container plan) (ip_staged_directory plan)
}.

(** What a command changes below a place only, and a removal that succeeds. *)
Definition stays_below (p : path) (f : fs → fs) : Prop := ∀ files q, ¬ within p q → f files !! q = files !! q.
Definition clears (io : installer) (p : path) : Prop := ∀ files, absent p (io_remove io p files).

(** What the system does: a removal and a failed copy change nothing outside
    their place, a stale backup and the staged copies of the data that is carried
    over can be removed, and until it has started the new program leaves the
    backup alone, and the directory the application is in. *)
Record system_ok (plan : InstallPlan) (io : installer) : Prop := {
  so_remove p : stays_below p (io_remove io p);
  so_debris p : stays_below p (io_debris io p);
  so_backup : clears io (ip_backup_directory plan);
  so_data name : name ∈ ip_preserved_names plan → clears io (ip_install_directory plan ++ [name]);
  so_program files rest :
    io_program io files !! (ip_backup_directory plan ++ rest) = files !! (ip_backup_directory plan ++ rest);
  so_parent files : is_dir files (removelast (ip_install_directory plan)) = true →
    is_dir (io_program io files) (removelast (ip_install_directory plan)) = true
}.

Section InstallerFacts.
Context (plan : InstallPlan) (io : installer).
Local Abbreviation install_dir := (ip_install_directory plan).
Local Abbreviation backup_dir := (ip_backup_directory plan).
Local Abbreviation staged_dir := (ip_staged_directory plan).
Implicit Types files : fs.

Lemma write_status_lookup state message files q : ¬ within q (ip_status_path plan) →
  write_status plan state message files !! q = files !! q.
Proof.
  intros Hq. unfold write_status. destruct (makedirs _ _) as [files'|] eqn:E; [|done].
  apply makedirs_spec in E as (H1 & _). assert (files' !! q = files !! q) as Hs.
  { apply H1. intros Hw. apply Hq. etrans; [done|]. apply within_parent. }
  destruct (is_dir files' _); [done|]. rewrite lookup_insert_ne; [done|]. by intros <-.
Qed.

Context (Hplan : plan_ok plan) (Hsystem : system_ok plan io).

Lemma child_named name : install_dir ++ [name] ≠ [] ∧ backup_dir ++ [name] ≠ [].
Proof. by destruct install_dir, backup_dir. Qed.

Lemma install_not_in_backup q : within install_dir q → ¬ within backup_dir q.
Proof. intros Hq. by eapply apart_below; [apply (po_backup _ Hplan)|]. Qed.
Lemma backup_not_in_install rest : ¬ within install_dir (backup_dir ++ rest).
Proof. intros Hq. by eapply (install_not_in_backup (backup_dir ++ rest)); [|apply within_app]. Qed.

Lemma parent_outside p q : p ≠ [] → q = removelast p → ¬ within p q.
Proof.
  intros Hp -> [rest E]. destruct p as [|x p _] using rev_ind; [done|]. rewrite removelast_last in E.
  apply (f_equal length) in E. rewrite !length_app in E. cbn in E. lia.
Qed.

Lemma parent_outside_both q : q = removelast install_dir → ¬ within install_dir q ∧ ¬ within backup_dir q.
Proof.
  intros ->. split; [apply parent_outside; [apply (po_named _ Hplan)|done]|].
  rewrite <-(po_beside _ Hplan). apply parent_outside; [apply (po_backup_named _ Hplan)|done].
Qed.

Lemma preserve_item_spec name files files' : name ∈ ip_preserved_names plan → preserve_item plan io name files = Some files' →
  (∀ q, ¬ within (install_dir ++ [name]) q → files' !! q = files !! q) ∧
  (∀ rest, files' !! (install_dir ++ name :: rest) =
     if path_exists files (backup_dir ++ [name]) then files !! (backup_dir ++ name :: rest)
     else files !! (install_dir ++ name :: rest)).
Proof.
  intros Hname. unfold preserve_item. destruct (path_exists files _); [|by intros [= <-]]. destruct (io_copies io name); [|done].
  intros E. apply cp_spec in E as [H1 H2]; [|apply child_named|by apply (so_data _ _ Hsystem)]. split.
  - intros q Hq. rewrite H2 by done. by apply (so_remove _ _ Hsystem).
  - intros rest. rewrite !(cons_middle name), !(assoc_L (++)), H1. apply (so_remove _ _ Hsystem).
    intros Hw. eapply (backup_not_in_install ([name] ++ rest)). rewrite (assoc_L (++)).
    etrans; [|exact Hw]. apply within_app.
Qed.

Definition carried (names : list string) (files : fs) (name : string) : bool :=
  bool_decide (name ∈ names) && path_exists files (backup_dir ++ [name]).

Lemma preserve_items_spec names : ∀ files r files', names ⊆ ip_preserved_names plan → preserve_items plan io names files = (r, files') →
  (∀ q, ¬ within install_dir q → files' !! q = files !! q) ∧
  (∀ x, r = Some x → x = files' ∧ files' !! install_dir = files !! install_dir ∧
     ∀ name rest, files' !! (install_dir ++ name :: rest) =
       if carried names files name then files !! (backup_dir ++ name :: rest) else files !! (install_dir ++ name :: rest)).
Proof.
  induction names as [|n names IH]; intros files r files' Hin; cbn [preserve_items].
  { intros [= <- <-]. split; [done|]. intros x [= <-]. by split_and!. }
  assert (n ∈ ip_preserved_names plan ∧ names ⊆ ip_preserved_names plan) as [Hn Hnames] by set_solver.
  destruct (preserve_item plan io n files) as [files1|] eqn:E.
  2: { intros [= <- <-]. split; [|done]. intros q Hq. assert (¬ within (install_dir ++ [n]) q) as Hw.
       { intros Hw. apply Hq. etrans; [apply within_app|exact Hw]. }
       by rewrite (so_debris _ _ Hsystem), (so_remove _ _ Hsystem). }
  apply preserve_item_spec in E as [H1 H2]; [|done]. intros [H3 H4]%IH; [|done].
  assert (∀ q, ¬ within install_dir q → files1 !! q = files !! q) as Hout.
  { intros q Hq. apply H1. intros Hw. apply Hq. etrans; [apply within_app|exact Hw]. }
  split; [intros q Hq; by rewrite H3, Hout|]. intros x Hx. destruct (H4 x Hx) as (-> & Hroot & Hrest). split; [done|].
  split. { rewrite Hroot. apply H1. apply parent_outside; [apply child_named|by rewrite removelast_last]. }
  intros name rest. rewrite Hrest. unfold carried.
  assert (path_exists files1 (backup_dir ++ [name]) = path_exists files (backup_dir ++ [name])) as ->
    by apply path_exists_same, Hout, backup_not_in_install.
  assert (files1 !! (backup_dir ++ name :: rest) = files !! (backup_dir ++ name :: rest)) as -> by apply Hout, backup_not_in_install.
  destruct (decide (name = n)) as [->|Hne].
  - rewrite H2. rewrite (bool_decide_true (n ∈ n :: names)) by left. cbn [andb].
    destruct (bool_decide (n ∈ names)), (path_exists files (backup_dir ++ [n])); done.
  - rewrite (bool_decide_ext (name ∈ n :: names) (name ∈ names)) by set_solver.
    rewrite H1; [done|]. rewrite (cons_middle name). intros [k Hk].
    rewrite <-!(assoc_L (++)) in Hk. apply app_inj_1 in Hk as [_ Hk]; [|done]. by injection Hk.
Qed.

(** The old application has been moved away. *)
Definition moved_away files : Prop := absent install_dir files.

Lemma swap_spec files r files' : moved_away files → swap plan io files = (r, files') →
  (∀ q, ¬ within install_dir q → ¬ within (ip_stage_container plan) q → files' !! q = files !! q) ∧
  (∀ x, r = Ok x → x = files' ∧ files' !! install_dir = files !! staged_dir ∧
     ∀ name rest, files' !! (install_dir ++ name :: rest) =
       if carried (ip_preserved_names plan) files name then files !! (backup_dir ++ name :: rest)
       else files !! (staged_dir ++ name :: rest)).
Proof.
  intros Ha. unfold swap, move. destruct (io_moves io _); [|by intros [= <- <-]].
  destruct (mv staged_dir install_dir files) as [files1|] eqn:E; [|by intros [= <- <-]].
  apply mv_spec in E as (_ & H1 & H2); [|apply (po_named _ Hplan)|done].
  assert (∀ q, ¬ within install_dir q → ¬ within (ip_stage_container plan) q → files1 !! q = files !! q) as Hout.
  { intros q Hq Hs. rewrite H2 by done. rewrite decide_False; [done|]. intros Hw. apply Hs. etrans; [apply (po_staged _ Hplan)|done]. }
  assert (∀ rest, files1 !! (backup_dir ++ rest) = files !! (backup_dir ++ rest)) as Hb.
  { intros rest. apply Hout; [apply backup_not_in_install|]. eapply apart_below; [apply (po_stage_backup _ Hplan)|apply within_app]. }
  destruct (preserve_items _ _ _ _) as [[x|] files2] eqn:Ep; intros [= <- <-]; (apply preserve_items_spec in Ep as [H3 H4]; [|done]).
  2: { split; [|done]. intros q Hq Hs. rewrite H3 by done. by apply Hout. }
  destruct (H4 _ eq_refl) as (-> & Hroot & Hrest). split; [intros q Hq Hs; rewrite H3 by done; by apply Hout|].
  intros y [= <-]. split; [done|]. split.
  - rewrite Hroot. pose proof (H1 []) as Hr. by rewrite !app_nil_r in Hr.
  - intros name rest. rewrite Hrest, H1, Hb. unfold carried. pose proof (Hb [name]) as Hn.
    by rewrite (path_exists_same files files1 (backup_dir ++ [name])).
Qed.

Lemma install_parent_outside_stage : ¬ within (ip_stage_container plan) (removelast install_dir).
Proof. intros Hw. destruct (po_stage _ Hplan) as [_ Hs]. apply Hs. etrans; [exact Hw|apply within_parent]. Qed.

(** Where the old application can be after a rollback. *)
Definition places : list path := [install_dir; backup_dir; install_dir ++ [path_name backup_dir]].

Lemma rollback_spec message files tree : (∀ rest, files !! (backup_dir ++ rest) = tree rest) → tree [] = Some Dir →
  is_dir files (removelast install_dir) = true →
  ∃ restored place, rollback plan io message files = (RolledBack message, write_status plan "rolled_back" message (relaunched plan io restored)) ∧
    place ∈ places ∧ (∀ rest, restored !! (place ++ rest) = tree rest) ∧
    (clears io install_dir → io_moves io backup_dir = true → place = install_dir).
Proof.
  intros Hb Hroot Hp. unfold rollback, move. set (files1 := io_remove io install_dir files).
  assert (∀ r, files1 !! (backup_dir ++ r) = tree r) as Hb1.
  { intros r. unfold files1. rewrite (so_remove _ _ Hsystem); [apply Hb|apply backup_not_in_install]. }
  assert (files1 !! backup_dir = Some Dir) as Hd by (pose proof (Hb1 []) as Hd; rewrite app_nil_r in Hd; congruence).
  rewrite (proj2 (is_dir_lookup files1 backup_dir (po_backup_named _ Hplan)) Hd).
  destruct (parent_outside_both _ eq_refl) as [Hpi Hpb]. destruct (io_moves io backup_dir).
  2: { exists files1, backup_dir. split; [done|]. split; [right; left|]. by split. }
  destruct (mv backup_dir install_dir files1) as [files2|] eqn:E.
  - exists files2, (destination_of backup_dir install_dir files1). split; [done|]. apply mv_moves in E as (_ & H1 & _). split_and!.
    + unfold destination_of. destruct (is_dir files1 install_dir); [right; right; left|left].
    + intros rest. by rewrite H1, Hb1.
    + intros Hc _. apply destination_absent; [apply (po_named _ Hplan)|apply Hc].
  - exists files1, backup_dir. split; [done|]. split; [right; left|]. split; [done|]. intros Hc _. exfalso.
    destruct (mv_ok backup_dir install_dir files1) as [files2 E'].
    + apply (po_named _ Hplan).
    + apply Hc.
    + apply path_exists_lookup; [apply (po_backup_named _ Hplan)|]. by rewrite Hd.
    + rewrite (is_dir_same files files1); [done|]. by apply (so_remove _ _ Hsystem).
    + apply install_not_in_backup. done.
    + by rewrite E in E'.
Qed.

(** The first move leaves the old application in the backup, and nothing else
    changes. *)
Lemma first_move files files1 : move io install_dir backup_dir (io_remove io backup_dir files) = Some files1 →
  moved_away files1 ∧ (∀ rest, files1 !! (backup_dir ++ rest) = files !! (install_dir ++ rest)) ∧
  ∀ q, ¬ within install_dir q → ¬ within backup_dir q → files1 !! q = files !! q.
Proof.
  unfold move. destruct (io_moves io _); [|done].
  intros E. apply mv_spec in E as (_ & H1 & H2); [|apply (po_backup_named _ Hplan)|apply (so_backup _ _ Hsystem)]. split_and!.
  - intros rest. rewrite H2 by (apply install_not_in_backup, within_app). rewrite decide_True; [done|apply within_app].
  - intros rest. rewrite H1. apply (so_remove _ _ Hsystem), install_not_in_backup, within_app.
  - intros q Hi Hb. rewrite H2, decide_False by done. by apply (so_remove _ _ Hsystem).
Qed.

(** The new program leaves the backup alone, whether it can be started or not. *)
Lemma started_ok files :
  (∀ rest, started plan io files !! (backup_dir ++ rest) = files !! (backup_dir ++ rest)) ∧
  (is_dir files (removelast install_dir) = true → is_dir (started plan io files) (removelast install_dir) = true).
Proof.
  unfold started. destruct (executable plan files); [|done].
  split; [intros rest; apply (so_program _ _ Hsystem)|apply (so_parent _ _ Hsystem)].
Qed.

Lemma cleaned_outside files q : ¬ within backup_dir q → ¬ within (ip_stage_container plan) q → ¬ within (ip_marker_path plan) q →
  cleaned plan io files !! q = files !! q.
Proof. intros H1 H2 H3. unfold cleaned. by rewrite !(so_remove _ _ Hsystem). Qed.

(** The new application with the data of the old one. *)
Definition swapped files files2 : Prop :=
  files2 !! install_dir = files !! staged_dir ∧
  ∀ name rest, files2 !! (install_dir ++ name :: rest) =
    if bool_decide (name ∈ ip_preserved_names plan) && path_exists files (install_dir ++ [name])
    then files !! (install_dir ++ name :: rest) else files !! (staged_dir ++ name :: rest).

Lemma staged_outside rest : ¬ within install_dir (staged_dir ++ rest) ∧ ¬ within backup_dir (staged_dir ++ rest).
Proof.
  assert (within (ip_stage_container plan) (staged_dir ++ rest)) as Hw by (etrans; [apply (po_staged _ Hplan)|apply within_app]).
  split; intros Hq; [eapply (apart_below _ _ _ (po_stage _ Hplan))|eapply (apart_below _ _ _ (po_stage_backup _ Hplan))]; eauto.
Qed.

Lemma swap_gives files files1 files2 x : move io install_dir backup_dir (io_remove io backup_dir files) = Some files1 →
  swap plan io files1 = (Ok x, files2) → x = files2 ∧ swapped files files2.
Proof.
  intros (Ha & Hb & Ho)%first_move Hs. apply swap_spec in Hs as [_ Hs]; [|done]. destruct (Hs _ eq_refl) as (-> & Hroot & Hrest).
  split; [done|]. split.
  - rewrite Hroot. pose proof (staged_outside []) as [H1 H2]. rewrite app_nil_r in *. by apply Ho.
  - intros name rest. rewrite Hrest, Hb. unfold carried. pose proof (Hb [name]) as Hn.
    rewrite Ho by apply staged_outside. unfold path_exists, is_file, is_dir.
    rewrite Hn. destruct (child_named name). by destruct (backup_dir ++ [name]), (install_dir ++ [name]).
Qed.
End InstallerFacts.

(** C24: the POSIX script installs an update all or nothing: either the old
    application was never moved, and everything outside the backup place is as
    before; or the installer rolled back, and whatever failed and whatever the
    new program wrote outside the backup, the old application is complete: in
    its place if the new one could be removed and the backup moved back, else in
    the backup or below what is left of the new one - after which it is started
    again, if it is in its place, and the status is written; or the installer
    completed, after the new program started in a directory that holds the
    staged application with the listed data of the old one in place of its own.
    (The places of the plan are apart, as a prepared plan has them; a stale
    backup and the staged copies of the data carried over can be removed, moves
    are atomic, and a program is stopped when the script goes on.  The
    PowerShell script does not keep this: see below.) *)
Theorem installing_is_all_or_nothing plan io files
  (Hplan : plan_ok plan) (Hsystem : system_ok plan io)
  (Hinstalled : files !! ip_install_directory plan = Some Dir)
  (Hparent : is_dir files (removelast (ip_install_directory plan)) = true) :
  match run_installer plan io files with
  | (NotMoved, files') => ∀ q, ¬ within (ip_backup_directory plan) q → files' !! q = files !! q
  | (RolledBack message, files') => ∃ restored place,
      files' = write_status plan "rolled_back" message (relaunched plan io restored) ∧ place ∈ places plan ∧
      (∀ rest, restored !! (place ++ rest) = files !! (ip_install_directory plan ++ rest)) ∧
      (clears io (ip_install_directory plan) → io_moves io (ip_backup_directory plan) = true → place = ip_install_directory plan)
  | (Installed, files') => ∃ files2, swapped plan files files2 ∧
      is_file (started plan io files2) (ip_marker_path plan) = true ∧
      ∀ q, ¬ within (ip_backup_directory plan) q → ¬ within (ip_stage_container plan) q → ¬ within (ip_marker_path plan) q →
        ¬ within q (ip_status_path plan) → files' !! q = started plan io files2 !! q
  end.
Proof.
  unfold run_installer. destruct (move io _ _ _) as [files1|] eqn:E.
  2: { intros q Hq. by apply (so_remove _ _ Hsystem). }
  destruct (first_move plan io Hplan Hsystem files files1 E) as (Ha & Hb & Ho).
  destruct (parent_outside_both plan Hplan _ eq_refl) as [Hpi Hpb].
  assert (is_dir files1 (removelast (ip_install_directory plan)) = true) as Hp1 by by rewrite (is_dir_same files files1) by by apply Ho.
  destruct (swap plan io files1) as [r files2] eqn:Es. pose proof (swap_spec plan io Hplan Hsystem files1 r files2 Ha Es) as [Hout _].
  assert (is_dir files2 (removelast (ip_install_directory plan)) = true) as Hp2.
  { rewrite (is_dir_same files1 files2); [done|]. apply Hout; [done|by apply install_parent_outside_stage]. }
  assert (∀ rest, files2 !! (ip_backup_directory plan ++ rest) = files !! (ip_install_directory plan ++ rest)) as Hb2.
  { intros rest. rewrite Hout, Hb; [done|by apply backup_not_in_install|].
    eapply apart_below; [apply (po_stage_backup _ Hplan)|apply within_app]. }
  assert (files !! (ip_install_directory plan ++ []) = Some Dir) as Hroot by by rewrite app_nil_r.
  assert (∀ message f, (∀ rest, f !! (ip_backup_directory plan ++ rest) = files !! (ip_install_directory plan ++ rest)) →
    is_dir f (removelast (ip_install_directory plan)) = true → _) as Hback
    by (intros message f H1 H2; exact (rollback_spec plan io Hplan Hsystem message f (λ rest, files !! (ip_install_directory plan ++ rest)) H1 Hroot H2)).
  destruct r as [x|message].
  - destruct (swap_gives plan io Hplan Hsystem files files1 files2 x E Es) as [-> Hsw].
    destruct (started_ok plan io Hsystem files2) as [Hk1 Hk2]. destruct (is_file _ _) eqn:Em.
    + exists files2. split; [done|]. split; [done|]. intros q H1 H2 H3 H4. rewrite write_status_lookup by done.
      by apply cleaned_outside.
    + destruct (Hback "The updated application did not start successfully."%string (started plan io files2)) as (restored & place & -> & Hrest);
        [intros rest; by rewrite Hk1, Hb2|by auto|]. by exists restored, place.
  - destruct (Hback message files2) as (restored & place & -> & Hrest); [done|done|]. by exists restored, place.
Qed.

(** The PowerShell script rolls back even when the first move is refused, with
    the old application still in its place and no backup: its [catch] block
    removes the application. *)
Theorem refused_move_loses_the_application plan io ps_error ps_json ps_starts files :
  plan_ok plan → system_ok plan io → clears io (ip_install_directory plan) → io_moves io (ip_install_directory plan) = false →
  within (ip_install_directory plan) (resolve (ip_install_directory plan) (parts_of (ip_entrypoint plan))) →
  let '(r, files') := run_powershell plan io ps_error ps_json ps_starts files in
  r = RolledBack ps_error ∧ ∀ rest, ¬ within (ip_install_directory plan ++ rest) (ip_status_path plan) →
    files' !! (ip_install_directory plan ++ rest) = None.
Proof.
  intros Hplan Hsystem Hclears Hmove [entry Hentry]. unfold run_powershell, move. rewrite Hmove. unfold ps_catch.
  set (files0 := io_remove io (ip_backup_directory plan) files). set (files1 := io_remove io (ip_install_directory plan) files0).
  assert (absent (ip_backup_directory plan) files1) as Hb.
  { intros rest. unfold files1. rewrite (so_remove _ _ Hsystem) by by apply backup_not_in_install. apply (so_backup _ _ Hsystem). }
  assert (absent (ip_install_directory plan) files1) as Hi by apply Hclears.
  destruct (absent_here _ _ (po_backup_named _ Hplan) Hb) as [_ ->]. rewrite Hentry.
  assert (path_exists files1 (ip_install_directory plan ++ entry) = false) as ->.
  { apply not_true_iff_false. rewrite path_exists_lookup; [rewrite Hi; by intros []|]. pose proof (po_named _ Hplan). by destruct (ip_install_directory plan). }
  split; [done|]. intros rest Hs. unfold ps_write_status. destruct (makedirs _ _) as [files2|] eqn:E; [|apply Hi].
  apply makedirs_spec in E as (H1 & _). assert (files2 !! (ip_install_directory plan ++ rest) = None) as Hnone.
  { rewrite H1; [apply Hi|]. intros Hw. apply Hs. etrans; [done|]. apply within_parent. }
  destruct (is_dir files2 _); [apply Hi|]. cbn [from_option id]. rewrite lookup_insert_ne; [done|]. intros E. apply Hs. by rewrite E.
Qed.

(** ** Preparing *)













Section PrepareFacts.
Context `{PyRepr}.
Context (h : host) (members_of : string → option (list zip_member)).




End PrepareFacts.

Section PlanFacts.
Context (temp_directory app_directory : path) (token : string).
Local Abbreviation marker_path := (temp_root temp_directory ++ ["started-" +:+ token +:+ ".marker"]).






End PlanFacts.


(** * Versions are ordered *)

Definition str_lt (a b : string) : Prop := str_ltb a b = true.
Lemma str_lt_trans a b c : str_lt a b → str_lt b c → str_lt a c.
Proof.
  unfold str_lt. rewrite !str_ltb_leb, !negb_true_iff. intros H1 H2. destruct (str_leb c a) eqn:E; [|done].
  destruct (str_leb_total b c) as [Hbc|Hbc]; [|congruence].
  assert (str_leb b a = true) by by eapply str_leb_trans. congruence.
Qed.
Lemma str_lt_irrefl a : ¬ str_lt a a.
Proof. unfold str_lt. rewrite str_ltb_leb, negb_true_iff. destruct (str_leb_total a a); congruence. Qed.
Lemma str_lt_total a b : str_lt a b ∨ a = b ∨ str_lt b a.
Proof.
  unfold str_lt. rewrite !str_ltb_leb, !negb_true_iff. destruct (str_leb b a) eqn:E1, (str_leb a b) eqn:E2; auto.
  right; left. by apply str_leb_antisym.
Qed.

Definition version_lt (a b : _version_tuple) : Prop :=
  let '(a1, a2, a3, a4, a5) := a in
  let '(b1, b2, b3, b4, b5) := b in
  a1 < b1 ∨ a1 = b1 ∧ (a2 < b2 ∨ a2 = b2 ∧ (a3 < b3 ∨ a3 = b3 ∧ (a4 < b4 ∨ a4 = b4 ∧ str_lt a5 b5))).

Lemma version_ltb_lt a b : version_ltb a b = true ↔ version_lt a b.
Proof.
  destruct a as [[[[a1 a2] a3] a4] a5], b as [[[[b1 b2] b3] b4] b5]. unfold version_ltb, version_lt, str_lt.
  rewrite !orb_true_iff, !andb_true_iff, !orb_true_iff, !andb_true_iff, !orb_true_iff, !andb_true_iff, !orb_true_iff, !andb_true_iff.
  by rewrite !Z.ltb_lt, !Z.eqb_eq.
Qed.

Lemma version_lt_trans a b c : version_lt a b → version_lt b c → version_lt a c.
Proof.
  destruct a as [[[[a1 a2] a3] a4] a5], b as [[[[b1 b2] b3] b4] b5], c as [[[[c1 c2] c3] c4] c5]. unfold version_lt.
  intros H1 H2.
  do 4 (destruct H1 as [H1|[-> H1]], H2 as [H2|[-> H2]]; try (left; lia); right; split; [done|]). by eapply str_lt_trans.
Qed.
Lemma version_lt_irrefl a : ¬ version_lt a a.
Proof. destruct a as [[[[a1 a2] a3] a4] a5]. unfold version_lt. intros H.
  do 4 (destruct H as [H|[_ H]]; [lia|]). by apply (str_lt_irrefl a5). Qed.
Lemma version_lt_total a b : version_lt a b ∨ a = b ∨ version_lt b a.
Proof.
  destruct a as [[[[a1 a2] a3] a4] a5], b as [[[[b1 b2] b3] b4] b5]. unfold version_lt.
  destruct (Z.lt_total a1 b1) as [?|[->|?]]; [lia| |lia]. destruct (Z.lt_total a2 b2) as [?|[->|?]]; [lia| |lia].
  destruct (Z.lt_total a3 b3) as [?|[->|?]]; [lia| |lia]. destruct (Z.lt_total a4 b4) as [?|[->|?]]; [lia| |lia].
  destruct (str_lt_total a5 b5) as [?|[->|?]]; auto 20.
Qed.

Lemma compare_versions_spec a b :
  (compare_versions a b = 1 ∧ version_lt (_version_key b) (_version_key a)) ∨
  (compare_versions a b = 0 ∧ _version_key a = _version_key b) ∨
  (compare_versions a b = -1 ∧ version_lt (_version_key a) (_version_key b)).
Proof.
  unfold compare_versions. destruct (version_ltb (_version_key b) (_version_key a)) eqn:E1, (version_ltb (_version_key a) (_version_key b)) eqn:E2.
  - apply version_ltb_lt in E1, E2. destruct (version_lt_irrefl (_version_key a)). by eapply version_lt_trans.
  - left. split; [done|]. by apply version_ltb_lt.
  - do 2 right. split; [done|]. by apply version_ltb_lt.
  - right; left. split; [done|]. destruct (version_lt_total (_version_key a) (_version_key b)) as [H|[H|H]]; [|done|];
      apply version_ltb_lt in H; congruence.
Qed.

(** * The release that is offered *)

Section ReleaseFacts.
Context `{PyRepr}.

Lemma max_by_version_spec key items : ∀ best,
  let m := max_by_version key best items in
  m ∈ best :: items ∧ ∀ g, g ∈ best :: items → ¬ version_lt (key m) (key g).
Proof.
  induction items as [|item items IH]; intros best; cbn [max_by_version].
  { split; [by left|]. intros g [->|?%not_elem_of_nil]%elem_of_cons; [apply version_lt_irrefl|done]. }
  destruct (version_ltb (key best) (key item)) eqn:E.
  - destruct (IH item) as [Hin Hmax]. split; [by apply elem_of_cons; right|].
    intros g [->|Hg]%elem_of_cons; [|by apply Hmax]. intros Hlt. apply version_ltb_lt in E.
    apply (Hmax item); [by left|]. by eapply version_lt_trans.
  - destruct (IH best) as [Hin Hmax]. split.
    + apply elem_of_cons in Hin as [->|Hin]; [by left|by do 2 right].
    + intros g [->|[->|Hg]%elem_of_cons]%elem_of_cons; [apply Hmax; by left| |apply Hmax; by right].
      intros Hlt. destruct (version_lt_total (key best) (key item)) as [Hb|[Hb|Hb]].
      * apply version_ltb_lt in Hb. congruence.
      * rewrite <-Hb in Hlt. apply (Hmax best); [by left|done].
      * apply (Hmax best); [by left|]. by eapply version_lt_trans.
Qed.

(** The release the prerelease channel offers among the published ones: the
    first when it is a development build, else the newest version. *)
Definition best_release (candidates : list fields) (f : fields) : Prop :=
  match candidates with
  | [] => False
  | first :: _ =>
      f ∈ candidates ∧
      if _is_development_release first then f = first
      else _is_development_release f = false ∧
           ∀ g, g ∈ candidates → _is_development_release g = false → ¬ version_lt (release_key f) (release_key g)
  end.

Lemma select_release_spec items : match select_release (JArray items) with
  | Ok f => best_release (candidates_of items) f
  | Err e => candidates_of items = [] ∧ e = ValueError "No published GitHub release or prerelease was found"
  end.
Proof.
  unfold select_release, best_release. destruct (candidates_of items) as [|first rest]; [done|].
  destruct (_is_development_release first) eqn:Ed; [split; [by left|done]|].
  rewrite filter_cons, decide_True by done.
  destruct (max_by_version_spec release_key (filter (λ item, _is_development_release item = false) rest) first) as [Hin Hmax].
  assert (∀ g, g ∈ first :: filter (λ item, _is_development_release item = false) rest ↔ g ∈ first :: rest ∧ _is_development_release g = false) as Hf.
  { intros g. rewrite !elem_of_cons, list_elem_of_filter. naive_solver. }
  apply Hf in Hin as [Hin Hdev]. split; [done|]. split; [done|]. intros g Hg Hgd. apply Hmax, Hf. done.
Qed.

(** The asset that is offered: none when none fits the machine, else one of the
    best priority. *)
Definition best_asset (h : host) (arch : string) (items : list json) (o : option ReleaseAsset) : Prop :=
  let fits := omap (asset_candidate (_platform_id h) arch) items in
  match o with
  | None => fits = []
  | Some a => ∃ p item, (p, item) ∈ fits ∧ ra_name a = asset_name item ∧ 0 ≤ ra_size a ∧
      ra_digest a = str_strip (first_text ["digest"%string] item) ∧ ∀ p' item', (p', item') ∈ fits → priority_leb p p' = true
  end.

Lemma priority_leb_total a b : priority_leb a b = true ∨ priority_leb b a = true.
Proof.
  unfold priority_leb. rewrite !orb_true_iff, !andb_true_iff, !Z.ltb_lt, !Z.eqb_eq.
  destruct (str_leb_total a.2 b.2), (Z.lt_total a.1 b.1) as [|[]]; auto.
Qed.
Lemma priority_leb_trans a b c : priority_leb a b = true → priority_leb b c = true → priority_leb a c = true.
Proof.
  unfold priority_leb. rewrite !orb_true_iff, !andb_true_iff, !Z.ltb_lt, !Z.eqb_eq.
  intros [|[]] [|[]]; try (left; lia). right. split; [lia|]. by eapply str_leb_trans.
Qed.

Lemma select_asset_spec h items o : _select_asset h (JArray items) = Ok o →
  ∃ arch, _architecture_id h = Ok arch ∧ best_asset h arch items o.
Proof.
  unfold _select_asset, best_asset. destruct (_architecture_id h) as [arch|e]; cbn [mbind result_bind]; [|done].
  set (fits := omap _ items). intros E. exists arch. split; [done|].
  pose proof (sort_by_Permutation (λ a b, priority_leb a.1 b.1) fits) as Hp.
  pose proof (sort_by_sorted (λ a b : (Z * string) * fields, priority_leb a.1 b.1) (λ a b, priority_leb_total _ _)
    (λ a b c, priority_leb_trans _ _ _) fits) as Hs.
  destruct (sort_by _ fits) as [|[p item] rest].
  - injection E as <-. by apply Permutation_nil_l in Hp.
  - assert (∀ x, x ∈ fits ↔ x ∈ (p, item) :: rest) as Hin by (intros x; by rewrite Hp).
    destruct (int_field "size" 0 item) as [size|e]; cbn [mbind result_bind] in E; [|done]. injection E as <-.
    exists p, item. split; [apply Hin; by left|]. split; [done|]. split; [cbn; lia|]. split; [done|].
    intros p' item' [[= -> ->]|Hr]%Hin%elem_of_cons; [by destruct (priority_leb_total p p)|].
    apply StronglySorted_inv in Hs as [_ Hall]. exact (proj1 (Forall_forall _ _) Hall (p', item') Hr).
Qed.
End ReleaseFacts.

(** Versions are totally ordered: comparing two of them gives -1, 0 or 1,
    the other way round the opposite, 0 exactly when their keys are equal, and
    the order is transitive, whatever the texts are. *)
Theorem versions_are_totally_ordered a b c :
  compare_versions a b ∈ [-1; 0; 1] ∧ compare_versions b a = - compare_versions a b ∧
  (compare_versions a b = 0 ↔ _version_key a = _version_key b) ∧
  (compare_versions a b ≤ 0 → compare_versions b c ≤ 0 → compare_versions a c ≤ 0).
Proof.
  pose proof (compare_versions_spec a b) as Hab. pose proof (compare_versions_spec b a) as Hba.
  pose proof (compare_versions_spec b c) as Hbc. pose proof (compare_versions_spec a c) as Hac.
  assert (∀ x, ¬ version_lt x x) as Hi by apply version_lt_irrefl.
  assert (∀ x y, version_lt x y → version_lt y x → False) as Hasym by (intros x y H1 H2; eapply Hi, version_lt_trans; eauto).
  split_and!.
  - destruct Hab as [[-> _]|[[-> _]|[-> _]]]; set_solver.
  - destruct Hab as [[-> H1]|[[-> H1]|[-> H1]]], Hba as [[-> H2]|[[-> H2]|[-> H2]]]; try done; exfalso;
      rewrite ?H1, ?H2 in *; eauto; by eapply Hi; rewrite ?H1, <-?H2 in *.
  - destruct Hab as [[-> H1]|[[-> H1]|[-> H1]]]; (split; [done|]); intros E; try done; rewrite E in H1; by apply Hi in H1.
  - intros Hle1 Hle2. destruct Hac as [[_ H3]|[[-> _]|[-> _]]]; [exfalso|done..].
    destruct Hab as [[E _]|[[_ H1]|[_ H1]]]; [lia| |]; destruct Hbc as [[E _]|[[_ H2]|[_ H2]]]; try lia;
      rewrite ?H1, <-?H2 in *; eauto using version_lt_trans.
Qed.

(** The update that is offered is the best one of the channel for this
    machine: the release is the latest one of GitHub, or, on the prerelease
    channel, the first published one when that is a development build and else
    one that no published release with a version exceeds; the asset is one of
    the best priority among those of this platform and architecture, and is
    missing only when none fits. *)
Theorem offered_update_is_the_best `{PyRepr} latest releases h files directory channel u
  (Hrun : check_for_update latest releases h files directory channel = Ok u) :
  ∃ payload, _fetch_release_payload latest releases (ui_channel u) = Ok payload ∧
    ui_channel u ∈ _SUPPORTED_CHANNELS ∧ ui_build_based u = _is_development_release payload ∧
    (ui_channel u = "stable"%string → ∃ status error, latest = ApiReply status error (Some (JObject payload)) ∧ is_http_error status = false) ∧
    (ui_channel u = "prerelease"%string → ∃ status error items, releases = ApiReply status error (Some (JArray items)) ∧
       is_http_error status = false ∧ best_release (candidates_of items) payload) ∧
    match dict_get "assets" payload with
    | Some (JArray items) => ∃ arch, _architecture_id h = Ok arch ∧ best_asset h arch items (ui_asset u)
    | _ => ui_asset u = None
    end.
Proof.
  unfold check_for_update in Hrun. destruct (_normalize_channel channel) as [ch|e] eqn:Ec; cbn [mbind result_bind] in Hrun; [|done].
  destruct (_fetch_release_payload latest releases ch) as [payload|e] eqn:Ep; cbn [mbind result_bind] in Hrun; [|done].
  destruct (negb _) in Hrun; [done|]. destruct (read_install_manifest files directory) as [cm|e]; cbn [mbind result_bind] in Hrun; [|done].
  destruct (_select_asset h _) as [asset|e] eqn:Ea; cbn [mbind result_bind] in Hrun; [|done]. injection Hrun as <-.
  cbn [ui_channel ui_asset ui_build_based].
  assert (ch ∈ _SUPPORTED_CHANNELS) as Hch.
  { unfold _normalize_channel in Ec. case_bool_decide as Hb; [|done]. by injection Ec as <-. }
  exists payload. split; [done|]. split; [done|]. split; [done|]. unfold _fetch_release_payload in Ep. split_and!.
  - intros ->. rewrite String.eqb_refl in Ep. destruct latest as [|status error body]; cbn [api_json mbind result_bind] in Ep; [done|].
    destruct (is_http_error status) eqn:Eh; [by destruct (status =? 404)|]. destruct body as [[]|]; try done.
    injection Ep as ->. eauto.
  - intros ->. change (String.eqb "prerelease" "stable") with false in Ep.
    destruct releases as [|status error body]; cbn [api_json mbind result_bind] in Ep; [done|].
    destruct (is_http_error status) eqn:Eh; [by destruct (status =? 404)|]. destruct body as [v|]; [|done].
    destruct v as [| | | | |items|]; try done. pose proof (select_release_spec items) as Hs. cbn [mbind result_bind] in Ep. rewrite Ep in Hs. eauto 10.
  - destruct (dict_get "assets" payload) as [[]|]; cbn in Ea; try (by injection Ea as <-). by apply select_asset_spec.
Qed.

(** A download is installed only as it was published: when it returns, the
    file in the update directory holds exactly the received bytes, and when the
    release names a digest they match it, which is what [verified] says; a
    failed download leaves no file; nothing else changes. *)
Theorem download_is_verified sha256_hex reply updates u files r files'
  (Hrun : download_update sha256_hex reply updates u files = (r, files')) :
  match r with
  | Ok d => ∃ asset stream, ui_asset u = Some asset ∧ reply (ra_download_url asset) = Ok stream ∧
      is_http_error (bs_status stream) = false ∧ bs_broken stream = None ∧
      let content := str_join "" (bs_blocks stream) in
      dl_path d = updates ++ [ra_name asset] ∧ files' !! dl_path d = Some (File content false) ∧
      dl_verified d = _verify_digest (ra_digest asset) (sha256_hex content) ∧
      (ra_digest asset ≠ ""%string → dl_verified d = true ∧
         ∃ algorithm value, str_cut ":"%char (ra_digest asset) = (algorithm, Some value) ∧ str_lower algorithm = "sha256"%string ∧
           str_lower (str_strip value) = str_lower (str_strip (sha256_hex content))) ∧
      ∀ q, q ≠ dl_path d → ¬ within q updates → files' !! q = files !! q
  | Err _ => ∀ q, ¬ within q updates → files' !! q = files !! q
  end.
Proof.
  unfold download_update in Hrun. destruct (ui_asset u) as [asset|]; [|by injection Hrun as <- <-].
  destruct (makedirs updates files) as [files1|] eqn:Em; [|by injection Hrun as <- <-]. apply makedirs_spec in Em as [Hm _].
  destruct (reply _) as [stream|e] eqn:Er; [|by injection Hrun as <- <-].
  destruct (is_http_error _) eqn:Eh; [by injection Hrun as <- <-|]. destruct (str_contains _ _); [by injection Hrun as <- <-|].
  destruct (bs_broken stream) eqn:Eb; [by injection Hrun as <- <-|]. destruct (_ && _) eqn:Ev; [by injection Hrun as <- <-|].
  destruct (is_dir files1 _); [by injection Hrun as <- <-|]. injection Hrun as <- <-. exists asset, stream. cbn [dl_path dl_verified].
  split_and!; try done.
  - by rewrite lookup_insert_eq.
  - intros Hne. set (v := _verify_digest _ _) in *.
    assert (v = true) as Hv.
    { apply andb_false_iff in Ev as [Ev|Ev%negb_false_iff]; [|done].
      exfalso. apply Hne. revert Ev. by destruct (ra_digest asset). }
    split; [done|].
    revert Hv. unfold v, _verify_digest. destruct (negb (str_nonempty _)); [intros [=]|].
    destruct (str_cut _ _) as [algorithm [value|]]; [|intros [=]].
    destruct (String.eqb_spec (str_lower algorithm) "sha256") as [Ha|Ha]; cbn [negb]; [|by intros [=]].
    intros Hv%String.eqb_eq. by exists algorithm, value.
  - intros q Hq Hw. rewrite lookup_insert_ne by done. by apply Hm.
Qed.

(** * Quoting for the shells *)

Definition single : Ascii.ascii := "'"%char.

Fixpoint str_replace_char (c : Ascii.ascii) (by_text s : string) : string :=
  match s with
  | EmptyString => EmptyString
  | String d s => if Ascii.eqb d c then by_text +:+ str_replace_char c by_text s else String d (str_replace_char c by_text s)
  end.

Definition _shell_quote (value : string) : string :=
  String single (str_replace_char single (String single (String quote (String single (String quote (String single EmptyString))))) value +:+
                 String single EmptyString).
Definition _powershell_quote (value : string) : string :=
  String single (str_replace_char single (String single (String single EmptyString)) value +:+ String single EmptyString).

Definition path_text (p : path) : string := "/" +:+ str_join "/" p.

Definition nl : string := String "010"%char EmptyString.

(** The assignments at the head of [_shell_script]. *)
Definition script_values (plan : InstallPlan) : list (string * string) :=
  [("install_dir", path_text (ip_install_directory plan)); ("stage_dir", path_text (ip_staged_directory plan));
   ("stage_container", path_text (ip_stage_container plan)); ("backup_dir", path_text (ip_backup_directory plan));
   ("entrypoint", ip_entrypoint plan); ("marker", path_text (ip_marker_path plan));
   ("status_path", path_text (ip_status_path plan))]%string.
Definition assignment (p : string * string) : string := p.1 +:+ "=" +:+ _shell_quote p.2 +:+ nl.
Definition script_head (plan : InstallPlan) (parent_pid : Z) : string :=
  "#!/bin/sh" +:+ nl +:+ "set -u" +:+ nl +:+ "parent_pid=" +:+ pretty parent_pid +:+ nl +:+
  str_join "" (assignment <$> script_values plan).

(** ** How a POSIX shell reads a word

    Inside single quotes every character stands for itself, inside double
    quotes every one but the dollar sign, the backquote and the backslash; a
    word without expansions ends at a blank or a line break. *)
Inductive quoting := Bare | Single | Double.

Definition word_end (c : Ascii.ascii) : bool := bool_decide (c ∈ [" "; "009"; "010"]%char).
Definition plain_char (c : Ascii.ascii) : bool :=
  is_alpha c || is_digit c || bool_decide (c ∈ ["/"; "."; "-"; "_"; "="; ":"; ","; "+"; "%"; "@"]%char).

Fixpoint sh_word (mode : quoting) (s : string) : option (string * string) :=
  let add c r := (λ p, (String c p.1, p.2)) <$> (r : option (string * string)) in
  match s, mode with
  | EmptyString, Bare => Some (EmptyString, EmptyString)
  | EmptyString, _ => None
  | String c rest, Bare =>
      if word_end c then Some (EmptyString, s)
      else if Ascii.eqb c single then sh_word Single rest
      else if Ascii.eqb c quote then sh_word Double rest
      else if plain_char c then add c (sh_word Bare rest)
      else None
  | String c rest, Single => if Ascii.eqb c single then sh_word Bare rest else add c (sh_word Single rest)
  | String c rest, Double =>
      if Ascii.eqb c quote then sh_word Bare rest
      else if bool_decide (c ∈ ["$"; "`"; backslash]%char) then None else add c (sh_word Double rest)
  end.

(** [name=word] lines. *)
Fixpoint read_assignments (names : list string) (s : string) : option (list (string * string) * string) :=
  match names with
  | [] => Some ([], s)
  | name :: names =>
      match str_drop_prefix (name +:+ "=") s with
      | Some s =>
          match sh_word Bare s with
          | Some (value, s) =>
              match str_drop_prefix nl s with
              | Some s => (λ p, ((name, value) :: p.1, p.2)) <$> read_assignments names s
              | None => None
              end
          | None => None
          end
      | None => None
      end
  end.

(** A PowerShell text in single quotes: a quotation mark ends it unless a second
    one follows, and the typographic quotation marks U+2018 to U+201B are
    quotation marks too. *)
Definition ps_quote_at (s : string) : option string :=
  match s with
  | String c rest =>
      if Ascii.eqb c single then Some rest
      else match rest with
           | String c2 (String c3 rest) =>
               if Ascii.eqb c "226"%char && Ascii.eqb c2 "128"%char && byte_within 152 155 c3 then Some rest else None
           | _ => None
           end
  | EmptyString => None
  end.
Fixpoint ps_text_from (fuel : nat) (s : string) : option (string * string) :=
  match fuel, s with
  | O, _ | _, EmptyString => None
  | S fuel, String c rest =>
      match ps_quote_at s with
      | Some after =>
          match ps_quote_at after with
          | Some more => (λ p, (String single p.1, p.2)) <$> ps_text_from fuel more
          | None => Some (EmptyString, after)
          end
      | None => (λ p, (String c p.1, p.2)) <$> ps_text_from fuel rest
      end
  end.
Definition ps_text (s : string) : option (string * string) :=
  match ps_quote_at s with Some s => ps_text_from (S (String.length s)) s | None => None end.

Lemma sh_escaped_quote s :
  sh_word Single (String single (String quote (String single (String quote (String single s))))) =
  (λ p, (String single p.1, p.2)) <$> sh_word Single s.
Proof. reflexivity. Qed.

Lemma sh_word_quoted v rest : sh_word Bare rest = Some (EmptyString, rest) →
  sh_word Single (str_replace_char single (String single (String quote (String single (String quote (String single EmptyString))))) v +:+
                  String single rest) = Some (v, rest).
Proof.
  intros Hr. induction v as [|c v IH]; cbn [str_replace_char]; [exact Hr|].
  destruct (Ascii.eqb_spec c single) as [->|Hc].
  - rewrite app_assoc_str. etrans; [apply (sh_escaped_quote (str_replace_char _ _ v +:+ String single rest))|]. by rewrite IH.
  - change (String c ?s +:+ ?t)%string with (String c (s +:+ t)%string). cbn [sh_word].
    rewrite (proj2 (Ascii.eqb_neq c single)) by done. by rewrite IH.
Qed.

Lemma sh_word_quote v rest : sh_word Bare rest = Some (EmptyString, rest) →
  sh_word Bare (_shell_quote v +:+ rest) = Some (v, rest).
Proof.
  intros Hr. unfold _shell_quote. change (String single ?s +:+ rest)%string with (String single (s +:+ rest)%string).
  cbn [sh_word]. change (word_end single) with false. change (Ascii.eqb single single) with true. cbn beta iota.
  rewrite app_assoc_str. by apply sh_word_quoted.
Qed.

Lemma drop_prefix_app p s : str_drop_prefix p (p +:+ s) = Some s.
Proof.
  induction p as [|c p IH]; [done|]. change (String c p +:+ s)%string with (String c (p +:+ s)%string). cbn [str_drop_prefix].
  by rewrite Ascii.eqb_refl.
Qed.

Lemma read_assignment names name value rest : 
  read_assignments (name :: names) (assignment (name, value) +:+ rest) =
    (λ p, ((name, value) :: p.1, p.2)) <$> read_assignments names rest.
Proof.
  cbn [read_assignments]. unfold assignment. cbn [fst snd].
  assert ((name +:+ "=" +:+ _shell_quote value +:+ nl) +:+ rest = (name +:+ "=") +:+ (_shell_quote value +:+ (nl +:+ rest)))%string as ->
    by by rewrite !app_assoc_str.
  rewrite drop_prefix_app. by rewrite sh_word_quote.
Qed.

(** The installer script reads the plan back: whatever the paths and the entry
    point contain, the assignments at its head give the variables exactly the
    values of the plan. *)
Theorem script_reads_the_plan plan rest :
  read_assignments (script_values plan).*1 (str_join "" (assignment <$> script_values plan) +:+ rest) =
    Some (script_values plan, rest).
Proof.
  assert (∀ l, str_join "" (assignment <$> l) = foldr (λ p s, assignment p +:+ s) "" l) as Hj.
  { induction l as [|p [|q l] IH]; [done| |].
    - cbn. by rewrite app_nil_str.
    - rewrite fmap_cons. cbn [foldr] in *. by rewrite <-IH. }
  rewrite Hj. generalize (script_values plan). induction l as [|[name value] l IH]; [done|].
  cbn [foldr]. rewrite app_assoc_str. change ((name, value) :: l).*1 with (name :: l.*1). by rewrite read_assignment, IH.
Qed.

(** A path with a typographic apostrophe does not survive the PowerShell quotes:
    the text ends at the apostrophe. *)
Definition apostrophe : string := String "226" (String "128" (String "153" EmptyString)).
Example powershell_quotes_end_early :
  ps_text (_powershell_quote "C:\O'Neil\app") = Some ("C:\O'Neil\app", "")%string ∧
  ps_text (_powershell_quote ("C:\O" +:+ apostrophe +:+ "Neil\app")) = Some ("C:\O", "Neil\app'")%string.
Proof. vm_compute. done. Qed.

(** * Witnesses *)

Definition ex_repr : PyRepr := {| py_repr_of := λ _, ""%string |}.
Definition ex_host : host := mkHost false "x86_64".

Definition ex_manifest (version : string) : string :=
  quoted "{'schema_version': 1, 'application': 'pi-hole-manager', 'platform': 'linux', 'architecture': 'x64', 'entrypoint': 'run', 'version': '" +:+
  version +:+ quoted "'}".
Definition ex_install : path := ["opt"; "app"]%string.
Definition ex_files : fs := list_to_map
  [(["opt"], Dir); (["opt"; "app"], Dir); (["opt"; "app"; "install_manifest.json"], File (ex_manifest "0.3.6") false);
   (["opt"; "app"; "run"], File "old" true); (["opt"; "app"; "options.json"], File "{}" false);
   (["opt"; "app"; "pihole_audit.sqlite3"], File "journal" false); (["tmp"], Dir); (["tmp"; "update.zip"], File "zip" false)]%string.
Definition ex_members (content : string) : option (list zip_member) :=
  if String.eqb content "zip" then
    Some [mkMember "App/" 0 (Some ""); mkMember "App/run" 0 (Some "new"); mkMember "App/install_manifest.json" 0 (Some (ex_manifest "0.4.0"))]%string
  else None.
Definition ex_update : UpdateInfo :=
  mkUpdateInfo "0.3.6" "0.4.0" "0.4.0" "" "" "" None "stable" "" "" false.

Definition ex_prepared : result exn InstallPlan * fs :=
  prepare_update_install (H := ex_repr) ex_host (λ _, true) ex_members ["tmp"%string] ex_install "7" ex_update
    ["tmp"; "update.zip"]%string ex_install ex_files.
Definition ex_plan : InstallPlan :=
  mkPlan ex_install ["opt"; ".app.update-7"; "App"]%string ["opt"; ".app.update-7"]%string ["opt"; ".app.backup"]%string "run"
    ["tmp"; "pihole-manager-updater"; "started-7.marker"]%string ["opt"; "app"; "updates"; "install-7.json"]%string "7" "0.4.0" _PRESERVED_NAMES.



(** A build-based update is accepted when the manifest names no build. *)
Example a_manifest_without_build_is_accepted :
  let u := mkUpdateInfo "0.3.6" "0.4.0" "0.4.0" "" "" "" None "prerelease" "abc123" "" true in
  let m := mkManifest "pi-hole-manager" "0.4.0" "" "linux" "x64" "run" "" 1 in
  im_build_id m = ""%string ∧ _validate_manifest ex_host m u = Ok tt.
Proof. vm_compute. done. Qed.

(** The new program creates the marker, or does not start; [moves] says which
    moves the system lets through. *)
Definition ex_program (starts : bool) (moves : path → bool) : installer :=
  mkInstaller rmtree moves (λ _, true) (λ _ files, files)
    (λ files, if starts then <[ip_marker_path ex_plan := File "1" false]> files else files)
    (<[["opt"; "app"; "running"]%string := File "" false]>).
Definition all_moves : path → bool := λ _, true.

Lemma ex_plan_ok : plan_ok ex_plan.
Proof. constructor; try (vm_compute; congruence); try (split; apply (bool_decide_unpack _); vm_compute; exact I); apply (bool_decide_unpack _); vm_compute; exact I. Qed.

Lemma ex_system_ok starts moves : system_ok ex_plan (ex_program starts moves).
Proof.
  constructor.
  - intros p files q. apply rmtree_outside.
  - by intros p files q.
  - intros files. apply rmtree_absent.
  - intros name _ files. apply rmtree_absent.
  - intros files rest. destruct starts; cbn [io_program ex_program]; [|done]. by rewrite lookup_insert_ne.
  - intros files Hd. destruct starts; cbn [io_program ex_program]; [|done]. rewrite (is_dir_same files); [done|]. by rewrite lookup_insert_ne.
Qed.

Lemma ex_installed : ex_prepared.2 !! ip_install_directory ex_plan = Some Dir.
Proof. vm_compute. reflexivity. Qed.
Lemma ex_parent : is_dir ex_prepared.2 (removelast (ip_install_directory ex_plan)) = true.
Proof. vm_compute. reflexivity. Qed.

Definition ex_failed : install_end * fs := run_installer ex_plan (ex_program false all_moves) ex_prepared.2.
Lemma ex_failed_end : ex_failed = (RolledBack "The updated application did not start successfully.", ex_failed.2).
Proof.
  assert (ex_failed.1 = RolledBack "The updated application did not start successfully.") as <- by (vm_compute; reflexivity).
  apply surjective_pairing.
Qed.

Lemma installing_is_all_or_nothing_witness :
  ∃ restored, ex_failed.2 = write_status ex_plan "rolled_back" "The updated application did not start successfully."
                              (relaunched ex_plan (ex_program false all_moves) restored) ∧
    restored !! (ex_install ++ ["options.json"%string]) = ex_prepared.2 !! (ex_install ++ ["options.json"%string]).
Proof.
  pose proof (installing_is_all_or_nothing ex_plan (ex_program false all_moves) ex_prepared.2 ex_plan_ok (ex_system_ok false all_moves)
                ex_installed ex_parent) as H.
  change (run_installer ex_plan (ex_program false all_moves) ex_prepared.2) with ex_failed in H. rewrite ex_failed_end in H.
  destruct H as (restored & place & E & _ & Hrest & Hplace). exists restored. split; [exact E|].
  specialize (Hrest ["options.json"%string]). rewrite Hplace in Hrest; [exact Hrest|intros files; apply rmtree_absent|reflexivity].
Defined.

(** The data of the old application and its status after a rollback, which
    starts it again; when the backup cannot be moved back it is still there, and
    nothing is started. *)
Example ex_rollbacks :
  let stuck := run_installer ex_plan (ex_program false (λ p, negb (bool_decide (p = ip_backup_directory ex_plan)))) ex_prepared.2 in
  ex_failed.2 !! ["opt"; "app"; "run"]%string = Some (File "old" true) ∧
  ex_failed.2 !! ["opt"; "app"; "running"]%string = Some (File "" false) ∧
  stuck.2 !! ["opt"; "app"; "run"]%string = None ∧ stuck.2 !! ["opt"; ".app.backup"; "run"]%string = Some (File "old" true).
Proof. vm_compute. done. Qed.

(** A backup of an earlier update that cannot be removed: the old application is
    moved into it, so its data is not carried over, and the update completes;
    what cannot be removed is all that is left. *)
Example stale_backup_loses_the_data :
  let keep := λ (p : path) (files : fs), if bool_decide (p = ip_backup_directory ex_plan)
                                        then filter (λ q, ¬ within p q.1 ∨ q.1 = p) files else rmtree p files in
  let io := mkInstaller keep all_moves (λ _, true) (λ _ files, files) (<[ip_marker_path ex_plan := File "1" false]>) id in
  let r := run_installer ex_plan io (<[["opt"; ".app.backup"]%string := Dir]> ex_prepared.2) in
  r.1 = Installed ∧ r.2 !! ["opt"; "app"; "run"]%string = Some (File "new" true) ∧
  r.2 !! ["opt"; "app"; "options.json"]%string = None ∧ r.2 !! ["opt"; ".app.backup"; "app"; "options.json"]%string = None.
Proof. vm_compute. done. Qed.

(** The PowerShell script completes an update, and rolls one back; but when the
    application cannot be moved, because a file of it is open, or the status
    cannot be written after the backup was removed, the application and its data
    are gone. *)
Definition ex_powershell (starts : bool) (moves : path → bool) (files : fs) : install_end * fs :=
  run_powershell ex_plan (ex_program starts moves) "error" (λ state _, state) (λ _, true) files.
Definition ex_data (r : install_end * fs) : install_end * option node * option node :=
  (r.1, r.2 !! ["opt"; "app"; "run"]%string, r.2 !! ["opt"; "app"; "options.json"]%string).

Example powershell_ends :
  ex_data (ex_powershell true all_moves ex_prepared.2) = (Installed, Some (File "new" true), Some (File "{}" false)) ∧
  ex_data (ex_powershell false all_moves ex_prepared.2) =
    (RolledBack "The updated application did not start successfully.", Some (File "old" true), Some (File "{}" false)) ∧
  ex_data (ex_powershell true (λ p, negb (bool_decide (p = ex_install))) ex_prepared.2) = (RolledBack "error", None, None) ∧
  ex_data (ex_powershell true all_moves (<[["opt"; "app"; "updates"]%string := File "" false]> ex_prepared.2)) = (RolledBack "error", None, None).
Proof. vm_compute. done. Qed.

(** A completed update keeps the options but loses the journal of the changes,
    which is not among the preserved names. *)
Definition ex_completed : install_end * fs := run_installer ex_plan (ex_program true all_moves) ex_prepared.2.
Example update_loses_the_journal :
  ex_completed.1 = Installed ∧
  ex_completed.2 !! ["opt"; "app"; "options.json"]%string = Some (File "{}" false) ∧
  ex_completed.2 !! ["opt"; "app"; "run"]%string = Some (File "new" true) ∧
  ex_prepared.2 !! ["opt"; "app"; "pihole_audit.sqlite3"]%string = Some (File "journal" false) ∧
  ex_completed.2 !! ["opt"; "app"; "pihole_audit.sqlite3"]%string = None.
Proof. vm_compute. done. Qed.

(** An entry point outside the staged application is accepted, and made
    executable. *)
Example entrypoint_may_lie_outside :
  let m := quoted "{'schema_version': 1, 'application': 'pi-hole-manager', 'platform': 'linux', 'architecture': 'x64', 'entrypoint': '/tmp/update.zip', 'version': '0.4.0'}" in
  let members := λ _, Some [mkMember "App/install_manifest.json" 0 (Some m)]%string in
  let r := prepare_update_install (H := ex_repr) ex_host (λ _, true) members ["tmp"%string] ex_install "7" ex_update
             ["tmp"; "update.zip"]%string ex_install ex_files in
  is_Some (match r.1 with Ok plan => Some (ip_entrypoint plan) | Err _ => None end) ∧
  r.2 !! ["tmp"; "update.zip"]%string = Some (File "zip" true).
Proof. vm_compute. eauto. Qed.

Definition ex_releases : api_reply := ApiReply 200 "" (Some (JArray
  [JObject [("tag_name", JString "v0.3.9"); ("assets", JArray [JObject [("name", JString "Pi-Hole-Manager-linux-x64.zip")]])];
   JObject [("tag_name", JString "v0.4.0-rc1"); ("prerelease", JBool true);
            ("assets", JArray [JObject [("name", JString "Pi-Hole-Manager-linux.zip"); ("digest", JString "sha256:AB"); ("size", JInt 9)];
                               JObject [("name", JString "Pi-Hole-Manager-windows-x64.zip")]])]]))%string.
Definition ex_offer : result exn UpdateInfo :=
  check_for_update (H := ex_repr) ex_releases ex_releases ex_host ∅ [] "prerelease".
Definition ex_asset : ReleaseAsset := mkAsset "Pi-Hole-Manager-linux.zip" "" 9 "sha256:AB".
Definition ex_info : UpdateInfo :=
  mkUpdateInfo "0.3.6" "0.4.0-rc1" "v0.4.0-rc1" "" "" "" (Some ex_asset) "prerelease" "v0.4.0-rc1" "" false.
Lemma ex_offer_result : ex_offer = Ok ex_info.
Proof. vm_compute. reflexivity. Qed.

Lemma offered_update_is_the_best_witness :
  ∃ payload, _fetch_release_payload (H := ex_repr) ex_releases ex_releases "prerelease" = Ok payload ∧
    ∃ items, best_release (H := ex_repr) (candidates_of items) payload.
Proof.
  destruct (@offered_update_is_the_best ex_repr ex_releases ex_releases ex_host ∅ [] "prerelease" ex_info ex_offer_result)
    as (payload & Hp & _ & _ & _ & Hr & _).
  exists payload. split; [exact Hp|]. destruct (Hr eq_refl) as (st & er & items & _ & _ & Hb). exists items. exact Hb.
Defined.

Definition ex_sha (content : string) : string := if String.eqb content "zip" then "ab"%string else ""%string.
Definition ex_reply (_ : string) : result exn byte_stream := Ok (mkByteStream 200 "" ["z"; "ip"]%string None).
Definition ex_download : result exn DownloadResult * fs := download_update ex_sha ex_reply ["u"%string] ex_info ∅.
Lemma ex_download_result : ex_download = (Ok (mkDownload ["u"; "Pi-Hole-Manager-linux.zip"]%string true), ex_download.2).
Proof.
  assert (ex_download.1 = Ok (mkDownload ["u"; "Pi-Hole-Manager-linux.zip"]%string true)) as <- by (vm_compute; reflexivity).
  apply surjective_pairing.
Qed.
Lemma download_is_verified_witness :
  ex_download.2 !! ["u"; "Pi-Hole-Manager-linux.zip"]%string = Some (File "zip" false).
Proof.
  destruct (download_is_verified ex_sha ex_reply ["u"%string] ex_info ∅ _ _ ex_download_result)
    as (asset & stream & _ & [= <-] & _ & _ & _ & Hf & _).
  exact Hf.
Defined.
