(* ===== verification/Evidence.v ===== *)
(** What the program does with research findings: [evidence_quality.py] (scores
    and contradictions), [evidence_freshness.py] (how long a finding counts),
    [evidence_citations.py] (the references under a description), and the
    storage of findings in [database_features.py] behind the wrappers of
    [database.py].

    The table of findings is a list beside the database of [Database]; its JSON
    column holds the dict that is read back. *)
From stdpp Require Import base gmap strings list pretty.
From Stdlib Require Import Ascii QArith Lqa Sorted.
From S2P Require Import Prelude Json Net Models Options Database ReviewDb.
Open Scope Z_scope.

(** * Findings *)

Abbreviation fields := (list (string * json)).

Record ResearchFinding := mkFinding {
  rf_domain : string;
  rf_provider : string;
  rf_kind : string;
  rf_title : string;
  rf_summary : string;
  rf_source_url : string;
  rf_confidence : Q;
  rf_signal_type : string;
  rf_verdict : string;
  rf_decision_relevant : bool;
  rf_retrieved_at : Z;
  rf_expires_at : Z;
  rf_raw_data : fields
}.

Definition replace_raw_data (f : ResearchFinding) (raw : fields) : ResearchFinding :=
  mkFinding (rf_domain f) (rf_provider f) (rf_kind f) (rf_title f) (rf_summary f) (rf_source_url f) (rf_confidence f)
    (rf_signal_type f) (rf_verdict f) (rf_decision_relevant f) (rf_retrieved_at f) (rf_expires_at f) raw.

(** * Quality *)

Definition _SOURCE_BASE_SCORES : list (string * Q) :=
  [("phishtank", 99 # 100); ("threatfox", 97 # 100); ("virustotal", 93 # 100); ("disconnect_tracking", 92 # 100);
   ("adguard_services", 90 # 100); ("rdap", 89 # 100); ("dns_records", 87 # 100); ("ripestat", 85 # 100);
   ("cloudflare_radar", 84 # 100); ("urlscan", 80 # 100); ("netcraft", 70 # 100); ("hagezi_tif_mini", 92 # 100);
   ("easyprivacy_trackingservers", 91 # 100); ("urlhaus", 99 # 100); ("crtsh", 94 # 100);
   ("google_safe_browsing", 99 # 100); ("compatibility_profile", 98 # 100)]%string.

Definition _EVIDENCE_KIND_TO_SOURCE_KIND : list (string * string) :=
  [("phishing_database", "phishtank"); ("ioc_database", "threatfox"); ("threat_intelligence", "virustotal");
   ("tracker_catalog", "disconnect_tracking"); ("service_catalog", "adguard_services"); ("registration", "rdap");
   ("dns_records", "dns_records"); ("network_routing", "ripestat"); ("domain_popularity", "cloudflare_radar");
   ("archived_web_scan", "urlscan"); ("site_infrastructure", "netcraft"); ("malware_url_host", "urlhaus")]%string.

(** Dimension, side and strength of a verdict. *)
Definition _VERDICT_STANCES : list (string * (string * string * Q)) :=
  [("malicious", ("security", "harmful", 1%Q)); ("phishing", ("security", "harmful", 1%Q)); ("malware", ("security", "harmful", 1%Q));
   ("command_and_control", ("security", "harmful", 1%Q)); ("malicious_scan", ("security", "harmful", 85 # 100));
   ("suspicious", ("security", "harmful", 65 # 100)); ("benign", ("security", "safe", 1%Q)); ("safe", ("security", "safe", 1%Q));
   ("clean", ("security", "safe", 90 # 100)); ("trusted", ("security", "safe", 90 # 100));
   ("advertising", ("privacy", "tracking", 90 # 100)); ("analytics", ("privacy", "tracking", 85 # 100));
   ("cross_site_tracking", ("privacy", "tracking", 1%Q)); ("email_tracking", ("privacy", "tracking", 90 # 100));
   ("social_tracking", ("privacy", "tracking", 80 # 100)); ("tracker", ("privacy", "tracking", 85 # 100));
   ("non_tracking", ("privacy", "non_tracking", 90 # 100)); ("privacy_safe", ("privacy", "non_tracking", 1%Q))]%string.

Definition _OPPOSING_STANCES : list (string * string) :=
  [("harmful", "safe"); ("safe", "harmful"); ("tracking", "non_tracking"); ("non_tracking", "tracking")]%string.

Record EvidenceQualityScore := mkScore {
  qs_source_kind : string;
  qs_source_score : Q;
  qs_evidence_score : Q;
  qs_tier : string
}.

Record EvidenceContradiction := mkContradiction {
  ec_dimension : string;
  ec_left_provider : string;
  ec_left_verdict : string;
  ec_right_provider : string;
  ec_right_verdict : string;
  ec_severity : string;
  ec_confidence : Q;
  ec_reason : string
}.

(** [max(0.0, min(1.0, value))] *)
Definition _clamp (value : Q) : Q := qmax 0 (qmin 1 value).

Definition _quality_tier (score : Q) : string :=
  if Qle_bool (90 # 100) score then "very_high"
  else if Qle_bool (80 # 100) score then "high"
  else if Qle_bool (65 # 100) score then "medium" else "low".

Definition _contradiction_severity (confidence : Q) : string :=
  if Qle_bool (80 # 100) confidence then "high"
  else if Qle_bool (60 # 100) confidence then "medium" else "low".

(** [str(value).strip().lower()] *)
Definition folded (s : string) : string := str_lower (str_strip s).

Definition annotate_source_kind (f : ResearchFinding) (source_kind : string) : ResearchFinding :=
  let normalized := folded source_kind in
  if negb (str_nonempty normalized) then f
  else replace_raw_data f (dict_setdefault "wormhole_source_kind" (JString normalized) (rf_raw_data f)).

Section Quality.
Context `{PyRepr}.

Definition explicit_source_kind (f : ResearchFinding) : string :=
  folded (py_str_or (dict_get "wormhole_source_kind" (rf_raw_data f)) "").

Definition source_kind_for (f : ResearchFinding) : string :=
  let explicit := explicit_source_kind f in
  if str_nonempty explicit then explicit
  else
    let kind := folded (rf_kind f) in
    default (str_or kind "unknown") (dict_get kind _EVIDENCE_KIND_TO_SOURCE_KIND).

Definition score_finding (now : Z) (f : ResearchFinding) : EvidenceQualityScore :=
  let source_kind := source_kind_for f in
  let source_score := default (65 # 100) (dict_get source_kind _SOURCE_BASE_SCORES) in
  let confidence := _clamp (rf_confidence f) in
  let evidence_score := (source_score * (65 # 100) + confidence * (35 # 100))%Q in
  let evidence_score :=
    if (0 <? rf_expires_at f) && (rf_expires_at f <? now) then (evidence_score * (75 # 100))%Q else evidence_score in
  let evidence_score := _clamp evidence_score in
  mkScore source_kind source_score evidence_score (_quality_tier evidence_score).

(** ** Contradictions *)

(** A finding that takes a side: dimension, side and strength. *)
Definition stance : Type := ResearchFinding * (string * string * Q).

Definition stance_of (f : ResearchFinding) : option stance :=
  match dict_get (folded (rf_verdict f)) _VERDICT_STANCES with
  | None => None
  | Some (dimension, side, strength) =>
      let signal_type := folded (rf_signal_type f) in
      if str_nonempty signal_type && negb (bool_decide (signal_type ∈ [dimension; "behavior"%string])) then None
      else Some (f, (dimension, side, strength))
  end.

Definition provider_of (f : ResearchFinding) : string := str_or (rf_provider f) "Unknown source".
Definition verdict_of (f : ResearchFinding) : string := folded (str_or (rf_verdict f) "unknown").

Definition nul : string := String "000" EmptyString.

(** The pair of two texts, the smaller one first. *)
Definition sorted_pair (a b : string) : string * string := if str_leb a b then (a, b) else (b, a).
Definition party (f : ResearchFinding) : string := str_casefold (provider_of f) +:+ nul +:+ verdict_of f.
Definition contradiction_key (l r : stance) : string * (string * string) :=
  (l.2.1.1, sorted_pair (party l.1) (party r.1)).

Definition opposed (l r : stance) : bool :=
  String.eqb l.2.1.1 r.2.1.1 && bool_decide ((l.2.1.2, r.2.1.2) ∈ _OPPOSING_STANCES).

Definition contradiction_between (now : Z) (l r : stance) : EvidenceContradiction :=
  let left_provider := provider_of l.1 in
  let right_provider := provider_of r.1 in
  let left_verdict := verdict_of l.1 in
  let right_verdict := verdict_of r.1 in
  let confidence :=
    qmin (qmin (qmin (qs_evidence_score (score_finding now l.1)) (qs_evidence_score (score_finding now r.1))) l.2.2) r.2.2 in
  mkContradiction l.2.1.1 left_provider left_verdict right_provider right_verdict (_contradiction_severity confidence) confidence
    (left_provider +:+ " reports " +:+ left_verdict +:+ ", while " +:+ right_provider +:+ " reports " +:+ right_verdict +:+ ".").

(** The two loops: the pairs in order, a pair skipped when its key was seen. *)
Fixpoint pairs_with (l : stance) (rest : list stance) (seen : list (string * (string * string)))
    : list (stance * stance) * list (string * (string * string)) :=
  match rest with
  | [] => ([], seen)
  | r :: rest =>
      let key := contradiction_key l r in
      if negb (opposed l r) || bool_decide (key ∈ seen) then pairs_with l rest seen
      else let found := pairs_with l rest (key :: seen) in ((l, r) :: found.1, found.2)
  end.
Fixpoint contradicting_pairs (candidates : list stance) (seen : list (string * (string * string))) : list (stance * stance) :=
  match candidates with
  | [] => []
  | l :: rest => let found := pairs_with l rest seen in found.1 ++ contradicting_pairs rest found.2
  end.

(** [order[severity]] *)
Definition severity_order (s : string) : Z := if String.eqb s "high" then 0 else if String.eqb s "medium" then 1 else 2.

(** [a <= b] on the keys of the sort *)
Definition contradiction_leb (a b : EvidenceContradiction) : bool :=
  let o x := severity_order (ec_severity x) in
  (o a <? o b) || (o a =? o b) && (qltb (ec_confidence b) (ec_confidence a) ||
    Qeq_bool (ec_confidence a) (ec_confidence b) &&
    (str_ltb (ec_dimension a) (ec_dimension b) || String.eqb (ec_dimension a) (ec_dimension b) &&
      (str_ltb (str_casefold (ec_left_provider a)) (str_casefold (ec_left_provider b)) ||
       String.eqb (str_casefold (ec_left_provider a)) (str_casefold (ec_left_provider b)) &&
         str_leb (str_casefold (ec_right_provider a)) (str_casefold (ec_right_provider b))))).

Definition detect_contradictions (now : Z) (findings : list ResearchFinding) : list EvidenceContradiction :=
  sort_by contradiction_leb
    ((λ p, contradiction_between now p.1 p.2) <$> contradicting_pairs (omap stance_of findings) []).

Record quality := mkQuality {
  qu_average_source_score : Q;
  qu_average_evidence_score : Q;
  qu_high_quality_count : Z;
  qu_contradiction_count : Z;
  qu_high_severity_contradiction_count : Z
}.

(** [round(value, 3)] *)
Definition round3 (q : Q) : Q := (zq (py_round (q * 1000)) / 1000)%Q.

Definition quality_summary (now : Z) (findings : list ResearchFinding) (contradictions : option (list EvidenceContradiction)) : quality :=
  let scores := score_finding now <$> findings in
  let detected := default (detect_contradictions now findings) contradictions in
  let count := Z.of_nat (length scores) in
  let average (f : EvidenceQualityScore → Q) : Q := if count =? 0 then 0%Q else (foldr (λ s acc, f s + acc) 0 scores / zq count)%Q in
  mkQuality (round3 (average qs_source_score)) (round3 (average qs_evidence_score))
    (count_if (λ s, Qle_bool (80 # 100) (qs_evidence_score s)) scores) (Z.of_nat (length detected))
    (count_if (λ c, String.eqb (ec_severity c) "high") detected).
End Quality.

(** * Freshness *)

Definition POLICY_VERSION : Z := 1.

Definition _DEFAULT_TAG_MAX_AGE_HOURS : list (string * Z) :=
  [("advertising", 72); ("cross_site_tracking", 72); ("analytics", 72); ("telemetry", 72); ("crash_reporting", 168);
   ("authentication", 72); ("payments", 48); ("api_backend", 72); ("content_media", 168); ("cdn_shared_infrastructure", 168);
   ("software_updates", 24); ("notifications_messaging", 72); ("security_antifraud", 12); ("iot_cloud", 72); ("malware", 6);
   ("phishing", 6); ("command_and_control", 6); ("unknown", 24)]%string.

Definition _FALLBACK_SOURCE_MAX_AGE_HOURS : list (string * Z) :=
  [("adguard_services", 24); ("dns_records", 6); ("disconnect_tracking", 24); ("rdap", 168); ("ripestat", 24); ("netcraft", 168);
   ("virustotal", 24); ("threatfox", 6); ("phishtank", 1); ("urlscan", 12); ("cloudflare_radar", 168); ("repository_lists", 12);
   ("urlhaus", 6); ("crtsh", 24); ("google_safe_browsing", 6); ("compatibility_profile", 8760)]%string.

Definition _TAG_INSENSITIVE_SOURCES : list string := ["compatibility_profile"]%string.

Record EvidenceFreshnessContext := mkContext {
  fc_domain : string;
  fc_tags : list string;
  fc_global_max_age_hours : Z;
  fc_provider_hours : list (string * Z);
  fc_provider_kinds : list (string * string);
  fc_tag_max_age_hours : list (string * Z)
}.

Record EvidenceFreshnessDecision := mkDecision {
  fd_source_kind : string;
  fd_source_max_age_hours : Z;
  fd_tag_max_age_hours : option Z;
  fd_matched_tags : list string;
  fd_effective_max_age_seconds : Z;
  fd_effective_expires_at : Z;
  fd_original_expires_at : Z
}.

Definition decision_json (d : EvidenceFreshnessDecision) : json :=
  JObject [("policy_version", JInt POLICY_VERSION); ("source_kind", JString (fd_source_kind d));
    ("source_max_age_hours", JInt (fd_source_max_age_hours d));
    ("tag_max_age_hours", match fd_tag_max_age_hours d with Some z => JInt z | None => JNull end);
    ("matched_tags", JArray (JString <$> fd_matched_tags d));
    ("effective_max_age_seconds", JInt (fd_effective_max_age_seconds d)); ("effective_expires_at", JInt (fd_effective_expires_at d));
    ("original_expires_at", JInt (fd_original_expires_at d));
    ("rule", JString "minimum of provider expiry, source refresh interval, and tag ceiling")]%string.

Definition _provider_key (value : string) : string := str_join " " (str_words (str_casefold (str_strip value))).

(** [_normalize_tag] of this module *)
Definition evidence_tag (value : string) : string := str_replace " "%char "_"%char (str_lower (str_strip value)).

(** [ORDER BY CASE source WHEN 'manual' THEN 0 WHEN 'llm' THEN 1 ELSE 2 END, tag]
    on (tag, source); what the query leaves open is ordered by the source. *)
Definition source_rank (source : string) : Z := if String.eqb source "manual" then 0 else if String.eqb source "llm" then 1 else 2.
Definition tag_order_leb (a b : string * string) : bool :=
  (source_rank a.2 <? source_rank b.2) || (source_rank a.2 =? source_rank b.2) &&
    (str_ltb a.1 b.1 || String.eqb a.1 b.1 && str_leb a.2 b.2).

Definition domain_tag_rows (domain : string) (d : db) : list (string * string) :=
  sort_by tag_order_leb
    (omap (λ p, if String.eqb p.1.1.1 domain then Some (p.1.1.2, p.1.2) else None) (map_to_list (domain_tags_table d))).

Definition tags_of_source (source : string) (rows : list (string * string)) : list string :=
  omap (λ r, let tag := evidence_tag r.1 in
             if String.eqb (folded r.2) source && str_nonempty tag then Some tag else None) rows.

Definition _effective_domain_tags (domain : string) (d : db) : list string :=
  let normalized := _normalize_domain domain in
  if negb (str_nonempty normalized) then []
  else
    let rows := domain_tag_rows normalized d in
    let selected := filter (λ l, l ≠ []) ((λ source, tags_of_source source rows) <$> ["manual"; "llm"; "current"]%string) in
    match selected with
    | tags :: _ => fromkeys tags
    | [] =>
        let sources := fromkeys ((λ r, folded r.2) <$> filter (λ r, str_nonempty (evidence_tag r.1) = true) rows) in
        fromkeys (mjoin ((λ source, tags_of_source source rows) <$> sources))
    end.

Definition build_freshness_context (providers : list ResearchProviderOptions) (domain : string) (default_max_age_days : Z) (d : db)
    : EvidenceFreshnessContext :=
  let named := filter (λ p, str_nonempty (_provider_key (sr_name p)) = true) providers in
  mkContext (_normalize_domain domain) (_effective_domain_tags domain d) (Z.max 1 default_max_age_days * 24)
    (dict_of ((λ p, (_provider_key (sr_name p), Z.max 1 (sr_refresh_interval_hours p))) <$> named))
    (dict_of ((λ p, (_provider_key (sr_name p), folded (sr_kind p))) <$> named))
    _DEFAULT_TAG_MAX_AGE_HOURS.

Definition _source_hours (provider source_kind : string) (context : EvidenceFreshnessContext) : Z :=
  match dict_get (_provider_key provider) (fc_provider_hours context) with
  | Some configured => Z.max 1 configured
  | None =>
      match dict_get source_kind _FALLBACK_SOURCE_MAX_AGE_HOURS with
      | Some fallback => Z.max 1 fallback
      | None => Z.max 1 (fc_global_max_age_hours context)
      end
  end.

Definition tag_hours (context : EvidenceFreshnessContext) (tag : string) : option Z := dict_get tag (fc_tag_max_age_hours context).

Definition _tag_ceiling (source_kind : string) (context : EvidenceFreshnessContext) : option Z * list string :=
  if bool_decide (source_kind ∈ _TAG_INSENSITIVE_SOURCES) then (None, [])
  else
    let matches := filter (λ tag, is_Some (tag_hours context tag)) (fc_tags context) in
    match omap (tag_hours context) matches with
    | [] => (None, [])
    | h :: hours => (Some (foldl Z.min h hours), matches)
    end.

Section Freshness.
Context `{PyRepr}.

Definition _source_kind (f : ResearchFinding) (context : EvidenceFreshnessContext) : string :=
  let explicit := explicit_source_kind f in
  if str_nonempty explicit then explicit
  else
    match dict_get (_provider_key (rf_provider f)) (fc_provider_kinds context) with
    | Some configured => if str_nonempty configured then configured else folded (str_or (rf_kind f) "unknown")
    | None => folded (str_or (rf_kind f) "unknown")
    end.

(** [x or int(time.time())] *)
Definition or_now (now x : Z) : Z := if x =? 0 then now else x.

Definition freshness_decision_for_finding (now : Z) (f : ResearchFinding) (context : EvidenceFreshnessContext) : EvidenceFreshnessDecision :=
  let retrieved_at := Z.max 0 (or_now now (rf_retrieved_at f)) in
  let source_kind := _source_kind f context in
  let source_hours := _source_hours (rf_provider f) source_kind context in
  let '(ceiling, matched_tags) := _tag_ceiling source_kind context in
  let effective_hours := Z.min source_hours (default source_hours ceiling) in
  let policy_expires_at := retrieved_at + effective_hours * 3600 in
  let original_expires_at := Z.max 0 (rf_expires_at f) in
  let effective_expires_at := if 0 <? original_expires_at then Z.min original_expires_at policy_expires_at else policy_expires_at in
  mkDecision source_kind source_hours ceiling matched_tags (effective_hours * 3600) effective_expires_at original_expires_at.

Definition apply_freshness_policy (now : Z) (f : ResearchFinding) (context : EvidenceFreshnessContext) : ResearchFinding :=
  let decision := freshness_decision_for_finding now f context in
  mkFinding (rf_domain f) (rf_provider f) (rf_kind f) (rf_title f) (rf_summary f) (rf_source_url f) (rf_confidence f)
    (rf_signal_type f) (rf_verdict f) (rf_decision_relevant f) (or_now now (rf_retrieved_at f)) (fd_effective_expires_at decision)
    (dict_set "freshness_policy" (decision_json decision) (rf_raw_data f)).

(** The context of a domain is built once and kept for the other findings of
    it; it only depends on the options and the tags, which do not change here. *)
Definition apply_freshness_policies (now : Z) (providers : list ResearchProviderOptions) (default_max_age_days : Z) (d : db)
    (findings : list ResearchFinding) : list ResearchFinding :=
  (λ f, apply_freshness_policy now f
          (build_freshness_context providers (_normalize_domain (rf_domain f)) default_max_age_days d)) <$> findings.

(** * The table of findings *)

Record finding_row := FindingRow {
  fr_id : Z;
  fr_domain : string;
  fr_provider : string;
  fr_kind : string;
  fr_title : string;
  fr_summary : string;
  fr_source_url : string;
  fr_confidence : Q;
  fr_signal_type : string;
  fr_verdict : string;
  fr_decision_relevant : bool;
  fr_raw_data : fields;
  fr_retrieved_at : Z;
  fr_expires_at : Z
}.

Record evidence_db := EvidenceDb { ev_db : db; ev_rows : list finding_row; ev_last_id : Z }.

Definition ev_lift {A} (m : dbtx A) : tx evidence_db exn A := λ s,
  match m (ev_db s) with
  | Ok (a, d) => Ok (a, EvidenceDb d (ev_rows s) (ev_last_id s))
  | Err e => Err e
  end.
Definition ev_write (f : evidence_db → evidence_db) : tx evidence_db exn unit := tx_write f.

(** The first loop: the domains of the findings. *)
Definition ensure_finding (now : Z) (acc : list (string * ResearchFinding)) (f : ResearchFinding)
    : tx evidence_db exn (list (string * ResearchFinding)) :=
  domain ← ev_lift (_ensure_domain now (rf_domain f) (Some (or_now now (rf_retrieved_at f))) 0);
  mret (acc ++ [(domain, f)]).

Definition set_last_researched (t : Z) (r : domain_row) : domain_row :=
  DomainRow (dr_first_seen r) (dr_last_seen r) (dr_query_count r) (dr_last_classified_at r) (dr_next_recheck_at r) (Some t)
    (dr_current_policy r) (dr_current_service r) (dr_current_service_role r).

Definition row_of_finding (now default_max_age_days : Z) (id : Z) (domain : string) (f : ResearchFinding) : finding_row :=
  let retrieved_at := or_now now (rf_retrieved_at f) in
  FindingRow id domain (rf_provider f) (rf_kind f) (rf_title f) (rf_summary f) (rf_source_url f) (_confidence (rf_confidence f))
    (str_or (str_strip (rf_signal_type f)) "context") (str_or (str_strip (rf_verdict f)) "unknown") (rf_decision_relevant f)
    (rf_raw_data f) retrieved_at
    (if rf_expires_at f =? 0 then retrieved_at + Z.max 1 default_max_age_days * 86400 else rf_expires_at f).

(** The second loop: one row. *)
Definition insert_finding (now default_max_age_days : Z) (count : Z) (item : string * ResearchFinding) : tx evidence_db exn Z :=
  let '(domain, f) := item in
  _ ← ev_write (λ s, EvidenceDb
        (set_domains (alter (set_last_researched (or_now now (rf_retrieved_at f))) domain) (ev_db s))
        (ev_rows s ++ [row_of_finding now default_max_age_days (ev_last_id s + 1) domain f]) (ev_last_id s + 1));
  mret (count + 1).

(** [database_features.save_research_findings] *)
Definition store_research_findings (now default_max_age_days : Z) (items : list ResearchFinding) : prog evidence_db exn Z :=
  if bool_decide (items = []) then mret 0
  else commit (
    normalized ← tx_fold (ensure_finding now) [] items;
    let keys := (λ p, (p.1, rf_provider p.2)) <$> normalized in
    _ ← ev_write (λ s, EvidenceDb (ev_db s) (filter (λ r, (fr_domain r, fr_provider r) ∉ keys) (ev_rows s)) (ev_last_id s));
    tx_fold (insert_finding now default_max_age_days) 0 normalized).

(** [database.save_research_findings] *)
Definition save_research_findings (now : Z) (providers : list ResearchProviderOptions) (default_max_age_days : Z)
    (findings : list ResearchFinding) : prog evidence_db exn Z :=
  adjusted ← prog_read (λ s, apply_freshness_policies now providers default_max_age_days (ev_db s) findings);
  store_research_findings now default_max_age_days adjusted.

(** [ORDER BY retrieved_at DESC, id DESC] *)
Definition newest_leb (a b : finding_row) : bool :=
  (fr_retrieved_at b <? fr_retrieved_at a) || (fr_retrieved_at a =? fr_retrieved_at b) && (fr_id b <=? fr_id a).

(** [database_features.research_findings_get] without [fresh_only]. *)
Definition stored_research_findings (domain : string) (limit : Z) (s : evidence_db) : list finding_row :=
  take (Z.to_nat (Z.max 1 limit))
    (sort_by newest_leb (filter (λ r, fr_domain r = _normalize_domain domain) (ev_rows s))).

Definition finding_of_row (r : finding_row) : ResearchFinding :=
  mkFinding (fr_domain r) (fr_provider r) (str_or (fr_kind r) "context") (fr_title r) (fr_summary r) (fr_source_url r) (fr_confidence r)
    (str_or (fr_signal_type r) "context") (str_or (fr_verdict r) "unknown") (fr_decision_relevant r) (fr_retrieved_at r) (fr_expires_at r)
    (fr_raw_data r).

Definition row_is_fresh (now : Z) (context : EvidenceFreshnessContext) (r : finding_row) : bool :=
  now <? fd_effective_expires_at (freshness_decision_for_finding now (finding_of_row r) context).

(** [database.research_findings_get] *)
Definition research_findings_get (now : Z) (providers : list ResearchProviderOptions) (domain : string) (fresh_only : bool) (limit : Z)
    (s : evidence_db) : list finding_row :=
  let safe_limit := Z.max 1 limit in
  if negb fresh_only then stored_research_findings domain safe_limit s
  else
    let rows := stored_research_findings domain (Z.max 500 safe_limit) s in
    let context := build_freshness_context providers domain 30 (ev_db s) in
    take (Z.to_nat safe_limit) (filter (λ r, row_is_fresh now context r = true) rows).

Definition clear_research_findings (domain : string) : prog evidence_db exn Z :=
  commit (
    rowcount ← tx_read (λ s, count_if (λ r, String.eqb (fr_domain r) (_normalize_domain domain)) (ev_rows s));
    _ ← ev_write (λ s, EvidenceDb (ev_db s) (filter (λ r, fr_domain r ≠ _normalize_domain domain) (ev_rows s)) (ev_last_id s));
    mret rowcount).
End Freshness.

(** * Citations *)

Definition _CITATION_HEADER : string := "Evidence citations:".
Definition _MAX_CITATIONS : nat := 12.
Definition _MAX_LABEL_LENGTH : nat := 180.
Definition _MAX_URL_LENGTH : nat := 2048.

Definition replace_details (c : Classification) (details : string) : Classification :=
  mkClassification (cl_domain c) (cl_policy c) (cl_category c) (cl_short c) details (cl_provider c) (cl_tags c) (cl_service c)
    (cl_service_role c) (cl_privacy_risk c) (cl_security_risk c) (cl_breakage_risk c) (cl_confidence c) (cl_needs_review c)
    (cl_review_reason c) (cl_recheck_after_days c) (cl_raw_text c).

Definition _single_line (value : string) : string := str_join " " (str_words value).

Definition _source_url (value : string) : string :=
  let url := _single_line value in
  if negb (str_nonempty url) then ""%string
  else if str_startswith (str_lower url) "https://" || str_startswith (str_lower url) "http://" then char_take _MAX_URL_LENGTH url
  else ""%string.

Definition reference_of (r : finding_row) : string * string :=
  let provider := _single_line (fr_provider r) in
  let title := _single_line (fr_title r) in
  let kind := _single_line (fr_kind r) in
  let label_parts := filter (λ part, str_nonempty part = true) [provider; str_or title kind] in
  let label := str_or (str_join " — " (fromkeys label_parts)) "Evidence finding" in
  (char_take _MAX_LABEL_LENGTH label, _source_url (fr_source_url r)).
Definition _dossier_references (findings : list finding_row) : list (string * string) := reference_of <$> findings.

(** A citation of a provider: its title and address. *)
Definition _provider_references (citations : list (string * string)) : list (string * string) :=
  omap (λ c, let url := _source_url c.2 in
             if negb (str_nonempty url) then None
             else Some (char_take _MAX_LABEL_LENGTH ("Web — " +:+ str_or (_single_line c.1) "Provider web source"), url)) citations.

Definition reference_key (r : string * string) : string * string :=
  if str_nonempty r.2 then (str_casefold r.2, str_casefold r.1) else (""%string, str_casefold r.1).
Fixpoint deduplicate_from (seen : list (string * string)) (references : list (string * string)) : list (string * string) :=
  match references with
  | [] => []
  | r :: references =>
      if bool_decide (reference_key r ∈ seen) then deduplicate_from seen references
      else r :: deduplicate_from (reference_key r :: seen) references
  end.
Definition _deduplicate_references := deduplicate_from [].

Definition newline : string := String "010" EmptyString.

Fixpoint citation_lines (index : Z) (references : list (string * string)) : list string :=
  match references with
  | [] => []
  | (label, url) :: references =>
      ("[E" +:+ pretty index +:+ "] " +:+ label +:+ (if str_nonempty url then " — " +:+ url else "")) :: citation_lines (index + 1) references
  end.

Definition with_section (details section : string) : string := str_strip (details +:+ newline +:+ newline +:+ section).

Definition _with_citation_section (c : Classification) (references : list (string * string)) : Classification :=
  let details := str_strip (cl_details c) in
  if str_contains _CITATION_HEADER details then c
  else
    match references with
    | [] =>
        let section := _CITATION_HEADER +:+ newline +:+ "[none] No evidence finding was supplied." in
        replace_review (replace_details c (with_section details section)) true
          (str_or (str_strip (cl_review_reason c)) "No citable evidence finding was supplied for this generated description.")
    | _ =>
        let section := _CITATION_HEADER +:+ newline +:+ str_join newline (citation_lines 1 references) in
        replace_details c (with_section details section)
    end.

(** A dossier is a domain with its findings; of two for one domain the later
    one counts. *)
Definition dossier_by_domain (dossiers : list (string * list finding_row)) : list (string * list finding_row) :=
  dict_of ((λ d, (_normalize_domain d.1, d.2)) <$> filter (λ d, str_nonempty (_normalize_domain d.1) = true) dossiers).

(** The references of one classification, before the bound. *)
Definition references_for (single_domain : bool) (dossiers : list (string * list finding_row)) (provider_citations : list (string * string))
    (c : Classification) : list (string * string) :=
  let references := _dossier_references (default [] (dict_get (_normalize_domain (cl_domain c)) (dossier_by_domain dossiers))) in
  if single_domain then references ++ _provider_references provider_citations else references.

Definition attach_evidence_citations (classifications : list Classification) (dossiers : list (string * list finding_row))
    (provider_citations : list (string * string)) : list Classification :=
  let single_domain := Nat.eqb (length classifications) 1 in
  (λ c, _with_citation_section c
          (take _MAX_CITATIONS (_deduplicate_references (references_for single_domain dossiers provider_citations c)))) <$> classifications.

(** [database._with_saved_evidence_citations] *)
Definition _with_saved_evidence_citations `{PyRepr} (now : Z) (providers : list ResearchProviderOptions) (c : Classification) (s : evidence_db)
    : Classification :=
  match research_findings_get now providers (cl_domain c) true 12 s with
  | [] => c
  | findings => default c (head (attach_evidence_citations [c] [(cl_domain c, findings)] []))
  end.

Example citations_example :
  let r := FindingRow 1 "a.com" "URLhaus" "malware_url_host" "Listed" "" "https://urlhaus.example/a" 0 "security" "malware" true [] 0 0 in
  char_take 4 "ab—cd" = "ab—c"%string ∧
  reference_of r = ("URLhaus — Listed", "https://urlhaus.example/a")%string ∧
  citation_lines 1 [reference_of r] = ["[E1] URLhaus — Listed — https://urlhaus.example/a"]%string.
Proof. vm_compute. done. Qed.

(** * Licences of the sources *)

Record EvidenceLicensePolicy := mkLicensePolicy {
  lp_license_id : string;
  lp_license_url : string;
  lp_commercial_use : string;
  lp_redistribution : string;
  lp_reviewed_at : string;
  lp_release_default_eligible : bool;
  lp_review_required : bool;
  lp_note : string
}.

Definition _REVIEW_DATE : string := "2026-08-20".

Definition _SOURCE_POLICIES : list (string * EvidenceLicensePolicy) :=
  [("adguard_services", mkLicensePolicy "GPL-3.0" "https://github.com/AdguardTeam/HostlistsRegistry/blob/main/LICENSE" "allowed-with-license-obligations" "runtime-download-not-bundled" _REVIEW_DATE true false
     "HostlistsRegistry is GPL-3.0; Wormhole downloads the service catalog at runtime.");
   ("dns_records", mkLicensePolicy "local-data" "" "not-applicable" "not-applicable" _REVIEW_DATE true false
     "Uses the configured DNS resolver and does not redistribute a third-party dataset.");
   ("disconnect_tracking", mkLicensePolicy "CC-BY-NC-SA-4.0" "https://github.com/disconnectme/disconnect-tracking-protection/blob/master/LICENSE" "restricted-noncommercial" "runtime-download-not-bundled" _REVIEW_DATE false false
     "Disconnect's tracker lists are NonCommercial. Keep this source opt-in and do not enable it in distributed defaults without a separate commercial licence.");
   ("rdap", mkLicensePolicy "provider-specific-rdap-terms" "" "provider-terms" "not-bundled" _REVIEW_DATE false false
     "RDAP queries multiple registries; their service terms are provider-specific.");
   ("ripestat", mkLicensePolicy "provider-terms" "https://stat.ripe.net/docs/" "provider-terms" "not-bundled" _REVIEW_DATE false false
     "Optional live lookup; no RIPEstat dataset is bundled with releases.");
   ("netcraft", mkLicensePolicy "provider-fair-use" "https://www.netcraft.com/terms/" "provider-terms" "not-bundled" _REVIEW_DATE false false
     "Optional live lookup subject to Netcraft access and usage terms.");
   ("virustotal", mkLicensePolicy "provider-api-terms" "https://docs.virustotal.com/reference/terms-of-service" "provider-terms" "not-bundled" _REVIEW_DATE false false
     "Optional API integration; releases do not bundle VirusTotal data.");
   ("threatfox", mkLicensePolicy "abuse.ch-community-api-fair-use" "https://threatfox.abuse.ch/api/" "provider-terms" "not-bundled" _REVIEW_DATE false false
     "Optional abuse.ch Community API integration subject to current fair-use terms.");
   ("phishtank", mkLicensePolicy "PhishTank-Data-Terms" "https://phishtank.org/terms.php" "allowed" "runtime-download-not-bundled" _REVIEW_DATE true false
     "PhishTank's Terms explicitly allow commercial use of defined Data without charge; the verified database is downloaded at runtime and is not bundled.");
   ("urlscan", mkLicensePolicy "provider-api-terms" "https://urlscan.io/about-api/" "provider-terms" "not-bundled" _REVIEW_DATE false false
     "Optional archived-scan lookup; no urlscan dataset is bundled.");
   ("cloudflare_radar", mkLicensePolicy "provider-api-terms" "https://developers.cloudflare.com/radar/" "provider-terms" "not-bundled" _REVIEW_DATE false false
     "Optional API integration; no Cloudflare Radar dataset is bundled.");
   ("repository_lists", mkLicensePolicy "per-source" "" "per-source" "runtime-download-not-bundled" _REVIEW_DATE true false
     "Every configured repository list is reviewed independently before use.");
   ("urlhaus", mkLicensePolicy "abuse.ch-community-api-fair-use" "https://urlhaus.abuse.ch/api/" "conditional-commercial-api" "not-bundled" _REVIEW_DATE false false
     "The free Community API is governed by abuse.ch fair-use principles; commercial or for-profit needs may require the enhanced paid API.");
   ("crtsh", mkLicensePolicy "public-service-terms" "https://crt.sh/" "provider-terms" "not-bundled" _REVIEW_DATE false false
     "Optional public lookup; no certificate-transparency dataset is bundled.");
   ("google_safe_browsing", mkLicensePolicy "google-safe-browsing-noncommercial" "https://developers.google.com/safe-browsing/" "restricted-noncommercial" "not-bundled" _REVIEW_DATE false false
     "Google documents Safe Browsing as non-commercial only. Keep this provider opt-in; commercial deployments need an appropriate alternative such as Web Risk.")]%string.

Definition _REPOSITORY_LIST_POLICIES : list (string * EvidenceLicensePolicy) :=
  [("hagezi_tif_mini", mkLicensePolicy "GPL-3.0" "https://github.com/hagezi/dns-blocklists/blob/main/LICENSE" "allowed-with-license-obligations" "runtime-download-not-bundled" _REVIEW_DATE true false
     "HaGeZi dns-blocklists is GPL-3.0 and permits redistribution under that licence.");
   ("easyprivacy_trackingservers", mkLicensePolicy "GPL-3.0-or-later OR CC-BY-SA-3.0-or-later" "https://easylist.to/pages/licence.html" "allowed-with-license-obligations" "runtime-download-not-bundled" _REVIEW_DATE true false
     "EasyList/EasyPrivacy is dual-licensed under GPL-3.0-or-later or CC BY-SA 3.0-or-later; attribution/share-alike obligations apply as appropriate.")]%string.

Definition source_license_policy (kind : string) : option EvidenceLicensePolicy := dict_get (folded kind) _SOURCE_POLICIES.
Definition repository_list_license_policy (source_id : string) : option EvidenceLicensePolicy :=
  dict_get (folded source_id) _REPOSITORY_LIST_POLICIES.

(** What the lists of [repository_lists] add. *)
Definition nested_issues (nested : string * EvidenceLicensePolicy) : list string :=
  if lp_review_required nested.2 then [nested.1 +:+ ": repository-list licensing review is required"]
  else if negb (lp_release_default_eligible nested.2) then
    [nested.1 +:+ ": repository list is not safe for release defaults (" +:+ lp_commercial_use nested.2 +:+ ")"]
  else [].

(** One turn of the loop. *)
Definition kind_issues (kind : string) : list string :=
  match source_license_policy kind with
  | None => [kind +:+ ": no reviewed evidence-source usage policy is registered"]
  | Some policy =>
      if lp_review_required policy then [kind +:+ ": licensing/usage review is still required"]
      else
        (if negb (lp_release_default_eligible policy) then
           [kind +:+ ": must remain opt-in for distributed builds (" +:+ lp_commercial_use policy +:+ ")"] else []) ++
        (if String.eqb kind "repository_lists" then mjoin (nested_issues <$> _REPOSITORY_LIST_POLICIES) else [])
  end.

Definition distribution_license_issues (enabled_provider_kinds : list string) : list string :=
  mjoin (kind_issues <$> fromkeys (folded <$> filter (λ kind, str_nonempty kind = true) enabled_provider_kinds)).

(** The sources enabled by default raise no issue; one that is opt-in does. *)
Example default_sources_may_be_distributed :
  distribution_license_issues (sr_kind <$> filter (λ p, sr_enabled p = true) default_research_providers) = [] ∧
  distribution_license_issues ["RDAP"; "unheard"]%string =
    ["rdap: must remain opt-in for distributed builds (provider-terms)";
     "unheard: no reviewed evidence-source usage policy is registered"]%string.
Proof. vm_compute. done. Qed.

(** * Contradictions are sound and complete *)

Section QualityFacts.
Context `{PyRepr}.
Implicit Types l r : stance.

Lemma sorted_pair_sym a b : sorted_pair a b = sorted_pair b a.
Proof.
  unfold sorted_pair. destruct (str_leb a b) eqn:E1, (str_leb b a) eqn:E2; try done.
  - by rewrite (str_leb_antisym a b E1 E2).
  - destruct (str_leb_total a b); congruence.
Qed.

Lemma opposed_sym l r : opposed l r = opposed r l.
Proof.
  unfold opposed. rewrite String.eqb_sym. f_equal. apply bool_decide_ext. unfold _OPPOSING_STANCES.
  generalize l.2.1.2 r.2.1.2. intros a b. rewrite !elem_of_cons, !elem_of_nil. naive_solver.
Qed.
Lemma contradiction_key_sym l r : opposed l r = true → contradiction_key l r = contradiction_key r l.
Proof.
  intros [Hd%String.eqb_eq _]%andb_true_iff. unfold contradiction_key. by rewrite Hd, sorted_pair_sym.
Qed.
Lemma opposed_differ l r : opposed l r = true → l ≠ r.
Proof.
  intros [_ Ho%bool_decide_eq_true]%andb_true_iff ->. revert Ho. generalize r.2.1.2. intros a. unfold _OPPOSING_STANCES.
  rewrite !elem_of_cons, elem_of_nil. naive_solver.
Qed.

Definition pair_key (p : stance * stance) : string * (string * string) := contradiction_key p.1 p.2.

Lemma pairs_with_spec l rest : ∀ seen ps seen', pairs_with l rest seen = (ps, seen') →
  (∀ p, p ∈ ps → p.1 = l ∧ p.2 ∈ rest ∧ opposed p.1 p.2 = true) ∧
  (∀ k, k ∈ seen' ↔ k ∈ seen ∨ k ∈ pair_key <$> ps) ∧
  NoDup (pair_key <$> ps) ∧ (∀ k, k ∈ pair_key <$> ps → k ∉ seen) ∧
  ∀ r, r ∈ rest → opposed l r = true → contradiction_key l r ∈ seen'.
Proof.
  induction rest as [|r rest IH]; intros seen ps seen'; cbn [pairs_with].
  { intros [= <- <-]. split_and!; [by intros ? ?%not_elem_of_nil|set_solver|constructor|set_solver|by intros ? ?%not_elem_of_nil]. }
  destruct (negb (opposed l r) || _) eqn:E.
  - intros Hr. destruct (IH _ _ _ Hr) as (H1 & H2 & H3 & H4 & H5). split_and!; try done.
    + intros p Hp. destruct (H1 p Hp) as (? & ? & ?). split_and!; [done|by right|done].
    + intros x [->|Hx]%elem_of_cons Ho; [|by apply H5]. rewrite Ho in E. cbn in E. apply bool_decide_eq_true in E. apply H2. by left.
  - apply orb_false_iff in E as [Ho%negb_false_iff Hk%bool_decide_eq_false].
    destruct (pairs_with l rest (contradiction_key l r :: seen)) as [ps1 seen1] eqn:Er. intros [= <- <-].
    destruct (IH _ _ _ Er) as (H1 & H2 & H3 & H4 & H5). cbn [fst snd]. rewrite fmap_cons. change (pair_key (l, r)) with (contradiction_key l r).
    split_and!.
    + intros p [->|Hp]%elem_of_cons; [split_and!; [done|by left|done]|]. destruct (H1 p Hp) as (? & ? & ?). split_and!; [done|by right|done].
    + intros k. rewrite H2. set_solver.
    + constructor; [|done]. intros Hin. apply (H4 _ Hin). by left.
    + intros k [->|Hin]%elem_of_cons; [done|]. intros Hs. apply (H4 _ Hin). by right.
    + intros x [->|Hx]%elem_of_cons Hox; [apply H2; left; by left|by apply H5].
Qed.

Lemma contradicting_pairs_spec cands : ∀ seen, let ps := contradicting_pairs cands seen in
  (∀ p, p ∈ ps → sublist [p.1; p.2] cands ∧ opposed p.1 p.2 = true) ∧
  NoDup (pair_key <$> ps) ∧ (∀ k, k ∈ pair_key <$> ps → k ∉ seen) ∧
  ∀ l r, sublist [l; r] cands → opposed l r = true → contradiction_key l r ∈ seen ∨ contradiction_key l r ∈ pair_key <$> ps.
Proof.
  induction cands as [|x cands IH]; intros seen ps; unfold ps; cbn [contradicting_pairs].
  { split_and!; [by intros ? ?%not_elem_of_nil|constructor|by intros ? ?%not_elem_of_nil|]. intros l r Hs. by apply sublist_nil_r in Hs. }
  destruct (pairs_with x cands seen) as [ps1 seen1] eqn:E. cbn [fst snd].
  destruct (pairs_with_spec _ _ _ _ _ E) as (H1 & H2 & H3 & H4 & H5). destruct (IH seen1) as (H6 & H7 & H8 & H9).
  rewrite fmap_app. split_and!.
  - intros p [Hp|Hp]%elem_of_app.
    + destruct (H1 p Hp) as (-> & Hr & Ho). split; [|done]. apply sublist_skip. by apply singleton_sublist_l.
    + destruct (H6 p Hp) as [Hs Ho]. split; [by apply sublist_cons|done].
  - apply NoDup_app. split_and!; [done| |done]. intros k Hk Hk'. apply (H8 k Hk'), H2. by right.
  - intros k [Hk|Hk]%elem_of_app Hs; [by apply (H4 k)|]. apply (H8 k Hk), H2. by left.
  - intros l r Hs Ho. rewrite elem_of_app. apply sublist_cons_r in Hs as [Hs|(k & Hk & Hs)].
    + destruct (H9 l r Hs Ho) as [Hin|Hin]; [|by right; right]. apply H2 in Hin as [Hin|Hin]; [by left|by right; left].
    + injection Hk as -> <-. assert (contradiction_key x r ∈ seen1) as Hin by (apply H5; [by apply singleton_sublist_l|done]).
      apply H2 in Hin as [Hin|Hin]; [by left|by right; left].
Qed.

Lemma two_sublist {A} (a b : A) (l : list A) : a ∈ l → b ∈ l → a ≠ b → sublist [a; b] l ∨ sublist [b; a] l.
Proof.
  intros Ha. induction Ha as [a l|a x l Ha IH]; intros Hb Hab.
  - apply elem_of_cons in Hb as [->|Hb]; [done|]. left. apply sublist_skip. by apply singleton_sublist_l.
  - apply elem_of_cons in Hb as [->|Hb].
    + right. apply sublist_skip. by apply singleton_sublist_l.
    + destruct (IH Hb Hab); [left|right]; by apply sublist_cons.
Qed.

Definition contradiction_keys (findings : list ResearchFinding) : list (string * (string * string)) :=
  pair_key <$> contradicting_pairs (omap stance_of findings) [].

Lemma contradiction_keys_spec findings k : k ∈ contradiction_keys findings ↔
  ∃ l r, l ∈ omap stance_of findings ∧ r ∈ omap stance_of findings ∧ opposed l r = true ∧ k = contradiction_key l r.
Proof.
  unfold contradiction_keys. destruct (contradicting_pairs_spec (omap stance_of findings) []) as (H1 & H2 & H3 & H4). split.
  - intros ([l r] & -> & Hp)%list_elem_of_fmap. destruct (H1 _ Hp) as [Hs Ho]. cbn [fst snd] in *. exists l, r.
    split_and!; try done; (eapply elem_of_submseteq; [|by apply sublist_submseteq]); set_solver.
  - intros (l & r & Hl & Hr & Ho & ->). destruct (two_sublist l r _ Hl Hr (opposed_differ _ _ Ho)) as [Hs|Hs].
    + by destruct (H4 l r Hs Ho) as [?%not_elem_of_nil|].
    + rewrite (contradiction_key_sym l r Ho). rewrite opposed_sym in Ho. by destruct (H4 r l Hs Ho) as [?%not_elem_of_nil|].
Qed.

(** ** The order of the report *)

(** The order of the report, as the lexicographic order it is. *)
Definition report_order : EvidenceContradiction → EvidenceContradiction → bool :=
  lex (λ a b, severity_order (ec_severity a) <=? severity_order (ec_severity b))
    (lex (λ a b, Qle_bool (ec_confidence b) (ec_confidence a))
      (lex (λ a b, str_leb (ec_dimension a) (ec_dimension b))
        (lex (λ a b, str_leb (str_casefold (ec_left_provider a)) (str_casefold (ec_left_provider b)))
          (λ a b, str_leb (str_casefold (ec_right_provider a)) (str_casefold (ec_right_provider b)))))).

Lemma contradiction_leb_lex a b : contradiction_leb a b = report_order a b.
Proof.
  unfold contradiction_leb. rewrite (lex_str (str_casefold _)), (lex_str (ec_dimension a)), lex_Z.
  assert (Qeq_bool (ec_confidence a) (ec_confidence b) = Qeq_bool (ec_confidence b) (ec_confidence a)) as ->; [|by rewrite lex_Q].
  apply eq_true_iff_eq. by rewrite !Qeq_bool_iff.
Qed.

Lemma Qle_bool_total x y : Qle_bool x y = true ∨ Qle_bool y x = true.
Proof. rewrite !Qle_bool_iff. destruct (Qlt_le_dec x y); [left|right]; lra. Qed.
Lemma Qle_bool_trans x y z : Qle_bool x y = true → Qle_bool y z = true → Qle_bool x z = true.
Proof. rewrite !Qle_bool_iff. lra. Qed.

Lemma contradiction_leb_total a b : contradiction_leb a b = true ∨ contradiction_leb b a = true.
Proof.
  rewrite !contradiction_leb_lex. revert a b. repeat apply lex_total; intros a b; auto using str_leb_total, Qle_bool_total.
  rewrite !Z.leb_le. lia.
Qed.

Lemma contradiction_leb_trans a b c : contradiction_leb a b = true → contradiction_leb b c = true → contradiction_leb a c = true.
Proof.
  rewrite !contradiction_leb_lex. revert a b c. repeat apply lex_trans; intros a b c; try apply str_leb_trans.
  - rewrite !Z.leb_le. lia.
  - intros H1 H2. by eapply Qle_bool_trans.
Qed.

(** ** Scores *)

Lemma clamp_unit q : (0 <= _clamp q <= 1)%Q.
Proof. unfold _clamp. q_solve. Qed.
Lemma score_unit now f : (0 <= qs_evidence_score (score_finding now f) <= 1)%Q.
Proof. apply clamp_unit. Qed.

Lemma stance_strength f s : stance_of f = Some s → s.1 = f ∧ (0 <= s.2.2 <= 1)%Q.
Proof.
  unfold stance_of. destruct (dict_get _ _) as [[[dim side] strength]|] eqn:E; [|done]. destruct (_ && _); [done|]. intros [= <-].
  split; [done|]. cbn [fst snd]. apply dict_get_in in E.
  assert (Forall (λ p : string * (string * string * Q), Qle_bool 0 p.2.2 && Qle_bool p.2.2 1 = true) _VERDICT_STANCES) as Hall
    by by repeat constructor.
  apply (proj1 (Forall_forall _ _) Hall) in E as [H1%qleb_true H2%qleb_true]%andb_true_iff. done.
Qed.
End QualityFacts.

(** C27: the contradictions reported among findings are exactly the opposing
    stances: every one is between two findings that take opposite sides in the
    same dimension, every two such findings are covered by one with their key
    (dimension and the two parties), no key is reported twice, the report is
    sorted by severity and confidence, every confidence is between 0 and 1 and
    at most the scores of both sides; and which keys are reported does not
    depend on the order of the findings. *)
Theorem contradictions_are_exact `{PyRepr} now findings :
  let cands := omap stance_of findings in
  let report := detect_contradictions now findings in
  (∀ c, c ∈ report → ∃ l r, l ∈ cands ∧ r ∈ cands ∧ opposed l r = true ∧ c = contradiction_between now l r ∧
     (0 <= ec_confidence c <= 1)%Q ∧ (ec_confidence c <= qs_evidence_score (score_finding now l.1))%Q ∧
     (ec_confidence c <= qs_evidence_score (score_finding now r.1))%Q) ∧
  (∀ l r, l ∈ cands → r ∈ cands → opposed l r = true →
     ∃ l' r', contradiction_between now l' r' ∈ report ∧ contradiction_key l' r' = contradiction_key l r) ∧
  NoDup (contradiction_keys findings) ∧ length report = length (contradiction_keys findings) ∧
  StronglySorted (λ a b, contradiction_leb a b = true) report ∧
  ∀ findings', findings ≡ₚ findings' → contradiction_keys findings ≡ₚ contradiction_keys findings'.
Proof.
  intros cands report. destruct (contradicting_pairs_spec cands []) as (H1 & H2 & _ & _).
  assert (∀ c, c ∈ report ↔ c ∈ (λ p, contradiction_between now p.1 p.2) <$> contradicting_pairs cands []) as Hin.
  { intros c. unfold report, detect_contradictions. by rewrite sort_by_Permutation. }
  split_and!.
  - intros c ([l r] & -> & Hp)%Hin%list_elem_of_fmap. destruct (H1 _ Hp) as [Hs Ho]. cbn [fst snd] in *. exists l, r.
    assert (l ∈ cands ∧ r ∈ cands) as [Hl Hr]
      by (split; (eapply elem_of_submseteq; [|by apply sublist_submseteq]); set_solver).
    pose proof (score_unit now l.1). pose proof (score_unit now r.1).
    apply list_elem_of_omap in Hl as Hl'. destruct Hl' as (fl & _ & [_ ?]%stance_strength).
    apply list_elem_of_omap in Hr as Hr'. destruct Hr' as (fr & _ & [_ ?]%stance_strength).
    split_and!; try done; unfold contradiction_between; cbn [ec_confidence]; q_solve.
  - intros l r Hl Hr Ho. assert (contradiction_key l r ∈ contradiction_keys findings) as Hk by (apply contradiction_keys_spec; by exists l, r).
    unfold contradiction_keys in Hk. fold cands in Hk. apply list_elem_of_fmap in Hk as ([l' r'] & Hk & Hp). exists l', r'. split; [|by rewrite Hk].
    apply Hin, list_elem_of_fmap. by exists (l', r').
  - exact H2.
  - unfold report, detect_contradictions, contradiction_keys. rewrite sort_by_Permutation. by rewrite !length_fmap.
  - apply sort_by_sorted; [apply contradiction_leb_total|apply contradiction_leb_trans].
  - intros findings' Hp. apply NoDup_Permutation; [exact H2|apply (contradicting_pairs_spec (omap stance_of findings') [])|].
    intros k. rewrite !contradiction_keys_spec. by setoid_rewrite Hp.
Qed.

(** * Freshness *)

Section FreshnessFacts.
Context `{PyRepr}.

Lemma foldl_min_spec (hours : list Z) : ∀ h x, x ≤ foldl Z.min h hours ↔ x ≤ h ∧ ∀ y, y ∈ hours → x ≤ y.
Proof.
  induction hours as [|y hours IH]; intros h x; cbn [foldl]; [split; [intros ?; split; [done|by intros ? ?%not_elem_of_nil]|by intros [? _]]|].
  rewrite IH. split.
  - intros [Hx Hy]. split; [lia|]. intros z [->|Hz]%elem_of_cons; [lia|by apply Hy].
  - intros [Hx Hy]. split; [|intros z Hz; apply Hy; by right]. assert (x ≤ y) by (apply Hy; by left). lia.
Qed.

(** The tags that shorten the life of a finding of a kind. *)
Definition tag_bounds (source_kind : string) (context : EvidenceFreshnessContext) (tag : string) (hours : Z) : Prop :=
  (source_kind ∉ _TAG_INSENSITIVE_SOURCES) ∧ tag ∈ fc_tags context ∧ tag_hours context tag = Some hours.

Lemma tag_ceiling_spec kind context source x :
  (x ≤ Z.min source (default source (_tag_ceiling kind context).1)) ↔ x ≤ source ∧ ∀ tag hours, tag_bounds kind context tag hours → x ≤ hours.
Proof.
  unfold _tag_ceiling, tag_bounds. case_bool_decide as Hk; [cbn; split; [intros ?; split; [lia|by intros ? ? [? _]]|intros [? _]; lia]|].
  set (matches := filter _ _).
  assert (∀ hours, hours ∈ omap (tag_hours context) matches ↔ ∃ tag, tag ∈ fc_tags context ∧ tag_hours context tag = Some hours) as Hm.
  { intros hours. rewrite list_elem_of_omap. unfold matches. split.
    - intros (tag & Hin & Ht). apply list_elem_of_filter in Hin as [_ Hin]. eauto.
    - intros (tag & Hin & Ht). exists tag. split; [|done]. apply list_elem_of_filter. rewrite Ht. eauto. }
  destruct (omap (tag_hours context) matches) as [|h hours]; cbn [default fst from_option id].
  - rewrite Z.min_id. split; [|by intros [? _]]. intros Hx. split; [done|]. intros tag hs (_ & Hin & Ht).
    assert (hs ∈ @nil Z) as []%not_elem_of_nil by (apply Hm; eauto).
  - split.
    + intros Hx. split; [lia|]. intros tag hs (_ & Hin & Ht). assert (x ≤ foldl Z.min h hours) as [Hh Hrest]%foldl_min_spec by lia.
      assert (hs ∈ h :: hours) as [->|Hhs]%elem_of_cons by (apply Hm; eauto); [done|by apply Hrest].
    + intros [Hx Ht]. apply Z.min_glb; [done|]. apply foldl_min_spec. split.
      * destruct (proj1 (Hm h)) as (tag & Hin & Hh); [by left|]. by eapply Ht.
      * intros y Hy. destruct (proj1 (Hm y)) as (tag & Hin & Hh); [by right|]. by eapply Ht.
Qed.

(** A moment is before the end of a finding's life. *)
Definition alive (moment retrieved expires source_hours : Z) (source_kind : string) (context : EvidenceFreshnessContext) : Prop :=
  (0 < expires → moment < expires) ∧ moment < retrieved + source_hours * 3600 ∧
  ∀ tag hours, tag_bounds source_kind context tag hours → moment < retrieved + hours * 3600.

Lemma decision_alive now f context moment :
  let kind := _source_kind f context in
  moment < fd_effective_expires_at (freshness_decision_for_finding now f context) ↔
  alive moment (Z.max 0 (or_now now (rf_retrieved_at f))) (rf_expires_at f) (_source_hours (rf_provider f) kind context) kind context.
Proof.
  intros kind. unfold freshness_decision_for_finding, alive. fold kind. destruct (_tag_ceiling kind context) as [ceiling tags] eqn:Et.
  set (source := _source_hours _ _ _). set (retrieved := Z.max 0 (or_now _ _)). cbn [fd_effective_expires_at].
  assert (∀ hours, moment < retrieved + hours * 3600 ↔ (moment - retrieved) / 3600 + 1 ≤ hours) as Hdiv.
  { intros hours. split; intros Hx.
    - assert ((moment - retrieved) / 3600 < hours) by (apply Z.div_lt_upper_bound; lia). lia.
    - pose proof (Z.mod_pos_bound (moment - retrieved) 3600 ltac:(lia)). pose proof (Z.div_mod (moment - retrieved) 3600 ltac:(lia)). lia. }
  assert (moment < retrieved + Z.min source (default source ceiling) * 3600 ↔
    moment < retrieved + source * 3600 ∧ ∀ tag hours, tag_bounds kind context tag hours → moment < retrieved + hours * 3600) as Hp.
  { rewrite Hdiv. pose proof (tag_ceiling_spec kind context source ((moment - retrieved) / 3600 + 1)) as Hc. rewrite Et in Hc. cbn [fst] in Hc.
    rewrite Hc, (Hdiv source). by setoid_rewrite Hdiv. }
  destruct (0 <? Z.max 0 (rf_expires_at f)) eqn:E; bool_cmp.
  - rewrite <-Hp. split; [intros ?; split; intros; lia|]. intros [H1 H2]. assert (moment < rf_expires_at f) by (apply H1; lia). lia.
  - rewrite <-Hp. split; [intros ?; split; [lia|done]|by intros [_ ?]].
Qed.
End FreshnessFacts.

(** Fresh evidence is evidence no bound has expired: a row served for a
    domain is one of the newest stored rows of that domain, and the moment is
    before its own expiry, before the end set by the refresh interval of its
    source, and before the ceiling of every tag the domain has; every such row
    among the newest that fit the limit is served, newest first. *)
Theorem served_findings_are_alive `{PyRepr} now providers domain limit s :
  let served := research_findings_get now providers domain true limit s in
  let newest := stored_research_findings domain (Z.max 500 (Z.max 1 limit)) s in
  let context := build_freshness_context providers domain 30 (ev_db s) in
  let fresh r := let f := finding_of_row r in let kind := _source_kind f context in
    alive now (Z.max 0 (or_now now (fr_retrieved_at r))) (fr_expires_at r) (_source_hours (fr_provider r) kind context) kind context in
  (∀ r, r ∈ served → r ∈ ev_rows s ∧ fr_domain r = _normalize_domain domain ∧ fresh r) ∧
  Z.of_nat (length served) ≤ Z.max 1 limit ∧
  (∀ r, r ∈ newest → fresh r → r ∈ served ∨ Z.of_nat (length served) = Z.max 1 limit) ∧
  StronglySorted (λ a b, newest_leb a b = true) served.
Proof.
  intros served newest context fresh. unfold served, research_findings_get. cbn [negb]. fold context newest.
  assert (∀ r, row_is_fresh now context r = true ↔ fresh r) as Hf.
  { intros r. unfold row_is_fresh. rewrite Z.ltb_lt. apply decision_alive. }
  set (l := filter (λ r, row_is_fresh now context r = true) newest).
  split_and!.
  - intros r Hr. apply elem_of_take in Hr as (i & Hi & _). apply list_elem_of_lookup_2, list_elem_of_filter in Hi as [Hfr Hin].
    unfold newest, stored_research_findings in Hin. apply elem_of_take in Hin as (j & Hj & _). apply list_elem_of_lookup_2 in Hj.
    rewrite sort_by_Permutation in Hj. apply list_elem_of_filter in Hj as [Hd Hrow]. split_and!; [done|done|by apply Hf].
  - rewrite length_take. lia.
  - intros r Hr Hfr. assert (r ∈ l) as Hl by (apply list_elem_of_filter; split; [by apply Hf|done]).
    destruct (decide (Z.of_nat (length l) ≤ Z.max 1 limit)) as [Hle|Hgt].
    + left. by rewrite take_ge by lia.
    + right. rewrite length_take. lia.
  - apply StronglySorted_take. unfold l. apply StronglySorted_filter. unfold newest, stored_research_findings.
    apply StronglySorted_take, sort_by_sorted.
    + intros a b. unfold newest_leb. rewrite !orb_true_iff, !andb_true_iff, !Z.ltb_lt, !Z.eqb_eq, !Z.leb_le. lia.
    + intros a b c. unfold newest_leb. rewrite !orb_true_iff, !andb_true_iff, !Z.ltb_lt, !Z.eqb_eq, !Z.leb_le. lia.
Qed.

(** ** Saving *)

Section SavingFacts.
Context `{PyRepr}.
Context (now default_max_age_days : Z).

Lemma ensure_findings_spec items : ∀ acc s acc' s', tx_fold (ensure_finding now) acc items s = Ok (acc', s') →
  acc' = acc ++ ((λ f, (_normalize_domain (rf_domain f), f)) <$> items) ∧ ev_rows s' = ev_rows s ∧ ev_last_id s' = ev_last_id s.
Proof.
  induction items as [|f items IH]; intros acc s acc' s'; cbn [tx_fold].
  { intros [= <- <-]. by rewrite app_nil_r. }
  unfold mbind, tx_bind, ensure_finding at 1, ev_lift. unfold mbind, tx_bind.
  destruct (_ensure_domain _ _ _ _ _) as [[n d]|e] eqn:E; [|done]. apply _ensure_domain_spec in E as (-> & _ & _).
  intros (-> & H1 & H2)%IH. rewrite fmap_cons, <-(assoc_L (++)). done.
Qed.

Lemma insert_findings_spec items : ∀ count s count' s', tx_fold (insert_finding now default_max_age_days) count items s = Ok (count', s') →
  count' = count + Z.of_nat (length items) ∧
  ∃ rows, ev_rows s' = ev_rows s ++ rows ∧
    rows = imap (λ i p, row_of_finding now default_max_age_days (ev_last_id s + 1 + Z.of_nat i) p.1 p.2) items.
Proof.
  induction items as [|[domain f] items IH]; intros count s count' s'; cbn [tx_fold].
  { intros [= <- <-]. split; [cbn; lia|]. exists []. by rewrite app_nil_r. }
  unfold mbind, tx_bind, insert_finding at 1, ev_write, tx_write. unfold mbind, tx_bind. cbv [mret tx_ret].
  intros [-> (rows & Hr & ->)]%IH. split; [cbn; lia|]. cbn [ev_rows ev_last_id] in Hr.
  eexists. rewrite Hr, <-(assoc_L (++)). split; [done|]. cbn [imap app ev_last_id]. f_equal; [f_equal; lia|].
  apply imap_ext. intros i p _. cbn. f_equal. lia.
Qed.

Lemma insert_findings_ok items : ∀ count s, ∃ r, tx_fold (insert_finding now default_max_age_days) count items s = Ok r.
Proof.
  induction items as [|[domain f] items IH]; intros count s; cbn [tx_fold]; [by eexists|].
  unfold mbind, tx_bind, insert_finding at 1, ev_write, tx_write. unfold mbind, tx_bind. cbv [mret tx_ret]. apply IH.
Qed.
End SavingFacts.

(** Saving findings replaces what the same sources said before: the rows of
    every other domain and source stay, those of the saved domains and sources
    are exactly the saved findings, under fresh ids, each with the expiry the
    freshness policy gives it; and when saving raises nothing changes. *)
Theorem saving_replaces_earlier_findings `{PyRepr} now providers days findings s r s'
  (Hrun : save_research_findings now providers days findings s = (r, s')) :
  match r with
  | Ok n => n = Z.of_nat (length findings) ∧
      let saved f := apply_freshness_policy now f (build_freshness_context providers (_normalize_domain (rf_domain f)) days (ev_db s)) in
      let key f := (_normalize_domain (rf_domain f), rf_provider f) in
      (findings ≠ [] → ev_rows s' =
        filter (λ row, (fr_domain row, fr_provider row) ∉ key <$> findings) (ev_rows s) ++
        imap (λ i f, row_of_finding now days (ev_last_id s + 1 + Z.of_nat i) (_normalize_domain (rf_domain f)) (saved f)) findings) ∧
      ∀ f moment, f ∈ findings →
        let context := build_freshness_context providers (_normalize_domain (rf_domain f)) days (ev_db s) in
        let kind := _source_kind f context in
        moment < rf_expires_at (saved f) ↔
        alive moment (Z.max 0 (or_now now (rf_retrieved_at f))) (rf_expires_at f) (_source_hours (rf_provider f) kind context) kind context
  | Err _ => s' = s
  end.
Proof.
  unfold save_research_findings, mbind, prog_bind, prog_read in Hrun. unfold store_research_findings in Hrun.
  set (adjusted := apply_freshness_policies now providers days (ev_db s) findings) in Hrun.
  assert (adjusted = [] → findings = []) as Hnil by (unfold adjusted, apply_freshness_policies; by destruct findings).
  case_bool_decide as Hempty.
  { injection Hrun as <- <-. rewrite (Hnil Hempty). split; [done|]. intros saved key. split; [by intros []|]. intros f moment Hin. by apply not_elem_of_nil in Hin. }
  unfold commit in Hrun. unfold mbind, tx_bind in Hrun.
  destruct (tx_fold (ensure_finding now) [] adjusted s) as [[normalized s1]|e] eqn:E1; [|by injection Hrun as <- <-].
  apply ensure_findings_spec in E1 as (-> & Hr1 & Hl1). cbn [app] in Hrun.
  set (items := (λ f, (_normalize_domain (rf_domain f), f)) <$> adjusted) in Hrun.
  unfold ev_write, tx_write in Hrun. cbv beta iota in Hrun.
  set (s2 := EvidenceDb _ _ _) in Hrun. destruct (tx_fold _ 0 items s2) as [[n s3]|e] eqn:E2.
  2: { destruct (insert_findings_ok now days items 0 s2) as [? ?]. congruence. }
  injection Hrun as <- <-. apply insert_findings_spec in E2 as (-> & rows & Hrows & ->).
  assert (length items = length findings) as Hlen by (unfold items, adjusted, apply_freshness_policies; by rewrite !length_fmap).
  split; [lia|]. split.
  - intros _. rewrite Hrows. unfold s2. cbn [ev_rows ev_last_id]. rewrite Hr1, Hl1. f_equal.
    + apply list_filter_iff. intros row. unfold items, adjusted, apply_freshness_policies. by rewrite <-!list_fmap_compose.
    + unfold items, adjusted, apply_freshness_policies. rewrite !imap_fmap. apply imap_ext. by intros i f _.
  - intros f moment _. cbn [rf_expires_at apply_freshness_policy]. apply decision_alive.
Qed.

(** * Citations *)

(** [strip] keeps a segment that starts and ends with other characters. *)
Lemma strip_keeps_segment first middle last text :
  is_space first = false → is_space last = false →
  str_contains (String first (middle +:+ String last EmptyString)) text = true →
  str_contains (String first (middle +:+ String last EmptyString)) (str_strip text) = true.
Proof.
  intros Hf Hl (a & b & ->)%str_contains_iff. apply str_contains_iff. unfold str_strip.
  set (seg := String first _). change (seg +:+ b) with (String first ((middle +:+ String last EmptyString) +:+ b)).
  destruct (lstrip_keeps is_space a first ((middle +:+ String last EmptyString) +:+ b) Hf) as [a' ->].
  rewrite app_assoc_str. change (String last EmptyString +:+ b) with (String last b).
  change (String first (middle +:+ String last b)) with (String first middle +:+ String last b).
  rewrite <-app_assoc_str, rstrip_keeps by done. exists a', (rstrip is_space b).
  rewrite app_assoc_str. unfold seg. f_equal. change (String first ?x +:+ ?y) with (String first (x +:+ y)).
  f_equal. by rewrite app_assoc_str.
Qed.

Lemma header_survives text : str_contains _CITATION_HEADER text = true → str_contains _CITATION_HEADER (str_strip text) = true.
Proof. apply (strip_keeps_segment "E"%char "vidence citations" ":"%char); reflexivity. Qed.

Lemma with_section_cites details body : str_contains _CITATION_HEADER (str_strip (with_section details (_CITATION_HEADER +:+ body))) = true.
Proof. unfold with_section. rewrite str_strip_idemp. apply header_survives, str_contains_iff. exists (details +:+ newline +:+ newline), body. by rewrite !app_assoc_str. Qed.

(** What attaching changes of a classification. *)
Definition but_citations (c : Classification) : Classification := replace_review (replace_details c "") false "".

Lemma with_citation_section_spec c references :
  let c' := _with_citation_section c references in
  but_citations c' = but_citations c ∧ str_contains _CITATION_HEADER (str_strip (cl_details c')) = true ∧
  (str_contains _CITATION_HEADER (str_strip (cl_details c)) = true → c' = c) ∧
  (str_contains _CITATION_HEADER (str_strip (cl_details c)) = false →
   if bool_decide (references = []) then cl_needs_review c' = true ∧ cl_review_reason c' ≠ ""%string
   else cl_needs_review c' = cl_needs_review c ∧ cl_review_reason c' = cl_review_reason c ∧
     cl_details c' = with_section (str_strip (cl_details c)) (_CITATION_HEADER +:+ newline +:+ str_join newline (citation_lines 1 references))).
Proof.
  intros c'. unfold c', _with_citation_section. destruct (str_contains _ (str_strip (cl_details c))) eqn:E; [done|].
  destruct references as [|r references]; split_and!; try done; try apply with_section_cites.
  intros _. rewrite bool_decide_eq_true_2 by done. split; [done|]. by apply str_or_nonempty.
Qed.

Lemma deduplicate_from_spec references : ∀ seen,
  NoDup (reference_key <$> deduplicate_from seen references) ∧ deduplicate_from seen references `sublist_of` references ∧
  (∀ k, k ∈ reference_key <$> deduplicate_from seen references ↔ k ∈ reference_key <$> references ∧ k ∉ seen).
Proof.
  induction references as [|r references IH]; intros seen; cbn [deduplicate_from]; [split_and!; [constructor|constructor|set_solver]|].
  case_bool_decide as Hr.
  - destruct (IH seen) as (H1 & H2 & H3). split_and!; [done|by constructor|]. intros k. rewrite H3, fmap_cons, elem_of_cons.
    split; [tauto|]. intros [[->|Hk] Hs]; [done|done].
  - destruct (IH (reference_key r :: seen)) as (H1 & H2 & H3). rewrite fmap_cons. split_and!; [|by constructor|].
    + constructor; [|done]. rewrite H3. set_solver.
    + intros k. rewrite fmap_cons, !elem_of_cons, H3, elem_of_cons. destruct (decide (k = reference_key r)) as [->|]; tauto.
Qed.

(** Attaching citations touches nothing of a classification but its
    description and the demand for review; afterwards every description carries
    its evidence section, so attaching again, with any evidence, changes
    nothing; a description that had none gets at most twelve references, no two
    the same up to case, every one of them from the findings of its own domain
    or, when the request had this one domain only, from the provider; without a
    reference it must be reviewed, and says why. *)
Theorem descriptions_are_cited_once classifications dossiers citations :
  let out := attach_evidence_citations classifications dossiers citations in
  let single := Nat.eqb (length classifications) 1 in
  but_citations <$> out = but_citations <$> classifications ∧
  (∀ c, c ∈ out → str_contains _CITATION_HEADER (str_strip (cl_details c)) = true) ∧
  (∀ dossiers' citations', attach_evidence_citations out dossiers' citations' = out) ∧
  ∀ i c, classifications !! i = Some c → ∃ c' references, out !! i = Some c' ∧ references `sublist_of` references_for single dossiers citations c ∧
    NoDup (reference_key <$> references) ∧ (length references ≤ 12)%nat ∧
    (∀ r, r ∈ references_for single dossiers citations c → reference_key r ∈ reference_key <$> references ∨ length references = 12%nat) ∧
    if str_contains _CITATION_HEADER (str_strip (cl_details c)) then c' = c
    else if bool_decide (references = []) then cl_needs_review c' = true ∧ cl_review_reason c' ≠ ""%string
    else cl_needs_review c' = cl_needs_review c ∧ cl_review_reason c' = cl_review_reason c ∧
      cl_details c' = with_section (str_strip (cl_details c)) (_CITATION_HEADER +:+ newline +:+ str_join newline (citation_lines 1 references)).
Proof.
  intros out single.
  assert (∀ c, c ∈ out → str_contains _CITATION_HEADER (str_strip (cl_details c)) = true) as Hcited.
  { intros c (c0 & -> & _)%list_elem_of_fmap. apply with_citation_section_spec. }
  split_and!; [|done| |].
  - unfold out, attach_evidence_citations. rewrite <-list_fmap_compose. apply list_fmap_ext. intros i c _. apply with_citation_section_spec.
  - intros dossiers' citations'. unfold attach_evidence_citations at 1. rewrite <-(list_fmap_id out) at 2. apply list_fmap_ext.
    intros i c Hc. apply with_citation_section_spec. by apply Hcited, list_elem_of_lookup_2 with i.
  - intros i c Hc. unfold out, attach_evidence_citations. rewrite list_lookup_fmap, Hc. fold single. set (all := references_for single dossiers citations c).
    set (references := take _MAX_CITATIONS (_deduplicate_references all)). destruct (deduplicate_from_spec all []) as (H1 & H2 & H3).
    exists (_with_citation_section c references), references. split; [done|].
    destruct (with_citation_section_spec c references) as (_ & _ & Hsame & Hnew). split_and!.
    + by etrans; [apply sublist_take|].
    + unfold references. rewrite fmap_take. by eapply sublist_NoDup, sublist_take.
    + unfold references. rewrite length_take. unfold _MAX_CITATIONS. lia.
    + intros r Hr. destruct (decide (length (_deduplicate_references all) ≤ _MAX_CITATIONS)%nat).
      * left. unfold references. rewrite take_ge by done. apply H3. split; [by apply list_elem_of_fmap_2|apply not_elem_of_nil].
      * right. unfold references, _MAX_CITATIONS in *. rewrite length_take. lia.
    + destruct (str_contains _ _); [by apply Hsame|by apply Hnew].
Qed.

(** A description whose text already has the header, as a model may write it,
    gets no reference and, without evidence, no review. *)
Definition headed (details : string) : Classification :=
  mkClassification "a.com" ALLOW "other" "A" details "openai" [] "" ROLE_UNKNOWN 0 0 0 1 false "" 30 "".
Example a_written_header_suppresses_citations :
  cl_needs_review <$> attach_evidence_citations [headed "A shop."] [] [] = [true] ∧
  attach_evidence_citations [headed "A shop. Evidence citations: see above."] [] [] = [headed "A shop. Evidence citations: see above."].
Proof. vm_compute. done. Qed.

(** * Witnesses and examples *)

#[local] Instance ex_repr : PyRepr := {| py_repr_of _ := "..."%string |}.

Definition ex_finding (provider kind verdict : string) (retrieved_at expires_at : Z) : ResearchFinding :=
  mkFinding "Ads.Example.com." provider kind "Listed" "" "https://example.com/a" (90 # 100) "security" verdict true retrieved_at expires_at [].
Definition ex_findings : list ResearchFinding :=
  [ex_finding "URLhaus host lookup" "urlhaus" "malware" 1000000 0; ex_finding "AdGuard service catalog" "adguard_services" "safe" 1000000 1000060].
Definition ex_store : evidence_db := (save_research_findings 1000000 default_research_providers 30 ex_findings (EvidenceDb db_empty [] 0)).2.
Definition ex_again : ResearchFinding := ex_finding "URLhaus host lookup" "urlhaus" "clean" 1000100 0.
Definition ex_saved : result exn Z * evidence_db := save_research_findings 1000100 default_research_providers 30 [ex_again] ex_store.

(** Saved twice, a source keeps its last word; a minute later the finding with
    its own expiry is gone. *)
Example saved_findings :
  fr_id <$> ev_rows ex_store = [1; 2] ∧ fr_expires_at <$> ev_rows ex_store = [1000000 + 6 * 3600; 1000060] ∧
  (λ r, (fr_id r, fr_verdict r)) <$> ev_rows ex_saved.2 = [(2, "safe"); (3, "clean")]%string ∧
  fr_id <$> research_findings_get 1000059 default_research_providers "ads.example.com" true 5 ex_saved.2 = [3; 2] ∧
  fr_id <$> research_findings_get 1000060 default_research_providers "ads.example.com" true 5 ex_saved.2 = [3].
Proof. vm_compute. done. Qed.

Example found_contradictions :
  (λ c, (ec_dimension c, ec_left_verdict c, ec_right_verdict c, ec_severity c)) <$> detect_contradictions 1000000 ex_findings =
    [("security", "malware", "safe", "high")]%string.
Proof. vm_compute. done. Qed.

Lemma ex_saved_pair : ex_saved = (Ok 1, ex_saved.2).
Proof. vm_compute. reflexivity. Qed.

Lemma saving_replaces_earlier_findings_witness :
  ev_rows ex_saved.2 = filter (λ row, (fr_domain row, fr_provider row) ∉ [("ads.example.com", "URLhaus host lookup")]%string) (ev_rows ex_store) ++
    [row_of_finding 1000100 30 3 "ads.example.com"
       (apply_freshness_policy 1000100 ex_again (build_freshness_context default_research_providers "ads.example.com" 30 (ev_db ex_store)))].
Proof.
  destruct (saving_replaces_earlier_findings 1000100 default_research_providers 30 [ex_again] ex_store (Ok 1) ex_saved.2 ex_saved_pair)
    as (_ & H & _).
  exact (H ltac:(discriminate)).
Defined.
