(* ===== verification/Profiles.v ===== *)
(** The rest of [pihole_manager/compatibility_profiles.py], whose matching and
    guard are in [Behavior]: reading the file of profiles, and the finding that
    a protected domain gets.

    The text of the file is an argument; that one reading is kept for later
    calls is left out. *)
From stdpp Require Import base gmap strings list pretty.
From Stdlib Require Import Ascii QArith.
From S2P Require Import Prelude Json JsonText Models Database Behavior Evidence.
Open Scope Z_scope.

(** * Reading the profiles *)

(** [ValueError], and the [OverflowError] of an infinite number, which
    [_integer] does not catch. *)
Inductive profile_exn := ProfileError (msg : string) | ProfileOverflow.

Definition require (b : bool) (msg : string) : result profile_exn unit := if b then Ok tt else Err (ProfileError msg).

Definition _integer (value : json) (field : string) : result profile_exn Z :=
  match value with
  | JBool _ => Err (ProfileError (field +:+ " must be an integer."))
  | _ =>
      match py_int_of value with
      | Ok z => Ok z
      | Err ConversionOverflowError => Err ProfileOverflow
      | Err _ => Err (ProfileError (field +:+ " must be an integer."))
      end
  end.

(** [ServiceRole(value)]: [None] stands for the [ValueError]. *)
Definition ServiceRole_of_value (s : string) : option ServiceRole :=
  if String.eqb s "core" then Some ROLE_CORE
  else if String.eqb s "optional" then Some ROLE_OPTIONAL
  else if String.eqb s "shared" then Some ROLE_SHARED
  else if String.eqb s "unknown" then Some ROLE_UNKNOWN
  else None.

Section Parse.
Context `{PyRepr}.

Definition _domains (value : option json) : list string :=
  match value with
  | Some (JArray items) =>
      fromkeys (filter (λ d, str_nonempty d = true) ((λ item, _normalize_domain (py_str_or (Some item) "")) <$> items))
  | _ => []
  end.

Definition text_field (key default : string) (raw : fields) : string := str_strip (py_str_or (dict_get key raw) default).

Definition _parse_profile (raw_profile : json) : result profile_exn CompatibilityProfile :=
  match raw_profile with
  | JObject raw =>
      let profile_id := text_field "profile_id" "" raw in
      let name := text_field "name" "" raw in
      let description := text_field "description" "" raw in
      let reason := text_field "reason" "" raw in
      let protection := text_field "protection" "deny_requires_review" raw in
      _ ← require (str_nonempty profile_id && str_nonempty name && str_nonempty reason)
            "Compatibility profiles require profile_id, name, and reason.";
      _ ← require (String.eqb protection "deny_requires_review") ("Unsupported compatibility protection mode: " +:+ protection);
      service_role ← match ServiceRole_of_value (py_str_or (dict_get "service_role" raw) "core") with
                     | Some role => Ok role
                     | None => Err (ProfileError ("Invalid service_role for compatibility profile " +:+ profile_id))
                     end;
      _ ← require (negb (bool_decide (service_role = ROLE_UNKNOWN))) ("Unsupported service_role for compatibility profile " +:+ profile_id);
      min_breakage_risk ← _integer (default (JInt 80) (dict_get "min_breakage_risk" raw)) "min_breakage_risk";
      _ ← require ((0 <=? min_breakage_risk) && (min_breakage_risk <=? 100)) "min_breakage_risk must be between 0 and 100.";
      let exact_domains := _domains (dict_get "exact_domains" raw) in
      let suffix_domains := _domains (dict_get "suffix_domains" raw) in
      _ ← require (negb (bool_decide (exact_domains = [] ∧ suffix_domains = [])))
            ("Compatibility profile " +:+ profile_id +:+ " requires at least one domain.");
      Ok (mkProfile profile_id name description service_role min_breakage_risk protection exact_domains suffix_domains reason
            (text_field "source_url" "" raw))
  | _ => Err (ProfileError "Each compatibility profile must be a JSON object.")
  end.

(** The loop over the profiles. *)
Fixpoint parse_profiles (seen_ids : list string) (raw_profiles : list json) : result profile_exn (list CompatibilityProfile) :=
  match raw_profiles with
  | [] => Ok []
  | raw_profile :: raw_profiles =>
      profile ← _parse_profile raw_profile;
      let profile_key := str_casefold (pf_profile_id profile) in
      _ ← require (negb (bool_decide (profile_key ∈ seen_ids))) ("Duplicate compatibility profile id: " +:+ pf_profile_id profile);
      profiles ← parse_profiles (profile_key :: seen_ids) raw_profiles;
      Ok (profile :: profiles)
  end.

Definition profiles_of_payload (payload : json) : result profile_exn (list CompatibilityProfile) :=
  match payload with
  | JObject fields =>
      schema_version ← _integer (default JNull (dict_get "schema_version" fields)) "schema_version";
      _ ← require (schema_version =? 1) ("Unsupported compatibility profile schema version: " +:+ pretty schema_version);
      match dict_get "profiles" fields with
      | Some (JArray (raw :: raw_profiles)) => parse_profiles [] (raw :: raw_profiles)
      | _ => Err (ProfileError "Compatibility profile file requires at least one profile.")
      end
  | _ => Err (ProfileError "Compatibility profile root must be a JSON object.")
  end.

(** [json.JSONDecodeError] is a [ValueError]. *)
Definition load_compatibility_profiles (text : string) : result profile_exn (list CompatibilityProfile) :=
  match json_loads text with
  | Some payload => profiles_of_payload payload
  | None => Err (ProfileError "JSONDecodeError")
  end.
End Parse.

(** * The finding of a protected domain *)

Definition COMPATIBILITY_PROVIDER_NAME : string := "Wormhole compatibility profiles".

Definition compatibility_finding (profiles : list CompatibilityProfile) (now : Z) (domain : string) : option ResearchFinding :=
  let normalized := _normalize_domain domain in
  match compatibility_match_for_domain profiles normalized with
  | None => None
  | Some m =>
      let profile := cm_profile m in
      Some (mkFinding normalized COMPATIBILITY_PROVIDER_NAME "compatibility_profile" ("Protected service: " +:+ pf_name profile)
        (pf_reason profile) (pf_source_url profile) 1 "function" ("protected_" +:+ role_value (pf_service_role profile) +:+ "_service") true
        now (now + 365 * 86400)
        [("wormhole_source_kind", JString "compatibility_profile"); ("profile_id", JString (pf_profile_id profile));
         ("service_role", JString (role_value (pf_service_role profile))); ("min_breakage_risk", JInt (pf_min_breakage_risk profile));
         ("protection", JString (pf_protection profile)); ("matched_pattern", JString (cm_matched_pattern m));
         ("match_type", JString (cm_match_type m))])%string
  end.

(** * What is loaded *)

Record profile_ok (p : CompatibilityProfile) : Prop := {
  po_texts : ∀ t, t ∈ [pf_profile_id p; pf_name p; pf_description p; pf_reason p; pf_source_url p] → str_strip t = t;
  po_required : ∀ t, t ∈ [pf_profile_id p; pf_name p; pf_reason p] → t ≠ ""%string;
  po_protection : pf_protection p = "deny_requires_review"%string;
  po_role : pf_service_role p ≠ ROLE_UNKNOWN;
  po_risk : 0 ≤ pf_min_breakage_risk p ≤ 100;
  po_domains : ∀ d, d ∈ pf_exact_domains p ++ pf_suffix_domains p → d ≠ ""%string ∧ ∃ text, d = _normalize_domain text;
  po_exact : NoDup (pf_exact_domains p);
  po_suffix : NoDup (pf_suffix_domains p);
  po_some : pf_exact_domains p ++ pf_suffix_domains p ≠ []
}.

Definition profile_key (p : CompatibilityProfile) : string := str_casefold (pf_profile_id p).

(** How a profile is written in the file. *)
Definition profile_json (p : CompatibilityProfile) : json :=
  JObject [("profile_id", JString (pf_profile_id p)); ("name", JString (pf_name p)); ("description", JString (pf_description p));
    ("service_role", JString (role_value (pf_service_role p))); ("min_breakage_risk", JInt (pf_min_breakage_risk p));
    ("protection", JString (pf_protection p)); ("exact_domains", JArray (JString <$> pf_exact_domains p));
    ("suffix_domains", JArray (JString <$> pf_suffix_domains p)); ("reason", JString (pf_reason p));
    ("source_url", JString (pf_source_url p))]%string.
Definition profiles_json (profiles : list CompatibilityProfile) : json :=
  JObject [("schema_version", JInt 1); ("profiles", JArray (profile_json <$> profiles))]%string.

Lemma role_of_role_value r : ServiceRole_of_value (role_value r) = Some r.
Proof. by destruct r. Qed.

Section ParseFacts.
Context `{PyRepr}.

Lemma domains_spec value d : d ∈ _domains value → d ≠ ""%string ∧ ∃ text, d = _normalize_domain text.
Proof.
  unfold _domains. destruct value as [[]|]; try (intros Hd; by apply not_elem_of_nil in Hd).
  rewrite elem_of_fromkeys, list_elem_of_filter, list_elem_of_fmap. intros [Hne (item & -> & _)]. split; [by intros E; rewrite E in Hne|eauto].
Qed.

Lemma domains_NoDup value : NoDup (_domains value).
Proof. unfold _domains. destruct value as [[]|]; try constructor. apply fromkeys_NoDup. Qed.

Lemma domains_written l : NoDup l → (∀ d, d ∈ l → d ≠ ""%string ∧ _normalize_domain d = d) → _domains (Some (JArray (JString <$> l))) = l.
Proof.
  intros Hn Hl. unfold _domains. rewrite <-list_fmap_compose.
  assert ((λ item, _normalize_domain (py_str_or (Some item) "")) ∘ JString <$> l = l) as ->.
  { rewrite <-(list_fmap_id l) at 2. apply list_fmap_ext. intros i d Hd%list_elem_of_lookup_2. destruct (Hl d Hd) as [Hne Hd']. cbn.
    by destruct d. }
  rewrite filter_all; [by apply fromkeys_id|]. intros d Hd. destruct (Hl d Hd) as [Hne _]. by destruct d.
Qed.

Lemma text_field_strip key d raw : str_strip (text_field key d raw) = text_field key d raw.
Proof. apply str_strip_idemp. Qed.

Lemma parse_profile_ok raw p : _parse_profile raw = Ok p → profile_ok p.
Proof.
  destruct raw as [| | | | | |raw]; try done. unfold _parse_profile, mbind, result_bind, require.
  destruct (str_nonempty (text_field "profile_id" "" raw) && _ && _) eqn:E1; [|done].
  destruct (String.eqb _ "deny_requires_review") eqn:E2; [|done].
  destruct (ServiceRole_of_value _) as [role|] eqn:E3; [|done].
  destruct (negb (bool_decide (role = ROLE_UNKNOWN))) eqn:E4; [|done].
  destruct (_integer _ _) as [risk|] eqn:E5; [|done].
  destruct ((0 <=? risk) && (risk <=? 100)) eqn:E6; [|done].
  destruct (negb (bool_decide (_ ∧ _))) eqn:E7; [|done]. intros [= <-].
  apply andb_true_iff in E1 as [[Ha Hb]%andb_true_iff Hc]. apply String.eqb_eq in E2. apply negb_true_iff, bool_decide_eq_false in E4, E7.
  apply andb_true_iff in E6 as [?%Z.leb_le ?%Z.leb_le].
  assert (∀ s, str_nonempty s = true → s ≠ ""%string) as Hne by (by intros [|]).
  constructor; cbn [pf_profile_id pf_name pf_description pf_reason pf_source_url pf_protection pf_service_role pf_min_breakage_risk pf_exact_domains pf_suffix_domains]; try done.
  - intros t Ht. repeat (apply elem_of_cons in Ht as [->|Ht]; [apply text_field_strip|]). by apply not_elem_of_nil in Ht.
  - intros t Ht. repeat (apply elem_of_cons in Ht as [->|Ht]; [by apply Hne|]). by apply not_elem_of_nil in Ht.
  - intros d [Hd|Hd]%elem_of_app; by eapply domains_spec.
  - apply domains_NoDup.
  - apply domains_NoDup.
  - intros [? ?]%app_eq_nil. by apply E7.
Qed.

Lemma parse_profiles_ok raws : ∀ seen ps, parse_profiles seen raws = Ok ps →
  length ps = length raws ∧ Forall profile_ok ps ∧ NoDup (profile_key <$> ps) ∧ ∀ p, p ∈ ps → profile_key p ∉ seen.
Proof.
  induction raws as [|raw raws IH]; intros seen ps; cbn [parse_profiles].
  { intros [= <-]. split_and!; [done|constructor|constructor|set_solver]. }
  unfold mbind, result_bind. destruct (_parse_profile raw) as [p|] eqn:Ep; [|done]. unfold require.
  case_bool_decide as Hs; [done|]. cbn [negb]. destruct (parse_profiles _ raws) as [qs|] eqn:Eq; [|done]. intros [= <-].
  apply IH in Eq as (Hlen & Hok & Hn & Hseen). apply parse_profile_ok in Ep. cbn [length]. rewrite fmap_cons. split_and!.
  - by rewrite Hlen.
  - by constructor.
  - constructor; [|done]. intros (q & Hk & Hq)%list_elem_of_fmap. apply (Hseen q Hq). rewrite <-Hk. by left.
  - intros q [->|Hq]%elem_of_cons; [done|]. intros Hin. apply (Hseen q Hq). by right.
Qed.

Lemma parse_profile_written p : profile_ok p → (∀ d, d ∈ pf_exact_domains p ++ pf_suffix_domains p → _normalize_domain d = d) →
  _parse_profile (profile_json p) = Ok p.
Proof.
  intros Hp Hd. destruct Hp as [Ht Hr Hpr Hro Hri Hdo Hex Hsu Hso]. destruct p as [pid name description role risk protection exact suffix reason url].
  cbn [pf_profile_id pf_name pf_description pf_reason pf_source_url pf_protection pf_service_role pf_min_breakage_risk pf_exact_domains pf_suffix_domains] in *.
  unfold _parse_profile, profile_json.
  cbn [pf_profile_id pf_name pf_description pf_reason pf_source_url pf_protection pf_service_role pf_min_breakage_risk pf_exact_domains pf_suffix_domains].
  set (raw := [_; _; _; _; _; _; _; _; _; _]).
  assert (∀ key t, t ∈ [pid; name; description; reason; url] → dict_get key raw = Some (JString t) → text_field key "" raw = t) as Htext.
  { intros key t Hin Hk. unfold text_field. rewrite Hk. rewrite <-(Ht t Hin) at 2. cbn. by destruct t. }
  rewrite (Htext "profile_id"%string pid), (Htext "name"%string name), (Htext "reason"%string reason), (Htext "description"%string description),
    (Htext "source_url"%string url) by (first [reflexivity|repeat constructor]).
  assert (text_field "protection" "deny_requires_review" raw = protection) as -> by (rewrite Hpr; unfold text_field, raw; rewrite Hpr; reflexivity).
  assert (∀ t, t ∈ [pid; name; reason] → str_nonempty t = true) as Hne by (intros t Hin; specialize (Hr t Hin); by destruct t).
  rewrite !Hne by (repeat constructor). cbn [andb]. rewrite Hpr.
  assert (dict_get "service_role" raw = Some (JString (role_value role))) as -> by reflexivity.
  assert (dict_get "min_breakage_risk" raw = Some (JInt risk)) as -> by reflexivity.
  assert (dict_get "exact_domains" raw = Some (JArray (JString <$> exact))) as -> by reflexivity.
  assert (dict_get "suffix_domains" raw = Some (JArray (JString <$> suffix))) as -> by reflexivity.
  assert (py_str_or (Some (JString (role_value role))) "core" = role_value role) as -> by (by destruct role).
  rewrite role_of_role_value. cbn [default from_option id _integer py_int_of]. unfold require, mbind, result_bind. rewrite String.eqb_refl.
  rewrite bool_decide_eq_false_2 by done. cbn [negb].
  rewrite (proj2 (Z.leb_le 0 risk)), (proj2 (Z.leb_le risk 100)) by lia. cbn [andb].
  assert (∀ l, l = exact ∨ l = suffix → ∀ d, d ∈ l → d ≠ ""%string ∧ _normalize_domain d = d) as Hl.
  { intros l Hl d Hin. assert (d ∈ exact ++ suffix) as Hin' by (apply elem_of_app; destruct Hl as [->| ->]; auto).
    split; [by apply Hdo|by apply Hd]. }
  rewrite (domains_written exact), (domains_written suffix) by (try done; apply Hl; auto). rewrite bool_decide_eq_false_2; [done|]. intros [-> ->]. done.
Qed.

Lemma parse_profiles_written ps : Forall profile_ok ps → NoDup (profile_key <$> ps) →
  (∀ p d, p ∈ ps → d ∈ pf_exact_domains p ++ pf_suffix_domains p → _normalize_domain d = d) →
  ∀ seen, (∀ p, p ∈ ps → profile_key p ∉ seen) → parse_profiles seen (profile_json <$> ps) = Ok ps.
Proof.
  induction 1 as [|p ps Hp _ IH]; intros Hn Hd seen Hs; [done|]. rewrite fmap_cons in *. apply NoDup_cons in Hn as [Hk Hn].
  cbn [parse_profiles]. unfold mbind, result_bind. rewrite parse_profile_written; [|done|by intros d; apply Hd; left].
  unfold require. rewrite bool_decide_eq_false_2 by (apply Hs; by left). cbn [negb]. rewrite IH; [done|done|by intros q d ?; apply Hd; right|].
  intros q Hq [E|Hin]%elem_of_cons; [|by eapply Hs; [by right|]]. apply Hk, list_elem_of_fmap. exists q. by split.
Qed.
End ParseFacts.

(** What a file of profiles gives is well formed: at least one profile,
    identifiers distinct up to case, required texts present and stripped, a
    role, a breakage risk within 0 and 100, and at least one domain, each one
    normalized and no list naming one twice; and reading is complete: such
    profiles, written with their domains in normal form, are read back as they
    are. *)
Theorem profiles_are_well_formed `{PyRepr} :
  (∀ payload ps, profiles_of_payload payload = Ok ps → ps ≠ [] ∧ Forall profile_ok ps ∧ NoDup (profile_key <$> ps)) ∧
  (∀ ps, ps ≠ [] → Forall profile_ok ps → NoDup (profile_key <$> ps) →
     (∀ p d, p ∈ ps → d ∈ pf_exact_domains p ++ pf_suffix_domains p → _normalize_domain d = d) →
     profiles_of_payload (profiles_json ps) = Ok ps).
Proof.
  split.
  - intros payload ps. destruct payload as [| | | | | |fields]; try done. unfold profiles_of_payload, mbind, result_bind.
    destruct (_integer _ _); [|done]. unfold require. destruct (_ =? 1); [|done].
    destruct (dict_get "profiles" fields) as [[| | | | |[|raw raws]|]|]; try done.
    intros (Hlen & Hok & Hn & _)%parse_profiles_ok. split_and!; [by destruct ps|done|done].
  - intros ps Hne Hok Hn Hd. destruct ps as [|p ps]; [done|]. unfold profiles_of_payload, profiles_json. cbn -[parse_profiles profile_json].
    change (parse_profiles [] (profile_json <$> p :: ps) = Ok (p :: ps)). apply parse_profiles_written; [done|done|done|]. set_solver.
Qed.

#[local] Instance ex_repr : PyRepr := {| py_repr_of _ := "..."%string |}.

Definition ex_profile : CompatibilityProfile :=
  mkProfile "x" "X login" "" ROLE_CORE 80 "deny_requires_review" [] ["example.com"] "Sign-in." "".
Example ex_profile_read :
  load_compatibility_profiles (quoted "{'schema_version': 1, 'profiles': [{'profile_id': ' x ', 'name': 'X login', 'reason': 'Sign-in.', 'suffix_domains': ['Example.com.', null]}]}")
    = Ok [ex_profile] ∧
  load_compatibility_profiles (quoted "{'schema_version': Infinity}") = Err ProfileOverflow ∧
  rf_title <$> compatibility_finding [ex_profile] 1000 "Login.Example.com" = Some "Protected service: X login"%string.
Proof. vm_compute. done. Qed.

Lemma ex_profile_ok : profile_ok ex_profile.
Proof.
  split; [apply Forall_forall; repeat constructor|apply Forall_forall; repeat constructor; done|done|done|cbn; lia| |apply NoDup_nil_2|apply NoDup_singleton|done].
  intros d ->%list_elem_of_singleton. split; [done|]. by exists "Example.com."%string.
Qed.

Lemma profiles_are_well_formed_witness : profiles_of_payload (profiles_json [ex_profile]) = Ok [ex_profile].
Proof.
  apply (proj2 profiles_are_well_formed); [done|apply Forall_singleton, ex_profile_ok|apply NoDup_singleton|].
  intros p d ->%list_elem_of_singleton ->%list_elem_of_singleton. done.
Defined.
