(* ===== verification/Graph.v ===== *)
(** [pihole_manager/service_graph.py]: the services, domains and dependencies
    around a domain, from its classification, the profiles of protected services
    and the relationships that research findings name.

    The two tables a graph keys by identifier are lists in insertion order:
    replacing the value of a key keeps its place. *)
From stdpp Require Import base gmap strings list pretty.
From Stdlib Require Import Ascii QArith Lqa Sorted.
From S2P Require Import Prelude HttpRetry Json Net Models Database ReviewDb Behavior Evidence Profiles.
Open Scope Z_scope.

(** * Nodes and edges *)

Record ServiceGraphNode := mkNode {
  gn_node_id : string;
  gn_node_type : string;
  gn_label : string;
  gn_service_role : string;
  gn_metadata : fields
}.

Record ServiceGraphEdge := mkEdge {
  ge_source : string;
  ge_target : string;
  ge_relation : string;
  ge_confidence : Q;
  ge_provenance : string;
  ge_evidence_provider : string;
  ge_evidence_url : string;
  ge_metadata : fields
}.

Record ServiceDependencyGraph := mkGraph {
  sg_root_domain : string;
  sg_nodes : list ServiceGraphNode;
  sg_edges : list ServiceGraphEdge;
  sg_peer_domains_truncated : bool
}.

Definition _domain_node_id (domain : string) : string := "domain:" +:+ _normalize_domain domain.
Definition _service_node_id (service : string) : string := "service:" +:+ str_join " " (str_words (str_casefold (str_strip service))).

Definition role_rank (role : string) : Z :=
  if String.eqb role "core" then 3 else if String.eqb role "shared" then 2 else if String.eqb role "optional" then 1 else 0.

Fixpoint _put_node (nodes : list ServiceGraphNode) (node : ServiceGraphNode) : list ServiceGraphNode :=
  match nodes with
  | [] => [node]
  | existing :: nodes =>
      if String.eqb (gn_node_id existing) (gn_node_id node)
      then (if role_rank (gn_service_role existing) <? role_rank (gn_service_role node) then node else existing) :: nodes
      else existing :: _put_node nodes node
  end.

Definition edge_key (e : ServiceGraphEdge) : string * string * string * string :=
  (ge_source e, ge_target e, ge_relation e, ge_provenance e).

Fixpoint _put_edge (edges : list ServiceGraphEdge) (edge : ServiceGraphEdge) : list ServiceGraphEdge :=
  match edges with
  | [] => [edge]
  | existing :: edges =>
      if bool_decide (edge_key existing = edge_key edge)
      then (if qltb (ge_confidence existing) (ge_confidence edge) then edge else existing) :: edges
      else existing :: _put_edge edges edge
  end.

(** * Reading the tables *)

(** The latest primary run of a domain. *)
Definition run_confidence (domain : string) (d : db) : Q :=
  match sort_by history_leb (filter (λ r, rr_domain r = domain ∧ rr_is_primary r = true) (classification_runs d)) with
  | r :: _ => rr_confidence r
  | [] => 0
  end.

(** A row of the two queries: domain, service, role and confidence. *)
Record service_record := ServiceRecord { se_domain : string; se_service : string; se_service_role : string; se_confidence : Q }.

Definition record_of (d : db) (domain : string) (r : domain_row) : service_record :=
  ServiceRecord domain (dr_current_service r) (dr_current_service_role r) (run_confidence domain d).

Definition _current_service_record (domain : string) (d : db) : option service_record := record_of d domain <$> domains d !! domain.

(** [ORDER BY d.domain] *)
Definition domain_leb (a b : service_record) : bool := str_leb (se_domain a) (se_domain b).

Definition service_rows (service : string) (d : db) : list service_record :=
  sort_by domain_leb
    (filter (λ r, str_lower (se_service r) = str_lower service) ((λ p, record_of d p.1 p.2) <$> map_to_list (domains d))).

Definition _service_peers (service : string) (max_peer_domains : Z) (d : db) : list service_record * bool :=
  let safe_limit := Z.max 0 (Z.min 250 max_peer_domains) in
  if safe_limit =? 0 then ([], false)
  else
    let rows := take (Z.to_nat (safe_limit + 1)) (service_rows service d) in
    (take (Z.to_nat safe_limit) rows, safe_limit <? Z.of_nat (length rows)).

(** * Relationships a finding names *)

Record relationship := Relationship { re_target_type : string; re_target : string; re_relation : string }.

(** A node to put, then an edge. *)
Abbreviation step := (ServiceGraphNode * ServiceGraphEdge)%type.

Section Relationships.
Context `{PyRepr}.

Definition alphanumeric (c : Ascii.ascii) : bool := is_alpha c || is_digit c.

Definition _normalize_relation (value : option json) : string :=
  let relation := str_replace " " "_" (str_replace "-" "_" (str_lower (str_strip (py_str_or value "")))) in
  if negb (str_nonempty relation) || (64 <? char_length relation) then ""%string
  else
    let letters := without_underscores relation in
    if negb (str_nonempty letters && str_forallb alphanumeric letters) then ""%string else relation.

Definition relationship_of (candidate : json) : option relationship :=
  match candidate with
  | JObject fields =>
      let target_type := str_lower (str_strip (py_str_or (dict_get "target_type" fields) "")) in
      let target := str_strip (py_str_or (dict_get "target" fields) "") in
      let relation := _normalize_relation (dict_get "relation" fields) in
      if negb (bool_decide (target_type ∈ ["domain"; "service"]%string)) || negb (str_nonempty target) || negb (str_nonempty relation)
      then None else Some (Relationship target_type target relation)
  | _ => None
  end.

Definition _relationships_from_finding (raw_data : fields) : list relationship :=
  let candidates :=
    match dict_get "service_relationships" raw_data with
    | Some (JObject fields) => [JObject fields]
    | Some (JArray candidates) => candidates
    | _ => match dict_get "service_relationship" raw_data with Some (JObject fields) => [JObject fields] | _ => [] end
    end in
  omap relationship_of candidates.

(** * The graph *)

(** [_put_node] followed by [_put_edge]. *)
Definition put (g : list ServiceGraphNode * list ServiceGraphEdge) (s : step) : list ServiceGraphNode * list ServiceGraphEdge :=
  (_put_node g.1 s.1, _put_edge g.2 s.2).

Definition plain_edge (source target relation : string) (confidence : Q) (provenance : string) : ServiceGraphEdge :=
  mkEdge source target relation confidence provenance "" "" [].

Definition root_node (root_id normalized : string) : ServiceGraphNode := mkNode root_id "domain" normalized "unknown" [("root", JBool true)]%string.

(** The current service and its domains. *)
Definition membership_step (root_id : string) (current : service_record) : step :=
  let service := se_service current in
  (mkNode (_service_node_id service) "service" service (str_or (se_service_role current) "unknown") [],
   plain_edge root_id (_service_node_id service) "member_of" (_clamp (se_confidence current)) "classification").
Definition peer_step (service : string) (peer : service_record) : step :=
  let peer_id := _domain_node_id (se_domain peer) in
  (mkNode peer_id "domain" (se_domain peer) (str_or (se_service_role peer) "unknown") [],
   plain_edge peer_id (_service_node_id service) "member_of" (_clamp (se_confidence peer)) "classification").

Definition current_steps (root_id normalized : string) (max_peer_domains : Z) (d : db) : list step * bool :=
  match _current_service_record normalized d with
  | Some current =>
      if str_nonempty (se_service current) then
        let '(peers, truncated) := _service_peers (se_service current) max_peer_domains d in
        (membership_step root_id current :: (peer_step (se_service current) <$> peers), truncated)
      else ([], false)
  | None => ([], false)
  end.

Definition compatibility_steps (root_id normalized : string) (profiles : list CompatibilityProfile) : list step :=
  match compatibility_match_for_domain profiles normalized with
  | None => []
  | Some compatibility =>
      let profile := cm_profile compatibility in
      let service_id := _service_node_id (pf_name profile) in
      [(mkNode service_id "service" (pf_name profile) (role_value (pf_service_role profile))
          [("compatibility_profile_id", JString (pf_profile_id profile))],
        mkEdge root_id service_id "requires" 1 "compatibility_profile" "Wormhole compatibility profiles" (pf_source_url profile)
          [("profile_id", JString (pf_profile_id profile)); ("matched_pattern", JString (cm_matched_pattern compatibility));
           ("match_type", JString (cm_match_type compatibility))])]%string
  end.

(** The node a relationship points to. *)
Definition target_node (r : relationship) : option ServiceGraphNode :=
  if String.eqb (re_target_type r) "domain" then
    let target_label := _normalize_domain (re_target r) in
    if negb (str_nonempty target_label) then None
    else Some (mkNode (_domain_node_id target_label) "domain" target_label "unknown" [])
  else
    let target_label := str_strip (re_target r) in
    if negb (str_nonempty target_label) then None
    else Some (mkNode (_service_node_id target_label) "service" target_label "unknown" []).

Definition evidence_step (root_id : string) (f : ResearchFinding) (r : relationship) : option step :=
  match target_node r with
  | None => None
  | Some node =>
      Some (node, mkEdge root_id (gn_node_id node) (re_relation r) (_clamp (rf_confidence f)) "evidence" (rf_provider f) (rf_source_url f)
              [("finding_kind", JString (rf_kind f))]%string)
  end.
Definition evidence_steps (root_id : string) (findings : list ResearchFinding) : list step :=
  findings ≫= λ f, omap (evidence_step root_id f) (_relationships_from_finding (rf_raw_data f)).

(** A stored row as the mapping the code reads. *)
Definition mapping_of_row (r : finding_row) : ResearchFinding :=
  mkFinding (fr_domain r) (fr_provider r) (fr_kind r) (fr_title r) (fr_summary r) (fr_source_url r) (fr_confidence r) (fr_signal_type r)
    (fr_verdict r) (fr_decision_relevant r) (fr_retrieved_at r) (fr_expires_at r) (fr_raw_data r).

Definition node_leb (root_id : string) (a b : ServiceGraphNode) : bool :=
  let first n := if String.eqb (gn_node_id n) root_id then 0 else 1 in
  let second n := if String.eqb (gn_node_type n) "service" then 0 else 1 in
  (first a <? first b) || (first a =? first b) && ((second a <? second b) || (second a =? second b) &&
    str_leb (str_casefold (gn_label a)) (str_casefold (gn_label b))).

Definition str_then (a b : string) (rest : bool) : bool := str_ltb a b || String.eqb a b && rest.
Definition edge_leb (a b : ServiceGraphEdge) : bool :=
  str_then (str_casefold (ge_source a)) (str_casefold (ge_source b))
    (str_then (ge_relation a) (ge_relation b)
      (str_then (str_casefold (ge_target a)) (str_casefold (ge_target b)) (str_leb (ge_provenance a) (ge_provenance b)))).

Definition service_dependency_graph (profiles : list CompatibilityProfile) (domain : string) (findings : option (list ResearchFinding))
    (max_peer_domains : Z) (s : evidence_db) : result exn ServiceDependencyGraph :=
  let normalized := _normalize_domain domain in
  if negb (str_nonempty normalized) then Err (ValueError "domain must not be empty")
  else
    let root_id := _domain_node_id normalized in
    let '(current, truncated) := current_steps root_id normalized max_peer_domains (ev_db s) in
    let selected_findings := default (mapping_of_row <$> stored_research_findings normalized 500 s) findings in
    let steps := current ++ compatibility_steps root_id normalized profiles ++ evidence_steps root_id selected_findings in
    let '(nodes, edges) := foldl put (_put_node [] (root_node root_id normalized), []) steps in
    Ok (mkGraph normalized (sort_by (node_leb root_id) nodes) (sort_by edge_leb edges) truncated).

(** [ServiceDependencyGraph.prompt_context] *)
Definition dependency_json (nodes : list ServiceGraphNode) (e : ServiceGraphEdge) : json :=
  let node_by_id := dict_of ((λ n, (gn_node_id n, n)) <$> nodes) in
  let target := dict_get (ge_target e) node_by_id in
  JObject [("target_type", JString (from_option gn_node_type "" target)); ("target", JString (from_option gn_label (ge_target e) target));
    ("relation", JString (ge_relation e)); ("confidence", JFloat (Fin (round3 (ge_confidence e)))); ("provenance", JString (ge_provenance e));
    ("provider", JString (ge_evidence_provider e)); ("source_url", JString (ge_evidence_url e))]%string.

Definition prompt_context (max_related_domains : Z) (g : ServiceDependencyGraph) : json :=
  let root_id := _domain_node_id (sg_root_domain g) in
  let services := filter (λ n, gn_node_type n = "service"%string) (sg_nodes g) in
  let dependencies := filter (λ e, ge_source e = root_id ∧ ge_relation e ≠ "member_of"%string) (sg_edges g) in
  let related_domain_nodes := filter (λ n, gn_node_type n = "domain"%string ∧ gn_node_id n ≠ root_id) (sg_nodes g) in
  let related_domains := take (Z.to_nat (Z.max 0 max_related_domains)) related_domain_nodes in
  JObject [("services", JArray ((λ n, JObject [("name", JString (gn_label n)); ("role", JString (gn_service_role n))]) <$> services));
    ("dependencies", JArray (dependency_json (sg_nodes g) <$> dependencies));
    ("related_domains", JArray ((λ n, JString (gn_label n)) <$> related_domains));
    ("related_domains_truncated", JBool (sg_peer_domains_truncated g || (length related_domains <? length related_domain_nodes)%nat))]%string.
End Relationships.

(** * Tables keyed by identifier *)

Lemma put_node_ids nodes n x : x ∈ gn_node_id <$> _put_node nodes n ↔ x = gn_node_id n ∨ x ∈ gn_node_id <$> nodes.
Proof.
  induction nodes as [|m nodes IH]; cbn [_put_node]; [set_solver|]. destruct (String.eqb_spec (gn_node_id m) (gn_node_id n)) as [E|E].
  - rewrite !fmap_cons, !elem_of_cons. destruct (_ <? _); rewrite ?E; tauto.
  - rewrite !fmap_cons, !elem_of_cons, IH. tauto.
Qed.

Lemma put_node_NoDup nodes n : NoDup (gn_node_id <$> nodes) → NoDup (gn_node_id <$> _put_node nodes n).
Proof.
  induction nodes as [|m nodes IH]; cbn [_put_node]; [repeat constructor; set_solver|].
  rewrite fmap_cons. intros [Hm Hn]%NoDup_cons. destruct (String.eqb_spec (gn_node_id m) (gn_node_id n)) as [E|E]; rewrite fmap_cons.
  - constructor; [|done]. destruct (_ <? _); by rewrite <-?E.
  - constructor; [|by apply IH]. rewrite put_node_ids. intros [?|?]; congruence.
Qed.

Lemma put_node_from nodes n m : m ∈ _put_node nodes n → m = n ∨ m ∈ nodes.
Proof.
  induction nodes as [|k nodes IH]; cbn [_put_node]; [set_solver|]. destruct (String.eqb _ _); [destruct (_ <? _)|]; rewrite !elem_of_cons; naive_solver.
Qed.

(** A table has an entry for the identifier with at least this role. *)
Definition ranked (nodes : list ServiceGraphNode) (n : ServiceGraphNode) : Prop :=
  ∃ m, m ∈ nodes ∧ gn_node_id m = gn_node_id n ∧ role_rank (gn_service_role n) ≤ role_rank (gn_service_role m).

Lemma put_node_ranked nodes n m : m = n ∨ ranked nodes m → ranked (_put_node nodes n) m.
Proof.
  induction nodes as [|k nodes IH]; cbn [_put_node].
  { intros [->|(? & []%not_elem_of_nil & _)]. exists n. split_and!; [by left|done|lia]. }
  destruct (String.eqb_spec (gn_node_id k) (gn_node_id n)) as [E|E].
  - intros [->|(x & [->|Hx]%elem_of_cons & Hid & Hr)].
    + destruct (Z.ltb_spec (role_rank (gn_service_role k)) (role_rank (gn_service_role n))); eexists; (split_and!; [by left|done|lia]).
    + destruct (Z.ltb_spec (role_rank (gn_service_role k)) (role_rank (gn_service_role n))); eexists; (split_and!; [by left|congruence|lia]).
    + exists x. split_and!; [by right|done|done].
  - intros [->|(x & [->|Hx]%elem_of_cons & Hid & Hr)].
    + destruct IH as (x & Hx & ? & ?); [by left|]. exists x. split_and!; [by right|done|done].
    + exists k. split_and!; [by left|done|done].
    + destruct IH as (y & Hy & ? & ?); [right; by exists x|]. exists y. split_and!; [by right|done|done].
Qed.

Lemma put_edge_keys edges e k : k ∈ edge_key <$> _put_edge edges e ↔ k = edge_key e ∨ k ∈ edge_key <$> edges.
Proof.
  induction edges as [|x edges IH]; cbn [_put_edge]; [set_solver|]. case_bool_decide as E.
  - rewrite !fmap_cons, !elem_of_cons. destruct (qltb _ _); rewrite ?E; tauto.
  - rewrite !fmap_cons, !elem_of_cons, IH. tauto.
Qed.

Lemma put_edge_NoDup edges e : NoDup (edge_key <$> edges) → NoDup (edge_key <$> _put_edge edges e).
Proof.
  induction edges as [|x edges IH]; cbn [_put_edge]; [repeat constructor; set_solver|].
  rewrite fmap_cons. intros [Hx Hn]%NoDup_cons. case_bool_decide as E; rewrite fmap_cons.
  - constructor; [|done]. destruct (qltb _ _); by rewrite <-?E.
  - constructor; [|by apply IH]. rewrite put_edge_keys. intros [?|?]; congruence.
Qed.

Lemma put_edge_from edges e x : x ∈ _put_edge edges e → x = e ∨ x ∈ edges.
Proof.
  induction edges as [|y edges IH]; cbn [_put_edge]; [set_solver|]. case_bool_decide; [destruct (qltb _ _)|]; rewrite !elem_of_cons; naive_solver.
Qed.

(** A table has an entry for the key with at least this confidence. *)
Definition supported (edges : list ServiceGraphEdge) (e : ServiceGraphEdge) : Prop :=
  ∃ x, x ∈ edges ∧ edge_key x = edge_key e ∧ (ge_confidence e <= ge_confidence x)%Q.

Lemma put_edge_supported edges e x : x = e ∨ supported edges x → supported (_put_edge edges e) x.
Proof.
  induction edges as [|k edges IH]; cbn [_put_edge].
  { intros [->|(? & []%not_elem_of_nil & _)]. exists e. split_and!; [by left|done|lra]. }
  case_bool_decide as E.
  - intros [->|(y & [->|Hy]%elem_of_cons & Hid & Hr)].
    + destruct (qltb (ge_confidence k) (ge_confidence e)) eqn:Eq; eexists; (split_and!; [by left|done|bool_cmp; lra]).
    + destruct (qltb (ge_confidence k) (ge_confidence e)) eqn:Eq; eexists; (split_and!; [by left|congruence|bool_cmp; lra]).
    + exists y. split_and!; [by right|done|done].
  - intros [->|(y & [->|Hy]%elem_of_cons & Hid & Hr)].
    + destruct IH as (y & Hy & ? & ?); [by left|]. exists y. split_and!; [by right|done|done].
    + exists k. split_and!; [by left|done|done].
    + destruct IH as (z & Hz & ? & ?); [right; by exists y|]. exists z. split_and!; [by right|done|done].
Qed.

(** What all the steps together leave. *)
Lemma put_all steps : ∀ g g', foldl put g steps = g' →
  (NoDup (gn_node_id <$> g.1) → NoDup (gn_node_id <$> g'.1)) ∧ (NoDup (edge_key <$> g.2) → NoDup (edge_key <$> g'.2)) ∧
  (∀ x, x ∈ gn_node_id <$> g'.1 ↔ x ∈ gn_node_id <$> g.1 ∨ x ∈ gn_node_id <$> steps.*1) ∧
  (∀ n, n ∈ g'.1 → n ∈ g.1 ∨ n ∈ steps.*1) ∧ (∀ e, e ∈ g'.2 → e ∈ g.2 ∨ e ∈ steps.*2) ∧
  (∀ n, n ∈ steps.*1 ∨ ranked g.1 n → ranked g'.1 n) ∧ (∀ e, e ∈ steps.*2 ∨ supported g.2 e → supported g'.2 e).
Proof.
  induction steps as [|s steps IH]; intros g g'; cbn [foldl].
  { intros <-. cbn [fmap list_fmap]. split_and!; try done; set_solver. }
  intros Hg. destruct (IH _ _ Hg) as (H1 & H2 & H3 & H4 & H5 & H6 & H7). unfold put in *. cbn [fst snd] in *. rewrite !fmap_cons. split_and!.
  - intros Hn. by apply H1, put_node_NoDup.
  - intros Hn. by apply H2, put_edge_NoDup.
  - intros x. rewrite H3, put_node_ids, elem_of_cons. tauto.
  - intros n [[->|Hn]%put_node_from|Hn]%H4; rewrite elem_of_cons; auto.
  - intros e [[->|He]%put_edge_from|He]%H5; rewrite elem_of_cons; auto.
  - intros n. rewrite elem_of_cons. intros Hn. apply H6. destruct Hn as [[->|Hn]|Hn]; [right; apply put_node_ranked; auto|by left|right; apply put_node_ranked; auto].
  - intros e. rewrite elem_of_cons. intros He. apply H7. destruct He as [[->|He]|He]; [right; apply put_edge_supported; auto|by left|right; apply put_edge_supported; auto].
Qed.

(** * The orders of the report *)

Section Orders.
Context (root_id : string).

Definition node_order : ServiceGraphNode → ServiceGraphNode → bool :=
  lex (λ a b, (if String.eqb (gn_node_id a) root_id then 0 else 1) <=? (if String.eqb (gn_node_id b) root_id then 0 else 1))
    (lex (λ a b, (if String.eqb (gn_node_type a) "service" then 0 else 1) <=? (if String.eqb (gn_node_type b) "service" then 0 else 1))
      (λ a b, str_leb (str_casefold (gn_label a)) (str_casefold (gn_label b)))).

Lemma node_leb_lex a b : node_leb root_id a b = node_order a b.
Proof. unfold node_leb. by rewrite !lex_Z. Qed.

Lemma node_leb_total a b : node_leb root_id a b = true ∨ node_leb root_id b a = true.
Proof.
  rewrite !node_leb_lex. revert a b. repeat apply lex_total; intros a b; try apply str_leb_total; rewrite !Z.leb_le; lia.
Qed.
Lemma node_leb_trans a b c : node_leb root_id a b = true → node_leb root_id b c = true → node_leb root_id a c = true.
Proof.
  rewrite !node_leb_lex. revert a b c. repeat apply lex_trans; intros a b c; try apply str_leb_trans; rewrite !Z.leb_le; lia.
Qed.

(** Only the root comes before what is not after the root. *)
Lemma node_leb_root a b : node_leb root_id a b = true → gn_node_id b = root_id → gn_node_id a = root_id.
Proof.
  rewrite node_leb_lex. unfold node_order, lex. intros [H _]%andb_true_iff Hb. rewrite Hb, String.eqb_refl in H.
  by destruct (String.eqb_spec (gn_node_id a) root_id).
Qed.

Lemma edge_leb_total a b : edge_leb a b = true ∨ edge_leb b a = true.
Proof.
  unfold edge_leb, str_then. rewrite !lex_str.
  apply (lex_total (λ a b, str_leb (str_casefold (ge_source a)) (str_casefold (ge_source b)))
    (lex (λ a b, str_leb (ge_relation a) (ge_relation b))
      (lex (λ a b, str_leb (str_casefold (ge_target a)) (str_casefold (ge_target b)))
        (λ a b, str_leb (ge_provenance a) (ge_provenance b))))); repeat apply lex_total; intros; apply str_leb_total.
Qed.
Lemma edge_leb_trans a b c : edge_leb a b = true → edge_leb b c = true → edge_leb a c = true.
Proof.
  unfold edge_leb, str_then. rewrite !lex_str.
  apply (lex_trans (λ a b, str_leb (str_casefold (ge_source a)) (str_casefold (ge_source b)))
    (lex (λ a b, str_leb (ge_relation a) (ge_relation b))
      (lex (λ a b, str_leb (str_casefold (ge_target a)) (str_casefold (ge_target b)))
        (λ a b, str_leb (ge_provenance a) (ge_provenance b))))); repeat apply lex_trans; intros ? ? ?; apply str_leb_trans.
Qed.
End Orders.

(** * The steps *)

Section Steps.
Context `{PyRepr}.
Context (root_id : string).

Lemma elem_of_service_rows service d r :
  r ∈ service_rows service d ↔ str_lower (se_service r) = str_lower service ∧ ∃ row, domains d !! se_domain r = Some row ∧ r = record_of d (se_domain r) row.
Proof.
  unfold service_rows. rewrite sort_by_Permutation, list_elem_of_filter, list_elem_of_fmap. split.
  - intros [Hs ([domain row] & -> & Hp%elem_of_map_to_list)]. split; [done|]. by exists row.
  - intros [Hs (row & Hrow & Hr)]. split; [done|]. exists (se_domain r, row). split; [exact Hr|]. by apply elem_of_map_to_list.
Qed.

Lemma elem_of_peers service maxp d r : r ∈ (_service_peers service maxp d).1 → r ∈ service_rows service d.
Proof.
  unfold _service_peers. destruct (_ =? 0); cbn [fst]; [intros Hr; by apply not_elem_of_nil in Hr|].
  intros (i & Hi & _)%elem_of_take. apply list_elem_of_lookup_2 in Hi. apply elem_of_take in Hi as (j & Hj & _). by apply list_elem_of_lookup_2 in Hj.
Qed.

(** Nothing is left out unless the list is cut. *)
Lemma all_peers service maxp d r : 0 < maxp → (_service_peers service maxp d).2 = false → r ∈ service_rows service d → r ∈ (_service_peers service maxp d).1.
Proof.
  unfold _service_peers. set (limit := Z.max 0 (Z.min 250 maxp)). intros Hm. assert (0 < limit) by lia.
  rewrite (proj2 (Z.eqb_neq limit 0)) by lia. cbn [fst snd]. rewrite length_take. intros Hl%Z.ltb_ge Hr.
  rewrite take_take, Nat.min_l by lia. by rewrite take_ge by lia.
Qed.

Definition selected (findings : option (list ResearchFinding)) (normalized : string) (s : evidence_db) : list ResearchFinding :=
  default (mapping_of_row <$> stored_research_findings normalized 500 s) findings.

(** The edge that a relationship of a finding gives. *)
Definition evidence_edge (e : ServiceGraphEdge) (f : ResearchFinding) (r : relationship) (n : ServiceGraphNode) : Prop :=
  r ∈ _relationships_from_finding (rf_raw_data f) ∧ target_node r = Some n ∧ evidence_step root_id f r = Some (n, e).

Lemma elem_of_evidence_steps findings n e : (n, e) ∈ evidence_steps root_id findings ↔ ∃ f r, f ∈ findings ∧ evidence_edge e f r n.
Proof.
  unfold evidence_steps, evidence_edge. rewrite list_elem_of_bind. split.
  - intros (f & (r & Hr & Hs)%list_elem_of_omap & Hf). exists f, r. split; [done|]. split; [done|]. split; [|done].
    unfold evidence_step in Hs. destruct (target_node r); [|done]. by injection Hs as -> _.
  - intros (f & r & Hf & Hr & _ & Hs). exists f. split; [|done]. apply list_elem_of_omap. eauto.
Qed.

Definition has_service (d : db) (normalized : string) (current : service_record) : Prop :=
  _current_service_record normalized d = Some current ∧ se_service current ≠ ""%string.

Lemma current_steps_cases normalized maxp d :
  (∀ current, ¬ has_service d normalized current) ∧ current_steps root_id normalized maxp d = ([], false) ∨
  ∃ current, has_service d normalized current ∧ let peers := _service_peers (se_service current) maxp d in
    current_steps root_id normalized maxp d = (membership_step root_id current :: (peer_step (se_service current) <$> peers.1), peers.2).
Proof.
  unfold current_steps, has_service. destruct (_current_service_record normalized d) as [current|]; [|left; naive_solver].
  destruct (se_service current) as [|c t] eqn:Es; [left; split; [|done]; intros ? [[= <-] ?]; congruence|].
  right. exists current. split; [by rewrite Es|]. rewrite Es. cbn [str_nonempty]. by destruct (_service_peers _ maxp d).
Qed.

(** Where an edge of a step ends. *)
Definition step_ok (ids : list string) (s : step) : Prop :=
  (ge_source s.2 ∈ ids ∧ ge_target s.2 ∈ ids) ∧ (0 <= ge_confidence s.2 <= 1)%Q.

Lemma steps_ok profiles normalized maxp d findings :
  let steps := (current_steps root_id normalized maxp d).1 ++ compatibility_steps root_id normalized profiles ++ evidence_steps root_id findings in
  ∀ s, s ∈ steps → step_ok (root_id :: (gn_node_id <$> steps.*1)) s.
Proof.
  intros steps s Hs. assert (∀ t, t ∈ steps → gn_node_id t.1 ∈ root_id :: (gn_node_id <$> steps.*1)) as Hid.
  { intros t Ht. right. rewrite <-list_fmap_compose. by apply (list_elem_of_fmap_2 (gn_node_id ∘ fst)). }
  assert (root_id ∈ root_id :: (gn_node_id <$> steps.*1)) as Hroot by (by left).
  assert (∀ n, n ∈ steps.*1 → gn_node_id n ∈ root_id :: (gn_node_id <$> steps.*1)) as Hnode by (intros n Hn; right; by apply list_elem_of_fmap_2).
  pose proof (Hid s Hs) as Hself. pose proof Hs as Hin. unfold steps in Hin. rewrite !elem_of_app in Hin. destruct Hin as [Hc|[Hc|Hc]].
  - destruct (current_steps_cases normalized maxp d) as [[_ E]|(current & _ & E)]; rewrite E in Hc; cbn [fst] in Hc; [by apply not_elem_of_nil in Hc|].
    assert (membership_step root_id current ∈ steps) as Hm by (unfold steps; rewrite E; apply elem_of_app; left; by left).
    apply elem_of_cons in Hc as [->|(peer & -> & _)%list_elem_of_fmap]; (split; [|apply clamp_unit]); split; try done. exact (Hid _ Hm).
  - unfold compatibility_steps in Hc. destruct (compatibility_match_for_domain _ _) as [m|]; [|by apply not_elem_of_nil in Hc].
    apply list_elem_of_singleton in Hc as ->. split; [by split|]. cbn. lra.
  - destruct s as [n e]. apply elem_of_evidence_steps in Hc as (f & r & _ & _ & Hn & He). unfold evidence_step in He. rewrite Hn in He. injection He as <-.
    split; [by split|]. apply clamp_unit.
Qed.
(** What an edge stands for, by its provenance. *)
Lemma step_cases profiles normalized maxp d findings n e :
  (n, e) ∈ (current_steps root_id normalized maxp d).1 ++ compatibility_steps root_id normalized profiles ++ evidence_steps root_id findings →
  (ge_provenance e = "classification"%string ∧ ∃ current, has_service d normalized current ∧
     (e = (membership_step root_id current).2 ∨ ∃ member, member ∈ service_rows (se_service current) d ∧ e = (peer_step (se_service current) member).2)) ∨
  ge_provenance e = "compatibility_profile"%string ∨
  (ge_provenance e = "evidence"%string ∧ ∃ f r, f ∈ findings ∧ evidence_edge e f r n).
Proof.
  rewrite !elem_of_app. intros [Hc|[Hc|Hc]].
  - left. destruct (current_steps_cases normalized maxp d) as [[_ E]|(current & Hs & E)]; rewrite E in Hc; cbn [fst] in Hc; [by apply not_elem_of_nil in Hc|].
    apply elem_of_cons in Hc as [[= -> ->]|(peer & Hp & Hin)%list_elem_of_fmap]; (split; [|exists current; split; [done|]]).
    + done.
    + by left.
    + by injection Hp as -> ->.
    + right. exists peer. split; [by eapply elem_of_peers|]. by injection Hp as -> ->.
  - right. left. unfold compatibility_steps in Hc. destruct (compatibility_match_for_domain _ _) as [m|]; [|by apply not_elem_of_nil in Hc].
    apply list_elem_of_singleton in Hc. by injection Hc as -> ->.
  - right. right. apply elem_of_evidence_steps in Hc as (f & r & Hf & Hr). split; [|by exists f, r].
    destruct Hr as (_ & Hn & He). unfold evidence_step in He. rewrite Hn in He. by injection He as <-.
Qed.
End Steps.

Lemma service_graph_answers `{PyRepr} profiles domain findings max_peer_domains s :
  match service_dependency_graph profiles domain findings max_peer_domains s with Ok _ => True | Err _ => _normalize_domain domain = ""%string end.
Proof.
  unfold service_dependency_graph. destruct (_normalize_domain domain); [done|]. cbn [str_nonempty negb].
  destruct (current_steps _ _ _ _) as [current truncated]. by destruct (foldl _ _ _).
Qed.

(** Every graph is well formed: its nodes have distinct identifiers and its
    edges distinct keys, every edge joins two nodes and has a confidence within
    0 and 1, the domain asked for is the first node and no other is the root,
    nodes and edges are in the order the report promises; only an empty name
    gives no graph. *)
Theorem service_graph_is_well_formed `{PyRepr} profiles domain findings max_peer_domains s :
  match service_dependency_graph profiles domain findings max_peer_domains s with
  | Ok g =>
      let root_id := _domain_node_id (sg_root_domain g) in
      sg_root_domain g = _normalize_domain domain ∧ NoDup (gn_node_id <$> sg_nodes g) ∧ NoDup (edge_key <$> sg_edges g) ∧
      (∀ e, e ∈ sg_edges g → (ge_source e ∈ gn_node_id <$> sg_nodes g) ∧ (ge_target e ∈ gn_node_id <$> sg_nodes g) ∧ (0 <= ge_confidence e <= 1)%Q) ∧
      (∃ root rest, sg_nodes g = root :: rest ∧ gn_node_id root = root_id ∧ ∀ n, n ∈ rest → gn_node_id n ≠ root_id) ∧
      StronglySorted (λ a b, node_leb root_id a b = true) (sg_nodes g) ∧ StronglySorted (λ a b, edge_leb a b = true) (sg_edges g)
  | Err _ => _normalize_domain domain = ""%string
  end.
Proof.
  unfold service_dependency_graph. set (normalized := _normalize_domain domain). set (root_id := _domain_node_id normalized).
  destruct (str_nonempty normalized) eqn:En; [|by destruct normalized]. cbn [negb].
  pose proof (steps_ok root_id profiles normalized max_peer_domains (ev_db s) (selected findings normalized s)) as Hok.
  destruct (current_steps root_id normalized max_peer_domains (ev_db s)) as [current truncated]. cbn [fst] in Hok.
  set (steps := current ++ _) in Hok. unfold selected in steps. fold steps. destruct (foldl put _ steps) as [nodes edges] eqn:Ef.
  destruct (put_all steps _ _ Ef) as (H1 & H2 & H3 & _ & H5 & _ & _). cbn [fst snd] in *. cbn [sg_root_domain sg_nodes sg_edges].
  fold root_id. assert (NoDup (gn_node_id <$> sort_by (node_leb root_id) nodes)) as Hnd by (rewrite sort_by_Permutation; apply H1; repeat constructor; set_solver).
  assert (StronglySorted (λ a b, node_leb root_id a b = true) (sort_by (node_leb root_id) nodes)) as Hsorted
    by (apply sort_by_sorted; [apply node_leb_total|apply node_leb_trans]).
  assert (∀ x, x ∈ gn_node_id <$> sort_by (node_leb root_id) nodes ↔ x ∈ root_id :: (gn_node_id <$> steps.*1)) as Hids.
  { intros x. rewrite sort_by_Permutation, H3, elem_of_cons. cbn. set_solver. }
  split_and!; [done|exact Hnd| | | |exact Hsorted|].
  - rewrite sort_by_Permutation. apply H2. constructor.
  - intros e He. rewrite sort_by_Permutation in He. rewrite !Hids. destruct (H5 e He) as [[]%not_elem_of_nil|Hs].
    apply list_elem_of_fmap in Hs as (t & -> & Ht). destruct (Hok t Ht) as [[? ?] ?]. done.
  - assert (root_id ∈ gn_node_id <$> sort_by (node_leb root_id) nodes) as Hroot by (apply Hids; by left).
    destruct (sort_by (node_leb root_id) nodes) as [|n rest]; [by apply not_elem_of_nil in Hroot|].
    assert (gn_node_id n = root_id) as Hn.
    { rewrite fmap_cons, elem_of_cons in Hroot. destruct Hroot as [?|(m & Hm & Hin)%list_elem_of_fmap]; [done|].
      apply StronglySorted_inv in Hsorted as [_ Hall]. eapply Forall_forall in Hall; [|exact Hin]. by eapply node_leb_root. }
    exists n, rest. split_and!; [done|done|]. intros m Hm Hid. rewrite fmap_cons in Hnd. apply NoDup_cons in Hnd as [Hni _].
    apply Hni. rewrite Hn, <-Hid. by apply list_elem_of_fmap_2.
  - apply sort_by_sorted; [apply edge_leb_total|apply edge_leb_trans].
Qed.

(** C28: The edges say what the program knows and nothing else: an evidence edge
    leaves the domain and is, with its confidence and source, the relationship
    of one of the findings, and every relationship with a target has an edge at
    least as confident; a classification edge is the membership of the domain,
    or of a domain whose stored service is the same up to case, and when a
    positive number of peers is allowed and the graph does not say it was cut,
    every such domain has its edge (with none allowed the graph leaves them all
    out without saying so). *)
Theorem service_graph_is_exact `{PyRepr} profiles domain findings max_peer_domains s :
  let normalized := _normalize_domain domain in
  let root_id := _domain_node_id normalized in
  match service_dependency_graph profiles domain findings max_peer_domains s with
  | Ok g =>
      (∀ e, e ∈ sg_edges g → ge_provenance e = "evidence"%string → ∃ f r n, f ∈ selected findings normalized s ∧ evidence_edge root_id e f r n) ∧
      (∀ f r n, f ∈ selected findings normalized s → r ∈ _relationships_from_finding (rf_raw_data f) → target_node r = Some n →
         supported (sg_edges g) (plain_edge root_id (gn_node_id n) (re_relation r) (_clamp (rf_confidence f)) "evidence") ∧ ranked (sg_nodes g) n) ∧
      (∀ e, e ∈ sg_edges g → ge_provenance e = "classification"%string → ∃ current, has_service (ev_db s) normalized current ∧
         (e = (membership_step root_id current).2 ∨
          ∃ member, member ∈ service_rows (se_service current) (ev_db s) ∧ e = (peer_step (se_service current) member).2)) ∧
      (∀ current member, has_service (ev_db s) normalized current → member ∈ service_rows (se_service current) (ev_db s) → 0 < max_peer_domains →
         sg_peer_domains_truncated g = false →
         supported (sg_edges g) (peer_step (se_service current) member).2 ∧ ranked (sg_nodes g) (peer_step (se_service current) member).1)
  | Err _ => normalized = ""%string
  end.
Proof.
  intros normalized root_id. unfold service_dependency_graph. fold normalized root_id.
  destruct (str_nonempty normalized) eqn:En; [|by destruct normalized]. cbn [negb].
  destruct (current_steps root_id normalized max_peer_domains (ev_db s)) as [current truncated] eqn:Ec.
  fold (selected findings normalized s). set (steps := current ++ _). destruct (foldl put _ steps) as [nodes edges] eqn:Ef.
  destruct (put_all steps _ _ Ef) as (_ & _ & _ & _ & H5 & H6 & H7). cbn [fst snd] in *. cbn [sg_nodes sg_edges sg_peer_domains_truncated].
  assert (∀ e, e ∈ sort_by edge_leb edges → e ∈ steps.*2) as Hfrom.
  { intros e He. rewrite sort_by_Permutation in He. by destruct (H5 e He) as [[]%not_elem_of_nil|?]. }
  assert (∀ n e, (n, e) ∈ steps → supported (sort_by edge_leb edges) e ∧ ranked (sort_by (node_leb root_id) nodes) n) as Hput.
  { intros n e He. split.
    - destruct (H7 e) as (x & Hx & ?); [left; by apply (list_elem_of_fmap_2 snd _ (n, e))|]. exists x. by rewrite sort_by_Permutation.
    - destruct (H6 n) as (x & Hx & ?); [left; by apply (list_elem_of_fmap_2 fst _ (n, e))|]. exists x. by rewrite sort_by_Permutation. }
  pose proof (current_steps_cases root_id normalized max_peer_domains (ev_db s)) as Hcases. rewrite Ec in Hcases.
  assert (current = (current_steps root_id normalized max_peer_domains (ev_db s)).1) as Ecur by (by rewrite Ec).
  assert (∀ n e, (n, e) ∈ steps → _) as Hkind by (intros n e Hs; unfold steps in Hs; rewrite Ecur in Hs; exact (step_cases _ _ _ _ _ _ _ _ Hs)).
  split_and!.
  - intros e He%Hfrom Hp. apply list_elem_of_fmap in He as ([n x] & -> & He). cbn [snd] in *.
    apply Hkind in He as [[? _]|[?|(_ & f & r & Hf & Hs)]]; [congruence|congruence|]. by exists f, r, n.
  - intros f r n Hf Hr Hn.
    destruct (Hput n (mkEdge root_id (gn_node_id n) (re_relation r) (_clamp (rf_confidence f)) "evidence" (rf_provider f) (rf_source_url f)
              [("finding_kind", JString (rf_kind f))]%string)) as [Hs Hn']; [|split; [exact Hs|exact Hn']].
    unfold steps. rewrite !elem_of_app. right. right. apply elem_of_evidence_steps. exists f, r. split; [done|]. split_and!; [done|done|].
    unfold evidence_step. by rewrite Hn.
  - intros e He%Hfrom Hp. apply list_elem_of_fmap in He as ([n x] & -> & He). cbn [snd] in *.
    apply Hkind in He as [[_ Hc]|[?|[? _]]]; [exact Hc|congruence|congruence].
  - intros cur member [Hcur Hne] Hm Hmax Ht. destruct Hcases as [[Hno _]|(cur' & [Hcur' _] & [= Hsteps Htr])]; [by destruct (Hno cur)|].
    assert (cur' = cur) as -> by congruence. apply Hput. unfold steps. rewrite elem_of_app. left. rewrite Hsteps. right.
    rewrite <-surjective_pairing. apply list_elem_of_fmap_2, all_peers; [done|congruence|done].
Qed.

(** * Examples *)

#[local] Instance ex_repr : PyRepr := {| py_repr_of _ := "..."%string |}.

Definition ex_member (domain : string) (d : db) : db :=
  (save_classification_run 100
     (mkClassification domain ALLOW "ads" "s" "d" "p" [] "Shop" ROLE_CORE 0 0 0 (9 # 10) false "" 30 "") (ex_run_args "" "" true) d).2.
Definition ex_graph_db : evidence_db := EvidenceDb (ex_member "cdn.shop.example" (ex_member "shop.example" db_empty)) [] 0.

(** The domain is one of the domains of its service, so its node is put twice,
    and the second time, with a role, without the mark of the root. *)
Example the_root_loses_its_mark :
  match service_dependency_graph [] "shop.example" None 25 ex_graph_db with
  | Ok g => (λ n, (gn_node_id n, gn_service_role n, gn_metadata n)) <$> sg_nodes g =
              [("domain:shop.example", "core", []); ("service:shop", "core", []); ("domain:cdn.shop.example", "core", [])]%string
  | Err _ => False
  end.
Proof. vm_compute. done. Qed.

(** With no peers allowed the graph has none, and does not say it was cut. *)
Example without_peers_nothing_is_cut :
  match service_dependency_graph [] "shop.example" None 0 ex_graph_db with
  | Ok g => (ge_target <$> sg_edges g, sg_peer_domains_truncated g) = (["service:shop"], false)%string
  | Err _ => False
  end.
Proof. vm_compute. done. Qed.

Definition ex_related : ResearchFinding :=
  mkFinding "shop.example" "Service list" "service_catalog" "Shop" "" "https://shop.example/services" (7 # 10) "function" "related" false 100 0
    [("service_relationships", JArray [JObject [("target_type", JString "Domain"); ("target", JString "Pay.Example."); ("relation", JString "depends-on")];
                                       JObject [("target_type", JString "host"); ("target", JString "x"); ("relation", JString "uses")]])]%string.
Example ex_dependencies :
  match service_dependency_graph [] "other.example" (Some [ex_related]) 25 ex_graph_db with
  | Ok g => (λ e, (ge_source e, ge_relation e, ge_target e)) <$> sg_edges g = [("domain:other.example", "depends_on", "domain:pay.example")]%string ∧
      prompt_context 8 g = JObject [("services", JArray []);
        ("dependencies", JArray [JObject [("target_type", JString "domain"); ("target", JString "pay.example"); ("relation", JString "depends_on");
           ("confidence", JFloat (Fin (700 # 1000))); ("provenance", JString "evidence"); ("provider", JString "Service list");
           ("source_url", JString "https://shop.example/services")]]);
        ("related_domains", JArray [JString "pay.example"]); ("related_domains_truncated", JBool false)]%string
  | Err _ => False
  end.
Proof. vm_compute. done. Qed.
