(* ===== verification/Sources.v ===== *)
(** [pihole_manager/research_common.py]: what the evidence sources share - their
    definitions, the pace of the requests to one source, the cache of downloads
    and the removal of API keys from everything that is kept or shown.

    The requests and the clocks go through the class [SourceNet]. A metadata
    file of the cache is the dict it holds ([JsonText] shows that the text gives
    it back), [None] when it is missing or unreadable. One lookup runs at a time,
    so the locks are left out. *)
From stdpp Require Import base gmap strings list pretty.
From Stdlib Require Import Ascii QArith Lqa.
From S2P Require Import Prelude HttpRetry Json Net Models Options Provider Database Behavior Evidence.
Open Scope Z_scope.

(** * Definitions of the sources *)

Record SourceDefinition := mkSource {
  sd_kind : string;
  sd_display_name : string;
  sd_mode : string;
  sd_sends_domain : bool;
  sd_requires_api_key : bool;
  sd_description : string;
  sd_license_note : string;
  sd_experimental : bool
}.

Definition source_definitions : list SourceDefinition :=
  [mkSource "adguard_services" "AdGuard service catalog" "catalog" false false
     "Downloads a complete service-to-domain catalog and performs lookups locally."
     "GPL-3.0 dataset; downloaded at runtime and not bundled." false;
   mkSource "dns_records" "Local DNS records" "local" false false
     "Queries the configured DNS resolver for A, AAAA, CNAME, NS, MX, HTTPS, and SVCB."
     "" false;
   mkSource "disconnect_tracking" "Disconnect tracker catalog" "catalog" false false
     "Downloads the complete Disconnect tracker catalog and performs lookups locally."
     "CC BY-NC-SA 4.0; enable only when the intended use complies with the license." false;
   mkSource "rdap" "RDAP registration data" "lookup" true false
     "Retrieves registrar, registration events, status, and authoritative nameservers."
     "" false;
   mkSource "ripestat" "RIPEstat network information" "lookup" false false
     "Resolves the domain locally and sends only resulting public IP addresses to RIPEstat."
     "" false;
   mkSource "netcraft" "Netcraft Site Report" "lookup" true false
     "Parses selected structured fields from the public Site Report when robots.txt permits it."
     "Public HTML under Netcraft fair-use terms; layout may change and access may be blocked." true;
   mkSource "virustotal" "VirusTotal domain report" "lookup" true true
     "Retrieves reputation, scanner verdict counts, and vendor categories."
     "" false;
   mkSource "threatfox" "ThreatFox IOC lookup" "lookup" true true
     "Performs an exact IOC lookup for active malware infrastructure."
     "" false;
   mkSource "phishtank" "PhishTank verified phishing database" "catalog" false true
     "Downloads the verified online phishing database and performs hostname lookups locally."
     "" false;
   mkSource "urlscan" "urlscan.io archived scans" "lookup" true false
     "Searches existing archived scans; it never submits a new active scan."
     "" false;
   mkSource "cloudflare_radar" "Cloudflare Radar domain ranking" "lookup" true true
     "Retrieves popularity bucket, rank, and Cloudflare domain categories."
     "" false;
   mkSource "repository_lists" "Curated repository blocklists" "catalog" false false
     "Downloads selected upstream DNS-safe lists and performs lookups locally."
     "Per-source licences are reviewed and recorded in evidence provenance." false;
   mkSource "urlhaus" "URLhaus host lookup" "lookup" true true
     "Queries the authenticated URLhaus host endpoint for malware-distribution URLs."
     "Community API is subject to abuse.ch fair-use terms." false;
   mkSource "crtsh" "crt.sh certificate transparency" "lookup" true false
     "Queries public certificate-transparency search results for identity history."
     "Context-only evidence; certificate presence is never treated as a malicious verdict." false;
   mkSource "google_safe_browsing" "Google Safe Browsing v5" "lookup" true true
     "Checks HTTP and HTTPS domain URLs against Google Safe Browsing v5 threat search."
     "Non-commercial API; keep opt-in and use an appropriate commercial service when needed." false]%string.

Definition _SOURCE_DEFINITIONS : list (string * SourceDefinition) := dict_of ((λ d, (sd_kind d, d)) <$> source_definitions).

Definition source_definition (kind : string) : option SourceDefinition := dict_get (folded kind) _SOURCE_DEFINITIONS.

(** ** Names and findings *)

(** [".".join(labels[index:])] for every suffix of at least two labels. *)
Fixpoint label_suffixes (labels : list string) : list string :=
  match labels with
  | [] | [_] => []
  | _ :: rest => str_join "." labels :: label_suffixes rest
  end.

Definition domain_candidates (domain : string) : list string :=
  let normalized := _normalize_domain domain in
  let labels := str_split "." normalized in
  if (length labels <? 2)%nat then (if str_nonempty normalized then [normalized] else [])
  else label_suffixes labels.

Definition negative_finding (now : Z) (domain : string) (provider : ResearchProviderOptions) (summary : string) : ResearchFinding :=
  mkFinding (_normalize_domain domain) (sr_name provider) "lookup_status" "No matching evidence" summary "" 0 "status" "no_match" false
    now (now + sr_refresh_interval_hours provider * 3600) [("include_in_prompt", JBool false)]%string.

(** * API keys *)

(** [urllib.parse.quote(s, safe="")] and [quote_plus] on the bytes of a text. *)
Definition unreserved (c : Ascii.ascii) : bool :=
  is_alpha c || is_digit c || bool_decide (c ∈ ["_"; "."; "-"; "~"]%char).
Definition upper_hex (n : N) : Ascii.ascii := if (n <? 10)%N then Ascii.ascii_of_N (48 + n) else Ascii.ascii_of_N (55 + n).
Fixpoint quote_with (space : string) (s : string) : string :=
  match s with
  | EmptyString => EmptyString
  | String c s =>
      (if unreserved c then String c EmptyString
       else if Ascii.eqb c " " then space
       else let n := Ascii.N_of_ascii c in String "%" (String (upper_hex (n / 16)) (String (upper_hex (n mod 16)) EmptyString)))
      +:+ quote_with space s
  end.
Definition url_quote : string → string := quote_with "%20".
Definition quote_plus : string → string := quote_with "+".

(** [sorted(variants, key=len, reverse=True)] *)
Definition longer_leb (a b : string) : bool := char_length b <=? char_length a.
Definition secret_variants (secret : string) : list string :=
  sort_by longer_leb (fromkeys [secret; url_quote secret; quote_plus secret]).

Definition hide (text variant : string) : string := str_replace_all variant "***" 0 text.

(** The order of variants of one length, which a Python set leaves open, is the
    order above. *)
Definition _redact_secret_text (value api_key : string) : string :=
  let secret := str_strip api_key in
  if negb (str_nonempty secret) then value
  else foldl (λ redacted variant, if str_nonempty variant then hide redacted variant else redacted) value (secret_variants secret).

Fixpoint _redact_metadata (value : json) (api_key : string) : json :=
  match value with
  | JObject fields => JObject ((λ p, (p.1, _redact_metadata p.2 api_key)) <$> fields)
  | JArray items => JArray ((λ item, _redact_metadata item api_key) <$> items)
  | JString s => JString (_redact_secret_text s api_key)
  | _ => value
  end.
Definition redact_fields (metadata : fields) (api_key : string) : fields := (λ p, (p.1, _redact_metadata p.2 api_key)) <$> metadata.

Definition redact_provider_text (value : string) (provider : ResearchProviderOptions) : string :=
  _redact_secret_text value (sr_api_key provider).

(** * Pace and cache *)

Record rate_state := mkRate { ra_next_request_at : py_float; ra_adaptive_interval : py_float }.
Definition rate_default : rate_state := mkRate (Fin 0) (Fin 0).

(** An entry of the cache directory: the payload and the metadata file. *)
Record cache_entry := mkEntry { en_payload : option string; en_metadata : option fields }.
Definition entry_default : cache_entry := mkEntry None None.

(** What the lookups raise: [SourceHTTP] is [HTTPError] with the status of its
    response, [SourceOther] any other exception of [requests], [SourceError]
    the rest ([ResearchError] and what the code of a source raises). *)
Inductive source_exn :=
  | SourceCancelled
  | SourceHTTP (response : option (Z * list (string * string))) (text : string)
  | SourceConnection (text : string)
  | SourceTimeout (text : string)
  | SourceOther (text : string)
  | SourceError (text : string).

(** A response: status, headers, content and the text of [raise_for_status]. *)
Record download := mkDownload {
  dl_status : Z;
  dl_headers : list (string * string);
  dl_content : string;
  dl_error : string
}.

Class SourceNet (env : Type) := {
  http_get : string → list (string * string) → py_float → env → result source_exn download * env;
  source_wall : env → Q * env;
  source_monotonic : env → Q * env;
  source_sleep : py_float → env → env
}.

Record sstate (env : Type) := SState {
  ss_env : env;
  ss_rates : gmap string rate_state;
  ss_cache : gmap string cache_entry
}.
Arguments SState {env}.
Arguments ss_env {env}.
Arguments ss_rates {env}.
Arguments ss_cache {env}.

Definition source_key (provider : ResearchProviderOptions) : string := folded (sr_kind provider) +:+ ":" +:+ folded (sr_name provider).

Definition resolve_url_template (url api_key : string) : result source_exn string :=
  let value := str_strip url in
  if str_contains "{api_key}" value then
    if negb (str_nonempty (str_strip api_key)) then Err (SourceError "This evidence source requires an API key")
    else Ok (str_replace_all "{api_key}" (str_strip api_key) 0 value)
  else Ok value.

(** [sanitize_provider_exception] *)
Definition sanitized (provider : ResearchProviderOptions) (e : source_exn) : source_exn :=
  match e with
  | SourceCancelled => SourceCancelled
  | SourceHTTP response text => SourceHTTP response (redact_provider_text text provider)
  | SourceConnection text => SourceConnection (redact_provider_text text provider)
  | SourceTimeout text => SourceTimeout (redact_provider_text text provider)
  | SourceOther text => SourceOther (redact_provider_text text provider)
  | SourceError text => SourceError text
  end.

Section Lookups.
Context {env : Type} `{SourceNet env} `{PyRepr}.
(** SHA-256, and the number and date parsers of the header module. *)
Context (sha256 : string → string) (header_float date_timestamp : string → option Q).

Abbreviation sprog := (prog (sstate env) source_exn).

Definition sask {A} (f : env → A * env) : sprog A := λ s, let r := f (ss_env s) in (Ok r.1, SState r.2 (ss_rates s) (ss_cache s)).
Definition sleep (delay : py_float) : sprog unit := sask (λ e, (tt, source_sleep delay e)).
Definition set_source_rate (key : string) (r : rate_state) : sprog unit := λ s, (Ok tt, SState (ss_env s) (<[key := r]> (ss_rates s)) (ss_cache s)).
Definition set_cache (f : gmap string cache_entry → gmap string cache_entry) : sprog unit := λ s, (Ok tt, SState (ss_env s) (ss_rates s) (f (ss_cache s))).
Definition source_rate (key : string) (s : sstate env) : rate_state := default rate_default (ss_rates s !! key).
Definition cached_entry (cache_id : string) (s : sstate env) : cache_entry := default entry_default (ss_cache s !! cache_id).
Definition slift {A} (r : result source_exn A) : sprog A := λ s, (r, s).

Definition min_interval (provider : ResearchProviderOptions) : py_float := float_max (Fin 0) (sr_min_interval_sec provider).

(** The loop ends after one sleep, when nobody else uses the source. *)
Fixpoint wait_for_provider (fuel : nat) (provider : ResearchProviderOptions) : sprog unit :=
  match fuel with
  | O => prog_raise (SourceError "still waiting for the source")
  | S fuel =>
      let key := source_key provider in
      state ← prog_read (source_rate key);
      now ← sask source_monotonic;
      let delay := float_max (Fin 0) (float_add (ra_next_request_at state) (Fin (- now))) in
      if float_leb delay (Fin 0) then
        let interval := float_max (min_interval provider) (ra_adaptive_interval state) in
        set_source_rate key (mkRate (float_add (Fin now) interval) (ra_adaptive_interval state))
      else
        _ ← set_source_rate key state;
        _ ← sleep delay;
        wait_for_provider fuel provider
  end.

(** [min(300.0, max(1.0, 2.0 ** attempt))]; the power overflows from 1024 on. *)
Definition attempt_delay (attempt : Z) : result source_exn Q :=
  if 1024 <=? attempt then Err (SourceError "OverflowError") else Ok (qmin 300 (qmax 1 (zq (2 ^ attempt)))).

Definition register_provider_failure (provider : ResearchProviderOptions) (attempt : Z) (headers : list (string * string)) : sprog Q :=
  delay ← match headers with
          | [] => slift (attempt_delay attempt)
          | _ =>
              wall ← sask source_wall;
              match retry_delay_from_headers header_float date_timestamp headers 300 wall with
              | Some delay => mret delay
              | None => slift (attempt_delay attempt)
              end
          end;
  let key := source_key provider in
  state ← prog_read (source_rate key);
  let base := min_interval provider in
  let adaptive := if float_nonzero (ra_adaptive_interval state) then float_scale 2 (ra_adaptive_interval state) else float_max (Fin 1) base in
  let adaptive_interval := float_min (Fin 60) (float_max base adaptive) in
  now ← sask source_monotonic;
  let next_request_at := float_max (ra_next_request_at state) (float_add (Fin now) (float_max (Fin delay) adaptive_interval)) in
  _ ← set_source_rate key (mkRate next_request_at adaptive_interval);
  mret delay.

Definition register_provider_success (provider : ResearchProviderOptions) : sprog unit :=
  let key := source_key provider in
  state ← prog_read (source_rate key);
  set_source_rate key (mkRate (ra_next_request_at state) (float_max (min_interval provider) (float_scale (1 # 2) (ra_adaptive_interval state)))).

(** ** The cache *)

Definition _USER_AGENT : string := "Pi-Hole-Manager/0.3.6 (+https://github.com/HyperCriSiS/Pi-Hole-Manager; structured evidence lookup)".
Definition request_headers (extra : list (string * string)) : list (string * string) :=
  foldl (λ h p, dict_set p.1 p.2 h) [("User-Agent", _USER_AGENT); ("Accept", "application/json")]%string extra.

Definition scrub_entry (api_key : string) (e : cache_entry) : cache_entry :=
  mkEntry (en_payload e) ((λ metadata, redact_fields metadata api_key) <$> en_metadata e).

(** [_scrub_cached_metadata_secret]: writing what was not changed changes nothing. *)
Definition _scrub_cached_metadata_secret (api_key : string) : sprog unit :=
  if negb (str_nonempty (str_strip api_key)) then mret tt else set_cache (fmap (scrub_entry api_key)).

Definition float_neg (a : py_float) : py_float := match a with Fin q => Fin (- q) | Inf negative => Inf (negb negative) | NaN => NaN end.

(** [time.time() - metadata.get("fetched_at", 0)]; a value that is no number
    raises [TypeError]. *)
Definition age_of (now : Q) (fetched_at : json) : result source_exn py_float :=
  match fetched_at with
  | JBool _ | JInt _ | JFloat _ =>
      match py_float_of fetched_at with
      | Ok f => Ok (float_add (Fin now) (float_neg f))
      | Err _ => Err (SourceError "OverflowError")
      end
  | _ => Err (SourceError "TypeError")
  end.

Definition header_text (name : string) (headers : list (string * string)) : string :=
  default ""%string (snd <$> head (filter (λ p, str_lower p.1 = str_lower name) headers)).

Definition conditional_headers (accept : string) (metadata : fields) : list (string * string) :=
  let headers := request_headers [("Accept", accept)]%string in
  let headers := match dict_get "etag" metadata with
                 | Some v => if py_truthy v then dict_set "If-None-Match" (py_str v) headers else headers
                 | None => headers
                 end in
  match dict_get "last_modified" metadata with
  | Some v => if py_truthy v then dict_set "If-Modified-Since" (py_str v) headers else headers
  | None => headers
  end.

Definition fresh_metadata (cache_identity_url : string) (now : Q) (response : download) : fields :=
  [("url", JString cache_identity_url); ("fetched_at", JFloat (Fin now)); ("etag", JString (header_text "ETag" (dl_headers response)));
   ("last_modified", JString (header_text "Last-Modified" (dl_headers response)));
   ("content_type", JString (header_text "Content-Type" (dl_headers response)))]%string.

Definition cache_id_of (provider : ResearchProviderOptions) (url : string) : string :=
  sha256 (sr_kind provider +:+ nul +:+ redact_provider_text url provider).

(** What follows the response. *)
Definition store_response (provider : ResearchProviderOptions) (cache_id cache_identity_url : string) (metadata : fields) (payload : option string)
    (response : download) : sprog string :=
  match payload with
  | Some stored =>
      if dl_status response =? 304 then
        now ← sask source_wall;
        _ ← set_cache (<[cache_id := mkEntry payload (Some (dict_set "fetched_at" (JFloat (Fin now)) metadata))]>);
        mret stored
      else if (400 <=? dl_status response) && (dl_status response <? 600) then
        prog_raise (sanitized provider (SourceHTTP (Some (dl_status response, dl_headers response)) (dl_error response)))
      else
        now ← sask source_wall;
        _ ← set_cache (<[cache_id := mkEntry (Some (dl_content response)) (Some (fresh_metadata cache_identity_url now response))]>);
        mret (dl_content response)
  | None =>
      if (400 <=? dl_status response) && (dl_status response <? 600) then
        prog_raise (sanitized provider (SourceHTTP (Some (dl_status response, dl_headers response)) (dl_error response)))
      else
        now ← sask source_wall;
        _ ← set_cache (<[cache_id := mkEntry (Some (dl_content response)) (Some (fresh_metadata cache_identity_url now response))]>);
        mret (dl_content response)
  end.

(** The request, when the stored payload is too old. *)
Definition refresh (provider : ResearchProviderOptions) (resolved_url accept cache_id cache_identity_url : string) (metadata : fields)
    (payload : option string) : sprog string :=
  _ ← wait_for_provider 2 provider;
  answer ← sask (http_get resolved_url (conditional_headers accept metadata) (sr_timeout_sec provider));
  match answer with
  | Err e => prog_raise (sanitized provider e)
  | Ok response => store_response provider cache_id cache_identity_url metadata payload response
  end.

(** What the lock of an entry protects: its payload while it is young, a
    request otherwise. *)
Definition cached_or_refreshed (provider : ResearchProviderOptions) (url accept resolved_url : string) : sprog string :=
  let cache_id := cache_id_of provider url in
  e ← prog_read (cached_entry cache_id);
  let metadata := redact_fields (default [] (en_metadata e)) (sr_api_key provider) in
  let max_age := sr_refresh_interval_hours provider * 3600 in
  let reload := refresh provider resolved_url accept cache_id (redact_provider_text url provider) metadata (en_payload e) in
  match en_payload e with
  | Some payload =>
      now ← sask source_wall;
      age ← slift (age_of now (default (JInt 0) (dict_get "fetched_at" metadata)));
      if float_ltb age (Fin (zq max_age)) then mret payload else reload
  | None => reload
  end.

Definition fetch_cached_bytes (provider : ResearchProviderOptions) (url accept : string) : sprog string :=
  resolved_url ← slift (resolve_url_template url (sr_api_key provider));
  _ ← _scrub_cached_metadata_secret (sr_api_key provider);
  cached_or_refreshed provider url accept resolved_url.
End Lookups.

(** * Nothing of a key is left *)

Definition star_free (s : string) : bool := str_forallb (λ c, negb (Ascii.eqb c "*"%char)) s.

Lemma replace_skip old new a b : str_replace_all old new (String.length a) (a +:+ b) = str_replace_all old new 0 b.
Proof. induction a as [|c a IH]; [done|]. exact IH. Qed.

Lemma replace_match c old new b :
  str_replace_all (String c old) new 0 (String c old +:+ b) = new +:+ str_replace_all (String c old) new 0 b.
Proof.
  change (String c old +:+ b) with (String c (old +:+ b)). cbn [str_replace_all].
  assert (str_startswith (String c (old +:+ b)) (String c old) = true) as -> by (apply startswith_iff; by exists b).
  replace (String.length (String c old) - 1)%nat with (String.length old) by (cbn [String.length]; lia). by rewrite replace_skip.
Qed.

Lemma replace_other old new c s : str_startswith (String c s) old = false →
  str_replace_all old new 0 (String c s) = String c (str_replace_all old new 0 s).
Proof. intros E. cbn [str_replace_all]. by rewrite E. Qed.

Section Hide.
Context (c0 : Ascii.ascii) (old0 : string).
Let old := String c0 old0.

(** A text is read from the left: a match, or a character that stays. *)
Lemma hide_ind (P : string → string → Prop) :
  P ""%string ""%string →
  (∀ b, P b (hide b old) → P (old +:+ b) ("***" +:+ hide b old)) →
  (∀ c s, str_startswith (String c s) old = false → P s (hide s old) → P (String c s) (String c (hide s old))) →
  ∀ s, P s (hide s old).
Proof.
  intros H0 Hm Hc s. remember (String.length s) as n eqn:En. revert s En.
  induction (lt_wf n) as [n _ IH]. intros s ->. destruct s as [|c s]; [done|]. destruct (str_startswith (String c s) old) eqn:E.
  - apply startswith_iff in E as [b Eb].
    assert (String.length b < String.length (String c s))%nat as Hlen by (rewrite Eb, str_length_app; unfold old; cbn [String.length]; lia).
    rewrite Eb. unfold hide. unfold old at 2 3. rewrite replace_match. fold old. apply Hm.
    by eapply IH.
  - unfold hide. rewrite replace_other by done. apply Hc; [done|]. eapply IH; [|done]. cbn [String.length]. lia.
Qed.

Lemma star_prefix w t : star_free w = true → str_startswith (String "*" t) w = true → w = ""%string.
Proof. destruct w as [|c w]; [done|]. intros [Hc _]%andb_true_iff [b [= <- _]]%startswith_iff. done. Qed.

Lemma prefix_was_there s w : star_free w = true → str_startswith (hide s old) w = true → str_startswith s w = true.
Proof.
  revert w. apply (hide_ind (λ s t, ∀ w, star_free w = true → str_startswith t w = true → str_startswith s w = true)); [done| |].
  - intros b _ w Hw Hp. change ("***" +:+ hide b old) with (String "*" ("**" +:+ hide b old)) in Hp. apply star_prefix in Hp as ->; [|done]. by destruct b.
  - intros c t _ IH [|d w] Hw Hp; [done|]. apply andb_true_iff in Hw as [_ Hw]. apply startswith_iff in Hp as [b [= -> Hb]].
    apply startswith_iff. destruct (proj1 (startswith_iff _ _) (IH w Hw (proj2 (startswith_iff _ _) (ex_intro _ b Hb)))) as [b' ->].
    by exists b'.
Qed.

Lemma after_stars w t : star_free w = true → w ≠ ""%string → str_contains w ("***" +:+ t) = true → str_contains w t = true.
Proof.
  intros Hw Hne. change ("***" +:+ t) with (String "*" (String "*" (String "*" t))). cbn [str_contains].
  intros [?%star_prefix|[?%star_prefix|[?%star_prefix|Ht]%orb_true_iff]%orb_true_iff]%orb_true_iff; done.
Qed.

Lemma was_there s w : star_free w = true → w ≠ ""%string → str_contains w (hide s old) = true → str_contains w s = true.
Proof.
  intros Hw Hne. apply (hide_ind (λ s t, str_contains w t = true → str_contains w s = true)); [done| |].
  - intros b IH Hc%after_stars; [|done|done]. by apply str_contains_app_r, IH.
  - intros c t Hp IH. cbn [str_contains]. rewrite !orb_true_iff. intros [Hs|Hs]; [left|right; by apply IH].
    apply prefix_was_there; [done|]. unfold hide. by rewrite replace_other.
Qed.

Lemma hidden s : star_free old = true → str_contains old (hide s old) = false.
Proof.
  intros Hw. apply (hide_ind (λ _ t, str_contains old t = false)); [done| |].
  - intros b IH. apply not_true_iff_false. intros Hc%after_stars; [congruence|done|done].
  - intros c t Hp IH. cbn [str_contains]. rewrite orb_false_iff. split; [|done]. apply not_true_iff_false. intros Hs.
    assert (str_startswith (String c t) old = true); [|congruence]. apply prefix_was_there; [done|]. unfold hide. by rewrite replace_other.
Qed.
End Hide.

Lemma hide_free text variant w : star_free w = true → w ≠ ""%string → variant ≠ ""%string →
  str_contains w text = false ∨ w = variant → str_contains w (hide text variant) = false.
Proof.
  intros Hw Hne Hv [Ht| ->]; destruct variant as [|c v]; try done; [|by apply hidden]. apply not_true_iff_false. intros Hc.
  apply was_there in Hc; [congruence|done|done].
Qed.

Lemma all_hidden variants w : star_free w = true → w ≠ ""%string → (∀ v, v ∈ variants → v ≠ ""%string) → ∀ text,
  str_contains w text = false ∨ w ∈ variants →
  str_contains w (foldl (λ redacted variant, if str_nonempty variant then hide redacted variant else redacted) text variants) = false.
Proof.
  intros Hw Hne. induction variants as [|v variants IH]; intros Hv text; cbn [foldl]; [intros [?|[]%not_elem_of_nil]; done|].
  assert (v ≠ ""%string) as Hv0 by (apply Hv; by left). assert (str_nonempty v = true) as -> by (by destruct v). intros Hc. apply IH; [intros u Hu; apply Hv; by right|].
  rewrite elem_of_cons in Hc. destruct Hc as [Ht|[->|Hin]]; [left|left|by right]; apply hide_free; auto.
Qed.

Lemma quote_star_free space s : star_free space = true → star_free (quote_with space s) = true.
Proof.
  intros Hs. induction s as [|c s IH]; [done|]. cbn [quote_with]. unfold star_free in *. rewrite str_forallb_app, IH, andb_true_r.
  destruct (unreserved c) eqn:E; [cbn [str_forallb]|destruct (Ascii.eqb c " "); [done|]].
  - rewrite andb_true_r. destruct (Ascii.eqb_spec c "*"); [by subst|done].
  - cbn [str_forallb]. rewrite andb_true_r. clear. destruct c as [[] [] [] [] [] [] [] []]; reflexivity.
Qed.
Lemma quote_nonempty space s : space ≠ ""%string → s ≠ ""%string → quote_with space s ≠ ""%string.
Proof.
  intros Hs Hne. destruct s as [|c s]; [done|]. cbn [quote_with]. destruct (unreserved c); [done|]. destruct (Ascii.eqb c " "); [|done].
  by destruct space.
Qed.

(** The texts of a value. *)
Fixpoint texts_of (v : json) : list string :=
  match v with
  | JString s => [s]
  | JArray items => mjoin (texts_of <$> items)
  | JObject fields => mjoin ((λ p, texts_of p.2) <$> fields)
  | _ => []
  end.

Lemma redacted_texts v api_key s : s ∈ texts_of (_redact_metadata v api_key) → ∃ t, s = _redact_secret_text t api_key.
Proof.
  induction v as [| | | |t|l IH|l IH] using json_induction; cbn [_redact_metadata texts_of]; try (intros Hs; by apply not_elem_of_nil in Hs).
  - intros ->%list_elem_of_singleton. eauto.
  - rewrite list_elem_of_join. intros (ts & Hs & Hts). rewrite <-list_fmap_compose in Hts. apply list_elem_of_fmap in Hts as (x & -> & Hx).
    eapply Forall_forall in IH; [|exact Hx]. by apply IH.
  - rewrite list_elem_of_join. intros (ts & Hs & Hts). rewrite <-list_fmap_compose in Hts. apply list_elem_of_fmap in Hts as (x & -> & Hx).
    eapply Forall_forall in IH; [|exact Hx]. by apply IH.
Qed.

Definition key_forms (secret : string) : list string := [secret; url_quote secret; quote_plus secret].

Lemma key_forms_spec secret variant : secret ≠ ""%string → star_free secret = true → variant ∈ key_forms secret →
  star_free variant = true ∧ variant ≠ ""%string.
Proof.
  intros Hne Hs [->|[->|[->|[]%not_elem_of_nil]%elem_of_cons]%elem_of_cons]%elem_of_cons; [by split| |];
    (split; [by apply quote_star_free|by apply quote_nonempty]).
Qed.

Lemma redacted_forms api_key variant text : str_strip api_key ≠ ""%string → star_free (str_strip api_key) = true →
  variant ∈ key_forms (str_strip api_key) → str_contains variant (_redact_secret_text text api_key) = false.
Proof.
  intros Hne Hs Hvar. destruct (key_forms_spec _ _ Hne Hs Hvar) as [Hfree Hv]. unfold _redact_secret_text.
  assert (str_nonempty (str_strip api_key) = true) as -> by (by destruct (str_strip api_key)). cbn [negb].
  assert (∀ v, v ∈ secret_variants (str_strip api_key) ↔ v ∈ key_forms (str_strip api_key)) as Hin
    by (intros v; unfold secret_variants; by rewrite sort_by_Permutation, elem_of_fromkeys).
  apply all_hidden; [done|done| |right; by apply Hin]. intros v Hv'%Hin. by apply (key_forms_spec (str_strip api_key)).
Qed.

Lemma redacted_free api_key text : str_strip api_key ≠ ""%string → star_free (str_strip api_key) = true →
  str_contains (str_strip api_key) (_redact_secret_text text api_key) = false.
Proof. intros Hne Hs. apply redacted_forms; [done|done|]. by left. Qed.

(** C31: The redaction hides an API key: in a redacted text, and in every text
    value of redacted metadata (the keys of objects are kept), neither the key
    nor its two URL encodings occur, whatever the text, as long as the key is
    not blank and has no asterisk. *)
Theorem api_keys_are_hidden api_key
  (Hkey : str_strip api_key ≠ ""%string) (Hstars : star_free (str_strip api_key) = true) :
  ∀ variant, variant ∈ key_forms (str_strip api_key) →
    (∀ text, str_contains variant (_redact_secret_text text api_key) = false) ∧
    (∀ metadata text, text ∈ texts_of (_redact_metadata metadata api_key) → str_contains variant text = false).
Proof.
  intros variant Hvar. split; [intros text; by apply redacted_forms|].
  intros metadata text Hin. apply redacted_texts in Hin as [t ->]. by apply redacted_forms.
Qed.

(** * The cache serves what it stored last *)

Section CacheFacts.
Context {env : Type} `{SourceNet env} `{PyRepr}.
Context (sha256 : string → string).
Abbreviation sprog := (prog (sstate env) source_exn).

Lemma sask_keeps {A} (f : env → A * env) : prog_keeps ss_cache (sask f : sprog A).
Proof. by intros s. Qed.
Lemma wait_keeps fuel provider : prog_keeps ss_cache (wait_for_provider fuel provider : sprog unit).
Proof.
  induction fuel as [|fuel IH]; [by intros s|]. cbn [wait_for_provider]. apply pkeeps_bind; [apply pkeeps_read|]. intros state.
  apply pkeeps_bind; [apply sask_keeps|]. intros now. destruct (float_leb _ _); [by intros s|].
  apply pkeeps_bind; [by intros s|]. intros _. apply pkeeps_bind; [apply sask_keeps|]. by intros _.
Qed.

(** A run leaves the cache as it was, or, when it returns a content, stores
    exactly that content under the identifier. *)
Definition stores (cache_id : string) (m : sprog string) : Prop := ∀ s,
  match (m s).1 with
  | Ok content => ∃ metadata, ss_cache (m s).2 = <[cache_id := mkEntry (Some content) (Some metadata)]> (ss_cache s)
  | Err _ => ss_cache (m s).2 = ss_cache s
  end.

Lemma store_response_stores provider cache_id url metadata payload response :
  stores cache_id (store_response provider cache_id url metadata payload response).
Proof.
  intros s. unfold store_response. destruct payload as [stored|]; [destruct (_ =? 304); [cbn; by eexists|]|];
    (destruct (_ && _); [done|cbn; by eexists]).
Qed.

Lemma stores_bind {A} cache_id (m : sprog A) (k : A → sprog string) :
  prog_keeps ss_cache m → (∀ a, stores cache_id (k a)) → stores cache_id (m ≫= k).
Proof.
  intros Hm Hk s. unfold mbind, prog_bind. specialize (Hm s). destruct (m s) as [[a|e] s1]; cbn [fst snd] in *; [|done].
  rewrite <-Hm. apply Hk.
Qed.
Lemma stores_raise cache_id e : stores cache_id (prog_raise e).
Proof. by intros s. Qed.

Lemma refresh_stores provider resolved accept cache_id url metadata payload :
  stores cache_id (refresh provider resolved accept cache_id url metadata payload).
Proof.
  unfold refresh. apply stores_bind; [apply wait_keeps|]. intros _. apply stores_bind; [apply sask_keeps|].
  intros [response|e]; [apply store_response_stores|apply stores_raise].
Qed.

(** With the payload that was there, or with a new one. *)
Lemma serve_spec provider url accept resolved (s : sstate env) :
  let id := cache_id_of sha256 provider url in
  let run := cached_or_refreshed sha256 provider url accept resolved s in
  match run.1 with
  | Ok content => (∃ metadata, ss_cache run.2 = <[id := mkEntry (Some content) (Some metadata)]> (ss_cache s)) ∨
      ss_cache run.2 = ss_cache s ∧ en_payload (cached_entry id s) = Some content
  | Err _ => ss_cache run.2 = ss_cache s
  end.
Proof.
  intros id run. unfold run, cached_or_refreshed. clear run. fold id. set (e := cached_entry id s).
  set (reload := λ e, refresh provider resolved accept id (redact_provider_text url provider)
    (redact_fields (default [] (en_metadata e)) (sr_api_key provider)) (en_payload e)).
  assert (∀ e t, ss_cache t = ss_cache s → match (reload e t).1 with
    | Ok content => (∃ metadata, ss_cache (reload e t).2 = <[id := mkEntry (Some content) (Some metadata)]> (ss_cache s)) ∨
        ss_cache (reload e t).2 = ss_cache s ∧ en_payload (cached_entry id s) = Some content
    | Err _ => ss_cache (reload e t).2 = ss_cache s end) as Hreload.
  { intros e' t Ht. pose proof (refresh_stores provider resolved accept id (redact_provider_text url provider)
      (redact_fields (default [] (en_metadata e')) (sr_api_key provider)) (en_payload e') t) as Hr. fold (reload e') in Hr. rewrite Ht in Hr.
    by destruct (reload e' t).1; [left|]. }
  assert (∀ t, ss_cache t = ss_cache s → _) as Hr by exact (Hreload e).
  unfold reload in Hr. clear Hreload reload. unfold mbind, prog_bind, prog_read, sask, slift. fold e. fold e in Hr.
  destruct (en_payload e) as [payload|] eqn:Ep; [|by apply (Hr s)].
  cbn [fst snd]. destruct (age_of _ _) as [age|]; [|done]. destruct (float_ltb _ _); [by right|by apply Hr].
Qed.

Lemma redacted_get key metadata api_key : dict_get key (redact_fields metadata api_key) = (λ v, _redact_metadata v api_key) <$> dict_get key metadata.
Proof. unfold redact_fields. induction metadata as [|[k v] metadata IH]; [done|]. rewrite fmap_cons. cbn [dict_get fst snd]. by destruct (String.eqb k key). Qed.

Lemma scrub_spec api_key (s : sstate env) : _scrub_cached_metadata_secret api_key s =
  (Ok tt, SState (ss_env s) (ss_rates s) (if str_nonempty (str_strip api_key) then scrub_entry api_key <$> ss_cache s else ss_cache s)).
Proof. unfold _scrub_cached_metadata_secret. destruct (str_nonempty _); [done|]. by destruct s. Qed.

Lemma scrubbed_payload api_key (cache : gmap string cache_entry) k :
  en_payload (default entry_default ((scrub_entry api_key <$> cache) !! k)) = en_payload (default entry_default (cache !! k)).
Proof. rewrite lookup_fmap. by destruct (cache !! k). Qed.
Lemma young_is_served provider url accept resolved (s : sstate env) content metadata fetched_at :
  cached_entry (cache_id_of sha256 provider url) s = mkEntry (Some content) (Some metadata) →
  dict_get "fetched_at" (redact_fields metadata (sr_api_key provider)) = Some (JFloat (Fin fetched_at)) →
  (fst (source_wall (ss_env s)) - fetched_at < zq (sr_refresh_interval_hours provider * 3600))%Q →
  cached_or_refreshed sha256 provider url accept resolved s = (Ok content, SState (snd (source_wall (ss_env s))) (ss_rates s) (ss_cache s)).
Proof.
  intros He Hf Ha. unfold cached_or_refreshed, mbind, prog_bind, prog_read, sask, slift. rewrite He. cbn [en_payload en_metadata default from_option id fst snd].
  rewrite Hf. cbn [default from_option id age_of py_float_of float_neg float_add float_ltb]. 
  assert (qltb (fst (source_wall (ss_env s)) + - fetched_at) (zq (sr_refresh_interval_hours provider * 3600)) = true) as -> by (apply qltb_true; lra).
  done.
Qed.
End CacheFacts.

(** A download is cached faithfully: the content returned is the one stored
    under its identifier, a failure leaves the stored content as it was, and no
    other entry loses its content; while the stored content is younger than the
    refresh interval it is returned without a request or a wait; and once the
    address is resolved, no other metadata file holds the API key. *)
Theorem cached_downloads_are_faithful {env : Type} `{SourceNet env} `{PyRepr} (sha256 : string → string) provider url accept (s : sstate env) :
  let run := fetch_cached_bytes sha256 provider url accept s in
  let id := cache_id_of sha256 provider url in
  let payload k s := en_payload (cached_entry k s) in
  (∀ k, k ≠ id → payload k run.2 = payload k s) ∧
  match run.1 with
  | Ok content => payload id run.2 = Some content
  | Err _ => payload id run.2 = payload id s
  end ∧
  (∀ content metadata fetched_at resolved, cached_entry id s = mkEntry (Some content) (Some metadata) →
     dict_get "fetched_at" metadata = Some (JFloat (Fin fetched_at)) →
     resolve_url_template url (sr_api_key provider) = Ok resolved →
     (fst (source_wall (ss_env s)) - fetched_at < zq (sr_refresh_interval_hours provider * 3600))%Q →
     run.1 = Ok content ∧ ss_env run.2 = snd (source_wall (ss_env s)) ∧ ss_rates run.2 = ss_rates s) ∧
  (∀ resolved, resolve_url_template url (sr_api_key provider) = Ok resolved → str_strip (sr_api_key provider) ≠ ""%string →
   star_free (str_strip (sr_api_key provider)) = true →
   ∀ k metadata text, k ≠ id → en_metadata (cached_entry k run.2) = Some metadata → text ∈ texts_of (JObject metadata) →
     str_contains (str_strip (sr_api_key provider)) text = false).
Proof.
  intros run id payload. unfold run, fetch_cached_bytes. clear run. destruct (resolve_url_template url (sr_api_key provider)) as [resolved|e].
  2: { split_and!; done. }
  assert (∀ k, en_payload (cached_entry k (SState (ss_env s) (ss_rates s) (if str_nonempty (str_strip (sr_api_key provider))
    then scrub_entry (sr_api_key provider) <$> ss_cache s else ss_cache s))) = payload k s) as Hscrub.
  { intros k. unfold payload, cached_entry. cbn [ss_cache]. destruct (str_nonempty _); [apply scrubbed_payload|done]. }
  unfold mbind, prog_bind, slift. cbv beta iota. rewrite scrub_spec. set (s1 := SState _ _ _) in *.
  pose proof (serve_spec sha256 provider url accept resolved s1) as Hserve. fold id in Hserve. cbv zeta in Hserve.
  set (run := cached_or_refreshed sha256 provider url accept resolved s1) in *.
  assert (∀ k, k ≠ id → cached_entry k run.2 = cached_entry k s1) as Hkeep.
  { intros k Hk. unfold cached_entry. destruct run.1; [|by rewrite Hserve].
    destruct Hserve as [[metadata ->]|[-> _]]; [by rewrite lookup_insert_ne|done]. }
  split_and!.
  - intros k Hk. unfold payload. rewrite Hkeep by done. apply Hscrub.
  - unfold payload at 1. destruct run.1; unfold payload, cached_entry.
    + destruct Hserve as [[metadata ->]|[-> Hp]]; [by rewrite lookup_insert_eq|exact Hp].
    + rewrite Hserve. exact (Hscrub id).
  - intros content metadata fetched_at _ He Hf _ Ha. unfold run.
    assert (∃ metadata', cached_entry id s1 = mkEntry (Some content) (Some metadata') ∧
      dict_get "fetched_at" (redact_fields metadata' (sr_api_key provider)) = Some (JFloat (Fin fetched_at))) as (metadata' & He' & Hf').
    { unfold s1, cached_entry in *. cbn [ss_cache]. destruct (str_nonempty _); [|exists metadata; by rewrite He, redacted_get, Hf].
      exists (redact_fields metadata (sr_api_key provider)). rewrite lookup_fmap. destruct (ss_cache s !! id) as [e|]; [|done]. cbn in He. subst e.
      by rewrite !redacted_get, Hf. }
    rewrite (young_is_served sha256 provider url accept resolved s1 content metadata' fetched_at He' Hf' Ha). done.
  - intros _ _ Hkey Hstar k metadata text Hk Hm Ht. rewrite Hkeep in Hm by done. unfold s1, cached_entry in Hm. cbn [ss_cache] in Hm.
    assert (str_nonempty (str_strip (sr_api_key provider)) = true) as E by (by destruct (str_strip _)). rewrite E, lookup_fmap in Hm.
    destruct (ss_cache s !! k) as [e|]; [|done]. cbn in Hm. destruct (en_metadata e) as [old|]; [|done]. injection Hm as <-.
    change (JObject (redact_fields old (sr_api_key provider))) with (_redact_metadata (JObject old) (sr_api_key provider)) in Ht.
    apply redacted_texts in Ht as [t ->]. by apply redacted_free.
Qed.

(** * Pace *)

(** A monotonic clock: [source_reading] bounds what it will show from a state on,
    and a sleep takes at least its time. *)
Class SourceClock (env : Type) `{SourceNet env} := {
  source_reading : env → Q;
  monotonic_goes_on : ∀ e, (source_reading e <= (source_monotonic e).1 ∧ (source_monotonic e).1 <= source_reading (source_monotonic e).2)%Q;
  sleep_lasts : ∀ d e, (0 < d)%Q → (source_reading e + d <= source_reading (source_sleep (Fin d) e))%Q
}.

Section Pace.
Context {env : Type} `{SourceNet env} `{!SourceClock env}.
Context (provider : ResearchProviderOptions) (next adaptive minimum : Q).
Hypothesis Hminimum : sr_min_interval_sec provider = Fin minimum.

(** The request may be sent at [now]: not before the time the last one left,
    and the next one not before the interval has passed. *)
Definition paced (now : Q) (s s' : sstate env) : Prop :=
  (next <= now)%Q ∧ (source_reading (ss_env s) <= now ∧ now <= source_reading (ss_env s'))%Q ∧ ss_cache s' = ss_cache s ∧
  source_rate (source_key provider) s' = mkRate (Fin (now + qmax (qmax 0 minimum) adaptive)) (Fin adaptive) ∧
  ∀ key, key ≠ source_key provider → ss_rates s' !! key = ss_rates s !! key.

(** One round of the loop, at a state whose slot is [next]. *)
Lemma wait_round fuel s : source_rate (source_key provider) s = mkRate (Fin next) (Fin adaptive) →
  let m := source_monotonic (ss_env s) in
  let s1 := SState m.2 (ss_rates s) (ss_cache s) in
  wait_for_provider (S fuel) provider s =
    if Qle_bool (qmax 0 (next + - m.1)) 0
    then set_source_rate (source_key provider) (mkRate (Fin (m.1 + qmax (qmax 0 minimum) adaptive)) (Fin adaptive)) s1
    else wait_for_provider fuel provider (SState (source_sleep (Fin (qmax 0 (next + - m.1))) m.2)
           (<[source_key provider := mkRate (Fin next) (Fin adaptive)]> (ss_rates s)) (ss_cache s)).
Proof.
  intros Hr. cbn [wait_for_provider]. unfold mbind, prog_bind, prog_read. cbn [fst snd]. rewrite Hr. unfold sask. cbn [fst snd].
  assert (∀ a b, float_max (Fin a) (Fin b) = Fin (qmax a b)) as Hmax by (intros a b; unfold float_max, qmax; cbn; by destruct (qltb a b)).
  unfold min_interval. rewrite Hminimum. cbn [ra_next_request_at ra_adaptive_interval float_add]. rewrite !Hmax.
  cbn [float_leb float_add]. by destruct (Qle_bool _ _).
Qed.

Lemma rate_put s r m e : source_rate (source_key provider) (SState m (<[source_key provider := r]> e) s : sstate env) = r.
Proof. unfold source_rate. cbn. by rewrite lookup_insert_eq. Qed.
End Pace.

(** Two rounds are enough for a turn, whatever the clock shows and however long
    it was told to wait: the call returns at a time not before the one the last
    request left, leaves the next one its interval, and touches neither the
    cache nor another source. *)
Theorem sources_are_paced {env : Type} `{SourceNet env} `{!SourceClock env} provider next adaptive minimum fuel (s : sstate env)
  (Hminimum : sr_min_interval_sec provider = Fin minimum)
  (Hrate : source_rate (source_key provider) s = mkRate (Fin next) (Fin adaptive)) :
  ∃ now s', wait_for_provider (2 + fuel) provider s = (Ok tt, s') ∧ paced provider next adaptive minimum now s s'.
Proof.
  assert (∀ a b, (a <= qmax a b ∧ b <= qmax a b)%Q) as Hq.
  { intros a b. unfold qmax, qltb. destruct (Qle_bool b a) eqn:E; cbn; [apply Qle_bool_iff in E; split; lra|].
    apply not_true_iff_false in E. rewrite Qle_bool_iff in E. split; lra. }
  destruct (monotonic_goes_on (ss_env s)) as [M1 M2]. change (2 + fuel)%nat with (S (S fuel)).
  rewrite (wait_round _ _ _ _ Hminimum _ _ Hrate). cbv zeta. destruct (source_monotonic (ss_env s)) as [now e]; cbn [fst snd] in *.
  destruct (Qle_bool _ _) eqn:Ed.
  - apply Qle_bool_iff in Ed. destruct (Hq 0 (next + - now))%Q as [_ Hn]. exists now. eexists. split; [reflexivity|].
    split_and!; cbn; [lra|lra|lra|done|by rewrite rate_put|]. intros key Hk. by rewrite lookup_insert_ne.
  - set (s1 := SState _ _ _). assert (source_rate (source_key provider) s1 = mkRate (Fin next) (Fin adaptive)) as Hr1 by apply rate_put.
    rewrite (wait_round _ _ _ _ Hminimum _ _ Hr1). cbv zeta. destruct (monotonic_goes_on (ss_env s1)) as [M3 M4].
    apply not_true_iff_false in Ed. rewrite Qle_bool_iff in Ed. set (d := qmax 0 (next + - now)) in *.
    assert (source_reading e + d <= source_reading (ss_env s1))%Q as Hs by (apply sleep_lasts; lra).
    destruct (Hq 0 (next + - now))%Q as [_ Hn]. fold d in Hn.
    destruct (source_monotonic (ss_env s1)) as [later e']; cbn [fst snd] in *.
    rewrite (proj2 (Qle_bool_iff _ _)).
    + exists later. eexists. split; [reflexivity|]. split_and!; cbn; [lra|lra|lra|done|by rewrite rate_put|].
      intros key Hk. by rewrite !lookup_insert_ne.
    + unfold qmax, qltb. destruct (Qle_bool (next + - later) 0) eqn:E; cbn; [lra|].
      apply not_true_iff_false in E. rewrite Qle_bool_iff in E. lra.
Qed.

(** * Witnesses and examples *)

Lemma ex_key_stripped : str_strip " k3y+/ " = "k3y+/"%string.
Proof. reflexivity. Qed.

Lemma api_keys_are_hidden_witness :
  _redact_secret_text "GET /?key=k3y%2B%2F for k3y+/" " k3y+/ " = "GET /?key=*** for ***"%string ∧
  str_contains "k3y%2B%2F" (_redact_secret_text "GET /?key=k3y%2B%2F for k3y+/" " k3y+/ ") = false.
Proof.
  split; [vm_compute; reflexivity|].
  apply (api_keys_are_hidden " k3y+/ " ltac:(discriminate) eq_refl "k3y%2B%2F"). right. left.
Defined.

(** A key with an asterisk can come back out of its own replacement. *)
Example starred_keys_reappear : str_contains "a*" (_redact_secret_text "aa*" "a*") = true.
Proof. vm_compute. reflexivity. Qed.

#[local] Instance ex_repr : PyRepr := {| py_repr_of _ := "..."%string |}.

(** A clock that advances by one second for every request and as asked for a
    sleep; a server that sends what it is asked for. *)
#[local] Instance ex_source_net : SourceNet Q := {|
  http_get url headers timeout now := (Ok (mkDownload 200 [("ETag", "v1")]%string url ""), (now + 1)%Q);
  source_wall now := (now, now);
  source_monotonic now := (now, now);
  source_sleep delay now := match delay with Fin q => (now + q)%Q | _ => now end
|}.
Definition ex_source : ResearchProviderOptions :=
  mkResearchProviderOptions "List" "phishtank" true "" "k3y" (Fin 15) (Fin 5) 1 5 "".
Definition ex_fetch (url : string) (s : sstate Q) : result source_exn string * sstate Q :=
  fetch_cached_bytes id ex_source url "text/plain" s.
Definition ex_fetched : sstate Q := (ex_fetch "https://a.example/{api_key}" (SState 100%Q ∅ ∅)).2.

(** The second call within the hour asks nobody; the third, for another address,
    waits until five seconds after the first; no metadata names the key. *)
Example fetching_twice :
  (ex_fetch "https://a.example/{api_key}" ex_fetched).1 = Ok "https://a.example/k3y"%string ∧
  Qeq (ss_env (ex_fetch "https://a.example/{api_key}" ex_fetched).2) 101 ∧
  Qeq (ss_env (ex_fetch "https://a.example/other" ex_fetched).2) 106 ∧
  (λ e, dict_get "url" <$> en_metadata e.2) <$> map_to_list (ss_cache ex_fetched) = [Some (Some (JString "https://a.example/{api_key}"))].
Proof. vm_compute. done. Qed.

(** The entry of the first call is fresh, so the second call is served from it. *)
Lemma cached_downloads_are_faithful_witness :
  (ex_fetch "https://a.example/{api_key}" ex_fetched).1 = Ok "https://a.example/k3y"%string.
Proof.
  refine (proj1 (proj1 (proj2 (proj2 (cached_downloads_are_faithful id ex_source "https://a.example/{api_key}" "text/plain" ex_fetched)))
    _ (default [] (en_metadata (cached_entry (cache_id_of id ex_source "https://a.example/{api_key}") ex_fetched))) _ "https://a.example/k3y"%string _ _ _ _));
    vm_compute; reflexivity.
Defined.

#[local] Instance ex_source_clock : SourceClock Q.
Proof. refine {| source_reading now := now |}; [intros e; cbn; split; lra|intros d e Hd; cbn; lra]. Defined.

(** The state after the first call: the next request may leave five seconds after it. *)
Lemma sources_are_paced_witness :
  ∃ now s', wait_for_provider 2 ex_source ex_fetched = (Ok tt, s') ∧ paced ex_source 105 0 5 now ex_fetched s'.
Proof. apply (sources_are_paced ex_source 105 0 5 0 ex_fetched); vm_compute; reflexivity. Defined.
