(* ===== verification/Research.v ===== *)
(** [pihole_manager/research.py]: one source asked with retries, the refresh of
    the evidence of several domains and the context for the prompt ([SourceTest]
    has the test of a source).

    The handlers of the sources, the clocks, the cancellation token and the order
    in which the threads of the sources finish are the class [Sources]; a lookup
    is one step. [rs_calls] records the calls of the handlers. The options are
    arguments: they do not change during a refresh. *)
From stdpp Require Import base gmap strings list pretty.
From Stdlib Require Import Ascii QArith Lqa Sorted.
From S2P Require Import Prelude HttpRetry Json Net Models Options Database ReviewDb Behavior Evidence Profiles Graph Sources.
Open Scope Z_scope.

(** * The environment *)

Abbreviation job := (string * ResearchProviderOptions)%type.

Class Sources (env : Type) := {
  (** The handler of a kind, or none. *)
  lookup : string → option (string → ResearchProviderOptions → env → result source_exn (list ResearchFinding) * env);
  token_is_set : env → bool * env;
  (** [int(time.time())] *)
  unix_time : env → Z;
  (** What a failed or finished call changes in the pace of its source. *)
  note_failure : ResearchProviderOptions → Z → list (string * string) → env → env;
  note_success : ResearchProviderOptions → env → env;
  (** The order in which the calls end. *)
  order_of : list job → env → list job
}.
(** Every call ends once. *)
Class SourcesLaws (env : Type) `{Sources env} := {
  order_of_permutes jobs e : order_of jobs e ≡ₚ jobs
}.

Record rstate (env : Type) := RState {
  rs_env : env;
  rs_store : evidence_db;
  rs_calls : list job
}.
Arguments RState {env}.
Arguments rs_env {env}.
Arguments rs_store {env}.
Arguments rs_calls {env}.

(** What [research_many] raises: an exception of the database, that of a source,
    cancellation, the refusal of a protected domain. *)
Inductive research_exn :=
  | ResearchCancelled
  | ResearchSource (e : source_exn)
  | ResearchStore (e : exn)
  | ResearchValue (msg : string)
  | ResearchProtected (msg : string)
  | ResearchExhausted (msg : string).

(** A row as a finding. *)
Definition _finding_from_row (r : finding_row) : ResearchFinding :=
  mkFinding (fr_domain r) (fr_provider r) (fr_kind r) (fr_title r) (fr_summary r) (fr_source_url r) (fr_confidence r)
    (str_or (fr_signal_type r) "context") (str_or (fr_verdict r) "unknown") (fr_decision_relevant r) (fr_retrieved_at r) (fr_expires_at r)
    (fr_raw_data r).

(** [l[:n]] *)
Definition slice_to {A} (n : Z) (l : list A) : list A := take (Z.to_nat (if n <? 0 then Z.of_nat (length l) + n else n)) l.

Section Research.
Context {env : Type} `{Sources env} `{PyRepr}.
(** [load_options()]: the sources, the retries and the age of evidence, and the
    profiles of protected services. *)
Context (research_providers : list ResearchProviderOptions) (max_retries max_age_days : Z) (profiles : list CompatibilityProfile).

Abbreviation rprog := (prog (rstate env) research_exn).

Definition rask {A} (f : env → A * env) : rprog A := λ s, let r := f (rs_env s) in (Ok r.1, RState r.2 (rs_store s) (rs_calls s)).
Definition note (f : env → env) : rprog unit := rask (λ e, (tt, f e)).
Definition on_store {A} (m : Z → prog evidence_db exn A) : rprog A := λ s,
  match m (unix_time (rs_env s)) (rs_store s) with
  | (Ok a, store) => (Ok a, RState (rs_env s) store (rs_calls s))
  | (Err e, store) => (Err (ResearchStore e), RState (rs_env s) store (rs_calls s))
  end.
(** [try] *)
Definition rattempt {A} (m : rprog A) : rprog (result research_exn A) := λ s, let r := m s in (Ok r.1, r.2).

Definition raise_if_cancelled : rprog unit :=
  cancelled ← rask token_is_set;
  if (cancelled : bool) then prog_raise ResearchCancelled else mret tt.

(** ** One source *)

Definition call (domain : string) (provider : ResearchProviderOptions)
    (handler : string → ResearchProviderOptions → env → result source_exn (list ResearchFinding) * env)
    : rprog (result source_exn (list ResearchFinding)) := λ s,
  let r := handler domain provider (rs_env s) in (Ok r.1, RState r.2 (rs_store s) (rs_calls s ++ [(domain, provider)])).

Definition _run_provider (domain : string) (provider : ResearchProviderOptions) : rprog (result source_exn (list ResearchFinding)) :=
  match lookup (sr_kind provider) with
  | None => mret (Err (SourceError ("Unsupported evidence source kind: " +:+ sr_kind provider)))
  | Some handler => call domain provider handler
  end.

(** The status codes that are tried again; [0] without a response. *)
Definition retried_status (response : option (Z * list (string * string))) : bool :=
  bool_decide (from_option fst 0 response ∈ [408; 429; 500; 502; 503; 504]).

(** The [except] clauses: the headers for the pace of an error that is tried again. *)
Definition retried (e : source_exn) : option (list (string * string)) :=
  match e with
  | SourceHTTP response _ => if retried_status response then Some (from_option snd [] response) else None
  | SourceConnection _ | SourceTimeout _ => Some []
  | _ => None
  end.

Definition raised (e : source_exn) : research_exn := match e with SourceCancelled => ResearchCancelled | _ => ResearchSource e end.

(** The turns of the loop that are left. *)
Fixpoint attempts_from (remaining : nat) (attempt : Z) (domain : string) (provider : ResearchProviderOptions) : rprog (list ResearchFinding) :=
  match remaining with
  | O => prog_raise (ResearchExhausted ("Evidence source " +:+ sr_name provider +:+ " exhausted its retries"))
  | S remaining =>
      _ ← raise_if_cancelled;
      outcome ← _run_provider domain provider;
      match outcome with
      | Ok findings =>
          _ ← raise_if_cancelled;
          _ ← note (note_success provider);
          mret findings
      | Err e =>
          match retried e with
          | None => prog_raise (raised e)
          | Some headers =>
              _ ← note (note_failure provider attempt headers);
              match remaining with
              | O => prog_raise (raised e)
              | S _ => attempts_from remaining (attempt + 1) domain provider
              end
          end
      end
  end.
Definition attempts : Z := Z.max 1 (max_retries + 1).
Definition _run_provider_with_retries (domain : string) (provider : ResearchProviderOptions) : rprog (list ResearchFinding) :=
  attempts_from (Z.to_nat attempts) 0 domain provider.

(** ** Several domains *)

(** What the first loop finds out about a domain. *)
Record dossier := mkDossier {
  do_domain : string;
  do_cached : list ResearchFinding;
  do_local : option ResearchFinding;
  do_locked : bool
}.

Definition dossier_of (now : Z) (domain : string) (s : evidence_db) : dossier :=
  let cached := filter (λ f, rf_provider f ≠ COMPATIBILITY_PROVIDER_NAME)
                  (_finding_from_row <$> research_findings_get now research_providers domain true 500 s) in
  let local_finding := compatibility_finding profiles now domain in
  mkDossier domain (cached ++ option_list local_finding) local_finding (bool_decide (is_Some (get_domain_lock domain (ev_db s)))).

Definition base_output (force : bool) (d : dossier) : list ResearchFinding :=
  if do_locked d then do_cached d else if force then option_list (do_local d) else do_cached d.

Definition read_dossier (acc : list dossier) (domain : string) : rprog (list dossier) :=
  _ ← raise_if_cancelled;
  d ← prog_read (λ s, dossier_of (unix_time (rs_env s)) domain (rs_store s));
  mret (acc ++ [d]).

Definition wanted (force : bool) (d : dossier) : list job :=
  let cached_providers := if force then [] else rf_provider <$> do_cached d in
  if do_locked d then []
  else (λ p, (do_domain d, p)) <$> filter (λ p, sr_name p ∉ cached_providers) (filter (λ p, sr_enabled p = true) research_providers).

Definition add_pending (force : bool) (acc : list job) (d : dossier) : rprog (list job) :=
  _ ← raise_if_cancelled;
  mret (acc ++ wanted force d).

(** What is kept of a call that ended: its findings, or nothing when it failed. *)
Definition outcome : Type := job * option (list ResearchFinding).
Definition kept (provider : ResearchProviderOptions) (findings : list ResearchFinding) : list ResearchFinding :=
  (λ f, annotate_source_kind f (sr_kind provider)) <$> slice_to (sr_max_results provider) findings.

Definition run_job (acc : list outcome) (j : job) : rprog (list outcome) :=
  _ ← raise_if_cancelled;
  answer ← rattempt (_run_provider_with_retries j.1 j.2);
  _ ← raise_if_cancelled;
  match answer with
  | Ok findings => mret (acc ++ [(j, Some (kept j.2 findings))])
  | Err ResearchCancelled => prog_raise ResearchCancelled
  | Err _ => mret (acc ++ [(j, None)])
  end.

Definition collected (outcomes : list outcome) : list ResearchFinding := mjoin (omap snd outcomes).
Definition found_for (domain : string) (outcomes : list outcome) : list ResearchFinding :=
  collected (filter (λ o : outcome, o.1.1 = domain) outcomes).

Definition protected_message (locked_domains : list string) : string :=
  "Protected domain(s) cannot be refreshed. Unlock it before refreshing evidence: " +:+ str_join ", " locked_domains.

(** From the pending calls on. *)
Definition refresh_pending (output : list outcome → list (string * list ResearchFinding)) (pending : list job) : rprog (list (string * list ResearchFinding)) :=
  match pending with
  | [] => mret (output [])
  | _ =>
      order ← prog_read (λ s, order_of pending (rs_env s));
      outcomes ← prog_fold run_job [] order;
      match collected outcomes with
      | [] => mret (output outcomes)
      | found =>
          _ ← on_store (λ now, save_research_findings now research_providers max_age_days found);
          mret (output outcomes)
      end
  end.

Definition research_many (domains : list string) (force : bool) : rprog (list (string * list ResearchFinding)) :=
  _ ← raise_if_cancelled;
  let normalized_domains := unique_normalized domains in
  dossiers ← prog_fold read_dossier [] normalized_domains;
  let output outcomes := (λ d, (do_domain d, base_output force d ++ found_for (do_domain d) outcomes)) <$> dossiers in
  let locked_domains := do_domain <$> filter (λ d, do_locked d = true) dossiers in
  if force && negb (bool_decide (locked_domains = [])) then prog_raise (ResearchProtected (protected_message locked_domains))
  else
    let local_findings := omap do_local dossiers in
    _ ← on_store (λ now, save_research_findings now research_providers 365 local_findings);
    if bool_decide (filter (λ p, sr_enabled p = true) research_providers = []) then mret (output [])
    else
      pending ← prog_fold (add_pending force) [] dossiers;
      refresh_pending output pending.

Definition research_domain (domain : string) (force : bool) : rprog (list ResearchFinding) :=
  let normalized := _normalize_domain domain in
  if negb (str_nonempty normalized) then prog_raise (ResearchValue "domain must not be empty")
  else
    output ← research_many [normalized] force;
    mret (default [] (dict_get normalized output)).
End Research.

(** * The pace of [Sources] as the environment *)

Section Wiring.
Context {env : Type} `{SourceNet env} (header_float date_timestamp : string → option Q).
Context (handlers : string → option (string → ResearchProviderOptions → sstate env → result source_exn (list ResearchFinding) * sstate env))
  (token : sstate env → bool * sstate env) (seconds : sstate env → Z) (order : list job → sstate env → list job).

(** From 1024 attempts on the power of [register_provider_failure] overflows,
    which ends the call; the instance goes on. *)
Definition wired : Sources (sstate env) := {|
  lookup := handlers;
  token_is_set := token;
  unix_time := seconds;
  note_failure provider attempt headers s := snd (register_provider_failure header_float date_timestamp provider attempt headers s);
  note_success provider s := snd (register_provider_success provider s);
  order_of := order
|}.
End Wiring.

(** * The context for the prompt *)

Section Context.
Context `{PyRepr}.

Definition _MAX_PROMPT_FINDINGS : nat := 12.
Definition _MAX_SUMMARY_LENGTH : nat := 900.

Definition _include_in_prompt (f : ResearchFinding) : bool := py_truthy (default (JBool true) (dict_get "include_in_prompt" (rf_raw_data f))).

(** [a <= b] on the keys of the sort *)
Definition prompt_leb (now : Z) (a b : ResearchFinding) : bool :=
  lex (λ a b, (if rf_decision_relevant a then 0 else 1) <=? (if rf_decision_relevant b then 0 else 1))
    (lex (λ a b, Qle_bool (qs_evidence_score (score_finding now b)) (qs_evidence_score (score_finding now a)))
      (lex (λ a b, Qle_bool (rf_confidence b) (rf_confidence a)) (λ a b, rf_retrieved_at b <=? rf_retrieved_at a))) a b.

Definition _compact_finding (now : Z) (f : ResearchFinding) : json :=
  let quality := score_finding now f in
  JObject [("provider", JString (rf_provider f)); ("kind", JString (rf_kind f)); ("signal_type", JString (rf_signal_type f));
    ("verdict", JString (rf_verdict f)); ("decision_relevant", JBool (rf_decision_relevant f)); ("title", JString (rf_title f));
    ("summary", JString (char_take _MAX_SUMMARY_LENGTH (rf_summary f))); ("source_url", JString (rf_source_url f));
    ("confidence", JFloat (Fin (round3 (rf_confidence f)))); ("source_quality", JFloat (Fin (round3 (qs_source_score quality))));
    ("evidence_quality", JFloat (Fin (round3 (qs_evidence_score quality)))); ("quality_tier", JString (qs_tier quality));
    ("retrieved_at", JInt (rf_retrieved_at f))]%string.

(** The parts of the dict, before it is written as JSON. *)
Record research_dossier := mkResearchDossier {
  rd_domain : string;
  rd_finding_count : Z;
  rd_decision_relevant_count : Z;
  rd_omitted_count : Z;
  rd_quality : quality;
  rd_contradictions : list EvidenceContradiction;
  rd_service_graph : json;
  rd_findings : list json
}.

Definition selected_findings (now : Z) (providers : list ResearchProviderOptions) (domain : string) (findings : option (list ResearchFinding))
    (s : evidence_db) : list ResearchFinding :=
  default (_finding_from_row <$> research_findings_get now providers (_normalize_domain domain) true 500 s) findings.

Definition visible_findings (now : Z) (selected : list ResearchFinding) : list ResearchFinding :=
  sort_by (prompt_leb now) (filter (λ f, _include_in_prompt f = true) selected).

Definition research_context (now : Z) (providers : list ResearchProviderOptions) (profiles : list CompatibilityProfile) (domain : string)
    (findings : option (list ResearchFinding)) (s : evidence_db) : result exn research_dossier :=
  let visible := visible_findings now (selected_findings now providers domain findings s) in
  let contradictions := detect_contradictions now visible in
  let prompt_findings := take _MAX_PROMPT_FINDINGS visible in
  graph ← service_dependency_graph profiles (_normalize_domain domain) (Some visible) 25 s;
  Ok (mkResearchDossier (_normalize_domain domain) (Z.of_nat (length visible)) (count_if rf_decision_relevant visible)
        (Z.max 0 (Z.of_nat (length visible) - Z.of_nat (length prompt_findings))) (quality_summary now visible (Some contradictions))
        contradictions (prompt_context 8 graph) (_compact_finding now <$> prompt_findings)).
End Context.

(** * One source *)

Section RetryFacts.
Context {env : Type} `{Sources env} `{PyRepr}.
Abbreviation rprog := (prog (rstate env) research_exn).
Implicit Types s : rstate env.

(** A poll of the token: nothing changes but the environment. *)
Definition polled s s' : Prop := rs_store s' = rs_store s ∧ rs_calls s' = rs_calls s.
#[local] Instance polled_refl : Reflexive polled.
Proof. by split. Qed.
#[local] Instance polled_trans : Transitive polled.
Proof. intros s1 s2 s3 [? ?] [? ?]. split; congruence. Qed.

Lemma poll_cases s : ∃ s', polled s s' ∧ (raise_if_cancelled s = (Ok tt, s') ∨ raise_if_cancelled s = (Err ResearchCancelled, s')).
Proof.
  unfold raise_if_cancelled, mbind, prog_bind, rask. destruct (token_is_set (rs_env s)) as [b e]. cbn [fst snd].
  exists (RState e (rs_store s) (rs_calls s)). split; [done|]. destruct b; auto.
Qed.

(** Binding a poll. *)
Lemma after_poll {A} (k : unit → rprog A) s : ∃ s', polled s s' ∧
  ((raise_if_cancelled ≫= k) s = k tt s' ∨ (raise_if_cancelled ≫= k) s = (Err ResearchCancelled, s')).
Proof.
  destruct (poll_cases s) as (s' & Hp & [E|E]); exists s'; (split; [done|]); unfold mbind, prog_bind; rewrite E; auto.
Qed.

(** The environment after [n] polls; until the first call nothing else touches
    it. *)
Fixpoint polls (n : nat) (e : env) : env := match n with O => e | S n => polls n (token_is_set e).2 end.
Definition after_polls (n : nat) s : rstate env := RState (polls n (rs_env s)) (rs_store s) (rs_calls s).

Lemma after_poll_at {A} (k : unit → rprog A) s :
  (raise_if_cancelled ≫= k) s = k tt (after_polls 1 s) ∨ (raise_if_cancelled ≫= k) s = (Err ResearchCancelled, after_polls 1 s).
Proof.
  unfold raise_if_cancelled, mbind, prog_bind, rask, after_polls. cbn. destruct (token_is_set (rs_env s)) as [[|] e]; cbn; auto.
Qed.

Lemma run_provider_cases domain provider s : ∃ s' r, _run_provider domain provider s = (Ok r, s') ∧ rs_store s' = rs_store s ∧
  (rs_calls s' = rs_calls s ++ [(domain, provider)] ∨
   rs_calls s' = rs_calls s ∧ lookup (sr_kind provider) = None ∧ ∃ text, r = Err (SourceError text)).
Proof.
  unfold _run_provider. destruct (lookup (sr_kind provider)) as [handler|] eqn:E.
  - eexists _, _. split; [done|]. split; [done|]. by left.
  - eexists _, _. split; [done|]. split; [done|]. right. split_and!; [done|done|by eexists].
Qed.

(** What may come out of [remaining] attempts after [made] calls. *)
Definition attempts_end (remaining made : nat) (r : result research_exn (list ResearchFinding)) : Prop :=
  match r with
  | Ok _ => (1 ≤ made)%nat
  | Err ResearchCancelled => True
  | Err (ResearchSource e) => is_Some (retried e) → made = remaining
  | Err _ => False
  end.

Definition run_ends (remaining : nat) (j : job) s (run : result research_exn (list ResearchFinding) * rstate env) : Prop :=
  rs_store run.2 = rs_store s ∧
  ∃ made, (made ≤ remaining)%nat ∧ rs_calls run.2 = rs_calls s ++ replicate made j ∧ attempts_end remaining made run.1.

Lemma attempts_from_spec remaining : ∀ attempt domain provider s, remaining ≠ 0%nat →
  run_ends remaining (domain, provider) s (attempts_from remaining attempt domain provider s).
Proof.
  induction remaining as [|remaining IH]; intros attempt domain provider s Hne; [done|]. cbn [attempts_from].
  match goal with |- run_ends _ _ _ ((_ ≫= ?k) s) => destruct (after_poll k s) as (s1 & [Hst Hca] & [E|E]) end; rewrite E; clear E.
  2: { split; [done|]. exists 0%nat. split; [lia|]. split; [cbn; by rewrite app_nil_r|done]. }
  unfold mbind, prog_bind at 1. destruct (run_provider_cases domain provider s1) as (s2 & r & -> & Hst2 & Hcalls).
  destruct r as [findings|e].
  - assert (rs_calls s2 = rs_calls s ++ replicate 1 (domain, provider)) as Hc2 by (destruct Hcalls as [->|(_ & _ & t & [=])]; by rewrite Hca).
    pose proof (after_poll (λ _, _ ← note (note_success provider); mret findings) s2) as (s3 & [Hst3 Hca3] & E). unfold mbind in E.
    assert (rs_store s3 = rs_store s ∧ rs_calls s3 = rs_calls s ++ replicate 1 (domain, provider)) as [Hst4 Hca4] by (split; congruence).
    destruct E as [E|E]; rewrite E; [unfold prog_bind, note, rask; cbv [mret prog_ret]|]; (split; [exact Hst4|]); exists 1%nat;
      (split; [lia|]); (split; [exact Hca4|]); done || (cbn; lia).
  - destruct (retried e) as [headers|] eqn:Er.
    + assert (rs_calls s2 = rs_calls s ++ replicate 1 (domain, provider)) as Hc2
        by (destruct Hcalls as [->|(_ & _ & t & [= ->])]; [by rewrite Hca|done]).
      assert (raised e = ResearchSource e) as Hr by (by destruct e).
      unfold prog_bind, note, rask. cbn [fst snd]. set (s3 := RState _ _ _). destruct remaining as [|remaining].
      * split; [cbn; congruence|]. exists 1%nat. split; [lia|]. split; [exact Hc2|]. cbn [fst prog_raise]. by rewrite Hr.
      * destruct (IH (attempt + 1) domain provider s3 ltac:(done)) as (Hst' & made & Hle & Hm & Hend). split; [rewrite Hst'; cbn; congruence|].
        exists (S made). split; [lia|]. split; [rewrite Hm; cbn [rs_calls s3]; rewrite Hc2, <-(assoc_L (++)); done|].
        destruct (attempts_from (S remaining) _ _ _ s3).1 as [?|[| | | | |]]; cbn in *; try done; [lia|]. intros Hs. f_equal. by apply Hend.
    + cbn [prog_raise fst snd]. split; [cbn; congruence|].
      destruct Hcalls as [Hc|(Hc & _)]; [exists 1%nat|exists 0%nat]; (split; [lia|]); (split; [cbn; rewrite ?app_nil_r; congruence|]);
        (destruct e; cbn [raised attempts_end fst prog_raise]; try done; rewrite Er; by intros [? ?]).
Qed.
End RetryFacts.

(** A source is asked at most as often as configured, and always at least
    once; an error that may pass (a timeout, a lost connection, a busy server)
    is raised only after the last attempt, every other error at once; nothing is
    stored; and the loop never runs out without an answer. *)
Theorem retries_are_bounded {env : Type} `{Sources env} max_retries domain provider (s : rstate env) :
  let run := _run_provider_with_retries max_retries domain provider s in
  rs_store run.2 = rs_store s ∧
  ∃ made, Z.of_nat made ≤ Z.max 1 (max_retries + 1) ∧ rs_calls run.2 = rs_calls s ++ replicate made (domain, provider) ∧
    match run.1 with
    | Ok _ => (1 ≤ made)%nat
    | Err ResearchCancelled => True
    | Err (ResearchSource e) => is_Some (retried e) → Z.of_nat made = Z.max 1 (max_retries + 1)
    | Err _ => False
    end.
Proof.
  intros run. unfold run, _run_provider_with_retries.
  destruct (attempts_from_spec (Z.to_nat (attempts max_retries)) 0 domain provider s) as (Hst & made & Hle & Hc & Hend); [unfold attempts; lia|].
  split; [exact Hst|]. exists made. unfold attempts in *. split; [lia|]. split; [exact Hc|].
  destruct (attempts_from _ _ _ _ s).1 as [|[]]; cbn in *; try done. intros Hs. rewrite Hend by done. lia.
Qed.

(** * Several domains *)

Section RefreshFacts.
Context {env : Type} `{Sources env} `{!SourcesLaws env} `{PyRepr}.
Context (research_providers : list ResearchProviderOptions) (max_retries max_age_days : Z) (profiles : list CompatibilityProfile).
Implicit Types s : rstate env.
#[local] Existing Instance polled_refl.
#[local] Existing Instance polled_trans.

Abbreviation dossier_at := (dossier_of research_providers profiles).
Abbreviation asked := (_run_provider_with_retries max_retries).

(** What was read of a domain, at some moment. *)
Definition read_from (store : evidence_db) (domain : string) (d : dossier) : Prop := ∃ now, d = dossier_at now domain store.

(** What is read of the domains after [n] polls, one more before each. *)
Fixpoint read_all (n : nat) (domains : list string) s : list dossier :=
  match domains with
  | [] => []
  | domain :: domains => dossier_at (unix_time (polls (S n) (rs_env s))) domain (rs_store s) :: read_all (S n) domains s
  end.

Lemma polls_S n : ∀ e : env, polls (S n) e = (token_is_set (polls n e)).2.
Proof. induction n as [|n IH]; intros e; [done|]. apply IH. Qed.

Lemma read_all_lookup domains s : ∀ n i, read_all n domains s !! i =
  (λ domain, dossier_at (unix_time (polls (S n + i) (rs_env s))) domain (rs_store s)) <$> domains !! i.
Proof.
  induction domains as [|domain domains IH]; intros n [|i]; try done.
  - cbn [read_all]. by rewrite Nat.add_0_r.
  - etrans; [exact (IH (S n) i)|]. by rewrite Nat.add_succ_r.
Qed.

Lemma read_all_from domains s : ∀ n, Forall2 (read_from (rs_store s)) domains (read_all n domains s).
Proof. induction domains as [|domain domains IH]; intros n; constructor; [by eexists|apply IH]. Qed.

Lemma read_dossiers_spec domains s : ∀ acc n, ∃ r m,
  prog_fold (read_dossier research_providers profiles) acc domains (after_polls n s) = (r, after_polls m s) ∧
  match r with Ok out => out = acc ++ read_all n domains s ∧ m = (n + length domains)%nat | Err e => e = ResearchCancelled end.
Proof.
  induction domains as [|domain domains IH]; intros acc n.
  { exists (Ok acc), n. split; [done|]. rewrite app_nil_r. split; [done|]. cbn. lia. }
  cbn [prog_fold read_all]. unfold mbind, prog_bind at 1, read_dossier at 1.
  assert (after_polls 1 (after_polls n s) = after_polls (S n) s) as Epoll by (unfold after_polls; by rewrite (polls_S n)).
  match goal with |- context [(_ ≫= ?k) ?s0] => destruct (after_poll_at k s0) as [E|E] end; rewrite E, Epoll; clear E.
  2: { by exists (Err ResearchCancelled), (S n). }
  unfold mbind, prog_bind, prog_read. cbv [mret prog_ret]. cbn [after_polls rs_env rs_store].
  destruct (IH (acc ++ [dossier_at (unix_time (polls (S n) (rs_env s))) domain (rs_store s)]) (S n)) as (r & m & E & Hr). exists r, m.
  cbn [after_polls] in E. rewrite E. split; [done|]. destruct r as [out|]; [|done]. destruct Hr as [-> ->]. rewrite <-(assoc_L (++)).
  split; [done|]. cbn. lia.
Qed.

Lemma add_pending_spec force ds : ∀ acc s, ∃ r s', prog_fold (add_pending research_providers force) acc ds s = (r, s') ∧ polled s s' ∧
  match r with Ok out => out = acc ++ mjoin (wanted research_providers force <$> ds) | Err e => e = ResearchCancelled end.
Proof.
  induction ds as [|d ds IH]; intros acc s.
  { exists (Ok acc), s. split_and!; [done|done|]. by rewrite app_nil_r. }
  cbn [prog_fold]. unfold mbind, prog_bind at 1, add_pending at 1.
  match goal with |- context [(_ ≫= ?k) s] => destruct (after_poll k s) as (s1 & Hp & [E|E]) end; rewrite E; clear E.
  2: { exists (Err ResearchCancelled), s1. by split_and!. }
  cbv [mret prog_ret]. destruct (IH (acc ++ wanted research_providers force d) s1) as (r & s2 & E & Hp2 & Hr). exists r, s2.
  rewrite E. split_and!; [done|by etrans|]. destruct r as [out|]; [|done]. by rewrite Hr, <-(assoc_L (++)).
Qed.

(** What a call that ended leaves: its findings, or nothing when it failed. *)
Definition outcome_of (o : outcome) : Prop := ∃ s,
  match (asked o.1.1 o.1.2 s).1 with Ok findings => o.2 = Some (kept o.1.2 findings) | Err _ => o.2 = None end.

Lemma run_jobs_spec jobs : ∀ acc s, ∃ r s' calls, prog_fold (run_job max_retries) acc jobs s = (r, s') ∧
  rs_store s' = rs_store s ∧ rs_calls s' = rs_calls s ++ calls ∧ (∀ j, j ∈ calls → j ∈ jobs) ∧
  match r with Ok os => ∃ new, os = acc ++ new ∧ new.*1 = jobs ∧ Forall outcome_of new | Err e => e = ResearchCancelled end.
Proof.
  induction jobs as [|j jobs IH]; intros acc s.
  { exists (Ok acc), s, []. split_and!; try done; [by rewrite app_nil_r|]. exists []. split_and!; [by rewrite app_nil_r|done|constructor]. }
  cbn [prog_fold]. unfold mbind, prog_bind at 1, run_job at 1.
  match goal with |- context [(_ ≫= ?k) s] => destruct (after_poll k s) as (s1 & [Hst1 Hca1] & [E|E]) end; rewrite E; clear E.
  2: { exists (Err ResearchCancelled), s1, []. split_and!; [done|done|by rewrite app_nil_r|set_solver|done]. }
  unfold mbind at 1, prog_bind at 1, rattempt.
  destruct (attempts_from_spec (Z.to_nat (attempts max_retries)) 0 j.1 j.2 s1 ltac:(unfold attempts; lia)) as (Hst2 & made & _ & Hca2 & _).
  fold (asked j.1 j.2) in Hst2, Hca2. set (s2 := (asked j.1 j.2 s1).2) in *. assert (∀ x, x ∈ replicate made (j.1, j.2) → x ∈ j :: jobs) as Hmade.
  { intros x [-> _]%elem_of_replicate. destruct j. by left. }
  match goal with |- context [(raise_if_cancelled ≫= ?k) s2] => destruct (after_poll k s2) as (s3 & [Hst3 Hca3] & [E|E]) end; rewrite E; clear E.
  2: { exists (Err ResearchCancelled), s3, (replicate made (j.1, j.2)). split_and!; [done|congruence|congruence|exact Hmade|done]. }
  assert (∀ o, o = (j, match (asked j.1 j.2 s1).1 with Ok findings => Some (kept j.2 findings) | Err _ => None end) →
    ∃ r s' calls, prog_fold (run_job max_retries) (acc ++ [o]) jobs s3 = (r, s') ∧
      rs_store s' = rs_store s ∧ rs_calls s' = rs_calls s ++ calls ∧ (∀ x, x ∈ calls → x ∈ j :: jobs) ∧
      match r with Ok os => ∃ new, os = acc ++ new ∧ new.*1 = j :: jobs ∧ Forall outcome_of new | Err e => e = ResearchCancelled end) as Hnext.
  { intros o Ho. destruct (IH (acc ++ [o]) s3) as (r & s4 & calls & E & Hst4 & Hca4 & Hin & Hr). exists r, s4, (replicate made (j.1, j.2) ++ calls).
    split_and!; [done|congruence|rewrite Hca4, Hca3, Hca2, Hca1; by rewrite (assoc_L (++))| |].
    - intros x [Hx|Hx]%elem_of_app; [by apply Hmade|]. right. by apply Hin.
    - destruct r as [os|]; [|done]. destruct Hr as (new & -> & Hj & Hall). exists (o :: new). split_and!.
      + by rewrite <-(assoc_L (++)).
      + rewrite fmap_cons, Hj, Ho. done.
      + constructor; [|done]. exists s1. rewrite Ho. cbn [fst snd]. by destruct (asked j.1 j.2 s1).1. }
  cbv [mret prog_ret]. destruct (asked j.1 j.2 s1).1 as [findings|[]]; try (by apply Hnext).
  exists (Err ResearchCancelled), s3, (replicate made (j.1, j.2)). split_and!; [done|congruence|congruence|exact Hmade|done].
Qed.

Lemma save_nothing now days store : save_research_findings now research_providers days [] store = (Ok 0, store).
Proof. reflexivity. Qed.

Abbreviation save_at := (λ now days findings store, save_research_findings now research_providers days findings store).

Lemma refresh_pending_spec output pending s : ∃ r s' calls, refresh_pending research_providers max_retries max_age_days output pending s = (r, s') ∧
  rs_calls s' = rs_calls s ++ calls ∧ (∀ j, j ∈ calls → j ∈ pending) ∧
  match r with
  | Ok out => ∃ os now, os.*1 ≡ₚ pending ∧ Forall outcome_of os ∧ out = output os ∧ rs_store s' = (save_at now max_age_days (collected os) (rs_store s)).2
  | Err ResearchCancelled => rs_store s' = rs_store s
  | Err (ResearchStore _) => ∃ now findings, rs_store s' = (save_at now max_age_days findings (rs_store s)).2
  | Err _ => False
  end.
Proof.
  unfold refresh_pending. destruct pending as [|j pending].
  { exists (Ok (output [])), s, []. split_and!; [done|by rewrite app_nil_r|set_solver|]. exists [], 0. by rewrite save_nothing. }
  set (jobs := j :: pending). unfold mbind at 1, prog_bind at 1, prog_read. unfold mbind at 1, prog_bind at 1.
  destruct (run_jobs_spec (order_of jobs (rs_env s)) [] s) as (r & s1 & calls & -> & Hst & Hca & Hin & Hr).
  assert (∀ x, x ∈ calls → x ∈ jobs) as Hin' by (intros x Hx; by rewrite <-(order_of_permutes jobs (rs_env s)); apply Hin).
  destruct r as [os|e]; [|subst e; exists (Err ResearchCancelled), s1, calls; by split_and!].
  destruct Hr as (new & -> & Hj & Hall). cbn [app].
  assert (new.*1 ≡ₚ jobs) as Hperm by (rewrite Hj; apply order_of_permutes).
  destruct (collected new) as [|f found] eqn:Ec.
  { exists (Ok (output new)), s1, calls. split_and!; [done|done|done|]. exists new, 0. split_and!; [done|done|done|]. by rewrite Ec, save_nothing. }
  unfold mbind, prog_bind, on_store. rewrite <-Ec.
  destruct (save_research_findings (unix_time (rs_env s1)) research_providers max_age_days (collected new) (rs_store s1)) as [[n|e] store] eqn:Es.
  - exists (Ok (output new)), (RState (rs_env s1) store (rs_calls s1)), calls. split_and!; [done|done|done|].
    exists new, (unix_time (rs_env s1)). split_and!; [done|done|done|]. by rewrite <-Hst, Es.
  - exists (Err (ResearchStore e)), (RState (rs_env s1) store (rs_calls s1)), calls. split_and!; [done|done|done|].
    exists (unix_time (rs_env s1)), (collected new). by rewrite <-Hst, Es.
Qed.

Definition output_of (force : bool) (ds : list dossier) (os : list outcome) : list (string * list ResearchFinding) :=
  (λ d, (do_domain d, base_output force d ++ found_for (do_domain d) os)) <$> ds.
Definition locked_ones (ds : list dossier) : list string := do_domain <$> filter (λ d, do_locked d = true) ds.
(** The store after the findings of the profiles were saved. *)
Definition with_local (now : Z) (ds : list dossier) (store : evidence_db) : evidence_db := (save_at now 365 (omap do_local ds) store).2.

(** Every way a refresh may go. *)
Lemma research_many_spec domains force s : ∃ r s' calls,
  research_many research_providers max_retries max_age_days profiles domains force s = (r, s') ∧ rs_calls s' = rs_calls s ++ calls ∧
  (r = Err ResearchCancelled ∧ calls = [] ∧ rs_store s' = rs_store s ∨
   ∃ ds, ds = read_all 1 (unique_normalized domains) s ∧
     (if force && negb (bool_decide (locked_ones ds = [])) then r = Err (ResearchProtected (protected_message (locked_ones ds))) ∧ calls = [] ∧ rs_store s' = rs_store s
      else ∃ now, now = unix_time (polls (1 + length (unique_normalized domains)) (rs_env s)) ∧ (∀ j, j ∈ calls → j ∈ mjoin (wanted research_providers force <$> ds)) ∧
        match r with
        | Ok out => ∃ os now', os.*1 ≡ₚ mjoin (wanted research_providers force <$> ds) ∧ Forall outcome_of os ∧ out = output_of force ds os ∧
            rs_store s' = (save_at now' max_age_days (collected os) (with_local now ds (rs_store s))).2
        | Err ResearchCancelled => rs_store s' = with_local now ds (rs_store s)
        | Err (ResearchStore _) => rs_store s' = with_local now ds (rs_store s) ∨
            ∃ now' findings, rs_store s' = (save_at now' max_age_days findings (with_local now ds (rs_store s))).2
        | Err _ => False
        end)).
Proof.
  unfold research_many. match goal with |- context [(raise_if_cancelled ≫= ?k) s] => destruct (after_poll_at k s) as [E|E] end; rewrite E; clear E.
  2: { exists (Err ResearchCancelled), (after_polls 1 s), []. split_and!; [done|by rewrite app_nil_r|]. by left. }
  unfold mbind at 1, prog_bind at 1. destruct (read_dossiers_spec (unique_normalized domains) s [] 1) as (r & m & -> & Hr).
  destruct r as [out|e]; [|subst e; exists (Err ResearchCancelled), (after_polls m s), []; split_and!; [done|by rewrite app_nil_r|by left]].
  destruct Hr as [-> ->]. cbn [app]. set (ds := read_all 1 (unique_normalized domains) s). assert (ds = read_all 1 (unique_normalized domains) s) as Hds by done.
  clearbody ds. fold (locked_ones ds). set (s2 := after_polls (1 + length (unique_normalized domains)) s).
  assert (rs_store s2 = rs_store s ∧ rs_calls s2 = rs_calls s) as [Hst Hca] by done.
  assert (unix_time (rs_env s2) = unix_time (polls (1 + length (unique_normalized domains)) (rs_env s))) as Hclock by done. clearbody s2.
  destruct (force && negb (bool_decide (locked_ones ds = []))) eqn:Ef.
  { eexists _, s2, []. split_and!; [done|by rewrite app_nil_r|]. right. exists ds. split; [done|]. by rewrite Ef. }
  unfold mbind at 1, prog_bind at 1, on_store. destruct (save_research_findings (unix_time (rs_env s2)) research_providers 365 (omap do_local ds) (rs_store s2)) as [r store] eqn:Es.
  assert (store = with_local (unix_time (rs_env s2)) ds (rs_store s)) as Hstore by (unfold with_local; by rewrite <-Hst, Es).
  destruct r as [n|e].
  2: { eexists _, _, []. split_and!; [done|by rewrite app_nil_r|]. right. exists ds. split; [done|]. rewrite Ef. eexists. split; [exact Hclock|]. split; [set_solver|]. left. exact Hstore. }
  set (s3 := RState _ _ _).
  destruct (decide (filter (λ p, sr_enabled p = true) research_providers = [])) as [Hen|Hen];
    [rewrite (bool_decide_eq_true_2 _ Hen)|rewrite (bool_decide_eq_false_2 _ Hen)].
  { exists (Ok (output_of force ds [])), s3, []. split_and!; [done|by rewrite app_nil_r|]. right. exists ds. split; [done|]. rewrite Ef.
    exists (unix_time (rs_env s2)). split; [exact Hclock|]. split; [set_solver|]. exists [], 0. split_and!; [|constructor|done|rewrite save_nothing; exact Hstore].
    assert (∀ d, wanted research_providers force d = []) as Hw by (intros d; unfold wanted; rewrite Hen; by destruct (do_locked d)).
    clear -Hw. induction ds as [|d ds IH]; [done|]. cbn. rewrite Hw. exact IH. }
  unfold mbind at 1, prog_bind at 1. destruct (add_pending_spec force ds [] s3) as (r & s4 & -> & [Hst4 Hca4] & Hr).
  destruct r as [pending|e].
  2: { subst e. exists (Err ResearchCancelled), s4, []. split_and!; [done|rewrite app_nil_r; cbn in Hca4; congruence|]. right. exists ds. split; [done|]. rewrite Ef.
       eexists. split; [exact Hclock|]. split; [set_solver|]. rewrite Hst4. exact Hstore. }
  rewrite Hr. cbn [app]. destruct (refresh_pending_spec (output_of force ds) (mjoin (wanted research_providers force <$> ds)) s4) as (r & s5 & calls & E & Hca5 & Hin & Hend).
  unfold output_of in E. rewrite E. exists r, s5, calls. split_and!; [done|rewrite Hca5, Hca4; cbn; congruence|]. right. exists ds. split; [done|]. rewrite Ef.
  exists (unix_time (rs_env s2)). split; [exact Hclock|]. split; [exact Hin|]. rewrite Hst4 in Hend. cbn [rs_store s3] in Hend. rewrite Hstore in Hend.
  destruct r as [out|[]]; try done. right. exact Hend.
Qed.

Lemma read_domains store names ds : Forall2 (read_from store) names ds → do_domain <$> ds = names.
Proof. induction 1 as [|name d names ds [now ->] _ IH]; [done|]. rewrite fmap_cons, IH. done. Qed.

Lemma read_in store names ds d : Forall2 (read_from store) names ds → d ∈ ds → do_domain d ∈ names ∧ read_from store (do_domain d) d.
Proof.
  intros Hds Hd. apply list_elem_of_lookup in Hd as [i Hi]. destruct (Forall2_lookup_r _ _ _ _ _ Hds Hi) as (name & Hn & now & Hd).
  assert (do_domain d = name) as Hname by (by rewrite Hd). rewrite Hname. split; [by eapply list_elem_of_lookup_2|]. by exists now.
Qed.

Lemma read_of store names ds name : Forall2 (read_from store) names ds → name ∈ names → ∃ d, d ∈ ds ∧ do_domain d = name ∧ read_from store name d.
Proof.
  intros Hds Hn. apply list_elem_of_lookup in Hn as [i Hi]. destruct (Forall2_lookup_l _ _ _ _ _ Hds Hi) as (d & Hd & now & E).
  exists d. split_and!; [by eapply list_elem_of_lookup_2|by rewrite E|by exists now].
Qed.
End RefreshFacts.

(** A source is skipped when one of the findings of the domain it gave is
    still fresh. *)
Lemma wanted_has_no_fresh_finding {env : Type} `{Sources env} `{PyRepr} research_providers profiles now domain store name :
  name ≠ COMPATIBILITY_PROVIDER_NAME → name ∉ rf_provider <$> do_cached (dossier_of research_providers profiles now domain store) →
  ∀ r, r ∈ stored_research_findings domain 500 store → fr_provider r = name →
    row_is_fresh now (build_freshness_context research_providers domain 30 (ev_db store)) r = false.
Proof.
  intros Hname Hnot r Hr <-. apply not_true_iff_false. intros Hfresh. apply Hnot, list_elem_of_fmap. exists (_finding_from_row r). split; [done|].
  apply elem_of_app. left. apply list_elem_of_filter. split; [done|]. apply list_elem_of_fmap. exists r. split; [done|].
  unfold research_findings_get. cbn [negb]. rewrite take_ge; [by apply list_elem_of_filter|].
  etrans; [apply length_filter|]. unfold stored_research_findings. rewrite length_take. lia.
Qed.

(** The findings of the built-in profiles among what was read. *)
Lemma local_of_dossiers (ds : list dossier) : ∀ {A} (names : list A) (f : nat → A → dossier),
  (∀ i, ds !! i = f i <$> names !! i) → omap do_local ds = omap id (imap (λ i a, do_local (f i a)) names).
Proof.
  induction ds as [|d ds IH]; intros A [|a names] f Hat; try done; [by specialize (Hat 0%nat)|by specialize (Hat 0%nat)|].
  pose proof (Hat 0%nat) as [= ->]. cbn. rewrite (IH A names (λ i, f (S i))) by (intros i; apply (Hat (S i))).
  done.
Qed.

(** C29: A refresh of evidence asks only what it may: a source is called for a
    domain only when the domain was asked for and is not protected by a lock, the
    source is enabled, and, unless the refresh is forced, none of the findings it
    gave among the 500 newest stored of the domain is still fresh at the time the
    refresh reads them (the name of the built-in profiles aside); a forced
    refresh of a protected domain calls nobody, stores nothing and is refused or
    cancelled; and a cancelled one stores nothing it was told by a source: at
    most the findings the built-in profiles have on the domains asked for. *)
Theorem refresh_asks_only_what_it_may {env : Type} `{Sources env} `{!SourcesLaws env} `{PyRepr} research_providers max_retries max_age_days profiles
    domains force (s : rstate env) :
  let run := research_many research_providers max_retries max_age_days profiles domains force s in
  let names := unique_normalized domains in
  let locked d := is_Some (get_domain_lock d (ev_db (rs_store s))) in
  let read_at i := unix_time (polls (2 + i) (rs_env s)) in
  let saved_at := unix_time (polls (1 + length names) (rs_env s)) in
  ∃ calls, rs_calls run.2 = rs_calls s ++ calls ∧
    (∀ d p, (d, p) ∈ calls → ∃ i, names !! i = Some d ∧ ¬ locked d ∧ p ∈ research_providers ∧ sr_enabled p = true ∧
       (force = false → sr_name p ≠ COMPATIBILITY_PROVIDER_NAME →
          ∀ r, r ∈ stored_research_findings d 500 (rs_store s) → fr_provider r = sr_name p →
            row_is_fresh (read_at i) (build_freshness_context research_providers d 30 (ev_db (rs_store s))) r = false)) ∧
    (force = true → (∃ d, d ∈ names ∧ locked d) → calls = [] ∧ rs_store run.2 = rs_store s ∧
       (run.1 = Err ResearchCancelled ∨ ∃ msg, run.1 = Err (ResearchProtected msg))) ∧
    (run.1 = Err ResearchCancelled → rs_store run.2 = rs_store s ∨
       rs_store run.2 = (save_research_findings saved_at research_providers 365
         (omap id (imap (λ i d, compatibility_finding profiles (read_at i) d) names)) (rs_store s)).2).
Proof.
  intros run names locked read_at saved_at. unfold run. destruct (research_many_spec research_providers max_retries max_age_days profiles domains force s)
    as (r & s' & calls & -> & Hca & Hend). cbn [fst snd]. exists calls. split; [exact Hca|].
  destruct Hend as [(-> & -> & Hst)|(ds & Eds & Hend)]; [split_and!; [set_solver|by auto|by left]|]. fold names in Eds, Hend.
  assert (∀ i, ds !! i = (λ d, dossier_of research_providers profiles (read_at i) d (rs_store s)) <$> names !! i) as Hat
    by (intros i; rewrite Eds; apply read_all_lookup).
  assert (Forall2 (read_from research_providers profiles (rs_store s)) names ds) as Hds by (rewrite Eds; apply read_all_from).
  assert (∀ d, d ∈ ds → (do_locked d = true ↔ locked (do_domain d))) as Hlock.
  { intros d Hd. destruct (read_in _ _ _ _ _ _ Hds Hd) as (_ & now & E). rewrite E. cbn. by rewrite bool_decide_eq_true. }
  assert ((∃ d, d ∈ names ∧ locked d) → locked_ones ds ≠ []) as Hany.
  { intros (d & Hd & Hl). destruct (read_of _ _ _ _ _ _ Hds Hd) as (x & Hx & Hdom & _). unfold locked_ones. intros Hnil%fmap_nil_inv.
    assert (x ∈ filter (λ d, do_locked d = true) ds) as Hin by (apply list_elem_of_filter; split; [apply Hlock; [done|by rewrite Hdom]|done]).
    rewrite Hnil in Hin. by apply not_elem_of_nil in Hin. }
  destruct (force && negb (bool_decide (locked_ones ds = []))) eqn:Ef.
  - destruct Hend as (-> & -> & Hst). split_and!; [set_solver|eauto|done].
  - destruct Hend as (now & -> & Hin & Hr). split_and!.
    + intros d p Hc. apply Hin, list_elem_of_join in Hc as (js & Hc & Hjs). apply list_elem_of_fmap in Hjs as (x & -> & Hx). unfold wanted in Hc.
      destruct (do_locked x) eqn:El; [by apply not_elem_of_nil in Hc|]. apply list_elem_of_fmap in Hc as (q & [= -> ->] & Hq).
      rewrite !list_elem_of_filter in Hq. destruct Hq as (Hnot & Hen & Hp). pose proof (proj1 (Hlock x Hx)) as Hl1. pose proof (proj2 (Hlock x Hx)) as Hl2.
      apply list_elem_of_lookup in Hx as [i Hi]. rewrite Hat in Hi. apply fmap_Some in Hi as (d & Hi & ->). exists i.
      split_and!; [done|intros Hl; by rewrite Hl2 in El|done|done|]. intros ->. intros Hname. by apply (wanted_has_no_fresh_finding _ profiles).
    + intros -> Hex. apply Hany in Hex. rewrite bool_decide_eq_false_2 in Ef by done. done.
    + intros ->. right. rewrite Hr. unfold with_local. fold saved_at. do 2 f_equal. rewrite (local_of_dossiers ds names _ Hat). done.
Qed.

(** C30: One failing source spoils nothing: a refresh that returns has exactly
    the requested domains, in order; every wanted call ended once, with its
    findings, at most as many as configured and marked with the kind of the
    source, or with none when it failed; the answer for a domain is its stored
    or local evidence followed by what its own sources gave, and what all
    sources gave is what was saved. *)
Theorem failures_are_isolated {env : Type} `{Sources env} `{!SourcesLaws env} `{PyRepr} research_providers max_retries max_age_days profiles
    domains force (s : rstate env) :
  let run := research_many research_providers max_retries max_age_days profiles domains force s in
  match run.1 with
  | Ok output =>
      output.*1 = unique_normalized domains ∧
      ∃ ds os now now', Forall2 (read_from research_providers profiles (rs_store s)) (unique_normalized domains) ds ∧
        os.*1 ≡ₚ mjoin (wanted research_providers force <$> ds) ∧ Forall (outcome_of max_retries) os ∧
        output = (λ d, (do_domain d, base_output force d ++ mjoin (omap snd (filter (λ o : outcome, o.1.1 = do_domain d) os)))) <$> ds ∧
        rs_store run.2 = (save_research_findings now' research_providers max_age_days (mjoin (omap snd os)) (with_local research_providers now ds (rs_store s))).2
  | Err (ResearchSource _) | Err (ResearchExhausted _) | Err (ResearchValue _) => False
  | Err _ => True
  end.
Proof.
  intros run. unfold run. destruct (research_many_spec research_providers max_retries max_age_days profiles domains force s)
    as (r & s' & calls & -> & _ & Hend). cbn [fst snd]. destruct Hend as [(-> & _)|(ds & Hds & Hend)]; [done|].
  pose proof (read_all_from research_providers profiles (unique_normalized domains) s 1) as Hfrom. rewrite <-Hds in Hfrom. clear Hds. rename Hfrom into Hds.
  destruct (force && _); [by destruct Hend as (-> & _)|]. destruct Hend as (now & _ & _ & Hr). destruct r as [out|[]]; try done.
  destruct Hr as (os & now' & Hperm & Hall & -> & Hst). split; [|by exists ds, os, now, now'].
  unfold output_of. rewrite <-list_fmap_compose. cbn. rewrite <-(read_domains _ _ _ _ _ Hds). by apply list_fmap_ext.
Qed.

(** * The context for the prompt *)

Section PromptOrder.
Context `{PyRepr}.

Lemma prompt_leb_total now a b : prompt_leb now a b = true ∨ prompt_leb now b a = true.
Proof.
  revert a b. repeat apply lex_total; intros a b; try apply Qle_bool_total; rewrite !Z.leb_le; lia.
Qed.
Lemma prompt_leb_trans now a b c : prompt_leb now a b = true → prompt_leb now b c = true → prompt_leb now a c = true.
Proof.
  revert a b c. repeat apply lex_trans; intros a b c; try (intros H1 H2; by eapply Qle_bool_trans); rewrite !Z.leb_le; lia.
Qed.
Lemma prompt_leb_relevant now a b : prompt_leb now a b = true → rf_decision_relevant b = true → rf_decision_relevant a = true.
Proof.
  unfold prompt_leb, lex. intros [H1 _]%andb_true_iff Hb. rewrite Hb in H1. by destruct (rf_decision_relevant a).
Qed.
End PromptOrder.

(** The prompt gets the findings that matter most: twelve at most, none that
    was hidden, the strongest first; what is omitted is not better than what is
    shown, and nothing relevant to the decision is omitted while something
    irrelevant is shown; and the counts tell what was left out. *)
Theorem prompt_keeps_the_most_relevant `{PyRepr} now providers profiles domain findings s :
  match research_context now providers profiles domain findings s with
  | Ok d =>
      let selected := selected_findings now providers domain findings s in
      ∃ shown omitted, rd_findings d = _compact_finding now <$> shown ∧
        shown ++ omitted ≡ₚ filter (λ f, _include_in_prompt f = true) selected ∧ (length shown ≤ 12)%nat ∧
        (omitted ≠ [] → length shown = 12%nat) ∧ StronglySorted (λ a b, prompt_leb now a b = true) shown ∧
        (∀ a b, a ∈ shown → b ∈ omitted → prompt_leb now a b = true ∧ (rf_decision_relevant b = true → rf_decision_relevant a = true)) ∧
        rd_finding_count d = Z.of_nat (length shown + length omitted) ∧ rd_omitted_count d = Z.of_nat (length omitted) ∧
        rd_contradictions d = detect_contradictions now (shown ++ omitted)
  | Err _ => _normalize_domain (_normalize_domain domain) = ""%string
  end.
Proof.
  unfold research_context, mbind, result_bind. set (visible := visible_findings now (selected_findings now providers domain findings s)).
  pose proof (service_graph_answers profiles (_normalize_domain domain) (Some visible) 25 s) as Hg.
  destruct (service_dependency_graph _ _ _ _ s) as [g|e]; [|exact Hg]. cbn [rd_findings rd_finding_count rd_omitted_count rd_contradictions].
  exists (take 12 visible), (drop 12 visible). assert (StronglySorted (λ a b, prompt_leb now a b = true) visible) as Hs
    by (apply sort_by_sorted; [apply prompt_leb_total|apply prompt_leb_trans]).
  assert (∀ a b, a ∈ take 12 visible → b ∈ drop 12 visible → prompt_leb now a b = true) as Hle by (intros a b; by apply (StronglySorted_take_drop _ _ 12 a b Hs)).
  rewrite take_drop. split_and!; try done.
  - unfold visible, visible_findings. by rewrite sort_by_Permutation.
  - rewrite length_take. lia.
  - intros Hne. rewrite length_take. assert (length (drop 12 visible) ≠ 0%nat) as Hl by (by intros ?%nil_length_inv). rewrite length_drop in Hl. lia.
  - by apply StronglySorted_take.
  - intros a b Ha Hb. split; [by apply Hle|]. apply prompt_leb_relevant with now. by apply Hle.
  - rewrite length_take, length_drop. lia.
  - unfold _MAX_PROMPT_FINDINGS. rewrite length_take, length_drop. lia.
Qed.

(** * Witnesses and examples *)

#[local] Instance ex_repr : PyRepr := {| py_repr_of _ := "..."%string |}.

Definition ex_found (domain : string) (provider : ResearchProviderOptions) (now : Z) : ResearchFinding :=
  mkFinding domain (sr_name provider) "host" "Listed" "" "" (9 # 10) "security" "malware" true now 0 [].
(** URLhaus answers, RDAP never does; a call takes a second, and the last one ends first. *)
#[local] Instance ex_sources : Sources Z := {|
  lookup kind :=
    if String.eqb kind "urlhaus" then Some (λ domain provider now, (Ok [ex_found domain provider now; ex_found domain provider now], now + 1))
    else if String.eqb kind "rdap" then Some (λ _ _ now, (Err (SourceTimeout "timed out"), now + 1)) else None;
  token_is_set now := (false, now);
  unix_time now := now;
  note_failure _ _ _ now := now;
  note_success _ now := now;
  order_of jobs _ := reverse jobs
|}.
#[local] Instance ex_sources_laws : SourcesLaws Z.
Proof. constructor. intros jobs e. apply reverse_Permutation. Defined.

Definition ex_provider (name kind : string) : ResearchProviderOptions := mkResearchProviderOptions name kind true "" "" (Fin 15) (Fin 1) 6 1 "".
Definition ex_providers : list ResearchProviderOptions := [ex_provider "URLhaus" "urlhaus"; ex_provider "RDAP" "rdap"].
Definition ex_profiles : list CompatibilityProfile :=
  [mkProfile "x" "X login" "" ROLE_CORE 80 "deny_requires_review" [] ["safe.example"] "Sign-in." ""].
Definition ex_locked : evidence_db := EvidenceDb (set_locks (<["safe.example"%string := LockRow "allow" "" 0 0]>) db_empty) [] 0.
Definition ex_refresh (force : bool) (s : rstate Z) : result research_exn (list (string * list ResearchFinding)) * rstate Z :=
  research_many ex_providers 1 30 ex_profiles ["Safe.example"; "ads.example"; "ads.example."]%string force s.
Definition ex_start : rstate Z := RState 1000000 ex_locked [].

(** One lookup and two attempts at RDAP; the second time only RDAP is asked
    again; forced, the locked domain is refused. *)
Example ex_refreshes :
  (λ p : string * list ResearchFinding, (p.1, rf_provider <$> p.2)) <$> (match (ex_refresh false ex_start).1 with Ok out => out | Err _ => [] end) =
    [("safe.example", ["Wormhole compatibility profiles"]); ("ads.example", ["URLhaus"])]%string ∧
  (λ j : job, (j.1, sr_name j.2)) <$> rs_calls (ex_refresh false ex_start).2 =
    [("ads.example", "RDAP"); ("ads.example", "RDAP"); ("ads.example", "URLhaus")]%string ∧
  (λ j : job, sr_name j.2) <$> rs_calls (ex_refresh false (RState 1000100 (rs_store (ex_refresh false ex_start).2) [])).2 = ["RDAP"; "RDAP"]%string ∧
  (ex_refresh true ex_start).1 = Err (ResearchProtected (protected_message ["safe.example"%string])).
Proof. vm_compute. done. Qed.

Lemma ex_protected : "safe.example"%string ∈ unique_normalized ["Safe.example"; "ads.example"; "ads.example."]%string ∧
  is_Some (get_domain_lock "safe.example" (ev_db (rs_store ex_start))).
Proof. split; [vm_compute; left|]. exists (LockRow "allow" "" 0 0). vm_compute. reflexivity. Qed.

Lemma refresh_asks_only_what_it_may_witness : ∃ calls, rs_calls (ex_refresh true ex_start).2 = rs_calls ex_start ++ calls ∧ calls = [].
Proof.
  destruct (refresh_asks_only_what_it_may ex_providers 1 30 ex_profiles ["Safe.example"; "ads.example"; "ads.example."]%string true ex_start)
    as (calls & Hc & _ & Hf & _).
  exists calls. split; [exact Hc|]. exact (proj1 (Hf eq_refl (ex_intro _ _ ex_protected))).
Defined.

Lemma ex_refresh_output : ∃ out, (ex_refresh false ex_start).1 = Ok out.
Proof. vm_compute. eexists. reflexivity. Qed.

Lemma failures_are_isolated_witness :
  match (ex_refresh false ex_start).1 with
  | Ok out => out.*1 = unique_normalized ["Safe.example"; "ads.example"; "ads.example."]%string
  | Err _ => False
  end.
Proof.
  destruct ex_refresh_output as (out & E). rewrite E.
  pose proof (failures_are_isolated ex_providers 1 30 ex_profiles ["Safe.example"; "ads.example"; "ads.example."]%string false ex_start) as Hiso.
  cbv zeta in Hiso. unfold ex_refresh in E. rewrite E in Hiso. exact (proj1 Hiso).
Defined.
