(* ===== verification/SourceTest.v ===== *)
(** [test_research_provider] of [pihole_manager/research.py]: the test of one
    evidence source, started from the settings. *)
From stdpp Require Import base gmap strings list.
From Stdlib Require Import Ascii QArith.
From S2P Require Import Prelude Json Net Models Options Database Behavior Evidence Sources Research.
Open Scope Z_scope.

Record EvidenceSourceTestResult := mkTestResult {
  tr_provider : string;
  tr_kind : string;
  tr_domain : string;
  tr_status : string;
  tr_finding_count : Z;
  tr_elapsed_ms : Z;
  tr_summary : string
}.

Definition test_passed (r : EvidenceSourceTestResult) : bool := String.eqb (tr_status r) "pass".

Definition _TEST_DOMAINS : list (string * string) :=
  [("adguard_services", "wechat.com"); ("dns_records", "cloudflare.com"); ("disconnect_tracking", "google-analytics.com");
   ("rdap", "example.com"); ("ripestat", "cloudflare.com"); ("netcraft", "google.com"); ("virustotal", "example.com");
   ("threatfox", "example.com"); ("phishtank", "example.com"); ("urlscan", "google.com"); ("cloudflare_radar", "google.com");
   ("repository_lists", "example.com"); ("urlhaus", "example.com"); ("crtsh", "example.com");
   ("google_safe_browsing", "testsafebrowsing.appspot.com")]%string.

(** [provider_snapshot(provider).get("requires_api_key")] *)
Definition requires_key (provider : ResearchProviderOptions) : bool :=
  from_option sd_requires_api_key false (source_definition (sr_kind provider)) || String.eqb (sr_kind provider) "google_safe_browsing".

(** [str(exc)] of what a call raises. *)
Definition exn_text (e : research_exn) : string :=
  match e with
  | ResearchCancelled | ResearchSource SourceCancelled => "Operation cancelled"
  | ResearchSource (SourceHTTP _ text | SourceConnection text | SourceTimeout text | SourceOther text | SourceError text) => text
  | ResearchValue msg | ResearchProtected msg | ResearchExhausted msg => msg
  | ResearchStore _ => ""
  end.

Definition key_missing : string := "API key is required but not configured.".
Definition dns_failed : string := "DNS resolution failed for the source host.".
Definition no_answer : string := "The source did not respond before the timeout.".
Definition rejected : string := "Authentication was rejected by the source.".
Definition limited : string := "The source rate limit was reached.".

Section SourceTest.
(** The name of the class of an exception. *)
Context (class_name : research_exn → string).

Definition _test_error_summary (e : research_exn) (provider : ResearchProviderOptions) : string :=
  let text := str_replace "010"%char " "%char (str_strip (redact_provider_text (exn_text e) provider)) in
  let lowered := str_lower text in
  if str_contains "failed to resolve" lowered || str_contains "nameresolutionerror" lowered then dns_failed
  else if str_contains "timed out" lowered || str_contains "timeout" lowered then no_answer
  else if str_contains "401" text || str_contains "403" text then rejected
  else if str_contains "429" text then limited
  else str_or (char_take 500 text) (class_name e).

Definition passed_summary (findings : list ResearchFinding) : string :=
  match (filter (λ f, _include_in_prompt f = true) findings ++ findings)%list with
  | [] => "Source responded and the response was parsed successfully."
  | first :: _ =>
      if String.eqb (rf_verdict first) "no_match" || negb (_include_in_prompt first)
      then "Source responded successfully; no evidence matched the test domain."
      else rf_title first +:+ " (" +:+ rf_verdict first +:+ ")"
  end.

Context {env : Type} `{Sources env} (monotonic : env → Q * env).

(** [cancel_token=None]: the polls neither ask nor raise. *)
Definition without_token : Sources env := {|
  lookup := lookup;
  token_is_set e := (false, e);
  unix_time := unix_time;
  note_failure := note_failure;
  note_success := note_success;
  order_of := order_of
|}.

Definition elapsed_ms (started now : Q) : Z := py_int ((now - started) * 1000).

Definition test_research_provider (max_retries : Z) (provider : ResearchProviderOptions) (domain : option string)
    (skip_api_key_sources skip_missing_api_keys : bool) : prog (rstate env) research_exn EvidenceSourceTestResult :=
  let selected_domain := _normalize_domain (str_or (str_or (default "" domain) (sr_test_domain provider))
                           (default "example.com" (dict_get (sr_kind provider) _TEST_DOMAINS))) in
  let result := mkTestResult (sr_name provider) (sr_kind provider) selected_domain in
  if skip_api_key_sources && requires_key provider
  then mret (result "skip" 0 0 "Skipped because this source requires an API key.")
  else if requires_key provider && negb (str_nonempty (str_strip (sr_api_key provider))) then
    mret (if skip_missing_api_keys then result "skip" 0 0 "Skipped because no API key is configured."
          else result "fail" 0 0 key_missing)
  else
    started ← rask monotonic;
    answer ← rattempt (@_run_provider_with_retries env without_token max_retries selected_domain provider);
    now ← rask monotonic;
    match answer with
    | Err e => mret (result "fail" 0 (elapsed_ms started now) (_test_error_summary e provider))
    | Ok findings =>
        let findings := slice_to (sr_max_results provider) findings in
        mret (result "pass" (Z.of_nat (length (filter (λ f, _include_in_prompt f = true) findings))) (elapsed_ms started now)
                (passed_summary findings))
    end.
End SourceTest.

(** * What a summary shows *)

Definition space_free (s : string) : bool := str_forallb (λ c, negb (Ascii.eqb c " "%char)) s.

Lemma char_take_part n s : ∃ b, s = char_take n s +:+ b.
Proof.
  revert n. induction s as [|c s IH]; intros n; [by exists ""%string|]. cbn [char_take].
  destruct (is_continuation c); [|destruct n as [|n]; [by eexists|]].
  - destruct (IH n) as [b E]. exists b. change (String c (char_take n s) +:+ b) with (String c (char_take n s +:+ b)). by rewrite <-E.
  - destruct (IH n) as [b E]. exists b. change (String c (char_take n s) +:+ b) with (String c (char_take n s +:+ b)). by rewrite <-E.
Qed.

Lemma contains_part w a s b : str_contains w s = true → str_contains w (a +:+ s +:+ b) = true.
Proof. intros Hs. by apply str_contains_app_r, str_contains_app_l. Qed.

Lemma contains_strip w s : str_contains w (str_strip s) = true → str_contains w s = true.
Proof.
  destruct (lstrip_part is_space s) as [a Ea]. destruct (rstrip_part is_space (lstrip is_space s)) as [b Eb].
  intros Hs. rewrite Ea, Eb. by apply contains_part.
Qed.
Lemma contains_take w n s : str_contains w (char_take n s) = true → str_contains w s = true.
Proof. destruct (char_take_part n s) as [b E]. intros Hs. rewrite E. by apply (contains_part w "" _ b). Qed.

(** A text without a blank is not made by turning line ends into blanks. *)
Lemma contains_replaced w c s : space_free w = true → str_contains w (str_replace c " "%char s) = true → str_contains w s = true.
Proof.
  assert (∀ w, space_free w = true → ∀ s, str_startswith (str_replace c " "%char s) w = true → str_startswith s w = true) as Hp.
  { clear. intros w. induction w as [|d w IH]; intros Hw s Hs; [by destruct s|]. apply andb_true_iff in Hw as [Hd Hw].
    apply startswith_iff in Hs as [b Hb]. destruct s as [|e s]; [done|]. change (str_replace c " "%char (String e s)) with
      (String (if Ascii.eqb e c then " "%char else e) (str_replace c " "%char s)) in Hb. change (String d w +:+ b) with (String d (w +:+ b)) in Hb.
    injection Hb as He Hb. destruct (Ascii.eqb e c); [by subst d|]. subst d. apply startswith_iff.
    destruct (proj1 (startswith_iff _ _) (IH Hw s (proj2 (startswith_iff _ _) (ex_intro _ b Hb)))) as [b' ->]. by exists b'. }
  intros Hw. induction s as [|e s IH]; [done|].
  change (str_replace c " "%char (String e s)) with (String (if Ascii.eqb e c then " "%char else e) (str_replace c " "%char s)).
  cbn [str_contains]. rewrite !orb_true_iff. intros [Hs|Hs]; [left|right; by apply IH].
  by apply (Hp w Hw (String e s)).
Qed.

(** The fixed texts and the class apart, a summary holds nothing of the key. *)
Lemma summary_free class_name e provider variant :
  str_strip (sr_api_key provider) ≠ ""%string → star_free (str_strip (sr_api_key provider)) = true →
  variant ∈ key_forms (str_strip (sr_api_key provider)) → space_free variant = true →
  let summary := _test_error_summary class_name e provider in
  summary ∈ [dns_failed; no_answer; rejected; limited; class_name e] ∨ str_contains variant summary = false.
Proof.
  intros Hne Hs Hvar Hsp. cbv zeta. unfold _test_error_summary. set (text := str_replace _ _ _).
  assert (str_contains variant text = false) as Hfree.
  { apply not_true_iff_false. intros Hc%contains_replaced%contains_strip; [|done]. unfold redact_provider_text in Hc.
    rewrite redacted_forms in Hc by done. done. }
  destruct (_ || _); [left; set_solver|]. destruct (_ || _); [left; set_solver|]. destruct (_ || _); [left; set_solver|].
  destruct (str_contains "429" text); [left; set_solver|]. unfold str_or. destruct (char_take 500 text) as [|c t] eqn:E; [left; set_solver|].
  cbn [str_nonempty]. right. apply not_true_iff_false. rewrite <-E. intros Hc%contains_take. congruence.
Qed.

(** * The test is contained *)

Lemma attempts_of_test {env : Type} `{Sources env} max_retries domain provider (s : rstate env) :
  ∃ answer s' made, @_run_provider_with_retries env without_token max_retries domain provider s = (answer, s') ∧
    rs_store s' = rs_store s ∧ rs_calls s' = rs_calls s ++ replicate made (domain, provider) ∧ Z.of_nat made ≤ Z.max 1 (max_retries + 1) ∧
    match answer with Ok _ => (1 ≤ made)%nat | Err _ => True end.
Proof.
  unfold _run_provider_with_retries.
  destruct (@attempts_from_spec env without_token (Z.to_nat (attempts max_retries)) 0 domain provider s) as (Hst & made & Hle & Hc & Hend); [unfold attempts; lia|].
  eexists _, _, made. split_and!; [apply surjective_pairing|exact Hst|exact Hc|unfold attempts in *; lia|].
  destruct (attempts_from _ _ _ _ s).1; [exact Hend|done].
Qed.

(** A test of a source always gives a result, changes no stored evidence
    and asks only the source under test, for the tested domain, at most as
    often as configured: not at all when it is skipped or its key is missing.
    It passes exactly when a call brought an answer, and then counts at most
    the configured number of findings; the summary of a failure holds nothing of a
    key without blanks and asterisks, unless it is one of the fixed texts or the name of the exception. *)
Theorem source_tests_are_contained {env : Type} `{Sources env} class_name monotonic max_retries provider domain skip_keys skip_missing (s : rstate env) :
  let run := test_research_provider class_name monotonic max_retries provider domain skip_keys skip_missing s in
  let key := str_strip (sr_api_key provider) in
  ∃ r made, run.1 = Ok r ∧ rs_store run.2 = rs_store s ∧ rs_calls run.2 = rs_calls s ++ replicate made (tr_domain r, provider) ∧
    Z.of_nat made ≤ Z.max 1 (max_retries + 1) ∧
    (tr_status r = "skip"%string ∨ requires_key provider = true ∧ key = ""%string → made = 0%nat ∧ run.2 = s) ∧
    (tr_status r = "skip"%string ∧ requires_key provider = true ∧ (skip_keys = true ∨ skip_missing = true ∧ key = ""%string) ∨
     tr_status r = "fail"%string ∧ tr_finding_count r = 0 ∧
       (∀ variant, variant ∈ key_forms key → key ≠ ""%string → star_free key = true → space_free variant = true →
          (∃ e, tr_summary r ∈ [dns_failed; no_answer; rejected; limited; class_name e]) ∨
          tr_summary r = key_missing ∨ str_contains variant (tr_summary r) = false) ∨
     tr_status r = "pass"%string ∧ (1 ≤ made)%nat ∧ (0 ≤ sr_max_results provider → 0 ≤ tr_finding_count r ≤ sr_max_results provider)).
Proof.
  intros run key. unfold run, test_research_provider. clear run. destruct (skip_keys && requires_key provider) eqn:E1.
  { apply andb_true_iff in E1 as [-> ->]. eexists _, 0%nat. split_and!; [done|done|by rewrite app_nil_r|lia|done|left; by auto]. }
  destruct (requires_key provider && negb (str_nonempty (str_strip (sr_api_key provider)))) eqn:E2.
  { apply andb_true_iff in E2 as [Hr Hk]. assert (key = ""%string) as Hkey by (unfold key; by destruct (str_strip _)).
    eexists _, 0%nat. split_and!; [done|done|by rewrite app_nil_r|lia|done|]. destruct skip_missing; cbn; [left; by auto|]. right; left. by auto. }
  destruct (attempts_of_test max_retries (_normalize_domain (str_or (str_or (default "" domain) (sr_test_domain provider))
    (default "example.com" (dict_get (sr_kind provider) _TEST_DOMAINS))))%string provider
    (RState (monotonic (rs_env s)).2 (rs_store s) (rs_calls s))) as (answer & s' & made & E & Hst & Hc & Hle & Hend).
  cbv [mbind prog_bind rask rattempt]. cbn [fst snd]. rewrite E. cbn [fst snd]. cbn [rs_store rs_calls] in *.
  destruct answer as [findings|e]; (eexists _, made; split_and!; [done|exact Hst|exact Hc|exact Hle| |]); cbn [tr_status].
  - intros [[=]|[Hr Hk]]. unfold key in Hk. rewrite Hr, Hk in E2. done.
  - right; right. split; [done|]. split; [exact Hend|]. intros Hmax. cbn [tr_finding_count]. split; [lia|].
    pose proof (length_filter (λ f, _include_in_prompt f = true) (slice_to (sr_max_results provider) findings)) as Hl.
    unfold slice_to in Hl at 2. rewrite (proj2 (Z.ltb_ge _ 0)), length_take in Hl by done. lia.
  - intros [[=]|[Hr Hk]]. unfold key in Hk. rewrite Hr, Hk in E2. done.
  - right; left. split_and!; [done|done|]. intros variant Hv Hne Hs Hsp.
    destruct (summary_free class_name e provider variant Hne Hs Hv Hsp); [left; by exists e|by auto].
Qed.

(** * Examples *)

Definition ex_source_test (kind : string) (skip_keys : bool) : result research_exn EvidenceSourceTestResult * rstate Z :=
  @test_research_provider (λ _, "RequestException"%string) Z ex_sources (λ now, (inject_Z now, now)) 1 (ex_provider "Source" kind) None skip_keys false ex_start.

(** A source without its key, one that never answers, one that is skipped, and a
    kind that nobody handles. *)
Example testing_sources :
  (ex_source_test "urlhaus" false).1 = Ok (mkTestResult "Source" "urlhaus" "example.com" "fail" 0 0 key_missing) ∧
  (ex_source_test "rdap" false).1 = Ok (mkTestResult "Source" "rdap" "example.com" "fail" 0 2000 no_answer) ∧
  (ex_source_test "google_safe_browsing" true).1 = Ok (mkTestResult "Source" "google_safe_browsing" "testsafebrowsing.appspot.com" "skip" 0 0
    "Skipped because this source requires an API key.") ∧
  (ex_source_test "other" false).1 = Ok (mkTestResult "Source" "other" "example.com" "fail" 0 0 "Unsupported evidence source kind: other").
Proof. vm_compute. done. Qed.

(** A blank of the key may be made of a line end after the redaction. *)
Example broken_keys_reappear :
  _test_error_summary (λ _, "HTTPError"%string) (ResearchSource (SourceOther (str_join (String "010" "") ["key a"; "b"]%string)))
    (mkResearchProviderOptions "Source" "urlhaus" true "" "a b" (Fin 15) (Fin 1) 6 1 "") = "key a b"%string.
Proof. vm_compute. reflexivity. Qed.
