(* ===== verification/Conflicts.v ===== *)
(** [pihole_manager/rule_conflicts.py]: contradictions between the exact rules,
    the regex rules, the groups and the local locks.

    The regular expressions of Python are a parameter, as is [repr]; whole
    numbers in messages are printed by [pretty]. *)
From stdpp Require Import base gmap strings list sorting pretty.
From Stdlib Require Import Sorted.
From S2P Require Import Prelude Models Database ReviewDb Behavior PiHole.
Open Scope Z_scope.

Record RuleConflict := mkRuleConflict {
  rc_severity : string;
  rc_kind : string;
  rc_subject : string;
  rc_details : string
}.
#[export] Instance RuleConflict_eq_dec : EqDecision RuleConflict.
Proof. solve_decision. Defined.

(** A row of [_normalize_rule_rows]. *)
Record rule := Rule {
  ru_value : string;
  ru_policy : string;
  ru_kind : string;
  ru_groups : gset Z
}.

(** [re]: a compiled pattern is its [search]; [Err] carries the text of
    [re.error].  [re_escape] is the text of any other exception that compiling
    the pattern raises, such as the [OverflowError] of a huge repetition, which
    nothing catches; [re_compile] then says nothing. *)
Class RegexEngine := {
  re_compile : string → result string (string → bool);
  re_escape : string → option string;
  py_repr : string → string
}.

Definition _normalize_rule_rows (rows : list remote_row) (policy kind : string) : list rule :=
  omap (λ r, let value := str_strip (rm_key r) in
             if negb (str_nonempty value) || negb (rm_enabled r) then None
             else Some (Rule value policy kind (list_to_set (rm_groups r)))) rows.

Definition _groups_overlap (first second : gset Z) : bool :=
  if bool_decide (first = ∅ ∨ second = ∅) then true else bool_decide (first ∩ second ≠ ∅).

Definition _rule_label (r : rule) : string :=
  (ru_kind r +:+ " " +:+ ru_policy r +:+ ": " +:+ ru_value r)%string.

(** [casefold] equality *)
Definition same_folded (a b : string) : bool := String.eqb (str_casefold a) (str_casefold b).

(** [{int(group["id"]): bool(...)}]: the last row of an id counts. *)
Definition enabled_groups_of (groups : list (Z * bool)) : gmap Z bool :=
  foldl (λ m p, <[p.1 := p.2]> m) ∅ groups.

Definition missing_groups (enabled_groups : gmap Z bool) (r : rule) : list Z :=
  sort_by Z.leb (elements (ru_groups r ∖ dom enabled_groups)).

Definition disabled_groups (enabled_groups : gmap Z bool) (r : rule) : list Z :=
  sort_by Z.leb (filter (λ g, enabled_groups !! g = Some false) (elements (ru_groups r))).

Definition missing_conflict (ids : list Z) (r : rule) : RuleConflict :=
  mkRuleConflict "error" "missing_group" (_rule_label r)
    ("References unknown Pi-hole group IDs: " +:+ str_join ", " (pretty <$> ids) +:+ ".")%string.

Definition disabled_conflict (r : rule) : RuleConflict :=
  mkRuleConflict "warning" "disabled_groups_only" (_rule_label r)
    "The rule is assigned only to disabled Pi-hole groups.".

Definition _group_conflicts (rules : list rule) (enabled_groups : gmap Z bool) : list RuleConflict :=
  concat ((λ r,
    (match missing_groups enabled_groups r with [] => [] | ids => [missing_conflict ids r] end) ++
    (if bool_decide (ru_groups r ≠ ∅ ∧ ru_groups r ⊆ list_to_set (disabled_groups enabled_groups r))
     then [disabled_conflict r] else [])) <$> rules).

Definition exact_policy_conflict (allow : rule) : RuleConflict :=
  mkRuleConflict "error" "exact_policy_overlap" (ru_value allow)
    "Active exact allow and deny rules overlap in at least one Pi-hole group.".

(** The pairs of two nested loops. *)
Definition pairs {A B} (l1 : list A) (l2 : list B) : list (A * B) :=
  concat ((λ a, (λ b, (a, b)) <$> l2) <$> l1).

Definition _exact_policy_conflicts (allow_rules deny_rules : list rule) : list RuleConflict :=
  omap (λ '(allow, deny),
    if negb (same_folded (ru_value allow) (ru_value deny)) then None
    else if negb (_groups_overlap (ru_groups allow) (ru_groups deny)) then None
    else Some (exact_policy_conflict allow)) (pairs allow_rules deny_rules).

Section Regex.
Context `{RegexEngine}.

Definition invalid_regex_conflict (pattern error : string) : RuleConflict :=
  mkRuleConflict "error" "invalid_regex" pattern ("Regex cannot be compiled: " +:+ error +:+ ".")%string.

Definition regex_policy_conflict (allow : rule) : RuleConflict :=
  mkRuleConflict "error" "regex_policy_overlap" (ru_value allow)
    "Identical active allow and deny regex rules overlap in at least one Pi-hole group.".

Definition _regex_policy_conflicts (allow_rules deny_rules : list rule) : list RuleConflict :=
  omap (λ pattern, match re_compile pattern with
                   | Err error => Some (invalid_regex_conflict pattern error)
                   | Ok _ => None
                   end) (fromkeys (ru_value <$> allow_rules ++ deny_rules)) ++
  omap (λ '(allow, deny),
    if negb (String.eqb (ru_value allow) (ru_value deny)) then None
    else if negb (_groups_overlap (ru_groups allow) (ru_groups deny)) then None
    else Some (regex_policy_conflict allow)) (pairs allow_rules deny_rules).

Definition exact_regex_conflict (exact regex_rule : rule) : RuleConflict :=
  mkRuleConflict "warning" "exact_regex_overlap" (ru_value exact)
    ("Exact " +:+ ru_policy exact +:+ " rule matches opposite " +:+ ru_policy regex_rule +:+ " regex " +:+
       py_repr (ru_value regex_rule) +:+ " in an overlapping group.")%string.

(** [re.search(pattern, text) is not None], with an invalid pattern as no match *)
Definition re_search (pattern text : string) : bool :=
  match re_compile pattern with Ok search => search text | Err _ => false end.

Definition _exact_regex_conflicts (exact_rules opposite_regex_rules : list rule) : list RuleConflict :=
  omap (λ '(regex_rule, exact),
    if negb (_groups_overlap (ru_groups exact) (ru_groups regex_rule)) then None
    else if negb (re_search (ru_value regex_rule) (ru_value exact)) then None
    else Some (exact_regex_conflict exact regex_rule)) (pairs opposite_regex_rules exact_rules).

Definition lock_exact_conflict (domain desired opposite : string) : RuleConflict :=
  mkRuleConflict "error" "lock_exact_conflict" domain
    ("Local " +:+ desired +:+ " lock conflicts with active exact " +:+ opposite +:+ " rule.")%string.

Definition lock_regex_conflict (domain desired opposite pattern : string) : RuleConflict :=
  mkRuleConflict "error" "lock_regex_conflict" domain
    ("Local " +:+ desired +:+ " lock is matched by active " +:+ opposite +:+ " regex " +:+
       py_repr pattern +:+ ".")%string.

(** The conflicts of one lock. *)
Definition conflicts_of_lock (exact_allow exact_deny regex_allow regex_deny : list rule)
    (lock : string * string) : list RuleConflict :=
  let domain := str_lower (str_strip lock.1) in
  let desired := str_lower (str_strip lock.2) in
  if negb (str_nonempty domain) || negb (String.eqb desired "allow" || String.eqb desired "deny") then []
  else
    let opposite := (if String.eqb desired "allow" then "deny" else "allow")%string in
    let exact := if String.eqb opposite "allow" then exact_allow else exact_deny in
    let regex := if String.eqb opposite "allow" then regex_allow else regex_deny in
    omap (λ r, if same_folded (ru_value r) domain then Some (lock_exact_conflict domain desired opposite)
               else None) exact ++
    omap (λ r, if re_search (ru_value r) domain
               then Some (lock_regex_conflict domain desired opposite (ru_value r)) else None) regex.

Definition _lock_conflicts (locks : list (string * string))
    (exact_allow exact_deny regex_allow regex_deny : list rule) : list RuleConflict :=
  concat (conflicts_of_lock exact_allow exact_deny regex_allow regex_deny <$> locks).

Definition severity_rank (severity : string) : Z :=
  if String.eqb severity "error" then 0 else if String.eqb severity "warning" then 1
  else if String.eqb severity "info" then 2 else 9.

(** The comparison of two tuples of strings, and the sort key: the rank, then
    the kind, the folded subject and the folded details. *)
Fixpoint tuple_leb (l1 l2 : list string) : bool :=
  match l1, l2 with
  | [], _ => true
  | _ :: _, [] => false
  | a :: l1, b :: l2 => str_ltb a b || String.eqb a b && tuple_leb l1 l2
  end.

Definition conflict_key (c : RuleConflict) : list string :=
  [rc_kind c; str_casefold (rc_subject c); str_casefold (rc_details c)].

Definition conflict_leb (a b : RuleConflict) : bool :=
  (severity_rank (rc_severity a) <? severity_rank (rc_severity b)) ||
  (severity_rank (rc_severity a) =? severity_rank (rc_severity b)) &&
    tuple_leb (conflict_key a) (conflict_key b).

(** The rows the detection is given. *)
Record rule_inputs := RuleInputs {
  in_exact_allow : list remote_row;
  in_exact_deny : list remote_row;
  in_regex_allow : list remote_row;
  in_regex_deny : list remote_row;
  in_groups : list (Z * bool);
  in_locks : list (string * string)
}.

Definition exact_allow_of (i : rule_inputs) := _normalize_rule_rows (in_exact_allow i) "allow" "exact".
Definition exact_deny_of (i : rule_inputs) := _normalize_rule_rows (in_exact_deny i) "deny" "exact".
Definition regex_allow_of (i : rule_inputs) := _normalize_rule_rows (in_regex_allow i) "allow" "regex".
Definition regex_deny_of (i : rule_inputs) := _normalize_rule_rows (in_regex_deny i) "deny" "regex".

Definition all_conflicts (i : rule_inputs) : list RuleConflict :=
  _group_conflicts (exact_allow_of i ++ exact_deny_of i ++ regex_allow_of i ++ regex_deny_of i)
    (enabled_groups_of (in_groups i)) ++
  _exact_policy_conflicts (exact_allow_of i) (exact_deny_of i) ++
  _regex_policy_conflicts (regex_allow_of i) (regex_deny_of i) ++
  _exact_regex_conflicts (exact_allow_of i) (regex_deny_of i) ++
  _exact_regex_conflicts (exact_deny_of i) (regex_allow_of i) ++
  _lock_conflicts (in_locks i) (exact_allow_of i) (exact_deny_of i) (regex_allow_of i) (regex_deny_of i).

(** The first loop of [_regex_policy_conflicts] compiles every regex rule, so an
    exception it does not catch comes from there. *)
Definition escaped (i : rule_inputs) : list string := omap (λ r, re_escape (ru_value r)) (regex_allow_of i ++ regex_deny_of i).

Definition detect_rule_conflicts (i : rule_inputs) : result exn (list RuleConflict) :=
  match escaped i with
  | [] => Ok (sort_by conflict_leb (fromkeys (all_conflicts i)))
  | error :: _ => Err (OtherError error)
  end.

(** [ORDER BY list_type, domain] and [ORDER BY domain] *)
Definition lock_leb (a b : string * lock_row) : bool :=
  tuple_leb [lk_list_type a.2; a.1] [lk_list_type b.2; b.1].

Definition list_domain_locks (list_type : option string) (d : db) : list (string * lock_row) :=
  match list_type with
  | Some t => if str_nonempty t
              then sort_by (λ a b, str_leb a.1 b.1)
                     (filter (λ p, lk_list_type p.2 = t) (map_to_list (domain_locks d)))
              else sort_by lock_leb (map_to_list (domain_locks d))
  | None => sort_by lock_leb (map_to_list (domain_locks d))
  end.

(** [fetch_groups] of [pihole_service.py], the ids with [enabled], is a
    parameter. *)
Definition scan_rule_conflicts {srv} `{PiHoleServer srv} (now : Z)
    (fetch_groups : wprog srv (list (Z * bool))) : wprog srv (list RuleConflict) :=
  exact_allow ← fetch_exact_domains "allow";
  exact_deny ← fetch_exact_domains "deny";
  regex_allow ← fetch_regex_domains now "allow";
  regex_deny ← fetch_regex_domains now "deny";
  groups ← fetch_groups;
  locks ← prog_read (λ w, list_domain_locks None (w_db w));
  prog_lift (detect_rule_conflicts (RuleInputs exact_allow exact_deny regex_allow regex_deny groups
    ((λ p, (p.1, lk_list_type p.2)) <$> locks))).
End Regex.

(** * The abstract specification

    [contradiction i c]: the rows, groups and locks of [i] contradict each other
    in the way [c] reports.  It is stated over the rows, without the loops. *)

(** [r] is an enabled row of the list, stripped, under its policy and kind. *)
Definition active (rows : list remote_row) (policy kind : string) (r : rule) : Prop :=
  ∃ row, row ∈ rows ∧ rm_enabled row = true ∧ str_strip (rm_key row) ≠ ""%string ∧
         r = Rule (str_strip (rm_key row)) policy kind (list_to_set (rm_groups row)).

(** Rules without groups apply to every client, so they meet any other rule. *)
Definition same_clients (a b : rule) : Prop :=
  ru_groups a = ∅ ∨ ru_groups b = ∅ ∨ ∃ g, g ∈ ru_groups a ∧ g ∈ ru_groups b.

(** The last row of the group [g] says that it is disabled. *)
Definition disabled_in (groups : list (Z * bool)) (g : Z) : Prop :=
  ∃ before after, groups = before ++ (g, false) :: after ∧ g ∉ after.*1.

Inductive opposite : string → string → Prop :=
  | opposite_allow : opposite "allow" "deny"
  | opposite_deny : opposite "deny" "allow".

Section Spec.
Context `{RegexEngine}.

Definition exact_rule (i : rule_inputs) (policy : string) (r : rule) : Prop :=
  (policy = "allow"%string ∧ active (in_exact_allow i) policy "exact" r) ∨
  (policy = "deny"%string ∧ active (in_exact_deny i) policy "exact" r).

Definition regex_rule (i : rule_inputs) (policy : string) (r : rule) : Prop :=
  (policy = "allow"%string ∧ active (in_regex_allow i) policy "regex" r) ∨
  (policy = "deny"%string ∧ active (in_regex_deny i) policy "regex" r).

Definition any_rule (i : rule_inputs) (r : rule) : Prop :=
  ∃ policy, exact_rule i policy r ∨ regex_rule i policy r.

Inductive contradiction (i : rule_inputs) : RuleConflict → Prop :=
  | unknown_groups r ids :
      any_rule i r → ids ≠ [] → StronglySorted Z.lt ids →
      (∀ g, g ∈ ids ↔ g ∈ ru_groups r ∧ g ∉ (in_groups i).*1) →
      contradiction i (missing_conflict ids r)
  | only_disabled_groups r :
      any_rule i r → ru_groups r ≠ ∅ →
      (∀ g, g ∈ ru_groups r → disabled_in (in_groups i) g) →
      contradiction i (disabled_conflict r)
  | exact_allow_and_deny allow deny :
      exact_rule i "allow" allow → exact_rule i "deny" deny →
      str_casefold (ru_value allow) = str_casefold (ru_value deny) → same_clients allow deny →
      contradiction i (exact_policy_conflict allow)
  | pattern_does_not_compile policy r error :
      regex_rule i policy r → re_compile (ru_value r) = Err error →
      contradiction i (invalid_regex_conflict (ru_value r) error)
  | regex_allow_and_deny allow deny :
      regex_rule i "allow" allow → regex_rule i "deny" deny →
      ru_value allow = ru_value deny → same_clients allow deny →
      contradiction i (regex_policy_conflict allow)
  | regex_matches_exact policy other exact regex search :
      opposite policy other → exact_rule i policy exact → regex_rule i other regex →
      same_clients exact regex →
      re_compile (ru_value regex) = Ok search → search (ru_value exact) = true →
      contradiction i (exact_regex_conflict exact regex)
  | exact_rule_against_lock lock desired other r :
      lock ∈ in_locks i → str_lower (str_strip lock.2) = desired → opposite desired other →
      str_lower (str_strip lock.1) ≠ ""%string → exact_rule i other r →
      str_casefold (ru_value r) = str_casefold (str_lower (str_strip lock.1)) →
      contradiction i (lock_exact_conflict (str_lower (str_strip lock.1)) desired other)
  | regex_against_lock lock desired other r search :
      lock ∈ in_locks i → str_lower (str_strip lock.2) = desired → opposite desired other →
      str_lower (str_strip lock.1) ≠ ""%string → regex_rule i other r →
      re_compile (ru_value r) = Ok search → search (str_lower (str_strip lock.1)) = true →
      contradiction i (lock_regex_conflict (str_lower (str_strip lock.1)) desired other (ru_value r)).
End Spec.

(** * What the parts compute *)

Lemma str_nonempty_true s : str_nonempty s = true ↔ s ≠ ""%string.
Proof. destruct s; split; done. Qed.

Lemma normalize_rows_spec rows policy kind r :
  r ∈ _normalize_rule_rows rows policy kind ↔ active rows policy kind r.
Proof.
  unfold _normalize_rule_rows, active. rewrite list_elem_of_omap. split.
  - intros (row & Hrow & Hr). exists row. cbn zeta in Hr.
    destruct (str_nonempty _) eqn:Hs; [|done]. destruct (rm_enabled row) eqn:He; [|done].
    apply str_nonempty_true in Hs. simpl in Hr. by simplify_eq.
  - intros (row & Hrow & He & Hs & ->). exists row. split; [done|]. cbn zeta.
    apply str_nonempty_true in Hs. by rewrite Hs, He.
Qed.

Lemma groups_overlap_spec a b : _groups_overlap (ru_groups a) (ru_groups b) = true ↔ same_clients a b.
Proof.
  unfold _groups_overlap, same_clients. case_bool_decide as Hempty; [tauto|].
  rewrite bool_decide_eq_true. split.
  - intros (g & Hg)%set_choose_L. right; right. exists g. set_solver.
  - intros [?|[?|(g & ? & ?)]]; [tauto|tauto|]. set_solver.
Qed.

Lemma same_folded_spec a b : same_folded a b = true ↔ str_casefold a = str_casefold b.
Proof. apply String.eqb_eq. Qed.

Lemma elem_of_concat_map {A B} (f : A → list B) (l : list A) y :
  y ∈ concat (f <$> l) ↔ ∃ x, x ∈ l ∧ y ∈ f x.
Proof.
  induction l as [|x l IH]; simpl; [set_solver|]. rewrite elem_of_app, IH. set_solver.
Qed.

Lemma elem_of_pairs {A B} (l1 : list A) (l2 : list B) a b : (a, b) ∈ pairs l1 l2 ↔ a ∈ l1 ∧ b ∈ l2.
Proof. unfold pairs. rewrite elem_of_concat_map. set_solver. Qed.

(** The last row of a group decides. *)
Lemma enabled_groups_snoc groups p :
  enabled_groups_of (groups ++ [p]) = <[p.1 := p.2]> (enabled_groups_of groups).
Proof. unfold enabled_groups_of. by rewrite foldl_app. Qed.

Lemma enabled_groups_known groups g : g ∈ dom (enabled_groups_of groups) ↔ g ∈ groups.*1.
Proof.
  induction groups as [|p groups IH] using rev_ind.
  - unfold enabled_groups_of. simpl. set_solver.
  - rewrite enabled_groups_snoc, fmap_app, elem_of_app, dom_insert, elem_of_union, elem_of_singleton, IH.
    simpl. rewrite list_elem_of_singleton. tauto.
Qed.

Lemma enabled_groups_disabled groups g :
  enabled_groups_of groups !! g = Some false ↔ disabled_in groups g.
Proof.
  induction groups as [|[g' e] groups IH] using rev_ind.
  - split; [done|]. intros (before & after & Hg & _). by destruct before.
  - rewrite enabled_groups_snoc. simpl. rewrite lookup_insert_Some, IH. split.
    + intros [[-> ->]|(Hne & before & after & -> & Hafter)].
      * exists groups, []. split; [done|set_solver].
      * exists before, (after ++ [(g', e)]). split; [by rewrite <-app_assoc|]. set_solver.
    + intros (before & after & Heq & Hafter).
      destruct after as [|p after _] using rev_ind.
      * apply app_inj_tail in Heq as [-> Heq]. simplify_eq. by left.
      * right. replace (before ++ (g, false) :: after ++ [p]) with ((before ++ (g, false) :: after) ++ [p])
          in Heq by (by rewrite <-app_assoc).
        apply app_inj_tail in Heq as [-> <-]. rewrite fmap_app, not_elem_of_app in Hafter.
        destruct Hafter as [Hafter Hlast]. split; [|by exists before, after].
        intros ->. apply Hlast. by left.
Qed.

Lemma or_iff_compat (A B C D : Prop) : (A ↔ C) → (B ↔ D) → (A ∨ B ↔ C ∨ D).
Proof. tauto. Qed.

Lemma sorted_lt_le (l : list Z) : StronglySorted Z.lt l → StronglySorted Z.le l ∧ NoDup l.
Proof.
  induction 1 as [|x l Hl [IH1 IH2] Hx]; [split; constructor|]. rewrite Forall_forall in Hx. split.
  - constructor; [done|]. apply Forall_forall. intros y Hy%Hx. lia.
  - constructor; [|done]. intros Hin%Hx. lia.
Qed.

Lemma sorted_le_lt (l : list Z) : StronglySorted (λ a b, (a <=? b) = true) l → NoDup l → StronglySorted Z.lt l.
Proof.
  induction 1 as [|x l Hl IH Hx]; intros Hnd; [constructor|]. apply NoDup_cons in Hnd as [Hnot Hnd].
  constructor; [by apply IH|]. rewrite Forall_forall in *. intros y Hy. specialize (Hx y Hy).
  assert (x ≠ y) by (intros ->; done). lia.
Qed.

(** [sorted] of a set of integers. *)
Lemma sorted_set_spec (X : gset Z) ids :
  sort_by Z.leb (elements X) = ids ↔ StronglySorted Z.lt ids ∧ ∀ g, g ∈ ids ↔ g ∈ X.
Proof.
  assert (StronglySorted Z.lt (sort_by Z.leb (elements X))) as Hsorted.
  { apply sorted_le_lt.
    - apply sort_by_sorted; intros; lia.
    - rewrite sort_by_Permutation. apply NoDup_elements. }
  assert (∀ g, g ∈ sort_by Z.leb (elements X) ↔ g ∈ X) as Helem
    by (intros g; by rewrite elem_of_sort_by, elem_of_elements).
  split; [intros <-; done|]. intros [Hids Hg].
  apply sorted_lt_le in Hids as [Hids Hnd]. apply sorted_lt_le in Hsorted as [Hsorted Hnd'].
  apply (StronglySorted_unique Z.le); [done..|]. apply NoDup_Permutation; [done..|].
  intros g. by rewrite Helem, Hg.
Qed.

Lemma group_conflicts_spec rules groups c :
  c ∈ _group_conflicts rules (enabled_groups_of groups) ↔
  ∃ r, r ∈ rules ∧
    ((∃ ids, ids ≠ [] ∧ (StronglySorted Z.lt ids ∧ ∀ g, g ∈ ids ↔ g ∈ ru_groups r ∧ g ∉ groups.*1) ∧
             c = missing_conflict ids r) ∨
     (ru_groups r ≠ ∅ ∧ (∀ g, g ∈ ru_groups r → disabled_in groups g) ∧ c = disabled_conflict r)).
Proof.
  unfold _group_conflicts. rewrite elem_of_concat_map. apply exist_proper. intros r.
  apply and_iff_compat_l. rewrite elem_of_app. apply or_iff_compat.
  - assert (∀ ids, missing_groups (enabled_groups_of groups) r = ids ↔
      StronglySorted Z.lt ids ∧ ∀ g, g ∈ ids ↔ g ∈ ru_groups r ∧ g ∉ groups.*1) as Hids.
    { intros ids. unfold missing_groups. rewrite sorted_set_spec. apply and_iff_compat_l.
      apply forall_proper. intros g. by rewrite elem_of_difference, enabled_groups_known. }
    destruct (missing_groups _ r) as [|g ids] eqn:Em; split.
    + by intros ?%elem_of_nil.
    + intros (ids & Hne & Hspec%Hids & _). congruence.
    + intros ->%list_elem_of_singleton. exists (g :: ids). split; [done|]. split; [by apply Hids|done].
    + intros (ids' & _ & <-%Hids & ->). by left.
  - assert (ru_groups r ⊆ list_to_set (disabled_groups (enabled_groups_of groups) r) ↔
            ∀ g, g ∈ ru_groups r → disabled_in groups g) as Hsub.
    { unfold disabled_groups. rewrite elem_of_subseteq. apply forall_proper. intros g.
      rewrite elem_of_list_to_set, elem_of_sort_by, list_elem_of_filter, elem_of_elements,
        enabled_groups_disabled. tauto. }
    case_bool_decide as Hcond.
    + rewrite list_elem_of_singleton. tauto.
    + rewrite elem_of_nil. tauto.
Qed.

Lemma exact_policy_spec allows denies c :
  c ∈ _exact_policy_conflicts allows denies ↔
  ∃ allow deny, allow ∈ allows ∧ deny ∈ denies ∧
    str_casefold (ru_value allow) = str_casefold (ru_value deny) ∧ same_clients allow deny ∧
    c = exact_policy_conflict allow.
Proof.
  unfold _exact_policy_conflicts. rewrite list_elem_of_omap. split.
  - intros ([allow deny] & [Ha Hd]%elem_of_pairs & Hc). exists allow, deny.
    destruct (same_folded _ _) eqn:Hf; [|done]. destruct (_groups_overlap _ _) eqn:Hg; [|done].
    apply same_folded_spec in Hf. apply groups_overlap_spec in Hg. simpl in Hc. by simplify_eq.
  - intros (allow & deny & Ha & Hd & Hf%same_folded_spec & Hg%groups_overlap_spec & ->).
    exists (allow, deny). by rewrite elem_of_pairs, Hf, Hg.
Qed.

Section Parts.
Context `{RegexEngine}.

Lemma regex_policy_spec allows denies c :
  c ∈ _regex_policy_conflicts allows denies ↔
  (∃ r error, (r ∈ allows ∨ r ∈ denies) ∧ re_compile (ru_value r) = Err error ∧
              c = invalid_regex_conflict (ru_value r) error) ∨
  (∃ allow deny, allow ∈ allows ∧ deny ∈ denies ∧ ru_value allow = ru_value deny ∧
                 same_clients allow deny ∧ c = regex_policy_conflict allow).
Proof.
  unfold _regex_policy_conflicts. rewrite elem_of_app, !list_elem_of_omap. apply or_iff_compat.
  - split.
    + intros (pattern & Hp & Hc). rewrite elem_of_fromkeys in Hp.
      apply list_elem_of_fmap in Hp as (r & -> & Hr%elem_of_app).
      destruct (re_compile _) as [|error] eqn:He; [done|]. simplify_eq. by exists r, error.
    + intros (r & error & Hr%elem_of_app & He & ->). exists (ru_value r).
      rewrite elem_of_fromkeys, He. split; [|done]. by apply list_elem_of_fmap_2.
  - split.
    + intros ([allow deny] & [Ha Hd]%elem_of_pairs & Hc). exists allow, deny.
      destruct (String.eqb _ _) eqn:Hf; [|done]. destruct (_groups_overlap _ _) eqn:Hg; [|done].
      apply String.eqb_eq in Hf. apply groups_overlap_spec in Hg. simpl in Hc. by simplify_eq.
    + intros (allow & deny & Ha & Hd & Hf%String.eqb_eq & Hg%groups_overlap_spec & ->).
      exists (allow, deny). by rewrite elem_of_pairs, Hf, Hg.
Qed.

Lemma re_search_spec pattern text :
  re_search pattern text = true ↔ ∃ search, re_compile pattern = Ok search ∧ search text = true.
Proof.
  unfold re_search. destruct (re_compile pattern) as [search|error].
  - split; [by exists search|]. by intros (search' & [= ->] & ?).
  - split; [done|]. by intros (search' & ? & ?).
Qed.

Lemma exact_regex_spec exacts regexes c :
  c ∈ _exact_regex_conflicts exacts regexes ↔
  ∃ exact regex search, exact ∈ exacts ∧ regex ∈ regexes ∧ same_clients exact regex ∧
    re_compile (ru_value regex) = Ok search ∧ search (ru_value exact) = true ∧
    c = exact_regex_conflict exact regex.
Proof.
  unfold _exact_regex_conflicts. rewrite list_elem_of_omap. split.
  - intros ([regex exact] & [Hr He]%elem_of_pairs & Hc).
    destruct (_groups_overlap _ _) eqn:Hg; [|done]. destruct (re_search _ _) eqn:Hs; [|done].
    apply groups_overlap_spec in Hg. apply re_search_spec in Hs as (search & Hs & Hm).
    simpl in Hc. simplify_eq. by exists exact, regex, search.
  - intros (exact & regex & search & He & Hr & Hg%groups_overlap_spec & Hs & Hm & ->).
    exists (regex, exact). rewrite elem_of_pairs, Hg. split; [done|].
    assert (re_search (ru_value regex) (ru_value exact) = true) as -> by (apply re_search_spec; eauto).
    done.
Qed.

(** The rules of a policy, and the opposite policy of a lock. *)
Lemma lock_conflicts_spec locks ea ed ra rd c :
  c ∈ _lock_conflicts locks ea ed ra rd ↔
  ∃ lock desired other, lock ∈ locks ∧ str_lower (str_strip lock.2) = desired ∧ opposite desired other ∧
    str_lower (str_strip lock.1) ≠ ""%string ∧
    ((∃ r, r ∈ (if String.eqb other "allow" then ea else ed) ∧
           str_casefold (ru_value r) = str_casefold (str_lower (str_strip lock.1)) ∧
           c = lock_exact_conflict (str_lower (str_strip lock.1)) desired other) ∨
     (∃ r search, r ∈ (if String.eqb other "allow" then ra else rd) ∧
           re_compile (ru_value r) = Ok search ∧ search (str_lower (str_strip lock.1)) = true ∧
           c = lock_regex_conflict (str_lower (str_strip lock.1)) desired other (ru_value r))).
Proof.
  unfold _lock_conflicts. rewrite elem_of_concat_map.
  assert (∀ lock, c ∈ conflicts_of_lock ea ed ra rd lock ↔
    str_lower (str_strip lock.1) ≠ ""%string ∧
    ∃ other, opposite (str_lower (str_strip lock.2)) other ∧
      ((∃ r, r ∈ (if String.eqb other "allow" then ea else ed) ∧
             same_folded (ru_value r) (str_lower (str_strip lock.1)) = true ∧
             c = lock_exact_conflict (str_lower (str_strip lock.1)) (str_lower (str_strip lock.2)) other) ∨
       (∃ r, r ∈ (if String.eqb other "allow" then ra else rd) ∧
             re_search (ru_value r) (str_lower (str_strip lock.1)) = true ∧
             c = lock_regex_conflict (str_lower (str_strip lock.1)) (str_lower (str_strip lock.2)) other
                   (ru_value r)))) as Hlock.
  { intros [lock list_type]. unfold conflicts_of_lock. cbn zeta. cbn [fst snd].
    generalize (str_lower (str_strip lock)) as domain, (str_lower (str_strip list_type)) as desired.
    intros domain desired. destruct (str_nonempty domain) eqn:Hdomain; cbn [negb orb].
    2: { split; [by intros ?%elem_of_nil|]. intros [Hne%str_nonempty_true _]. congruence. }
    apply str_nonempty_true in Hdomain.
    assert (∀ policy, opposite desired policy ↔
      (desired = "allow"%string ∨ desired = "deny"%string) ∧
      policy = (if String.eqb desired "allow" then "deny" else "allow")%string) as Hopp.
    { intros policy. split; [by intros []; auto|]. intros [[-> | ->] ->]; constructor. }
    destruct (_ || _) eqn:Hdesired; cbn [negb].
    2: { apply orb_false_iff in Hdesired as [H1%String.eqb_neq H2%String.eqb_neq].
         split; [by intros ?%elem_of_nil|]. intros (_ & policy & [[?|?] _]%Hopp & _); congruence. }
    apply orb_true_iff in Hdesired. rewrite !String.eqb_eq in Hdesired.
    generalize dependent (if String.eqb desired "allow" then "deny" else "allow")%string.
    intros other Hopp. rewrite elem_of_app, !list_elem_of_omap. split.
    - intros Hc. split; [done|]. exists other. split; [by apply Hopp|].
      destruct Hc as [(r & Hr & Hc)|(r & Hr & Hc)]; [left|right]; exists r; case_match; by simplify_eq.
    - intros (_ & policy & [_ ->]%Hopp & [(r & Hr & Hm & ->)|(r & Hr & Hm & ->)]);
        [left|right]; exists r; by rewrite Hm. }
  split.
  - intros (lock & Hin & (Hne & other & Hopp & Hc)%Hlock).
    exists lock, (str_lower (str_strip lock.2)), other. do 4 (split; [done|]).
    destruct Hc as [(r & Hr & Hm%same_folded_spec & ->)|(r & Hr & (search & ? & ?)%re_search_spec & ->)];
      [left; by exists r|right; by exists r, search].
  - intros (lock & desired & other & Hin & <- & Hopp & Hne & Hc).
    exists lock. split; [done|]. apply Hlock. split; [done|]. exists other. split; [done|].
    destruct Hc as [(r & Hr & Hm%same_folded_spec & ->)|(r & search & Hr & Hs & Hm & ->)];
      [left; by exists r|right; exists r]. rewrite re_search_spec. eauto.
Qed.

Lemma exact_allow_rule i r : r ∈ exact_allow_of i ↔ exact_rule i "allow" r.
Proof. unfold exact_rule. rewrite <-!normalize_rows_spec. naive_solver. Qed.
Lemma exact_deny_rule i r : r ∈ exact_deny_of i ↔ exact_rule i "deny" r.
Proof. unfold exact_rule. rewrite <-!normalize_rows_spec. naive_solver. Qed.
Lemma regex_allow_rule i r : r ∈ regex_allow_of i ↔ regex_rule i "allow" r.
Proof. unfold regex_rule. rewrite <-!normalize_rows_spec. naive_solver. Qed.
Lemma regex_deny_rule i r : r ∈ regex_deny_of i ↔ regex_rule i "deny" r.
Proof. unfold regex_rule. rewrite <-!normalize_rows_spec. naive_solver. Qed.

Lemma some_rule i r :
  r ∈ exact_allow_of i ++ exact_deny_of i ++ regex_allow_of i ++ regex_deny_of i ↔ any_rule i r.
Proof.
  rewrite !elem_of_app, exact_allow_rule, exact_deny_rule, regex_allow_rule, regex_deny_rule.
  unfold any_rule. split; [intros [?|[?|[?|?]]]; eauto|].
  intros (policy & [Hr|Hr]); (assert (policy = "allow" ∨ policy = "deny")%string as [-> | ->]
    by (destruct Hr as [[? _]|[? _]]; auto)); tauto.
Qed.

Lemma policy_rules desired other i r :
  opposite desired other →
  (r ∈ (if String.eqb other "allow" then exact_allow_of i else exact_deny_of i) ↔ exact_rule i other r) ∧
  (r ∈ (if String.eqb other "allow" then regex_allow_of i else regex_deny_of i) ↔ regex_rule i other r).
Proof.
  intros []; cbn [String.eqb Ascii.eqb Bool.eqb];
    (split; [apply exact_allow_rule || apply exact_deny_rule|apply regex_allow_rule || apply regex_deny_rule]).
Qed.

Lemma all_conflicts_spec i c : c ∈ all_conflicts i ↔ contradiction i c.
Proof.
  unfold all_conflicts. rewrite !elem_of_app, group_conflicts_spec, exact_policy_spec, regex_policy_spec,
    !exact_regex_spec, lock_conflicts_spec. split.
  - intros [(r & Hr%some_rule & [(ids & ? & [? ?] & ->)|(? & ? & ->)])|
      [(a & d & Ha%exact_allow_rule & Hd%exact_deny_rule & ? & ? & ->)|
      [[(r & error & Hr & ? & ->)|(a & d & Ha%regex_allow_rule & Hd%regex_deny_rule & ? & ? & ->)]|
      [(x & y & search & Hx%exact_allow_rule & Hy%regex_deny_rule & ? & ? & ? & ->)|
      [(x & y & search & Hx%exact_deny_rule & Hy%regex_allow_rule & ? & ? & ? & ->)|
       (lock & desired & other & ? & ? & Hopp & ? &
         [(r & Hr%(policy_rules _ _ i r Hopp) & ? & ->)|(r & search & Hr%(policy_rules _ _ i r Hopp) & ? & ? & ->)])]]]]].
    1: by apply unknown_groups.
    1: by apply only_disabled_groups.
    1: by eapply exact_allow_and_deny.
    1: { destruct Hr as [Hr%regex_allow_rule|Hr%regex_deny_rule]; by eapply pattern_does_not_compile. }
    1: by eapply regex_allow_and_deny.
    1: by eapply (regex_matches_exact i "allow" "deny" x y); eauto using opposite.
    1: by eapply (regex_matches_exact i "deny" "allow" x y); eauto using opposite.
    1: by eapply exact_rule_against_lock.
    by eapply regex_against_lock.
  - intros [r ids Hr%some_rule ? ? ?|r Hr%some_rule ? ?|a d Ha%exact_allow_rule Hd%exact_deny_rule ? ?|
      policy r error Hr ?|a d Ha%regex_allow_rule Hd%regex_deny_rule ? ?|
      policy other x y search Hopp Hx Hy ? ? ?|lock desired other r ? ? Hopp ? Hr ?|
      lock desired other r search ? ? Hopp ? Hr ? ?].
    + left. exists r. split; [done|]. left. by exists ids.
    + left. exists r. split; [done|]. by right.
    + right; left. by exists a, d.
    + right; right; left. left. exists r, error. split; [|done].
      destruct Hr as [[-> Hr]|[-> Hr]]; [left; apply regex_allow_rule|right; apply regex_deny_rule];
        unfold regex_rule; auto.
    + right; right; left. right. by exists a, d.
    + destruct Hopp; [do 3 right; left|do 4 right; left]; exists x, y, search;
        rewrite ?exact_allow_rule, ?exact_deny_rule, ?regex_allow_rule, ?regex_deny_rule; by split_and!.
    + do 5 right. exists lock, desired, other. do 4 (split; [done|]). left. exists r.
      split; [by apply (policy_rules desired)|done].
    + do 5 right. exists lock, desired, other. do 4 (split; [done|]). right. exists r, search.
      split; [by apply (policy_rules desired)|done].
Qed.
End Parts.

(** * The order of the report *)

Lemma tuple_leb_cons a l1 b l2 :
  tuple_leb (a :: l1) (b :: l2) = true ↔ (str_leb b a = false ∨ a = b ∧ tuple_leb l1 l2 = true).
Proof.
  cbn [tuple_leb]. rewrite orb_true_iff, andb_true_iff, str_ltb_leb, negb_true_iff, String.eqb_eq. reflexivity.
Qed.

Lemma tuple_leb_total l1 l2 : tuple_leb l1 l2 = true ∨ tuple_leb l2 l1 = true.
Proof.
  revert l2. induction l1 as [|a l1 IH]; intros [|b l2]; [by left..|by right|].
  rewrite !tuple_leb_cons. destruct (str_leb b a) eqn:Hba; [|auto].
  destruct (str_leb a b) eqn:Hab; [|auto]. pose proof (str_leb_antisym _ _ Hab Hba) as ->.
  destruct (IH l2); auto.
Qed.

Lemma tuple_leb_trans l1 l2 l3 : tuple_leb l1 l2 = true → tuple_leb l2 l3 = true → tuple_leb l1 l3 = true.
Proof.
  revert l2 l3. induction l1 as [|a l1 IH]; intros [|b l2] [|c l3]; try done.
  rewrite !tuple_leb_cons. intros [Hba|[-> H12]] [Hcb|[-> H23]]; auto; [|right; eauto].
  left. destruct (str_leb c a) eqn:Hca; [|done].
  destruct (str_leb_total a b) as [Hab|Hab]; [|congruence].
  pose proof (str_leb_trans _ _ _ Hca Hab). congruence.
Qed.

Lemma conflict_leb_true a b :
  conflict_leb a b = true ↔
  severity_rank (rc_severity a) < severity_rank (rc_severity b) ∨
  severity_rank (rc_severity a) = severity_rank (rc_severity b) ∧
    tuple_leb (conflict_key a) (conflict_key b) = true.
Proof. unfold conflict_leb. rewrite orb_true_iff, andb_true_iff, Z.ltb_lt, Z.eqb_eq. reflexivity. Qed.

Lemma conflict_leb_total a b : conflict_leb a b = true ∨ conflict_leb b a = true.
Proof.
  rewrite !conflict_leb_true.
  destruct (Z.lt_total (severity_rank (rc_severity a)) (severity_rank (rc_severity b))) as [|[Heq|]]; [tauto| |tauto].
  rewrite Heq. destruct (tuple_leb_total (conflict_key a) (conflict_key b)); auto.
Qed.

Lemma conflict_leb_trans a b c : conflict_leb a b = true → conflict_leb b c = true → conflict_leb a c = true.
Proof.
  rewrite !conflict_leb_true. pose proof (tuple_leb_trans (conflict_key a) (conflict_key b) (conflict_key c)).
  intros [|[? ?]] [|[? ?]]; [left; lia..|]. right. split; [lia|auto].
Qed.

Lemma sorted_mono {A} (R S : A → A → Prop) l :
  (∀ x y, R x y → S x y) → StronglySorted R l → StronglySorted S l.
Proof. intros HRS. induction 1; constructor; [done|]. eapply Forall_impl; [eassumption|]. simpl. auto. Qed.

(** C33: the report holds exactly the contradictions of the rules, groups and
    locks, as the abstract specification [contradiction] lists them: no conflict
    is missed and none is invented; each is reported once, and the errors come
    before the warnings, in the order of kind, subject and details; and there is
    a report unless compiling an active regex rule raises something other than
    [re.error], which then escapes. *)
Theorem report_is_sound_and_complete `{RegexEngine} i :
  match detect_rule_conflicts i with
  | Ok report =>
      (∀ c, c ∈ report ↔ contradiction i c) ∧
      NoDup report ∧
      StronglySorted (λ a b, severity_rank (rc_severity a) < severity_rank (rc_severity b) ∨
        severity_rank (rc_severity a) = severity_rank (rc_severity b) ∧
          tuple_leb (conflict_key a) (conflict_key b) = true) report
  | Err e => ∃ policy r error, regex_rule i policy r ∧ re_escape (ru_value r) = Some error ∧ e = OtherError error
  end.
Proof.
  unfold detect_rule_conflicts. destruct (escaped i) as [|error rest] eqn:Ee.
  - split_and!.
    + intros c. by rewrite elem_of_sort_by, elem_of_fromkeys, all_conflicts_spec.
    + rewrite sort_by_Permutation. apply fromkeys_NoDup.
    + eapply sorted_mono; [intros a b; apply conflict_leb_true|].
      apply sort_by_sorted; [apply conflict_leb_total|apply conflict_leb_trans].
  - assert (error ∈ escaped i) as Hin by (rewrite Ee; left). apply list_elem_of_omap in Hin as (r & Hr & He).
    apply elem_of_app in Hr as [Hr%regex_allow_rule|Hr%regex_deny_rule]; by eexists _, r, error.
Qed.

(** ** A concrete report *)

(** A small engine: a pattern is searched as plain text, and an open
    parenthesis alone does not compile. *)
#[local] Instance substring_engine : RegexEngine := {
  re_compile pattern := if String.eqb pattern "(" then Err "missing ), unterminated subpattern"%string
                        else Ok (str_contains pattern);
  re_escape pattern := if str_contains "{99999999999}" pattern then Some "the repetition number is too large"%string else None;
  py_repr s := ("'" +:+ s +:+ "'")%string
}.

Definition cx_row (key : string) (groups : list Z) : remote_row := RemoteRow key "" "" true groups.

Definition cx_inputs : rule_inputs :=
  RuleInputs [cx_row "ads.example" [0]; cx_row "cdn.example" [1]] [cx_row "ADS.example" []; cx_row "x.test" [7]]
    [] [cx_row "cdn" [2]; cx_row "cdn" [1; 2]; cx_row "(" [0]]
    [(0, true); (1, true); (2, true); (2, false)] [("x.test", "allow"); ("cdn.example", "maybe")]%string.

Example cx_report :
  (λ c, (rc_kind c, rc_subject c)) <$> (match detect_rule_conflicts cx_inputs with Ok report => report | Err _ => [] end) =
  [("exact_policy_overlap", "ads.example"); ("invalid_regex", "("); ("lock_exact_conflict", "x.test");
   ("missing_group", "exact deny: x.test"); ("disabled_groups_only", "regex deny: cdn");
   ("exact_regex_overlap", "cdn.example")]%string.
Proof. vm_compute. reflexivity. Qed.

(** One rule with a huge repetition, and there is no report at all. *)
Example a_huge_repetition_ends_the_scan :
  detect_rule_conflicts (RuleInputs (in_exact_allow cx_inputs) (in_exact_deny cx_inputs) [cx_row "a{99999999999}" []] [] [] []) =
  Err (OtherError "the repetition number is too large").
Proof. vm_compute. reflexivity. Qed.
