(* ===== verification/Scanner.v ===== *)
(** The scanner thread of [pihole_manager/workers.py]: [Scanner.__init__], a
    cycle of [Scanner.run], the history backfill and the loop with its backoff.

    The scanner keeps its cursor in memory and in the table [app_state]; what it
    reads is recorded by the operations of [Queue].  Pi-hole and the clocks are
    parameters: a [cycle_env] has what one cycle sees of them. *)
From stdpp Require Import base gmap strings list.
From Stdlib Require Import QArith Qround Lqa Sorted.
From S2P Require Import Prelude Models Database Queue ReviewDb PiHole.
Open Scope Z_scope.

(** * State *)

(** A value of [app_state], as [float()] reads it: the text of a number, or a
    text that is none. *)
Inductive app_value := Number (q : Q) | Text (s : string).

Record scanner := Scanner {
  sc_db : db;
  sc_app_state : gmap string app_value;
  sc_from_ts : Q;
  sc_last_live_activity : Q
}.

Definition set_from_ts (q : Q) (s : scanner) : scanner :=
  Scanner (sc_db s) (sc_app_state s) q (sc_last_live_activity s).
Definition set_live (q : Q) (s : scanner) : scanner :=
  Scanner (sc_db s) (sc_app_state s) (sc_from_ts s) q.
Definition set_state (key : string) (v : app_value) (s : scanner) : scanner :=
  Scanner (sc_db s) (<[key := v]> (sc_app_state s)) (sc_from_ts s) (sc_last_live_activity s).

(** [f"{q:.6f}"], read back *)
Definition fixed6 (q : Q) : Q := (zq (py_round (q * 1000000)) / 1000000)%Q.

(** A row of [fetch_query_page]: the time is a float already. *)
Record page_row := PageRow {
  pg_time : Q;
  pg_client : string;
  pg_domain : string;
  pg_type : string;
  pg_status : string
}.

Definition as_query_row (r : page_row) : query_row :=
  QueryRow (pg_domain r) (pg_client r) (pg_type r) (pg_status r) (Time (pg_time r)).

(** What a cycle sees: the options, the summary of a failed connection test,
    the query log, the order in which Python walks a set of names, and the
    clocks, one reading per call. *)
Record cycle_env := CycleEnv {
  ce_options : ScanOptions;
  ce_connection : option string;
  ce_fetch_queries : Z → Q → option Q → result exn (list page_row);
  ce_set_order : list string → list string;
  ce_record_time : Z;
  ce_needing_time : Z;
  ce_recheck_time : Z;
  ce_backfill_time : Q;
  ce_discover_time : Z;
  ce_backfill_needing_time : Z;
  ce_monotonic : Q;
  ce_backfill_monotonic : Q
}.

Abbreviation sprog := (prog scanner exn).

Definition on_db {A} (m : dbprog A) : sprog A := λ s,
  let '(r, d) := m (sc_db s) in
  (r, Scanner d (sc_app_state s) (sc_from_ts s) (sc_last_live_activity s)).
Definition modify (f : scanner → scanner) : sprog unit := λ s, (Ok tt, f s).

(** [float(get_state(key, default))] *)
Definition get_float (key : string) (default : Q) : sprog Q := λ s,
  match sc_app_state s !! key with
  | None => (Ok default, s)
  | Some (Number q) => (Ok q, s)
  | Some (Text _) => (Err (ValueError "could not convert string to float"), s)
  end.

(** [float(get_state(key, "0") or 0)] *)
Definition get_float_or_zero (key : string) : sprog Q := λ s,
  match sc_app_state s !! key with
  | Some (Text t) => if str_nonempty t then get_float key 0 s else (Ok 0%Q, s)
  | _ => get_float key 0 s
  end.

(** * [Scanner.__init__] *)
Definition scanner_init (now : Q) (monotonic : Q) (options : ScanOptions) (d : db)
    (state : gmap string app_value) : scanner :=
  let fallback := (now - zq (so_initial_lookback_sec options))%Q in
  let stored := match state !! "scanner_from_ts"%string with
                | Some (Number q) => q
                | Some (Text _) | None => fallback
                end in
  let stored := if Qle_bool stored 0 || qltb (now + 60)%Q stored then fallback else stored in
  Scanner d state stored monotonic.

(** * A cycle *)

(** [{... for row in rows if ...}] *)
Definition domains_of (e : cycle_env) (rows : list page_row) : list string :=
  ce_set_order e (fromkeys (filter (λ d, str_nonempty d = true)
                              ((λ r, str_lower (str_strip (pg_domain r))) <$> rows))).

Definition max_time (rows : list page_row) (start : Q) : Q := foldr (λ r, qmax (pg_time r)) start rows.
Definition min_time (rows : list page_row) (start : Q) : Q := foldr (λ r, qmin (pg_time r)) start rows.

Definition _run_history_backfill (e : cycle_env) : sprog unit :=
  let o := ce_options e in
  let now := ce_backfill_time e in
  last_completed ← get_float_or_zero "history_backfill_completed_at";
  if qltb (now - last_completed) 21600 then mret tt
  else
    let start_ts := (now - zq (so_history_lookback_days o * 86400))%Q in
    stored ← prog_read (λ s, sc_app_state s !! "history_backfill_until_ts"%string);
    let until_ts := match stored with Some (Number q) => q | _ => now end in
    let until_ts := if Qle_bool until_ts start_ts || qltb (now + 60) until_ts then now else until_ts in
    rows ← prog_lift (ce_fetch_queries e (so_history_batch_size o) start_ts (Some until_ts));
    match rows with
    | [] =>
        _ ← modify (set_state "history_backfill_completed_at" (Number (zq (py_int now))));
        _ ← modify (set_state "history_backfill_until_ts" (Number now));
        modify (set_live (ce_backfill_monotonic e))
    | _ =>
        _ ← on_db (record_discovered_domains (ce_discover_time e) (as_query_row <$> rows));
        _ ← on_db (queue_domains_needing_analysis (so_excluded_domain_suffixes o)
                     (ce_backfill_needing_time e) (domains_of e rows) false);
        let next_until := match filter (λ r, Qeq_bool (pg_time r) 0 = false) rows with
                          | [] => start_ts
                          | r :: rows => (min_time rows (pg_time r) - (1 # 1000))%Q
                          end in
        _ ← modify (set_state "history_backfill_until_ts" (Number (fixed6 next_until)));
        if Qle_bool next_until start_ts || (Z.of_nat (length rows) <? so_history_batch_size o)
        then
          _ ← modify (set_state "history_backfill_completed_at" (Number (zq (py_int now))));
          _ ← modify (set_state "history_backfill_until_ts" (Number now));
          modify (set_live (ce_backfill_monotonic e))
        else mret tt
    end.

(** What follows the queueing: the cursor moves past the rows, or an idle
    scanner looks at the history. *)
Definition advance (e : cycle_env) (rows : list page_row) : sprog unit :=
  let o := ce_options e in
  match rows with
  | r :: rows =>
      _ ← modify (λ s, set_from_ts (qmax (sc_from_ts s) (max_time rows (pg_time r) + (1 # 1000))) s);
      _ ← modify (λ s, set_state "scanner_from_ts" (Number (fixed6 (sc_from_ts s))) s);
      modify (set_live (ce_monotonic e))
  | [] =>
      last_live ← prog_read sc_last_live_activity;
      if so_history_backfill_enabled o &&
         Qle_bool (zq (so_history_idle_after_sec o)) (ce_monotonic e - last_live)
      then _run_history_backfill e else mret tt
  end.

(** [row["time"] > self._from_ts] *)
Definition newer (from : Q) (rows : list page_row) : list page_row :=
  filter (λ r, qltb from (pg_time r) = true) rows.

Definition request_from (from : Q) : Q := zq (Z.max 0 (py_int from)).

(** The body of the [try] block of [run]. *)
Definition scanner_cycle (e : cycle_env) : sprog unit :=
  let o := ce_options e in
  match ce_connection e with
  | Some summary => prog_raise (RuntimeError summary)
  | None =>
      from ← prog_read sc_from_ts;
      fetched ← prog_lift (ce_fetch_queries e (so_batch_size o) (request_from from) None);
      let rows := newer from fetched in
      _ ← on_db (record_query_observations (ce_record_time e) (as_query_row <$> rows));
      _ ← on_db (queue_domains_needing_analysis (so_excluded_domain_suffixes o) (ce_needing_time e)
                   (domains_of e rows) false);
      _ ← advance e rows;
      _ ← on_db (queue_due_rechecks (so_excluded_domain_suffixes o) (ce_recheck_time e) (so_batch_size o));
      mret tt
  end.

(** * The loop *)

(** One pass of the loop: the seconds it waits for, the next backoff and the
    state. *)
Definition scanner_pass (e : cycle_env) (backoff : Z) (s : scanner) : Z * Z * scanner :=
  if negb (so_enabled (ce_options e)) then (so_interval_sec (ce_options e), backoff, s)
  else
    let '(r, s') := scanner_cycle e s in
    match r with
    | Ok _ => (so_interval_sec (ce_options e), 1, s')
    | Err _ => (Z.min 60 backoff, Z.min 60 (backoff * 2), s')
    end.

(** [ManagedWorker.wait]: the shortest wait is a tenth of a second. *)
Definition wait_seconds (seconds : Z) : Q := qmax (1 # 10) (zq seconds).

(** A program run is a sequence of passes, with restarts of the program, each
    of which builds a new [Scanner] over the stored tables. *)
Inductive scanner_event :=
  | Pass (e : cycle_env)
  | Restarted (now monotonic : Q) (options : ScanOptions).

Definition scanner_step (ev : scanner_event) (st : Z * scanner) : Z * scanner :=
  match ev with
  | Pass e => let '(_, backoff, s) := scanner_pass e st.1 st.2 in (backoff, s)
  | Restarted now monotonic options =>
      (1, scanner_init now monotonic options (sc_db st.2) (sc_app_state st.2))
  end.

Definition scanner_run (evs : list scanner_event) (st : Z * scanner) : Z * scanner :=
  foldl (λ st ev, scanner_step ev st) st evs.

(** * What the queue operations do for the scanner *)

Lemma query_observations_kept (x : gmap observation_key observation_row) op d :
  query_observations d = x →
  match op with
  | OpEnqueue _ _ _ _ _ _ _ | OpNeeding _ _ _ _ | OpRechecks _ _ _ => query_observations (run_op op d).2 = x
  | _ => True
  end.
Proof.
  apply (producers_keep (λ d, query_observations d = x)).
  - intros now v d1 n d2 He. by apply _ensure_domain_spec in He as (_ & _ & r & ->).
  - intros now p src pool rq c v c' d1 d2 _ _ (_ & _ & _ & _ & _ & r & E)%enqueue_one_spec H.
    by rewrite <-H, <-(f_equal query_observations E : query_observations d2 = query_observations d1).
Qed.

Lemma needing_keeps_observations ex now vs force d :
  query_observations (queue_domains_needing_analysis ex now vs force d).2 = query_observations d.
Proof. exact (query_observations_kept _ (OpNeeding ex now vs force) d eq_refl). Qed.

Lemma rechecks_keep_observations ex now limit d :
  query_observations (queue_due_rechecks ex now limit d).2 = query_observations d.
Proof. exact (query_observations_kept _ (OpRechecks ex now limit) d eq_refl). Qed.

Lemma discovered_keeps_observations clock rows d :
  query_observations (record_discovered_domains clock rows d).2 = query_observations d.
Proof.
  unfold record_discovered_domains. rewrite then_ret_db. apply (keeps_commit query_observations).
  apply keeps_fold. intros u p. apply keeps_bind; [by apply ensure_keeps|intros; apply keeps_ret].
Qed.

Lemma record_keeps_staging clock rows d :
  staging_domains (record_query_observations clock rows d).2 = staging_domains d.
Proof.
  unfold record_query_observations. rewrite then_ret_db. apply (keeps_commit staging_domains).
  apply keeps_fold. intros u [key [[c f] t]]. apply keeps_bind; [by apply ensure_keeps|]. intros n.
  apply keeps_bind; [apply keeps_read|]. intros [r|]; [by apply keeps_write|apply keeps_raise].
Qed.

Lemma needing_fold_ok now values c d :
  (∀ v, v ∈ values → _normalize_domain v ≠ ""%string) →
  ∃ c' d', tx_fold (needing_step now false) c values d = Ok (c', d') ∧
    ∀ x, x ∈ c' → x ∈ c ∨ ∃ v, v ∈ values ∧ x = _normalize_domain v.
Proof.
  revert c d. induction values as [|v values IH]; intros c d Hv; simpl.
  { exists c, d. split; [done|auto]. }
  assert (∃ c1 d1, needing_step now false c v d = Ok (c1, d1) ∧
            (c1 = c ∨ c1 = c ++ [_normalize_domain v])) as (c1 & d1 & E & Hc1).
  { unfold needing_step, mbind, tx_bind.
    destruct (_ensure_domain_ok now v (Some now) 0 d) as [r ->]; [apply Hv; by left|].
    unfold tx_read. cbv [mret tx_ret]. destruct (domain_locks _ !! _); [by eexists _, _; eauto|].
    destruct (needs_analysis _ _ _); eauto. }
  unfold mbind, tx_bind. rewrite E.
  destruct (IH c1 d1) as (c' & d' & -> & Hx); [intros; apply Hv; by right|].
  exists c', d'. split; [done|]. intros x [Hin|(w & Hw & ->)]%Hx.
  - destruct Hc1 as [-> | ->]; [auto|]. apply elem_of_app in Hin as [|Hin]; [auto|].
    apply list_elem_of_singleton in Hin as ->. right. exists v. split; [by left|done].
  - right. exists w. split; [by right|done].
Qed.

Lemma needing_fold_poison now values v c d :
  v ∈ values → _normalize_domain v = ""%string →
  tx_fold (needing_step now false) c values d = Err (ValueError "domain must not be empty").
Proof.
  intros Hin Hn. revert c d.
  assert (∀ w c d, (∃ c' d', needing_step now false c w d = Ok (c', d') ∧ _normalize_domain w ≠ ""%string) ∨
                   needing_step now false c w d = Err (ValueError "domain must not be empty")) as Hstep.
  { intros w c d. unfold needing_step, mbind, tx_bind.
    destruct (decide (_normalize_domain w = ""%string)) as [Hw|Hw].
    - right. unfold _ensure_domain. by rewrite Hw.
    - left. destruct (_ensure_domain_ok now w (Some now) 0 d Hw) as [r ->].
      unfold tx_read. cbv [mret tx_ret]. destruct (domain_locks _ !! _); [eauto|].
      destruct (needs_analysis _ _ _); eauto. }
  induction Hin as [v l|v w l Hin IH]; intros c d; simpl; unfold mbind, tx_bind.
  - destruct (Hstep v c d) as [(c' & d' & _ & Hne)| ->]; [done|done].
  - destruct (Hstep w c d) as [(c' & d' & -> & _)| ->]; [by apply IH|done].
Qed.

Lemma staging_enqueue_ok ex now vs p src pool d :
  (∀ v, v ∈ vs → no_space (_normalize_domain v) = true) →
  ∃ n d', staging_enqueue ex now vs p src pool d = (Ok n, d').
Proof.
  intros Hvs. unfold staging_enqueue, staging_enqueue_detailed, mbind, prog_bind. cbn zeta.
  set (names := filter _ (unique_normalized vs)).
  assert (NoDup names) as Hnd by apply NoDup_filter, unique_normalized_NoDup.
  assert (Forall stable_name names) as Hst.
  { apply Forall_forall. unfold names. intros n [_ Hn]%list_elem_of_filter.
    apply unique_normalized_spec in Hn as (Hne & v & Hv & ->). split; [|done].
    by apply normalize_domain_fixed, Hvs. }
  destruct (enqueue_fold_stable now (Z.max 0 p) (str_strip src)
    (_queue_pool_id pool (Z.max 0 p) (str_strip src)) false names (Counts 0 0 0 0) d Hnd Hst)
    as (c' & d' & E & _).
  rewrite (commit_ok _ _ _ _ E). cbv [mret prog_ret]. eauto.
Qed.

Lemma queue_needing_ok ex now vs d :
  (∀ v, v ∈ vs → _normalize_domain v ≠ ""%string ∧ no_space (_normalize_domain v) = true) →
  ∃ n d', queue_domains_needing_analysis ex now vs false d = (Ok n, d').
Proof.
  intros Hvs. unfold queue_domains_needing_analysis, mbind at 1, prog_bind at 1.
  destruct (needing_fold_ok now vs [] d) as (c & d1 & E & Hc); [intros; by apply Hvs|].
  rewrite (commit_ok _ _ _ _ E). apply staging_enqueue_ok.
  intros x [Hx|(v & Hv & ->)]%Hc; [by apply elem_of_nil in Hx|].
  destruct (Hvs v Hv) as [_ Hs]. by rewrite normalize_domain_fixed.
Qed.

Lemma queue_needing_poison ex now vs v d :
  v ∈ vs → _normalize_domain v = ""%string →
  queue_domains_needing_analysis ex now vs false d = (Err (ValueError "domain must not be empty"), d).
Proof.
  intros Hv Hn. unfold queue_domains_needing_analysis, mbind, prog_bind.
  by erewrite commit_err by (by eapply needing_fold_poison).
Qed.

Lemma prog_bind_ok {S E A B} (m : prog S E A) (k : A → prog S E B) s a s' :
  m s = (Ok a, s') → (m ≫= k) s = k a s'.
Proof. intros H. unfold mbind, prog_bind. by rewrite H. Qed.

Lemma prog_bind_err {S E A B} (m : prog S E A) (k : A → prog S E B) s e s' :
  m s = (Err e, s') → (m ≫= k) s = (Err e, s').
Proof. intros H. unfold mbind, prog_bind. by rewrite H. Qed.

(** * What a cycle leaves alone *)

(** The observations, the cursor and its stored value. *)
Definition cursor_view (s : scanner) :=
  (query_observations (sc_db s), sc_from_ts s, sc_app_state s !! "scanner_from_ts"%string).

Lemma on_db_keeps {A} (m : dbprog A) :
  (∀ d, query_observations (m d).2 = query_observations d) → prog_keeps cursor_view (on_db m).
Proof.
  intros Hm s. unfold on_db, cursor_view. specialize (Hm (sc_db s)).
  destruct (m (sc_db s)) as [r d]. simpl in *. by rewrite Hm.
Qed.

Lemma modify_keeps f : (∀ s, cursor_view (f s) = cursor_view s) → prog_keeps cursor_view (modify f).
Proof. intros Hf s. apply Hf. Qed.

Lemma set_state_view key v s :
  key ≠ "scanner_from_ts"%string → cursor_view (set_state key v s) = cursor_view s.
Proof. intros Hk. unfold cursor_view, set_state. simpl. by rewrite lookup_insert_ne. Qed.

Lemma prog_lift_keeps {A} (r : result exn A) : prog_keeps cursor_view (prog_lift r).
Proof. by intros s. Qed.

Lemma get_float_keeps key q : prog_keeps cursor_view (get_float key q).
Proof. intros s. unfold get_float. by destruct (_ !! _) as [[]|]. Qed.

Lemma get_float_or_zero_keeps key : prog_keeps cursor_view (get_float_or_zero key).
Proof.
  intros s. pose proof (get_float_keeps key 0 s). unfold get_float_or_zero.
  destruct (_ !! _) as [[q|t]|]; [done| |done]. by destruct (str_nonempty t).
Qed.

#[local] Hint Resolve pkeeps_ret pkeeps_read pkeeps_bind on_db_keeps modify_keeps set_state_view prog_lift_keeps
  get_float_or_zero_keeps needing_keeps_observations rechecks_keep_observations
  discovered_keeps_observations : wormhole.

Lemma backfill_keeps e : prog_keeps cursor_view (_run_history_backfill e).
Proof.
  unfold _run_history_backfill. cbn zeta.
  apply pkeeps_bind; [auto with wormhole|]. intros last. destruct (qltb _ _); [auto with wormhole|].
  apply pkeeps_bind; [auto with wormhole|]. intros stored.
  apply pkeeps_bind; [auto with wormhole|]. intros rows.
  assert (∀ key v, key ≠ "scanner_from_ts"%string → prog_keeps cursor_view (modify (set_state key v))) as Hst
    by auto with wormhole.
  assert (∀ q, prog_keeps cursor_view (modify (set_live q))) as Hlive by (intros q s; done).
  destruct rows as [|r rows]; repeat (apply pkeeps_bind; [auto with wormhole|intros ?]); auto.
  destruct (_ || _); [|auto with wormhole]. repeat (apply pkeeps_bind; [by apply Hst|intros ?]). apply Hlive.
Qed.

Lemma idle_keeps e : prog_keeps cursor_view (advance e []).
Proof.
  unfold advance. apply pkeeps_bind; [auto with wormhole|]. intros q.
  destruct (_ && _); [apply backfill_keeps|auto with wormhole].
Qed.

(** After the queueing nothing is recorded any more; the cursor moves exactly
    when there were rows. *)
Definition after_queueing (e : cycle_env) (rows : list page_row) : sprog unit :=
  _ ← advance e rows;
  _ ← on_db (queue_due_rechecks (so_excluded_domain_suffixes (ce_options e)) (ce_recheck_time e)
               (so_batch_size (ce_options e)));
  mret tt.

Lemma after_queueing_keeps e s : cursor_view (after_queueing e [] s).2 = cursor_view s.
Proof.
  revert s. unfold after_queueing. apply pkeeps_bind; [apply idle_keeps|]. auto with wormhole.
Qed.

Lemma after_queueing_advances e r rows s :
  let q := qmax (sc_from_ts s) (max_time rows (pg_time r) + (1 # 1000)) in
  cursor_view (after_queueing e (r :: rows) s).2 =
    (query_observations (sc_db s), q, Some (Number (fixed6 q))).
Proof.
  cbn zeta. unfold after_queueing, advance.
  set (rest := on_db (queue_due_rechecks _ _ _)).
  assert (prog_keeps cursor_view (_ ← rest; mret tt)) as Hrest by (unfold rest; auto with wormhole).
  erewrite prog_bind_ok by reflexivity. rewrite Hrest.
  unfold cursor_view, set_live, set_state, set_from_ts. simpl. by rewrite lookup_insert_eq.
Qed.

(** * Every row is recorded once *)

(** A name that is blank, or one that [_normalize_domain] neither empties nor
    leaves with blanks. *)
Definition clean_name (d : string) : Prop :=
  no_space (_normalize_domain d) = true ∧ (str_strip d = ""%string ∨ _normalize_domain d ≠ ""%string).

(** The log has clean names and no time after [latest]; the order of a set is
    some order of its elements. *)
Record env_ok (latest : Q) (e : cycle_env) : Prop := {
  eo_order : ∀ l, ce_set_order e l ≡ₚ l;
  eo_rows : ∀ n from rows r, ce_fetch_queries e n from None = Ok rows → r ∈ rows →
    clean_name (pg_domain r) ∧ (0 < pg_time r <= latest)%Q
}.

(** When the program restarts, Pi-hole's clock is at most 59 seconds ahead. *)
Definition event_ok (latest : Q) (ev : scanner_event) : Prop :=
  match ev with
  | Pass e => env_ok latest e
  | Restarted now _ _ => (latest <= now + 59)%Q
  end.

(** The rows that a pass records. *)
Definition pass_rows (e : cycle_env) (s : scanner) : list page_row :=
  if so_enabled (ce_options e) then
    match ce_connection e with
    | Some _ => []
    | None => match ce_fetch_queries e (so_batch_size (ce_options e)) (request_from (sc_from_ts s)) None with
              | Ok fetched => newer (sc_from_ts s) fetched
              | Err _ => []
              end
    end
  else [].

Definition event_rows (ev : scanner_event) (s : scanner) : list page_row :=
  match ev with Pass e => pass_rows e s | Restarted _ _ _ => [] end.

Fixpoint recorded_batches (evs : list scanner_event) (st : Z * scanner) : list (list page_row) :=
  match evs with
  | [] => []
  | ev :: evs => event_rows ev st.2 :: recorded_batches evs (scanner_step ev st)
  end.

Definition page_key (r : page_row) : observation_key := row_key 0 (as_query_row r).
Definition counted_rows (key : observation_key) (rows : list page_row) : Z :=
  count_if (λ r, valid_row (as_query_row r) && bool_decide (page_key r = key)) rows.

Lemma counted_rows_app key rows1 rows2 :
  counted_rows key (rows1 ++ rows2) = counted_rows key rows1 + counted_rows key rows2.
Proof. unfold counted_rows, count_if. rewrite filter_app, length_app. lia. Qed.

Lemma count_if_map {A B} (f : A → B) (p : B → bool) l : count_if p (f <$> l) = count_if (λ x, p (f x)) l.
Proof.
  unfold count_if. f_equal. induction l as [|x l IH]; [done|]. rewrite fmap_cons, !filter_cons.
  destruct (decide (p (f x) = true)); simpl; lia.
Qed.

Lemma count_if_ext_in {A} (p q : A → bool) l : (∀ x, x ∈ l → p x = q x) → count_if p l = count_if q l.
Proof.
  intros H. unfold count_if. do 2 f_equal. apply list_filter_iff_in. intros x Hx. by rewrite (H x Hx).
Qed.

(** With a time, the key does not depend on the clock. *)
Lemma counted_rows_record clock key rows :
  (∀ r, r ∈ rows → (0 < pg_time r)%Q) →
  count_if (λ r, valid_row r && bool_decide (row_key clock r = key)) (as_query_row <$> rows) =
  counted_rows key rows.
Proof.
  intros Hpos. rewrite count_if_map. apply count_if_ext_in. intros r Hr. unfold page_key, row_key, row_timestamp.
  cbn [qr_time as_query_row]. destruct (Qeq_bool (pg_time r) 0) eqn:E; [|done].
  apply Qeq_bool_iff in E. specialize (Hpos r Hr). lra.
Qed.

Lemma newer_spec from rows r : r ∈ newer from rows ↔ r ∈ rows ∧ (from < pg_time r)%Q.
Proof. unfold newer. rewrite list_elem_of_filter, qltb_true. tauto. Qed.

Lemma elem_of_domains e rows d :
  (∀ l, ce_set_order e l ≡ₚ l) →
  d ∈ domains_of e rows ↔ d ≠ ""%string ∧ ∃ r, r ∈ rows ∧ d = str_lower (str_strip (pg_domain r)).
Proof.
  intros Ho. unfold domains_of. rewrite Ho, elem_of_fromkeys, list_elem_of_filter, list_elem_of_fmap.
  split; intros [Hd (r & ? & ?)]; (split; [by destruct d|eauto]).
Qed.

(** The cycle up to the queueing, on clean rows. *)
Lemma cycle_records latest e s fetched :
  env_ok latest e → ce_connection e = None →
  ce_fetch_queries e (so_batch_size (ce_options e)) (request_from (sc_from_ts s)) None = Ok fetched →
  let rows := newer (sc_from_ts s) fetched in
  ∃ d, scanner_cycle e s =
       after_queueing e rows (Scanner d (sc_app_state s) (sc_from_ts s) (sc_last_live_activity s)) ∧
       ∀ key, observed d key = observed (sc_db s) key + counted_rows key rows.
Proof.
  intros [Horder Hrows] Hconn Hfetch rows.
  assert (∀ r, r ∈ rows → clean_name (pg_domain r) ∧ (0 < pg_time r)%Q) as Hclean.
  { intros r [Hr _]%newer_spec. destruct (Hrows _ _ _ _ Hfetch Hr) as [? [? _]]. done. }
  destruct (observations_are_counted_exactly (ce_record_time e) (as_query_row <$> rows) (sc_db s))
    as (d1 & Hrec & Hobs & _).
  { apply Forall_forall. intros q Hq. apply list_elem_of_fmap in Hq as (r & -> & Hr).
    by destruct (Hclean r Hr) as [[? _] _]. }
  destruct (queue_needing_ok (so_excluded_domain_suffixes (ce_options e)) (ce_needing_time e)
    (domains_of e rows) d1) as (n & d2 & Hneed).
  { intros v Hv. apply (elem_of_domains e rows v Horder) in Hv as [Hne (r & Hr & ->)].
    destruct (Hclean r Hr) as [[Hs Hd] _]. rewrite normalize_stripped by done. split; [|done].
    destruct Hd as [Hd|]; [|done]. by rewrite Hd in Hne. }
  exists d2. split.
  - unfold scanner_cycle. rewrite Hconn. cbn zeta.
    erewrite prog_bind_ok by reflexivity. unfold prog_lift at 1. rewrite Hfetch.
    erewrite prog_bind_ok by reflexivity. fold rows.
    erewrite prog_bind_ok by (unfold on_db; rewrite Hrec; reflexivity).
    erewrite prog_bind_ok by (unfold on_db; cbn [sc_db]; rewrite Hneed; reflexivity). reflexivity.
  - intros key. pose proof (needing_keeps_observations (so_excluded_domain_suffixes (ce_options e))
      (ce_needing_time e) (domains_of e rows) false d1) as Hkeep. rewrite Hneed in Hkeep. simpl in Hkeep.
    unfold observed at 1. rewrite Hkeep. change (observed d1 key = observed (sc_db s) key + counted_rows key rows).
    rewrite Hobs. f_equal. apply counted_rows_record. intros r Hr. by destruct (Hclean r Hr).
Qed.

Lemma py_round_bounds q : (zq (py_round q) - (1 # 2) <= q <= zq (py_round q) + (1 # 2))%Q.
Proof.
  unfold py_round. pose proof (Qfloor_le q) as Hle. pose proof (Qlt_floor q) as Hlt.
  rewrite inject_Z_plus in Hlt. fold (zq (Qfloor q)) in *. change (inject_Z 1) with 1%Q in Hlt.
  assert (zq (Qfloor q + 1) == zq (Qfloor q) + 1)%Q as Hplus by (unfold zq; by rewrite inject_Z_plus).
  destruct (qltb (q - zq (Qfloor q)) _) eqn:E1; bool_cmp; [split; lra|].
  destruct (qltb _ (q - zq (Qfloor q))) eqn:E2; bool_cmp; [rewrite Hplus; split; lra|].
  destruct (Z.even _); rewrite ?Hplus; split; lra.
Qed.

Lemma fixed6_bounds q : (q - (1 # 2000000) <= fixed6 q <= q + (1 # 2000000))%Q.
Proof.
  unfold fixed6. pose proof (py_round_bounds (q * 1000000)) as [H1 H2].
  set (z := zq (py_round (q * 1000000))) in *. split.
  - apply Qle_shift_div_l; lra.
  - apply Qle_shift_div_r; lra.
Qed.

Lemma max_time_ge rows start :
  (start <= max_time rows start)%Q ∧ ∀ r, r ∈ rows → (pg_time r <= max_time rows start)%Q.
Proof.
  induction rows as [|x rows [IH1 IH2]]; simpl; [split; [lra|by intros ? ?%elem_of_nil]|].
  destruct (qmax_spec (pg_time x) (max_time rows start)) as [[? ->]|[? ->]]; (split; [lra|]);
    (intros r [->|Hr]%elem_of_cons; [lra|]); specialize (IH2 r Hr); lra.
Qed.

Lemma max_time_le rows start latest :
  (start <= latest)%Q → (∀ r, r ∈ rows → (pg_time r <= latest)%Q) → (max_time rows start <= latest)%Q.
Proof.
  intros Hs. induction rows as [|x rows IH]; simpl; intros Hr; [done|].
  specialize (IH (λ r Hin, Hr r (list_elem_of_further _ _ _ Hin))). specialize (Hr x (list_elem_of_here _ _)).
  destruct (qmax_spec (pg_time x) (max_time rows start)) as [[? ->]|[? ->]]; done.
Qed.

(** The cursor is past everything recorded, in memory and on disk. *)
Definition cursor_inv (latest : Q) (recorded : list page_row) (s : scanner) : Prop :=
  (∀ r, r ∈ recorded → (pg_time r < sc_from_ts s)%Q) ∧
  (recorded ≠ [] → ∃ q, sc_app_state s !! "scanner_from_ts"%string = Some (Number q) ∧
     (0 < q <= latest + 1)%Q ∧ ∀ r, r ∈ recorded → (pg_time r < q)%Q).

Lemma cursor_inv_view latest recorded s s' :
  cursor_view s' = cursor_view s → cursor_inv latest recorded s → cursor_inv latest recorded s'.
Proof. unfold cursor_view, cursor_inv. intros [= _ Hf Hs] [H1 H2]. by rewrite Hf, Hs. Qed.

Lemma observed_view s s' key :
  cursor_view s' = cursor_view s → observed (sc_db s') key = observed (sc_db s) key.
Proof. unfold cursor_view, observed. by intros [= -> _ _]. Qed.

(** A pass either records nothing and leaves the scanner as it is, or fetches
    and runs a whole cycle. *)
Lemma pass_cases latest e backoff s :
  env_ok latest e →
  ((scanner_pass e backoff s).2 = s ∧ pass_rows e s = []) ∨
  ∃ d, (scanner_pass e backoff s).2 = (after_queueing e (pass_rows e s)
         (Scanner d (sc_app_state s) (sc_from_ts s) (sc_last_live_activity s))).2 ∧
       (∀ key, observed d key = observed (sc_db s) key + counted_rows key (pass_rows e s)) ∧
       (∀ r, r ∈ pass_rows e s → (sc_from_ts s < pg_time r)%Q ∧ (0 < pg_time r <= latest)%Q).
Proof.
  intros Henv. unfold scanner_pass, pass_rows. destruct (so_enabled _); cbn [negb]; [|by left].
  assert (∀ p : result exn unit * scanner, (let '(r, s') := p in match r with
      | Ok _ => (so_interval_sec (ce_options e), 1, s')
      | Err _ => (Z.min 60 backoff, Z.min 60 (backoff * 2), s') end).2 = p.2) as Hpass
    by (by intros [[] ]).
  rewrite Hpass. destruct (ce_connection e) as [summary|] eqn:Hc.
  { left. unfold scanner_cycle. by rewrite Hc. }
  destruct (ce_fetch_queries _ _ _ _) as [fetched|x] eqn:Hf.
  - right. destruct (cycle_records latest e s fetched Henv Hc Hf) as (d & -> & Hobs).
    exists d. split_and!; [done|exact Hobs|]. intros r [Hr Hlt]%newer_spec. split; [done|].
    by destruct (eo_rows _ _ Henv _ _ _ _ Hf Hr).
  - left. unfold scanner_cycle. rewrite Hc. cbn zeta. erewrite prog_bind_ok by reflexivity.
    unfold prog_lift at 1. by rewrite Hf.
Qed.

Lemma scanner_step_ok latest recorded ev st :
  event_ok latest ev → cursor_inv latest recorded st.2 →
  let rows := event_rows ev st.2 in
  let s' := (scanner_step ev st).2 in
  cursor_inv latest (recorded ++ rows) s' ∧
  (∀ r r', r ∈ recorded → r' ∈ rows → (pg_time r < pg_time r')%Q) ∧
  ∀ key, observed (sc_db s') key = observed (sc_db st.2) key + counted_rows key rows.
Proof.
  intros Hev [Hmem Hdisk]. destruct st as [backoff s]. cbn [snd fst] in *.
  destruct ev as [e|now mono options]; cbn [event_ok event_rows scanner_step].
  - replace (let '(_, b, s') := scanner_pass e (backoff, s).1 (backoff, s).2 in (b, s')).2
      with (scanner_pass e backoff s).2 by (cbn [fst snd]; by destruct (scanner_pass e backoff s) as [[]]).
    cbn zeta. destruct (pass_cases latest e backoff s Hev) as [[-> ->]|(d & -> & Hobs & Hrows)].
    { rewrite app_nil_r. split_and!; [done|by intros ? ? _ ?%elem_of_nil|]. intros key.
      unfold counted_rows, count_if. simpl. lia. }
    set (s1 := Scanner d _ _ _). destruct (pass_rows e s) as [|r rows] eqn:Erows.
    + pose proof (after_queueing_keeps e s1) as Hview. rewrite app_nil_r. split_and!.
      * by apply (cursor_inv_view _ _ s1).
      * by intros ? ? _ ?%elem_of_nil.
      * intros key. rewrite (observed_view s1) by done. apply Hobs.
    + pose proof (after_queueing_advances e r rows s1) as Hview. cbn zeta in Hview.
      change (sc_from_ts s1) with (sc_from_ts s) in Hview. change (sc_db s1) with d in Hview.
      set (top := max_time rows (pg_time r)) in Hview. set (q := qmax _ _) in Hview.
      destruct (max_time_ge rows (pg_time r)) as [Hr Hmax]. fold top in Hr, Hmax.
      assert (∀ x, x ∈ r :: rows → (pg_time x <= top)%Q) as Htop
        by (intros x [->|Hx]%elem_of_cons; auto).
      assert (top <= latest)%Q as Hlatest.
      { apply max_time_le; [|intros x Hx]; eapply Hrows; [left|by right]. }
      assert (sc_from_ts s < top)%Q as Hfrom.
      { destruct (Hrows r) as [? _]; [left|]. lra. }
      assert (0 < top)%Q as Hpos by (destruct (Hrows r) as [_ [? _]]; [left|lra]).
      assert (q == top + (1 # 1000))%Q as Hq
        by (unfold q; destruct (qmax_spec (sc_from_ts s) (top + (1 # 1000))) as [[_ ->]|[? ->]]; lra).
      pose proof (fixed6_bounds q) as [Hlo Hhi].
      assert (∀ x, x ∈ recorded ++ r :: rows → (pg_time x <= top)%Q) as Hall.
      { intros x [Hx|Hx]%elem_of_app; [|by apply Htop]. specialize (Hmem x Hx). lra. }
      injection Hview as Hobs' Hfrom' Hstored. split_and!.
      * unfold cursor_inv. rewrite Hfrom', Hstored. split.
        { intros x Hx. specialize (Hall x Hx). lra. }
        intros _. exists (fixed6 q). split; [done|]. split; [split; lra|].
        intros x Hx. specialize (Hall x Hx). lra.
      * intros x x' Hx Hx'. specialize (Hmem x Hx). destruct (Hrows x' Hx') as [? _]. lra.
      * intros key. unfold observed at 1. rewrite Hobs'. apply Hobs.
  - cbn zeta. rewrite app_nil_r. split_and!.
    + unfold cursor_inv, scanner_init. cbn [sc_app_state sc_from_ts snd]. split; [|done].
      intros x Hx. destruct Hdisk as (q & -> & [Hq1 Hq2] & Hq); [by intros ->; apply elem_of_nil in Hx|].
      cbn [event_ok] in Hev. specialize (Hq x Hx).
      destruct (Qle_bool q 0) eqn:E1; [apply qleb_true in E1; lra|]. cbn [orb].
      destruct (qltb (now + 60) q) eqn:E2; [apply qltb_true in E2; lra|]. done.
    + by intros ? ? _ ?%elem_of_nil.
    + intros key. unfold counted_rows, count_if. simpl. lia.
Qed.

(** ** The run *)

Definition before (b1 b2 : list page_row) : Prop :=
  ∀ r1 r2, r1 ∈ b1 → r2 ∈ b2 → (pg_time r1 < pg_time r2)%Q.

Lemma scanner_run_ok latest recorded evs st :
  Forall (event_ok latest) evs → cursor_inv latest recorded st.2 →
  let batches := recorded_batches evs st in
  Forall (before recorded) batches ∧ StronglySorted before batches ∧
  ∀ key, observed (sc_db (scanner_run evs st).2) key =
         observed (sc_db st.2) key + counted_rows key (concat batches).
Proof.
  intros Hevs. revert recorded st. induction Hevs as [|ev evs Hev Hevs IH]; intros recorded st Hinv; cbn zeta.
  { split_and!; [constructor|constructor|]. intros key. unfold counted_rows, count_if. simpl. lia. }
  destruct (scanner_step_ok latest recorded ev st Hev Hinv) as (Hinv' & Hbefore & Hobs).
  destruct (IH _ _ Hinv') as (Hall & Hsorted & Hcount).
  assert (∀ b, before (recorded ++ event_rows ev st.2) b → before recorded b ∧ before (event_rows ev st.2) b)
    as Hsplit by (intros b Hb; split; intros r1 r2 H1 H2; apply Hb; set_solver).
  cbn [recorded_batches scanner_run foldl concat]. split_and!.
  - constructor; [done|]. eapply Forall_impl; [exact Hall|]. intros b Hb. by apply Hsplit.
  - constructor; [done|]. eapply Forall_impl; [exact Hall|]. intros b Hb. by apply Hsplit.
  - intros key. fold (scanner_run evs (scanner_step ev st)). rewrite Hcount, Hobs, counted_rows_app. lia.
Qed.

(** ** A name made of dots *)

Section DotName.
Context (e : cycle_env) (fetched : list page_row) (from : Q).
Context (Henabled : so_enabled (ce_options e) = true) (Hconn : ce_connection e = None).
Context (Hfetch : ce_fetch_queries e (so_batch_size (ce_options e)) (request_from from) None = Ok fetched).
Context (Horder : ∀ l, ce_set_order e l ≡ₚ l).
Context (Hnames : ∀ x, x ∈ newer from fetched →
  no_space (_normalize_domain (pg_domain x)) = true ∧ (0 < pg_time x)%Q).
Context (dots : page_row) (Hin : dots ∈ newer from fetched).
Context (Hstrip : str_strip (pg_domain dots) ≠ ""%string) (Hdots : _normalize_domain (pg_domain dots) = ""%string).

(** The rows are committed, the queueing raises, and the cursor stays. *)
Lemma dot_name_pass backoff s :
  sc_from_ts s = from →
  ∃ d, scanner_pass e backoff s =
         (Z.min 60 backoff, Z.min 60 (backoff * 2), Scanner d (sc_app_state s) from (sc_last_live_activity s)) ∧
       staging_domains d = staging_domains (sc_db s) ∧
       ∀ key, observed d key = observed (sc_db s) key + counted_rows key (newer from fetched).
Proof using Type*.
  intros Hfrom.
  destruct (observations_are_counted_exactly (ce_record_time e) (as_query_row <$> newer from fetched) (sc_db s))
    as (d & Hrec & Hobs & _).
  { apply Forall_forall. intros q Hq. apply list_elem_of_fmap in Hq as (r & -> & Hr). by apply Hnames. }
  exists d. split_and!.
  - assert (str_lower (str_strip (pg_domain dots)) ∈ domains_of e (newer from fetched)) as Hname.
    { apply elem_of_domains; [done|]. split; [by destruct (str_strip (pg_domain dots))|eauto]. }
    assert (∀ t, on_db (queue_domains_needing_analysis (so_excluded_domain_suffixes (ce_options e)) t
        (domains_of e (newer from fetched)) false)
        (Scanner d (sc_app_state s) (sc_from_ts s) (sc_last_live_activity s)) =
      (Err (ValueError "domain must not be empty"),
       Scanner d (sc_app_state s) (sc_from_ts s) (sc_last_live_activity s))) as Hpoison.
    { intros t. unfold on_db. cbn [sc_db sc_app_state sc_from_ts sc_last_live_activity].
      rewrite (queue_needing_poison _ _ _ _ d Hname); [done|].
      destruct (Hnames dots Hin) as [Hs _]. by rewrite normalize_stripped. }
    unfold scanner_pass. rewrite Henabled. cbn [negb]. unfold scanner_cycle. rewrite Hconn. cbn zeta.
    erewrite prog_bind_ok by reflexivity. unfold prog_lift at 1. rewrite Hfrom, Hfetch.
    erewrite prog_bind_ok by reflexivity.
    erewrite prog_bind_ok by (unfold on_db; rewrite Hrec; reflexivity).
    erewrite prog_bind_err by apply Hpoison. by rewrite Hfrom.
  - pose proof (record_keeps_staging (ce_record_time e) (as_query_row <$> newer from fetched) (sc_db s)) as H.
    by rewrite Hrec in H.
  - intros key. rewrite Hobs. f_equal. apply counted_rows_record. intros r Hr. by apply Hnames.
Qed.
End DotName.

(** * Properties *)

(** C22: over any sequence of passes and restarts of the program, each row of
    Pi-hole's query log is recorded at most once: the batches the passes record
    have strictly increasing times, and every count in the database grows by
    exactly the rows of those batches, whatever failed in between. The rows that
    Pi-hole returns have names that are blank or have a normal form that is not
    empty and has no white space (a query for the root has none: it would stop
    the scanner and its rows would be counted again), times after 0 and up to a
    latest one, and when the program restarts Pi-hole's clock is at most 59
    seconds ahead of its own. *)
Theorem every_query_row_is_recorded_once latest evs st :
  Forall (event_ok latest) evs →
  let batches := recorded_batches evs st in
  StronglySorted before batches ∧
  ∀ key, observed (sc_db (scanner_run evs st).2) key =
         observed (sc_db st.2) key + counted_rows key (concat batches).
Proof.
  intros Hevs. destruct (scanner_run_ok latest [] evs st Hevs) as (_ & H1 & H2); [|by split].
  split; [by intros r Hr%elem_of_nil|done].
Qed.

(** A query for a name made of dots only (the DNS root, ".") stops the scanner:
    every pass that fetches it commits the observations of the batch and then
    raises, so the cursor, its stored value and the queue stay as they were, and
    [n] passes count every row of the batch [n] times. *)
Theorem root_query_stalls_scanner e fetched dots n backoff s :
  so_enabled (ce_options e) = true → ce_connection e = None →
  ce_fetch_queries e (so_batch_size (ce_options e)) (request_from (sc_from_ts s)) None = Ok fetched →
  (∀ l, ce_set_order e l ≡ₚ l) →
  (∀ x, x ∈ newer (sc_from_ts s) fetched →
     no_space (_normalize_domain (pg_domain x)) = true ∧ (0 < pg_time x)%Q) →
  dots ∈ newer (sc_from_ts s) fetched →
  str_strip (pg_domain dots) ≠ ""%string → _normalize_domain (pg_domain dots) = ""%string →
  let s' := (scanner_run (replicate n (Pass e)) (backoff, s)).2 in
  sc_from_ts s' = sc_from_ts s ∧ sc_app_state s' = sc_app_state s ∧
  staging_domains (sc_db s') = staging_domains (sc_db s) ∧
  ∀ key, observed (sc_db s') key =
         observed (sc_db s) key + Z.of_nat n * counted_rows key (newer (sc_from_ts s) fetched).
Proof.
  intros He Hc Hf Ho Hn Hin Hs Hd. cbn zeta. remember (sc_from_ts s) as from eqn:Hfrom. symmetry in Hfrom.
  revert backoff s Hfrom. induction n as [|n IH]; intros backoff s Hfrom.
  { cbn [replicate scanner_run foldl snd]. split_and!; [done..|]. intros key. lia. }
  destruct (dot_name_pass e fetched from He Hc Hf Ho Hn dots Hin Hs Hd backoff s Hfrom)
    as (d & Hpass & Hstage & Hobs).
  cbn [replicate scanner_run foldl scanner_step fst snd]. rewrite Hpass. cbn zeta.
  destruct (IH (Z.min 60 (backoff * 2)) (Scanner d (sc_app_state s) from (sc_last_live_activity s)) eq_refl)
    as (H1 & H2 & H3 & H4).
  split_and!; [exact H1|exact H2|etrans; [exact H3|exact Hstage]|].
  intros key. etrans; [exact (H4 key)|]. cbn [sc_db]. rewrite Hobs. lia.
Qed.

(** ** Concrete runs *)

Definition sx_options : ScanOptions := mkScanOptions true 5 200 300 20 300 true 300 30 500 [".arpa"%string].

Definition sx_log : list page_row :=
  [PageRow 1000 "10.0.0.2" "ads.example.com" "A" "FORWARDED";
   PageRow (2001 # 2) "10.0.0.3" "cdn.example.com" "A" "CACHE";
   PageRow 1007 "10.0.0.2" "ads.example.com" "A" "FORWARDED"]%string.

Definition sx_env (log : list page_row) : cycle_env :=
  CycleEnv sx_options None (λ _ from _, Ok (filter (λ r, Qle_bool from (pg_time r) = true) log)) (λ l, l)
    1010 1010 1010 1010 1010 1010 1010 1010.

Definition sx_scanner : scanner := scanner_init 1010 1010 sx_options db_empty ∅.
Definition sx_key : observation_key := ("ads.example.com", "10.0.0.2", "A", "FORWARDED", 0)%string.

Lemma every_query_row_is_recorded_once_witness :
  observed (sc_db (scanner_run [Pass (sx_env (take 2 sx_log)); Pass (sx_env sx_log);
    Restarted 1011 1011 sx_options; Pass (sx_env sx_log)] (1, sx_scanner)).2) sx_key = 2.
Proof.
  destruct (every_query_row_is_recorded_once 1007 [Pass (sx_env (take 2 sx_log)); Pass (sx_env sx_log);
    Restarted 1011 1011 sx_options; Pass (sx_env sx_log)] (1, sx_scanner)) as [_ H].
  - assert (∀ log, (∀ r, r ∈ log → r ∈ sx_log) → event_ok 1007 (Pass (sx_env log))) as Hok.
    { intros log Hlog. split; [done|]. intros n from rows r [= <-] [_ Hr]%list_elem_of_filter.
      apply Hlog in Hr. unfold sx_log in Hr.
      repeat (apply elem_of_cons in Hr as [->|Hr]; [split; [split; [reflexivity|right; discriminate]|split; vm_compute; congruence]|]).
      by apply elem_of_nil in Hr. }
    repeat apply Forall_cons_2; [apply Hok|apply Hok; done|vm_compute; congruence|apply Hok; done|constructor].
    intros r Hr. by eapply subseteq_take.
  - rewrite H. vm_compute. reflexivity.
Defined.

Lemma root_query_stalls_scanner_witness :
  let env := sx_env (PageRow 1008 "10.0.0.9" "." "NS" "FORWARDED" :: sx_log)%string in
  let s' := (scanner_run (replicate 5 (Pass env)) (1, sx_scanner)).2 in
  observed (sc_db s') sx_key = 10 ∧ staging_domains (sc_db s') = ∅ ∧ sc_from_ts s' = sc_from_ts sx_scanner.
Proof.
  intros env s'.
  destruct (root_query_stalls_scanner env (PageRow 1008 "10.0.0.9" "." "NS" "FORWARDED" :: sx_log)%string
    (PageRow 1008 "10.0.0.9" "." "NS" "FORWARDED") 5 1 sx_scanner) as (H1 & _ & H3 & H4);
    [reflexivity|reflexivity|reflexivity|done| |left|discriminate|reflexivity|].
  - intros x Hx. vm_compute in Hx.
    repeat (apply elem_of_cons in Hx as [->|Hx]; [split; vm_compute; reflexivity|]). by apply elem_of_nil in Hx.
  - split; [|split; [exact H3|exact H1]]. unfold s'. rewrite H4. vm_compute. reflexivity.
Defined.
