(* ===== verification/Connection.v ===== *)
(** [pihole6api/connection.py], [health.py] and [errors.py]: the connection to
    the API of a Pi-hole - the address of the API, the session with its login,
    the requests, and the health of the connection.

    The requests go through the class [HttpSession]: what [requests] answers or
    raises under the retry policy of its adapter, the clocks and files.  The
    connection holds its lock through every operation, so one runs at a time. *)
From stdpp Require Import base gmap strings list pretty.
From Stdlib Require Import Ascii QArith.
From S2P Require Import Prelude HttpRetry Json JsonText Net Validate.
Open Scope Z_scope.

(** * Addresses *)

(** The host of a network location ([SplitResult._hostinfo]): what follows the
    last [@], between brackets or up to the colon. *)
Fixpoint after_at (s : string) : string :=
  match s with
  | EmptyString => EmptyString
  | String c rest => if str_contains "@" rest then after_at rest else if Ascii.eqb c "@"%char then rest else s
  end.
Definition netloc_host (netloc : string) : string :=
  let hostinfo := after_at netloc in
  match str_cut "["%char hostinfo with
  | (_, Some bracketed) => (str_cut "]"%char bracketed).1
  | (_, None) => (str_cut ":"%char hostinfo).1
  end.

(** [s[: -len(suffix)]] of a text that ends in [suffix] *)
Definition drop_suffix (suffix s : string) : string := str_take (String.length s - String.length suffix) s.

(** The path of an URL without query and fragment, as [urlsplit] leaves it. *)
Definition url_path (rest : string) : string := (str_cut "?"%char (str_cut "#"%char rest).1).1.

(** What [PiHole6Connection] raises besides the errors of [errors.py]. *)
Inductive pihole_exn :=
  | PhConnection (text : string)
  | PhAuthentication (text : string)
  | PhHTTP (status : Z) (text : string) (payload : json)
  | PhValue (text : string)
  | PhType (text : string)
  | PhConversion (e : conversion_exn)
  | PhOther (text : string).

(** [str(exc)]; the text of a failed conversion is left open *)
Definition exn_text (e : pihole_exn) : string :=
  match e with
  | PhConnection t | PhAuthentication t | PhValue t | PhType t | PhOther t => t
  | PhHTTP status text _ => ("HTTP " +:+ pretty status +:+ ": " +:+ text)%string
  | PhConversion _ => "conversion failed"
  end.

Definition api_base (path : string) : string :=
  let path := rstrip_slash path in
  let path :=
    if str_endswith path "/admin/index.php" then drop_suffix "/admin/index.php" path
    else if str_endswith path "/admin" then drop_suffix "/admin" path else path in
  let path := if str_endswith path "/api" then drop_suffix "/api" path else path in
  if str_nonempty path then (path +:+ "/api/")%string else "/api/"%string.

Section Address.
(** The checks of [urlsplit] on a network location, and [repr] of a text. *)
Context (netloc_ok : string → bool) (text_repr : string → string).

Definition normalize_api_url (base_url : string) : result pihole_exn string :=
  let value := str_strip base_url in
  if negb (str_nonempty value) then Err (PhValue "Pi-hole base URL must not be empty")
  else
    let value := if str_contains "://" value then value else ("http://" +:+ value)%string in
    match split_url netloc_ok value with
    | None => Err (PhValue "Invalid URL")
    | Some (scheme, netloc, rest) =>
        if negb (str_nonempty (netloc_host netloc)) then
          Err (PhValue ("Invalid Pi-hole base URL: " +:+ text_repr base_url)%string)
        else if negb (String.eqb scheme "http" || String.eqb scheme "https") then
          Err (PhValue "Pi-hole base URL must use http or https")
        else if str_contains "@" netloc then
          Err (PhValue "Pi-hole credentials must not be embedded in the base URL")
        else Ok (scheme +:+ "://" +:+ netloc +:+ api_base (url_path rest))%string
    end.
End Address.

Example addresses :
  normalize_api_url (λ _, true) id <$>
    [" pi.hole "; "HTTPS://pi.hole:8443/admin/"; "http://[::1]/admin/index.php?x#y"; "pi.hole/pre//api/"; "localhost:80/api"]%string =
  Ok <$> ["http://pi.hole/api/"; "https://pi.hole:8443/api/"; "http://[::1]/api/"; "http://pi.hole/pre//api/"; "http://localhost:80/api/"]%string.
Proof. vm_compute. reflexivity. Qed.

Example bad_addresses :
  forallb (λ u, match normalize_api_url (λ _, true) id u with Ok _ => false | Err _ => true end)
    ["  "; "http://"; "ftp://pi.hole"; "http://user@pi.hole"; "http://:pw@pi.hole/"; "http://:80/"; "/://"]%string = true.
Proof. vm_compute. reflexivity. Qed.

(** * Health *)

Inductive ConnectionState :=
  UNKNOWN | ONLINE | DEGRADED | AUTH_ERROR | API_ERROR | INVALID_CONFIG | TLS_ERROR | OFFLINE | CLOSED.
#[export] Instance ConnectionState_eq_dec : EqDecision ConnectionState.
Proof. solve_decision. Defined.

Definition state_text (s : ConnectionState) : string :=
  match s with
  | UNKNOWN => "unknown" | ONLINE => "online" | DEGRADED => "degraded" | AUTH_ERROR => "auth_error"
  | API_ERROR => "api_error" | INVALID_CONFIG => "invalid_config" | TLS_ERROR => "tls_error"
  | OFFLINE => "offline" | CLOSED => "closed"
  end.

Record ConnectionHealth := mkHealth {
  hl_state : ConnectionState;
  hl_last_checked_at : Q;
  hl_last_success_at : Q;
  hl_latency_ms : Z;
  hl_consecutive_failures : Z;
  hl_status_code : Z;
  hl_last_error : string
}.
Definition ConnectionHealth_default : ConnectionHealth := mkHealth UNKNOWN 0 0 0 0 0 "".

(** * The requests library *)

(** [json=] and [data=] hold [JNull] for [None]; a file goes by its name, its
    open handle and its content type. *)
Record http_call := mkCall {
  hc_method : string;
  hc_url : string;
  hc_headers : list (string * string);
  hc_params : option (list (string * json));
  hc_json : json;
  hc_files : option (string * Z * string);
  hc_data : json;
  hc_timeout : py_float;
  hc_verify : option string
}.

(** [rs_json] is [response.json()], [None] where it raises
    [requests.JSONDecodeError]. *)
Record http_response := mkResponse {
  rs_status : Z;
  rs_reason : string;
  rs_json : option json;
  rs_content : string;
  rs_text : string
}.

(** The first [except] clause that takes the exception; [InvalidURL] stands for
    the three exceptions of its clause, [RaisedOther] for what none takes. *)
Inductive transport_exn :=
  | RaisedSSLError (text : string)
  | RaisedTimeout (text : string)
  | RaisedConnectionError (text : string)
  | RaisedInvalidURL (text : string)
  | RaisedRequest (text : string)
  | RaisedOther (text : string).

Record Retry := mkRetry {
  rt_total : Z;
  rt_connect : Z;
  rt_read : Z;
  rt_status : Z;
  rt_backoff_factor : Q;
  rt_status_forcelist : list Z;
  rt_allowed_methods : list string;
  rt_respect_retry_after_header : bool
}.

Class HttpSession (env : Type) := {
  session_request : Retry → http_call → env → result transport_exn http_response * env;
  session_close : env → env;
  (** [time.time()] and [time.perf_counter()] *)
  unix_time : env → Q * env;
  perf_counter : env → Q * env;
  (** [path.open("rb")]: a handle, or the text of the exception; its name *)
  open_file : string → env → result string Z * env;
  close_file : Z → env → env;
  path_name : string → string
}.

(** * The connection *)

Record PiHole6Connection := mkConnection {
  cn_base_url : string;
  cn_password : string;
  cn_ca_bundle_path : string;
  cn_timeout : py_float;
  cn_retry : Retry;
  cn_session_id : option string;
  cn_csrf_token : option string;
  cn_validity : option Z;
  cn_closed : bool;
  cn_health : ConnectionHealth
}.

Definition set_session (sid csrf : option string) (validity : option Z) (c : PiHole6Connection) : PiHole6Connection :=
  mkConnection (cn_base_url c) (cn_password c) (cn_ca_bundle_path c) (cn_timeout c) (cn_retry c) sid csrf validity
    (cn_closed c) (cn_health c).
Definition set_health (h : ConnectionHealth) (c : PiHole6Connection) : PiHole6Connection :=
  mkConnection (cn_base_url c) (cn_password c) (cn_ca_bundle_path c) (cn_timeout c) (cn_retry c) (cn_session_id c)
    (cn_csrf_token c) (cn_validity c) (cn_closed c) h.
Definition set_closed (c : PiHole6Connection) : PiHole6Connection :=
  mkConnection (cn_base_url c) (cn_password c) (cn_ca_bundle_path c) (cn_timeout c) (cn_retry c) (cn_session_id c)
    (cn_csrf_token c) (cn_validity c) true (cn_health c).

Definition retry_policy (max_retries : Z) : Retry :=
  let retries := Z.max 0 max_retries in
  mkRetry retries 0 (Z.min 1 retries) retries (1 # 2) [429; 500; 502; 503; 504] ["GET"; "HEAD"; "OPTIONS"]%string true.

(** [verify_tls]: [None], a bool or a path. *)
Inductive tls_setting := TlsDefault | TlsBool (b : bool) | TlsPath (path : string).

Definition new_connection (netloc_ok : string → bool) (text_repr : string → string)
    (base_url password ca_bundle_path : string) (verify_tls : tls_setting) (timeout : py_float) (max_retries : Z)
    : result pihole_exn PiHole6Connection :=
  base ← normalize_api_url netloc_ok text_repr base_url;
  match verify_tls with
  | TlsBool false =>
      Err (PhValue ("Disabling TLS certificate verification is no longer supported; " +:+
                    "configure ca_bundle_path for private certificate authorities.")%string)
  | _ =>
      let legacy := match verify_tls with TlsPath path => str_strip path | _ => EmptyString end in
      let configured := str_strip ca_bundle_path in
      if str_nonempty legacy && str_nonempty configured && negb (String.eqb legacy configured)
      then Err (PhValue "Conflicting CA bundle paths were provided")
      else Ok (mkConnection base password (str_or configured legacy) (float_max (Fin 1) timeout) (retry_policy max_retries)
                 None None None false ConnectionHealth_default)
  end.

Definition truthy_text (s : option string) : bool := match s with Some s => str_nonempty s | None => false end.
Definition has_session (c : PiHole6Connection) : bool := truthy_text (cn_session_id c).

Definition lstrip_slash (s : string) : string := lstrip (Ascii.eqb "/"%char) s.
Definition _url (c : PiHole6Connection) (endpoint : string) : string := (cn_base_url c +:+ lstrip_slash endpoint)%string.

Definition is_success (status : Z) : bool := (200 <=? status) && (status <? 300).

Definition response_error (r : http_response) : string := str_or (rs_reason r) ("HTTP " +:+ pretty (rs_status r))%string.

(** The state and the error text an answer leads to. *)
Definition response_verdict (r : http_response) : ConnectionState * string :=
  let status := rs_status r in
  if is_success status then (ONLINE, EmptyString)
  else if (status =? 401) || (status =? 403) then (AUTH_ERROR, str_or (rs_reason r) "Authentication failed")
  else if (status =? 429) || (500 <=? status) then (DEGRADED, response_error r)
  else (API_ERROR, response_error r).

Definition _record_response (now : Q) (r : http_response) (latency_ms : Z) (previous : ConnectionHealth) : ConnectionHealth :=
  let ok := is_success (rs_status r) in
  let verdict := response_verdict r in
  mkHealth verdict.1 now (if ok then now else hl_last_success_at previous) (Z.max 0 latency_ms)
    (if ok then 0 else hl_consecutive_failures previous + 1) (rs_status r) verdict.2.

Definition _record_failure (now : Q) (state : ConnectionState) (error : string) (previous : ConnectionHealth) : ConnectionHealth :=
  mkHealth state now (hl_last_success_at previous) 0 (hl_consecutive_failures previous + 1) 0 error.

(** The state and the error text an exception of the session leads to, with the
    exception raised in its place; [None]: it passes. *)
Definition failure_verdict (url : string) (e : transport_exn) : option (ConnectionState * string * pihole_exn) :=
  match e with
  | RaisedSSLError t =>
      Some (TLS_ERROR, t, PhConnection ("TLS verification failed for " +:+ url +:+
                                         ". Check the certificate or configured CA bundle.")%string)
  | RaisedTimeout t => Some (OFFLINE, t, PhConnection ("Request timed out: " +:+ url)%string)
  | RaisedConnectionError t =>
      Some (OFFLINE, t, PhConnection ("Could not connect to " +:+ url +:+
                                       ". Check the Pi-hole address, protocol, and port.")%string)
  | RaisedInvalidURL t => Some (INVALID_CONFIG, t, PhConnection ("Invalid Pi-hole URL: " +:+ url)%string)
  | RaisedRequest t => Some (API_ERROR, t, PhConnection ("Request failed for " +:+ url +:+ ": " +:+ t)%string)
  | RaisedOther _ => None
  end.

(** What a request returns: a JSON value (a text is a JSON string) or bytes. *)
Inductive api_value := VJson (v : json) | VBytes (b : string).

(** [bytes.strip()] leaves something *)
Definition bytes_space (c : Ascii.ascii) : bool :=
  let n := Ascii.N_of_ascii c in ((n =? 32) || ((9 <=? n) && (n <=? 13)))%N.
Definition all_blank (b : string) : bool := str_forallb bytes_space b.

(** [_try_json]: Python's [None] is [JNull]. *)
Definition _try_json (r : http_response) : json := default JNull (rs_json r).

Section Payload.
Context `{PyRepr}.

Definition _error_message (payload : json) (fallback : string) : string :=
  match payload with
  | JObject payload =>
      match dict_get "error" payload with
      | Some (JObject error) => py_str_or (dict_get "message" error) (py_str_or (dict_get "key" error) fallback)
      | _ => match dict_get "session" payload with
             | Some (JObject session) => py_str_or (dict_get "message" session) fallback
             | _ => fallback
             end
      end
  | _ => fallback
  end.

(** What an answer without success raises. *)
Definition http_failure (r : http_response) : pihole_exn :=
  let payload := _try_json r in
  let message := _error_message payload (str_or (rs_reason r) "Request failed") in
  if rs_status r =? 401 then PhAuthentication message else PhHTTP (rs_status r) message payload.

Definition _decode_json (r : http_response) : result pihole_exn (list (string * json)) :=
  if negb (is_success (rs_status r)) then Err (http_failure r)
  else match _try_json r with
       | JObject fields => Ok fields
       | payload => Err (PhHTTP (rs_status r) "Expected a JSON object" payload)
       end.

(** What [request] makes of its last answer. *)
Definition read_response (binary : bool) (r : http_response) : result pihole_exn api_value :=
  if negb (is_success (rs_status r)) then Err (http_failure r)
  else if binary then Ok (VBytes (rs_content r))
  else if (rs_status r =? 204) || all_blank (rs_content r) then Ok (VJson (JObject []))
  else match _try_json r with
       | JNull => Ok (VJson (JString (rs_text r)))
       | payload => Ok (VJson payload)
       end.

(** The session of a login's answer: its id, its token and what [int] makes of
    its validity; [inl] is the text of a refusal. *)
Definition login_session (data : list (string * json)) : string + (option string * option string * option json) :=
  let refused := inl (_error_message (JObject data) "Authentication failed") in
  match dict_get "session" data with
  | Some (JObject session) =>
      if match dict_get "valid" session with Some v => py_truthy v | None => false end then
        let text key := let s := py_str_or (dict_get key session) "" in if str_nonempty s then Some s else None in
        inr (text "sid"%string, text "csrf"%string,
             match dict_get "validity" session with Some JNull | None => None | Some v => Some v end)
      else refused
  | _ => refused
  end.
End Payload.

(** * Operations *)

Record cstate (env : Type) := CState { cs_conn : PiHole6Connection; cs_env : env }.
Arguments CState {env}.
Arguments cs_conn {env}.
Arguments cs_env {env}.

Section Operations.
Context `{PyRepr} {env : Type} `{HttpSession env}.
Abbreviation cprog := (prog (cstate env) pihole_exn).

Definition get_conn : cprog PiHole6Connection := prog_read cs_conn.
Definition on_conn (f : PiHole6Connection → PiHole6Connection) : cprog unit :=
  λ s, (Ok tt, CState (f (cs_conn s)) (cs_env s)).
Definition on_env {A} (f : env → A * env) : cprog A :=
  λ s, let r := f (cs_env s) in (Ok r.1, CState (cs_conn s) r.2).
Definition raise_err {A} (r : result pihole_exn A) : cprog A := λ s, (r, s).

(** [finally]: the step runs whatever happened, and what happened stays. *)
Definition finally {A} (m : cprog A) (step : cprog unit) : cprog A :=
  λ s, let r := m s in (r.1, (step r.2).2).
(** [try: ... except Exception: ...] around a statement *)
Definition ignoring {A} (m : cprog A) : cprog unit := λ s, (Ok tt, (m s).2).

Definition note_failure (state : ConnectionState) (error : string) : cprog unit :=
  now ← on_env unix_time; on_conn (λ c, set_health (_record_failure now state error (cn_health c)) c).
Definition note_response (r : http_response) (latency_ms : Z) : cprog unit :=
  now ← on_env unix_time; on_conn (λ c, set_health (_record_response now r latency_ms (cn_health c)) c).
Definition _record_auth_error (message : string) : cprog unit := note_failure AUTH_ERROR message.

(** The call of the session, its exceptions and the record of its answer. *)
Definition transmit (call : http_call) : cprog http_response :=
  started ← on_env perf_counter;
  c ← get_conn;
  outcome ← on_env (session_request (cn_retry c) call);
  match outcome with
  | Ok response =>
      finished ← on_env perf_counter;
      note_response response (py_round ((finished - started) * zq 1000));; mret response
  | Err e =>
      match failure_verdict (hc_url call) e with
      | Some (state, error, raised) => note_failure state error;; prog_raise raised
      | None => prog_raise (PhOther match e with RaisedOther t => t | _ => EmptyString end)
      end
  end.

Definition request_kwargs (c : PiHole6Connection) (method endpoint : string) (headers : list (string * string))
    (params : option (list (string * json))) (json_data : json) (files : option (string * Z * string)) (form_data : json)
    : http_call :=
  mkCall method (_url c endpoint) headers params json_data files form_data (cn_timeout c)
    (if str_nonempty (cn_ca_bundle_path c) then Some (cn_ca_bundle_path c) else None).

Definition check_open : cprog unit :=
  c ← get_conn; if cn_closed c then prog_raise (PhConnection "Connection is already closed") else mret tt.

Definition accept_json : list (string * string) := [("Accept", "application/json")]%string.

(** [_send_raw("POST", "auth", ..., authenticated=False)] *)
Definition send_login : cprog http_response :=
  check_open;;
  c ← get_conn;
  transmit (request_kwargs c "POST" "auth" accept_json None (JObject [("password"%string, JString (cn_password c))]) None JNull).

Definition refuse_login {A} (message : string) : cprog A := _record_auth_error message;; prog_raise (PhAuthentication message).

Definition accept_session (sid csrf : option string) (validity : option json) : cprog unit :=
  on_conn (λ c, set_session sid csrf (cn_validity c) c);;
  validity ← raise_err match validity with
                       | None => Ok None
                       | Some v => match py_int_of v with Ok z => Ok (Some z) | Err e => Err (PhConversion e) end
                       end;
  on_conn (λ c, set_session (cn_session_id c) (cn_csrf_token c) validity c);;
  if truthy_text sid then mret tt else refuse_login "Authentication returned no session ID".

Definition _authenticate : cprog unit :=
  c ← get_conn;
  if negb (str_nonempty (cn_password c)) then mret tt
  else if has_session c then mret tt
  else
    response ← send_login;
    data ← raise_err (_decode_json response);
    match login_session data with
    | inl message => refuse_login message
    | inr (sid, csrf, validity) => accept_session sid csrf validity
    end.

Definition session_headers (c : PiHole6Connection) : list (string * string) :=
  accept_json ++ (if has_session c then [("X-FTL-SID"%string, default EmptyString (cn_session_id c))] else []) ++
  (if truthy_text (cn_csrf_token c) then [("X-FTL-CSRF"%string, default EmptyString (cn_csrf_token c))] else []).

Definition _headers : cprog (list (string * string)) :=
  c ← get_conn;
  (if str_nonempty (cn_password c) && negb (has_session c) then _authenticate else mret tt);;
  prog_read (λ s, session_headers (cs_conn s)).

Definition _send_raw (method endpoint : string) (params : option (list (string * json))) (json_data : json)
    (files : option (string * Z * string)) (form_data : json) : cprog http_response :=
  check_open;;
  headers ← _headers;
  c ← get_conn;
  transmit (request_kwargs c method endpoint headers params json_data files form_data).

Definition request (method endpoint : string) (params : option (list (string * json))) (data : json)
    (files : option (string * Z * string)) (binary : bool) : cprog api_value :=
  let method := str_upper method in
  let multipart := match files with Some _ => true | None => false end in
  let send := _send_raw method endpoint params (if multipart then JNull else data) files (if multipart then data else JNull) in
  response ← send;
  c ← get_conn;
  response ← (if (rs_status response =? 401) && str_nonempty (cn_password c)
              then on_conn (λ c, set_session None None (cn_validity c) c);; send
              else mret response);
  raise_err (read_response binary response).

Definition get (endpoint : string) (params : option (list (string * json))) (binary : bool) : cprog api_value :=
  request "GET" endpoint params JNull None binary.
Definition post (endpoint : string) (data : json) (files : option (string * Z * string)) : cprog api_value :=
  request "POST" endpoint None data files false.
Definition put (endpoint : string) (data : json) : cprog api_value := request "PUT" endpoint None data None false.
Definition patch (endpoint : string) (data : json) : cprog api_value := request "PATCH" endpoint None data None false.
Definition delete_ (endpoint : string) (params : option (list (string * json))) (data : json) : cprog api_value :=
  request "DELETE" endpoint params data None false.

Definition upload (endpoint file_path : string) (data : option (list (string * json))) : cprog api_value :=
  opened ← on_env (open_file file_path);
  match opened with
  | Err text => prog_raise (PhOther text)
  | Ok handle =>
      finally (post endpoint (JObject (default [] data)) (Some (path_name file_path, handle, "application/gzip"%string)))
        (on_env (λ e, (tt, close_file handle e)))
  end.

Definition close_session : cprog unit :=
  c ← get_conn;
  if has_session c
  then finally (delete_ "auth" None JNull;; mret tt) (on_conn (set_session None None None))
  else mret tt.

Definition closed_health (now : Q) (h : ConnectionHealth) : ConnectionHealth :=
  mkHealth CLOSED now (hl_last_success_at h) (hl_latency_ms h) (hl_consecutive_failures h) (hl_status_code h) (hl_last_error h).

Definition close : cprog unit :=
  c ← get_conn;
  if cn_closed c then mret tt
  else
    ignoring close_session;;
    on_env (λ e, (tt, session_close e));;
    on_conn set_closed;;
    now ← on_env unix_time;
    on_conn (λ c, set_health (closed_health now (cn_health c)) c).
End Operations.

(** * What goes over the wire

    The same session with a list of its calls and what became of them. *)

Definition exchange : Type := http_call * result transport_exn http_response.

Definition logged_session {env : Type} (base : HttpSession env) : HttpSession (env * list exchange) := {|
  session_request retry call e :=
    let r := session_request retry call e.1 in (r.1, (r.2, e.2 ++ [(call, r.1)]));
  session_close e := (session_close e.1, e.2);
  unix_time e := let r := unix_time e.1 in (r.1, (r.2, e.2));
  perf_counter e := let r := perf_counter e.1 in (r.1, (r.2, e.2));
  open_file path e := let r := open_file path e.1 in (r.1, (r.2, e.2));
  close_file handle e := (close_file handle e.1, e.2);
  path_name := path_name
|}.

(** ** The operations a client has *)

Inductive operation :=
  | Request (method endpoint : string) (params : option (list (string * json))) (data : json)
      (files : option (string * Z * string)) (binary : bool)
  | Upload (endpoint file_path : string) (data : option (list (string * json)))
  | CloseSession
  | Close.

Definition is_close (op : operation) : bool := match op with Close => true | _ => false end.

Section Wire.
Context `{PyRepr} {env : Type} (base : HttpSession env).
#[local] Instance wire_session : HttpSession (env * list exchange) := logged_session base.
Abbreviation cprog := (prog (cstate (env * list exchange)) pihole_exn).

Definition perform (op : operation) : cprog unit :=
  match op with
  | Request method endpoint params data files binary => ignoring (request method endpoint params data files binary)
  | Upload endpoint path data => ignoring (upload endpoint path data)
  | CloseSession => ignoring close_session
  | Close => close
  end.

Fixpoint perform_all (ops : list operation) : cprog unit :=
  match ops with [] => mret tt | op :: ops => perform op;; perform_all ops end.

(** The calls of a session, under the timeout and the certificates of the
    connection: a login carries the password and nothing else of
    the session, every other call under a password carries a session id. *)
Definition call_of (c : PiHole6Connection) (method endpoint : string) (headers : list (string * string))
    (params : option (list (string * json))) (json_data : json) (files : option (string * Z * string)) (form_data : json) : http_call :=
  mkCall method (cn_base_url c +:+ lstrip_slash endpoint)%string headers params json_data files form_data (cn_timeout c)
    (if str_nonempty (cn_ca_bundle_path c) then Some (cn_ca_bundle_path c) else None).

Definition login_call (c : PiHole6Connection) : http_call :=
  call_of c "POST" "auth" accept_json None (JObject [("password"%string, JString (cn_password c))]) None JNull.

Definition authorised (c : PiHole6Connection) (headers : list (string * string)) : Prop :=
  str_nonempty (cn_password c) = true → ∃ sid, str_nonempty sid = true ∧ ("X-FTL-SID"%string, sid) ∈ headers.

(** A session: its id and its token; the one a connection holds, and the
    headers that show it. *)
Definition session : Type := option string * option string.
Definition no_session : session := (None, None).
Definition held (c : PiHole6Connection) : session := (cn_session_id c, cn_csrf_token c).
Definition headers_under (s : session) : list (string * string) :=
  accept_json ++ (if truthy_text s.1 then [("X-FTL-SID"%string, default EmptyString s.1)] else []) ++
  (if truthy_text s.2 then [("X-FTL-CSRF"%string, default EmptyString s.2)] else []).

Definition is_login (password : string) (call : http_call) : bool :=
  str_nonempty password && bool_decide (hc_headers call = accept_json).

Definition outcome_result (x : exchange) : result pihole_exn http_response :=
  match x.2 with
  | Ok response => Ok response
  | Err e => Err match failure_verdict (hc_url x.1) e with
                 | Some (_, _, raised) => raised
                 | None => PhOther match e with RaisedOther t => t | _ => EmptyString end
                 end
  end.

(** ** Health as a function of the history *)

Inductive event := Succeeded (status : Z) | Failed (state : ConnectionState) (status : Z) (error : string).

Definition outcome_event (x : exchange) : list event :=
  match x.2 with
  | Ok r => if is_success (rs_status r) then [Succeeded (rs_status r)]
            else [Failed (response_verdict r).1 (rs_status r) (response_verdict r).2]
  | Err e => match failure_verdict (hc_url x.1) e with Some (state, error, _) => [Failed state 0 error] | None => [] end
  end.

(** A login that was answered and did not open a session. *)
Definition login_event (x : exchange) : list event :=
  match x.2 with
  | Ok r =>
      match _decode_json r with
      | Ok data =>
          match login_session data with
          | inl message => [Failed AUTH_ERROR 0 message]
          | inr (sid, _, validity) =>
              match py_int_of <$> validity with
              | Some (Err _) => []
              | _ => if truthy_text sid then [] else [Failed AUTH_ERROR 0 "Authentication returned no session ID"]
              end
          end
      | Err _ => []
      end
  | Err _ => []
  end.

Definition events_of (password : string) (x : exchange) : list event :=
  outcome_event x ++ (if is_login password x.1 then login_event x else []).
Definition history (password : string) (log : list exchange) : list event := x ← log; events_of password x.

Definition is_failure (e : event) : bool := match e with Failed _ _ _ => true | Succeeded _ => false end.
(** How many of the last events are failures. *)
Definition trailing_failures (l : list event) : Z := foldl (λ n e, if is_failure e then n + 1 else 0) 0 l.

(** State, failures in a row, status and error text. *)
Definition summary (l : list event) : ConnectionState * Z * Z * string :=
  match last l with
  | None => (UNKNOWN, 0, 0, EmptyString)
  | Some (Succeeded status) => (ONLINE, 0, status, EmptyString)
  | Some (Failed state status error) => (state, trailing_failures l, status, error)
  end.

Definition health_view (h : ConnectionHealth) : ConnectionState * Z * Z * string :=
  (hl_state h, hl_consecutive_failures h, hl_status_code h, hl_last_error h).
End Wire.

(** ** Facts *)

Definition health_step (v : ConnectionState * Z * Z * string) (e : event) : ConnectionState * Z * Z * string :=
  match e with
  | Succeeded status => (ONLINE, 0, status, EmptyString)
  | Failed state status error => (state, v.1.1.2 + 1, status, error)
  end.

Lemma trailing_snoc l e : trailing_failures (l ++ [e]) = if is_failure e then trailing_failures l + 1 else 0.
Proof. unfold trailing_failures. by rewrite foldl_app. Qed.

Lemma summary_failures l : (summary l).1.1.2 = trailing_failures l.
Proof.
  unfold summary. destruct l as [|e l _] using rev_ind; [done|].
  rewrite last_snoc. destruct e; [by rewrite trailing_snoc|done].
Qed.

Lemma summary_steps l : foldl health_step (UNKNOWN, 0, 0, EmptyString) l = summary l.
Proof.
  induction l as [|e l IH] using rev_ind; [done|].
  rewrite foldl_app, IH. unfold summary at 2. rewrite last_snoc. destruct e; [done|].
  cbn [foldl health_step]. by rewrite summary_failures, trailing_snoc.
Qed.

(** What the requests of a connection do not change. *)
Definition settings (c : PiHole6Connection) :=
  (cn_base_url c, cn_password c, cn_ca_bundle_path c, cn_timeout c, cn_retry c, cn_closed c).

Section Traces.
Context `{PyRepr} {env : Type} (base : HttpSession env).
#[local] Existing Instance wire_session.
Abbreviation cprog := (prog (cstate (env * list exchange)) pihole_exn).

(** [traced m P]: from the connection [c], [m] makes the exchanges [sent], ends
    with [r] and leaves the connection [c'], such that [P c sent r c'] and the
    health has followed the events of the exchanges. *)
Definition traced {A} (m : cprog A) (P : PiHole6Connection → list exchange → result pihole_exn A → PiHole6Connection → Prop) : Prop :=
  ∀ c e log, ∃ sent r c' e',
    m (CState c (e, log)) = (r, CState c' (e', log ++ sent)) ∧ settings c' = settings c ∧ P c sent r c'.

Lemma traced_impl {A} (m : cprog A) (P Q : PiHole6Connection → list exchange → result pihole_exn A → PiHole6Connection → Prop) :
  traced m P → (∀ c sent r c', settings c' = settings c → P c sent r c' → Q c sent r c') → traced m Q.
Proof.
  intros Hm HPQ c e log. destruct (Hm c e log) as (sent & r & c' & e' & E & Hs & HP). exists sent, r, c', e'. auto.
Qed.

Lemma traced_ret {A} (a : A) : traced (mret a) (λ c sent r c', sent = [] ∧ r = Ok a ∧ c' = c).
Proof. intros c e log. exists [], (Ok a), c, e. by rewrite app_nil_r. Qed.

Lemma traced_raise {A} (r0 : result pihole_exn A) : traced (raise_err r0) (λ c sent r c', sent = [] ∧ r = r0 ∧ c' = c).
Proof. intros c e log. exists [], r0, c, e. by rewrite app_nil_r. Qed.

Lemma traced_get : traced get_conn (λ c sent r c', sent = [] ∧ r = Ok c ∧ c' = c).
Proof. intros c e log. exists [], (Ok c), c, e. by rewrite app_nil_r. Qed.

Lemma traced_conn (f : PiHole6Connection → PiHole6Connection) :
  (∀ c, settings (f c) = settings c) → traced (on_conn f) (λ c sent r c', sent = [] ∧ r = Ok tt ∧ c' = f c).
Proof. intros Hf c e log. exists [], (Ok tt), (f c), e. by rewrite app_nil_r. Qed.

(** A step of the environment that sends nothing. *)
Lemma traced_env {A} (f : env * list exchange → A * (env * list exchange)) :
  (∀ e log, (f (e, log)).2.2 = log) → traced (on_env f) (λ c sent r c', sent = [] ∧ (∃ a, r = Ok a) ∧ c' = c).
Proof.
  intros Hf c e log. pose proof (Hf e log) as Hl. unfold on_env. cbn [cs_env cs_conn].
  destruct (f (e, log)) as [a [e' log']] eqn:E. cbn in Hl. subst log'.
  exists [], (Ok a), c, e'. rewrite app_nil_r. split_and!; eauto.
Qed.

Lemma traced_bind {A B} (m : cprog A) (k : A → cprog B)
    (P : PiHole6Connection → list exchange → result pihole_exn A → PiHole6Connection → Prop)
    (Q : A → PiHole6Connection → list exchange → result pihole_exn B → PiHole6Connection → Prop) :
  traced m P → (∀ a, traced (k a) (Q a)) →
  traced (m ≫= k) (λ c sent r c',
    (∃ err, P c sent (Err err) c' ∧ r = Err err) ∨
    (∃ a c1 s1 s2, sent = s1 ++ s2 ∧ settings c1 = settings c ∧ P c s1 (Ok a) c1 ∧ Q a c1 s2 r c')).
Proof.
  intros Hm Hk c e log. destruct (Hm c e log) as (s1 & r1 & c1 & e1 & E1 & Hs1 & HP).
  unfold mbind, prog_bind. rewrite E1. destruct r1 as [a|err].
  - destruct (Hk a c1 e1 (log ++ s1)) as (s2 & r2 & c2 & e2 & E2 & Hs2 & HQ).
    exists (s1 ++ s2), r2, c2, e2. rewrite E2, app_assoc, Hs2. split_and!; eauto 10.
  - exists s1, (Err err), c1, e1. eauto 10.
Qed.

Lemma traced_finally {A} (m : cprog A) (step : cprog unit)
    (P : PiHole6Connection → list exchange → result pihole_exn A → PiHole6Connection → Prop)
    (Q : PiHole6Connection → list exchange → result pihole_exn unit → PiHole6Connection → Prop) :
  traced m P → traced step Q →
  traced (finally m step) (λ c sent r c', ∃ c1 s1 s2 r2, sent = s1 ++ s2 ∧ settings c1 = settings c ∧ P c s1 r c1 ∧ Q c1 s2 r2 c').
Proof.
  intros Hm Hq c e log. destruct (Hm c e log) as (s1 & r1 & c1 & e1 & E1 & Hs1 & HP).
  destruct (Hq c1 e1 (log ++ s1)) as (s2 & r2 & c2 & e2 & E2 & Hs2 & HQ).
  exists (s1 ++ s2), r1, c2, e2. unfold finally. rewrite E1. cbn [fst snd]. rewrite E2, app_assoc, Hs2. split_and!; eauto 10.
Qed.

Lemma traced_ignoring {A} (m : cprog A) (P : PiHole6Connection → list exchange → result pihole_exn A → PiHole6Connection → Prop) :
  traced m P → traced (ignoring m) (λ c sent r c', r = Ok tt ∧ ∃ r0, P c sent r0 c').
Proof.
  intros Hm c e log. destruct (Hm c e log) as (s1 & r1 & c1 & e1 & E1 & Hs1 & HP).
  exists s1, (Ok tt), c1, e1. unfold ignoring. rewrite E1. eauto.
Qed.

(** Steps that only touch the health. *)
Definition health_steps (c c' : PiHole6Connection) (events : list event) : Prop :=
  ∃ h, c' = set_health h c ∧ health_view h = foldl health_step (health_view (cn_health c)) events.

Lemma traced_note_failure state error :
  traced (note_failure state error) (λ c sent r c', sent = [] ∧ r = Ok tt ∧ health_steps c c' [Failed state 0 error]).
Proof.
  intros c e log. eexists [], (Ok tt), _, _. rewrite app_nil_r. unfold note_failure, mbind, prog_bind, on_env, on_conn.
  cbn. split; [reflexivity|]. split; [reflexivity|]. split_and!; [done..|]. eexists. split; [reflexivity|]. done.
Qed.

Lemma note_response_event r latency now h :
  health_view (_record_response now r latency h) = foldl health_step (health_view h)
    (if is_success (rs_status r) then [Succeeded (rs_status r)]
     else [Failed (response_verdict r).1 (rs_status r) (response_verdict r).2]).
Proof.
  unfold _record_response, health_view. cbn. destruct (is_success (rs_status r)) eqn:E; [|done].
  unfold response_verdict. by rewrite E.
Qed.

Lemma traced_transmit call :
  traced (transmit call) (λ c sent r c', ∃ outcome, sent = [(call, outcome)] ∧ r = outcome_result (call, outcome) ∧
    health_steps c c' (outcome_event (call, outcome))).
Proof.
  intros c e log. unfold transmit, note_response, note_failure, mbind, prog_bind, on_env, on_conn, get_conn, prog_read. cbn.
  destruct (perf_counter e) as [started e1]. cbn. destruct (session_request (cn_retry c) call e1) as [outcome e2]. cbn.
  unfold outcome_result, outcome_event, health_steps. destruct outcome as [response|x]; cbn.
  - destruct (perf_counter e2) as [finished e3]. cbn. destruct (unix_time e3) as [now e4]. cbn.
    eexists [_], _, _, e4. split; [reflexivity|]. split; [done|]. eexists. split; [reflexivity|]. split; [reflexivity|].
    eexists. split; [reflexivity|]. apply note_response_event.
  - destruct (failure_verdict (hc_url call) x) as [[[state error] raised]|] eqn:E; cbn.
    + destruct (unix_time e2) as [now e3]. cbn. eexists [_], _, _, e3. split; [reflexivity|]. split; [done|].
      eexists. split; [reflexivity|]. cbn. rewrite E. split; [reflexivity|]. eexists. split; [reflexivity|]. done.
    + eexists [_], _, c, e2. split; [reflexivity|]. split; [done|]. eexists. split; [reflexivity|]. cbn. rewrite E.
      split; [reflexivity|]. exists (cn_health c). split; [by destruct c|done].
Qed.

Definition health_follows (c : PiHole6Connection) (sent : list exchange) (c' : PiHole6Connection) : Prop :=
  health_view (cn_health c') = foldl health_step (health_view (cn_health c)) (history (cn_password c) sent).

Lemma history_app p l1 l2 : history p (l1 ++ l2) = history p l1 ++ history p l2.
Proof. apply bind_app. Qed.
Lemma history_one p x : history p [x] = events_of p x.
Proof. apply app_nil_r. Qed.

Lemma follows_app c1 c2 c3 s1 s2 :
  cn_password c2 = cn_password c1 → health_follows c1 s1 c2 → health_follows c2 s2 c3 → health_follows c1 (s1 ++ s2) c3.
Proof. unfold health_follows. intros Hp H1 H2. by rewrite H2, H1, Hp, history_app, foldl_app. Qed.

Lemma steps_settings c c' events : health_steps c c' events → settings c' = settings c.
Proof. by intros (h & -> & _). Qed.
Lemma steps_session c c' events : health_steps c c' events → cn_session_id c' = cn_session_id c ∧ cn_csrf_token c' = cn_csrf_token c.
Proof. by intros (h & -> & _). Qed.
Lemma steps_view c c' events :
  health_steps c c' events → health_view (cn_health c') = foldl health_step (health_view (cn_health c)) events.
Proof. by intros (h & -> & H'). Qed.

Definition closed_error {A} : result pihole_exn A := Err (PhConnection "Connection is already closed").

Lemma traced_send_login :
  traced send_login (λ c sent r c',
    if cn_closed c then sent = [] ∧ r = closed_error ∧ c' = c
    else ∃ outcome, sent = [(login_call c, outcome)] ∧ r = outcome_result (login_call c, outcome) ∧
         health_steps c c' (outcome_event (login_call c, outcome))).
Proof.
  intros c e log. unfold send_login, check_open, mbind, prog_bind, get_conn, prog_read. cbn.
  destruct (cn_closed c); cbn.
  - exists [], closed_error, c, e. by rewrite app_nil_r.
  - apply traced_transmit.
Qed.

Lemma login_headers c : is_login (cn_password c) (login_call c) = str_nonempty (cn_password c).
Proof. unfold is_login. cbn. by rewrite bool_decide_true, andb_true_r. Qed.

Lemma traced_refuse {A} message :
  traced (refuse_login (A:=A) message) (λ c sent r c', sent = [] ∧ r = Err (PhAuthentication message) ∧
    health_steps c c' [Failed AUTH_ERROR 0 message]).
Proof.
  intros c e log. unfold refuse_login, _record_auth_error, mbind, prog_bind.
  destruct (traced_note_failure AUTH_ERROR message c e log) as (sent & r & c' & e' & -> & Hs & -> & -> & Hh).
  exists [], (Err (PhAuthentication message)), c', e'. done.
Qed.

Definition session_event (sid : option string) (validity : option json) : list event :=
  match py_int_of <$> validity with
  | Some (Err _) => []
  | _ => if truthy_text sid then [] else [Failed AUTH_ERROR 0 "Authentication returned no session ID"]
  end.

(** What the program makes of the session of a login's answer, and of the
    answer as a whole: the session it holds from then on. *)
Definition accepted (sid csrf : option string) (validity : option json) : result pihole_exn session :=
  match py_int_of <$> validity with
  | Some (Err e) => Err (PhConversion e)
  | _ => if truthy_text sid then Ok (sid, csrf) else Err (PhAuthentication "Authentication returned no session ID")
  end.

Definition login_result (c : PiHole6Connection) (outcome : result transport_exn http_response) : result pihole_exn session :=
  response ← outcome_result (login_call c, outcome);
  data ← _decode_json response;
  match login_session data with
  | inl message => Err (PhAuthentication message)
  | inr (sid, csrf, validity) => accepted sid csrf validity
  end.

(** A session is kept when the login succeeds. *)
Definition obtains (s : result pihole_exn session) (r : result pihole_exn unit) (c' : PiHole6Connection) : Prop :=
  match s with Ok s => r = Ok tt ∧ held c' = s ∧ truthy_text s.1 = true | Err err => r = Err err end.

Lemma traced_accept sid csrf validity :
  traced (accept_session sid csrf validity) (λ c sent r c', sent = [] ∧ obtains (accepted sid csrf validity) r c' ∧
    health_view (cn_health c') = foldl health_step (health_view (cn_health c)) (session_event sid validity)).
Proof.
  intros c e log. unfold accept_session, mbind, prog_bind, raise_err, on_conn, session_event, accepted. cbn.
  assert (∀ v, traced (if truthy_text sid then mret tt else refuse_login "Authentication returned no session ID")
    (λ c sent r c', held c = (sid, csrf) → cn_health c = v → sent = [] ∧
      obtains (if truthy_text sid then Ok (sid, csrf) else Err (PhAuthentication "Authentication returned no session ID")) r c' ∧
      health_view (cn_health c') = foldl health_step (health_view v)
        (if truthy_text sid then [] else [Failed AUTH_ERROR 0 "Authentication returned no session ID"]))) as Hend.
  { intros v. destruct (truthy_text sid) eqn:Es.
    - eapply traced_impl; [apply traced_ret|]. intros c1 sent r c2 _ (-> & -> & ->) Hh <-. done.
    - eapply traced_impl; [apply traced_refuse|]. intros c1 sent r c2 _ (-> & -> & Hh) _ <-.
      split_and!; [done..|]. apply (steps_view _ _ _ Hh). }
  destruct validity as [v|]; cbn; [destruct (py_int_of v) as [z|err]; cbn|].
  - destruct (Hend (cn_health c) (set_session sid csrf (Some z) (set_session sid csrf (cn_validity c) c)) e log)
      as (sent & r & c' & e' & -> & Hs & HP). exists sent, r, c', e'. split; [done|]. split; [done|]. by apply HP.
  - eexists [], _, _, _. rewrite app_nil_r. split; [reflexivity|]. done.
  - destruct (Hend (cn_health c) (set_session sid csrf None (set_session sid csrf (cn_validity c) c)) e log)
      as (sent & r & c' & e' & -> & Hs & HP). exists sent, r, c', e'. split; [done|]. split; [done|]. by apply HP.
Qed.

(** An open connection logs in exactly when it has a password and no session. *)
Definition needs_login (c : PiHole6Connection) (s : session) : bool := str_nonempty (cn_password c) && negb (truthy_text s.1).

Definition authenticates (c : PiHole6Connection) (sent : list exchange) (r : result pihole_exn unit) (c' : PiHole6Connection) : Prop :=
  (if needs_login c (held c) then ∃ outcome, sent = [(login_call c, outcome)] ∧ obtains (login_result c outcome) r c'
   else sent = [] ∧ r = Ok tt ∧ c' = c) ∧
  health_follows c sent c'.

Lemma follows_nil c : health_follows c [] c.
Proof. done. Qed.

Lemma traced_authenticate : traced _authenticate (λ c sent r c', cn_closed c = false → authenticates c sent r c').
Proof.
  intros c e log. unfold authenticates, needs_login, _authenticate, mbind, prog_bind, get_conn at 1, prog_read. cbn.
  destruct (str_nonempty (cn_password c)) eqn:Ep; cbn.
  2:{ exists [], (Ok tt), c, e. rewrite app_nil_r. split; [done|]. split; [done|]. intros _. by split. }
  unfold has_session. destruct (truthy_text (cn_session_id c)) eqn:Es; cbn.
  { exists [], (Ok tt), c, e. rewrite app_nil_r. split; [done|]. split; [done|]. intros _. by split. }
  destruct (traced_send_login c e log) as (sent & r & c1 & e1 & -> & Hset & HP). cbn.
  destruct (cn_closed c) eqn:Ec.
  { destruct HP as (-> & -> & ->). by exists [], closed_error, c, e1. }
  destruct HP as (outcome & -> & -> & Hh). set (x := (login_call c, outcome)) in *.
  assert (∀ c2 tail, health_view (cn_health c2) = foldl health_step (health_view (cn_health c1)) tail →
    login_event x = tail → health_follows c [x] c2) as Hfollow.
  { intros c2 tail Hv Ht. unfold health_follows. rewrite history_one. unfold events_of.
    change x.1 with (login_call c). rewrite login_headers, Ep, Ht, Hv, (steps_view _ _ _ Hh). by rewrite foldl_app. }
  assert (∀ r c2 tail, obtains (login_result c outcome) r c2 → login_event x = tail →
    health_view (cn_health c2) = foldl health_step (health_view (cn_health c1)) tail →
    false = false → (∃ outcome, [x] = [(login_call c, outcome)] ∧ obtains (login_result c outcome) r c2) ∧ health_follows c [x] c2) as Hdone
    by by intros; split; [eexists|eapply Hfollow].
  clear Hfollow. unfold login_result, login_event, mbind, result_bind in Hdone. fold x in Hdone. change x.2 with outcome in *.
  unfold outcome_result in *. change x.2 with outcome in *. destruct outcome as [response|err]; cbn.
  2:{ eexists [x], (Err _), c1, e1. split; [reflexivity|]. split; [done|]. by apply (Hdone _ _ []). }
  unfold raise_err. destruct (_decode_json response) as [data|err]; cbn.
  2:{ exists [x], (Err err), c1, e1. split; [reflexivity|]. split; [done|]. by apply (Hdone _ _ []). }
  destruct (login_session data) as [message|[[sid csrf] validity]].
  - destruct (traced_refuse (A:=unit) message c1 e1 (log ++ [x])) as (s2 & r2 & c2 & e2 & -> & Hset2 & -> & -> & Hh2).
    rewrite app_nil_r. eexists [x], _, c2, e2. split; [reflexivity|]. split; [by rewrite Hset2|].
    by eapply Hdone; [..|apply (steps_view _ _ _ Hh2)].
  - destruct (traced_accept sid csrf validity c1 e1 (log ++ [x])) as (s2 & r2 & c2 & e2 & -> & Hset2 & -> & Hok & Hv).
    rewrite app_nil_r. eexists [x], r2, c2, e2. split; [reflexivity|]. split; [by rewrite Hset2|]. by eapply Hdone.
Qed.

Lemma kwargs_call c : request_kwargs c = call_of c.
Proof. reflexivity. Qed.
Lemma kwargs_settings c c' : settings c' = settings c → request_kwargs c' = request_kwargs c.
Proof. unfold settings. intros [= H1 H2 H3 H4 H5 H6]. unfold request_kwargs, _url. by rewrite H1, H3, H4. Qed.
Lemma password_settings c c' : settings c' = settings c → cn_password c' = cn_password c.
Proof. by intros [= _ ? _ _ _ _]. Qed.
Lemma closed_settings c c' : settings c' = settings c → cn_closed c' = cn_closed c.
Proof. by intros [= _ _ _ _ _ ?]. Qed.
Lemma login_settings c c' : settings c' = settings c → login_call c' = login_call c.
Proof. intros Hs. unfold login_call. by rewrite <- !kwargs_call, (kwargs_settings _ _ Hs), (password_settings _ _ Hs). Qed.

(** What one attempt of [_send_raw] sends under the session [s], and its answer:
    the login if one is needed, whose refusal is the answer, and then the call
    under the session held. *)
Definition attempt (c : PiHole6Connection) (s : session) (call : list (string * string) → http_call) (sent : list exchange)
    (answer : result pihole_exn http_response) : Prop :=
  let under s logins := ∃ outcome, sent = logins ++ [(call (headers_under s), outcome)] ∧
                                   answer = outcome_result (call (headers_under s), outcome) in
  if needs_login c s
  then ∃ outcome, match login_result c outcome with
                  | Ok s => truthy_text s.1 = true ∧ under s [(login_call c, outcome)]
                  | Err err => sent = [(login_call c, outcome)] ∧ answer = Err err
                  end
  else under s [].

Lemma session_is_sent c s : needs_login c s = false → authorised c (headers_under s).
Proof.
  unfold needs_login. intros Hs Hp. rewrite Hp in Hs. exists (default EmptyString s.1).
  unfold headers_under, truthy_text in *. destruct s as [[sid|] csrf]; cbn in *; [|done].
  apply negb_false_iff in Hs. split; [done|]. rewrite Hs. right. left.
Qed.

(** The shape of an attempt: at most one login, then at most one call. *)
Lemma attempt_shape c s call sent answer :
  attempt c s call sent answer →
  ∃ logins, (∀ x, x ∈ logins → x.1 = login_call c) ∧
    ((sent = logins ∧ ∃ err, answer = Err err) ∨
     (∃ headers outcome, sent = logins ++ [(call headers, outcome)] ∧ authorised c headers ∧
       answer = outcome_result (call headers, outcome))).
Proof.
  unfold attempt. destruct (needs_login c s) eqn:En.
  - intros (outcome & Hs). exists [(login_call c, outcome)]. split; [by intros x ->%list_elem_of_singleton|].
    destruct (login_result c outcome) as [s'|err]; [right|left; destruct Hs; eauto].
    destruct Hs as (Hs & o & -> & ->). exists (headers_under s'), o. split_and!; [done| |done].
    apply session_is_sent. unfold needs_login. by rewrite Hs, andb_false_r.
  - intros (o & -> & ->). exists []. split; [by intros x Hx%elem_of_nil|]. right.
    exists (headers_under s), o. split_and!; [done|by apply session_is_sent|done].
Qed.

Lemma traced_headers :
  traced _headers (λ c sent r c', cn_closed c = false →
    (if needs_login c (held c)
     then ∃ outcome, sent = [(login_call c, outcome)] ∧
       match login_result c outcome with Ok s => r = Ok (headers_under s) ∧ truthy_text s.1 = true | Err err => r = Err err end
     else sent = [] ∧ r = Ok (headers_under (held c))) ∧
    health_follows c sent c').
Proof.
  intros c e log. unfold _headers, mbind, prog_bind, get_conn, prog_read. cbn.
  change (str_nonempty (cn_password c) && negb (has_session c)) with (needs_login c (held c)).
  destruct (needs_login c (held c)) eqn:E; cbn.
  - destruct (traced_authenticate c e log) as (sent & r & c' & e' & -> & Hs & HP).
    destruct r as [[]|err]; [exists sent, (Ok (session_headers c')), c', e'|exists sent, (Err err), c', e'];
      (split; [done|]; split; [done|]); intros Ec; destruct (HP Ec) as [Ho Hf]; rewrite E in Ho;
      destruct Ho as (outcome & -> & Ho); (split; [|done]); exists outcome; (split; [done|]);
      (destruct (login_result c outcome) as [s|err']; cbn in Ho; [destruct Ho as ([=] & <- & Ht); by split|congruence]).
  - exists [], (Ok (session_headers c)), c, e. rewrite app_nil_r. split; [done|]. split; [done|]. intros _. by split.
Qed.

Lemma payload_events c headers call outcome :
  authorised c headers → hc_headers call = headers → events_of (cn_password c) (call, outcome) = outcome_event (call, outcome).
Proof.
  intros Ha Hc. unfold events_of, is_login. cbn [fst]. destruct (str_nonempty (cn_password c)) eqn:Ep; [|apply app_nil_r].
  destruct (Ha Ep) as (sid & _ & Hin). rewrite bool_decide_false; [apply app_nil_r|]. rewrite Hc. intros ->.
  by apply list_elem_of_singleton in Hin.
Qed.

Lemma traced_send_raw method endpoint params json_data files form_data :
  traced (_send_raw method endpoint params json_data files form_data) (λ c sent r c',
    if cn_closed c then sent = [] ∧ r = closed_error ∧ c' = c
    else attempt c (held c) (λ headers, request_kwargs c method endpoint headers params json_data files form_data) sent r ∧ health_follows c sent c').
Proof.
  intros c e log. unfold _send_raw, check_open, mbind, prog_bind, get_conn, prog_read. cbn.
  destruct (cn_closed c) eqn:Ec; cbn.
  { exists [], closed_error, c, e. by rewrite app_nil_r. }
  destruct (traced_headers c e log) as (s1 & r1 & c1 & e1 & -> & Hs1 & HP). destruct (HP Ec) as [Hr Hf]. clear HP.
  set (call headers := request_kwargs c method endpoint headers params json_data files form_data).
  destruct r1 as [headers|err]; cbn.
  - destruct (traced_transmit (request_kwargs c1 method endpoint headers params json_data files form_data) c1 e1 (log ++ s1))
      as (s2 & r2 & c2 & e2 & -> & Hs2 & outcome & -> & -> & Hh).
    rewrite (kwargs_settings _ _ Hs1) in *. fold (call headers) in *.
    exists (s1 ++ [(call headers, outcome)]), (outcome_result (call headers, outcome)), c2, e2. rewrite app_assoc.
    split; [done|]. split; [by rewrite Hs2|].
    assert (attempt c (held c) call (s1 ++ [(call headers, outcome)]) (outcome_result (call headers, outcome)) ∧ authorised c headers)
      as [Ha Hauth].
    { unfold attempt. destruct (needs_login c (held c)) eqn:En.
      - destruct Hr as (o & -> & Hr). destruct (login_result c o) as [s|] eqn:El; [|done]. destruct Hr as [[= ->] Ht].
        split; [exists o; rewrite El; by eauto|]. apply session_is_sent. unfold needs_login. by rewrite Ht, andb_false_r.
      - destruct Hr as [-> [= ->]]. split; [by exists outcome|]. by apply session_is_sent. }
    split; [done|]. eapply follows_app; [by apply password_settings|done|]. unfold health_follows.
    rewrite history_one, (password_settings _ _ Hs1), (payload_events c headers (call headers)) by done. by apply steps_view.
  - exists s1, (Err err), c1, e1. split; [done|]. split; [done|]. split; [|done]. unfold attempt.
    destruct (needs_login c (held c)); [|by destruct Hr]. destruct Hr as (o & -> & Hr). exists o.
    destruct (login_result c o); [by destruct Hr|]. by injection Hr as <-.
Qed.

(** What one request does, whatever the server answers. *)
Definition request_spec (call : list (string * string) → http_call) (binary : bool) (c : PiHole6Connection)
    (sent : list exchange) (r : result pihole_exn api_value) : Prop :=
  if cn_closed c then sent = [] ∧ r = closed_error
  else ∃ first answer, attempt c (held c) call first answer ∧
    match answer with
    | Err err => sent = first ∧ r = Err err
    | Ok response =>
        if (rs_status response =? 401) && str_nonempty (cn_password c)
        then ∃ second answer, attempt c no_session call second answer ∧ sent = first ++ second ∧
               r = match answer with Ok response => read_response binary response | Err err => Err err end
        else sent = first ∧ r = read_response binary response
    end.

Definition asked_call (c : PiHole6Connection) (method endpoint : string) (params : option (list (string * json)))
    (data : json) (files : option (string * Z * string)) (headers : list (string * string)) : http_call :=
  let multipart := match files with Some _ => true | None => false end in
  call_of c (str_upper method) endpoint headers params (if multipart then JNull else data) files (if multipart then data else JNull).

Lemma attempt_settings c c' s call sent r : settings c' = settings c → attempt c' s call sent r → attempt c s call sent r.
Proof.
  intros Hs. unfold attempt, needs_login, login_result. by rewrite (login_settings _ _ Hs), (password_settings _ _ Hs).
Qed.

Lemma traced_request method endpoint params data files binary :
  traced (request method endpoint params data files binary) (λ c sent r c',
    request_spec (asked_call c method endpoint params data files) binary c sent r ∧ health_follows c sent c').
Proof.
  intros c e log. unfold request, mbind, prog_bind, request_spec.
  set (send := _send_raw _ _ _ _ _ _). pose proof (traced_send_raw _ _ _ _ _ _ : traced send _) as Hsend.
  destruct (Hsend c e log) as (s1 & r1 & c1 & e1 & -> & Hs1 & HP).
  destruct (cn_closed c) eqn:Ec.
  { destruct HP as (-> & -> & ->). eexists [], _, c, e1. split; [reflexivity|]. done. }
  destruct HP as [Ha Hf]. destruct r1 as [response|err].
  2:{ eexists s1, _, c1, e1. split; [reflexivity|]. split; [done|]. split; [|done]. exists s1, (Err err). done. }
  unfold get_conn, prog_read. cbn [cs_conn]. rewrite (password_settings _ _ Hs1).
  destruct ((rs_status response =? 401) && str_nonempty (cn_password c)) eqn:E.
  - unfold on_conn. cbn [cs_conn cs_env].
    destruct (Hsend (set_session None None (cn_validity c1) c1) e1 (log ++ s1)) as (s2 & r2 & c2 & e2 & -> & Hs2 & HP2).
    change (settings (set_session None None (cn_validity c1) c1)) with (settings c1) in Hs2.
    change (cn_closed (set_session None None (cn_validity c1) c1)) with (cn_closed c1) in HP2.
    rewrite (closed_settings _ _ Hs1), Ec in HP2. destruct HP2 as [Ha2 Hf2].
    apply (attempt_settings c) in Ha2; [|by rewrite <- Hs1].
    change (request_kwargs (set_session None None (cn_validity c1) c1)) with (request_kwargs c1) in Ha2.
    rewrite (kwargs_settings _ _ Hs1) in Ha2.
    assert (health_follows c (s1 ++ s2) c2) as Hff by (eapply follows_app; [by apply password_settings|done|done]).
    destruct r2 as [response2|err]; unfold raise_err; rewrite <- app_assoc.
    + exists (s1 ++ s2), (read_response binary response2), c2, e2. split; [done|]. split; [by rewrite Hs2|]. split; [|done].
      exists s1, (Ok response). split; [done|]. rewrite E. by exists s2, (Ok response2).
    + exists (s1 ++ s2), (Err err), c2, e2. split; [done|]. split; [by rewrite Hs2|]. split; [|done].
      exists s1, (Ok response). split; [done|]. rewrite E. by exists s2, (Err err).
  - cbn. unfold raise_err. exists s1, (read_response binary response), c1, e1. split; [done|]. split; [done|]. split; [|done].
    exists s1, (Ok response). split; [done|]. by rewrite E.
Qed.

(** ** Sequences of operations *)

Definition follows_silently (c : PiHole6Connection) (sent : list exchange) (c' : PiHole6Connection) : Prop :=
  health_follows c sent c' ∧ (cn_closed c = true → sent = []).

Lemma traced_request_follows method endpoint params data files binary :
  traced (request method endpoint params data files binary) (λ c sent _ c', follows_silently c sent c').
Proof.
  eapply traced_impl; [apply traced_request|]. intros c sent r c' _ [Hspec Hf]. split; [done|].
  unfold request_spec in Hspec. intros Ec. rewrite Ec in Hspec. by destruct Hspec.
Qed.

Lemma traced_upload endpoint path data : traced (upload endpoint path data) (λ c sent _ c', follows_silently c sent c').
Proof.
  intros c e log. unfold upload, mbind, prog_bind, on_env. cbn. destruct (open_file path e) as [[handle|text] e1]; cbn.
  - unfold finally, post. set (files := Some (_, handle, _)). set (body := JObject _). fold exchange.
    destruct (traced_request_follows "POST" endpoint None body files false c e1 log)
      as (sent & r & c' & e' & -> & Hs & HP).
    by exists sent, r, c', (close_file handle e').
  - exists [], (Err (PhOther text)), c, e1. by rewrite app_nil_r.
Qed.

Lemma traced_close_session :
  traced close_session (λ c sent _ c', follows_silently c sent c' ∧ has_session c' = false).
Proof.
  intros c e log. unfold close_session, mbind at 1, prog_bind, get_conn, prog_read. cbn. destruct (has_session c) eqn:E; cbn.
  - unfold finally, mbind, prog_bind, delete_.
    destruct (traced_request_follows "DELETE" "auth" None JNull None false c e log) as (sent & r & c' & e' & -> & Hs & HP).
    exists sent, (match r with Ok _ => Ok tt | Err err => Err err end), (set_session None None None c'), e'.
    split; [by destruct r|]. split; [done|]. split; [|done]. exact HP.
  - exists [], (Ok tt), c, e. rewrite app_nil_r. done.
Qed.

Lemma traced_perform op : op ≠ Close → traced (perform base op) (λ c sent _ c', follows_silently c sent c').
Proof.
  intros Hop. destruct op as [method endpoint params data files binary|endpoint path data| |]; [..|done]; simpl;
    (eapply traced_impl; [apply traced_ignoring; (apply traced_request_follows || apply traced_upload || apply traced_close_session)|]).
  - by intros c sent r c' _ (_ & _ & HP).
  - by intros c sent r c' _ (_ & _ & HP).
  - by intros c sent r c' _ (_ & _ & HP & _).
Qed.

(** Closing logs out and keeps what the health knew. *)
Definition closes (c : PiHole6Connection) (sent : list exchange) (c' : PiHole6Connection) : Prop :=
  ∃ c1, follows_silently c sent c1 ∧ has_session c1 = false ∧ settings c1 = settings c ∧
        ∃ now, c' = set_health (closed_health now (cn_health c1)) (set_closed c1).

Lemma close_sends c e log :
  ∃ sent c' e', close (CState c (e, log)) = (Ok tt, CState c' (e', log ++ sent)) ∧
    if cn_closed c then sent = [] ∧ c' = c else closes c sent c'.
Proof.
  unfold close, mbind, prog_bind, get_conn, prog_read. cbn. destruct (cn_closed c); cbn.
  { exists [], c, e. by rewrite app_nil_r. }
  unfold ignoring. destruct (traced_close_session c e log) as (sent & r & c1 & e1 & -> & Hs & HP & Hno). cbn.
  destruct (unix_time (session_close e1)) as [now e2] eqn:Et.
  eexists sent, _, e2. split; [reflexivity|]. exists c1. split_and!; [done..|]. by exists now.
Qed.

(** The health says what the exchanges so far amount to. *)
Definition health_agrees (c : PiHole6Connection) (log : list exchange) : Prop :=
  let known := summary (history (cn_password c) log) in
  if cn_closed c then hl_state (cn_health c) = CLOSED ∧
    (hl_consecutive_failures (cn_health c), hl_status_code (cn_health c), hl_last_error (cn_health c)) = (known.1.1.2, known.1.2, known.2)
  else health_view (cn_health c) = known.

Lemma follows_agrees c log sent c' :
  settings c' = settings c → cn_closed c = false → health_agrees c log → health_follows c sent c' →
  health_view (cn_health c') = summary (history (cn_password c') (log ++ sent)).
Proof.
  intros Hs Ec. unfold health_agrees, health_follows. rewrite Ec, (password_settings _ _ Hs). intros -> ->.
  rewrite <- !summary_steps. by rewrite history_app, foldl_app.
Qed.

Lemma follows_nothing c c' : health_follows c [] c' → health_view (cn_health c') = health_view (cn_health c).
Proof. done. Qed.

Lemma closed_agrees c log c' :
  settings c' = settings c → cn_closed c = true → health_agrees c log → health_follows c [] c' → health_agrees c' log.
Proof.
  intros Hs Ec. unfold health_agrees. rewrite (closed_settings _ _ Hs), Ec, (password_settings _ _ Hs).
  intros [H1 H2] [= E1 E2 E3 E4]%follows_nothing. by rewrite E1, E2, E3, E4.
Qed.

Lemma closes_agrees c log sent c' : cn_closed c = false → health_agrees c log → closes c sent c' → health_agrees c' (log ++ sent).
Proof.
  intros Ec Ha (c1 & [Hf _] & _ & Hs & now & ->).
  pose proof (follows_agrees _ _ _ _ Hs Ec Ha Hf) as Hv. unfold health_agrees. cbn.
  split; [done|]. unfold health_view in Hv. cbn in Hv. by rewrite <- Hv.
Qed.

(** One operation: what it sends is added to the log, the health keeps agreeing,
    only [Close] closes, and a closed connection sends nothing. *)
Lemma perform_step op c e log :
  health_agrees c log →
  ∃ sent c' e', perform base op (CState c (e, log)) = (Ok tt, CState c' (e', log ++ sent)) ∧
    health_agrees c' (log ++ sent) ∧ cn_password c' = cn_password c ∧
    cn_closed c' = cn_closed c || is_close op ∧ (cn_closed c = true → sent = []).
Proof.
  intros Ha. destruct (is_close op) eqn:Eop.
  - destruct op; [done..|]. cbn [perform].
    destruct (close_sends c e log) as (sent & c' & e' & E & Hc). exists sent, c', e'. split; [done|].
    destruct (cn_closed c) eqn:Ec.
    + destruct Hc as [-> ->]. rewrite app_nil_r. by rewrite Ec.
    + split; [by eapply closes_agrees|]. destruct Hc as (c1 & _ & _ & Hs & now & ->).
      split_and!; [exact (password_settings _ _ Hs)|done|done].
  - destruct (traced_perform op ltac:(by intros ->) c e log) as (sent & r & c' & e' & E & Hs & Hf & Hq).
    assert (r = Ok tt) as ->.
    { destruct op; [..|done]; cbn in E; unfold ignoring in E; by injection E as <- _. }
    exists sent, c', e'. split; [done|]. rewrite orb_false_r.
    split_and!; [|by apply password_settings|by apply closed_settings|done].
    destruct (cn_closed c) eqn:Ec.
    + rewrite (Hq eq_refl) in *. rewrite app_nil_r. by eapply closed_agrees.
    + unfold health_agrees. rewrite (closed_settings _ _ Hs), Ec. by eapply follows_agrees.
Qed.

Lemma perform_all_steps ops : ∀ c e log,
  health_agrees c log →
  ∃ sent c' e', perform_all base ops (CState c (e, log)) = (Ok tt, CState c' (e', log ++ sent)) ∧
    health_agrees c' (log ++ sent) ∧ cn_password c' = cn_password c ∧
    cn_closed c' = cn_closed c || existsb is_close ops ∧ (cn_closed c = true → sent = []).
Proof.
  induction ops as [|op ops IH]; intros c e log Ha; cbn [perform_all existsb].
  { exists [], c, e. by rewrite app_nil_r, orb_false_r. }
  destruct (perform_step op c e log Ha) as (s1 & c1 & e1 & E1 & Ha1 & Hp1 & Hc1 & Hq1).
  destruct (IH c1 e1 (log ++ s1) Ha1) as (s2 & c2 & e2 & E2 & Ha2 & Hp2 & Hc2 & Hq2).
  unfold mbind, prog_bind. rewrite E1, E2, <- app_assoc. exists (s1 ++ s2), c2, e2. rewrite <- app_assoc in Ha2.
  split_and!; [done|done|congruence|by rewrite Hc2, Hc1, orb_assoc|]. intros Ec. rewrite Hq1, Hq2; [done| |done].
  by rewrite Hc1, Ec.
Qed.

Lemma new_connection_ok netloc_ok text_repr url password ca tls timeout retries c :
  new_connection netloc_ok text_repr url password ca tls timeout retries = Ok c →
  cn_closed c = false ∧ cn_health c = ConnectionHealth_default ∧ cn_password c = password ∧ cn_session_id c = None.
Proof.
  unfold new_connection, mbind, result_bind. destruct (normalize_api_url _ _ _) as [b|]; [|done].
  destruct tls as [|[]|path]; try done; cbn; [by intros [= <-]..|].
  destruct (str_nonempty (str_strip path)); [|by intros [= <-]]. destruct (str_nonempty (str_strip ca)); [|by intros [= <-]].
  destruct (String.eqb _ _); [by intros [= <-]|done].
Qed.
End Traces.

(** A request that returns ends with an answer to its own call, and the
    connection is online. *)
Lemma returned_request `{PyRepr} method endpoint params data files binary c c' sent v :
  request_spec (asked_call c method endpoint params data files) binary c sent (Ok v) → health_follows c sent c' →
  ∃ before headers response, sent = before ++ [(asked_call c method endpoint params data files headers, Ok response)] ∧
    read_response binary response = Ok v ∧ is_success (rs_status response) = true ∧ hl_state (cn_health c') = ONLINE.
Proof.
  intros Hspec Hf. unfold request_spec in Hspec. destruct (cn_closed c); [by destruct Hspec|].
  set (call := asked_call c method endpoint params data files) in *.
  assert (∀ s early last response, attempt c s call last (Ok response) → sent = early ++ last → read_response binary response = Ok v →
    ∃ before headers response, sent = before ++ [(call headers, Ok response)] ∧ read_response binary response = Ok v ∧
      is_success (rs_status response) = true ∧ hl_state (cn_health c') = ONLINE) as Hend.
  { intros s early last response (logins & _ & [(_ & err & [=])|(headers & outcome & -> & Ha & Ho)])%attempt_shape -> Hr.
    destruct outcome as [response'|err]; cbn in Ho; [injection Ho as <-|by destruct (failure_verdict _ _) as [[[? ?] ?]|]].
    assert (is_success (rs_status response) = true) as Hsucc.
    { unfold read_response in Hr. by destruct (is_success (rs_status response)). }
    exists (early ++ logins), headers, response. rewrite app_assoc. split_and!; [done..|].
    unfold health_follows in Hf. rewrite app_assoc, history_app, foldl_app, history_one, (payload_events c headers (call headers)) in Hf by done.
    unfold outcome_event in Hf. cbn [snd] in Hf. rewrite Hsucc in Hf. cbn in Hf. unfold health_view in Hf. by injection Hf. }
  destruct Hspec as (first & a & Ha & Hrest). destruct a as [response|err]; [|by destruct Hrest].
  destruct (_ && _).
  - destruct Hrest as (second & a2 & Ha2 & -> & Hr). destruct a2 as [response2|]; [|done]. by apply (Hend no_session first second response2).
  - destruct Hrest as [-> Hr]. by apply (Hend (held c) [] first response).
Qed.

(** * Theorems *)

Section Theorems.
Context `{PyRepr} {env : Type} (base : HttpSession env).
Context (netloc_ok : string → bool) (text_repr : string → string).
#[local] Existing Instance wire_session.

(** C35: whatever the server answers, an open connection sends what was asked
    and nothing else: an attempt is, exactly when a password is set and no
    session is held, a login with the password in its body, whose refusal is the
    answer, and then the call, with the session held, or the one this login
    gave, in its headers; exactly when a password is set and the first call was
    answered 401 there is a second attempt, without the old session, so that it
    logs in again; the result is read from the last answer.  A closed connection
    sends nothing. *)
Theorem requests_are_sent_as_asked method endpoint params data files binary c e log :
  let result := request method endpoint params data files binary (CState c (e, log)) in
  ∃ sent c' e', result.2 = CState c' (e', log ++ sent) ∧ settings c' = settings c ∧
    if cn_closed c then sent = [] ∧ result.1 = closed_error
    else
      let call := asked_call c method endpoint params data files in
      ∃ first answer, attempt c (held c) call first answer ∧
        match answer with
        | Err err => sent = first ∧ result.1 = Err err
        | Ok response =>
            if (rs_status response =? 401) && str_nonempty (cn_password c)
            then ∃ second answer, attempt c no_session call second answer ∧ sent = first ++ second ∧
                   result.1 = match answer with Ok response => read_response binary response | Err err => Err err end
            else sent = first ∧ result.1 = read_response binary response
        end.
Proof.
  destruct (traced_request base method endpoint params data files binary c e log) as (sent & r & c' & e' & -> & Hs & Hspec & _).
  by exists sent, c', e'.
Qed.

(** C36: over any sequence of operations on a new connection the health is what
    the exchanges on the wire amount to: the state, status and error of the last
    event and the number of failures at the end, a refused login counting as an
    event of its own; closing only changes the state to closed. *)
Theorem health_tells_the_history url password ca tls timeout retries c e ops :
  new_connection netloc_ok text_repr url password ca tls timeout retries = Ok c →
  let s := (perform_all base ops (CState c (e, []))).2 in
  let h := cn_health (cs_conn s) in
  let known := summary (history password (cs_env s).2) in
  (hl_consecutive_failures h, hl_status_code h, hl_last_error h) = (known.1.1.2, known.1.2, known.2) ∧
  hl_state h = if existsb is_close ops then CLOSED else known.1.1.1.
Proof.
  intros (Hc & Hh & Hp & _)%new_connection_ok.
  destruct (perform_all_steps base ops c e []) as (sent & c' & e' & -> & Ha & Hp' & Hc' & _).
  { unfold health_agrees. by rewrite Hc, Hh. }
  cbn. unfold health_agrees in Ha. rewrite Hc', Hc, Hp', Hp in Ha. cbn in Ha.
  destruct (existsb is_close ops); [by destruct Ha|]. unfold health_view in Ha. by rewrite <- Ha.
Qed.

Lemma perform_ok op s : (perform base op s).1 = Ok tt.
Proof. destruct op; [done..|]. destruct s as [c [e log]]. cbn [perform]. by destruct (close_sends base c e log) as (? & ? & ? & -> & _). Qed.

Lemma perform_all_app l1 : ∀ l2 s, perform_all base (l1 ++ l2) s = perform_all base l2 (perform_all base l1 s).2.
Proof.
  induction l1 as [|op l1 IH]; intros l2 s; [done|]. cbn [app perform_all]. unfold mbind, prog_bind.
  pose proof (perform_ok op s) as Hok. destruct (perform base op s) as [r s1]. cbn in Hok. subst r. apply IH.
Qed.

(** Once closed, a connection never sends again and stays closed, whatever
    is asked of it. *)
Theorem closed_connections_are_silent c e log before after :
  health_agrees c log →
  let s := (perform_all base (before ++ Close :: after) (CState c (e, log))).2 in
  (cs_env s).2 = (cs_env (perform_all base (before ++ [Close]) (CState c (e, log))).2).2 ∧
  cn_closed (cs_conn s) = true.
Proof.
  intros Ha. rewrite (cons_middle Close before after), app_assoc, (perform_all_app (before ++ [Close])).
  destruct (perform_all_steps base (before ++ [Close]) c e log Ha) as (s1 & c1 & e1 & -> & Ha1 & _ & Hc1 & _).
  rewrite existsb_app in Hc1. cbn [existsb is_close orb] in Hc1. rewrite !orb_true_r in Hc1. cbn [snd cs_env].
  destruct (perform_all_steps base after c1 e1 (log ++ s1) Ha1) as (s2 & c2 & e2 & -> & _ & _ & Hc2 & Hq).
  cbn [snd cs_env cs_conn]. rewrite Hq, app_nil_r by done. by rewrite Hc2, Hc1.
Qed.
End Theorems.

(** ** Normal addresses *)

Lemma rev_app_acc s acc : str_rev_app s acc = str_rev s +:+ acc.
Proof.
  unfold str_rev. revert acc. induction s as [|c s IH]; intros acc; [done|]. cbn [str_rev_app].
  rewrite IH, (IH (String c EmptyString)), app_assoc_str. done.
Qed.
Lemma rev_app_str a b : str_rev (a +:+ b) = str_rev b +:+ str_rev a.
Proof.
  induction a as [|c a IH]; [symmetry; apply app_nil_str|].
  change (String c a +:+ b) with (String c (a +:+ b)). unfold str_rev. cbn [str_rev_app]. rewrite !(rev_app_acc _ (String c _)), IH.
  by rewrite app_assoc_str.
Qed.
Lemma rev_rev_str s : str_rev (str_rev s) = s.
Proof.
  induction s as [|c s IH]; [done|]. unfold str_rev at 2. cbn [str_rev_app]. rewrite rev_app_acc, rev_app_str, IH. done.
Qed.

Lemma endswith_iff s t : str_endswith s t = true ↔ ∃ a, s = a +:+ t.
Proof.
  unfold str_endswith. change (str_startswith (str_rev s) (str_rev t) = true ↔ ∃ a, s = a +:+ t). rewrite startswith_iff. split.
  - intros [b Hb]. exists (str_rev b). by rewrite <- (rev_rev_str s), Hb, rev_app_str, rev_rev_str.
  - intros [a ->]. exists (str_rev a). apply rev_app_str.
Qed.

Lemma take_app_str a b : str_take (String.length a) (a +:+ b) = a.
Proof.
  induction a as [|c a IH]; [by destruct b|]. change (String c a +:+ b) with (String c (a +:+ b)). cbn [String.length str_take]. by rewrite IH.
Qed.
Lemma drop_suffix_app a t : drop_suffix t (a +:+ t) = a.
Proof. unfold drop_suffix. rewrite length_app_str. replace (_ + _ - _)%nat with (String.length a) by lia. apply take_app_str. Qed.

(** [api_base] ends in the path of the API; doing it again changes nothing. *)
Lemma api_base_form path : ∃ p, api_base path = p +:+ "/api/" ∧ (p = EmptyString ∨ ∃ t, rstrip_slash path = p +:+ t).
Proof.
  unfold api_base. set (q := if str_endswith (rstrip_slash path) "/admin/index.php" then _ else _).
  assert (∃ t, rstrip_slash path = q +:+ t) as [t Ht].
  { unfold q. destruct (str_endswith _ "/admin/index.php") eqn:E1; [|destruct (str_endswith _ "/admin") eqn:E2].
    - apply endswith_iff in E1 as [a ->]. rewrite drop_suffix_app. by eexists.
    - apply endswith_iff in E2 as [a ->]. rewrite drop_suffix_app. by eexists.
    - exists EmptyString. by rewrite app_nil_str. }
  destruct (str_endswith q "/api") eqn:E.
  - apply endswith_iff in E as [a Ha]. rewrite Ha in *. rewrite drop_suffix_app. destruct (str_nonempty a) eqn:En.
    + exists a. split; [done|]. right. exists ("/api" +:+ t). by rewrite Ht, app_assoc_str.
    + exists EmptyString. split; [done|by left].
  - destruct (str_nonempty q); [exists q; eauto|]. exists EmptyString. auto.
Qed.

Lemma rstrip_api p : rstrip_slash (p +:+ "/api/") = p +:+ "/api".
Proof.
  change ("/api/"%string) with ("/ap" +:+ String "i" "/")%string. rewrite <- app_assoc_str. unfold rstrip_slash.
  rewrite rstrip_keeps by done. cbn. by rewrite app_assoc_str.
Qed.

Lemma endswith_last a c b d : c ≠ d → str_endswith (a +:+ String c EmptyString) (b +:+ String d EmptyString) = false.
Proof.
  intros Hne. unfold str_endswith. rewrite !rev_app_str. 
  change (String.prefix (String d (str_rev b)) (String c (str_rev a)) = false). cbn [String.prefix].
  destruct (ascii_dec d c); [congruence|done].
Qed.

Lemma api_base_again p : api_base (p +:+ "/api/") = p +:+ "/api/".
Proof.
  unfold api_base. rewrite rstrip_api.
  assert (p +:+ "/api" = (p +:+ "/ap") +:+ "i")%string as Hi by (rewrite app_assoc_str; done).
  assert (str_endswith (p +:+ "/api") "/admin/index.php" = false) as ->.
  { rewrite Hi. by apply (endswith_last _ "i" "/admin/index.ph" "p"). }
  assert (str_endswith (p +:+ "/api") "/admin" = false) as ->.
  { rewrite Hi. by apply (endswith_last _ "i" "/admi" "n"). }
  assert (str_endswith (p +:+ "/api") "/api" = true) as -> by (apply endswith_iff; by exists p).
  rewrite drop_suffix_app. by destruct p.
Qed.

Definition no_break (c : Ascii.ascii) : bool := let n := Ascii.N_of_ascii c in negb ((n =? 9) || (n =? 10) || (n =? 13))%N.
Definition url_delimiter (c : Ascii.ascii) : bool := Ascii.eqb c "/"%char || Ascii.eqb c "?"%char || Ascii.eqb c "#"%char.
Definition starts_with_delimiter (s : string) : Prop := s = EmptyString ∨ ∃ c t, s = String c t ∧ url_delimiter c = true.

Lemma without_breaks_clean s : str_forallb no_break (without_breaks s) = true.
Proof.
  induction s as [|c s IH]; [done|]. cbn [without_breaks]. destruct (_ || _)%bool eqn:E; [done|]. cbn [str_forallb].
  unfold no_break. by rewrite E.
Qed.
Lemma without_breaks_id s : str_forallb no_break s = true → without_breaks s = s.
Proof.
  induction s as [|c s IH]; [done|]. cbn [str_forallb without_breaks]. intros [Hc Hs]%andb_true_iff. unfold no_break in Hc.
  apply negb_true_iff in Hc. by rewrite Hc, IH.
Qed.

Lemma split_netloc_spec s :
  s = (split_netloc s).1 +:+ (split_netloc s).2 ∧ str_forallb (λ c, negb (url_delimiter c)) (split_netloc s).1 = true ∧
  starts_with_delimiter (split_netloc s).2.
Proof.
  induction s as [|c s (IH1 & IH2 & IH3)]; [by split_and!; [..|left]|]. cbn [split_netloc]. fold (url_delimiter c).
  destruct (url_delimiter c) eqn:E; cbn [fst snd].
  - split_and!; [done..|]. right. eauto.
  - split_and!; [by rewrite IH1 at 1| |done]. cbn [str_forallb]. by rewrite E.
Qed.

Lemma split_netloc_app a b :
  str_forallb (λ c, negb (url_delimiter c)) a = true → starts_with_delimiter b → split_netloc (a +:+ b) = (a, b).
Proof.
  intros Ha Hb. induction a as [|c a IH].
  - change (EmptyString +:+ b) with b. destruct Hb as [->|(c & t & -> & Hc)]; [done|]. cbn [split_netloc]. fold (url_delimiter c). by rewrite Hc.
  - change (String c a +:+ b) with (String c (a +:+ b)). cbn [str_forallb] in Ha. apply andb_true_iff in Ha as [Hc Ha].
    cbn [split_netloc]. fold (url_delimiter c). apply negb_true_iff in Hc. by rewrite Hc, IH.
Qed.

Lemma str_cut_spec c s : ∃ b, s = (str_cut c s).1 +:+ b ∧ str_forallb (λ d, negb (Ascii.eqb d c)) (str_cut c s).1 = true ∧
  ∀ r, (str_cut c s).2 = Some r → b = String c r.
Proof.
  induction s as [|d s (b & IH1 & IH2 & IH3)]; [by exists EmptyString|]. cbn [str_cut]. destruct (Ascii.eqb d c) eqn:E; cbn [fst snd].
  - apply Ascii.eqb_eq in E as ->. exists (String c s). split_and!; [done..|]. by intros r [= ->].
  - exists b. split_and!; [by rewrite IH1 at 1| |done]. cbn [str_forallb]. by rewrite E.
Qed.
Lemma str_cut_none c s : str_forallb (λ d, negb (Ascii.eqb d c)) s = true → str_cut c s = (s, None).
Proof.
  induction s as [|d s IH]; [done|]. cbn [str_forallb str_cut]. intros [Hd%negb_true_iff Hs]%andb_true_iff. by rewrite Hd, IH.
Qed.

Lemma clean_part p a b : str_forallb p (a +:+ b) = true → str_forallb p a = true ∧ str_forallb p b = true.
Proof. rewrite str_forallb_app. apply andb_true_iff. Qed.

Lemma substring_whole s : String.substring 0 (String.length s) s = s.
Proof. induction s as [|c s IH]; [done|]. cbn. by rewrite IH. Qed.
Lemma after_slashes s : String.substring 2 (String.length ("//" +:+ s) - 2) ("//" +:+ s) = s.
Proof.
  change ("//" +:+ s) with (String "/" (String "/" s)). cbn [String.length String.substring].
  replace (S (S (String.length s)) - 2)%nat with (String.length s) by lia. apply substring_whole.
Qed.

Lemma split_scheme_part s : ∃ a, s = a +:+ (split_scheme s).2.
Proof.
  unfold split_scheme. destruct (str_cut_spec ":"%char s) as (b & Hs & _ & Hr). destruct (str_cut ":"%char s) as [a [r|]]; cbn [fst snd] in *.
  - destruct s as [|c s]; [by exists EmptyString|]. destruct (_ && _ && _); [|by exists EmptyString].
    exists (a +:+ ":"). rewrite app_assoc_str. cbn. by rewrite Hs, (Hr r eq_refl).
  - by exists EmptyString.
Qed.

(** What [urlsplit] leaves of an address with a host. *)
Lemma split_url_spec netloc_ok url scheme netloc rest :
  split_url netloc_ok url = Some (scheme, netloc, rest) → str_nonempty netloc = true →
  netloc_ok netloc = true ∧ str_forallb (λ c, negb (url_delimiter c)) netloc = true ∧ starts_with_delimiter rest ∧
  str_forallb no_break netloc = true ∧ str_forallb no_break rest = true.
Proof.
  unfold split_url. set (v := without_breaks _). pose proof (without_breaks_clean _ : str_forallb no_break v = true) as Hv.
  destruct (split_scheme_part v) as [a Ha]. destruct (split_scheme v) as [sch w]. cbn [snd] in Ha. rewrite Ha in Hv.
  apply clean_part in Hv as [_ Hw]. destruct (str_startswith w "//") eqn:Ew.
  - apply startswith_iff in Ew as [t ->]. rewrite after_slashes. apply clean_part in Hw as [_ Ht].
    destruct (split_netloc_spec t) as (H1 & H2 & H3). destruct (split_netloc t) as [n r]. cbn [fst snd] in *. subst t.
    apply clean_part in Ht as [Hn Hr]. destruct (netloc_ok n) eqn:En; [|done]. intros [= <- <- <-] _. done.
  - destruct (netloc_ok EmptyString); [|done]. by intros [= <- <- <-].
Qed.

Lemma url_path_spec rest :
  (∃ b, rest = url_path rest +:+ b) ∧ str_forallb (λ c, negb (Ascii.eqb c "?"%char)) (url_path rest) = true ∧
  str_forallb (λ c, negb (Ascii.eqb c "#"%char)) (url_path rest) = true.
Proof.
  unfold url_path. destruct (str_cut_spec "#"%char rest) as (b & Hb & Hh & _). set (s := (str_cut "#"%char rest).1) in *.
  destruct (str_cut_spec "?"%char s) as (b' & Hb' & Hq & _). set (t := (str_cut "?"%char s).1) in *. split_and!.
  - exists (b' +:+ b). by rewrite Hb, Hb' at 1; rewrite app_assoc_str.
  - done.
  - rewrite Hb' in Hh. by apply clean_part in Hh as [? _].
Qed.

(** The parts of a normal address, whatever it was made of. *)
Lemma normal_parts netloc_ok text_repr base_url url :
  normalize_api_url netloc_ok text_repr base_url = Ok url →
  ∃ scheme netloc p, url = scheme +:+ "://" +:+ netloc +:+ p +:+ "/api/" ∧ (scheme = "http"%string ∨ scheme = "https"%string) ∧
    netloc_ok netloc = true ∧ str_nonempty (netloc_host netloc) = true ∧ str_contains "@" netloc = false ∧
    str_forallb (λ c, negb (url_delimiter c)) netloc = true ∧ starts_with_delimiter (p +:+ "/api/") ∧
    str_forallb no_break (netloc +:+ p) = true ∧
    str_forallb (λ c, negb (Ascii.eqb c "?"%char)) p = true ∧ str_forallb (λ c, negb (Ascii.eqb c "#"%char)) p = true.
Proof.
  unfold normalize_api_url. destruct (str_nonempty _); [|done]. cbn [negb].
  set (value := if str_contains _ _ then _ else _). destruct (split_url netloc_ok value) as [[[scheme netloc] rest]|] eqn:Esplit; [|done].
  destruct (str_nonempty (netloc_host netloc)) eqn:Ehost; [|done]. cbn [negb].
  destruct (_ || _)%bool eqn:Escheme; [|done]. destruct (str_contains "@" netloc) eqn:Eat; [done|]. cbn [negb]. intros [= <-].
  assert (str_nonempty netloc = true) as Hne by by destruct netloc.
  destruct (split_url_spec _ _ _ _ _ Esplit Hne) as (Hok & Hdel & Hstart & Hb1 & Hb2).
  destruct (url_path_spec rest) as ([b Hrest] & Hq & Hh). destruct (api_base_form (url_path rest)) as (p & -> & Hp).
  exists scheme, netloc, p. split; [done|]. split.
  { by apply orb_true_iff in Escheme as [?%String.eqb_eq|?%String.eqb_eq]; [left|right]. }
  split_and!; [done..| | | |]; destruct Hp as [->|[t Ht]].
  1: right; by eexists _, _. 2: by rewrite app_nil_str. 3,5: done.
  all: destruct (rstrip_part (Ascii.eqb "/"%char) (url_path rest)) as [b' Hb'];
    change (rstrip (Ascii.eqb "/"%char) (url_path rest)) with (rstrip_slash (url_path rest)) in Hb'; rewrite Ht in Hb'; rewrite Hb' in *.
  - destruct p as [|c p]; [right; by eexists _, _|]. destruct Hstart as [->|(d & r & -> & Hd)]; [done|].
    injection Hrest as -> _. right. by eexists _, _.
  - rewrite Hrest in Hb2. rewrite !app_assoc_str in Hb2. apply clean_part in Hb2 as [Hb2 _]. by rewrite str_forallb_app, Hb1, Hb2.
  - rewrite app_assoc_str in Hq. by apply clean_part in Hq as [? _].
  - rewrite app_assoc_str in Hh. by apply clean_part in Hh as [? _].
Qed.

Lemma strip_url s p : (s = "http"%string ∨ s = "https"%string) → str_strip (s +:+ p +:+ "/api/") = s +:+ p +:+ "/api/".
Proof.
  intros Hs. unfold str_strip.
  assert (lstrip is_space (s +:+ p +:+ "/api/") = s +:+ p +:+ "/api/") as -> by (destruct Hs as [-> | ->]; done).
  change ("/api/"%string) with ("/api" +:+ String "/" EmptyString)%string. rewrite <- !app_assoc_str. by rewrite rstrip_keeps.
Qed.

Lemma split_normal netloc_ok s netloc api :
  (s = "http"%string ∨ s = "https"%string) → str_forallb no_break (netloc +:+ api) = true → netloc_ok netloc = true →
  str_forallb (λ c, negb (url_delimiter c)) netloc = true → starts_with_delimiter api →
  split_url netloc_ok (s +:+ "://" +:+ netloc +:+ api) = Some (s, netloc, api).
Proof.
  intros Hs Hb Hok Hd Hstart. unfold split_url.
  assert (without_breaks (lstrip control_or_space (s +:+ "://" +:+ netloc +:+ api)) = s +:+ "://" +:+ netloc +:+ api) as ->.
  { rewrite without_breaks_id; [by destruct Hs as [-> | ->]|]. destruct Hs as [-> | ->]; exact Hb. }
  assert (split_scheme (s +:+ "://" +:+ netloc +:+ api) = (s, "//" +:+ netloc +:+ api)) as -> by (destruct Hs as [-> | ->]; done).
  assert (str_startswith ("//" +:+ netloc +:+ api) "//" = true) as -> by (apply startswith_iff; by eexists).
  rewrite after_slashes, split_netloc_app by done. by rewrite Hok.
Qed.

(** A normalized address is its own normal form: an http or https address
    that ends in the path of the API, whose network location passed the checks
    and holds no credentials. *)
Theorem normalized_addresses_are_normal netloc_ok text_repr base_url url :
  normalize_api_url netloc_ok text_repr base_url = Ok url →
  normalize_api_url netloc_ok text_repr url = Ok url ∧
  ∃ scheme netloc path, url = scheme +:+ "://" +:+ netloc +:+ path +:+ "/api/" ∧ (scheme = "http"%string ∨ scheme = "https"%string) ∧
    netloc_ok netloc = true ∧ str_contains "@" netloc = false ∧ str_contains "/" netloc = false.
Proof.
  intros (s & netloc & p & -> & Hs & Hok & Hhost & Hat & Hd & Hstart & Hb & Hq & Hh)%normal_parts. split.
  - unfold normalize_api_url.
    assert (s +:+ "://" +:+ netloc +:+ p +:+ "/api/" = s +:+ ("://" +:+ netloc +:+ p) +:+ "/api/") as E by by rewrite !app_assoc_str.
    rewrite E, strip_url, <- E by done.
    assert (str_nonempty (s +:+ "://" +:+ netloc +:+ p +:+ "/api/") = true) as -> by by destruct Hs as [-> | ->].
    assert (str_contains "://" (s +:+ "://" +:+ netloc +:+ p +:+ "/api/") = true) as -> by (apply str_contains_iff; by eexists _, _).
    cbn [negb]. rewrite split_normal; [|done| |done..].
    2:{ rewrite <- app_assoc_str, str_forallb_app, Hb. done. }
    rewrite Hhost, Hat. assert (String.eqb s "http" || String.eqb s "https" = true)%bool as -> by by destruct Hs as [-> | ->].
    cbn [negb]. do 4 f_equal. rewrite <- (api_base_again p) at 2. f_equal. unfold url_path.
    rewrite (str_cut_none "#"%char) by by rewrite str_forallb_app, Hh. cbn [fst].
    by rewrite (str_cut_none "?"%char) by by rewrite str_forallb_app, Hq.
  - exists s, netloc, p. split_and!; [done..|]. destruct (str_contains "/" netloc) eqn:E; [|done].
    apply str_contains_iff in E as (a & b & ->). apply clean_part in Hd as [_ [Hd _]%clean_part]. done.
Qed.

(** * A scripted server

    The answers come from a list, and a call with a file reads what is left of
    the open file, as [requests] does. *)

Record script := Script {
  sc_answers : list (result transport_exn http_response);
  sc_time : Q;
  sc_open : string;
  sc_bodies : list string
}.
#[export] Instance ScriptedSession : HttpSession script := {|
  session_request _ call e :=
    let e := match hc_files call with
             | Some _ => Script (sc_answers e) (sc_time e) EmptyString (sc_bodies e ++ [sc_open e])
             | None => e
             end in
    match sc_answers e with
    | answer :: answers => (answer, Script answers (sc_time e) (sc_open e) (sc_bodies e))
    | [] => (Err (RaisedConnectionError "refused"), e)
    end;
  session_close e := e;
  unix_time e := (sc_time e, Script (sc_answers e) (sc_time e + 1) (sc_open e) (sc_bodies e));
  perf_counter e := (sc_time e, e);
  open_file _ e := (Ok 3, Script (sc_answers e) (sc_time e) "archive" (sc_bodies e));
  close_file _ e := Script (sc_answers e) (sc_time e) EmptyString (sc_bodies e);
  path_name p := p
|}.

#[local] Instance plain_repr : PyRepr := {| py_repr_of _ := EmptyString |}.

Definition answer (status : Z) (body : string) : result transport_exn http_response :=
  Ok (mkResponse status (if is_success status then "OK" else "Refused") (json_loads (quoted body)) (quoted body) (quoted body)).
Definition opened (sid : string) : result transport_exn http_response :=
  answer 200 ("{'session': {'valid': true, 'sid': '" +:+ sid +:+ "', 'csrf': 'c', 'validity': 1800}}")%string.

Definition ex_connection (password : string) : result pihole_exn PiHole6Connection :=
  new_connection (λ _, true) id "pi.hole/admin" password "" TlsDefault (Fin 10) 2.
Definition ex_run {A} (password : string) (m : prog (cstate (script * list exchange)) pihole_exn A)
    (answers : list (result transport_exn http_response)) : option (result pihole_exn A * cstate (script * list exchange)) :=
  match ex_connection password with
  | Ok c => Some (m (CState c (Script answers 100 EmptyString [], [])))
  | Err _ => None
  end.
Definition ex_sent (s : cstate (script * list exchange)) : list (string * string * list (string * string)) :=
  (λ x : exchange, (hc_method x.1, hc_url x.1, drop 1 (hc_headers x.1))) <$> (cs_env s).2.

#[local] Instance script_wire : HttpSession (script * list exchange) := logged_session ScriptedSession.

(** A login, a session that ends, a login anew, and the result. *)
Example an_expired_session_is_renewed :
  (λ x, (x.1, ex_sent x.2, hl_state (cn_health (cs_conn x.2)))) <$>
  ex_run "secret" (put "domains/allow/exact/a" (JObject []))
    [opened "s1"; answer 401 "{}"; opened "s2"; answer 200 "{'domains': []}"] =
  Some (Ok (VJson (JObject [("domains"%string, JArray [])])),
    [("POST", "http://pi.hole/api/auth", []);
     ("PUT", "http://pi.hole/api/domains/allow/exact/a", [("X-FTL-SID", "s1"); ("X-FTL-CSRF", "c")]);
     ("POST", "http://pi.hole/api/auth", []);
     ("PUT", "http://pi.hole/api/domains/allow/exact/a", [("X-FTL-SID", "s2"); ("X-FTL-CSRF", "c")])]%string, ONLINE).
Proof. vm_compute. reflexivity. Qed.

Example failures_are_counted :
  (λ x, (ex_sent x.2, health_view (cn_health (cs_conn x.2)), cn_validity (cs_conn x.2))) <$>
  ex_run "secret" (perform_all ScriptedSession [Request "get" "lists" None JNull None false; Request "get" "lists" None JNull None false])
    [answer 200 "{'session': {'valid': false, 'message': 'wrong'}}"; Err (RaisedTimeout "late")] =
  Some ([("POST", "http://pi.hole/api/auth", []); ("POST", "http://pi.hole/api/auth", [])]%string, (OFFLINE, 2, 0, "late"%string), None).
Proof. vm_compute. reflexivity. Qed.

(** When the session has ended, the file of an upload has been read by the first
    call; the second one, which the server accepts, sends none of it. *)
Example an_expired_session_empties_the_upload :
  (λ x, (sc_bodies (cs_env x.2).1, x.1)) <$>
  ex_run "secret" (upload "teleporter" "backup.tar.gz" None) [opened "s1"; answer 401 "{}"; opened "s2"; answer 200 "{'ok': true}"] =
  Some (["archive"; ""]%string, Ok (VJson (JObject [("ok"%string, JBool true)]))).
Proof. vm_compute. reflexivity. Qed.

(** ** Witnesses *)

Lemma normalized_addresses_are_normal_witness :
  normalize_api_url (λ _, true) id "HTTPS://pi.hole:8443/admin/" = Ok "https://pi.hole:8443/api/"%string ∧
  normalize_api_url (λ _, true) id "https://pi.hole:8443/api/" = Ok "https://pi.hole:8443/api/"%string.
Proof.
  assert (normalize_api_url (λ _, true) id "HTTPS://pi.hole:8443/admin/" = Ok "https://pi.hole:8443/api/"%string) as E
    by (vm_compute; reflexivity).
  split; [exact E|]. exact (proj1 (normalized_addresses_are_normal (λ _, true) id _ _ E)).
Defined.

Definition ex_ops : list operation := [Request "get" "lists" None JNull None false; CloseSession; Close; Request "get" "lists" None JNull None false].
Definition ex_script : script := Script [opened "s1"; answer 503 "{}"; answer 204 ""] 100 EmptyString [].

Lemma health_tells_the_history_witness :
  ∃ c, ex_connection "secret" = Ok c ∧
    let s := (perform_all ScriptedSession ex_ops (CState c (ex_script, []))).2 in
    (hl_consecutive_failures (cn_health (cs_conn s)), hl_status_code (cn_health (cs_conn s)), hl_last_error (cn_health (cs_conn s))) =
      (0, 204, EmptyString) ∧
    hl_state (cn_health (cs_conn s)) = CLOSED ∧
    summary (history "secret" (cs_env s).2) = (ONLINE, 0, 204, EmptyString).
Proof.
  destruct (ex_connection "secret") as [c|] eqn:E; [|vm_compute in E; discriminate]. exists c. split; [reflexivity|].
  pose proof (health_tells_the_history ScriptedSession (λ _, true) id "pi.hole/admin" "secret" "" TlsDefault (Fin 10) 2 c ex_script ex_ops E) as [H1 H2].
  vm_compute in E. injection E as <-.
  split; [exact (eq_trans H1 ltac:(vm_compute; reflexivity))|]. split; [exact (eq_trans H2 ltac:(vm_compute; reflexivity))|].
  vm_compute. reflexivity.
Defined.
