(* ===== verification/Api.v ===== *)
(** The calls of the Pi-hole API: [pihole6api/client.py] and its parts -
    [domain_management.py], [list_management.py], [group_management.py],
    [client_management.py], [metrics.py], [ftl_info.py], [network_info.py],
    [dns_control.py], [config.py], [dhcp.py] and [actions.py].

    Every method is one request of the connection ([Connection.v]).  A Python
    value that goes into a body is a JSON value; [None] is [JNull]. *)
From stdpp Require Import base gmap strings list pretty.
From Stdlib Require Import Ascii QArith.
From S2P Require Import Prelude HttpRetry Json JsonText Net Sources Connection.
Open Scope Z_scope.

(** [quote(value, safe="")] *)
Definition encode_path (value : string) : string := url_quote value.

(** An argument [str | list[str]], as the list that is sent. *)
Inductive one_or_many := One (value : string) | Many (values : list string).
Definition as_list (v : one_or_many) : json :=
  JArray (JString <$> match v with One value => [value] | Many values => values end).

Definition text_or_null (s : option string) : json := match s with Some s => JString s | None => JNull end.
(** [groups or []] *)
Definition group_list (groups : option (list Z)) : json := JArray (JInt <$> default [] groups).
(** [str(flag).lower()] *)
Definition flag_text (b : bool) : json := JString (if b then "true" else "false").

(** [{key: value for ... if value is not None}] *)
Definition known_params (params : list (string * option json)) : list (string * json) :=
  omap (λ p, (λ v, (p.1, v)) <$> p.2) params.
(** [{key: value} if value is not None else None] *)
Definition optional_param (key : string) (value : option Z) : option (list (string * json)) :=
  (λ v, [(key, JInt v)]) <$> value.

Section Api.
Context `{PyRepr} {env : Type} `{HttpSession env}.
Abbreviation cprog := (prog (cstate env) pihole_exn).

Definition need_list (what : string) (v : json) (k : list json → cprog api_value) : cprog api_value :=
  match v with JArray items => k items | _ => prog_raise (PhType (what +:+ " must be a list")%string) end.

Definition simple_get (endpoint : string) : cprog api_value := get endpoint None false.
Definition get_with (endpoint : string) (params : list (string * json)) : cprog api_value := get endpoint (Some params) false.

(** * Domains: [PiHole6DomainManagement] *)

Definition _validate (domain_type kind : string) : cprog unit :=
  if negb (bool_decide (domain_type ∈ ["allow"; "deny"]%string)) then prog_raise (PhValue "domain_type must be 'allow' or 'deny'")
  else if negb (bool_decide (kind ∈ ["exact"; "regex"]%string)) then prog_raise (PhValue "kind must be 'exact' or 'regex'")
  else mret tt.

Definition domains_endpoint (domain_type kind : string) : string := ("domains/" +:+ domain_type +:+ "/" +:+ kind)%string.
Definition domain_endpoint (domain_type kind domain : string) : string :=
  (domains_endpoint domain_type kind +:+ "/" +:+ encode_path domain)%string.

Definition batch_delete_domains (domains : json) : cprog api_value :=
  need_list "domains" domains (λ items, post "domains:batchDelete" (JArray items) None).

Definition add_domain (domain : one_or_many) (domain_type kind : string) (comment : option string) (groups : option (list Z))
    (enabled : bool) : cprog api_value :=
  _validate domain_type kind;;
  post (domains_endpoint domain_type kind)
    (JObject [("domain", as_list domain); ("comment", text_or_null comment); ("groups", group_list groups);
              ("enabled", JBool enabled)]%string) None.

Definition get_domain (domain domain_type kind : string) : cprog api_value :=
  _validate domain_type kind;; simple_get (domain_endpoint domain_type kind domain).

Definition get_domains (domain_type kind : option string) : cprog api_value :=
  match domain_type, kind with
  | None, _ => simple_get "domains"
  | Some _, None => prog_raise (PhValue "kind is required when domain_type is specified")
  | Some domain_type, Some kind => _validate domain_type kind;; simple_get (domains_endpoint domain_type kind)
  end.

Definition text_or (s : option string) (otherwise : string) : string :=
  match s with Some s => str_or s otherwise | None => otherwise end.

Definition update_domain (domain domain_type kind : string) (new_type new_kind comment : option string)
    (groups : option (list Z)) (enabled : bool) : cprog api_value :=
  _validate domain_type kind;;
  let target_type := text_or new_type domain_type in
  let target_kind := text_or new_kind kind in
  _validate target_type target_kind;;
  put (domain_endpoint domain_type kind domain)
    (JObject [("type", JString target_type); ("kind", JString target_kind); ("comment", text_or_null comment);
              ("groups", group_list groups); ("enabled", JBool enabled)]%string).

Definition delete_domain (domain domain_type kind : string) : cprog api_value :=
  _validate domain_type kind;; delete_ (domain_endpoint domain_type kind domain) None JNull.

Definition get_all_domains : cprog (api_value * api_value) :=
  allow ← get_domains (Some "allow"%string) (Some "exact"%string);
  deny ← get_domains (Some "deny"%string) (Some "exact"%string);
  mret (allow, deny).

(** * Lists: [PiHole6ListManagement] *)

Definition _validate_list_type (list_type : string) : cprog unit :=
  if negb (bool_decide (list_type ∈ ["allow"; "block"]%string)) then prog_raise (PhValue "list_type must be 'allow' or 'block'")
  else mret tt.

Definition list_endpoint (address : string) : string := ("lists/" +:+ encode_path address)%string.
Definition type_param (list_type : string) : list (string * json) := [("type"%string, JString list_type)].

Definition add_list (address : one_or_many) (list_type : string) (comment : option string) (groups : option (list Z))
    (enabled : bool) : cprog api_value :=
  _validate_list_type list_type;;
  post "lists" (JObject [("address", as_list address); ("type", JString list_type); ("comment", text_or_null comment);
                         ("groups", group_list groups); ("enabled", JBool enabled)]%string) None.

Definition batch_delete_lists (lists : json) : cprog api_value :=
  need_list "lists" lists (λ items, post "lists:batchDelete" (JArray items) None).

Definition get_list (address list_type : string) : cprog api_value :=
  _validate_list_type list_type;; get_with (list_endpoint address) (type_param list_type).

Definition get_lists (list_type : option string) : cprog api_value :=
  match list_type with
  | Some list_type =>
      _validate_list_type list_type;; get "lists" (if str_nonempty list_type then Some (type_param list_type) else None) false
  | None => simple_get "lists"
  end.

Definition update_list (address list_type : string) (comment : option string) (groups : option (list Z)) (enabled : bool)
    : cprog api_value :=
  _validate_list_type list_type;;
  put (list_endpoint address)
    (JObject [("type", JString list_type); ("comment", text_or_null comment); ("groups", group_list groups);
              ("enabled", JBool enabled)]%string).

Definition delete_list (address list_type : string) : cprog api_value :=
  _validate_list_type list_type;; delete_ (list_endpoint address) (Some (type_param list_type)) JNull.

Definition search_list (domain : string) (num : option Z) (partial debug : bool) : cprog api_value :=
  get_with ("search/" +:+ encode_path domain)%string
    ([("partial", flag_text partial); ("debug", flag_text debug)]%string ++
     match num with Some n => [("N"%string, JInt (Z.max 1 n))] | None => [] end).

(** * Groups: [PiHole6GroupManagement] *)

Definition group_endpoint (name : string) : string := ("groups/" +:+ encode_path name)%string.

Definition add_group (name : one_or_many) (comment : option string) (enabled : bool) : cprog api_value :=
  post "groups" (JObject [("name", as_list name); ("comment", text_or_null comment); ("enabled", JBool enabled)]%string) None.

Definition batch_delete_groups (group_names : json) : cprog api_value :=
  need_list "group_names" group_names (λ items,
    post "groups:batchDelete" (JArray ((λ name, JObject [("item"%string, name)]) <$> items)) None).

Definition get_group (name : string) : cprog api_value := simple_get (group_endpoint name).
Definition get_groups : cprog api_value := simple_get "groups".

Definition update_group (name : string) (new_name comment : option string) (enabled : bool) : cprog api_value :=
  put (group_endpoint name)
    (JObject [("name", JString (text_or new_name name)); ("comment", text_or_null comment); ("enabled", JBool enabled)]%string).

Definition delete_group (name : string) : cprog api_value := delete_ (group_endpoint name) None JNull.

(** * Clients: [PiHole6ClientManagement] *)

Definition client_endpoint (client : string) : string := ("clients/" +:+ encode_path client)%string.

Definition add_client (client : one_or_many) (comment : option string) (groups : option (list Z)) : cprog api_value :=
  post "clients" (JObject [("client", as_list client); ("comment", text_or_null comment); ("groups", group_list groups)]%string) None.

Definition batch_delete_clients (clients : json) : cprog api_value :=
  need_list "clients" clients (λ items, post "clients:batchDelete" (JArray items) None).

Definition get_client_suggestions : cprog api_value := simple_get "clients/_suggestions".
Definition get_client (client : string) : cprog api_value := simple_get (client_endpoint client).
Definition get_clients : cprog api_value := simple_get "clients".

Definition update_client (client : string) (comment : option string) (groups : option (list Z)) : cprog api_value :=
  put (client_endpoint client) (JObject [("comment", text_or_null comment); ("groups", group_list groups)]%string).

Definition delete_client (client : string) : cprog api_value := delete_ (client_endpoint client) None JNull.

(** * Metrics: [PiHole6Metrics] *)

Definition float_param (f : option py_float) : option json := JFloat <$> f.
Definition text_param (s : option string) : option json := JString <$> s.
Definition span_params (start until_ : Z) : list (string * json) := [("from", JInt start); ("until", JInt until_)]%string.

Definition get_history : cprog api_value := simple_get "history".
Definition get_history_clients (clients : Z) : cprog api_value := get_with "history/clients" [("N"%string, JInt (Z.max 0 clients))].
Definition get_history_database (start until_ : Z) : cprog api_value := get_with "history/database" (span_params start until_).
Definition get_history_database_clients (start until_ : Z) : cprog api_value :=
  get_with "history/database/clients" (span_params start until_).

Definition get_queries (length : Z) (from_ts until_ts : option py_float) (upstream domain client cursor : option string)
    : cprog api_value :=
  get_with "queries"
    (known_params [("length", Some (JInt (Z.max 1 length))); ("from", float_param from_ts); ("until", float_param until_ts);
                   ("upstream", text_param upstream); ("domain", text_param domain); ("client", text_param client);
                   ("cursor", text_param cursor)]%string).

Definition get_query_suggestions : cprog api_value := simple_get "queries/suggestions".
Definition get_stats_database_query_types (start until_ : Z) : cprog api_value :=
  get_with "stats/database/query_types" (span_params start until_).
Definition get_stats_database_summary (start until_ : Z) : cprog api_value :=
  get_with "stats/database/summary" (span_params start until_).

Definition blocked_param (blocked : option bool) : option json := flag_text <$> blocked.
Definition count_param (count : option Z) : option json := JInt <$> count.

Definition _database_top (resource : string) (start until_ : Z) (blocked : option bool) (count : option Z) : cprog api_value :=
  get_with ("stats/database/top_" +:+ resource)%string
    (known_params [("from", Some (JInt start)); ("until", Some (JInt until_)); ("blocked", blocked_param blocked);
                   ("count", count_param count)]%string).
Definition get_stats_database_top_clients (start until_ : Z) (blocked : option bool) (count : option Z) : cprog api_value :=
  _database_top "clients" start until_ blocked count.
Definition get_stats_database_top_domains (start until_ : Z) (blocked : option bool) (count : option Z) : cprog api_value :=
  _database_top "domains" start until_ blocked count.

Definition get_stats_database_upstreams (start until_ : Z) : cprog api_value :=
  get_with "stats/database/upstreams" (span_params start until_).
Definition get_stats_query_types : cprog api_value := simple_get "stats/query_types".
Definition get_stats_recent_blocked (count : option Z) : cprog api_value :=
  get "stats/recent_blocked" (optional_param "count" count) false.
Definition get_stats_summary : cprog api_value := simple_get "stats/summary".

Definition _top (resource : string) (blocked : option bool) (count : option Z) : cprog api_value :=
  get_with ("stats/top_" +:+ resource)%string
    (known_params [("blocked", blocked_param blocked); ("count", count_param count)]%string).
Definition get_stats_top_clients (blocked : option bool) (count : option Z) : cprog api_value := _top "clients" blocked count.
Definition get_stats_top_domains (blocked : option bool) (count : option Z) : cprog api_value := _top "domains" blocked count.
Definition get_stats_upstreams : cprog api_value := simple_get "stats/upstreams".

(** * The server: [PiHole6FtlInfo] *)

Definition get_endpoints : cprog api_value := simple_get "endpoints".
Definition get_client_info : cprog api_value := simple_get "info/client".
Definition get_database_info : cprog api_value := simple_get "info/database".
Definition get_ftl_info : cprog api_value := simple_get "info/ftl".
Definition get_host_info : cprog api_value := simple_get "info/host".
Definition get_login_info : cprog api_value := simple_get "info/login".
Definition get_diagnosis_messages : cprog api_value := simple_get "info/messages".

(** An argument [str | int], and [str] of it. *)
Inductive text_or_int := IdText (s : string) | IdInt (z : Z).
Definition id_text (i : text_or_int) : string := match i with IdText s => s | IdInt z => pretty z end.

Definition delete_diagnosis_message (message_id : text_or_int) : cprog api_value :=
  delete_ ("info/messages/" +:+ encode_path (id_text message_id))%string None JNull.
Definition get_diagnosis_message_count : cprog api_value := simple_get "info/messages/count".
Definition get_metrics_info : cprog api_value := simple_get "info/metrics".
Definition get_sensors_info : cprog api_value := simple_get "info/sensors".
Definition get_system_info : cprog api_value := simple_get "info/system".
Definition get_version : cprog api_value := simple_get "info/version".
Definition get_dnsmasq_logs (next_id : option Z) : cprog api_value := get "logs/dnsmasq" (optional_param "nextID" next_id) false.
Definition get_ftl_logs (next_id : option Z) : cprog api_value := get "logs/ftl" (optional_param "nextID" next_id) false.
Definition get_webserver_logs (next_id : option Z) : cprog api_value := get "logs/webserver" (optional_param "nextID" next_id) false.

(** * Network, DHCP, DNS and actions *)

(** [params or None] *)
Definition params_or_none (params : list (string * json)) : option (list (string * json)) :=
  match params with [] => None | _ => Some params end.
Definition detailed_param (detailed : bool) : list (string * json) := [("detailed"%string, flag_text detailed)].

Definition get_devices (max_devices max_addresses : option Z) : cprog api_value :=
  get "network/devices"
    (params_or_none (known_params [("max_devices", count_param max_devices); ("max_addresses", count_param max_addresses)]%string)) false.
Definition delete_device (device_id : text_or_int) : cprog api_value :=
  delete_ ("network/devices/" +:+ encode_path (id_text device_id))%string None JNull.
Definition get_gateway (detailed : bool) : cprog api_value := get_with "network/gateway" (detailed_param detailed).
Definition get_interfaces (detailed : bool) : cprog api_value := get_with "network/interfaces" (detailed_param detailed).
Definition get_routes (detailed : bool) : cprog api_value := get_with "network/routes" (detailed_param detailed).

Definition get_leases : cprog api_value := simple_get "dhcp/leases".
Definition remove_lease (ip : string) : cprog api_value := delete_ ("dhcp/leases/" +:+ encode_path ip)%string None JNull.

Definition get_blocking_status : cprog api_value := simple_get "dns/blocking".
Definition set_blocking_status (blocking : bool) (timer : option Z) : cprog api_value :=
  post "dns/blocking"
    (JObject ([("blocking"%string, JBool blocking)] ++
              match timer with Some t => [("timer"%string, JInt (Z.max 0 t))] | None => [] end)) None.

Definition flush_arp : cprog api_value := post "action/flush/arp" JNull None.
Definition flush_logs : cprog api_value := post "action/flush/logs" JNull None.
Definition run_gravity : cprog api_value := post "action/gravity" JNull None.
Definition restart_dns : cprog api_value := post "action/restartdns" JNull None.

(** * The configuration: [PiHole6Configuration] *)

Definition strip_slashes (s : string) : string := rstrip (Ascii.eqb "/"%char) (lstrip (Ascii.eqb "/"%char) s).
Definition config_endpoint (element : string) : string := ("config/" +:+ strip_slashes element)%string.
Definition config_item_endpoint (element value : string) : string :=
  (config_endpoint element +:+ "/" +:+ encode_path value)%string.

Definition export_settings : cprog api_value := get "teleporter" None true.
(** [float_repr] is [repr] of a float. *)
Definition import_settings (float_repr : Q → string) (file_path : string) (import_options : option (list (string * json)))
    : cprog api_value :=
  upload "teleporter" file_path
    (Some match import_options with
          | Some ((_ :: _) as options) => [("import"%string, JString (json_dumps float_repr default_style (JObject options)))]
          | _ => []
          end).
Definition get_config (detailed : bool) : cprog api_value := get_with "config" (detailed_param detailed).
Definition update_config (config_changes : list (string * json)) : cprog api_value :=
  patch "config" (JObject [("config"%string, JObject config_changes)]).
Definition get_config_section (element : string) (detailed : bool) : cprog api_value :=
  get_with (config_endpoint element) (detailed_param detailed).
Definition add_config_item (element value : string) : cprog api_value := put (config_item_endpoint element value) JNull.
Definition delete_config_item (element value : string) : cprog api_value :=
  delete_ (config_item_endpoint element value) None JNull.

Definition host_record (host ip : string) : string := (ip +:+ " " +:+ host)%string.
Definition cname_record (host target : string) (ttl : Z) : string := (host +:+ "," +:+ target +:+ "," +:+ pretty ttl)%string.

Definition add_local_a_record (host ip : string) : cprog api_value := add_config_item "dns/hosts" (host_record host ip).
Definition remove_local_a_record (host ip : string) : cprog api_value := delete_config_item "dns/hosts" (host_record host ip).
Definition add_local_cname (host target : string) (ttl : Z) : cprog api_value :=
  add_config_item "dns/cnameRecords" (cname_record host target ttl).
Definition remove_local_cname (host target : string) (ttl : Z) : cprog api_value :=
  delete_config_item "dns/cnameRecords" (cname_record host target ttl).

(** * The client *)

Definition get_padd_summary (full : bool) : cprog api_value := get_with "padd" [("full"%string, flag_text full)].
End Api.

(** [PiHole6Client.__init__]: the application's password goes before the other. *)
Definition new_client (netloc_ok : string → bool) (text_repr : string → string) (base_url password : string)
    (app_password : option string) (ca_bundle_path : string) (verify_tls : tls_setting) (timeout : py_float) (max_retries : Z)
    : result pihole_exn PiHole6Connection :=
  new_connection netloc_ok text_repr base_url (default password app_password) ca_bundle_path verify_tls timeout max_retries.

(** * Addresses of resources *)

(** A resource that has an address of its own; a list is told from the list of
    the other type with the same address by a parameter. *)
Inductive resource :=
  | DomainRule (domain_type kind domain : string)
  | ListEntry (address list_type : string)
  | GroupEntry (name : string)
  | ClientEntry (client : string)
  | Lease (ip : string).

Definition resource_ok (r : resource) : bool :=
  match r with
  | DomainRule domain_type kind _ => bool_decide (domain_type ∈ ["allow"; "deny"]%string) && bool_decide (kind ∈ ["exact"; "regex"]%string)
  | ListEntry _ list_type => bool_decide (list_type ∈ ["allow"; "block"]%string)
  | _ => true
  end.

Definition resource_endpoint (r : resource) : string :=
  match r with
  | DomainRule domain_type kind domain => domain_endpoint domain_type kind domain
  | ListEntry address _ => list_endpoint address
  | GroupEntry name => group_endpoint name
  | ClientEntry client => client_endpoint client
  | Lease ip => ("dhcp/leases/" +:+ encode_path ip)%string
  end.
Definition resource_params (r : resource) : option (list (string * json)) :=
  match r with ListEntry _ list_type => Some (type_param list_type) | _ => None end.

Section Remove.
Context `{PyRepr} {env : Type} `{HttpSession env}.
Definition remove (r : resource) : prog (cstate env) pihole_exn api_value :=
  match r with
  | DomainRule domain_type kind domain => delete_domain domain domain_type kind
  | ListEntry address list_type => delete_list address list_type
  | GroupEntry name => delete_group name
  | ClientEntry client => delete_client client
  | Lease ip => remove_lease ip
  end.

Lemma remove_sends r : resource_ok r = true → ∀ s, remove r s = delete_ (resource_endpoint r) (resource_params r) JNull s.
Proof.
  destruct r as [t k d|a t|n|c|i]; cbn [resource_ok]; [|intros Ht|done..].
  - intros [Ht Hk]%andb_true_iff s. unfold remove, delete_domain, _validate, mbind, prog_bind. by rewrite Ht, Hk.
  - intros s. unfold remove, delete_list, _validate_list_type, mbind, prog_bind. by rewrite Ht.
Qed.

(** A resource of an unknown type is refused before anything is sent. *)
Lemma remove_refuses r s : resource_ok r = false → ∃ text, remove r s = (Err (PhValue text), s).
Proof.
  destruct r as [t k d|a t|n|c|i]; cbn [resource_ok]; [|intros Ht|done..].
  - intros E%andb_false_iff. unfold remove, delete_domain, _validate, mbind, prog_bind.
    destruct (bool_decide (t ∈ _)); [|by eexists]. destruct E as [E|E]; [done|]. rewrite E. by eexists.
  - unfold remove, delete_list, _validate_list_type, mbind, prog_bind. rewrite Ht. by eexists.
Qed.
End Remove.

(** ** Path segments *)

Lemma quoted_byte c t :
  percent_decode 0 (String "%" (String (upper_hex (Ascii.N_of_ascii c / 16)) (String (upper_hex (Ascii.N_of_ascii c mod 16)) t))) =
  String c (percent_decode 0 t).
Proof. destruct c as [[] [] [] [] [] [] [] []]; reflexivity. Qed.

Lemma plain_byte c t : unreserved c = true → percent_decode 0 (String c t) = String c (percent_decode 0 t).
Proof.
  intros Hc. assert (Ascii.eqb c "%" = false) as E by (destruct (Ascii.eqb_spec c "%"); [by subst|done]).
  cbn [percent_decode]. rewrite E. by destruct t as [|a [|b t]].
Qed.

Lemma decode_encoded v : percent_decode 0 (encode_path v) = v.
Proof.
  unfold encode_path, url_quote. induction v as [|c v IH]; [done|]. cbn [quote_with].
  destruct (unreserved c) eqn:E; [|destruct (Ascii.eqb_spec c " ")].
  - change (String c EmptyString +:+ quote_with "%20" v) with (String c (quote_with "%20" v)). by rewrite plain_byte, IH.
  - subst c. change ("%20" +:+ quote_with "%20" v) with (String "%" (String "2" (String "0" (quote_with "%20" v)))).
    exact (eq_trans (quoted_byte " " _) (f_equal _ IH)).
  - rewrite <- IH at 2. apply quoted_byte.
Qed.

#[export] Instance encode_path_inj : Inj (=) (=) encode_path.
Proof. intros a b E. by rewrite <- (decode_encoded a), E, decode_encoded. Qed.

Lemma encoded_is_one_segment v : str_forallb (λ c, negb (url_delimiter c)) (encode_path v) = true.
Proof.
  unfold encode_path, url_quote. induction v as [|c v IH]; [done|]. cbn [quote_with]. rewrite str_forallb_app, IH, andb_true_r.
  destruct (unreserved c) eqn:E; [|destruct (Ascii.eqb c " "); [done|]].
  - cbn [str_forallb]. rewrite andb_true_r. destruct c as [[] [] [] [] [] [] [] []]; done.
  - clear. destruct c as [[] [] [] [] [] [] [] []]; reflexivity.
Qed.

Lemma app_inj_str a b c : a +:+ b = a +:+ c → b = c.
Proof. induction a as [|x a IH]; [done|]. intros E. apply IH. by injection E. Qed.

Lemma resource_endpoint_inj r1 r2 :
  resource_ok r1 = true → resource_ok r2 = true → resource_endpoint r1 = resource_endpoint r2 → resource_params r1 = resource_params r2 → r1 = r2.
Proof.
  assert (∀ t, t ∈ ["allow"; "deny"]%string → t = "allow"%string ∨ t = "deny"%string) as Ht by set_solver.
  assert (∀ t, t ∈ ["exact"; "regex"]%string → t = "exact"%string ∨ t = "regex"%string) as Hk by set_solver.
  destruct r1 as [t k d|a t|n|c|i], r2 as [t' k' d'|a' t'|n'|c'|i']; cbn [resource_ok resource_endpoint resource_params];
    try (intros _ _ E; discriminate E).
  - intros [Ht1%bool_decide_eq_true Hk1%bool_decide_eq_true]%andb_true_iff [Ht2%bool_decide_eq_true Hk2%bool_decide_eq_true]%andb_true_iff.
    unfold domain_endpoint, domains_endpoint. rewrite !app_assoc_str.
    destruct (Ht _ Ht1) as [-> | ->], (Hk _ Hk1) as [-> | ->], (Ht _ Ht2) as [-> | ->], (Hk _ Hk2) as [-> | ->]; intros E _;
      try discriminate E; apply app_inj_str, app_inj_str, app_inj_str, app_inj_str, app_inj_str in E; by apply (inj encode_path) in E as ->.
  - intros _ _ E [= <-]. apply (app_inj_str "lists/"), (inj encode_path) in E. by subst.
  - intros _ _ E _. apply (app_inj_str "groups/"), (inj encode_path) in E. by subst.
  - intros _ _ E _. apply (app_inj_str "clients/"), (inj encode_path) in E. by subst.
  - intros _ _ E _. apply (app_inj_str "dhcp/leases/"), (inj encode_path) in E. by subst.
Qed.

(** The collection a resource is in, and its name there. *)
Definition collection (r : resource) : string :=
  match r with
  | DomainRule domain_type kind _ => ("domains/" +:+ domain_type +:+ "/" +:+ kind +:+ "/")%string
  | ListEntry _ _ => "lists/"
  | GroupEntry _ => "groups/"
  | ClientEntry _ => "clients/"
  | Lease _ => "dhcp/leases/"
  end.
Definition resource_name (r : resource) : string :=
  match r with DomainRule _ _ name | ListEntry name _ | GroupEntry name | ClientEntry name | Lease name => name end.

(** A text that is one segment of a path and stands for a name. *)
Definition segment_for (name segment : string) : Prop :=
  str_forallb (λ c, negb (url_delimiter c)) segment = true ∧ percent_decode 0 segment = name.

Lemma endpoint_segment r : ∃ segment, resource_endpoint r = (collection r +:+ segment)%string ∧ segment_for (resource_name r) segment.
Proof.
  exists (encode_path (resource_name r)). split; [|split; [apply encoded_is_one_segment|apply decode_encoded]].
  destruct r; try done. cbn [resource_endpoint collection resource_name]. unfold domain_endpoint, domains_endpoint.
  by rewrite !app_assoc_str.
Qed.

Lemma attempt_calls `{PyRepr} c s call sent a (x : exchange) :
  attempt c s call sent a → x ∈ sent → x.1 = login_call c ∨ ∃ headers, x.1 = call headers.
Proof.
  intros (logins & Hl & [(-> & _)|(headers & o & -> & _)])%attempt_shape Hx.
  - left. by apply Hl.
  - apply elem_of_app in Hx as [Hx| ->%list_elem_of_singleton]; [left; by apply Hl|right; by exists headers].
Qed.

Lemma request_calls `{PyRepr} call binary c sent r (x : exchange) :
  request_spec call binary c sent r → x ∈ sent → x.1 = login_call c ∨ ∃ headers, x.1 = call headers.
Proof.
  unfold request_spec. destruct (cn_closed c); [intros [-> _] Hx; by apply elem_of_nil in Hx|].
  intros (first & a & Ha & Hrest) Hx. destruct a as [response|err].
  - destruct (_ && _); [destruct Hrest as (second & a2 & Ha2 & -> & _)|destruct Hrest as [-> _]; eauto using attempt_calls].
    apply elem_of_app in Hx as [Hx|Hx]; eauto using attempt_calls.
  - destruct Hrest as [-> _]. eauto using attempt_calls.
Qed.

Lemma endpoint_no_slash c r : _url c (resource_endpoint r) = cn_base_url c +:+ resource_endpoint r.
Proof. by destruct r. Qed.
Lemma call_endpoint c r : (cn_base_url c +:+ lstrip_slash (resource_endpoint r))%string = (cn_base_url c +:+ resource_endpoint r)%string.
Proof. apply endpoint_no_slash. Qed.

Section Theorems.
Context `{PyRepr} {env : Type} (base : HttpSession env).
#[local] Existing Instance wire_session.

(** C39: removing a resource, whatever it is called, asks the HTTP session only
    for logins and for deletions of its own address, one of which was accepted
    when the removal returns, and no other resource has that address: after the address of its collection comes one segment of a
    path, without a slash, a question mark or a number sign, from which the
    percent-decoding of a server reads back exactly the name.  (The resource is
    of a type the client knows; what a session makes of a segment of one or two
    dots is not modelled.) *)
Theorem removing_touches_one_resource r c e log :
  resource_ok r = true →
  ∃ sent c' e', (remove r (CState c (e, log))).2 = CState c' (e', log ++ sent) ∧
    (∀ v, (remove r (CState c (e, log))).1 = Ok v → ∃ call response, (call, Ok response) ∈ sent ∧
       hc_method call = "DELETE"%string ∧ is_success (rs_status response) = true) ∧
    ∀ x, x ∈ sent → x.1 = login_call c ∨
      hc_method x.1 = "DELETE"%string ∧ hc_params x.1 = resource_params r ∧
      (∃ segment, hc_url x.1 = (cn_base_url c +:+ collection r +:+ segment)%string ∧ segment_for (resource_name r) segment) ∧
      ∀ r', resource_ok r' = true → _url c (resource_endpoint r') = hc_url x.1 → resource_params r' = hc_params x.1 → r' = r.
Proof.
  intros Hok. rewrite remove_sends by done.
  destruct (traced_request base "DELETE" (resource_endpoint r) (resource_params r) JNull None false c e log)
    as (sent & r1 & c' & e' & E & _ & Hspec & Hf).
  unfold delete_. rewrite E. exists sent, c', e'. split; [done|]. split.
  { cbn [fst]. intros v ->. destruct (returned_request _ _ _ _ _ _ _ _ _ _ Hspec Hf) as (before & headers & response & -> & _ & Hs & _).
    eexists _, response. split; [apply elem_of_app; right; left|done]. }
  intros x Hx.
  destruct (request_calls _ _ _ _ _ _ Hspec Hx) as [?|[headers ->]]; [by left|right].
  split_and!; [done..| |].
  { destruct (endpoint_segment r) as (segment & Ee & Hseg). exists segment. split; [|done]. cbn.
    by rewrite call_endpoint, Ee. }
  intros r' Hok' Hu Hp. cbn in Hu, Hp. rewrite endpoint_no_slash, call_endpoint in Hu.
  by apply resource_endpoint_inj; [done..|eapply app_inj_str|].
Qed.
End Theorems.

(** ** Witness and examples *)

#[local] Instance plain_repr : PyRepr := {| py_repr_of _ := EmptyString |}.
#[local] Instance script_wire : HttpSession (script * list exchange) := logged_session ScriptedSession.

Definition ex_rule : resource := DomainRule "deny" "regex" "^ads?/#[0-9]\.example$".

Example a_rule_is_one_segment :
  resource_endpoint ex_rule = "domains/deny/regex/%5Eads%3F%2F%23%5B0-9%5D%5C.example%24"%string ∧
  (λ x, (x.1, ex_sent x.2)) <$> ex_run "" (remove ex_rule) [answer 204 ""] =
    Some (Ok (VJson (JObject [])), [("DELETE", "http://pi.hole/api/domains/deny/regex/%5Eads%3F%2F%23%5B0-9%5D%5C.example%24", [])]%string).
Proof. split; vm_compute; reflexivity. Qed.

Example bad_types_are_refused :
  (λ x, (x.1, ex_sent x.2)) <$> ex_run "" (add_domain (One "a.example") "block" "exact" None None true) [] =
    Some (Err (PhValue "domain_type must be 'allow' or 'deny'"), []).
Proof. vm_compute. reflexivity. Qed.

Lemma removing_touches_one_resource_witness :
  ∃ c, ex_connection "" = Ok c ∧ resource_ok ex_rule = true ∧
    ∃ sent c' e', (remove ex_rule (CState c (Script [answer 204 ""] 100 EmptyString [], []))).2 = CState c' (e', sent) ∧
      length sent = 1%nat ∧ ∀ x, x ∈ sent → ∃ segment,
        hc_url x.1 = ("http://pi.hole/api/domains/deny/regex/" +:+ segment)%string ∧ percent_decode 0 segment = "^ads?/#[0-9]\.example$"%string.
Proof.
  destruct (ex_connection "") as [c|] eqn:E; [|vm_compute in E; discriminate]. exists c. split; [done|]. split; [reflexivity|].
  destruct (removing_touches_one_resource ScriptedSession ex_rule c (Script [answer 204 ""] 100 EmptyString []) [] eq_refl)
    as (sent & c' & e' & Hr & _ & Hall).
  exists sent, c', e'. split; [exact Hr|]. vm_compute in E. injection E as <-. vm_compute in Hr. injection Hr as <- <- <-.
  split; [reflexivity|]. intros x Hx. destruct (Hall x Hx) as [Hl|(_ & _ & (segment & Hu & _ & Hn) & _)]; [|by exists segment].
  apply list_elem_of_singleton in Hx. subst x. vm_compute in Hl. discriminate.
Defined.
