(* ===== verification/Service.v ===== *)
(** [pihole_manager/pihole_service.py] and the readers of [pihole_rules.py]: the
    client the program shares, the test of a connection, and what the answers of
    the API are turned into - pages of queries, domains, groups and lists.

    The cache of the client is the state; its lock is held through every
    operation.  Changes with their journal are in [PiHole.v]. *)
From stdpp Require Import base gmap strings list pretty sorting.
From Stdlib Require Import Ascii QArith Sorted.
From S2P Require Import Prelude HttpRetry Json JsonText Net Models Options Connection Api.
Open Scope Z_scope.

#[export] Instance py_float_eq_dec : EqDecision py_float.
Proof. intros a b. unfold Decision. repeat decide equality. Defined.

(** * Reading answers *)

(** [a or b or ...]: the first true value, or the last one. *)
Definition first_true (values : list (option json)) (last : json) : json :=
  match omap (λ v, match v with Some v => if py_truthy v then Some v else None | None => None end) values with
  | v :: _ => v
  | [] => last
  end.

Definition row_objects (items : list json) : list (list (string * json)) :=
  omap (λ v, match v with JObject fields => Some fields | _ => None end) items.

Fixpoint first_collection (payload : list (string * json)) (keys : list string) : list (list (string * json)) :=
  match keys with
  | [] => []
  | key :: keys => match dict_get key payload with Some (JArray items) => row_objects items | _ => first_collection payload keys end
  end.

Definition extract_collection (payload : json) (keys : list string) : list (list (string * json)) :=
  match payload with
  | JArray items => row_objects items
  | JObject fields => first_collection fields keys
  | _ => []
  end.

(** [api_value] of a request that was not binary *)
Definition payload_of (v : api_value) : json := match v with VJson v => v | VBytes b => JString b end.

Section Reading.
Context `{PyRepr}.

(** [str(a or b or "")] *)
Definition first_text (values : list (option json)) : string := py_str (first_true values (JString EmptyString)).

Fixpoint version_of (version : list (string * json)) (keys : list string) : string :=
  match keys with
  | [] => EmptyString
  | key :: keys =>
      match dict_get key version with
      | Some (JObject item) =>
          let own := match dict_get "version" item with
                     | Some value => if py_truthy value then py_str value else version_of version keys
                     | None => version_of version keys
                     end in
          match dict_get "local" item with
          | Some (JObject local) =>
              match dict_get "version" local with Some value => if py_truthy value then py_str value else own | None => own end
          | _ => own
          end
      | Some item => if py_truthy item then py_str item else version_of version keys
      | None => version_of version keys
      end
  end.

Definition _extract_version (payload : json) : string :=
  match payload with
  | JObject payload =>
      match dict_get "version" payload with
      | Some (JString version) => version
      | Some (JObject version) => version_of version ["ftl"; "core"; "web"]%string
      | _ => EmptyString
      end
  | _ => EmptyString
  end.

(** ** Queries *)

Record query_item := mkQueryItem {
  qi_time : py_float;
  qi_client : string;
  qi_domain : string;
  qi_type : string;
  qi_status : string
}.

Record QueryPage := mkQueryPage { qp_rows : list query_item; qp_cursor : string; qp_total : option Z }.

(** [float(timestamp)], 0.0 where it raises [TypeError] or [ValueError] *)
Definition query_time (row : list (string * json)) : result pihole_exn py_float :=
  match py_float_of (first_true [dict_get "time" row; dict_get "timestamp" row; dict_get "ts" row] (JInt 0)) with
  | Ok f => Ok f
  | Err ConversionOverflowError => Err (PhConversion ConversionOverflowError)
  | Err _ => Ok (Fin 0)
  end.

Definition query_client (row : list (string * json)) : option json :=
  match dict_get "client" row with
  | Some (JObject client) => Some (first_true [dict_get "name" client] (default JNull (dict_get "ip" client)))
  | other => other
  end.

Definition query_item_of (row : list (string * json)) : result pihole_exn query_item :=
  time ← query_time row;
  Ok (mkQueryItem time
        (first_text [query_client row; dict_get "ip" row; dict_get "requester" row])
        (first_text [dict_get "domain" row; dict_get "name" row; dict_get "qname" row])
        (first_text [dict_get "type" row; dict_get "qtype" row])
        (first_text [dict_get "status" row; dict_get "answer" row; dict_get "result" row])).

Fixpoint query_items (rows : list (list (string * json))) : result pihole_exn (list query_item) :=
  match rows with
  | [] => Ok []
  | row :: rows => item ← query_item_of row; items ← query_items rows; Ok (item :: items)
  end.

Definition page_cursor (payload : list (string * json)) : string :=
  match first_true [dict_get "cursor" payload] (default JNull (dict_get "next_cursor" payload)) with
  | JObject cursor => first_text [dict_get "next" cursor; dict_get "forward" cursor; dict_get "cursor" cursor]
  | JNull => EmptyString
  | cursor => py_str cursor
  end.

(** [isinstance(value, int)] holds of a bool as well. *)
Fixpoint page_total (payload : list (string * json)) (keys : list string) : option Z :=
  match keys with
  | [] => None
  | key :: keys =>
      match dict_get key payload with
      | Some (JInt z) => Some z
      | Some (JBool b) => Some (if b then 1 else 0)
      | _ => page_total payload keys
      end
  end.

Definition read_query_page (payload : json) : result pihole_exn QueryPage :=
  items ← query_items (extract_collection payload ["queries"; "data"]%string);
  Ok match payload with
     | JObject fields => mkQueryPage items (page_cursor fields) (page_total fields ["total"; "recordsTotal"; "count"]%string)
     | _ => mkQueryPage items EmptyString None
     end.

(** ** Domains, lists and groups *)

Record rule_item := mkRuleItem {
  ri_value : string;
  ri_type : string;
  ri_comment : string;
  ri_enabled : bool;
  ri_groups : json;
  ri_date_added : json;
  ri_date_modified : json
}.

(** [bool(row.get("enabled", True))] *)
Definition enabled_flag (row : list (string * json)) : bool :=
  match dict_get "enabled" row with Some v => py_truthy v | None => true end.
Definition empty_text : json := JString EmptyString.
Definition raw_groups (row : list (string * json)) : json := first_true [dict_get "groups" row] (JArray []).
Definition row_dates (row : list (string * json)) : json * json :=
  (first_true [dict_get "date_added" row; dict_get "dateAdded" row] empty_text,
   first_true [dict_get "date_modified" row; dict_get "dateModified" row] empty_text).

Definition exact_domain_item (row : list (string * json)) : option rule_item :=
  let domain := first_true [dict_get "domain" row] (default JNull (dict_get "item" row)) in
  if negb (py_truthy domain) then None
  else Some (mkRuleItem (py_str domain) EmptyString (py_str_or (dict_get "comment" row) "") (enabled_flag row) (raw_groups row)
               (row_dates row).1 (row_dates row).2).

Definition list_address (row : list (string * json)) : json :=
  first_true [dict_get "address" row; dict_get "url" row] (default JNull (dict_get "item" row)).

Definition subscribed_list_item (list_type : option string) (row : list (string * json)) : option rule_item :=
  let address := list_address row in
  if negb (py_truthy address) then None
  else Some (mkRuleItem (py_str address) (first_text [dict_get "type" row; JString <$> list_type; Some (JString "block")])
               (py_str_or (dict_get "comment" row) "") (enabled_flag row) (raw_groups row) (row_dates row).1 (row_dates row).2).

Record group_item := mkGroupItem { gi_id : Z; gi_name : string; gi_comment : string; gi_enabled : bool }.

Definition known (v : option json) : option json := match v with Some JNull | None => None | Some v => Some v end.

(** [None]: the row is left out. *)
Definition group_item_of (row : list (string * json)) : result pihole_exn (option group_item) :=
  match known (dict_get "id" row), known (dict_get "name" row) with
  | Some group_id, Some name =>
      match py_int_of group_id with
      | Ok id => Ok (Some (mkGroupItem id (py_str name) (py_str_or (dict_get "comment" row) "") (enabled_flag row)))
      | Err ConversionOverflowError => Err (PhConversion ConversionOverflowError)
      | Err _ => Ok None
      end
  | _, _ => Ok None
  end.

Fixpoint group_items (rows : list (list (string * json))) : result pihole_exn (list group_item) :=
  match rows with
  | [] => Ok []
  | row :: rows =>
      item ← group_item_of row; items ← group_items rows;
      Ok (match item with Some item => item :: items | None => items end)
  end.

(** Sorted by the folded name, then by the id. *)
Definition group_leb : group_item → group_item → bool :=
  lex (λ a b, str_leb (str_casefold (gi_name a)) (str_casefold (gi_name b))) (λ a b, gi_id a <=? gi_id b).

Definition read_groups (payload : json) : result pihole_exn (list group_item) :=
  items ← group_items (extract_collection payload ["groups"; "data"]%string); Ok (sort_by group_leb items).

(** ** The readers of [pihole_rules.py] *)

(** [_normalize_groups(groups)]: the numbers of a list; a text is the list of
    its characters, a dict the list of its keys, and what cannot be iterated
    over raises [TypeError]. *)
Fixpoint characters (s : string) : list json :=
  match s with EmptyString => [] | String c s => JString (String c EmptyString) :: characters s end.

Fixpoint group_numbers (values : list json) : result pihole_exn (list Z) :=
  match values with
  | [] => Ok []
  | v :: values =>
      match py_int_of v with
      | Ok z => rest ← group_numbers values; Ok (z :: rest)
      | Err ConversionOverflowError => Err (PhConversion ConversionOverflowError)
      | Err _ => group_numbers values
      end
  end.

Definition group_values (groups : json) : result pihole_exn (list json) :=
  if negb (py_truthy groups) then Ok []
  else match groups with
       | JArray items => Ok items
       | JString s => Ok (characters s)
       | JObject fields => Ok (JString <$> (fields.*1))
       | _ => Err (PhType "object is not iterable")
       end.

Definition normalize_group_values (groups : json) : result pihole_exn (list Z) :=
  values ← group_values groups; numbers ← group_numbers values; Ok (sort_by Z.leb (fromkeys numbers)).

Record managed_item := mkManagedItem {
  mi_value : string; mi_type : string; mi_comment : string; mi_enabled : bool; mi_groups : list Z
}.

Definition managed_item_of (value : json) (type : string) (row : list (string * json)) : result pihole_exn managed_item :=
  groups ← normalize_group_values (default JNull (dict_get "groups" row));
  Ok (mkManagedItem (py_str value) type (py_str_or (dict_get "comment" row) "") (enabled_flag row) groups).

Definition regex_item (domain_type : string) (row : list (string * json)) : result pihole_exn (option managed_item) :=
  let domain := first_true [dict_get "domain" row] (default JNull (dict_get "item" row)) in
  if negb (py_truthy domain) then Ok None else item ← managed_item_of domain domain_type row; Ok (Some item).

Definition list_item (list_type : string) (row : list (string * json)) : result pihole_exn (option managed_item) :=
  let address := list_address row in
  if negb (py_truthy address) then Ok None
  else item ← managed_item_of address (first_text [dict_get "type" row; Some (JString list_type)]) row; Ok (Some item).

Fixpoint managed_items (item : list (string * json) → result pihole_exn (option managed_item)) (rows : list (list (string * json)))
    : result pihole_exn (list managed_item) :=
  match rows with
  | [] => Ok []
  | row :: rows =>
      first ← item row; rest ← managed_items item rows;
      Ok (match first with Some first => first :: rest | None => rest end)
  end.
End Reading.

(** * The shared client *)

(** [_signature(options)] *)
Definition signature : Type := string * string * string * py_float.
Definition _signature (o : PiHoleOptions) : signature :=
  (str_strip (ph_base_url o), ph_password o, str_strip (ph_ca_bundle_path o), ph_timeout_sec o).

(** [_CLIENT], [_CLIENT_SIGNATURE] and the world. *)
Record service (env : Type) := Service {
  sv_client : option PiHole6Connection;
  sv_signature : option signature;
  sv_env : env
}.
Arguments Service {env}.
Arguments sv_client {env}.
Arguments sv_signature {env}.
Arguments sv_env {env}.

Section Client.
Context `{PyRepr} {env : Type} `{HttpSession env}.
Context (netloc_ok : string → bool) (text_repr : string → string).
Abbreviation sprog := (prog (service env) pihole_exn).

(** An operation of the cached client; without one nothing is done. *)
Definition on_client {A} (m : prog (cstate env) pihole_exn A) : sprog A := λ s,
  match sv_client s with
  | Some c => let r := m (CState c (sv_env s)) in (r.1, Service (Some (cs_conn r.2)) (sv_signature s) (cs_env r.2))
  | None => (Err (PhOther "no client"), s)
  end.
Definition close_cached : sprog unit := λ s, match sv_client s with Some _ => on_client close s | None => (Ok tt, s) end.

Definition client_for (o : PiHoleOptions) : result pihole_exn PiHole6Connection :=
  new_client netloc_ok text_repr (ph_base_url o) (ph_password o) None (ph_ca_bundle_path o) TlsDefault (ph_timeout_sec o) 2.

(** [o] is the argument or what [load_options] gives. *)
Definition configure_client (o : PiHoleOptions) : sprog unit := λ s,
  if match sv_client s with Some _ => bool_decide (sv_signature s = Some (_signature o)) | None => false end
  then (Ok tt, s)
  else
    let s := (close_cached s).2 in
    match client_for o with
    | Ok c => (Ok tt, Service (Some c) (Some (_signature o)) (sv_env s))
    | Err e => (Err e, s)
    end.

Definition close_client : sprog unit := λ s, (Ok tt, Service None None (sv_env (close_cached s).2)).

Definition get_connection_health (s : service env) : ConnectionHealth :=
  match sv_client s with Some c => cn_health c | None => ConnectionHealth_default end.

(** [get_client()] with a call: the options are those on disk. *)
Definition ask {A} (o : PiHoleOptions) (m : prog (cstate env) pihole_exn A) : sprog A := configure_client o;; on_client m.

(** ** The test of a connection *)

Record ConnectionTestResult := mkTestResult {
  te_success : bool;
  te_request_url : string;
  te_elapsed_ms : Z;
  te_summary : string;
  te_version : string;
  te_state : string
}.

Definition on_service_env {A} (f : env → A * env) : sprog A :=
  λ s, let r := f (sv_env s) in (Ok r.1, Service (sv_client s) (sv_signature s) r.2).

(** The summary of a failure, by the state of the client. *)
Definition failure_summary (state : ConnectionState) (text : string) : string :=
  match state with
  | AUTH_ERROR => "Pi-hole is reachable, but authentication failed: " +:+ text
  | DEGRADED => "Pi-hole is reachable, but the API is temporarily unavailable: " +:+ text
  | OFFLINE => "Pi-hole is offline or unreachable: " +:+ text
  | TLS_ERROR => "Pi-hole TLS verification failed: " +:+ text
  | API_ERROR => "Pi-hole returned an API error: " +:+ text
  | INVALID_CONFIG => "Pi-hole configuration is invalid: " +:+ text
  | _ => text
  end.

(** [except ValueError] *)
Definition is_value_error (e : pihole_exn) : bool :=
  match e with PhValue _ | PhConversion ConversionValueError => true | _ => false end.

(** [client] tells whether the name was bound when the exception came. *)
Definition test_failed (url : string) (elapsed : Z) (client : bool) (e : pihole_exn) (s : service env) : ConnectionTestResult :=
  if is_value_error e
  then mkTestResult false url elapsed ("Pi-hole configuration is invalid: " +:+ exn_text e)%string EmptyString (state_text INVALID_CONFIG)
  else
    let state := if client then hl_state (get_connection_health s) else UNKNOWN in
    mkTestResult false url elapsed (failure_summary state (exn_text e)) EmptyString (state_text state).

Definition test_answered (url : string) (elapsed : Z) (payload : json) (s : service env) : ConnectionTestResult :=
  match payload with
  | JObject _ =>
      let version := _extract_version payload in
      mkTestResult true url elapsed
        (if str_nonempty version then "Pi-hole API responded successfully (" +:+ version +:+ ")" else "Pi-hole v6 API responded successfully")%string
        version (state_text (hl_state (get_connection_health s)))
  | _ => mkTestResult false url elapsed "Pi-hole returned an incompatible API response." EmptyString (state_text API_ERROR)
  end.

(** The elapsed time and the result built with it. *)
Definition report (started : Q) (f : Z → service env → ConnectionTestResult) : sprog ConnectionTestResult :=
  finished ← on_service_env perf_counter;
  prog_read (f (py_round ((finished - started) * zq 1000))).

Definition version_url (base : string) : string := (base +:+ "info/version")%string.

(** The [try] statement: what is raised is reported with the address known so
    far and the client if there is one. *)
Definition tested (o : PiHoleOptions) (started : Q) : sprog ConnectionTestResult := λ s,
  match normalize_api_url netloc_ok text_repr (ph_base_url o) with
  | Err e => report started (λ elapsed, test_failed (str_strip (ph_base_url o)) elapsed false e) s
  | Ok base =>
      match configure_client o s with
      | (Err e, s) => report started (λ elapsed, test_failed (version_url base) elapsed false e) s
      | (Ok _, s) =>
          match on_client get_version s with
          | (Err e, s) => report started (λ elapsed, test_failed (version_url base) elapsed true e) s
          | (Ok v, s) => report started (λ elapsed, test_answered (version_url base) elapsed (payload_of v)) s
          end
      end
  end.

Definition test_connection (o : PiHoleOptions) : sprog ConnectionTestResult :=
  started ← on_service_env perf_counter; tested o started.

(** ** What the program asks for *)

Definition read_answer {A} (r : result pihole_exn A) : sprog A := λ s, (r, s).
Definition reading {A} (o : PiHoleOptions) (m : prog (cstate env) pihole_exn api_value) (read : json → result pihole_exn A) : sprog A :=
  v ← ask o m; read_answer (read (payload_of v)).

Definition fetch_query_page (o : PiHoleOptions) (length : Z) (from_ts until_ts : option py_float)
    (domain client cursor : option string) : sprog QueryPage :=
  reading o (get_queries length from_ts until_ts None domain client cursor) read_query_page.

Definition fetch_queries (o : PiHoleOptions) (length : Z) (from_ts until_ts : option py_float) : sprog (list query_item) :=
  page ← fetch_query_page o length from_ts until_ts None None None; mret (qp_rows page).

Definition fetch_exact_domains (o : PiHoleOptions) (domain_type : string) : sprog (list rule_item) :=
  if negb (bool_decide (domain_type ∈ ["allow"; "deny"]%string)) then prog_raise (PhValue "domain_type must be 'allow' or 'deny'")
  else reading o (get_domains (Some domain_type) (Some "exact"%string))
         (λ payload, Ok (omap exact_domain_item (extract_collection payload ["domains"; domain_type; "data"]%string))).

Definition fetch_groups (o : PiHoleOptions) : sprog (list group_item) := reading o get_groups read_groups.

Definition fetch_subscribed_lists (o : PiHoleOptions) (list_type : option string) : sprog (list rule_item) :=
  if match list_type with Some t => negb (bool_decide (t ∈ ["allow"; "block"]%string)) | None => false end
  then prog_raise (PhValue "list_type must be 'allow', 'block', or None")
  else reading o (get_lists list_type)
         (λ payload, Ok (omap (subscribed_list_item list_type) (extract_collection payload ["lists"; "data"]%string))).

Definition _fetch_regex_domains_impl (o : PiHoleOptions) (domain_type : string) : sprog (list managed_item) :=
  reading o (get_domains (Some domain_type) (Some "regex"%string))
    (λ payload, managed_items (regex_item domain_type) (extract_collection payload ["domains"; domain_type; "data"]%string)).

Definition _fetch_subscribed_lists_impl (o : PiHoleOptions) (list_type : string) : sprog (list managed_item) :=
  reading o (get_lists (Some list_type))
    (λ payload, managed_items (list_item list_type) (extract_collection payload ["lists"; "data"]%string)).
End Client.

(** * What the cache keeps *)

Lemma address_stripped netloc_ok text_repr a b u :
  str_strip a = str_strip b → normalize_api_url netloc_ok text_repr a = Ok u → normalize_api_url netloc_ok text_repr b = Ok u.
Proof.
  unfold normalize_api_url. intros ->. destruct (str_nonempty _); [|done]. cbn [negb].
  destruct (split_url _ _) as [[[scheme netloc] rest]|]; [|done]. destruct (str_nonempty (netloc_host netloc)); [done|by intros [=]].
Qed.

Section Cache.
Context `{PyRepr} {env : Type} (base : HttpSession env).
Context (netloc_ok : string → bool) (text_repr : string → string).
#[local] Existing Instance wire_session.
Abbreviation client_for := (client_for netloc_ok text_repr).
Abbreviation configure_client := (configure_client netloc_ok text_repr).

(** Settings of one signature make the same connection. *)
Lemma same_signature o1 o2 c : _signature o1 = _signature o2 → client_for o1 = Ok c → client_for o2 = Ok c.
Proof.
  unfold Service.client_for, new_client, new_connection, mbind, result_bind. cbn.
  intros [= Hu Hp Hc Ht]. rewrite Hp, Hc, Ht.
  destruct (normalize_api_url _ _ (ph_base_url o1)) as [u|] eqn:E; [|done]. by rewrite (address_stripped _ _ _ _ _ Hu E).
Qed.

(** The cached client is open and is what the settings of its signature make. *)
Definition cache_ok (s : service (env * list exchange)) : Prop :=
  match sv_client s with
  | None => True
  | Some c => ∃ o c0, sv_signature s = Some (_signature o) ∧ client_for o = Ok c0 ∧ settings c = settings c0
  end.

Lemma configure_ok o c0 s :
  cache_ok s → client_for o = Ok c0 →
  ∃ c s', configure_client o s = (Ok tt, s') ∧ sv_client s' = Some c ∧ settings c = settings c0 ∧ cache_ok s'.
Proof.
  intros Hs Hc. unfold Service.configure_client, cache_ok in *. destruct (sv_client s) as [c|] eqn:Es.
  - destruct Hs as (o' & c' & Hsig & Hc' & Hset). destruct (bool_decide_reflect (sv_signature s = Some (_signature o))) as [Heq|_].
    + exists c, s. split_and!; [done..| |by rewrite Es; eauto 10].
      assert (_signature o' = _signature o) as E by congruence. rewrite (same_signature _ _ _ E Hc') in Hc. by injection Hc as <-.
    + rewrite Hc. eexists c0, _. split_and!; [done..|]. by exists o, c0.
  - rewrite Hc. eexists c0, _. split_and!; [done..|]. by exists o, c0.
Qed.

(** An operation other than closing keeps the settings of the client. *)
Lemma on_client_keeps {A} (m : prog (cstate (env * list exchange)) pihole_exn A) P s :
  traced m P → cache_ok s → cache_ok (on_client m s).2.
Proof.
  intros Hm. unfold on_client, cache_ok. destruct s as [[c|] sig [e log]]; cbn; [|by intros _].
  destruct (Hm c e log) as (sent & r & c' & e' & -> & Hset & _). cbn. by rewrite Hset.
Qed.

(** ** The operations of the program on its client *)

Inductive service_op :=
  | Configure (o : PiHoleOptions)
  | Use (o : PiHoleOptions) (op : operation)
  | Test (o : PiHoleOptions)
  | CloseClient.

Definition serve (op : service_op) (s : service (env * list exchange)) : service (env * list exchange) :=
  match op with
  | Configure o => (configure_client o s).2
  | Use o op => (ask netloc_ok text_repr o (perform base op) s).2
  | Test o => (test_connection netloc_ok text_repr o s).2
  | CloseClient => (close_client s).2
  end.

(** The settings are accepted, and the program closes a client only through the
    cache. *)
Definition op_ok (op : service_op) : Prop :=
  match op with
  | Configure o | Test o => ∃ c, client_for o = Ok c
  | Use o op => (∃ c, client_for o = Ok c) ∧ op ≠ Close
  | CloseClient => True
  end.

Lemma accepted_address o c : client_for o = Ok c → normalize_api_url netloc_ok text_repr (ph_base_url o) = Ok (cn_base_url c).
Proof.
  unfold Service.client_for, new_client, new_connection, mbind, result_bind. cbn.
  destruct (normalize_api_url _ _ _) as [u|]; [|done]. by intros [= <-].
Qed.

(** The client of settings whose address can be used. *)
Lemma client_of_address o url :
  normalize_api_url netloc_ok text_repr (ph_base_url o) = Ok url →
  ∃ c, client_for o = Ok c ∧
    settings c = (url, ph_password o, str_strip (ph_ca_bundle_path o), float_max (Fin 1) (ph_timeout_sec o), retry_policy 2, false).
Proof.
  intros Hu. unfold Service.client_for, new_client, new_connection, mbind, result_bind. rewrite Hu. cbn.
  eexists. split; [reflexivity|]. unfold settings. cbn. by destruct (str_strip _).
Qed.

Lemma report_keeps started f (s : service (env * list exchange)) : (report started f s).2 = Service (sv_client s) (sv_signature s) (sv_env (report started f s).2).
Proof. unfold report, mbind, prog_bind, on_service_env, prog_read. cbn. reflexivity. Qed.

Lemma cache_ok_env c sig e e' : cache_ok (Service c sig e) → cache_ok (Service c sig e').
Proof. done. Qed.

Lemma serve_ok op s : op_ok op → cache_ok s → cache_ok (serve op s).
Proof.
  destruct op as [o|o op|o|]; cbn [op_ok serve].
  - intros [c Hc] Hs. by destruct (configure_ok o c s Hs Hc) as (c' & s' & -> & _ & _ & Hs').
  - intros [[c Hc] Hop] Hs. unfold ask, mbind, prog_bind. destruct (configure_ok o c s Hs Hc) as (c' & s' & -> & _ & _ & Hs').
    eapply on_client_keeps; [by apply traced_perform|done].
  - intros [c Hc] Hs. unfold test_connection, tested, mbind, prog_bind. cbn [fst snd on_service_env].
    set (s0 := Service (sv_client s) (sv_signature s) _). assert (cache_ok s0) as Hs0 by by destruct s.
    rewrite (accepted_address _ _ Hc). destruct (configure_ok o c s0 Hs0 Hc) as (c' & s' & -> & _ & _ & Hs').
    pose proof (on_client_keeps get_version _ s' (traced_request base "GET" "info/version" None JNull None false) Hs') as Hs2.
    destruct (on_client get_version s') as [[v|err] s2]; cbn [snd] in Hs2; rewrite report_keeps; (apply (cache_ok_env _ _ (sv_env s2)); by destruct s2).
  - done.
Qed.

Lemma serve_all_ok ops : ∀ s, Forall op_ok ops → cache_ok s → cache_ok (foldl (λ s op, serve op s) s ops).
Proof.
  induction ops as [|op ops IH]; intros s Hops Hs; [done|]. apply Forall_cons in Hops as [Hop Hops]. cbn. by apply IH, serve_ok.
Qed.
End Cache.

(** * Theorems *)

Section Theorems.
Context `{PyRepr} {env : Type} (base : HttpSession env).
Context (netloc_ok : string → bool) (text_repr : string → string).
#[local] Existing Instance wire_session.

(** C37: after any operations of the program on its client, the client it gets
    for some settings is open, its address is the normal form of the address of
    these settings, its password theirs, its certificates the path they name
    without the white space around it, and its timeout theirs or a second, if
    they ask for less - as long as these settings and those it was given before
    have addresses that can be used, and nobody closes the client but the
    program's own [close_client]. *)
Theorem clients_follow_the_settings ops o url e :
  Forall (op_ok netloc_ok text_repr) ops → normalize_api_url netloc_ok text_repr (ph_base_url o) = Ok url →
  let s := foldl (λ s op, serve base netloc_ok text_repr op s) (Service None None (e, [])) ops in
  ∃ c s', configure_client netloc_ok text_repr o s = (Ok tt, s') ∧ sv_client s' = Some c ∧ cn_closed c = false ∧
    cn_base_url c = url ∧ cn_password c = ph_password o ∧ cn_ca_bundle_path c = str_strip (ph_ca_bundle_path o) ∧
    cn_timeout c = float_max (Fin 1) (ph_timeout_sec o).
Proof.
  intros Hops Hu s. assert (cache_ok netloc_ok text_repr s) as Hs by by apply serve_all_ok.
  destruct (client_of_address netloc_ok text_repr o url Hu) as (c0 & Hc & Hset0).
  destruct (configure_ok base netloc_ok text_repr o c0 s Hs Hc) as (c & s' & E & Es & Hset & _).
  exists c, s'. rewrite Hset0 in Hset. injection Hset as -> -> -> -> _ ->. by split_and!.
Qed.
End Theorems.


Section TestTheorems.
Context `{PyRepr} {env : Type} (base : HttpSession env).
Context (netloc_ok : string → bool) (text_repr : string → string).
#[local] Existing Instance wire_session.



End TestTheorems.

(** * Examples and witnesses *)

Definition shown (r : result pihole_exn ConnectionTestResult) : option (bool * string * string * string) :=
  match r with Ok r => Some (te_success r, te_request_url r, te_summary r, te_state r) | Err _ => None end.

#[local] Instance plain_repr : PyRepr := {| py_repr_of _ := EmptyString |}.
#[local] Instance script_wire : HttpSession (script * list exchange) := logged_session ScriptedSession.

Definition ex_options (url : string) : PiHoleOptions := mkPiHoleOptions url "secret" "" (Fin 10).
Definition ex_configure (url : string) : prog (service (script * list exchange)) pihole_exn unit :=
  configure_client (λ _, true) id (ex_options url).
Definition ex_service (answers : list (result transport_exn http_response)) : service (script * list exchange) :=
  Service None None (Script answers 100 EmptyString [], []).
Definition ex_test (url : string) : prog (service (script * list exchange)) pihole_exn ConnectionTestResult :=
  test_connection (λ _, true) id (ex_options url).

Definition ex_version : string := "{'version': {'ftl': {'local': {'version': 'v6.1'}}}}".

Example a_test_reports_the_version :
  shown (ex_test "pi.hole" (ex_service [opened "s1"; answer 200 ex_version])).1 =
  Some (true, "http://pi.hole/api/info/version", "Pi-hole API responded successfully (v6.1)", "online")%string.
Proof. vm_compute. reflexivity. Qed.

(** A refused address closes the client but leaves it in the cache, under its
    old signature: going back to the old settings gives the closed client, and
    no request is sent any more. *)
Example a_refused_address_kills_the_client :
  let s0 := ex_service [opened "s1"; answer 200 ex_version; answer 204 ""] in
  let s1 := (ex_test "pi.hole" s0).2 in
  let s2 := (ex_configure "ftp://pi.hole" s1).2 in
  let again := ex_test "pi.hole" s2 in
  ((ex_configure "ftp://pi.hole" s1).1 = Err (PhValue "Pi-hole base URL must use http or https")) ∧
  (shown again.1 = Some (false, "http://pi.hole/api/info/version", "Connection is already closed", "closed")%string) ∧
  (sv_env again.2).2 = (sv_env s2).2.
Proof. split; [|split]; vm_compute; reflexivity. Qed.

(** A login answered with something else than an object fails the test, and the
    state stays online. *)
Example a_failed_login_looks_online :
  shown (ex_test "pi.hole" (ex_service [answer 200 "[]"])).1 =
  Some (false, "http://pi.hole/api/info/version", "HTTP 200: Expected a JSON object", "online")%string.
Proof. vm_compute. reflexivity. Qed.

Example pages_are_read :
  let page := default JNull (json_loads (quoted (
    "{'queries': [{'time': 1.5, 'client': {'name': null, 'ip': '10.0.0.2'}, 'domain': 'a.example', 'type': 'A'}, 7, {'ts': 'x', 'qname': 'b'}], " +:+
    "'cursor': 0, 'next_cursor': {'forward': 12}, 'recordsTotal': true}"))) in
  read_query_page page = Ok (mkQueryPage [mkQueryItem (Fin (3 # 2)) "10.0.0.2" "a.example" "A" ""; mkQueryItem (Fin 0) "" "b" "" ""]
                               "12" (Some 1)).
Proof. vm_compute. reflexivity. Qed.

Example groups_are_sorted :
  read_groups (default JNull (json_loads (quoted "[{'id': '2', 'name': 'b'}, {'id': 1, 'name': 'B'}, {'id': null, 'name': 'x'}, {'id': 'q', 'name': 'a'}, {'id': 0, 'name': 'A', 'enabled': 0}]"))) =
  Ok [mkGroupItem 0 "A" "" false; mkGroupItem 1 "B" "" true; mkGroupItem 2 "b" "" true] ∧
  normalize_group_values (JArray [JInt 3; JString "1"; JNull; JFloat (Fin (7 # 2)); JString "x"]) = Ok [1; 3].
Proof. split; vm_compute; reflexivity. Qed.

Definition ex_service_ops : list service_op :=
  [Configure (ex_options "pi.hole"); Use (ex_options "pi.hole") (Request "get" "lists" None JNull None false); CloseClient;
   Configure (ex_options "other.hole")].

Lemma clients_follow_the_settings_witness :
  normalize_api_url (λ _, true) id "https://pi.hole/admin" = Ok "https://pi.hole/api/"%string ∧
  let s := foldl (λ s op, serve ScriptedSession (λ _, true) id op s)
             (Service None None (Script [opened "s1"; answer 200 "{}"] 100 EmptyString [], [])) ex_service_ops in
  ∃ c s', configure_client (λ _, true) id (ex_options "https://pi.hole/admin") s = (Ok tt, s') ∧ sv_client s' = Some c ∧
    cn_closed c = false ∧ cn_base_url c = "https://pi.hole/api/"%string ∧ cn_password c = "secret"%string ∧
    cn_ca_bundle_path c = EmptyString ∧ cn_timeout c = Fin 10.
Proof.
  split; [vm_compute; reflexivity|].
  apply (clients_follow_the_settings ScriptedSession (λ _, true) id ex_service_ops (ex_options "https://pi.hole/admin")
           "https://pi.hole/api/" (Script [opened "s1"; answer 200 "{}"] 100 EmptyString [])); [|vm_compute; reflexivity].
  repeat (apply Forall_cons; split); [..|apply Forall_nil]; try exact I; try (eexists; vm_compute; reflexivity).
  split; [eexists; vm_compute; reflexivity|discriminate].
Defined.

